(* ===== verification/_CoqProject ===== *)
-Q . S2P
Prelude.v
Alm.v
ALut.v
RingBuf.v
Pool.v
VirtioRing.v
Vringh.v
VirtqProto.v
BlkFrontend.v
KvecBuff.v
PlxDma.v
BlkMedia.v
BlkBackend.v
BlkLifecycle.v
Intr.v
BlkFrontCtl.v
BlkBackCtl.v
Lbp.v
VopXfer.v
VopRecv.v
DevPage.v
VopLife.v
VopCard.v
VopHost.v
