(* ===== verification/Prelude.v ===== *)
(** * Verification of the Intel VCA2 kernel modules

    The Intel VCA2 card carries several computers (nodes) behind PLX 87xx PCIe
    bridges.  The kernel modules under [src/modules/vca] let the host and the
    nodes reach each other's memory through the bridges and build a network
    and a block device on that.  This development models the parts that carry the
    logic of these modules and proves them correct.

    ** The program and its parts

    - A bridge translates addresses through a look-up table (A-LUT).  The
      segments of the table are handed out by a manager
      ([plx87xx/plx_alm.c]); the hardware layer ([plx87xx/plx_hw.c]) programs
      the table, scratchpads and doorbells; [plx87xx/plx_intr.c] hands the
      doorbells to callbacks.
    - The boot protocol ([plx87xx/plx_lbp.c]) leads the BIOS of a node through its
      boot, by means of the scratchpads and of images sent through the A-LUT.
    - The DMA engine of the bridge has a driver of its own
      ([plx87xx_dma/plx_dma.c]), which the transports use for copies.
    - Virtqueues connect drivers: the driver side ([vca_virtio/vca_virtio_ring.c])
      and the device side ([vca_virtio/vca_vringh.c]) share rings of descriptors.
    - The network transport offers the writable buffers of one side to the
      other through rings of its own ([vop/vop_kvec_buff.c]), takes used buffers
      back and completes them on the virtqueue; its threads move packets from the
      transmit queue into the buffers of the peer ([vop/vop_common.c]).
    - The devices of the transport are described in a page that host and node share
      ([common/vca_dev_common.h]).  The host enters a device when a program hands it in
      ([vop/vop_vringh.c]); the node scans the page, makes its device and later removes
      it ([vop/vop_main.c]); the common part of a device is started and stopped
      by a task, three threads and the caller of the stop ([vop_common.c]).
    - The block device has a frontend on the node ([blockio/vcablk]), which
      turns requests of the block layer into entries of a request ring, with
      contexts from a pool ([vcablk_pool.h]) and ring counters
      ([vcablk_common/vcablk.h]), and a backend on the host
      ([blockio/vcablk_bcknd]), which takes the entries, moves the data to or from
      a medium in memory or in a file, and answers.  Commands and their answers
      (create, run, stop, destroy) go through a page that both sides share.

    ** Files

    - [Prelude] (this file): machine integers, the outcome monad, arrays, error
      numbers, automation and shared lemmas.
    - [Alm]: [plx_alm.c].  The table is a list of entries ([plx_alm_arr_entry]);
      [wf] says that it is tiled by blocks.  [plx_alm_add_entry],
      [plx_alm_del_entry], [plx_alm_reset], [plx_alm_init] and the consistency
      check are the functions of that name.
    - [ALut]: the parts of [plx_hw.c] that program the A-LUT and the registers
      around it, up to [plx_hw_init].  Registers are reached through the class
      [Mmio]; [MmioStorage] says that a register keeps the last value written.
      The theorems are proved against these classes and against the lemmas that
      [Alm] exports.
    - [Intr]: [plx_intr.c]: the lists of callbacks, the interrupt handler and
      its thread.
    - [Lbp]: [plx_lbp.c], on top of [ALut].  The state is the device with the log
      of the host's writes and of the milliseconds it slept; the operations are
      in a state monad; the class [Card] is the node.
    - [RingBuf] and [Pool]: the counter macros and the context pool of the block
      driver; [Pool] refines a FIFO queue of identifiers.
    - [VirtioRing]: the driver side; the shared ring is the record [vring], the
      driver's own state [vring_virtqueue].
    - [Vringh]: the device side, for kernel and for user memory; accessors, range
      checks and the memory that holds indirect tables are parameters.
    - [VirtqProto]: both sides on one ring: the way of a buffer there and back, and
      the driver that goes to sleep while the device completes buffers.
    - [KvecBuff]: the peer buffer rings, on top of [Vringh].
    - [VopXfer]: the sending threads of [vop_common.c]: taking a buffer of the transmit
      queue, finding one of the peer, the copy by DMA, its callback.
    - [VopRecv]: the receiving part of [vop_kvec_buff.c]: offering published buffers,
      completing used ones, the layout and the life of the shared memory.
    - [DevPage]: the device page as bytes, with the functions that walk, fill and read
      its slots ([vca_dev_common.h], [vop_vringh.c], [vop_main.c]).
    - [VopLife]: the ring of buffers of a device and the machine of its task, its
      threads and the caller that stops it ([vop_common.c]).
    - [VopCard]: the side of the node ([vop_main.c]), against the class [VirtioBus].
    - [VopHost]: the side of the host ([vop_vringh.c]), from the ioctl to the page and
      back, against the class [HostBus]; at its end both sides on one page.
    - [PlxDma]: [plx_dma.c] and the functions of the transports that submit copies.
      The engine is the class [DmaHw], its contract [DmaHwOk].
    - [BlkFrontend]: the request path of the frontend, from the block layer to the
      ring and from completions back, on top of [RingBuf] and [Pool].
    - [BlkFrontCtl]: the rest of the frontend: the pass over the device page
      ([vcablk_probe_work]), the disks and rings it creates and destroys,
      initialisation and removal.
    - [BlkMedia]: the media of the backend; files through the class [Vfs].
    - [BlkBackend]: the request path of the backend: the request thread and the
      transfer thread, interleaved as an argument says.
    - [BlkLifecycle]: creating, starting and stopping a disk of the backend, with
      the resources it takes.
    - [BlkBackCtl]: [vcablk_bcknd.c], and both sides together on one page.  Its disks
      are those of the class [BckndDisk], which [BlkLifecycle] implements.

    ** Modelling

    C integers are [Z] values, reduced to the width of the object they are stored
    in wherever the code may leave it.  A function that can run [BUG_ON], index
    outside an array or loop returns an [outcome]: [Ret], [Bug], [Oob], or [Spin]
    when the model has used up its fuel; dereferencing [NULL] is [Oob].  State is
    passed along; effects outside the modelled memory (DMA mappings, interrupts,
    ended requests, resources of the kernel) are kept in a log.  What a function
    asks of code elsewhere (allocators, DMA mapping, user memory, waits) is a
    parameter: a class where it has a contract ([Mmio], [DmaHw], [Vfs], [Card], the
    allocator of identifiers, and the virtio buses with their drivers, [VirtioBus] and [HostBus]),
    otherwise a record of answers.  Every class has an instance that a witness uses.  Locks and memory
    barriers are left out: each operation is one step; what other threads do
    meanwhile enters where the code waits ([BlkFrontend.wait_ok], the arguments of
    [BlkBackCtl], [VopXfer.wait]), between the pieces of a transfer and between its answer
    and the release of its ring element ([BlkBackend]), between the polls of a wait
    ([Lbp]), between the steps of the threads of a device ([VopLife]), or between
    arming the notification and looking again ([VirtqProto]).  Creating a kernel
    thread is taken to succeed, as the code does.

    Fuel.  The scan of the A-LUT manager takes at most one turn per segment.
    A descriptor chain is followed for at most two turns per descriptor of the
    ring ([Vringh.__vringh_iov]); the theorem [vringh_getdesc_kern_safe] shows
    that this is enough for any contents of the ring.  [detach_buf] follows at most
    [num] descriptors; loops over rings with wrapping counters take at most twice
    the size of the ring; the cleanup of the DMA ring takes one turn per
    descriptor; a piece of a block transfer has at most eight sectors; an image of
    [n] bytes is sent in at most [n] chunks; a wait with a timeout takes one turn
    per millisecond; a page of 4096 bytes has fewer than 64 slots, since an entry takes at
    least 96 bytes ([DevPage.slot_fuel]); an update of the peer's rings takes one turn per
    published buffer.  Every theorem that a function returns [Ret] includes that its
    fuel is enough.

    ** What the theorems show

    - A-LUT manager: every operation keeps the table tiled by blocks; an
      allocation returns a block that translates exactly the requested
      addresses, shares an existing one, or fails only when no run of segments is
      free; no mapping in use changes.
    - Hardware layer: the registers always agree with the manager, so that a
      window returned by [plx_ioremap] reaches the requested bus addresses, and
      unmapping restores the state of every other mapping.
    - Interrupts: every doorbell that is set reaches exactly the callbacks
      registered for it; freeing a callback restores the lists.
    - Boot protocol: the handshake ends in bounded time whatever the node does, its
      result is the step it reached, and it succeeds with a node that follows the
      protocol; a node is told to boot only when the whole image lies where it asked for
      it, and success is its answer to that; states read back.
    - Virtqueues: descriptors are divided between the free list and the buffers
      in flight; additions publish exactly the scatter list; nothing the device
      writes to the used ring makes the driver hand out a wrong token, nothing
      the driver writes to the ring makes the device run off its tables or loop;
      no wake-up is lost between arming the notification and going to sleep; a buffer
      goes to the device and back unchanged.
    - DMA engine: transactions are called back once, in the order they were
      submitted, and only after the engine has finished them.
    - Block frontend: in every branch, errors and waits included, DMA mappings
      and requests are accounted for: none is leaked, lost or ended twice.
    - Block backend: however the two threads interleave, a batch of writes has
      the effect on the medium of writing the requests one after the other, reads
      return the sectors of the medium, and every request is answered once, in the
      ring that the frontend reads.
    - Block control: opening a disk ends with both sides on the same rings; a
      page that the frontend offers is checked so that no access leaves it;
      closing removes the disk on both sides.
    - Peer buffer rings: queues of buffers; cancelled buffers are skipped; used
      buffers are completed in order.
    - Network transport: a packet of the transmit queue arrives in the buffer the peer
      offered, is reported used there and completed here, in order, whether copied directly
      or through an intermediate buffer; transfers stay in their windows; published receive
      buffers are offered by size.
    - Device page: entries do not disturb each other, except that one that is put into a
      smaller free slot overwrites the next; features agreed on one side are read on the other.
    - Hot plug: a device handed in on the host appears on the node with the same rings
      and doorbells, or everything taken is given back; removal clears both sides.
    - Life of a device: in every interleaving no thread uses a freed ring, provided that the
      memory for the ring's buffers is there, and stopping ends within a bound.
    - Deviations: initialisation keeps stale A-LUT entries, a failed table
      allocation is dereferenced, a failed DMA mapping leaks the entries behind
      it, two one-list requests overrun a scatter list, an empty indirect
      table is read past its end, cancelling a buffer can loop for ever, stopping a
      backend disk loses what is queued, removing a frontend loses its rings, a
      failed run leaves the backend on freed rings, a boot from USB ignores errors, a ring
      whose buffers cannot be allocated is used after it is freed, the number of rings in an
      ioctl is read twice, closing a disk behind the end of the page of the frontend
      reads past it.

    ** Not modelled

    Debug file systems, which only print.  Bus, PCI and character device registration
    ([bus/], [plx_main.c], [plx_pci.c], the [plx_hw_ops] tables), probing and power
    management of the card ([plx_boot.c]), the card managers behind character devices
    ([vca_csm_main.c], [vca_csa_main.c], [vca_mgr_main.c], [vca_mgr_extd_main.c]), EEPROM
    and GPIO access: sequences of calls of kernel services and of registers whose effect is not
    described in the repository.  The adapted network driver ([vca_virtio_net.c]) and the
    operations of the virtio bus that only forward to the page ([vop_find_vqs], status and
    notification handlers).  Code for crash kernels and user-space tools. *)

From stdpp Require Import base list numbers option tactics.
From Stdlib Require Import ZArith Lia.

#[global] Open Scope Z_scope.

(** ** Machine integers

    A C integer of [w] bits is a [Z]; every arithmetic result that the source
    stores in a [w]-bit unsigned object is reduced with [wrap]. *)
Definition wrap (w z : Z) : Z := z mod 2 ^ w.
Definition u8 (z : Z) : Z := wrap 8 z.
Definition u16 (z : Z) : Z := wrap 16 z.
Definition u32 (z : Z) : Z := wrap 32 z.
Definition u64 (z : Z) : Z := wrap 64 z.

(** [s w z]: the signed [w]-bit value of [z] (two's complement). *)
Definition sint (w z : Z) : Z :=
  let m := z mod 2 ^ w in if m <? 2 ^ (w - 1) then m else m - 2 ^ w.
Definition s8 (z : Z) : Z := sint 8 z.
Definition s32 (z : Z) : Z := sint 32 z.

(** A value that fits an unsigned object of [w] bits. *)
Definition fits (w z : Z) : Prop := 0 <= z < 2 ^ w.

(** The kernel's [DIV_ROUND_UP] on 64-bit operands. *)
Definition DIV_ROUND_UP (n d : Z) : Z := u64 (n + d - 1) / d.

(** C truth values. *)
Definition b2z (b : bool) : Z := if b then 1 else 0.
Definition testflag (x f : Z) : bool := negb (Z.land x f =? 0).

(** ** Error numbers (the kernel's [errno] values) *)
Definition EPERM := 1.
Definition EIO := 5.
Definition ENXIO := 6.
Definition EAGAIN := 11.
Definition ENOMEM := 12.
Definition EFAULT := 14.
Definition EBUSY := 16.
Definition EEXIST := 17.
Definition ENODEV := 19.
Definition EINVAL := 22.
Definition ENOSPC := 28.
Definition EDOM := 33.
Definition ELOOP := 40.
Definition EPROTO := 71.
Definition ETIME := 62.

(** ** Outcomes

    A C function either returns, stops the kernel ([BUG_ON], [BUG]), or
    accesses memory outside the array it indexes (a [NULL] array is the empty
    array).  [Spin] is the outcome of a loop that used up the fuel of the
    model: a theorem that a function returns shows that the fuel is enough. *)
Inductive outcome (A : Type) : Type :=
| Ret (a : A)
| Bug
| Oob
| Spin.
Arguments Ret {_} _.
Arguments Bug {_}.
Arguments Oob {_}.
Arguments Spin {_}.

#[global] Instance outcome_ret : MRet outcome := fun A a => Ret a.
#[global] Instance outcome_bind : MBind outcome := fun A B f m =>
  match m with
  | Ret a => f a
  | Bug => Bug
  | Oob => Oob
  | Spin => Spin
  end.
#[global] Instance outcome_eq_dec `{EqDecision A} : EqDecision (outcome A).
Proof. solve_decision. Defined.

(** [BUG_ON(b)]. *)
Definition bug_on (b : bool) : outcome unit := if b then Bug else Ret tt.

(** The return value, when there is one. *)
Definition returned {A} (m : outcome A) : option A :=
  match m with Ret a => Some a | _ => None end.

(** ** Arrays

    [a[i]] as an rvalue and as an lvalue, and [memset(a + i, 0, n * size)]
    style fills; an index outside the array is [Oob]. *)
Definition aget {A} (l : list A) (i : Z) : outcome A :=
  if 0 <=? i then match l !! Z.to_nat i with Some a => Ret a | None => Oob end
  else Oob.
Definition aset {A} (l : list A) (i : Z) (a : A) : outcome (list A) :=
  if (0 <=? i) && (i <? Z.of_nat (length l)) then Ret (<[Z.to_nat i := a]> l)
  else Oob.
Definition afill {A} (l : list A) (i n : Z) (a : A) : outcome (list A) :=
  if (0 <=? i) && (0 <=? n) && (i + n <=? Z.of_nat (length l))
  then Ret (take (Z.to_nat i) l ++ replicate (Z.to_nat n) a ++ drop (Z.to_nat (i + n)) l)
  else Oob.

(** Length as a [Z]. *)
Definition zlen {A} (l : list A) : Z := Z.of_nat (length l).

(** ** Automation *)

Create HintDb vca.

(** Split every boolean guard of the context and of the goal into arithmetic. *)
Ltac bools :=
  repeat match goal with
  | H : (_ && _)%bool = true |- _ => apply andb_true_iff in H; destruct H
  | H : (_ || _)%bool = false |- _ => apply orb_false_iff in H; destruct H
  | H : negb _ = true |- _ => apply negb_true_iff in H
  | H : negb _ = false |- _ => apply negb_false_iff in H
  | H : (_ <=? _) = true |- _ => apply Z.leb_le in H
  | H : (_ <=? _) = false |- _ => apply Z.leb_gt in H
  | H : (_ <? _) = true |- _ => apply Z.ltb_lt in H
  | H : (_ <? _) = false |- _ => apply Z.ltb_ge in H
  | H : (_ =? _) = true |- _ => apply Z.eqb_eq in H
  | H : (_ =? _) = false |- _ => apply Z.eqb_neq in H
  end.

(** Case analysis on the innermost [if] of the goal. *)
Ltac case_if :=
  match goal with
  | |- context [if ?b then _ else _] =>
      lazymatch b with
      | context [if _ then _ else _] => fail
      | _ => let E := fresh "E" in destruct b eqn:E; bools
      end
  end.

(** Evaluate the boolean test [b] of the goal by arithmetic. *)
Ltac if_true :=
  match goal with
  | |- context [if ?b then _ else _] =>
      replace b with true by (symmetry; repeat rewrite andb_true_iff;
        rewrite ?Z.leb_le, ?Z.ltb_lt, ?Z.eqb_eq; repeat split; lia)
  end.

Ltac if_false :=
  match goal with
  | |- context [if ?b then _ else _] =>
      replace b with false by (symmetry;
        first [ rewrite Z.leb_gt; lia | rewrite Z.ltb_ge; lia
              | rewrite Z.eqb_neq; lia ])
  end.

(** Run the binds whose left side has returned. *)
Ltac run_bind := cbn [mbind outcome_bind mret outcome_ret fst snd].

(** Invert [m ≫= f = Ret b]. *)
Lemma bind_ret_inv {A B} (m : outcome A) (f : A -> outcome B) b :
  m ≫= f = Ret b -> exists a, m = Ret a /\ f a = Ret b.
Proof. destruct m; simpl; try discriminate; eauto. Qed.

Ltac inv_ret :=
  repeat match goal with
  | H : (_ ≫= _) = Ret _ |- _ =>
      let x := fresh "x" in let E := fresh "E" in
      apply bind_ret_inv in H; destruct H as (x & E & H)
  | H : mret _ = Ret _ |- _ => unfold mret, outcome_ret in H
  | H : Ret _ = Ret _ |- _ => injection H as H
  | H : (_, _) = (_, _) |- _ => injection H as H
  | H : bug_on ?b = Ret _ |- _ =>
      unfold bug_on in H; destruct b eqn:?; [discriminate H | clear H]
  end.

(** ** Shared lemmas: machine integers *)

Lemma wrap_small w z : fits w z -> wrap w z = z.
Proof. unfold wrap, fits. intros. by apply Z.mod_small. Qed.

Lemma wrap_fits w z : 0 <= w -> fits w (wrap w z).
Proof. intros. apply Z.mod_pos_bound. apply Z.pow_pos_nonneg; lia. Qed.

Lemma u16_small z : 0 <= z < 65536 -> u16 z = z.
Proof. intros. by apply wrap_small. Qed.
Lemma u32_small z : 0 <= z < 4294967296 -> u32 z = z.
Proof. intros. by apply wrap_small. Qed.
Lemma u64_small z : 0 <= z < 2 ^ 64 -> u64 z = z.
Proof. intros. by apply wrap_small. Qed.
Lemma s32_small z : 0 <= z < 2 ^ 31 -> s32 z = z.
Proof.
  intros Hz. unfold s32, sint. rewrite Z.mod_small by lia.
  by rewrite (proj2 (Z.ltb_lt z (2 ^ (32 - 1)))) by lia.
Qed.
Lemma u16_range z : 0 <= u16 z < 65536.
Proof. apply (wrap_fits 16). lia. Qed.
Lemma u32_range z : 0 <= u32 z < 4294967296.
Proof. apply (wrap_fits 32). lia. Qed.
Lemma u64_range z : 0 <= u64 z < 2 ^ 64.
Proof. apply (wrap_fits 64). lia. Qed.

(** ** Shared lemmas: arrays *)

Lemma aget_ret {A} (l : list A) i a :
  0 <= i -> l !! Z.to_nat i = Some a -> aget l i = Ret a.
Proof. intros Hi Hl. unfold aget. if_true. by rewrite Hl. Qed.

Lemma aget_inv {A} (l : list A) i a :
  aget l i = Ret a -> 0 <= i < zlen l /\ l !! Z.to_nat i = Some a.
Proof.
  unfold aget. case_if; [|discriminate].
  destruct (l !! Z.to_nat i) eqn:Hl; [|discriminate].
  intros [= ->]. split; [|done].
  apply lookup_lt_Some in Hl. unfold zlen. lia.
Qed.

Lemma aget_total {A} (l : list A) i :
  0 <= i < zlen l -> exists a, aget l i = Ret a /\ l !! Z.to_nat i = Some a.
Proof.
  intros Hi. destruct (lookup_lt_is_Some_2 l (Z.to_nat i)) as [a Ha].
  { unfold zlen in Hi. lia. }
  exists a. split; [|done]. apply aget_ret; [lia|done].
Qed.

Lemma aset_ret {A} (l : list A) i a :
  0 <= i < zlen l -> aset l i a = Ret (<[Z.to_nat i := a]> l).
Proof. unfold zlen. intros Hi. unfold aset. if_true. done. Qed.

Lemma aset_inv {A} (l l' : list A) i a :
  aset l i a = Ret l' -> 0 <= i < zlen l /\ l' = <[Z.to_nat i := a]> l.
Proof.
  unfold aset, zlen. case_if; [|discriminate]. intros [= <-]. split; [lia|done].
Qed.

Lemma zlen_insert {A} (l : list A) i a : zlen (<[i := a]> l) = zlen l.
Proof. unfold zlen. by rewrite length_insert. Qed.

Lemma zlen_app {A} (l k : list A) : zlen (l ++ k) = zlen l + zlen k.
Proof. unfold zlen. rewrite length_app. lia. Qed.

Lemma zlen_cons {A} (x : A) l : zlen (x :: l) = 1 + zlen l.
Proof. unfold zlen. simpl length. lia. Qed.

Lemma zlen_replicate {A} n (x : A) : zlen (replicate n x) = Z.of_nat n.
Proof. unfold zlen. by rewrite length_replicate. Qed.

Lemma zlen_nonneg {A} (l : list A) : 0 <= zlen l.
Proof. unfold zlen. lia. Qed.

(** Indexing around a split point. *)
Lemma aget_mid {A} (pre : list A) x post :
  aget (pre ++ x :: post) (zlen pre) = Ret x.
Proof.
  apply aget_ret; [apply zlen_nonneg|]. unfold zlen. rewrite Nat2Z.id.
  by apply list_lookup_middle.
Qed.

Lemma aset_mid {A} (pre : list A) x y post :
  aset (pre ++ x :: post) (zlen pre) y = Ret (pre ++ y :: post).
Proof.
  rewrite aset_ret.
  - unfold zlen. rewrite Nat2Z.id. rewrite insert_app_r_alt by lia.
    by rewrite Nat.sub_diag.
  - rewrite zlen_app, zlen_cons. pose proof (zlen_nonneg pre). pose proof (zlen_nonneg post). lia.
Qed.

Lemma afill_mid {A} (pre mid post : list A) y :
  afill (pre ++ mid ++ post) (zlen pre) (zlen mid) y
  = Ret (pre ++ replicate (length mid) y ++ post).
Proof.
  unfold afill, zlen. rewrite !length_app. if_true.
  rewrite <- Nat2Z.inj_add, !Nat2Z.id. f_equal. f_equal.
  - by rewrite take_app_length.
  - f_equal. rewrite app_assoc. rewrite drop_app_length'; [done|]. by rewrite length_app.
Qed.

(** ** Shared lemmas: masks *)

Lemma land_mask x k : 0 <= k -> Z.land x (2 ^ k - 1) = x mod 2 ^ k.
Proof.
  intros. replace (2 ^ k - 1) with (Z.ones k) by (rewrite Z.ones_equiv; lia).
  by apply Z.land_ones.
Qed.

Lemma land_not_mask x k : 0 <= k -> Z.land x (Z.lnot (2 ^ k - 1)) = x - x mod 2 ^ k.
Proof.
  intros. replace (2 ^ k - 1) with (Z.ones k) by (rewrite Z.ones_equiv; lia).
  rewrite <- Z.ldiff_land, Z.ldiff_ones_r by lia.
  rewrite Z.shiftl_mul_pow2, Z.shiftr_div_pow2 by lia.
  pose proof (Z.div_mod x (2 ^ k) ltac:(pose proof (Z.pow_pos_nonneg 2 k); lia)). lia.
Qed.

(** A 64-bit word from its two halves. *)
Lemma u64_halves a :
  fits 64 a -> Z.lor (u32 a) (Z.shiftl (u32 (Z.shiftr a 32)) 32) = a.
Proof.
  intros Ha. unfold fits in Ha. unfold u32, wrap.
  rewrite Z.shiftr_div_pow2 by lia.
  rewrite (Z.mod_small (a / 2 ^ 32)).
  2:{ split; [apply Z.div_pos; lia|]. apply Z.div_lt_upper_bound; lia. }
  rewrite <- Z.land_ones, <- Z.shiftr_div_pow2 by lia.
  rewrite Z.lor_comm. apply Z.bits_inj'. intros n Hn.
  rewrite Z.lor_spec, Z.shiftl_spec, Z.land_spec, Z.testbit_ones by lia.
  destruct (Z.ltb_spec n 32).
  - rewrite Z.testbit_neg_r by lia. simpl.
    rewrite (proj2 (Z.leb_le 0 n)) by lia. by rewrite andb_true_r.
  - rewrite Z.shiftr_spec by lia. rewrite Z.sub_add.
    by rewrite andb_false_r, andb_false_r, orb_false_r.
Qed.

(** Two fields of a word. *)
Lemma lor_fields hi lo k :
  0 <= k -> 0 <= lo < 2 ^ k -> Z.lor (hi * 2 ^ k) lo = hi * 2 ^ k + lo.
Proof.
  intros Hk Hlo. assert (Z.land (hi * 2 ^ k) lo = 0) as Hl.
  { apply Z.bits_inj'. intros n Hn. rewrite Z.land_spec, Z.bits_0.
    destruct (Z.ltb_spec n k).
    - by rewrite Z.mul_pow2_bits_low by lia.
    - rewrite <- (Z.mod_small lo (2 ^ k)), Z.mod_pow2_bits_high by lia. apply andb_false_r. }
  pose proof (Z.add_nocarry_lxor _ _ Hl) as ->. symmetry. by apply Z.lxor_lor.
Qed.

(** A single-bit flag. *)
Lemma testflag_bit x k : 0 <= k -> testflag x (Z.shiftl 1 k) = Z.testbit x k.
Proof.
  intros Hk. unfold testflag. rewrite Z.shiftl_1_l. destruct (Z.testbit x k) eqn:E.
  - apply negb_true_iff, Z.eqb_neq. intros H0.
    assert (Z.testbit (Z.land x (2 ^ k)) k = false) as Hb by by rewrite H0, Z.bits_0.
    by rewrite Z.land_spec, E, Z.pow2_bits_true in Hb by done.
  - apply negb_false_iff, Z.eqb_eq. apply Z.bits_inj'. intros n Hn.
    rewrite Z.land_spec, Z.pow2_bits_eqb, Z.bits_0 by done.
    destruct (Z.eqb_spec k n) as [<-|]; [by rewrite E|apply andb_false_r].
Qed.

(** ** Shared lemmas: accounting of resources

    [release r l]: the resources [l] after one [r] was given back. *)
Section Release.
Context {A : Type} `{EqDecision A}.
Implicit Types (r x : A) (l rest : list A).

Fixpoint release r l : list A :=
  match l with
  | [] => []
  | x :: l => if decide (r = x) then l else x :: release r l
  end.

Lemma release_head r l : release r (r :: l) = l.
Proof. cbn. by rewrite decide_True. Qed.
Lemma release_second r x l : release r (x :: r :: l) = x :: l.
Proof. cbn. case_decide; [by subst|]. by rewrite decide_True. Qed.

Lemma release_perm r l : r ∈ l -> Permutation l (r :: release r l).
Proof.
  induction l as [|x l IH]; intros Hr; [by apply elem_of_nil in Hr|]. cbn. case_decide as Hx; [by subst|].
  apply elem_of_cons in Hr as [Hr|Hr]; [done|]. etrans; [|apply Permutation_swap]. by apply Permutation_cons, IH.
Qed.

(** Giving back a resource that is held, up to order. *)
Lemma release_held r l rest : Permutation l (r :: rest) -> Permutation (release r l) rest.
Proof.
  intros Hl. apply (Permutation_cons_inv (a := r)). rewrite <- Hl. symmetry. apply release_perm.
  rewrite Hl. by left.
Qed.
Lemma release_absent r l : r ∉ l -> release r l = l.
Proof.
  induction l as [|x l IH]; intros Hr; [done|]. cbn. apply not_elem_of_cons in Hr as [Hne Hr].
  rewrite decide_False by done. by rewrite IH.
Qed.
End Release.
Create Rewrite HintDb release.
#[export] Hint Rewrite @release_head @release_second : release.

Create Rewrite HintDb zlen.
#[export] Hint Rewrite @zlen_app @zlen_cons @zlen_replicate @zlen_insert : zlen.
#[export] Hint Resolve zlen_nonneg aget_mid aset_mid : vca.

Arguments wrap : simpl never.
Arguments u8 : simpl never.
Arguments u16 : simpl never.
Arguments u32 : simpl never.
Arguments u64 : simpl never.
Arguments aget : simpl never.
Arguments aset : simpl never.
Arguments afill : simpl never.
Arguments zlen : simpl never.
#[global] Arguments Z.of_nat : simpl never.
#[global] Arguments Z.to_nat : simpl never.
#[global] Arguments Z.pow : simpl never.
#[global] Arguments Z.modulo : simpl never.
#[global] Arguments Z.div : simpl never.
