(* ===== verification/Alm.v ===== *)
(** * A-LUT manager (src/modules/vca/plx87xx/plx_alm.c)

    The manager hands out runs of segments of the PLX address look-up table.
    An entry of the array is free (all fields zero), the head of a block (it
    carries the block's translation, its reference count and its number of
    segments) or a later segment of a block (it only names the head).

    [ALUT_UNMAP_LAZY] is defined in the source: a block whose last user is gone
    keeps the count 1 and is reclaimed when an allocation finds no room. *)

From S2P Require Import Prelude.
From stdpp Require Import base list numbers option tactics.
From Stdlib Require Import ZArith Lia.

#[local] Open Scope Z_scope.

Module Alm.

(** ** Data *)

Record plx_alm_arr_entry := mkEntry {
  value : Z;            (* u64 *)
  counter : Z;          (* u16 *)
  segments_count : Z;   (* u16 *)
  start : Z             (* u16 *)
}.

Record plx_alm := mkAlm {
  segments_num : Z;     (* u32 *)
  segment_size : Z;     (* u64 *)
  entries : list plx_alm_arr_entry   (* NULL is [] *)
}.

Definition zero_entry : plx_alm_arr_entry := mkEntry 0 0 0 0.

Definition set_entries (m : plx_alm) (es : list plx_alm_arr_entry) : plx_alm :=
  mkAlm (segments_num m) (segment_size m) es.
Definition set_counter (e : plx_alm_arr_entry) (c : Z) : plx_alm_arr_entry :=
  mkEntry (value e) c (segments_count e) (start e).
Definition set_start (e : plx_alm_arr_entry) (s : Z) : plx_alm_arr_entry :=
  mkEntry (value e) (counter e) (segments_count e) s.
Definition set_block (e : plx_alm_arr_entry) (v n : Z) : plx_alm_arr_entry :=
  mkEntry v (counter e) n (start e).

(** The [u32] value of [-1], which [match] carries while nothing is found. *)
Definition NO_MATCH : Z := u32 (-1).

(** ** Operations *)

(** The inner [for] of [plx_alm_check] over the segments [j .. i + segments - 1]
    of the block at [i]; [true] when an entry is invalid. *)
Fixpoint check_group (n : nat) (es : list plx_alm_arr_entry) (i j : Z) : outcome bool :=
  match n with
  | O => Ret false
  | S n' =>
      e ← aget es j;
      if negb (start e =? i)
         || (negb (j =? i) && (negb (counter e =? 0) || negb (segments_count e =? 0)))
      then Ret true
      else check_group n' es i (j + 1)
  end.

(** The [while] of [plx_alm_check]; returns [err]. *)
Fixpoint check_loop (fuel : nat) (alm : plx_alm) (i err : Z) : outcome Z :=
  if i <? segments_num alm then
    match fuel with
    | O => Spin
    | S fuel' =>
        e ← aget (entries alm) i;
        if counter e =? 0 then
          check_loop fuel' alm (i + 1)
            (if negb (segments_count e =? 0) || negb (start e =? 0) || negb (value e =? 0)
             then - EINVAL else err)
        else
          let segments := segments_count e in
          if segments =? 0 then check_loop fuel' alm (i + 1) (- EINVAL)
          else if segments_num alm <? u32 (segments + i)
          then check_loop fuel' alm (i + 1) (- EINVAL)
          else
            bad ← check_group (Z.to_nat segments) (entries alm) i i;
            check_loop fuel' alm (i + segments) (if bad : bool then - EINVAL else err)
    end
  else Ret err.

Definition plx_alm_check (alm : plx_alm) : outcome Z :=
  err ← check_loop (Z.to_nat (segments_num alm)) alm 0 0;
  _ ← bug_on (negb (err =? 0));
  Ret err.

(** [kzalloc_ok]: whether the allocation of the array succeeds. *)
Definition plx_alm_init (num_ntbs aper_len : Z) (kzalloc_ok : bool)
    : outcome (plx_alm * Z) :=
  let segments := u32 (256 / num_ntbs) in
  let mngr := mkAlm segments (aper_len / segments)
                (if kzalloc_ok then replicate (Z.to_nat segments) zero_entry else []) in
  let rc := if kzalloc_ok then 0 else - ENOMEM in
  _ ← plx_alm_check mngr;
  Ret (mngr, rc).

Definition plx_alm_release (mngr : plx_alm) : outcome plx_alm :=
  _ ← plx_alm_check mngr;
  Ret (mkAlm 0 0 []).

Definition clear_entries (es : list plx_alm_arr_entry) (id_begin num : Z)
    : outcome (list plx_alm_arr_entry) :=
  afill es id_begin num zero_entry.

Definition plx_alm_reset (mngr : plx_alm) : outcome plx_alm :=
  _ ← plx_alm_check mngr;
  es ← clear_entries (entries mngr) 0 (segments_num mngr);
  Ret (set_entries mngr es).

(** The result carries [*out_segment_id, *out_segments_num] when they are
    written. *)
Definition plx_alm_del_entry (mngr : plx_alm) (segment_id : Z)
    : outcome (plx_alm * option (Z * Z)) :=
  e ← aget (entries mngr) segment_id;
  let start_id := start e in
  h ← aget (entries mngr) start_id;
  _ ← bug_on (counter h =? 0);
  let c := u16 (counter h - 1) in
  es ← aset (entries mngr) start_id (set_counter h c);
  if c =? 0 then
    let segments := segments_count h in
    es' ← clear_entries es start_id segments;
    Ret (set_entries mngr es', Some (start_id, segments))
  else Ret (set_entries mngr es, None).

(** The [while] of [plx_alm_cleanup_unused_entry]; [n] iterations are left. *)
Fixpoint cleanup_loop (n : nat) (mngr : plx_alm) (i nums : Z) : outcome (plx_alm * Z) :=
  match n with
  | O => Ret (mngr, nums)
  | S n' =>
      e ← aget (entries mngr) i;
      if counter e =? 1 then
        '(mngr', _) ← plx_alm_del_entry mngr i;
        cleanup_loop n' mngr' (i + 1) (u32 (nums + 1))
      else cleanup_loop n' mngr (i + 1) nums
  end.

Definition plx_alm_cleanup_unused_entry (mngr : plx_alm) : outcome (plx_alm * Z) :=
  cleanup_loop (Z.to_nat (segments_num mngr)) mngr 0 0.

(** The search loop of [plx_alm_add_entry]: the final [match] and [idx]. *)
Fixpoint add_scan (fuel : nat) (mngr : plx_alm) (addr_masked segments : Z)
    (i free_slots mtch : Z) : outcome (Z * Z) :=
  if i <? segments_num mngr then
    match fuel with
    | O => Spin
    | S fuel' =>
        e ← aget (entries mngr) i;
        if counter e =? 0 then
          if mtch =? NO_MATCH then
            let free_slots := u32 (free_slots + 1) in
            add_scan fuel' mngr addr_masked segments (i + 1) free_slots
              (if free_slots =? segments then u32 (i - segments + 1) else mtch)
          else add_scan fuel' mngr addr_masked segments (i + 1) free_slots mtch
        else
          let idx := (addr_masked - value e) / segment_size mngr in
          if (value e <=? addr_masked)
             && ((idx <? segments_num mngr)
                 && (u64 (idx + segments) <=? segments_count e))
          then Ret (u32 i, idx)
          else add_scan fuel' mngr addr_masked segments (i + segments_count e) 0 mtch
    end
  else Ret (mtch, 0).

(** [for (i = 0; i < segments; i++) entries[match + i].start = match]. *)
Fixpoint set_starts (n : nat) (es : list plx_alm_arr_entry) (mtch i : Z)
    : outcome (list plx_alm_arr_entry) :=
  match n with
  | O => Ret es
  | S n' =>
      e ← aget es (u32 (mtch + i));
      es' ← aset es (u32 (mtch + i)) (set_start e (u16 mtch));
      set_starts n' es' mtch (i + 1)
  end.

(** The branch [match != -1]: the new array and [rc]. *)
Definition add_commit (es : list plx_alm_arr_entry) (mtch addr_masked segments : Z)
    : outcome (list plx_alm_arr_entry * Z) :=
  e ← aget es mtch;
  '(es1, rc) ← (if counter e =? 0 then
                  es1 ← aset es mtch (set_block e addr_masked (u16 segments));
                  es2 ← set_starts (Z.to_nat segments) es1 mtch 0;
                  Ret (es2, 0)
                else Ret (es, - EEXIST));
  e1 ← aget es1 mtch;
  let c := if counter e1 =? 0 then 1 else counter e1 in
  es3 ← aset es1 mtch (set_counter e1 (u16 (c + 1)));
  Ret (es3, rc).

(** [depth] bounds the recursive call after a clean-up: the depth 2 is enough,
    because the second clean-up finds nothing to release. *)
Fixpoint add_entry_rec (depth : nat) (mngr : plx_alm) (addr size : Z)
    : outcome (plx_alm * Z * option (Z * Z)) :=
  let translation_mask := u64 (segment_size mngr - 1) in
  let addr_masked := Z.land addr (Z.lnot translation_mask) in
  let offset_in_segment := Z.land addr translation_mask in
  let segments := u32 (DIV_ROUND_UP (u64 (offset_in_segment + size)) (segment_size mngr)) in
  if (size =? 0) || (u64 (segment_size mngr * segments_num mngr) <? size)
  then Ret (mngr, - ENOMEM, None)
  else
    '(mtch, idx) ← add_scan (Z.to_nat (segments_num mngr)) mngr addr_masked segments 0 0 NO_MATCH;
    if negb (mtch =? NO_MATCH) then
      '(es, rc) ← add_commit (entries mngr) mtch addr_masked segments;
      Ret (set_entries mngr es, rc, Some (u32 (mtch + u32 idx), segments))
    else
      '(mngr', nums) ← plx_alm_cleanup_unused_entry mngr;
      if negb (nums =? 0) then
        match depth with
        | O => Spin
        | S depth' => add_entry_rec depth' mngr' addr size
        end
      else Ret (mngr', - ENOMEM, None).

Definition plx_alm_add_entry (mngr : plx_alm) (addr size : Z)
    : outcome (plx_alm * Z * option (Z * Z)) :=
  add_entry_rec 2 mngr addr size.

(** ** Abstract state: the array as a sequence of tiles

    [TBlk v c n]: a block of [S n] segments that translates to [v], with the
    reference count [c]; [TFree]: a free segment. *)
Inductive tile := TFree | TBlk (v c : Z) (n : nat).

Definition tile_len (t : tile) : Z :=
  match t with TFree => 1 | TBlk _ _ n => Z.of_nat (S n) end.
Definition tiles_len (ts : list tile) : Z := foldr (fun t s => tile_len t + s) 0 ts.

Definition tile_entries (p : Z) (t : tile) : list plx_alm_arr_entry :=
  match t with
  | TFree => [zero_entry]
  | TBlk v c n => mkEntry v c (Z.of_nat (S n)) p :: replicate n (mkEntry 0 0 0 p)
  end.

Fixpoint render (p : Z) (ts : list tile) : list plx_alm_arr_entry :=
  match ts with
  | [] => []
  | t :: ts' => tile_entries p t ++ render (p + tile_len t) ts'
  end.

Definition tile_ok (sz : Z) (t : tile) : Prop :=
  match t with
  | TFree => True
  | TBlk v c n => 1 <= c < 65536 /\ fits 64 v /\ v mod sz = 0
  end.

(** The manager's geometry: at most 256 segments of a power-of-two size. *)
Definition geometry (m : plx_alm) : Prop :=
  0 < segments_num m <= 256
  /\ (exists k, 0 <= k /\ segment_size m = 2 ^ k)
  /\ segment_size m * (segments_num m + 2) <= 2 ^ 64.

Definition repr (m : plx_alm) (ts : list tile) : Prop :=
  entries m = render 0 ts /\ tiles_len ts = segments_num m
  /\ Forall (tile_ok (segment_size m)) ts.

(** The well-formedness invariant. *)
Definition wf (m : plx_alm) : Prop := geometry m /\ exists ts, repr m ts.

(** What the table says of a segment: the bus address of its first byte and
    the reference count of its block. *)
Definition translate (m : plx_alm) (seg : Z) : option (Z * Z) :=
  match aget (entries m) seg with
  | Ret e =>
      match aget (entries m) (start e) with
      | Ret h =>
          if negb (counter h =? 0) && (seg <? start e + segments_count h)
          then Some (value h + (seg - start e) * segment_size m, counter h)
          else None
      | _ => None
      end
  | _ => None
  end.

(** ** Lemmas on tiles *)

Lemma tile_len_pos t : 1 <= tile_len t.
Proof. destruct t; simpl; lia. Qed.

Lemma tiles_len_cons t ts : tiles_len (t :: ts) = tile_len t + tiles_len ts.
Proof. done. Qed.

Lemma tiles_len_app ts1 ts2 : tiles_len (ts1 ++ ts2) = tiles_len ts1 + tiles_len ts2.
Proof. induction ts1; simpl; [done|]. fold (tiles_len (ts1 ++ ts2)) (tiles_len ts1). lia. Qed.

Lemma tiles_len_free n : tiles_len (replicate n TFree) = Z.of_nat n.
Proof.
  induction n; [done|]. simpl replicate. rewrite tiles_len_cons, IHn. simpl tile_len. lia.
Qed.

Lemma tiles_len_nonneg ts : 0 <= tiles_len ts.
Proof.
  induction ts; [done|]. rewrite tiles_len_cons. pose proof (tile_len_pos a). lia.
Qed.

Lemma length_le_tiles_len ts : Z.of_nat (length ts) <= tiles_len ts.
Proof.
  induction ts; [done|]. rewrite tiles_len_cons. simpl length. pose proof (tile_len_pos a). lia.
Qed.

Lemma zlen_tile_entries p t : zlen (tile_entries p t) = tile_len t.
Proof. destruct t; [done|]. simpl. rewrite zlen_cons, zlen_replicate. lia. Qed.

Lemma render_app p ts1 ts2 :
  render p (ts1 ++ ts2) = render p ts1 ++ render (p + tiles_len ts1) ts2.
Proof.
  revert p. induction ts1 as [|t ts1 IH]; intros p; simpl.
  - by rewrite Z.add_0_r.
  - rewrite IH, <- app_assoc. fold (tiles_len ts1). by rewrite Z.add_assoc.
Qed.

Lemma zlen_render p ts : zlen (render p ts) = tiles_len ts.
Proof.
  revert p. induction ts as [|t ts IH]; intros p; simpl; [done|].
  by rewrite zlen_app, zlen_tile_entries, IH.
Qed.

Lemma render_free p n : render p (replicate n TFree) = replicate n zero_entry.
Proof. revert p. induction n; intros p; simpl; [done|]. by rewrite IHn. Qed.

(** A rendered array around a block. *)
Lemma render_blk ts1 v c n ts2 :
  render 0 (ts1 ++ TBlk v c n :: ts2)
  = render 0 ts1
    ++ mkEntry v c (Z.of_nat (S n)) (tiles_len ts1)
       :: replicate n (mkEntry 0 0 0 (tiles_len ts1))
       ++ render (tiles_len ts1 + Z.of_nat (S n)) ts2.
Proof. by rewrite render_app. Qed.

(** A rendered array around a free run. *)
Lemma render_run ts1 n ts2 :
  render 0 (ts1 ++ replicate n TFree ++ ts2)
  = render 0 ts1 ++ replicate n zero_entry ++ render (tiles_len ts1 + Z.of_nat n) ts2.
Proof. by rewrite !render_app, render_free, tiles_len_free. Qed.

(** Reading the head of a block. *)
Lemma aget_head ts1 v c n ts2 :
  aget (render 0 (ts1 ++ TBlk v c n :: ts2)) (tiles_len ts1)
  = Ret (mkEntry v c (Z.of_nat (S n)) (tiles_len ts1)).
Proof. rewrite render_blk, <- (zlen_render 0 ts1). apply aget_mid. Qed.

(** Reading any segment of a block gives the block's head. *)
Lemma aget_later ts1 v c n ts2 seg :
  tiles_len ts1 < seg <= tiles_len ts1 + Z.of_nat n ->
  aget (render 0 (ts1 ++ TBlk v c n :: ts2)) seg = Ret (mkEntry 0 0 0 (tiles_len ts1)).
Proof.
  intros Hseg. pose proof (tiles_len_nonneg ts1). apply aget_ret; [lia|]. rewrite render_blk.
  assert (Hl : length (render 0 ts1) = Z.to_nat (tiles_len ts1)).
  { pose proof (zlen_render 0 ts1). unfold zlen in *. lia. }
  rewrite lookup_app_r by lia. rewrite Hl.
  replace (Z.to_nat seg - Z.to_nat (tiles_len ts1))%nat
    with (S (Z.to_nat (seg - tiles_len ts1 - 1))) by lia.
  simpl. rewrite lookup_app_l by (rewrite length_replicate; lia).
  apply lookup_replicate_2. lia.
Qed.

Lemma aget_in_block ts1 v c n ts2 seg :
  tiles_len ts1 <= seg <= tiles_len ts1 + Z.of_nat n ->
  exists e, aget (render 0 (ts1 ++ TBlk v c n :: ts2)) seg = Ret e
            /\ start e = tiles_len ts1.
Proof.
  intros Hseg. destruct (decide (seg = tiles_len ts1)) as [->|Hne].
  - rewrite aget_head. eauto.
  - rewrite aget_later by lia. eauto.
Qed.

(** ** Operations on tiles *)

(** [plx_alm_del_entry] on tiles: the block at [ts1] loses one reference. *)
Definition del_tiles (ts1 : list tile) (v c : Z) (n : nat) (ts2 : list tile)
    : list tile * option (Z * Z) :=
  if c =? 1
  then (ts1 ++ replicate (S n) TFree ++ ts2, Some (tiles_len ts1, Z.of_nat (S n)))
  else (ts1 ++ TBlk v (c - 1) n :: ts2, None).

Lemma del_entry_tiles m ts1 v c n ts2 seg :
  entries m = render 0 (ts1 ++ TBlk v c n :: ts2) ->
  1 <= c < 65536 ->
  tiles_len ts1 <= seg <= tiles_len ts1 + Z.of_nat n ->
  plx_alm_del_entry m seg
  = Ret (set_entries m (render 0 (del_tiles ts1 v c n ts2).1), (del_tiles ts1 v c n ts2).2).
Proof.
  intros He Hc Hseg. unfold plx_alm_del_entry, del_tiles. rewrite He.
  destruct (aget_in_block ts1 v c n ts2 seg Hseg) as (e & -> & Hs). simpl.
  rewrite Hs, aget_head. simpl. unfold bug_on. if_false. simpl.
  rewrite (u16_small (c - 1)) by lia.
  rewrite render_blk, <- (zlen_render 0 ts1), aset_mid. simpl.
  destruct (c =? 1) eqn:E; bools.
  - if_true. unfold clear_entries.
    set (h := set_counter _ _). set (b := replicate n _).
    replace (Z.of_nat (S n)) with (zlen (h :: b))
      by (subst b; rewrite zlen_cons, zlen_replicate; lia).
    change (h :: b ++ ?x) with ((h :: b) ++ x). rewrite afill_mid. simpl.
    change (TFree :: replicate n TFree ++ ts2) with (replicate (S n) TFree ++ ts2).
    rewrite render_run, zlen_render, zlen_cons. subst b. rewrite length_replicate, zlen_replicate.
    simpl. repeat f_equal; lia.
  - if_false. simpl. by rewrite render_blk, zlen_render.
Qed.

(** The clean-up on tiles: idle blocks (count 1) become free segments. *)
Definition reclaim_tile (t : tile) : list tile :=
  match t with
  | TBlk _ c n => if c =? 1 then replicate (S n) TFree else [t]
  | TFree => [t]
  end.
Definition reclaim (ts : list tile) : list tile := ts ≫= reclaim_tile.
Definition is_idle (t : tile) : bool :=
  match t with TBlk _ c _ => c =? 1 | TFree => false end.
Definition idle_count (ts : list tile) : nat := length (List.filter is_idle ts).

Lemma reclaim_cons t ts : reclaim (t :: ts) = reclaim_tile t ++ reclaim ts.
Proof. done. Qed.

Lemma tiles_len_reclaim_tile t : tiles_len (reclaim_tile t) = tile_len t.
Proof.
  destruct t as [|v c n]; [done|]. unfold reclaim_tile.
  destruct (c =? 1); [by rewrite tiles_len_free|]. unfold tiles_len. simpl. lia.
Qed.

Lemma tiles_len_reclaim ts : tiles_len (reclaim ts) = tiles_len ts.
Proof.
  induction ts as [|t ts IH]; [done|].
  by rewrite reclaim_cons, tiles_len_app, tiles_len_reclaim_tile, tiles_len_cons, IH.
Qed.

(** Entries whose count is not 1 are passed over. *)
Lemma cleanup_skip l k m pre post nums :
  entries m = pre ++ l ++ post ->
  Forall (fun e => counter e <> 1) l ->
  cleanup_loop (length l + k) m (zlen pre) nums
  = cleanup_loop k m (zlen pre + zlen l) nums.
Proof.
  revert pre. induction l as [|e l IH]; intros pre He Hl.
  { simpl. f_equal. unfold zlen. simpl. lia. }
  apply Forall_cons_iff in Hl as [He1 Hl]. simpl in He. simpl. rewrite He, aget_mid. simpl. if_false.
  specialize (IH (pre ++ [e])). rewrite <- app_assoc in IH. simpl in IH.
  replace (zlen pre + 1) with (zlen (pre ++ [e])) by (by rewrite zlen_app).
  rewrite IH by done. f_equal. autorewrite with zlen. unfold zlen. simpl. lia.
Qed.

Lemma cleanup_loop_tiles ts done m nums :
  entries m = render 0 (done ++ ts) ->
  Forall (tile_ok (segment_size m)) ts ->
  0 <= nums -> nums + Z.of_nat (length ts) < 4294967296 ->
  cleanup_loop (Z.to_nat (tiles_len ts)) m (tiles_len done) nums
  = Ret (set_entries m (render 0 (done ++ reclaim ts)), nums + Z.of_nat (idle_count ts)).
Proof.
  revert done m nums. induction ts as [|t ts IH]; intros dn m nums He Hok Hn Hb.
  { simpl. unfold reclaim, set_entries. simpl. destruct m; simpl in *. subst.
    by rewrite Z.add_0_r. }
  apply Forall_cons_iff in Hok as [Ht Hok]. simpl length in Hb.
  assert (Hskip : forall nums, Forall (fun e => counter e <> 1) (tile_entries (tiles_len dn) t) ->
    cleanup_loop (Z.to_nat (tiles_len (t :: ts))) m (tiles_len dn) nums
    = cleanup_loop (Z.to_nat (tiles_len ts)) m (tiles_len (dn ++ [t])) nums).
  { intros nm Hc. rewrite tiles_len_cons. pose proof (tile_len_pos t).
    pose proof (tiles_len_nonneg ts).
    pose proof (zlen_tile_entries (tiles_len dn) t) as Hz. unfold zlen in Hz.
    replace (Z.to_nat (tile_len t + tiles_len ts))
      with (length (tile_entries (tiles_len dn) t) + Z.to_nat (tiles_len ts))%nat by lia.
    rewrite <- (zlen_render 0 dn) at 2.
    rewrite (cleanup_skip _ _ _ _ (render (tiles_len dn + tile_len t) ts)); [|by rewrite He, render_app|done].
    f_equal. rewrite zlen_render, zlen_tile_entries, tiles_len_app. unfold tiles_len. simpl. lia. }
  assert (Hstep : is_idle t = false -> Forall (fun e => counter e <> 1) (tile_entries (tiles_len dn) t)).
  { destruct t as [|v c n]; simpl; intros Hi; repeat constructor; simpl; bools; try lia.
    apply Forall_replicate. simpl. lia. }
  destruct (is_idle t) eqn:Hi.
  - destruct t as [|v c n]; [done|]. simpl in Hi. bools. subst c.
    rewrite tiles_len_cons. simpl tile_len.
    pose proof (tiles_len_nonneg ts).
    replace (Z.to_nat (Z.of_nat (S n) + tiles_len ts)) with (S (n + Z.to_nat (tiles_len ts))) by lia.
    simpl. rewrite He, aget_head. simpl.
    rewrite (del_entry_tiles m dn v 1 n ts) by (done || lia). simpl.
    set (m' := set_entries m _).
    rewrite u32_small by lia.
    assert (He' : entries m' = (render 0 dn ++ [zero_entry]) ++ replicate n zero_entry
                     ++ render (tiles_len dn + Z.of_nat (S n)) ts).
    { subst m'. simpl. change (TFree :: replicate n TFree ++ ts) with (replicate (S n) TFree ++ ts).
      rewrite render_run, <- app_assoc. done. }
    pose proof (cleanup_skip (replicate n zero_entry) (Z.to_nat (tiles_len ts)) m' _ _ (nums + 1) He') as Hs.
    rewrite length_replicate in Hs.
    autorewrite with zlen in Hs. rewrite zlen_render in Hs. change (1 + zlen []) with 1 in Hs.
    rewrite Hs by (apply Forall_replicate; simpl; lia).
    specialize (IH (dn ++ replicate (S n) TFree) m' (nums + 1)).
    rewrite tiles_len_app, tiles_len_free in IH.
    replace (tiles_len dn + 1 + Z.of_nat n) with (tiles_len dn + Z.of_nat (S n)) by lia.
    rewrite IH; [|by subst m'; simpl; rewrite <- app_assoc|done|lia|lia].
    subst m'. simpl. f_equal. f_equal; [|unfold idle_count; simpl; lia].
    by rewrite <- app_assoc.
  - rewrite Hskip by auto. rewrite IH; [|by rewrite <- app_assoc|done|lia|lia].
    assert (reclaim_tile t = [t]) as Hr.
    { destruct t as [|v c n]; simpl in *; [done|]. by rewrite Hi. }
    assert (idle_count (t :: ts) = idle_count ts) as -> by (unfold idle_count; simpl; by rewrite Hi).
    by rewrite <- app_assoc, reclaim_cons, Hr.
Qed.

Lemma cleanup_tiles m ts :
  repr m ts -> segments_num m < 4294967296 ->
  plx_alm_cleanup_unused_entry m
  = Ret (set_entries m (render 0 (reclaim ts)), Z.of_nat (idle_count ts)).
Proof.
  intros (He & Hl & Hok) Hn. unfold plx_alm_cleanup_unused_entry. rewrite <- Hl.
  pose proof (length_le_tiles_len ts).
  apply (cleanup_loop_tiles ts [] m 0); [done|done|lia|lia].
Qed.

(** ** The search on tiles *)

(** A run of [n] free segments. *)
Definition has_run (n : nat) (ts : list tile) : Prop :=
  exists l1 l2, ts = l1 ++ replicate n TFree ++ l2.

(** Number of free segments at the end. *)
Fixpoint lead (ts : list tile) : nat :=
  match ts with TFree :: ts' => S (lead ts') | _ => O end.
Definition trail (ts : list tile) : nat := lead (rev ts).

Lemma lead_replicate k l : (k <= lead (replicate k TFree ++ l))%nat.
Proof. induction k; simpl; lia. Qed.

Lemma trail_suffix k l : (k <= trail (l ++ replicate k TFree))%nat.
Proof.
  unfold trail. rewrite rev_app_distr.
  replace (rev (replicate k TFree)) with (replicate k TFree).
  { apply lead_replicate. }
  rewrite <- (reverse_replicate k TFree) at 1. unfold reverse. by rewrite rev_alt.
Qed.

Lemma trail_snoc_free ts : trail (ts ++ [TFree]) = S (trail ts).
Proof. unfold trail. by rewrite rev_app_distr. Qed.

Lemma trail_snoc_blk ts v c n : trail (ts ++ [TBlk v c n]) = O.
Proof. unfold trail. by rewrite rev_app_distr. Qed.


Lemma lead_take ts : take (lead ts) ts = replicate (lead ts) TFree.
Proof. induction ts as [|[|v c n] ts IH]; simpl; [done| by rewrite IH |done]. Qed.

Lemma trail_split ts : exists l, ts = l ++ replicate (trail ts) TFree.
Proof.
  exists (rev (drop (lead (rev ts)) (rev ts))).
  rewrite <- (rev_involutive ts) at 1.
  rewrite <- (take_drop (lead (rev ts)) (rev ts)) at 1.
  rewrite rev_app_distr, lead_take. f_equal. unfold trail.
  rewrite <- (reverse_replicate (lead (rev ts)) TFree) at 2. unfold reverse. by rewrite rev_alt.
Qed.

Section Scan.
(** The request: masked address [a], number of segments [segs]. *)
Context (sz a : Z) (segs : nat).

(** The request fits into a block. *)
Definition embeds (t : tile) : bool :=
  match t with
  | TFree => false
  | TBlk v c n => (v <=? a) && ((a - v) / sz + Z.of_nat segs <=? Z.of_nat (S n))
  end.

Fixpoint tscan (p : Z) (ts : list tile) (free : nat) (mtch : Z) : Z * Z :=
  match ts with
  | [] => (mtch, 0)
  | TFree :: ts' =>
      if mtch =? NO_MATCH
      then tscan (p + 1) ts' (S free)
             (if Z.of_nat (S free) =? Z.of_nat segs then p - Z.of_nat segs + 1 else mtch)
      else tscan (p + 1) ts' free mtch
  | TBlk v c n as t :: ts' =>
      if embeds t then (p, (a - v) / sz)
      else tscan (p + Z.of_nat (S n)) ts' 0 mtch
  end.

(** What the search finds. *)
Inductive scan_result (ts : list tile) : Z * Z -> Prop :=
| SR_embed ts1 v c n ts2 :
    ts = ts1 ++ TBlk v c n :: ts2 -> embeds (TBlk v c n) = true ->
    scan_result ts (tiles_len ts1, (a - v) / sz)
| SR_free ts1 ts2 :
    ts = ts1 ++ replicate segs TFree ++ ts2 ->
    Forall (fun t => embeds t = false) ts ->
    scan_result ts (tiles_len ts1, 0)
| SR_none :
    Forall (fun t => embeds t = false) ts -> ~ has_run segs ts ->
    scan_result ts (NO_MATCH, 0).

(** State of the search after the tiles [ts0]. *)
Definition scan_inv (ts0 : list tile) (free : nat) (mtch : Z) : Prop :=
  Forall (fun t => embeds t = false) ts0
  /\ ((mtch = NO_MATCH /\ free = trail ts0 /\ (free < segs)%nat /\ ~ has_run segs ts0)
      \/ (exists l1 l2, ts0 = l1 ++ replicate segs TFree ++ l2 /\ mtch = tiles_len l1)).

Lemma has_run_snoc n ts t :
  has_run n (ts ++ [t]) -> has_run n ts \/ (n <= trail (ts ++ [t]))%nat.
Proof.
  intros (l1 & l2 & H). destruct l2 as [|x l2 _] using rev_ind.
  - right. rewrite app_nil_r in H. rewrite H. apply trail_suffix.
  - left. exists l1, l2. rewrite !app_assoc in H. apply app_inj_tail in H as [-> _].
    by rewrite <- app_assoc.
Qed.

Lemma scan_inv_extend ts0 t free mtch :
  scan_inv ts0 free mtch -> embeds t = false -> mtch <> NO_MATCH ->
  forall free', scan_inv (ts0 ++ [t]) free' mtch.
Proof.
  intros (Hf & [(? & _)|(l1 & l2 & -> & ->)]) Ht Hm free'; [done|]. split.
  - apply Forall_app; auto.
  - right. exists l1, (l2 ++ [t]). by rewrite <- !app_assoc.
Qed.

Lemma scan_inv_free ts0 free :
  scan_inv ts0 free NO_MATCH -> tiles_len ts0 < 4294967295 ->
  scan_inv (ts0 ++ [TFree]) (S free)
    (if Z.of_nat (S free) =? Z.of_nat segs then tiles_len ts0 - Z.of_nat segs + 1 else NO_MATCH).
Proof.
  intros (Hf & [(_ & Hfr & Hlt & Hnr)|(l1 & l2 & -> & He)]) Hlen.
  2: { exfalso. rewrite !tiles_len_app, <- He in Hlen. pose proof (tiles_len_nonneg l2).
       rewrite tiles_len_free in Hlen. unfold NO_MATCH in Hlen.
       change (u32 (-1)) with 4294967295 in Hlen. lia. }
  split; [apply Forall_app; auto|].
  destruct (_ =? _) eqn:E; bools.
  - right. destruct (trail_split ts0) as [l Hl]. exists l, [].
    rewrite app_nil_r. split.
    + rewrite Hl at 1. rewrite <- app_assoc. f_equal. rewrite <- Hfr.
      replace segs with (S free) by lia. by rewrite <- replicate_cons_app.
    + rewrite Hl at 1. rewrite tiles_len_app, tiles_len_free, <- Hfr. lia.
  - left. repeat split; [by rewrite trail_snoc_free, Hfr|lia|].
    intros [?|Ht]%has_run_snoc; [done|]. rewrite trail_snoc_free in Ht. lia.
Qed.

Lemma scan_inv_blk ts0 free v c n :
  (0 < segs)%nat ->
  scan_inv ts0 free NO_MATCH -> tiles_len ts0 < 4294967295 ->
  embeds (TBlk v c n) = false -> scan_inv (ts0 ++ [TBlk v c n]) 0 NO_MATCH.
Proof.
  intros Hs (Hf & [(_ & Hfr & Hlt & Hnr)|(l1 & l2 & -> & He)]) Hlen Ht.
  2: { exfalso. rewrite !tiles_len_app, <- He in Hlen. pose proof (tiles_len_nonneg l2).
       rewrite tiles_len_free in Hlen. change NO_MATCH with 4294967295 in Hlen. lia. }
  split; [apply Forall_app; auto|]. left.
  repeat split; [by rewrite trail_snoc_blk|done|].
  intros [?|Hk]%has_run_snoc; [done|]. rewrite trail_snoc_blk in Hk. lia.
Qed.

Lemma tscan_result ts0 ts free mtch :
  (0 < segs)%nat -> tiles_len (ts0 ++ ts) < 4294967295 ->
  scan_inv ts0 free mtch ->
  scan_result (ts0 ++ ts) (tscan (tiles_len ts0) ts free mtch).
Proof.
  intros Hs. revert ts0 free mtch. induction ts as [|t ts IH]; intros ts0 free mtch Hlen Hinv.
  { rewrite app_nil_r. simpl. destruct Hinv as (Hf & [(-> & _ & _ & ?)|(l1 & l2 & -> & ->)]).
    - by apply SR_none.
    - by eapply SR_free. }
  rewrite tiles_len_app, tiles_len_cons in Hlen. pose proof (tiles_len_nonneg ts).
  pose proof (tile_len_pos t).
  assert (Hgo : forall free' mtch', scan_inv (ts0 ++ [t]) free' mtch' ->
    scan_result (ts0 ++ t :: ts) (tscan (tiles_len ts0 + tile_len t) ts free' mtch')).
  { intros f' m' Hi. specialize (IH (ts0 ++ [t]) f' m'). rewrite <- app_assoc in IH. simpl in IH.
    assert (tiles_len (ts0 ++ [t]) = tiles_len ts0 + tile_len t) as Hx
      by (rewrite tiles_len_app; unfold tiles_len; simpl; lia).
    rewrite Hx in IH. apply IH; [rewrite tiles_len_app, tiles_len_cons; lia|done]. }
  destruct t as [|v c n]; simpl.
  - destruct (mtch =? NO_MATCH) eqn:E; bools.
    + subst. apply Hgo. apply scan_inv_free; [done|lia].
    + apply Hgo. by eapply scan_inv_extend.
  - fold (embeds (TBlk v c n)). destruct (embeds (TBlk v c n)) eqn:Em.
    + by eapply SR_embed.
    + apply Hgo. destruct (decide (mtch = NO_MATCH)) as [->|Hm].
      * eapply scan_inv_blk; [done|done|lia|done].
      * by eapply scan_inv_extend.
Qed.
End Scan.

(** The source's test for an embedding is [embeds]. *)
Lemma embeds_test m a segs v c n :
  0 < segment_size m -> 0 < segments_num m <= 256 ->
  (0 < segs)%nat -> Z.of_nat segs < 4294967296 -> Z.of_nat (S n) <= segments_num m ->
  (v <=? a)
  && (((a - v) / segment_size m <? segments_num m)
      && (u64 ((a - v) / segment_size m + Z.of_nat segs) <=? Z.of_nat (S n)))
  = embeds (segment_size m) a segs (TBlk v c n).
Proof.
  intros Hsz Hnum Hs Hs32 Hn. unfold embeds. destruct (v <=? a) eqn:Ev; [|done]. bools. simpl andb.
  set (idx := (a - v) / segment_size m).
  assert (0 <= idx) by (apply Z.div_pos; lia).
  destruct (idx <? segments_num m) eqn:Ei; bools.
  - simpl. rewrite u64_small by lia. done.
  - simpl. symmetry. apply Z.leb_gt. lia.
Qed.

Lemma add_scan_tscan m a segs ts :
  0 < segment_size m -> 0 < segments_num m <= 256 ->
  (0 < segs)%nat -> Z.of_nat segs < 4294967296 ->
  forall ts0 fuel free mtch,
  entries m = render 0 (ts0 ++ ts) -> tiles_len (ts0 ++ ts) = segments_num m ->
  Forall (tile_ok (segment_size m)) ts ->
  (length ts <= fuel)%nat -> Z.of_nat free <= tiles_len ts0 ->
  add_scan fuel m a (Z.of_nat segs) (tiles_len ts0) (Z.of_nat free) mtch
  = Ret (tscan (segment_size m) a segs (tiles_len ts0) ts free mtch).
Proof.
  intros Hsz Hnum Hs Hs32. induction ts as [|t ts IH]; intros ts0 fuel free mtch He Hl Hok Hfuel Hfree.
  { rewrite app_nil_r in Hl. destruct fuel; simpl; if_false; done. }
  apply Forall_cons_iff in Hok as [Ht Hok]. simpl in Hfuel.
  pose proof (tiles_len_nonneg ts). pose proof (tile_len_pos t). pose proof (tiles_len_nonneg ts0).
  rewrite tiles_len_app, tiles_len_cons in Hl.
  assert (Hx : tiles_len (ts0 ++ [t]) = tiles_len ts0 + tile_len t)
    by (rewrite tiles_len_app; unfold tiles_len; simpl; lia).
  assert (Hgo : forall fuel' free' mtch', (length ts <= fuel')%nat ->
    Z.of_nat free' <= tiles_len ts0 + tile_len t ->
    add_scan fuel' m a (Z.of_nat segs) (tiles_len ts0 + tile_len t) (Z.of_nat free') mtch'
    = Ret (tscan (segment_size m) a segs (tiles_len ts0 + tile_len t) ts free' mtch')).
  { intros fu fr mt Hfu Hfr. rewrite <- Hx. apply IH; [by rewrite <- app_assoc| |done|done|lia].
    rewrite <- app_assoc, tiles_len_app. simpl app. rewrite tiles_len_cons. lia. }
  destruct fuel as [|fuel]; [lia|].
  destruct t as [|v c n]; cbn [add_scan tscan]; simpl tile_len in *; if_true.
  - assert (aget (entries m) (tiles_len ts0) = Ret zero_entry) as ->.
    { rewrite He. change (TFree :: ts) with (replicate 1 TFree ++ ts).
      rewrite render_run, <- (zlen_render 0 ts0). apply aget_mid. }
    run_bind. cbn [counter zero_entry]. if_true.
    destruct (mtch =? NO_MATCH) eqn:E; [|apply Hgo; lia].
    rewrite (u32_small (Z.of_nat free + 1)) by lia.
    replace (Z.of_nat free + 1) with (Z.of_nat (S free)) by lia.
    rewrite Hgo by lia. do 2 f_equal.
    destruct (_ =? Z.of_nat segs) eqn:Ef; [|done]. bools. by rewrite u32_small by lia.
  - rewrite He, aget_head. run_bind. cbn [counter value segments_count].
    destruct Ht as (Hc & Hv & _). if_false.
    rewrite (embeds_test m a segs v c n) by lia.
    destruct (embeds _ _ _ _) eqn:Em; [by rewrite u32_small by lia|].
    apply (Hgo fuel O mtch); lia.
Qed.

(** ** The commit on tiles *)

Lemma set_starts_run mtch l :
  0 <= mtch -> forall i pre post,
  zlen pre = mtch + i -> 0 <= i -> mtch + i + zlen l < 65536 ->
  set_starts (length l) (pre ++ l ++ post) mtch i
  = Ret (pre ++ ((fun e => set_start e mtch) <$> l) ++ post).
Proof.
  intros Hm. induction l as [|e l IH]; intros i pre post Hp Hi Hb; [done|].
  rewrite zlen_cons in Hb. pose proof (zlen_nonneg l). simpl.
  rewrite u32_small by lia. rewrite <- Hp, aget_mid. simpl. rewrite aset_mid. simpl.
  rewrite u16_small by lia.
  specialize (IH (i + 1) (pre ++ [set_start e mtch]) post).
  rewrite <- !app_assoc in IH. simpl in IH. apply IH; [|lia|lia].
  rewrite zlen_app, Hp. unfold zlen. simpl. lia.
Qed.

Lemma add_commit_new ts1 k ts2 a :
  tiles_len ts1 + Z.of_nat (S k) < 65536 ->
  add_commit (render 0 (ts1 ++ replicate (S k) TFree ++ ts2)) (tiles_len ts1) a (Z.of_nat (S k))
  = Ret (render 0 (ts1 ++ TBlk a 2 k :: ts2), 0).
Proof.
  intros Hb. pose proof (tiles_len_nonneg ts1). unfold add_commit.
  rewrite render_run. simpl replicate. simpl app. rewrite <- (zlen_render 0 ts1), aget_mid. simpl.
  rewrite aset_mid. simpl. rewrite zlen_render, (u16_small (Z.of_nat (S k))) by lia.
  set (h := set_block _ _ _). set (post := render (tiles_len ts1 + Z.of_nat (S k)) ts2).
  pose proof (set_starts_run (tiles_len ts1) (h :: replicate k zero_entry) ltac:(lia)
                0 (render 0 ts1) post) as Hss.
  rewrite zlen_render, Z.add_0_r, zlen_cons, zlen_replicate in Hss.
  simpl length in Hss. rewrite length_replicate in Hss.
  rewrite Nat2Z.id. simpl app in Hss. rewrite Hss by lia. simpl.
  rewrite <- (zlen_render 0 ts1), aget_mid. simpl. rewrite aset_mid. simpl.
  rewrite render_blk, fmap_replicate, zlen_render. done.
Qed.

Lemma add_commit_embed ts1 v c n ts2 a segs :
  1 <= c < 65535 ->
  add_commit (render 0 (ts1 ++ TBlk v c n :: ts2)) (tiles_len ts1) a segs
  = Ret (render 0 (ts1 ++ TBlk v (c + 1) n :: ts2), - EEXIST).
Proof.
  intros Hc. unfold add_commit. rewrite aget_head. simpl. if_false. simpl.
  rewrite aget_head. simpl. if_false.
  rewrite render_blk, <- (zlen_render 0 ts1), aset_mid. simpl.
  rewrite u16_small by lia. by rewrite render_blk, zlen_render.
Qed.

(** ** Specification of an allocation *)

Definition req_addr (m : plx_alm) (addr : Z) : Z := addr - addr mod segment_size m.
Definition req_segs (m : plx_alm) (addr size : Z) : nat :=
  Z.to_nat ((addr mod segment_size m + size + segment_size m - 1) / segment_size m).

(** The request is placed: into an existing block, or into a free run. *)
Inductive placed (sz a : Z) (segs : nat) : list tile -> list tile -> Z -> Z * Z -> Prop :=
| P_embed ts1 v c n ts2 :
    embeds sz a segs (TBlk v c n) = true ->
    placed sz a segs (ts1 ++ TBlk v c n :: ts2) (ts1 ++ TBlk v (c + 1) n :: ts2)
      (- EEXIST) (tiles_len ts1 + (a - v) / sz, Z.of_nat segs)
| P_new ts1 ts2 :
    Forall (fun t => embeds sz a segs t = false) (ts1 ++ replicate segs TFree ++ ts2) ->
    placed sz a segs (ts1 ++ replicate segs TFree ++ ts2)
      (ts1 ++ TBlk a 2 (pred segs) :: ts2) 0 (tiles_len ts1, Z.of_nat segs).

Definition no_room (sz a : Z) (segs : nat) (ts : list tile) : Prop :=
  Forall (fun t => embeds sz a segs t = false) ts /\ ~ has_run segs ts.

(** The four outcomes of [plx_alm_add_entry]. *)
Inductive add_outcome (sz num a : Z) (segs : nat) (size : Z) (ts : list tile)
    : list tile -> Z -> option (Z * Z) -> Prop :=
| AO_too_big : sz * num < size -> add_outcome sz num a segs size ts ts (- ENOMEM) None
| AO_placed ts' rc p :
    placed sz a segs ts ts' rc p -> add_outcome sz num a segs size ts ts' rc (Some p)
| AO_reclaimed ts' rc p :
    no_room sz a segs ts -> placed sz a segs (reclaim ts) ts' rc p ->
    add_outcome sz num a segs size ts ts' rc (Some p)
| AO_full :
    no_room sz a segs ts -> no_room sz a segs (reclaim ts) ->
    add_outcome sz num a segs size ts (reclaim ts) (- ENOMEM) None.

(** The arithmetic of a request. *)
Lemma request_masks m addr size :
  geometry m -> fits 64 addr -> 0 < size <= segment_size m * segments_num m ->
  Z.land addr (Z.lnot (u64 (segment_size m - 1))) = req_addr m addr
  /\ u32 (DIV_ROUND_UP (u64 (Z.land addr (u64 (segment_size m - 1)) + size)) (segment_size m))
     = Z.of_nat (req_segs m addr size)
  /\ (0 < req_segs m addr size)%nat /\ Z.of_nat (req_segs m addr size) <= segments_num m + 1.
Proof.
  intros (Hnum & (k & Hk & Hsz) & Hlt) Haddr Hsize.
  unfold req_addr, req_segs, DIV_ROUND_UP.
  assert (0 < segment_size m) by (rewrite Hsz; apply Z.pow_pos_nonneg; lia).
  rewrite (u64_small (segment_size m - 1)) by nia.
  pose proof (Z.mod_pos_bound addr (segment_size m) ltac:(lia)) as Hmod.
  rewrite Hsz in *. rewrite land_not_mask, land_mask by lia. set (sz := 2 ^ k) in *.
  assert (Hs : 0 < (addr mod sz + size + sz - 1) / sz <= segments_num m + 1).
  { split; [apply Z.div_str_pos; lia|]. apply Z.lt_succ_r, Z.div_lt_upper_bound; nia. }
  rewrite (u64_small (_ + size)) by nia. rewrite u64_small by nia.
  rewrite u32_small by lia. lia.
Qed.

(** The search finds a place exactly as [scan_result] says. *)
Lemma add_scan_result m ts a segs :
  geometry m -> repr m ts -> (0 < segs)%nat -> Z.of_nat segs < 4294967296 ->
  exists r, add_scan (Z.to_nat (segments_num m)) m a (Z.of_nat segs) 0 0 NO_MATCH = Ret r
            /\ scan_result (segment_size m) a segs ts r.
Proof.
  intros (Hnum & (k & Hk & Hsz) & Hlt) (He & Hl & Hok) Hs Hs32.
  assert (0 < segment_size m) by (rewrite Hsz; apply Z.pow_pos_nonneg; lia).
  pose proof (length_le_tiles_len ts).
  eexists. split.
  - apply (add_scan_tscan m a segs ts ltac:(done) ltac:(done) ltac:(done) ltac:(done) [] _ O);
      [done|done|done|lia|done].
  - apply (tscan_result (segment_size m) a segs [] ts O NO_MATCH); [done|simpl; lia|].
    split; [done|]. left. repeat split; [done|].
    intros (l1 & l2 & Hr). symmetry in Hr. apply app_nil in Hr as [_ Hr].
    apply app_nil in Hr as [Hr _]. destruct segs; [lia|done].
Qed.

Lemma reclaim_ok sz ts : Forall (tile_ok sz) ts -> Forall (tile_ok sz) (reclaim ts).
Proof.
  induction 1 as [|t ts Ht _ IH]; [done|]. rewrite reclaim_cons. apply Forall_app. split; [|done].
  destruct t as [|v c n]; simpl; [by repeat constructor|].
  destruct (c =? 1); [|by constructor]. constructor; [done|]. by apply Forall_replicate.
Qed.

Lemma reclaim_repr m ts : repr m ts -> repr (set_entries m (render 0 (reclaim ts))) (reclaim ts).
Proof.
  intros (He & Hl & Hok). repeat split; simpl; [by rewrite tiles_len_reclaim|by apply reclaim_ok].
Qed.

Lemma not_idle_reclaim ts : idle_count ts = O -> reclaim ts = ts.
Proof.
  unfold idle_count. induction ts as [|t ts IH]; [done|]. rewrite reclaim_cons.
  destruct t as [|v c n]; simpl; [intros; by rewrite IH|].
  destruct (c =? 1); simpl; [lia|]. intros. by rewrite IH.
Qed.

Lemma idle_reclaim ts : idle_count (reclaim ts) = O.
Proof.
  unfold idle_count. induction ts as [|t ts IH]; [done|].
  rewrite reclaim_cons, List.filter_app, length_app, IH, Nat.add_0_r.
  destruct t as [|v c n]; simpl; [done|]. destruct (c =? 1) eqn:E; [|simpl; by rewrite E].
  simpl. clear. by induction n.
Qed.

Lemma reclaim_count P ts :
  Forall (fun t => match t with TBlk _ c _ => P c | TFree => True end) ts ->
  Forall (fun t => match t with TBlk _ c _ => P c | TFree => True end) (reclaim ts).
Proof.
  induction 1 as [|t ts Ht _ IH]; [done|]. rewrite reclaim_cons. apply Forall_app. split; [|done].
  destruct t as [|v c n]; simpl; [by repeat constructor|].
  destruct (c =? 1); [|by constructor]. constructor; [done|]. by apply Forall_replicate.
Qed.

(** No block is at the maximum of its 16-bit reference count. *)
Definition counts_below (b : Z) (ts : list tile) : Prop :=
  Forall (fun t => match t with TBlk _ c _ => c < b | TFree => True end) ts.

Lemma req_addr_ok m addr :
  geometry m -> fits 64 addr -> fits 64 (req_addr m addr) /\ req_addr m addr mod segment_size m = 0.
Proof.
  intros (_ & (k & Hk & Hsz) & _) Ha. unfold req_addr.
  assert (0 < segment_size m) by (rewrite Hsz; apply Z.pow_pos_nonneg; lia).
  pose proof (Z.mod_pos_bound addr (segment_size m) ltac:(lia)).
  pose proof (Z.mod_le addr (segment_size m)). unfold fits in *. split; [lia|].
  rewrite Zminus_mod_idemp_r, Z.sub_diag. by rewrite Z.mod_0_l by lia.
Qed.

Lemma placed_repr m a segs ts ts' rc p :
  repr m ts -> counts_below 65535 ts -> (0 < segs)%nat ->
  fits 64 a -> a mod segment_size m = 0 ->
  placed (segment_size m) a segs ts ts' rc p ->
  repr (set_entries m (render 0 ts')) ts'.
Proof.
  intros (He & Hl & Hok) Hc Hs Ha Ham Hp. split; [done|].
  unfold counts_below in Hc.
  destruct Hp as [ts1 v c n ts2 Hem|ts1 ts2 Hem]; simpl;
    rewrite ?Forall_app, ?Forall_cons_iff in *; rewrite !tiles_len_app, ?tiles_len_cons in *;
    destruct_and!; simpl in *; destruct_and?; split_and!; try done; try lia.
  rewrite tiles_len_free in Hl. lia.
Qed.

Lemma add_entry_step depth m ts addr size :
  geometry m -> repr m ts -> counts_below 65535 ts -> fits 64 addr ->
  0 < size <= segment_size m * segments_num m ->
  (exists ts' rc p,
     placed (segment_size m) (req_addr m addr) (req_segs m addr size) ts ts' rc p
     /\ add_entry_rec depth m addr size = Ret (set_entries m (render 0 ts'), rc, Some p))
  \/ (no_room (segment_size m) (req_addr m addr) (req_segs m addr size) ts
      /\ add_entry_rec depth m addr size
         = if Z.of_nat (idle_count ts) =? 0
           then Ret (set_entries m (render 0 (reclaim ts)), - ENOMEM, None)
           else match depth with
                | O => Spin
                | S d => add_entry_rec d (set_entries m (render 0 (reclaim ts))) addr size
                end).
Proof.
  intros Hg Hr Hc Ha Hsize. destruct (request_masks m addr size Hg Ha Hsize) as (Hma & Hms & Hs & Hs').
  pose proof Hg as (Hnum & (k & Hk & Hsz) & Hlt).
  assert (0 < segment_size m) by (rewrite Hsz; apply Z.pow_pos_nonneg; lia).
  assert (Hbody : add_entry_rec depth m addr size =
    '(mtch, idx) ← add_scan (Z.to_nat (segments_num m)) m (req_addr m addr)
                     (Z.of_nat (req_segs m addr size)) 0 0 NO_MATCH;
    if negb (mtch =? NO_MATCH) then
      '(es, rc) ← add_commit (entries m) mtch (req_addr m addr) (Z.of_nat (req_segs m addr size));
      Ret (set_entries m es, rc, Some (u32 (mtch + u32 idx), Z.of_nat (req_segs m addr size)))
    else
      '(mngr', nums) ← plx_alm_cleanup_unused_entry m;
      if negb (nums =? 0) then
        match depth with O => Spin | S depth' => add_entry_rec depth' mngr' addr size end
      else Ret (mngr', - ENOMEM, None)).
  { destruct depth; cbn [add_entry_rec]; rewrite Hma, Hms;
      rewrite (u64_small (segment_size m * segments_num m)) by nia;
      do 2 (replace (size =? 0) with false by (symmetry; apply Z.eqb_neq; lia));
      replace (segment_size m * segments_num m <? size) with false by (symmetry; apply Z.ltb_ge; lia);
      done. }
  rewrite Hbody. clear Hbody.
  destruct (add_scan_result m ts (req_addr m addr) (req_segs m addr size) Hg Hr Hs ltac:(lia))
    as (r & -> & Hres).
  pose proof Hr as (He & Hl & Hok). run_bind.
  destruct Hres as [ts1 v c n ts2 -> Hem|ts1 ts2 -> Hne|Hne Hnr].
  - left. pose proof (tiles_len_nonneg ts1). pose proof (tiles_len_nonneg ts2).
    rewrite tiles_len_app, tiles_len_cons in Hl. simpl tile_len in Hl.
    unfold counts_below in Hc. rewrite Forall_app, Forall_cons_iff in Hok.
    rewrite Forall_app, Forall_cons_iff in Hc. destruct Hok as (_ & (? & _) & _), Hc as (_ & ? & _).
    pose proof Hem as Hem'. unfold embeds in Hem'. bools.
    assert (0 <= (req_addr m addr - v) / segment_size m) by (apply Z.div_pos; lia).
    rewrite (proj2 (Z.eqb_neq _ _)) by (change NO_MATCH with 4294967295; lia). simpl negb. cbv iota.
    rewrite He, add_commit_embed by lia. run_bind.
    rewrite (u32_small (_ / _)), u32_small by lia. eexists _, _, _. split; [|done]. by apply P_embed.
  - left. pose proof (tiles_len_nonneg ts1). pose proof (tiles_len_nonneg ts2).
    rewrite !tiles_len_app, tiles_len_free in Hl.
    rewrite (proj2 (Z.eqb_neq _ _)) by (change NO_MATCH with 4294967295; lia). simpl negb. cbv iota.
    pose proof (P_new _ _ _ _ _ Hne) as Hp.
    destruct (req_segs m addr size) as [|kk]; [lia|].
    rewrite He, add_commit_new by lia. run_bind.
    rewrite (u32_small 0), Z.add_0_r, u32_small by lia.
    eexists _, _, _. split; [|done]. apply Hp.
  - right. split; [done|]. rewrite Z.eqb_refl. simpl negb. cbv iota.
    rewrite (cleanup_tiles m ts) by (done || lia). run_bind. by destruct (_ =? 0).
Qed.

(** [plx_alm_add_entry] refines its specification: it returns, and the new
    array is the one [add_outcome] allows. *)
Lemma add_entry_refines m ts addr size :
  geometry m -> repr m ts -> counts_below 65535 ts -> fits 64 addr -> 0 < size ->
  exists ts' rc o,
    plx_alm_add_entry m addr size = Ret (set_entries m (render 0 ts'), rc, o)
    /\ repr (set_entries m (render 0 ts')) ts'
    /\ add_outcome (segment_size m) (segments_num m) (req_addr m addr) (req_segs m addr size)
         size ts ts' rc o.
Proof.
  intros Hg Hr Hc Ha Hsize. unfold plx_alm_add_entry.
  pose proof Hg as (Hnum & (k & Hk & Hsz) & Hlt).
  assert (0 < segment_size m) by (rewrite Hsz; apply Z.pow_pos_nonneg; lia).
  destruct (decide (size <= segment_size m * segments_num m)) as [Hle|Hgt].
  2: { exists ts, (- ENOMEM), None. destruct Hr as (He & Hl & Hok).
       cbn [add_entry_rec]. rewrite (u64_small (segment_size m * segments_num m)) by nia.
       rewrite (proj2 (Z.ltb_lt _ _)), orb_true_r by lia.
       split; [by destruct m; simpl in *; subst|]. split; [done|]. apply AO_too_big; lia. }
  destruct (req_addr_ok m addr Hg Ha) as (Hf & Hm).
  destruct (request_masks m addr size Hg Ha ltac:(lia)) as (_ & _ & Hs & _).
  destruct (add_entry_step 2 m ts addr size Hg Hr Hc Ha ltac:(lia)) as [(ts' & rc & p & Hp & ->)|(Hnr & ->)].
  { exists ts', rc, (Some p). split; [done|]. split; [by eapply placed_repr|by apply AO_placed]. }
  destruct (_ =? 0) eqn:E; bools.
  { rewrite (not_idle_reclaim ts) by lia. exists ts, (- ENOMEM), None. split; [done|].
    pose proof (reclaim_repr m ts Hr) as Hr'. rewrite (not_idle_reclaim ts) in Hr' by lia.
    split; [done|].
    pose proof (AO_full (segment_size m) (segments_num m) (req_addr m addr)
                  (req_segs m addr size) size ts) as Hf'.
    rewrite (not_idle_reclaim ts) in Hf' by lia. auto. }
  set (m1 := set_entries m (render 0 (reclaim ts))).
  assert (Hr1 : repr m1 (reclaim ts)) by by apply reclaim_repr.
  assert (Hc1 : counts_below 65535 (reclaim ts)) by by apply (reclaim_count (fun c => c < 65535)).
  destruct (add_entry_step 1 m1 (reclaim ts) addr size Hg Hr1 Hc1 Ha ltac:(simpl; lia))
    as [(ts' & rc & p & Hp & ->)|(Hnr1 & ->)]; simpl set_entries in *.
  { exists ts', rc, (Some p). split; [done|]. split; [|by apply AO_reclaimed].
    exact (placed_repr m1 _ _ _ _ _ _ Hr1 Hc1 Hs Hf Hm Hp). }
  rewrite idle_reclaim. simpl. rewrite (not_idle_reclaim (reclaim ts)) by apply idle_reclaim.
  exists (reclaim ts), (- ENOMEM), None. split; [done|]. split; [done|]. by apply AO_full.
Qed.

(** ** Reading the table *)

(** The tile that holds a segment. *)
Lemma tile_at ts seg :
  0 <= seg < tiles_len ts ->
  exists ts1 t ts2, ts = ts1 ++ t :: ts2 /\ tiles_len ts1 <= seg < tiles_len ts1 + tile_len t.
Proof.
  revert seg. induction ts as [|t ts IH]; intros seg Hseg; [simpl in Hseg; lia|].
  rewrite tiles_len_cons in Hseg.
  destruct (decide (seg < tile_len t)) as [Hlt|Hge].
  - exists [], t, ts. split; [done|]. simpl. lia.
  - destruct (IH (seg - tile_len t) ltac:(lia)) as (ts1 & t' & ts2 & -> & Hr).
    exists (t :: ts1), t', ts2. rewrite tiles_len_cons. split; [done|lia].
Qed.

(** A position splits the tiles in one way only. *)
Lemma split_unique ts1 ts2 l1 l2 :
  ts1 ++ ts2 = l1 ++ l2 -> tiles_len ts1 = tiles_len l1 -> ts1 = l1 /\ ts2 = l2.
Proof.
  revert l1. induction ts1 as [|t ts1 IH]; intros [|t' l1] He Hl; simpl in He.
  - done.
  - rewrite tiles_len_cons in Hl. pose proof (tile_len_pos t'). pose proof (tiles_len_nonneg l1).
    simpl in Hl. lia.
  - rewrite tiles_len_cons in Hl. pose proof (tile_len_pos t). pose proof (tiles_len_nonneg ts1).
    simpl in Hl. lia.
  - injection He as -> He. rewrite !tiles_len_cons in Hl.
    destruct (IH l1 He ltac:(lia)) as [-> ->]. done.
Qed.

Lemma translate_block m ts1 v c n ts2 seg :
  entries m = render 0 (ts1 ++ TBlk v c n :: ts2) -> c <> 0 ->
  tiles_len ts1 <= seg <= tiles_len ts1 + Z.of_nat n ->
  translate m seg = Some (v + (seg - tiles_len ts1) * segment_size m, c).
Proof.
  intros He Hc Hs. unfold translate. rewrite He.
  destruct (aget_in_block ts1 v c n ts2 seg Hs) as (e & -> & ->). rewrite aget_head. simpl.
  rewrite (proj2 (Z.eqb_neq _ _)), (proj2 (Z.ltb_lt _ _)) by lia. done.
Qed.

Lemma translate_free m ts1 ts2 :
  entries m = render 0 (ts1 ++ TFree :: ts2) -> translate m (tiles_len ts1) = None.
Proof.
  intros He. unfold translate. rewrite He.
  assert (aget (render 0 (ts1 ++ TFree :: ts2)) (tiles_len ts1) = Ret zero_entry) as ->.
  { change (TFree :: ts2) with (replicate 1 TFree ++ ts2).
    rewrite render_run, <- (zlen_render 0 ts1). apply aget_mid. }
  cbn [start zero_entry]. destruct ts1 as [|[|v c n] ts1]; simpl app.
  - done.
  - done.
  - pose proof (aget_head [] v c n (ts1 ++ TFree :: ts2)) as Hh. simpl app in Hh.
    change (tiles_len []) with 0 in Hh. rewrite Hh. cbn [counter segments_count].
    rewrite tiles_len_cons. simpl tile_len. pose proof (tiles_len_nonneg ts1).
    rewrite (proj2 (Z.ltb_ge _ _)) by lia. by rewrite andb_false_r.
Qed.

Lemma translate_inv m ts seg x c :
  repr m ts -> translate m seg = Some (x, c) ->
  exists ts1 v n ts2,
    ts = ts1 ++ TBlk v c n :: ts2
    /\ tiles_len ts1 <= seg <= tiles_len ts1 + Z.of_nat n
    /\ x = v + (seg - tiles_len ts1) * segment_size m.
Proof.
  intros (He & Hl & Hok) Ht.
  assert (Hseg : 0 <= seg < tiles_len ts).
  { unfold translate in Ht. destruct (aget (entries m) seg) eqn:Hg; try done.
    apply aget_inv in Hg as [Hg _]. rewrite He, zlen_render in Hg. lia. }
  destruct (tile_at ts seg Hseg) as (ts1 & t & ts2 & -> & Hr).
  destruct t as [|v c' n]; simpl in Hr.
  - replace seg with (tiles_len ts1) in Ht by lia. by rewrite (translate_free m ts1 ts2) in Ht.
  - apply Forall_app in Hok as [_ [Hc _]%Forall_cons_iff]. simpl in Hc.
    rewrite (translate_block m ts1 v c' n ts2) in Ht by (done || lia).
    injection Ht as <- <-. exists ts1, v, n, ts2. split; [done|]. split; [lia|done].
Qed.

(** The tiles of a well-formed array with counts below [b]. *)
Lemma counts_of_entries b m ts :
  entries m = render 0 ts -> Forall (fun e => counter e < b) (entries m) -> counts_below b ts.
Proof.
  intros -> . generalize 0. induction ts as [|t ts IH]; intros p Hf; [constructor|].
  simpl in Hf. apply Forall_app in Hf as [Ht Hf]. constructor; [|by eapply IH].
  destruct t as [|v c n]; [done|]. simpl in Ht. by apply Forall_cons_iff in Ht as [Ht _].
Qed.

Lemma entries_of_counts b p ts : 0 < b -> counts_below b ts -> Forall (fun e => counter e < b) (render p ts).
Proof.
  intros Hb Hc. revert p. induction Hc as [|t ts Ht _ IH]; intros p; [constructor|]. cbn [render].
  apply Forall_app. split; [|done]. destruct t as [|v c n]; cbn; constructor; cbn; [lia|constructor|done|].
  by apply Forall_replicate.
Qed.

(** A tile that survives the clean-up keeps its place. *)
Lemma reclaim_keeps ts1 v c n ts2 :
  c <> 1 -> reclaim (ts1 ++ TBlk v c n :: ts2) = reclaim ts1 ++ TBlk v c n :: reclaim ts2.
Proof.
  intros Hc. unfold reclaim. rewrite bind_app. simpl.
  rewrite (proj2 (Z.eqb_neq _ _)) by done. done.
Qed.

(** Where a tile lies with respect to a three-way split. *)
Lemma tile_in_split ts1 (t : tile) ts2 l1 mid l2 :
  ts1 ++ t :: ts2 = l1 ++ mid ++ l2 ->
  (exists x, l1 = ts1 ++ t :: x /\ ts2 = x ++ mid ++ l2)
  \/ (exists m1 m2, mid = m1 ++ t :: m2 /\ ts1 = l1 ++ m1 /\ ts2 = m2 ++ l2)
  \/ (exists x, ts1 = l1 ++ mid ++ x /\ l2 = x ++ t :: ts2).
Proof.
  revert ts1. induction l1 as [|y l1 IH]; intros ts1 He.
  - right. revert ts1 He. induction mid as [|z mid IHm]; intros ts1 He; simpl in He.
    + right. exists ts1. eauto.
    + destruct ts1 as [|w ts1]; simpl in He; injection He as -> He.
      * left. exists [], mid. eauto.
      * destruct (IHm ts1 He) as [(m1 & m2 & -> & -> & ->)|(x & -> & ->)].
        -- left. exists (z :: m1), m2. eauto.
        -- right. exists x. eauto.
  - destruct ts1 as [|w ts1]; simpl in He; injection He as -> He.
    + left. exists l1. eauto.
    + destruct (IH ts1 He) as [(x & -> & ->)|[(m1 & m2 & -> & -> & ->)|(x & -> & ->)]].
      * left. exists x. eauto.
      * right. left. exists m1, m2. eauto.
      * right. right. exists x. eauto.
Qed.

(** A block outside a replaced part keeps its place. *)
Lemma keep_outside ts1 v c n ts2 l1 mid mid' l2 :
  ts1 ++ TBlk v c n :: ts2 = l1 ++ mid ++ l2 -> tiles_len mid = tiles_len mid' ->
  TBlk v c n ∉ mid ->
  exists ts1' ts2', l1 ++ mid' ++ l2 = ts1' ++ TBlk v c n :: ts2' /\ tiles_len ts1' = tiles_len ts1.
Proof.
  intros He Hl Hn.
  destruct (tile_in_split _ _ _ _ _ _ He) as [(x & -> & ->)|[(m1 & m2 & -> & _)|(x & -> & ->)]].
  - exists ts1, (x ++ mid' ++ l2). by rewrite <- app_assoc.
  - exfalso. apply Hn, list_elem_of_In, in_elt.
  - exists (l1 ++ mid' ++ x), ts2. rewrite <- !app_assoc, !tiles_len_app. split; [done|lia].
Qed.

(** Placing a request keeps every block, with a count that never drops. *)
Lemma placed_keeps sz a segs ts ts' rc p ts1 v c n ts2 :
  placed sz a segs ts ts' rc p -> (0 < segs)%nat -> ts = ts1 ++ TBlk v c n :: ts2 ->
  exists ts1' c' ts2', ts' = ts1' ++ TBlk v c' n :: ts2' /\ tiles_len ts1' = tiles_len ts1
                       /\ c <= c' <= c + 1.
Proof.
  intros Hp Hs He. destruct Hp as [l1 v' c' n' l2 Hem|l1 l2 Hne]; symmetry in He.
  - destruct (tile_in_split _ _ _ _ [_] _ He) as [(x & -> & ->)|[(m1 & m2 & Hm & -> & ->)|(x & -> & ->)]].
    + exists ts1, c, (x ++ TBlk v' (c' + 1) n' :: l2). rewrite <- app_assoc. split; [done|]. split; [done|lia].
    + destruct m1 as [|? [|??]]; simplify_eq/=. exists l1, (c + 1), l2. rewrite app_nil_r.
      split; [done|]. split; [done|lia].
    + exists (l1 ++ TBlk v' (c' + 1) n' :: x), c, ts2. rewrite <- app_assoc. split; [done|].
      rewrite !tiles_len_app, tiles_len_cons. unfold tiles_len at 4. simpl. split; lia.
  - destruct (keep_outside _ _ _ _ _ _ _ [TBlk a 2 (pred segs)] _ He) as (t1 & t2 & Heq & Hl).
    + rewrite tiles_len_free. unfold tiles_len. simpl. lia.
    + intros [Hin _]%elem_of_replicate. done.
    + exists t1, c, t2. split; [exact Heq|]. split; [done|lia].
Qed.

(** Where a placed request ends up. *)
Lemma placed_translates m a segs ts ts' rc id n :
  placed (segment_size m) a segs ts ts' rc (id, n) -> (0 < segs)%nat ->
  0 < segment_size m -> a mod segment_size m = 0 -> Forall (tile_ok (segment_size m)) ts ->
  entries m = render 0 ts' ->
  (rc = 0 \/ rc = - EEXIST) /\ n = Z.of_nat segs
  /\ forall k, 0 <= k < n ->
       exists c, translate m (id + k) = Some (a + k * segment_size m, c) /\ 2 <= c.
Proof.
  intros Hp Hs Hsz Ham Hok He. inversion Hp as [l1 v c n' l2 Hem|l1 l2 Hne]; subst.
  - split; [auto|]. split; [done|]. intros k Hk. exists (c + 1).
    apply Forall_app in Hok as [_ [(Hc & Hv & Hvm) _]%Forall_cons_iff].
    unfold embeds in Hem. bools.
    assert (0 <= (a - v) / segment_size m) by (apply Z.div_pos; lia).
    rewrite (translate_block m l1 v (c + 1) n' l2) by (done || lia). split; [|lia].
    do 2 f_equal.
    assert (a - v = segment_size m * ((a - v) / segment_size m)) as Hd.
    { apply Z.div_exact; [lia|]. by rewrite Zminus_mod, Ham, Hvm, Z.sub_diag, Z.mod_0_l by lia. }
    lia.
  - split; [auto|]. split; [done|]. intros k Hk. exists 2.
    rewrite (translate_block m l1 a 2 (pred segs) l2) by (done || lia). split; [|lia].
    do 2 f_equal. lia.
Qed.

Lemma req_covers m addr size :
  geometry m -> fits 64 addr -> 0 < size ->
  req_addr m addr <= addr
  /\ addr + size <= req_addr m addr + Z.of_nat (req_segs m addr size) * segment_size m.
Proof.
  intros (_ & (k & Hk & Hsz) & _) Ha Hs. unfold req_addr, req_segs.
  assert (0 < segment_size m) by (rewrite Hsz; apply Z.pow_pos_nonneg; lia).
  pose proof (Z.mod_pos_bound addr (segment_size m) ltac:(lia)).
  set (q := addr mod segment_size m + size + segment_size m - 1).
  pose proof (Z.div_mod q (segment_size m) ltac:(lia)).
  pose proof (Z.mod_pos_bound q (segment_size m) ltac:(lia)).
  assert (0 <= q / segment_size m) by (apply Z.div_pos; lia). lia.
Qed.

(** Segments that are free or idle, read from the table. *)
Definition reclaimable (m : plx_alm) (seg : Z) : Prop :=
  match translate m seg with Some (_, c) => c = 1 | None => True end.

Lemma reclaimable_free m ts seg :
  repr m ts -> 0 <= seg < tiles_len ts -> reclaimable m seg ->
  exists l1 l2, reclaim ts = l1 ++ TFree :: l2 /\ tiles_len l1 = seg.
Proof.
  intros Hr Hseg Hc. destruct (tile_at ts seg Hseg) as (ts1 & t & ts2 & -> & Hs).
  unfold reclaim. rewrite bind_app. fold (reclaim ts1).
  change ((t :: ts2) ≫= reclaim_tile) with (reclaim_tile t ++ reclaim ts2).
  destruct t as [|v c n]; simpl in Hs.
  - exists (reclaim ts1), (reclaim ts2). rewrite tiles_len_reclaim. split; [done|lia].
  - destruct Hr as (He & _ & Hok). apply Forall_app in Hok as [_ [(Hc1 & _) _]%Forall_cons_iff].
    unfold reclaimable in Hc. rewrite (translate_block m ts1 v c n ts2) in Hc by (done || lia).
    subst c. simpl reclaim_tile.
    set (k := Z.to_nat (seg - tiles_len ts1)).
    exists (reclaim ts1 ++ replicate k TFree), (replicate (n - k) TFree ++ reclaim ts2).
    rewrite <- app_assoc, tiles_len_app, tiles_len_reclaim, tiles_len_free.
    split; [|lia]. f_equal.
    change (TFree :: replicate n TFree) with (replicate (S n) TFree).
    replace (S n) with (k + S (n - k))%nat by lia.
    by rewrite replicate_add, <- app_assoc.
Qed.

(** A window of free segments is a run. *)
Lemma window_run ts id n :
  0 <= id -> id + Z.of_nat n <= tiles_len ts ->
  (forall k, 0 <= k < Z.of_nat n ->
     exists l1 l2, ts = l1 ++ TFree :: l2 /\ tiles_len l1 = id + k) ->
  (0 < n)%nat -> has_run n ts.
Proof.
  intros Hid Hb Hk Hn.
  assert (forall j, (0 < j <= n)%nat ->
    exists l1 l2, ts = l1 ++ replicate j TFree ++ l2 /\ tiles_len l1 = id) as Hj.
  { induction j as [|j IH]; intros Hjn; [lia|]. destruct (decide (j = O)) as [->|Hne].
    - destruct (Hk 0 ltac:(lia)) as (l1 & l2 & -> & Hl). exists l1, l2. split; [done|lia].
    - destruct (IH ltac:(lia)) as (l1 & l2 & Ht & Hl).
      destruct (Hk (Z.of_nat j) ltac:(lia)) as (x1 & x2 & Hx & Hxl). exists l1, x2. split; [|done].
      rewrite Ht, app_assoc in Hx.
      apply split_unique in Hx as [<- Hx]; [|by rewrite tiles_len_app, tiles_len_free, Hl].
      rewrite Ht, Hx. by rewrite replicate_S_end, <- app_assoc. }
  destruct (Hj n ltac:(lia)) as (l1 & l2 & -> & _). by exists l1, l2.
Qed.

(** The result of a release on tiles. *)
Lemma del_tiles_shape sz ts1 v c n ts2 :
  Forall (tile_ok sz) (ts1 ++ TBlk v c n :: ts2) ->
  exists mid, (del_tiles ts1 v c n ts2).1 = ts1 ++ mid ++ ts2
    /\ tiles_len mid = Z.of_nat (S n)
    /\ Forall (tile_ok sz) (ts1 ++ mid ++ ts2)
    /\ (c = 1 /\ mid = replicate (S n) TFree
        /\ (del_tiles ts1 v c n ts2).2 = Some (tiles_len ts1, Z.of_nat (S n))
        \/ c <> 1 /\ mid = [TBlk v (c - 1) n] /\ (del_tiles ts1 v c n ts2).2 = None).
Proof.
  rewrite Forall_app, Forall_cons_iff. intros (H1 & (Hc & Hv & Hm) & H2).
  unfold del_tiles. destruct (c =? 1) eqn:E; bools.
  - exists (replicate (S n) TFree). rewrite tiles_len_free, !Forall_app. split_and!; try done; [|auto].
    by apply (Forall_replicate _ (S n)).
  - exists [TBlk v (c - 1) n]. rewrite !Forall_app.
    split_and!; [done|done|done| |done|auto].
    constructor; [|done]. simpl. split; [lia|done].
Qed.

Lemma translate_freed m ts1 n ts2 :
  entries m = render 0 (ts1 ++ replicate n TFree ++ ts2) ->
  forall k, 0 <= k < Z.of_nat n -> translate m (tiles_len ts1 + k) = None.
Proof.
  intros He k Hk.
  replace (tiles_len ts1 + k) with (tiles_len (ts1 ++ replicate (Z.to_nat k) TFree))
    by (rewrite tiles_len_app, tiles_len_free; lia).
  apply (translate_free _ _ (replicate (pred n - Z.to_nat k) TFree ++ ts2)). rewrite He. f_equal.
  replace n with (Z.to_nat k + S (pred n - Z.to_nat k))%nat at 1 by lia.
  by rewrite replicate_add, <- !app_assoc.
Qed.

(** A block other than the one replaced keeps its place. *)
Lemma other_block_keeps ts1 v c n ts2 mid l1 v' c' n' l2 :
  ts1 ++ TBlk v c n :: ts2 = l1 ++ TBlk v' c' n' :: l2 -> tiles_len mid = Z.of_nat (S n) ->
  tiles_len ts1 <> tiles_len l1 ->
  exists l1' l2', ts1 ++ mid ++ ts2 = l1' ++ TBlk v' c' n' :: l2' /\ tiles_len l1' = tiles_len l1.
Proof.
  intros Hts Hlen Hne. symmetry in Hts.
  destruct (tile_in_split _ _ _ ts1 [TBlk v c n] ts2 Hts)
    as [(y & -> & ->)|[(m1 & m2 & Hm & -> & ->)|(y & -> & ->)]].
  - exists l1, (y ++ mid ++ ts2). by rewrite <- app_assoc.
  - destruct m1 as [|? [|??]]; simplify_eq/=. by rewrite app_nil_r in Hne.
  - exists (ts1 ++ mid ++ y), l2. rewrite <- !app_assoc. split; [done|].
    rewrite !tiles_len_app, Hlen. unfold tiles_len at 4. simpl. lia.
Qed.

(** ** The consistency check *)

Lemma check_group_ok es i pre l post j :
  es = pre ++ l ++ post -> zlen pre = j ->
  Forall (fun e => start e = i /\ counter e = 0 /\ segments_count e = 0) l ->
  check_group (length l) es i j = Ret false.
Proof.
  intros -> <-. revert pre. induction l as [|e l IH]; intros pre Hl; [done|].
  apply Forall_cons_iff in Hl as [(Hs & Hc & Hn) Hl]. simpl. rewrite aget_mid. run_bind.
  rewrite Hs, Hc, Hn, !Z.eqb_refl. simpl. rewrite andb_false_r.
  specialize (IH (pre ++ [e])). rewrite <- app_assoc in IH. simpl in IH.
  rewrite <- IH by done. f_equal. rewrite zlen_app. done.
Qed.

Lemma check_loop_tiles m ts ts0 fuel :
  entries m = render 0 (ts0 ++ ts) -> tiles_len (ts0 ++ ts) = segments_num m ->
  Forall (tile_ok (segment_size m)) ts -> segments_num m < 65536 -> (length ts <= fuel)%nat ->
  check_loop fuel m (tiles_len ts0) 0 = Ret 0.
Proof.
  revert ts0 fuel. induction ts as [|t ts IH]; intros ts0 fuel He Hl Hok Hn Hf.
  { rewrite app_nil_r in Hl. destruct fuel; cbn [check_loop]; if_false; done. }
  apply Forall_cons_iff in Hok as [Ht Hok]. simpl in Hf. destruct fuel as [|fuel]; [lia|].
  pose proof (tiles_len_nonneg ts). pose proof (tile_len_pos t). pose proof (tiles_len_nonneg ts0).
  assert (Hx : tiles_len (ts0 ++ [t]) = tiles_len ts0 + tile_len t)
    by (rewrite tiles_len_app; unfold tiles_len; simpl; lia).
  assert (Hgo : check_loop fuel m (tiles_len ts0 + tile_len t) 0 = Ret 0).
  { rewrite <- Hx. apply IH; [by rewrite <- app_assoc|by rewrite <- app_assoc|done|done|lia]. }
  rewrite tiles_len_app, tiles_len_cons in Hl.
  cbn [check_loop]. if_true. destruct t as [|v c n].
  - assert (aget (entries m) (tiles_len ts0) = Ret zero_entry) as ->.
    { rewrite He. change (TFree :: ts) with (replicate 1 TFree ++ ts).
      rewrite render_run, <- (zlen_render 0 ts0). apply aget_mid. }
    run_bind. exact Hgo.
  - destruct Ht as (Hc & _). rewrite He, aget_head. run_bind. cbn [counter segments_count].
    simpl tile_len in *. if_false. if_false. rewrite u32_small by lia. if_false.
    assert (check_group (Z.to_nat (Z.of_nat (S n))) (render 0 (ts0 ++ TBlk v c n :: ts))
              (tiles_len ts0) (tiles_len ts0) = Ret false) as ->; [|exact Hgo].
    rewrite Nat2Z.id. cbn [check_group]. rewrite aget_head. run_bind.
    cbn [start counter segments_count]. rewrite Z.eqb_refl. simpl.
    rewrite <- (length_replicate n (mkEntry 0 0 0 (tiles_len ts0))).
    eapply (check_group_ok _ _ (render 0 ts0 ++ [mkEntry v c (Z.of_nat (S n)) (tiles_len ts0)])).
    + rewrite render_blk, length_replicate, <- app_assoc. simpl. done.
    + rewrite zlen_app, zlen_render. done.
    + apply Forall_replicate. done.
Qed.

Lemma check_wf m : wf m -> plx_alm_check m = Ret 0.
Proof.
  intros ((Hn & _) & ts & He & Hl & Hok). unfold plx_alm_check.
  pose proof (length_le_tiles_len ts).
  rewrite (check_loop_tiles m ts []); [done|done|done|done|lia|lia].
Qed.

(** ** The manager seen by its clients *)

(** What an allocation does, read through [translate]. *)
Lemma add_entry_ok m addr size :
  wf m -> Forall (fun e => counter e < 65535) (entries m) -> fits 64 addr -> 0 < size ->
  exists m' rc o,
    plx_alm_add_entry m addr size = Ret (m', rc, o) /\ wf m'
    /\ segment_size m' = segment_size m
    /\ match o with
       | Some (id, n) =>
           (rc = 0 \/ rc = - EEXIST)
           /\ req_addr m addr <= addr
           /\ addr + size <= req_addr m addr + n * segment_size m
           /\ forall k, 0 <= k < n ->
                exists c, translate m' (id + k) = Some (req_addr m addr + k * segment_size m, c)
                          /\ 2 <= c
       | None => rc = - ENOMEM
       end.
Proof.
  intros (Hg & ts & Hr) Hcnt Ha Hs.
  pose proof (counts_of_entries _ _ _ (proj1 Hr) Hcnt) as Hc.
  destruct (add_entry_refines m ts addr size Hg Hr Hc Ha Hs) as (ts' & rc & o & Hadd & Hr' & Ho).
  exists (set_entries m (render 0 ts')), rc, o. split; [done|]. split; [by split; [|exists ts']|].
  split; [done|].
  pose proof Hg as (_ & (k & Hk & Hsz) & _).
  assert (0 < segment_size m) by (rewrite Hsz; apply Z.pow_pos_nonneg; lia).
  destruct (req_addr_ok m addr Hg Ha) as (Hf & Hm).
  assert (Hpl : forall ts0 rc p, Forall (tile_ok (segment_size m)) ts0 ->
    placed (segment_size m) (req_addr m addr) (req_segs m addr size) ts0 ts' rc p ->
    let '(id, n) := p in
    (rc = 0 \/ rc = - EEXIST) /\ req_addr m addr <= addr
    /\ addr + size <= req_addr m addr + n * segment_size m
    /\ forall k, 0 <= k < n -> exists c,
         translate (set_entries m (render 0 ts')) (id + k)
         = Some (req_addr m addr + k * segment_size m, c) /\ 2 <= c).
  { intros ts0 rc' [id n] Hok Hp. destruct (req_covers m addr size Hg Ha Hs).
    destruct (decide (req_segs m addr size = O)) as [Hz|]; [lia|].
    destruct (placed_translates (set_entries m (render 0 ts')) _ _ _ _ _ _ _ Hp ltac:(lia)
                ltac:(done) Hm Hok eq_refl) as (? & -> & ?). auto. }
  destruct Hr as (_ & _ & Hok). destruct Ho as [|? ? [id n] Hp|? ? [id n] _ Hp|]; [done| | |done].
  - exact (Hpl ts rc (id, n) Hok Hp).
  - exact (Hpl (reclaim ts) rc (id, n) (reclaim_ok _ _ Hok) Hp).
Qed.

(** Mappings in use are kept. *)
Lemma add_entry_keeps m addr size m' rc o seg x c :
  wf m -> Forall (fun e => counter e < 65535) (entries m) -> fits 64 addr -> 0 < size ->
  plx_alm_add_entry m addr size = Ret (m', rc, o) ->
  translate m seg = Some (x, c) -> 2 <= c ->
  exists c', translate m' seg = Some (x, c') /\ c <= c' <= c + 1.
Proof.
  intros (Hg & ts & Hr) Hcnt Ha Hs Hadd Ht Hc2.
  pose proof (counts_of_entries _ _ _ (proj1 Hr) Hcnt) as Hc.
  destruct (add_entry_refines m ts addr size Hg Hr Hc Ha Hs) as (ts' & rc' & o' & Hadd' & Hr' & Ho).
  rewrite Hadd in Hadd'. injection Hadd' as -> -> ->.
  destruct (req_covers m addr size Hg Ha Hs).
  assert (0 < req_segs m addr size)%nat by (destruct (req_segs m addr size); lia).
  destruct (translate_inv m ts seg x c Hr Ht) as (ts1 & v & n & ts2 & Hts & Hseg & ->).
  assert (Hkeep : exists ts1' c' ts2', ts' = ts1' ++ TBlk v c' n :: ts2'
            /\ tiles_len ts1' = tiles_len ts1 /\ c <= c' <= c + 1).
  { destruct Ho as [| ? ? ? Hp | ? ? ? _ Hp | _ _].
    - exists ts1, c, ts2. split; [done|]. split; [done|lia].
    - eapply placed_keeps; done.
    - rewrite Hts, reclaim_keeps in Hp by lia.
      destruct (placed_keeps _ _ _ _ _ _ _ _ _ _ _ _ Hp ltac:(done) eq_refl) as (t1 & c' & t2 & ? & Hl & ?).
      exists t1, c', t2. by rewrite tiles_len_reclaim in Hl.
    - rewrite Hts, reclaim_keeps by lia. exists (reclaim ts1), c, (reclaim ts2).
      rewrite tiles_len_reclaim. split; [done|]. split; [done|lia]. }
  destruct Hkeep as (ts1' & c' & ts2' & -> & Hl & Hcc). exists c'. split; [|done].
  rewrite (translate_block (set_entries m _) ts1' v c' n ts2') by (done || lia). simpl. by rewrite Hl.
Qed.

(** What a release does. *)
Lemma del_entry_ok m seg x c :
  wf m -> translate m seg = Some (x, c) ->
  exists m' o,
    plx_alm_del_entry m seg = Ret (m', o) /\ wf m'
    /\ (if c =? 1
        then translate m' seg = None
             /\ exists id n, o = Some (id, n) /\ id <= seg < id + n
                             /\ forall k, 0 <= k < n -> translate m' (id + k) = None
        else o = None /\ translate m' seg = Some (x, c - 1))
    /\ forall seg' x' c' e e',
         translate m seg' = Some (x', c') ->
         aget (entries m) seg = Ret e -> aget (entries m) seg' = Ret e' -> start e <> start e' ->
         translate m' seg' = Some (x', c').
Proof.
  intros (Hg & ts & Hr) Ht.
  destruct (translate_inv m ts seg x c Hr Ht) as (ts1 & v & n & ts2 & -> & Hseg & ->).
  pose proof Hr as (He & Hl & Hok).
  pose proof Hok as [_ [(Hc & _) _]%Forall_cons_iff]%Forall_app.
  destruct (del_tiles_shape (segment_size m) ts1 v c n ts2 Hok) as (mid & Hd1 & Hlen & Hok' & Hcase).
  pose proof (del_entry_tiles m ts1 v c n ts2 seg He Hc Hseg) as Hdel. rewrite Hd1 in Hdel.
  set (m' := set_entries m (render 0 (ts1 ++ mid ++ ts2))) in *.
  assert (Hr' : repr m' (ts1 ++ mid ++ ts2)).
  { split; [done|]. split; [|done]. simpl. rewrite !tiles_len_app, Hlen.
    rewrite tiles_len_app, tiles_len_cons in Hl. simpl in Hl. lia. }
  eexists m', _. split; [exact Hdel|]. split; [split; [done|by eexists]|]. split.
  - destruct Hcase as [(-> & -> & ->)|(Hc1 & -> & ->)].
    + pose proof (translate_freed m' ts1 (S n) ts2 eq_refl) as Hfree. simpl.
      split; [|exists (tiles_len ts1), (Z.of_nat (S n)); split_and!; [done|lia|lia|done]].
      replace seg with (tiles_len ts1 + (seg - tiles_len ts1)) by lia. apply Hfree. lia.
    + rewrite (proj2 (Z.eqb_neq _ _)) by done. split; [done|].
      by rewrite (translate_block m' ts1 v (c - 1) n ts2) by (done || lia).
  - intros seg' x' c' e e' Ht' Hge Hge' Hne.
    destruct (translate_inv m _ seg' x' c' Hr Ht') as (l1 & v' & n' & l2 & Hts & Hseg' & ->).
    destruct (aget_in_block ts1 v c n ts2 seg Hseg) as (e1 & Hge1 & Hst1).
    destruct (aget_in_block l1 v' c' n' l2 seg' Hseg') as (e2 & Hge2 & Hst2).
    rewrite He, Hge1 in Hge. rewrite He, Hts, Hge2 in Hge'. simplify_eq.
    destruct (other_block_keeps ts1 v c n ts2 mid l1 v' c' n' l2 Hts Hlen ltac:(congruence))
      as (l1' & l2' & Hd & Hll).
    pose proof Hok as Hok2. rewrite Hts in Hok2.
    apply Forall_app in Hok2 as [_ [(Hc' & _) _]%Forall_cons_iff].
    rewrite (translate_block m' l1' v' c' n' l2'); [by rewrite Hll| |lia|lia].
    simpl. by rewrite Hd.
Qed.

Lemma translate_range m seg x c :
  wf m -> translate m seg = Some (x, c) -> 0 <= seg < segments_num m.
Proof.
  intros (_ & ts & He & Hl & _) Ht. unfold translate in Ht.
  destruct (aget (entries m) seg) eqn:Hg; try done.
  apply aget_inv in Hg as [Hg _]. rewrite He, zlen_render in Hg. lia.
Qed.

(** Every block after a placement was there before, or is the new one. *)
Lemma placed_origin sz a segs ts ts' rc p ts1 v c n ts2 :
  placed sz a segs ts ts' rc p -> (0 < segs)%nat -> ts' = ts1 ++ TBlk v c n :: ts2 ->
  rc = 0 /\ p = (tiles_len ts1, Z.of_nat (S n))
  \/ exists ts1' c' ts2', ts = ts1' ++ TBlk v c' n :: ts2' /\ tiles_len ts1' = tiles_len ts1.
Proof.
  intros Hp Hs He. destruct Hp as [l1 v' c' n' l2 Hem|l1 l2 Hne]; symmetry in He.
  - right.
    destruct (tile_in_split _ _ _ _ [_] _ He) as [(x & -> & ->)|[(m1 & m2 & Hm & -> & ->)|(x & -> & ->)]].
    + exists ts1, c, (x ++ TBlk v' c' n' :: l2). by rewrite <- app_assoc.
    + destruct m1 as [|? [|??]]; simplify_eq/=. exists l1, c', l2. by rewrite app_nil_r.
    + exists (l1 ++ TBlk v' c' n' :: x), c, ts2. rewrite <- app_assoc. split; [done|].
      rewrite !tiles_len_app, tiles_len_cons. unfold tiles_len at 4. simpl. lia.
  - destruct (tile_in_split _ _ _ _ [_] _ He) as [(x & -> & ->)|[(m1 & m2 & Hm & -> & ->)|(x & -> & ->)]].
    + right. exists ts1, c, (x ++ replicate segs TFree ++ l2). by rewrite <- app_assoc.
    + left. destruct m1 as [|? [|??]]; simplify_eq/=. rewrite app_nil_r. split; [done|]. f_equal. lia.
    + right. exists (l1 ++ replicate segs TFree ++ x), c, ts2. rewrite <- !app_assoc. split; [done|].
      rewrite !tiles_len_app, tiles_len_free. change (tiles_len [TBlk a 2 (pred segs)]) with (Z.of_nat (S (pred segs)) + 0). lia.
Qed.

Lemma reclaim_origin ts ts1 v c n ts2 :
  reclaim ts = ts1 ++ TBlk v c n :: ts2 ->
  exists ts1' ts2', ts = ts1' ++ TBlk v c n :: ts2' /\ tiles_len ts1' = tiles_len ts1.
Proof.
  revert ts1. induction ts as [|t ts IH]; intros ts1 He; [by destruct ts1|].
  rewrite reclaim_cons in He. symmetry in He.
  destruct (tile_in_split _ _ _ [] _ _ He) as [(x & Hx & _)|[(m1 & m2 & Hm & -> & _)|(x & -> & Hx)]].
  - by destruct ts1.
  - exists [], ts. destruct t as [|v' c' n']; simpl in Hm.
    + by destruct m1 as [|? [|??]]; simplify_eq/=.
    + destruct (c' =? 1).
      * assert (TBlk v c n ∈ replicate (S n') TFree) as Hin
          by (simpl; rewrite Hm; apply list_elem_of_In, in_elt).
        by apply elem_of_replicate in Hin as [? _].
      * destruct m1 as [|? [|??]]; simplify_eq/=. done.
  - destruct (IH x Hx) as (l1 & l2 & -> & Hl). exists (t :: l1), l2. split; [done|].
    simpl app. by rewrite tiles_len_cons, tiles_len_app, tiles_len_reclaim_tile, Hl.
Qed.

(** Every translation after an allocation is of the segments handed out, or
    was there before. *)
Lemma add_entry_origin m addr size m' rc o seg x c :
  wf m -> Forall (fun e => counter e < 65535) (entries m) -> fits 64 addr -> 0 < size ->
  plx_alm_add_entry m addr size = Ret (m', rc, o) ->
  translate m' seg = Some (x, c) ->
  (exists id n, rc = 0 /\ o = Some (id, n) /\ id <= seg < id + n)
  \/ exists c0, translate m seg = Some (x, c0).
Proof.
  intros (Hg & ts & Hr) Hcnt Ha Hs Hadd Ht.
  pose proof (counts_of_entries _ _ _ (proj1 Hr) Hcnt) as Hc.
  destruct (add_entry_refines m ts addr size Hg Hr Hc Ha Hs) as (ts' & rc' & o' & Hadd' & Hr' & Ho).
  rewrite Hadd in Hadd'. injection Hadd' as -> -> ->.
  destruct (req_covers m addr size Hg Ha Hs).
  assert (0 < req_segs m addr size)%nat by (destruct (req_segs m addr size); lia).
  destruct (translate_inv _ ts' seg x c Hr' Ht) as (ts1 & v & n & ts2 & Hts & Hseg & ->).
  assert (Hold : (exists l1 c0 l2, ts = l1 ++ TBlk v c0 n :: l2 /\ tiles_len l1 = tiles_len ts1) ->
    exists c0, translate m seg
      = Some (v + (seg - tiles_len ts1) * segment_size (set_entries m (render 0 ts')), c0)).
  { intros (l1 & c0 & l2 & -> & Hl). exists c0. destruct Hr as (He & _ & Hok).
    apply Forall_app in Hok as [_ [(Hc0 & _) _]%Forall_cons_iff].
    rewrite (translate_block m l1 v c0 n l2), Hl by (done || lia). done. }
  destruct Ho as [| ? ? p Hp | ? ? p _ Hp | _ _].
  - right. apply Hold. by exists ts1, c, ts2.
  - destruct (placed_origin _ _ _ _ _ _ _ _ _ _ _ _ Hp ltac:(done) Hts) as [(-> & ->)|Hex]; [|by auto].
    left. eexists _, _. split; [done|]. split; [done|lia].
  - destruct (placed_origin _ _ _ _ _ _ _ _ _ _ _ _ Hp ltac:(done) Hts) as [(-> & ->)|(l1 & c0 & l2 & He & Hl)].
    + left. eexists _, _. split; [done|]. split; [done|lia].
    + right. apply Hold. destruct (reclaim_origin _ _ _ _ _ _ He) as (k1 & k2 & -> & Hk).
      exists k1, c0, k2. split; [done|lia].
  - right. apply Hold. destruct (reclaim_origin _ _ _ _ _ _ Hts) as (k1 & k2 & -> & Hk).
    exists k1, c, k2. done.
Qed.

(** Every translation after a release was there before, and the segments a
    release reports as freed translated before. *)
Lemma del_entry_origin m seg m' o :
  wf m -> is_Some (translate m seg) -> plx_alm_del_entry m seg = Ret (m', o) ->
  (forall seg' x c, translate m' seg' = Some (x, c) -> exists c0, translate m seg' = Some (x, c0))
  /\ (forall id n, o = Some (id, n) -> 0 <= id /\ 0 < n /\ id + n <= segments_num m
        /\ forall k, 0 <= k < n -> translate m' (id + k) = None)
  /\ segment_size m' = segment_size m /\ segments_num m' = segments_num m.
Proof.
  intros (Hg & ts & Hr) [[x c] Ht] Hdel.
  destruct (translate_inv m ts seg x c Hr Ht) as (ts1 & v & n & ts2 & -> & Hseg & ->).
  pose proof Hr as (He & Hl & Hok).
  pose proof Hok as [_ [(Hc & _) _]%Forall_cons_iff]%Forall_app.
  destruct (del_tiles_shape (segment_size m) ts1 v c n ts2 Hok) as (mid & Hd1 & Hlen & Hok' & Hcase).
  rewrite (del_entry_tiles m ts1 v c n ts2 seg He Hc Hseg) in Hdel. injection Hdel as <- <-.
  rewrite Hd1. rewrite tiles_len_app, tiles_len_cons in Hl. simpl tile_len in Hl.
  pose proof (tiles_len_nonneg ts1). pose proof (tiles_len_nonneg ts2).
  set (m' := set_entries m _).
  assert (Hr' : repr m' (ts1 ++ mid ++ ts2)).
  { split; [done|]. split; [|done]. simpl. rewrite !tiles_len_app, Hlen. lia. }
  split; [|split; [|done]].
  - intros seg' x' c' Ht'.
    destruct (translate_inv m' _ seg' x' c' Hr' Ht') as (l1 & v' & n' & l2 & Hts & Hseg' & ->).
    symmetry in Hts. change (segment_size m') with (segment_size m).
    assert (Hx : exists k1 c0 k2, ts1 ++ TBlk v c n :: ts2 = k1 ++ TBlk v' c0 n' :: k2
                 /\ tiles_len k1 = tiles_len l1).
    { destruct (tile_in_split _ _ _ _ _ _ Hts) as [(y & -> & ->)|[(m1 & m2 & Hm & -> & ->)|(y & -> & ->)]].
      - exists l1, c', (y ++ TBlk v c n :: ts2). by rewrite <- app_assoc.
      - destruct Hcase as [(-> & -> & _)|(_ & -> & _)].
        + assert (TBlk v' c' n' ∈ replicate (S n) TFree) as Hin
            by (rewrite Hm; apply list_elem_of_In, in_elt).
          by apply elem_of_replicate in Hin as [? _].
        + destruct m1 as [|? [|??]]; simplify_eq/=. exists ts1, c, ts2. by rewrite app_nil_r.
      - exists (ts1 ++ TBlk v c n :: y), c', l2. rewrite <- app_assoc. split; [done|].
        rewrite !tiles_len_app, tiles_len_cons, Hlen. simpl. lia. }
    destruct Hx as (k1 & c0 & k2 & Hk & Hkl). exists c0. rewrite Hk in Hok, He.
    apply Forall_app in Hok as [_ [(Hc0 & _) _]%Forall_cons_iff].
    by rewrite (translate_block m k1 v' c0 n' k2), Hkl by (done || lia).
  - intros id k Ho. destruct Hcase as [(-> & -> & Ho')|(_ & _ & Ho')]; rewrite Ho in Ho'; [|done].
    injection Ho' as -> ->. split; [lia|]. split; [lia|]. split; [lia|].
    exact (translate_freed m' ts1 (S n) ts2 eq_refl).
Qed.

(** The geometry never changes. *)
Lemma add_entry_num m addr size m' rc o :
  wf m -> Forall (fun e => counter e < 65535) (entries m) -> fits 64 addr -> 0 < size ->
  plx_alm_add_entry m addr size = Ret (m', rc, o) -> segments_num m' = segments_num m.
Proof.
  intros (Hg & ts & Hr) Hcnt Ha Hs Hadd.
  pose proof (counts_of_entries _ _ _ (proj1 Hr) Hcnt) as Hc.
  destruct (add_entry_refines m ts addr size Hg Hr Hc Ha Hs) as (ts' & rc' & o' & Hadd' & _).
  rewrite Hadd in Hadd'. by injection Hadd' as -> _ _.
Qed.

(** Placing a request and releasing its first segment gives every block in use
    back its place and its count. *)
Lemma placed_del_keeps m a segs ts ts' rc id n :
  placed (segment_size m) a segs ts ts' rc (id, n) -> (0 < segs)%nat ->
  0 < segment_size m -> repr m ts' -> Forall (tile_ok (segment_size m)) ts ->
  exists ts2, plx_alm_del_entry m id = Ret (set_entries m (render 0 ts2), None)
    /\ repr (set_entries m (render 0 ts2)) ts2
    /\ (counts_below 65535 ts -> counts_below 65535 ts2)
    /\ forall l1 v c k l2, ts = l1 ++ TBlk v c k :: l2 ->
         exists l1' l2', ts2 = l1' ++ TBlk v c k :: l2' /\ tiles_len l1' = tiles_len l1.
Proof.
  intros Hp Hs Hsz (He & Hl & Hok') Hok.
  inversion Hp as [t1 v c k t2 Hem|t1 t2 Hne]; subst.
  - assert (Hc : 1 <= c < 65536) by by apply Forall_app in Hok as [_ [(Hc & _) _]%Forall_cons_iff].
    assert (Hc' : 1 <= c + 1 < 65536)
      by by apply Forall_app in Hok' as [_ [(Hc' & _) _]%Forall_cons_iff].
    unfold embeds in Hem. bools. assert (0 <= (a - v) / segment_size m) by (apply Z.div_pos; lia).
    exists (t1 ++ TBlk v c k :: t2).
    rewrite (del_entry_tiles m t1 v (c + 1) k t2 _ He Hc') by lia. unfold del_tiles.
    rewrite (proj2 (Z.eqb_neq _ _)) by lia. simpl. rewrite Z.add_simpl_r. split; [done|].
    split; [|split; [done|eauto]]. split; [done|]. split; [|done]. simpl.
    rewrite tiles_len_app, tiles_len_cons in *. done.
  - exists (t1 ++ TBlk a 1 (pred segs) :: t2).
    rewrite (del_entry_tiles m t1 a 2 (pred segs) t2 _ He) by lia. unfold del_tiles. simpl.
    split; [done|]. split.
    + split; [done|]. split; [by rewrite tiles_len_app, tiles_len_cons in *|].
      apply Forall_app in Hok' as [? [(_ & ?) ?]%Forall_cons_iff]. apply Forall_app. split; [done|].
      constructor; [|done]. split; [lia|done].
    + split.
      { intros [? [_ ?]%Forall_app]%Forall_app. apply Forall_app. split; [done|]. by constructor. }
      intros l1 v c k l2 Hts. symmetry in Hts.
      apply (keep_outside _ _ _ _ _ _ _ [TBlk a 1 (pred segs)] _ Hts).
      * rewrite tiles_len_free. unfold tiles_len. simpl. lia.
      * by intros [Hin _]%elem_of_replicate.
Qed.

(** Allocating and releasing again keeps every mapping in use with its count. *)
Lemma add_del_keeps m addr size m1 rc id n :
  wf m -> Forall (fun e => counter e < 65535) (entries m) -> fits 64 addr -> 0 < size ->
  plx_alm_add_entry m addr size = Ret (m1, rc, Some (id, n)) ->
  exists m2, plx_alm_del_entry m1 id = Ret (m2, None) /\ wf m2
    /\ Forall (fun e => counter e < 65535) (entries m2) /\ segments_num m2 = segments_num m
    /\ forall seg x c, translate m seg = Some (x, c) -> 2 <= c -> translate m2 seg = Some (x, c).
Proof.
  intros (Hg & ts & Hr) Hcnt Ha Hs Hadd.
  pose proof (counts_of_entries _ _ _ (proj1 Hr) Hcnt) as Hc.
  destruct (add_entry_refines m ts addr size Hg Hr Hc Ha Hs) as (ts' & rc' & o' & Hadd' & Hr' & Ho).
  rewrite Hadd in Hadd'. injection Hadd' as -> <- <-.
  destruct (req_covers m addr size Hg Ha Hs).
  assert (0 < req_segs m addr size)%nat by (destruct (req_segs m addr size); lia).
  pose proof Hg as (_ & (k & Hk & Hsz) & _).
  assert (0 < segment_size m) by (rewrite Hsz; apply Z.pow_pos_nonneg; lia).
  set (m1 := set_entries m (render 0 ts')) in *.
  assert (Hgo : forall ts0, Forall (tile_ok (segment_size m)) ts0 ->
    placed (segment_size m) (req_addr m addr) (req_segs m addr size) ts0 ts' rc (id, n) ->
    (forall l1 v c k l2, ts = l1 ++ TBlk v c k :: l2 -> 2 <= c ->
       exists l1' l2', ts0 = l1' ++ TBlk v c k :: l2' /\ tiles_len l1' = tiles_len l1) ->
    counts_below 65535 ts0 ->
    exists m2, plx_alm_del_entry m1 id = Ret (m2, None) /\ wf m2
      /\ Forall (fun e => counter e < 65535) (entries m2) /\ segments_num m2 = segments_num m
      /\ forall seg x c, translate m seg = Some (x, c) -> 2 <= c -> translate m2 seg = Some (x, c)).
  { intros ts0 Hok0 Hp Hkeep Hcb.
    destruct (placed_del_keeps m1 _ _ _ _ _ _ _ Hp ltac:(done) ltac:(done) Hr' Hok0)
      as (ts2 & Hd & Hr2 & Hcb2 & Hk2).
    eexists. split; [exact Hd|]. split; [split; [done|by eexists]|].
    split; [by apply entries_of_counts, Hcb2|]. split; [done|].
    intros seg x c Ht Hc2. destruct (translate_inv m ts seg x c Hr Ht) as (l1 & v & j & l2 & Hts & Hseg & ->).
    destruct (Hkeep _ _ _ _ _ Hts Hc2) as (l1' & l2' & He0 & Hl0).
    destruct (Hk2 _ _ _ _ _ He0) as (k1 & k2 & He2 & Hl2).
    rewrite (translate_block _ k1 v c j k2) by (simpl; congruence || lia). simpl. do 3 f_equal. lia. }
  destruct Hr as (_ & _ & Hok). inversion Ho as [| ? ? ? Hp | ? ? ? _ Hp |]; subst.
  - apply (Hgo ts Hok Hp); eauto.
  - apply (Hgo (reclaim ts) (reclaim_ok _ _ Hok) Hp); [|by apply (reclaim_count (fun c => c < 65535))].
    intros l1 v c j l2 -> Hc2.
    exists (reclaim l1), (reclaim l2). rewrite reclaim_keeps by lia. by rewrite tiles_len_reclaim.
Qed.

Lemma no_blocks_no_translation m n :
  repr m (replicate n TFree) -> forall seg, translate m seg = None.
Proof.
  intros Hr seg. destruct (translate m seg) as [[x c]|] eqn:Ht; [|done].
  destruct (translate_inv m _ seg x c Hr Ht) as (ts1 & v & k & ts2 & Hts & _).
  assert (TBlk v c k ∈ replicate n TFree) as Hin by (rewrite Hts; apply list_elem_of_In, in_elt).
  by apply elem_of_replicate in Hin as [Hin _].
Qed.

Lemma reset_ok m :
  wf m -> exists m', plx_alm_reset m = Ret m' /\ wf m' /\ (forall seg, translate m' seg = None)
                     /\ segments_num m' = segments_num m /\ segment_size m' = segment_size m.
Proof.
  intros Hw. pose proof Hw as (Hg & ts & He & Hl & Hok). unfold plx_alm_reset. rewrite (check_wf m Hw).
  run_bind. pose proof Hg as (Hn & _).
  pose proof (zlen_render 0 ts) as Hz. rewrite <- He in Hz.
  assert (clear_entries (entries m) 0 (segments_num m)
          = Ret (replicate (Z.to_nat (segments_num m)) zero_entry)) as ->.
  { unfold clear_entries. pose proof (afill_mid [] (entries m) [] zero_entry) as Hf.
    rewrite !app_nil_r in Hf. simpl in Hf. change (zlen (@nil plx_alm_arr_entry)) with 0 in Hf.
    rewrite <- Hl, <- Hz, Hf. f_equal. unfold zlen. by rewrite Nat2Z.id. }
  eexists. split; [done|]. set (m' := set_entries _ _).
  assert (Hr : repr m' (replicate (Z.to_nat (segments_num m)) TFree)).
  { split; [by rewrite render_free|]. split; [rewrite tiles_len_free; simpl; lia|].
    by apply Forall_replicate. }
  split; [split; [done|by eexists]|]. split; [|done]. exact (no_blocks_no_translation _ _ Hr).
Qed.

Lemma init_ok num_ntbs k :
  num_ntbs = 1 \/ num_ntbs = 2 -> 8 <= k <= 62 ->
  exists m,
    plx_alm_init num_ntbs (2 ^ k) true = Ret (m, 0) /\ wf m
    /\ segments_num m * segment_size m = 2 ^ k
    /\ (forall seg, translate m seg = None)
    /\ segments_num m = 256 / num_ntbs
    /\ entries m = replicate (Z.to_nat (256 / num_ntbs)) zero_entry.
Proof.
  intros Hn Hk.
  assert (Hwf : forall j, 7 <= j <= 8 ->
    let m := mkAlm (2 ^ j) (2 ^ k / 2 ^ j) (replicate (Z.to_nat (2 ^ j)) zero_entry) in
    wf m /\ segments_num m * segment_size m = 2 ^ k /\ forall seg, translate m seg = None).
  { intros j Hj m.
    assert (Hdiv : 2 ^ k / 2 ^ j = 2 ^ (k - j)) by (rewrite Z.pow_sub_r by lia; done).
    assert (Hmul : 2 ^ j * 2 ^ (k - j) = 2 ^ k) by (rewrite <- Z.pow_add_r by lia; f_equal; lia).
    assert (Hjv : 2 ^ j = 128 \/ 2 ^ j = 256)
      by (assert (j = 7 \/ j = 8) as [-> | ->] by lia; auto).
    assert (0 < 2 ^ (k - j)) by (apply Z.pow_pos_nonneg; lia).
    assert (2 ^ (k - j) <= 2 ^ 55) by (apply Z.pow_le_mono_r; lia).
    assert (Hr : repr m (replicate (Z.to_nat (2 ^ j)) TFree)).
    { split; [by rewrite render_free|]. split; [rewrite tiles_len_free; simpl; lia|].
      apply Forall_replicate. done. }
    split; [|split; [simpl; by rewrite Hdiv|]].
    - split; [|by eexists]. subst m. unfold geometry. simpl segments_num. simpl segment_size.
      rewrite Hdiv. split; [lia|]. split; [by exists (k - j); split; [lia|]|].
      change (2 ^ 64) with (2 ^ 55 * 512). nia.
    - exact (no_blocks_no_translation _ _ Hr). }
  unfold plx_alm_init.
  destruct Hn as [-> | ->].
  - change (u32 (256 / 1)) with (2 ^ 8). destruct (Hwf 8 ltac:(lia)) as (Hw & Hm & Ht).
    rewrite (check_wf _ Hw). eexists. split; [done|]. split; [done|]. split; [done|]. by split.
  - change (u32 (256 / 2)) with (2 ^ 7). destruct (Hwf 7 ltac:(lia)) as (Hw & Hm & Ht).
    rewrite (check_wf _ Hw). eexists. split; [done|]. split; [done|]. split; [done|]. by split.
Qed.

(** ** What an allocation does, exactly *)

(** A block of the table translates the [n] segments from the address [a] on, the first of them at [id]. *)
Definition shares (m : plx_alm) (a n id : Z) : Prop :=
  exists p e, aget (entries m) p = Ret e /\ counter e <> 0 /\ value e <= a
    /\ (a - value e) / segment_size m + n <= segments_count e /\ id = p + (a - value e) / segment_size m.

(** No window of [n] segments can be had, not even by reclaiming idle blocks. *)
Definition table_full (m : plx_alm) (n : Z) : Prop :=
  forall id, 0 <= id -> id + n <= segments_num m -> ~ (forall k, 0 <= k < n -> reclaimable m (id + k)).

Lemma shares_embeds m ts a segs id : repr m ts -> shares m a (Z.of_nat segs) id ->
  ~ Forall (fun t => embeds (segment_size m) a segs t = false) ts.
Proof.
  intros (He & Hl & Hok) (p & e & Hp & Hc & Hv & Hn & _) Hf. pose proof (aget_inv _ _ _ Hp) as [Hpr _].
  rewrite He, zlen_render in Hpr. destruct (tile_at ts p Hpr) as (ts1 & t & ts2 & -> & Ht).
  rewrite He in Hp. destruct t as [|v c n]; simpl in Ht.
  - replace p with (tiles_len ts1) in Hp by lia. rewrite (render_run ts1 1 ts2 : render 0 (ts1 ++ TFree :: ts2) = _) in Hp.
    rewrite <- (zlen_render 0 ts1) in Hp. simpl in Hp. rewrite aget_mid in Hp. by simplify_eq.
  - apply Forall_app in Hf as [_ [Hf _]%Forall_cons_iff]. destruct (decide (p = tiles_len ts1)) as [->|Hne].
    + rewrite aget_head in Hp. simplify_eq. cbn [value segments_count] in *. unfold embeds in Hf.
      rewrite (proj2 (Z.leb_le v a)) in Hf by lia. rewrite (proj2 (Z.leb_le _ _)) in Hf by lia. done.
    + rewrite aget_later in Hp by lia. by simplify_eq.
Qed.

Lemma embeds_shares m ts1 v c n ts2 a segs : repr m (ts1 ++ TBlk v c n :: ts2) ->
  embeds (segment_size m) a segs (TBlk v c n) = true ->
  shares m a (Z.of_nat segs) (tiles_len ts1 + (a - v) / segment_size m).
Proof.
  intros (He & _ & Hok) Hem. apply Forall_app in Hok as [_ [(Hc & _) _]%Forall_cons_iff].
  unfold embeds in Hem. bools. exists (tiles_len ts1), (mkEntry v c (Z.of_nat (S n)) (tiles_len ts1)).
  rewrite He, aget_head. cbn [counter value segments_count]. split; [done|]. split; [lia|]. split; [lia|]. by split.
Qed.

(** A segment that is free after reclaiming was free or idle before. *)
Lemma free_reclaimable m ts l1 l2 : repr m ts -> reclaim ts = l1 ++ TFree :: l2 -> reclaimable m (tiles_len l1).
Proof.
  intros Hr Hl. unfold reclaimable. destruct (translate m (tiles_len l1)) as [[x c]|] eqn:Ht; [|done].
  destruct (translate_inv m ts _ x c Hr Ht) as (ts1 & v & n & ts2 & -> & Hseg & _).
  destruct (decide (c = 1)) as [|Hc]; [done|]. exfalso. pose proof (reclaim_repr _ _ Hr) as Hr'.
  pose proof (translate_free (set_entries m (render 0 (reclaim (ts1 ++ TBlk v c n :: ts2)))) l1 l2) as Hn.
  rewrite <- Hl in Hn. specialize (Hn eq_refl). rewrite reclaim_keeps in Hn by done.
  rewrite (translate_block _ (reclaim ts1) v c n (reclaim ts2)) in Hn; [done|done| |by rewrite tiles_len_reclaim].
  destruct Hr as (_ & _ & Hok). apply Forall_app in Hok as [_ [(Hc1 & _) _]%Forall_cons_iff]. lia.
Qed.

Lemma run_reclaimable m ts l1 n l2 k : repr m ts -> reclaim ts = l1 ++ replicate n TFree ++ l2 -> 0 <= k < Z.of_nat n ->
  reclaimable m (tiles_len l1 + k).
Proof.
  intros Hr Hl Hk. replace n with (Z.to_nat k + S (n - Z.to_nat k - 1))%nat in Hl by lia.
  rewrite replicate_add, <- app_assoc in Hl. simpl in Hl. rewrite app_assoc in Hl.
  pose proof (free_reclaimable m ts _ _ Hr Hl) as H. rewrite tiles_len_app, tiles_len_free in H. by rewrite Z2Nat.id in H by lia.
Qed.

Lemma reclaim_run ts l1 n l2 : ts = l1 ++ replicate n TFree ++ l2 -> reclaim ts = reclaim l1 ++ replicate n TFree ++ reclaim l2.
Proof.
  intros ->. unfold reclaim. rewrite !bind_app. do 2 f_equal. induction n as [|n IH]; [done|]. simpl. by f_equal.
Qed.

(** Every result of [plx_alm_add_entry], with what it says of the table before. *)
Definition added (m m' : plx_alm) (a : Z) (n : nat) (size rc : Z) (o : option (Z * Z)) : Prop :=
  match o with
  | Some (id, k) =>
      k = Z.of_nat n
      /\ (rc = - EEXIST /\ shares m a k id
            /\ (forall i, 0 <= i < k -> exists c, translate m (id + i) = Some (a + i * segment_size m, c)
                  /\ translate m' (id + i) = Some (a + i * segment_size m, c + 1))
          \/ rc = 0 /\ (forall id', ~ shares m a k id')
            /\ (forall i, 0 <= i < k -> reclaimable m (id + i)
                  /\ translate m' (id + i) = Some (a + i * segment_size m, 2)))
  | None => rc = - ENOMEM
      /\ (segment_size m * segments_num m < size
          \/ (forall id', ~ shares m a (Z.of_nat n) id') /\ table_full m (Z.of_nat n))
  end.

(** ** Properties *)

Lemma placed_added m ts ts0 addr size ts' rc p :
  geometry m -> repr m ts -> fits 64 addr -> 0 < size -> (0 < req_segs m addr size)%nat ->
  (ts0 = ts \/ ts0 = reclaim ts) -> Forall (tile_ok (segment_size m)) ts0 ->
  (ts0 = ts \/ Forall (fun t => embeds (segment_size m) (req_addr m addr) (req_segs m addr size) t = false) ts) ->
  placed (segment_size m) (req_addr m addr) (req_segs m addr size) ts0 ts' rc p ->
  added m (set_entries m (render 0 ts')) (req_addr m addr) (req_segs m addr size) size rc (Some p).
Proof.
  intros Hg Hr Ha Hs Hpos Hts Hok0 Hnone Hp. pose proof Hg as (_ & (k & Hk & Hsz) & _).
  assert (0 < segment_size m) by (rewrite Hsz; apply Z.pow_pos_nonneg; lia).
  destruct (req_addr_ok m addr Hg Ha) as (_ & Hm). set (a := req_addr m addr) in *. set (n := req_segs m addr size) in *.
  destruct p as [id len]. inversion Hp as [ts1 v c q ts2 Hem E1 E2|ts1 ts2 Hne E1 E2]; subst; split; try done.
  - left. split; [done|]. assert (ts = ts1 ++ TBlk v c q :: ts2) as ->.
    { destruct Hnone as [->|Hf]; [done|]. exfalso. destruct Hts as [E|E].
      - rewrite <- E in Hf. apply Forall_app in Hf as [_ [Hf _]%Forall_cons_iff]. congruence.
      - symmetry in E. destruct (reclaim_origin _ _ v c q _ E) as (k1 & k2 & -> & _).
        apply Forall_app in Hf as [_ [Hf _]%Forall_cons_iff]. congruence. }
    split; [by apply (embeds_shares m ts1 v c q ts2)|]. intros i Hi.
    apply Forall_app in Hok0 as [_ [(Hc & Hv & Hvm) _]%Forall_cons_iff]. unfold embeds in Hem. bools.
    assert (0 <= (a - v) / segment_size m) by (apply Z.div_pos; lia). destruct Hr as (He & _ & _).
    assert (v + (tiles_len ts1 + (a - v) / segment_size m + i - tiles_len ts1) * segment_size m = a + i * segment_size m) as Hx.
    { assert (a - v = segment_size m * ((a - v) / segment_size m)) as Hd; [|lia].
      apply Z.div_exact; [lia|]. by rewrite Zminus_mod, Hm, Hvm, Z.sub_diag, Z.mod_0_l by lia. }
    exists c. rewrite (translate_block m ts1 v c q ts2), (translate_block (set_entries m _) ts1 v (c + 1) q ts2) by (done || lia).
    cbn [segment_size set_entries]. by rewrite Hx.
  - right. split; [done|]. split.
    { intros id' Hsh. eapply (shares_embeds m ts); [done|exact Hsh|]. destruct Hnone as [<-|Hf]; [exact Hne|exact Hf]. }
    intros i Hi. split.
    + destruct Hts as [<-|E]; [|by apply (run_reclaimable m ts _ n ts2)].
      rewrite <- tiles_len_reclaim. by apply (run_reclaimable m _ _ n (reclaim ts2) i Hr), Hi; apply reclaim_run.
    + rewrite (translate_block (set_entries m _) ts1 a 2 (pred n) ts2) by (done || lia). do 2 f_equal. cbn [segment_size set_entries]. lia.
Qed.

Lemma add_entry_exact m addr size :
  wf m -> Forall (fun e => counter e < 65535) (entries m) -> fits 64 addr -> 0 < size ->
  exists m' rc o, plx_alm_add_entry m addr size = Ret (m', rc, o)
    /\ added m m' (req_addr m addr) (req_segs m addr size) size rc o.
Proof.
  intros (Hg & ts & Hr) Hcnt Ha Hs. pose proof (counts_of_entries _ _ _ (proj1 Hr) Hcnt) as Hc.
  destruct (add_entry_refines m ts addr size Hg Hr Hc Ha Hs) as (ts' & rc & o & Hadd & _ & Ho).
  exists (set_entries m (render 0 ts')), rc, o. split; [done|]. destruct (req_covers m addr size Hg Ha Hs).
  assert (0 < req_segs m addr size)%nat by (destruct (req_segs m addr size); lia). pose proof Hr as (_ & Hl & Hok).
  destruct Ho as [Hbig|? ? p Hp|? ? p [Hf _] Hp|[Hf _] [_ Hnr]].
  - split; [done|by left].
  - apply (placed_added m ts ts); auto.
  - apply (placed_added m ts (reclaim ts)); auto. by apply reclaim_ok.
  - split; [done|]. right. split.
    + intros id' Hsh. exact (shares_embeds m ts _ _ _ Hr Hsh Hf).
    + intros id Hid Hb Hk. apply Hnr. apply (window_run _ id); [done|rewrite tiles_len_reclaim; lia| |done].
      intros i Hi. apply (reclaimable_free m ts); [done|lia|]. by apply Hk.
Qed.

(** C1. Allocating on a well-formed table in which no block is at the last value of its 16-bit count.  The call
    returns (the search, the clean-up and the retry terminate) and the table stays well formed.
    The segments handed out are those of the request, from the segment of its first byte to that of
    its last.  The call answers [-EEXIST] exactly when a block of the table already translates them: the
    block gets one more user.  It answers 0 when none does: the segments were free or idle and now form a new
    block that translates them, counted as in use.  It answers [-ENOMEM] only when the request is larger
    than the aperture, or no block translates it and no window of free or idle segments is long enough.
    Every mapping in use keeps its translation. *)
Theorem plx_alm_add_entry_correct m addr size :
  wf m -> Forall (fun e => counter e < 65535) (entries m) -> fits 64 addr -> 0 < size ->
  exists m' rc o,
    plx_alm_add_entry m addr size = Ret (m', rc, o) /\ wf m'
    /\ segment_size m' = segment_size m /\ segments_num m' = segments_num m
    /\ (req_addr m addr <= addr
        /\ addr + size <= req_addr m addr + Z.of_nat (req_segs m addr size) * segment_size m)
    /\ added m m' (req_addr m addr) (req_segs m addr size) size rc o
    /\ (forall seg x c, translate m seg = Some (x, c) -> 2 <= c ->
          exists c', translate m' seg = Some (x, c') /\ c <= c' <= c + 1).
Proof.
  intros Hw Hcnt Ha Hs. destruct (add_entry_ok m addr size Hw Hcnt Ha Hs) as (m' & rc & o & E & Hw' & Hz & _).
  destruct (add_entry_exact m addr size Hw Hcnt Ha Hs) as (m2 & rc2 & o2 & E2 & Hadd).
  rewrite E in E2. injection E2 as <- <- <-. exists m', rc, o. split; [done|]. split; [done|]. split; [done|].
  split; [by eapply add_entry_num|]. split; [by apply req_covers; [destruct Hw|..]|]. split; [exact Hadd|].
  intros seg x c. by apply (add_entry_keeps m addr size m' rc o).
Qed.

(** An allocation never disturbs a mapping in use (count at least 2): its
    segments keep their translation and never lose a reference. *)
Theorem plx_alm_add_entry_frame m addr size m' rc o seg x c :
  wf m -> Forall (fun e => counter e < 65535) (entries m) -> fits 64 addr -> 0 < size ->
  plx_alm_add_entry m addr size = Ret (m', rc, o) ->
  translate m seg = Some (x, c) -> 2 <= c ->
  exists c', translate m' seg = Some (x, c') /\ c <= c' <= c + 1.
Proof. exact (@add_entry_keeps m addr size m' rc o seg x c). Qed.

(** An allocation that is not larger than the table fails only when the
    table has no room: no window of the needed number of segments consists of
    free or idle segments. *)
Theorem plx_alm_add_entry_enomem m addr size m' o :
  wf m -> Forall (fun e => counter e < 65535) (entries m) -> fits 64 addr ->
  0 < size <= segment_size m * segments_num m ->
  plx_alm_add_entry m addr size = Ret (m', - ENOMEM, o) ->
  forall id, 0 <= id -> id + Z.of_nat (req_segs m addr size) <= segments_num m ->
  ~ (forall k, 0 <= k < Z.of_nat (req_segs m addr size) -> reclaimable m (id + k)).
Proof.
  intros (Hg & ts & Hr) Hcnt Ha Hs Hadd id Hid Hb Hk.
  pose proof (counts_of_entries _ _ _ (proj1 Hr) Hcnt) as Hc.
  destruct (add_entry_refines m ts addr size Hg Hr Hc Ha ltac:(lia)) as (ts' & rc' & o' & Hadd' & Hr' & Ho).
  rewrite Hadd in Hadd'. injection Hadd' as -> <- ->.
  destruct (request_masks m addr size Hg Ha Hs) as (_ & _ & Hpos & _).
  pose proof Hr as (_ & Hl & _).
  inversion Ho as [? | ? ? ? Hp | ? ? ? _ Hp | _ [_ Hnr]]; subst; [lia| | |].
  - inversion Hp.
  - inversion Hp.
  - apply Hnr. apply (window_run _ id); [done|rewrite tiles_len_reclaim; lia| |done].
    intros k Hkk. apply (reclaimable_free m ts); [done|lia|]. by apply Hk.
Qed.

(** Releasing a mapped segment returns, keeps the invariant, and takes one
    reference from the block the segment lies in; the block is freed, and its
    first segment and length reported, exactly when the last reference goes.
    Segments of other blocks are not touched. *)
Theorem plx_alm_del_entry_correct m seg x c :
  wf m -> translate m seg = Some (x, c) ->
  exists m' o,
    plx_alm_del_entry m seg = Ret (m', o) /\ wf m'
    /\ (if c =? 1
        then translate m' seg = None
             /\ exists id n, o = Some (id, n) /\ id <= seg < id + n
                             /\ forall k, 0 <= k < n -> translate m' (id + k) = None
        else o = None /\ translate m' seg = Some (x, c - 1))
    /\ forall seg' x' c' e e',
         translate m seg' = Some (x', c') ->
         aget (entries m) seg = Ret e -> aget (entries m) seg' = Ret e' -> start e <> start e' ->
         translate m' seg' = Some (x', c').
Proof. exact (@del_entry_ok m seg x c). Qed.

(** Initialisation with one or two NTBs and a power-of-two aperture returns
    0 and an empty, well-formed manager that passes its consistency check. *)
Theorem plx_alm_init_correct num_ntbs k :
  num_ntbs = 1 \/ num_ntbs = 2 -> 8 <= k <= 62 ->
  exists m,
    plx_alm_init num_ntbs (2 ^ k) true = Ret (m, 0) /\ wf m
    /\ segments_num m * segment_size m = 2 ^ k
    /\ forall seg, translate m seg = None.
Proof.
  intros Hn Hk. destruct (init_ok num_ntbs k Hn Hk) as (m & ? & ? & ? & ? & _). eauto 6.
Qed.

(** When the array cannot be allocated, initialisation does not return
    [-ENOMEM]: the consistency check reads the missing array. *)
Theorem plx_alm_init_no_memory num_ntbs aper_len :
  1 <= num_ntbs <= 256 -> plx_alm_init num_ntbs aper_len false = Oob.
Proof.
  intros Hn. unfold plx_alm_init, plx_alm_check.
  assert (0 < 256 / num_ntbs <= 256).
  { split; [apply Z.div_str_pos; lia|]. apply Z.div_le_upper_bound; lia. }
  rewrite u32_small by lia. cbn [segments_num].
  destruct (Z.to_nat (256 / num_ntbs)) as [|f] eqn:Hf; [lia|].
  cbn [check_loop segments_num entries]. if_true. done.
Qed.

(** ** Witnesses *)

Definition demo : plx_alm := mkAlm 4 4096 (replicate 4 zero_entry).

(** A manager with a block of two segments in use and an idle block. *)
Definition demo2 : plx_alm :=
  mkAlm 4 4096 [mkEntry 8192 2 2 0; mkEntry 0 0 0 0; mkEntry 65536 1 1 2; zero_entry].

Lemma demo_geometry : geometry demo.
Proof. split; [simpl; lia|]. split; [exists 12; split; [lia|reflexivity]|simpl; lia]. Qed.

Lemma demo_wf : wf demo.
Proof.
  split; [apply demo_geometry|]. exists (replicate 4 TFree).
  split; [reflexivity|]. split; [reflexivity|]. by apply Forall_replicate.
Qed.

Lemma demo2_wf : wf demo2.
Proof.
  split; [apply demo_geometry|]. exists [TBlk 8192 2 1; TBlk 65536 1 0; TFree].
  split; [reflexivity|]. split; [reflexivity|]. repeat constructor; done.
Qed.

Lemma plx_alm_add_entry_correct_witness :
  exists m', plx_alm_add_entry demo2 12288 100 = Ret (m', - EEXIST, Some (1, 1)) /\ wf m'
             /\ translate m' 1 = Some (12288, 3).
Proof.
  destruct (plx_alm_add_entry_correct demo2 12288 100) as (m' & rc & o & H & Hw & _).
  - apply demo2_wf.
  - repeat constructor; done.
  - split; [lia|reflexivity].
  - lia.
  - vm_compute in H. injection H as <- <- <-. eexists. split; [reflexivity|]. split; [exact Hw|reflexivity].
Defined.

Lemma plx_alm_add_entry_frame_witness :
  exists c', translate
    (match plx_alm_add_entry demo2 1048576 8000 with Ret (m', _, _) => m' | _ => demo2 end) 1
    = Some (12288, c') /\ 2 <= c' <= 3.
Proof.
  eapply (plx_alm_add_entry_frame demo2 1048576 8000 _ 0 (Some (2, 2)) 1 12288 2).
  - apply demo2_wf.
  - repeat constructor; done.
  - split; [lia|reflexivity].
  - lia.
  - vm_compute. reflexivity.
  - reflexivity.
  - lia.
Defined.

Lemma plx_alm_add_entry_enomem_witness :
  ~ (forall k, 0 <= k < 3 -> reclaimable demo2 (1 + k)).
Proof.
  intros H.
  refine (plx_alm_add_entry_enomem demo2 1048576 12000
            (match plx_alm_add_entry demo2 1048576 12000 with Ret (m', _, _) => m' | _ => demo2 end)
            None _ _ _ _ _ 1 _ _ H).
  - apply demo2_wf.
  - repeat constructor; done.
  - split; [lia|reflexivity].
  - simpl. lia.
  - vm_compute. reflexivity.
  - lia.
  - vm_compute. discriminate.
Defined.

Lemma plx_alm_del_entry_correct_witness :
  exists m', plx_alm_del_entry demo2 1 = Ret (m', None) /\ wf m' /\ translate m' 1 = Some (12288, 1).
Proof.
  destruct (plx_alm_del_entry_correct demo2 1 12288 2) as (m' & o & H & Hw & (-> & Ht) & _).
  - apply demo2_wf.
  - reflexivity.
  - exists m'. split; [exact H|]. split; [exact Hw|exact Ht].
Defined.

Lemma plx_alm_init_correct_witness :
  exists m, plx_alm_init 2 (2 ^ 33) true = Ret (m, 0) /\ wf m.
Proof.
  destruct (plx_alm_init_correct 2 33) as (m & H & Hw & _); [auto|lia|].
  exists m. split; [exact H|exact Hw].
Defined.

Lemma plx_alm_init_no_memory_witness : plx_alm_init 2 (2 ^ 33) false = Oob.
Proof. apply plx_alm_init_no_memory. lia. Defined.


End Alm.
