(* ===== verification/ALut.v ===== *)
(** * The A-LUT of the PLX 87xx non-transparent bridge

    The hardware side of the address translation
    ([src/modules/vca/plx87xx/plx_hw.c]): the registers of the A-LUT array that
    [plx_add_a_lut_entry] and [plx_del_a_lut_entry] program from the decisions of
    the manager ([Alm]), [plx_ioremap] / [plx_iounmap] on top of them, the
    initialisation of the device and the scratchpad and doorbell registers.

    The device is reached through the interface [Mmio]; the registers that
    behave as storage are those of [MmioStorage]. *)

From S2P Require Import Prelude Alm.
From stdpp Require Import base list numbers option tactics.
From Stdlib Require Import ZArith Lia.
#[local] Open Scope Z_scope.

Module ALut.
Import Alm.

(** ** The device behind the registers

    [ioread32] and [iowrite32] on the BAR: a read returns a word and may change
    the device. *)
Class Mmio (hw : Type) := {
  ioread32 : hw -> Z -> Z * hw;
  iowrite32 : hw -> Z -> Z -> hw;
}.

(** What a read of [o] would return. *)
Definition peek `{Mmio hw} (h : hw) (o : Z) : Z := fst (ioread32 h o).

(** The registers [st] are storage: they return what was last written to them
    and no access to another register changes them. *)
Class MmioStorage (hw : Type) `{Mmio hw} (st : Z -> Prop) := {
  storage_write : forall h v o, st o -> fits 32 v -> peek (iowrite32 h v o) o = v;
  storage_frame : forall h v o o', st o' -> o <> o' -> peek (iowrite32 h v o) o' = peek h o';
  storage_read : forall h o o', st o' -> peek (snd (ioread32 h o)) o' = peek h o';
  storage_u32 : forall h o, st o -> fits 32 (peek h o);
}.

(** ** Register map ([plx_hw.h]) *)
Definition PLX_SPAD0 := 0xC6C.
Definition PLX_BAR2_AT := 0xC3C.
Definition PLX_BAR3_AT := 0xC40.
Definition PLX_DBIS := 0xC4C.
Definition PLX_DBIC := 0xC50.
Definition PLX_DBIMS := 0xC54.
Definition PLX_DBIMC := 0xC58.
Definition PLX_DPLO_SPAD := 0.
Definition PLX_DPHI_SPAD := 1.
Definition DB_TO_MASK (n : Z) : Z := u32 (Z.shiftl 1 n).
Definition PLX_A_LUT_CONTROL := 0xc94.
Definition PLX_A_LUT_ENABLE := Z.lor (Z.shiftl 1 28) (Z.shiftl 1 31).
Definition PLX_A_LUT_LOWER_RE_MAP_SUBARRAY_OFFSET := 0x0.
Definition PLX_A_LUT_HIGHER_RE_MAP_SUBARRAY_OFFSET := 0x400.
Definition PLX_A_LUT_PERMISSION_SUBARRAY_OFFSET := 0x800.
Definition PLX_A_LUT_PERMISSION_WRITE_ENABLE := 0x1.
Definition PLX_A_LUT_PERMISSION_READ_ENABLE := 0x2.
Definition PLX_A_LUT_ARRAY_OFFSET := 0x1000.
Definition PLX_A_LUT_MAX_ARRAY := 128.
Definition PLX_NT0_RID_LUT_VIRTUAL_OFFSET := 0x3edb4.
Definition PLX_NT0_RID_LUT_VIRTUAL_OFFSET_1 := 0x3edb8.
Definition PLX_NT0_RID_LUT_LINK_OFFSET := 0x3fdb4.
Definition PLX_NT0_RID_LUT_LINK_OFFSET_1 := 0x3fdb8.
Definition PLX_NT1_RID_LUT_VIRTUAL_OFFSET := 0x3cdb4.
Definition PLX_NT1_RID_LUT_VIRTUAL_OFFSET_1 := 0x3cdb8.
Definition PLX_NT1_RID_LUT_LINK_OFFSET := 0x3ddb4.
Definition PLX_NT1_RID_LUT_LINK_OFFSET_1 := 0x3ddb8.
Definition PLX_RID_LUT_ENABLE := 0x00010001.
Definition PLX_RID_LUT_ENABLE_1 := 0x1.
Definition VCA_DMA_DEVICE := 0.
Definition PLX_EEP_STATUS_CONTROL := 0x260.
Definition PLX_EEP_CRC := 0x270.
Definition PLX_EEP_EEPPRSNT_SHIFT := 16.
Definition PLX_EEP_EEPPRSNT_MASK := 0x30000.
Definition PLX_EEP_EEPRRSNT_SIGNATURE_OK := 1.
Definition PLX_EEP_EEPCRC_ERR_MASK := 0x80000.
Definition INTEL_VCA_PCI_NODE0_ID := 0x2954.
Definition INTEL_VCA_PCI_NODE1_ID := 0x2955.
Definition INTEL_VCA_PCI_NODE2_ID := 0x2956.
Definition INTEL_VCA_CPU2_UPSTREAM_ID := 0x295A.

(** ** The device *)

(** The fields of [struct plx_device] that this code uses. *)
Record plx_device (hw : Type) := mkDev {
  link_side : bool;
  port_id : Z;
  reg_base : Z;
  reg_base_peer : Z;
  a_lut : bool;
  a_lut_peer : bool;
  num_ntbs : Z;
  a_lut_array_base : Z;
  intr_reg_base : Z;
  peer_intr_reg_base : Z;
  aper_va : Z;
  aper_len : Z;
  a_lut_manager : plx_alm;
  mmio : hw;
}.
Arguments mkDev {_}.
Arguments link_side {_}.
Arguments port_id {_}.
Arguments reg_base {_}.
Arguments reg_base_peer {_}.
Arguments a_lut {_}.
Arguments a_lut_peer {_}.
Arguments num_ntbs {_}.
Arguments a_lut_array_base {_}.
Arguments intr_reg_base {_}.
Arguments peer_intr_reg_base {_}.
Arguments aper_va {_}.
Arguments aper_len {_}.
Arguments a_lut_manager {_}.
Arguments mmio {_}.

Section Device.
Context {hw : Type} `{!Mmio hw}.
Implicit Types (xdev : plx_device hw) (h : hw).

Definition set_mmio xdev h : plx_device hw :=
  mkDev (link_side xdev) (port_id xdev) (reg_base xdev) (reg_base_peer xdev) (a_lut xdev)
    (a_lut_peer xdev) (num_ntbs xdev) (a_lut_array_base xdev) (intr_reg_base xdev)
    (peer_intr_reg_base xdev) (aper_va xdev) (aper_len xdev) (a_lut_manager xdev) h.
Definition set_manager xdev (m : plx_alm) : plx_device hw :=
  mkDev (link_side xdev) (port_id xdev) (reg_base xdev) (reg_base_peer xdev) (a_lut xdev)
    (a_lut_peer xdev) (num_ntbs xdev) (a_lut_array_base xdev) (intr_reg_base xdev)
    (peer_intr_reg_base xdev) (aper_va xdev) (aper_len xdev) m (mmio xdev).

Definition plx_mmio_read xdev (offset : Z) : Z * plx_device hw :=
  let '(v, h) := ioread32 (mmio xdev) offset in (v, set_mmio xdev h).
Definition plx_mmio_write xdev (val offset : Z) : plx_device hw :=
  set_mmio xdev (iowrite32 (mmio xdev) (u32 val) offset).

(** ** A-LUT *)

Definition plx_a_lut_disable xdev : plx_device hw :=
  plx_mmio_write xdev 0 (reg_base xdev + PLX_A_LUT_CONTROL).

Definition plx_get_a_lut_entry_offset (idx : Z) : Z :=
  (if PLX_A_LUT_MAX_ARRAY <=? idx then PLX_A_LUT_ARRAY_OFFSET else 0)
  + (idx mod PLX_A_LUT_MAX_ARRAY) * 4.

(** The [for] of [plx_a_lut_clear]; [n] iterations are left. *)
Fixpoint clear_loop (n : nat) xdev (offset i : Z) : plx_device hw :=
  match n with
  | O => xdev
  | S n =>
      let entry_offset := plx_get_a_lut_entry_offset i + offset in
      let xdev := plx_mmio_write xdev 0 (entry_offset + PLX_A_LUT_PERMISSION_SUBARRAY_OFFSET) in
      let xdev := plx_mmio_write xdev 0 (entry_offset + PLX_A_LUT_HIGHER_RE_MAP_SUBARRAY_OFFSET) in
      let xdev := plx_mmio_write xdev 0 (entry_offset + PLX_A_LUT_LOWER_RE_MAP_SUBARRAY_OFFSET) in
      clear_loop n xdev offset (i + 1)
  end.

Definition plx_a_lut_clear xdev (offset : Z) : outcome (plx_device hw) :=
  m ← plx_alm_reset (a_lut_manager xdev);
  let xdev := set_manager xdev m in
  Ret (clear_loop (Z.to_nat (segments_num m)) xdev offset 0).

Definition _plx_a_lut_enable xdev : outcome (plx_device hw * Z) :=
  let xdev := plx_a_lut_disable xdev in
  xdev ← plx_a_lut_clear xdev (a_lut_array_base xdev);
  let xdev := if a_lut_peer xdev
              then plx_mmio_write xdev PLX_A_LUT_ENABLE (reg_base xdev + PLX_A_LUT_CONTROL)
              else xdev in
  Ret (xdev, 0).

Definition plx_a_lut_peer_enable xdev : plx_device hw :=
  plx_mmio_write xdev PLX_A_LUT_ENABLE (reg_base_peer xdev + PLX_A_LUT_CONTROL).

(** The [for] of [plx_add_a_lut_entry]. *)
Fixpoint add_loop (n : nat) xdev (i addr_masked last_permission_reg : Z)
    : plx_device hw * Z :=
  match n with
  | O => (xdev, last_permission_reg)
  | S n =>
      let entry_offset := a_lut_array_base xdev + plx_get_a_lut_entry_offset i in
      let lower_re_map_offset := entry_offset + PLX_A_LUT_LOWER_RE_MAP_SUBARRAY_OFFSET in
      let higher_re_map_offset := entry_offset + PLX_A_LUT_HIGHER_RE_MAP_SUBARRAY_OFFSET in
      let permission_offset := entry_offset + PLX_A_LUT_PERMISSION_SUBARRAY_OFFSET in
      let xdev := plx_mmio_write xdev (Z.shiftr addr_masked 32) higher_re_map_offset in
      let xdev := plx_mmio_write xdev addr_masked lower_re_map_offset in
      let xdev := plx_mmio_write xdev (Z.lor PLX_A_LUT_PERMISSION_READ_ENABLE
                                        PLX_A_LUT_PERMISSION_WRITE_ENABLE) permission_offset in
      add_loop n xdev (i + 1) (u64 (addr_masked + segment_size (a_lut_manager xdev)))
        permission_offset
  end.

(** The result is the return value and, on success, [*addr_out]. *)
Definition plx_add_a_lut_entry xdev (addr size : Z)
    : outcome (plx_device hw * Z * option Z) :=
  let translation_mask := u64 (segment_size (a_lut_manager xdev) - 1) in
  let addr_masked := Z.land addr (Z.lnot translation_mask) in
  '(m, err, o) ← plx_alm_add_entry (a_lut_manager xdev) addr size;
  let xdev := set_manager xdev m in
  match o with
  | Some (segment_id, segments_n) =>
      if negb (err =? 0) && negb (err =? - EEXIST) then Ret (xdev, - ENOMEM, None)
      else
        let xdev :=
          if err =? 0 then
            let '(xdev, last) := add_loop (Z.to_nat segments_n) xdev segment_id addr_masked 0 in
            if negb (last =? 0) then snd (plx_mmio_read xdev last) else xdev
          else xdev in
        Ret (xdev, 0, Some (u64 (segment_id * segment_size (a_lut_manager xdev)
                                 + Z.land addr translation_mask)))
  | None => Ret (xdev, - ENOMEM, None)
  end.

(** The [for] of [plx_del_a_lut_entry]. *)
Fixpoint del_loop (n : nat) xdev (i : Z) : plx_device hw :=
  match n with
  | O => xdev
  | S n =>
      let permission_offset :=
        plx_get_a_lut_entry_offset i + PLX_A_LUT_PERMISSION_SUBARRAY_OFFSET in
      del_loop n (plx_mmio_write xdev 0 (a_lut_array_base xdev + permission_offset)) (i + 1)
  end.

(** A division by a zero segment size is [Bug]. *)
Definition plx_del_a_lut_entry xdev (addr : Z) : outcome (plx_device hw) :=
  let alm := a_lut_manager xdev in
  _ ← bug_on (segment_size alm =? 0);
  let segment_id := u32 (addr / segment_size alm) in
  if u64 (segments_num alm * segment_size alm) <=? addr then Ret xdev
  else
    '(m, o) ← plx_alm_del_entry alm segment_id;
    let xdev := set_manager xdev m in
    match o with
    | Some (start_segment, segments_n) =>
        if negb (segments_n =? 0) then Ret (del_loop (Z.to_nat segments_n) xdev start_segment)
        else Ret xdev
    | None => Ret xdev
    end.

(** [NULL] is [None]. *)
Definition plx_ioremap xdev (pa len : Z) : outcome (plx_device hw * option Z) :=
  if a_lut xdev then
    '(xdev, rc, out) ← plx_add_a_lut_entry xdev pa len;
    match out with
    | Some pa_out => if rc =? 0 then Ret (xdev, Some (u64 (aper_va xdev + pa_out)))
                     else Ret (xdev, None)
    | None => Ret (xdev, None)
    end
  else Ret (xdev, Some (u64 (aper_va xdev + pa))).

Definition plx_iounmap xdev (va : Z) : outcome (plx_device hw) :=
  let pa := u64 (va - aper_va xdev) in
  if a_lut xdev then plx_del_a_lut_entry xdev pa else Ret xdev.

(** ** Scratchpads, doorbells and BAR translation *)

Definition plx_write_spad xdev (idx val : Z) : plx_device hw :=
  plx_mmio_write xdev val (reg_base xdev + PLX_SPAD0 + idx * 4).
Definition plx_read_spad xdev (idx : Z) : Z * plx_device hw :=
  plx_mmio_read xdev (reg_base xdev + PLX_SPAD0 + idx * 4).

Definition plx_set_dp_addr xdev (dp_addr : Z) : plx_device hw :=
  let xdev := plx_write_spad xdev PLX_DPLO_SPAD dp_addr in
  plx_write_spad xdev PLX_DPHI_SPAD (Z.shiftr dp_addr 32).
Definition plx_get_dp_addr xdev : Z * plx_device hw :=
  let '(lo, xdev) := plx_read_spad xdev PLX_DPLO_SPAD in
  let '(hi, xdev) := plx_read_spad xdev PLX_DPHI_SPAD in
  (Z.lor lo (u64 (Z.shiftl hi 32)), xdev).

Definition plx_enable_interrupts xdev : plx_device hw :=
  plx_mmio_write xdev 0xFFFF (reg_base xdev + intr_reg_base xdev + PLX_DBIMC).
Definition plx_disable_interrupts xdev : plx_device hw :=
  plx_mmio_write xdev 0xFFFF (reg_base xdev + intr_reg_base xdev + PLX_DBIMS).
Definition plx_send_intr xdev (doorbell : Z) : plx_device hw :=
  plx_mmio_write xdev (DB_TO_MASK doorbell) (reg_base xdev + peer_intr_reg_base xdev + PLX_DBIS).
Definition plx_ack_interrupt xdev : Z * plx_device hw :=
  let offset := reg_base xdev + intr_reg_base xdev + PLX_DBIC in
  let '(reg, xdev) := plx_mmio_read xdev offset in
  (reg, plx_mmio_write xdev reg offset).

Definition plx_program_bar23_at xdev (val : Z) : plx_device hw :=
  let xdev := plx_mmio_write xdev val (reg_base xdev + PLX_BAR2_AT) in
  plx_mmio_write xdev (Z.shiftr val 32) (reg_base xdev + PLX_BAR3_AT).

(** ** Initialisation *)

Definition _plx_get_reg_base (link_side : bool) (port_id : Z) : Z :=
  u32 (0x3E000 - port_id * 0x2000 + b2z link_side * 0x1000).

(** The PCI topology above a device: the bus it sits on, its parents, and the
    bridge device ([bus->self], which sits on the parent bus) that leads to each
    of them. *)
Inductive pci_bus :=
| RootBus (number : Z)
| ChildBus (number : Z) (self_is_root_port : bool) (self_devfn : Z) (parent : pci_bus).

Definition bus_number (b : pci_bus) : Z :=
  match b with RootBus n => n | ChildBus n _ _ _ => n end.
Definition bus_parent (b : pci_bus) : outcome pci_bus :=
  match b with RootBus _ => Oob | ChildBus _ _ _ p => Ret p end.
Definition PCI_SLOT (devfn : Z) : Z := Z.land (Z.shiftr devfn 3) 0x1f.

(** The root port above a bus: the bus it sits on and its [devfn]. *)
Fixpoint plx_find_root_port (bus : pci_bus) : option (pci_bus * Z) :=
  match bus with
  | RootBus _ => None
  | ChildBus _ is_root devfn parent =>
      if is_root then Some (parent, devfn) else plx_find_root_port parent
  end.

Fixpoint plx_find_root_complex_bus_num (bus : pci_bus) : Z :=
  match bus with
  | RootBus n => n
  | ChildBus _ _ _ parent => plx_find_root_complex_bus_num parent
  end.

Definition plx_rid_lut (root_port_bus root_port_dev root_complex_bus root_complex_dev : Z) : Z :=
  u32 (Z.lor (Z.shiftl root_port_bus 24)
      (Z.lor (Z.shiftl (Z.land root_port_dev 0x0f) 19)
      (Z.lor (Z.shiftl root_complex_bus 8)
      (Z.lor (Z.shiftl (Z.land root_complex_dev 0x0f) 3) PLX_RID_LUT_ENABLE)))).

Definition plx_rid_lut_dma (dma_bus dma_dev : Z) : Z :=
  u32 (Z.lor (Z.shiftl dma_bus 8)
      (Z.lor (Z.shiftl (Z.land dma_dev 0x0f) 3) PLX_RID_LUT_ENABLE_1)).

Definition plx_program_rid_lut_dma xdev (bus : pci_bus) : outcome (plx_device hw * Z) :=
  let '(virtual_rid_offset, link_rid_offset) :=
    if port_id xdev =? 0
    then (PLX_NT0_RID_LUT_VIRTUAL_OFFSET_1, PLX_NT0_RID_LUT_LINK_OFFSET_1)
    else (PLX_NT1_RID_LUT_VIRTUAL_OFFSET_1, PLX_NT1_RID_LUT_LINK_OFFSET_1) in
  dma_bus_number ← (if link_side xdev then Ret (bus_number bus)
                    else p ← bus_parent bus; pp ← bus_parent p; Ret (bus_number pp));
  let rid_lut := plx_rid_lut_dma dma_bus_number VCA_DMA_DEVICE in
  Ret (plx_mmio_write xdev rid_lut
         (if link_side xdev then link_rid_offset else virtual_rid_offset), 0).

Definition plx_program_rid_lut xdev (bus : pci_bus) : plx_device hw * Z :=
  let '(virtual_rid_offset, link_rid_offset) :=
    if port_id xdev =? 0
    then (PLX_NT0_RID_LUT_VIRTUAL_OFFSET, PLX_NT0_RID_LUT_LINK_OFFSET)
    else (PLX_NT1_RID_LUT_VIRTUAL_OFFSET, PLX_NT1_RID_LUT_LINK_OFFSET) in
  match plx_find_root_port bus with
  | None => (xdev, - ENXIO)
  | Some (port_bus, devfn) =>
      let rid_lut := plx_rid_lut (bus_number port_bus) (PCI_SLOT devfn)
                       (plx_find_root_complex_bus_num bus) 0 in
      (plx_mmio_write xdev rid_lut
         (if link_side xdev then link_rid_offset else virtual_rid_offset), 0)
  end.

Definition plx_check_eeprom xdev : plx_device hw * Z :=
  let '(val, xdev) := plx_mmio_read xdev PLX_EEP_STATUS_CONTROL in
  if Z.shiftr (Z.land val PLX_EEP_EEPPRSNT_MASK) PLX_EEP_EEPPRSNT_SHIFT
     =? PLX_EEP_EEPRRSNT_SIGNATURE_OK
  then
    let '(_, xdev) := plx_mmio_read xdev PLX_EEP_CRC in
    if testflag val PLX_EEP_EEPCRC_ERR_MASK then (xdev, - EIO) else (xdev, 0)
  else (xdev, - EIO).

(** The fields [plx_hw_init] sets from the port id register, before the EEPROM
    check; both [VCA_ALUT_CARD_SIDE] and [VCA_ALUT_HOST_SIDE] are defined. *)
Definition init_side xdev (val : Z) : plx_device hw :=
  let link := testflag val (Z.shiftl 1 31) in
  let port := Z.land val 0x1 in
  mkDev link port (_plx_get_reg_base link port) (_plx_get_reg_base (negb link) port)
    true true (num_ntbs xdev) (a_lut_array_base xdev) (intr_reg_base xdev)
    (peer_intr_reg_base xdev) (aper_va xdev) (aper_len xdev) (a_lut_manager xdev) (mmio xdev).

(** The fields it sets after the EEPROM check, from the PCI device id. *)
Definition init_array xdev (device : Z) : plx_device hw :=
  let ntbs := if (device =? INTEL_VCA_CPU2_UPSTREAM_ID) || (device =? INTEL_VCA_PCI_NODE2_ID)
              then 1 else 2 in
  let base :=
    if ntbs =? 2
    then if negb (link_side xdev) then (if port_id xdev =? 0 then 0x38000 else 0x3a000)
         else (if port_id xdev =? 0 then 0x39000 else 0x3b000)
    else if negb (link_side xdev) then 0x38000 else 0x3a000 in
  mkDev (link_side xdev) (port_id xdev) (reg_base xdev) (reg_base_peer xdev)
    (a_lut xdev) (a_lut_peer xdev) ntbs base
    (if link_side xdev then 0x10 else intr_reg_base xdev)
    (if link_side xdev then peer_intr_reg_base xdev else 0x10)
    (aper_va xdev) (aper_len xdev) (a_lut_manager xdev) (mmio xdev).

(** [config]: what [pci_read_config_dword] returns (the error, or the word);
    [kzalloc_ok]: whether the manager's array can be allocated. *)
Definition plx_hw_init xdev (config : Z + Z) (device : Z) (bus : pci_bus) (kzalloc_ok : bool)
    : outcome (plx_device hw * Z) :=
  match config with
  | inl rc => Ret (xdev, rc)
  | inr val =>
      let xdev := init_side xdev val in
      let '(xdev, rc) := if negb (link_side xdev) then plx_check_eeprom xdev else (xdev, 0) in
      if negb (rc =? 0) then Ret (xdev, rc) else
      let xdev := init_array xdev device in
      let '(xdev, rc) := plx_program_rid_lut xdev bus in
      if negb (rc =? 0) then Ret (xdev, rc) else
      '(xdev, rc) ← plx_program_rid_lut_dma xdev bus;
      if negb (rc =? 0) then Ret (xdev, rc) else
      '(xdev, rc) ← _plx_a_lut_enable xdev;
      if negb (rc =? 0) then Ret (xdev, rc) else
      '(m, rc) ← plx_alm_init (num_ntbs xdev) (aper_len xdev) kzalloc_ok;
      Ret (set_manager xdev m, rc)
  end.

Definition plx_hw_deinit xdev : outcome (plx_device hw) :=
  m ← plx_alm_release (a_lut_manager xdev);
  Ret (set_manager xdev m).

(** ** What the peer sees

    The bridge translates an aperture offset [x] through the entry of its
    segment, when the entry grants reading and writing. *)
Definition entry_reg xdev (seg sub : Z) : Z :=
  a_lut_array_base xdev + plx_get_a_lut_entry_offset seg + sub.

Definition peer_translate xdev (x : Z) : option Z :=
  let sz := segment_size (a_lut_manager xdev) in
  let seg := x / sz in
  let reg sub := peek (mmio xdev) (entry_reg xdev seg sub) in
  if Z.land (reg PLX_A_LUT_PERMISSION_SUBARRAY_OFFSET) 3 =? 3
  then Some (Z.lor (reg PLX_A_LUT_LOWER_RE_MAP_SUBARRAY_OFFSET)
               (Z.shiftl (reg PLX_A_LUT_HIGHER_RE_MAP_SUBARRAY_OFFSET) 32) + x mod sz)
  else None.

(** The registers of the first [n] entries of the array at [base]. *)
Definition lut_regs (base n : Z) (o : Z) : Prop :=
  exists seg sub, 0 <= seg < n
    /\ (sub = PLX_A_LUT_LOWER_RE_MAP_SUBARRAY_OFFSET
        \/ sub = PLX_A_LUT_HIGHER_RE_MAP_SUBARRAY_OFFSET
        \/ sub = PLX_A_LUT_PERMISSION_SUBARRAY_OFFSET)
    /\ o = base + plx_get_a_lut_entry_offset seg + sub.

(** The entry of segment [seg] grants access to the bus address [x]. *)
Definition seg_maps xdev (seg x : Z) : Prop :=
  peek (mmio xdev) (entry_reg xdev seg PLX_A_LUT_LOWER_RE_MAP_SUBARRAY_OFFSET) = u32 x
  /\ peek (mmio xdev) (entry_reg xdev seg PLX_A_LUT_HIGHER_RE_MAP_SUBARRAY_OFFSET)
     = u32 (Z.shiftr x 32)
  /\ peek (mmio xdev) (entry_reg xdev seg PLX_A_LUT_PERMISSION_SUBARRAY_OFFSET) = 3.

(** The invariant: the manager is well formed, and the registers grant what it
    says of every mapped segment. *)
Definition coherent xdev : Prop :=
  wf (a_lut_manager xdev)
  /\ forall seg x c, translate (a_lut_manager xdev) seg = Some (x, c) -> seg_maps xdev seg x.

(** No block of the manager has the largest reference count. *)
Definition counts_ok xdev : Prop :=
  Forall (fun e => counter e < 65535) (entries (a_lut_manager xdev)).

(** The three registers of two segments never coincide. *)
Lemma entry_offset_inj seg seg' sub sub' :
  0 <= seg < 256 -> 0 <= seg' < 256 ->
  sub = 0 \/ sub = 0x400 \/ sub = 0x800 -> sub' = 0 \/ sub' = 0x400 \/ sub' = 0x800 ->
  plx_get_a_lut_entry_offset seg + sub = plx_get_a_lut_entry_offset seg' + sub' ->
  seg = seg' /\ sub = sub'.
Proof.
  intros Hs Hs' Hb Hb'. unfold plx_get_a_lut_entry_offset, PLX_A_LUT_MAX_ARRAY, PLX_A_LUT_ARRAY_OFFSET.
  pose proof (Z.div_mod seg 128 ltac:(lia)). pose proof (Z.div_mod seg' 128 ltac:(lia)).
  pose proof (Z.mod_pos_bound seg 128 ltac:(lia)). pose proof (Z.mod_pos_bound seg' 128 ltac:(lia)).
  destruct (Z.leb_spec 128 seg), (Z.leb_spec 128 seg'); lia.
Qed.

(** The array windows that [plx_hw_init] gives to two ports, or to the two
    sides of one port, share no register. *)
Lemma lut_windows_disjoint o base base' n :
  (n = 128 /\ (exists i j, 0 <= i < 4 /\ 0 <= j < 4 /\ i <> j
                /\ base = 0x38000 + i * 0x1000 /\ base' = 0x38000 + j * 0x1000))
  \/ (n = 256 /\ base = 0x38000 /\ base' = 0x3a000) ->
  lut_regs base n o -> lut_regs base' n o -> False.
Proof.
  unfold lut_regs, plx_get_a_lut_entry_offset, PLX_A_LUT_MAX_ARRAY, PLX_A_LUT_ARRAY_OFFSET,
    PLX_A_LUT_LOWER_RE_MAP_SUBARRAY_OFFSET, PLX_A_LUT_HIGHER_RE_MAP_SUBARRAY_OFFSET,
    PLX_A_LUT_PERMISSION_SUBARRAY_OFFSET.
  intros Hn (s & b & Hs & Hb & Ho) (s' & b' & Hs' & Hb' & Ho').
  pose proof (Z.mod_pos_bound s 128 ltac:(lia)). pose proof (Z.mod_pos_bound s' 128 ltac:(lia)).
  destruct Hn as [(-> & i & j & Hi & Hj & Hne & -> & ->)|(-> & -> & ->)].
  - rewrite (proj2 (Z.leb_gt 128 s)) in Ho by lia. rewrite (proj2 (Z.leb_gt 128 s')) in Ho' by lia. lia.
  - destruct (128 <=? s), (128 <=? s'); lia.
Qed.

Lemma u32_of_u64 a : u32 (u64 a) = u32 a.
Proof.
  unfold u32, u64, wrap. change (2 ^ 64) with (2 ^ 32 * 2 ^ 32).
  rewrite Z.rem_mul_r by lia. rewrite Z.mul_comm, Z.mod_add by lia. by rewrite Z.mod_mod by lia.
Qed.

Lemma u32_hi_of_u64 a : u32 (Z.shiftr (u64 a) 32) = u32 (Z.shiftr a 32).
Proof.
  unfold u32, u64, wrap. rewrite !Z.shiftr_div_pow2 by lia. change (2 ^ 64) with (2 ^ 32 * 2 ^ 32).
  rewrite Z.rem_mul_r by lia. rewrite Z.mul_comm, Z.div_add by lia.
  rewrite (Z.div_small (a mod _)) by (apply Z.mod_pos_bound; lia).
  by rewrite Z.add_0_l, Z.mod_mod by lia.
Qed.

Lemma seg_maps_u64 xdev seg x : seg_maps xdev seg (u64 x) <-> seg_maps xdev seg x.
Proof. unfold seg_maps. by rewrite u32_of_u64, u32_hi_of_u64. Qed.

(** A mapped segment, read by the peer. *)
Lemma seg_maps_translate xdev seg a x :
  seg_maps xdev seg a -> fits 64 a -> 0 < segment_size (a_lut_manager xdev) ->
  x / segment_size (a_lut_manager xdev) = seg ->
  peer_translate xdev x = Some (a + x mod segment_size (a_lut_manager xdev)).
Proof.
  intros (Hl & Hh & Hp) Ha Hsz <-. unfold peer_translate. rewrite Hl, Hh, Hp. simpl.
  by rewrite u64_halves.
Qed.

Section Storage.
Context (base num : Z) `{!MmioStorage hw (lut_regs base num)} (Hnum : num <= 256).

(** Two devices whose entry [seg] holds the same words. *)
Definition same_entry xdev xdev' (seg : Z) : Prop :=
  forall sub, sub = 0 \/ sub = 0x400 \/ sub = 0x800 ->
    peek (mmio xdev') (base + plx_get_a_lut_entry_offset seg + sub)
    = peek (mmio xdev) (base + plx_get_a_lut_entry_offset seg + sub).

Lemma same_entry_maps xdev xdev' seg x :
  a_lut_array_base xdev = base -> a_lut_array_base xdev' = base ->
  same_entry xdev xdev' seg -> seg_maps xdev seg x -> seg_maps xdev' seg x.
Proof.
  intros Hb Hb' Hs (Hl & Hh & Hp). unfold seg_maps, entry_reg in *. rewrite Hb in *. rewrite Hb'.
  unfold PLX_A_LUT_LOWER_RE_MAP_SUBARRAY_OFFSET, PLX_A_LUT_HIGHER_RE_MAP_SUBARRAY_OFFSET,
    PLX_A_LUT_PERMISSION_SUBARRAY_OFFSET in *.
  rewrite !Hs by auto. auto.
Qed.

Lemma lut_reg_in seg sub :
  0 <= seg < num -> sub = 0 \/ sub = 0x400 \/ sub = 0x800 ->
  lut_regs base num (base + plx_get_a_lut_entry_offset seg + sub).
Proof. intros. by exists seg, sub. Qed.

(** Writing a register of one entry: the word itself, and everything else. *)
Lemma write_entry xdev v seg sub seg' sub' :
  0 <= seg < num -> 0 <= seg' < num ->
  sub = 0 \/ sub = 0x400 \/ sub = 0x800 -> sub' = 0 \/ sub' = 0x400 \/ sub' = 0x800 ->
  peek (mmio (plx_mmio_write xdev v (base + plx_get_a_lut_entry_offset seg + sub)))
    (base + plx_get_a_lut_entry_offset seg' + sub')
  = if (seg =? seg') && (sub =? sub') then u32 v
    else peek (mmio xdev) (base + plx_get_a_lut_entry_offset seg' + sub').
Proof.
  intros Hs Hs' Hb Hb'. simpl.
  destruct (Z.eqb_spec seg seg') as [->|Hn]; simpl.
  - destruct (Z.eqb_spec sub sub') as [->|Hn].
    + apply storage_write; [by apply lut_reg_in|]. by apply wrap_fits.
    + apply storage_frame; [by apply lut_reg_in|]. intros He. apply Hn. lia.
  - apply storage_frame; [by apply lut_reg_in|]. intros He. apply Hn.
    apply (entry_offset_inj seg seg' sub sub'); lia.
Qed.

(** Only the registers differ. *)
Definition only_mmio xdev xdev' : Prop := xdev' = set_mmio xdev (mmio xdev').

Lemma only_mmio_write xdev v o : only_mmio xdev (plx_mmio_write xdev v o).
Proof. done. Qed.

Lemma only_mmio_trans x1 x2 x3 : only_mmio x1 x2 -> only_mmio x2 x3 -> only_mmio x1 x3.
Proof. unfold only_mmio. intros -> ->. done. Qed.

(** One turn of the programming loop. *)
Definition write_seg xdev (i a : Z) : plx_device hw :=
  plx_mmio_write
    (plx_mmio_write
      (plx_mmio_write xdev (Z.shiftr a 32)
        (base + plx_get_a_lut_entry_offset i + PLX_A_LUT_HIGHER_RE_MAP_SUBARRAY_OFFSET))
      a (base + plx_get_a_lut_entry_offset i + PLX_A_LUT_LOWER_RE_MAP_SUBARRAY_OFFSET))
    3 (base + plx_get_a_lut_entry_offset i + PLX_A_LUT_PERMISSION_SUBARRAY_OFFSET).

Lemma write_seg_ok xdev i a :
  a_lut_array_base xdev = base -> 0 <= i < num ->
  seg_maps (write_seg xdev i a) i a
  /\ forall seg, 0 <= seg < num -> seg <> i -> same_entry xdev (write_seg xdev i a) seg.
Proof.
  intros Hb Hi. unfold write_seg, PLX_A_LUT_LOWER_RE_MAP_SUBARRAY_OFFSET,
    PLX_A_LUT_HIGHER_RE_MAP_SUBARRAY_OFFSET, PLX_A_LUT_PERMISSION_SUBARRAY_OFFSET. split.
  - unfold seg_maps, entry_reg. simpl a_lut_array_base. rewrite Hb.
    unfold PLX_A_LUT_LOWER_RE_MAP_SUBARRAY_OFFSET, PLX_A_LUT_HIGHER_RE_MAP_SUBARRAY_OFFSET,
      PLX_A_LUT_PERMISSION_SUBARRAY_OFFSET.
    rewrite !write_entry by (lia || auto). rewrite !Z.eqb_refl. done.
  - intros seg Hs Hn sub Hsub. rewrite !write_entry by (lia || auto).
    by rewrite (proj2 (Z.eqb_neq i seg)) by lia.
Qed.

Lemma add_loop_ok n xdev i a last :
  a_lut_array_base xdev = base -> 0 <= i -> i + Z.of_nat n <= num ->
  let xdev' := fst (add_loop n xdev i a last) in
  only_mmio xdev xdev'
  /\ (forall k, 0 <= k < Z.of_nat n ->
        seg_maps xdev' (i + k) (a + k * segment_size (a_lut_manager xdev)))
  /\ forall seg, 0 <= seg < num -> ~ (i <= seg < i + Z.of_nat n) -> same_entry xdev xdev' seg.
Proof.
  revert xdev i a last. induction n as [|n IH]; intros xdev i a last Hb Hi Hn xdev'.
  - subst xdev'. simpl. split; [by destruct xdev|]. split; [intros; lia|]. by intros seg _ _ sub _.
  - set (x1 := write_seg xdev i a).
    destruct (write_seg_ok xdev i a Hb ltac:(lia)) as (Hm1 & Hs1).
    destruct (IH x1 (i + 1) (u64 (a + segment_size (a_lut_manager xdev)))
                (base + plx_get_a_lut_entry_offset i + PLX_A_LUT_PERMISSION_SUBARRAY_OFFSET)
                Hb ltac:(lia) ltac:(lia)) as (Ho & Hm & Hs).
    set (x2 := fst (add_loop n x1 _ _ _)) in *.
    assert (xdev' = x2) as -> by (subst xdev'; cbn [add_loop]; by rewrite Hb).
    assert (Hb2 : a_lut_array_base x2 = base) by (rewrite Ho; exact Hb).
    split; [by apply (only_mmio_trans _ x1)|]. split.
    + intros k Hk. destruct (decide (k = 0)) as [->|Hk0].
      * rewrite Z.mul_0_l, !Z.add_0_r. apply (same_entry_maps x1); [exact Hb|exact Hb2| |exact Hm1].
        apply Hs; lia.
      * specialize (Hm (k - 1) ltac:(lia)). replace (i + 1 + (k - 1)) with (i + k) in Hm by lia.
        apply seg_maps_u64 in Hm. apply seg_maps_u64.
        replace (u64 (a + k * segment_size (a_lut_manager xdev)))
          with (u64 (u64 (a + segment_size (a_lut_manager xdev))
                     + (k - 1) * segment_size (a_lut_manager x1))); [exact Hm|].
        unfold u64, wrap. rewrite Zplus_mod_idemp_l. f_equal. simpl a_lut_manager. lia.
    + intros seg Hseg Hout sub Hsub. rewrite (Hs seg) by (lia || auto). apply Hs1; lia || auto.
Qed.

Lemma clear_loop_ok n xdev i :
  0 <= i -> i + Z.of_nat n <= num ->
  let xdev' := clear_loop n xdev base i in
  only_mmio xdev xdev'
  /\ forall seg sub, 0 <= seg < num -> sub = 0 \/ sub = 0x400 \/ sub = 0x800 ->
       peek (mmio xdev') (base + plx_get_a_lut_entry_offset seg + sub)
       = if (i <=? seg) && (seg <? i + Z.of_nat n) then 0
         else peek (mmio xdev) (base + plx_get_a_lut_entry_offset seg + sub).
Proof.
  revert xdev i. induction n as [|n IH]; intros xdev i Hi Hn xdev'; subst xdev'.
  - split; [by destruct xdev|]. intros seg sub Hs Hb. simpl.
    destruct (Z.leb_spec i seg), (Z.ltb_spec seg (i + Z.of_nat 0)); simpl; done || lia.
  - cbn [clear_loop]. rewrite !(Z.add_comm (plx_get_a_lut_entry_offset i) base).
    set (x1 := plx_mmio_write _ _ _).
    destruct (IH x1 (i + 1) ltac:(lia) ltac:(lia)) as (Ho & He). split.
    + by apply (only_mmio_trans _ x1).
    + intros seg sub Hs Hb. rewrite He by done. subst x1.
      unfold PLX_A_LUT_LOWER_RE_MAP_SUBARRAY_OFFSET,
        PLX_A_LUT_HIGHER_RE_MAP_SUBARRAY_OFFSET, PLX_A_LUT_PERMISSION_SUBARRAY_OFFSET.
      rewrite !write_entry by (lia || auto).
      destruct (Z.leb_spec (i + 1) seg), (Z.ltb_spec seg (i + 1 + Z.of_nat n)), (Z.leb_spec i seg),
        (Z.ltb_spec seg (i + Z.of_nat (S n))), (Z.eqb_spec i seg); simpl; try done; try lia.
      destruct Hb as [-> | [-> | ->]]; simpl; done.
Qed.

Lemma del_loop_ok n xdev i :
  a_lut_array_base xdev = base -> 0 <= i -> i + Z.of_nat n <= num ->
  let xdev' := del_loop n xdev i in
  only_mmio xdev xdev'
  /\ forall seg, 0 <= seg < num -> ~ (i <= seg < i + Z.of_nat n) -> same_entry xdev xdev' seg.
Proof.
  revert xdev i. induction n as [|n IH]; intros xdev i Hb Hi Hn xdev'; subst xdev'.
  - split; [by destruct xdev|]. by intros seg _ _ sub _.
  - cbn [del_loop]. rewrite Hb. rewrite Z.add_assoc.
    set (x1 := plx_mmio_write _ _ _).
    destruct (IH x1 (i + 1) Hb ltac:(lia) ltac:(lia)) as (Ho & Hs). split.
    + by apply (only_mmio_trans _ x1).
    + intros seg Hseg Hout sub Hsub. rewrite (Hs seg) by (lia || auto). subst x1.
      unfold PLX_A_LUT_PERMISSION_SUBARRAY_OFFSET.
      rewrite write_entry by (lia || auto). by rewrite (proj2 (Z.eqb_neq i seg)) by lia.
Qed.

(** Only the registers and the manager differ. *)
Definition only_state xdev xdev' : Prop :=
  xdev' = set_manager (set_mmio xdev (mmio xdev')) (a_lut_manager xdev').

Lemma read_entry xdev o seg x :
  a_lut_array_base xdev = base -> 0 <= seg < num ->
  seg_maps xdev seg x -> seg_maps (snd (plx_mmio_read xdev o)) seg x.
Proof.
  intros Hb Hs Hm. apply (same_entry_maps xdev); [done| | |done].
  - unfold plx_mmio_read. by destruct (ioread32 _ _).
  - intros sub Hsub. unfold plx_mmio_read.
    pose proof (storage_read (mmio xdev) o _ (lut_reg_in seg sub Hs Hsub)) as Hr.
    by destruct (ioread32 _ _).
Qed.

Lemma only_mmio_read xdev o : only_mmio xdev (snd (plx_mmio_read xdev o)).
Proof. unfold plx_mmio_read. by destruct (ioread32 _ _). Qed.

(** The programming step of [plx_add_a_lut_entry]. *)
Definition program xdev (id n a : Z) : plx_device hw :=
  let '(x, last) := add_loop (Z.to_nat n) xdev id a 0 in
  if negb (last =? 0) then snd (plx_mmio_read x last) else x.

Lemma program_ok xdev id n a :
  a_lut_array_base xdev = base -> 0 <= id -> 0 <= n -> id + n <= num ->
  only_mmio xdev (program xdev id n a)
  /\ (forall k, 0 <= k < n ->
        seg_maps (program xdev id n a) (id + k) (a + k * segment_size (a_lut_manager xdev)))
  /\ forall seg x, 0 <= seg < num -> ~ (id <= seg < id + n) ->
       seg_maps xdev seg x -> seg_maps (program xdev id n a) seg x.
Proof.
  intros Hb Hid Hn Hnn.
  destruct (add_loop_ok (Z.to_nat n) xdev id a 0 Hb Hid ltac:(lia)) as (Ho & Hm & Hs).
  unfold program. destruct (add_loop _ _ _ _ _) as [x last]. simpl fst in *.
  rewrite Z2Nat.id in * by lia.
  assert (Hb' : a_lut_array_base x = base) by (rewrite Ho; exact Hb).
  assert (Hs' : forall seg y, 0 <= seg < num -> ~ (id <= seg < id + n) ->
                 seg_maps xdev seg y -> seg_maps x seg y)
    by (intros seg y Hseg Hout; apply same_entry_maps; auto).
  destruct (negb (last =? 0)); [|auto].
  split; [by apply (only_mmio_trans _ x), only_mmio_read|]. split.
  - intros k Hk. apply read_entry; [done|lia|auto].
  - intros seg y Hseg Hout Hy. apply read_entry; auto.
Qed.

(** [plx_add_a_lut_entry] follows the manager, keeps the invariant, and returns
    the aperture offset of the request. *)
Lemma add_a_lut_ok xdev addr size :
  a_lut_array_base xdev = base -> segments_num (a_lut_manager xdev) = num ->
  coherent xdev -> counts_ok xdev -> fits 64 addr -> 0 < size ->
  let m := a_lut_manager xdev in
  exists m' err o xdev' rc out,
    plx_alm_add_entry m addr size = Ret (m', err, o)
    /\ plx_add_a_lut_entry xdev addr size = Ret (xdev', rc, out)
    /\ only_state xdev xdev' /\ a_lut_manager xdev' = m' /\ coherent xdev'
    /\ match o with
       | Some (id, n) => rc = 0 /\ out = Some (id * segment_size m + addr mod segment_size m)
       | None => rc = - ENOMEM /\ out = None
       end.
Proof.
  intros Hb Hn (Hw & Hco) Hcnt Ha Hs m. fold m in Hw, Hn, Hco.
  destruct (add_entry_ok m addr size Hw Hcnt Ha Hs) as (m' & err & o & Hadd & Hw' & Hsz & Ho).
  pose proof (fun seg x c => add_entry_origin m addr size m' err o seg x c Hw Hcnt Ha Hs Hadd) as Horig.
  pose proof Hw as (Hg & _). pose proof Hg as (Hnum' & (e & He & Hpow) & Hlt).
  assert (Hpos : 0 < segment_size m) by (rewrite Hpow; apply Z.pow_pos_nonneg; lia).
  assert (Hmask : Z.land addr (Z.lnot (u64 (segment_size m - 1))) = req_addr m addr
                  /\ Z.land addr (u64 (segment_size m - 1)) = addr mod segment_size m).
  { rewrite u64_small by nia. unfold req_addr. rewrite Hpow.
    rewrite land_not_mask, land_mask by lia. done. }
  destruct Hmask as (Hm1 & Hm2).
  exists m', err, o. unfold plx_add_a_lut_entry. fold m. rewrite Hadd. run_bind. rewrite Hm1, Hm2.
  assert (Hold : forall seg x c, translate m seg = Some (x, c) ->
            seg_maps (set_manager xdev m') seg x) by (intros seg x c Ht; exact (Hco seg x c Ht)).
  destruct o as [[id n]|].
  2:{ subst err. eexists (set_manager xdev m'), _, _. split; [done|]. split; [done|].
      split; [done|]. split; [done|]. split; [|done]. split; [done|].
      intros seg x c Ht. destruct (Horig seg x c Ht) as [(? & ? & ? & ? & _)|(c0 & Ht0)]; [done|eauto]. }
  destruct Ho as (Herr & Hra & Hcov & Htr).
  assert (Hn1 : 0 < n) by nia.
  assert (Hid : 0 <= id /\ id + n <= num).
  { destruct (Htr 0 ltac:(lia)) as (c1 & Ht1 & _). destruct (Htr (n - 1) ltac:(lia)) as (c2 & Ht2 & _).
    apply translate_range in Ht1; [|done]. apply translate_range in Ht2; [|done].
    enough (segments_num m' = num) by lia. rewrite <- Hn. by eapply (add_entry_num m addr size). }
  assert (Hout : u64 (id * segment_size m + addr mod segment_size m)
                 = id * segment_size m + addr mod segment_size m).
  { pose proof (Z.mod_pos_bound addr (segment_size m) Hpos). apply u64_small.
    unfold m in *. nia. }
  destruct (program_ok (set_manager xdev m') id n (req_addr m addr) Hb ltac:(lia) ltac:(lia) ltac:(lia))
    as (Hp1 & Hp2 & Hp3).
  assert (negb (err =? 0) && negb (err =? - EEXIST) = false) as ->
    by (destruct Herr as [-> | ->]; done).
  destruct Herr as [-> | ->].
  - eexists (program (set_manager xdev m') id n (req_addr m addr)), 0, _.
    split; [done|]. split; [|split; [|split; [|split; [|done]]]].
    + simpl (0 =? 0). cbn iota. fold (program (set_manager xdev m') id n (req_addr m addr)).
      do 3 f_equal. rewrite Hp1. simpl a_lut_manager. by rewrite Hsz, Hout.
    + unfold only_state. by rewrite Hp1.
    + by rewrite Hp1.
    + split; [rewrite Hp1; exact Hw'|]. intros seg x c Ht.
      assert (Ht' : translate m' seg = Some (x, c)) by (rewrite Hp1 in Ht; exact Ht).
      destruct (decide (id <= seg < id + n)) as [Hin|Hnin].
      * destruct (Htr (seg - id) ltac:(lia)) as (c' & Hc' & _).
        replace (id + (seg - id)) with seg in Hc' by lia. rewrite Ht' in Hc'. injection Hc' as -> ->.
        rewrite <- Hsz. replace seg with (id + (seg - id)) at 1 by lia. apply Hp2. lia.
      * destruct (Horig seg x c Ht') as [(? & ? & _ & Ho & ?)|(c0 & Ht0)]; [simplify_eq; lia|].
        apply Hp3; [|done|by eapply Hold]. rewrite <- Hn. by eapply translate_range.
  - eexists (set_manager xdev m'), 0, _. split; [done|].
    split; [simpl; by rewrite Hsz, Hout|]. split; [done|]. split; [done|]. split; [|done].
    split; [done|]. intros seg x c Ht.
    destruct (Horig seg x c Ht) as [(? & ? & ? & _)|(c0 & Ht0)]; [done|eauto].
Qed.

(** [plx_del_a_lut_entry] on an address of a mapped segment. *)
Lemma del_a_lut_ok xdev addr :
  a_lut_array_base xdev = base -> segments_num (a_lut_manager xdev) = num ->
  coherent xdev -> 0 <= addr ->
  is_Some (translate (a_lut_manager xdev) (addr / segment_size (a_lut_manager xdev))) ->
  exists m' o xdev',
    plx_alm_del_entry (a_lut_manager xdev) (addr / segment_size (a_lut_manager xdev)) = Ret (m', o)
    /\ plx_del_a_lut_entry xdev addr = Ret xdev'
    /\ only_state xdev xdev' /\ a_lut_manager xdev' = m' /\ coherent xdev'
    /\ (o = None -> xdev' = set_manager xdev m').
Proof.
  intros Hb Hn (Hw & Hco) Ha Hsome. pose proof Hsome as ([x c] & Ht).
  set (m := a_lut_manager xdev) in *. set (seg := addr / segment_size m) in *.
  destruct (del_entry_ok m seg x c Hw Ht) as (m' & o & Hdel & Hw' & _ & _).
  destruct (del_entry_origin m seg m' o Hw Hsome Hdel) as (Horig & Hfree & Hsz & Hnm).
  pose proof (translate_range m seg x c Hw Ht) as Hseg.
  pose proof Hw as ((Hnum' & (e & He & Hpow) & Hlt) & _).
  assert (Hpos : 0 < segment_size m) by (rewrite Hpow; apply Z.pow_pos_nonneg; lia).
  assert (Haddr : addr < segments_num m * segment_size m).
  { pose proof (Z.div_mod addr (segment_size m) ltac:(lia)).
    pose proof (Z.mod_pos_bound addr (segment_size m) Hpos). subst seg. nia. }
  unfold plx_del_a_lut_entry. fold m. unfold bug_on. if_false. run_bind.
  rewrite u64_small by nia. if_false. fold seg. rewrite u32_small by lia. rewrite Hdel. run_bind.
  exists m', o. destruct o as [[id n]|].
  - destruct (Hfree id n eq_refl) as (Hid & Hn0 & Hin & Hnone). rewrite (proj2 (Z.eqb_neq n 0)) by lia. simpl negb. cbn iota.
    destruct (del_loop_ok (Z.to_nat n) (set_manager xdev m') id Hb Hid ltac:(lia)) as (Ho & Hs).
    rewrite Z2Nat.id in Hs by lia.
    eexists. split; [done|]. split; [done|]. split; [by unfold only_state; rewrite Ho|].
    split; [by rewrite Ho|]. split; [|done]. split; [rewrite Ho; exact Hw'|].
    intros seg' x' c' Ht'. rewrite Ho in Ht'. simpl in Ht'.
    destruct (Horig seg' x' c' Ht') as (c0 & Ht0).
    apply (same_entry_maps (set_manager xdev m'));
      [exact Hb|rewrite Ho; exact Hb| |exact (Hco seg' x' c0 Ht0)].
    apply Hs.
    + rewrite <- Hn. by eapply translate_range.
    + intros Hr. rewrite <- (Z.sub_add id seg'), Z.add_comm in Ht'. rewrite Hnone in Ht' by lia. done.
  - eexists. split; [done|]. split; [done|]. split; [done|]. split; [done|]. split; [|done].
    split; [exact Hw'|]. intros seg' x' c' Ht'. destruct (Horig seg' x' c' Ht') as (c0 & Ht0).
    exact (Hco seg' x' c0 Ht0).
Qed.

End Storage.

(** The device is ready: its A-LUT is in use, coherent, with no reference count
    at its maximum. *)
Definition ready xdev : Prop :=
  a_lut xdev = true /\ fits 64 (aper_va xdev) /\ coherent xdev /\ counts_ok xdev.

(** The window of storage registers of a device. *)
Definition window xdev : Z -> Prop :=
  lut_regs (a_lut_array_base xdev) (segments_num (a_lut_manager xdev)).

Lemma coherent_num xdev : coherent xdev -> segments_num (a_lut_manager xdev) <= 256.
Proof. intros (((? & _) & _) & _). lia. Qed.

(** The pointer arithmetic of the aperture. *)
Lemma va_offset va off : fits 64 va -> fits 64 off -> u64 (u64 (va + off) - va) = off.
Proof.
  intros Hv Ho. unfold u64, wrap. rewrite Zminus_mod_idemp_l, Z.add_simpl_l. by apply Z.mod_small.
Qed.

(** Every byte of a successful request is translated. *)
Lemma request_bytes xdev' m addr id n k :
  coherent xdev' -> segment_size (a_lut_manager xdev') = segment_size m -> 0 < segment_size m ->
  (forall k, 0 <= k < n -> exists c,
     translate (a_lut_manager xdev') (id + k) = Some (req_addr m addr + k * segment_size m, c) /\ 2 <= c) ->
  0 <= k -> 0 <= addr -> addr + k < req_addr m addr + n * segment_size m -> addr + k < 2 ^ 64 ->
  peer_translate xdev' (id * segment_size m + addr mod segment_size m + k) = Some (addr + k).
Proof.
  intros (Hw & Hco) Hsz Hpos Htr Hk Ha Hlt H64. unfold req_addr in *. set (sz := segment_size m) in *.
  pose proof (Z.mod_pos_bound addr sz Hpos). pose proof (Z.mod_le addr sz Ha Hpos).
  set (off := addr mod sz + k).
  pose proof (Z.div_mod off sz ltac:(lia)). pose proof (Z.mod_pos_bound off sz Hpos).
  assert (0 <= off / sz) by (apply Z.div_pos; lia).
  assert (off / sz < n) by (apply Z.div_lt_upper_bound; nia).
  destruct (Htr (off / sz) ltac:(lia)) as (c & Ht & _). apply Hco in Ht.
  replace (id * sz + addr mod sz + k) with (off + id * sz) by (subst off; lia).
  assert (Hmod : (off + id * sz) mod sz = off mod sz) by (apply Z.mod_add; lia).
  rewrite (seg_maps_translate _ _ _ (off + id * sz) Ht).
  - rewrite Hsz, Hmod. f_equal. subst off. lia.
  - unfold fits. split; [nia|]. subst off. nia.
  - by rewrite Hsz.
  - rewrite Hsz, Z.div_add by lia. lia.
Qed.

(** Mapping and unmapping a range. *)
Lemma ioremap_ok xdev pa len :
  MmioStorage hw (window xdev) -> ready xdev -> fits 64 pa -> 0 < len ->
  exists xdev' r,
    plx_ioremap xdev pa len = Ret (xdev', r) /\ coherent xdev' /\ only_state xdev xdev' /\ window xdev' = window xdev
    /\ forall va, r = Some va ->
         let off := u64 (va - aper_va xdev) in
         (pa + len <= 2 ^ 64 -> forall k, 0 <= k < len -> peer_translate xdev' (off + k) = Some (pa + k))
         /\ off + len <= segments_num (a_lut_manager xdev) * segment_size (a_lut_manager xdev).
Proof.
  intros Hst (Hal & Hva & Hco & Hcnt) Hpa Hlen. set (m := a_lut_manager xdev).
  destruct (add_a_lut_ok _ _ (coherent_num _ Hco) xdev pa len eq_refl eq_refl Hco Hcnt Hpa Hlen)
    as (m' & err & o & xdev' & rc & out & Hadd & Hrun & Hos & Hm' & Hco' & Ho). fold m in Hadd, Ho.
  assert (window xdev' = window xdev) as Hwin.
  { unfold window. rewrite Hm', (add_entry_num m pa len m' err o (proj1 Hco) Hcnt Hpa Hlen Hadd). by rewrite Hos. }
  unfold plx_ioremap. rewrite Hal, Hrun. run_bind.
  destruct o as [[id n]|]; destruct Ho as (-> & ->); simpl.
  2:{ exists xdev', None. split; [done|]. split; [done|]. split; [done|]. split; [done|]. by intros va. }
  eexists xdev', (Some _). split; [done|]. split; [done|]. split; [done|]. split; [done|]. intros va [= <-].
  destruct Hco as (Hw & _).
  destruct (add_entry_ok m pa len Hw Hcnt Hpa Hlen) as (m1 & e1 & o1 & Hadd1 & _ & Hsz & Ho1).
  rewrite Hadd in Hadd1. injection Hadd1 as <- <- <-.
  destruct Ho1 as (_ & Hra & Hcov & Htr). rewrite <- Hm' in Htr, Hsz.
  pose proof Hw as ((Hnum & (j & Hj & Hpow) & Hlt) & _). fold m in Hnum, Hpow, Hlt.
  assert (Hpos : 0 < segment_size m) by (rewrite Hpow; apply Z.pow_pos_nonneg; lia).
  pose proof (Z.mod_pos_bound pa (segment_size m) Hpos) as Hmod.
  unfold req_addr in Hra, Hcov.
  assert (Hn : 0 < n) by nia.
  destruct (Htr 0 ltac:(lia)) as (c0 & Ht0 & _). destruct (Htr (n - 1) ltac:(lia)) as (c1 & Ht1 & _).
  pose proof (translate_range _ _ _ _ (proj1 Hco') Ht0) as Hr0.
  pose proof (translate_range _ _ _ _ (proj1 Hco') Ht1) as Hr1.
  rewrite Hm', (add_entry_num m pa len m' err _ Hw Hcnt Hpa Hlen Hadd) in Hr0, Hr1.
  assert (aper_va xdev' = aper_va xdev) as -> by by rewrite Hos.
  rewrite va_offset; [|done|unfold fits; nia]. split; [|nia].
  intros H64 k Hk. pose proof Hpa as [Hpa0 _]. apply (request_bytes xdev' m pa id n k); try done; unfold req_addr; lia.
Qed.

Lemma iounmap_ok xdev pa len xdev1 va :
  MmioStorage hw (window xdev) -> ready xdev -> fits 64 pa -> 0 < len ->
  plx_ioremap xdev pa len = Ret (xdev1, Some va) ->
  exists xdev2,
    plx_iounmap xdev1 va = Ret xdev2 /\ ready xdev2 /\ only_state xdev xdev2 /\ mmio xdev2 = mmio xdev1
    /\ window xdev2 = window xdev
    /\ forall seg x c, translate (a_lut_manager xdev) seg = Some (x, c) -> 2 <= c ->
         translate (a_lut_manager xdev2) seg = Some (x, c).
Proof.
  intros Hst (Hal & Hva & Hco & Hcnt) Hpa Hlen Hrun. set (m := a_lut_manager xdev) in *.
  destruct (add_a_lut_ok _ _ (coherent_num _ Hco) xdev pa len eq_refl eq_refl Hco Hcnt Hpa Hlen)
    as (m' & err & o & x1 & rc & out & Hadd & Hrun1 & Hos & Hm' & Hco' & Ho). fold m in Hadd, Ho.
  unfold plx_ioremap in Hrun. rewrite Hal, Hrun1 in Hrun. simpl in Hrun.
  destruct o as [[id n]|]; destruct Ho as (-> & ->); [|done]. simpl in Hrun. injection Hrun as <- <-.
  destruct (add_entry_ok m pa len (proj1 Hco) Hcnt Hpa Hlen) as (m1 & e1 & o1 & Hadd1 & _ & Hsz & Ho1).
  rewrite Hadd in Hadd1. injection Hadd1 as <- <- <-. destruct Ho1 as (_ & Hra & Hcov & Htr).
  destruct (add_del_keeps m pa len m' err id n (proj1 Hco) Hcnt Hpa Hlen Hadd) as (m2 & Hdel & _ & Hcnt2 & Hnum2 & Hkeep).
  pose proof (proj1 Hco) as ((Hnum & (j & Hj & Hpow) & Hlt) & _). fold m in Hnum, Hpow, Hlt.
  assert (Hpos : 0 < segment_size m) by (rewrite Hpow; apply Z.pow_pos_nonneg; lia).
  pose proof (Z.mod_pos_bound pa (segment_size m) Hpos) as Hmod. unfold req_addr in Hra, Hcov.
  destruct (Htr 0 ltac:(nia)) as (c0 & Ht0 & _). rewrite Z.add_0_r in Ht0.
  pose proof (translate_range m' id _ _ ltac:(rewrite <- Hm'; apply Hco') Ht0) as Hr0.
  rewrite (add_entry_num m pa len m' err _ (proj1 Hco) Hcnt Hpa Hlen Hadd) in Hr0.
  unfold plx_iounmap. assert (aper_va x1 = aper_va xdev) as -> by by rewrite Hos.
  assert (a_lut x1 = true) as -> by by rewrite Hos.
  rewrite va_offset by (done || unfold fits; nia).
  assert (Hseg : (id * segment_size m + pa mod segment_size m) / segment_size (a_lut_manager x1) = id).
  { rewrite Hm', Hsz, Z.add_comm, Z.div_add, Z.div_small by lia. lia. }
  destruct (del_a_lut_ok (a_lut_array_base xdev) (segments_num m) (coherent_num _ Hco) x1
              (id * segment_size m + pa mod segment_size m))
    as (m3 & o3 & x2 & Hd3 & Hd & Hos2 & Hm2 & Hco2 & Hnone).
  - by rewrite Hos.
  - rewrite Hm'. by apply (add_entry_num m pa len m' err _ (proj1 Hco) Hcnt Hpa Hlen Hadd).
  - done.
  - nia.
  - rewrite Hseg, Hm'. by eexists.
  - rewrite Hseg, Hm', Hdel in Hd3. injection Hd3 as <- <-. exists x2. split; [done|].
    assert (only_state xdev x2) as Ho2 by (unfold only_state in *; rewrite Hos2, Hos at 1; done).
    split; [|split; [done|]].
    + split; [by rewrite Ho2|]. split; [by rewrite Ho2|]. split; [done|]. unfold counts_ok. by rewrite Hm2.
    + split; [by rewrite (Hnone eq_refl)|]. split; [|rewrite Hm2; exact Hkeep].
      unfold window. rewrite Hm2, Hnum2. by rewrite Ho2.
Qed.

(** ** Properties *)

(** C2. [plx_ioremap] on a ready device returns.  It keeps the invariant between
    the manager and the registers; when it returns a pointer, the peer's access
    to every byte of the window behind it is translated to the corresponding
    byte of the requested range, and the window lies inside the aperture. *)
Theorem plx_ioremap_correct xdev pa len :
  MmioStorage hw (window xdev) -> ready xdev -> fits 64 pa -> 0 < len -> pa + len <= 2 ^ 64 ->
  exists xdev' r,
    plx_ioremap xdev pa len = Ret (xdev', r) /\ coherent xdev' /\ only_state xdev xdev'
    /\ forall va, r = Some va ->
         let off := u64 (va - aper_va xdev) in
         (forall k, 0 <= k < len -> peer_translate xdev' (off + k) = Some (pa + k))
         /\ off + len <= segments_num (a_lut_manager xdev) * segment_size (a_lut_manager xdev).
Proof.
  intros Hst Hr Hpa Hlen H64. destruct (ioremap_ok xdev pa len Hst Hr Hpa Hlen) as (xdev' & r & H1 & H2 & H3 & _ & H4).
  exists xdev', r. split; [done|]. split; [done|]. split; [done|]. intros va Hva. destruct (H4 va Hva). auto.
Qed.

(** [plx_ioremap] does not change what the peer sees through any mapping in
    use: an aperture offset in a segment with users is translated as before. *)
Theorem plx_ioremap_frame xdev pa len xdev' r x a c :
  MmioStorage hw (window xdev) -> ready xdev -> fits 64 pa -> 0 < len ->
  plx_ioremap xdev pa len = Ret (xdev', r) ->
  translate (a_lut_manager xdev) (x / segment_size (a_lut_manager xdev)) = Some (a, c) -> 2 <= c ->
  peer_translate xdev' x = peer_translate xdev x.
Proof.
  intros Hst (Hal & Hva & Hco & Hcnt) Hpa Hlen Hrun Ht Hc. set (m := a_lut_manager xdev) in *.
  destruct (add_a_lut_ok _ _ (coherent_num _ Hco) xdev pa len eq_refl eq_refl Hco Hcnt Hpa Hlen)
    as (m' & err & o & x1 & rc & out & Hadd & Hrun1 & Hos & Hm' & Hco' & Ho). fold m in Hadd, Ho.
  assert (x1 = xdev') as ->.
  { unfold plx_ioremap in Hrun. rewrite Hal, Hrun1 in Hrun. simpl in Hrun.
    destruct out as [p|], (rc =? 0); by injection Hrun. }
  destruct (add_entry_keeps m pa len m' err o _ a c (proj1 Hco) Hcnt Hpa Hlen Hadd Ht Hc)
    as (c' & Ht' & _).
  destruct (add_entry_ok m pa len (proj1 Hco) Hcnt Hpa Hlen) as (m1 & e1 & o1 & Hadd1 & _ & Hsz & _).
  rewrite Hadd in Hadd1. injection Hadd1 as <- _ _.
  pose proof (proj2 Hco _ _ _ Ht) as (Hl & Hh & Hp). rewrite <- Hm' in Ht'.
  pose proof (proj2 Hco' _ _ _ Ht') as (Hl' & Hh' & Hp').
  unfold peer_translate. rewrite Hm', Hsz. fold m. by rewrite Hl, Hh, Hp, Hl', Hh', Hp'.
Qed.

(** C37. Mapping a range and unmapping the pointer returns, keeps the invariant,
    writes no register in the unmapping (the block stays cached, idle), and
    gives every mapping in use its translation and its reference count back. *)
Theorem plx_iounmap_roundtrip xdev pa len xdev1 va :
  MmioStorage hw (window xdev) -> ready xdev -> fits 64 pa -> 0 < len ->
  plx_ioremap xdev pa len = Ret (xdev1, Some va) ->
  exists xdev2,
    plx_iounmap xdev1 va = Ret xdev2 /\ coherent xdev2 /\ mmio xdev2 = mmio xdev1
    /\ forall seg x c, translate (a_lut_manager xdev) seg = Some (x, c) -> 2 <= c ->
         translate (a_lut_manager xdev2) seg = Some (x, c).
Proof.
  intros Hst Hr Hpa Hlen Hmap. destruct (iounmap_ok xdev pa len xdev1 va Hst Hr Hpa Hlen Hmap)
    as (xdev2 & H1 & (_ & _ & H2 & _) & _ & H3 & _ & H4). by exists xdev2.
Qed.

(** Clearing the A-LUT of a device with a well-formed manager returns; no
    segment is mapped any more, and the peer's accesses to the whole aperture
    are refused. *)
Theorem plx_a_lut_clear_correct xdev :
  MmioStorage hw (window xdev) -> wf (a_lut_manager xdev) ->
  exists xdev',
    plx_a_lut_clear xdev (a_lut_array_base xdev) = Ret xdev' /\ coherent xdev'
    /\ (forall seg, translate (a_lut_manager xdev') seg = None)
    /\ forall x, 0 <= x < segments_num (a_lut_manager xdev) * segment_size (a_lut_manager xdev) ->
         peer_translate xdev' x = None.
Proof.
  intros Hst Hw. pose proof Hw as ((Hnum & (j & Hj & Hpow) & Hlt) & _).
  set (m := a_lut_manager xdev) in *.
  assert (Hpos : 0 < segment_size m) by (rewrite Hpow; apply Z.pow_pos_nonneg; lia).
  destruct (reset_ok m Hw) as (m' & Hr & Hw' & Hnone & Hn' & Hsz').
  unfold plx_a_lut_clear. fold m. rewrite Hr. run_bind. eexists. split; [done|].
  destruct (clear_loop_ok (a_lut_array_base xdev) (segments_num m) ltac:(lia)
              (Z.to_nat (segments_num m')) (set_manager xdev m') 0 ltac:(lia) ltac:(lia)) as (Ho & Hc).
  set (x' := clear_loop _ _ _ _) in *.
  assert (Hm : a_lut_manager x' = m') by by rewrite Ho.
  split; [split; [by rewrite Hm|by intros seg x c; rewrite Hm, Hnone]|].
  split; [by intros seg; rewrite Hm|]. intros x Hx.
  assert (Hseg : 0 <= x / segment_size m < segments_num m).
  { split; [apply Z.div_pos; lia|]. apply Z.div_lt_upper_bound; lia. }
  unfold peer_translate, entry_reg. rewrite Hm, Hsz'.
  assert (a_lut_array_base x' = a_lut_array_base xdev) as -> by by rewrite Ho.
  unfold PLX_A_LUT_PERMISSION_SUBARRAY_OFFSET. rewrite Hc by auto.
  rewrite (proj2 (Z.leb_le _ _)), (proj2 (Z.ltb_lt _ _)) by lia. done.
Qed.

(** The address of the device page written to the scratchpads is read back. *)
Theorem plx_dp_addr_roundtrip xdev dp_addr :
  MmioStorage hw (fun o => o = reg_base xdev + PLX_SPAD0 \/ o = reg_base xdev + PLX_SPAD0 + 4) ->
  fits 64 dp_addr ->
  fst (plx_get_dp_addr (plx_set_dp_addr xdev dp_addr)) = dp_addr.
Proof.
  intros Hst Ha. unfold plx_get_dp_addr, plx_set_dp_addr, plx_read_spad, plx_write_spad,
    PLX_DPLO_SPAD, PLX_DPHI_SPAD, plx_mmio_read. cbn [set_mmio plx_mmio_write mmio reg_base].
  rewrite Z.mul_0_l, Z.add_0_r, Z.mul_1_l.
  set (b := reg_base xdev + PLX_SPAD0) in *.
  set (h := iowrite32 (iowrite32 _ _ _) _ _).
  assert (Hlo : peek h b = u32 dp_addr).
  { subst h. rewrite storage_frame by (auto || lia). apply storage_write; [auto|]. by apply wrap_fits. }
  assert (Hhi : peek h (b + 4) = u32 (Z.shiftr dp_addr 32)).
  { apply storage_write; [auto|]. by apply wrap_fits. }
  pose proof (storage_read h b (b + 4) (or_intror eq_refl)) as Hrd.
  unfold peek in *. destruct (ioread32 h b) as [lo h1]. simpl in *. subst lo. rewrite Hhi in Hrd.
  cbn [set_mmio mmio reg_base]. fold b.
  destruct (ioread32 h1 (b + 4)) as [hi h2]. simpl in *. subst hi.
  rewrite (u64_small (Z.shiftl _ _)); [by apply u64_halves|].
  rewrite Z.shiftl_mul_pow2 by lia. pose proof (u32_range (Z.shiftr dp_addr 32)). lia.
Qed.

(** ** Initialisation *)

(** The registers [st] hold the same words. *)
Definition keeps (st : Z -> Prop) xdev xdev' : Prop :=
  forall o, st o -> peek (mmio xdev') o = peek (mmio xdev) o.

Lemma keeps_trans st x1 x2 x3 : keeps st x1 x2 -> keeps st x2 x3 -> keeps st x1 x3.
Proof. intros H1 H2 o Ho. by rewrite H2, H1. Qed.

Lemma keeps_write st `{!MmioStorage hw st} xdev v o : ~ st o -> keeps st xdev (plx_mmio_write xdev v o).
Proof. intros Ho o' Ho'. simpl. apply storage_frame; [done|]. by intros ->. Qed.

Lemma keeps_read st `{!MmioStorage hw st} xdev o : keeps st xdev (snd (plx_mmio_read xdev o)).
Proof.
  intros o' Ho'. unfold plx_mmio_read. pose proof (storage_read (mmio xdev) o o' Ho') as Hr.
  by destruct (ioread32 _ _).
Qed.

(** Array windows end below the port registers. *)
Lemma window_below val device xdev o :
  lut_regs (a_lut_array_base (init_array (init_side xdev val) device))
    (256 / num_ntbs (init_array (init_side xdev val) device)) o -> o < 0x3c000.
Proof.
  intros (seg & sub & Hs & Hb & ->). cbn [init_array init_side a_lut_array_base num_ntbs link_side port_id] in *.
  unfold plx_get_a_lut_entry_offset, PLX_A_LUT_MAX_ARRAY, PLX_A_LUT_ARRAY_OFFSET,
    PLX_A_LUT_LOWER_RE_MAP_SUBARRAY_OFFSET, PLX_A_LUT_HIGHER_RE_MAP_SUBARRAY_OFFSET,
    PLX_A_LUT_PERMISSION_SUBARRAY_OFFSET in *.
  pose proof (Z.mod_pos_bound seg 128 ltac:(lia)).
  destruct (_ || _); simpl (_ =? _) in *; cbn iota in *;
    [change (256 / 1) with 256 in Hs|change (256 / 2) with 128 in Hs;
      rewrite (proj2 (Z.leb_gt 128 seg)) by lia];
    destruct (negb _); try destruct (_ =? 0); destruct (Z.leb_spec 128 seg); lia.
Qed.

(** The manager of a device that was just allocated (all zero). *)
Definition no_manager : plx_alm := mkAlm 0 0 [].

(** On it, enabling the A-LUT only writes the control register. *)
Lemma a_lut_enable_empty xdev :
  a_lut_manager xdev = no_manager -> a_lut_peer xdev = true ->
  _plx_a_lut_enable xdev
  = Ret (plx_mmio_write (plx_a_lut_disable xdev) PLX_A_LUT_ENABLE (reg_base xdev + PLX_A_LUT_CONTROL), 0).
Proof.
  intros Hm Hp. unfold _plx_a_lut_enable, plx_a_lut_clear. cbn [plx_a_lut_disable plx_mmio_write set_mmio a_lut_manager].
  rewrite Hm. change (plx_alm_reset no_manager) with (Ret no_manager). run_bind.
  cbn [no_manager segments_num]. change (Z.to_nat 0) with O. cbn [clear_loop].
  assert (set_manager (plx_a_lut_disable xdev) no_manager = plx_a_lut_disable xdev) as ->.
  { unfold set_manager, plx_a_lut_disable, plx_mmio_write, set_mmio. cbn. by rewrite Hm. }
  cbn [a_lut_peer plx_a_lut_disable plx_mmio_write set_mmio reg_base]. by rewrite Hp.
Qed.

Lemma reg_base_high link port : 0 <= port <= 1 -> 0x3c000 <= _plx_get_reg_base link port.
Proof.
  intros Hp. unfold _plx_get_reg_base. assert (0 <= b2z link <= 1) by (destruct link; simpl; lia).
  rewrite u32_small; lia.
Qed.

Lemma land_1_range v : 0 <= Z.land v 1 <= 1.
Proof. change 1 with (2 ^ 1 - 1). rewrite land_mask by lia. pose proof (Z.mod_pos_bound v (2 ^ 1)). lia. Qed.

Lemma check_eeprom_mmio xdev : only_mmio xdev (fst (plx_check_eeprom xdev)).
Proof.
  unfold plx_check_eeprom, plx_mmio_read. destruct (ioread32 _ PLX_EEP_STATUS_CONTROL) as [v h].
  destruct (_ =? _); [|done]. cbn [set_mmio mmio]. destruct (ioread32 h PLX_EEP_CRC) as [v' h'].
  by destruct (testflag _ _).
Qed.

Lemma check_eeprom_keeps st `{!MmioStorage hw st} xdev : keeps st xdev (fst (plx_check_eeprom xdev)).
Proof.
  unfold plx_check_eeprom. pose proof (keeps_read st xdev PLX_EEP_STATUS_CONTROL) as H1.
  destruct (plx_mmio_read xdev PLX_EEP_STATUS_CONTROL) as [v x1]. simpl in H1.
  destruct (_ =? _); [|done]. pose proof (keeps_read st x1 PLX_EEP_CRC) as H2.
  destruct (plx_mmio_read x1 PLX_EEP_CRC) as [v' x2]. simpl in H2.
  destruct (testflag _ _); by apply (keeps_trans _ _ x1).
Qed.

(** Programming the requester id tables writes one register above the arrays. *)
Lemma rid_lut_write xdev bus x' rc :
  plx_program_rid_lut xdev bus = (x', rc) -> rc = 0 ->
  exists v o, x' = plx_mmio_write xdev v o /\ 0x3c000 <= o.
Proof.
  unfold plx_program_rid_lut. intros H ->.
  destruct (port_id xdev =? 0); destruct (plx_find_root_port bus) as [[pb df]|]; simplify_eq;
    destruct (link_side xdev); eexists _, _; split; try done; vm_compute; discriminate.
Qed.

Lemma rid_lut_dma_write xdev bus x' rc :
  plx_program_rid_lut_dma xdev bus = Ret (x', rc) ->
  rc = 0 /\ exists v o, x' = plx_mmio_write xdev v o /\ 0x3c000 <= o.
Proof.
  unfold plx_program_rid_lut_dma. intros H.
  destruct (port_id xdev =? 0); apply bind_ret_inv in H as (b & _ & H); simplify_eq;
    (split; [done|]); destruct (link_side xdev); eexists _, _; split; try done; vm_compute; discriminate.
Qed.

(** The steps of a successful initialisation of a fresh device. *)
Lemma hw_init_inv xdev val device bus ok xdev' :
  a_lut_manager xdev = no_manager ->
  plx_hw_init xdev (inr val) device bus ok = Ret (xdev', 0) ->
  exists x0 v1 o1 v2 o2 o3 m,
    let x1 := init_array x0 device in
    (x0 = init_side xdev val \/ x0 = fst (plx_check_eeprom (init_side xdev val)))
    /\ 0x3c000 <= o1 /\ 0x3c000 <= o2 /\ 0x3c000 <= o3
    /\ plx_alm_init (num_ntbs x1) (aper_len x1) ok = Ret (m, 0)
    /\ xdev' = set_manager
         (plx_mmio_write (plx_mmio_write (plx_mmio_write (plx_mmio_write x1 v1 o1) v2 o2) 0 o3)
            PLX_A_LUT_ENABLE o3) m.
Proof.
  intros Hm Hrun. unfold plx_hw_init in Hrun.
  set (s := init_side xdev val) in *.
  destruct (if negb (link_side s) then plx_check_eeprom s else (s, 0)) as [x0 rc0] eqn:E.
  assert (Hx0 : x0 = s \/ x0 = fst (plx_check_eeprom s)).
  { destruct (negb (link_side s)); [right; by rewrite E|left; by injection E]. }
  assert (Ho0 : only_mmio s x0) by (destruct Hx0 as [-> | ->]; [done|apply check_eeprom_mmio]).
  destruct (negb (rc0 =? 0)) eqn:E0; [injection Hrun as _ ->; done|]. clear E0 E.
  set (x1 := init_array x0 device) in *.
  destruct (plx_program_rid_lut x1 bus) as [x2 rc2] eqn:E1.
  destruct (negb (rc2 =? 0)) eqn:E2; [injection Hrun as _ ->; done|]. bools. subst rc2.
  destruct (rid_lut_write x1 bus x2 0 E1 eq_refl) as (v1 & o1 & -> & Ho1).
  apply bind_ret_inv in Hrun as ([x3 rc3] & E3 & Hrun).
  destruct (rid_lut_dma_write _ _ _ _ E3) as (-> & v2 & o2 & -> & Ho2). simpl negb in Hrun. cbn iota in Hrun.
  rewrite a_lut_enable_empty in Hrun by (unfold x1; rewrite Ho0; done).
  cbn [mbind outcome_bind] in Hrun. simpl negb in Hrun. cbn iota in Hrun.
  apply bind_ret_inv in Hrun as ([m rc4] & E4 & Hrun). injection Hrun as <- ->.
  exists x0, v1, o1, v2, o2, (reg_base x1 + PLX_A_LUT_CONTROL), m. cbv zeta. fold x1.
  split; [done|]. split; [done|]. split; [done|].
  split; [|split; [exact E4|done]].
  assert (0x3c000 <= reg_base x1) by
    (unfold x1; rewrite Ho0; apply reg_base_high, land_1_range).
  unfold PLX_A_LUT_CONTROL. lia.
Qed.

(** The initialisation of a device whose memory was just allocated leaves
    every register of its A-LUT array as it was: the clean-up runs before the
    manager knows the number of segments, so entries that an earlier driver
    enabled stay enabled although no segment is mapped. *)
Theorem plx_hw_init_keeps_stale_entries xdev val device bus ok xdev' :
  MmioStorage hw (lut_regs (a_lut_array_base xdev') (256 / num_ntbs xdev')) ->
  a_lut_manager xdev = no_manager ->
  plx_hw_init xdev (inr val) device bus ok = Ret (xdev', 0) ->
  forall seg sub, 0 <= seg < 256 / num_ntbs xdev' ->
    sub = PLX_A_LUT_LOWER_RE_MAP_SUBARRAY_OFFSET \/ sub = PLX_A_LUT_HIGHER_RE_MAP_SUBARRAY_OFFSET
    \/ sub = PLX_A_LUT_PERMISSION_SUBARRAY_OFFSET ->
    peek (mmio xdev') (entry_reg xdev' seg sub) = peek (mmio xdev) (entry_reg xdev' seg sub).
Proof.
  intros Hst Hm Hrun seg sub Hseg Hsub.
  destruct (hw_init_inv _ _ _ _ _ _ Hm Hrun) as (x0 & v1 & o1 & v2 & o2 & o3 & m & Hx0 & H1 & H2 & H3 & _ & ->).
  cbn [set_manager plx_mmio_write set_mmio a_lut_array_base num_ntbs] in Hst, Hseg.
  set (st := lut_regs _ _) in Hst.
  assert (Hlow : forall o, st o -> o < 0x3c000).
  { intros o Ho. apply (window_below val device xdev). unfold st in Ho.
    destruct Hx0 as [-> | ->]; [exact Ho|]. by rewrite check_eeprom_mmio in Ho. }
  assert (Hk : keeps st xdev (init_array x0 device)).
  { destruct Hx0 as [-> | ->]; [done|]. exact (check_eeprom_keeps st (init_side xdev val)). }
  assert (Hno : forall o, 0x3c000 <= o -> ~ st o) by (intros o Ho Hin; apply Hlow in Hin; lia).
  assert (Hin : st (entry_reg (init_array x0 device) seg sub)) by by exists seg, sub.
  pose proof (Hlow _ Hin).
  cbn [set_manager plx_mmio_write set_mmio mmio entry_reg a_lut_array_base].
  change (entry_reg _ seg sub) with (entry_reg (init_array x0 device) seg sub).
  rewrite !storage_frame by (done || lia). by apply Hk.
Qed.

(** The EEPROM status word says: present, signature valid, no CRC error. *)
Definition eeprom_good (v : Z) : Prop :=
  Z.shiftr (Z.land v PLX_EEP_EEPPRSNT_MASK) PLX_EEP_EEPPRSNT_SHIFT = PLX_EEP_EEPRRSNT_SIGNATURE_OK
  /\ testflag v PLX_EEP_EEPCRC_ERR_MASK = false.

Lemma check_eeprom_good xdev :
  eeprom_good (peek (mmio xdev) PLX_EEP_STATUS_CONTROL) -> snd (plx_check_eeprom xdev) = 0.
Proof.
  unfold eeprom_good, peek, plx_check_eeprom, plx_mmio_read. intros (Hsig & Hcrc).
  destruct (ioread32 (mmio xdev) PLX_EEP_STATUS_CONTROL) as [v h]. simpl in Hsig, Hcrc.
  rewrite Hsig, Z.eqb_refl. cbn [set_mmio mmio].
  destruct (ioread32 h PLX_EEP_CRC) as [v' h']. by rewrite Hcrc.
Qed.

(** The initialisation of a fresh device below a root port, with a good
    EEPROM (host side) and a power-of-two aperture, returns 0 and a device whose
    manager divides the whole aperture, maps nothing, and is coherent with the
    registers. *)
Theorem plx_hw_init_correct xdev val device bus k :
  a_lut_manager xdev = no_manager -> aper_len xdev = 2 ^ k -> 8 <= k <= 62 ->
  is_Some (plx_find_root_port bus) ->
  (if testflag val (Z.shiftl 1 31) then True
   else (exists p pp, bus_parent bus = Ret p /\ bus_parent p = Ret pp)
        /\ eeprom_good (peek (mmio xdev) PLX_EEP_STATUS_CONTROL)) ->
  exists xdev',
    plx_hw_init xdev (inr val) device bus true = Ret (xdev', 0)
    /\ coherent xdev' /\ counts_ok xdev' /\ a_lut xdev' = true
    /\ (forall seg, translate (a_lut_manager xdev') seg = None)
    /\ segments_num (a_lut_manager xdev') = 256 / num_ntbs xdev'
    /\ segments_num (a_lut_manager xdev') * segment_size (a_lut_manager xdev') = 2 ^ k.
Proof.
  intros Hm Hap Hk [[pb df] Hroot] Hside. unfold plx_hw_init.
  set (s := init_side xdev val).
  destruct (if negb (link_side s) then plx_check_eeprom s else (s, 0)) as [x0 rc0] eqn:E.
  assert (Hx0 : only_mmio s x0 /\ rc0 = 0).
  { change (link_side s) with (testflag val (Z.shiftl 1 31)) in E.
    destruct (testflag val (Z.shiftl 1 31)); simpl in E; [by injection E as <- <-|].
    destruct Hside as (_ & Hgood). pose proof (check_eeprom_mmio s). pose proof (check_eeprom_good s Hgood).
    by rewrite E in *. }
  destruct Hx0 as (Ho & ->). simpl negb. cbn iota.
  set (x1 := init_array x0 device).
  destruct (plx_program_rid_lut x1 bus) as [x2 rc2] eqn:E1.
  assert (rc2 = 0) as ->.
  { unfold plx_program_rid_lut in E1. rewrite Hroot in E1.
    by destruct (port_id x1 =? 0); injection E1. }
  destruct (rid_lut_write x1 bus x2 0 E1 eq_refl) as (v1 & o1 & -> & _). simpl negb. cbn iota.
  assert (Hdma : exists x3 rc3, plx_program_rid_lut_dma (plx_mmio_write x1 v1 o1) bus = Ret (x3, rc3)).
  { unfold plx_program_rid_lut_dma.
    replace (link_side (plx_mmio_write x1 v1 o1)) with (testflag val (Z.shiftl 1 31))
      by (unfold x1; by rewrite Ho).
    destruct (testflag val (Z.shiftl 1 31)).
    - destruct (port_id _ =? 0); by eexists _, _.
    - destruct Hside as ((p & pp & Hp & Hpp) & _). rewrite Hp. run_bind. rewrite Hpp. run_bind.
      destruct (port_id _ =? 0); by eexists _, _. }
  destruct Hdma as (x3 & rc3 & Hdma). rewrite Hdma.
  destruct (rid_lut_dma_write _ _ _ _ Hdma) as (-> & v2 & o2 & -> & _). run_bind. simpl negb. cbn iota.
  rewrite a_lut_enable_empty by (unfold x1; rewrite Ho; done). run_bind. simpl negb. cbn iota.
  cbn [plx_a_lut_disable plx_mmio_write set_mmio num_ntbs aper_len].
  assert (Hn : num_ntbs x1 = 1 \/ num_ntbs x1 = 2).
  { unfold x1. cbn [init_array num_ntbs]. destruct (_ || _); auto. }
  assert (aper_len x1 = 2 ^ k) as -> by (unfold x1; by rewrite Ho).
  destruct (init_ok (num_ntbs x1) k Hn Hk) as (m & -> & Hw & Hmul & Hnone & Hnum & Hent). run_bind.
  eexists. split; [done|]. split; [split; [done|]; intros seg x c; simpl; by rewrite Hnone|].
  split; [unfold counts_ok; simpl; rewrite Hent; by apply Forall_replicate|].
  split; [unfold x1; by rewrite Ho|]. done.
Qed.

End Device.

(** ** Witnesses: a device whose registers are plain storage *)

Definition regfile : Type := Z -> Z.
#[export] Instance regfile_mmio : Mmio regfile := {
  ioread32 h o := (u32 (h o), h);
  iowrite32 h v o := fun o' => if o' =? o then v else h o';
}.

#[export] Instance regfile_storage st : MmioStorage regfile st.
Proof.
  split.
  - intros h v o _ Hv. unfold peek. simpl. rewrite Z.eqb_refl. by apply wrap_small.
  - intros h v o o' _ Hne. unfold peek. simpl. by rewrite (proj2 (Z.eqb_neq o' o)) by lia.
  - done.
  - intros h o _. by apply wrap_fits.
Qed.

(** A device with two mappings: segments 0 and 1, in use, and segment 2, idle. *)
Definition demo_regs : regfile := fun o =>
  if o =? 0x38000 then 8192 else if o =? 0x38004 then 12288 else if o =? 0x38008 then 65536
  else if (0x38800 <=? o) && (o <=? 0x38808) then 3 else 0.
Definition demo_dev : plx_device regfile :=
  mkDev false 0 0x3e000 0x3f000 true true 2 0x38000 0 0x10 0xffff000000000000 16384 demo2 demo_regs.

Lemma demo_ready : ready demo_dev.
Proof.
  split; [done|]. split; [split; [done|reflexivity]|]. split; [|by repeat constructor].
  split; [apply demo2_wf|]. intros seg x c Ht. pose proof (translate_range _ _ _ _ demo2_wf Ht) as Hr.
  simpl in Hr. assert (seg = 0 \/ seg = 1 \/ seg = 2 \/ seg = 3) as [-> | [-> | [-> | ->]]] by lia;
    vm_compute in Ht; simplify_eq; vm_compute; auto.
Qed.

Lemma plx_ioremap_correct_witness :
  exists xdev' va, plx_ioremap demo_dev 12300 100 = Ret (xdev', Some va)
    /\ peer_translate xdev' (u64 (va - aper_va demo_dev) + 5) = Some 12305.
Proof.
  destruct (plx_ioremap_correct demo_dev 12300 100) as (xdev' & r & H & _ & _ & Hk).
  - apply _.
  - apply demo_ready.
  - split; [lia|reflexivity].
  - lia.
  - vm_compute. discriminate.
  - destruct r as [va|]; [|exfalso; vm_compute in H; discriminate].
    exists xdev', va. split; [exact H|]. apply (Hk va eq_refl). lia.
Defined.

Lemma plx_ioremap_frame_witness :
  exists xdev' r, plx_ioremap demo_dev 1048576 4096 = Ret (xdev', r)
    /\ peer_translate xdev' 4100 = peer_translate demo_dev 4100.
Proof.
  destruct (plx_ioremap demo_dev 1048576 4096) as [[xdev' r]| | |] eqn:H;
    [|exfalso; vm_compute in H; discriminate..].
  exists xdev', r. split; [reflexivity|].
  apply (plx_ioremap_frame demo_dev 1048576 4096 xdev' r 4100 12288 2).
  - apply _.
  - apply demo_ready.
  - split; [lia|reflexivity].
  - lia.
  - exact H.
  - reflexivity.
  - lia.
Defined.

Lemma plx_iounmap_roundtrip_witness :
  exists xdev1 va xdev2, plx_ioremap demo_dev 12288 100 = Ret (xdev1, Some va)
    /\ plx_iounmap xdev1 va = Ret xdev2
    /\ translate (a_lut_manager xdev2) 1 = Some (12288, 2).
Proof.
  destruct (plx_ioremap demo_dev 12288 100) as [[xdev1 [va|]]| | |] eqn:H;
    [|exfalso; vm_compute in H; discriminate..].
  destruct (plx_iounmap_roundtrip demo_dev 12288 100 xdev1 va) as (xdev2 & H2 & _ & _ & Ht).
  - apply _.
  - apply demo_ready.
  - split; [lia|reflexivity].
  - lia.
  - exact H.
  - exists xdev1, va, xdev2. split; [reflexivity|]. split; [exact H2|]. apply Ht; [reflexivity|lia].
Defined.

Lemma plx_a_lut_clear_correct_witness :
  exists xdev', plx_a_lut_clear demo_dev 0x38000 = Ret xdev' /\ peer_translate xdev' 4100 = None.
Proof.
  destruct (plx_a_lut_clear_correct demo_dev) as (xdev' & H & _ & _ & Hp).
  - apply _.
  - apply demo2_wf.
  - exists xdev'. split; [exact H|]. apply Hp. simpl. lia.
Defined.

Lemma plx_dp_addr_roundtrip_witness :
  fst (plx_get_dp_addr (plx_set_dp_addr demo_dev 0x123456789abcdef0)) = 0x123456789abcdef0.
Proof. apply plx_dp_addr_roundtrip; [apply _|split; [lia|reflexivity]]. Defined.

(** A device that was just allocated, on the host side of port 0, whose EEPROM is
    fine and whose first A-LUT entry is still enabled. *)
Definition fresh_dev : plx_device regfile :=
  mkDev false 0 0 0 false false 0 0 0 0 0xffff000000000000 (2 ^ 33) no_manager
    (fun o => if o =? PLX_EEP_STATUS_CONTROL then 0x10000 else if o =? 0x38800 then 3 else 0).
Definition demo_bus : pci_bus :=
  ChildBus 5 false 8 (ChildBus 4 false 8 (ChildBus 3 true 16 (RootBus 0))).

Lemma plx_hw_init_correct_witness :
  exists xdev', plx_hw_init fresh_dev (inr 0) INTEL_VCA_PCI_NODE0_ID demo_bus true = Ret (xdev', 0)
    /\ coherent xdev'.
Proof.
  destruct (plx_hw_init_correct fresh_dev 0 INTEL_VCA_PCI_NODE0_ID demo_bus 33)
    as (xdev' & H & Hc & _).
  - reflexivity.
  - reflexivity.
  - lia.
  - eexists. reflexivity.
  - split; [eexists _, _; split; reflexivity|split; reflexivity].
  - exists xdev'. split; [exact H|exact Hc].
Defined.

Lemma plx_hw_init_keeps_stale_entries_witness :
  exists xdev', plx_hw_init fresh_dev (inr 0) INTEL_VCA_PCI_NODE0_ID demo_bus true = Ret (xdev', 0)
    /\ peek (mmio xdev') (entry_reg xdev' 0 PLX_A_LUT_PERMISSION_SUBARRAY_OFFSET)
       = peek (mmio fresh_dev) (entry_reg xdev' 0 PLX_A_LUT_PERMISSION_SUBARRAY_OFFSET).
Proof.
  destruct (plx_hw_init fresh_dev (inr 0) INTEL_VCA_PCI_NODE0_ID demo_bus true)
    as [[xdev' rc]| | |] eqn:H; [|exfalso; vm_compute in H; discriminate..].
  assert (rc = 0) as -> by (vm_compute in H; congruence).
  exists xdev'. split; [reflexivity|].
  apply (plx_hw_init_keeps_stale_entries fresh_dev 0 INTEL_VCA_PCI_NODE0_ID demo_bus true).
  - apply _.
  - reflexivity.
  - exact H.
  - vm_compute in H. injection H as <-. split; [lia|reflexivity].
  - auto.
Defined.

End ALut.
