(* ===== verification/RingBuf.v ===== *)
(** * The ring counters of the block protocol

    The macros of [src/modules/vca/blockio/vcablk_common/vcablk.h].  A ring of
    [size] elements (a power of two) has two counters that run modulo twice the
    size, so that a full ring and an empty ring differ; an index is a counter
    modulo the size.  The lemmas relate the macros to the unbounded counters
    they stand for. *)

From S2P Require Import Prelude.
From stdpp Require Import base list numbers option tactics.
From Stdlib Require Import ZArith Lia.
#[local] Open Scope Z_scope.

Module RingBuf.

(** ** The macros *)

Definition VCA_RB_COUNTER_EQ (cnt1 cnt2 size : Z) : bool :=
  Z.land cnt1 (Z.shiftl size 1 - 1) =? Z.land cnt2 (Z.shiftl size 1 - 1).
Definition VCA_RB_COUNTER_ADD (cnt val size : Z) : Z :=
  Z.land (cnt + val) (Z.shiftl size 1 - 1).
Definition VCA_RB_COUNTER_TO_IDX (cnt size : Z) : Z := Z.land cnt (size - 1).
Definition VCA_RB_BUFF_USED (head_cnt tail_cnt size : Z) : Z :=
  if head_cnt <=? tail_cnt then tail_cnt - head_cnt
  else tail_cnt + Z.shiftl size 1 - head_cnt.
Definition VCA_RB_BUFF_EMPTY (head_cnt tail_cnt : Z) : bool := head_cnt =? tail_cnt.
Definition VCA_RB_BUFF_FULL (head_cnt tail_cnt size : Z) : bool :=
  negb (VCA_RB_BUFF_EMPTY head_cnt tail_cnt)
  && (VCA_RB_COUNTER_TO_IDX head_cnt size =? VCA_RB_COUNTER_TO_IDX tail_cnt size).
(** [VCABLK_RING_GET_OBJ]: the element a counter designates. *)
Definition VCABLK_RING_GET_OBJ {A} (cnt num_elems : Z) (elems : list A) : outcome A :=
  aget elems (VCA_RB_COUNTER_TO_IDX cnt num_elems).
(** Assigning to it. *)
Definition VCABLK_RING_SET_OBJ {A} (cnt num_elems : Z) (elems : list A) (a : A)
    : outcome (list A) :=
  aset elems (VCA_RB_COUNTER_TO_IDX cnt num_elems) a.

(** ** Unbounded counters *)

Definition pow2 (size : Z) : Prop := exists k, 0 <= k /\ size = 2 ^ k.

(** The stored form of the unbounded counter [n]. *)
Definition cnt_of (size n : Z) : Z := n mod (2 * size).

Lemma pow2_pos size : pow2 size -> 0 < size.
Proof. intros (k & Hk & ->). apply Z.pow_pos_nonneg; lia. Qed.

Lemma land_pow2 x size : pow2 size -> Z.land x (size - 1) = x mod size.
Proof. intros (k & Hk & ->). by apply land_mask. Qed.

Lemma shiftl_1 size : Z.shiftl size 1 = 2 * size.
Proof. rewrite Z.shiftl_mul_pow2 by lia. change (2 ^ 1) with 2. lia. Qed.

Lemma pow2_double size : pow2 size -> pow2 (2 * size).
Proof. intros (k & Hk & ->). exists (k + 1). split; [lia|]. rewrite Z.pow_add_r by lia. change (2 ^ 1) with 2. lia. Qed.

Section Counters.
Context (size : Z) (Hsize : pow2 size).

Lemma cnt_range n : 0 <= cnt_of size n < 2 * size.
Proof. apply Z.mod_pos_bound. pose proof (pow2_pos _ Hsize). lia. Qed.

Lemma rb_add n v : VCA_RB_COUNTER_ADD (cnt_of size n) v size = cnt_of size (n + v).
Proof.
  unfold VCA_RB_COUNTER_ADD, cnt_of. rewrite shiftl_1, land_pow2 by by apply pow2_double.
  by rewrite Zplus_mod_idemp_l.
Qed.

Lemma rb_idx n : VCA_RB_COUNTER_TO_IDX (cnt_of size n) size = n mod size.
Proof.
  unfold VCA_RB_COUNTER_TO_IDX, cnt_of. rewrite land_pow2 by done.
  pose proof (pow2_pos _ Hsize). rewrite (Z.mul_comm 2), Z.rem_mul_r by lia.
  by rewrite (Z.mul_comm size), Z.mod_add, Z.mod_mod by lia.
Qed.

(** Counters less than two turns apart are equal only when they are the same. *)
Lemma cnt_inj a b : 0 <= a - b < 2 * size -> cnt_of size a = cnt_of size b -> a = b.
Proof.
  unfold cnt_of. intros Hd He. pose proof (pow2_pos _ Hsize).
  assert ((a - b) mod (2 * size) = 0) as Hm.
  { by rewrite Zminus_mod, He, Z.sub_diag, Z.mod_0_l by lia. }
  rewrite Z.mod_small in Hm by lia. lia.
Qed.

(** Indices less than one turn apart are different. *)
Lemma idx_inj a b : 0 <= a - b < size -> a mod size = b mod size -> a = b.
Proof.
  intros Hd He. pose proof (pow2_pos _ Hsize).
  assert ((a - b) mod size = 0) as Hm.
  { by rewrite Zminus_mod, He, Z.sub_diag, Z.mod_0_l by lia. }
  rewrite Z.mod_small in Hm by lia. lia.
Qed.

Lemma rb_empty h t :
  0 <= t - h <= size -> VCA_RB_BUFF_EMPTY (cnt_of size h) (cnt_of size t) = (h =? t).
Proof.
  intros Hd. unfold VCA_RB_BUFF_EMPTY. pose proof (pow2_pos _ Hsize).
  destruct (Z.eqb_spec h t) as [->|Hne]; [apply Z.eqb_refl|]. apply Z.eqb_neq. intros He.
  symmetry in He. apply cnt_inj in He; lia.
Qed.

Lemma empty_sym a b : VCA_RB_BUFF_EMPTY a b = VCA_RB_BUFF_EMPTY b a.
Proof. apply Z.eqb_sym. Qed.

(** The macro is used with either order of the counters. *)
Lemma rb_full_sym a b : VCA_RB_BUFF_FULL a b size = VCA_RB_BUFF_FULL b a size.
Proof. unfold VCA_RB_BUFF_FULL. rewrite (empty_sym a b). f_equal. apply Z.eqb_sym. Qed.

Lemma rb_full h t :
  0 <= t - h <= size -> VCA_RB_BUFF_FULL (cnt_of size h) (cnt_of size t) size = (t - h =? size).
Proof.
  intros Hd. unfold VCA_RB_BUFF_FULL. rewrite rb_empty, !rb_idx by done. pose proof (pow2_pos _ Hsize).
  destruct (Z.eqb_spec h t) as [->|Hne]; simpl.
  - symmetry. apply Z.eqb_neq. lia.
  - destruct (Z.eqb_spec (t - h) size) as [He|Hn].
    + apply Z.eqb_eq. replace t with (h + 1 * size) by lia. by rewrite Z.mod_add by lia.
    + apply Z.eqb_neq. intros He. symmetry in He. apply idx_inj in He; lia.
Qed.

Lemma rb_used h t :
  0 <= t - h <= size -> VCA_RB_BUFF_USED (cnt_of size h) (cnt_of size t) size = t - h.
Proof.
  intros Hd. unfold VCA_RB_BUFF_USED. rewrite shiftl_1. pose proof (pow2_pos _ Hsize).
  pose proof (cnt_range h). pose proof (cnt_range t). unfold cnt_of in *.
  pose proof (Z.div_mod h (2 * size) ltac:(lia)). pose proof (Z.div_mod t (2 * size) ltac:(lia)).
  case_if.
  - assert (t / (2 * size) = h / (2 * size)) by nia. nia.
  - assert (t / (2 * size) = h / (2 * size) + 1) by nia. nia.
Qed.

(** ** The contents of a ring *)

(** [elems] holds [x] at the unbounded position [n]. *)
Definition holds {A} (elems : list A) (n : Z) (x : A) : Prop :=
  elems !! Z.to_nat (n mod size) = Some x.

Lemma ring_get {A} (elems : list A) n x :
  holds elems n x -> VCABLK_RING_GET_OBJ (cnt_of size n) size elems = Ret x.
Proof.
  intros Hx. unfold VCABLK_RING_GET_OBJ. rewrite rb_idx. pose proof (pow2_pos _ Hsize).
  apply aget_ret; [apply Z.mod_pos_bound; lia|done].
Qed.

Lemma ring_set {A} (elems : list A) n x :
  zlen elems = size ->
  exists elems', VCABLK_RING_SET_OBJ (cnt_of size n) size elems x = Ret elems'
    /\ zlen elems' = size /\ holds elems' n x
    /\ forall n' y, 0 < Z.abs (n' - n) < size -> holds elems n' y -> holds elems' n' y.
Proof.
  intros Hl. pose proof (pow2_pos _ Hsize). unfold VCABLK_RING_SET_OBJ, holds. rewrite rb_idx.
  pose proof (Z.mod_pos_bound n size ltac:(lia)) as Hn.
  rewrite aset_ret by lia. eexists. split; [done|]. rewrite zlen_insert. split; [done|]. split.
  - apply list_lookup_insert_eq. unfold zlen in Hl. lia.
  - intros n' y Hd Hy. pose proof (Z.mod_pos_bound n' size ltac:(lia)).
    rewrite list_lookup_insert_ne; [done|]. intros He. apply Z2Nat.inj in He; [|lia..].
    destruct (decide (n <= n')); [symmetry in He; apply idx_inj in He; lia|apply idx_inj in He; lia].
Qed.

End Counters.

(** ** Properties *)

(** For a ring of a power-of-two size whose unbounded counters are at most
    [size] apart, the macros compute exactly: the number of used elements, that
    the ring is empty, that it is full, and the next value of a counter; and two
    counters less than a turn apart index different elements. *)
Theorem rb_counters_correct size h t :
  pow2 size -> h <= t <= h + size ->
  let ch := cnt_of size h in let ct := cnt_of size t in
  VCA_RB_BUFF_USED ch ct size = t - h
  /\ VCA_RB_BUFF_EMPTY ch ct = (t - h =? 0)
  /\ VCA_RB_BUFF_FULL ch ct size = (t - h =? size)
  /\ VCA_RB_COUNTER_ADD ct 1 size = cnt_of size (t + 1)
  /\ VCA_RB_COUNTER_EQ ch ct size = (h =? t)
  /\ (0 < t - h < size ->
      VCA_RB_COUNTER_TO_IDX ch size <> VCA_RB_COUNTER_TO_IDX ct size).
Proof.
  intros Hs Hd ch ct. subst ch ct.
  rewrite rb_used, rb_empty, rb_full, rb_add, !rb_idx by (done || lia).
  split; [done|]. split; [destruct (Z.eqb_spec h t), (Z.eqb_spec (t - h) 0); done || lia|].
  split; [done|]. split; [done|]. split.
  - unfold VCA_RB_COUNTER_EQ. rewrite shiftl_1, !land_pow2 by by apply pow2_double.
    pose proof (pow2_pos _ Hs). unfold cnt_of. rewrite !Z.mod_mod by lia.
    apply (rb_empty size Hs h t). lia.
  - intros Hlt He. symmetry in He. apply (idx_inj size Hs) in He; lia.
Qed.

Lemma rb_counters_correct_witness :
  VCA_RB_BUFF_USED (cnt_of 8 13) (cnt_of 8 21) 8 = 8
  /\ VCA_RB_BUFF_FULL (cnt_of 8 13) (cnt_of 8 21) 8 = true.
Proof.
  destruct (rb_counters_correct 8 13 21) as (H1 & _ & H2 & _).
  - exists 3. split; [lia|reflexivity].
  - lia.
  - split; [exact H1|exact H2].
Defined.

End RingBuf.
