(* ===== verification/Pool.v ===== *)
(** * The pool of request contexts

    [src/modules/vca/blockio/vcablk/vcablk_pool.h]: an array of elements with a
    free list threaded through [next_free]; elements are taken at [head] and
    given back at [tail], and the last free element is never handed out.  The
    specification is a FIFO queue of free identifiers. *)

From Stdlib Require Import ZArith Lia.
From stdpp Require Import base list numbers option tactics.
From S2P Require Import Prelude.
#[local] Open Scope Z_scope.

Module Pool.

(** ** Data *)

Definition VCABLK_POOL_USED : Z := u16 (Z.lnot 0).

(** [next_free] of every element and its [data]; a pointer into the pool is the
    index of its element. *)
Record vcablk_pool (A : Type) := mkPool {
  num : Z;
  head : Z;
  tail : Z;
  next_free : list Z;
  data : list A;
}.
Arguments mkPool {_}.
Arguments num {_}.
Arguments head {_}.
Arguments tail {_}.
Arguments next_free {_}.
Arguments data {_}.

Section Ops.
Context {A : Type} (zero : A).
Implicit Types pool : vcablk_pool A.

Definition set_data pool (d : list A) : vcablk_pool A :=
  mkPool (num pool) (head pool) (tail pool) (next_free pool) d.

(** ** Operations *)

(** The [for] of [vcablk_pool_clear]; [n] iterations are left. *)
Fixpoint clear_links (n : nat) (nexts : list Z) (i : Z) : outcome (list Z) :=
  match n with
  | O => Ret nexts
  | S n => nexts ← aset nexts i (u16 (i + 1)); clear_links n nexts (i + 1)
  end.

Definition vcablk_pool_clear pool : outcome (vcablk_pool A) :=
  let n := num pool in
  nexts ← clear_links (Z.to_nat (n - 1)) (replicate (Z.to_nat n) 0) 0;
  nexts ← aset nexts (n - 1) 0;
  Ret (mkPool n 0 (u16 (n - 1)) nexts (replicate (Z.to_nat n) zero)).

(** [kmalloc_ok]: whether the memory can be allocated; [None] is [NULL]. *)
Definition vcablk_pool_init (n : Z) (kmalloc_ok : bool) : outcome (option (vcablk_pool A)) :=
  if (VCABLK_POOL_USED <=? n) || (VCABLK_POOL_USED <=? n + 1) then Ret None
  else
    let n := u16 (n + 1) in
    if negb kmalloc_ok then Ret None
    else pool ← vcablk_pool_clear (mkPool n 0 0 [] []); Ret (Some pool).

(** The error message reads [next_free] too. *)
Definition vcablk_pool_get_by_id pool (idx : Z) : outcome (option Z) :=
  if idx <? num pool then
    nf ← aget (next_free pool) idx;
    if nf =? VCABLK_POOL_USED then Ret (Some idx) else Ret None
  else _ ← aget (next_free pool) idx; Ret None.

Definition vcablk_is_available pool : bool := negb (head pool =? tail pool).

Definition vcablk_pool_pop pool : outcome (vcablk_pool A * option Z) :=
  if negb (head pool =? tail pool) then
    let id := head pool in
    nf ← aget (next_free pool) id;
    nexts ← aset (next_free pool) id VCABLK_POOL_USED;
    Ret (mkPool (num pool) nf (tail pool) nexts (data pool), Some id)
  else Ret (pool, None).

Definition vcablk_pool_push pool (idx : Z) : outcome (vcablk_pool A) :=
  nf ← aget (next_free pool) idx;
  _ ← bug_on (negb (nf =? VCABLK_POOL_USED));
  _ ← bug_on (num pool <=? idx);
  nexts ← aset (next_free pool) idx 0;
  nexts ← aset nexts (tail pool) idx;
  Ret (mkPool (num pool) (head pool) idx nexts (data pool)).

(** ** The free list *)

(** [nx] threads the list [l] of elements; the link of the last one is any
    value but the mark of a used element. *)
Fixpoint chain (nx : list Z) (l : list Z) : Prop :=
  match l with
  | [] => False
  | x :: l' =>
      match l' with
      | [] => exists v, nx !! Z.to_nat x = Some v /\ v <> VCABLK_POOL_USED
      | y :: _ => nx !! Z.to_nat x = Some y /\ chain nx l'
      end
  end.

(** The pool [pool] has the free elements [free], in the order in which they
    will be handed out; the last one is blocked. *)
Record pool_inv pool (free : list Z) : Prop := {
  pi_num : 0 < num pool < VCABLK_POOL_USED;
  pi_links : zlen (next_free pool) = num pool;
  pi_data : zlen (data pool) = num pool;
  pi_nodup : NoDup free;
  pi_range : Forall (fun i => 0 <= i < num pool) free;
  pi_chain : chain (next_free pool) free;
  pi_head : List.hd_error free = Some (head pool);
  pi_tail : list.last free = Some (tail pool);
  pi_used : forall i, 0 <= i < num pool -> i ∉ free ->
              next_free pool !! Z.to_nat i = Some VCABLK_POOL_USED;
}.

Lemma chain_insert nx l x v :
  Z.to_nat x ∉ map Z.to_nat l -> chain nx l -> chain (<[Z.to_nat x := v]> nx) l.
Proof.
  induction l as [|y l IH]; [done|]. cbn [map chain]. intros Hx Hc.
  apply not_elem_of_cons in Hx as [Hne Hx].
  destruct l as [|z l].
  - destruct Hc as (w & Hw & Hn). exists w. by rewrite list_lookup_insert_ne.
  - destruct Hc as (Hy & Hc). rewrite list_lookup_insert_ne by done. split; [done|]. by apply IH.
Qed.

Lemma to_nat_notin x l :
  0 <= x -> Forall (fun i => 0 <= i) l -> x ∉ l -> Z.to_nat x ∉ map Z.to_nat l.
Proof.
  intros Hx Hl Hn Hin. apply list_elem_of_In, in_map_iff in Hin as (y & Hy & Hin).
  rewrite List.Forall_forall in Hl. pose proof (Hl y Hin). apply list_elem_of_In in Hin.
  assert (x = y) as -> by lia. done.
Qed.

(** Appending to the list. *)
Lemma chain_snoc nx l t x :
  chain nx (l ++ [t]) -> x ∉ l ++ [t] -> NoDup (l ++ [t]) ->
  Forall (fun i => 0 <= i) (l ++ [t]) -> 0 <= x ->
  (Z.to_nat x < length nx)%nat -> (Z.to_nat t < length nx)%nat ->
  chain (<[Z.to_nat t := x]> (<[Z.to_nat x := 0]> nx)) (l ++ [t; x]).
Proof.
  intros Hc Hx Hnd Hpos Hx0 Hlx Hlt.
  apply (chain_insert _ _ _ 0 (to_nat_notin _ _ Hx0 Hpos Hx)) in Hc.
  assert (Hnx : (<[Z.to_nat x := 0]> nx) !! Z.to_nat x = Some 0) by by apply list_lookup_insert_eq.
  assert (Hlt' : (Z.to_nat t < length (<[Z.to_nat x := 0%Z]> nx))%nat) by by rewrite length_insert.
  revert Hc Hnx Hlt'. generalize (<[Z.to_nat x := 0%Z]> nx). clear nx Hlx Hlt.
  induction l as [|y l IH]; intros nx Hc Hnx Hlt.
  - simpl. split; [by apply list_lookup_insert_eq|]. exists 0. split; [|done].
    rewrite list_lookup_insert_ne; [done|]. intros He. apply Hx.
    simpl in Hpos. apply Forall_cons_iff in Hpos as [? _]. assert (t = x) as -> by lia.
    simpl. by apply list_elem_of_singleton.
  - simpl app in *. apply not_elem_of_cons in Hx as [Hxy Hx]. apply list.NoDup_cons in Hnd as [Hy Hnd].
    apply Forall_cons_iff in Hpos as [Hy0 Hpos].
    assert (Hty : Z.to_nat t <> Z.to_nat y).
    { intros He. apply Hy. rewrite Forall_app in Hpos. destruct Hpos as [_ [Ht0 _]%Forall_cons_iff].
      assert (t = y) as -> by lia. apply elem_of_app. right. by apply list_elem_of_singleton. }
    assert (Hstep : chain nx (l ++ [t]) /\ exists z r, l ++ [t] = z :: r /\ nx !! Z.to_nat y = Some z
                     /\ exists r', l ++ [t; x] = z :: r').
    { destruct l as [|z l]; simpl in *; destruct Hc as (H1 & H2); split; try done; eauto 8. }
    destruct Hstep as (Hc' & z & r & _ & Hz & r' & Hr').
    specialize (IH Hx Hnd Hpos nx Hc' Hnx Hlt). rewrite Hr' in *. simpl.
    split; [by rewrite list_lookup_insert_ne|]. exact IH.
Qed.

Lemma USED_val : VCABLK_POOL_USED = 65535.
Proof. reflexivity. Qed.

(** The first and the last free element. *)
Lemma inv_shape pool free :
  pool_inv pool free ->
  (exists x, free = [x] /\ head pool = x /\ tail pool = x)
  \/ (exists x y r, free = x :: y :: r /\ head pool = x /\ head pool <> tail pool).
Proof.
  intros [_ _ _ Hnd _ _ Hh Ht _]. destruct free as [|x [|y r]]; [done| |].
  - left. simpl in *. exists x. split; [done|]. split; congruence.
  - right. exists x, y, r. simpl in Hh. split; [done|]. split; [congruence|].
    injection Hh as <-. intros He. apply list.NoDup_cons in Hnd as [Hx _]. apply Hx.
    change (list.last (x :: y :: r)) with (list.last (y :: r)) in Ht.
    rewrite He. by apply list.last_Some_elem_of.
Qed.

Lemma chain_lookup nx l x : chain nx l -> x ∈ l -> exists v, nx !! Z.to_nat x = Some v.
Proof.
  induction l as [|y l IH]; [done|]. intros Hc Hin. apply list_elem_of_In in Hin.
  destruct l as [|z l].
  - destruct Hin as [->|[]]. destruct Hc as (v & Hv & _). eauto.
  - destruct Hc as (Hz & Hc). destruct Hin as [->|Hin]; [eauto|].
    apply IH; [done|]. by apply list_elem_of_In.
Qed.

(** A free element is not marked as used. *)
Lemma chain_not_used nx l x v n :
  chain nx l -> Forall (fun i => 0 <= i < n) l -> n <= VCABLK_POOL_USED ->
  x ∈ l -> nx !! Z.to_nat x = Some v -> v <> VCABLK_POOL_USED.
Proof.
  intros Hc Hr Hn Hin Hv. induction l as [|y l IH]; [done|]. apply list_elem_of_In in Hin.
  apply Forall_cons_iff in Hr as [Hy Hr]. destruct l as [|z l].
  - destruct Hin as [->|[]]. destruct Hc as (w & Hw & Hne). congruence.
  - destruct Hc as (Hz & Hc). destruct Hin as [->|Hin].
    + apply Forall_cons_iff in Hr as [? _]. rewrite Hv in Hz. injection Hz as ->. lia.
    + apply IH; [done|done|]. by apply list_elem_of_In.
Qed.

(** Taking an element. *)
Lemma pop_refines pool free :
  pool_inv pool free ->
  match free with
  | x :: (_ :: _) as free' =>
      exists pool', vcablk_pool_pop pool = Ret (pool', Some x) /\ pool_inv pool' free'
                    /\ data pool' = data pool
  | _ => vcablk_pool_pop pool = Ret (pool, None)
  end.
Proof.
  intros Hi. destruct (inv_shape _ _ Hi) as [(x & -> & Hh & Ht)|(x & y & r & -> & Hh & Hne)];
    unfold vcablk_pool_pop.
  - by rewrite Hh, Ht, Z.eqb_refl.
  - rewrite (proj2 (Z.eqb_neq _ _) Hne). simpl negb. cbn iota.
    destruct Hi as [Hn Hl Hd Hnd Hr [Hx Hc] _ Ht Hu].
    apply Forall_cons_iff in Hr as [Hx0 Hr]. apply list.NoDup_cons in Hnd as [Hxn Hnd].
    rewrite Hh in *. rewrite (aget_ret _ _ y) by (done || lia). run_bind.
    rewrite aset_ret by lia. run_bind. eexists. split; [done|]. split; [|done].
    assert (Hpos : Forall (fun i => 0 <= i) (y :: r)) by (eapply List.Forall_impl; [|exact Hr]; simpl; lia).
    split; cbn [num head tail next_free data]; [done|by rewrite zlen_insert|done|done|done| |done|done|].
    + apply chain_insert; [|done]. apply to_nat_notin; [lia|done|done].
    + intros i Hi0 Hin. destruct (decide (i = x)) as [->|Hix].
      * apply list_lookup_insert_eq. unfold zlen in Hl. lia.
      * rewrite list_lookup_insert_ne by lia. apply Hu; [done|].
        intros [He|He]%list_elem_of_In; [congruence|]. by apply Hin, list_elem_of_In.
Qed.

(** Giving an element back. *)
Lemma push_refines pool free x :
  pool_inv pool free -> 0 <= x < num pool -> x ∉ free ->
  exists pool', vcablk_pool_push pool x = Ret pool' /\ pool_inv pool' (free ++ [x])
                /\ data pool' = data pool.
Proof.
  intros [Hn Hl Hd Hnd Hr Hc Hh Ht Hu] Hx Hxn. unfold vcablk_pool_push.
  rewrite (aget_ret _ _ VCABLK_POOL_USED) by (lia || by apply Hu). run_bind.
  rewrite Z.eqb_refl. simpl bug_on. run_bind. rewrite (proj2 (Z.leb_gt _ _)) by lia. simpl bug_on. run_bind.
  rewrite aset_ret by lia. run_bind.
  apply list.last_Some in Ht as (l & ->). pose proof Hr as [_ [Ht0 _]%Forall_cons_iff]%Forall_app.
  rewrite aset_ret by (rewrite zlen_insert; lia). run_bind.
  eexists. split; [done|]. split; [|done]. unfold zlen in Hl.
  split; cbn [num head tail next_free data];
    [done|by rewrite !zlen_insert|done| | | | | |].
  - apply list.NoDup_app. split; [done|]. split; [|apply list.NoDup_singleton].
    intros y Hy Hyx%list_elem_of_singleton. by subst y.
  - apply Forall_app. split; [done|]. by constructor.
  - rewrite <- app_assoc. simpl.
    apply chain_snoc; [done|done|done| |lia|lia|lia].
    eapply List.Forall_impl; [|exact Hr]; simpl; lia.
  - by destruct l.
  - by rewrite list.last_snoc.
  - intros i Hi Hin. rewrite elem_of_app in Hin.
    assert ((i ∉ l ++ [tail pool]) /\ i <> x) as (Hin1 & Hix).
    { split; [tauto|]. intros ->. apply Hin. right. by apply list_elem_of_singleton. }
    rewrite !list_lookup_insert_ne; [by apply Hu| |].
    + lia.
    + intros He. apply Hin1, elem_of_app. right. apply list_elem_of_singleton. lia.
Qed.

Lemma get_by_id_refines pool free x :
  pool_inv pool free -> 0 <= x < num pool ->
  vcablk_pool_get_by_id pool x = Ret (if decide (x ∈ free) then None else Some x).
Proof.
  intros [Hn Hl Hd Hnd Hr Hc Hh Ht Hu] Hx. unfold vcablk_pool_get_by_id. if_true.
  destruct (decide (x ∈ free)) as [Hin|Hin].
  - destruct (chain_lookup _ _ _ Hc Hin) as (v & Hv). rewrite (aget_ret _ _ v) by (done || lia). run_bind.
    rewrite (proj2 (Z.eqb_neq _ _)); [done|].
    eapply (chain_not_used _ _ _ _ _ Hc Hr); [lia|done|done].
  - rewrite (aget_ret _ _ VCABLK_POOL_USED) by (lia || by apply Hu). run_bind. by rewrite Z.eqb_refl.
Qed.

Lemma available_refines pool free :
  pool_inv pool free -> vcablk_is_available pool = bool_decide (1 < length free)%nat.
Proof.
  intros Hi. unfold vcablk_is_available.
  destruct (inv_shape _ _ Hi) as [(x & -> & -> & ->)|(x & y & r & -> & _ & Hne)].
  - by rewrite Z.eqb_refl.
  - rewrite (proj2 (Z.eqb_neq _ _) Hne). symmetry. apply bool_decide_eq_true. simpl. lia.
Qed.

(** ** Initialisation *)

(** The identifiers [i], [i + 1], ... *)
Fixpoint ids (i : Z) (n : nat) : list Z :=
  match n with O => [] | S n => i :: ids (i + 1) n end.

Lemma ids_elem i n x : x ∈ ids i n <-> i <= x < i + Z.of_nat n.
Proof.
  revert i. induction n as [|n IH]; intros i; simpl.
  - split; [by intros ?%list_elem_of_In|lia].
  - rewrite elem_of_cons, IH. lia.
Qed.

Lemma ids_nodup i n : NoDup (ids i n).
Proof.
  revert i. induction n as [|n IH]; intros i; simpl; [apply base.NoDup_nil_2|].
  apply list.NoDup_cons. split; [|done]. rewrite ids_elem. lia.
Qed.

Lemma clear_links_ok n nx i :
  0 <= i -> i + Z.of_nat n <= zlen nx -> i + Z.of_nat n < 65536 ->
  exists nx', clear_links n nx i = Ret nx' /\ zlen nx' = zlen nx
    /\ forall j, 0 <= j -> nx' !! Z.to_nat j
         = if (i <=? j) && (j <? i + Z.of_nat n) then Some (j + 1) else nx !! Z.to_nat j.
Proof.
  revert nx i. induction n as [|n IH]; intros nx i Hi Hl H16; cbn [clear_links].
  - exists nx. split; [done|]. split; [done|]. intros j Hj.
    destruct (Z.leb_spec i j), (Z.ltb_spec j (i + Z.of_nat 0)); simpl; done || lia.
  - rewrite aset_ret by lia. run_bind.
    destruct (IH (<[Z.to_nat i := u16 (i + 1)]> nx) (i + 1)) as (nx' & -> & Hl' & He);
      [lia|rewrite zlen_insert; lia|lia|].
    exists nx'. split; [done|]. split; [by rewrite Hl', zlen_insert|]. intros j Hj. rewrite He by done.
    destruct (decide (j = i)) as [->|Hne].
    + rewrite (proj2 (Z.leb_gt (i + 1) i)), (proj2 (Z.leb_le i i)) by lia. cbn [andb].
      rewrite (proj2 (Z.ltb_lt i (i + Z.of_nat (S n)))) by lia.
      rewrite list_lookup_insert_eq by (unfold zlen in Hl; lia). by rewrite u16_small by lia.
    + rewrite list_lookup_insert_ne by lia.
      destruct (Z.leb_spec (i + 1) j), (Z.ltb_spec j (i + 1 + Z.of_nat n)), (Z.leb_spec i j),
        (Z.ltb_spec j (i + Z.of_nat (S n))); simpl; done || lia.
Qed.

Lemma ids_chain nx i n :
  0 <= i -> (forall j, i <= j < i + Z.of_nat n -> nx !! Z.to_nat j = Some (j + 1)) ->
  nx !! Z.to_nat (i + Z.of_nat n) = Some 0 -> chain nx (ids i (S n)).
Proof.
  revert i. induction n as [|n IH]; intros i Hi Hj Hlast.
  - simpl. exists 0. replace (i + Z.of_nat 0) with i in Hlast by lia. done.
  - change (ids i (S (S n))) with (i :: ids (i + 1) (S n)).
    assert (chain nx (ids (i + 1) (S n))) as Hc.
    { apply IH; [lia|intros; apply Hj; lia|]. by replace (i + 1 + Z.of_nat n) with (i + Z.of_nat (S n)) by lia. }
    split; [|exact Hc]. apply Hj. lia.
Qed.

Lemma ids_last i n : list.last (ids i (S n)) = Some (i + Z.of_nat n).
Proof.
  revert i. induction n as [|n IH]; intros i; [simpl; f_equal; lia|].
  change (ids i (S (S n))) with (i :: ids (i + 1) (S n)).
  transitivity (list.last (ids (i + 1) (S n))); [done|]. rewrite IH. f_equal. lia.
Qed.

Lemma clear_refines pool :
  0 < num pool < VCABLK_POOL_USED ->
  exists pool', vcablk_pool_clear pool = Ret pool'
    /\ pool_inv pool' (ids 0 (Z.to_nat (num pool))) /\ num pool' = num pool
    /\ data pool' = replicate (Z.to_nat (num pool)) zero.
Proof.
  rewrite USED_val. intros Hn. unfold vcablk_pool_clear. set (n := num pool) in *.
  destruct (clear_links_ok (Z.to_nat (n - 1)) (replicate (Z.to_nat n) 0) 0) as (nx & -> & Hl & He);
    [lia|rewrite zlen_replicate; lia|lia|]. rewrite zlen_replicate in Hl. run_bind.
  rewrite aset_ret by lia. run_bind. eexists. split; [done|]. split; [|done].
  assert (HS : Z.to_nat n = S (Z.to_nat (n - 1))) by lia.
  split; cbn [num head tail next_free data].
  - rewrite USED_val. lia.
  - rewrite zlen_insert. lia.
  - rewrite zlen_replicate. lia.
  - apply ids_nodup.
  - apply List.Forall_forall. intros x Hx%list_elem_of_In. apply ids_elem in Hx. lia.
  - rewrite HS. apply ids_chain; [lia| |].
    + intros j Hj. rewrite list_lookup_insert_ne by lia. rewrite He by lia.
      by rewrite (proj2 (Z.leb_le 0 j)), (proj2 (Z.ltb_lt j _)) by lia.
    + replace (0 + Z.of_nat (Z.to_nat (n - 1))) with (n - 1) by lia.
      apply list_lookup_insert_eq. unfold zlen in Hl. lia.
  - by rewrite HS.
  - rewrite HS, ids_last, u16_small by lia. f_equal. lia.
  - intros i Hi Hin. rewrite ids_elem in Hin. lia.
Qed.

End Ops.

(** ** The FIFO specification *)

(** The calls a client makes: take an element, give the element [i] back, look
    the element [i] up. *)
Inductive op := Pop | Push (i : Z) | Get (i : Z).

Definition exec {A} (pool : vcablk_pool A) (o : op) : outcome (vcablk_pool A * option Z) :=
  match o with
  | Pop => vcablk_pool_pop pool
  | Push i => pool ← vcablk_pool_push pool i; Ret (pool, None)
  | Get i => r ← vcablk_pool_get_by_id pool i; Ret (pool, r)
  end.

Fixpoint exec_all {A} (pool : vcablk_pool A) (os : list op)
    : outcome (vcablk_pool A * list (option Z)) :=
  match os with
  | [] => Ret (pool, [])
  | o :: os =>
      '(pool, r) ← exec pool o;
      '(pool, rs) ← exec_all pool os;
      Ret (pool, r :: rs)
  end.

(** The queue of free identifiers of a pool of [n] elements; a push of an
    element that is free or not in the pool is outside the contract, and so is
    a look-up outside the pool. *)
Definition spec (n : Z) (free : list Z) (o : op) : option (list Z * option Z) :=
  match o with
  | Pop => match free with
           | x :: (_ :: _) as free' => Some (free', Some x)
           | _ => Some (free, None)
           end
  | Push i => if (0 <=? i) && (i <? n) && negb (bool_decide (i ∈ free))
              then Some (free ++ [i], None) else None
  | Get i => if (0 <=? i) && (i <? n)
             then Some (free, if decide (i ∈ free) then None else Some i) else None
  end.

Fixpoint spec_all (n : Z) (free : list Z) (os : list op) : option (list Z * list (option Z)) :=
  match os with
  | [] => Some (free, [])
  | o :: os =>
      match spec n free o with
      | Some (free, r) =>
          match spec_all n free os with
          | Some (free, rs) => Some (free, r :: rs)
          | None => None
          end
      | None => None
      end
  end.

Lemma exec_refines {A} (pool : vcablk_pool A) free o free' r :
  pool_inv pool free -> spec (num pool) free o = Some (free', r) ->
  exists pool', exec pool o = Ret (pool', r) /\ pool_inv pool' free' /\ num pool' = num pool.
Proof.
  intros Hi Hs. destruct o as [|i|i]; simpl in *.
  - pose proof (pop_refines _ _ Hi) as Hp. destruct free as [|x [|y f]]; simplify_eq; [by exists pool..|].
    destruct Hp as (pool' & Hp & Hi' & _). exists pool'. split; [done|]. split; [done|].
    unfold vcablk_pool_pop in Hp. destruct (negb _); inv_ret; by simplify_eq.
  - destruct (_ && _) eqn:E; simplify_eq. bools.
    destruct (push_refines pool free i Hi ltac:(lia)) as (pool' & Hp & Hi' & _).
    { by apply bool_decide_eq_false in H0. }
    exists pool'. rewrite Hp. split; [done|]. split; [done|].
    unfold vcablk_pool_push in Hp. inv_ret. by simplify_eq.
  - destruct (_ && _) eqn:E; [|done]. injection Hs as <- <-. bools.
    rewrite (get_by_id_refines pool free i Hi ltac:(lia)). by exists pool.
Qed.

Lemma exec_all_refines {A} os (pool : vcablk_pool A) free free' rs :
  pool_inv pool free -> spec_all (num pool) free os = Some (free', rs) ->
  exists pool', exec_all pool os = Ret (pool', rs) /\ pool_inv pool' free'.
Proof.
  revert pool free rs. induction os as [|o os IH]; intros pool free rs Hi Hs; simpl in *.
  - simplify_eq. by exists pool.
  - destruct (spec (num pool) free o) as [[f r]|] eqn:E; [|done].
    destruct (spec_all (num pool) f os) as [[f' rs']|] eqn:E'; [|done]. simplify_eq.
    destruct (exec_refines pool free o f r Hi E) as (p1 & -> & Hi1 & Hn1). rewrite <- Hn1 in E'. run_bind.
    destruct (IH p1 f rs' Hi1 E') as (p2 & -> & Hi2). run_bind. by exists p2.
Qed.

(** ** Properties *)

(** C35. A new pool behaves as a FIFO queue of free identifiers: for every
    sequence of calls within the contract (only elements that are in use are
    given back), the calls return, and return what the queue [0, 1, ..., n] of
    free identifiers, whose last element is never handed out, gives. *)
Theorem pool_refines_fifo {A} (zero : A) n os free rs :
  0 <= n < VCABLK_POOL_USED - 1 ->
  spec_all (n + 1) (ids 0 (Z.to_nat (n + 1))) os = Some (free, rs) ->
  exists pool pool',
    vcablk_pool_init zero n true = Ret (Some pool) /\ exec_all pool os = Ret (pool', rs)
    /\ pool_inv pool' free.
Proof.
  rewrite USED_val. intros Hn Hs. unfold vcablk_pool_init. rewrite USED_val.
  rewrite (proj2 (Z.leb_gt _ _)), (proj2 (Z.leb_gt _ _)) by lia. cbn [orb negb].
  rewrite u16_small by lia.
  destruct (clear_refines zero (mkPool (n + 1) 0 0 [] [])) as (pool & -> & Hi & Hp & _).
  { rewrite USED_val. simpl. lia. }
  simpl num in *. rewrite <- Hp in Hs.
  destruct (exec_all_refines os pool _ free rs Hi) as (pool' & Hx & Hi').
  { by rewrite Hp in *. }
  by exists pool, pool'.
Qed.

(** An element that is handed out was free, lies in the pool, and is not
    handed out again before it is given back: after the call it is in use. *)
Theorem pool_pop_exclusive {A} (pool pool' : vcablk_pool A) free x :
  pool_inv pool free -> vcablk_pool_pop pool = Ret (pool', Some x) ->
  exists free', pool_inv pool' free' /\ x ∈ free /\ (x ∉ free') /\ 0 <= x < num pool
    /\ vcablk_pool_get_by_id pool x = Ret None
    /\ vcablk_pool_get_by_id pool' x = Ret (Some x).
Proof.
  intros Hi Hpop. pose proof (pop_refines _ _ Hi) as Hp.
  destruct free as [|y [|z f]]; [rewrite Hp in Hpop; done..|].
  destruct Hp as (p1 & Hp & Hi' & _). rewrite Hp in Hpop. simplify_eq.
  pose proof (pi_nodup _ _ Hi) as [Hx _]%list.NoDup_cons.
  pose proof (pi_range _ _ Hi) as [Hr _]%Forall_cons_iff.
  assert (Hn : num pool' = num pool).
  { unfold vcablk_pool_pop in Hp. destruct (negb _); inv_ret; by simplify_eq. }
  exists (z :: f). split; [done|]. split; [apply elem_of_cons; auto|]. split; [done|]. split; [done|].
  rewrite (get_by_id_refines _ _ _ Hi Hr), (get_by_id_refines _ _ x Hi' ltac:(lia)).
  rewrite decide_True by (apply elem_of_cons; auto). by rewrite decide_False.
Qed.

(** Giving an element back twice stops the kernel, and looking up an element
    outside the pool reads outside the allocation. *)
Theorem pool_misuse {A} (pool : vcablk_pool A) free x :
  pool_inv pool free ->
  (x ∈ free -> vcablk_pool_push pool x = Bug)
  /\ (num pool <= x -> vcablk_pool_get_by_id pool x = Oob).
Proof.
  intros [Hn Hl Hd Hnd Hr Hc Hh Ht Hu]. split.
  - intros Hin. destruct (chain_lookup _ _ _ Hc Hin) as (v & Hv).
    pose proof Hr as Hr'. rewrite List.Forall_forall in Hr'.
    pose proof (Hr' x (proj1 (list_elem_of_In _ _) Hin)).
    unfold vcablk_pool_push. rewrite (aget_ret _ _ v) by (done || lia). run_bind.
    rewrite (proj2 (Z.eqb_neq _ _)); [done|]. eapply (chain_not_used _ _ _ _ _ Hc Hr); [lia|done|done].
  - intros Hx. unfold vcablk_pool_get_by_id. rewrite (proj2 (Z.ltb_ge _ _)) by lia.
    unfold aget. rewrite (proj2 (Z.leb_le _ _)) by lia.
    rewrite lookup_ge_None_2; [done|]. unfold zlen in Hl. lia.
Qed.

(** ** Witnesses *)

Lemma pool_refines_fifo_witness :
  exists pool pool', vcablk_pool_init tt 2 true = Ret (Some pool)
    /\ exec_all pool [Pop; Pop; Pop; Push 1; Pop; Get 0] = Ret (pool', [Some 0; Some 1; None; None; Some 2; Some 0]).
Proof.
  destruct (pool_refines_fifo tt 2 [Pop; Pop; Pop; Push 1; Pop; Get 0] [1] [Some 0; Some 1; None; None; Some 2; Some 0])
    as (p & p' & H1 & H2 & _).
  - rewrite USED_val. lia.
  - vm_compute. reflexivity.
  - exists p, p'. split; [exact H1|exact H2].
Defined.

Definition demo_pool : vcablk_pool unit := mkPool 3 1 2 [VCABLK_POOL_USED; 2; 0] [tt; tt; tt].
Lemma demo_pool_inv : pool_inv demo_pool [1; 2].
Proof.
  split; simpl.
  - rewrite USED_val. lia.
  - reflexivity.
  - reflexivity.
  - apply (ids_nodup 1 2).
  - repeat constructor; lia.
  - split; [reflexivity|]. exists 0. split; [reflexivity|discriminate].
  - reflexivity.
  - reflexivity.
  - intros i Hi Hn. assert (i = 0) as ->; [|reflexivity].
    rewrite !elem_of_cons in Hn. lia.
Qed.

Lemma pool_pop_exclusive_witness :
  exists pool', vcablk_pool_pop demo_pool = Ret (pool', Some 1)
    /\ vcablk_pool_get_by_id pool' 1 = Ret (Some 1).
Proof.
  destruct (vcablk_pool_pop demo_pool) as [[pool' r]| | |] eqn:H; try (vm_compute in H; discriminate).
  assert (r = Some 1) as -> by (vm_compute in H; congruence).
  destruct (pool_pop_exclusive demo_pool pool' [1; 2] 1 demo_pool_inv H) as (f & _ & _ & _ & _ & _ & Hg).
  exists pool'. split; [reflexivity|exact Hg].
Defined.

Lemma pool_misuse_witness :
  vcablk_pool_push demo_pool 2 = Bug /\ vcablk_pool_get_by_id demo_pool 7 = Oob.
Proof.
  destruct (pool_misuse demo_pool [1; 2] 2 demo_pool_inv) as (H1 & _).
  destruct (pool_misuse demo_pool [1; 2] 7 demo_pool_inv) as (_ & H2).
  split; [apply H1|apply H2; simpl; lia]. rewrite !elem_of_cons. auto.
Defined.

End Pool.
