(* ===== verification/VirtioRing.v ===== *)
(** * The driver side of a virtqueue

    [src/modules/vca/vca_virtio/vca_virtio_ring.c] and the layout of the shared
    ring ([uapi/vca_virtio_ring.h]).  The descriptors, the available ring and the
    used ring are shared with the device; the free list, the tokens and the
    counters are the driver's own.  Debugging code ([DEBUG]) is off, and the
    ring is little-endian as the CPU. *)

From S2P Require Import Prelude.
From stdpp Require Import base list gmap numbers option tactics.
From Stdlib Require Import ZArith Lia.
#[local] Open Scope Z_scope.

Module VirtioRing.

(** ** The shared ring *)

Definition VRING_DESC_F_NEXT := 1.
Definition VRING_DESC_F_WRITE := 2.
Definition VRING_DESC_F_INDIRECT := 4.
Definition VRING_USED_F_NO_NOTIFY := 1.
Definition VRING_AVAIL_F_NO_INTERRUPT := 1.
Definition VIRTIO_RING_F_INDIRECT_DESC := 28.
Definition VIRTIO_RING_F_EVENT_IDX := 29.
Definition VIRTIO_RING_F_DMA_MAP := 30.
Definition VIRTIO_TRANSPORT_F_START := 28.
Definition VIRTIO_TRANSPORT_F_END := 33.
Definition VIRTIO_F_VERSION_1 := 32.

Record vring_desc := mkDesc { addr : Z; len : Z; flags : Z; next : Z }.
Record vring_used_elem := mkUsed { ue_id : Z; ue_len : Z }.

(** [avail_ring] has [num + 1] entries: the last one is the used event index. *)
Record vring := mkVring {
  num : Z;
  desc : list vring_desc;
  avail_flags : Z;
  avail_idx : Z;
  avail_ring : list Z;
  used_flags : Z;
  used_idx : Z;
  used_ring : list vring_used_elem;
  avail_event : Z;
}.

Definition set_desc (v : vring) (d : list vring_desc) : vring :=
  mkVring (num v) d (avail_flags v) (avail_idx v) (avail_ring v) (used_flags v) (used_idx v)
    (used_ring v) (avail_event v).
Definition set_avail (v : vring) (fl idx : Z) (ring : list Z) : vring :=
  mkVring (num v) (desc v) fl idx ring (used_flags v) (used_idx v) (used_ring v) (avail_event v).

(** Where the parts of a ring of [n] descriptors at the address [p] lie. *)
Definition vring_init (n p align : Z) : Z * Z * Z :=
  let av := p + n * 16 in
  (p, av, Z.land (av + 4 + n * 2 + 2 + align - 1) (Z.lnot (align - 1))).
Definition vring_size (n align : Z) : Z :=
  Z.land (16 * n + 2 * (3 + n) + align - 1) (Z.lnot (align - 1)) + 2 * 3 + 8 * n.

Definition vring_need_event (event_idx new_idx old : Z) : bool :=
  u16 (new_idx - event_idx - 1) <? u16 (new_idx - old).

(** ** Scatter lists *)

Record sg_entry := mkSg { sg_phys : Z; sg_length : Z; sg_dma_address : Z }.
(** An array of entries and the number of entries up to the end mark. *)
Record scatterlist := mkSgl { sg_ents : list sg_entry; sg_end : nat }.
Definition sg_list (sg : scatterlist) : list sg_entry := take (sg_end sg) (sg_ents sg).

(** What happens outside the driver's memory. *)
Inductive event :=
| EvMap (dma length : Z) (to_device : bool)
| EvUnmap (dma length : Z) (to_device : bool)
| EvNotify
| EvCallback.

(** ** The queue *)

(** [data]: the tokens, 0 is [NULL]; [tables]: the indirect tables that are
    allocated, by address; [log]: the effects so far, the last one first. *)
Record vring_virtqueue := mkVq {
  ring : vring;
  broken : bool;
  indirect : bool;
  event_ok : bool;
  dma_map : bool;
  free_head : Z;
  num_added : Z;
  last_used_idx : Z;
  num_free : Z;
  data : list Z;
  tables : gmap Z (list vring_desc);
  log : list event;
}.

Definition upd_ring (q : vring_virtqueue) (v : vring) : vring_virtqueue :=
  mkVq v (broken q) (indirect q) (event_ok q) (dma_map q) (free_head q) (num_added q)
    (last_used_idx q) (num_free q) (data q) (tables q) (log q).
Definition upd_broken (q : vring_virtqueue) (b : bool) : vring_virtqueue :=
  mkVq (ring q) b (indirect q) (event_ok q) (dma_map q) (free_head q) (num_added q)
    (last_used_idx q) (num_free q) (data q) (tables q) (log q).
Definition upd_free (q : vring_virtqueue) (head n : Z) : vring_virtqueue :=
  mkVq (ring q) (broken q) (indirect q) (event_ok q) (dma_map q) head (num_added q)
    (last_used_idx q) n (data q) (tables q) (log q).
Definition upd_added (q : vring_virtqueue) (n : Z) : vring_virtqueue :=
  mkVq (ring q) (broken q) (indirect q) (event_ok q) (dma_map q) (free_head q) n
    (last_used_idx q) (num_free q) (data q) (tables q) (log q).
Definition upd_used (q : vring_virtqueue) (n : Z) : vring_virtqueue :=
  mkVq (ring q) (broken q) (indirect q) (event_ok q) (dma_map q) (free_head q) (num_added q)
    n (num_free q) (data q) (tables q) (log q).
Definition upd_data (q : vring_virtqueue) (d : list Z) : vring_virtqueue :=
  mkVq (ring q) (broken q) (indirect q) (event_ok q) (dma_map q) (free_head q) (num_added q)
    (last_used_idx q) (num_free q) d (tables q) (log q).
Definition upd_tables (q : vring_virtqueue) (t : gmap Z (list vring_desc)) : vring_virtqueue :=
  mkVq (ring q) (broken q) (indirect q) (event_ok q) (dma_map q) (free_head q) (num_added q)
    (last_used_idx q) (num_free q) (data q) t (log q).
Definition upd_log (q : vring_virtqueue) (es : list event) : vring_virtqueue :=
  mkVq (ring q) (broken q) (indirect q) (event_ok q) (dma_map q) (free_head q) (num_added q)
    (last_used_idx q) (num_free q) (data q) (tables q) (es ++ log q).

Definition vring_used_event_set (v : vring) (x : Z) : outcome vring :=
  r ← aset (avail_ring v) (num v) x;
  Ret (set_avail v (avail_flags v) (avail_idx v) r).

(** ** Exposing buffers *)

(** [kmalloc]: the address of the new table, when there is memory. *)
Definition alloc_indirect (total_sg : Z) (kmalloc : option Z) : option (Z * list vring_desc) :=
  match kmalloc with
  | None => None
  | Some a => Some (a, map (fun i => mkDesc 0 0 0 (u16 (Z.of_nat i + 1))) (seq 0 (Z.to_nat total_sg)))
  end.

Definition sg_terminate_arr (sg : scatterlist) (n : Z) : outcome scatterlist :=
  if (0 <? n) && (n <=? zlen (sg_ents sg)) then Ret (mkSgl (sg_ents sg) (Z.to_nat n)) else Oob.

Section Dma.
(** [dma_map_single]: physical address, length, direction; 0 is a failure. *)
Context (dma_map_single : Z -> Z -> bool -> Z).

(** The loop of [_dma_map_sg]: [done] are the entries before [s]. *)
Fixpoint map_loop (done todo : list sg_entry) (dir : bool) (ret : Z) (es : list event)
    : list sg_entry * Z * list event :=
  match todo with
  | [] => (done, ret, es)
  | s :: todo =>
      let d := dma_map_single (sg_phys s) (sg_length s) dir in
      let s := mkSg (sg_phys s) (sg_length s) d in
      if d =? 0 then
        map_loop (done ++ [s]) todo dir (- ENOMEM)
          (rev (map (fun t => EvUnmap (sg_dma_address t) (sg_length t) dir) done) ++ es)
      else map_loop (done ++ [s]) todo dir ret (EvMap d (sg_length s) dir :: es)
  end.

Definition _dma_map_sg (sg : scatterlist) (dir : bool) : scatterlist * Z * list event :=
  let '(ents, ret, es) := map_loop [] (sg_list sg) dir 0 [] in
  (mkSgl (ents ++ drop (sg_end sg) (sg_ents sg)) (sg_end sg), ret, es).

Definition _dma_unmap_sg (sg : scatterlist) (dir : bool) : list event :=
  rev (map (fun t => EvUnmap (sg_dma_address t) (sg_length t) dir) (sg_list sg)).

(** The loop of [vring_map_sg] over the lists; [n] lists are already mapped. *)
Fixpoint map_sgs (done todo : list scatterlist) (out_sgs : nat) (es : list event)
    : list scatterlist * Z * list event :=
  match todo with
  | [] => (done, 0, es)
  | sg :: todo =>
      let dir := (length done <? out_sgs)%nat in
      let '(sg, ret, e) := _dma_map_sg sg dir in
      if negb (ret =? 0) then
        let undo := concat (rev (imap (fun i s => _dma_unmap_sg s (i <? out_sgs)%nat) done)) in
        (done ++ sg :: todo, - ENOMEM, undo ++ e ++ es)
      else map_sgs (done ++ [sg]) todo out_sgs (e ++ es)
  end.

(** [parent]: the device has a parent to map for. *)
Definition vring_map_sg (parent : bool) (sgs : list scatterlist) (total_sg : Z)
    (out_sgs in_sgs : nat) : outcome (list scatterlist * Z * list event) :=
  sgs ← (if (out_sgs =? 1)%nat
         then s ← aget sgs 0; s ← sg_terminate_arr s total_sg; aset sgs 0 s else Ret sgs);
  sgs ← (if (in_sgs =? 1)%nat
         then s ← aget sgs 0; s ← sg_terminate_arr s total_sg; aset sgs 0 s else Ret sgs);
  if negb parent then Ret (sgs, - ENOMEM, [])
  else Ret (map_sgs [] sgs out_sgs []).

(** The inner loops of [virtqueue_add] over the entries of the lists, each with
    the flags it is given. *)
Fixpoint fill (d : list vring_desc) (i prev : Z) (dma : bool) (l : list (sg_entry * Z))
    : outcome (list vring_desc * Z * Z) :=
  match l with
  | [] => Ret (d, i, prev)
  | (sg, fl) :: l =>
      e ← aget d i;
      d ← aset d i (mkDesc (if dma then sg_dma_address sg else sg_phys sg) (sg_length sg) fl (next e));
      fill d (next e) i dma l
  end.

(** The entries of the lists in order: the first [out_sgs] lists are read by the
    device, the others are written. *)
Definition sg_flags (sgs : list scatterlist) (out_sgs : nat) : list (sg_entry * Z) :=
  concat (imap (fun n sg => map (fun s => (s, if (n <? out_sgs)%nat then VRING_DESC_F_NEXT
                                              else Z.lor VRING_DESC_F_NEXT VRING_DESC_F_WRITE))
                              (sg_list sg)) sgs).

Definition vca_virtqueue_kick_prepare (vq : vring_virtqueue) : vring_virtqueue * bool :=
  let v := ring vq in
  let old := u16 (avail_idx v - num_added vq) in
  let new := avail_idx v in
  let vq := upd_added vq 0 in
  (vq, if event_ok vq then vring_need_event (avail_event v) new old
       else negb (testflag (used_flags v) VRING_USED_F_NO_NOTIFY)).

(** [notify]: what the transport's notification function returns. *)
Definition vca_virtqueue_notify (notify : bool) (vq : vring_virtqueue) : vring_virtqueue * bool :=
  if broken vq then (vq, false)
  else
    let vq := upd_log vq [EvNotify] in
    if negb notify then (upd_broken vq true, false) else (vq, true).

Definition vca_virtqueue_kick (notify : bool) (vq : vring_virtqueue) : vring_virtqueue * bool :=
  let '(vq, needs) := vca_virtqueue_kick_prepare vq in
  if needs then vca_virtqueue_notify notify vq else (vq, true).

(** The part of [virtqueue_add] that fills the descriptors, from [desc] to the
    new free pointer: the queue and the index of the next free descriptor. *)
Definition add_direct (vq : vring_virtqueue) (l : list (sg_entry * Z)) (head : Z)
    : outcome vring_virtqueue :=
  '(d, i, prev) ← fill (desc (ring vq)) head 0 (dma_map vq) l;
  e ← aget d prev;
  d ← aset d prev (mkDesc (addr e) (len e) (Z.land (flags e) (Z.lnot VRING_DESC_F_NEXT)) (next e));
  Ret (upd_free (upd_ring vq (set_desc (ring vq) d)) i (num_free vq)).

Definition add_indirect (vq : vring_virtqueue) (l : list (sg_entry * Z)) (head a : Z)
    (table : list vring_desc) : outcome vring_virtqueue :=
  '(t, i, prev) ← fill table 0 0 (dma_map vq) l;
  e ← aget t prev;
  t ← aset t prev (mkDesc (addr e) (len e) (Z.land (flags e) (Z.lnot VRING_DESC_F_NEXT)) (next e));
  h ← aget (desc (ring vq)) head;
  Ret (upd_free (upd_tables vq (<[a := t]> (tables vq))) (next h) (num_free vq)).

(** Setting the token and exposing the head in the available ring. *)
Definition expose (vq : vring_virtqueue) (head token : Z) : outcome vring_virtqueue :=
  dt ← aset (data vq) head token;
  let v := ring vq in
  let avail := Z.land (avail_idx v) (num v - 1) in
  ar ← aset (avail_ring v) avail (u16 head);
  let v := set_avail v (avail_flags v) (u16 (avail_idx v + 1)) ar in
  Ret (upd_added (upd_data (upd_ring vq v) dt) (u32 (num_added vq + 1))).

(** [sgs]: the [out_sgs + in_sgs] lists of the request. *)
Definition virtqueue_add (notify parent : bool) (kmalloc : option Z) (vq : vring_virtqueue)
    (sgs : list scatterlist) (total_sg : Z) (out_sgs in_sgs : nat) (token : Z)
    : outcome (vring_virtqueue * Z) :=
  _ ← bug_on (token =? 0);
  if broken vq then Ret (vq, - EIO) else
  _ ← bug_on (num (ring vq) <? total_sg);
  _ ← bug_on (total_sg =? 0);
  let head := free_head vq in
  let table := if indirect vq && (1 <? total_sg) && negb (num_free vq =? 0)
               then alloc_indirect total_sg kmalloc else None in
  vq ← match table with
       | Some (a, t) =>
           e ← aget (desc (ring vq)) head;
           d ← aset (desc (ring vq)) head (mkDesc a (u32 (total_sg * 16)) VRING_DESC_F_INDIRECT (next e));
           Ret (upd_tables (upd_ring vq (set_desc (ring vq) d)) (<[a := t]> (tables vq)))
       | None => Ret vq
       end;
  let descs_used := match table with Some _ => 1 | None => total_sg end in
  if num_free vq <? descs_used then
    Ret (if (0 <? out_sgs)%nat then upd_log vq [EvNotify] else vq, - ENOSPC)
  else
  '(sgs, rc, es) ← (if dma_map vq then vring_map_sg parent sgs total_sg out_sgs in_sgs
                    else Ret (sgs, 0, []));
  let vq := upd_log vq es in
  if negb (rc =? 0) then Ret (vq, - ENOMEM) else
  let vq := upd_free vq (free_head vq) (num_free vq - descs_used) in
  let l := sg_flags sgs out_sgs in
  vq ← match table with
       | Some (a, t) => add_indirect vq l head a t
       | None => add_direct vq l head
       end;
  vq ← expose vq head token;
  if num_added vq =? 65535 then Ret (fst (vca_virtqueue_kick notify vq), 0) else Ret (vq, 0).

Definition vca_virtqueue_add_sgs (notify parent : bool) (kmalloc : option Z) (vq : vring_virtqueue)
    (sgs : list scatterlist) (out_sgs in_sgs : nat) (token : Z) : outcome (vring_virtqueue * Z) :=
  let total_sg := Z.of_nat (sum_list_with (fun sg => length (sg_list sg)) sgs) in
  virtqueue_add notify parent kmalloc vq sgs total_sg out_sgs in_sgs token.
Definition vca_virtqueue_add_outbuf (notify parent : bool) (kmalloc : option Z)
    (vq : vring_virtqueue) (sg : scatterlist) (n token : Z) : outcome (vring_virtqueue * Z) :=
  virtqueue_add notify parent kmalloc vq [sg] n 1 0 token.
Definition vca_virtqueue_add_inbuf (notify parent : bool) (kmalloc : option Z)
    (vq : vring_virtqueue) (sg : scatterlist) (n token : Z) : outcome (vring_virtqueue * Z) :=
  virtqueue_add notify parent kmalloc vq [sg] n 0 1 token.

End Dma.

(** ** Taking buffers back *)

Definition __unmap_single (d : vring_desc) : event :=
  EvUnmap (addr d) (len d) (negb (testflag (flags d) VRING_DESC_F_WRITE)).

(** The [while] of [detach_buf]. *)
Fixpoint detach_loop (fuel : nat) (vq : vring_virtqueue) (i : Z) : outcome (vring_virtqueue * Z) :=
  match fuel with
  | O => Spin
  | S fuel =>
      e ← aget (desc (ring vq)) i;
      if testflag (flags e) VRING_DESC_F_NEXT then
        let vq := if dma_map vq then upd_log vq [__unmap_single e] else vq in
        detach_loop fuel (upd_free vq (free_head vq) (num_free vq + 1)) (next e)
      else Ret (vq, i)
  end.

(** The chain of a buffer has at most [num] descriptors. *)
Definition detach_buf (vq : vring_virtqueue) (head : Z) : outcome vring_virtqueue :=
  dt ← aset (data vq) head 0;
  let vq := upd_data vq dt in
  e ← aget (desc (ring vq)) head;
  let vq := if testflag (flags e) VRING_DESC_F_INDIRECT
            then upd_tables vq (delete (addr e) (tables vq)) else vq in
  '(vq, i) ← detach_loop (Z.to_nat (num (ring vq))) vq head;
  e ← aget (desc (ring vq)) i;
  d ← aset (desc (ring vq)) i (mkDesc (addr e) (len e) (flags e) (u16 (free_head vq)));
  let vq := upd_free (upd_ring vq (set_desc (ring vq) d)) head (num_free vq + 1) in
  Ret (if dma_map vq then upd_log vq [__unmap_single e] else vq).

Definition more_used (vq : vring_virtqueue) : bool := negb (last_used_idx vq =? used_idx (ring vq)).

(** The token and the length, when a buffer is returned. *)
Definition vca_virtqueue_get_buf (vq : vring_virtqueue)
    : outcome (vring_virtqueue * option (Z * Z)) :=
  if broken vq then Ret (vq, None) else
  if negb (more_used vq) then Ret (vq, None) else
  let v := ring vq in
  let last_used := Z.land (last_used_idx vq) (num v - 1) in
  u ← aget (used_ring v) last_used;
  let i := ue_id u in
  if num v <=? i then Ret (upd_broken vq true, None) else
  token ← aget (data vq) i;
  if token =? 0 then Ret (upd_broken vq true, None) else
  vq ← detach_buf vq i;
  let vq := upd_used vq (u16 (last_used_idx vq + 1)) in
  if negb (testflag (avail_flags (ring vq)) VRING_AVAIL_F_NO_INTERRUPT) then
    v ← vring_used_event_set (ring vq) (last_used_idx vq);
    Ret (upd_ring vq v, Some (token, ue_len u))
  else Ret (vq, Some (token, ue_len u)).

Definition vca_virtqueue_disable_cb (vq : vring_virtqueue) : vring_virtqueue :=
  let v := ring vq in
  upd_ring vq (set_avail v (Z.lor (avail_flags v) VRING_AVAIL_F_NO_INTERRUPT) (avail_idx v) (avail_ring v)).

Definition vca_virtqueue_enable_cb_prepare (vq : vring_virtqueue) : outcome (vring_virtqueue * Z) :=
  let v := ring vq in
  let v := set_avail v (Z.land (avail_flags v) (Z.lnot VRING_AVAIL_F_NO_INTERRUPT))
             (avail_idx v) (avail_ring v) in
  v ← vring_used_event_set v (last_used_idx vq);
  Ret (upd_ring vq v, last_used_idx vq).

Definition vca_virtqueue_poll (vq : vring_virtqueue) (last_used : Z) : bool :=
  negb (u16 last_used =? used_idx (ring vq)).

(** The device works on the ring meanwhile: [other] is what it does between the two calls, the ring
    afterwards and its own state. *)
Definition vca_virtqueue_enable_cb {A} (other : vring -> outcome (vring * A)) (vq : vring_virtqueue)
    : outcome (vring_virtqueue * bool * A) :=
  '(vq, last_used) ← vca_virtqueue_enable_cb_prepare vq;
  '(v, a) ← other (ring vq);
  let vq := upd_ring vq v in
  Ret (vq, negb (vca_virtqueue_poll vq last_used), a).

Definition vca_virtqueue_enable_cb_delayed (vq : vring_virtqueue) : outcome (vring_virtqueue * bool) :=
  let v := ring vq in
  let v := set_avail v (Z.land (avail_flags v) (Z.lnot VRING_AVAIL_F_NO_INTERRUPT))
             (avail_idx v) (avail_ring v) in
  let bufs := u16 (u16 (avail_idx v - last_used_idx vq) * 3 / 4) in
  v ← vring_used_event_set v (u16 (last_used_idx vq + bufs));
  let vq := upd_ring vq v in
  Ret (vq, negb (bufs <? u16 (used_idx v - last_used_idx vq))).

(** The [for] of [vca_virtqueue_detach_unused_buf]: the token, or 0 at the end
    of the loop. *)
Fixpoint unused_loop (n : nat) (vq : vring_virtqueue) (i : Z) : outcome (vring_virtqueue * Z) :=
  match n with
  | O => Ret (vq, 0)
  | S n =>
      buf ← aget (data vq) i;
      if buf =? 0 then unused_loop n vq (i + 1)
      else
        vq ← detach_buf vq i;
        let v := ring vq in
        Ret (upd_ring vq (set_avail v (avail_flags v) (u16 (avail_idx v - 1)) (avail_ring v)), buf)
  end.

Definition vca_virtqueue_detach_unused_buf (vq : vring_virtqueue)
    : outcome (vring_virtqueue * option Z) :=
  '(vq, buf) ← unused_loop (Z.to_nat (num (ring vq))) vq 0;
  if negb (buf =? 0) then Ret (vq, Some buf)
  else
    _ ← bug_on (negb (num_free vq =? num (ring vq)));
    Ret (vq, None).

(** [callback]: whether the queue has one.  [true] is [IRQ_HANDLED]. *)
Definition vca_vring_interrupt (callback : bool) (vq : vring_virtqueue) : vring_virtqueue * bool :=
  if negb (more_used vq) then (vq, false)
  else if broken vq then (vq, true)
  else (if callback then upd_log vq [EvCallback] else vq, true).

(** ** Creation *)

Definition virtio_has_feature (features fbit : Z) : bool := Z.testbit features fbit.

(** The [for] that puts every descriptor in the free list. *)
Fixpoint free_loop (n : nat) (d : list vring_desc) (i : Z) : outcome (list vring_desc) :=
  match n with
  | O => Ret d
  | S n =>
      e ← aget d i;
      d ← aset d i (mkDesc (addr e) (len e) (flags e) (u16 (i + 1)));
      free_loop n d (i + 1)
  end.

(** [pages]: the ring memory handed in; [None] is [NULL]. *)
Definition vca_vring_new_virtqueue (n : Z) (pages : vring) (features : Z) (kmalloc_ok callback : bool)
    : outcome (option vring_virtqueue) :=
  if negb (Z.land n (n - 1) =? 0) then Ret None
  else if negb kmalloc_ok then Ret None
  else
    let fl := if callback then avail_flags pages
              else Z.lor (avail_flags pages) VRING_AVAIL_F_NO_INTERRUPT in
    d ← free_loop (Z.to_nat (u32 (n - 1))) (desc pages) 0;
    let v := mkVring n d fl (avail_idx pages) (avail_ring pages) (used_flags pages)
               (used_idx pages) (used_ring pages) (avail_event pages) in
    Ret (Some (mkVq v false (virtio_has_feature features VIRTIO_RING_F_INDIRECT_DESC)
                 (virtio_has_feature features VIRTIO_RING_F_EVENT_IDX)
                 (virtio_has_feature features VIRTIO_RING_F_DMA_MAP)
                 0 0 0 n (replicate (Z.to_nat n) 0) ∅ [])).

(** The bits of [vdev->features] the transport understands. *)
Fixpoint transport_loop (n : nat) (features i : Z) : Z :=
  match n with
  | O => features
  | S n =>
      let keep := (i =? VIRTIO_RING_F_INDIRECT_DESC) || (i =? VIRTIO_RING_F_EVENT_IDX)
                  || (i =? VIRTIO_F_VERSION_1) || (i =? VIRTIO_RING_F_DMA_MAP) in
      transport_loop n (if keep then features else Z.clearbit features i) (i + 1)
  end.
Definition vca_vring_transport_features (features : Z) : Z :=
  let f := transport_loop (Z.to_nat (VIRTIO_TRANSPORT_F_END - VIRTIO_TRANSPORT_F_START))
             features VIRTIO_TRANSPORT_F_START in
  if virtio_has_feature f VIRTIO_RING_F_DMA_MAP && virtio_has_feature f VIRTIO_RING_F_INDIRECT_DESC
  then Z.clearbit f VIRTIO_RING_F_INDIRECT_DESC else f.

Definition vca_virtqueue_get_vring_size (vq : vring_virtqueue) : Z := num (ring vq).
Definition vca_virtqueue_is_broken (vq : vring_virtqueue) : bool := broken vq.
Definition vca_virtio_break_device (vqs : list vring_virtqueue) : list vring_virtqueue :=
  map (fun vq => upd_broken vq true) vqs.

(** ** Descriptor lists *)

Implicit Types d : list vring_desc.

(** The free list: [next] leads from each descriptor to the following one. *)
Fixpoint linked d (l : list nat) : Prop :=
  match l with
  | [] => True
  | x :: l' =>
      (exists e, d !! x = Some e /\ match l' with [] => True | y :: _ => next e = Z.of_nat y end)
      /\ linked d l'
  end.

(** The chain of a buffer: [VRING_DESC_F_NEXT] marks every descriptor but the
    last. *)
Fixpoint chained d (l : list nat) : Prop :=
  match l with
  | [] => False
  | x :: l' =>
      exists e, d !! x = Some e
        /\ match l' with
           | [] => testflag (flags e) VRING_DESC_F_NEXT = false
           | y :: _ => testflag (flags e) VRING_DESC_F_NEXT = true /\ next e = Z.of_nat y /\ chained d l'
           end
  end.

(** What a chain means: the segments (address, length, device writes) of the
    buffer, in order. *)
Fixpoint describes d (l : list nat) (segs : list (Z * Z * bool)) : Prop :=
  match l, segs with
  | x :: l', (a, n, w) :: segs' =>
      let fl := if w then VRING_DESC_F_WRITE else 0 in
      match l', segs' with
      | [], [] => exists nx, d !! x = Some (mkDesc a n fl nx)
      | y :: _, _ :: _ => d !! x = Some (mkDesc a n (Z.lor VRING_DESC_F_NEXT fl) (Z.of_nat y))
                          /\ describes d l' segs'
      | _, _ => False
      end
  | _, _ => False
  end.

Definition seg_of (dma : bool) (p : sg_entry * Z) : Z * Z * bool :=
  (if dma then sg_dma_address (fst p) else sg_phys (fst p), sg_length (fst p),
   testflag (snd p) VRING_DESC_F_WRITE).

Lemma aget_nat {A} (l : list A) n x : l !! n = Some x -> aget l (Z.of_nat n) = Ret x.
Proof. intros H. apply aget_ret; [lia|]. by rewrite Nat2Z.id. Qed.

Lemma aset_nat {A} (l : list A) n x :
  (n < length l)%nat -> aset l (Z.of_nat n) x = Ret (<[n := x]> l).
Proof. intros H. rewrite aset_ret by (unfold zlen; lia). by rewrite Nat2Z.id. Qed.

(** [next] of every descriptor is the same. *)
Definition same_next d d' : Prop := forall x, next <$> (d' !! x) = next <$> (d !! x).

Lemma same_next_insert d x e e' :
  d !! x = Some e -> next e' = next e -> same_next d (<[x := e']> d).
Proof.
  intros Hx He y. destruct (decide (x = y)) as [->|Hn].
  - rewrite list_lookup_insert_eq by by eapply lookup_lt_Some. rewrite Hx. simpl. by rewrite He.
  - by rewrite list_lookup_insert_ne.
Qed.

Lemma same_next_trans d1 d2 d3 : same_next d1 d2 -> same_next d2 d3 -> same_next d1 d3.
Proof. intros H1 H2 x. by rewrite H2. Qed.

Lemma same_next_lookup d d' x e :
  same_next d d' -> d !! x = Some e -> exists e', d' !! x = Some e' /\ next e' = next e.
Proof.
  intros H Hx. specialize (H x). rewrite Hx in H. simpl in H.
  destruct (d' !! x) as [e'|]; [|done]. simpl in H. injection H as H. by exists e'.
Qed.

Lemma linked_same d d' l : same_next d d' -> linked d l -> linked d' l.
Proof.
  intros Hs. induction l as [|x l IH]; [done|]. intros ((e & He & Hn) & Hl).
  destruct (same_next_lookup _ _ _ _ Hs He) as (e' & He' & Hn'). split; [|by apply IH].
  exists e'. split; [done|]. destruct l; [done|]. congruence.
Qed.

(** Only the descriptors of the list matter. *)
Lemma linked_frame d d' l : (forall x, x ∈ l -> d' !! x = d !! x) -> linked d l -> linked d' l.
Proof.
  intros Hs. induction l as [|x l IH]; [done|]. intros ((e & He & Hn) & Hl). split.
  - exists e. split; [|done]. rewrite Hs; [done|]. by apply elem_of_cons; left.
  - apply IH; [|done]. intros y Hy. apply Hs. by apply elem_of_cons; right.
Qed.

Lemma chained_frame d d' l : (forall x, x ∈ l -> d' !! x = d !! x) -> chained d l -> chained d' l.
Proof.
  induction l as [|x l IH]; [done|]. intros Hs (e & He & Hc). exists e.
  split; [rewrite Hs; [done|by apply elem_of_cons; left]|]. destruct l as [|y l]; [done|].
  destruct Hc as (Hf & Hn & Hc). split; [done|]. split; [done|].
  apply IH; [|done]. intros z Hz. apply Hs. by apply elem_of_cons; right.
Qed.

Lemma linked_app d l1 l2 : linked d (l1 ++ l2) -> linked d l1 /\ linked d l2.
Proof.
  induction l1 as [|x l1 IH]; [done|]. simpl. intros ((e & He & Hn) & Hl).
  destruct (IH Hl) as (H1 & H2). split; [|done]. split; [|done]. exists e. split; [done|].
  by destruct l1.
Qed.

Lemma linked_lookup d l x : linked d l -> x ∈ l -> exists e, d !! x = Some e.
Proof.
  induction l as [|y l IH]; [by intros _ ?%list_elem_of_In|]. intros ((e & He & _) & Hl) Hx.
  apply elem_of_cons in Hx as [-> | Hx]; [by exists e|by apply IH].
Qed.

Lemma describes_chained d l segs : describes d l segs -> chained d l.
Proof.
  revert segs. induction l as [|x l IH]; intros [|[[a n] w] segs]; try done. simpl.
  destruct l as [|y l], segs as [|s segs]; try done.
  - intros (nx & Hx). eexists. split; [done|]. by destruct w.
  - intros (Hx & Hd). eexists. split; [done|]. split; [by destruct w|]. split; [done|]. by eapply IH.
Qed.

Lemma chained_lookup d l x : chained d l -> x ∈ l -> exists e, d !! x = Some e.
Proof.
  induction l as [|y l IH]; [done|]. intros (e & He & Hc) Hx.
  apply elem_of_cons in Hx as [-> | Hx]; [by exists e|].
  destruct l as [|z l]; [by apply list_elem_of_In in Hx|]. apply IH; [by destruct Hc as (_ & _ & ?)|done].
Qed.

(** ** Filling descriptors *)

(** The descriptors [ids] hold the entries [l]. *)
Definition filled (dma : bool) d (ids : list nat) (l : list (sg_entry * Z)) : Prop :=
  Forall2 (fun x p => exists nx, d !! x
     = Some (mkDesc (if dma then sg_dma_address (fst p) else sg_phys (fst p))
               (sg_length (fst p)) (snd p) nx)) ids l.

Lemma last_shift (x : nat) l (b : Z) :
  match list.last (x :: l) with Some y => Z.of_nat y | None => b end
  = match list.last l with Some y => Z.of_nat y | None => Z.of_nat x end.
Proof.
  destruct l as [|z l]; [done|]. change (list.last (x :: z :: l)) with (list.last (z :: l)).
  destruct (list.last (z :: l)) eqn:E; [done|]. by apply list.last_None in E.
Qed.

Lemma fill_ok dma l : forall d ids rest i prev,
  length ids = length l -> linked d (ids ++ rest) -> NoDup ids ->
  (forall x, List.hd_error (ids ++ rest) = Some x -> i = Z.of_nat x) ->
  exists d' i',
    fill d i prev dma l
    = Ret (d', i', match list.last ids with Some x => Z.of_nat x | None => prev end)
    /\ same_next d d'
    /\ (forall x, List.hd_error rest = Some x -> i' = Z.of_nat x)
    /\ (forall x, x ∉ ids -> d' !! x = d !! x)
    /\ filled dma d' ids l.
Proof.
  induction l as [|[sg fl] l IH]; intros d ids rest i prev Hlen Hl Hnd Hi.
  - destruct ids; [|done]. exists d, i. split; [done|]. split; [done|]. split; [done|].
    split; [done|]. constructor.
  - destruct ids as [|x ids]; [done|]. simpl in Hlen, Hl, Hi. rewrite (Hi x eq_refl).
    destruct Hl as ((e & He & Hn) & Hl). apply list.NoDup_cons in Hnd as [Hx Hnd].
    cbn [fill]. rewrite (aget_nat _ _ _ He). run_bind.
    rewrite aset_nat by by eapply lookup_lt_Some. run_bind.
    set (e' := mkDesc _ _ fl (next e)). set (d1 := <[x := e']> d).
    assert (Hs1 : same_next d d1) by by apply (same_next_insert _ _ e).
    destruct (IH d1 ids rest (next e) (Z.of_nat x)) as (d' & i' & -> & Hs & Hr & Hf & H2).
    + lia.
    + by apply (linked_same d).
    + done.
    + intros y Hy. destruct (ids ++ rest); [done|]. simpl in Hy. congruence.
    + exists d', i'. split; [by rewrite (last_shift x ids prev)|]. split; [by eapply same_next_trans|].
      split; [done|]. split.
      * intros y Hy. apply not_elem_of_cons in Hy as [Hyx Hy]. rewrite Hf by done.
        by apply list_lookup_insert_ne.
      * constructor; [|done]. exists (next e). simpl. rewrite Hf by done.
        apply list_lookup_insert_eq. by eapply lookup_lt_Some.
Qed.

(** The flags that [virtqueue_add] gives to the entries. *)
Definition next_flag (fl : Z) : Prop :=
  fl = VRING_DESC_F_NEXT \/ fl = Z.lor VRING_DESC_F_NEXT VRING_DESC_F_WRITE.

(** A filled chain whose last descriptor has lost its [NEXT] flag. *)
Lemma filled_describes dma l : forall d ids x e,
  filled dma d ids l ->
  Forall (fun p : sg_entry * Z => next_flag (snd p)) l -> NoDup ids -> linked d ids ->
  list.last ids = Some x -> d !! x = Some e ->
  describes (<[x := mkDesc (addr e) (len e) (Z.land (flags e) (Z.lnot VRING_DESC_F_NEXT)) (next e)]> d)
    ids (map (seg_of dma) l).
Proof.
  induction l as [|[sg fl] l IH]; intros d ids x e H2 Hfl Hnd Hl Hx He;
    apply Forall2_length in H2 as Hlen; destruct ids as [|y ids]; try done.
  inversion H2 as [|? ? ? ? (nx & Hy) H2']; subst. simpl in Hy.
  apply Forall_cons_iff in Hfl as [Hf Hfl]. simpl in Hf.
  apply list.NoDup_cons in Hnd as [Hyn Hnd]. destruct Hl as ((ey & Hey & Hnxt) & Hl).
  destruct ids as [|z ids].
  - destruct l; [|done]. simpl in Hx. injection Hx as <-. rewrite Hy in He. injection He as <-. simpl.
    exists nx. rewrite list_lookup_insert_eq by by eapply lookup_lt_Some.
    by destruct Hf as [-> | ->].
  - destruct l as [|p l]; [done|].
    assert (Hxin : x ∈ z :: ids) by by apply list.last_Some_elem_of.
    assert (Hxy : x <> y) by (intros ->; done).
    cbn [map describes seg_of]. split.
    + rewrite list_lookup_insert_ne by done. rewrite Hy in Hey. injection Hey as <-. rewrite Hy.
      simpl in Hnxt. rewrite Hnxt. by destruct Hf as [-> | ->].
    + apply (IH d (z :: ids) x e); done.
Qed.

(** ** The invariant of the driver

    The descriptors are divided between the free list and the chains of the
    buffers in flight, and each token is stored at the head of its chain. *)
Record vq_inv (vq : vring_virtqueue) (free : list nat) (infl : list (list nat * Z)) : Prop := {
  vi_num : exists k, 0 <= k <= 15 /\ num (ring vq) = 2 ^ k;
  vi_desc : zlen (desc (ring vq)) = num (ring vq);
  vi_avail : zlen (avail_ring (ring vq)) = num (ring vq) + 1;
  vi_used : zlen (used_ring (ring vq)) = num (ring vq);
  vi_data : zlen (data vq) = num (ring vq);
  vi_nodup : NoDup (free ++ concat (map fst infl));
  vi_all : forall x, Z.of_nat x < num (ring vq) <-> x ∈ free ++ concat (map fst infl);
  vi_free : linked (desc (ring vq)) free;
  vi_nfree : num_free vq = Z.of_nat (length free);
  vi_head : forall x, List.hd_error free = Some x -> free_head vq = Z.of_nat x;
  vi_chains : Forall (fun c => chained (desc (ring vq)) (fst c)) infl;
  vi_tokens : forall x t, t <> 0 ->
    (data vq !! x = Some t <-> exists ids, (x :: ids, t) ∈ infl);
  vi_token0 : Forall (fun c => snd c <> 0) infl;
}.

(** Distinct indices below a bound. *)
Lemma nodup_bound (l : list nat) (n : Z) :
  NoDup l -> (forall x, x ∈ l -> Z.of_nat x < n) -> Z.of_nat (length l) <= Z.max 0 n.
Proof.
  intros Hnd Hb. enough (length l <= Z.to_nat n)%nat by lia.
  rewrite <- (length_seq (Z.to_nat n) 0). apply submseteq_length. apply NoDup_submseteq; [done|].
  intros x Hx. apply elem_of_seq. specialize (Hb x Hx). lia.
Qed.

(** The invariant reads only these parts of the queue. *)
Lemma vq_inv_ext vq vq' free infl :
  num (ring vq') = num (ring vq) -> desc (ring vq') = desc (ring vq) ->
  zlen (avail_ring (ring vq')) = zlen (avail_ring (ring vq)) ->
  zlen (used_ring (ring vq')) = zlen (used_ring (ring vq)) ->
  data vq' = data vq -> num_free vq' = num_free vq -> free_head vq' = free_head vq ->
  vq_inv vq free infl -> vq_inv vq' free infl.
Proof.
  intros Hn Hd Ha Hu Hdt Hf Hh [? ? ? ? ? ? ? ? ? ? ? ? ?].
  split; rewrite ?Hn, ?Hd, ?Ha, ?Hu, ?Hdt, ?Hf, ?Hh; done.
Qed.

Lemma num_pos vq free infl : vq_inv vq free infl -> 0 < num (ring vq) <= 32768.
Proof.
  intros Hi. destruct (vi_num _ _ _ Hi) as (k & Hk & ->).
  split; [apply Z.pow_pos_nonneg; lia|]. change 32768 with (2 ^ 15). apply Z.pow_le_mono_r; lia.
Qed.

Lemma ring_mask vq free infl i :
  vq_inv vq free infl -> Z.land i (num (ring vq) - 1) = i mod num (ring vq).
Proof. intros Hi. destruct (vi_num _ _ _ Hi) as (k & Hk & ->). apply land_mask. lia. Qed.

Lemma sg_flags_next sgs out : Forall (fun p : sg_entry * Z => next_flag (snd p)) (sg_flags sgs out).
Proof.
  unfold sg_flags. apply Forall_concat. apply List.Forall_forall. intros l Hl.
  apply list_elem_of_In in Hl. apply elem_of_lookup_imap in Hl as (i & sg & -> & _).
  apply List.Forall_forall. intros p Hp. apply in_map_iff in Hp as (s & <- & _). simpl.
  unfold next_flag. destruct (i <? out)%nat; auto.
Qed.

(** A chain outside the descriptors that change is still described. *)
Lemma describes_frame d d' l segs :
  (forall x, x ∈ l -> d' !! x = d !! x) -> describes d l segs -> describes d' l segs.
Proof.
  revert segs. induction l as [|x l IH]; intros [|[[a n] w] segs] Hs; try done.
  cbn [describes]. assert (Hx : d' !! x = d !! x) by (apply Hs, elem_of_cons; by left).
  destruct l as [|y l], segs as [|s segs]; try done; rewrite Hx; [done|].
  intros (H1 & H2). split; [done|]. apply IH; [|done]. intros z Hz. apply Hs, elem_of_cons. by right.
Qed.

(** Filling the first [length l] free descriptors. *)
Lemma add_direct_ok vq l ids rest :
  linked (desc (ring vq)) (ids ++ rest) -> NoDup (ids ++ rest) -> length ids = length l ->
  l <> [] -> Forall (fun p : sg_entry * Z => next_flag (snd p)) l ->
  (forall x, List.hd_error (ids ++ rest) = Some x -> free_head vq = Z.of_nat x) ->
  exists d' i,
    add_direct vq l (free_head vq)
    = Ret (upd_free (upd_ring vq (set_desc (ring vq) d')) i (num_free vq))
    /\ (forall x, List.hd_error rest = Some x -> i = Z.of_nat x)
    /\ length d' = length (desc (ring vq))
    /\ (forall x, x ∉ ids -> d' !! x = desc (ring vq) !! x)
    /\ describes d' ids (map (seg_of (dma_map vq)) l).
Proof.
  intros Hl Hnd Hlen Hne Hfl Hh. apply list.NoDup_app in Hnd as (Hnd & _ & _).
  destruct (fill_ok (dma_map vq) l (desc (ring vq)) ids rest (free_head vq) 0 Hlen Hl Hnd Hh)
    as (d' & i' & Hfill & Hs & Hi & Hf & H2).
  unfold add_direct. rewrite Hfill. run_bind.
  destruct (list.last ids) as [x|] eqn:Hlast.
  2:{ apply list.last_None in Hlast. subst ids. by destruct l. }
  assert (Hxin : x ∈ ids) by by apply list.last_Some_elem_of.
  assert (Hlk : linked d' ids) by (apply (linked_same (desc (ring vq))); [done|by destruct (linked_app _ _ _ Hl)]).
  destruct (linked_lookup _ _ _ Hlk Hxin) as (e & He).
  rewrite (aget_nat _ _ _ He). run_bind. rewrite aset_nat by by eapply lookup_lt_Some. run_bind.
  eexists _, i'. split; [done|]. split; [done|]. split; [|split].
  - rewrite length_insert. assert (Hx : forall n, is_Some (d' !! n) <-> is_Some (desc (ring vq) !! n)).
    { intros n. specialize (Hs n). destruct (d' !! n), (desc (ring vq) !! n); simpl in Hs; split; intros [? ?]; done || eauto. }
    apply Nat.le_antisymm; apply Nat.nlt_ge; intros Hlt.
    + apply lookup_lt_is_Some_2 in Hlt. apply Hx in Hlt as [? Hlt%lookup_lt_Some]. lia.
    + apply lookup_lt_is_Some_2 in Hlt. apply Hx in Hlt as [? Hlt%lookup_lt_Some]. lia.
  - intros y Hy. rewrite list_lookup_insert_ne by (intros <-; done). by apply Hf.
  - by apply filled_describes.
Qed.

(** Moving the first descriptors of the free list to a new chain. *)
Lemma inv_take vq vq' ids rest infl token :
  vq_inv vq (ids ++ rest) infl -> ids <> [] -> token <> 0 ->
  num (ring vq') = num (ring vq) -> zlen (desc (ring vq')) = num (ring vq) ->
  zlen (avail_ring (ring vq')) = zlen (avail_ring (ring vq)) ->
  zlen (used_ring (ring vq')) = zlen (used_ring (ring vq)) ->
  (forall x, x ∉ ids -> desc (ring vq') !! x = desc (ring vq) !! x) ->
  chained (desc (ring vq')) ids ->
  num_free vq' = Z.of_nat (length rest) ->
  (forall x, List.hd_error rest = Some x -> free_head vq' = Z.of_nat x) ->
  (forall x, List.hd_error ids = Some x -> data vq' = <[x := token]> (data vq)) ->
  vq_inv vq' rest ((ids, token) :: infl).
Proof.
  intros [Hnum Hd Ha Hu Hdt Hnd Hall Hfr Hnf Hh Hch Htk Ht0] Hne Ht Hn' Hd' Ha' Hu' Hfrm Hc Hnf' Hh' Hdata.
  pose proof Hnd as Hnd0. rewrite <- app_assoc in Hnd. apply list.NoDup_app in Hnd as (Hndi & Hdis & Hndr).
  destruct ids as [|h ids']; [done|]. set (ids := h :: ids') in *.
  specialize (Hdata h eq_refl).
  assert (Hh_in : Z.of_nat h < num (ring vq)) by (apply Hall, elem_of_app; left; simpl; by apply elem_of_cons; left).
  assert (Hlen : (h < length (data vq))%nat) by (unfold zlen in Hdt; lia).
  split; rewrite ?Hn'; try done; try congruence.
  - by rewrite Hdata, zlen_insert.
  - cbn [map concat fst]. rewrite app_assoc. apply list.NoDup_app.
    rewrite <- app_assoc in Hnd0. rewrite app_assoc in Hnd0.
    apply list.NoDup_app in Hnd0 as (H1 & H2 & H3). rewrite list.NoDup_app in H1.
    destruct H1 as (H1a & H1b & H1c). split; [|split; [|done]].
    + apply list.NoDup_app. split; [done|]. split; [|done]. intros x Hx Hi. by apply (H1b x).
    + intros x Hx. apply H2. rewrite elem_of_app in *. tauto.
  - intros x. rewrite Hall. cbn [map concat fst]. rewrite !elem_of_app. tauto.
  - apply (linked_frame (desc (ring vq))); [|by destruct (linked_app _ _ _ Hfr)].
    intros x Hx. apply Hfrm. intros Hi. apply (Hdis x Hi). apply elem_of_app. by left.
  - constructor; [done|]. apply List.Forall_forall. intros c Hc'.
    rewrite List.Forall_forall in Hch. apply (chained_frame (desc (ring vq))); [|by apply Hch].
    intros x Hx. apply Hfrm. intros Hi. apply (Hdis x Hi). apply elem_of_app. right.
    apply list_elem_of_In, in_concat. exists (fst c). split; [by apply in_map|by apply list_elem_of_In].
  - intros x t Htn. rewrite Hdata. destruct (decide (x = h)) as [->|Hx].
    + rewrite list_lookup_insert_eq by done. split.
      * intros [= <-]. exists ids'. apply elem_of_cons. by left.
      * intros (l & Hl). apply elem_of_cons in Hl as [Hl|Hl]; [by simplify_eq|].
        exfalso. apply (Hdis h); [apply elem_of_cons; by left|]. apply elem_of_app. right.
        apply list_elem_of_In, in_concat. exists (h :: l). split; [|by left].
        change (h :: l) with (fst (h :: l, t)). apply in_map. by apply list_elem_of_In.
    + rewrite list_lookup_insert_ne by done. rewrite Htk by done. split.
      * intros (l & Hl). exists l. apply elem_of_cons. by right.
      * intros (l & Hl). apply elem_of_cons in Hl as [Hl|Hl]; [by simplify_eq|]. by exists l.
  - by constructor.
Qed.

(** The queue after [expose]. *)
Definition exposed (vq : vring_virtqueue) (head : nat) (token : Z) : vring_virtqueue :=
  let v := ring vq in
  upd_added (upd_data (upd_ring vq
      (set_avail v (avail_flags v) (u16 (avail_idx v + 1))
         (<[Z.to_nat (avail_idx v mod num v) := Z.of_nat head]> (avail_ring v))))
    (<[head := token]> (data vq))) (u32 (num_added vq + 1)).

Lemma expose_ok vq k head token :
  0 <= k <= 15 -> num (ring vq) = 2 ^ k ->
  zlen (data vq) = num (ring vq) -> zlen (avail_ring (ring vq)) = num (ring vq) + 1 ->
  Z.of_nat head < num (ring vq) ->
  expose vq (Z.of_nat head) token = Ret (exposed vq head token).
Proof.
  intros Hk Hn Hd Ha Hh.
  assert (2 ^ k <= 2 ^ 15) by (apply Z.pow_le_mono_r; lia). change (2 ^ 15) with 32768 in *.
  assert (0 < 2 ^ k) by (apply Z.pow_pos_nonneg; lia).
  unfold expose, exposed. rewrite aset_nat by (unfold zlen in Hd; lia). run_bind.
  rewrite Hn at 1. rewrite land_mask by lia. rewrite <- Hn.
  pose proof (Z.mod_pos_bound (avail_idx (ring vq)) (num (ring vq)) ltac:(lia)).
  rewrite aset_ret by lia. run_bind. by rewrite (u16_small (Z.of_nat head)) by lia.
Qed.

(** The kick at the end of an addition touches neither the ring nor the
    bookkeeping of the descriptors. *)
Lemma kick_ring notify vq :
  let vq' := fst (vca_virtqueue_kick notify vq) in
  ring vq' = ring vq /\ data vq' = data vq /\ num_free vq' = num_free vq
  /\ free_head vq' = free_head vq /\ tables vq' = tables vq /\ last_used_idx vq' = last_used_idx vq.
Proof.
  unfold vca_virtqueue_kick, vca_virtqueue_kick_prepare, vca_virtqueue_notify.
  destruct (if event_ok _ then _ else _); [|done]. cbn [broken upd_added].
  destruct (broken vq); [done|]. by destruct notify.
Qed.

(** What a direct addition does, given that its DMA mapping succeeded. *)
Lemma add_direct_spec dma_map_single notify parent kmalloc vq free infl sgs sgs' es total out in_ token :
  vq_inv vq free infl -> broken vq = false -> token <> 0 ->
  indirect vq && (1 <? total) && negb (num_free vq =? 0) = false \/ kmalloc = None ->
  0 < total <= num_free vq ->
  (if dma_map vq then vring_map_sg dma_map_single parent sgs total out in_ else Ret (sgs, 0, []))
    = Ret (sgs', 0, es) ->
  Z.of_nat (length (sg_flags sgs' out)) = total ->
  let ids := take (Z.to_nat total) free in
  exists vq',
    virtqueue_add dma_map_single notify parent kmalloc vq sgs total out in_ token = Ret (vq', 0)
    /\ vq_inv vq' (drop (Z.to_nat total) free) ((ids, token) :: infl)
    /\ describes (desc (ring vq')) ids (map (seg_of (dma_map vq)) (sg_flags sgs' out))
    /\ (forall x, x ∉ ids -> desc (ring vq') !! x = desc (ring vq) !! x)
    /\ avail_idx (ring vq') = u16 (avail_idx (ring vq) + 1)
    /\ avail_ring (ring vq')
       = <[Z.to_nat (avail_idx (ring vq) mod num (ring vq)) := free_head vq]> (avail_ring (ring vq))
    /\ tables vq' = tables vq
    /\ num (ring vq') = num (ring vq) /\ used_idx (ring vq') = used_idx (ring vq)
    /\ last_used_idx vq' = last_used_idx vq
    /\ (u32 (num_added vq + 1) <> 65535 -> broken vq' = false).
Proof.
  intros Hi Hb Ht Hind Htot Hmap Hlen ids. pose proof (num_pos _ _ _ Hi) as Hnum.
  set (rest := drop (Z.to_nat total) free).
  assert (Hfree : free = ids ++ rest) by (symmetry; apply take_drop).
  pose proof (vi_nfree _ _ _ Hi) as Hnf.
  assert (Hidl : length ids = length (sg_flags sgs' out)) by (unfold ids; rewrite length_take; lia).
  assert (Hall : num_free vq <= num (ring vq)).
  { pose proof (vi_nodup _ _ _ Hi) as (Hnd & _ & _)%list.NoDup_app.
    rewrite Hnf. rewrite <- (Z.max_r 0 (num (ring vq))) by lia. apply (nodup_bound free _ Hnd). intros x Hx. apply (vi_all _ _ _ Hi). apply elem_of_app. by left. }
  unfold virtqueue_add. rewrite (proj2 (Z.eqb_neq token 0)) by done. simpl bug_on. run_bind. rewrite Hb.
  rewrite (proj2 (Z.ltb_ge (num (ring vq)) total)) by lia. simpl bug_on. run_bind.
  rewrite (proj2 (Z.eqb_neq total 0)) by lia. simpl bug_on. run_bind.
  assert ((if indirect vq && (1 <? total) && negb (num_free vq =? 0)
           then alloc_indirect total kmalloc else None) = None) as ->.
  { destruct Hind as [-> | ->]; [done|]. by destruct (_ && _). }
  run_bind. rewrite (proj2 (Z.ltb_ge (num_free vq) total)) by lia. rewrite Hmap. run_bind. simpl negb. cbn iota.
  set (vq0 := upd_free (upd_log vq es) _ _).
  destruct (add_direct_ok vq0 (sg_flags sgs' out) ids rest) as (d' & i & Hadd & Hih & Hdl & Hfr & Hds).
  - simpl. rewrite <- Hfree. exact (vi_free _ _ _ Hi).
  - rewrite <- Hfree. by pose proof (vi_nodup _ _ _ Hi) as (Hnd & _ & _)%list.NoDup_app.
  - done.
  - destruct (sg_flags sgs' out); simpl in Hlen; [lia|done].
  - apply sg_flags_next.
  - simpl. rewrite <- Hfree. exact (vi_head _ _ _ Hi).
  - change (free_head vq0) with (free_head vq) in Hadd. rewrite Hadd. run_bind.
    destruct ids as [|h ids'] eqn:Hids; [simpl in Hidl; lia|]. rewrite <- Hids in *.
    assert (Hhd : free_head vq = Z.of_nat h) by (apply (vi_head _ _ _ Hi); by rewrite Hfree, Hids).
    rewrite Hhd. set (vq1 := upd_free (upd_ring vq0 _) i _).
    destruct (vi_num _ _ _ Hi) as (k & Hk & Hnk).
    assert (Hh_in : Z.of_nat h < num (ring vq)).
    { apply (vi_all _ _ _ Hi), elem_of_app. left. rewrite Hfree, Hids. simpl. by apply elem_of_cons; left. }
    rewrite (expose_ok vq1 k h token Hk Hnk (vi_data _ _ _ Hi) (vi_avail _ _ _ Hi) Hh_in). run_bind.
    set (vq2 := exposed vq1 h token).
    assert (Hinv : vq_inv vq2 rest ((ids, token) :: infl)).
    { apply (inv_take vq); [by rewrite <- Hfree|by rewrite Hids|done|done| | |done|exact Hfr| | |exact Hih|].
      - simpl. unfold zlen. rewrite Hdl. exact (vi_desc _ _ _ Hi).
      - simpl. by rewrite zlen_insert.
      - by eapply describes_chained.
      - simpl. unfold rest. rewrite length_drop. lia.
      - intros x Hx. rewrite Hids in Hx. injection Hx as <-. done. }
    destruct (Z.eqb_spec (num_added vq2) 65535) as [Hna|Hna].
    + destruct (kick_ring notify vq2) as (Hr & Hdt & Hn & Hh & Htb & Hlu).
      eexists. split; [done|]. rewrite Hr. split; [apply (vq_inv_ext vq2); rewrite ?Hr; done|].
      rewrite Htb, Hlu. done.
    + eexists. split; [done|]. done.
Qed.

(** ** Giving descriptors back *)

Lemma upd_log_log vq a b : upd_log (upd_log vq a) b = upd_log vq (b ++ a).
Proof. unfold upd_log. simpl. by rewrite app_assoc. Qed.

(** Walking to the end of a chain. *)
Lemma detach_loop_ok l : forall x vq fuel,
  chained (desc (ring vq)) (x :: l) -> (length l < fuel)%nat ->
  exists es y,
    detach_loop fuel vq (Z.of_nat x)
    = Ret (upd_log (upd_free vq (free_head vq) (num_free vq + Z.of_nat (length l))) es, Z.of_nat y)
    /\ list.last (x :: l) = Some y.
Proof.
  induction l as [|z l IH]; intros x vq fuel (e & He & Hc) Hf;
    (destruct fuel as [|fuel]; [simpl in Hf; lia|]); cbn [detach_loop];
    rewrite (aget_nat _ _ _ He); run_bind.
  - rewrite Hc. exists [], x. split; [|done]. do 2 f_equal. unfold upd_log, upd_free. simpl.
    destruct vq; simpl. f_equal. lia.
  - destruct Hc as (Hfl & Hn & Hc). rewrite Hfl, Hn.
    set (vq1 := if dma_map vq then _ else vq).
    assert (Hv1 : exists e1, vq1 = upd_log vq e1).
    { unfold vq1. destruct (dma_map vq); [by eexists|]. exists []. by destruct vq. }
    destruct Hv1 as (e1 & ->). simpl in Hf.
    destruct (IH z (upd_free (upd_log vq e1) (free_head vq) (num_free vq + 1)) fuel)
      as (es & y & Heq & Hl); [exact Hc|lia|].
    exists (es ++ e1), y. split; [|done]. cbn [free_head num_free upd_log] in *. rewrite Heq.
    do 2 f_equal. unfold upd_log, upd_free. simpl. f_equal; [lia|]. by rewrite app_assoc.
Qed.

(** A chain and the free list, joined. *)
Lemma chain_joins d ids y e free v :
  chained d ids -> list.last ids = Some y -> d !! y = Some e -> NoDup (ids ++ free) ->
  linked d free -> (forall x, List.hd_error free = Some x -> v = Z.of_nat x) ->
  linked (<[y := mkDesc (addr e) (len e) (flags e) v]> d) (ids ++ free).
Proof.
  intros Hc Hl He Hnd Hf Hv. set (d' := <[y := _]> d).
  assert (Hyin : y ∈ ids) by by apply list.last_Some_elem_of.
  assert (Hd' : forall x, x <> y -> d' !! x = d !! x) by (intros; by apply list_lookup_insert_ne).
  assert (Hfr' : linked d' free).
  { apply (linked_frame d); [|done]. intros x Hx. apply Hd'. intros ->.
    apply list.NoDup_app in Hnd as (_ & Hdis & _). by apply (Hdis y). }
  assert (Hy : d' !! y = Some (mkDesc (addr e) (len e) (flags e) v)).
  { apply list_lookup_insert_eq. by eapply lookup_lt_Some. }
  clear Hf He. revert Hc Hl Hnd. clear Hyin. induction ids as [|x ids IH]; [done|].
  intros (ex & Hex & Hc) Hl Hnd. destruct ids as [|z ids].
  - simpl in Hl. injection Hl as ->. simpl. split; [|done]. eexists. split; [exact Hy|].
    destruct free as [|w free]; [done|]. simpl. by apply Hv.
  - change (list.last (x :: z :: ids)) with (list.last (z :: ids)) in Hl.
    assert (x <> y).
    { intros ->. apply list.NoDup_app in Hnd as ([Hn _]%list.NoDup_cons & _ & _). apply Hn.
      by apply list.last_Some_elem_of. }
    destruct Hc as (_ & Hn & Hc). simpl app in *. apply list.NoDup_cons in Hnd as [_ Hnd].
    split; [|by apply IH]. exists ex. split; [by rewrite Hd'|done].
Qed.

(** Descriptors of other chains and of the free list are not in [ids]. *)
Lemma inv_disjoint vq free l1 ids t l2 x :
  vq_inv vq free (l1 ++ (ids, t) :: l2) -> x ∈ ids ->
  (x ∉ free) /\ x ∉ concat (map fst (l1 ++ l2)).
Proof.
  intros Hi Hx. pose proof (vi_nodup _ _ _ Hi) as Hnd.
  rewrite map_app in *. cbn [map fst] in Hnd. rewrite !concat_app in *. cbn [concat] in Hnd.
  rewrite !list.NoDup_app in Hnd. rewrite !elem_of_app.
  destruct Hnd as (_ & Hdf & _ & Hd1 & _ & Hd2 & _).
  split.
  - intros Hf. apply (Hdf x Hf). rewrite !elem_of_app. tauto.
  - intros [Hf|Hf].
    + apply (Hd1 x Hf). rewrite elem_of_app. tauto.
    + by apply (Hd2 x Hx).
Qed.

(** Moving a chain to the front of the free list. *)
Lemma inv_give vq vq' free l1 h ids' t l2 d :
  let ids := h :: ids' in
  vq_inv vq free (l1 ++ (ids, t) :: l2) ->
  num (ring vq') = num (ring vq) -> desc (ring vq') = d -> length d = length (desc (ring vq)) ->
  zlen (avail_ring (ring vq')) = zlen (avail_ring (ring vq)) ->
  zlen (used_ring (ring vq')) = zlen (used_ring (ring vq)) ->
  (forall x, x ∉ ids -> d !! x = desc (ring vq) !! x) ->
  linked d (ids ++ free) -> num_free vq' = num_free vq + Z.of_nat (length ids) ->
  free_head vq' = Z.of_nat h -> data vq' = <[h := 0]> (data vq) ->
  vq_inv vq' (ids ++ free) (l1 ++ l2).
Proof.
  intros ids Hi Hn Hd Hdl Ha Hu Hfr Hl Hnf Hfh Hdt.
  pose proof (fun x => inv_disjoint _ _ _ _ _ _ x Hi) as Hdis.
  assert (Hperm : free ++ concat (map fst (l1 ++ (ids, t) :: l2))
                  ≡ₚ (ids ++ free) ++ concat (map fst (l1 ++ l2))).
  { rewrite !map_app, !concat_app. cbn [map concat fst]. solve_Permutation. }
  destruct Hi as [Hnum Hdd Haa Huu Hdtl Hnd Hall Hf Hnf0 Hh0 Hch Htk Ht0].
  assert (Hhin : Z.of_nat h < num (ring vq)).
  { apply Hall. rewrite Hperm, !elem_of_app. left. left. by apply elem_of_cons; left. }
  assert (Hhl : (h < length (data vq))%nat) by (unfold zlen in Hdtl; lia).
  split; rewrite ?Hn, ?Hd; try done; try congruence.
  - unfold zlen in *. lia.
  - by rewrite Hdt, zlen_insert.
  - by rewrite <- Hperm.
  - intros x. by rewrite Hall, Hperm.
  - rewrite Hnf, Hnf0, length_app. lia.
  - intros x Hx. injection Hx as <-. done.
  - apply Forall_app. apply Forall_app in Hch as [Hc1 [_ Hc2]%Forall_cons_iff].
    assert (Hc : Forall (fun c => chained (desc (ring vq)) c.1) (l1 ++ l2)) by by apply Forall_app.
    apply Forall_app. apply List.Forall_forall. intros c Hc'. rewrite List.Forall_forall in Hc.
    apply (chained_frame (desc (ring vq))); [|by apply Hc]. intros x Hx. apply Hfr. intros Hin.
    destruct (Hdis x Hin) as (_ & Hno). apply Hno, list_elem_of_In, in_concat. exists c.1.
    split; [by apply in_map|by apply list_elem_of_In].
  - intros x t' Ht'. rewrite Hdt. destruct (decide (x = h)) as [->|Hx].
    + rewrite list_lookup_insert_eq by done. split; [congruence|]. intros (l & Hin).
      destruct (Hdis h) as (_ & Hno); [apply elem_of_cons; by left|]. exfalso. apply Hno.
      apply list_elem_of_In, in_concat. exists (h :: l). split; [|by left].
      change (h :: l) with ((h :: l, t').1). apply in_map. by apply list_elem_of_In.
    + rewrite list_lookup_insert_ne by done. rewrite Htk by done.
      split; intros (l & Hin); exists l; rewrite elem_of_app in *; rewrite ?elem_of_cons in *.
      * destruct Hin as [?|[Heq|?]]; [by left| |by right]. exfalso. apply Hx. unfold ids in Heq. congruence.
      * tauto.
  - apply Forall_app in Ht0 as [? [_ ?]%Forall_cons_iff]. by apply Forall_app.
Qed.

(** [detach_buf] on the head of a buffer in flight. *)
Lemma detach_ok vq free l1 h ids' t l2 :
  let ids := h :: ids' in
  vq_inv vq free (l1 ++ (ids, t) :: l2) ->
  exists vq', detach_buf vq (Z.of_nat h) = Ret vq'
    /\ vq_inv vq' (ids ++ free) (l1 ++ l2)
    /\ (exists d, ring vq' = set_desc (ring vq) d
         /\ forall x, x ∉ ids -> d !! x = desc (ring vq) !! x)
    /\ last_used_idx vq' = last_used_idx vq /\ broken vq' = broken vq
    /\ num_added vq' = num_added vq.
Proof.
  intros ids Hi. pose proof (num_pos _ _ _ Hi) as Hnum.
  pose proof Hi as [_ Hdl _ _ Hdtl Hnd Hall Hf Hnf Hh Hch Htk Ht0].
  apply Forall_app in Hch as [_ [Hc _]%Forall_cons_iff]. cbn [fst] in Hc.
  assert (Hsub : forall x, x ∈ ids -> Z.of_nat x < num (ring vq)).
  { intros x Hx. apply Hall, elem_of_app. right. rewrite map_app, concat_app, elem_of_app. right.
    cbn [map concat fst]. rewrite elem_of_app. by left. }
  assert (Hndi : NoDup (ids ++ free)).
  { rewrite map_app, concat_app in Hnd. cbn [map concat fst] in Hnd.
    rewrite !list.NoDup_app in Hnd. destruct Hnd as (H1 & H2 & _ & _ & H3 & _ & _).
    apply list.NoDup_app. split; [done|]. split; [|done]. intros x Hx Hxf. apply (H2 x Hxf).
    rewrite !elem_of_app. tauto. }
  assert (Hidl : (length ids <= Z.to_nat (num (ring vq)))%nat).
  { apply list.NoDup_app in Hndi as (Hn1 & _ & _). pose proof (nodup_bound ids _ Hn1 Hsub). lia. }
  assert (Hhl : (h < length (data vq))%nat).
  { specialize (Hsub h ltac:(by apply elem_of_cons; left)). unfold zlen in Hdtl. lia. }
  unfold detach_buf. rewrite aset_nat by done. run_bind.
  destruct (chained_lookup _ _ h Hc ltac:(by apply elem_of_cons; left)) as (eh & Heh).
  cbn [ring upd_data]. rewrite (aget_nat _ _ _ Heh). run_bind.
  set (vq1 := if testflag (flags eh) VRING_DESC_F_INDIRECT then _ else _).
  assert (Hv1 : exists tb, vq1 = upd_tables (upd_data vq (<[h := 0]> (data vq))) tb).
  { unfold vq1. destruct (testflag _ _); [by eexists|]. exists (tables vq). done. }
  destruct Hv1 as (tb & ->).
  destruct (detach_loop_ok ids' h (upd_tables (upd_data vq (<[h := 0]> (data vq))) tb)
              (Z.to_nat (num (ring vq)))) as (es & y & Hloop & Hlast); [exact Hc|simpl in Hidl; lia|].
  cbn [ring upd_tables upd_data]. rewrite Hloop. run_bind. cbn [ring upd_log upd_free upd_tables upd_data].
  assert (Hyin : y ∈ ids) by by apply list.last_Some_elem_of.
  destruct (chained_lookup _ _ y Hc Hyin) as (ey & Hey).
  rewrite (aget_nat _ _ _ Hey). run_bind.
  rewrite aset_nat by by eapply lookup_lt_Some. run_bind.
  cbn [free_head upd_log upd_free upd_tables upd_data].
  set (d := <[y := _]> (desc (ring vq))).
  assert (Hfr : forall x, x ∉ ids -> d !! x = desc (ring vq) !! x).
  { intros x Hx. apply list_lookup_insert_ne. by intros ->. }
  assert (Hjoin : linked d (ids ++ free)).
  { apply chain_joins; [done|done|done|done|done|]. intros x Hx. rewrite (Hh x Hx).
    apply u16_small. enough (Z.of_nat x < num (ring vq)) by lia.
    apply Hall, elem_of_app. left. destruct free; [done|]. simpl in Hx. injection Hx as ->.
    by apply elem_of_cons; left. }
  eexists. split; [done|].
  assert (Hgo : forall q : vring_virtqueue, ring q = set_desc (ring vq) d ->
    num_free q = num_free vq + Z.of_nat (length ids) -> free_head q = Z.of_nat h ->
    data q = <[h := 0]> (data vq) -> vq_inv q (ids ++ free) (l1 ++ l2)).
  { intros q Hr Hq1 Hq2 Hq3. apply (inv_give vq q free l1 h ids' t l2 d Hi); rewrite ?Hr; try done.
    unfold d. by rewrite length_insert. }
  cbn [dma_map upd_log upd_free upd_ring upd_tables upd_data].
  destruct (dma_map vq); (split; [apply Hgo; [done| |done|done]; simpl; lia|]);
    (split; [by exists d|done]).
Qed.

(** The buffer in flight whose token is stored at [x]. *)
Lemma token_chain vq free infl x t :
  vq_inv vq free infl -> data vq !! x = Some t -> t <> 0 ->
  exists l1 ids' l2, infl = l1 ++ (x :: ids', t) :: l2.
Proof.
  intros Hi Hx Ht. apply (vi_tokens _ _ _ Hi) in Hx as (ids & Hin); [|done].
  apply list_elem_of_In, in_split in Hin as (l1 & l2 & ->). eauto.
Qed.

Lemma used_event_ok vq free infl x :
  vq_inv vq free infl ->
  exists ar, vring_used_event_set (ring vq) x
             = Ret (set_avail (ring vq) (avail_flags (ring vq)) (avail_idx (ring vq)) ar)
    /\ ar = <[Z.to_nat (num (ring vq)) := x]> (avail_ring (ring vq))
    /\ zlen ar = zlen (avail_ring (ring vq)).
Proof.
  intros Hi. pose proof (num_pos _ _ _ Hi). unfold vring_used_event_set.
  rewrite aset_ret by (rewrite (vi_avail _ _ _ Hi); lia). run_bind. eexists. split; [done|].
  split; [done|]. by rewrite zlen_insert.
Qed.

(** ** Properties *)

(** C23. Adding a buffer with direct descriptors (its DMA mapping, if any, having
    succeeded) to a queue with enough free descriptors returns 0 and keeps the
    invariant: the first free descriptors become the chain of the buffer, which
    describes exactly the entries of the scatter lists, in order, readable ones
    and writable ones; no other descriptor changes, and the head is published in
    the next slot of the available ring. *)
Theorem virtqueue_add_correct dma_map_single notify parent kmalloc vq free infl sgs sgs' es total out in_ token :
  vq_inv vq free infl -> broken vq = false -> token <> 0 ->
  indirect vq && (1 <? total) && negb (num_free vq =? 0) = false \/ kmalloc = None ->
  0 < total <= num_free vq ->
  (if dma_map vq then vring_map_sg dma_map_single parent sgs total out in_ else Ret (sgs, 0, []))
    = Ret (sgs', 0, es) ->
  Z.of_nat (length (sg_flags sgs' out)) = total ->
  let ids := take (Z.to_nat total) free in
  exists vq',
    virtqueue_add dma_map_single notify parent kmalloc vq sgs total out in_ token = Ret (vq', 0)
    /\ vq_inv vq' (drop (Z.to_nat total) free) ((ids, token) :: infl)
    /\ describes (desc (ring vq')) ids (map (seg_of (dma_map vq)) (sg_flags sgs' out))
    /\ (forall x, x ∉ ids -> desc (ring vq') !! x = desc (ring vq) !! x)
    /\ avail_idx (ring vq') = u16 (avail_idx (ring vq) + 1)
    /\ avail_ring (ring vq')
       = <[Z.to_nat (avail_idx (ring vq) mod num (ring vq)) := free_head vq]> (avail_ring (ring vq)).
Proof.
  intros Hi Hb Ht Hk Htot Hm Hl ids.
  destruct (add_direct_spec dma_map_single notify parent kmalloc vq free infl sgs sgs' es total out in_
              token Hi Hb Ht Hk Htot Hm Hl) as (vq' & ? & ? & ? & ? & ? & ? & _).
  exists vq'. by split_and!.
Qed.

(** An addition to a broken queue returns [-EIO]; one that needs more
    descriptors than are free returns [-ENOSPC] and notifies the device when
    there is something to read; in both cases ring and free list do not change. *)
Theorem virtqueue_add_errors dma_map_single notify parent kmalloc vq free infl sgs total out in_ token :
  vq_inv vq free infl -> token <> 0 -> 0 < total <= num (ring vq) ->
  (broken vq = true ->
   virtqueue_add dma_map_single notify parent kmalloc vq sgs total out in_ token = Ret (vq, - EIO))
  /\ (broken vq = false -> num_free vq < total -> indirect vq = false \/ num_free vq = 0 \/ kmalloc = None ->
      virtqueue_add dma_map_single notify parent kmalloc vq sgs total out in_ token
      = Ret (if (0 <? out)%nat then upd_log vq [EvNotify] else vq, - ENOSPC)).
Proof.
  intros Hi Ht Htot. unfold virtqueue_add. rewrite (proj2 (Z.eqb_neq token 0)) by done.
  simpl bug_on. run_bind. split; [by intros ->|]. intros -> Hlt Hno.
  rewrite (proj2 (Z.ltb_ge (num (ring vq)) total)) by lia. simpl bug_on. run_bind.
  rewrite (proj2 (Z.eqb_neq total 0)) by lia. simpl bug_on. run_bind.
  assert ((if indirect vq && (1 <? total) && negb (num_free vq =? 0)
           then alloc_indirect total kmalloc else None) = None) as ->.
  { destruct Hno as [-> | [-> | ->]]; [done| |by destruct (_ && _)].
    by rewrite andb_false_r. }
  run_bind. by rewrite (proj2 (Z.ltb_lt (num_free vq) total)) by lia.
Qed.

(** The driver takes back the buffer whose head the next used entry names. *)
Lemma get_buf_entry vq free l1 h ids' t l2 u :
  vq_inv vq free (l1 ++ (h :: ids', t) :: l2) -> broken vq = false -> more_used vq = true ->
  used_ring (ring vq) !! Z.to_nat (last_used_idx vq mod num (ring vq)) = Some u -> ue_id u = Z.of_nat h ->
  exists vq', vca_virtqueue_get_buf vq = Ret (vq', Some (t, ue_len u))
    /\ vq_inv vq' ((h :: ids') ++ free) (l1 ++ l2)
    /\ last_used_idx vq' = u16 (last_used_idx vq + 1) /\ avail_idx (ring vq') = avail_idx (ring vq)
    /\ forall x, x ∉ h :: ids' -> desc (ring vq') !! x = desc (ring vq) !! x.
Proof.
  intros Hi Hb Hm Hlu Hid. pose proof (num_pos _ _ _ Hi) as Hnum.
  assert (Hin : (h :: ids', t) ∈ l1 ++ (h :: ids', t) :: l2) by (apply elem_of_app; right; by apply elem_of_cons; left).
  assert (Ht : t <> 0).
  { pose proof (vi_token0 _ _ _ Hi) as H0. rewrite List.Forall_forall in H0.
    by apply (H0 (h :: ids', t)), list_elem_of_In. }
  assert (Hd : data vq !! h = Some t) by (apply (vi_tokens _ _ _ Hi); [done|by exists ids']).
  assert (Hh : Z.of_nat h < num (ring vq)).
  { pose proof (vi_data _ _ _ Hi) as Hdl. apply lookup_lt_Some in Hd. unfold zlen in Hdl. lia. }
  unfold vca_virtqueue_get_buf. rewrite Hb, Hm. cbn [negb]. rewrite (ring_mask _ _ _ _ Hi).
  rewrite (aget_ret _ _ _ (proj1 (Z.mod_pos_bound _ _ (proj1 Hnum))) Hlu). run_bind. rewrite Hid.
  rewrite (proj2 (Z.leb_gt (num (ring vq)) (Z.of_nat h))) by lia.
  rewrite (aget_nat _ _ _ Hd). run_bind. rewrite (proj2 (Z.eqb_neq _ _) Ht).
  destruct (detach_ok vq free l1 h ids' t l2 Hi) as (vq1 & -> & Hi1 & (d & Hr & Hfr) & Hlu1 & _). run_bind.
  set (vq2 := upd_used vq1 _).
  assert (Hi2 : vq_inv vq2 ((h :: ids') ++ free) (l1 ++ l2)) by by apply (vq_inv_ext vq1).
  assert (Hl2 : last_used_idx vq2 = u16 (last_used_idx vq + 1)) by (simpl; by rewrite Hlu1).
  assert (Ha2 : avail_idx (ring vq2) = avail_idx (ring vq)) by (simpl; by rewrite Hr).
  assert (Hd2 : forall x, x ∉ h :: ids' -> desc (ring vq2) !! x = desc (ring vq) !! x)
    by (intros x Hx; simpl; rewrite Hr; by apply Hfr).
  destruct (negb _).
  - destruct (used_event_ok vq2 _ _ (last_used_idx vq2) Hi2) as (ar & -> & _ & Har). run_bind.
    eexists. split; [done|]. split; [by apply (vq_inv_ext vq2)|]. done.
  - exists vq2. done.
Qed.

(** A used entry that names no buffer in flight breaks the queue. *)
Lemma get_buf_bad vq free infl u :
  vq_inv vq free infl -> broken vq = false -> more_used vq = true -> 0 <= ue_id u ->
  used_ring (ring vq) !! Z.to_nat (last_used_idx vq mod num (ring vq)) = Some u ->
  (forall c, c ∈ infl -> Some (ue_id u) <> (Z.of_nat <$> List.hd_error (fst c))) ->
  vca_virtqueue_get_buf vq = Ret (upd_broken vq true, None).
Proof.
  intros Hi Hb Hm Hid Hlu Hno. pose proof (num_pos _ _ _ Hi) as Hnum.
  unfold vca_virtqueue_get_buf. rewrite Hb, Hm. cbn [negb]. rewrite (ring_mask _ _ _ _ Hi).
  rewrite (aget_ret _ _ _ (proj1 (Z.mod_pos_bound _ _ (proj1 Hnum))) Hlu). run_bind.
  destruct (Z.leb_spec (num (ring vq)) (ue_id u)) as [Hbig|Hsmall]; [done|].
  destruct (aget_total (data vq) (ue_id u)) as (tok & -> & Hlt).
  { rewrite (vi_data _ _ _ Hi). lia. }
  run_bind. destruct (Z.eqb_spec tok 0) as [->|Htok]; [done|].
  destruct (token_chain _ _ _ _ _ Hi Hlt Htok) as (l1 & ids' & l2 & ->).
  exfalso. apply (Hno (Z.to_nat (ue_id u) :: ids', tok)); [apply elem_of_app; right; by apply elem_of_cons; left|].
  simpl. by rewrite Z2Nat.id.
Qed.

(** C8. Whatever the device writes to the used ring, [vca_virtqueue_get_buf]
    returns.  It gives back the token of a buffer in flight, whose chain goes
    to the free list while every other buffer keeps its descriptors; or it gives
    nothing, the ring stays as it was, and the queue is marked broken exactly
    when the used entry names no buffer in flight. *)
Theorem virtqueue_get_buf_correct vq free infl :
  vq_inv vq free infl -> Forall (fun u => 0 <= ue_id u) (used_ring (ring vq)) ->
  exists vq' r, vca_virtqueue_get_buf vq = Ret (vq', r)
    /\ match r with
       | Some (token, n) =>
           exists l1 h ids' l2 u,
             infl = l1 ++ (h :: ids', token) :: l2
             /\ used_ring (ring vq) !! Z.to_nat (last_used_idx vq mod num (ring vq)) = Some u
             /\ ue_id u = Z.of_nat h /\ ue_len u = n
             /\ vq_inv vq' ((h :: ids') ++ free) (l1 ++ l2)
             /\ last_used_idx vq' = u16 (last_used_idx vq + 1)
             /\ forall x, x ∉ h :: ids' -> desc (ring vq') !! x = desc (ring vq) !! x
       | None => vq_inv vq' free infl /\ ring vq' = ring vq /\ last_used_idx vq' = last_used_idx vq
                 /\ (broken vq' = true <-> broken vq = true
                     \/ (more_used vq = true /\ forall u,
                           used_ring (ring vq) !! Z.to_nat (last_used_idx vq mod num (ring vq)) = Some u ->
                           forall c, c ∈ infl -> Some (ue_id u) <> (Z.of_nat <$> List.hd_error (fst c))))
       end.
Proof.
  intros Hi Hu. pose proof (num_pos _ _ _ Hi) as Hnum.
  destruct (broken vq) eqn:Hb.
  { exists vq, None. unfold vca_virtqueue_get_buf. rewrite Hb. intuition. }
  destruct (more_used vq) eqn:Hm.
  2:{ exists vq, None. unfold vca_virtqueue_get_buf. rewrite Hb, Hm. intuition congruence. }
  pose proof (Z.mod_pos_bound (last_used_idx vq) (num (ring vq)) ltac:(lia)) as Hmod.
  destruct (aget_total (used_ring (ring vq)) (last_used_idx vq mod num (ring vq))) as (u & _ & Hlu).
  { rewrite (vi_used _ _ _ Hi). lia. }
  assert (Hid : 0 <= ue_id u) by (rewrite List.Forall_forall in Hu; by apply Hu, list_elem_of_In, (list_elem_of_lookup_2 _ _ _ Hlu)).
  destruct (decide (Exists (fun c => Some (ue_id u) = (Z.of_nat <$> List.hd_error (fst c))) infl)) as [Hc|Hc];
    rewrite list.Exists_exists in Hc.
  - destruct Hc as ([[|h ids'] t] & Hin & Heq); [done|]. simpl in Heq. injection Heq as Heq.
    apply list_elem_of_In, in_split in Hin as (l1 & l2 & ->).
    destruct (get_buf_entry vq free l1 h ids' t l2 u) as (vq' & -> & Hi' & Hl' & _ & Hd'); try done.
    exists vq', (Some (t, ue_len u)). split; [done|]. by exists l1, h, ids', l2, u.
  - exists (upd_broken vq true), None. split.
    + apply (get_buf_bad vq free infl u); try done. intros c Hin Heq. apply Hc. by exists c.
    + split; [by apply (vq_inv_ext vq)|]. split; [done|]. split; [done|]. split; [|done]. intros _. right.
      split; [done|]. intros u0 Hu0 c Hin Heq. rewrite Hlu in Hu0. simplify_eq. apply Hc. by exists c.
Qed.

(** A new indirect table is a list of its descriptors in order. *)
Lemma table_linked n m : Z.of_nat (n + m) <= 65535 ->
  linked (map (fun i => mkDesc 0 0 0 (u16 (Z.of_nat i + 1))) (seq 0 (n + m))) (seq n m).
Proof.
  revert n. induction m as [|m IH]; intros n Hn; [done|]. cbn [seq linked]. split.
  - exists (mkDesc 0 0 0 (u16 (Z.of_nat n + 1))). split.
    + change (map ?f ?l) with (f <$> l). rewrite list_lookup_fmap, lookup_seq_lt by lia. simpl. done.
    + destruct m as [|m]; [done|]. cbn [seq next]. rewrite u16_small by lia. lia.
  - replace (n + S m)%nat with (S n + m)%nat by lia. apply IH. lia.
Qed.

Lemma fill_table dma l :
  l <> [] -> Z.of_nat (length l) <= 65535 -> Forall (fun p : sg_entry * Z => next_flag (snd p)) l ->
  exists t i prev e,
    fill (map (fun i => mkDesc 0 0 0 (u16 (Z.of_nat i + 1))) (seq 0 (length l))) 0 0 dma l
    = Ret (t, i, Z.of_nat prev)
    /\ t !! prev = Some e
    /\ describes (<[prev := mkDesc (addr e) (len e) (Z.land (flags e) (Z.lnot VRING_DESC_F_NEXT)) (next e)]> t)
         (seq 0 (length l)) (map (seg_of dma) l).
Proof.
  intros Hne Hlen Hfl. pose proof (table_linked 0 (length l) ltac:(lia)) as Hl. simpl plus in Hl.
  set (t0 := map _ _) in *.
  destruct (fill_ok dma l t0 (seq 0 (length l)) [] 0 0) as (t & i & Hf & Hs & _ & _ & H2).
  - by rewrite length_seq.
  - by rewrite app_nil_r.
  - apply NoDup_seq.
  - intros x Hx. rewrite app_nil_r in Hx. destruct (length l); [done|]. simpl in Hx. by injection Hx as <-.
  - destruct (list.last (seq 0 (length l))) as [y|] eqn:Hlast.
    2:{ apply list.last_None in Hlast. destruct l; done. }
    assert (Hlk : linked t (seq 0 (length l))) by by apply (linked_same t0).
    destruct (linked_lookup _ _ y Hlk ltac:(by apply list.last_Some_elem_of)) as (e & He).
    exists t, i, y, e. split; [done|]. split; [done|].
    apply filled_describes; [done|done|apply NoDup_seq|done|done|done].
Qed.

(** With indirect descriptors, a buffer of several entries takes one free
    descriptor, which points to a new table; the table describes exactly the
    entries of the scatter lists, and the invariant is kept. *)
Theorem virtqueue_add_indirect_correct dma_map_single notify parent a vq h rest infl sgs total out in_ token :
  vq_inv vq (h :: rest) infl -> broken vq = false -> token <> 0 -> indirect vq = true ->
  dma_map vq = false -> 1 < total <= num (ring vq) ->
  Z.of_nat (length (sg_flags sgs out)) = total ->
  exists vq' nx t,
    virtqueue_add dma_map_single notify parent (Some a) vq sgs total out in_ token = Ret (vq', 0)
    /\ vq_inv vq' rest (([h], token) :: infl)
    /\ desc (ring vq') !! h = Some (mkDesc a (16 * total) VRING_DESC_F_INDIRECT nx)
    /\ tables vq' !! a = Some t
    /\ describes t (seq 0 (Z.to_nat total)) (map (seg_of false) (sg_flags sgs out))
    /\ (forall x, x <> h -> desc (ring vq') !! x = desc (ring vq) !! x)
    /\ avail_idx (ring vq') = u16 (avail_idx (ring vq) + 1)
    /\ avail_ring (ring vq')
       = <[Z.to_nat (avail_idx (ring vq) mod num (ring vq)) := Z.of_nat h]> (avail_ring (ring vq)).
Proof.
  intros Hi Hb Ht Hind Hdma Htot Hlen. pose proof (num_pos _ _ _ Hi) as Hnum.
  pose proof (vi_nfree _ _ _ Hi) as Hnf. simpl in Hnf.
  pose proof (vi_head _ _ _ Hi h eq_refl) as Hhd.
  destruct (vi_free _ _ _ Hi) as ((e & He & Hn) & Hl).
  unfold virtqueue_add. rewrite (proj2 (Z.eqb_neq token 0)) by done. simpl bug_on. run_bind. rewrite Hb.
  rewrite (proj2 (Z.ltb_ge (num (ring vq)) total)) by lia. simpl bug_on. run_bind.
  rewrite (proj2 (Z.eqb_neq total 0)) by lia. simpl bug_on. run_bind.
  rewrite Hind, (proj2 (Z.ltb_lt 1 total)), (proj2 (Z.eqb_neq (num_free vq) 0)) by lia.
  cbn [andb negb alloc_indirect]. rewrite Hhd, (aget_nat _ _ _ He). run_bind.
  rewrite aset_nat by by eapply lookup_lt_Some. run_bind.
  cbn [num_free upd_tables upd_ring dma_map]. rewrite (proj2 (Z.ltb_ge (num_free vq) 1)) by lia.
  rewrite Hdma. run_bind. simpl (negb (0 =? 0)). cbn iota.
  assert (Htn : Z.to_nat total = length (sg_flags sgs out)) by lia. rewrite Htn.
  destruct (fill_table false (sg_flags sgs out)) as (t & i & prev & ep & Hf & Hp & Hds).
  { destruct (sg_flags sgs out); [simpl in Hlen; lia|done]. }
  { lia. }
  { apply sg_flags_next. }
  unfold add_indirect. cbn [dma_map upd_free upd_log upd_tables upd_ring]. rewrite Hdma, Hf. run_bind.
  rewrite (aget_nat _ _ _ Hp). run_bind. rewrite aset_nat by by eapply lookup_lt_Some. run_bind.
  set (d1 := <[h := _]> (desc (ring vq))).
  assert (Hd1 : d1 !! h = Some (mkDesc a (u32 (total * 16)) VRING_DESC_F_INDIRECT (next e))).
  { apply list_lookup_insert_eq. by eapply lookup_lt_Some. }
  cbn [ring upd_free upd_log upd_tables upd_ring desc set_desc]. rewrite (aget_nat _ _ _ Hd1). run_bind.
  destruct (vi_num _ _ _ Hi) as (k & Hk & Hnk).
  assert (Hh_in : Z.of_nat h < num (ring vq)).
  { apply (vi_all _ _ _ Hi), elem_of_app. left. by apply elem_of_cons; left. }
  set (vq1 := upd_free (upd_tables _ _) _ _).
  rewrite (expose_ok vq1 k h token Hk Hnk (vi_data _ _ _ Hi) (vi_avail _ _ _ Hi) Hh_in). run_bind.
  set (vq2 := exposed vq1 h token).
  assert (Hinv : vq_inv vq2 rest (([h], token) :: infl)).
  { apply (inv_take vq); [exact Hi|done|done|done| | |done| | | | |].
    - simpl. unfold d1. rewrite zlen_insert. exact (vi_desc _ _ _ Hi).
    - simpl. by rewrite zlen_insert.
    - intros x Hx. apply list_lookup_insert_ne. intros ->. apply Hx. by apply list_elem_of_singleton.
    - eexists. split; [exact Hd1|]. done.
    - simpl. lia.
    - intros x Hx. simpl. destruct rest; [done|]. simpl in Hx. congruence.
    - intros x Hx. injection Hx as <-. done. }
  assert (Hu : u32 (total * 16) = 16 * total) by (rewrite u32_small; lia). rewrite Hu in Hd1.
  assert (Hfr : forall x, x <> h -> desc (ring vq2) !! x = desc (ring vq) !! x)
    by (intros x Hx; by apply list_lookup_insert_ne).
  assert (Htb : tables vq2 !! a = Some (<[prev := mkDesc (addr ep) (len ep)
    (Z.land (flags ep) (Z.lnot VRING_DESC_F_NEXT)) (next ep)]> t)) by (simpl; apply lookup_insert_eq).
  destruct (num_added vq2 =? 65535).
  - destruct (kick_ring notify vq2) as (Hr & Hdt & Hnn & Hh & Htt & _).
    eexists _, _, _. split; [done|]. rewrite Hr, Htt.
    split; [apply (vq_inv_ext vq2); rewrite ?Hr; done|]. split; [exact Hd1|]. split; [exact Htb|]. done.
  - eexists vq2, _, _. split; [done|]. split; [done|]. split; [exact Hd1|]. split; [exact Htb|]. done.
Qed.

(** The loop that builds the free list. *)
Lemma free_loop_ok m : forall d i,
  (i + m < length d)%nat -> Z.of_nat (length d) <= 65536 ->
  exists d', free_loop m d (Z.of_nat i) = Ret d' /\ length d' = length d
    /\ (forall x e, d !! x = Some e -> exists e', d' !! x = Some e'
          /\ ((i <= x < i + m)%nat -> next e' = Z.of_nat (S x)))
    /\ forall x, (x < i)%nat -> d' !! x = d !! x.
Proof.
  induction m as [|m IH]; intros d i Hi Hl.
  - exists d. split; [done|]. split; [done|]. split; [|done]. intros x e He. exists e. split; [done|lia].
  - destruct (lookup_lt_is_Some_2 d i ltac:(lia)) as (ei & Hei).
    cbn [free_loop]. rewrite (aget_nat _ _ _ Hei). run_bind. rewrite aset_nat by lia. run_bind.
    set (d1 := <[i := _]> d). replace (Z.of_nat i + 1) with (Z.of_nat (S i)) by lia.
    assert (Hd1 : length d1 = length d) by by unfold d1; rewrite length_insert.
    destruct (IH d1 (S i)) as (d' & -> & Hdl & Hn & Hlow); [lia|lia|].
    exists d'. split; [done|]. split; [lia|]. split.
    + intros x e He. destruct (decide (x = i)) as [->|Hx].
      * rewrite (Hlow i) by lia. unfold d1. rewrite list_lookup_insert_eq by lia.
        eexists. split; [done|]. intros _. simpl. rewrite u16_small by lia. lia.
      * destruct (Hn x e) as (e' & He' & Hn'); [unfold d1; by rewrite list_lookup_insert_ne|].
        exists e'. split; [done|]. intros Hr. apply Hn'. lia.
    + intros x Hx. rewrite (Hlow x) by lia. unfold d1. by rewrite list_lookup_insert_ne by lia.
Qed.

Lemma seq_linked d n m :
  (forall x, (n <= x < n + m)%nat -> exists e, d !! x = Some e
     /\ ((S x < n + m)%nat -> next e = Z.of_nat (S x))) -> linked d (seq n m).
Proof.
  revert n. induction m as [|m IH]; intros n Hx; [done|]. cbn [seq linked]. split.
  - destruct (Hx n ltac:(lia)) as (e & He & Hn). exists e. split; [done|].
    destruct m; [done|]. apply Hn. lia.
  - apply IH. intros x Hr. destruct (Hx x ltac:(lia)) as (e & He & Hn). exists e. split; [done|].
    intros. apply Hn. lia.
Qed.

(** The arithmetic of event indices. *)
Lemma vring_need_event_iff event old n :
  fits 16 event -> fits 16 old -> 0 <= n < 65536 ->
  vring_need_event event (u16 (old + n)) old = true
  <-> exists j, 0 <= j < n /\ event = u16 (old + j).
Proof.
  intros He Ho Hn. unfold vring_need_event, u16, wrap, fits in *. change (2 ^ 16) with 65536 in *.
  rewrite Z.ltb_lt.
  assert (((old + n) mod 65536 - old) mod 65536 = n) as ->.
  { rewrite Zminus_mod_idemp_l, Z.add_simpl_l. apply Z.mod_small. lia. }
  assert (((old + n) mod 65536 - event - 1) mod 65536 = (old + n - event - 1) mod 65536) as ->.
  { replace ((old + n) mod 65536 - event - 1) with ((old + n) mod 65536 - (event + 1)) by lia.
    rewrite Zminus_mod_idemp_l. f_equal. lia. }
  pose proof (Z.div_mod (old + n - event - 1) 65536 ltac:(lia)) as Hdm.
  pose proof (Z.mod_pos_bound (old + n - event - 1) 65536 ltac:(lia)) as Hmb.
  set (r := (old + n - event - 1) mod 65536) in *. set (q := (old + n - event - 1) / 65536) in *.
  split.
  - intros Hlt. exists (n - 1 - r). split; [lia|].
    replace (old + (n - 1 - r)) with (event + q * 65536) by lia.
    rewrite Z.mod_add, Z.mod_small by lia. done.
  - intros (j & Hj & Hev). pose proof (Z.div_mod (old + j) 65536 ltac:(lia)).
    pose proof (Z.mod_pos_bound (old + j) 65536 ltac:(lia)).
    enough (r = n - 1 - j) by lia. unfold r. symmetry. apply (Z.mod_unique_pos _ _ ((old + j) / 65536)); lia.
Qed.

(** A new virtqueue of a power-of-two length satisfies the invariant with
    every descriptor free and no buffer in flight; it has not seen any used
    buffer and asks for no interrupts when it has no callback. *)
Theorem vring_new_virtqueue_correct k pages features callback :
  0 <= k <= 15 -> zlen (desc pages) = 2 ^ k -> zlen (avail_ring pages) = 2 ^ k + 1 ->
  zlen (used_ring pages) = 2 ^ k ->
  exists vq, vca_vring_new_virtqueue (2 ^ k) pages features true callback = Ret (Some vq)
    /\ vq_inv vq (seq 0 (Z.to_nat (2 ^ k))) [] /\ last_used_idx vq = 0 /\ broken vq = false
    /\ (callback = false -> testflag (avail_flags (ring vq)) VRING_AVAIL_F_NO_INTERRUPT = true).
Proof.
  intros Hk Hd Ha Hu. unfold vca_vring_new_virtqueue.
  assert (H15 : 2 ^ k <= 2 ^ 15) by (apply Z.pow_le_mono_r; lia). change (2 ^ 15) with 32768 in H15.
  assert (Hpos : 0 < 2 ^ k) by (apply Z.pow_pos_nonneg; lia).
  rewrite land_mask, Z.mod_same by lia. simpl negb. cbn iota. rewrite u32_small by lia.
  destruct (free_loop_ok (Z.to_nat (2 ^ k - 1)) (desc pages) 0) as (d' & Hf & Hl & Hn & _);
    [unfold zlen in Hd; lia|unfold zlen in Hd; lia|].
  change (Z.of_nat 0) with 0 in Hf. rewrite Hf. run_bind. eexists. split; [done|]. split; [|split; [done|split; [done|]]].
  - split; cbn [ring num desc avail_ring used_ring num_free data free_head map concat].
    + by exists k.
    + unfold zlen in *. lia.
    + done.
    + done.
    + rewrite zlen_replicate. lia.
    + rewrite app_nil_r. apply NoDup_seq.
    + intros x. rewrite app_nil_r, elem_of_seq. lia.
    + apply seq_linked. intros x Hx. unfold zlen in Hd.
      destruct (lookup_lt_is_Some_2 (desc pages) x ltac:(lia)) as (e & He).
      destruct (Hn x e He) as (e' & He' & Hn'). exists e'. split; [done|]. intros. apply Hn'. lia.
    + rewrite length_seq. lia.
    + intros x Hx. destruct (Z.to_nat (2 ^ k)); [done|]. simpl in Hx. by injection Hx as <-.
    + constructor.
    + intros x t Ht. split.
      * intros Hx. apply lookup_replicate in Hx as [-> _]. done.
      * intros (ids & Hin). by apply list_elem_of_In in Hin.
    + constructor.
  - intros ->. cbn [ring avail_flags]. unfold testflag, VRING_AVAIL_F_NO_INTERRUPT.
    apply negb_true_iff, Z.eqb_neq. intros H0.
    assert (Z.testbit (Z.land (Z.lor (avail_flags pages) 1) 1) 0 = true) as Hbit.
    { rewrite Z.land_spec, Z.lor_spec. change (Z.testbit 1 0) with true. by rewrite orb_true_r. }
    rewrite H0 in Hbit. done.
Qed.

Lemma unused_loop_ok n : forall vq free infl i,
  vq_inv vq free infl -> (i + n)%nat = Z.to_nat (num (ring vq)) ->
  (forall x t, (x < i)%nat -> data vq !! x = Some t -> t = 0) ->
  exists vq' t, unused_loop n vq (Z.of_nat i) = Ret (vq', t)
    /\ (if t =? 0 then infl = [] /\ vq' = vq
        else exists l1 ids l2, infl = l1 ++ (ids, t) :: l2 /\ vq_inv vq' (ids ++ free) (l1 ++ l2)
             /\ avail_idx (ring vq') = u16 (avail_idx (ring vq) - 1)).
Proof.
  induction n as [|n IH]; intros vq free infl i Hi Hn Hlow; cbn [unused_loop].
  - exists vq, 0. split; [done|]. simpl. split; [|done]. destruct infl as [|[ids t] infl]; [done|].
    exfalso. pose proof (vi_chains _ _ _ Hi) as [Hc _]%Forall_cons_iff. destruct ids as [|h ids]; [done|].
    pose proof (vi_token0 _ _ _ Hi) as [Ht _]%Forall_cons_iff. simpl in Ht.
    assert (data vq !! h = Some t) as Hd.
    { apply (vi_tokens _ _ _ Hi); [done|]. exists ids. by apply elem_of_cons; left. }
    apply Ht, (Hlow h t); [|done]. enough (Z.of_nat h < num (ring vq)) by lia.
    apply (vi_all _ _ _ Hi), elem_of_app. right. simpl. by apply elem_of_cons; left.
  - pose proof (num_pos _ _ _ Hi). pose proof (vi_data _ _ _ Hi) as Hdl. unfold zlen in Hdl.
    destruct (lookup_lt_is_Some_2 (data vq) i ltac:(lia)) as (t & Ht).
    rewrite (aget_nat _ _ _ Ht). run_bind. destruct (Z.eqb_spec t 0) as [->|Hne].
    + replace (Z.of_nat i + 1) with (Z.of_nat (S i)) by lia. apply IH; [done|lia|].
      intros x t' Hx Hd. destruct (decide (x = i)) as [->|]; [congruence|]. apply (Hlow x); [lia|done].
    + destruct (token_chain _ _ _ _ _ Hi Ht Hne) as (l1 & ids' & l2 & ->).
      destruct (detach_ok vq free l1 i ids' t l2 Hi) as (vq1 & -> & Hi1 & (d & Hr & _) & _). run_bind.
      eexists _, t. split; [done|]. rewrite (proj2 (Z.eqb_neq t 0)) by done.
      exists l1, (i :: ids'), l2. split; [done|]. split; [by apply (vq_inv_ext vq1)|]. simpl. by rewrite Hr.
Qed.

Lemma all_free vq free : vq_inv vq free [] -> num_free vq = num (ring vq).
Proof.
  intros Hi. pose proof (num_pos _ _ _ Hi). pose proof (vi_all _ _ _ Hi) as Hall. pose proof (vi_nodup _ _ _ Hi) as Hnd.
  simpl in Hall, Hnd. rewrite app_nil_r in Hnd. rewrite (vi_nfree _ _ _ Hi).
  assert (free ≡ₚ seq 0 (Z.to_nat (num (ring vq)))) as ->.
  { apply NoDup_Permutation; [done|apply NoDup_seq|]. intros x. rewrite elem_of_seq.
    specialize (Hall x). rewrite app_nil_r in Hall. rewrite <- Hall. lia. }
  rewrite length_seq. lia.
Qed.

(** At shutdown [vca_virtqueue_detach_unused_buf] gives back the token of a
    buffer in flight and frees its chain, as long as there is one; when there is
    none it returns [NULL], and its check that every descriptor is free holds. *)
Theorem virtqueue_detach_unused_correct vq free infl :
  vq_inv vq free infl ->
  exists vq' r, vca_virtqueue_detach_unused_buf vq = Ret (vq', r)
    /\ match r with
       | Some t => exists l1 ids l2, infl = l1 ++ (ids, t) :: l2 /\ vq_inv vq' (ids ++ free) (l1 ++ l2)
       | None => infl = [] /\ vq' = vq
       end.
Proof.
  intros Hi. pose proof (num_pos _ _ _ Hi). unfold vca_virtqueue_detach_unused_buf.
  destruct (unused_loop_ok (Z.to_nat (num (ring vq))) vq free infl 0 Hi) as (vq' & t & Hl & Hr); [lia|lia|].
  change (Z.of_nat 0) with 0 in Hl. rewrite Hl. run_bind. destruct (Z.eqb_spec t 0) as [->|Ht]; simpl negb; cbn iota.
  - destruct Hr as (-> & ->). rewrite (all_free _ _ Hi), Z.eqb_refl. simpl. exists vq, None. done.
  - destruct Hr as (l1 & ids & l2 & -> & Hi' & _). exists vq', (Some t). split; [done|]. eauto.
Qed.

(** Interrupts are on, the event index is the entry that the driver will look at next, and the rest is
    as before. *)
Lemma enable_cb_prepare_ok vq free infl :
  vq_inv vq free infl ->
  exists v, vca_virtqueue_enable_cb_prepare vq = Ret (upd_ring vq v, last_used_idx vq)
    /\ vq_inv (upd_ring vq v) free infl
    /\ testflag (avail_flags v) VRING_AVAIL_F_NO_INTERRUPT = false
    /\ avail_ring v !! Z.to_nat (num v) = Some (last_used_idx vq)
    /\ used_idx v = used_idx (ring vq).
Proof.
  intros Hi. pose proof (num_pos _ _ _ Hi) as Hnum. unfold vca_virtqueue_enable_cb_prepare.
  set (fl := Z.land _ _).
  set (vq0 := upd_ring vq (set_avail (ring vq) fl (avail_idx (ring vq)) (avail_ring (ring vq)))).
  assert (Hi0 : vq_inv vq0 free infl) by by apply (vq_inv_ext vq).
  destruct (used_event_ok vq0 free infl (last_used_idx vq) Hi0) as (ar & He & Har & Hlen).
  change (ring vq0) with (set_avail (ring vq) fl (avail_idx (ring vq)) (avail_ring (ring vq))) in He at 1.
  rewrite He. run_bind. eexists. split; [done|]. split; [by apply (vq_inv_ext vq0)|]. split; [|split; [|done]].
  - cbn [ring upd_ring avail_flags set_avail vq0]. subst fl. unfold testflag, VRING_AVAIL_F_NO_INTERRUPT.
    by rewrite <- Z.land_assoc, (Z.land_comm (Z.lnot 1)), Z.land_lnot_diag, Z.land_0_r.
  - cbn [avail_ring set_avail num]. rewrite Har. cbn [ring upd_ring num set_avail vq0 avail_ring].
    apply list_lookup_insert_eq. pose proof (vi_avail _ _ _ Hi) as Hal. unfold zlen in Hal. lia.
Qed.

Lemma align_up x j :
  0 <= j -> let a := 2 ^ j in
  let r := Z.land (x + a - 1) (Z.lnot (a - 1)) in x <= r < x + a /\ r mod a = 0.
Proof.
  intros Hj a r. unfold r, a. assert (0 < 2 ^ j) by (apply Z.pow_pos_nonneg; lia).
  rewrite land_not_mask by done. pose proof (Z.mod_pos_bound (x + 2 ^ j - 1) (2 ^ j) ltac:(lia)).
  split; [lia|]. rewrite Zminus_mod_idemp_r, Z.sub_diag. by rewrite Z.mod_0_l by lia.
Qed.

(** The parts of a ring at an aligned address do not overlap, are aligned as
    the ring format requires, and end exactly at [vring_size]: the descriptors
    (16 bytes each), the available ring with its event index, the used ring with
    its event index. *)
Theorem vring_layout_correct n p j :
  0 <= n -> 4 <= j -> p mod 2 ^ j = 0 ->
  let '(d, a, u) := vring_init n p (2 ^ j) in
  d = p /\ d + 16 * n = a /\ a + 4 + 2 * n + 2 <= u /\ u + 4 + 8 * n + 2 = p + vring_size n (2 ^ j)
  /\ d mod 16 = 0 /\ a mod 2 = 0 /\ u mod 4 = 0.
Proof.
  intros Hn Hj Hp. unfold vring_init, vring_size.
  assert (Hpos : 0 < 2 ^ j) by (apply Z.pow_pos_nonneg; lia).
  pose proof (align_up (p + n * 16 + 4 + n * 2 + 2) j ltac:(lia)) as (H1 & H2).
  pose proof (align_up (16 * n + 2 * (3 + n)) j ltac:(lia)) as (H3 & H4).
  set (u := Z.land (p + n * 16 + 4 + n * 2 + 2 + 2 ^ j - 1) _) in *.
  set (s := Z.land (16 * n + 2 * (3 + n) + 2 ^ j - 1) _) in *.
  assert (Hus : u = p + s).
  { apply Z.mod_divide in H2; [|lia]. apply Z.mod_divide in H4; [|lia]. apply Z.mod_divide in Hp; [|lia].
    destruct H2 as (a1 & Ha1), H4 as (a2 & Ha2), Hp as (a3 & Ha3).
    assert (a1 = a3 + a2) by nia. nia. }
  assert (Hdiv : forall x m, x mod 2 ^ j = 0 -> (m | 2 ^ j) -> 0 < m -> x mod m = 0).
  { intros x m Hx Hm Hm0. apply Z.mod_divide in Hx; [|lia]. apply Z.mod_divide; [lia|]. by eapply Z.divide_trans. }
  assert (H16 : forall i, 0 <= i <= j -> (2 ^ i | 2 ^ j)).
  { intros i Hi. exists (2 ^ (j - i)). rewrite <- Z.pow_add_r by lia. f_equal. lia. }
  split; [done|]. split; [lia|]. split; [lia|]. split; [lia|].
  split; [apply (Hdiv p 16 Hp); [apply (H16 4); lia|lia]|]. split.
  - replace (p + n * 16) with (p + (n * 8) * 2) by lia. rewrite Z.mod_add by lia.
    apply (Hdiv p 2 Hp); [apply (H16 1); lia|lia].
  - apply (Hdiv u 4 H2); [apply (H16 2); lia|lia].
Qed.

(** When mapping an entry of a scatter list fails, [_dma_map_sg] goes on with
    the entries behind it: they stay mapped although the function reports
    [-ENOMEM]. *)
Theorem dma_map_sg_leaks_tail dma_map_single s1 s2 dir :
  dma_map_single (sg_phys s1) (sg_length s1) dir = 0 ->
  dma_map_single (sg_phys s2) (sg_length s2) dir <> 0 ->
  snd (fst (_dma_map_sg dma_map_single (mkSgl [s1; s2] 2) dir)) = - ENOMEM
  /\ snd (_dma_map_sg dma_map_single (mkSgl [s1; s2] 2) dir)
     = [EvMap (dma_map_single (sg_phys s2) (sg_length s2) dir) (sg_length s2) dir].
Proof.
  intros H1 H2. unfold _dma_map_sg. cbn [sg_list sg_end sg_ents take map_loop].
  rewrite H1. cbn [Z.eqb]. rewrite (proj2 (Z.eqb_neq _ _) H2). done.
Qed.

(** With one readable and one writable list, [vring_map_sg] moves the end mark
    of the first list to the total number of entries, outside its array. *)
Theorem vring_map_sg_overruns dma_map_single parent s1 s2 :
  zlen (sg_ents s1) = Z.of_nat (sg_end s1) -> (0 < sg_end s2)%nat ->
  vring_map_sg dma_map_single parent [s1; s2] (Z.of_nat (sg_end s1 + sg_end s2)) 1 1 = Oob.
Proof.
  intros H1 H2. unfold vring_map_sg. cbn [Nat.eqb]. change (aget [s1; s2] 0) with (Ret s1). run_bind.
  unfold sg_terminate_arr. rewrite H1, (proj2 (Z.leb_gt _ _)) by lia. by rewrite andb_false_r.
Qed.

(** ** Witnesses *)

(** A queue of four descriptors with a buffer of two descriptors in flight, which
    the device has used. *)
Definition demo_ring : vring :=
  mkVring 4 [mkDesc 4096 100 1 1; mkDesc 8192 200 2 2; mkDesc 0 0 0 3; mkDesc 0 0 0 0]
    0 1 [0; 0; 0; 0; 0] 0 1 [mkUsed 0 150; mkUsed 0 0; mkUsed 0 0; mkUsed 0 0] 0.
Definition demo_vq (ind : bool) : vring_virtqueue :=
  mkVq demo_ring false ind true false 2 1 0 2 [7; 0; 0; 0] ∅ [].
Definition no_dma (phys n : Z) (dir : bool) : Z := phys.
Definition demo_sgs : list scatterlist :=
  [mkSgl [mkSg 12288 64 0] 1; mkSgl [mkSg 16384 32 0] 1].

Lemma demo_inv ind : vq_inv (demo_vq ind) [2%nat; 3%nat] [([0%nat; 1%nat], 7)].
Proof.
  split; try reflexivity; cbn [demo_vq demo_ring ring num desc data map concat fst app num_free free_head].
  - exists 2. split; [lia|reflexivity].
  - apply (bool_decide_unpack _). vm_compute. done.
  - intros x. rewrite !elem_of_cons. split; [lia|]. intros [->|[->|[->|[->|?%list_elem_of_In]]]]; done || lia.
  - simpl. split; [eexists; split; reflexivity|]. split; [eexists; split; [reflexivity|done]|done].
  - intros x [= <-]. reflexivity.
  - constructor; [|constructor]. eexists. split; [reflexivity|]. split; [reflexivity|].
    split; [reflexivity|]. eexists. split; reflexivity.
  - intros x t Ht. split.
    + destruct x as [|[|[|[|x]]]]; simpl; intros [= <-]; try done. exists [1%nat]. by apply elem_of_cons; left.
    + intros (ids & [Hin|Hin]%elem_of_cons); [|by apply list_elem_of_In in Hin]. by injection Hin as -> _ ->.
  - constructor; [done|constructor].
Qed.

Lemma virtqueue_add_correct_witness :
  exists vq', virtqueue_add no_dma true true None (demo_vq false) demo_sgs 2 1 1 9 = Ret (vq', 0)
    /\ describes (desc (ring vq')) [2%nat; 3%nat] [(12288, 64, false); (16384, 32, true)].
Proof.
  destruct (virtqueue_add_correct no_dma true true None (demo_vq false) [2%nat; 3%nat]
              [([0%nat; 1%nat], 7)] demo_sgs demo_sgs [] 2 1 1 9) as (vq' & H & _ & Hd & _).
  - apply demo_inv.
  - reflexivity.
  - lia.
  - left. reflexivity.
  - simpl. lia.
  - reflexivity.
  - reflexivity.
  - exists vq'. split; [exact H|exact Hd].
Defined.

Lemma virtqueue_add_errors_witness :
  virtqueue_add no_dma true true None (demo_vq false) demo_sgs 3 1 1 9
  = Ret (upd_log (demo_vq false) [EvNotify], - ENOSPC).
Proof.
  destruct (virtqueue_add_errors no_dma true true None (demo_vq false) [2%nat; 3%nat]
              [([0%nat; 1%nat], 7)] demo_sgs 3 1 1 9) as (_ & H).
  - apply demo_inv.
  - lia.
  - simpl. lia.
  - apply H; [reflexivity|simpl; lia|left; reflexivity].
Defined.

Lemma virtqueue_get_buf_correct_witness :
  exists vq' r, vca_virtqueue_get_buf (demo_vq false) = Ret (vq', r) /\ r = Some (7, 150)
    /\ vq_inv vq' [0%nat; 1%nat; 2%nat; 3%nat] [].
Proof.
  destruct (virtqueue_get_buf_correct (demo_vq false) [2%nat; 3%nat] [([0%nat; 1%nat], 7)])
    as (vq' & r & H & Hr).
  - apply demo_inv.
  - repeat constructor; simpl; lia.
  - assert (r = Some (7, 150)) as -> by (vm_compute in H; congruence).
    exists vq', (Some (7, 150)). split; [exact H|]. split; [reflexivity|].
    destruct Hr as (l1 & h & ids' & l2 & u & Hinfl & _ & _ & _ & Hi & _).
    destruct l1 as [|? [|? ?]]; simplify_eq/=. exact Hi.
Defined.

Lemma virtqueue_add_indirect_correct_witness :
  exists vq' t, virtqueue_add no_dma true true (Some 65536) (demo_vq true) demo_sgs 2 1 1 9 = Ret (vq', 0)
    /\ tables vq' !! 65536 = Some t
    /\ describes t [0%nat; 1%nat] [(12288, 64, false); (16384, 32, true)].
Proof.
  destruct (virtqueue_add_indirect_correct no_dma true true 65536 (demo_vq true) 2 [3%nat]
              [([0%nat; 1%nat], 7)] demo_sgs 2 1 1 9) as (vq' & nx & t & H & _ & _ & Ht & Hd & _).
  - apply demo_inv.
  - reflexivity.
  - lia.
  - reflexivity.
  - reflexivity.
  - simpl. lia.
  - reflexivity.
  - exists vq', t. split; [exact H|]. split; [exact Ht|exact Hd].
Defined.

Lemma vring_new_virtqueue_correct_witness :
  exists vq, vca_vring_new_virtqueue 4 demo_ring 0 true true = Ret (Some vq)
    /\ vq_inv vq [0%nat; 1%nat; 2%nat; 3%nat] [].
Proof.
  destruct (vring_new_virtqueue_correct 2 demo_ring 0 true) as (vq & H & Hi & _);
    [lia|reflexivity|reflexivity|reflexivity|].
  exists vq. split; [exact H|exact Hi].
Defined.

Lemma virtqueue_detach_unused_correct_witness :
  exists vq' r, vca_virtqueue_detach_unused_buf (demo_vq false) = Ret (vq', r) /\ r = Some 7.
Proof.
  destruct (virtqueue_detach_unused_correct (demo_vq false) _ _ (demo_inv false)) as (vq' & r & H & _).
  assert (r = Some 7) as -> by (vm_compute in H; congruence).
  exists vq', (Some 7). split; [exact H|reflexivity].
Defined.

Lemma vring_layout_correct_witness :
  let '(d, a, u) := vring_init 256 65536 4096 in u + 4 + 8 * 256 + 2 = 65536 + vring_size 256 4096.
Proof. apply (vring_layout_correct 256 65536 12); [lia|lia|reflexivity]. Defined.

Lemma dma_map_sg_leaks_tail_witness :
  snd (_dma_map_sg (fun p _ _ => p) (mkSgl [mkSg 0 8 0; mkSg 4096 8 0] 2) true) = [EvMap 4096 8 true].
Proof.
  apply (dma_map_sg_leaks_tail (fun p _ _ => p) (mkSg 0 8 0) (mkSg 4096 8 0) true); [reflexivity|simpl; lia].
Defined.

Lemma vring_map_sg_overruns_witness :
  vring_map_sg no_dma true demo_sgs 2 1 1 = Oob.
Proof.
  apply (vring_map_sg_overruns no_dma true (mkSgl [mkSg 12288 64 0] 1) (mkSgl [mkSg 16384 32 0] 1));
    [reflexivity|simpl; lia].
Defined.


End VirtioRing.
