(* ===== verification/Vringh.v ===== *)
(** * The device side of a virtqueue

    [src/modules/vca/vca_virtio/vca_vringh.c] and [include/vca_vringh.h]: taking
    descriptor chains from the available ring, transferring their bytes, and
    publishing used entries.  The functions are written once and instantiated for
    kernel memory (accesses cannot fail, addresses are not checked) and for user
    memory (accesses can fault, addresses are checked against ranges); here the
    accessors are parameters in the same way. *)

From S2P Require Import Prelude VirtioRing.
From stdpp Require Import base list gmap numbers option tactics.
From Stdlib Require Import ZArith Lia.
#[local] Open Scope Z_scope.

Module Vringh.
Import VirtioRing.

(** ** Data *)

(** [struct vringh]; [vr] is the ring shared with the driver. *)
Record vringh := mkVrh {
  event_indices : bool;
  last_avail_idx : Z;
  vh_last_used_idx : Z;
  completed : Z;
  vr : vring;
}.

Record vringh_range := mkRange { start : Z; end_incl : Z; offset : Z }.

(** [iov]: the array of vectors (base, length). *)
Record vringh_kiov := mkIov {
  iov : list (Z * Z);
  consumed : Z;
  iov_i : Z;
  iov_used : Z;
  max_num : Z;
}.

Definition VRINGH_IOV_ALLOCATED := 0x8000000.
Definition iov_cap (k : vringh_kiov) : Z := Z.land (max_num k) (Z.lnot VRINGH_IOV_ALLOCATED).

Definition set_iov (k : vringh_kiov) (l : list (Z * Z)) : vringh_kiov :=
  mkIov l (consumed k) (iov_i k) (iov_used k) (max_num k).

(** The places of the ring that the accessors touch; [fault l] is the error of an
    access to [l], 0 when it succeeds. *)
Inductive loc :=
| LAvailIdx | LAvailFlags | LAvailRing (i : Z) | LUsedEvent
| LUsedIdx | LUsedFlags | LUsedRing (i : Z) | LAvailEvent.

(** Kernel accessors ([getu16_kern], [putu16_kern], [putused_kern]) never fail. *)
Definition no_fault (l : loc) : Z := 0.

(** ** Vectors *)

Definition vringh_kiov_init (kvec : list (Z * Z)) (n : Z) : vringh_kiov := mkIov kvec 0 0 0 n.

Definition vringh_kiov_reset (k : vringh_kiov) : outcome vringh_kiov :=
  '(b, l) ← aget (iov k) (iov_i k);
  v ← aset (iov k) (iov_i k) (b - consumed k, l + consumed k);
  Ret (mkIov v 0 0 (iov_used k) (max_num k)).

(** The vector array is freed when the flag is set. *)
Definition vringh_kiov_cleanup (k : vringh_kiov) : vringh_kiov := mkIov [] 0 0 0 0.

(** [krealloc] and [kmalloc] leave the new part undefined: here it is zero. *)
Definition resize_iovec (alloc_ok : bool) (k : vringh_kiov) : outcome (vringh_kiov * Z) :=
  let new_num := u32 (iov_cap k * 2) in
  let new_num := if new_num <? 8 then 8 else new_num in
  let flag := Z.land (max_num k) VRINGH_IOV_ALLOCATED in
  if negb alloc_ok then Ret (k, - ENOMEM)
  else if testflag (max_num k) VRINGH_IOV_ALLOCATED then
    Ret (mkIov (iov k ++ replicate (Z.to_nat (new_num - zlen (iov k))) (0, 0)) (consumed k) (iov_i k)
           (iov_used k) (Z.lor new_num flag), 0)
  else
    (* memcpy of [max_num] entries *)
    if zlen (iov k) <? max_num k then Oob
    else Ret (mkIov (take (Z.to_nat (max_num k)) (iov k)
                     ++ replicate (Z.to_nat (new_num - max_num k)) (0, 0)) (consumed k) (iov_i k)
                (iov_used k) (Z.lor new_num VRINGH_IOV_ALLOCATED), 0).

(** [xfer base ptr len]: the error of copying [len] bytes; the copies made are
    recorded in order.  [done] counts in an [int]. *)
Fixpoint iov_xfer_loop (xfer : Z -> Z -> Z -> Z) (fuel : nat) (k : vringh_kiov) (ptr len done : Z)
    (copies : list (Z * Z * Z)) : outcome (vringh_kiov * Z * list (Z * Z * Z)) :=
  if negb (len =? 0) && (iov_i k <? iov_used k) then
    match fuel with
    | O => Spin
    | S fuel =>
        '(b, l) ← aget (iov k) (iov_i k);
        let partlen := Z.min l len in
        let err := xfer b ptr partlen in
        if negb (err =? 0) then Ret (k, err, copies)
        else
          let copies := copies ++ [(b, ptr, partlen)] in
          let c := consumed k + partlen in
          let l := l - partlen in
          let b := b + partlen in
          if l =? 0 then
            v ← aset (iov k) (iov_i k) (b - c, c);
            iov_xfer_loop xfer fuel (mkIov v 0 (iov_i k + 1) (iov_used k) (max_num k))
              (ptr + partlen) (len - partlen) (s32 (done + partlen)) copies
          else
            v ← aset (iov k) (iov_i k) (b, l);
            iov_xfer_loop xfer fuel (mkIov v c (iov_i k) (iov_used k) (max_num k))
              (ptr + partlen) (len - partlen) (s32 (done + partlen)) copies
    end
  else Ret (k, done, copies).

Definition vringh_iov_xfer (xfer : Z -> Z -> Z -> Z) (k : vringh_kiov) (ptr len : Z)
    : outcome (vringh_kiov * Z * list (Z * Z * Z)) :=
  iov_xfer_loop xfer (S (Z.to_nat (iov_used k - iov_i k))) k ptr len 0 [].

(** ** Ranges *)

(** The largest 64-bit value. *)
Definition MAX64 : Z := u64 (-1).

(** [getrange]: the range of an address; the result is the length and the range,
    [None] when the address is refused. *)
Definition range_check (getrange : Z -> option vringh_range) (a len : Z) (range : vringh_range)
    : outcome (option (Z * vringh_range)) :=
  match (if (a <? start range) || (end_incl range <? a) then getrange a else Some range) with
  | None => Ret None
  | Some range =>
      _ ← bug_on ((a <? start range) || (end_incl range <? a));
      let truncate := Ret (Some (u64 (end_incl range + 1 - a), range)) in
      if u64 (a + len) =? 0 then
        if end_incl range =? MAX64 then Ret (Some (len, range)) else truncate
      else if u64 (a + len) <? a then Ret None
      else if end_incl range <? u64 (u64 (a + len) - 1) then truncate
      else Ret (Some (len, range))
  end.

Definition no_range_check (a len : Z) (range : vringh_range) : outcome (option (Z * vringh_range)) :=
  Ret (Some (len, range)).

Lemma no_range_check_eq a len range : no_range_check a len range = Ret (Some (len, range)).
Proof. done. Qed.

(** ** Chains *)

Section Iov.
(** [rcheck]: the range check; [copy src len]: the error of copying from [src];
    [mem]: the descriptor table at an address; [desc_addr]: the address of the
    ring's own descriptor table. *)
Context (rcheck : Z -> Z -> vringh_range -> outcome (option (Z * vringh_range)))
        (copy : Z -> Z -> Z) (mem : Z -> list vring_desc) (desc_addr : Z).

Definition move_to_indirect (up_next : Z) (d : vring_desc) : Z + (Z * Z) :=
  if negb (up_next =? -1) then inl (- EINVAL)
  else if negb (len d mod 16 =? 0) then inl (- EINVAL)
  else inr (if testflag (flags d) VRING_DESC_F_NEXT then next d else -2, len d / 16).

(** The loop of [slow_copy]: the error and the range. *)
Fixpoint slow_loop (fuel : nat) (src len : Z) (range : vringh_range) : outcome (Z * vringh_range) :=
  match fuel with
  | O => Spin
  | S fuel =>
      let a := u64 (src - offset range) in
      r ← rcheck a len range;
      match r with
      | None => Ret (- EINVAL, range)
      | Some (part, range) =>
          let err := copy src part in
          if negb (err =? 0) then Ret (err, range)
          else
            let len := u64 (len - part) in
            if len =? 0 then Ret (0, range) else slow_loop fuel (src + part) len range
      end
  end.
Definition slow_copy (src : Z) (range : vringh_range) : outcome (Z * vringh_range) :=
  slow_loop 17 src 16 range.

(** The table a traversal is in: its address, its descriptors, and how many of
    them may be used. *)
Record table := mkTable { t_addr : Z; t_descs : list vring_desc; t_max : Z }.

(** From [again]: one descriptor becomes one or more vectors. *)
Fixpoint add_vectors (fuel : nat) (alloc_ok : bool) (k : vringh_kiov) (a l : Z) (range : vringh_range)
    : outcome (vringh_kiov * vringh_range * Z) :=
  match fuel with
  | O => Spin
  | S fuel =>
      r ← rcheck a l range;
      match r with
      | None => Ret (k, range, - EINVAL)
      | Some (n, range) =>
          '(k, err) ← (if iov_used k =? iov_cap k then resize_iovec alloc_ok k else Ret (k, 0));
          if negb (err =? 0) then Ret (k, range, err)
          else
            v ← aset (iov k) (iov_used k) (u64 (a + offset range), n);
            let k := mkIov v (consumed k) (iov_i k) (iov_used k + 1) (max_num k) in
            if negb (n =? l) then add_vectors fuel alloc_ok k (u64 (a + n)) (u32 (l - n)) range
            else Ret (k, range, 0)
      end
  end.

(** What the traversal of a chain carries along. *)
Record walk := mkWalk {
  w_i : Z; w_count : Z; w_up_next : Z; w_table : table;
  w_riov : option vringh_kiov; w_wiov : option vringh_kiov;
  w_range : vringh_range; w_slow : option vringh_range;
}.

Definition walk_result : Type := option vringh_kiov * option vringh_kiov * Z.

(** The [for (;;)] of [__vringh_iov]. *)
Fixpoint iov_loop (fuel : nat) (alloc_ok : bool) (vrh : vringh) (w : walk) : outcome walk_result :=
  match fuel with
  | O => Spin
  | S fuel =>
      let fail err := Ret (w_riov w, w_wiov w, err) in
      let src := t_addr (w_table w) + 16 * w_i w in
      '(err, slow) ← match w_slow w with
                     | Some sr => '(e, sr) ← slow_copy src sr; Ret (e, Some sr)
                     | None => Ret (copy src 16, None)
                     end;
      if negb (err =? 0) then fail err else
      d ← aget (t_descs (w_table w)) (w_i w);
      if testflag (flags d) VRING_DESC_F_INDIRECT then
        let a := addr d in
        r ← rcheck a (len d) (w_range w);
        match r with
        | None => fail (- EINVAL)
        | Some (n, range) =>
            let slow := if negb (n =? len d) then Some range else slow in
            match move_to_indirect (w_up_next w) d with
            | inl err => fail err
            | inr (up, max) =>
                let ta := u64 (a + offset range) in
                iov_loop fuel alloc_ok vrh
                  (mkWalk 0 (w_count w) up (mkTable ta (mem ta) max) (w_riov w) (w_wiov w) range slow)
            end
        end
      else if w_count w =? num (vr vrh) then fail (- ELOOP)
      else
        let count := w_count w + 1 in
        let writable := testflag (flags d) VRING_DESC_F_WRITE in
        let late := match w_wiov w with Some k => negb (iov_i k =? 0) | None => false end in
        if negb writable && late then fail (- EINVAL) else
        match (if writable then w_wiov w else w_riov w) with
        | None => fail (- EPROTO)
        | Some k =>
            '(k, range, err) ← add_vectors (S (Z.to_nat (len d))) alloc_ok k (addr d) (len d) (w_range w);
            let riov := if writable then w_riov w else Some k in
            let wiov := if writable then Some k else w_wiov w in
            if negb (err =? 0) then Ret (riov, wiov, err) else
            let continue i up t slow :=
              if t_max t <=? i then Ret (riov, wiov, - EINVAL)
              else iov_loop fuel alloc_ok vrh (mkWalk i count up t riov wiov range slow) in
            if testflag (flags d) VRING_DESC_F_NEXT then
              continue (next d) (w_up_next w) (w_table w) slow
            else if 0 <? w_up_next w then
              (* return_from_indirect *)
              continue (u16 (w_up_next w)) (-1)
                (mkTable desc_addr (desc (vr vrh)) (num (vr vrh))) None
            else Ret (riov, wiov, 0)
        end
  end.

Definition iov_clear (k : vringh_kiov) : vringh_kiov := mkIov (iov k) (consumed k) 0 0 (max_num k).

(** A traversal takes at most two turns per counted descriptor. *)
Definition __vringh_iov (alloc_ok : bool) (vrh : vringh) (i : Z)
    (riov wiov : option vringh_kiov) : outcome walk_result :=
  '(riov, wiov) ← match riov, wiov with
                  | Some r, _ => Ret (Some (iov_clear r), wiov)
                  | None, Some w => Ret (None, Some (iov_clear w))
                  | None, None => Bug
                  end;
  let range := mkRange MAX64 0 0 in
  iov_loop (Z.to_nat (2 * num (vr vrh) + 3)) alloc_ok vrh
    (mkWalk i 0 (-1) (mkTable desc_addr (desc (vr vrh)) (num (vr vrh))) riov wiov range None).

End Iov.

(** ** Heads and used entries *)

Definition set_vr (vrh : vringh) (v : vring) : vringh :=
  mkVrh (event_indices vrh) (last_avail_idx vrh) (vh_last_used_idx vrh) (completed vrh) v.
Definition set_last_avail (vrh : vringh) (x : Z) : vringh :=
  mkVrh (event_indices vrh) x (vh_last_used_idx vrh) (completed vrh) (vr vrh).
Definition set_used (v : vring) (fl idx : Z) (r : list vring_used_elem) : vring :=
  mkVring (num v) (desc v) (avail_flags v) (avail_idx v) (avail_ring v) fl idx r (avail_event v).
Definition set_avail_event (v : vring) (x : Z) : vring :=
  mkVring (num v) (desc v) (avail_flags v) (avail_idx v) (avail_ring v) (used_flags v) (used_idx v)
    (used_ring v) x.

(** The head, [num] when the ring is empty, or an error. *)
Definition __vringh_get_head (fault : loc -> Z) (vrh : vringh) : outcome (vringh * Z) :=
  let v := vr vrh in
  if negb (fault LAvailIdx =? 0) then Ret (vrh, fault LAvailIdx)
  else if last_avail_idx vrh =? avail_idx v then Ret (vrh, num v)
  else
    let i := u16 (Z.land (last_avail_idx vrh) (num v - 1)) in
    if negb (fault (LAvailRing i) =? 0) then Ret (vrh, fault (LAvailRing i))
    else
      head ← aget (avail_ring v) i;
      if num v <=? head then Ret (vrh, - EINVAL)
      else Ret (set_last_avail vrh (u16 (last_avail_idx vrh + 1)), head).

(** [putused]: copying entries into the used ring. *)
Definition putused (l : list vring_used_elem) (off : Z) (es : list vring_used_elem)
    : outcome (list vring_used_elem) :=
  if (0 <=? off) && (off + zlen es <=? zlen l)
  then Ret (take (Z.to_nat off) l ++ es ++ drop (Z.to_nat off + length es) l) else Oob.

(** The entries go to the ring from [off], around its end if needed. *)
Definition put_entries (fault : loc -> Z) (v : vring) (off : Z) (used : list vring_used_elem)
    : outcome (list vring_used_elem * Z) :=
  let num_used := zlen used in
  if (1 <? num_used) && (num v <=? off + num_used) then
    let part := u16 (num v - off) in
    let e1 := fault (LUsedRing off) in
    if negb (e1 =? 0) then Ret (used_ring v, e1)
    else
      r ← putused (used_ring v) off (take (Z.to_nat part) used);
      let e2 := fault (LUsedRing 0) in
      if negb (e2 =? 0) then Ret (r, e2)
      else r ← putused r 0 (drop (Z.to_nat part) used); Ret (r, 0)
  else
    let e1 := fault (LUsedRing off) in
    if negb (e1 =? 0) then Ret (used_ring v, e1)
    else r ← putused (used_ring v) off used; Ret (r, 0).

(** A division by a zero ring size is [Bug]. *)
Definition __vringh_complete (fault : loc -> Z) (vrh : vringh) (used : list vring_used_elem)
    : outcome (vringh * Z) :=
  let v := vr vrh in
  let num_used := zlen used in
  let idx := u16 (vh_last_used_idx vrh + completed vrh) in
  _ ← bug_on (num v =? 0);
  let off := u16 (idx mod num v) in
  '(ring, err) ← put_entries fault v off used;
  let vrh := set_vr vrh (set_used v (used_flags v) (used_idx v) ring) in
  if negb (err =? 0) then Ret (vrh, err)
  else if negb (fault LUsedIdx =? 0) then Ret (vrh, fault LUsedIdx)
  else
    let vrh := set_vr vrh (set_used v (used_flags v) (u16 (idx + num_used)) ring) in
    Ret (mkVrh (event_indices vrh) (last_avail_idx vrh) (vh_last_used_idx vrh)
           (u32 (completed vrh + num_used)) (vr vrh), 0).

(** 1 when the driver must be notified. *)
Definition __vringh_need_notify (fault : loc -> Z) (vrh : vringh) : outcome (vringh * Z) :=
  let v := vr vrh in
  if negb (event_indices vrh) then
    if negb (fault LAvailFlags =? 0) then Ret (vrh, fault LAvailFlags)
    else Ret (vrh, b2z (negb (testflag (avail_flags v) VRING_AVAIL_F_NO_INTERRUPT)))
  else if negb (fault LUsedEvent =? 0) then Ret (vrh, fault LUsedEvent)
  else
    used_event ← aget (avail_ring v) (num v);
    let notify :=
      if 0xffff <? completed vrh then true
      else vring_need_event used_event (u16 (vh_last_used_idx vrh + completed vrh)) (vh_last_used_idx vrh) in
    Ret (mkVrh (event_indices vrh) (last_avail_idx vrh)
           (u16 (vh_last_used_idx vrh + completed vrh)) 0 v, b2z notify).

Definition __vringh_notify_enable (fault : loc -> Z) (vrh : vringh) : vringh * bool :=
  let v := vr vrh in
  let '(vrh, e) :=
    if negb (event_indices vrh) then
      if negb (fault LUsedFlags =? 0) then (vrh, true)
      else (set_vr vrh (set_used v 0 (used_idx v) (used_ring v)), false)
    else
      if negb (fault LAvailEvent =? 0) then (vrh, true)
      else (set_vr vrh (set_avail_event v (last_avail_idx vrh)), false) in
  if e then (vrh, true)
  else if negb (fault LAvailIdx =? 0) then (vrh, true)
  else (vrh, avail_idx (vr vrh) =? last_avail_idx vrh).

Definition __vringh_notify_disable (fault : loc -> Z) (vrh : vringh) : vringh :=
  let v := vr vrh in
  if negb (event_indices vrh) && (fault LUsedFlags =? 0)
  then set_vr vrh (set_used v VRING_USED_F_NO_NOTIFY (used_idx v) (used_ring v)) else vrh.

(** ** The kernel instance *)

Definition vca_vringh_init_kern (features n : Z) (v : vring) (vrh : vringh) : vringh * Z :=
  if (n =? 0) || (0xffff <? n) || negb (Z.land n (n - 1) =? 0) then (vrh, - EINVAL)
  else (mkVrh (virtio_has_feature features VIRTIO_RING_F_EVENT_IDX) 0 0 0
          (mkVring n (desc v) (avail_flags v) (avail_idx v) (avail_ring v) (used_flags v) (used_idx v)
             (used_ring v) (avail_event v)), 0).

(** 1 and the head when there is a chain, 0 when there is none, or an error. *)
Definition vca_vringh_getdesc_kern (mem : Z -> list vring_desc) (desc_addr : Z) (alloc_ok : bool)
    (vrh : vringh) (riov wiov : option vringh_kiov)
    : outcome (vringh * (option vringh_kiov * option vringh_kiov) * option Z * Z) :=
  '(vrh, err) ← __vringh_get_head no_fault vrh;
  if err <? 0 then Ret (vrh, (riov, wiov), None, err)
  else if err =? num (vr vrh) then Ret (vrh, (riov, wiov), None, 0)
  else
    let head := err in
    '(riov, wiov, err) ← __vringh_iov no_range_check (fun _ _ => 0) mem desc_addr alloc_ok vrh head riov wiov;
    if negb (err =? 0) then Ret (vrh, (riov, wiov), Some head, err)
    else Ret (vrh, (riov, wiov), Some head, 1).

Definition vca_vringh_iov_pull_kern (k : vringh_kiov) (dst n : Z) := vringh_iov_xfer (fun _ _ _ => 0) k dst n.
Definition vca_vringh_iov_push_kern (k : vringh_kiov) (src n : Z) := vringh_iov_xfer (fun _ _ _ => 0) k src n.
Definition vca_vringh_abandon_kern (vrh : vringh) (n : Z) : vringh :=
  set_last_avail vrh (u16 (last_avail_idx vrh - n)).
Definition vca_vringh_complete_kern (vrh : vringh) (head n : Z) : outcome (vringh * Z) :=
  __vringh_complete no_fault vrh [mkUsed head n].
Definition vca_vringh_notify_enable_kern (vrh : vringh) : vringh * bool :=
  __vringh_notify_enable no_fault vrh.
Definition vca_vringh_notify_disable_kern (vrh : vringh) : vringh :=
  __vringh_notify_disable no_fault vrh.
Definition vca_vringh_need_notify_kern (vrh : vringh) : outcome (vringh * Z) :=
  __vringh_need_notify no_fault vrh.

(** ** The user instance: accesses may fault, addresses are checked *)

Definition vca_vringh_getdesc_user (fault : loc -> Z) (copy : Z -> Z -> Z)
    (getrange : Z -> option vringh_range) (mem : Z -> list vring_desc) (desc_addr : Z) (alloc_ok : bool)
    (vrh : vringh) (riov wiov : option vringh_kiov)
    : outcome (vringh * (option vringh_kiov * option vringh_kiov) * Z * Z) :=
  '(vrh, err) ← __vringh_get_head fault vrh;
  if err <? 0 then Ret (vrh, (riov, wiov), num (vr vrh), err)
  else if err =? num (vr vrh) then Ret (vrh, (riov, wiov), num (vr vrh), 0)
  else
    let head := err in
    '(riov, wiov, err) ← __vringh_iov (range_check getrange) copy mem desc_addr alloc_ok vrh head riov wiov;
    if negb (err =? 0) then Ret (vrh, (riov, wiov), head, err)
    else Ret (vrh, (riov, wiov), head, 1).
Definition vca_vringh_complete_multi_user (fault : loc -> Z) (vrh : vringh) (used : list vring_used_elem)
    : outcome (vringh * Z) := __vringh_complete fault vrh used.
Definition vca_vringh_complete_user (fault : loc -> Z) (vrh : vringh) (head n : Z) : outcome (vringh * Z) :=
  __vringh_complete fault vrh [mkUsed head n].
(** [copy_from_user], [copy_to_user]: whether the copy faults. *)
Definition vca_vringh_iov_pull_user (copy_from_user : Z -> Z -> Z -> bool) (k : vringh_kiov) (dst n : Z) :=
  vringh_iov_xfer (fun a p l => if copy_from_user a p l then - EFAULT else 0) k dst n.
Definition vca_vringh_iov_push_user (copy_to_user : Z -> Z -> Z -> bool) (k : vringh_kiov) (src n : Z) :=
  vringh_iov_xfer (fun a p l => if copy_to_user a p l then - EFAULT else 0) k src n.
Definition vca_vringh_abandon_user (vrh : vringh) (n : Z) : vringh :=
  set_last_avail vrh (u16 (last_avail_idx vrh - n)).
Definition vca_vringh_notify_enable_user (fault : loc -> Z) (vrh : vringh) : vringh * bool :=
  __vringh_notify_enable fault vrh.
Definition vca_vringh_notify_disable_user (fault : loc -> Z) (vrh : vringh) : vringh :=
  __vringh_notify_disable fault vrh.
Definition vca_vringh_need_notify_user (fault : loc -> Z) (vrh : vringh) : outcome (vringh * Z) :=
  __vringh_need_notify fault vrh.
Definition vca_vringh_init_user (features n : Z) (v : vring) (vrh : vringh) : vringh * Z :=
  if (n =? 0) || (0xffff <? n) || negb (Z.land n (n - 1) =? 0) then (vrh, - EINVAL)
  else (mkVrh (virtio_has_feature features VIRTIO_RING_F_EVENT_IDX) 0 0 0
          (mkVring n (desc v) (avail_flags v) (avail_idx v) (avail_ring v) (used_flags v) (used_idx v)
             (used_ring v) (avail_event v)), 0).

(** ** Vectors filled from a chain *)

(** The vectors in use. *)
Definition vecs (k : vringh_kiov) : list (Z * Z) := take (Z.to_nat (iov_used k)) (iov k).

(** A vector array: its capacity is the length of the array, with or without the
    mark that the array is the library's own. *)
Definition kiov_wf (k : vringh_kiov) : Prop :=
  exists c, (max_num k = c \/ max_num k = c + VRINGH_IOV_ALLOCATED)
    /\ 0 <= c < VRINGH_IOV_ALLOCATED /\ zlen (iov k) = c /\ 0 <= iov_used k <= c.

Lemma allocated_flag c : 0 <= c < VRINGH_IOV_ALLOCATED ->
  Z.lor c VRINGH_IOV_ALLOCATED = c + VRINGH_IOV_ALLOCATED
  /\ Z.land c (Z.lnot VRINGH_IOV_ALLOCATED) = c
  /\ Z.land (c + VRINGH_IOV_ALLOCATED) (Z.lnot VRINGH_IOV_ALLOCATED) = c
  /\ Z.land c VRINGH_IOV_ALLOCATED = 0
  /\ Z.land (c + VRINGH_IOV_ALLOCATED) VRINGH_IOV_ALLOCATED = VRINGH_IOV_ALLOCATED.
Proof.
  change VRINGH_IOV_ALLOCATED with (2 ^ 27). intros Hc.
  assert (H0 : Z.land c (2 ^ 27) = 0).
  { apply Z.bits_inj'. intros n Hn. rewrite Z.land_spec, Z.bits_0, Z.pow2_bits_eqb by lia.
    destruct (Z.eqb_spec 27 n) as [<-|]; [|apply andb_false_r]. rewrite andb_true_r.
    rewrite <- (Z.mod_small c (2 ^ 27)) by lia. apply Z.mod_pow2_bits_high. lia. }
  rewrite (Z.add_nocarry_lxor _ _ H0), (Z.lxor_lor _ _ H0). split; [done|].
  rewrite !Z.land_lor_distr_l, H0, Z.land_lnot_diag, Z.land_diag, !Z.lor_0_r, !Z.lor_0_l.
  assert (Z.land c (Z.lnot (2 ^ 27)) = c).
  { rewrite <- Z.ldiff_land. apply Z.bits_inj'. intros n Hn. rewrite Z.ldiff_spec.
    assert (Hb := f_equal (fun x => Z.testbit x n) H0). simpl in Hb.
    rewrite Z.land_spec, Z.bits_0 in Hb. by destruct (Z.testbit c n), (Z.testbit (2 ^ 27) n). }
  done.
Qed.

Lemma iov_cap_wf k : kiov_wf k ->
  iov_cap k = zlen (iov k) /\ 0 <= iov_used k <= zlen (iov k) /\ zlen (iov k) < VRINGH_IOV_ALLOCATED.
Proof.
  intros (c & Hm & Hc & Hl & Hu). destruct (allocated_flag c Hc) as (_ & H1 & H2 & _).
  unfold iov_cap. destruct Hm as [-> | ->]; rewrite ?H1, ?H2; lia.
Qed.

(** A larger array keeps the vectors. *)
Lemma resize_wf k : kiov_wf k -> zlen (iov k) < 2 ^ 26 ->
  exists k', resize_iovec true k = Ret (k', 0) /\ kiov_wf k' /\ vecs k' = vecs k
    /\ iov_used k' = iov_used k /\ iov_i k' = iov_i k /\ iov_used k < zlen (iov k') /\ 8 <= zlen (iov k').
Proof.
  intros (c & Hm & Hc & Hl & Hu) Hb. destruct (allocated_flag c Hc) as (_ & H1 & H2 & H3 & H4).
  rewrite Hl in Hb. unfold resize_iovec, iov_cap.
  set (n := if u32 (c * 2) <? 8 then 8 else u32 (c * 2)).
  assert (Hn : c < n /\ 8 <= n < VRINGH_IOV_ALLOCATED).
  { unfold n. change VRINGH_IOV_ALLOCATED with (2 ^ 27) in *. rewrite u32_small by lia. case_if; lia. }
  destruct (allocated_flag n ltac:(lia)) as (Hn1 & _).
  destruct Hm as [Hm|Hm]; rewrite Hm, ?H1, ?H2; cbn zeta; fold n; unfold testflag; rewrite ?H3, ?H4;
    cbn [negb Z.eqb].
  - rewrite (proj2 (Z.ltb_ge (zlen (iov k)) c)) by lia.
    eexists. split; [done|]. unfold kiov_wf, vecs. cbn [iov iov_used iov_i max_num].
    autorewrite with zlen. rewrite take_ge by (unfold zlen in Hl; lia).
    split; [exists n|]; [|split]; [|rewrite take_app_le; [done|]|]; unfold zlen in *; lia.
  - change (VRINGH_IOV_ALLOCATED =? 0) with false. cbn [negb].
    eexists. split; [done|]. unfold kiov_wf, vecs. cbn [iov iov_used iov_i max_num].
    autorewrite with zlen. 
    split; [exists n|]; [|split]; [|rewrite take_app_le; [done|]|]; unfold zlen in *; lia.
Qed.

(** The array is kept, or a new one has room for eight vectors at least. *)
Definition grown (k k' : vringh_kiov) : Prop := zlen (iov k') = zlen (iov k) \/ 8 <= zlen (iov k').

(** One descriptor of kernel memory is one vector. *)
Lemma add_vectors_kern fuel k a l range :
  kiov_wf k -> iov_used k < 2 ^ 26 -> fits 64 (a + offset range) ->
  exists k', add_vectors no_range_check (S fuel) true k a l range = Ret (k', range, 0)
    /\ kiov_wf k' /\ vecs k' = vecs k ++ [(a + offset range, l)]
    /\ iov_used k' = iov_used k + 1 /\ iov_i k' = iov_i k /\ grown k k'.
Proof.
  intros Hk Hu Hf. cbn [add_vectors]. unfold no_range_check. run_bind.
  destruct (iov_cap_wf k Hk) as (Hc & Hr & Hlt).
  assert (exists k1, (if iov_used k =? iov_cap k then resize_iovec true k else Ret (k, 0)) = Ret (k1, 0)
    /\ kiov_wf k1 /\ vecs k1 = vecs k /\ iov_used k1 = iov_used k /\ iov_i k1 = iov_i k
    /\ iov_used k < zlen (iov k1) /\ grown k k1) as (k1 & -> & Hk1 & Hv & Hu1 & Hi1 & Hlt1 & Hg).
  { unfold grown. case_if; [destruct (resize_wf k Hk ltac:(lia)) as (k1 & H); exists k1; intuition|]. exists k.
    split; [done|]. split; [done|]. split; [done|]. split; [done|]. split; [done|]. split; [lia|auto]. }
  run_bind. cbn [negb Z.eqb]. rewrite aset_ret by lia. run_bind. rewrite Z.eqb_refl. cbn [negb].
  eexists. split; [done|]. unfold vecs, kiov_wf. unfold grown in *. cbn [iov iov_used iov_i max_num].
  rewrite zlen_insert. destruct Hk1 as (c & Hm & Hc1 & Hl1 & _).
  split; [exists c; lia|]. split; [|split; [lia|split; [lia|done]]].
  rewrite (u64_small _ Hf). fold (vecs k). rewrite <- Hv. unfold vecs. rewrite Hu1.
  replace (Z.to_nat (iov_used k + 1)) with (S (Z.to_nat (iov_used k))) by lia.
  rewrite (take_S_r _ _ (a + offset range, l)).
  - by rewrite take_insert_ge by lia.
  - apply list_lookup_insert_eq. unfold zlen in Hlt1. lia.
Qed.

(** The vectors of the readable ([w = false]) or writable segments. *)
Definition seg_vecs (w : bool) (segs : list (Z * Z * bool)) : list (Z * Z) :=
  map fst (List.filter (fun s => Bool.eqb (snd s) w) segs).

(** There is room for [l], or there is nothing to hold. *)
Definition accepts (o : option vringh_kiov) (l : list (Z * Z)) : Prop :=
  match o with
  | Some k => kiov_wf k /\ iov_used k + zlen l < 2 ^ 26 /\ iov_i k = 0
  | None => l = []
  end.

(** [l] has been appended to the vectors. *)
Definition appended (o : option vringh_kiov) (l : list (Z * Z)) (o' : option vringh_kiov) : Prop :=
  match o, o' with
  | Some k, Some k' => kiov_wf k' /\ vecs k' = vecs k ++ l /\ iov_used k' = iov_used k + zlen l
                       /\ iov_i k' = 0 /\ grown k k'
  | None, None => l = []
  | _, _ => False
  end.

Lemma appended_refl o : accepts o [] -> appended o [] o.
Proof. destruct o as [k|]; [|done]. intros (? & _ & ?). simpl. rewrite app_nil_r, Z.add_0_r. unfold grown. intuition. Qed.

Lemma appended_trans o l1 o1 l2 o2 :
  appended o l1 o1 -> appended o1 l2 o2 -> appended o (l1 ++ l2) o2.
Proof.
  destruct o as [k|], o1 as [k1|], o2 as [k2|]; try done; simpl.
  - intros (_ & Hv1 & Hu1 & _ & Hg1) (? & Hv2 & Hu2 & ? & Hg2). rewrite Hv2, Hv1, Hu2, Hu1, app_assoc.
    autorewrite with zlen. rewrite Z.add_assoc. unfold grown in *. intuition lia.
  - by intros -> ->.
Qed.

Lemma accepts_appended o l1 o1 l2 : accepts o (l1 ++ l2) -> appended o l1 o1 -> accepts o1 l2.
Proof.
  destruct o as [k|], o1 as [k1|]; try done; simpl.
  - intros (_ & Hb & _) (? & _ & Hu & ? & _). rewrite zlen_app in Hb. split; [done|]. split; [lia|done].
  - by intros [_ ->]%app_eq_nil _.
Qed.

Lemma seg_vecs_cons w s segs :
  seg_vecs w (s :: segs) = (if Bool.eqb (snd s) w then [fst s] else []) ++ seg_vecs w segs.
Proof. unfold seg_vecs. simpl. by case_if. Qed.

Section Kern.
Context (mem : Z -> list vring_desc) (desc_addr : Z) (vrh : vringh).
#[local] Abbreviation kern_loop := (iov_loop no_range_check (fun _ _ => 0) mem desc_addr).

(** What one counted descriptor does. *)
Lemma kern_desc_step fuel w a n wr nxf nx :
  aget (t_descs (w_table w)) (w_i w)
  = Ret (mkDesc a n (Z.lor (if nxf : bool then VRING_DESC_F_NEXT else 0)
                       (if wr : bool then VRING_DESC_F_WRITE else 0)) nx) ->
  w_count w <> num (vr vrh) -> fits 64 a -> offset (w_range w) = 0 -> w_slow w = None ->
  accepts (w_riov w) (if wr then [] else [(a, n)]) -> accepts (w_wiov w) (if wr then [(a, n)] else []) ->
  exists r' w',
    appended (w_riov w) (if wr then [] else [(a, n)]) r'
    /\ appended (w_wiov w) (if wr then [(a, n)] else []) w'
    /\ kern_loop (S fuel) true vrh w
       = if nxf then
           if t_max (w_table w) <=? nx then Ret (r', w', - EINVAL)
           else kern_loop fuel true vrh (mkWalk nx (w_count w + 1) (w_up_next w) (w_table w) r' w' (w_range w) None)
         else if 0 <? w_up_next w then
           if num (vr vrh) <=? u16 (w_up_next w) then Ret (r', w', - EINVAL)
           else kern_loop fuel true vrh
             (mkWalk (u16 (w_up_next w)) (w_count w + 1) (-1)
                (mkTable desc_addr (desc (vr vrh)) (num (vr vrh))) r' w' (w_range w) None)
         else Ret (r', w', 0).
Proof.
  intros Hd Hc Hf Ho Hs Hr Hw. cbn [iov_loop]. rewrite Hs. run_bind. cbn [negb Z.eqb].
  rewrite Hd. run_bind. cbn [flags addr len next].
  set (fl := Z.lor _ _).
  replace (testflag fl VRING_DESC_F_INDIRECT) with false by by destruct nxf, wr.
  replace (testflag fl VRING_DESC_F_WRITE) with wr by by destruct nxf, wr.
  replace (testflag fl VRING_DESC_F_NEXT) with nxf by by destruct nxf, wr.
  rewrite (proj2 (Z.eqb_neq _ _) Hc). cbn [negb].
  replace (match w_wiov w with Some k => negb (iov_i k =? 0) | None => false end) with false.
  2:{ destruct (w_wiov w) as [k|]; [|done]. destruct Hw as (_ & _ & ->). done. }
  rewrite andb_false_r.
  destruct wr.
  - destruct (w_wiov w) as [k|] eqn:Ew; [|done]. destruct Hw as (Hk & Hb & Hi).
    destruct (add_vectors_kern (Z.to_nat n) k a n (w_range w)) as (k' & -> & Hk' & Hv & Hu & Hi' & Hg).
    { done. } { rewrite zlen_cons in Hb. unfold zlen in Hb. simpl in Hb. lia. }
    { by rewrite Ho, Z.add_0_r. }
    exists (w_riov w), (Some k'). split; [by apply appended_refl|].
    split. { rewrite Ho, Z.add_0_r in Hv. simpl. rewrite Hv, Hu, Hi', Hi. done. }
    run_bind. cbn [negb Z.eqb]. done.
  - destruct (w_riov w) as [k|] eqn:Ew; [|done]. destruct Hr as (Hk & Hb & Hi).
    destruct (add_vectors_kern (Z.to_nat n) k a n (w_range w)) as (k' & -> & Hk' & Hv & Hu & Hi' & Hg).
    { done. } { rewrite zlen_cons in Hb. unfold zlen in Hb. simpl in Hb. lia. }
    { by rewrite Ho, Z.add_0_r. }
    exists (Some k'), (w_wiov w). split.
    { rewrite Ho, Z.add_0_r in Hv. simpl. rewrite Hv, Hu, Hi', Hi. done. }
    split; [by apply appended_refl|].
    run_bind. cbn [negb Z.eqb]. done.
Qed.

(** A well-formed chain is taken in whole. *)
Lemma kern_loop_describes : forall ids segs fuel w,
  describes (t_descs (w_table w)) ids segs -> (forall x, List.hd_error ids = Some x -> w_i w = Z.of_nat x) ->
  t_max (w_table w) = zlen (t_descs (w_table w)) ->
  w_count w + zlen ids <= num (vr vrh) -> (length ids <= fuel)%nat ->
  w_up_next w <= 0 -> offset (w_range w) = 0 -> w_slow w = None ->
  Forall (fun s => fits 64 (fst (fst s))) segs ->
  accepts (w_riov w) (seg_vecs false segs) -> accepts (w_wiov w) (seg_vecs true segs) ->
  exists r' w', kern_loop fuel true vrh w = Ret (r', w', 0)
    /\ appended (w_riov w) (seg_vecs false segs) r' /\ appended (w_wiov w) (seg_vecs true segs) w'.
Proof.
  induction ids as [|x ids IH]; intros [|[[a n] wr] segs] fuel w Hd Hi Hm Hc Hf Hup Ho Hs Hfit Hr Hw;
    try done.
  destruct fuel as [|fuel]; [simpl in Hf; lia|].
  rewrite zlen_cons in Hc. pose proof (zlen_nonneg ids) as Hz.
  inversion Hfit as [|? ? Hfa Hfit']; subst. simpl in Hfa. specialize (Hi x eq_refl).
  rewrite !seg_vecs_cons in *. cbn [fst snd] in *.
  assert (Hstep : exists nx, aget (t_descs (w_table w)) (w_i w)
     = Ret (mkDesc a n (Z.lor (if match ids with [] => false | _ => true end then VRING_DESC_F_NEXT else 0)
                       (if wr : bool then VRING_DESC_F_WRITE else 0)) nx)
     /\ match ids with [] => segs = [] | y :: _ => nx = Z.of_nat y /\ describes (t_descs (w_table w)) ids segs end).
  { rewrite Hi. cbn [describes] in Hd. destruct ids as [|y ids'], segs as [|s segs']; try done.
    - destruct Hd as (nx & Hd). exists nx. by rewrite (aget_nat _ _ _ Hd).
    - destruct Hd as (Hd & Hd'). exists (Z.of_nat y). by rewrite (aget_nat _ _ _ Hd). }
  destruct Hstep as (nx & Hstep & Hrest).
  destruct (kern_desc_step fuel w a n wr _ nx Hstep) as (r' & w' & Hr' & Hw' & ->); try done.
  { lia. }
  { destruct (w_riov w); [|destruct wr; [done|by apply app_eq_nil in Hr as [? _]]].
    destruct Hr as (? & Hb & ?). rewrite zlen_app in Hb. pose proof (zlen_nonneg (seg_vecs false segs)).
    destruct wr; simpl in *; (split; [done|]); (split; [lia|done]). }
  { destruct (w_wiov w); [|destruct wr; [by apply app_eq_nil in Hw as [? _]|done]].
    destruct Hw as (? & Hb & ?). rewrite zlen_app in Hb. pose proof (zlen_nonneg (seg_vecs true segs)).
    destruct wr; simpl in *; (split; [done|]); (split; [lia|done]). }
  replace (if Bool.eqb wr false then [(a, n)] else []) with (if wr then [] else [(a, n)]) in * by by destruct wr.
  replace (if Bool.eqb wr true then [(a, n)] else []) with (if wr then [(a, n)] else []) in * by by destruct wr.
  destruct ids as [|y ids].
  - subst segs. rewrite (proj2 (Z.ltb_ge 0 (w_up_next w))) by lia. exists r', w'.
    change (seg_vecs false []) with (@nil (Z * Z)). change (seg_vecs true []) with (@nil (Z * Z)).
    by rewrite !app_nil_r.
  - destruct Hrest as (-> & Hd').
    destruct (chained_lookup _ _ y (describes_chained _ _ _ Hd')) as (e & He);
      [by apply elem_of_cons; left|]. apply lookup_lt_Some in He.
    rewrite (proj2 (Z.leb_gt (t_max (w_table w)) (Z.of_nat y))) by (unfold zlen in Hm; lia).
    destruct (IH segs fuel (mkWalk (Z.of_nat y) (w_count w + 1) (w_up_next w) (w_table w) r' w' (w_range w) None))
      as (r2 & w2 & -> & Hr2 & Hw2); simpl; try done.
    { intros z [= <-]. done. } { rewrite zlen_cons in *. lia. } { simpl in Hf. lia. }
    { by eapply accepts_appended. } { by eapply accepts_appended. }
    exists r2, w2. split; [done|]. split; by eapply appended_trans.
Qed.

End Kern.

(** ** Getting a chain *)

(** The shape of the ring memory. *)
Record ring_ok (v : vring) : Prop := {
  ro_num : exists k, 0 <= k <= 15 /\ num v = 2 ^ k;
  ro_desc : zlen (desc v) = num v;
  ro_avail : zlen (avail_ring v) = num v + 1;
  ro_used : zlen (used_ring v) = num v;
}.

Lemma ring_num v : ring_ok v -> 0 < num v <= 32768.
Proof.
  intros [(k & Hk & ->) _ _ _]. split; [apply Z.pow_pos_nonneg; lia|].
  change 32768 with (2 ^ 15). apply Z.pow_le_mono_r; lia.
Qed.

Lemma avail_slot v i : ring_ok v -> u16 (Z.land i (num v - 1)) = i mod num v.
Proof.
  intros Hv. pose proof (ring_num v Hv). destruct (ro_num v Hv) as (k & Hk & Hn).
  rewrite Hn, land_mask by lia. apply u16_small. rewrite <- Hn.
  pose proof (Z.mod_pos_bound i (num v)). lia.
Qed.

(** The buffer that starts at [head], by descriptors of the ring or by an
    indirect table of its own. *)
Inductive buffer_at (mem : Z -> list vring_desc) (v : vring) (head : nat) (segs : list (Z * Z * bool)) : Prop :=
| buffer_direct ids :
    describes (desc v) (head :: ids) segs -> zlen (head :: ids) <= num v -> buffer_at mem v head segs
| buffer_indirect a nx :
    desc v !! head = Some (mkDesc a (16 * zlen (mem a)) VRING_DESC_F_INDIRECT nx) -> fits 64 a ->
    describes (mem a) (seq 0 (length (mem a))) segs -> zlen (mem a) <= num v -> buffer_at mem v head segs.

(** The head that the driver has published and the device has not seen. *)
Definition pending (vrh : vringh) (head : nat) : Prop :=
  last_avail_idx vrh <> avail_idx (vr vrh)
  /\ avail_ring (vr vrh) !! Z.to_nat (last_avail_idx vrh mod num (vr vrh)) = Some (Z.of_nat head)
  /\ Z.of_nat head < num (vr vrh).

Lemma get_head_ok vrh head :
  ring_ok (vr vrh) -> pending vrh head ->
  __vringh_get_head no_fault vrh
  = Ret (set_last_avail vrh (u16 (last_avail_idx vrh + 1)), Z.of_nat head).
Proof.
  intros Hv (Hne & Hl & Hlt). pose proof (ring_num _ Hv).
  unfold __vringh_get_head, no_fault. cbn [Z.eqb negb].
  rewrite (proj2 (Z.eqb_neq _ _) Hne), (avail_slot _ _ Hv).
  rewrite (aget_ret _ _ _ (proj1 (Z.mod_pos_bound _ (num (vr vrh)) ltac:(lia))) Hl). run_bind.
  by rewrite (proj2 (Z.leb_gt (num (vr vrh)) (Z.of_nat head))) by lia.
Qed.

(** The vectors before a traversal: the first one given is emptied. *)
Definition cleared (o : option vringh_kiov) : option vringh_kiov := iov_clear <$> o.

Lemma iov_buffer mem desc_addr vrh head segs riov wiov :
  ring_ok (vr vrh) -> buffer_at mem (vr vrh) head segs -> Z.of_nat head < num (vr vrh) ->
  Forall (fun s => fits 64 (fst (fst s))) segs -> riov <> None \/ wiov <> None ->
  let wiov0 := match riov with Some _ => wiov | None => cleared wiov end in
  accepts (cleared riov) (seg_vecs false segs) -> accepts wiov0 (seg_vecs true segs) ->
  exists r' w', __vringh_iov no_range_check (fun _ _ => 0) mem desc_addr true vrh (Z.of_nat head) riov wiov
      = Ret (r', w', 0)
    /\ appended (cleared riov) (seg_vecs false segs) r' /\ appended wiov0 (seg_vecs true segs) w'.
Proof.
  intros Hv Hb Hh Hfit Hsome wiov0 Hr Hw. pose proof (ring_num _ Hv) as Hn. unfold __vringh_iov.
  assert (match riov, wiov with
          | Some r, _ => Ret (Some (iov_clear r), wiov)
          | None, Some w => Ret (None, Some (iov_clear w))
          | None, None => Bug
          end = Ret (cleared riov, wiov0)) as ->.
  { unfold wiov0, cleared. destruct riov, wiov; simpl; try done. destruct Hsome; done. }
  run_bind. destruct Hb as [ids Hd Hl | a nx Hd Ha Hdt Hl].
  - apply (kern_loop_describes mem desc_addr vrh (head :: ids) segs); simpl; try done.
    + intros x [= <-]. done.
    + symmetry. apply (ro_desc _ Hv).
    + unfold zlen in Hl. simpl in Hl. lia.
  - replace (Z.to_nat (2 * num (vr vrh) + 3)) with (S (Z.to_nat (2 * num (vr vrh) + 2))) by lia.
    cbn [iov_loop w_slow w_table t_descs w_i]. run_bind. cbn [negb Z.eqb].
    rewrite (aget_nat _ _ _ Hd). run_bind. cbn [flags addr len].
    replace (testflag VRING_DESC_F_INDIRECT VRING_DESC_F_INDIRECT) with true by done.
    rewrite no_range_check_eq. run_bind. rewrite Z.eqb_refl. cbn [negb].
    unfold move_to_indirect. cbn [w_up_next Z.eqb negb flags len next w_range offset Pos.eqb].
    rewrite (Z.mul_comm 16), Z.mod_mul, Z.div_mul by lia. cbn [negb Z.eqb].
    replace (testflag VRING_DESC_F_INDIRECT VRING_DESC_F_NEXT) with false by done.
    rewrite Z.add_0_r, (u64_small a Ha).
    apply (kern_loop_describes mem desc_addr vrh (seq 0 (length (mem a))) segs); simpl; try done.
    + intros x Hx. destruct (mem a); [done|]. simpl in Hx. by injection Hx as <-.
    + unfold zlen in *. rewrite length_seq. lia.
    + rewrite length_seq. unfold zlen in Hl. lia.
Qed.

(** Taking a published buffer. *)
Lemma getdesc_kern_ok mem desc_addr vrh head segs riov wiov :
  ring_ok (vr vrh) -> pending vrh head -> buffer_at mem (vr vrh) head segs ->
  Forall (fun s => fits 64 (fst (fst s))) segs -> riov <> None \/ wiov <> None ->
  let wiov0 := match riov with Some _ => wiov | None => cleared wiov end in
  accepts (cleared riov) (seg_vecs false segs) -> accepts wiov0 (seg_vecs true segs) ->
  exists r' w', vca_vringh_getdesc_kern mem desc_addr true vrh riov wiov
      = Ret (set_last_avail vrh (u16 (last_avail_idx vrh + 1)), (r', w'), Some (Z.of_nat head), 1)
    /\ appended (cleared riov) (seg_vecs false segs) r' /\ appended wiov0 (seg_vecs true segs) w'.
Proof.
  intros Hv Hp Hb Hfit Hs wiov0 Hr Hw. pose proof Hp as (_ & _ & Hlt).
  unfold vca_vringh_getdesc_kern. rewrite (get_head_ok _ _ Hv Hp). run_bind. cbn [vr set_last_avail].
  rewrite (proj2 (Z.ltb_ge (Z.of_nat head) 0)), (proj2 (Z.eqb_neq (Z.of_nat head) (num (vr vrh)))) by lia.
  set (vrh' := set_last_avail vrh _).
  destruct (iov_buffer mem desc_addr vrh' head segs riov wiov) as (r' & w' & -> & Hr' & Hw'); try done.
  run_bind. cbn [negb Z.eqb]. by exists r', w'.
Qed.

(** C26. When the driver has published the head of a buffer that the device has
    not taken yet, [vca_vringh_getdesc_kern] returns 1 and that head, moves to the
    next entry of the available ring, and appends exactly the buffer's readable
    segments to [riov] and its writable segments to [wiov], in order, whether the
    buffer is a chain of the ring or an indirect table. *)
Theorem vringh_getdesc_kern_correct mem desc_addr vrh head segs riov wiov :
  ring_ok (vr vrh) -> pending vrh head -> buffer_at mem (vr vrh) head segs ->
  Forall (fun s => fits 64 (fst (fst s))) segs -> riov <> None \/ wiov <> None ->
  let wiov0 := match riov with Some _ => wiov | None => cleared wiov end in
  accepts (cleared riov) (seg_vecs false segs) -> accepts wiov0 (seg_vecs true segs) ->
  exists r' w', vca_vringh_getdesc_kern mem desc_addr true vrh riov wiov
      = Ret (set_last_avail vrh (u16 (last_avail_idx vrh + 1)), (r', w'), Some (Z.of_nat head), 1)
    /\ appended (cleared riov) (seg_vecs false segs) r' /\ appended wiov0 (seg_vecs true segs) w'.
Proof. apply getdesc_kern_ok. Qed.

(** ** Hostile rings *)

Definition opt_wf (b : Z) (o : option vringh_kiov) : Prop :=
  match o with Some k => kiov_wf k /\ iov_used k <= b | None => True end.

Lemma opt_wf_mono b b' o : b <= b' -> opt_wf b o -> opt_wf b' o.
Proof. intros Hb. destruct o; simpl; [intros []; split; [done|lia]|done]. Qed.

(** Descriptors as they can be in memory: every field is unsigned. *)
Definition desc_typed (d : vring_desc) : Prop := 0 <= next d < 65536 /\ 0 <= len d /\ fits 64 (addr d).

(** Every indirect table has at least one entry and lies in memory in whole. *)
Definition tables_ok (mem : Z -> list vring_desc) (v : vring) : Prop :=
  Forall desc_typed (desc v) /\ (forall a, Forall desc_typed (mem a))
  /\ Forall (fun d => testflag (flags d) VRING_DESC_F_INDIRECT = true ->
                      16 <= len d /\ len d / 16 <= zlen (mem (addr d))) (desc v).

Lemma add_vectors_total fuel ok k a l range b :
  kiov_wf k -> iov_used k <= b -> b < 2 ^ 26 ->
  exists k' err, add_vectors no_range_check (S fuel) ok k a l range = Ret (k', range, err)
    /\ (err = 0 \/ err = - ENOMEM) /\ kiov_wf k' /\ iov_used k' <= b + 1.
Proof.
  intros Hk Hu Hb. cbn [add_vectors]. rewrite no_range_check_eq. run_bind.
  destruct (iov_cap_wf k Hk) as (Hc & Hr & Hlt).
  assert ((exists k1, (if iov_used k =? iov_cap k then resize_iovec ok k else Ret (k, 0)) = Ret (k1, 0)
     /\ kiov_wf k1 /\ iov_used k1 = iov_used k /\ iov_used k < zlen (iov k1))
   \/ (if iov_used k =? iov_cap k then resize_iovec ok k else Ret (k, 0)) = Ret (k, - ENOMEM))
   as [(k1 & -> & Hk1 & Hu1 & Hlt1) | ->].
  { case_if; [|left; exists k; split; [done|]; split; [done|]; lia].
    destruct ok; [|by right]. left.
    destruct (resize_wf k Hk ltac:(lia)) as (k' & -> & H1 & _ & H2 & _ & H3 & _). by exists k'. }
  - run_bind. cbn [negb Z.eqb]. rewrite aset_ret by lia. run_bind. rewrite Z.eqb_refl. cbn [negb].
    eexists _, 0. split; [done|]. split; [by left|]. unfold kiov_wf. cbn [iov iov_used max_num].
    rewrite zlen_insert. destruct Hk1 as (c & ?). split; [exists c; lia|lia].
  - run_bind. cbn [negb Z.eqb Z.opp ENOMEM]. exists k, (- ENOMEM). split; [done|]. split; [by right|].
    split; [done|lia].
Qed.

(** A property of every element of a concrete list. *)
Ltac forall_in := repeat apply List.Forall_cons; try apply List.Forall_nil; try by vm_compute.

(** Membership in a list of error numbers. *)
Ltac in_list := first [done | apply list_elem_of_In; simpl; auto 10].

Section Hostile.
Context (mem : Z -> list vring_desc) (desc_addr : Z) (ok : bool) (vrh : vringh) (b0 : Z).
Context (Hv : ring_ok (vr vrh)) (Ht : tables_ok mem (vr vrh)) (Hb0 : b0 + num (vr vrh) < 2 ^ 26).
#[local] Abbreviation kern_loop := (iov_loop no_range_check (fun _ _ => 0) mem desc_addr).
#[local] Abbreviation ring_table := (mkTable desc_addr (desc (vr vrh)) (num (vr vrh))).

(** What holds at the top of the loop. *)
Record walk_ok (w : walk) : Prop := {
  wo_i : 0 <= w_i w < t_max (w_table w);
  wo_max : t_max (w_table w) <= zlen (t_descs (w_table w));
  wo_typed : Forall desc_typed (t_descs (w_table w));
  wo_count : 0 <= w_count w <= num (vr vrh);
  wo_up : w_up_next w = -1 -> w_table w = ring_table;
  wo_off : offset (w_range w) = 0;
  wo_slow : w_slow w = None;
  wo_r : opt_wf (b0 + w_count w) (w_riov w);
  wo_w : opt_wf (b0 + w_count w) (w_wiov w);
}.

Definition walk_done (m : outcome walk_result) : Prop :=
  exists r' w' err, m = Ret (r', w', err)
    /\ err ∈ [0; - EINVAL; - ELOOP; - EPROTO; - ENOMEM]
    /\ opt_wf (b0 + num (vr vrh)) r' /\ opt_wf (b0 + num (vr vrh)) w'.

(** The turns that remain: two for each descriptor not counted yet. *)
Definition turns (w : walk) : Z :=
  2 * (num (vr vrh) - w_count w) + (if w_up_next w =? -1 then 1 else 0).

Lemma walk_err w err :
  walk_ok w -> err ∈ [0; - EINVAL; - ELOOP; - EPROTO; - ENOMEM] -> walk_done (Ret (w_riov w, w_wiov w, err)).
Proof.
  intros Hw He. exists (w_riov w), (w_wiov w), err. split; [done|]. split; [done|].
  pose proof (wo_count w Hw).
  split; (eapply opt_wf_mono; [|first [exact (wo_r w Hw)|exact (wo_w w Hw)]]); lia.
Qed.

(** Entering an indirect table. *)
Lemma walk_indirect w d :
  walk_ok w -> t_descs (w_table w) !! Z.to_nat (w_i w) = Some d ->
  testflag (flags d) VRING_DESC_F_INDIRECT = true -> w_up_next w = -1 -> len d mod 16 = 0 ->
  let w' := mkWalk 0 (w_count w) (if testflag (flags d) VRING_DESC_F_NEXT then next d else -2)
              (mkTable (u64 (addr d + offset (w_range w))) (mem (u64 (addr d + offset (w_range w)))) (len d / 16))
              (w_riov w) (w_wiov w) (w_range w) None in
  walk_ok w' /\ turns w' < turns w.
Proof.
  intros Hw Hd Hi Hup Hm w'. destruct Ht as (Htr & Htm & Htt).
  pose proof (wo_up w Hw Hup) as Htab. rewrite Htab in Hd. simpl in Hd.
  assert (Hdt : desc_typed d) by (rewrite List.Forall_forall in Htr; by apply Htr, list_elem_of_In, (list_elem_of_lookup_2 _ _ _ Hd)).
  assert (Hdl : 16 <= len d /\ len d / 16 <= zlen (mem (addr d)))
    by (rewrite List.Forall_forall in Htt; apply Htt; [by apply list_elem_of_In, (list_elem_of_lookup_2 _ _ _ Hd)|done]).
  assert (Ha : u64 (addr d + offset (w_range w)) = addr d).
  { rewrite (wo_off w Hw), Z.add_0_r. apply u64_small. apply Hdt. }
  assert (Hnx : (if testflag (flags d) VRING_DESC_F_NEXT then next d else -2) <> -1).
  { destruct Hdt as (? & _). destruct (testflag (flags d) VRING_DESC_F_NEXT); lia. }
  unfold w'. rewrite Ha. split.
  - destruct Hw. split; cbn [w_i w_count w_up_next w_table w_riov w_wiov w_range w_slow t_max t_descs]; try done.
    + split; [lia|]. assert (1 <= len d / 16) by (apply Z.div_le_lower_bound; lia). lia.
    + lia.
  - unfold turns. cbn [w_count w_up_next]. rewrite Hup, (proj2 (Z.eqb_neq _ _) Hnx), Z.eqb_refl. lia.
Qed.

(** Following a chain, in the same table or back in the ring. *)
Lemma walk_follow w w2 :
  walk_ok w -> w_count w <> num (vr vrh) -> w_count w2 = w_count w + 1 -> 
  w_i w2 < t_max (w_table w2) -> 0 <= w_i w2 ->
  (w_table w2 = w_table w /\ w_up_next w2 = w_up_next w) \/ (w_table w2 = ring_table /\ w_up_next w2 = -1) ->
  w_range w2 = w_range w -> w_slow w2 = None ->
  opt_wf (b0 + (w_count w + 1)) (w_riov w2) -> opt_wf (b0 + (w_count w + 1)) (w_wiov w2) ->
  walk_ok w2 /\ turns w2 < turns w.
Proof.
  intros [] Hne Hc Hlt H0 Htab Hr Hs Hro Hwo. destruct Ht as (Htr & _ & _). split.
  - split; rewrite ?Hc, ?Hr, ?Hs; try done; try lia.
    + destruct Htab as [(-> & _)|(-> & _)]; [done|]. simpl. rewrite (ro_desc _ Hv). lia.
    + destruct Htab as [(-> & _)|(-> & _)]; done.
    + destruct Htab as [(-> & ->)|(-> & _)]; [|done]. done.
  - unfold turns. rewrite Hc. destruct (w_up_next w2 =? -1), (w_up_next w =? -1); cbn iota; lia.
Qed.

(** A counted descriptor: the vector that takes it, or the refusal. *)
Lemma kern_loop_safe : forall fuel w,
  walk_ok w -> turns w < Z.of_nat fuel -> walk_done (kern_loop fuel ok vrh w).
Proof.
  induction fuel as [|fuel IH]; intros w Hw Hf.
  { unfold turns in Hf. pose proof (wo_count w Hw). destruct (w_up_next w =? -1); lia. }
  cbn [iov_loop]. rewrite (wo_slow w Hw). run_bind. cbn [negb Z.eqb].
  destruct (aget_total (t_descs (w_table w)) (w_i w)) as (d & -> & Hd).
  { pose proof (wo_i w Hw). pose proof (wo_max w Hw). lia. }
  run_bind.
  assert (Hdt : desc_typed d) by (pose proof (wo_typed w Hw) as H0; rewrite List.Forall_forall in H0;
    by apply H0, list_elem_of_In, (list_elem_of_lookup_2 _ _ _ Hd)).
  destruct (testflag (flags d) VRING_DESC_F_INDIRECT) eqn:Hind.
  { rewrite no_range_check_eq. run_bind. rewrite Z.eqb_refl. cbn [negb]. unfold move_to_indirect.
    destruct (Z.eqb_spec (w_up_next w) (-1)) as [Hup|Hup]; cbn [negb].
    2:{ apply walk_err; [done|]. in_list. }
    destruct (Z.eqb_spec (len d mod 16) 0) as [Hm|Hm]; cbn [negb].
    2:{ apply walk_err; [done|]. in_list. }
    destruct (walk_indirect w d Hw Hd Hind Hup Hm) as (Hw' & Hlt). apply IH; [done|lia]. }
  destruct (Z.eqb_spec (w_count w) (num (vr vrh))) as [Hc|Hc].
  { apply walk_err; [done|]. in_list. }
  case_if. { apply walk_err; [done|]. in_list. } clear E.
  pose proof (wo_count w Hw) as Hcr.
  set (wr := testflag (flags d) VRING_DESC_F_WRITE).
  assert (Hk : opt_wf (b0 + w_count w) (if wr then w_wiov w else w_riov w)).
  { destruct wr; [apply (wo_w w Hw)|apply (wo_r w Hw)]. }
  destruct (if wr then w_wiov w else w_riov w) as [k|]; [|apply walk_err; [done|in_list]].
  destruct Hk as (Hk & Hu).
  destruct (add_vectors_total (Z.to_nat (len d)) ok k (addr d) (len d) (w_range w) (b0 + w_count w))
    as (k' & err & -> & He & Hk' & Hu'); [done|done|lia|]. run_bind.
  set (r' := if wr then w_riov w else Some k'). set (w' := if wr then Some k' else w_wiov w).
  assert (Hr' : opt_wf (b0 + (w_count w + 1)) r').
  { unfold r'. destruct wr; [|simpl; split; [done|lia]]. eapply opt_wf_mono; [|apply (wo_r w Hw)]. lia. }
  assert (Hw' : opt_wf (b0 + (w_count w + 1)) w').
  { unfold w'. destruct wr; [simpl; split; [done|lia]|]. eapply opt_wf_mono; [|apply (wo_w w Hw)]. lia. }
  assert (Hdone : forall e, e ∈ [0; - EINVAL; - ELOOP; - EPROTO; - ENOMEM] -> walk_done (Ret (r', w', e))).
  { intros e Hin. exists r', w', e. split; [done|]. split; [done|].
    split; (eapply opt_wf_mono; [|done]); lia. }
  destruct (Z.eqb_spec err 0) as [->|Hne]; cbn [negb].
  2:{ apply Hdone. destruct He as [->| ->]; [done|in_list]. }
  destruct Hdt as (Hnx & _). pose proof (u16_range (w_up_next w)) as Hup.
  assert (Hgo : forall i up t, 0 <= i -> (t = w_table w /\ up = w_up_next w) \/ (t = ring_table /\ up = -1) ->
    walk_done (if t_max t <=? i then Ret (r', w', - EINVAL)
               else kern_loop fuel ok vrh (mkWalk i (w_count w + 1) up t r' w' (w_range w) None))).
  { intros i up t Hi Htu. case_if; [apply Hdone; in_list|].
    destruct (walk_follow w (mkWalk i (w_count w + 1) up t r' w' (w_range w) None)) as (? & ?); try done.
    apply IH; [done|lia]. }
  case_if; [apply Hgo; [lia|by left]|].
  case_if; [apply Hgo; [lia|by right]|]. apply Hdone. in_list.
Qed.

End Hostile.

(** The traversal from a head inside the ring. *)
Lemma iov_safe mem desc_addr ok vrh b0 h riov wiov :
  ring_ok (vr vrh) -> tables_ok mem (vr vrh) -> 0 <= h < num (vr vrh) ->
  riov <> None \/ wiov <> None -> 0 <= b0 -> b0 + num (vr vrh) < 2 ^ 26 ->
  opt_wf b0 riov -> opt_wf b0 wiov ->
  walk_done vrh b0 (__vringh_iov no_range_check (fun _ _ => 0) mem desc_addr ok vrh h riov wiov).
Proof.
  intros Hv Ht Hh Hs Hb Hb' Hr Hw. pose proof (ring_num _ Hv) as Hn. unfold __vringh_iov.
  destruct (match riov, wiov with Some r, _ => Ret (Some (iov_clear r), wiov)
          | None, Some w => Ret (None, Some (iov_clear w)) | None, None => Bug end) as [[r0 w0]| | |] eqn:E0;
    [|by destruct riov, wiov; destruct Hs|by destruct riov, wiov|by destruct riov, wiov].
  assert (Hclr : forall k, opt_wf b0 (Some k) -> opt_wf b0 (Some (iov_clear k))).
  { intros k ((c & ? & ? & ? & ?) & ?). split; [exists c|]; simpl; split_and?; try done; lia. }
  assert (Hrw0 : opt_wf b0 r0 /\ opt_wf b0 w0) by (destruct riov, wiov; simplify_eq; split; auto).
  run_bind. apply kern_loop_safe; try done.
  - split; cbn [w_i w_count w_up_next w_table w_riov w_wiov w_range w_slow t_max t_descs]; try done.
    + rewrite (ro_desc _ Hv). lia.
    + apply Ht.
    + lia.
    + rewrite Z.add_0_r. apply Hrw0.
    + rewrite Z.add_0_r. apply Hrw0.
  - unfold turns. cbn [w_count w_up_next]. rewrite Z.eqb_refl. lia.
Qed.

(** The heads a driver can write: 16-bit values. *)
Definition heads_typed (v : vring) : Prop := Forall (fun x => 0 <= x < 65536) (avail_ring v).

(** C6. Whatever the driver has written to its descriptors, tables and available
    ring (loops, wild indices, indirect tables inside indirect tables), provided that
    every indirect table which a descriptor of the ring names (its address and length are the
    driver's too) has at least one entry and lies wholly in readable memory, and that the
    caller's arrays of vectors are consistent and stay below 2^26 entries: taking a
    descriptor chain from kernel memory returns: 0 on an empty ring, 1 with a
    head inside the ring, or an error; it indexes no array outside its bounds,
    and the vector arrays stay consistent.  The proviso is what the code does not check and
    relies on; [vringh_empty_table_overruns] is what happens without it. *)
Theorem vringh_getdesc_kern_safe mem desc_addr ok vrh riov wiov b0 :
  ring_ok (vr vrh) -> tables_ok mem (vr vrh) -> heads_typed (vr vrh) ->
  riov <> None \/ wiov <> None -> 0 <= b0 -> b0 + num (vr vrh) < 2 ^ 26 ->
  opt_wf b0 riov -> opt_wf b0 wiov ->
  exists vrh' r' w' head rc,
    vca_vringh_getdesc_kern mem desc_addr ok vrh riov wiov = Ret (vrh', (r', w'), head, rc)
    /\ rc ∈ [1; 0; - EINVAL; - ELOOP; - EPROTO; - ENOMEM]
    /\ (rc = 0 <-> last_avail_idx vrh = avail_idx (vr vrh))
    /\ (rc = 1 -> exists h, head = Some h /\ 0 <= h < num (vr vrh)
                            /\ last_avail_idx vrh' = u16 (last_avail_idx vrh + 1))
    /\ vr vrh' = vr vrh /\ opt_wf (b0 + num (vr vrh)) r' /\ opt_wf (b0 + num (vr vrh)) w'.
Proof.
  intros Hv Ht Hh Hs Hb Hb' Hr Hw. pose proof (ring_num _ Hv) as Hn.
  assert (Hmono : forall o, opt_wf b0 o -> opt_wf (b0 + num (vr vrh)) o)
    by (intros o; apply opt_wf_mono; lia).
  unfold vca_vringh_getdesc_kern, __vringh_get_head, no_fault. cbn [Z.eqb negb].
  destruct (Z.eqb_spec (last_avail_idx vrh) (avail_idx (vr vrh))) as [He|He].
  { run_bind. rewrite (proj2 (Z.ltb_ge (num (vr vrh)) 0)), Z.eqb_refl by lia.
    eexists _, _, _, _, _. split; [done|]. split; [in_list|]. split; [done|]. split; [done|].
    split; [done|]. split; by apply Hmono. }
  rewrite (avail_slot _ _ Hv).
  destruct (aget_total (avail_ring (vr vrh)) (last_avail_idx vrh mod num (vr vrh))) as (h & -> & Hl).
  { rewrite (ro_avail _ Hv). pose proof (Z.mod_pos_bound (last_avail_idx vrh) (num (vr vrh))). lia. }
  run_bind. assert (Hhr : 0 <= h < 65536) by (unfold heads_typed in Hh; rewrite List.Forall_forall in Hh;
    by apply Hh, list_elem_of_In, (list_elem_of_lookup_2 _ _ _ Hl)).
  destruct (Z.leb_spec (num (vr vrh)) h) as [Hbig|Hsm].
  { run_bind. cbn [Z.opp EINVAL Z.ltb Z.compare].
    eexists _, _, _, _, _. split; [done|]. split; [in_list|]. split; [done|]. split; [done|].
    split; [done|]. split; by apply Hmono. }
  run_bind. cbn [vr set_last_avail].
  rewrite (proj2 (Z.ltb_ge h 0)), (proj2 (Z.eqb_neq h (num (vr vrh)))) by lia.
  set (vrh' := set_last_avail vrh _).
  destruct (iov_safe mem desc_addr ok vrh' b0 h riov wiov) as (r' & w' & err & -> & He' & Hr' & Hw'); try done.
  { simpl. lia. }
  run_bind. destruct (Z.eqb_spec err 0) as [->|Hne]; cbn [negb].
  - eexists _, _, _, _, 1. split; [done|]. split; [in_list|]. split; [done|].
    split; [|done]. intros _. exists h. split; [done|]. split; [lia|done].
  - eexists _, _, _, _, err. split; [done|].
    split; [by apply elem_of_cons; right|].
    assert (err <> 0 /\ err <> 1) as [? ?]. { split; [done|]. intros ->. by apply list_elem_of_In in He'; simpl in He'; intuition. }
    split; [done|]. split; [done|]. done.
Qed.

(** A table of length zero is entered without a look at its length: the
    first descriptor is read past its end. *)
Theorem vringh_empty_table_overruns mem desc_addr ok vrh head d riov wiov :
  ring_ok (vr vrh) -> pending vrh head -> desc (vr vrh) !! head = Some d -> riov <> None \/ wiov <> None ->
  flags d = VRING_DESC_F_INDIRECT -> len d = 0 -> mem (u64 (addr d)) = [] ->
  vca_vringh_getdesc_kern mem desc_addr ok vrh riov wiov = Oob.
Proof.
  intros Hv Hp Hd Hs Hf Hlen Hm. pose proof (ring_num _ Hv) as Hn. pose proof Hp as (_ & _ & Hlt).
  unfold vca_vringh_getdesc_kern. rewrite (get_head_ok _ _ Hv Hp). run_bind. cbn [vr set_last_avail].
  rewrite (proj2 (Z.ltb_ge (Z.of_nat head) 0)), (proj2 (Z.eqb_neq (Z.of_nat head) (num (vr vrh)))) by lia.
  unfold __vringh_iov. cbn [vr set_last_avail].
  replace (Z.to_nat (2 * num (vr vrh) + 3)) with (S (S (Z.to_nat (2 * num (vr vrh) + 1)))) by lia.
  set (s := match riov with Some _ => _ | None => _ end).
  assert (exists p, s = Ret p) as ([r0 w0] & ->) by (unfold s; destruct riov, wiov; eauto; by destruct Hs).
  run_bind. cbn [iov_loop w_slow w_table t_descs w_i]. run_bind. cbn [negb Z.eqb].
  rewrite (aget_nat _ _ _ Hd). run_bind. rewrite Hf, Hlen.
  replace (testflag VRING_DESC_F_INDIRECT VRING_DESC_F_INDIRECT) with true by done.
  rewrite !no_range_check_eq. run_bind. cbn [negb Z.eqb].
  unfold move_to_indirect. rewrite Hf, Hlen. cbn [w_up_next Z.eqb negb Pos.eqb w_range offset w_slow w_table t_descs w_i].
  rewrite Z.add_0_r, Hm. done.
Qed.

(** ** Transferring bytes *)

(** The addresses of the bytes that have not been transferred yet. *)
Definition vec_bytes (v : Z * Z) : list Z := seqZ (fst v) (snd v).
Definition remaining (k : vringh_kiov) : list Z :=
  concat (map vec_bytes (drop (Z.to_nat (iov_i k)) (vecs k))).

(** The vectors as they were before the transfers: only the current one has
    been moved forward. *)
Definition original (k : vringh_kiov) : list (Z * Z) :=
  match iov k !! Z.to_nat (iov_i k) with
  | Some (b, l) => <[Z.to_nat (iov_i k) := (b - consumed k, l + consumed k)]> (iov k)
  | None => iov k
  end.

Record iov_ok (k : vringh_kiov) : Prop := {
  io_wf : kiov_wf k;
  io_i : 0 <= iov_i k <= iov_used k;
  io_len : Forall (fun v => 0 <= snd v) (iov k);
  io_cons : 0 <= consumed k;
  io_end : iov_i k = iov_used k -> consumed k = 0;
}.

(** The current vector and the ones after it. *)
Lemma current_vec k : iov_ok k -> iov_i k < iov_used k ->
  exists b l, iov k !! Z.to_nat (iov_i k) = Some (b, l) /\ 0 <= l
    /\ drop (Z.to_nat (iov_i k)) (vecs k) = (b, l) :: drop (S (Z.to_nat (iov_i k))) (vecs k).
Proof.
  intros [Hwf Hi Hl _ _] Hlt. destruct (iov_cap_wf k Hwf) as (_ & Hu & _).
  destruct (lookup_lt_is_Some_2 (iov k) (Z.to_nat (iov_i k))) as ([b l] & Hx); [unfold zlen in Hu; lia|].
  exists b, l. split; [done|]. split.
  - rewrite List.Forall_forall in Hl. by apply (Hl (b, l)), list_elem_of_In, (list_elem_of_lookup_2 _ _ _ Hx).
  - apply drop_S. unfold vecs. rewrite lookup_take_lt by lia. done.
Qed.

(** Replacing the current vector. *)
Lemma iov_ok_update k b l c i :
  iov_ok k -> iov_i k < iov_used k -> 0 <= l -> 0 <= c -> iov_i k <= i <= iov_used k ->
  (i = iov_used k -> c = 0) ->
  iov_ok (mkIov (<[Z.to_nat (iov_i k) := (b, l)]> (iov k)) c i (iov_used k) (max_num k)).
Proof.
  intros [(cap & ? & ? & ? & ?) Hi Hl _ _] Hlt Hl0 Hc Hi' He.
  split; cbn [iov iov_i iov_used consumed]; try done; [|lia|].
  - exists cap. cbn [iov iov_used max_num]. by rewrite zlen_insert.
  - by apply Forall_insert.
Qed.

Lemma vecs_update k b l c i :
  drop (S (Z.to_nat (iov_i k)))
    (vecs (mkIov (<[Z.to_nat (iov_i k) := (b, l)]> (iov k)) c i (iov_used k) (max_num k)))
  = drop (S (Z.to_nat (iov_i k))) (vecs k).
Proof.
  unfold vecs. cbn [iov iov_used]. rewrite !skipn_firstn_comm. by rewrite drop_insert_lt by lia.
Qed.

Lemma original_done k : consumed k = 0 -> original k = iov k.
Proof.
  intros Hc. unfold original. destruct (iov k !! _) as [[b l]|] eqn:E; [|done].
  rewrite Hc, Z.sub_0_r, Z.add_0_r. by apply list_insert_id.
Qed.

Definition copy_from (c : Z * Z * Z) : list Z := seqZ (fst (fst c)) (snd c).
Definition copy_to (c : Z * Z * Z) : list Z := seqZ (snd (fst c)) (snd c).

(** What a transfer of [n] bytes from [k] has done when it gets to [k'] with the
    copies [cs]: it has moved the first [m] of the remaining bytes. *)
Definition moved (k : vringh_kiov) (ptr m : Z) (k' : vringh_kiov) (cs : list (Z * Z * Z)) : Prop :=
  iov_ok k' /\ iov_used k' = iov_used k /\ original k' = original k
  /\ remaining k' = drop (Z.to_nat m) (remaining k)
  /\ concat (map copy_from cs) = take (Z.to_nat m) (remaining k)
  /\ concat (map copy_to cs) = seqZ ptr m.

(** The current vector is moved as a whole. *)
Definition vec_done (k : vringh_kiov) (b l : Z) : vringh_kiov :=
  mkIov (<[Z.to_nat (iov_i k) := (b - consumed k, consumed k + l)]> (iov k)) 0 (iov_i k + 1) (iov_used k) (max_num k).

Lemma remaining_cons k b l : iov_ok k -> iov_i k < iov_used k -> iov k !! Z.to_nat (iov_i k) = Some (b, l) ->
  remaining k = seqZ b l ++ remaining (vec_done k b l) /\ zlen (seqZ b l) = l
  /\ original k = original (vec_done k b l) /\ iov_ok (vec_done k b l).
Proof.
  intros Hok Hlt Hx. destruct (current_vec k Hok Hlt) as (b' & l' & Hx' & Hl & Hv). simplify_eq.
  pose proof (io_cons k Hok) as Hc. pose proof (io_i k Hok) as Hi.
  split; [|split; [unfold zlen; rewrite length_seqZ; lia|split]].
  - unfold remaining at 1. rewrite Hv. cbn [map concat]. f_equal. unfold remaining, vec_done. cbn [iov_i].
    replace (Z.to_nat (iov_i k + 1)) with (S (Z.to_nat (iov_i k))) by lia. by rewrite vecs_update.
  - rewrite (original_done (vec_done _ _ _)) by done. unfold original. rewrite Hx. cbn [iov vec_done].
    by rewrite (Z.add_comm l).
  - apply iov_ok_update; try done; lia.
Qed.

Lemma moved_whole k ptr b l m k' cs :
  iov_ok k -> iov_i k < iov_used k -> iov k !! Z.to_nat (iov_i k) = Some (b, l) -> 0 <= l -> 0 <= m ->
  moved (vec_done k b l) (ptr + l) m k' cs -> moved k ptr (l + m) k' ((b, ptr, l) :: cs).
Proof.
  intros Hok Hlt Hx Hl Hm (Hok' & Hu & Ho & Hr & Hfrom & Hto).
  destruct (remaining_cons k b l Hok Hlt Hx) as (Hrem & Hz & Hor & _).
  assert (Hl' : length (seqZ b l) = Z.to_nat l) by (unfold zlen in Hz; lia).
  split; [done|]. split; [done|]. split; [congruence|]. rewrite Z2Nat.inj_add, Hrem by lia.
  split; [rewrite Hr, drop_app_ge by lia; f_equal; lia|]. cbn [map concat]. split.
  - rewrite take_app_ge by lia. unfold copy_from at 1. cbn [fst snd]. rewrite Hfrom. f_equal. f_equal. lia.
  - unfold copy_to at 1. cbn [fst snd]. rewrite Hto. symmetry. by apply seqZ_app.
Qed.

(** The transfer ends inside the current vector. *)
Lemma moved_part k ptr b l n :
  iov_ok k -> iov_i k < iov_used k -> iov k !! Z.to_nat (iov_i k) = Some (b, l) -> 0 <= n < l ->
  moved k ptr n (mkIov (<[Z.to_nat (iov_i k) := (b + n, l - n)]> (iov k)) (consumed k + n) (iov_i k)
                   (iov_used k) (max_num k)) [(b, ptr, n)].
Proof.
  intros Hok Hlt Hx Hn. set (k1 := mkIov _ _ _ _ _). pose proof (io_cons k Hok) as Hc. pose proof (io_i k Hok) as Hi.
  destruct (current_vec k Hok Hlt) as (b' & l' & Hx' & _ & Hv). assert (b' = b /\ l' = l) as [-> ->] by by simplify_eq.
  destruct (iov_cap_wf k (io_wf k Hok)) as (_ & Hu & _). unfold zlen in Hu.
  assert (Hok1 : iov_ok k1) by (apply iov_ok_update; try done; lia).
  assert (Hin : iov k1 !! Z.to_nat (iov_i k) = Some (b + n, l - n)) by (apply list_lookup_insert_eq; lia).
  split; [done|]. split; [done|]. split.
  { unfold original. cbn [iov_i k1]. rewrite Hin, Hx. cbn [iov consumed k1]. rewrite list_insert_insert_eq.
    f_equal. f_equal; lia. }
  assert (Hsp : seqZ b l = seqZ b n ++ seqZ (b + n) (l - n)) by (rewrite <- seqZ_app by lia; f_equal; lia).
  assert (Hln : length (seqZ b n) = Z.to_nat n) by (rewrite length_seqZ; lia).
  assert (Hrem : remaining k = seqZ b n ++ seqZ (b + n) (l - n) ++ concat (map vec_bytes (drop (S (Z.to_nat (iov_i k))) (vecs k)))).
  { unfold remaining. rewrite Hv. cbn [map concat]. unfold vec_bytes at 1. cbn [fst snd]. by rewrite Hsp, <- app_assoc. }
  rewrite Hrem, drop_app_length', take_app_length' by done. cbn [map concat]. rewrite !app_nil_r. split; [|done].
  unfold remaining. destruct (current_vec k1 Hok1 Hlt) as (b1 & l1 & Hx1 & _ & ->).
  cbn [iov_i k1] in Hx1 |- *. rewrite Hin in Hx1. injection Hx1 as <- <-. cbn [map concat]. f_equal.
  unfold k1. by rewrite vecs_update.
Qed.

Lemma xfer_loop_ok fuel : forall k ptr n done copies,
  iov_ok k -> 0 <= n -> iov_used k - iov_i k < Z.of_nat fuel -> 0 <= done -> done + n < 2 ^ 31 ->
  exists k' cs,
    let m := Z.min n (zlen (remaining k)) in
    iov_xfer_loop (fun _ _ _ => 0) fuel k ptr n done copies = Ret (k', done + m, copies ++ cs)
    /\ moved k ptr m k' cs.
Proof.
  induction fuel as [|fuel IH]; intros k ptr n done copies Hok Hn Hf Hd Hb; [pose proof (io_i k Hok); lia|].
  cbn [iov_xfer_loop]. destruct (Z.eqb_spec n 0) as [->|Hn0]; cbn [negb andb].
  { exists k, []. cbn zeta. rewrite Z.min_l by apply zlen_nonneg. by rewrite app_nil_r, Z.add_0_r. }
  destruct (Z.ltb_spec (iov_i k) (iov_used k)) as [Hlt|Hge].
  2:{ assert (remaining k = []) as Hr.
      { unfold remaining. rewrite drop_ge; [done|]. unfold vecs. rewrite length_take. lia. }
      exists k, []. cbn zeta. unfold moved. rewrite Hr. change (zlen []) with 0. rewrite Z.min_r by lia.
      by rewrite app_nil_r, Z.add_0_r. }
  destruct (current_vec k Hok Hlt) as (b & l & Hx & Hl & _). pose proof (io_i k Hok) as Hi.
  destruct (iov_cap_wf k (io_wf k Hok)) as (_ & Hu & _).
  destruct (remaining_cons k b l Hok Hlt Hx) as (Hrem & Hz & _ & Hok1).
  rewrite (aget_ret _ _ _ (proj1 Hi) Hx). run_bind. cbn [Z.eqb negb].
  pose proof (zlen_nonneg (remaining (vec_done k b l))) as Hz0.
  destruct (Z.le_gt_cases l n) as [Hle|Hgt].
  - rewrite Z.min_l by lia. rewrite Z.sub_diag. cbn [Z.eqb]. rewrite aset_ret by lia. run_bind.
    replace (b + l - (consumed k + l)) with (b - consumed k) by lia. fold (vec_done k b l). rewrite s32_small by lia.
    destruct (IH (vec_done k b l) (ptr + l) (n - l) (done + l) (copies ++ [(b, ptr, l)])) as (k' & cs & Hrun & Hmv);
      [done|lia|simpl; lia|lia|lia|].
    exists k', ((b, ptr, l) :: cs). cbn zeta in *. set (m1 := Z.min (n - l) _) in *.
    replace (Z.min n (zlen (remaining k))) with (l + m1) by (rewrite Hrem, zlen_app, Hz; lia).
    rewrite Hrun. split; [by rewrite <- Z.add_assoc, <- app_assoc|]. apply moved_whole; try done. lia.
  - rewrite Z.min_r by lia. rewrite (proj2 (Z.eqb_neq (l - n) 0)) by lia.
    rewrite aset_ret by lia. run_bind. rewrite Z.sub_diag. eexists _, [(b, ptr, n)]. cbn zeta.
    replace (Z.min n (zlen (remaining k))) with n by (rewrite Hrem, zlen_app, Hz; lia).
    split; [|by apply (moved_part k ptr b l n)]. rewrite s32_small by lia. destruct fuel; done.
Qed.

(** Pulling (or pushing) [n] bytes transfers exactly the next [n] bytes of
    the vectors, or all that remain when they are fewer, between those addresses
    and consecutive ones from [ptr], and returns their number; what remains are
    the other bytes.  While a byte of vector space is left unused,
    [vringh_kiov_reset] afterwards puts the vectors back as they were before any
    transfer. *)
Theorem vringh_iov_pull_correct k ptr n :
  iov_ok k -> 0 <= n < 2 ^ 31 ->
  exists k' cs,
    let m := Z.min n (zlen (remaining k)) in
    vca_vringh_iov_pull_kern k ptr n = Ret (k', m, cs)
    /\ concat (map copy_from cs) = take (Z.to_nat m) (remaining k)
    /\ concat (map copy_to cs) = seqZ ptr m
    /\ remaining k' = drop (Z.to_nat m) (remaining k) /\ iov_ok k'
    /\ (iov_i k' < zlen (iov k') ->
        vringh_kiov_reset k' = Ret (mkIov (original k) 0 0 (iov_used k) (max_num k'))).
Proof.
  intros Hok Hn. unfold vca_vringh_iov_pull_kern, vringh_iov_xfer.
  destruct (xfer_loop_ok (S (Z.to_nat (iov_used k - iov_i k))) k ptr n 0 [])
    as (k' & cs & Hrun & Hok' & Hu & Ho & Hr & Hfrom & Hto); [done|lia|lia|lia|lia|].
  cbn zeta in *. exists k', cs. rewrite Hrun. split; [done|]. split; [done|]. split; [done|].
  split; [done|]. split; [done|]. intros Hlt. pose proof (io_i k' Hok') as Hi'.
  destruct (aget_total (iov k') (iov_i k')) as ([b l] & Hg & Hx); [lia|].
  unfold vringh_kiov_reset. rewrite Hg. run_bind. rewrite aset_ret by lia. run_bind.
  f_equal. rewrite <- Ho, <- Hu. unfold original. by rewrite Hx.
Qed.


(** The index after one more completion. *)
Lemma used_next a c : u16 (a + u32 (c + 1)) = u16 (u16 (a + c) + 1).
Proof.
  unfold u16, u32, wrap. rewrite Zplus_mod_idemp_l.
  rewrite <- (Zplus_mod_idemp_r _ a), Z.mod_mod_divide, Zplus_mod_idemp_r;
    [f_equal; lia|]. by exists (2 ^ 16).
Qed.

(** The ring's used entries and index, after the device has given back [u]. *)
Lemma complete_one vrh u :
  ring_ok (vr vrh) ->
  let idx := u16 (vh_last_used_idx vrh + completed vrh) in
  __vringh_complete no_fault vrh [u]
  = Ret (mkVrh (event_indices vrh) (last_avail_idx vrh) (vh_last_used_idx vrh) (u32 (completed vrh + 1))
           (set_used (vr vrh) (used_flags (vr vrh)) (u16 (idx + 1))
              (<[Z.to_nat (idx mod num (vr vrh)) := u]> (used_ring (vr vrh)))), 0).
Proof.
  intros Hv idx. pose proof (ring_num _ Hv) as Hn. unfold __vringh_complete. fold idx.
  rewrite (proj2 (Z.eqb_neq (num (vr vrh)) 0)) by lia. simpl bug_on. run_bind.
  change (zlen [u]) with 1. cbn [Z.ltb Z.compare Pos.compare Pos.compare_cont andb].
  unfold put_entries, no_fault. change (zlen [u]) with 1. cbn [Z.ltb Z.compare Pos.compare Pos.compare_cont andb Z.eqb negb].
  pose proof (Z.mod_pos_bound idx (num (vr vrh)) ltac:(lia)) as Hm.
  rewrite (u16_small (idx mod num (vr vrh))) by lia. unfold putused. change (zlen [u]) with 1.
  rewrite (ro_used _ Hv). if_true. run_bind. cbn [negb Z.eqb]. simpl length.
  assert (Hins : take (Z.to_nat (idx mod num (vr vrh))) (used_ring (vr vrh))
     ++ [u] ++ drop (Z.to_nat (idx mod num (vr vrh)) + 1) (used_ring (vr vrh))
     = <[Z.to_nat (idx mod num (vr vrh)) := u]> (used_ring (vr vrh))).
  { rewrite insert_take_drop, Nat.add_1_r; [done|]. pose proof (ro_used _ Hv) as Hu. unfold zlen in Hu. lia. }
  rewrite Hins. done.
Qed.

Lemma putused_ok (l : list vring_used_elem) off es :
  0 <= off -> off + zlen es <= zlen l ->
  exists l', putused l off es = Ret l' /\ zlen l' = zlen l
    /\ forall i, 0 <= i < zlen l ->
       l' !! Z.to_nat i = if (off <=? i) && (i <? off + zlen es) then es !! Z.to_nat (i - off) else l !! Z.to_nat i.
Proof.
  intros H0 H1. unfold putused. if_true. eexists. split; [done|]. unfold zlen in *. split.
  { rewrite !length_app, length_take, length_drop. lia. }
  intros i Hi. destruct (Z.leb_spec off i) as [Hle|Hgt]; cbn [andb].
  - rewrite lookup_app_r by (rewrite length_take; lia). rewrite length_take.
    replace (Z.to_nat i - Nat.min (Z.to_nat off) (length l))%nat with (Z.to_nat (i - off)) by lia.
    destruct (Z.ltb_spec i (off + Z.of_nat (length es))) as [Hlt|Hge].
    + by rewrite lookup_app_l by lia.
    + rewrite lookup_app_r, lookup_drop by lia. f_equal. lia.
  - rewrite lookup_app_l by (rewrite length_take; lia). by rewrite lookup_take_lt by lia.
Qed.

(** Slots of the used ring counted from [idx]. *)
Lemma ring_dist n idx i : 0 < n -> 0 <= i < n ->
  (i - idx) mod n = if idx mod n <=? i then i - idx mod n else i + n - idx mod n.
Proof.
  intros Hn Hi. pose proof (Z.div_mod idx n ltac:(lia)). pose proof (Z.mod_pos_bound idx n Hn).
  case_if; symmetry.
  - apply (Z.mod_unique_pos _ _ (- (idx / n))); lia.
  - apply (Z.mod_unique_pos _ _ (- (idx / n) - 1)); lia.
Qed.

(** The part of [__vringh_complete] that writes the entries, around the end of
    the ring if needed. *)
Lemma complete_ring fault v idx used :
  ring_ok v -> 0 < zlen used <= num v ->
  let off := u16 (idx mod num v) in
  exists ring err,
    put_entries fault v off used = Ret (ring, err)
    /\ zlen ring = num v
    /\ (err = 0 -> forall i, 0 <= i < num v ->
          ring !! Z.to_nat i = let j := (i - idx) mod num v in
                               if j <? zlen used then used !! Z.to_nat j else used_ring v !! Z.to_nat i).
Proof.
  intros Hv Hu off. pose proof (ring_num v Hv) as Hn. pose proof (ro_used v Hv) as Hr.
  pose proof (Z.mod_pos_bound idx (num v) ltac:(lia)) as Hm.
  assert (Hoff : off = idx mod num v) by (apply u16_small; lia).
  unfold put_entries. destruct (Z.eqb_spec (fault (LUsedRing off)) 0) as [He1|He1]; cbn [negb].
  2:{ exists (used_ring v), (fault (LUsedRing off)). split; [by destruct (_ && _)|]. done. }
  destruct ((1 <? zlen used) && (num v <=? off + zlen used)) eqn:Hw.
  - bools. cbn zeta. rewrite u16_small by lia. set (part := num v - off).
    assert (Ht : zlen (take (Z.to_nat part) used) = part) by (unfold zlen in *; rewrite length_take; lia).
    assert (Hd : zlen (drop (Z.to_nat part) used) = zlen used - part) by (unfold zlen in *; rewrite length_drop; lia).
    destruct (putused_ok (used_ring v) off (take (Z.to_nat part) used)) as (r1 & -> & Hl1 & Hr1); [lia|lia|].
    run_bind. destruct (Z.eqb_spec (fault (LUsedRing 0)) 0) as [He2|He2]; cbn [negb].
    2:{ exists r1, (fault (LUsedRing 0)). split; [done|]. split; [lia|done]. }
    destruct (putused_ok r1 0 (drop (Z.to_nat part) used)) as (r2 & -> & Hl2 & Hr2); [lia|lia|].
    run_bind. exists r2, 0. split; [done|]. split; [lia|]. intros _ i Hi. cbn zeta.
    rewrite Hr2, Hd, ring_dist by lia. rewrite <- Hoff.
    rewrite (proj2 (Z.leb_le 0 i)) by lia. cbn [andb]. rewrite Z.add_0_l, Z.sub_0_r.
    destruct (Z.leb_spec off i) as [Hle|Hgt].
    + rewrite (proj2 (Z.ltb_ge i (zlen used - part))) by lia. rewrite Hr1, Ht by lia.
      if_true. rewrite (proj2 (Z.ltb_lt (i - off) (zlen used))) by lia. by rewrite lookup_take_lt by lia.
    + destruct (Z.ltb_spec i (zlen used - part)).
      * rewrite (proj2 (Z.ltb_lt (i + num v - off) (zlen used))) by lia. rewrite lookup_drop. f_equal. lia.
      * rewrite (proj2 (Z.ltb_ge (i + num v - off) (zlen used))) by lia. rewrite Hr1 by lia.
        by rewrite (proj2 (Z.leb_gt off i)) by lia.
  - assert (Hfit : off + zlen used <= num v).
    { apply andb_false_iff in Hw as [H%Z.ltb_ge|H%Z.leb_gt]; lia. }
    cbn zeta. destruct (putused_ok (used_ring v) off used) as (r1 & -> & Hl1 & Hr1); [lia|lia|]. run_bind.
    exists r1, 0. split; [done|]. split; [lia|]. intros _ i Hi. rewrite Hr1, ring_dist by lia. rewrite <- Hoff.
    destruct (Z.leb_spec off i) as [Hle|Hgt]; cbn [andb].
    + replace (i <? off + zlen used) with (i - off <? zlen used); [done|].
      destruct (Z.ltb_spec (i - off) (zlen used)), (Z.ltb_spec i (off + zlen used)); lia.
    + by rewrite (proj2 (Z.ltb_ge (i + num v - off) (zlen used))) by lia.
Qed.

(** Giving back a batch of buffers writes them to consecutive slots of the
    used ring from the current index, around its end if needed, changes no other
    slot, and only then moves the used index by their number; when an access
    fails the index the driver reads does not move. *)
Theorem vringh_complete_multi_correct fault vrh used :
  ring_ok (vr vrh) -> 0 < zlen used <= num (vr vrh) ->
  let idx := u16 (vh_last_used_idx vrh + completed vrh) in
  exists vrh' rc, vca_vringh_complete_multi_user fault vrh used = Ret (vrh', rc)
    /\ ring_ok (vr vrh') /\ last_avail_idx vrh' = last_avail_idx vrh
    /\ (rc <> 0 -> used_idx (vr vrh') = used_idx (vr vrh) /\ completed vrh' = completed vrh)
    /\ (rc = 0 -> used_idx (vr vrh') = u16 (idx + zlen used)
        /\ completed vrh' = u32 (completed vrh + zlen used)
        /\ forall i, 0 <= i < num (vr vrh) ->
           used_ring (vr vrh') !! Z.to_nat i
           = let j := (i - idx) mod num (vr vrh) in
             if j <? zlen used then used !! Z.to_nat j else used_ring (vr vrh) !! Z.to_nat i).
Proof.
  intros Hv Hu idx. pose proof (ring_num _ Hv) as Hn. unfold vca_vringh_complete_multi_user, __vringh_complete.
  fold idx. rewrite (proj2 (Z.eqb_neq (num (vr vrh)) 0)) by lia. simpl bug_on. run_bind.
  destruct (complete_ring fault (vr vrh) idx used Hv Hu) as (ring & err & -> & Hl & Hring). run_bind.
  assert (Hok : forall fl ix, ring_ok (set_used (vr vrh) fl ix ring)) by (intros fl ix; destruct Hv; by split).
  destruct (Z.eqb_spec err 0) as [->|He]; cbn [negb].
  - destruct (Z.eqb_spec (fault LUsedIdx) 0) as [Hf|Hf]; cbn [negb].
    + eexists _, 0. split; [done|]. split; [apply Hok|]. split; [done|]. split; [done|]. intros _.
      split; [done|]. split; [done|]. by apply Hring.
    + eexists _, _. split; [done|]. split; [apply Hok|]. split; [done|]. done.
  - eexists _, _. split; [done|]. split; [apply Hok|]. split; [done|]. done.
Qed.

(** With event indices, the device notifies the driver exactly when one of
    the entries completed since the last check is the one the driver asked for
    (or when they are more than the indices can tell apart), and starts a new
    batch; without them, exactly when the driver has not switched interrupts
    off. *)
Theorem vringh_need_notify_correct vrh :
  ring_ok (vr vrh) -> fits 16 (vh_last_used_idx vrh) -> 0 <= completed vrh ->
  Forall (fits 16) (avail_ring (vr vrh)) ->
  exists vrh' rc, vca_vringh_need_notify_kern vrh = Ret (vrh', rc) /\ vr vrh' = vr vrh
    /\ if event_indices vrh then
         exists ev, avail_ring (vr vrh) !! Z.to_nat (num (vr vrh)) = Some ev
           /\ (rc = 1 <-> 0xffff < completed vrh
                          \/ exists j, 0 <= j < completed vrh /\ ev = u16 (vh_last_used_idx vrh + j))
           /\ vh_last_used_idx vrh' = u16 (vh_last_used_idx vrh + completed vrh) /\ completed vrh' = 0
       else vrh' = vrh /\ (rc = 1 <-> testflag (avail_flags (vr vrh)) VRING_AVAIL_F_NO_INTERRUPT = false).
Proof.
  intros Hv Hlu Hc Hav. pose proof (ring_num _ Hv) as Hn.
  unfold vca_vringh_need_notify_kern, __vringh_need_notify, no_fault. cbn [Z.eqb negb].
  destruct (event_indices vrh) eqn:Hei; cbn [negb].
  - destruct (aget_total (avail_ring (vr vrh)) (num (vr vrh))) as (ev & -> & Hl);
      [rewrite (ro_avail _ Hv); lia|]. run_bind.
    assert (Hev : fits 16 ev) by (rewrite List.Forall_forall in Hav;
      by apply Hav, list_elem_of_In, (list_elem_of_lookup_2 _ _ _ Hl)).
    eexists _, _. split; [done|]. split; [done|]. exists ev. split; [done|]. split; [|done].
    destruct (Z.ltb_spec 0xffff (completed vrh)) as [Hbig|Hsm].
    + split; [by left|done].
    + pose proof (vring_need_event_iff ev (vh_last_used_idx vrh) (completed vrh) Hev Hlu ltac:(lia)) as Hiff.
      destruct (vring_need_event _ _ _); split.
      * intros _. right. by apply Hiff.
      * done.
      * done.
      * intros [?|Hj]; [lia|]. by apply Hiff in Hj.
  - eexists _, _. split; [done|]. split; [done|]. split; [done|]. by destruct (testflag _ _).
Qed.

(** [vca_vringh_notify_enable_kern] answers [true] exactly when the driver has
    published nothing new; then the driver's next kick, after any number of
    additions, notifies the device: no buffer is left waiting. *)
Theorem vringh_notify_enable_no_lost_kick vrh vq n :
  fits 16 (last_avail_idx vrh) -> fits 16 (avail_idx (vr vrh)) ->
  let '(vrh', none) := vca_vringh_notify_enable_kern vrh in
  (none = true <-> avail_idx (vr vrh) = last_avail_idx vrh)
  /\ last_avail_idx vrh' = last_avail_idx vrh
  /\ (none = true -> event_ok vq = event_indices vrh -> 0 < n < 65536 -> num_added vq = n ->
      used_flags (ring vq) = used_flags (vr vrh') -> avail_event (ring vq) = avail_event (vr vrh') ->
      avail_idx (ring vq) = u16 (avail_idx (vr vrh') + n) ->
      snd (vca_virtqueue_kick_prepare vq) = true).
Proof.
  intros Hla Hai. unfold vca_vringh_notify_enable_kern, __vringh_notify_enable, no_fault. cbn [Z.eqb negb].
  assert (Hold : forall n, 0 < n < 65536 -> u16 (u16 (avail_idx (vr vrh) + n) - n) = avail_idx (vr vrh)).
  { intros m Hm. unfold u16, wrap, fits in *. change (2 ^ 16) with 65536 in *.
    rewrite Zminus_mod_idemp_l, Z.add_simpl_r. by apply Z.mod_small. }
  destruct (event_indices vrh) eqn:Hei; cbn [negb]; cbn [vr set_vr last_avail_idx avail_idx set_avail_event set_used avail_event used_flags].
  - split; [apply Z.eqb_eq|]. split; [done|]. intros Heq Hev Hn Hna Hfl Hae Hidx. apply Z.eqb_eq in Heq.
    unfold vca_virtqueue_kick_prepare. cbn [snd event_ok upd_added]. rewrite Hev, Hidx, Hae, Hna.
    rewrite Hold by done. apply vring_need_event_iff; [done|done|lia|]. exists 0.
    split; [lia|]. rewrite Z.add_0_r, Heq. symmetry. by apply u16_small.
  - split; [apply Z.eqb_eq|]. split; [done|]. intros _ Hev Hn Hna Hfl Hae Hidx.
    unfold vca_virtqueue_kick_prepare. cbn [snd event_ok upd_added]. by rewrite Hev, Hfl.
Qed.

(** ** Witnesses *)

(** A ring of four: a chain of a readable and a writable segment at 0, and an
    indirect buffer at 2, both published. *)
Definition demo_ring : vring :=
  mkVring 4 [mkDesc 0x1000 64 1 1; mkDesc 0x2000 32 2 0; mkDesc 0x9000 32 4 0; mkDesc 0xA000 0 4 0]
    0 2 [0; 2; 3; 0; 0] 0 0 (replicate 4 (mkUsed 0 0)) 0.
Definition demo_mem (a : Z) : list vring_desc :=
  if a =? 0x9000 then [mkDesc 0x3000 8 1 1; mkDesc 0x4000 16 2 0] else [].
Definition demo_vrh : vringh := mkVrh true 0 0 0 demo_ring.
Definition demo_iov : vringh_kiov := vringh_kiov_init [(0, 0)] 1.

Lemma demo_ring_ok : ring_ok demo_ring.
Proof. split; try done. by exists 2. Qed.
Lemma demo_iov_wf : kiov_wf demo_iov.
Proof. exists 1. unfold VRINGH_IOV_ALLOCATED. split; [by left|]. done. Qed.

Lemma vringh_getdesc_kern_correct_witness :
  exists r' w', vca_vringh_getdesc_kern demo_mem 0x100 true demo_vrh (Some demo_iov) (Some demo_iov)
      = Ret (set_last_avail demo_vrh 1, (r', w'), Some 0, 1)
    /\ appended (Some demo_iov) [(0x1000, 64)] r' /\ appended (Some demo_iov) [(0x2000, 32)] w'.
Proof.
  apply (vringh_getdesc_kern_correct demo_mem 0x100 demo_vrh 0 [(0x1000, 64, false); (0x2000, 32, true)]
           (Some demo_iov) (Some demo_iov)).
  - exact demo_ring_ok.
  - done.
  - apply (buffer_direct _ _ _ _ [1%nat]); [|done]. split; [done|]. by exists 0.
  - by forall_in.
  - by left.
  - split; [exact demo_iov_wf|]. done.
  - split; [exact demo_iov_wf|]. done.
Defined.

(** The same ring whose last entry is left out: its table has no entry. *)
Definition hostile_ring : vring := set_desc demo_ring
  [mkDesc 0x1000 64 1 1; mkDesc 0x2000 32 3 0; mkDesc 0x9000 32 5 2; mkDesc 0xA000 0 0 7].

Lemma vringh_getdesc_kern_safe_witness :
  exists vrh' r' w' head rc,
    vca_vringh_getdesc_kern demo_mem 0x100 true (set_vr demo_vrh hostile_ring) (Some demo_iov) (Some demo_iov)
      = Ret (vrh', (r', w'), head, rc)
    /\ rc ∈ [1; 0; - EINVAL; - ELOOP; - EPROTO; - ENOMEM].
Proof.
  destruct (vringh_getdesc_kern_safe demo_mem 0x100 true (set_vr demo_vrh hostile_ring)
    (Some demo_iov) (Some demo_iov) 0) as (vrh' & r' & w' & h & rc & He & Hrc & _).
  - split; try done. by exists 2.
  - split; [|split].
    + by forall_in.
    + intros a. unfold demo_mem. destruct (a =? 0x9000); [|done].
      by forall_in.
    + by forall_in.
  - by forall_in.
  - by left.
  - lia.
  - done.
  - split; [exact demo_iov_wf|done].
  - split; [exact demo_iov_wf|done].
  - by exists vrh', r', w', h, rc.
Defined.

Lemma vringh_empty_table_overruns_witness :
  vca_vringh_getdesc_kern demo_mem 0x100 true (mkVrh true 1 0 0 (set_avail demo_ring 0 2 [0; 3; 0; 0; 0]))
    (Some demo_iov) None = Oob.
Proof.
  apply (vringh_empty_table_overruns demo_mem 0x100 true
    (mkVrh true 1 0 0 (set_avail demo_ring 0 2 [0; 3; 0; 0; 0])) 3 (mkDesc 0xA000 0 4 0)); try done.
  - split; try done. by exists 2.
  - by left.
Defined.

Definition demo_vecs : vringh_kiov := vringh_kiov_init [(100, 4); (200, 4); (0, 0)] 3.
Definition demo_full : vringh_kiov := mkIov (iov demo_vecs) 0 0 2 3.

Lemma vringh_iov_pull_correct_witness :
  exists k' cs, vca_vringh_iov_pull_kern demo_full 1000 6 = Ret (k', 6, cs)
    /\ concat (map copy_from cs) = [100; 101; 102; 103; 200; 201]
    /\ vringh_kiov_reset k' = Ret (mkIov (original demo_full) 0 0 2 (max_num k')).
Proof.
  destruct (vringh_iov_pull_correct demo_full 1000 6) as (k' & cs & Hrun & Hfrom & _ & _ & _ & Hreset).
  - split; try done; [|by forall_in].
    exists 3. unfold VRINGH_IOV_ALLOCATED. split; [by left|]. done.
  - lia.
  - exists k', cs. split; [exact Hrun|]. split; [exact Hfrom|]. apply Hreset.
    vm_compute in Hrun. injection Hrun as <- _. done.
Defined.

(** An array whose vectors have all been transferred cannot be reset: the index
    is past its end. *)
Example vringh_kiov_reset_past_end :
  (r ← vca_vringh_iov_pull_kern (mkIov [(100, 4)] 0 0 1 1) 1000 4; vringh_kiov_reset (fst (fst r))) = Oob.
Proof. reflexivity. Qed.

Lemma vringh_complete_multi_correct_witness :
  exists vrh' rc,
    vca_vringh_complete_multi_user no_fault (mkVrh true 0 3 0 demo_ring) [mkUsed 0 32; mkUsed 2 16] = Ret (vrh', rc)
    /\ (rc = 0 -> used_ring (vr vrh') !! 0%nat = Some (mkUsed 2 16)).
Proof.
  destruct (vringh_complete_multi_correct no_fault (mkVrh true 0 3 0 demo_ring) [mkUsed 0 32; mkUsed 2 16])
    as (vrh' & rc & He & _ & _ & _ & H0).
  - exact demo_ring_ok.
  - done.
  - exists vrh', rc. split; [done|]. intros Hz. destruct (H0 Hz) as (_ & _ & Hring).
    apply (Hring 0). done.
Defined.

Lemma vringh_need_notify_correct_witness :
  exists vrh' rc, vca_vringh_need_notify_kern (mkVrh true 0 65535 2 demo_ring) = Ret (vrh', rc)
    /\ vr vrh' = demo_ring.
Proof.
  destruct (vringh_need_notify_correct (mkVrh true 0 65535 2 demo_ring)) as (vrh' & rc & He & Hv & _).
  - exact demo_ring_ok.
  - done.
  - done.
  - by forall_in.
  - by exists vrh', rc.
Defined.

Lemma vringh_notify_enable_no_lost_kick_witness :
  snd (vca_vringh_notify_enable_kern (mkVrh true 2 0 0 demo_ring)) = true
  /\ snd (vca_virtqueue_kick_prepare
            (mkVq (set_avail (set_avail_event demo_ring 2) 0 5 [0; 2; 3; 0; 0]) false false true false
               0 3 0 1 [] ∅ [])) = true.
Proof.
  pose proof (vringh_notify_enable_no_lost_kick (mkVrh true 2 0 0 demo_ring)
    (mkVq (set_avail (set_avail_event demo_ring 2) 0 5 [0; 2; 3; 0; 0]) false false true false
       0 3 0 1 [] ∅ []) 3) as H.
  destruct H as (_ & _ & Hk); [done|done|]. split; [done|]. by apply Hk.
Defined.

End Vringh.
