(* ===== verification/VirtqProto.v ===== *)
(** * Driver and device together

    The two sides of a virtqueue ([VirtioRing] and [Vringh]) work on the same
    ring memory: the driver's ring is handed to the device before a device
    operation and back after it.  Two protocols: the way of a buffer there and back, and the driver
    that goes to sleep while the device completes buffers. *)

From S2P Require Import Prelude VirtioRing Vringh.
From stdpp Require Import base list gmap numbers option tactics.
From Stdlib Require Import ZArith Lia.
#[local] Open Scope Z_scope.

Module VirtqProto.
Import VirtioRing Vringh.

(** The device looks for the next buffer where the driver will publish it, and
    will give back the next one where the driver looks for it. *)
Record in_step (vq : vring_virtqueue) (vrh : vringh) : Prop := {
  st_avail : last_avail_idx vrh = avail_idx (ring vq);
  st_avail16 : fits 16 (avail_idx (ring vq));
  st_used : u16 (vh_last_used_idx vrh + completed vrh) = last_used_idx vq;
}.

Lemma inv_ring_ok vq free infl : vq_inv vq free infl -> ring_ok (ring vq).
Proof. intros []. by split. Qed.

Lemma u16_succ x : fits 16 x -> u16 (x + 1) <> x.
Proof.
  unfold u16, wrap, fits. change (2 ^ 16) with 65536. intros Hx He.
  pose proof (Z.div_mod (x + 1) 65536 ltac:(lia)). lia.
Qed.

(** A described chain has as many descriptors as segments, at most the ring's. *)
Lemma chain_bound vq free ids t infl :
  vq_inv vq free ((ids, t) :: infl) -> zlen ids <= num (ring vq).
Proof.
  intros Hi. pose proof (num_pos _ _ _ Hi) as Hn.
  pose proof (vi_nodup _ _ _ Hi) as (_ & _ & Hnd)%list.NoDup_app. cbn [map fst concat] in Hnd.
  apply list.NoDup_app in Hnd as (Hnd & _ & _).
  rewrite <- (Z.max_r 0 (num (ring vq))) by lia. apply (nodup_bound ids); [done|].
  intros x Hx. apply (vi_all _ _ _ Hi). rewrite !elem_of_app. right. cbn [map fst concat].
  apply elem_of_app. by left.
Qed.

(** An empty vector array that can take [l]. *)
Definition empty_for (k : vringh_kiov) (l : list (Z * Z)) : Prop :=
  kiov_wf k /\ iov_used k = 0 /\ iov_i k = 0 /\ zlen l < 2 ^ 26.

Lemma empty_accepts k l : empty_for k l -> accepts (Some k) l /\ accepts (cleared (Some k)) l.
Proof.
  intros ((c & ? & ? & ? & ?) & Hu & Hi & Hl). unfold accepts, cleared. simpl. split.
  - split; [by exists c|]. split; [lia|done].
  - split; [|done]. exists c. simpl. split_and?; try done; lia.
Qed.

Lemma appended_vecs k l o : iov_used k = 0 -> appended (Some k) l o ->
  exists k', o = Some k' /\ vecs k' = l.
Proof.
  intros Hu Ha. destruct o as [k'|]; [|done]. destruct Ha as (_ & Hv & _). exists k'. split; [done|].
  rewrite Hv. unfold vecs at 1. by rewrite Hu.
Qed.

(** The device takes the buffer the driver has just added. *)
Lemma device_takes mem desc_addr vq1 vrh free ids h t infl segs riov wiov idx :
  vq_inv vq1 free ((h :: ids, t) :: infl) -> describes (desc (ring vq1)) (h :: ids) segs ->
  fits 16 idx -> last_avail_idx vrh = idx -> avail_idx (ring vq1) = u16 (idx + 1) ->
  avail_ring (ring vq1) !! Z.to_nat (idx mod num (ring vq1)) = Some (Z.of_nat h) ->
  Forall (fun s => fits 64 (fst (fst s))) segs ->
  empty_for riov (seg_vecs false segs) -> empty_for wiov (seg_vecs true segs) ->
  exists r' w',
    vca_vringh_getdesc_kern mem desc_addr true (set_vr vrh (ring vq1)) (Some riov) (Some wiov)
    = Ret (set_last_avail (set_vr vrh (ring vq1)) (u16 (idx + 1)), (Some r', Some w'), Some (Z.of_nat h), 1)
    /\ vecs r' = seg_vecs false segs /\ vecs w' = seg_vecs true segs.
Proof.
  intros Hi Hd Hidx Hla Hai Har Hfit Hr Hw. pose proof (inv_ring_ok _ _ _ Hi) as Hok.
  assert (Hh : Z.of_nat h < num (ring vq1)).
  { apply (vi_all _ _ _ Hi), elem_of_app. right. simpl. by apply elem_of_cons; left. }
  assert (Hp : pending (set_vr vrh (ring vq1)) h).
  { split; [|by rewrite <- Hla in Har]. simpl. rewrite Hla, Hai. intros He. by apply (u16_succ idx Hidx). }
  destruct (empty_accepts _ _ Hr) as (_ & Hr'). destruct (empty_accepts _ _ Hw) as (Hw' & _).
  unfold vca_vringh_getdesc_kern. rewrite (get_head_ok (set_vr vrh (ring vq1)) h Hok Hp). run_bind. cbn [vr set_last_avail set_vr].
  rewrite (proj2 (Z.ltb_ge (Z.of_nat h) 0)), (proj2 (Z.eqb_neq (Z.of_nat h) (num (ring vq1)))) by lia.
  set (vrh' := set_last_avail _ _).
  destruct (iov_buffer mem desc_addr vrh' h segs (Some riov) (Some wiov)) as (ro & wo & -> & Hro & Hwo);
    try done.
  { apply (buffer_direct _ _ _ _ ids); [done|]. exact (chain_bound _ _ _ _ _ Hi). }
  { by left. }
  apply appended_vecs in Hro as (r' & -> & Hr1); [|done].
  apply appended_vecs in Hwo as (w' & -> & Hw1); [|by destruct Hw as (_ & ? & _)].
  run_bind. cbn [negb Z.eqb]. exists r', w'. unfold vrh'. simpl last_avail_idx. by rewrite Hla.
Qed.

(** C9. One buffer's whole way: the driver adds it, the device takes it and sees
    exactly the driver's segments, readable and writable, the device gives it
    back with [n] bytes written, and the driver's [vca_virtqueue_get_buf] returns
    the token it was added with and [n], its descriptors free again and every
    other buffer in flight as before. *)
Theorem virtqueue_round_trip dma_map_single notify parent kmalloc mem desc_addr vq vrh free infl
    sgs sgs' es total out in_ token riov wiov n :
  vq_inv vq free infl -> in_step vq vrh -> broken vq = false -> token <> 0 ->
  u32 (num_added vq + 1) <> 65535 ->
  indirect vq && (1 <? total) && negb (num_free vq =? 0) = false \/ kmalloc = None ->
  0 < total <= num_free vq ->
  (if dma_map vq then vring_map_sg dma_map_single parent sgs total out in_ else Ret (sgs, 0, []))
    = Ret (sgs', 0, es) ->
  Z.of_nat (length (sg_flags sgs' out)) = total ->
  let segs := map (seg_of (dma_map vq)) (sg_flags sgs' out) in
  Forall (fun s => fits 64 (fst (fst s))) segs ->
  empty_for riov (seg_vecs false segs) -> empty_for wiov (seg_vecs true segs) ->
  exists vq1 vrh2 r' w' head vrh3 vq4,
    virtqueue_add dma_map_single notify parent kmalloc vq sgs total out in_ token = Ret (vq1, 0)
    /\ vca_vringh_getdesc_kern mem desc_addr true (set_vr vrh (ring vq1)) (Some riov) (Some wiov)
       = Ret (vrh2, (Some r', Some w'), Some head, 1)
    /\ vecs r' = seg_vecs false segs /\ vecs w' = seg_vecs true segs
    /\ vca_vringh_complete_kern vrh2 head n = Ret (vrh3, 0)
    /\ vca_virtqueue_get_buf (upd_ring vq1 (vr vrh3)) = Ret (vq4, Some (token, n))
    /\ vq_inv vq4 free infl /\ in_step vq4 vrh3.
Proof.
  intros Hi Hst Hb Ht Hna Hk Htot Hm Hlen segs Hfit Hr Hw.
  destruct (add_direct_spec dma_map_single notify parent kmalloc vq free infl sgs sgs' es total out in_
              token Hi Hb Ht Hk Htot Hm Hlen) as (vq1 & Hadd & Hi1 & Hd & Hfr & Hai & Har & _ & Hnum & Hui & Hlu & Hbr).
  specialize (Hbr Hna). fold segs in Hd. pose proof (num_pos _ _ _ Hi) as Hn.
  assert (Hids : exists h ids, take (Z.to_nat total) free = h :: ids /\ free_head vq = Z.of_nat h).
  { pose proof (vi_nfree _ _ _ Hi) as Hnf. destruct free as [|h f]; [simpl in Hnf; lia|].
    exists h, (take (pred (Z.to_nat total)) f). split; [|by apply (vi_head _ _ _ Hi)].
    destruct (Z.to_nat total) eqn:E; [lia|done]. }
  destruct Hids as (h & ids & Hids & Hfh). rewrite Hids, Hfh in *.
  pose proof (Z.mod_pos_bound (avail_idx (ring vq)) (num (ring vq)) ltac:(lia)) as Hmod.
  destruct (device_takes mem desc_addr vq1 vrh _ ids h token infl segs riov wiov (avail_idx (ring vq)) Hi1 Hd)
    as (r' & w' & Hget & Hvr & Hvw); try done; try apply Hst.
  { rewrite Har, Hnum. apply list_lookup_insert_eq. pose proof (vi_avail _ _ _ Hi) as Ha. unfold zlen in Ha. lia. }
  set (vrh2 := set_last_avail _ _) in Hget.
  pose proof (complete_one vrh2 (mkUsed (Z.of_nat h) n) (inv_ring_ok _ _ _ Hi1)) as Hcomp. cbn zeta in Hcomp.
  cbn [vrh2 set_last_avail set_vr vh_last_used_idx completed vr] in Hcomp. rewrite (st_used _ _ Hst) in Hcomp.
  set (vrh3 := mkVrh _ _ _ _ _) in Hcomp.
  assert (Hlu16 : fits 16 (last_used_idx vq)) by (rewrite <- (st_used _ _ Hst); apply u16_range).
  destruct (get_buf_entry (upd_ring vq1 (vr vrh3)) (drop (Z.to_nat total) free) [] h ids token infl (mkUsed (Z.of_nat h) n))
    as (vq4 & Hbuf & Hi4 & Hlu4 & Hai4 & _); try done.
  - apply (vq_inv_ext vq1); try done. simpl. by rewrite zlen_insert.
  - unfold more_used. simpl. rewrite Hlu. apply negb_true_iff, Z.eqb_neq. intros He. by apply (u16_succ _ Hlu16).
  - simpl. rewrite Hlu. apply list_lookup_insert_eq. pose proof (vi_used _ _ _ Hi1) as Hu. unfold zlen in Hu.
    pose proof (Z.mod_pos_bound (last_used_idx vq) (num (ring vq1)) ltac:(lia)). lia.
  - exists vq1, vrh2, r', w', (Z.of_nat h), vrh3, vq4. do 6 (split; [done|]).
    rewrite <- Hids, take_drop in Hi4. split; [exact Hi4|]. split.
    + rewrite Hai4. simpl. by rewrite Hai.
    + rewrite Hai4. simpl. rewrite Hai. apply u16_range.
    + rewrite Hlu4. simpl. rewrite Hlu, <- (st_used _ _ Hst). apply used_next.
Qed.

Lemma virtqueue_round_trip_witness :
  exists vq1 vrh2 r' w' head vrh3 vq4,
    virtqueue_add no_dma true true None (demo_vq false) demo_sgs 2 1 1 9 = Ret (vq1, 0)
    /\ vca_vringh_getdesc_kern (fun _ => []) 0x100 true (set_vr (mkVrh true 1 0 0 VirtioRing.demo_ring) (ring vq1))
         (Some demo_iov) (Some demo_iov) = Ret (vrh2, (Some r', Some w'), Some head, 1)
    /\ vca_vringh_complete_kern vrh2 head 20 = Ret (vrh3, 0)
    /\ vca_virtqueue_get_buf (upd_ring vq1 (vr vrh3)) = Ret (vq4, Some (9, 20)).
Proof.
  destruct (virtqueue_round_trip no_dma true true None (fun _ => []) 0x100 (demo_vq false)
    (mkVrh true 1 0 0 VirtioRing.demo_ring) [2; 3]%nat [([0%nat; 1%nat], 7)] demo_sgs demo_sgs [] 2 1 1 9 demo_iov demo_iov 20)
    as (vq1 & vrh2 & r' & w' & head & vrh3 & vq4 & H1 & H2 & _ & _ & H3 & H4 & _); try done.
  - apply demo_inv.
  - by right.
  - by forall_in.
  - split; [exact demo_iov_wf|]. done.
  - split; [exact demo_iov_wf|]. done.
  - by exists vq1, vrh2, r', w', head, vrh3, vq4.
Defined.

(** ** Interrupts while the driver goes to sleep *)

(** What the device does with a buffer that it has finished ([put_descriptors]), in two steps, because
    the driver can run between them: it gives the buffer back, and it looks whether the driver is to be notified.  The
    device has a [notify] function. *)
Inductive device_op :=
| Complete (head len : Z)
| Check.

(** One step; the second component counts the notifications. *)
Definition put_descriptors_step (vrh : vringh) (op : device_op) : outcome (vringh * Z) :=
  match op with
  | Complete head len => '(vrh, _) ← vca_vringh_complete_kern vrh head len; Ret (vrh, 0)
  | Check => '(vrh, rc) ← vca_vringh_need_notify_kern vrh; Ret (vrh, if 0 <? rc then 1 else 0)
  end.

Fixpoint device_run (vrh : vringh) (ops : list device_op) : outcome (vringh * Z) :=
  match ops with
  | [] => Ret (vrh, 0)
  | op :: ops =>
      '(vrh, k) ← put_descriptors_step vrh op;
      '(vrh, n) ← device_run vrh ops;
      Ret (vrh, k + n)
  end.

(** The device, as the driver's [vca_virtqueue_enable_cb] meets it: it works on the ring [v]. *)
Definition device_meanwhile (vrh : vringh) (ops : list device_op) (v : vring) : outcome (vring * (vringh * Z)) :=
  '(vrh, n) ← device_run (set_vr vrh v) ops;
  Ret (vr vrh, (vrh, n)).

Definition completes (op : device_op) : Z := match op with Complete _ _ => 1 | Check => 0 end.
Definition completions (ops : list device_op) : Z := foldr (fun op n => completes op + n) 0 ops.

(** After every completion the device looks, at once or later. *)
Definition checked (ops : list device_op) : Prop :=
  forall pre h n post, ops = pre ++ Complete h n :: post -> Check ∈ post.

(** The driver waits for entry [ev]: interrupts are on and [ev] is the event index. *)
Record waits (ev : Z) (vrh : vringh) : Prop := {
  wt_ring : ring_ok (vr vrh);
  wt_flag : testflag (avail_flags (vr vrh)) VRING_AVAIL_F_NO_INTERRUPT = false;
  wt_event : avail_ring (vr vrh) !! Z.to_nat (num (vr vrh)) = Some ev;
  wt_ev16 : fits 16 ev;
  wt_last : fits 16 (vh_last_used_idx vrh);
  wt_completed : 0 <= completed vrh;
  wt_used : used_idx (vr vrh) = u16 (vh_last_used_idx vrh + completed vrh);
}.

(** Entry [ev] is among those that have been completed since the last look, or will be the next one. *)
Definition due (ev : Z) (vrh : vringh) : Prop :=
  event_indices vrh = false \/ exists j, 0 <= j < completed vrh /\ ev = u16 (vh_last_used_idx vrh + j).
Definition due_next (ev : Z) (vrh : vringh) : Prop :=
  event_indices vrh = false \/ ev = u16 (vh_last_used_idx vrh + completed vrh).

Lemma completions_pos ops : 0 <= completions ops.
Proof. unfold completions. induction ops as [|[] ops IH]; cbn [foldr completes]; lia. Qed.
Lemma checked_cons op ops : checked (op :: ops) -> checked ops.
Proof. intros Hc pre h n post ->. by apply (Hc (op :: pre) h n post). Qed.

Lemma step_complete ev vrh h n :
  waits ev vrh -> completed vrh + 1 < 2 ^ 32 ->
  exists vrh', put_descriptors_step vrh (Complete h n) = Ret (vrh', 0) /\ waits ev vrh'
    /\ event_indices vrh' = event_indices vrh /\ vh_last_used_idx vrh' = vh_last_used_idx vrh
    /\ completed vrh' = completed vrh + 1 /\ used_idx (vr vrh') = u16 (used_idx (vr vrh) + 1)
    /\ zlen (used_ring (vr vrh')) = zlen (used_ring (vr vrh))
    /\ num (vr vrh') = num (vr vrh) /\ desc (vr vrh') = desc (vr vrh) /\ avail_ring (vr vrh') = avail_ring (vr vrh).
Proof.
  intros [Hr Hf He Hev Hl Hc Hu] Hb. unfold put_descriptors_step, vca_vringh_complete_kern.
  rewrite (complete_one vrh (mkUsed h n) Hr). run_bind. rewrite u32_small by (split; [lia|exact Hb]).
  eexists. split; [done|]. cbn [vr event_indices vh_last_used_idx completed used_idx used_ring num desc avail_ring set_used].
  rewrite zlen_insert, Hu. split; [|done].
  split; cbn [vr event_indices vh_last_used_idx completed used_idx used_ring num desc avail_ring set_used avail_flags]; try done.
  - destruct Hr. split; cbn [num desc avail_ring used_ring set_used]; try done. by rewrite zlen_insert.
  - lia.
  - pose proof (used_next (vh_last_used_idx vrh) (completed vrh)) as Hn.
    rewrite u32_small in Hn by (split; [lia|exact Hb]). by rewrite Hn.
Qed.

Lemma step_check ev vrh :
  waits ev vrh ->
  exists vrh' k, put_descriptors_step vrh Check = Ret (vrh', k) /\ 0 <= k /\ (due ev vrh -> k = 1) /\ waits ev vrh'
    /\ event_indices vrh' = event_indices vrh /\ vr vrh' = vr vrh
    /\ completed vrh' <= completed vrh /\ (due_next ev vrh -> due_next ev vrh').
Proof.
  intros [Hr Hf He Hev Hl Hc Hu]. unfold put_descriptors_step, vca_vringh_need_notify_kern, __vringh_need_notify, no_fault.
  cbn [Z.eqb negb]. destruct (event_indices vrh) eqn:Hei; cbn [negb].
  - rewrite (aget_ret _ _ ev) by (pose proof (ring_num _ Hr); done || lia). run_bind.
    eexists _, _. split; [done|]. split; [by destruct (0 <? _)|].
    cbn [vr event_indices vh_last_used_idx completed]. split; [|split].
    + intros [Hd|Hd]; [congruence|].
      assert ((if 65535 <? completed vrh then true
               else vring_need_event ev (u16 (vh_last_used_idx vrh + completed vrh)) (vh_last_used_idx vrh)) = true) as ->; [|done].
      destruct (Z.ltb_spec 65535 (completed vrh)); [done|]. apply vring_need_event_iff; [done|done|lia|done].
    + split; try done; cbn [vr vh_last_used_idx completed]; [apply u16_range|].
      rewrite Z.add_0_r, Hu. symmetry. apply u16_small, u16_range.
    + split; [done|]. split; [done|]. split; [lia|]. intros [Hd|Hd]; [congruence|]. right.
      cbn [vh_last_used_idx completed]. rewrite Z.add_0_r, Hd. symmetry. apply u16_small, u16_range.
  - run_bind. rewrite Hf. eexists _, _. split; [done|]. split; [done|]. split; [done|]. split; [by split|].
    split; [done|]. split; [done|]. split; [lia|]. intros _. by left.
Qed.

(** A run of the device, while the driver waits. *)
Lemma device_run_ok ev ops : forall vrh,
  waits ev vrh -> completed vrh + completions ops < 2 ^ 32 ->
  exists vrh' n, device_run vrh ops = Ret (vrh', n) /\ 0 <= n /\ waits ev vrh'
    /\ used_idx (vr vrh') = u16 (used_idx (vr vrh) + completions ops)
    /\ completed vrh' <= completed vrh + completions ops
    /\ zlen (used_ring (vr vrh')) = zlen (used_ring (vr vrh))
    /\ num (vr vrh') = num (vr vrh) /\ desc (vr vrh') = desc (vr vrh) /\ avail_ring (vr vrh') = avail_ring (vr vrh)
    /\ (due ev vrh -> Check ∈ ops -> 0 < n)
    /\ (due_next ev vrh -> checked ops -> 0 < completions ops -> 0 < n).
Proof.
  induction ops as [|op ops IH]; intros vrh Hw Hb.
  { exists vrh, 0. cbn. split; [done|]. split; [done|]. split; [done|]. rewrite Z.add_0_r.
    split; [rewrite (wt_used _ _ Hw); symmetry; apply u16_small, u16_range|]. split; [lia|]. do 4 (split; [done|]).
    split; [by intros _ ?%elem_of_nil|lia]. }
  pose proof (completions_pos ops) as Hp. destruct op as [h m|]; cbn [completions foldr completes] in Hb; cbn [device_run];
    change (foldr _ 0 ops) with (completions ops) in Hb.
  - destruct (step_complete ev vrh h m Hw) as (v1 & -> & Hw1 & Hei & Hl1 & Hc1 & Hu1 & Hz1 & Hn1 & Hd1 & Ha1); [lia|]. run_bind.
    destruct (IH v1 Hw1) as (v2 & n & -> & Hn & Hw2 & Hu2 & Hc2 & Hz2 & Hn2 & Hd2 & Ha2 & Hdue & _); [lia|]. run_bind.
    exists v2, (0 + n). split; [done|]. split; [lia|]. split; [done|]. change (completions (Complete h m :: ops)) with (1 + completions ops).
    split; [rewrite Hu2, Hu1; unfold u16, wrap; rewrite Zplus_mod_idemp_l; f_equal; lia|]. split; [lia|].
    split; [congruence|]. split; [congruence|]. split; [congruence|]. split; [congruence|]. split.
    + intros Hd Hck. apply elem_of_cons in Hck as [|Hck]; [done|]. apply Hdue; [|done].
      destruct Hd as [Hd|(j & Hj & ->)]; [left; congruence|right; exists j; rewrite Hl1, Hc1; split; [lia|done]].
    + intros Hd Hck _. apply Hdue; [|by apply (Hck [] h m ops)].
      destruct Hd as [Hd| ->]; [left; congruence|right; exists (completed vrh); rewrite Hl1, Hc1]. split; [|done].
      pose proof (wt_completed _ _ Hw). lia.
  - destruct (step_check ev vrh Hw) as (v1 & k & -> & Hk & Hk1 & Hw1 & Hei & Hv1 & Hc1 & Hdn). run_bind.
    destruct (IH v1 Hw1) as (v2 & n & -> & Hn & Hw2 & Hu2 & Hc2 & Hz2 & Hn2 & Hd2 & Ha2 & _ & Hnext); [lia|]. run_bind.
    exists v2, (k + n). rewrite Hv1 in *. split; [done|]. split; [lia|]. split; [done|].
    change (completions (Check :: ops)) with (0 + completions ops). rewrite !Z.add_0_l. split; [done|]. split; [lia|].
    do 4 (split; [done|]). split; [intros Hd _; specialize (Hk1 Hd); lia|].
    intros Hd Hck Hpos. apply checked_cons in Hck. specialize (Hnext (Hdn Hd) Hck Hpos). lia.
Qed.

(** The device has published all that it has completed. *)
Record device_in_step (vq : vring_virtqueue) (vrh : vringh) : Prop := {
  ds_last : fits 16 (vh_last_used_idx vrh);
  ds_completed : 0 <= completed vrh;
  ds_used : used_idx (ring vq) = u16 (vh_last_used_idx vrh + completed vrh);
}.

(** C38. No wake-up is lost when the driver goes to sleep.  The driver calls [vca_virtqueue_enable_cb]; the device goes on
    meanwhile, as [ops1] between the driver's store of the event index and its last look, and as [ops2] afterwards; it may complete
    any buffers and looks, sooner or later after each of them, whether to notify, with or without event indices.
    When there are then used entries that the driver has not seen, whenever they were completed, the driver was told
    so ([ok] is [false]) or the device has notified it after the store.  The driver is told so only when there are some.
    Fewer than 65536 entries are unseen at a time, which a ring of at most 32768 buffers ensures. *)
Theorem virtqueue_enable_cb_no_lost_wakeup vq vrh free infl ops1 ops2 :
  vq_inv vq free infl -> device_in_step vq vrh -> fits 16 (last_used_idx vq) ->
  u16 (used_idx (ring vq) - last_used_idx vq) + completions ops1 < 65536 ->
  completed vrh + completions ops1 + completions ops2 < 2 ^ 32 -> checked (ops1 ++ ops2) ->
  exists vq' ok vrh1 n1 vrh2 n2,
    vca_virtqueue_enable_cb (device_meanwhile vrh ops1) vq = Ret (vq', ok, (vrh1, n1))
    /\ device_run vrh1 ops2 = Ret (vrh2, n2)
    /\ vq_inv vq' free infl /\ ring vq' = vr vrh1 /\ last_used_idx vq' = last_used_idx vq
    /\ (ok = false <-> more_used vq' = true)
    /\ (more_used (upd_ring vq' (vr vrh2)) = true -> ok = false \/ 0 < n1 + n2).
Proof.
  intros Hi [Hd1 Hd2 Hd3] Hlu Hb1 Hb2 Hck. pose proof (completions_pos ops1). pose proof (completions_pos ops2).
  destruct (enable_cb_prepare_ok vq free infl Hi) as (v & Hp & Hiv & Hfl & Hev & Hui).
  unfold vca_virtqueue_enable_cb. rewrite Hp. run_bind. cbn [ring upd_ring]. unfold device_meanwhile.
  assert (Hw : waits (last_used_idx vq) (set_vr vrh v)).
  { split; cbn [vr set_vr vh_last_used_idx completed]; try done; [exact (inv_ring_ok _ _ _ Hiv)|congruence]. }
  destruct (device_run_ok _ ops1 _ Hw) as (vrh1 & n1 & -> & Hn1 & Hw1 & Hu1 & Hc1 & Hz1 & Hnu & Hde & Har & _ & Hdue);
    [cbn; lia|]. run_bind. cbn [vr set_vr completed] in Hc1, Hu1, Hz1, Hnu, Hde, Har.
  destruct (device_run_ok _ ops2 _ Hw1) as (vrh2 & n2 & Hrun2 & Hn2 & Hw2 & Hu2 & _ & _ & _ & _ & _ & _ & Hdue2); [lia|].
  eexists _, _, vrh1, n1, vrh2, n2. split; [done|]. split; [exact Hrun2|].
  split; [by apply (vq_inv_ext (upd_ring vq v)); cbn [ring upd_ring]; rewrite ?Har, ?Hz1|]. split; [done|]. split; [done|].
  unfold more_used, vca_virtqueue_poll. cbn [ring upd_ring last_used_idx].
  rewrite (u16_small (last_used_idx vq)) by exact Hlu. split; [by rewrite negb_false_iff|].
  intros Hm. apply negb_true_iff, Z.eqb_neq in Hm. destruct (Z.eqb_spec (last_used_idx vq) (used_idx (vr vrh1))) as [He|He]; [right|by left].
  assert (completions ops1 = 0 /\ last_used_idx vq = used_idx (ring vq)) as [Hz Hs].
  { rewrite Hu1, Hui in He. unfold u16, wrap, fits in *. change (2 ^ 16) with 65536 in *.
    assert (0 <= used_idx (ring vq) < 65536) by (rewrite Hd3; apply Z.mod_pos_bound; lia).
    Z.to_euclidean_division_equations; lia. }
  rewrite Hz, Z.add_0_r in Hu1. rewrite Hu2, Hu1, Hui in Hm.
  destruct (Z.eq_dec (completions ops2) 0) as [Hz2|Hz2].
  { exfalso. apply Hm. rewrite Hz2, Z.add_0_r, Hs, Hd3. by rewrite !(u16_small (u16 _)) by apply u16_range. }
  assert (0 < n2); [|lia]. apply Hdue2; [|intros pre h n post ->; apply (Hck (ops1 ++ pre) h n post); by rewrite <- app_assoc|lia].
  right. rewrite Hs, <- Hui, <- (wt_used _ _ Hw1), Hu1. symmetry. rewrite Hui, Hd3. apply u16_small, u16_range.
Qed.

(** The driver has seen everything and has switched interrupts off; the device completes its buffer after the last look. *)
Definition demo_asleep : vring_virtqueue :=
  upd_ring (demo_vq false) (mkVring 4 (desc VirtioRing.demo_ring) 1 1 [0; 0; 0; 0; 9] 0 0 (used_ring VirtioRing.demo_ring) 0).
Definition demo_device : vringh := mkVrh true 1 0 0 (ring demo_asleep).
Definition demo_ops : list device_op := [Check; Complete 0 150; Check].

Lemma virtqueue_enable_cb_no_lost_wakeup_witness :
  exists vq' ok vrh1 n1 vrh2 n2,
    vca_virtqueue_enable_cb (device_meanwhile demo_device [Check]) demo_asleep = Ret (vq', ok, (vrh1, n1))
    /\ device_run vrh1 demo_ops = Ret (vrh2, n2) /\ ok = true /\ 0 < n1 + n2.
Proof.
  destruct (virtqueue_enable_cb_no_lost_wakeup demo_asleep demo_device [2%nat; 3%nat] [([0%nat; 1%nat], 7)] [Check] demo_ops)
    as (vq' & ok & vrh1 & n1 & vrh2 & n2 & H1 & H2 & _ & _ & _ & _ & H3).
  - apply (vq_inv_ext (demo_vq false)); try reflexivity. apply demo_inv.
  - split; [split; [simpl; lia|reflexivity]|simpl; lia|reflexivity].
  - split; [simpl; lia|reflexivity].
  - vm_compute. reflexivity.
  - vm_compute. reflexivity.
  - intros pre h n post Hp. destruct pre as [|? [|? [|? [|? pre]]]]; cbn in Hp; try discriminate Hp.
    + injection Hp as _ _ _ _ <-. by left.
    + destruct pre; discriminate Hp.
  - exists vq', ok, vrh1, n1, vrh2, n2.
    assert (ok = true /\ more_used (upd_ring vq' (vr vrh2)) = true) as [Hok Hm].
    { vm_compute in H1. injection H1 as <- <- <- <-. vm_compute in H2. injection H2 as <- <-. split; reflexivity. }
    split; [exact H1|]. split; [exact H2|]. split; [exact Hok|]. destruct (H3 Hm) as [H4|H4]; [congruence|exact H4].
Defined.

End VirtqProto.
