(* ===== verification/BlkFrontend.v ===== *)
(** * The block device frontend: requests

    [src/modules/vca/blockio/vcablk/vcablk_disk.c]: block requests become entries
    of a request ring shared with the backend, one context from a pool for every
    part of at most [VCABLK_BIO_SPLIT_SIZE] segments; completions come back on a
    second ring.  The state of the disk is passed along; what leaves the
    driver's memory (page mappings, interrupts, ended requests) is logged.

    A wait ends in a state that other threads and the backend have changed: the
    parameter [wait] gives that state.  Waits also end when the thread is to
    stop, which is why the code checks again afterwards. *)

From S2P Require Import Prelude RingBuf Pool.
From stdpp Require Import base list numbers option tactics.
From Stdlib Require Import ZArith Lia.
#[local] Open Scope Z_scope.

Module BlkFrontend.
Import RingBuf.

(** ** Data *)

Definition REQUEST_READ := 1.
Definition REQUEST_WRITE := 2.
Definition REQUEST_SYNC := 3.
Definition SECTOR_SHIFT := 9.
Definition VCABLK_BIO_SPLIT_SIZE := 32.
Definition REQ_RING_SIZE := 2048.
Definition REQ_RING_MASK := REQ_RING_SIZE - 1.

Record vcablk_request := mkRequest {
  phys_buff : Z;
  sector : Z;
  sectors_num : Z;
  cookie : Z;
  request_type : Z;
}.
Record vcablk_completion := mkCompletion { c_cookie : Z; c_ret : Z }.

Record vcablk_ring (A : Type) := mkVring {
  num_elems : Z;
  last_add : Z;
  last_used : Z;
  elems : list A;
}.
Arguments mkVring {_}.
Arguments num_elems {_}.
Arguments last_add {_}.
Arguments last_used {_}.
Arguments elems {_}.

(** A block request: position, direction, whether it asks for a flush
    ([REQ_OP_FLUSH] or one of the sync flags), and its segments. *)
Record bio_vec := mkBvec { bv_page : Z; bv_offset : Z; bv_len : Z }.
Record request := mkRq {
  rq_tag : Z;
  blk_rq_pos : Z;
  rq_write : bool;
  rq_sync : bool;
  rq_bvecs : list bio_vec;
}.

(** [dir]: to the device. *)
Record bvec_context := mkBctx { dma_addr : Z; size : Z; dir : bool }.
Record vcablk_bio_context := mkCtx {
  id : Z;
  req : option request;
  bvec_ctxs_idx : Z;
  bvec_ctxs : list bvec_context;
}.

(** The requests handed in by the block layer. *)
Record request_ring_t := mkRr { rr_head : Z; rr_tail : Z; rr_ring : list (option request) }.

Inductive event :=
| EvMap (m : bvec_context)
| EvUnmap (m : bvec_context)
| EvIntr
| EvStart (rq : request)
| EvEnd (rq : request) (ok : bool).

Record vcablk_disk := mkDisk {
  request_ring : vcablk_ring vcablk_request;
  request_ring_alloc : Z;
  completion_ring : vcablk_ring vcablk_completion;
  bio_context_pool : Pool.vcablk_pool vcablk_bio_context;
  split_request_error : Z;
  req_ring : request_ring_t;
  log : list event;
}.

Definition upd_request_ring (d : vcablk_disk) (r : vcablk_ring vcablk_request) (alloc : Z) : vcablk_disk :=
  mkDisk r alloc (completion_ring d) (bio_context_pool d) (split_request_error d) (req_ring d) (log d).
Definition upd_completion (d : vcablk_disk) (r : vcablk_ring vcablk_completion) : vcablk_disk :=
  mkDisk (request_ring d) (request_ring_alloc d) r (bio_context_pool d) (split_request_error d) (req_ring d) (log d).
Definition upd_pool (d : vcablk_disk) (p : Pool.vcablk_pool vcablk_bio_context) : vcablk_disk :=
  mkDisk (request_ring d) (request_ring_alloc d) (completion_ring d) p (split_request_error d) (req_ring d) (log d).
Definition upd_split_error (d : vcablk_disk) (e : Z) : vcablk_disk :=
  mkDisk (request_ring d) (request_ring_alloc d) (completion_ring d) (bio_context_pool d) e (req_ring d) (log d).
Definition upd_req_ring (d : vcablk_disk) (r : request_ring_t) : vcablk_disk :=
  mkDisk (request_ring d) (request_ring_alloc d) (completion_ring d) (bio_context_pool d) (split_request_error d) r (log d).
Definition upd_log (d : vcablk_disk) (es : list event) : vcablk_disk :=
  mkDisk (request_ring d) (request_ring_alloc d) (completion_ring d) (bio_context_pool d) (split_request_error d)
    (req_ring d) (log d ++ es).

(** A context is designated by its index in the pool. *)
Definition get_ctx (d : vcablk_disk) (i : Z) : outcome vcablk_bio_context :=
  aget (Pool.data (bio_context_pool d)) i.
Definition set_ctx (d : vcablk_disk) (i : Z) (c : vcablk_bio_context) : outcome vcablk_disk :=
  l ← aset (Pool.data (bio_context_pool d)) i c;
  Ret (upd_pool d (Pool.set_data (bio_context_pool d) l)).

(** ** Ending requests *)

(** The [for] of [vcablk_disk_request_clean]; [n] mappings are left. *)
Fixpoint unmap_loop (n : nat) (maps : list bvec_context) (i : Z) : outcome (list event) :=
  match n with
  | O => Ret []
  | S n => m ← aget maps i; es ← unmap_loop n maps (i + 1); Ret (EvUnmap m :: es)
  end.

Definition vcablk_disk_request_clean (dev : vcablk_disk) (ctx : Z) : outcome vcablk_disk :=
  c ← get_ctx dev ctx;
  es ← unmap_loop (Z.to_nat (bvec_ctxs_idx c)) (bvec_ctxs c) 0;
  dev ← set_ctx (upd_log dev es) ctx (mkCtx (id c) (req c) 0 (bvec_ctxs c));
  p ← Pool.vcablk_pool_push (bio_context_pool dev) ctx;
  Ret (upd_pool dev p).

Definition vcablk_disk_request_end (dev : vcablk_disk) (rq : request) (ret : Z) : vcablk_disk :=
  upd_log dev [EvEnd rq (ret =? 0)].

Definition vcablk_disk_request_done (dev : vcablk_disk) (cid ret : Z) : outcome vcablk_disk :=
  if cid =? 0 then Ret dev
  else
    i ← Pool.vcablk_pool_get_by_id (bio_context_pool dev) (u16 (cid - 1));
    match i with
    | None => Ret dev
    | Some i =>
        c ← get_ctx dev i;
        let r := req c in
        dev ← set_ctx dev i (mkCtx (id c) None (bvec_ctxs_idx c) (bvec_ctxs c));
        dev ← vcablk_disk_request_clean dev i;
        match r with
        | Some rq =>
            let '(dev, ret) :=
              if negb (split_request_error dev =? 0)
              then (upd_split_error dev 0, split_request_error dev) else (dev, ret) in
            Ret (vcablk_disk_request_end dev rq ret)
        | None => Ret (if negb (ret =? 0) then upd_split_error dev (u16 ret) else dev)
        end
    end.

(** ** Making requests *)

(** What a wait is for. *)
Inductive wait_reason := WRing | WPool | WPart (ctx : Z).

Section Make.
(** [wait]: the state in which a wait ends; [dma_map]: [vcablk_dma_map_page],
    an error or the address. *)
Context (wait : wait_reason -> vcablk_disk -> vcablk_disk) (dma_map : bio_vec -> bool -> Z + Z).

Definition ring_full (dev : vcablk_disk) : bool :=
  VCA_RB_BUFF_FULL (request_ring_alloc dev) (last_used (request_ring dev)) (num_elems (request_ring dev)).

(** The counter of the new element, or [NULL]. *)
Definition vcablk_disk_request_alloc_next (dev : vcablk_disk) : vcablk_disk * option Z :=
  let dev := if ring_full dev then wait WRing dev else dev in
  let cnt := request_ring_alloc dev in
  if negb (ring_full dev) then
    (upd_request_ring dev (request_ring dev)
       (VCA_RB_COUNTER_ADD cnt 1 (num_elems (request_ring dev))), Some cnt)
  else (dev, None).

Definition vcablk_disk_request_start (dev : vcablk_disk) : vcablk_disk * Z :=
  let r := request_ring dev in
  if last_add r =? request_ring_alloc dev then (dev, - EINVAL)
  else (upd_log (upd_request_ring dev
          (mkVring (num_elems r) (request_ring_alloc dev) (last_used r) (elems r))
          (request_ring_alloc dev)) [EvIntr], 0).

Definition vcablk_disk_request_break (dev : vcablk_disk) (ctx : option Z) : outcome vcablk_disk :=
  let dev := upd_request_ring dev (request_ring dev) (last_add (request_ring dev)) in
  match ctx with Some i => vcablk_disk_request_clean dev i | None => Ret dev end.

(** The address, 0 on failure. *)
Definition vcablk_disk_map_page (dev : vcablk_disk) (ctx : Z) (bvec : bio_vec) (d : bool)
    : outcome (vcablk_disk * Z) :=
  c ← get_ctx dev ctx;
  if VCABLK_BIO_SPLIT_SIZE <=? bvec_ctxs_idx c then Ret (dev, 0)
  else
    match dma_map bvec d with
    | inl _ => Ret (dev, 0)
    | inr da =>
        let m := mkBctx da (bv_len bvec) d in
        l ← aset (bvec_ctxs c) (bvec_ctxs_idx c) m;
        dev ← set_ctx (upd_log dev [EvMap m]) ctx (mkCtx (id c) (req c) (bvec_ctxs_idx c + 1) l);
        Ret (dev, da)
    end.

(** Writing the element that the counter [cnt] designates. *)
Definition put_request (dev : vcablk_disk) (cnt : Z) (r : vcablk_request) : outcome vcablk_disk :=
  let rr := request_ring dev in
  l ← VCABLK_RING_SET_OBJ cnt (num_elems rr) (elems rr) r;
  Ret (upd_request_ring dev (mkVring (num_elems rr) (last_add rr) (last_used rr) l) (request_ring_alloc dev)).
Definition get_request (dev : vcablk_disk) (cnt : Z) : outcome vcablk_request :=
  VCABLK_RING_GET_OBJ cnt (num_elems (request_ring dev)) (elems (request_ring dev)).

Definition vcablk_disk_request_step (dev : vcablk_disk) (bvec : option bio_vec) (ctx ty sec n : Z)
    : outcome (vcablk_disk * Z) :=
  let '(dev, r) := vcablk_disk_request_alloc_next dev in
  match r with
  | None => Ret (dev, - EBUSY)
  | Some cnt =>
      c ← get_ctx dev ctx;
      e ← get_request dev cnt;
      dev ← put_request dev cnt (mkRequest (phys_buff e) (sector e) (sectors_num e) (id c) ty);
      match bvec with
      | Some bv =>
          if (ty =? REQUEST_READ) || (ty =? REQUEST_WRITE) then
            '(dev, da) ← vcablk_disk_map_page dev ctx bv (ty =? REQUEST_WRITE);
            if da =? 0 then Ret (dev, - ENOMEM)
            else
              e ← get_request dev cnt;
              dev ← put_request dev cnt (mkRequest da sec n (cookie e) (request_type e));
              Ret (dev, 0)
          else Ret (dev, 0)
      | None => Ret (dev, 0)
      end
  end.

Definition vcablk_disk_get_bio_context (dev : vcablk_disk) : outcome (vcablk_disk * option Z) :=
  let dev := if negb (Pool.vcablk_is_available (bio_context_pool dev)) then wait WPool dev else dev in
  '(p, i) ← Pool.vcablk_pool_pop (bio_context_pool dev);
  let dev := upd_pool dev p in
  match i with
  | None => Ret (dev, None)
  | Some i =>
      c ← get_ctx dev i;
      dev ← set_ctx dev i (mkCtx (u16 (i + 1)) None 0 (bvec_ctxs c));
      Ret (dev, Some i)
  end.

(** What [vcablk_disk_async_request] has when it reaches [end]: the current
    and the previous context, and the error. *)
Record progress := mkProgress { g_ctx : option Z; g_prev : option Z; g_ret : Z }.

(** [rq_for_each_segment]. *)
Fixpoint segment_loop (dev : vcablk_disk) (ctx : Z) (prev : option Z) (ty sec : Z) (l : list bio_vec)
    : outcome (vcablk_disk * progress) :=
  match l with
  | [] => Ret (dev, mkProgress (Some ctx) prev 0)
  | bv :: l =>
      let n := Z.shiftr (bv_len bv) SECTOR_SHIFT in
      c ← get_ctx dev ctx;
      '(dev, g) ←
        (if VCABLK_BIO_SPLIT_SIZE <=? bvec_ctxs_idx c then
           let '(dev, ret) := vcablk_disk_request_start dev in
           if negb (ret =? 0) then Ret (dev, mkProgress (Some ctx) prev (- EIO))
           else
             '(dev, i) ← vcablk_disk_get_bio_context dev;
             Ret (dev, mkProgress i (Some ctx) (match i with None => - EIO | Some _ => 0 end))
         else Ret (dev, mkProgress (Some ctx) prev 0));
      match g_ctx g with
      | Some i =>
          if negb (g_ret g =? 0) then Ret (dev, g)
          else
            '(dev, ret) ← vcablk_disk_request_step dev (Some bv) i ty sec n;
            if negb (ret =? 0) then Ret (dev, mkProgress (Some i) (g_prev g) ret)
            else segment_loop dev i (g_prev g) ty (sec + n) l
      | None => Ret (dev, g)
      end
  end.

Definition sync_step (dev : vcablk_disk) (do_sync : bool) (ctx : Z) : outcome (vcablk_disk * Z) :=
  if do_sync then
    '(dev, ret) ← vcablk_disk_request_step dev None ctx REQUEST_SYNC 0 0;
    Ret (dev, if negb (ret =? 0) then - EIO else 0)
  else Ret (dev, 0).

(** From the first context to [end]. *)
Definition make_parts (dev : vcablk_disk) (rq : request) (ctx : Z) : outcome (vcablk_disk * progress) :=
  let ty := if rq_write rq then REQUEST_WRITE else REQUEST_READ in
  '(dev, ret) ← sync_step dev (rq_sync rq) ctx;
  if negb (ret =? 0) then Ret (dev, mkProgress (Some ctx) None ret)
  else
    '(dev, g) ← segment_loop dev ctx None ty (blk_rq_pos rq) (rq_bvecs rq);
    match g_ctx g with
    | Some i =>
        if negb (g_ret g =? 0) then Ret (dev, g)
        else
          '(dev, ret) ← sync_step dev (rq_sync rq) i;
          if negb (ret =? 0) then Ret (dev, mkProgress (Some i) (g_prev g) ret)
          else
            c ← get_ctx dev i;
            dev ← set_ctx dev i (mkCtx (id c) (Some rq) (bvec_ctxs_idx c) (bvec_ctxs c));
            let '(dev, ret) := vcablk_disk_request_start dev in
            Ret (dev, mkProgress (Some i) (g_prev g) ret)
    | None => Ret (dev, g)
    end.

Definition vcablk_disk_async_request (dev : vcablk_disk) (rq : request) : outcome (vcablk_disk * Z) :=
  '(dev, i) ← vcablk_disk_get_bio_context dev;
  '(dev, g) ← match i with
              | None => Ret (dev, mkProgress None None (- EIO))
              | Some i => make_parts dev rq i
              end;
  if negb (g_ret g =? 0) then
    dev ← vcablk_disk_request_break dev (g_ctx g);
    dev ← match g_prev g with
          | Some p => c ← get_ctx dev p; Ret (if negb (bvec_ctxs_idx c =? 0) then wait (WPart p) dev else dev)
          | None => Ret dev
          end;
    Ret (vcablk_disk_request_end dev rq (- EIO), g_ret g)
  else Ret (dev, 0).

(** One turn of [vcablk_disk_make_request_thread], when it is not to stop. *)
Definition make_request_turn (dev : vcablk_disk) : outcome vcablk_disk :=
  let r := req_ring dev in
  if rr_head r =? rr_tail r then Ret dev
  else
    rq ← aget (rr_ring r) (rr_tail r);
    let dev := upd_req_ring dev (mkRr (rr_head r) (Z.land (rr_tail r + 1) REQ_RING_MASK) (rr_ring r)) in
    match rq with
    | None => Bug
    | Some rq => '(dev, _) ← vcablk_disk_async_request dev rq; Ret dev
    end.

End Make.

(** ** Requests from the block layer *)

Inductive blk_status_t := BLK_STS_OK | BLK_STS_IOERR | BLK_STS_RESOURCE.

(** [None] is a queue without a disk. *)
Definition vcablk_disk_queue_rq (dev : option vcablk_disk) (passthrough : bool) (rq : request)
    : outcome (option vcablk_disk * blk_status_t) :=
  match dev with
  | None => Ret (None, BLK_STS_IOERR)
  | Some dev =>
      if passthrough then Ret (Some (upd_log dev [EvStart rq; EvEnd rq false]), BLK_STS_OK)
      else
        let r := req_ring dev in
        let new_head := Z.land (rr_head r + 1) REQ_RING_MASK in
        if new_head =? rr_tail r then Ret (Some dev, BLK_STS_RESOURCE)
        else
          l ← aset (rr_ring r) (rr_head r) (Some rq);
          Ret (Some (upd_req_ring (upd_log dev [EvStart rq]) (mkRr new_head (rr_tail r) l)), BLK_STS_OK)
  end.

(** ** Completions *)

(** [last_add] is read once: the backend only moves it forward. *)
Fixpoint completion_loop (fuel : nat) (dev : vcablk_disk) (lu : Z) : outcome vcablk_disk :=
  let ring := completion_ring dev in
  if negb (lu =? last_add ring) then
    match fuel with
    | O => Spin
    | S fuel =>
        ack ← VCABLK_RING_GET_OBJ lu (num_elems ring) (elems ring);
        l ← VCABLK_RING_SET_OBJ lu (num_elems ring) (elems ring) (mkCompletion 0 0);
        let lu := VCA_RB_COUNTER_ADD lu 1 (num_elems ring) in
        let dev := upd_completion dev (mkVring (num_elems ring) (last_add ring) lu l) in
        dev ← vcablk_disk_request_done dev (c_cookie ack) (c_ret ack);
        completion_loop fuel dev lu
    end
  else Ret dev.

(** The counters run over twice the number of elements. *)
Definition vcablk_disk_request_completion_handler (dev : vcablk_disk) : outcome vcablk_disk :=
  let ring := completion_ring dev in
  completion_loop (Z.to_nat (2 * num_elems ring)) dev (last_used ring).

(** ** The books

    The page mappings made and not undone are the ones recorded in the
    contexts; the requests taken over and not ended are the ones recorded in the
    contexts in use. *)

Definition maps_of (es : list event) : list bvec_context :=
  omap (fun e => match e with EvMap m => Some m | _ => None end) es.
Definition unmaps_of (es : list event) : list bvec_context :=
  omap (fun e => match e with EvUnmap m => Some m | _ => None end) es.
Definition ends_of (es : list event) : list request :=
  omap (fun e => match e with EvEnd rq _ => Some rq | _ => None end) es.

Definition opt_list {A} (o : option A) : list A := match o with Some a => [a] | None => [] end.

Definition ctx_maps (c : vcablk_bio_context) : list bvec_context :=
  take (Z.to_nat (bvec_ctxs_idx c)) (bvec_ctxs c).

(** The requests of the contexts that are not free. *)
Definition owed (free : list Z) (cs : list vcablk_bio_context) : list request :=
  concat (imap (fun i c => if bool_decide (Z.of_nat i ∈ free) then [] else opt_list (req c)) cs).

Definition contexts (d : vcablk_disk) : list vcablk_bio_context := Pool.data (bio_context_pool d).
Definition accounted (d : vcablk_disk) (free : list Z) : list request :=
  ends_of (log d) ++ owed free (contexts d).

Record fe_inv (d : vcablk_disk) (free : list Z) : Prop := {
  fi_pow : pow2 (num_elems (request_ring d));
  fi_elems : zlen (elems (request_ring d)) = num_elems (request_ring d);
  fi_pool : Pool.pool_inv (bio_context_pool d) free;
  fi_ctx : Forall (fun c => zlen (bvec_ctxs c) = VCABLK_BIO_SPLIT_SIZE
                            /\ 0 <= bvec_ctxs_idx c <= VCABLK_BIO_SPLIT_SIZE) (contexts d);
  fi_free : forall i c, i ∈ free -> contexts d !! Z.to_nat i = Some c -> bvec_ctxs_idx c = 0;
  fi_maps : maps_of (log d) ≡ₚ unmaps_of (log d) ++ concat (map ctx_maps (contexts d));
}.

(** A state that continues another one: no request is lost or ended twice. *)
Record evolves (d : vcablk_disk) (free : list Z) (d' : vcablk_disk) (free' : list Z) : Prop := {
  ev_inv : fe_inv d' free';
  ev_acct : accounted d' free' ≡ₚ accounted d free;
  ev_num : Pool.num (bio_context_pool d') = Pool.num (bio_context_pool d);
}.

(** The context a part is being made in: in use, without a request yet. *)
Definition held (d : vcablk_disk) (free : list Z) (i : Z) : Prop :=
  (i ∉ free) /\ 0 <= i < Pool.num (bio_context_pool d)
  /\ exists c, contexts d !! Z.to_nat i = Some c /\ req c = None.

Lemma evolves_refl d free : fe_inv d free -> evolves d free d free.
Proof. by split. Qed.

Lemma evolves_trans d free d1 free1 d2 free2 :
  evolves d free d1 free1 -> evolves d1 free1 d2 free2 -> evolves d free d2 free2.
Proof. intros [] [? Ha ?]. split; [done|by rewrite Ha|congruence]. Qed.

(** Only these parts of the disk matter. *)
Lemma inv_ext d d' free :
  bio_context_pool d' = bio_context_pool d -> log d' = log d ->
  num_elems (request_ring d') = num_elems (request_ring d) ->
  zlen (elems (request_ring d')) = zlen (elems (request_ring d)) ->
  fe_inv d free -> evolves d free d' free.
Proof.
  intros Hp Hl Hn He []. split; unfold accounted, contexts; rewrite ?Hp, ?Hl; [|done|done].
  split; unfold contexts; rewrite ?Hp, ?Hl, ?Hn, ?He; done.
Qed.

Lemma held_ext d d' free i :
  bio_context_pool d' = bio_context_pool d -> held d free i -> held d' free i.
Proof. intros Hp. unfold held, contexts. by rewrite Hp. Qed.

(** A sum over a list when one element changes. *)
Lemma total_update {A B} (f f' : nat -> A -> list B) l i x x' :
  l !! i = Some x -> (forall j y, j <> i -> f' j y = f j y) ->
  exists rest, concat (imap f l) ≡ₚ f i x ++ rest /\ concat (imap f' (<[i := x']> l)) ≡ₚ f' i x' ++ rest.
Proof.
  revert f f' i. induction l as [|y l IH]; intros f f' i Hx Hf; [done|].
  destruct i as [|i]; cbn [imap concat insert list_insert].
  - injection Hx as ->. exists (concat (imap (f ∘ S) l)). split; [done|].
    apply Permutation_app_head. rewrite (imap_ext (f' ∘ S) (f ∘ S)); [done|]. intros j z Hz. by apply Hf.
  - destruct (IH (f ∘ S) (f' ∘ S) i Hx) as (rest & H1 & H2).
    { intros j z Hj. apply Hf. congruence. }
    exists (f 0%nat y ++ rest). simpl in *. rewrite H1, H2, (Hf 0%nat y) by done.
    split; solve_Permutation.
Qed.

Lemma concat_imap_const {A B} (f : A -> list B) l : concat (map f l) = concat (imap (fun _ => f) l).
Proof.
  f_equal. enough (forall g, (forall n, g n = f) -> map f l = imap g l) as H by by apply H.
  induction l as [|x l IH]; intros g Hg; [done|]. simpl. rewrite Hg. f_equal. apply IH. intros n. apply Hg.
Qed.

(** Storing a context. *)
Lemma set_ctx_ok d free i c c' :
  fe_inv d free -> contexts d !! Z.to_nat i = Some c -> 0 <= i ->
  exists d', set_ctx d i c' = Ret d'
    /\ contexts d' = <[Z.to_nat i := c']> (contexts d) /\ log d' = log d
    /\ request_ring d' = request_ring d
    /\ bio_context_pool d' = Pool.set_data (bio_context_pool d) (<[Z.to_nat i := c']> (contexts d)).
Proof.
  intros Hi Hc H0. unfold set_ctx. fold (contexts d). apply lookup_lt_Some in Hc.
  rewrite aset_ret by (unfold zlen; lia). run_bind. eexists. split; [done|]. done.
Qed.

Lemma pool_inv_data (p : Pool.vcablk_pool vcablk_bio_context) free l :
  zlen l = Pool.num p -> Pool.pool_inv p free -> Pool.pool_inv (Pool.set_data p l) free.
Proof. intros Hl []. by split. Qed.

Lemma ctx_lookup d free i : fe_inv d free -> 0 <= i < Pool.num (bio_context_pool d) ->
  exists c, contexts d !! Z.to_nat i = Some c /\ get_ctx d i = Ret c
    /\ zlen (bvec_ctxs c) = VCABLK_BIO_SPLIT_SIZE /\ 0 <= bvec_ctxs_idx c <= VCABLK_BIO_SPLIT_SIZE.
Proof.
  intros Hi Hr. pose proof (Pool.pi_data _ _ (fi_pool _ _ Hi)) as Hd.
  destruct (aget_total (contexts d) i) as (c & Hg & Hl); [unfold contexts; lia|].
  exists c. split; [done|]. split; [done|]. pose proof (fi_ctx _ _ Hi) as Hc. rewrite List.Forall_forall in Hc.
  by apply Hc, list_elem_of_In, (list_elem_of_lookup_2 _ _ _ Hl).
Qed.

Lemma omap_app_ev {A} (f : event -> option A) l k : omap f (l ++ k) = omap f l ++ omap f k.
Proof. apply omap_app. Qed.

(** Replacing a context in use, and logging what happened to its mappings. *)
Lemma inv_update d d' free i c c' es :
  fe_inv d free -> i ∉ free -> 0 <= i -> contexts d !! Z.to_nat i = Some c ->
  bio_context_pool d' = Pool.set_data (bio_context_pool d) (<[Z.to_nat i := c']> (contexts d)) ->
  log d' = log d ++ es -> num_elems (request_ring d') = num_elems (request_ring d) ->
  zlen (elems (request_ring d')) = num_elems (request_ring d) ->
  zlen (bvec_ctxs c') = VCABLK_BIO_SPLIT_SIZE -> 0 <= bvec_ctxs_idx c' <= VCABLK_BIO_SPLIT_SIZE ->
  ends_of es = [] -> maps_of es ++ ctx_maps c ≡ₚ unmaps_of es ++ ctx_maps c' ->
  fe_inv d' free /\ opt_list (req c) ++ accounted d' free ≡ₚ opt_list (req c') ++ accounted d free.
Proof.
  intros [Hp He Hpool Hctx Hfree Hmaps] Hnf H0 Hc Hpd Hl Hn He' Hz Hix Hend Hbal.
  assert (Hcs : contexts d' = <[Z.to_nat i := c']> (contexts d)) by (unfold contexts at 1; by rewrite Hpd).
  split.
  - split; rewrite ?Hn, ?Hpd, ?Hcs; try done.
    + apply pool_inv_data; [|done]. rewrite zlen_insert. apply (Pool.pi_data _ _ Hpool).
    + by apply Forall_insert.
    + intros j x Hj Hx. destruct (decide (j = i)) as [->|Hji]; [done|].
      apply (Hfree j); [done|]. rewrite list_lookup_insert_ne in Hx; [done|].
      pose proof (Pool.pi_range _ _ Hpool) as Hr. rewrite List.Forall_forall in Hr.
      specialize (Hr j (proj1 (list_elem_of_In _ _) Hj)). lia.
    + destruct (total_update (fun _ => ctx_maps) (fun _ => ctx_maps) (contexts d) _ c c' Hc) as (rest & H1 & H2); [done|].
      rewrite !concat_imap_const, H1 in *. rewrite H2. unfold maps_of, unmaps_of in *.
      rewrite Hl, !omap_app_ev, Hmaps.
      transitivity (omap (fun e => match e with EvUnmap m => Some m | _ => None end) (log d)
        ++ (omap (fun e => match e with EvMap m => Some m | _ => None end) es ++ ctx_maps c) ++ rest);
        [solve_Permutation|]. rewrite Hbal. solve_Permutation.
  - unfold accounted, ends_of in *. rewrite Hl, omap_app_ev, Hend, app_nil_r, Hcs. unfold owed.
    set (f := fun (j : nat) (x : vcablk_bio_context) => if bool_decide (Z.of_nat j ∈ free) then [] else opt_list (req x)).
    destruct (total_update f f (contexts d) _ c c' Hc) as (rest & H1 & H2); [done|]. rewrite H1, H2.
    unfold f. rewrite Z2Nat.id, (bool_decide_eq_false_2 _ Hnf) by lia. solve_Permutation.
Qed.

Lemma unmap_loop_ok maps n i : (i + n <= length maps)%nat ->
  unmap_loop n maps (Z.of_nat i) = Ret (map EvUnmap (take n (drop i maps))).
Proof.
  revert i. induction n as [|n IH]; intros i Hi; [done|]. cbn [unmap_loop].
  destruct (lookup_lt_is_Some_2 maps i ltac:(lia)) as (m & Hm).
  rewrite (aget_ret _ _ m) by (lia || by rewrite Nat2Z.id). run_bind.
  replace (Z.of_nat i + 1) with (Z.of_nat (S i)) by lia. rewrite IH by lia. run_bind.
  by rewrite (drop_S _ _ _ Hm).
Qed.

Lemma unmap_events (l : list bvec_context) :
  ends_of (map EvUnmap l) = [] /\ maps_of (map EvUnmap l) = [] /\ unmaps_of (map EvUnmap l) = l.
Proof. induction l as [|m l (H1 & H2 & H3)]; [done|]. simpl. rewrite H1, H2, H3. done. Qed.

(** Giving a context back. *)
Lemma push_ok d free i c :
  fe_inv d free -> i ∉ free -> 0 <= i < Pool.num (bio_context_pool d) ->
  contexts d !! Z.to_nat i = Some c -> bvec_ctxs_idx c = 0 ->
  exists p, Pool.vcablk_pool_push (bio_context_pool d) i = Ret p
    /\ fe_inv (upd_pool d p) (free ++ [i])
    /\ opt_list (req c) ++ accounted (upd_pool d p) (free ++ [i]) ≡ₚ accounted d free
    /\ Pool.num p = Pool.num (bio_context_pool d) /\ Pool.data p = contexts d.
Proof.
  intros Hi Hnf Hr Hc Hz. destruct (Pool.push_refines _ _ i (fi_pool _ _ Hi) Hr Hnf) as (p & Hp & Hpi & Hd).
  exists p. split; [done|].
  assert (Hnum : Pool.num p = Pool.num (bio_context_pool d)).
  { rewrite <- (Pool.pi_data _ _ Hpi), <- (Pool.pi_data _ _ (fi_pool _ _ Hi)). by rewrite Hd. }
  assert (Hcs : contexts (upd_pool d p) = contexts d) by done. destruct Hi as [? ? Hpool ? Hfree ?].
  split; [|split; [|done]].
  - split; rewrite ?Hcs; try done. intros j x Hj Hx. apply elem_of_app in Hj as [Hj|Hj%list_elem_of_singleton].
    + by apply (Hfree j).
    + subst j. by simplify_eq.
  - unfold accounted. rewrite Hcs. change (log (upd_pool d p)) with (log d). unfold owed.
    destruct (total_update (fun (j : nat) (x : vcablk_bio_context) => if bool_decide (Z.of_nat j ∈ free) then [] else opt_list (req x))
      (fun (j : nat) (x : vcablk_bio_context) => if bool_decide (Z.of_nat j ∈ free ++ [i]) then [] else opt_list (req x))
      (contexts d) _ c c Hc) as (rest & H1 & H2).
    { intros j y Hj. rewrite (bool_decide_ext (Z.of_nat j ∈ free ++ [i]) (Z.of_nat j ∈ free)); [done|].
      rewrite elem_of_app, list_elem_of_singleton. split; [|by left]. intros [?|He]; [done|]. subst i. lia. }
    rewrite list_insert_id in H2 by done. rewrite H1, H2. rewrite !Z2Nat.id by lia.
    rewrite (bool_decide_eq_false_2 _ Hnf), bool_decide_eq_true_2; [solve_Permutation|].
    apply elem_of_app. right. by apply list_elem_of_singleton.
Qed.

Lemma clean_ok d free i c :
  fe_inv d free -> i ∉ free -> 0 <= i < Pool.num (bio_context_pool d) -> contexts d !! Z.to_nat i = Some c ->
  exists d', vcablk_disk_request_clean d i = Ret d' /\ fe_inv d' (free ++ [i])
    /\ opt_list (req c) ++ accounted d' (free ++ [i]) ≡ₚ accounted d free
    /\ Pool.num (bio_context_pool d') = Pool.num (bio_context_pool d)
    /\ split_request_error d' = split_request_error d /\ completion_ring d' = completion_ring d
    /\ log d' = log d ++ map EvUnmap (ctx_maps c)
    /\ (forall j, j <> Z.to_nat i -> contexts d' !! j = contexts d !! j).
Proof.
  intros Hi Hnf Hr Hc. destruct (ctx_lookup d free i Hi Hr) as (c0 & Hc0 & Hg & Hz & Hx). simplify_eq.
  unfold vcablk_disk_request_clean. rewrite Hg. run_bind.
  rewrite (unmap_loop_ok _ _ 0) by (unfold zlen, VCABLK_BIO_SPLIT_SIZE in *; lia). run_bind.
  change (take (Z.to_nat (bvec_ctxs_idx c)) (drop 0 (bvec_ctxs c))) with (ctx_maps c).
  set (c' := mkCtx (id c) (req c) 0 (bvec_ctxs c)).
  unfold set_ctx. change (Pool.data (bio_context_pool (upd_log d _))) with (contexts d).
  rewrite aset_ret by (apply lookup_lt_Some in Hc; unfold zlen; lia). run_bind.
  set (d1 := upd_pool _ _). destruct (unmap_events (ctx_maps c)) as (He1 & He2 & He3).
  destruct (inv_update d d1 free i c c' (map EvUnmap (ctx_maps c))) as (Hi1 & Ha1); try done; try lia.
  { exact (fi_elems _ _ Hi). }
  { rewrite He2, He3. unfold ctx_maps at 3. simpl. by rewrite app_nil_r. }
  assert (Hc1 : contexts d1 !! Z.to_nat i = Some c').
  { apply list_lookup_insert_eq. by eapply lookup_lt_Some. }
  destruct (push_ok d1 free i c' Hi1 Hnf ltac:(simpl; lia) Hc1 eq_refl) as (p & -> & Hi2 & Ha2 & Hn2 & Hd2).
  run_bind. eexists. split; [done|]. split; [done|]. split.
  { apply (Permutation_app_inv_l (opt_list (req c))).
    change (req c') with (req c) in *. by rewrite Ha2, <- Ha1. }
  split; [exact Hn2|]. split; [done|]. split; [done|]. split; [done|].
  intros j Hj. unfold contexts at 1. simpl. rewrite Hd2. by apply list_lookup_insert_ne.
Qed.

(** ** Completions conserve requests *)

Lemma done_ok d free cid ret :
  fe_inv d free -> 0 <= cid <= Pool.num (bio_context_pool d) ->
  exists d' free', vcablk_disk_request_done d cid ret = Ret d' /\ evolves d free d' free'
    /\ completion_ring d' = completion_ring d
    /\ (forall c, 0 < cid -> (cid - 1 ∉ free) -> contexts d !! Z.to_nat (cid - 1) = Some c ->
        free' = free ++ [cid - 1]
        /\ log d' = log d ++ map EvUnmap (ctx_maps c)
             ++ match req c with
                | Some rq => [EvEnd rq ((ret =? 0) && (split_request_error d =? 0))]
                | None => []
                end)
    /\ (cid = 0 \/ cid - 1 ∈ free -> d' = d /\ free' = free).
Proof.
  intros Hi Hcid. unfold vcablk_disk_request_done.
  destruct (Z.eqb_spec cid 0) as [->|Hne].
  { exists d, free. split; [done|]. split; [by apply evolves_refl|]. split; [done|]. split; [lia|done]. }
  pose proof (Pool.pi_num _ _ (fi_pool _ _ Hi)) as Hn. rewrite Pool.USED_val in Hn.
  rewrite (u16_small (cid - 1)) by lia. rewrite (Pool.get_by_id_refines _ _ _ (fi_pool _ _ Hi)) by lia. run_bind.
  destruct (decide (cid - 1 ∈ free)) as [Hin|Hnin].
  { exists d, free. split; [done|]. split; [by apply evolves_refl|]. done. }
  set (i := cid - 1) in *. destruct (ctx_lookup d free i Hi ltac:(lia)) as (c & Hc & -> & Hz & Hx). run_bind.
  set (c' := mkCtx (id c) None (bvec_ctxs_idx c) (bvec_ctxs c)).
  destruct (set_ctx_ok d free i c c' Hi Hc ltac:(lia)) as (d1 & Hs & Hcs & Hl1 & Hr1 & Hp1).
  assert (Hsame : split_request_error d1 = split_request_error d /\ completion_ring d1 = completion_ring d).
  { unfold set_ctx in Hs. inv_ret. by subst d1. }
  rewrite Hs. run_bind.
  destruct (inv_update d d1 free i c c' []) as (Hi1 & Ha1); try done; try lia.
  { by rewrite app_nil_r. } { by rewrite Hr1. } { rewrite Hr1. exact (fi_elems _ _ Hi). }
  assert (Hc1 : contexts d1 !! Z.to_nat i = Some c') by (rewrite Hcs; apply list_lookup_insert_eq; by eapply lookup_lt_Some).
  destruct (clean_ok d1 free i c' Hi1 Hnin) as (d2 & -> & Hi2 & Ha2 & Hn2 & Hse & Hcr & Hl2 & _);
    [by rewrite Hp1; simpl; lia|done|]. run_bind. simpl in Ha1, Ha2.
  destruct Hsame as (Hse1 & Hcr1). rewrite Hse, Hse1.
  assert (Hbase : opt_list (req c) ++ accounted d2 (free ++ [i]) ≡ₚ accounted d free) by by rewrite Ha2, Ha1.
  assert (Hlog : log d2 = log d ++ map EvUnmap (ctx_maps c)) by (rewrite Hl2, Hl1; done).
  assert (Hgo : forall d3, bio_context_pool d3 = bio_context_pool d2 -> request_ring d3 = request_ring d2 ->
     completion_ring d3 = completion_ring d2 ->
     (exists es, log d3 = log d2 ++ es /\ maps_of es = [] /\ unmaps_of es = [] /\ ends_of es = opt_list (req c)) ->
     evolves d free d3 (free ++ [i]) /\ completion_ring d3 = completion_ring d).
  { intros d3 H1 H2 H3 (es & H4 & Hm & Hu & He). split; [|congruence]. split.
    - destruct Hi2 as [? ? ? ? ? Hmp]. split; unfold contexts; rewrite ?H1, ?H2; try done.
      unfold maps_of, unmaps_of in *. by rewrite H4, !omap_app_ev, Hm, Hu, !app_nil_r.
    - rewrite <- Hbase. unfold accounted, contexts, ends_of in *. rewrite H1, H4, omap_app_ev, He. solve_Permutation.
    - rewrite H1, Hn2, Hp1. done. }
  destruct (req c) as [rq|] eqn:Hrq.
  - set (p := if negb (split_request_error d =? 0) then _ else _).
    set (d3 := vcablk_disk_request_end (fst p) rq (snd p)).
    exists d3, (free ++ [i]). split; [by unfold d3; destruct p|].
    destruct (Hgo d3) as (Hev & Hcr3).
    { unfold d3, p. by destruct (negb _). } { unfold d3, p. by destruct (negb _). } { unfold d3, p. by destruct (negb _). }
    { exists [EvEnd rq ((ret =? 0) && (split_request_error d =? 0))]. split; [|done]. unfold d3, p.
      destruct (Z.eqb_spec (split_request_error d) 0) as [He|He]; simpl; rewrite ?He, ?andb_true_r; [done|].
      by rewrite andb_false_r, (proj2 (Z.eqb_neq _ _) He). }
    split; [done|]. split; [done|]. split; [|intros [?|?]; [lia|done]].
    intros c0 _ _ Hc0. simplify_eq. split; [done|]. rewrite Hrq, app_assoc, <- Hlog. unfold d3, p.
    destruct (Z.eqb_spec (split_request_error d) 0) as [He|He]; simpl; rewrite ?andb_true_r; [done|].
    by rewrite andb_false_r, (proj2 (Z.eqb_neq _ _) He).
  - eexists _, (free ++ [i]). split; [done|]. set (d3 := if negb (ret =? 0) then _ else _).
    destruct (Hgo d3) as (Hev & Hcr3).
    { unfold d3. by case_if. } { unfold d3. by case_if. } { unfold d3. by case_if. }
    { exists []. split; [|done]. rewrite app_nil_r. unfold d3. by case_if. }
    split; [done|]. split; [done|]. split; [|intros [?|?]; [lia|done]].
    intros c0 _ _ Hc0. simplify_eq. split; [done|]. rewrite Hrq, app_nil_r, <- Hlog. unfold d3. by case_if.
Qed.

(** The completions that wait from the counter [lu] on. *)
Definition acks_at (r : vcablk_ring vcablk_completion) (lu : Z) (acks : list vcablk_completion) : Prop :=
  pow2 (num_elems r) /\ zlen (elems r) = num_elems r /\ zlen acks <= num_elems r
  /\ last_add r = cnt_of (num_elems r) (lu + zlen acks)
  /\ forall j a, acks !! j = Some a -> holds (num_elems r) (elems r) (lu + Z.of_nat j) a.

Definition ack_ok (n : Z) (a : vcablk_completion) : Prop := 0 <= c_cookie a <= n.

Lemma completion_loop_ok acks : forall fuel d free lu,
  fe_inv d free -> acks_at (completion_ring d) lu acks ->
  Forall (ack_ok (Pool.num (bio_context_pool d))) acks -> (length acks <= fuel)%nat ->
  exists d' free', completion_loop fuel d (cnt_of (num_elems (completion_ring d)) lu) = Ret d'
    /\ evolves d free d' free'
    /\ (acks <> [] -> last_used (completion_ring d') = last_add (completion_ring d'))
    /\ (acks = [] -> d' = d)
    /\ (NoDup (map c_cookie acks) -> Forall (fun a => 0 < c_cookie a /\ (c_cookie a - 1 ∉ free)) acks ->
        free' = free ++ map (fun a => c_cookie a - 1) acks).
Proof.
  induction acks as [|a acks IH]; intros fuel d free lu Hi (Hpow & Hz & Hle & Hadd & Hat) Hok Hf.
  - exists d, free. change (zlen []) with 0 in Hadd. rewrite Z.add_0_r in Hadd.
    split; [by destruct fuel; simpl; rewrite Hadd, Z.eqb_refl|]. split; [by apply evolves_refl|].
    split; [done|]. split; [done|]. intros _ _. by rewrite app_nil_r.
  - destruct fuel as [|fuel]; [simpl in Hf; lia|]. pose proof (pow2_pos _ Hpow) as Hpos.
    rewrite zlen_cons in *. pose proof (zlen_nonneg acks) as Hza. cbn [completion_loop].
    destruct (Z.eqb_spec (cnt_of (num_elems (completion_ring d)) lu) (last_add (completion_ring d))) as [He|He].
    { rewrite Hadd in He. symmetry in He. apply cnt_inj in He; [lia|done|lia]. }
    cbn [negb]. set (m := num_elems (completion_ring d)) in *. clear He.
    rewrite (ring_get m Hpow (elems (completion_ring d)) lu a) by (rewrite <- (Z.add_0_r lu); by apply (Hat 0%nat)).
    run_bind. destruct (ring_set m Hpow (elems (completion_ring d)) lu (mkCompletion 0 0) Hz)
      as (l' & -> & Hz' & _ & Hkeep). run_bind. rewrite rb_add by done.
    set (d1 := upd_completion d _).
    assert (Hev1 : evolves d free d1 free) by by apply inv_ext.
    apply Forall_cons_iff in Hok as [Ha Hok].
    destruct (done_ok d1 free (c_cookie a) (c_ret a) (ev_inv _ _ _ _ Hev1) Ha)
      as (d2 & free2 & -> & Hev2 & Hcr & Hused & _). run_bind.
    assert (Hm2 : num_elems (completion_ring d2) = m) by by rewrite Hcr. rewrite <- Hm2.
    destruct (IH fuel d2 free2 (lu + 1)) as (d' & free' & -> & Hev & Hend & Hnil & Hfree).
    { apply Hev2. }
    { rewrite Hcr. split; [done|]. split; [done|]. split; [simpl; fold m; lia|]. split.
      - simpl. fold m. rewrite Hadd. f_equal. lia.
      - intros j b Hb. simpl. fold m. apply Hkeep.
        + apply lookup_lt_Some in Hb. unfold zlen in Hle. lia.
        + replace (lu + 1 + Z.of_nat j) with (lu + Z.of_nat (S j)) by lia. by apply Hat. }
    { by rewrite (ev_num _ _ _ _ Hev2). }
    { simpl in Hf. lia. }
    exists d', free'. split; [done|]. split; [by eapply evolves_trans; [|done]; eapply evolves_trans|].
    split.
    { intros _. destruct acks as [|b acks]; [|by apply Hend]. rewrite (Hnil eq_refl), Hcr. simpl.
      by rewrite Hadd. }
    split; [done|]. intros Hnd Hin. cbn [map] in Hnd. apply list.NoDup_cons in Hnd as [Hna Hnd].
    apply Forall_cons_iff in Hin as [(Hp & Hnf) Hin].
    destruct (ctx_lookup d free (c_cookie a - 1) Hi) as (c & Hc & _).
    { unfold ack_ok in Ha. simpl in Ha. lia. }
    destruct (Hused c Hp Hnf Hc) as (-> & _). rewrite Hfree; [by rewrite <- app_assoc|done|].
    rewrite List.Forall_forall in Hin |- *. intros b Hb. destruct (Hin b Hb) as (? & Hbf). split; [done|].
    rewrite elem_of_app, list_elem_of_singleton. intros [?|He]; [done|]. apply Hna.
    apply list_elem_of_In, in_map_iff. exists b. split; [lia|done].
Qed.

(** ** Making requests conserves requests *)

(** Events that the books do not see. *)
Definition silent (es : list event) : Prop := maps_of es = [] /\ unmaps_of es = [] /\ ends_of es = [].

Lemma inv_silent d d' free es :
  bio_context_pool d' = bio_context_pool d -> log d' = log d ++ es -> silent es ->
  num_elems (request_ring d') = num_elems (request_ring d) ->
  zlen (elems (request_ring d')) = zlen (elems (request_ring d)) ->
  fe_inv d free -> evolves d free d' free.
Proof.
  intros Hp Hl (Hm & Hu & He) Hn Hz [].
  split; unfold accounted, contexts, maps_of, unmaps_of, ends_of in *; rewrite ?Hp, ?Hl, ?omap_app_ev.
  - split; unfold contexts, maps_of, unmaps_of; rewrite ?Hp, ?Hl, ?Hn, ?Hz, ?omap_app_ev, ?Hm, ?Hu, ?app_nil_r; done.
  - by rewrite He, app_nil_r.
  - done.
Qed.

Section MakeProofs.
Context (wait : wait_reason -> vcablk_disk -> vcablk_disk) (dma_map : bio_vec -> bool -> Z + Z).

(** What other threads and the backend do while the maker waits: they complete
    parts, and leave alone the context that is being filled. *)
Definition wait_ok : Prop := forall r d free h,
  fe_inv d free -> (forall i, h = Some i -> held d free i) ->
  exists free', evolves d free (wait r d) free' /\ forall i, h = Some i -> held (wait r d) free' i.
Context (Hwait : wait_ok).

Lemma alloc_ok d free i : fe_inv d free -> held d free i ->
  exists d' free' r, vcablk_disk_request_alloc_next wait d = (d', r)
    /\ evolves d free d' free' /\ held d' free' i.
Proof.
  intros Hi Hh. unfold vcablk_disk_request_alloc_next.
  set (d1 := if ring_full d then wait WRing d else d).
  assert (exists free1, evolves d free d1 free1 /\ held d1 free1 i) as (free1 & Hev & Hh1).
  { unfold d1. destruct (ring_full d); [|exists free; split; [by apply evolves_refl|done]].
    destruct (Hwait WRing d free (Some i) Hi) as (free1 & ? & H1); [by intros j [= <-]|].
    exists free1. split; [done|]. by apply H1. }
  destruct (negb (ring_full d1)).
  - eexists _, free1, _. split; [done|]. split; [|by apply (held_ext d1)].
    eapply evolves_trans; [done|]. apply inv_ext; try done. apply Hev.
  - by exists d1, free1, None.
Qed.

Lemma req_slot_range d free cnt : fe_inv d free ->
  0 <= VCA_RB_COUNTER_TO_IDX cnt (num_elems (request_ring d)) < zlen (elems (request_ring d)).
Proof.
  intros Hi. rewrite (fi_elems _ _ Hi). unfold VCA_RB_COUNTER_TO_IDX. rewrite land_pow2 by apply (fi_pow _ _ Hi).
  apply Z.mod_pos_bound, pow2_pos, (fi_pow _ _ Hi).
Qed.

Lemma get_request_ok d free cnt : fe_inv d free -> exists e, get_request d cnt = Ret e.
Proof.
  intros Hi. destruct (aget_total _ _ (req_slot_range d free cnt Hi)) as (e & He & _). by exists e.
Qed.

Lemma put_request_ok d free cnt r i : fe_inv d free -> held d free i ->
  exists d', put_request d cnt r = Ret d' /\ evolves d free d' free /\ held d' free i.
Proof.
  intros Hi Hh. unfold put_request, VCABLK_RING_SET_OBJ.
  rewrite aset_ret by apply (req_slot_range d free cnt Hi). run_bind. eexists. split; [done|].
  split; [|by apply (held_ext d)]. apply inv_ext; try done. simpl. by rewrite zlen_insert.
Qed.

Lemma take_snoc_insert {A} (l : list A) n x : (n < length l)%nat -> take (S n) (<[n := x]> l) = take n l ++ [x].
Proof.
  intros Hn. rewrite (take_S_r _ _ x) by by apply list_lookup_insert_eq. by rewrite take_insert_ge by lia.
Qed.

Lemma map_page_ok d free i bv w : fe_inv d free -> held d free i ->
  exists d' da, vcablk_disk_map_page dma_map d i bv w = Ret (d', da)
    /\ evolves d free d' free /\ held d' free i.
Proof.
  intros Hi (Hnf & Hr & c & Hc & Hq).
  assert (Hd : evolves d free d free /\ held d free i) by (split; [by apply evolves_refl|by repeat (split; eauto)]).
  destruct (ctx_lookup d free i Hi Hr) as (c0 & Hc0 & Hg & Hz & Hx). assert (c0 = c) as -> by congruence. clear Hc0.
  unfold vcablk_disk_map_page. rewrite Hg. run_bind.
  destruct (Z.leb_spec VCABLK_BIO_SPLIT_SIZE (bvec_ctxs_idx c)) as [Hfull|Hroom]; [by exists d, 0|].
  destruct (dma_map bv w) as [e|da]; [by exists d, 0|].
  set (m := mkBctx da (bv_len bv) w). rewrite aset_ret by lia. run_bind.
  set (c' := mkCtx (id c) (req c) (bvec_ctxs_idx c + 1) _). unfold set_ctx.
  change (Pool.data (bio_context_pool (upd_log d [EvMap m]))) with (contexts d).
  pose proof (lookup_lt_Some _ _ _ Hc) as Hlt. rewrite aset_ret by (unfold zlen; lia). run_bind.
  set (d1 := upd_pool _ _). exists d1, da. split; [done|].
  destruct (inv_update d d1 free i c c' [EvMap m]) as (Hi1 & Ha1); try done; try lia.
  { exact (fi_elems _ _ Hi). } { unfold c'. simpl. by rewrite zlen_insert. } { unfold c'. simpl. lia. }
  { unfold ctx_maps, c'. cbn [bvec_ctxs bvec_ctxs_idx].
    replace (Z.to_nat (bvec_ctxs_idx c + 1)) with (S (Z.to_nat (bvec_ctxs_idx c))) by lia.
    rewrite take_snoc_insert by (unfold zlen, VCABLK_BIO_SPLIT_SIZE in *; lia). simpl. solve_Permutation. }
  split.
  - split; [done| |done]. by apply (Permutation_app_inv_l (opt_list (req c))).
  - split; [done|]. split; [done|]. exists c'. split; [|done]. by apply list_lookup_insert_eq.
Qed.

Lemma step_ok d free bv i ty sec n : fe_inv d free -> held d free i ->
  exists d' free' ret, vcablk_disk_request_step wait dma_map d bv i ty sec n = Ret (d', ret)
    /\ evolves d free d' free' /\ held d' free' i.
Proof.
  intros Hi Hh. unfold vcablk_disk_request_step.
  destruct (alloc_ok d free i Hi Hh) as (d1 & f1 & r & -> & Hev1 & Hh1).
  destruct r as [cnt|]; [|by exists d1, f1, (- EBUSY)].
  pose proof (ev_inv _ _ _ _ Hev1) as Hi1.
  destruct (ctx_lookup d1 f1 i Hi1 (proj1 (proj2 Hh1))) as (c & _ & -> & _). run_bind.
  destruct (get_request_ok d1 f1 cnt Hi1) as (e & ->). run_bind.
  destruct (put_request_ok d1 f1 cnt (mkRequest (phys_buff e) (sector e) (sectors_num e) (id c) ty) i Hi1 Hh1)
    as (d2 & -> & Hev2 & Hh2). run_bind. pose proof (ev_inv _ _ _ _ Hev2) as Hi2.
  assert (H12 : evolves d free d2 f1) by by eapply evolves_trans.
  destruct bv as [bv|]; [|by exists d2, f1, 0].
  destruct (_ || _); [|by exists d2, f1, 0].
  destruct (map_page_ok d2 f1 i bv (ty =? REQUEST_WRITE) Hi2 Hh2) as (d3 & da & -> & Hev3 & Hh3). run_bind.
  assert (H13 : evolves d free d3 f1) by by eapply evolves_trans.
  destruct (da =? 0); [by exists d3, f1, (- ENOMEM)|]. pose proof (ev_inv _ _ _ _ Hev3) as Hi3.
  destruct (get_request_ok d3 f1 cnt Hi3) as (e' & ->). run_bind.
  destruct (put_request_ok d3 f1 cnt (mkRequest da sec n (cookie e') (request_type e')) i Hi3 Hh3)
    as (d4 & -> & Hev4 & Hh4). run_bind.
  exists d4, f1, 0. split; [done|]. split; [by eapply evolves_trans|done].
Qed.

(** A context that has been taken counts with the request it still names. *)
Lemma pop_inv d p x f c :
  fe_inv d (x :: f) -> Pool.pool_inv p f -> Pool.data p = contexts d -> contexts d !! Z.to_nat x = Some c ->
  fe_inv (upd_pool d p) f /\ accounted (upd_pool d p) f ≡ₚ opt_list (req c) ++ accounted d (x :: f).
Proof.
  intros Hi Hp Hd Hc. assert (Hcs : contexts (upd_pool d p) = contexts d) by done.
  pose proof (Pool.pi_nodup _ _ (fi_pool _ _ Hi)) as [Hxn _]%list.NoDup_cons.
  pose proof (Pool.pi_range _ _ (fi_pool _ _ Hi)) as [Hx _]%Forall_cons_iff.
  destruct Hi as [? ? Hpool ? Hfree ?]. split.
  - split; rewrite ?Hcs; try done. intros j y Hj. apply Hfree. by apply elem_of_cons; right.
  - unfold accounted. rewrite Hcs. change (log (upd_pool d p)) with (log d). unfold owed.
    destruct (total_update (fun (j : nat) (y : vcablk_bio_context) => if bool_decide (Z.of_nat j ∈ x :: f) then [] else opt_list (req y))
      (fun (j : nat) (y : vcablk_bio_context) => if bool_decide (Z.of_nat j ∈ f) then [] else opt_list (req y))
      (contexts d) _ c c Hc) as (rest & H1 & H2).
    { intros j y Hj. rewrite (bool_decide_ext (Z.of_nat j ∈ f) (Z.of_nat j ∈ x :: f)); [done|].
      rewrite elem_of_cons. split; [by right|]. intros [He|?]; [|done]. subst x. lia. }
    rewrite list_insert_id in H2 by done. rewrite H1, H2, !Z2Nat.id by lia.
    rewrite (bool_decide_eq_false_2 _ Hxn), bool_decide_eq_true_2 by by apply elem_of_cons; left.
    solve_Permutation.
Qed.

Lemma get_bio_context_ok d free : fe_inv d free ->
  exists d' free' r, vcablk_disk_get_bio_context wait d = Ret (d', r)
    /\ evolves d free d' free' /\ forall i, r = Some i -> held d' free' i.
Proof.
  intros Hi. unfold vcablk_disk_get_bio_context. set (d1 := if negb _ then wait WPool d else d).
  assert (exists free1, evolves d free d1 free1) as (free1 & Hev).
  { unfold d1. destruct (negb _); [|exists free; by apply evolves_refl].
    destruct (Hwait WPool d free None Hi) as (free1 & ? & _); [done|]. by exists free1. }
  pose proof (ev_inv _ _ _ _ Hev) as Hi1. pose proof (Pool.pop_refines _ _ (fi_pool _ _ Hi1)) as Hpop.
  assert (Hsame : evolves d free (upd_pool d1 (bio_context_pool d1)) free1).
  { eapply evolves_trans; [done|]. by apply inv_ext. }
  destruct free1 as [|x [|y f]]; [by rewrite Hpop; run_bind; eexists _, _, None| |].
  { rewrite Hpop. run_bind. by eexists _, _, None. }
  destruct Hpop as (p & -> & Hp & Hd). run_bind.
  pose proof (Pool.pi_range _ _ (fi_pool _ _ Hi1)) as [Hx _]%Forall_cons_iff.
  pose proof (Pool.pi_nodup _ _ (fi_pool _ _ Hi1)) as [Hxn _]%list.NoDup_cons.
  destruct (ctx_lookup d1 _ x Hi1 Hx) as (c & Hc & _ & Hz & _).
  destruct (pop_inv d1 p x (y :: f) c Hi1 Hp Hd Hc) as (Hi2 & Ha2). set (d2 := upd_pool d1 p) in *.
  assert (Hc2 : contexts d2 !! Z.to_nat x = Some c) by (unfold contexts; simpl; by rewrite Hd).
  unfold get_ctx. fold (contexts d2). rewrite (aget_ret _ _ c) by (lia || done). run_bind.
  set (c' := mkCtx _ _ _ _).
  destruct (set_ctx_ok d2 _ x c c' Hi2 Hc2 ltac:(lia)) as (d3 & -> & Hcs & Hl3 & Hr3 & Hp3). run_bind.
  exists d3, (y :: f), (Some x). split; [done|].
  destruct (inv_update d2 d3 (y :: f) x c c' []) as (Hi3 & Ha3); try done; try lia.
  { by rewrite app_nil_r. } { by rewrite Hr3. } { rewrite Hr3. exact (fi_elems _ _ Hi2). }
  { assert (bvec_ctxs_idx c = 0) as H0 by (apply (fi_free _ _ Hi1 x); [by apply elem_of_cons; left|done]).
    unfold ctx_maps. by rewrite H0. }
  assert (Hnum : Pool.num p = Pool.num (bio_context_pool d1)).
  { rewrite <- (Pool.pi_data _ _ Hp), <- (Pool.pi_data _ _ (fi_pool _ _ Hi1)). by rewrite Hd. }
  split.
  - eapply evolves_trans; [done|]. split; [done| |by rewrite Hp3].
    apply (Permutation_app_inv_l (opt_list (req c))). rewrite Ha3, Ha2. done.
  - intros i [= <-]. split; [done|]. split; [rewrite Hp3; simpl; lia|].
    exists c'. split; [|done]. rewrite Hcs. apply list_lookup_insert_eq. by eapply lookup_lt_Some.
Qed.

Lemma start_ok d free : fe_inv d free ->
  exists d' ret, vcablk_disk_request_start d = (d', ret) /\ evolves d free d' free
    /\ bio_context_pool d' = bio_context_pool d.
Proof.
  intros Hi. unfold vcablk_disk_request_start. case_if.
  - eexists _, _. split; [done|]. split; [by apply evolves_refl|done].
  - eexists _, _. split; [done|]. split; [|done]. by apply (inv_silent d _ _ [EvIntr]).
Qed.

(** What the maker knows when it gets to [end]. *)
Definition progress_ok (d : vcablk_disk) (free : list Z) (g : progress) : Prop :=
  (forall i, g_ctx g = Some i -> held d free i) /\ (g_ctx g = None -> g_ret g <> 0)
  /\ forall p, g_prev g = Some p -> 0 <= p < Pool.num (bio_context_pool d).

Lemma segment_loop_ok l : forall d free ctx prev ty sec,
  fe_inv d free -> held d free ctx -> (forall p, prev = Some p -> 0 <= p < Pool.num (bio_context_pool d)) ->
  exists d' free' g, segment_loop wait dma_map d ctx prev ty sec l = Ret (d', g)
    /\ evolves d free d' free' /\ progress_ok d' free' g.
Proof.
  induction l as [|bv l IH]; intros d free ctx prev ty sec Hi Hh Hp.
  { exists d, free, (mkProgress (Some ctx) prev 0). split; [done|]. split; [by apply evolves_refl|].
    split; [by intros i [= <-]|]. done. }
  cbn [segment_loop]. destruct (ctx_lookup d free ctx Hi (proj1 (proj2 Hh))) as (c & _ & -> & _). run_bind.
  set (n := Z.shiftr (bv_len bv) SECTOR_SHIFT). set (m := if VCABLK_BIO_SPLIT_SIZE <=? bvec_ctxs_idx c then _ else _).
  assert (exists d1 f1 g, m = Ret (d1, g) /\ evolves d free d1 f1 /\ progress_ok d1 f1 g) as (d1 & f1 & g & -> & Hev1 & Hg).
  { unfold m. destruct (VCABLK_BIO_SPLIT_SIZE <=? bvec_ctxs_idx c).
    - destruct (start_ok d free Hi) as (d1 & ret & -> & Hev1 & Hp1). destruct (negb (ret =? 0)).
      + eexists d1, free, _. split; [done|]. split; [done|]. split; [intros i [= <-]; by apply (held_ext d)|].
        split; [done|]. simpl. by rewrite Hp1.
      + destruct (get_bio_context_ok d1 free (ev_inv _ _ _ _ Hev1)) as (d2 & f2 & r & -> & Hev2 & Hr). run_bind.
        exists d2, f2. eexists. split; [done|]. split; [by eapply evolves_trans|].
        split; [done|]. split; [by destruct r|]. intros p [= <-].
        rewrite (ev_num _ _ _ _ Hev2), Hp1. apply Hh.
    - eexists d, free, _. split; [done|]. split; [by apply evolves_refl|]. split; [by intros i [= <-]|]. done. }
  run_bind. destruct Hg as (Hg1 & Hg2 & Hg3). destruct (g_ctx g) as [i|] eqn:Hgc.
  2:{ exists d1, f1, g. split; [done|]. split; [done|]. split; [by rewrite Hgc|]. split; [by rewrite Hgc|done]. }
  destruct (negb (g_ret g =? 0)) eqn:Hgr.
  { exists d1, f1, g. split; [done|]. split; [done|]. split; [by rewrite Hgc|]. split; [by rewrite Hgc|done]. }
  destruct (step_ok d1 f1 (Some bv) i ty sec n (ev_inv _ _ _ _ Hev1) (Hg1 i eq_refl)) as (d2 & f2 & ret & -> & Hev2 & Hh2).
  run_bind. assert (H02 : evolves d free d2 f2) by by eapply evolves_trans.
  assert (Hp2 : forall p, g_prev g = Some p -> 0 <= p < Pool.num (bio_context_pool d2))
    by by rewrite (ev_num _ _ _ _ Hev2).
  destruct (negb (ret =? 0)).
  { eexists d2, f2, _. split; [done|]. split; [done|]. split; [by intros j [= <-]|]. done. }
  destruct (IH d2 f2 i (g_prev g) ty (sec + n) (ev_inv _ _ _ _ Hev2) Hh2 Hp2) as (d3 & f3 & g3 & -> & Hev3 & Hg').
  exists d3, f3, g3. split; [done|]. split; [by eapply evolves_trans|done].
Qed.

Lemma sync_ok d free b i : fe_inv d free -> held d free i ->
  exists d' free' ret, sync_step wait dma_map d b i = Ret (d', ret) /\ evolves d free d' free' /\ held d' free' i.
Proof.
  intros Hi Hh. unfold sync_step. destruct b; [|exists d, free, 0; split; [done|]; split; [by apply evolves_refl|done]].
  destruct (step_ok d free None i REQUEST_SYNC 0 0 Hi Hh) as (d' & f' & ret & -> & Hev & Hh'). run_bind.
  by eexists d', f', _.
Qed.

(** The request is now the business of the last context. *)
Lemma assign_ok d free i rq : fe_inv d free -> held d free i ->
  exists d' c', (c ← get_ctx d i; set_ctx d i (mkCtx (id c) (Some rq) (bvec_ctxs_idx c) (bvec_ctxs c))) = Ret d'
    /\ fe_inv d' free /\ accounted d' free ≡ₚ rq :: accounted d free
    /\ contexts d' !! Z.to_nat i = Some c' /\ req c' = Some rq
    /\ Pool.num (bio_context_pool d') = Pool.num (bio_context_pool d).
Proof.
  intros Hi (Hnf & Hr & c & Hc & Hq).
  destruct (ctx_lookup d free i Hi Hr) as (c0 & Hc0 & -> & Hz & Hx). assert (c0 = c) as -> by congruence. run_bind.
  set (c' := mkCtx _ _ _ _).
  destruct (set_ctx_ok d free i c c' Hi Hc ltac:(lia)) as (d1 & -> & Hcs & Hl & Hrr & Hp).
  exists d1, c'. split; [done|].
  destruct (inv_update d d1 free i c c' []) as (Hi1 & Ha1); try done; try lia.
  { by rewrite app_nil_r. } { by rewrite Hrr. } { rewrite Hrr. exact (fi_elems _ _ Hi). }
  rewrite Hq in Ha1. simpl in Ha1. split; [done|]. split; [done|]. split; [|by rewrite Hp].
  rewrite Hcs. apply list_lookup_insert_eq. by eapply lookup_lt_Some.
Qed.

(** What is owed when the maker gets to [end]: on success the request has been
    recorded, on failure the current context, if any, has to be cleaned. *)
Definition parts_done (d : vcablk_disk) (free : list Z) (rq : request) (d' : vcablk_disk) (free' : list Z)
    (g : progress) : Prop :=
  fe_inv d' free' /\ Pool.num (bio_context_pool d') = Pool.num (bio_context_pool d)
  /\ (g_ret g = 0 -> accounted d' free' ≡ₚ rq :: accounted d free)
  /\ (g_ret g <> 0 ->
      match g_ctx g with
      | Some i => (i ∉ free') /\ 0 <= i < Pool.num (bio_context_pool d') /\
          exists c, contexts d' !! Z.to_nat i = Some c
            /\ accounted d' free' ≡ₚ opt_list (req c) ++ accounted d free
      | None => accounted d' free' ≡ₚ accounted d free
      end)
  /\ forall p, g_prev g = Some p -> 0 <= p < Pool.num (bio_context_pool d').

Lemma parts_failed d free rq d' free' g :
  evolves d free d' free' -> progress_ok d' free' g -> g_ret g <> 0 -> parts_done d free rq d' free' g.
Proof.
  intros [] (H1 & H2 & H3) Hr. split; [done|]. split; [done|]. split; [done|]. split; [|done]. intros _.
  destruct (g_ctx g) as [i|]; [|done]. destruct (H1 i eq_refl) as (? & ? & c & Hc & Hq).
  split; [done|]. split; [done|]. exists c. by rewrite Hq.
Qed.

Lemma make_parts_ok d free rq i : fe_inv d free -> held d free i ->
  exists d' free' g, make_parts wait dma_map d rq i = Ret (d', g) /\ parts_done d free rq d' free' g.
Proof.
  intros Hi Hh. unfold make_parts. set (ty := if rq_write rq then _ else _).
  destruct (sync_ok d free (rq_sync rq) i Hi Hh) as (d1 & f1 & ret & -> & Hev1 & Hh1). run_bind.
  destruct (Z.eqb_spec ret 0) as [->|Hr]; cbn [negb].
  2:{ eexists d1, f1, _. split; [done|]. apply parts_failed; [done| |done]. split; [by intros j [= <-]|]. done. }
  destruct (segment_loop_ok (rq_bvecs rq) d1 f1 i None ty (blk_rq_pos rq) (ev_inv _ _ _ _ Hev1) Hh1)
    as (d2 & f2 & g & -> & Hev2 & Hg); [done|]. run_bind.
  assert (H02 : evolves d free d2 f2) by by eapply evolves_trans.
  destruct (g_ctx g) as [j|] eqn:Hgc.
  2:{ exists d2, f2, g. split; [done|]. apply parts_failed; [done|done|]. by apply Hg. }
  destruct (Z.eqb_spec (g_ret g) 0) as [Hgr|Hgr]; cbn [negb].
  2:{ exists d2, f2, g. split; [done|]. by apply parts_failed. }
  destruct Hg as (Hg1 & _ & Hg3). specialize (Hg1 j Hgc).
  destruct (sync_ok d2 f2 (rq_sync rq) j (ev_inv _ _ _ _ Hev2) Hg1) as (d3 & f3 & ret & -> & Hev3 & Hh3). run_bind.
  assert (H03 : evolves d free d3 f3) by by eapply evolves_trans.
  assert (Hp3 : forall p, g_prev g = Some p -> 0 <= p < Pool.num (bio_context_pool d3))
    by by rewrite (ev_num _ _ _ _ Hev3).
  destruct (Z.eqb_spec ret 0) as [->|Hr]; cbn [negb].
  2:{ eexists d3, f3, _. split; [done|]. apply parts_failed; [done| |done]. split; [by intros k [= <-]|]. done. }
  destruct (assign_ok d3 f3 j rq (ev_inv _ _ _ _ Hev3) Hh3) as (d4 & c' & He & Hi4 & Ha4 & Hc4 & Hq4 & Hn4).
  apply bind_ret_inv in He as (c & -> & He). run_bind. rewrite He. run_bind.
  destruct (start_ok d4 f3 Hi4) as (d5 & ret & -> & Hev5 & Hp5).
  exists d5, f3, (mkProgress (Some j) (g_prev g) ret). split; [done|].
  assert (Ha5 : accounted d5 f3 ≡ₚ rq :: accounted d free) by by rewrite (ev_acct _ _ _ _ Hev5), Ha4, (ev_acct _ _ _ _ H03).
  split; [apply Hev5|]. split; [rewrite Hp5, Hn4; apply H03|]. split; [done|]. rewrite Hp5, Hn4. split; [|done].
  intros _. cbn [g_ctx]. destruct Hh3 as (Hnf & Hr & _). split; [done|]. split; [done|].
  exists c'. unfold contexts. rewrite Hp5. split; [done|]. rewrite Hq4. exact Ha5.
Qed.

Lemma break_ok d free rq d' free' g :
  parts_done d free rq d' free' g -> g_ret g <> 0 ->
  exists d2 free2, vcablk_disk_request_break d' (g_ctx g) = Ret d2 /\ evolves d free d2 free2.
Proof.
  intros (Hi & Hn & _ & Hfail & _) Hr. specialize (Hfail Hr). unfold vcablk_disk_request_break.
  set (d1 := upd_request_ring _ _ _). assert (Hev1 : evolves d' free' d1 free') by by apply inv_ext.
  destruct (g_ctx g) as [i|].
  - destruct Hfail as (Hnf & Hrg & c & Hc & Ha).
    destruct (clean_ok d1 free' i c (ev_inv _ _ _ _ Hev1) Hnf Hrg Hc) as (d2 & -> & Hi2 & Ha2 & Hn2 & _).
    exists d2, (free' ++ [i]). split; [done|]. split; [done| |by rewrite Hn2].
    apply (Permutation_app_inv_l (opt_list (req c))). by rewrite Ha2, (ev_acct _ _ _ _ Hev1), Ha.
  - exists d1, free'. split; [done|]. split; [apply Hev1|by rewrite (ev_acct _ _ _ _ Hev1)|done].
Qed.

(** C16. Whatever the size of the request, the state of the ring, the outcome of
    each page mapping and the course of each wait, handing a request to the
    frontend returns without touching memory outside its tables and keeps the
    books: every page mapping made is recorded in a context or undone, and the
    request is either ended, with an error, or recorded in exactly one context
    in use, while no other request is lost or ended. *)
Theorem vcablk_async_request_conserves d free rq :
  fe_inv d free ->
  exists d' free' ret, vcablk_disk_async_request wait dma_map d rq = Ret (d', ret)
    /\ fe_inv d' free' /\ accounted d' free' ≡ₚ rq :: accounted d free
    /\ (ret <> 0 -> exists es, log d' = es ++ [EvEnd rq false]).
Proof.
  intros Hi. unfold vcablk_disk_async_request.
  destruct (get_bio_context_ok d free Hi) as (d1 & f1 & r & -> & Hev1 & Hr). run_bind.
  set (m := match r with None => _ | Some i => _ end).
  assert (exists d2 f2 g, m = Ret (d2, g) /\ parts_done d free rq d2 f2 g) as (d2 & f2 & g & -> & Hpd).
  { unfold m. destruct r as [i|].
    - destruct (make_parts_ok d1 f1 rq i (ev_inv _ _ _ _ Hev1) (Hr i eq_refl)) as (d2 & f2 & g & He & H1 & H2 & H3 & H4 & H5).
      exists d2, f2, g. split; [done|]. split; [done|]. split; [by rewrite H2, (ev_num _ _ _ _ Hev1)|].
      split; [intros H0; by rewrite H3, (ev_acct _ _ _ _ Hev1)|]. split; [|done]. intros H0. specialize (H4 H0).
      destruct (g_ctx g) as [j|]; [|by rewrite H4, (ev_acct _ _ _ _ Hev1)].
      destruct H4 as (? & ? & c & Hc & Ha). split; [done|]. split; [done|]. exists c.
      by rewrite Ha, (ev_acct _ _ _ _ Hev1).
    - eexists d1, f1, _. split; [done|]. by apply parts_failed. }
  run_bind. destruct (Z.eqb_spec (g_ret g) 0) as [Hg|Hg]; cbn [negb].
  { exists d2, f2, 0. split; [done|]. destruct Hpd as (H1 & H2 & H3 & _). split; [done|]. split; [by apply H3|done]. }
  destruct (break_ok d free rq d2 f2 g Hpd Hg) as (d3 & f3 & -> & Hev3). run_bind.
  set (w := match g_prev g with Some p => _ | None => _ end).
  assert (exists d4 f4, w = Ret d4 /\ evolves d free d4 f4) as (d4 & f4 & -> & Hev4).
  { unfold w. destruct (g_prev g) as [p|] eqn:Hgp; [|by exists d3, f3].
    destruct Hpd as (_ & Hn & _ & _ & Hprev). specialize (Hprev p Hgp). rewrite Hn, <- (ev_num _ _ _ _ Hev3) in Hprev.
    destruct (ctx_lookup d3 f3 p (ev_inv _ _ _ _ Hev3) Hprev) as (c & _ & -> & _). run_bind.
    destruct (negb (bvec_ctxs_idx c =? 0)); [|by exists d3, f3].
    destruct (Hwait (WPart p) d3 f3 None (ev_inv _ _ _ _ Hev3)) as (f4 & Hev4 & _); [done|].
    exists (wait (WPart p) d3), f4. split; [done|]. by eapply evolves_trans. }
  run_bind. exists (vcablk_disk_request_end d4 rq (- EIO)), f4, (g_ret g). split; [done|].
  destruct Hev4 as [[] Ha Hn]. split; [|split].
  - split; try done. unfold vcablk_disk_request_end. cbn [log upd_log]. unfold maps_of, unmaps_of in *.
    rewrite !omap_app_ev. simpl. by rewrite !app_nil_r.
  - unfold accounted, ends_of. cbn [log vcablk_disk_request_end upd_log]. rewrite omap_app_ev. simpl.
    rewrite <- Ha. unfold accounted, ends_of, contexts. simpl. solve_Permutation.
  - intros _. by exists (log d4).
Qed.

End MakeProofs.

(** C33. Handling completions terminates for any published acknowledgements with
    cookies of the pool and keeps the books: requests are ended at most once and
    only if they were in a context in use, mappings are undone with them, and the
    completion ring is left empty; when the cookies are distinct and in use,
    exactly their contexts go back to the pool, in order. *)
Theorem vcablk_completion_handler_conserves d free lu acks :
  fe_inv d free -> acks_at (completion_ring d) lu acks ->
  last_used (completion_ring d) = cnt_of (num_elems (completion_ring d)) lu ->
  Forall (ack_ok (Pool.num (bio_context_pool d))) acks ->
  exists d' free', vcablk_disk_request_completion_handler d = Ret d'
    /\ fe_inv d' free' /\ accounted d' free' ≡ₚ accounted d free
    /\ last_used (completion_ring d') = last_add (completion_ring d')
    /\ (NoDup (map c_cookie acks) -> Forall (fun a => 0 < c_cookie a /\ (c_cookie a - 1 ∉ free)) acks ->
        free' = free ++ map (fun a => c_cookie a - 1) acks).
Proof.
  intros Hi Hat Hlu Hok. unfold vcablk_disk_request_completion_handler. rewrite Hlu.
  pose proof Hat as (Hpow & _ & Hle & Hadd & _). pose proof (pow2_pos _ Hpow). unfold zlen in Hle.
  destruct (completion_loop_ok acks (Z.to_nat (2 * num_elems (completion_ring d))) d free lu Hi Hat Hok)
    as (d' & free' & -> & Hev & Hend & Hnil & Hfree); [lia|].
  exists d', free'. split; [done|]. split; [apply Hev|]. split; [apply Hev|]. split; [|done].
  destruct acks as [|a acks]; [|by apply Hend]. rewrite (Hnil eq_refl), Hlu, Hadd.
  change (zlen []) with 0. by rewrite Z.add_0_r.
Qed.

(** ** The queue between the block layer and the maker thread *)

(** The ring holds the queue [q]. *)
Record rr_ok (r : request_ring_t) (q : list request) : Prop := {
  ro_len : zlen (rr_ring r) = REQ_RING_SIZE;
  ro_tail : 0 <= rr_tail r < REQ_RING_SIZE;
  ro_head : rr_head r = (rr_tail r + zlen q) mod REQ_RING_SIZE;
  ro_room : zlen q < REQ_RING_SIZE;
  ro_elems : forall j rq, q !! j = Some rq ->
    rr_ring r !! Z.to_nat ((rr_tail r + Z.of_nat j) mod REQ_RING_SIZE) = Some (Some rq);
}.

Lemma req_mask x : Z.land x REQ_RING_MASK = x mod REQ_RING_SIZE.
Proof. apply (land_mask x 11). lia. Qed.

(** Positions of the ring less than a turn apart are different. *)
Lemma rr_slot_ne t a b : 0 <= a < REQ_RING_SIZE -> 0 <= b < REQ_RING_SIZE -> a <> b ->
  (t + a) mod REQ_RING_SIZE <> (t + b) mod REQ_RING_SIZE.
Proof.
  unfold REQ_RING_SIZE. intros Ha Hb Hne He.
  pose proof (Z.div_mod (t + a) 2048 ltac:(lia)). pose proof (Z.div_mod (t + b) 2048 ltac:(lia)). lia.
Qed.

(** The ring between the block layer and the request thread is a queue of at
    most 2047 requests: [vcablk_disk_queue_rq] appends a request, started once, or
    answers [BLK_STS_RESOURCE] and changes nothing when the queue is full; a turn
    of the thread takes the oldest request, and nothing else, and makes it. *)
Theorem vcablk_req_ring_fifo wait dma_map d q rq :
  rr_ok (req_ring d) q ->
  (zlen q = REQ_RING_SIZE - 1 -> vcablk_disk_queue_rq (Some d) false rq = Ret (Some d, BLK_STS_RESOURCE))
  /\ (zlen q < REQ_RING_SIZE - 1 -> exists d',
        vcablk_disk_queue_rq (Some d) false rq = Ret (Some d', BLK_STS_OK)
        /\ rr_ok (req_ring d') (q ++ [rq]) /\ log d' = log d ++ [EvStart rq])
  /\ (q = [] -> make_request_turn wait dma_map d = Ret d)
  /\ (forall r q', q = r :: q' -> exists d1,
        rr_ok (req_ring d1) q' /\ bio_context_pool d1 = bio_context_pool d /\ log d1 = log d
        /\ request_ring d1 = request_ring d /\ request_ring_alloc d1 = request_ring_alloc d
        /\ make_request_turn wait dma_map d = ('(d2, _) ← vcablk_disk_async_request wait dma_map d1 r; Ret d2)).
Proof.
  intros [Hl Ht Hh Hr He]. pose proof (zlen_nonneg q) as Hq. unfold vcablk_disk_queue_rq, make_request_turn.
  rewrite req_mask, Hh. rewrite Zplus_mod_idemp_l.
  assert (Htm : rr_tail (req_ring d) = (rr_tail (req_ring d) + 0) mod REQ_RING_SIZE)
    by (rewrite Z.add_0_r, Z.mod_small; lia).
  assert (Hne : forall a, 0 < a < REQ_RING_SIZE ->
    (rr_tail (req_ring d) + a) mod REQ_RING_SIZE <> rr_tail (req_ring d)).
  { intros a Ha. rewrite Htm at 2. apply rr_slot_ne; lia. }
  split; [|split; [|split]].
  - intros Hfull. replace (rr_tail (req_ring d) + zlen q + 1) with (rr_tail (req_ring d) + 1 * REQ_RING_SIZE) by lia.
    rewrite Z.mod_add, Z.mod_small, Z.eqb_refl by (unfold REQ_RING_SIZE in *; lia). done.
  - intros Hroom. rewrite <- Z.add_assoc. rewrite (proj2 (Z.eqb_neq _ _)) by (apply Hne; lia).
    pose proof (Z.mod_pos_bound (rr_tail (req_ring d) + zlen q) REQ_RING_SIZE ltac:(done)) as Hb.
    rewrite aset_ret by lia. run_bind. eexists. split; [done|]. split; [|done].
    split; cbn [req_ring upd_req_ring rr_ring rr_tail rr_head].
    + by rewrite zlen_insert.
    + lia.
    + by rewrite zlen_app.
    + rewrite zlen_app. change (zlen [rq]) with 1. lia.
    + intros j x Hj. destruct (decide (j < length q)%nat) as [Hlt|Hge].
      * rewrite lookup_app_l in Hj by done. rewrite list_lookup_insert_ne; [by apply He|].
        pose proof (Z.mod_pos_bound (rr_tail (req_ring d) + Z.of_nat j) REQ_RING_SIZE ltac:(done)).
        intros Heq. apply Z2Nat.inj in Heq; [|lia|lia]. revert Heq. unfold zlen in *. apply rr_slot_ne; lia.
      * assert (j = length q) as -> by (apply lookup_lt_Some in Hj; rewrite length_app in Hj; simpl in Hj; lia).
        rewrite lookup_app_r, Nat.sub_diag in Hj by done. injection Hj as ->. unfold zlen in *.
        apply list_lookup_insert_eq. lia.
  - intros ->. change (zlen []) with 0. by rewrite <- Htm, Z.eqb_refl.
  - intros r q' ->. rewrite zlen_cons in *. pose proof (zlen_nonneg q').
    rewrite (proj2 (Z.eqb_neq _ _)) by (apply Hne; lia).
    pose proof (He 0%nat r eq_refl) as H0. change (Z.of_nat 0) with 0 in H0. rewrite <- Htm in H0.
    rewrite (aget_ret _ _ _ (proj1 Ht) H0). run_bind. eexists. split; [|split; [|split; [|split; [|split; [|reflexivity]]]]]; try done.
    split; cbn [req_ring upd_req_ring rr_ring rr_tail rr_head]; rewrite ?req_mask.
    + done.
    + apply Z.mod_pos_bound. done.
    + rewrite Zplus_mod_idemp_l. f_equal. lia.
    + lia.
    + intros j x Hj. rewrite Zplus_mod_idemp_l. rewrite <- (He (S j) x Hj). f_equal. f_equal. f_equal. lia.
Qed.

(** ** Witnesses *)

Definition no_bctx : bvec_context := mkBctx 0 0 false.
Definition demo_ctx (i : Z) (r : option request) (n : Z) : vcablk_bio_context :=
  mkCtx i r n (mkBctx 0x5000 512 true :: replicate 31 no_bctx).
Definition demo_rq (t : Z) : request := mkRq t 8 true true [mkBvec 0 0 1024; mkBvec 0x1000 0 512].

(** Three contexts, the first one in use for the request 1. *)
Definition demo_pool : Pool.vcablk_pool vcablk_bio_context :=
  Pool.mkPool 3 1 2 [Pool.VCABLK_POOL_USED; 2; 0] [demo_ctx 1 (Some (demo_rq 1)) 1; demo_ctx 0 None 0; demo_ctx 0 None 0].
Definition demo_disk : vcablk_disk :=
  mkDisk (mkVring 4 0 0 (replicate 4 (mkRequest 0 0 0 0 0))) 0 (mkVring 2 1 0 [mkCompletion 1 0; mkCompletion 0 0])
    demo_pool 0 (mkRr 0 2047 (replicate 2047 None ++ [Some (demo_rq 2)])) [EvMap (mkBctx 0x5000 512 true)].

Lemma demo_disk_inv : fe_inv demo_disk [1; 2].
Proof.
  split; try done.
  - by exists 2.
  - split; try done.
    + apply list.NoDup_cons. split; [|apply list.NoDup_singleton]. by intros ?%list_elem_of_singleton.
    + repeat apply List.Forall_cons; try apply List.Forall_nil; done.
    + split; [done|]. by exists 0.
    + intros i Hi Hn. assert (i = 0 \/ i = 1 \/ i = 2) as [->|[->| ->]] by (simpl in Hi; lia); [done| |];
        exfalso; apply Hn; apply list_elem_of_In; simpl; auto.
  - repeat apply List.Forall_cons; try apply List.Forall_nil; done.
  - intros i c Hi Hc. apply list_elem_of_In in Hi. simpl in Hi. destruct Hi as [<-|[<-|[]]];
      vm_compute in Hc; by injection Hc as <-.
Qed.

Lemma vcablk_async_request_conserves_witness :
  exists d' free' ret,
    vcablk_disk_async_request (fun _ d => d) (fun bv _ => inr (bv_page bv + 0x10000)) demo_disk (demo_rq 2) = Ret (d', ret)
    /\ fe_inv d' free' /\ accounted d' free' ≡ₚ [demo_rq 2; demo_rq 1].
Proof.
  destruct (vcablk_async_request_conserves (fun _ d => d) (fun bv _ => inr (bv_page bv + 0x10000)))
    with (d := demo_disk) (free := [1; 2]) (rq := demo_rq 2) as (d' & f' & ret & H1 & H2 & H3 & _).
  - intros r d free h Hi Hh. exists free. split; [by apply evolves_refl|done].
  - exact demo_disk_inv.
  - exists d', f', ret. split; [exact H1|]. split; [exact H2|exact H3].
Defined.

Lemma vcablk_completion_handler_conserves_witness :
  exists d' free', vcablk_disk_request_completion_handler demo_disk = Ret d'
    /\ fe_inv d' free' /\ free' = [1; 2; 0].
Proof.
  destruct (vcablk_completion_handler_conserves demo_disk [1; 2] 0 [mkCompletion 1 0])
    as (d' & f' & H1 & H2 & _ & _ & H3).
  - exact demo_disk_inv.
  - split; [by exists 1|]. split; [done|]. split; [done|]. split; [done|].
    intros j a Hj. destruct j as [|j]; [|done]. by injection Hj as <-.
  - done.
  - repeat apply List.Forall_cons; try apply List.Forall_nil. done.
  - exists d', f'. split; [exact H1|]. split; [exact H2|]. apply H3.
    + apply list.NoDup_singleton.
    + repeat apply List.Forall_cons; try apply List.Forall_nil. split; [done|].
      intros Hin%list_elem_of_In. simpl in Hin. lia.
Defined.

Lemma vcablk_req_ring_fifo_witness :
  exists d', vcablk_disk_queue_rq (Some demo_disk) false (demo_rq 3) = Ret (Some d', BLK_STS_OK)
    /\ rr_ok (req_ring d') [demo_rq 2; demo_rq 3].
Proof.
  destruct (vcablk_req_ring_fifo (fun _ d => d) (fun _ _ => inl 0) demo_disk [demo_rq 2] (demo_rq 3))
    as (_ & H & _).
  - split; try done. intros j rq Hj. destruct j as [|j]; [|done]. injection Hj as <-. by vm_compute.
  - destruct H as (d' & H1 & H2 & _); [done|]. exists d'. split; [exact H1|exact H2].
Defined.

End BlkFrontend.
