(* ===== verification/KvecBuff.v ===== *)
(** * The buffers a host offers to its peer

    [src/modules/vca/vop/vop_kvec_buff.c] and [vop_kvec_buff.h]: a host takes the
    writable buffers of its receive queue and puts them, two vectors each, into
    rings that the peer has allocated; the peer takes them from there, writes to
    them, and reports them back through a ring of used buffers, from which the
    owner completes them.  The rings have counters that run modulo twice their
    size, which need not be a power of two.

    A ring has three parts: the shared memory ([shm_ring]), the state of the side
    that puts and the state of the side that gets (both [vop_kvec_ring]). *)

From S2P Require Import Prelude VirtioRing Vringh.
From stdpp Require Import base list numbers option tactics.
From Stdlib Require Import ZArith Lia.
#[local] Open Scope Z_scope.

Module KvecBuff.

(** ** Data *)

Definition KVEC_BUF_NUM := 3.
Definition KVEC_BUF_SMALL := 0.
Definition KVEC_BUF_JUMBO := 1.
Definition KVEC_BUF_BIG := KVEC_BUF_NUM - 1.
Definition DMA_ALIGN_OVERHEAD_SIZE := 127 + 64.
Definition MTU_DEFAULT := 1518 + DMA_ALIGN_OVERHEAD_SIZE.
Definition MTU_JUMBO := 9018 + DMA_ALIGN_OVERHEAD_SIZE.
Definition MTU_MAX := 65540 + DMA_ALIGN_OVERHEAD_SIZE.
Definition USHRT_MAX := 65535.
Definition VOP_KVEC_FLAG_IN_USE := 1.
Definition VOP_KVEC_FLAG_CANCELLED := 2.

Definition KVEC_COUNTER_EQ (cnt1 cnt2 size : Z) : bool := cnt1 mod (2 * size) =? cnt2 mod (2 * size).
Definition KVEC_COUNTER_ADD (cnt val size : Z) : Z := (cnt + val) mod (2 * size).
Definition KVEC_COUNTER_TO_IDX (cnt size : Z) : Z := cnt mod size.
Definition KVEC_COUNTER_USED (last_cnt cnt size : Z) : Z :=
  if last_cnt <=? cnt then cnt - last_cnt else cnt + size * 2 - last_cnt.

Record vop_peer_kvec := mkPk { pk_iov : Z * Z; pk_head : Z; pk_flags : Z }.
Record vop_peer_used_kiov := mkUk { uk_len : Z; uk_head : Z }.

(** A ring in the shared memory: its index, its elements and the largest size
    it can take. *)
Record shm_ring := mkShm { s_cnt : Z; s_buf : list vop_peer_kvec; s_max : Z }.
(** One side's view. *)
Record vop_kvec_ring := mkKr { last_cnt : Z; num : Z; send_max_size_local : Z; stats_num : Z }.
(** The used ring: shared index and elements; one side's view is a counter. *)
Record vop_used_kiov_ring := mkUr { u_cnt : Z; u_num : Z; u_buf : list vop_peer_used_kiov }.

Definition set_last (r : vop_kvec_ring) (c : Z) : vop_kvec_ring :=
  mkKr c (num r) (send_max_size_local r) (stats_num r).

(** ** Choosing a ring *)

Definition get_ring_id_write (size : Z) : Z :=
  if size <? MTU_DEFAULT then - EDOM
  else if size <? MTU_JUMBO then KVEC_BUF_SMALL
  else if size <? MTU_MAX then KVEC_BUF_JUMBO
  else KVEC_BUF_BIG.

(** The [for] of [vop_kvec_size_to_ring_id] from [ring_id] on. *)
Fixpoint ring_id_loop (maxs : list Z) (size ring_id : Z) : Z :=
  match maxs with
  | [] => KVEC_BUF_NUM - 1
  | m :: maxs => if size <=? m then ring_id else ring_id_loop maxs size (ring_id + 1)
  end.
Definition vop_kvec_size_to_ring_id (shm : list shm_ring) (size : Z) : Z :=
  ring_id_loop (map s_max shm) size 0.

(** ** Putting *)

(** Two elements are copied from [idx] on. *)
Definition copy2 (buf : list vop_peer_kvec) (idx : Z) (a b : vop_peer_kvec) : outcome (list vop_peer_kvec) :=
  buf ← aset buf idx a; aset buf (idx + 1) b.

(** [junk]: what is on the stack where the second element was not filled in. *)
Definition vop_kvec_put (junk : vop_peer_kvec) (rings : list vop_kvec_ring) (shm : list shm_ring)
    (wiov : Vringh.vringh_kiov) (head : Z)
    : outcome (list vop_kvec_ring * list shm_ring * Z) :=
  k0 ← (if 0 <? Vringh.iov_used wiov
        then v ← aget (Vringh.iov wiov) 0; Ret (mkPk v head 0) else Ret junk);
  '(k1, size) ← (if 1 <? Vringh.iov_used wiov
                 then v ← aget (Vringh.iov wiov) 1; Ret (mkPk v head 0, snd v) else Ret (junk, 0));
  let ring_id := get_ring_id_write size in
  if ring_id <? 0 then Ret (rings, shm, ring_id)
  else
    r ← aget rings ring_id;
    s ← aget shm ring_id;
    let lower := (send_max_size_local r =? 0) || (size <? send_max_size_local r) in
    let r := if lower then mkKr (last_cnt r) (num r) (u32 size) (stats_num r) else r in
    let s := if lower then mkShm (s_cnt s) (s_buf s) (send_max_size_local r) else s in
    _ ← bug_on (num r =? 0);
    let idx := u16 (KVEC_COUNTER_TO_IDX (last_cnt r) (num r)) in
    let r := set_last r (u16 (KVEC_COUNTER_ADD (last_cnt r) 2 (num r))) in
    buf ← copy2 (s_buf s) idx k0 k1;
    rings ← aset rings ring_id r;
    shm ← aset shm ring_id (mkShm (s_cnt s) buf (s_max s));
    Ret (rings, shm, ring_id).

(** The new indices become visible to the peer; [cnt_size]: how many buffers
    each ring got since the last time. *)
Fixpoint vop_kvec_buff_update_idx (rings : list vop_kvec_ring) (shm : list shm_ring) (cnt_size : list Z)
    : list shm_ring * list Z :=
  match rings, shm, cnt_size with
  | r :: rings, s :: shm, n :: cnt_size =>
      let '(shm, cnt_size) := vop_kvec_buff_update_idx rings shm cnt_size in
      ((if negb (n =? 0) then mkShm (last_cnt r) (s_buf s) (s_max s) else s) :: shm, 0 :: cnt_size)
  | _, _, _ => (shm, cnt_size)
  end.

(** ** Getting *)

(** The [while] that skips cancelled elements. *)
Fixpoint skip_loop (fuel : nat) (r : vop_kvec_ring) (s : shm_ring) : outcome (vop_kvec_ring * shm_ring) :=
  if last_cnt r =? s_cnt s then Ret (r, s)
  else
    match fuel with
    | O => Spin
    | S fuel =>
        let cur_idx := u16 (KVEC_COUNTER_TO_IDX (last_cnt r) (num r)) in
        e ← aget (s_buf s) cur_idx;
        if negb (testflag (pk_flags e) VOP_KVEC_FLAG_CANCELLED) then Ret (r, s)
        else
          buf ← aset (s_buf s) cur_idx (mkPk (pk_iov e) 0 0);
          skip_loop fuel (set_last r (u16 (KVEC_COUNTER_ADD (last_cnt r) 1 (num r))))
            (mkShm (s_cnt s) buf (s_max s))
    end.

(** The [while] that takes the adjacent elements with the same head: how many,
    and the elements. *)
Fixpoint adjacent_loop (fuel : nat) (r : vop_kvec_ring) (buf : list vop_peer_kvec)
    (avail_cnt head n next_idx : Z) : outcome (list vop_peer_kvec * Z) :=
  if KVEC_COUNTER_EQ (last_cnt r + n) avail_cnt (num r) then Ret (buf, n)
  else
    e ← aget buf next_idx;
    if (head =? pk_head e) && (n <? num r) then
      match fuel with
      | O => Spin
      | S fuel =>
          buf ← aset buf next_idx (mkPk (pk_iov e) 0 (pk_flags e));
          adjacent_loop fuel r buf avail_cnt head (u16 (n + 1)) (u16 (KVEC_COUNTER_TO_IDX (next_idx + 1) (num r)))
      end
    else Ret (buf, n).

(** What an item gets: the head, the first element and the number of elements. *)
Record kvec_item := mkItem { head_to : Z; kvec_to : Z; num_kvecs_to : Z }.

(** From [/* fetch descriptors */] on: the first element and the adjacent ones. *)
Definition fetch (r : vop_kvec_ring) (s : shm_ring) : outcome (vop_kvec_ring * shm_ring * kvec_item) :=
  let avail_cnt := s_cnt s in
  let first := u16 (last_cnt r mod num r) in
  e ← aget (s_buf s) first;
  let head := pk_head e in
  let r := mkKr (last_cnt r) (num r) (send_max_size_local r) (u32 (stats_num r + 1)) in
  buf ← aset (s_buf s) first (mkPk (pk_iov e) 0 (pk_flags e));
  '(buf, n) ← adjacent_loop (Z.to_nat (num r)) r buf avail_cnt head 1
                (u16 (KVEC_COUNTER_TO_IDX (last_cnt r + 1) (num r)));
  e ← aget buf first;
  buf ← aset buf first (mkPk (pk_iov e) (pk_head e) VOP_KVEC_FLAG_IN_USE);
  Ret (set_last r (u16 (KVEC_COUNTER_ADD (last_cnt r) n (num r))), mkShm (s_cnt s) buf (s_max s),
       mkItem head first n).

Definition vop_kvec_get (r : vop_kvec_ring) (s : shm_ring)
    : outcome (vop_kvec_ring * shm_ring * (Z + kvec_item)) :=
  _ ← bug_on (num r =? 0);
  '(r, s) ← skip_loop (Z.to_nat (2 * num r)) r s;
  if last_cnt r =? s_cnt s then Ret (r, s, inl (- EAGAIN))
  else '(r, s, item) ← fetch r s; Ret (r, s, inr item).

(** ** Used buffers *)

(** [last]: the writer's counter. *)
Definition vop_kvec_used (last : Z) (u : vop_used_kiov_ring) (head len : Z)
    : outcome (Z * vop_used_kiov_ring) :=
  _ ← bug_on (u_num u =? 0);
  let idx := u16 (KVEC_COUNTER_TO_IDX last (u_num u)) in
  buf ← aset (u_buf u) idx (mkUk (u32 len) (u16 head));
  let last := u16 (KVEC_COUNTER_ADD last 1 (u_num u)) in
  Ret (last, mkUr last (u_num u) buf).

(** [last]: the reader's counter; the device stays ready. *)
Fixpoint consume_loop (fuel : nat) (vrh : Vringh.vringh) (u : vop_used_kiov_ring) (last : Z)
    : outcome (Vringh.vringh * Z) :=
  if u_cnt u =? last then Ret (vrh, last)
  else
    match fuel with
    | O => Spin
    | S fuel =>
        k ← aget (u_buf u) (KVEC_COUNTER_TO_IDX last (u_num u));
        '(vrh, _) ← Vringh.vca_vringh_complete_kern vrh (uk_head k) (uk_len k);
        consume_loop fuel vrh u (u16 (KVEC_COUNTER_ADD last 1 (u_num u)))
    end.
Definition vop_kvec_buf_consume (vrh : Vringh.vringh) (u : vop_used_kiov_ring) (last : Z)
    : outcome (Vringh.vringh * Z) :=
  _ ← bug_on (u_num u =? 0);
  consume_loop (Z.to_nat (2 * u_num u)) vrh u last.

(** ** Cancelling *)

Inductive VOP_REQUEST_CANCEL_STATUS :=
| VOP_REQUEST_CANCEL_OK | VOP_REQUEST_CANCEL_INVALID_REQUEST
| VOP_REQUEST_CANCEL_TIMEOUT | VOP_REQUEST_CANCEL_ERROR.

Definition mark_cancelled (e : vop_peer_kvec) : vop_peer_kvec :=
  mkPk (pk_iov e) (pk_head e) (Z.lor (pk_flags e) VOP_KVEC_FLAG_CANCELLED).

(** The [while] that marks the other elements of the buffer. *)
Fixpoint cancel_loop (fuel : nat) (buf : list vop_peer_kvec) (n head idx_start idx_end idx : Z)
    : outcome (list vop_peer_kvec) :=
  e ← aget buf idx;
  if (pk_head e =? head)
     && ((idx_start =? idx_end)
         || ((idx_start <? idx_end) && (idx_start <=? idx) && (idx <=? idx_end))
         || ((idx_end <? idx_start) && ((idx <=? idx_start) || (idx_end <=? idx))))
  then
    match fuel with
    | O => Spin
    | S fuel =>
        buf ← aset buf idx (mark_cancelled e);
        cancel_loop fuel buf n head idx_start idx_end (KVEC_COUNTER_TO_IDX (idx + 1) n)
    end
  else Ret buf.

(** The request of the peer: which element of which ring; [finished]: how the
    wait for an element in use ends (the returned value of the wait). *)
Definition vop_kvec_check_cancel (finished : Z) (rings : list vop_kvec_ring) (shm : list shm_ring)
    (request_idx ring_idx : Z) : outcome (list shm_ring * VOP_REQUEST_CANCEL_STATUS) :=
  if KVEC_BUF_NUM <=? ring_idx then Ret (shm, VOP_REQUEST_CANCEL_INVALID_REQUEST)
  else
    r ← aget rings ring_idx;
    s ← aget shm ring_idx;
    _ ← bug_on (num r =? 0);
    let idx_start := u16 (KVEC_COUNTER_TO_IDX (last_cnt r) (num r)) in
    let idx_end := u16 (KVEC_COUNTER_TO_IDX (s_cnt s) (num r)) in
    if num r <=? request_idx then Ret (shm, VOP_REQUEST_CANCEL_INVALID_REQUEST)
    else if last_cnt r =? s_cnt s then Ret (shm, VOP_REQUEST_CANCEL_INVALID_REQUEST)
    else
      e ← aget (s_buf s) request_idx;
      if testflag (pk_flags e) VOP_KVEC_FLAG_IN_USE then
        Ret (shm, if 0 <? finished then VOP_REQUEST_CANCEL_OK
                  else if negb (finished =? 0) then VOP_REQUEST_CANCEL_ERROR else VOP_REQUEST_CANCEL_TIMEOUT)
      else
        buf ← aset (s_buf s) request_idx (mark_cancelled e);
        buf ← cancel_loop (Z.to_nat (num r)) buf (num r) (pk_head e) idx_start idx_end
                (KVEC_COUNTER_TO_IDX (request_idx + 1) (num r));
        shm ← aset shm ring_idx (mkShm (s_cnt s) buf (s_max s));
        Ret (shm, VOP_REQUEST_CANCEL_OK).

(** ** A ring as a queue of buffers *)

(** A buffer in a ring: its head, its two vectors, and whether its owner has
    cancelled it. *)
Record group := mkGroup { g_head : Z; g_v0 : Z * Z; g_v1 : Z * Z; g_cancelled : bool }.

Definition elem (v : Z * Z) (g : group) : vop_peer_kvec :=
  mkPk v (g_head g) (if g_cancelled g then VOP_KVEC_FLAG_CANCELLED else 0).

(** The buffer [g] lies in the slot of the group counter [c] of a ring of [m]
    slots. *)
Definition slot (m c : Z) : Z := 2 * (c mod m).
Definition group_at (m : Z) (buf : list vop_peer_kvec) (c : Z) (g : group) : Prop :=
  buf !! Z.to_nat (slot m c) = Some (elem (g_v0 g) g) /\ buf !! Z.to_nat (slot m c + 1) = Some (elem (g_v1 g) g).

Definition size_ok (m : Z) (buf : list vop_peer_kvec) : Prop := 0 < m <= 16384 /\ zlen buf = 2 * m.

Lemma slot_range m c : 0 < m -> 0 <= slot m c <= 2 * m - 2.
Proof. intros Hm. unfold slot. pose proof (Z.mod_pos_bound c m Hm). lia. Qed.

Lemma counter_idx m c k : 0 < m -> 0 <= k < 2 ->
  KVEC_COUNTER_TO_IDX ((2 * c) mod (2 * (2 * m)) + k) (2 * m) = slot m c + k.
Proof.
  intros Hm Hk. unfold KVEC_COUNTER_TO_IDX, slot.
  rewrite <- Zplus_mod_idemp_l, Z.mod_mod_divide by by exists 2.
  rewrite Z.mul_mod_distr_l by lia. rewrite Z.mod_small; [done|].
  pose proof (Z.mod_pos_bound c m Hm). lia.
Qed.

Lemma counter_next m c k : 0 < m ->
  KVEC_COUNTER_ADD ((2 * c) mod (2 * (2 * m))) k (2 * m) = (2 * c + k) mod (2 * (2 * m)).
Proof. intros. unfold KVEC_COUNTER_ADD. by rewrite Zplus_mod_idemp_l. Qed.

Lemma counter_small m c : 0 < m <= 16384 -> u16 (c mod (2 * (2 * m))) = c mod (2 * (2 * m)).
Proof. intros. apply u16_small. pose proof (Z.mod_pos_bound c (2 * (2 * m))). lia. Qed.

Lemma idx_small m c k : 0 < m <= 16384 -> 0 <= k < 2 -> u16 (slot m c + k) = slot m c + k.
Proof. intros. apply u16_small. pose proof (slot_range m c). lia. Qed.

(** Different counters less than a turn apart have different slots. *)
Lemma slot_ne m a b : 0 < m -> 0 < Z.abs (a - b) < m -> slot m a <> slot m b.
Proof.
  intros Hm Hd He. unfold slot in He. assert (a mod m = b mod m) as H by lia.
  pose proof (Z.div_mod a m ltac:(lia)). pose proof (Z.div_mod b m ltac:(lia)).
  assert (a - b = m * (a / m - b / m)) as Hab by lia.
  destruct (Z.eq_dec (a / m - b / m) 0) as [E|E]; [rewrite E in Hab; lia|nia].
Qed.

Lemma counter_inj m a b : 0 < m -> 0 <= a - b < 2 * m ->
  (2 * a) mod (2 * (2 * m)) = (2 * b) mod (2 * (2 * m)) -> a = b.
Proof.
  intros Hm Hd He. rewrite !Z.mul_mod_distr_l in He by lia.
  assert (a mod (2 * m) = b mod (2 * m)) as H by lia.
  pose proof (Z.div_mod a (2 * m) ltac:(lia)). pose proof (Z.div_mod b (2 * m) ltac:(lia)).
  assert (a - b = 2 * m * (a / (2 * m) - b / (2 * m))) as Hab by lia.
  destruct (Z.eq_dec (a / (2 * m) - b / (2 * m)) 0) as [E|E]; [rewrite E in Hab; lia|nia].
Qed.

(** An odd counter is not an even one. *)
Lemma counter_parity m a b : 0 < m -> (2 * a + 1) mod (2 * (2 * m)) <> (2 * b) mod (2 * (2 * m)).
Proof.
  intros Hm He. pose proof (Z.div_mod (2 * a + 1) (2 * (2 * m)) ltac:(lia)).
  pose proof (Z.div_mod (2 * b) (2 * (2 * m)) ltac:(lia)).
  set (x := (2 * a + 1) / (2 * (2 * m))) in *. set (y := (2 * b) / (2 * (2 * m))) in *.
  assert (2 * a + 1 - 2 * b = 2 * (2 * m * x) - 2 * (2 * m * y)) by lia. lia.
Qed.

(** Writing one slot keeps the others. *)
Lemma group_at_frame m buf buf' c c' g :
  0 < m -> group_at m buf c' g -> slot m c <> slot m c' ->
  (forall i, i <> Z.to_nat (slot m c) -> i <> Z.to_nat (slot m c + 1) -> buf' !! i = buf !! i) ->
  group_at m buf' c' g.
Proof.
  intros Hm (H0 & H1) Hne Hfr. pose proof (slot_range m c Hm). pose proof (slot_range m c' Hm).
  assert (slot m c' <> slot m c + 1 /\ slot m c <> slot m c' + 1) as [? ?] by (unfold slot in *; lia).
  split; rewrite Hfr; try done; lia.
Qed.

(** The ring holds the buffers [q] from the group counter [rd] on, of which the
    first [pub - rd] are visible to the side that gets. *)
Record ring_rep (m : Z) (w r : vop_kvec_ring) (s : shm_ring) (rd pub wr : Z) (q : list group) : Prop := {
  rr_size : size_ok m (s_buf s);
  rr_wnum : num w = 2 * m;
  rr_rnum : num r = 2 * m;
  rr_order : rd <= pub <= wr;
  rr_len : wr - rd = zlen q;
  rr_room : wr - rd <= m;
  rr_rd : last_cnt r = (2 * rd) mod (2 * (2 * m));
  rr_pub : s_cnt s = (2 * pub) mod (2 * (2 * m));
  rr_wr : last_cnt w = (2 * wr) mod (2 * (2 * m));
  rr_groups : forall j g, q !! j = Some g -> group_at m (s_buf s) (rd + Z.of_nat j) g;
  rr_heads : NoDup (map g_head q);
}.

Lemma copy2_ok m buf c a b : size_ok m buf ->
  exists buf', copy2 buf (slot m c) a b = Ret buf' /\ size_ok m buf'
    /\ buf' !! Z.to_nat (slot m c) = Some a /\ buf' !! Z.to_nat (slot m c + 1) = Some b
    /\ (forall i, i <> Z.to_nat (slot m c) -> i <> Z.to_nat (slot m c + 1) -> buf' !! i = buf !! i).
Proof.
  intros (Hm & Hz). pose proof (slot_range m c ltac:(lia)) as Hs. unfold copy2.
  rewrite aset_ret by lia. run_bind. rewrite aset_ret by (rewrite zlen_insert; lia).
  eexists. split; [done|]. unfold zlen in Hz. split; [split; [done|by rewrite !zlen_insert]|]. split; [|split].
  - rewrite list_lookup_insert_ne by lia. apply list_lookup_insert_eq. lia.
  - apply list_lookup_insert_eq. rewrite length_insert. lia.
  - intros i H1 H2. by rewrite !list_lookup_insert_ne by done.
Qed.

(** The first buffer leaves the queue. *)
Lemma rep_tail m w r s rd pub wr g q r' s' :
  ring_rep m w r s rd pub wr (g :: q) -> rd < pub -> num r' = num r -> s_cnt s' = s_cnt s ->
  last_cnt r' = (2 * (rd + 1)) mod (2 * (2 * m)) -> zlen (s_buf s') = zlen (s_buf s) ->
  (forall i, i <> Z.to_nat (slot m rd) -> i <> Z.to_nat (slot m rd + 1) -> s_buf s' !! i = s_buf s !! i) ->
  ring_rep m w r' s' (rd + 1) pub wr q.
Proof.
  intros [[Hm Hz] Hwn Hrn Ho Hl Hro Hrd Hpub Hwr Hg Hh] Hlt Hn Hc Hl' Hz' Hfr.
  rewrite zlen_cons in Hl. cbn [map] in Hh. apply list.NoDup_cons in Hh as [_ Hh].
  split; try done; try lia; try congruence; [split; [done|lia]|].
  intros j x Hj. replace (rd + 1 + Z.of_nat j) with (rd + Z.of_nat (S j)) by lia.
  apply (group_at_frame m (s_buf s) _ rd); [lia|by apply Hg| |done].
  apply slot_ne; [lia|]. apply lookup_lt_Some in Hj. unfold zlen in Hl. lia.
Qed.

(** The ring that takes a buffer whose second vector has [size] bytes. *)
Lemma ring_id_range size : MTU_DEFAULT <= size -> 0 <= get_ring_id_write size < KVEC_BUF_NUM.
Proof.
  intros H. unfold get_ring_id_write. rewrite (proj2 (Z.ltb_ge size MTU_DEFAULT)) by lia.
  repeat case_if; unfold KVEC_BUF_NUM, KVEC_BUF_SMALL, KVEC_BUF_JUMBO, KVEC_BUF_BIG; unfold KVEC_BUF_NUM; lia.
Qed.

(** The two vectors of a buffer. *)
Definition two_vectors (wiov : Vringh.vringh_kiov) (v0 v1 : Z * Z) : Prop :=
  1 < Vringh.iov_used wiov /\ Vringh.iov wiov !! 0%nat = Some v0 /\ Vringh.iov wiov !! 1%nat = Some v1.

(** Putting into a ring that has room. *)
Lemma rep_snoc m w r s rd pub wr q g buf w' mx :
  ring_rep m w r s rd pub wr q -> wr - rd < m -> g_head g ∉ map g_head q ->
  size_ok m buf -> group_at m buf wr g ->
  (forall i, i <> Z.to_nat (slot m wr) -> i <> Z.to_nat (slot m wr + 1) -> buf !! i = s_buf s !! i) ->
  num w' = num w -> last_cnt w' = (2 * (wr + 1)) mod (2 * (2 * m)) ->
  ring_rep m w' r (mkShm (s_cnt s) buf mx) rd pub (wr + 1) (q ++ [g]).
Proof.
  intros [[Hm Hz] Hwn Hrn Ho Hl Hro Hrd Hpub Hwr Hg Hh] Hroom Hn Hb Hat Hfr Hnw Hlw.
  assert (Hz1 : zlen (q ++ [g]) = zlen q + 1) by (rewrite zlen_app; done).
  split; cbn [s_buf s_cnt]; try done; try lia; try congruence.
  - intros j x Hj. destruct (decide (j < length q)%nat) as [Hlt|Hge].
    + rewrite lookup_app_l in Hj by done. apply (group_at_frame m (s_buf s) _ wr); [lia|by apply Hg| |done].
      apply slot_ne; [lia|]. unfold zlen in Hl. lia.
    + assert (j = length q) as -> by (apply lookup_lt_Some in Hj; rewrite length_app in Hj; simpl in Hj; lia).
      rewrite lookup_app_r, Nat.sub_diag in Hj by done. injection Hj as <-.
      replace (rd + Z.of_nat (length q)) with wr by (unfold zlen in Hl; lia). done.
  - rewrite map_app. apply list.NoDup_app. split; [done|]. split; [|apply list.NoDup_singleton].
    intros x Hx Hxg%list_elem_of_singleton. by subst x.
Qed.

(** Putting a buffer. *)
Lemma kvec_put_ok junk rings shm wiov head v0 v1 m w r s rd pub wr q :
  two_vectors wiov v0 v1 -> MTU_DEFAULT <= snd v1 < 2 ^ 32 ->
  let id := get_ring_id_write (snd v1) in
  rings !! Z.to_nat id = Some w -> shm !! Z.to_nat id = Some s ->
  ring_rep m w r s rd pub wr q -> wr - rd < m -> head ∉ map g_head q ->
  exists w' s', vop_kvec_put junk rings shm wiov head
      = Ret (<[Z.to_nat id := w']> rings, <[Z.to_nat id := s']> shm, id)
    /\ ring_rep m w' r s' rd pub (wr + 1) (q ++ [mkGroup head v0 v1 false])
    /\ send_max_size_local w' <= snd v1
    /\ (send_max_size_local w = 0 \/ s_max s = send_max_size_local w -> s_max s' = send_max_size_local w').
Proof.
  intros (Hu & Hv0 & Hv1) Hsz id Hw Hs Hrep Hroom Hh.
  pose proof (ring_id_range (snd v1) ltac:(lia)) as Hid. fold id in Hid.
  pose proof (rr_size _ _ _ _ _ _ _ _ Hrep) as (Hm & Hz).
  unfold vop_kvec_put. rewrite (proj2 (Z.ltb_lt 0 (Vringh.iov_used wiov))) by lia.
  rewrite (aget_ret _ 0 v0) by done. run_bind. rewrite (proj2 (Z.ltb_lt 1 (Vringh.iov_used wiov))) by lia.
  rewrite (aget_ret _ 1 v1) by done. run_bind. fold id.
  rewrite (proj2 (Z.ltb_ge id 0)) by lia. rewrite (aget_ret _ _ w) by (lia || done). run_bind.
  rewrite (aget_ret _ _ s) by (lia || done). run_bind.
  set (lower := _ || _). set (w1 := if lower then _ else w).
  assert (Hw1 : num w1 = num w /\ last_cnt w1 = last_cnt w) by (unfold w1; by destruct lower).
  destruct Hw1 as (Hn1 & Hl1). rewrite Hn1, Hl1, (rr_wnum _ _ _ _ _ _ _ _ Hrep), (rr_wr _ _ _ _ _ _ _ _ Hrep).
  rewrite (proj2 (Z.eqb_neq (2 * m) 0)) by lia. simpl bug_on. run_bind.
  assert (Hidx : u16 (KVEC_COUNTER_TO_IDX ((2 * wr) mod (2 * (2 * m))) (2 * m)) = slot m wr).
  { rewrite <- (Z.add_0_r ((2 * wr) mod (2 * (2 * m)))), counter_idx, idx_small by lia. lia. }
  rewrite Hidx, counter_next by lia. rewrite counter_small by lia.
  set (s1 := if lower then _ else s). assert (Hb1 : s_buf s1 = s_buf s) by (unfold s1; by destruct lower). rewrite Hb1.
  destruct (copy2_ok m (s_buf s) wr (mkPk v0 head 0) (mkPk v1 head 0) (conj Hm Hz))
    as (buf & -> & Hbs & Ha & Hb & Hfr). run_bind.
  rewrite (aset_ret rings) by (apply lookup_lt_Some in Hw; unfold zlen; lia). run_bind.
  rewrite (aset_ret shm) by (apply lookup_lt_Some in Hs; unfold zlen; lia). run_bind.
  eexists _, _. split; [done|]. split; [|split].
  - replace (s_cnt s1) with (s_cnt s) by (unfold s1; by destruct lower).
    apply (rep_snoc m w r s rd pub wr q _ buf); try done.
    cbn [set_last last_cnt]. f_equal. lia.
  - cbn [send_max_size_local set_last]. unfold w1, lower.
    destruct (_ || _) eqn:E; cbn [send_max_size_local]; [|bools; lia].
    unfold MTU_DEFAULT, DMA_ALIGN_OVERHEAD_SIZE in Hsz. rewrite u32_small; lia.
  - cbn [send_max_size_local set_last s_max]. intros Hmx. unfold s1, w1, lower. destruct (_ || _) eqn:E; [done|].
    bools. destruct Hmx; [done|]. done.
Qed.

(** Putting a buffer of two vectors, the second one large enough for a ring,
    returns that ring's number; in that ring, which has room, the buffer becomes
    the last of the queue, not yet visible to the peer, and the announced size
    is at most the size of its second vector. *)
Theorem vop_kvec_put_correct junk rings shm wiov head v0 v1 m w r s rd pub wr q :
  two_vectors wiov v0 v1 -> MTU_DEFAULT <= snd v1 < 2 ^ 32 ->
  let id := get_ring_id_write (snd v1) in
  rings !! Z.to_nat id = Some w -> shm !! Z.to_nat id = Some s ->
  ring_rep m w r s rd pub wr q -> wr - rd < m -> head ∉ map g_head q ->
  exists w' s', vop_kvec_put junk rings shm wiov head
      = Ret (<[Z.to_nat id := w']> rings, <[Z.to_nat id := s']> shm, id)
    /\ ring_rep m w' r s' rd pub (wr + 1) (q ++ [mkGroup head v0 v1 false])
    /\ send_max_size_local w' <= snd v1
    /\ (send_max_size_local w = 0 \/ s_max s = send_max_size_local w -> s_max s' = send_max_size_local w').
Proof. apply kvec_put_ok. Qed.

(** Publishing makes every buffer put so far visible. *)
Lemma rep_publish m w r s rd pub wr q :
  ring_rep m w r s rd pub wr q -> ring_rep m w r (mkShm (last_cnt w) (s_buf s) (s_max s)) rd wr wr q.
Proof. intros []. split; cbn [s_buf s_cnt]; try done. lia. Qed.

(** Skipping a cancelled buffer takes two turns. *)
Lemma skip_group m w r s rd pub wr g q fuel :
  ring_rep m w r s rd pub wr (g :: q) -> rd < pub -> g_cancelled g = true ->
  exists r' s', skip_loop (S (S fuel)) r s = skip_loop fuel r' s'
    /\ ring_rep m w r' s' (rd + 1) pub wr q.
Proof.
  intros Hrep Hlt Hc. pose proof Hrep as [[Hm Hz] Hwn Hrn Ho Hl Hro Hrd Hpub Hwr Hg Hh].
  destruct (Hg 0%nat g eq_refl) as (H0 & H1). rewrite Z.add_0_r in H0, H1.
  pose proof (slot_range m rd ltac:(lia)) as Hs.
  assert (Hne : last_cnt r <> s_cnt s).
  { rewrite Hrd, Hpub. intros He. symmetry in He. apply counter_inj in He; lia. }
  assert (Hodd : u16 (KVEC_COUNTER_ADD (last_cnt r) 1 (num r)) = (2 * rd + 1) mod (2 * (2 * m))).
  { rewrite Hrd, Hrn, counter_next, counter_small by lia. done. }
  cbn [skip_loop]. rewrite (proj2 (Z.eqb_neq _ _) Hne).
  assert (Hi0 : u16 (KVEC_COUNTER_TO_IDX (last_cnt r) (num r)) = slot m rd).
  { rewrite Hrd, Hrn, <- (Z.add_0_r ((2 * rd) mod (2 * (2 * m)))), counter_idx, idx_small by lia. lia. }
  rewrite Hi0, (aget_ret _ _ _ (proj1 Hs) H0). run_bind. unfold elem. rewrite Hc. cbn [pk_flags pk_iov].
  replace (testflag VOP_KVEC_FLAG_CANCELLED VOP_KVEC_FLAG_CANCELLED) with true by done. cbn [negb].
  rewrite aset_ret by lia. run_bind. rewrite Hodd. cbn [set_last last_cnt num s_cnt s_buf].
  assert (Hne1 : (2 * rd + 1) mod (2 * (2 * m)) <> s_cnt s).
  { rewrite Hpub. apply counter_parity. lia. }
  rewrite (proj2 (Z.eqb_neq _ _) Hne1).
  assert (Hi1 : u16 (KVEC_COUNTER_TO_IDX ((2 * rd + 1) mod (2 * (2 * m))) (num r)) = slot m rd + 1).
  { rewrite Hrn. replace ((2 * rd + 1) mod (2 * (2 * m))) with ((2 * rd) mod (2 * (2 * m)) + 1).
    - rewrite counter_idx, idx_small by lia. done.
    - rewrite Z.mul_mod_distr_l by lia. symmetry. rewrite <- Zplus_mod_idemp_l, Z.mul_mod_distr_l by lia.
      apply Z.mod_small. pose proof (Z.mod_pos_bound rd (2 * m)). lia. }
  rewrite Hi1. rewrite (aget_ret _ (slot m rd + 1) (elem (g_v1 g) g)) by (lia || by rewrite list_lookup_insert_ne by lia).
  run_bind. unfold elem. rewrite Hc. cbn [pk_flags pk_iov].
  replace (testflag VOP_KVEC_FLAG_CANCELLED VOP_KVEC_FLAG_CANCELLED) with true by done. cbn [negb].
  rewrite aset_ret by (rewrite zlen_insert; lia). run_bind.
  eexists _, _. split; [done|]. apply (rep_tail m w r s rd pub wr g q); try done.
  - cbn [set_last last_cnt num]. rewrite Hrn. unfold KVEC_COUNTER_ADD. rewrite Zplus_mod_idemp_l, counter_small by lia.
    f_equal. lia.
  - cbn [s_buf]. by rewrite !zlen_insert.
  - intros i Hn0 Hn1. cbn [s_buf]. by rewrite !list_lookup_insert_ne by done.
Qed.

Lemma skip_ok m w pub wr : forall n r s rd q fuel,
  ring_rep m w r s rd pub wr q -> pub - rd = Z.of_nat n -> (2 * n <= fuel)%nat ->
  exists r' s' rd' q1 q2, skip_loop fuel r s = Ret (r', s') /\ q = q1 ++ q2
    /\ Forall (fun g => g_cancelled g = true) q1 /\ rd' = rd + zlen q1 /\ rd' <= pub
    /\ ring_rep m w r' s' rd' pub wr q2
    /\ (rd' < pub -> exists g q3, q2 = g :: q3 /\ g_cancelled g = false).
Proof.
  induction n as [|n IH]; intros r s rd q fuel Hrep Hn Hf.
  - exists r, s, rd, [], q. split; [|split; [done|]; split; [done|]; change (zlen []) with 0; split; [lia|];
      split; [lia|]; split; [done|lia]].
    assert (Heq : last_cnt r = s_cnt s).
    { rewrite (rr_rd _ _ _ _ _ _ _ _ Hrep), (rr_pub _ _ _ _ _ _ _ _ Hrep). f_equal. lia. }
    destruct fuel; simpl; by rewrite Heq, Z.eqb_refl.
  - pose proof (rr_len _ _ _ _ _ _ _ _ Hrep) as Hl. pose proof (rr_order _ _ _ _ _ _ _ _ Hrep) as Ho.
    destruct q as [|g q]; [change (zlen []) with 0 in Hl; lia|].
    destruct (g_cancelled g) eqn:Hc.
    + destruct fuel as [|[|fuel]]; [lia|lia|].
      destruct (skip_group m w r s rd pub wr g q fuel Hrep ltac:(lia) Hc) as (r1 & s1 & -> & Hrep1).
      destruct (IH r1 s1 (rd + 1) q fuel Hrep1 ltac:(lia) ltac:(lia)) as (r' & s' & rd' & q1 & q2 & -> & -> & Hq1 & Hrd & Hp & Hrep' & Hg).
      exists r', s', rd', (g :: q1), q2. split; [done|]. split; [done|]. split; [by constructor|].
      rewrite zlen_cons. split; [lia|]. done.
    + exists r, s, rd, [], (g :: q). change (zlen []) with 0. split.
      2:{ split; [done|]. split; [done|]. split; [lia|]. split; [lia|]. split; [done|]. intros _. by exists g, q. }
      destruct fuel as [|fuel]; [lia|]. destruct Hrep as [[Hm Hz] Hwn Hrn _ _ Hro Hrd Hpub Hwr Hg Hh].
      destruct (Hg 0%nat g eq_refl) as (H0 & _). rewrite Z.add_0_r in H0. cbn [skip_loop].
      rewrite (proj2 (Z.eqb_neq (last_cnt r) (s_cnt s))).
      2:{ rewrite Hrd, Hpub. intros He. symmetry in He. apply counter_inj in He; lia. }
      assert (Hi0 : u16 (KVEC_COUNTER_TO_IDX (last_cnt r) (num r)) = slot m rd).
      { rewrite Hrd, Hrn, <- (Z.add_0_r ((2 * rd) mod (2 * (2 * m)))), counter_idx, idx_small by lia. lia. }
      rewrite Hi0, (aget_ret _ _ _ (proj1 (slot_range m rd ltac:(lia))) H0). run_bind.
      unfold elem. by rewrite Hc.
Qed.

Lemma next_slot m c : 0 < m <= 16384 -> u16 (KVEC_COUNTER_TO_IDX (slot m c + 1 + 1) (2 * m)) = slot m (c + 1).
Proof.
  intros Hm. unfold KVEC_COUNTER_TO_IDX, slot. replace (2 * (c mod m) + 1 + 1) with (2 * (c mod m + 1)) by lia.
  rewrite Z.mul_mod_distr_l, Zplus_mod_idemp_l by lia. apply u16_small.
  pose proof (Z.mod_pos_bound (c + 1) m). lia.
Qed.

(** Taking the elements of the first buffer, which is not cancelled. *)
Lemma adjacent_ok m w r s rd pub wr g q buf fuel :
  ring_rep m w r s rd pub wr (g :: q) -> rd < pub -> (2 <= fuel)%nat -> zlen buf = 2 * m ->
  (forall i, i <> Z.to_nat (slot m rd) -> buf !! i = s_buf s !! i) ->
  adjacent_loop fuel r buf (s_cnt s) (g_head g) 1 (slot m rd + 1)
  = Ret (<[Z.to_nat (slot m rd + 1) := mkPk (g_v1 g) 0 (pk_flags (elem (g_v1 g) g))]> buf, 2).
Proof.
  intros Hrep Hlt Hf Hzb Hfr. pose proof Hrep as [[Hm Hz] Hwn Hrn Ho Hl Hro Hrd Hpub Hwr Hg Hh].
  destruct (Hg 0%nat g eq_refl) as (_ & H1). rewrite Z.add_0_r in H1.
  pose proof (slot_range m rd ltac:(lia)) as Hs. destruct fuel as [|[|fuel]]; [lia|lia|].
  cbn [adjacent_loop]. unfold KVEC_COUNTER_EQ at 1. rewrite Hrd, Hpub, Hrn, Zplus_mod_idemp_l, Z.mod_mod by lia.
  rewrite (proj2 (Z.eqb_neq _ _) (counter_parity m rd pub ltac:(lia))).
  rewrite (aget_ret buf (slot m rd + 1) (elem (g_v1 g) g)) by (lia || by rewrite Hfr by lia). run_bind.
  cbn [pk_head elem]. rewrite Z.eqb_refl, (proj2 (Z.ltb_lt 1 (2 * m))) by lia. cbn [andb].
  rewrite aset_ret by lia. run_bind. change (u16 (1 + 1)) with 2. rewrite next_slot by lia.
  unfold KVEC_COUNTER_EQ. rewrite Zplus_mod_idemp_l, Z.mod_mod by lia.
  destruct (Z.eqb_spec ((2 * rd + 2) mod (2 * (2 * m))) ((2 * pub) mod (2 * (2 * m)))) as [He|He]; [done|].
  assert (Hmore : rd + 1 < pub).
  { destruct (Z.eq_dec (rd + 1) pub) as [Hp|Hp]; [|lia]. exfalso. apply He. f_equal. lia. }
  rewrite zlen_cons in Hl. destruct q as [|g2 q]; [change (zlen []) with 0 in Hl; lia|].
  destruct (Hg 1%nat g2 eq_refl) as (H2 & _). change (Z.of_nat 1) with 1 in H2.
  pose proof (slot_range m (rd + 1) ltac:(lia)) as Hs2.
  pose proof (slot_ne m rd (rd + 1) ltac:(lia) ltac:(lia)) as Hsn.
  assert (slot m (rd + 1) <> slot m rd + 1) by (unfold slot; lia).
  rewrite (aget_ret _ (slot m (rd + 1)) (elem (g_v0 g2) g2)).
  2:{ lia. } 2:{ rewrite list_lookup_insert_ne by lia. by rewrite Hfr by lia. }
  run_bind. cbn [pk_head elem map] in *. apply list.NoDup_cons in Hh as [Hn _].
  rewrite (proj2 (Z.eqb_neq (g_head g) (g_head g2))); [done|]. intros Heq. apply Hn. rewrite Heq.
  by apply elem_of_cons; left.
Qed.

(** The first buffer, which is not cancelled, is fetched whole. *)
Lemma fetch_ok m w r s rd pub wr g q :
  ring_rep m w r s rd pub wr (g :: q) -> rd < pub -> g_cancelled g = false ->
  exists r' s', fetch r s = Ret (r', s', mkItem (g_head g) (slot m rd) 2)
    /\ s_buf s' !! Z.to_nat (slot m rd) = Some (mkPk (g_v0 g) 0 VOP_KVEC_FLAG_IN_USE)
    /\ s_buf s' !! Z.to_nat (slot m rd + 1) = Some (mkPk (g_v1 g) 0 0)
    /\ ring_rep m w r' s' (rd + 1) pub wr q.
Proof.
  intros Hrep Hlt Hc. pose proof Hrep as [[Hm Hz] _ Hrn _ _ _ Hrd Hpub _ Hg _].
  destruct (Hg 0%nat g eq_refl) as (H0 & H1). rewrite Z.add_0_r in H0, H1.
  pose proof (slot_range m rd ltac:(lia)) as Hs. unfold fetch.
  assert (Hfirst : u16 (last_cnt r mod num r) = slot m rd).
  { rewrite Hrd, Hrn, Z.mod_mod_divide by by exists 2. rewrite Z.mul_mod_distr_l by lia.
    apply u16_small. unfold slot in *. lia. }
  rewrite Hfirst, (aget_ret _ _ _ (proj1 Hs) H0). run_bind. rewrite aset_ret by lia. run_bind.
  assert (Hnext : u16 (KVEC_COUNTER_TO_IDX (last_cnt r + 1) (num r)) = slot m rd + 1)
    by (rewrite Hrd, Hrn, counter_idx, idx_small by lia; done).
  cbn [last_cnt num]. rewrite Hnext.
  set (buf1 := <[Z.to_nat (slot m rd) := _]> (s_buf s)). set (r2 := mkKr (last_cnt r) (num r) _ _).
  assert (Hrep2 : ring_rep m w r2 s rd pub wr (g :: q)) by (destruct Hrep; by split).
  assert (Hzb : zlen buf1 = 2 * m) by (unfold buf1; by rewrite zlen_insert).
  cbn [pk_head elem]. rewrite (adjacent_ok m w r2 s rd pub wr g q buf1 _ Hrep2); [|lia|lia|done|].
  2:{ intros i Hi. by apply list_lookup_insert_ne. }
  run_bind. set (buf2 := <[Z.to_nat (slot m rd + 1) := _]> buf1).
  assert (Hzb2 : zlen buf2 = 2 * m) by (unfold buf2; by rewrite zlen_insert). unfold zlen in *.
  assert (Hb2 : buf2 !! Z.to_nat (slot m rd) = Some (mkPk (g_v0 g) 0 0)).
  { unfold buf2. rewrite list_lookup_insert_ne by lia. unfold buf1, elem. rewrite Hc.
    apply list_lookup_insert_eq. lia. }
  rewrite (aget_ret buf2 _ _ (proj1 Hs) Hb2). run_bind. rewrite aset_ret by (unfold zlen; lia). run_bind.
  eexists _, _. split; [done|]. cbn [s_buf pk_iov pk_head]. split; [apply list_lookup_insert_eq; lia|]. split.
  { rewrite list_lookup_insert_ne by lia. unfold buf2, elem. rewrite Hc. apply list_lookup_insert_eq. lia. }
  apply (rep_tail m w r2 s rd pub wr g q); try done.
  - cbn [set_last last_cnt num r2]. rewrite Hrd, Hrn, counter_next, counter_small by lia. f_equal. lia.
  - cbn [s_buf]. unfold zlen. rewrite length_insert. lia.
  - intros i Hi0 Hi1. cbn [s_buf]. unfold buf2, buf1. by rewrite !list_lookup_insert_ne by done.
Qed.

(** Getting a buffer. *)
Lemma kvec_get_ok m w r s rd pub wr q :
  ring_rep m w r s rd pub wr q ->
  exists q1 q2, q = q1 ++ q2 /\ Forall (fun g => g_cancelled g = true) q1
    /\ let rd' := rd + zlen q1 in
       (rd' = pub /\ exists r' s', vop_kvec_get r s = Ret (r', s', inl (- EAGAIN))
          /\ ring_rep m w r' s' rd' pub wr q2)
       \/ (rd' < pub /\ exists g q3 r' s', q2 = g :: q3 /\ g_cancelled g = false
            /\ vop_kvec_get r s = Ret (r', s', inr (mkItem (g_head g) (slot m rd') 2))
            /\ s_buf s' !! Z.to_nat (slot m rd') = Some (mkPk (g_v0 g) 0 VOP_KVEC_FLAG_IN_USE)
            /\ s_buf s' !! Z.to_nat (slot m rd' + 1) = Some (mkPk (g_v1 g) 0 0)
            /\ ring_rep m w r' s' (rd' + 1) pub wr q3).
Proof.
  intros Hrep. pose proof (rr_size _ _ _ _ _ _ _ _ Hrep) as (Hm & Hz).
  pose proof (rr_order _ _ _ _ _ _ _ _ Hrep) as Ho. pose proof (rr_room _ _ _ _ _ _ _ _ Hrep) as Hro.
  unfold vop_kvec_get. rewrite (rr_rnum _ _ _ _ _ _ _ _ Hrep), (proj2 (Z.eqb_neq (2 * m) 0)) by lia.
  simpl bug_on. run_bind.
  destruct (skip_ok m w pub wr (Z.to_nat (pub - rd)) r s rd q (Z.to_nat (2 * (2 * m))) Hrep) as
    (r1 & s1 & rd' & q1 & q2 & -> & Hq & Hq1 & Hrd' & Hp & Hrep1 & Hfirst); [lia|lia|]. run_bind.
  exists q1, q2. split; [done|]. split; [done|]. cbn zeta. rewrite <- Hrd'. pose proof (zlen_nonneg q1) as Hq0.
  rewrite (rr_rd _ _ _ _ _ _ _ _ Hrep1), (rr_pub _ _ _ _ _ _ _ _ Hrep1).
  destruct (Z.eq_dec rd' pub) as [He|Hne].
  - left. split; [done|]. exists r1, s1. split; [|done]. by rewrite He, Z.eqb_refl.
  - right. split; [lia|]. destruct (Hfirst ltac:(lia)) as (g & q3 & -> & Hc).
    rewrite (proj2 (Z.eqb_neq _ _)) by (intros E; symmetry in E; apply counter_inj in E; lia).
    destruct (fetch_ok m w r1 s1 rd' pub wr g q3 Hrep1 ltac:(lia) Hc) as (r' & s' & -> & Hb0 & Hb1 & Hrep').
    run_bind. by exists g, q3, r', s'.
Qed.

(** C18. Getting a buffer from a ring skips the buffers that their owner has
    cancelled, in order, and takes the first visible buffer that is left, whole:
    its head, its first element (marked as in use) and both its vectors, while
    the rest of the queue stays; when none is left it returns [-EAGAIN]. *)
Theorem vop_kvec_get_correct m w r s rd pub wr q :
  ring_rep m w r s rd pub wr q ->
  exists q1 q2, q = q1 ++ q2 /\ Forall (fun g => g_cancelled g = true) q1
    /\ let rd' := rd + zlen q1 in
       (rd' = pub /\ exists r' s', vop_kvec_get r s = Ret (r', s', inl (- EAGAIN))
          /\ ring_rep m w r' s' rd' pub wr q2)
       \/ (rd' < pub /\ exists g q3 r' s', q2 = g :: q3 /\ g_cancelled g = false
            /\ vop_kvec_get r s = Ret (r', s', inr (mkItem (g_head g) (slot m rd') 2))
            /\ s_buf s' !! Z.to_nat (slot m rd') = Some (mkPk (g_v0 g) 0 VOP_KVEC_FLAG_IN_USE)
            /\ s_buf s' !! Z.to_nat (slot m rd' + 1) = Some (mkPk (g_v1 g) 0 0)
            /\ ring_rep m w r' s' (rd' + 1) pub wr q3).
Proof. apply kvec_get_ok. Qed.

(** When the part in use of a ring wraps around (or the ring is full) and
    every element has the head of the request, the loop of
    [vop_kvec_check_cancel] that marks the elements of that head goes round the
    ring for ever: no fuel is enough.  Elements that were taken have head 0, so
    cancelling the only buffer of such a ring, if its head is 0, hangs. *)
Theorem vop_kvec_cancel_diverges fuel buf n head idx_start idx_end idx :
  0 < n -> zlen buf = n -> Forall (fun e => pk_head e = head) buf -> 0 <= idx < n -> idx_end <= idx_start ->
  cancel_loop fuel buf n head idx_start idx_end idx = Spin.
Proof.
  intros Hn. revert buf idx. induction fuel as [|fuel IH]; intros buf idx Hz Hall Hi Hw.
  all: destruct (aget_total buf idx) as (e & He & Hl); [lia|].
  all: assert (Hh : pk_head e = head) by (rewrite List.Forall_forall in Hall;
         by apply Hall, list_elem_of_In, (list_elem_of_lookup_2 _ _ _ Hl)).
  all: assert (Hcond : ((pk_head e =? head) && ((idx_start =? idx_end)
         || ((idx_start <? idx_end) && (idx_start <=? idx) && (idx <=? idx_end))
         || ((idx_end <? idx_start) && ((idx <=? idx_start) || (idx_end <=? idx)))))%bool = true) by lia.
  all: cbn [cancel_loop]; rewrite He; run_bind; rewrite Hcond.
  { done. }
  rewrite aset_ret by lia. run_bind. apply IH; [by rewrite zlen_insert| | |done].
  - apply Forall_insert; [done|]. unfold mark_cancelled. done.
  - apply Z.mod_pos_bound. done.
Qed.

(** ** Used buffers *)

(** The entries [us] from the reader's counter [c] on. *)
Record used_rep (u : vop_used_kiov_ring) (lw lr c : Z) (us : list vop_peer_used_kiov) : Prop := {
  ur_num : 0 < u_num u <= 32768;
  ur_size : zlen (u_buf u) = u_num u;
  ur_len : zlen us <= u_num u;
  ur_lr : lr = c mod (2 * u_num u);
  ur_lw : lw = (c + zlen us) mod (2 * u_num u);
  ur_cnt : u_cnt u = lw;
  ur_elems : forall j x, us !! j = Some x -> u_buf u !! Z.to_nat ((c + Z.of_nat j) mod u_num u) = Some x;
}.

Lemma used_idx n c : 0 < n -> KVEC_COUNTER_TO_IDX (c mod (2 * n)) n = c mod n.
Proof. intros Hn. unfold KVEC_COUNTER_TO_IDX. apply Z.mod_mod_divide. by exists 2. Qed.

Lemma used_ring_next n c : 0 < n <= 32768 -> u16 (KVEC_COUNTER_ADD (c mod (2 * n)) 1 n) = (c + 1) mod (2 * n).
Proof.
  intros Hn. unfold KVEC_COUNTER_ADD. rewrite Zplus_mod_idemp_l. apply u16_small.
  pose proof (Z.mod_pos_bound (c + 1) (2 * n)). lia.
Qed.

Lemma mod_ne n a b : 0 < n -> 0 < Z.abs (a - b) < n -> a mod n <> b mod n.
Proof.
  intros Hn Hd H. pose proof (Z.div_mod a n ltac:(lia)). pose proof (Z.div_mod b n ltac:(lia)).
  assert (a - b = n * (a / n - b / n)) as Hab by lia.
  destruct (Z.eq_dec (a / n - b / n) 0) as [E|E]; [rewrite E in Hab; lia|nia].
Qed.

Lemma used_put u lw lr c us head len :
  used_rep u lw lr c us -> zlen us < u_num u ->
  exists lw' u', vop_kvec_used lw u head len = Ret (lw', u')
    /\ used_rep u' lw' lr c (us ++ [mkUk (u32 len) (u16 head)]).
Proof.
  intros [Hn Hz Hl Hlr Hlw Hc He] Hroom. unfold vop_kvec_used.
  rewrite (proj2 (Z.eqb_neq (u_num u) 0)) by lia. simpl bug_on. run_bind.
  rewrite Hlw, used_idx, used_ring_next by lia. pose proof (Z.mod_pos_bound (c + zlen us) (u_num u) ltac:(lia)) as Hb.
  rewrite u16_small by lia. rewrite aset_ret by lia. run_bind. eexists _, _. split; [done|].
  split; cbn [u_num u_buf u_cnt]; rewrite ?zlen_insert, ?zlen_app; try done; change (zlen [_]) with 1.
  - lia.
  - f_equal. lia.
  - intros j x Hj. destruct (decide (j < length us)%nat) as [Hlt|Hge].
    + rewrite lookup_app_l in Hj by done. rewrite list_lookup_insert_ne; [by apply He|].
      pose proof (Z.mod_pos_bound (c + Z.of_nat j) (u_num u) ltac:(lia)). intros Heq.
      apply Z2Nat.inj in Heq; [|lia|lia]. revert Heq. unfold zlen in *. apply mod_ne; lia.
    + assert (j = length us) as -> by (apply lookup_lt_Some in Hj; rewrite length_app in Hj; simpl in Hj; lia).
      rewrite lookup_app_r, Nat.sub_diag in Hj by done. injection Hj as <-.
      apply list_lookup_insert_eq. unfold zlen in *. lia.
Qed.

(** The entries [us] have been completed from the index [idx] on. *)
Definition completed_from (idx : Z) (v : VirtioRing.vring) (us : list vop_peer_used_kiov) : Prop :=
  forall j x, us !! j = Some x ->
    VirtioRing.used_ring v !! Z.to_nat (u16 (idx + Z.of_nat j) mod VirtioRing.num v)
    = Some (VirtioRing.mkUsed (uk_head x) (uk_len x)).

Lemma u16_mod n x : (exists k, 0 <= k <= 15 /\ n = 2 ^ k) -> u16 x mod n = x mod n.
Proof.
  intros (k & Hk & ->). unfold u16, wrap. apply Z.mod_mod_divide. exists (2 ^ (16 - k)).
  rewrite <- Z.pow_add_r by lia. f_equal. lia.
Qed.

Lemma consume_ok us : forall fuel vrh u lw c done,
  used_rep u lw (c mod (2 * u_num u)) c us -> Vringh.ring_ok (Vringh.vr vrh) -> (length us <= fuel)%nat ->
  zlen done + zlen us <= VirtioRing.num (Vringh.vr vrh) ->
  let idx := u16 (Vringh.vh_last_used_idx vrh + Vringh.completed vrh - zlen done) in
  completed_from idx (Vringh.vr vrh) done ->
  exists vrh', consume_loop fuel vrh u (c mod (2 * u_num u)) = Ret (vrh', u_cnt u)
    /\ Vringh.ring_ok (Vringh.vr vrh') /\ completed_from idx (Vringh.vr vrh') (done ++ us)
    /\ (us <> [] -> VirtioRing.used_idx (Vringh.vr vrh') = u16 (idx + zlen (done ++ us)))
    /\ Vringh.last_avail_idx vrh' = Vringh.last_avail_idx vrh /\ (us = [] -> vrh' = vrh).
Proof.
  induction us as [|x us IH]; intros fuel vrh u lw c done Hrep Hok Hf Hroom idx Hdone;
    pose proof Hrep as [Hn Hz Hl _ Hlw Hc He].
  - exists vrh. change (zlen []) with 0 in Hlw. rewrite Z.add_0_r in Hlw.
    rewrite app_nil_r. split; [|done]. destruct fuel; simpl; by rewrite Hc, Hlw, Z.eqb_refl.
  - destruct fuel as [|fuel]; [simpl in Hf; lia|]. rewrite zlen_cons in *. pose proof (zlen_nonneg us) as Hu0.
    cbn [consume_loop]. rewrite (proj2 (Z.eqb_neq (u_cnt u) (c mod (2 * u_num u)))).
    2:{ rewrite Hc, Hlw. apply mod_ne; lia. }
    pose proof (Z.mod_pos_bound c (u_num u) ltac:(lia)) as Hb.
    rewrite used_idx by lia. rewrite (aget_ret _ _ x) by (lia || (rewrite <- (Z.add_0_r c); by apply (He 0%nat))).
    run_bind. unfold Vringh.vca_vringh_complete_kern. rewrite (Vringh.complete_one vrh _ Hok). run_bind.
    rewrite used_ring_next by lia. set (vrh1 := Vringh.mkVrh _ _ _ _ _).
    pose proof (Vringh.ring_num _ Hok) as Hnum.
    set (old := u16 (Vringh.vh_last_used_idx vrh + Vringh.completed vrh)) in *.
    assert (Hold : forall k, u16 (idx + (zlen done + k)) = u16 (old + k)).
    { intros k. unfold idx, old, u16, wrap. rewrite !Zplus_mod_idemp_l. f_equal. lia. }
    assert (Hidx1 : u16 (Vringh.vh_last_used_idx vrh1 + Vringh.completed vrh1 - zlen (done ++ [x])) = idx).
    { simpl. rewrite zlen_app. change (zlen [x]) with 1. unfold idx, u16, u32, wrap.
      rewrite <- (Zminus_mod_idemp_l (_ + _)), <- (Zplus_mod_idemp_r _ (Vringh.vh_last_used_idx vrh)).
      rewrite Z.mod_mod_divide by by exists (2 ^ 16).
      rewrite Zplus_mod_idemp_r, Zminus_mod_idemp_l. f_equal. lia. }
    assert (Hok1 : Vringh.ring_ok (Vringh.vr vrh1)).
    { destruct Hok. split; simpl; try done. by rewrite zlen_insert. }
    assert (Hslot : forall j, (j < length done)%nat ->
      u16 (idx + Z.of_nat j) mod VirtioRing.num (Vringh.vr vrh) <> old mod VirtioRing.num (Vringh.vr vrh)).
    { intros j Hj. rewrite (u16_mod _ _ (Vringh.ro_num _ Hok)).
      replace (old mod VirtioRing.num (Vringh.vr vrh)) with ((idx + zlen done) mod VirtioRing.num (Vringh.vr vrh)).
      - apply mod_ne; unfold zlen in *; lia.
      - rewrite <- (u16_mod _ (idx + zlen done) (Vringh.ro_num _ Hok)). specialize (Hold 0).
        rewrite Z.add_0_r, (u16_small (old + 0)) in Hold by (rewrite Z.add_0_r; apply u16_range).
        by rewrite Hold, Z.add_0_r. }
    destruct (IH fuel vrh1 u lw (c + 1) (done ++ [x])) as (vrh' & -> & Hok' & Hcomp & Hui & Hla & Hnil).
    { split; try done; try lia. { rewrite Hlw. f_equal. lia. }
      intros j y Hj. replace (c + 1 + Z.of_nat j) with (c + Z.of_nat (S j)) by lia. by apply He. }
    { done. } { simpl in Hf. lia. } { rewrite zlen_app. change (zlen [x]) with 1. simpl. lia. }
    { rewrite Hidx1. intros j y Hj. simpl.
      pose proof (Z.mod_pos_bound old (VirtioRing.num (Vringh.vr vrh)) ltac:(lia)) as Hbo.
      destruct (decide (j < length done)%nat) as [Hlt|Hge].
      - rewrite lookup_app_l in Hj by done. rewrite list_lookup_insert_ne; [by apply Hdone|].
        pose proof (Z.mod_pos_bound (u16 (idx + Z.of_nat j)) (VirtioRing.num (Vringh.vr vrh)) ltac:(lia)).
        specialize (Hslot j Hlt). lia.
      - assert (j = length done) as -> by (apply lookup_lt_Some in Hj; rewrite length_app in Hj; simpl in Hj; lia).
        rewrite lookup_app_r, Nat.sub_diag in Hj by done. injection Hj as <-.
        specialize (Hold 0). rewrite !Z.add_0_r in Hold. unfold zlen in Hold. rewrite Hold.
        rewrite (u16_small old) by apply u16_range. pose proof (Vringh.ro_used _ Hok) as Hus. unfold zlen in Hus.
        apply list_lookup_insert_eq. lia. }
    rewrite Hidx1 in *. rewrite <- app_assoc in *. simpl in Hcomp, Hui. exists vrh'. split; [done|]. split; [done|].
    split; [done|]. split; [|done]. intros _. destruct us as [|y us]; [|by apply Hui].
    rewrite (Hnil eq_refl), zlen_app. change (zlen [x]) with 1. rewrite Hold. done.
Qed.

(** A used buffer that the peer reports is completed by its owner: after
    [vop_kvec_used], [vop_kvec_buf_consume] gives the driver's used ring all the
    entries that were waiting, in order, and the new one last, each with its head
    and length, and leaves the shared ring empty. *)
Theorem vop_kvec_used_consume u lw lr c us vrh head len :
  used_rep u lw lr c us -> zlen us < u_num u ->
  Vringh.ring_ok (Vringh.vr vrh) -> zlen us < VirtioRing.num (Vringh.vr vrh) ->
  let idx := u16 (Vringh.vh_last_used_idx vrh + Vringh.completed vrh) in
  exists lw' u' vrh',
    vop_kvec_used lw u head len = Ret (lw', u')
    /\ vop_kvec_buf_consume vrh u' lr = Ret (vrh', u_cnt u')
    /\ completed_from idx (Vringh.vr vrh') (us ++ [mkUk (u32 len) (u16 head)])
    /\ VirtioRing.used_idx (Vringh.vr vrh') = u16 (idx + zlen us + 1).
Proof.
  intros Hrep Hroom Hok Hnum idx. destruct (used_put u lw lr c us head len Hrep Hroom) as (lw' & u' & Hput & Hrep').
  pose proof Hrep' as [Hn' _ Hl' Hlr' _ _ _]. rewrite Hlr' in Hrep'.
  assert (Hz1 : zlen (us ++ [mkUk (u32 len) (u16 head)]) = zlen us + 1) by (rewrite zlen_app; done).
  destruct (consume_ok (us ++ [mkUk (u32 len) (u16 head)]) (Z.to_nat (2 * u_num u')) vrh u' lw' c [] Hrep' Hok)
    as (vrh' & Hrun & _ & Hcomp & Hui & _).
  - unfold zlen in *. lia.
  - rewrite Hz1. change (zlen []) with 0. lia.
  - by intros j x Hj.
  - change (zlen []) with 0 in *. rewrite Z.sub_0_r in *. fold idx in Hcomp, Hui.
    exists lw', u', vrh'. split; [done|]. split; [|split; [done|]].
    + unfold vop_kvec_buf_consume. rewrite (proj2 (Z.eqb_neq (u_num u') 0)) by lia. simpl bug_on. run_bind.
      by rewrite Hlr'.
    + rewrite Hui; [|by destruct us]. simpl app. rewrite Hz1. f_equal. lia.
Qed.

(** ** Witnesses *)

Definition demo_w : vop_kvec_ring := mkKr 2 4 0 0.
Definition demo_r : vop_kvec_ring := mkKr 0 4 0 0.
Definition demo_group (h : Z) (b : bool) : group := mkGroup h (0x1000, 12) (0x2000, 1800) b.
(** A ring of two slots with one cancelled buffer, and the same ring with a
    second one. *)
Definition demo_s1 : shm_ring :=
  mkShm 2 [elem (0x1000, 12) (demo_group 5 true); elem (0x2000, 1800) (demo_group 5 true);
           mkPk (0, 0) 0 0; mkPk (0, 0) 0 0] 0.

Lemma demo_rep : ring_rep 2 demo_w demo_r demo_s1 0 1 1 [demo_group 5 true].
Proof.
  split; try done.
  - intros j g Hj. destruct j as [|j]; [|done]. injection Hj as <-. done.
  - apply list.NoDup_singleton.
Qed.

Definition demo_wiov : Vringh.vringh_kiov := Vringh.mkIov [(0x1000, 12); (0x2000, 1800)] 0 0 2 2.

Lemma vop_kvec_put_correct_witness :
  exists w' s', vop_kvec_put (mkPk (0, 0) 0 0) [demo_w; demo_w; demo_w] [demo_s1; demo_s1; demo_s1] demo_wiov 6
      = Ret ([w'; demo_w; demo_w], [s'; demo_s1; demo_s1], 0)
    /\ ring_rep 2 w' demo_r s' 0 1 2 [demo_group 5 true; demo_group 6 false].
Proof.
  destruct (vop_kvec_put_correct (mkPk (0, 0) 0 0) [demo_w; demo_w; demo_w] [demo_s1; demo_s1; demo_s1] demo_wiov 6
    (0x1000, 12) (0x2000, 1800) 2 demo_w demo_r demo_s1 0 1 1 [demo_group 5 true]) as (w' & s' & H1 & H2 & _).
  - done.
  - done.
  - done.
  - done.
  - exact demo_rep.
  - done.
  - by intros ?%list_elem_of_singleton.
  - exists w', s'. split; [exact H1|exact H2].
Defined.

Definition demo_s2 : shm_ring :=
  mkShm 4 [elem (0x1000, 12) (demo_group 5 true); elem (0x2000, 1800) (demo_group 5 true);
           elem (0x1000, 12) (demo_group 6 false); elem (0x2000, 1800) (demo_group 6 false)] 1800.

Lemma vop_kvec_get_correct_witness :
  exists r' s', vop_kvec_get demo_r demo_s2 = Ret (r', s', inr (mkItem 6 2 2)).
Proof.
  destruct (vop_kvec_get_correct 2 (mkKr 4 4 1800 0) demo_r demo_s2 0 2 2 [demo_group 5 true; demo_group 6 false])
    as (q1 & q2 & Hq & Hc & [(Hp & r' & s' & H & _)|(Hp & g & q3 & r' & s' & Hq2 & Hg & H & _)]).
  - split; try done.
    + intros j g Hj. destruct j as [|[|j]]; [| |done]; injection Hj as <-; done.
    + apply list.NoDup_cons. split; [by intros ?%list_elem_of_singleton|]. apply list.NoDup_singleton.
  - exfalso. vm_compute in H. done.
  - exists r', s'. rewrite H. f_equal. destruct q1 as [|g1 [|g2 q1]].
    + simpl in Hq. by simplify_eq.
    + simpl in Hq. by simplify_eq.
    + simpl in Hq. simplify_eq. apply Forall_cons_iff in Hc as [_ [Hc _]%Forall_cons_iff]. done.
Defined.

Lemma vop_kvec_cancel_diverges_witness :
  cancel_loop 100 (replicate 4 (mkPk (0x1000, 12) 0 0)) 4 0 2 0 3 = Spin.
Proof. apply vop_kvec_cancel_diverges; try done. by apply Forall_replicate. Defined.

Lemma vop_kvec_used_consume_witness :
  exists lw' u' vrh',
    vop_kvec_used 1 (mkUr 1 4 [mkUk 100 2; mkUk 0 0; mkUk 0 0; mkUk 0 0]) 3 200 = Ret (lw', u')
    /\ vop_kvec_buf_consume Vringh.demo_vrh u' 0 = Ret (vrh', u_cnt u')
    /\ VirtioRing.used_idx (Vringh.vr vrh') = 2.
Proof.
  destruct (vop_kvec_used_consume (mkUr 1 4 [mkUk 100 2; mkUk 0 0; mkUk 0 0; mkUk 0 0]) 1 0 0 [mkUk 100 2]
    Vringh.demo_vrh 3 200) as (lw' & u' & vrh' & H1 & H2 & _ & H3).
  - split; try done. intros j x Hj. destruct j as [|j]; [|done]. by injection Hj as <-.
  - done.
  - exact Vringh.demo_ring_ok.
  - done.
  - exists lw', u', vrh'. split; [exact H1|]. split; [exact H2|exact H3].
Defined.

End KvecBuff.
