(* ===== verification/PlxDma.v ===== *)
(** * The DMA engine driver

    [src/modules/vca/plx87xx_dma/plx_dma.c] and the descriptor format of
    [plx_dma.h].  A channel has a ring of descriptors in memory shared with the
    engine.  [plx_dma_prep_memcpy_lock] splits a copy into descriptors at [head],
    [plx_dma_tx_submit_unlock] publishes the last one and gives the transaction
    its cookie, and [plx_dma_cleanup] advances [last_tail] over the descriptors
    the engine has finished and calls back their owners.

    The engine is the class [DmaHw]: every register access may give it the
    opportunity to write back descriptors.  [DmaHwOk] states what its data sheet
    promises: a write-back clears the valid bit of a descriptor that was valid
    and touches nothing else. *)

From Stdlib Require Import ZArith Lia.
From stdpp Require Import base list numbers option tactics.
From S2P Require Import Prelude.
#[local] Open Scope Z_scope.

Module PlxDma.

(** ** Constants ([plx_dma.h]) *)

Definition PLX_DMA_DESC_RX_SIZE : Z := 2 * 1024.
Definition PLX_DMA_PAUSE_TO : Z := 5.
Definition PLX_DESC_VALID : Z := Z.shiftl 1 31.
Definition PLX_DESC_INTR_ENABLE : Z := Z.shiftl 1 30.
Definition PLX_DESC_DWORD_MASK : Z := 0xffffffff.
(** [0xffff<<16] is an [int] and widens with its sign. *)
Definition PLX_DESC_HALF_HIGH_MASK : Z := u64 (s32 (Z.shiftl 0xffff 16)).
Definition PLX_DESC_SIZE_MASK : Z := Z.shiftl 1 27 - 1.
Definition PLX_DMA_BLK_SRC_LOWER : Z := 0x00.
Definition PLX_DMA_BLK_SRC_UPPER : Z := 0x04.
Definition PLX_DMA_BLK_DST_LOWER : Z := 0x08.
Definition PLX_DMA_BLK_DST_UPPER : Z := 0x0C.
Definition PLX_DMA_BLK_TRSFR_SIZE : Z := 0x10.
Definition PLX_DMA_DESC_RING_ADDR_LOW : Z := 0x14.
Definition PLX_DMA_DESC_RING_ADDR_HIGH : Z := 0x18.
Definition PLX_DMA_NEXT_DESC_ADDR_LOW : Z := 0x1C.
Definition PLX_DMA_DESC_RING_SIZE : Z := 0x20.
Definition PLX_DMA_LAST_DESC_ADDR_LOW : Z := 0x24.
Definition PLX_DMA_CTRL_STATUS : Z := 0x38.
Definition PLX_DMA_CTRL_PAUSED : Z := Z.shiftl 1 0.
Definition PLX_DMA_CTRL_WB_ENABLE : Z := Z.shiftl 1 2.
Definition PLX_DMA_CTRL_START : Z := Z.shiftl 1 3.
Definition PLX_DMA_CTRL_OFFCHIP_MODE : Z := Z.shiftl 2 5.
Definition PLX_DMA_CTRL_PAUSE_DONE_STATUS : Z := Z.shiftl 1 9.
Definition PLX_DMA_CTRL_IN_PROGRESS : Z := Z.shiftl 1 30.
Definition PLX_DMA_CTRL_HEADER_LOG : Z := Z.shiftl 1 31.
Definition PLX_DMA_CTRL_MODE_BITS : Z := Z.shiftl 3 5.
Definition PLX_DMA_CTRL_STATUS_BITS : Z := Z.shiftl 0x17 8.
Definition PLX_DMA_INTR_CTRL_STATUS : Z := 0x3C.
Definition PLX_DMA_ERROR_INTR_EN : Z := Z.shiftl 1 0.
Definition PLX_DMA_INVLD_DESC_INTR_EN : Z := Z.shiftl 1 1.
Definition PLX_DMA_ABORT_DONE_INTR_EN : Z := Z.shiftl 1 3.
Definition PLX_DMA_GRACE_PAUSE_INTR_EN : Z := Z.shiftl 1 4.
Definition PLX_DMA_IMM_PAUSE_INTR_EN : Z := Z.shiftl 1 5.
Definition PLX_DMA_ERROR_INTR_STATUS : Z := Z.shiftl 1 16.
Definition PLX_DMA_INVLD_DESC_INTR_STATUS : Z := Z.shiftl 1 17.
Definition PLX_DMA_DESC_DONE_INTR_STATUS : Z := Z.shiftl 1 18.
Definition PLX_DMA_ABORT_DONE_INTR_STATUS : Z := Z.shiftl 1 19.
Definition PLX_DMA_IMM_PAUSE_INTR_STATUS : Z := Z.shiftl 1 21.
Definition PLX_DMA_ALL_INTR_EN : Z :=
  Z.lor (Z.lor (Z.lor (Z.lor PLX_DMA_ERROR_INTR_EN PLX_DMA_INVLD_DESC_INTR_EN)
    PLX_DMA_ABORT_DONE_INTR_EN) PLX_DMA_GRACE_PAUSE_INTR_EN) PLX_DMA_IMM_PAUSE_INTR_EN.
Definition PLX_DMA_ERROR_STATUS : Z :=
  Z.lor (Z.lor (Z.lor PLX_DMA_ERROR_INTR_STATUS PLX_DMA_INVLD_DESC_INTR_STATUS)
    PLX_DMA_ABORT_DONE_INTR_STATUS) PLX_DMA_IMM_PAUSE_INTR_STATUS.
Definition PCI_DEV_CTL2_REG : Z := 0x90.
Definition PCI_DEV_CTL2_CPL_TO_DIS : Z := Z.shiftl 1 4.
(** [DMA_MIN_COOKIE] of [linux/dmaengine.h]. *)
Definition DMA_MIN_COOKIE : Z := 1.

(** ** Data *)

Record plx_dma_desc := mkDesc { dw0 : Z; dw1 : Z; dw2 : Z; dw3 : Z }.

(** The fields of [struct dma_async_tx_descriptor] the driver uses; a callback is
    known by its parameter. *)
Record dma_tx := mkTx { tx_cookie : Z; tx_flags : Z; tx_callback : option Z }.

#[global] Instance plx_dma_desc_eq_dec : EqDecision plx_dma_desc.
Proof. solve_decision. Defined.

(** The engine: register accesses, which may write to the ring. *)
Class DmaHw (hw : Type) := {
  dma_ioread32 : hw -> list plx_dma_desc -> Z -> Z * (hw * list plx_dma_desc);
  dma_iowrite32 : hw -> list plx_dma_desc -> Z -> Z -> hw * list plx_dma_desc;
}.

(** [plx_dma_chan], with the cookies of the embedded [dma_chan], the engine behind
    it, and the callbacks made, oldest first. *)
Record plx_dma_chan (hw : Type) := mkChan {
  last_tail : Z;
  head : Z;
  cookie : Z;
  completed_cookie : Z;
  desc_ring : list plx_dma_desc;
  desc_ring_da : Z;
  ch_base_addr : Z;
  ctrl_reg : Z;
  tx_array : list dma_tx;
  dma_hang : bool;
  dbg_flush : bool;
  dbg_dma_hold_cnt : Z;
  max_xfer_size : Z;
  engine : hw;
  called : list Z;
}.
Arguments mkChan {_}. Arguments last_tail {_}. Arguments head {_}. Arguments cookie {_}.
Arguments completed_cookie {_}. Arguments desc_ring {_}. Arguments desc_ring_da {_}.
Arguments ch_base_addr {_}. Arguments ctrl_reg {_}. Arguments tx_array {_}.
Arguments dma_hang {_}. Arguments dbg_flush {_}. Arguments dbg_dma_hold_cnt {_}.
Arguments max_xfer_size {_}. Arguments engine {_}. Arguments called {_}.

Section Ops.
Context {hw : Type} `{DmaHw hw}.
#[local] Abbreviation chan := (plx_dma_chan hw).
Implicit Types ch : chan.

(** Assignments to the fields. *)
Definition set_tail ch v : chan :=
  mkChan v (head ch) (cookie ch) (completed_cookie ch) (desc_ring ch) (desc_ring_da ch)
    (ch_base_addr ch) (ctrl_reg ch) (tx_array ch) (dma_hang ch) (dbg_flush ch)
    (dbg_dma_hold_cnt ch) (max_xfer_size ch) (engine ch) (called ch).
Definition set_head ch v : chan :=
  mkChan (last_tail ch) v (cookie ch) (completed_cookie ch) (desc_ring ch) (desc_ring_da ch)
    (ch_base_addr ch) (ctrl_reg ch) (tx_array ch) (dma_hang ch) (dbg_flush ch)
    (dbg_dma_hold_cnt ch) (max_xfer_size ch) (engine ch) (called ch).
Definition set_cookie ch v : chan :=
  mkChan (last_tail ch) (head ch) v (completed_cookie ch) (desc_ring ch) (desc_ring_da ch)
    (ch_base_addr ch) (ctrl_reg ch) (tx_array ch) (dma_hang ch) (dbg_flush ch)
    (dbg_dma_hold_cnt ch) (max_xfer_size ch) (engine ch) (called ch).
Definition set_completed ch v : chan :=
  mkChan (last_tail ch) (head ch) (cookie ch) v (desc_ring ch) (desc_ring_da ch)
    (ch_base_addr ch) (ctrl_reg ch) (tx_array ch) (dma_hang ch) (dbg_flush ch)
    (dbg_dma_hold_cnt ch) (max_xfer_size ch) (engine ch) (called ch).
Definition set_ring ch v : chan :=
  mkChan (last_tail ch) (head ch) (cookie ch) (completed_cookie ch) v (desc_ring_da ch)
    (ch_base_addr ch) (ctrl_reg ch) (tx_array ch) (dma_hang ch) (dbg_flush ch)
    (dbg_dma_hold_cnt ch) (max_xfer_size ch) (engine ch) (called ch).
Definition set_ring_da ch v : chan :=
  mkChan (last_tail ch) (head ch) (cookie ch) (completed_cookie ch) (desc_ring ch) v
    (ch_base_addr ch) (ctrl_reg ch) (tx_array ch) (dma_hang ch) (dbg_flush ch)
    (dbg_dma_hold_cnt ch) (max_xfer_size ch) (engine ch) (called ch).
Definition set_ctrl ch v : chan :=
  mkChan (last_tail ch) (head ch) (cookie ch) (completed_cookie ch) (desc_ring ch) (desc_ring_da ch)
    (ch_base_addr ch) v (tx_array ch) (dma_hang ch) (dbg_flush ch)
    (dbg_dma_hold_cnt ch) (max_xfer_size ch) (engine ch) (called ch).
Definition set_txs ch v : chan :=
  mkChan (last_tail ch) (head ch) (cookie ch) (completed_cookie ch) (desc_ring ch) (desc_ring_da ch)
    (ch_base_addr ch) (ctrl_reg ch) v (dma_hang ch) (dbg_flush ch)
    (dbg_dma_hold_cnt ch) (max_xfer_size ch) (engine ch) (called ch).
Definition set_hang ch v : chan :=
  mkChan (last_tail ch) (head ch) (cookie ch) (completed_cookie ch) (desc_ring ch) (desc_ring_da ch)
    (ch_base_addr ch) (ctrl_reg ch) (tx_array ch) v (dbg_flush ch)
    (dbg_dma_hold_cnt ch) (max_xfer_size ch) (engine ch) (called ch).
Definition set_flush ch v : chan :=
  mkChan (last_tail ch) (head ch) (cookie ch) (completed_cookie ch) (desc_ring ch) (desc_ring_da ch)
    (ch_base_addr ch) (ctrl_reg ch) (tx_array ch) (dma_hang ch) v
    (dbg_dma_hold_cnt ch) (max_xfer_size ch) (engine ch) (called ch).
Definition set_hold ch v : chan :=
  mkChan (last_tail ch) (head ch) (cookie ch) (completed_cookie ch) (desc_ring ch) (desc_ring_da ch)
    (ch_base_addr ch) (ctrl_reg ch) (tx_array ch) (dma_hang ch) (dbg_flush ch)
    v (max_xfer_size ch) (engine ch) (called ch).
Definition set_engine ch v : chan :=
  mkChan (last_tail ch) (head ch) (cookie ch) (completed_cookie ch) (desc_ring ch) (desc_ring_da ch)
    (ch_base_addr ch) (ctrl_reg ch) (tx_array ch) (dma_hang ch) (dbg_flush ch)
    (dbg_dma_hold_cnt ch) (max_xfer_size ch) v (called ch).
Definition set_called ch v : chan :=
  mkChan (last_tail ch) (head ch) (cookie ch) (completed_cookie ch) (desc_ring ch) (desc_ring_da ch)
    (ch_base_addr ch) (ctrl_reg ch) (tx_array ch) (dma_hang ch) (dbg_flush ch)
    (dbg_dma_hold_cnt ch) (max_xfer_size ch) (engine ch) v.

Definition set_base ch v : chan :=
  mkChan (last_tail ch) (head ch) (cookie ch) (completed_cookie ch) (desc_ring ch) (desc_ring_da ch)
    v (ctrl_reg ch) (tx_array ch) (dma_hang ch) (dbg_flush ch)
    (dbg_dma_hold_cnt ch) (max_xfer_size ch) (engine ch) (called ch).
Definition set_max ch v : chan :=
  mkChan (last_tail ch) (head ch) (cookie ch) (completed_cookie ch) (desc_ring ch) (desc_ring_da ch)
    (ch_base_addr ch) (ctrl_reg ch) (tx_array ch) (dma_hang ch) (dbg_flush ch)
    (dbg_dma_hold_cnt ch) v (engine ch) (called ch).

(** ** Registers *)

Definition plx_dma_reg_read ch (offset : Z) : Z * chan :=
  let '(v, (h, ring)) := dma_ioread32 (engine ch) (desc_ring ch) offset in
  (v, set_ring (set_engine ch h) ring).

Definition plx_dma_reg_write ch (offset value : Z) : chan :=
  let '(h, ring) := dma_iowrite32 (engine ch) (desc_ring ch) value offset in
  set_ring (set_engine ch h) ring.

Definition plx_dma_ch_reg_read ch (offset : Z) : Z * chan :=
  plx_dma_reg_read ch (u32 (offset + ch_base_addr ch)).

Definition plx_dma_ch_reg_write ch (offset value : Z) : chan :=
  plx_dma_reg_write ch (u32 (offset + ch_base_addr ch)) value.

(** ** The ring *)

Definition plx_dma_ring_inc (val : Z) : Z := Z.land (u32 (val + 1)) (PLX_DMA_DESC_RX_SIZE - 1).

Definition desc_ring_da_to_index (addr : Z) : Z :=
  Z.land (addr / 16) (PLX_DMA_DESC_RX_SIZE - 1).

Definition plx_dma_ring_dec (val : Z) : Z :=
  if negb (val =? 0) then val - 1 else PLX_DMA_DESC_RX_SIZE - 1.

Definition plx_dma_inc_head ch : chan := set_head ch (plx_dma_ring_inc (head ch)).

Definition plx_dma_ring_count (head tail : Z) : Z :=
  let count := if tail <=? head then (tail - 0) + (PLX_DMA_DESC_RX_SIZE - head)
               else tail - head in
  count - 1.

Definition zero_desc := mkDesc 0 0 0 0.
Definition zero_tx := mkTx 0 0 None.

(** [da]: the address [dma_alloc_coherent] gives, [None] when it fails;
    [vzalloc_ok]: whether the array of transactions can be allocated. *)
Definition plx_dma_alloc_desc_ring ch (da : option Z) (vzalloc_ok : bool) : Z * chan :=
  match da with
  | None => (- ENOMEM, set_ring ch [])
  | Some da =>
      let ch := set_ring (set_ring_da ch da) (replicate (Z.to_nat PLX_DMA_DESC_RX_SIZE) zero_desc) in
      if vzalloc_ok then (0, set_txs ch (replicate (Z.to_nat PLX_DMA_DESC_RX_SIZE) zero_tx))
      else (- ENOMEM, set_ring (set_txs ch []) [])
  end.

Definition plx_dma_chan_clear_desc_ring ch : chan :=
  let ch := plx_dma_ch_reg_write ch PLX_DMA_BLK_SRC_LOWER 0 in
  let ch := plx_dma_ch_reg_write ch PLX_DMA_BLK_SRC_UPPER 0 in
  let ch := plx_dma_ch_reg_write ch PLX_DMA_BLK_DST_LOWER 0 in
  let ch := plx_dma_ch_reg_write ch PLX_DMA_BLK_DST_UPPER 0 in
  let ch := plx_dma_ch_reg_write ch PLX_DMA_BLK_TRSFR_SIZE 0 in
  let ch := plx_dma_ch_reg_write ch PLX_DMA_DESC_RING_ADDR_LOW 0 in
  let ch := plx_dma_ch_reg_write ch PLX_DMA_DESC_RING_ADDR_HIGH 0 in
  let ch := plx_dma_ch_reg_write ch PLX_DMA_DESC_RING_SIZE 0 in
  plx_dma_ch_reg_write ch PLX_DMA_NEXT_DESC_ADDR_LOW 0.

(** The [for] of [plx_dma_disable_chan]: [n] polls are left. *)
Fixpoint pause_poll (n : nat) ch : chan :=
  match n with
  | O => ch
  | S n =>
      let (ctrl, ch) := plx_dma_ch_reg_read ch PLX_DMA_CTRL_STATUS in
      if testflag ctrl PLX_DMA_CTRL_PAUSE_DONE_STATUS then ch else pause_poll n ch
  end.

Definition plx_dma_disable_chan ch : chan :=
  let (ctrl, ch) := plx_dma_ch_reg_read ch PLX_DMA_CTRL_STATUS in
  if negb (testflag ctrl PLX_DMA_CTRL_START) then plx_dma_chan_clear_desc_ring ch
  else
    let ctrl := Z.lor ctrl PLX_DMA_CTRL_PAUSED in
    let ctrl := Z.land ctrl (Z.lnot PLX_DMA_CTRL_START) in
    let ch := plx_dma_ch_reg_write ch PLX_DMA_CTRL_STATUS ctrl in
    plx_dma_chan_clear_desc_ring (pause_poll (Z.to_nat PLX_DMA_PAUSE_TO) ch).

Definition plx_dma_enable_chan ch : chan :=
  let (ctrl, ch) := plx_dma_ch_reg_read ch PLX_DMA_CTRL_STATUS in
  let ch := if testflag ctrl PLX_DMA_CTRL_IN_PROGRESS then set_hang ch true else ch in
  let cr := Z.land ctrl 0x3FFFE000 in
  let cr := Z.lor cr PLX_DMA_CTRL_WB_ENABLE in
  let cr := Z.land cr (Z.lnot PLX_DMA_CTRL_MODE_BITS) in
  let cr := Z.lor cr PLX_DMA_CTRL_OFFCHIP_MODE in
  let ch := set_ctrl ch cr in
  let ctrl := Z.lor cr PLX_DMA_CTRL_PAUSE_DONE_STATUS in
  let ctrl := Z.land ctrl (Z.lnot PLX_DMA_CTRL_PAUSED) in
  plx_dma_ch_reg_write ch PLX_DMA_CTRL_STATUS ctrl.

Definition plx_dma_chan_mask_intr ch : chan :=
  let (intr, ch) := plx_dma_ch_reg_read ch PLX_DMA_INTR_CTRL_STATUS in
  plx_dma_ch_reg_write ch PLX_DMA_INTR_CTRL_STATUS (Z.land intr (Z.lnot PLX_DMA_ALL_INTR_EN)).

Definition plx_dma_chan_unmask_intr ch : chan :=
  let (intr, ch) := plx_dma_ch_reg_read ch PLX_DMA_INTR_CTRL_STATUS in
  let intr := Z.land intr (Z.lnot PLX_DMA_ALL_INTR_EN) in
  let intr := Z.lor intr PLX_DMA_ERROR_INTR_EN in
  let intr := Z.lor intr PLX_DMA_ABORT_DONE_INTR_EN in
  plx_dma_ch_reg_write ch PLX_DMA_INTR_CTRL_STATUS intr.

Definition plx_dma_chan_set_desc_ring ch : chan :=
  let ch := plx_dma_chan_clear_desc_ring ch in
  let ch := plx_dma_ch_reg_write ch PLX_DMA_DESC_RING_ADDR_LOW (Z.land (desc_ring_da ch) 0xffffffff) in
  let ch := plx_dma_ch_reg_write ch PLX_DMA_DESC_RING_ADDR_HIGH
              (Z.land (Z.shiftr (desc_ring_da ch) 32) 0xffffffff) in
  let ch := plx_dma_ch_reg_write ch PLX_DMA_DESC_RING_SIZE PLX_DMA_DESC_RX_SIZE in
  plx_dma_ch_reg_write ch PLX_DMA_NEXT_DESC_ADDR_LOW (Z.land (desc_ring_da ch) 0xffffffff).

Definition plx_dma_issue_pending ch : chan :=
  let cr := ctrl_reg ch in
  let cr := Z.lor cr (Z.lor PLX_DMA_CTRL_HEADER_LOG PLX_DMA_CTRL_STATUS_BITS) in
  let cr := Z.lor cr PLX_DMA_CTRL_START in
  plx_dma_ch_reg_write ch PLX_DMA_CTRL_STATUS cr.

(** ** Completion *)

Definition plx_get_hw_last_desc ch : Z * chan :=
  let (last_desc, ch) := plx_dma_ch_reg_read ch PLX_DMA_LAST_DESC_ADDR_LOW in
  (desc_ring_da_to_index (u64 (last_desc - Z.land (desc_ring_da ch) 0xffffffff)), ch).

Definition plx_get_hw_next_desc ch : Z * chan :=
  let (next_desc, ch) := plx_dma_ch_reg_read ch PLX_DMA_NEXT_DESC_ADDR_LOW in
  (desc_ring_da_to_index (u64 (next_desc - Z.land (desc_ring_da ch) 0xffffffff)), ch).

(** The lines of [plx_dma_cleanup] that complete the descriptor [i]. *)
Definition complete_tx ch (i : Z) : outcome chan :=
  tx ← aget (tx_array ch) i;
  if negb (tx_cookie tx =? 0) then
    _ ← bug_on (tx_cookie tx <? DMA_MIN_COOKIE);
    let ch := set_completed ch (tx_cookie tx) in
    txs ← aset (tx_array ch) i (mkTx 0 (tx_flags tx) None);
    Ret (set_txs (set_called ch (called ch ++ option_list (tx_callback tx))) txs)
  else Ret ch.

(** The lines of [plx_dma_cleanup] that look at a descriptor [i] that is still
    valid: whether it turned out to be finished. *)
Definition recheck ch (i : Z) : outcome (bool * chan) :=
  let (last_hw_tail, ch) := plx_get_hw_last_desc ch in
  d ← aget (desc_ring ch) i;
  if testflag (dw0 d) PLX_DESC_VALID then
    if last_hw_tail =? i then
      let (ctrl, ch) := plx_dma_ch_reg_read ch PLX_DMA_CTRL_STATUS in
      if negb (testflag ctrl PLX_DMA_CTRL_IN_PROGRESS) then
        Ret (false, plx_dma_issue_pending (set_hold ch (u32 (dbg_dma_hold_cnt ch + 1))))
      else Ret (false, ch)
    else Ret (false, ch)
  else Ret (true, ch).

Fixpoint complete_loop (n : nat) ch (tail cached_head : Z) : outcome (chan * Z) :=
  match n with
  | O => Spin
  | S n =>
      if tail =? cached_head then Ret (ch, tail)
      else
        d ← aget (desc_ring ch) tail;
        '(finished, ch) ← (if testflag (dw0 d) PLX_DESC_VALID then recheck ch tail
                           else Ret (true, ch));
        if finished : bool then
          ch ← complete_tx ch tail;
          complete_loop n ch (plx_dma_ring_inc tail) cached_head
        else Ret (ch, tail)
  end.

Definition plx_dma_cleanup ch : outcome chan :=
  '(ch, tail) ← complete_loop (Z.to_nat PLX_DMA_DESC_RX_SIZE) ch (last_tail ch) (head ch);
  Ret (set_tail ch tail).

(** ** Setting up and taking down a channel *)

Definition plx_dma_chan_setup ch : chan :=
  let ch := plx_dma_reg_write ch PCI_DEV_CTL2_REG PCI_DEV_CTL2_CPL_TO_DIS in
  let ch := plx_dma_chan_set_desc_ring ch in
  let ch := set_tail ch 0 in
  let ch := set_head ch 0 in
  let ch := plx_dma_chan_unmask_intr ch in
  plx_dma_enable_chan ch.

Definition plx_dma_free_desc_ring ch : chan := set_ring (set_txs ch []) [].

Definition plx_dma_chan_init ch (da : option Z) (vzalloc_ok : bool) : Z * chan :=
  let (rc, ch) := plx_dma_alloc_desc_ring ch da vzalloc_ok in
  if rc =? 0 then (rc, plx_dma_chan_setup ch) else (rc, ch).

Definition plx_dma_alloc_chan_resources ch (da : option Z) (vzalloc_ok : bool) : Z * chan :=
  let (rc, ch) := plx_dma_chan_init ch da vzalloc_ok in
  if negb (rc =? 0) then (rc, ch) else (PLX_DMA_DESC_RX_SIZE, ch).

Definition plx_dma_free_chan_resources ch : outcome chan :=
  let ch := plx_dma_disable_chan ch in
  let ch := plx_dma_chan_mask_intr ch in
  ch ← plx_dma_cleanup ch;
  Ret (plx_dma_free_desc_ring ch).

(** ** Status *)

(** [dma_async_is_complete] of [linux/dmaengine.h] decides from the cookie asked
    for, the last completed and the last used cookie; [true] is [DMA_COMPLETE]. *)
Section Status.
Context (dma_async_is_complete : Z -> Z -> Z -> bool).

Definition plx_dma_cookie_status ch (c : Z) : bool * (Z * Z) :=
  let last_used := cookie ch in
  let last_complete := completed_cookie ch in
  (dma_async_is_complete c last_complete last_used, (last_complete, last_used)).

Definition plx_dma_is_tx_complete ch (c : Z) : outcome (chan * (bool * (Z * Z))) :=
  ch ← (if negb (fst (plx_dma_cookie_status ch c)) then plx_dma_cleanup ch else Ret ch);
  Ret (ch, plx_dma_cookie_status ch c).

(** The residue is always 0. *)
Definition plx_dma_tx_status ch (c : Z) : outcome (chan * (bool * (Z * Z))) :=
  plx_dma_is_tx_complete ch c.
End Status.

(** ** Submission *)

Definition plx_dma_avail_desc_ring_space ch (required : Z) : outcome (Z * chan) :=
  let count := plx_dma_ring_count (head ch) (last_tail ch) in
  ch ← (if count <? required then plx_dma_cleanup (plx_dma_issue_pending ch) else Ret ch);
  let count := plx_dma_ring_count (head ch) (last_tail ch) in
  if count <? required then Ret (- ENOMEM, ch) else Ret (count, ch).

Definition plx_dma_memcpy_desc (src_phys dst_phys size flags : Z) (desc_valid : bool) : plx_dma_desc :=
  let d0 := u32 (Z.land size PLX_DESC_SIZE_MASK) in
  let d1 := u32 (Z.lor (Z.land (Z.shiftr src_phys 16) PLX_DESC_HALF_HIGH_MASK)
                       (Z.shiftr dst_phys 32)) in
  let d2 := Z.land dst_phys PLX_DESC_DWORD_MASK in
  let d3 := Z.land src_phys PLX_DESC_DWORD_MASK in
  let d0 := if desc_valid then Z.lor d0 PLX_DESC_VALID else d0 in
  let d0 := if negb (flags =? 0) then Z.lor d0 PLX_DESC_INTR_ENABLE else d0 in
  mkDesc d0 d1 d2 d3.

Definition plx_dma_valid_desc (d : plx_dma_desc) : plx_dma_desc :=
  mkDesc (Z.lor (dw0 d) PLX_DESC_VALID) (dw1 d) (dw2 d) (dw3 d).

(** The [while] of [plx_dma_prog_memcpy_desc]; [num_desc] descriptors are left. *)
Fixpoint prog_loop (num_desc : nat) ch (src dst len flags : Z) : outcome chan :=
  match num_desc with
  | O => Ret ch
  | S num_desc =>
      let send_len := Z.min len (max_xfer_size ch) in
      let more := negb (Nat.eqb num_desc 0) in
      let valid_descr := more || (flags =? 0) in
      ring ← aset (desc_ring ch) (head ch)
               (plx_dma_memcpy_desc src dst send_len (if more then 0 else flags) valid_descr);
      let ch := set_ring ch ring in
      let ch := if valid_descr then plx_dma_inc_head ch else ch in
      prog_loop num_desc ch (u64 (src + send_len)) (u64 (dst + send_len)) (len - send_len) flags
  end.

Definition plx_dma_prog_memcpy_desc ch (src dst len flags : Z) : outcome (Z * chan) :=
  let num_desc := s32 (DIV_ROUND_UP len (max_xfer_size ch)) in
  let num_desc := if len =? 0 then 1 else num_desc in
  '(ret, ch) ← plx_dma_avail_desc_ring_space ch num_desc;
  if ret <=? 0 then Ret (ret, ch)
  else ch ← prog_loop (Z.to_nat num_desc) ch src dst len flags; Ret (0, ch).

(** The transaction is known by its index in [tx_array]. *)
Definition plx_dma_tx_submit_unlock ch (idx : Z) : outcome (Z * chan) :=
  tx ← aget (tx_array ch) idx;
  let c := s32 (cookie ch + 1) in
  let c := if c <? DMA_MIN_COOKIE then DMA_MIN_COOKIE else c in
  let ch := set_cookie ch c in
  if negb (tx_flags tx =? 0) then
    d ← aget (desc_ring ch) (head ch);
    ring ← aset (desc_ring ch) (head ch) (plx_dma_valid_desc d);
    let ch := plx_dma_inc_head (set_ring ch ring) in
    txs ← aset (tx_array ch) idx (mkTx c 0 (tx_callback tx));
    Ret (c, set_txs ch txs)
  else
    txs ← aset (tx_array ch) idx (mkTx c (tx_flags tx) (tx_callback tx));
    Ret (c, set_txs ch txs).

(** [dma_async_tx_descriptor_init] sets the channel of the transaction only. *)
Definition allocate_tx ch (flags : Z) : outcome (Z * chan) :=
  let idx := if negb (flags =? 0) then head ch else plx_dma_ring_dec (head ch) in
  tx ← aget (tx_array ch) idx;
  txs ← aset (tx_array ch) idx (mkTx (tx_cookie tx) flags (tx_callback tx));
  Ret (idx, set_txs ch txs).

Definition plx_dma_prep_memcpy_lock ch (dma_dest dma_src len flags : Z)
    : outcome (option Z * chan) :=
  '(result, ch) ← plx_dma_prog_memcpy_desc ch dma_src dma_dest len flags;
  if 0 <=? result then '(idx, ch) ← allocate_tx ch flags; Ret (Some idx, ch)
  else Ret (None, ch).

Definition plx_dma_prep_interrupt_lock ch (flags : Z) : outcome (option Z * chan) :=
  plx_dma_prep_memcpy_lock ch 0 0 0 flags.

(** The client sets the callback of a transaction before it submits it. *)
Definition set_callback ch (idx param : Z) : outcome chan :=
  tx ← aget (tx_array ch) idx;
  txs ← aset (tx_array ch) idx (mkTx (tx_cookie tx) (tx_flags tx) (Some param));
  Ret (set_txs ch txs).

(** ** Interrupts *)

Definition plx_dma_ack_interrupt ch : Z * chan :=
  let (intr, ch) := plx_dma_ch_reg_read ch PLX_DMA_INTR_CTRL_STATUS in
  (intr, plx_dma_ch_reg_write ch PLX_DMA_INTR_CTRL_STATUS intr).

Definition plx_dma_thread_fn ch : outcome chan :=
  if dma_hang ch then Ret ch
  else
    ch ← plx_dma_cleanup ch;
    let (reg, ch) := plx_dma_ack_interrupt ch in
    let intr_status := testflag reg PLX_DMA_DESC_DONE_INTR_STATUS in
    let error := testflag reg PLX_DMA_ERROR_STATUS in
    if error then Ret (set_hang ch true)
    else
      let ch := if dbg_flush ch then set_flush ch false else ch in
      if intr_status then plx_dma_cleanup ch else Ret ch.

(** ** Registration of the channel *)

Definition plx_register_dma_device ch : chan :=
  set_completed (set_cookie ch DMA_MIN_COOKIE) DMA_MIN_COOKIE.

(** [irq_rc]: the result of [plx_dma_setup_irq]. *)
Definition plx_dma_init ch (irq_rc : Z) : Z * chan :=
  if negb (irq_rc =? 0) then (irq_rc, ch) else (irq_rc, set_base ch 0x200).

(** [reg_rc]: the result of [dma_async_device_register]. *)
Definition plx_dma_probe ch (irq_rc reg_rc : Z) : Z * chan :=
  let ch := set_max ch PLX_DESC_SIZE_MASK in
  let (rc, ch) := plx_dma_init ch irq_rc in
  if negb (rc =? 0) then (rc, ch) else (reg_rc, plx_register_dma_device ch).

End Ops.

(** ** The ring as a queue *)

Lemma size_val : PLX_DMA_DESC_RX_SIZE = 2048.
Proof. reflexivity. Qed.

Definition valid (d : plx_dma_desc) : bool := testflag (dw0 d) PLX_DESC_VALID.

(** The slots [t], [t + 1], ... of the ring. *)
Fixpoint slots (t : Z) (k : nat) : list Z :=
  match k with O => [] | S k => t :: slots (plx_dma_ring_inc t) k end.

Definition slot (t i : Z) : Z := (t + i) mod PLX_DMA_DESC_RX_SIZE.

Lemma ring_inc_mod t : 0 <= t < 2048 -> plx_dma_ring_inc t = slot t 1.
Proof.
  intros Ht. unfold plx_dma_ring_inc, slot. rewrite size_val, u32_small by lia.
  exact (land_mask (t + 1) 11 ltac:(lia)).
Qed.

Lemma slot_bounds t i : 0 <= slot t i < 2048.
Proof. unfold slot. rewrite size_val. apply Z.mod_pos_bound. lia. Qed.

Lemma slot_0 t : 0 <= t < 2048 -> slot t 0 = t.
Proof. intros. unfold slot. rewrite size_val, Z.add_0_r. apply Z.mod_small. lia. Qed.

Lemma slot_slot t i j : slot (slot t i) j = slot t (i + j).
Proof. unfold slot. rewrite Zplus_mod_idemp_l. f_equal. lia. Qed.

Lemma slot_inj t i j : Z.abs (i - j) < 2048 -> slot t i = slot t j -> i = j.
Proof.
  unfold slot. rewrite size_val. intros Hd He.
  pose proof (Z.div_mod (t + i) 2048 ltac:(lia)). pose proof (Z.div_mod (t + j) 2048 ltac:(lia)).
  rewrite He in *. assert ((t + i) / 2048 = (t + j) / 2048) by lia. lia.
Qed.

Lemma slot_onto t i : 0 <= t < 2048 -> 0 <= i < 2048 -> exists j, 0 <= j < 2048 /\ i = slot t j.
Proof.
  intros Ht Hi. exists ((i - t) mod 2048). split; [apply Z.mod_pos_bound; lia|].
  unfold slot. rewrite size_val, Zplus_mod_idemp_r.
  replace (t + (i - t)) with i by lia. symmetry. apply Z.mod_small. lia.
Qed.

Lemma slots_lookup t k j :
  0 <= t < 2048 -> (j < k)%nat -> slots t k !! j = Some (slot t (Z.of_nat j)).
Proof.
  revert t j. induction k as [|k IH]; intros t j Ht Hj; [lia|]. destruct j as [|j]; simpl.
  - by rewrite slot_0.
  - rewrite ring_inc_mod by done. rewrite IH; [|apply slot_bounds|lia].
    rewrite slot_slot. do 2 f_equal. lia.
Qed.

Lemma slots_length t k : length (slots t k) = k.
Proof. revert t. induction k; intros; simpl; auto. Qed.

Lemma slots_elem t k i :
  0 <= t < 2048 -> i ∈ slots t k <-> exists j, 0 <= j < Z.of_nat k /\ i = slot t j.
Proof.
  intros Ht. rewrite list_elem_of_lookup. split.
  - intros (j & Hj). pose proof (lookup_lt_Some _ _ _ Hj) as Hl. rewrite slots_length in Hl.
    rewrite slots_lookup in Hj by done. exists (Z.of_nat j). split; [lia|congruence].
  - intros (j & Hj & ->). exists (Z.to_nat j). rewrite slots_lookup by (done || lia). do 2 f_equal. lia.
Qed.

Lemma slots_snoc t k :
  0 <= t < 2048 -> slots t (S k) = slots t k ++ [slot t (Z.of_nat k)].
Proof.
  revert t. induction k as [|k IH]; intros t Ht.
  - simpl. by rewrite slot_0.
  - change (slots t (S (S k))) with (t :: slots (plx_dma_ring_inc t) (S k)).
    rewrite IH by (rewrite ring_inc_mod by done; apply slot_bounds).
    simpl. do 3 f_equal. rewrite ring_inc_mod, slot_slot by done. f_equal. lia.
Qed.

Lemma slots_app t a b :
  0 <= t < 2048 -> slots t (a + b) = slots t a ++ slots (slot t (Z.of_nat a)) b.
Proof.
  revert t. induction a as [|a IH]; intros t Ht.
  - simpl. by rewrite slot_0.
  - simpl. f_equal. rewrite IH by (rewrite ring_inc_mod by done; apply slot_bounds).
    rewrite ring_inc_mod, slot_slot by done. do 3 f_equal. lia.
Qed.

(** The number of descriptors between the tail and the head, and the free ones. *)
Definition used_of (head tail : Z) : Z := (head - tail) mod PLX_DMA_DESC_RX_SIZE.

Lemma used_range h t : 0 <= used_of h t < 2048.
Proof. unfold used_of. rewrite size_val. apply Z.mod_pos_bound. lia. Qed.

Lemma head_slot h t : 0 <= h < 2048 -> slot t (used_of h t) = h.
Proof.
  intros Hh. unfold slot, used_of. rewrite size_val, Zplus_mod_idemp_r.
  replace (t + (h - t)) with h by lia. by apply Z.mod_small.
Qed.

Lemma used_slot t k : 0 <= k < 2048 -> used_of (slot t k) t = k.
Proof.
  intros Hk. unfold used_of, slot. rewrite size_val, Zminus_mod_idemp_l.
  replace (t + k - t) with k by lia. by apply Z.mod_small.
Qed.

Lemma used_slot_slot t k m :
  0 <= k <= m -> m < 2048 -> used_of (slot t m) (slot t k) = m - k.
Proof.
  intros Hk Hm. replace m with (k + (m - k)) at 1 by lia. rewrite <- slot_slot. apply used_slot. lia.
Qed.

Lemma ring_count_used h t :
  0 <= h < 2048 -> 0 <= t < 2048 -> plx_dma_ring_count h t = 2047 - used_of h t.
Proof.
  intros Hh Ht. unfold plx_dma_ring_count, used_of. rewrite size_val. case_if.
  - rewrite Z.mod_small by lia. lia.
  - replace (h - t) with (h - t + 2048 + (-1) * 2048) by lia. rewrite Z.mod_add, Z.mod_small by lia. lia.
Qed.

Lemma ring_dec_inc t : 0 <= t < 2048 -> plx_dma_ring_dec (plx_dma_ring_inc t) = t.
Proof.
  intros Ht. rewrite ring_inc_mod by done. unfold plx_dma_ring_dec, slot. rewrite size_val.
  destruct (decide (t = 2047)) as [->|Hn]; [done|]. rewrite Z.mod_small by lia.
  rewrite (proj2 (Z.eqb_neq _ _)) by lia. simpl. lia.
Qed.

(** ** What the engine may do *)

(** A write-back clears the valid bit of a valid descriptor. *)
Definition wb (d d' : plx_dma_desc) : Prop :=
  d' = d \/ (valid d = true /\ valid d' = false /\ dw1 d' = dw1 d /\ dw2 d' = dw2 d /\ dw3 d' = dw3 d).

#[export] Instance wb_preorder : PreOrder wb.
Proof.
  split; [by left|]. intros a b c [->|(Ha & Hb & H1 & H2 & H3)] [->|(Hb' & Hc & ? & ? & ?)].
  - by left.
  - right. auto.
  - right. auto.
  - congruence.
Qed.

Definition wbs : relation (list plx_dma_desc) := Forall2 wb.
#[export] Instance wbs_preorder : PreOrder wbs.
Proof. unfold wbs. apply _. Qed.

Class DmaHwOk (hw : Type) `{DmaHw hw} := {
  hw_read_wb : forall h ring o, wbs ring (snd (snd (dma_ioread32 h ring o)));
  hw_write_wb : forall h ring v o, wbs ring (snd (dma_iowrite32 h ring v o));
}.

Lemma wbs_length r r' : wbs r r' -> zlen r' = zlen r.
Proof. intros Hw%Forall2_length. unfold zlen. by rewrite Hw. Qed.

Lemma wbs_lookup r r' i d :
  wbs r r' -> r !! i = Some d -> exists d', r' !! i = Some d' /\ wb d d'.
Proof. intros Hw Hi. eapply Forall2_lookup_l; eauto. Qed.

Lemma wb_invalid d d' : wb d d' -> valid d = false -> d' = d.
Proof. intros [?|(H1 & _)] H2; congruence. Qed.

Lemma wb_valid d d' : wb d d' -> valid d' = true -> d' = d.
Proof. intros [?|(_ & H1 & _)] H2; congruence. Qed.

Section Inv.
Context {hw : Type} `{Hok : DmaHwOk hw}.
#[local] Abbreviation chan := (plx_dma_chan hw).
Implicit Types ch : chan.

(** [ch'] is [ch] after accesses to registers that do not move the ring. *)
Record evolves ch ch' : Prop := {
  ev_tail : last_tail ch' = last_tail ch;
  ev_head : head ch' = head ch;
  ev_cookie : cookie ch' = cookie ch;
  ev_done : completed_cookie ch' = completed_cookie ch;
  ev_txs : tx_array ch' = tx_array ch;
  ev_max : max_xfer_size ch' = max_xfer_size ch;
  ev_called : called ch' = called ch;
  ev_ring : wbs (desc_ring ch) (desc_ring ch');
}.

#[export] Instance evolves_preorder : PreOrder evolves.
Proof.
  split; [by split|]. intros a b c [] []. split; try congruence. by etrans.
Qed.

Lemma reg_read_evolves ch o v ch' : plx_dma_reg_read ch o = (v, ch') -> evolves ch ch'.
Proof.
  unfold plx_dma_reg_read. pose proof (hw_read_wb (engine ch) (desc_ring ch) o) as Hw.
  destruct (dma_ioread32 _ _ _) as (x & h & r). intros [= <- <-]. by split.
Qed.

Lemma reg_write_evolves ch o v : evolves ch (plx_dma_reg_write ch o v).
Proof.
  unfold plx_dma_reg_write. pose proof (hw_write_wb (engine ch) (desc_ring ch) v o) as Hw.
  destruct (dma_iowrite32 _ _ _ _) as (h & r). by split.
Qed.

Lemma ch_read_evolves ch o v ch' : plx_dma_ch_reg_read ch o = (v, ch') -> evolves ch ch'.
Proof. apply reg_read_evolves. Qed.

Lemma ch_write_evolves ch o v : evolves ch (plx_dma_ch_reg_write ch o v).
Proof. apply reg_write_evolves. Qed.

Lemma issue_evolves ch : evolves ch (plx_dma_issue_pending ch).
Proof. apply ch_write_evolves. Qed.

Lemma clear_ring_evolves ch : evolves ch (plx_dma_chan_clear_desc_ring ch).
Proof. unfold plx_dma_chan_clear_desc_ring. repeat (etrans; [|apply ch_write_evolves]). done. Qed.

Lemma set_ring_evolves ch : evolves ch (plx_dma_chan_set_desc_ring ch).
Proof.
  unfold plx_dma_chan_set_desc_ring. do 4 (etrans; [|apply ch_write_evolves]).
  apply clear_ring_evolves.
Qed.

(** Fields the relation does not constrain. *)
Lemma evolves_ext ch ch1 ch2 :
  evolves ch ch1 ->
  last_tail ch2 = last_tail ch1 -> head ch2 = head ch1 -> cookie ch2 = cookie ch1 ->
  completed_cookie ch2 = completed_cookie ch1 -> tx_array ch2 = tx_array ch1 ->
  max_xfer_size ch2 = max_xfer_size ch1 -> called ch2 = called ch1 ->
  desc_ring ch2 = desc_ring ch1 -> evolves ch ch2.
Proof. intros []; intros. split; congruence. Qed.

Lemma mask_evolves ch : evolves ch (plx_dma_chan_mask_intr ch).
Proof.
  unfold plx_dma_chan_mask_intr. destruct (plx_dma_ch_reg_read _ _) as (v & ch1) eqn:E.
  etrans; [by eapply ch_read_evolves|apply ch_write_evolves].
Qed.

Lemma unmask_evolves ch : evolves ch (plx_dma_chan_unmask_intr ch).
Proof.
  unfold plx_dma_chan_unmask_intr. destruct (plx_dma_ch_reg_read _ _) as (v & ch1) eqn:E.
  etrans; [by eapply ch_read_evolves|apply ch_write_evolves].
Qed.

Lemma ack_evolves ch v ch' : plx_dma_ack_interrupt ch = (v, ch') -> evolves ch ch'.
Proof.
  unfold plx_dma_ack_interrupt. destruct (plx_dma_ch_reg_read _ _) as (x & ch1) eqn:E.
  intros [= <- <-]. etrans; [by eapply ch_read_evolves|apply ch_write_evolves].
Qed.

Lemma enable_evolves ch : evolves ch (plx_dma_enable_chan ch).
Proof.
  unfold plx_dma_enable_chan. destruct (plx_dma_ch_reg_read _ _) as (v & ch1) eqn:E.
  etrans; [|apply ch_write_evolves]. apply ch_read_evolves in E.
  eapply evolves_ext; [exact E|..]; by destruct (testflag v _).
Qed.

Lemma pause_evolves n ch : evolves ch (pause_poll n ch).
Proof.
  revert ch. induction n as [|n IH]; intros ch; simpl; [done|].
  destruct (plx_dma_ch_reg_read _ _) as (v & ch1) eqn:E. apply ch_read_evolves in E.
  destruct (testflag v _); [done|]. by etrans.
Qed.

Lemma disable_evolves ch : evolves ch (plx_dma_disable_chan ch).
Proof.
  unfold plx_dma_disable_chan. destruct (plx_dma_ch_reg_read _ _) as (v & ch1) eqn:E.
  apply ch_read_evolves in E. destruct (negb _); (etrans; [|apply clear_ring_evolves]); [done|].
  etrans; [|apply pause_evolves]. etrans; [exact E|apply ch_write_evolves].
Qed.

(** The recheck of a descriptor tells the truth about it. *)
Lemma recheck_ok ch i d :
  0 <= i < zlen (desc_ring ch) -> desc_ring ch !! Z.to_nat i = Some d ->
  exists b ch' d', recheck ch i = Ret (b, ch') /\ evolves ch ch'
    /\ desc_ring ch' !! Z.to_nat i = Some d' /\ (b = true -> valid d' = false).
Proof.
  intros Hi Hd. unfold recheck, plx_get_hw_last_desc.
  destruct (plx_dma_ch_reg_read ch _) as (v & ch1) eqn:E. apply ch_read_evolves in E.
  destruct (wbs_lookup _ _ _ _ (ev_ring _ _ E) Hd) as (d1 & Hd1 & Hw1).
  rewrite (aget_ret _ _ d1) by (done || lia). run_bind. fold (valid d1).
  assert (Hstay : forall ch2, evolves ch1 ch2 -> exists d2, desc_ring ch2 !! Z.to_nat i = Some d2).
  { intros ch2 E2. destruct (wbs_lookup _ _ _ _ (ev_ring _ _ E2) Hd1) as (d2 & ? & _). eauto. }
  destruct (valid d1) eqn:Hv; [|by exists true, ch1, d1].
  destruct (desc_ring_da_to_index _ =? i); [|by exists false, ch1, d1].
  destruct (plx_dma_ch_reg_read ch1 _) as (c & ch2) eqn:E2. apply ch_read_evolves in E2.
  destruct (negb _).
  - set (ch3 := plx_dma_issue_pending _).
    assert (evolves ch1 ch3) as E3.
    { etrans; [|apply issue_evolves]. by eapply evolves_ext; [exact E2|..]. }
    destruct (Hstay _ E3) as (d3 & Hd3). exists false, ch3, d3.
    split; [done|]. split; [by etrans|]. split; [done|discriminate].
  - destruct (Hstay _ E2) as (d2 & Hd2). exists false, ch2, d2.
    split; [done|]. split; [by etrans|]. split; [done|discriminate].
Qed.

(** ** Completion *)

(** The transactions among the slots [l] that wait for their completion. *)
Definition owners (txs : list dma_tx) (l : list Z) : list dma_tx :=
  filter (fun tx => tx_cookie tx <> 0) (omap (fun i => txs !! Z.to_nat i) l).

Definition clear_tx (tx : dma_tx) : dma_tx :=
  if tx_cookie tx =? 0 then tx else mkTx 0 (tx_flags tx) None.

Definition last_or (c : Z) (l : list dma_tx) : Z := default c (tx_cookie <$> list.last l).

Definition cookies_ok (txs : list dma_tx) : Prop :=
  Forall (fun tx => (tx_cookie tx = 0 /\ tx_callback tx = None) \/ DMA_MIN_COOKIE <= tx_cookie tx) txs.

Lemma owners_cons txs i l tx :
  txs !! Z.to_nat i = Some tx ->
  owners txs (i :: l) = (if tx_cookie tx =? 0 then [] else [tx]) ++ owners txs l.
Proof.
  intros Htx. unfold owners. simpl. rewrite Htx. rewrite list.filter_cons.
  destruct (Z.eqb_spec (tx_cookie tx) 0), (decide (tx_cookie tx <> 0)); done || lia.
Qed.

Lemma owners_ext txs txs' l :
  (forall i, i ∈ l -> txs' !! Z.to_nat i = txs !! Z.to_nat i) -> owners txs' l = owners txs l.
Proof.
  unfold owners. intros He. f_equal. induction l as [|x l IH]; [done|]. simpl.
  rewrite (He x) by left. destruct (txs !! Z.to_nat x); [f_equal|]; apply IH; intros; apply He; by right.
Qed.

Lemma owners_app txs l k : owners txs (l ++ k) = owners txs l ++ owners txs k.
Proof. unfold owners. by rewrite omap_app, list.filter_app. Qed.

(** Completing one slot: the transactions change only there. *)
Lemma complete_tx_ok ch i :
  0 <= i < zlen (tx_array ch) -> cookies_ok (tx_array ch) ->
  exists tx ch', tx_array ch !! Z.to_nat i = Some tx /\ complete_tx ch i = Ret ch'
    /\ tx_array ch' = <[Z.to_nat i := clear_tx tx]> (tx_array ch)
    /\ called ch' = called ch ++ omap tx_callback (owners (tx_array ch) [i])
    /\ completed_cookie ch' = last_or (completed_cookie ch) (owners (tx_array ch) [i])
    /\ desc_ring ch' = desc_ring ch /\ last_tail ch' = last_tail ch /\ head ch' = head ch
    /\ cookie ch' = cookie ch /\ max_xfer_size ch' = max_xfer_size ch.
Proof.
  intros Hi Hc. destruct (aget_total _ _ Hi) as (tx & Hg & Htx). unfold complete_tx.
  rewrite Hg. run_bind. rewrite (owners_cons _ _ [] _ Htx), app_nil_r. exists tx. unfold clear_tx.
  eapply Forall_lookup_1 in Hc; [|exact Htx].
  destruct (Z.eqb_spec (tx_cookie tx) 0) as [H0|H0]; simpl.
  - exists ch. rewrite app_nil_r. repeat split; try done. by rewrite list_insert_id.
  - unfold bug_on. rewrite (proj2 (Z.ltb_ge _ _)) by lia. run_bind.
    rewrite aset_ret by done. run_bind. eexists. repeat split; try done.
Qed.

(** What [plx_dma_cleanup] does on [k] slots. *)
Record cleaned (k : nat) (t : Z) ch ch' : Prop := {
  cl_ring : wbs (desc_ring ch) (desc_ring ch');
  cl_done : forall i, i ∈ slots t k -> exists d, desc_ring ch' !! Z.to_nat i = Some d /\ valid d = false;
  cl_txs : forall i, 0 <= i -> tx_array ch' !! Z.to_nat i
             = if decide (i ∈ slots t k) then clear_tx <$> tx_array ch !! Z.to_nat i
               else tx_array ch !! Z.to_nat i;
  cl_len : zlen (tx_array ch') = zlen (tx_array ch);
  cl_called : called ch' = called ch ++ omap tx_callback (owners (tx_array ch) (slots t k));
  cl_completed : completed_cookie ch' = last_or (completed_cookie ch) (owners (tx_array ch) (slots t k));
  cl_head : head ch' = head ch;
  cl_tail : last_tail ch' = last_tail ch;
  cl_cookie : cookie ch' = cookie ch;
  cl_max : max_xfer_size ch' = max_xfer_size ch;
}.

Lemma last_or_app c l k : last_or c (l ++ k) = last_or (last_or c l) k.
Proof.
  unfold last_or. destruct k as [|x k] using rev_ind; [by rewrite app_nil_r|].
  by rewrite app_assoc, !list.last_snoc.
Qed.

Lemma slots_tail_notin t k i :
  0 <= t < 2048 -> (k < 2048)%nat -> i ∈ slots (plx_dma_ring_inc t) k -> i <> t /\ 0 <= i < 2048.
Proof.
  intros Ht Hk Hi. rewrite ring_inc_mod in Hi by done.
  apply slots_elem in Hi as (j & Hj & ->); [|apply slot_bounds]. rewrite slot_slot.
  split; [|apply slot_bounds]. rewrite <- (slot_0 t) at 2 by done. intros He.
  apply slot_inj in He; lia.
Qed.

(** Cleaning the first slot and then [k] more. *)
Lemma cleaned_cons k t ch ch1 ch2 ch' d tx :
  0 <= t < 2048 -> (k < 2048)%nat -> zlen (tx_array ch) = 2048 ->
  evolves ch ch1 -> desc_ring ch1 !! Z.to_nat t = Some d -> valid d = false ->
  tx_array ch1 !! Z.to_nat t = Some tx ->
  tx_array ch2 = <[Z.to_nat t := clear_tx tx]> (tx_array ch1) ->
  called ch2 = called ch1 ++ omap tx_callback (owners (tx_array ch1) [t]) ->
  completed_cookie ch2 = last_or (completed_cookie ch1) (owners (tx_array ch1) [t]) ->
  desc_ring ch2 = desc_ring ch1 -> last_tail ch2 = last_tail ch1 -> head ch2 = head ch1 ->
  cookie ch2 = cookie ch1 -> max_xfer_size ch2 = max_xfer_size ch1 ->
  cleaned k (plx_dma_ring_inc t) ch2 ch' -> cleaned (S k) t ch ch'.
Proof.
  intros Ht Hk Hl [] Hd Hv Htx Htxs Hcl Hcc Hring Htl Hh Hc Hm [].
  assert (Hown : owners (tx_array ch2) (slots (plx_dma_ring_inc t) k)
                 = owners (tx_array ch) (slots (plx_dma_ring_inc t) k)).
  { apply owners_ext. intros i Hi. destruct (slots_tail_notin _ _ _ Ht Hk Hi).
    rewrite Htxs, ev_txs0, list_lookup_insert_ne by lia. done. }
  rewrite Hring in cl_ring0. rewrite ev_txs0 in Htx, Htxs, Hcl, Hcc.
  split; try congruence;
    change (slots t (S k)) with ([t] ++ slots (plx_dma_ring_inc t) k).
  - by etrans.
  - intros i [->%list_elem_of_singleton|Hi]%elem_of_app; [|auto].
    destruct (wbs_lookup _ _ _ _ cl_ring0 Hd) as (d' & Hd' & Hw).
    rewrite (wb_invalid _ _ Hw Hv) in Hd'. eauto.
  - intros i Hi. rewrite cl_txs0 by done. rewrite Htxs. destruct (decide (i = t)) as [->|Hne].
    + rewrite decide_False by (intros Hin; by destruct (slots_tail_notin _ _ _ Ht Hk Hin)).
      rewrite decide_True by (apply elem_of_app; left; by apply list_elem_of_singleton).
      by rewrite list_lookup_insert_eq, Htx by (unfold zlen in Hl; lia).
    + rewrite list_lookup_insert_ne by lia. apply decide_ext.
      rewrite elem_of_app, list_elem_of_singleton. intuition.
  - rewrite cl_len0, Htxs. apply zlen_insert.
  - rewrite cl_called0, Hown, Hcl, owners_app, omap_app, ev_called0. by rewrite app_assoc.
  - rewrite cl_completed0, Hown, Hcc, owners_app, last_or_app, ev_done0. done.
Qed.

Lemma cleaned_nil t ch ch' : evolves ch ch' -> cleaned 0 t ch ch'.
Proof.
  intros []. split; try done.
  - intros i Hi%list_elem_of_In. done.
  - intros i Hi. rewrite decide_False by (by intros ?%list_elem_of_In). by rewrite ev_txs0.
  - by rewrite ev_txs0.
  - by rewrite app_nil_r.
Qed.

Lemma clear_cookies_ok txs i tx :
  cookies_ok txs -> txs !! i = Some tx -> cookies_ok (<[i := clear_tx tx]> txs).
Proof.
  intros Hc Htx. apply Forall_insert; [done|]. unfold clear_tx.
  destruct (Z.eqb_spec (tx_cookie tx) 0); [by eapply Forall_lookup_1 in Hc|by left].
Qed.

(** The loop takes the slots from [t] up to [m] ahead of it, and stops early only
    at a descriptor that was valid when the loop began. *)
Lemma complete_loop_ok n m ch t :
  0 <= t < 2048 -> (m < n)%nat -> (m < 2048)%nat ->
  zlen (desc_ring ch) = 2048 -> zlen (tx_array ch) = 2048 -> cookies_ok (tx_array ch) ->
  exists k ch', complete_loop n ch t (slot t (Z.of_nat m)) = Ret (ch', slot t (Z.of_nat k))
    /\ (k <= m)%nat /\ cleaned k t ch ch'
    /\ (k = m \/ exists d, desc_ring ch !! Z.to_nat (slot t (Z.of_nat k)) = Some d /\ valid d = true).
Proof.
  revert m ch t. induction n as [|n IH]; intros m ch t Ht Hn Hm Hr Hx Hc; [lia|]. cbn [complete_loop].
  assert (slot t (Z.of_nat 0) = t) as Hs0 by by apply slot_0.
  destruct (Z.eqb_spec t (slot t (Z.of_nat m))) as [He|Hne].
  { rewrite <- Hs0 in He at 1. apply slot_inj in He; [|lia]. exists 0%nat, ch. rewrite Hs0.
    split; [done|]. split; [lia|]. split; [by apply cleaned_nil|]. left. lia. }
  destruct m as [|m]; [done|].
  destruct (aget_total (desc_ring ch) t) as (d & Hg & Hd); [lia|]. rewrite Hg. run_bind. fold (valid d).
  assert (exists b ch1 d1, (if valid d then recheck ch t else Ret (true, ch)) = Ret (b, ch1)
    /\ evolves ch ch1 /\ desc_ring ch1 !! Z.to_nat t = Some d1 /\ (b = true -> valid d1 = false)
    /\ (b = false -> valid d = true)) as (b & ch1 & d1 & -> & E1 & Hd1 & Hb1 & Hb0).
  { destruct (valid d) eqn:Hv.
    - destruct (recheck_ok ch t d) as (b & ch1 & d1 & ? & ? & ? & ?); [lia|done|]. by exists b, ch1, d1.
    - exists true, ch, d. done. }
  run_bind. destruct b.
  - pose proof (ev_txs _ _ E1) as Htx1. destruct (complete_tx_ok ch1 t) as
      (tx & ch2 & Htx & -> & Htxs & Hcl & Hcc & Hring & Htl & Hh & Hck & Hmx); [by rewrite Htx1, Hx|by rewrite Htx1|].
    run_bind. replace (slot t (Z.of_nat (S m))) with (slot (plx_dma_ring_inc t) (Z.of_nat m))
      by (rewrite ring_inc_mod, slot_slot by done; f_equal; lia).
    destruct (IH m ch2 (plx_dma_ring_inc t)) as (k & ch' & -> & Hk & Hcle & Hstop).
    { rewrite ring_inc_mod by done. apply slot_bounds. } { lia. } { lia. }
    { rewrite Hring. by rewrite (wbs_length _ _ (ev_ring _ _ E1)). }
    { by rewrite Htxs, zlen_insert, Htx1. }
    { rewrite Htxs. apply clear_cookies_ok; [by rewrite Htx1|done]. }
    assert (slot (plx_dma_ring_inc t) (Z.of_nat k) = slot t (Z.of_nat (S k))) as Hsk
      by (rewrite ring_inc_mod, slot_slot by done; f_equal; lia).
    exists (S k), ch'. rewrite Hsk. split; [done|]. split; [lia|]. split.
    + eapply (cleaned_cons k t ch ch1 ch2 ch' d1 tx); eauto; lia.
    + destruct Hstop as [->|(d' & Hd' & Hv')]; [by left|]. right. rewrite Hsk, Hring in Hd'.
      destruct (Forall2_lookup_r _ _ _ _ _ (ev_ring _ _ E1) Hd') as (d0 & Hd0 & Hw).
      exists d0. split; [done|]. by rewrite <- (wb_valid _ _ Hw Hv').
  - exists 0%nat, ch1. rewrite Hs0. split; [done|]. split; [lia|]. split; [by apply cleaned_nil|].
    right. exists d. auto.
Qed.

(** ** The invariant *)

Definition used ch : Z := used_of (head ch) (last_tail ch).
(** The slots that hold published descriptors, oldest first. *)
Definition pending ch : list Z := slots (last_tail ch) (Z.to_nat (used ch)).

Record chan_inv ch : Prop := {
  ci_ring : zlen (desc_ring ch) = 2048;
  ci_txs : zlen (tx_array ch) = 2048;
  ci_tail : 0 <= last_tail ch < 2048;
  ci_head : 0 <= head ch < 2048;
  ci_cookies : cookies_ok (tx_array ch);
  ci_max : 0 < max_xfer_size ch <= PLX_DESC_SIZE_MASK;
  (** a free slot holds no valid descriptor and no transaction *)
  ci_free : forall i, 0 <= i < 2048 -> i ∉ pending ch ->
    (exists d, desc_ring ch !! Z.to_nat i = Some d /\ valid d = false)
    /\ (exists tx, tx_array ch !! Z.to_nat i = Some tx /\ tx_cookie tx = 0);
}.

(** The callbacks that have not been made yet, in order of submission. *)
Definition waiting ch : list Z := omap tx_callback (owners (tx_array ch) (pending ch)).

Lemma pending_elem ch i :
  0 <= last_tail ch < 2048 -> i ∈ pending ch <-> exists j, 0 <= j < used ch /\ i = slot (last_tail ch) j.
Proof.
  intros Ht. unfold pending. rewrite slots_elem by done. pose proof (used_range (head ch) (last_tail ch)) as Hu.
  fold (used ch) in Hu. by rewrite Z2Nat.id by lia.
Qed.

Lemma evolves_inv ch ch' : evolves ch ch' -> chan_inv ch -> chan_inv ch'.
Proof.
  intros [] []. assert (pending ch' = pending ch) as Hp by (unfold pending, used; congruence).
  split; try congruence; [by rewrite (wbs_length _ _ ev_ring0)|].
  rewrite Hp, ev_txs0. intros i Hi Hn. destruct (ci_free0 i Hi Hn) as ((d & Hd & Hv) & Htx). split; [|done].
  destruct (wbs_lookup _ _ _ _ ev_ring0 Hd) as (d' & Hd' & Hw). rewrite (wb_invalid _ _ Hw Hv) in Hd'. eauto.
Qed.

Lemma evolves_waiting ch ch' : evolves ch ch' -> waiting ch' = waiting ch.
Proof. intros []. unfold waiting, pending, used. congruence. Qed.

(** After cleaning [k] slots. *)
Lemma cleaned_inv k ch ch' :
  chan_inv ch -> cleaned k (last_tail ch) ch ch' -> (k <= Z.to_nat (used ch))%nat ->
  let ch' := set_tail ch' (slot (last_tail ch) (Z.of_nat k)) in
  pending ch = slots (last_tail ch) k ++ pending ch' /\ chan_inv ch'
  /\ owners (tx_array ch') (pending ch') = owners (tx_array ch) (pending ch').
Proof.
  intros Hinv Hcl Hk ch''. pose proof Hinv as [Hr Hx Ht Hh Hc Hm Hf].
  destruct Hcl as [Hwb Hdone Htxs Hlen _ _ Hhd _ _ Hmx].
  pose proof (used_range (head ch) (last_tail ch)) as Hu. fold (used ch) in Hu.
  assert (Hused : used ch'' = used ch - Z.of_nat k).
  { unfold used, ch''. simpl. rewrite Hhd, <- (head_slot (head ch) (last_tail ch)) at 1 by done.
    fold (used ch). by rewrite used_slot_slot by lia. }
  assert (Hp : pending ch = slots (last_tail ch) k ++ pending ch'').
  { unfold pending at 1. replace (Z.to_nat (used ch)) with (k + Z.to_nat (used ch''))%nat by lia.
    rewrite slots_app by done. done. }
  assert (Hdisj : forall i, i ∈ pending ch'' -> i ∉ slots (last_tail ch) k).
  { intros i Hi Hi'. apply pending_elem in Hi as (j & Hj & ->); [|apply slot_bounds].
    apply slots_elem in Hi' as (j' & Hj' & He); [|done]. unfold ch'' in He. simpl in He.
    rewrite slot_slot in He. apply slot_inj in He; lia. }
  split; [done|]. split.
  - split; simpl; try congruence; [|apply slot_bounds| |].
    + by rewrite (wbs_length _ _ Hwb).
    + apply Forall_lookup_2. intros i tx Htx. specialize (Htxs (Z.of_nat i) ltac:(lia)).
      rewrite Nat2Z.id in Htxs. rewrite Htxs in Htx. case_decide.
      * apply fmap_Some in Htx as (tx0 & Htx0 & ->). unfold clear_tx.
        destruct (Z.eqb_spec (tx_cookie tx0) 0); [by eapply Forall_lookup_1 in Hc|by left].
      * by eapply Forall_lookup_1 in Hc.
    + intros i Hi Hn. destruct (decide (i ∈ slots (last_tail ch) k)) as [Hin|Hin].
      * split; [by apply Hdone|]. rewrite Htxs, decide_True by (done || lia).
        destruct (aget_total (tx_array ch) i) as (tx & _ & ->); [lia|]. eexists. split; [done|].
        unfold clear_tx. by destruct (Z.eqb_spec (tx_cookie tx) 0).
      * destruct (Hf i Hi) as ((d & Hd & Hv) & Htx); [rewrite Hp, elem_of_app; tauto|]. split.
        -- destruct (wbs_lookup _ _ _ _ Hwb Hd) as (d' & Hd' & Hw).
           rewrite (wb_invalid _ _ Hw Hv) in Hd'. eauto.
        -- by rewrite Htxs, decide_False by (done || lia).
  - apply owners_ext. intros i Hi. apply pending_elem in Hi as Hj; [|apply slot_bounds].
    destruct Hj as (j & _ & ->). pose proof (slot_bounds (last_tail ch'') j).
    by rewrite Htxs, decide_False by (done || lia || auto).
Qed.

(** [ch'] is [ch] after [k] published descriptors were completed. *)
Record advanced (k : nat) ch ch' : Prop := {
  ad_inv : chan_inv ch';
  ad_pending : pending ch = slots (last_tail ch) k ++ pending ch';
  ad_owners : owners (tx_array ch') (pending ch') = owners (tx_array ch) (pending ch');
  ad_called : called ch' = called ch ++ omap tx_callback (owners (tx_array ch) (slots (last_tail ch) k));
  ad_completed : completed_cookie ch'
    = last_or (completed_cookie ch) (owners (tx_array ch) (slots (last_tail ch) k));
  ad_wbs : wbs (desc_ring ch) (desc_ring ch');
  ad_finished : forall i, i ∈ slots (last_tail ch) k ->
    exists d, desc_ring ch' !! Z.to_nat i = Some d /\ valid d = false;
  ad_head : head ch' = head ch;
  ad_tail : last_tail ch' = slot (last_tail ch) (Z.of_nat k);
  ad_cookie : cookie ch' = cookie ch;
  ad_max : max_xfer_size ch' = max_xfer_size ch;
}.

Lemma cleanup_ok ch :
  chan_inv ch ->
  exists k ch', plx_dma_cleanup ch = Ret ch' /\ (k <= Z.to_nat (used ch))%nat /\ advanced k ch ch'
    /\ (k = Z.to_nat (used ch)
        \/ exists d, desc_ring ch !! Z.to_nat (slot (last_tail ch) (Z.of_nat k)) = Some d /\ valid d = true).
Proof.
  intros Hi. pose proof Hi as [Hr Hx Ht Hh Hc Hm _]. unfold plx_dma_cleanup.
  pose proof (used_range (head ch) (last_tail ch)) as Hu. fold (used ch) in Hu.
  destruct (complete_loop_ok (Z.to_nat PLX_DMA_DESC_RX_SIZE) (Z.to_nat (used ch)) ch (last_tail ch))
    as (k & ch' & He & Hk & Hcl & Hstop); try done; [rewrite size_val; lia|lia|].
  rewrite Z2Nat.id in He by lia. unfold used in He at 1. rewrite head_slot in He by done.
  rewrite He. run_bind. destruct (cleaned_inv _ _ _ Hi Hcl Hk) as (Hp & Hi' & Ho).
  exists k. eexists. split; [done|]. split; [done|]. split; [|done].
  destruct Hcl. by split.
Qed.

Lemma advanced_waiting k ch ch' :
  advanced k ch ch' -> called ch' ++ waiting ch' = called ch ++ waiting ch.
Proof.
  intros []. unfold waiting. rewrite ad_owners0, ad_called0, ad_pending0, owners_app, omap_app.
  by rewrite app_assoc.
Qed.

(** ** Submission *)

(** The [j]-th of [n] descriptors of a copy. *)
Definition chunk (M src dst len flags : Z) (n j : nat) : plx_dma_desc :=
  plx_dma_memcpy_desc (src + Z.of_nat j * M) (dst + Z.of_nat j * M)
    (Z.min (len - Z.of_nat j * M) M) (if Nat.eqb (S j) n then flags else 0)
    (negb (Nat.eqb (S j) n) || (flags =? 0)).

(** How far the head moves: the last descriptor waits for [submit] when there
    are flags. *)
Definition advance (flags : Z) (n : nat) : nat := if flags =? 0 then n else Nat.pred n.

Lemma chunk_step M src dst len flags n j :
  chunk M (src + M) (dst + M) (len - M) flags n j = chunk M src dst len flags (S n) (S j).
Proof.
  unfold chunk. f_equal; try lia; by replace (Nat.eqb (S (S j)) (S n)) with (Nat.eqb (S j) n) by done.
Qed.

Lemma prog_loop_ok n ch src dst len flags :
  let M := max_xfer_size ch in
  0 <= head ch < 2048 -> zlen (desc_ring ch) = 2048 -> (0 < n < 2048)%nat -> 0 < M ->
  0 <= len <= Z.of_nat n * M -> (Z.of_nat n - 1) * M < len \/ n = 1%nat ->
  0 <= src -> 0 <= dst -> src + len <= 2 ^ 64 -> dst + len <= 2 ^ 64 ->
  exists ch', prog_loop n ch src dst len flags = Ret ch'
    /\ (forall j, (j < n)%nat ->
          desc_ring ch' !! Z.to_nat (slot (head ch) (Z.of_nat j)) = Some (chunk M src dst len flags n j))
    /\ (forall i, 0 <= i -> i ∉ slots (head ch) n ->
          desc_ring ch' !! Z.to_nat i = desc_ring ch !! Z.to_nat i)
    /\ zlen (desc_ring ch') = 2048
    /\ head ch' = slot (head ch) (Z.of_nat (advance flags n))
    /\ last_tail ch' = last_tail ch /\ tx_array ch' = tx_array ch /\ cookie ch' = cookie ch
    /\ completed_cookie ch' = completed_cookie ch /\ called ch' = called ch
    /\ max_xfer_size ch' = M.
Proof.
  revert ch src dst len. induction n as [|n IH]; intros ch src dst len M Hh Hr Hn HM Hl Hl' Hs Hd Hse Hde; [lia|].
  cbn [prog_loop]. set (d := plx_dma_memcpy_desc _ _ _ _ _).
  assert (Hdc : d = chunk M src dst len flags (S n) 0).
  { unfold d, chunk. f_equal; try lia; by destruct n. }
  rewrite aset_ret by lia. run_bind. set (ring := <[_ := d]> _).
  assert (Hring : zlen ring = 2048) by (unfold ring; by rewrite zlen_insert).
  assert (Hat : ring !! Z.to_nat (head ch) = Some d)
    by (apply list_lookup_insert_eq; unfold zlen in Hr; lia).
  destruct n as [|n].
  - (* the last one *)
    cbn [prog_loop]. eexists. split; [done|].
    assert (Hlast : forall ch', desc_ring ch' = ring -> forall j, (j < 1)%nat ->
      desc_ring ch' !! Z.to_nat (slot (head ch) (Z.of_nat j)) = Some (chunk M src dst len flags 1 j)).
    { intros ch' -> j Hj. assert (j = 0%nat) as -> by lia. rewrite slot_0 by done. by rewrite Hat, Hdc. }
    assert (Hfr : forall i, 0 <= i -> i ∉ slots (head ch) 1 -> ring !! Z.to_nat i = desc_ring ch !! Z.to_nat i).
    { intros i Hi Hn'. apply list_lookup_insert_ne. intros He. apply Hn'. simpl.
      apply list_elem_of_singleton. lia. }
    unfold advance. cbn [Nat.eqb negb orb]. destruct (Z.eqb_spec flags 0); cbn [orb Nat.pred].
    + split; [by apply Hlast|]. repeat split; try done. simpl. by rewrite ring_inc_mod.
    + split; [by apply Hlast|]. repeat split; try done. simpl. by rewrite slot_0.
  - cbn [Nat.eqb negb orb]. assert (HMl : Z.min len M = M) by nia. fold M. rewrite !HMl.
    rewrite !u64_small by nia.
    set (ch1 := plx_dma_inc_head (set_ring ch ring)).
    assert (Hh1 : head ch1 = slot (head ch) 1) by (unfold ch1; simpl; by rewrite ring_inc_mod).
    assert (Hsh : forall j, slot (head ch1) (Z.of_nat j) = slot (head ch) (Z.of_nat (S j)))
      by (intros j; rewrite Hh1, slot_slot; f_equal; lia).
    destruct (IH ch1 (src + M) (dst + M) (len - M)) as (ch' & -> & Hc & Hf & Hlen & Hhd & Ht & Hrest);
      change (max_xfer_size ch1) with M; try lia; try done; try nia.
    { rewrite Hh1. apply slot_bounds. }
    change (max_xfer_size ch1) with M in Hc.
    exists ch'. split; [done|]. split; [|split; [|split; [done|split]]].
    + intros [|j] Hj.
      * rewrite slot_0 by done. rewrite Hf; [by rewrite <- Hdc| lia|].
        intros Hin. rewrite Hh1 in Hin. rewrite <- (ring_inc_mod (head ch)) in Hin by done.
        apply slots_tail_notin in Hin; [tauto|done|lia].
      * rewrite <- Hsh, Hc by lia. f_equal. apply chunk_step.
    + intros i Hi Hni. rewrite Hf; [|done|].
      * apply list_lookup_insert_ne. intros He. apply Hni. change (slots (head ch) (S (S n))) with ([head ch] ++ slots (plx_dma_ring_inc (head ch)) (S n)).
        apply elem_of_app. left. apply list_elem_of_singleton. lia.
      * intros Hin. apply Hni. change (slots (head ch) (S (S n))) with ([head ch] ++ slots (plx_dma_ring_inc (head ch)) (S n)). apply elem_of_app. by right.
    + rewrite Hhd, Hsh. f_equal. unfold advance. by destruct (flags =? 0).
    + done.
Qed.

(** *** Descriptors *)

(** The copy a descriptor stands for: source, destination, size. *)
Definition copy_of (d : plx_dma_desc) : Z * Z * Z :=
  (dw3 d + dw1 d / 2 ^ 16 * 2 ^ 32, dw2 d + dw1 d mod 2 ^ 16 * 2 ^ 32,
   Z.land (dw0 d) PLX_DESC_SIZE_MASK).

Lemma dword1 src dst :
  0 <= src < 2 ^ 48 -> 0 <= dst < 2 ^ 48 ->
  u32 (Z.lor (Z.land (Z.shiftr src 16) PLX_DESC_HALF_HIGH_MASK) (Z.shiftr dst 32))
  = src / 2 ^ 32 * 2 ^ 16 + dst / 2 ^ 32.
Proof.
  intros Hs Hd. rewrite !Z.shiftr_div_pow2 by lia.
  replace PLX_DESC_HALF_HIGH_MASK with (Z.land (Z.lnot (2 ^ 16 - 1)) (Z.ones 64)) by reflexivity.
  assert (0 <= src / 2 ^ 16 < 2 ^ 32) by (split; [apply Z.div_pos; lia|apply Z.div_lt_upper_bound; lia]).
  assert (0 <= dst / 2 ^ 32 < 2 ^ 16) by (split; [apply Z.div_pos; lia|apply Z.div_lt_upper_bound; lia]).
  rewrite (Z.land_comm (Z.lnot _)), Z.land_assoc, Z.land_ones, (Z.mod_small _ (2 ^ 64)) by lia.
  rewrite land_not_mask by lia.
  pose proof (Z.div_mod (src / 2 ^ 16) (2 ^ 16) ltac:(lia)) as Hdm.
  rewrite Z.div_div in Hdm by lia. change (2 ^ 16 * 2 ^ 16) with (2 ^ 32) in Hdm.
  replace (src / 2 ^ 16 - (src / 2 ^ 16) mod 2 ^ 16) with (src / 2 ^ 32 * 2 ^ 16) by lia.
  rewrite lor_fields by lia. apply u32_small.
  assert (src / 2 ^ 32 < 2 ^ 16) by (apply Z.div_lt_upper_bound; lia).
  assert (0 <= src / 2 ^ 32) by (apply Z.div_pos; lia). lia.
Qed.

(** The bits of the first word above the size do not disturb the size. *)
Lemma size_flags d0 k :
  27 <= k -> Z.land (Z.lor d0 (Z.shiftl 1 k)) PLX_DESC_SIZE_MASK = Z.land d0 PLX_DESC_SIZE_MASK.
Proof.
  intros Hk. rewrite Z.land_lor_distr_l. change PLX_DESC_SIZE_MASK with (2 ^ 27 - 1).
  rewrite (land_mask (Z.shiftl 1 k)) by lia. rewrite Z.shiftl_1_l.
  replace k with (k - 27 + 27) by lia. rewrite Z.pow_add_r, Z.mod_mul by lia. apply Z.lor_0_r.
Qed.

Lemma memcpy_desc_copy src dst size flags v :
  0 <= src < 2 ^ 48 -> 0 <= dst < 2 ^ 48 -> 0 <= size <= PLX_DESC_SIZE_MASK ->
  copy_of (plx_dma_memcpy_desc src dst size flags v) = (src, dst, size).
Proof.
  intros Hs Hd Hz. unfold copy_of, plx_dma_memcpy_desc. cbn [dw0 dw1 dw2 dw3].
  rewrite dword1 by done. unfold PLX_DESC_DWORD_MASK.
  change 0xffffffff with (2 ^ 32 - 1). rewrite !land_mask by lia.
  assert (0 <= dst / 2 ^ 32 < 2 ^ 16) by (split; [apply Z.div_pos; lia|apply Z.div_lt_upper_bound; lia]).
  rewrite Z.div_add_l, (Z.div_small (dst / 2 ^ 32)) by lia.
  rewrite (Z.add_comm (_ * 2 ^ 16)), Z.mod_add, (Z.mod_small (dst / 2 ^ 32)) by lia.
  pose proof (Z.div_mod src (2 ^ 32) ltac:(lia)). pose proof (Z.div_mod dst (2 ^ 32) ltac:(lia)).
  f_equal; [f_equal; lia|].
  assert (Z.land size PLX_DESC_SIZE_MASK = size) as Hland.
  { change PLX_DESC_SIZE_MASK with (2 ^ 27 - 1) in *. rewrite land_mask by lia. apply Z.mod_small. lia. }
  assert (PLX_DESC_SIZE_MASK = 134217727) as Hm by reflexivity.
  destruct v, (negb (flags =? 0)); unfold PLX_DESC_VALID, PLX_DESC_INTR_ENABLE;
    rewrite ?size_flags by lia; rewrite Hland, u32_small by lia; exact Hland.
Qed.

Lemma memcpy_desc_valid src dst size flags v :
  0 <= size <= PLX_DESC_SIZE_MASK -> valid (plx_dma_memcpy_desc src dst size flags v) = v.
Proof.
  intros Hz. unfold valid, plx_dma_memcpy_desc, PLX_DESC_VALID, PLX_DESC_INTR_ENABLE. cbn [dw0].
  rewrite testflag_bit by lia. change PLX_DESC_SIZE_MASK with (2 ^ 27 - 1) in *.
  rewrite land_mask, (Z.mod_small size), u32_small by lia.
  assert (Z.testbit size 31 = false) as Hb
    by (rewrite <- (Z.mod_small size (2 ^ 27)) by lia; by apply Z.mod_pow2_bits_high).
  rewrite !Z.shiftl_1_l. destruct v, (negb (flags =? 0)); rewrite ?Z.lor_spec, Hb; reflexivity.
Qed.

Lemma valid_desc_valid d : valid (plx_dma_valid_desc d) = true.
Proof.
  unfold valid, plx_dma_valid_desc, PLX_DESC_VALID. cbn [dw0]. rewrite testflag_bit, Z.lor_spec by lia.
  rewrite Z.shiftl_1_l, Z.pow2_bits_true by lia. apply orb_true_r.
Qed.

Lemma valid_desc_copy d : copy_of (plx_dma_valid_desc d) = copy_of d.
Proof. unfold copy_of, plx_dma_valid_desc, PLX_DESC_VALID. cbn. by rewrite size_flags by lia. Qed.

(** *** Room in the ring *)

Lemma advanced_refl ch : chan_inv ch -> advanced 0 ch ch.
Proof.
  intros Hi. split; try done; simpl.
  - by rewrite app_nil_r.
  - intros i Hn%list_elem_of_In. done.
  - rewrite slot_0; [done|apply Hi].
Qed.

Lemma advanced_evolves k ch ch1 ch' : evolves ch ch1 -> advanced k ch1 ch' -> advanced k ch ch'.
Proof.
  intros [] []. assert (pending ch1 = pending ch) as Hp by (unfold pending, used; congruence).
  split; try congruence. by etrans. by rewrite <- ev_tail0.
Qed.

Lemma avail_ok ch required :
  chan_inv ch -> 0 < required ->
  exists k ch' r, plx_dma_avail_desc_ring_space ch required = Ret (r, ch') /\ advanced k ch ch'
    /\ r = (if 2047 <? used ch' + required then - ENOMEM else 2047 - used ch').
Proof.
  intros Hi Hreq. unfold plx_dma_avail_desc_ring_space.
  assert (exists k ch', (if plx_dma_ring_count (head ch) (last_tail ch) <? required
            then plx_dma_cleanup (plx_dma_issue_pending ch) else Ret ch) = Ret ch' /\ advanced k ch ch')
    as (k & ch' & -> & Ha).
  { case_if; [|exists 0%nat, ch; split; [done|by apply advanced_refl]].
    destruct (cleanup_ok (plx_dma_issue_pending ch)) as (k & ch' & -> & _ & Ha & _).
    { eapply evolves_inv; [apply issue_evolves|done]. }
    exists k, ch'. split; [done|]. eapply advanced_evolves; [apply issue_evolves|done]. }
  run_bind. exists k, ch'. pose proof (ad_inv _ _ _ Ha) as Hi'.
  rewrite ring_count_used by apply Hi'. fold (used ch'). eexists. split; [|split; [exact Ha|done]].
  destruct (Z.ltb_spec (2047 - used ch') required), (Z.ltb_spec 2047 (used ch' + required)); done || lia.
Qed.

(** *** Preparing and submitting a copy *)

Definition ndesc ch (len : Z) : nat :=
  if len =? 0 then 1%nat else Z.to_nat ((len + max_xfer_size ch - 1) / max_xfer_size ch).

Definition next_cookie (c : Z) : Z :=
  let c := s32 (c + 1) in if c <? DMA_MIN_COOKIE then DMA_MIN_COOKIE else c.

Lemma ndesc_bounds ch len :
  0 < max_xfer_size ch -> 0 <= len ->
  let n := Z.of_nat (ndesc ch len) in
  0 < n /\ len <= n * max_xfer_size ch /\ ((n - 1) * max_xfer_size ch < len \/ n = 1).
Proof.
  intros HM Hl. unfold ndesc. cbv zeta. destruct (Z.eqb_spec len 0); [nia|].
  set (M := max_xfer_size ch) in *.
  pose proof (Z.div_mod (len + M - 1) M ltac:(lia)). pose proof (Z.mod_pos_bound (len + M - 1) M HM).
  assert (0 < (len + M - 1) / M) by (apply Z.div_str_pos; lia).
  rewrite Z2Nat.id by lia. split; [lia|]. split; [nia|]. left. nia.
Qed.

(** The copies the driver accepts: both ends within the 48 bits a descriptor
    holds, and a length whose number of descriptors fits an [int]. *)
Definition copy_ok (src dst len : Z) : Prop :=
  0 <= len /\ 0 <= src /\ src + len < 2 ^ 48 /\ 0 <= dst /\ dst + len < 2 ^ 48.

(** [ch1] is [ch0] with the [n] descriptors of a copy prepared, the last one not
    yet valid, and the transaction [idx] set aside for it. *)
Record prepared (n : nat) (src dst len flags : Z) ch0 (idx : Z) ch1 : Prop := {
  pr_desc : forall j, (j < n)%nat -> desc_ring ch1 !! Z.to_nat (slot (head ch0) (Z.of_nat j))
    = Some (chunk (max_xfer_size ch0) src dst len flags n j);
  pr_frame : forall i, 0 <= i -> i ∉ slots (head ch0) n ->
    desc_ring ch1 !! Z.to_nat i = desc_ring ch0 !! Z.to_nat i;
  pr_len : zlen (desc_ring ch1) = 2048;
  pr_idx : idx = slot (head ch0) (Z.of_nat n - 1);
  pr_head : head ch1 = idx;
  pr_txs : tx_array ch1 = <[Z.to_nat idx := mkTx 0 flags None]> (tx_array ch0);
  pr_tail : last_tail ch1 = last_tail ch0;
  pr_cookie : cookie ch1 = cookie ch0;
  pr_completed : completed_cookie ch1 = completed_cookie ch0;
  pr_called : called ch1 = called ch0;
  pr_max : max_xfer_size ch1 = max_xfer_size ch0;
}.

(** A slot ahead of the head is free. *)
Lemma ahead_free ch j :
  chan_inv ch -> 0 <= j -> used ch + j < 2048 -> slot (head ch) j ∉ pending ch.
Proof.
  intros Hi Hj Hu Hin. apply pending_elem in Hin as (i & Hi' & He); [|apply Hi].
  rewrite <- (head_slot (head ch) (last_tail ch)) in He at 1 by apply Hi.
  fold (used ch) in He. rewrite slot_slot in He. apply slot_inj in He; lia.
Qed.

Lemma prep_ok ch src dst len flags :
  chan_inv ch -> copy_ok src dst len -> flags <> 0 -> Z.of_nat (ndesc ch len) < 2 ^ 31 ->
  exists k ch0 r ch1, plx_dma_prep_memcpy_lock ch dst src len flags = Ret (r, ch1)
    /\ advanced k ch ch0
    /\ match r with
       | None => ch1 = ch0 /\ 2047 < used ch0 + Z.of_nat (ndesc ch len)
       | Some idx => used ch0 + Z.of_nat (ndesc ch len) <= 2047
                     /\ prepared (ndesc ch len) src dst len flags ch0 idx ch1
       end.
Proof.
  intros Hi (Hl & Hs & Hse & Hd & Hde) Hfl Hn31. unfold plx_dma_prep_memcpy_lock, plx_dma_prog_memcpy_desc.
  destruct (ndesc_bounds ch len) as (Hn1 & Hn2 & Hn3); [apply Hi|done|].
  assert ((if len =? 0 then 1 else s32 (DIV_ROUND_UP len (max_xfer_size ch))) = Z.of_nat (ndesc ch len)) as ->.
  { unfold ndesc in *. destruct (Z.eqb_spec len 0); [done|]. unfold DIV_ROUND_UP.
    assert (max_xfer_size ch <= 134217727) by (change 134217727 with PLX_DESC_SIZE_MASK; apply Hi).
    pose proof (ci_max _ Hi). rewrite u64_small by lia.
    assert (0 <= (len + max_xfer_size ch - 1) / max_xfer_size ch) by (apply Z.div_pos; lia).
    rewrite Z2Nat.id in * by lia. apply s32_small. lia. }
  destruct (avail_ok ch (Z.of_nat (ndesc ch len)) Hi) as (k & ch0 & r & -> & Ha & ->); [lia|].
  run_bind. pose proof (ad_inv _ _ _ Ha) as Hi0. pose proof (ad_max _ _ _ Ha) as HM.
  exists k, ch0. destruct (Z.ltb_spec 2047 (used ch0 + Z.of_nat (ndesc ch len))).
  { exists None, ch0. split; [done|]. split; done. }
  pose proof (used_range (head ch0) (last_tail ch0)) as Hu. fold (used ch0) in Hu.
  rewrite (proj2 (Z.leb_gt _ _)) by lia. rewrite Nat2Z.id.
  destruct (prog_loop_ok (ndesc ch len) ch0 src dst len flags) as
    (ch1 & -> & Hc & Hf & Hlen & Hhd & Htl & Htx & Hck & Hcp & Hcl & Hmx);
    rewrite ?HM; try lia; try apply Hi0; [apply Hi|].
  run_bind. cbn [Z.leb Z.compare]. unfold allocate_tx.
  rewrite (proj2 (Z.eqb_neq flags 0)) by done. cbn [negb].
  unfold advance in Hhd. rewrite (proj2 (Z.eqb_neq flags 0)) in Hhd by done.
  replace (Z.of_nat (Nat.pred (ndesc ch len))) with (Z.of_nat (ndesc ch len) - 1) in Hhd by lia.
  destruct (ci_free _ Hi0 (head ch1)) as (_ & tx & Htx0 & Hc0).
  { rewrite Hhd. apply slot_bounds. } { rewrite Hhd. apply ahead_free; [done|lia|lia]. }
  pose proof (slot_bounds (head ch0) (Z.of_nat (ndesc ch len) - 1)) as Hr. rewrite <- Hhd in Hr.
  rewrite Htx, (aget_ret _ _ tx) by (done || lia). run_bind.
  rewrite aset_ret by (rewrite (ci_txs _ Hi0); lia). run_bind.
  exists (Some (head ch1)). eexists. split; [done|]. split; [done|]. split; [done|].
  split; simpl; try done.
  assert (tx_callback tx = None) as ->; [|by rewrite Hc0].
  pose proof (ci_cookies _ Hi0) as Hck0. eapply Forall_lookup_1 in Hck0; [|exact Htx0].
  unfold DMA_MIN_COOKIE in Hck0. destruct Hck0 as [[_ ?]|?]; [done|lia].
Qed.

(** [ch'] is [ch0] with a copy published behind everything pending. *)
Record published (n : nat) (src dst len : Z) (cb : option Z) ch0 ch' : Prop := {
  pb_inv : chan_inv ch';
  pb_pending : pending ch' = pending ch0 ++ slots (head ch0) n;
  pb_owners : owners (tx_array ch') (pending ch')
    = owners (tx_array ch0) (pending ch0) ++ [mkTx (next_cookie (cookie ch0)) 0 cb];
  pb_desc : forall j, (j < n)%nat -> exists d,
    desc_ring ch' !! Z.to_nat (slot (head ch0) (Z.of_nat j)) = Some d /\ valid d = true
    /\ copy_of d = (src + Z.of_nat j * max_xfer_size ch0, dst + Z.of_nat j * max_xfer_size ch0,
                    Z.min (len - Z.of_nat j * max_xfer_size ch0) (max_xfer_size ch0));
  pb_frame : forall i, i ∈ pending ch0 -> desc_ring ch' !! Z.to_nat i = desc_ring ch0 !! Z.to_nat i;
  pb_cookie : cookie ch' = next_cookie (cookie ch0);
  pb_completed : completed_cookie ch' = completed_cookie ch0;
  pb_called : called ch' = called ch0;
  pb_tail : last_tail ch' = last_tail ch0;
}.

Lemma next_cookie_min c : DMA_MIN_COOKIE <= next_cookie c.
Proof. unfold next_cookie. case_if; lia. Qed.

(** The chunks of an accepted copy. *)
Lemma chunk_copy M src dst len flags n j :
  0 < M <= PLX_DESC_SIZE_MASK -> copy_ok src dst len -> (j < n)%nat ->
  (Z.of_nat n - 1) * M < len \/ n = 1%nat ->
  copy_of (chunk M src dst len flags n j)
  = (src + Z.of_nat j * M, dst + Z.of_nat j * M, Z.min (len - Z.of_nat j * M) M)
  /\ valid (chunk M src dst len flags n j) = negb (Nat.eqb (S j) n) || (flags =? 0).
Proof.
  intros HM (Hl & Hs & Hse & Hd & Hde) Hj Hn. unfold chunk.
  assert (0 <= Z.of_nat j * M <= len) by nia.
  rewrite memcpy_desc_valid by lia. rewrite memcpy_desc_copy by lia. done.
Qed.

Lemma owners_zero txs l :
  (forall i, i ∈ l -> exists tx, txs !! Z.to_nat i = Some tx /\ tx_cookie tx = 0) -> owners txs l = [].
Proof.
  induction l as [|i l IH]; intros Hz; [done|]. destruct (Hz i) as (tx & Htx & H0); [left|].
  rewrite (owners_cons _ _ _ _ Htx), H0. apply IH. intros i' Hi'. apply Hz. by right.
Qed.

(** The ring after the last descriptor became valid. *)
Lemma submit_ring n src dst len flags ch0 idx ch1 :
  chan_inv ch0 -> copy_ok src dst len -> flags <> 0 -> n = ndesc ch0 len ->
  used ch0 + Z.of_nat n <= 2047 -> prepared n src dst len flags ch0 idx ch1 ->
  exists d, aget (desc_ring ch1) idx = Ret d /\ let ring := <[Z.to_nat idx := plx_dma_valid_desc d]> (desc_ring ch1) in
  (forall j, (j < n)%nat -> exists d,
    ring !! Z.to_nat (slot (head ch0) (Z.of_nat j)) = Some d /\ valid d = true
    /\ copy_of d = (src + Z.of_nat j * max_xfer_size ch0, dst + Z.of_nat j * max_xfer_size ch0,
                    Z.min (len - Z.of_nat j * max_xfer_size ch0) (max_xfer_size ch0)))
  /\ (forall i, 0 <= i -> i ∉ slots (head ch0) n -> ring !! Z.to_nat i = desc_ring ch0 !! Z.to_nat i).
Proof.
  intros Hi Hc Hfl Hn Hu [Hd Hf Hlen Hidx _ _ _ _ _ _ _].
  destruct (ndesc_bounds ch0 len) as (Hn1 & _ & Hn3); [apply Hi|apply Hc|]. rewrite <- Hn in Hn1, Hn3.
  pose proof (used_range (head ch0) (last_tail ch0)) as Hur. fold (used ch0) in Hur.
  pose proof (slot_bounds (head ch0) (Z.of_nat n - 1)) as Hr. rewrite <- Hidx in Hr.
  assert (Hn3' : (Z.of_nat n - 1) * max_xfer_size ch0 < len \/ n = 1%nat) by lia.
  assert (idx = slot (head ch0) (Z.of_nat (n - 1))) as Hidx' by (rewrite Hidx; f_equal; lia).
  eexists. split; [apply aget_ret; [lia|rewrite Hidx'; apply Hd; lia]|]. split.
  - intros j Hj. destruct (chunk_copy (max_xfer_size ch0) src dst len flags n j) as (Hcp & Hv);
      [apply Hi|done|done|done|].
    destruct (decide (j = n - 1)%nat) as [->|Hne].
    + rewrite <- Hidx', list_lookup_insert_eq by (unfold zlen in Hlen; lia). eexists.
      split; [done|]. by rewrite valid_desc_valid, valid_desc_copy.
    + rewrite list_lookup_insert_ne.
      * rewrite Hd by done. eexists. split; [done|]. rewrite Hv, Hcp.
        by rewrite (proj2 (Nat.eqb_neq (S j) n)) by lia.
      * rewrite Hidx'. intros He. apply Z2Nat.inj in He; [|apply slot_bounds..].
        apply slot_inj in He; lia.
  - intros i Hi0 Hni. rewrite list_lookup_insert_ne; [by apply Hf|]. intros He. apply Hni.
    apply slots_elem; [apply Hi|]. exists (Z.of_nat n - 1). split; [lia|]. rewrite <- Hidx. lia.
Qed.

(** The transactions after the submission. *)
Lemma submit_owners n ch0 idx c cb :
  chan_inv ch0 -> (0 < n)%nat -> used ch0 + Z.of_nat n <= 2047 -> idx = slot (head ch0) (Z.of_nat n - 1) ->
  c <> 0 ->
  owners (<[Z.to_nat idx := mkTx c 0 cb]> (tx_array ch0)) (pending ch0 ++ slots (head ch0) n)
  = owners (tx_array ch0) (pending ch0) ++ [mkTx c 0 cb].
Proof.
  intros Hi Hn Hu Hidx Hc. pose proof (used_range (head ch0) (last_tail ch0)) as Hur. fold (used ch0) in Hur.
  pose proof (slot_bounds (head ch0) (Z.of_nat n - 1)) as Hr. rewrite <- Hidx in Hr.
  assert (Hfree : forall j, 0 <= j < Z.of_nat n -> slot (head ch0) j ∉ pending ch0)
    by (intros j Hj; apply ahead_free; [done|lia|lia]).
  destruct n as [|m]; [lia|]. rewrite slots_snoc by apply Hi.
  replace (Z.of_nat (S m) - 1) with (Z.of_nat m) in Hidx by lia. rewrite <- Hidx, !owners_app. f_equal.
  - apply owners_ext. intros i Hin. rewrite list_lookup_insert_ne; [done|].
    intros He. apply (Hfree (Z.of_nat m)); [lia|]. rewrite <- Hidx.
    apply pending_elem in Hin as Hj; [|apply Hi]. destruct Hj as (j & _ & Hj).
    pose proof (slot_bounds (last_tail ch0) j). by assert (idx = i) as -> by lia.
  - rewrite (owners_zero _ (slots _ m)).
    + rewrite (owners_cons _ _ _ (mkTx c 0 cb)) by (apply list_lookup_insert_eq; pose proof (ci_txs _ Hi) as Hx; unfold zlen in Hx; lia).
      by rewrite (proj2 (Z.eqb_neq _ 0)) by done.
    + intros i Hin. apply slots_elem in Hin as (j & Hj & ->); [|apply Hi].
      pose proof (slot_bounds (head ch0) j). rewrite list_lookup_insert_ne.
      * apply (ci_free _ Hi); [lia|]. apply Hfree. lia.
      * intros He. assert (slot (head ch0) (Z.of_nat m) = slot (head ch0) j) as He' by lia.
        apply slot_inj in He'; lia.
Qed.

(** The state a submission leads to. *)
Definition submitted ch0 ch1 (idx : Z) (d : plx_dma_desc) (cb : option Z) : chan :=
  let c := next_cookie (cookie ch0) in
  set_txs (plx_dma_inc_head (set_ring (set_cookie ch1 c)
             (<[Z.to_nat idx := plx_dma_valid_desc d]> (desc_ring ch1))))
          (<[Z.to_nat idx := mkTx c 0 cb]> (tx_array ch0)).

(** [set_callback] or nothing, then submission. *)
Lemma submit_run n src dst len flags cb ch0 idx ch1 d :
  chan_inv ch0 -> flags <> 0 -> prepared n src dst len flags ch0 idx ch1 ->
  aget (desc_ring ch1) idx = Ret d ->
  exists ch2, (if cb is Some p then set_callback ch1 idx p else Ret ch1) = Ret ch2
    /\ plx_dma_tx_submit_unlock ch2 idx = Ret (next_cookie (cookie ch0), submitted ch0 ch1 idx d cb).
Proof.
  intros Hi Hfl [_ _ Hlen Hidx Hhd Htx Htl Hck _ _ _] Hg.
  pose proof (slot_bounds (head ch0) (Z.of_nat n - 1)) as Hr. rewrite <- Hidx in Hr.
  pose proof (ci_txs _ Hi) as Hx. unfold zlen in Hx.
  assert (exists ch2, (if cb is Some p then set_callback ch1 idx p else Ret ch1) = Ret ch2
    /\ ch2 = set_txs ch1 (<[Z.to_nat idx := mkTx 0 flags cb]> (tx_array ch0))) as (ch2 & -> & ->).
  { destruct cb as [p|].
    - unfold set_callback. rewrite Htx, (aget_ret _ _ (mkTx 0 flags None)) by (lia || (apply list_lookup_insert_eq; lia)).
      run_bind. rewrite aset_ret by (unfold zlen; rewrite length_insert; lia). run_bind.
      eexists. split; [done|]. by rewrite list_insert_insert_eq.
    - exists ch1. split; [done|]. rewrite <- Htx. by destruct ch1. }
  eexists. split; [done|]. unfold plx_dma_tx_submit_unlock. cbn [tx_array set_txs cookie].
  rewrite (aget_ret _ _ (mkTx 0 flags cb)) by (lia || (apply list_lookup_insert_eq; lia)). run_bind.
  cbn [tx_flags]. rewrite (proj2 (Z.eqb_neq flags 0)) by done. cbn [negb].
  cbn [desc_ring set_cookie set_txs head]. rewrite Hhd, Hg. run_bind.
  cbn [desc_ring set_cookie set_txs head set_ring plx_dma_inc_head set_head]. rewrite aset_ret by lia. run_bind.
  rewrite aset_ret by (cbn; unfold zlen; rewrite length_insert; lia). run_bind.
  cbn [tx_callback tx_array plx_dma_inc_head set_head set_ring]. rewrite Hck.
  fold (next_cookie (cookie ch0)). unfold submitted. do 2 f_equal.
  unfold plx_dma_inc_head, set_txs, set_head, set_ring, set_cookie. cbn. by rewrite list_insert_insert_eq.
Qed.

Lemma submitted_pending n src dst len flags cb ch0 idx ch1 d :
  chan_inv ch0 -> (0 < n)%nat -> used ch0 + Z.of_nat n <= 2047 ->
  prepared n src dst len flags ch0 idx ch1 ->
  let ch' := submitted ch0 ch1 idx d cb in
  head ch' = slot (head ch0) (Z.of_nat n) /\ last_tail ch' = last_tail ch0
  /\ pending ch' = pending ch0 ++ slots (head ch0) n.
Proof.
  intros Hi Hn Hu [_ _ _ Hidx Hhd _ Htl _ _ _ _] ch'.
  pose proof (used_range (head ch0) (last_tail ch0)) as Hur. fold (used ch0) in Hur.
  pose proof (slot_bounds (head ch0) (Z.of_nat n - 1)) as Hr. rewrite <- Hidx in Hr.
  assert (Hhd' : head ch' = slot (head ch0) (Z.of_nat n)).
  { unfold ch'. cbn. rewrite Hhd, ring_inc_mod, Hidx, slot_slot by lia. f_equal. lia. }
  assert (Htl' : last_tail ch' = last_tail ch0) by done.
  assert (Hused' : used ch' = used ch0 + Z.of_nat n).
  { unfold used at 1. rewrite Hhd', Htl'. rewrite <- (head_slot (head ch0) (last_tail ch0)) by apply Hi.
    fold (used ch0). rewrite slot_slot. apply used_slot. lia. }
  split; [done|]. split; [done|].
  unfold pending at 1. rewrite Hused', Htl', Z2Nat.inj_add, Nat2Z.id by lia.
  rewrite slots_app by apply Hi. rewrite Z2Nat.id by lia. unfold used at 2. by rewrite head_slot by apply Hi.
Qed.

Lemma submit_ok n src dst len flags cb ch0 idx ch1 :
  chan_inv ch0 -> copy_ok src dst len -> flags <> 0 -> n = ndesc ch0 len ->
  used ch0 + Z.of_nat n <= 2047 -> prepared n src dst len flags ch0 idx ch1 ->
  exists ch2 ch', (if cb is Some p then set_callback ch1 idx p else Ret ch1) = Ret ch2
    /\ plx_dma_tx_submit_unlock ch2 idx = Ret (next_cookie (cookie ch0), ch')
    /\ published n src dst len cb ch0 ch'.
Proof.
  intros Hi Hc Hfl Hn Hu Hp.
  destruct (submit_ring _ _ _ _ _ _ _ _ Hi Hc Hfl Hn Hu Hp) as (d & Hg & Hring & Hframe).
  destruct (submit_run _ _ _ _ _ cb _ _ _ _ Hi Hfl Hp Hg) as (ch2 & -> & Hrun).
  exists ch2, (submitted ch0 ch1 idx d cb). split; [done|]. split; [done|].
  destruct (ndesc_bounds ch0 len) as (Hn1 & _ & _); [apply Hi|apply Hc|]. rewrite <- Hn in Hn1.
  destruct (submitted_pending n _ _ _ _ cb _ _ _ d Hi ltac:(lia) Hu Hp) as (Hhd' & Htl' & Hpend).
  destruct Hp as [_ _ Hlen Hidx _ _ _ _ Hcp Hcl Hmx]. set (ch' := submitted _ _ _ _ _) in *.
  pose proof (used_range (head ch0) (last_tail ch0)) as Hur. fold (used ch0) in Hur.
  pose proof (slot_bounds (head ch0) (Z.of_nat n - 1)) as Hr. rewrite <- Hidx in Hr.
  pose proof (next_cookie_min (cookie ch0)) as Hmin.
  assert (Htxs : tx_array ch' = <[Z.to_nat idx := mkTx (next_cookie (cookie ch0)) 0 cb]> (tx_array ch0)) by done.
  assert (Hrg : desc_ring ch' = <[Z.to_nat idx := plx_dma_valid_desc d]> (desc_ring ch1)) by done.
  split; try done.
  - split; rewrite ?Hhd', ?Htl', ?Hpend, ?Hrg, ?Htxs; try apply Hi; try apply slot_bounds.
    + by rewrite zlen_insert.
    + rewrite zlen_insert. apply Hi.
    + apply Forall_insert; [apply Hi|]. by right.
    + change (max_xfer_size ch') with (max_xfer_size ch1). rewrite Hmx. apply Hi.
    + intros i Hi0 Hni. rewrite elem_of_app in Hni.
      destruct (ci_free _ Hi i Hi0) as (Hd0 & Ht0); [tauto|]. split; [by rewrite Hframe by (lia || tauto)|].
      rewrite list_lookup_insert_ne; [done|]. intros He. apply Hni. right.
      apply slots_elem; [apply Hi|]. exists (Z.of_nat n - 1). split; [lia|]. rewrite <- Hidx. lia.
  - rewrite Hpend, Htxs. apply submit_owners; [done|lia|done|done|unfold DMA_MIN_COOKIE in Hmin; lia].
  - intros i Hin. apply pending_elem in Hin as Hj; [|apply Hi]. destruct Hj as (j & _ & Hj).
    pose proof (slot_bounds (last_tail ch0) j). apply Hframe; [lia|].
    intros (j' & Hj' & He)%slots_elem; [|apply Hi]. apply (ahead_free ch0 j' Hi); [lia|lia|]. by rewrite <- He.
Qed.

(** *** The remaining operations *)

(** Nothing submitted is lost or called twice. *)
Record served ch ch' : Prop := {
  sv_inv : chan_inv ch';
  sv_callbacks : called ch' ++ waiting ch' = called ch ++ waiting ch;
}.

Lemma served_trans ch ch1 ch2 : served ch ch1 -> served ch1 ch2 -> served ch ch2.
Proof. intros [] []. split; congruence. Qed.

Lemma evolves_served ch ch' : chan_inv ch -> evolves ch ch' -> served ch ch'.
Proof.
  intros Hi He. split; [by eapply evolves_inv|]. by rewrite (evolves_waiting _ _ He), (ev_called _ _ He).
Qed.

Lemma advanced_served k ch ch' : advanced k ch ch' -> served ch ch'.
Proof. intros Ha. split; [apply Ha|by eapply advanced_waiting]. Qed.

Lemma cleanup_served ch : chan_inv ch -> exists ch', plx_dma_cleanup ch = Ret ch' /\ served ch ch'.
Proof.
  intros Hi. destruct (cleanup_ok ch Hi) as (k & ch' & -> & _ & Ha & _). exists ch'.
  split; [done|by eapply advanced_served].
Qed.

Lemma thread_served ch : chan_inv ch -> exists ch', plx_dma_thread_fn ch = Ret ch' /\ served ch ch'.
Proof.
  intros Hi. unfold plx_dma_thread_fn. destruct (dma_hang ch).
  { exists ch. split; [done|]. by apply evolves_served. }
  destruct (cleanup_served ch Hi) as (ch1 & -> & H1). run_bind.
  destruct (plx_dma_ack_interrupt ch1) as (reg & ch2) eqn:E. apply ack_evolves in E.
  assert (served ch ch2) as H2 by (eapply served_trans; [exact H1|apply evolves_served; [apply H1|done]]).
  destruct (testflag reg PLX_DMA_ERROR_STATUS).
  { eexists. split; [done|]. eapply served_trans; [exact H2|]. apply evolves_served; [apply H2|by split]. }
  set (ch3 := if dbg_flush ch2 then _ else _).
  assert (served ch ch3) as H3.
  { eapply served_trans; [exact H2|]. apply evolves_served; [apply H2|]. unfold ch3. by destruct (dbg_flush ch2). }
  destruct (testflag reg _); [|by exists ch3].
  destruct (cleanup_served ch3 ltac:(apply H3)) as (ch4 & -> & H4). exists ch4.
  split; [done|by eapply served_trans].
Qed.

(** A channel that has been set up: its fields are those of [ch], except for what
    a fresh ring has. *)
Lemma setup_inv ch :
  let ch' := plx_dma_chan_setup ch in
  0 < max_xfer_size ch <= PLX_DESC_SIZE_MASK ->
  zlen (desc_ring ch) = 2048 -> zlen (tx_array ch) = 2048 ->
  Forall (fun d => valid d = false) (desc_ring ch) -> Forall (fun tx => tx = zero_tx) (tx_array ch) ->
  chan_inv ch' /\ pending ch' = [] /\ called ch' = called ch /\ cookie ch' = cookie ch
  /\ completed_cookie ch' = completed_cookie ch.
Proof.
  intros ch' HM Hr Hx Hd Htx. unfold ch', plx_dma_chan_setup. clear ch'.
  set (ch1 := plx_dma_chan_set_desc_ring _).
  assert (evolves ch ch1) as E1 by (unfold ch1; etrans; [|apply set_ring_evolves]; apply reg_write_evolves).
  set (ch2 := set_head _ _).
  assert (evolves ch2 (plx_dma_enable_chan (plx_dma_chan_unmask_intr ch2))) as E2
    by (etrans; [apply unmask_evolves|apply enable_evolves]).
  assert (Hp : pending ch2 = []) by done.
  assert (Hi : chan_inv ch2).
  { destruct E1. split; try done; cbn.
    - by rewrite (wbs_length _ _ ev_ring0).
    - by rewrite ev_txs0.
    - rewrite ev_txs0. eapply List.Forall_impl; [|exact Htx]. intros tx ->. by left.
    - by rewrite ev_max0.
    - intros i Hi _. rewrite ev_txs0. split.
      + destruct (aget_total (desc_ring ch) i) as (d & _ & Hd0); [lia|].
        destruct (wbs_lookup _ _ _ _ ev_ring0 Hd0) as (d' & Hd' & Hw).
        eapply Forall_lookup_1 in Hd; [|exact Hd0]. rewrite (wb_invalid _ _ Hw Hd) in Hd'. eauto.
      + destruct (aget_total (tx_array ch) i) as (tx & _ & Htx0); [lia|]. exists tx. split; [done|].
        eapply Forall_lookup_1 in Htx; [|exact Htx0]. by subst tx. }
  split; [by eapply evolves_inv|]. destruct E1, E2.
  split; [unfold pending, used; by rewrite ev_head1, ev_tail1|].
  rewrite ev_called1, ev_cookie1, ev_done1. done.
Qed.

Lemma ready_inv ch da :
  0 < max_xfer_size ch <= PLX_DESC_SIZE_MASK ->
  exists ch', plx_dma_alloc_chan_resources ch (Some da) true = (PLX_DMA_DESC_RX_SIZE, ch')
    /\ chan_inv ch' /\ pending ch' = [] /\ called ch' = called ch /\ cookie ch' = cookie ch
    /\ completed_cookie ch' = completed_cookie ch.
Proof.
  intros HM. unfold plx_dma_alloc_chan_resources, plx_dma_chan_init, plx_dma_alloc_desc_ring.
  set (r := replicate _ zero_desc). set (x := replicate _ zero_tx). cbn [Z.eqb negb].
  eexists. split; [done|].
  assert (zlen r = 2048) as Hr by (unfold r; by rewrite zlen_replicate, size_val).
  assert (zlen x = 2048) as Hx by (unfold x; by rewrite zlen_replicate, size_val).
  assert (Forall (fun d => valid d = false) r) as Hfr by by apply Forall_replicate.
  assert (Forall (fun tx => tx = zero_tx) x) as Hfx by by apply Forall_replicate.
  clearbody r x.
  exact (setup_inv (set_txs (set_ring (set_ring_da ch da) r) x) HM Hr Hx Hfr Hfx).
Qed.

End Inv.

(** ** The clients

    [vcablk_bcknd_hal_pci.c] for the block backend and [vop_common.c] for the
    network. *)

(** [DMA_PREP_INTERRUPT] and [DMA_PREP_FENCE] of [linux/dmaengine.h]. *)
Definition DMA_PREP_INTERRUPT : Z := 1.
Definition DMA_PREP_FENCE : Z := Z.shiftl 1 5.

Section Clients.
Context {hw : Type} `{DmaHw hw}.
#[local] Abbreviation chan := (plx_dma_chan hw).
(** [dma_sync_wait] of the DMA engine core. *)
Context (dma_sync_wait : chan -> Z -> outcome (Z * chan)).

(** The body the two synchronous wrappers share. *)
Definition sync_copy (ch : chan) (dst src len : Z) : outcome (Z * chan) :=
  '(tx, ch) ← plx_dma_prep_memcpy_lock ch dst src len DMA_PREP_FENCE;
  match tx with
  | None => Ret (- ENOMEM, ch)
  | Some idx =>
      '(cookie, ch) ← plx_dma_tx_submit_unlock ch idx;
      if cookie <? 0 then Ret (- ENOMEM, ch) else dma_sync_wait ch cookie
  end.

Definition vcablk_bcknd_dma_sync (dma_ch : option chan) (dst src len : Z)
    : outcome (Z * option chan) :=
  match dma_ch with
  | None => Ret (- EBUSY, None)
  | Some ch => '(err, ch) ← sync_copy ch dst src len; Ret (err, Some ch)
  end.

Definition vop_sync_dma (vop_ch : option chan) (dst src len : Z) : outcome (Z * option chan) :=
  match vop_ch with
  | None => Ret (- EBUSY, None)
  | Some ch => '(err, ch) ← sync_copy ch dst src len; Ret (err, Some ch)
  end.

(** The body the two asynchronous wrappers share. *)
Definition async_copy (ch : chan) (dst src len callback_param flags : Z) : outcome (Z * chan) :=
  '(tx, ch) ← plx_dma_prep_memcpy_lock ch dst src len flags;
  match tx with
  | None => Ret (- ENOMEM, ch)
  | Some idx =>
      ch ← set_callback ch idx callback_param;
      '(cookie, ch) ← plx_dma_tx_submit_unlock ch idx;
      if negb (cookie <? 0) then Ret (cookie, plx_dma_issue_pending ch) else Ret (cookie, ch)
  end.

Definition vcablk_bcknd_dma_async (dma_ch : option chan) (dst src len callback_param : Z)
    : outcome (Z * option chan) :=
  match dma_ch with
  | None => Ret (- ENOMEM, None)
  | Some ch => '(cookie, ch) ← async_copy ch dst src len callback_param DMA_PREP_INTERRUPT;
               Ret (cookie, Some ch)
  end.

Definition vop_async_dma (vop_ch : option chan) (dst src len callback_param : Z)
    : outcome (Z * option chan) :=
  match vop_ch with
  | None => Ret (- EBUSY, None)
  | Some ch => '(cookie, ch) ← async_copy ch dst src len callback_param
                                 (Z.lor DMA_PREP_INTERRUPT DMA_PREP_FENCE);
               Ret (cookie, Some ch)
  end.
End Clients.

(** What an asynchronous copy does: [ch0] is the channel after the completions
    found on the way, [r] the result. *)
Record copied {hw} `{DmaHw hw} (ch : plx_dma_chan hw) (dst src len param : Z)
    (k : nat) (ch0 : plx_dma_chan hw) (r : Z) (ch' : plx_dma_chan hw) : Prop := {
  co_advanced : advanced k ch ch0;
  co_result :
    (r = - ENOMEM /\ ch' = ch0 /\ 2047 < used ch0 + Z.of_nat (ndesc ch len))
    \/ (r = next_cookie (cookie ch) /\ chan_inv ch'
        /\ pending ch' = pending ch0 ++ slots (head ch0) (ndesc ch len)
        /\ waiting ch' = waiting ch0 ++ [param] /\ called ch' = called ch0
        /\ (forall j, (j < ndesc ch len)%nat -> exists d d',
              valid d = true
              /\ copy_of d = (src + Z.of_nat j * max_xfer_size ch, dst + Z.of_nat j * max_xfer_size ch,
                              Z.min (len - Z.of_nat j * max_xfer_size ch) (max_xfer_size ch))
              /\ wb d d' /\ desc_ring ch' !! Z.to_nat (slot (head ch0) (Z.of_nat j)) = Some d')
        /\ (forall i d, i ∈ pending ch0 -> desc_ring ch0 !! Z.to_nat i = Some d ->
              exists d', desc_ring ch' !! Z.to_nat i = Some d' /\ wb d d'));
}.

Lemma async_copy_ok {hw} `{DmaHwOk hw} (ch : plx_dma_chan hw) dst src len param flags :
  chan_inv ch -> copy_ok src dst len -> Z.of_nat (ndesc ch len) < 2 ^ 31 -> flags <> 0 ->
  exists k ch0 r ch', async_copy ch dst src len param flags = Ret (r, ch')
    /\ copied ch dst src len param k ch0 r ch'.
Proof.
  intros Hi Hc Hn Hfl. unfold async_copy.
  destruct (prep_ok ch src dst len flags Hi Hc) as (k & ch0 & r & ch1 & -> & Ha & Hr); [done|done|].
  run_bind. exists k, ch0. destruct r as [idx|].
  2:{ destruct Hr as (-> & Hr). do 2 eexists. split; [done|]. split; [done|]. left. done. }
  destruct Hr as (Hu & Hp). pose proof (ad_max _ _ _ Ha) as HM.
  assert (ndesc ch0 len = ndesc ch len) as Hn0 by (unfold ndesc; by rewrite HM).
  destruct (submit_ok (ndesc ch len) src dst len flags (Some param) ch0 idx ch1) as (ch2 & ch3 & He & Hs & Hb);
    [apply Ha|done|done|done|done|done|]. simpl in He. rewrite He. run_bind. rewrite Hs. run_bind.
  pose proof (next_cookie_min (cookie ch0)) as Hmin. unfold DMA_MIN_COOKIE in Hmin.
  rewrite (proj2 (Z.ltb_ge _ 0)) by lia. cbn [negb]. do 2 eexists. split; [done|]. split; [done|]. right.
  pose proof (issue_evolves ch3) as Ev. set (ch' := plx_dma_issue_pending ch3) in *. destruct Hb.
  assert (pending ch' = pending ch3) as Hpe by (unfold pending, used; by rewrite (ev_head _ _ Ev), (ev_tail _ _ Ev)).
  split; [by rewrite (ad_cookie _ _ _ Ha)|]. split; [by eapply evolves_inv|].
  split; [by rewrite Hpe|]. split.
  { rewrite (evolves_waiting _ _ Ev). unfold waiting. by rewrite pb_owners0, omap_app. }
  split; [by rewrite (ev_called _ _ Ev)|]. split.
  - intros j Hj. destruct (pb_desc0 j Hj) as (d & Hd & Hv & Hcp). rewrite HM in Hcp.
    destruct (wbs_lookup _ _ _ _ (ev_ring _ _ Ev) Hd) as (d' & Hd' & Hw). by exists d, d'.
  - intros i d Hin Hd. rewrite <- pb_frame0 in Hd by done.
    destruct (wbs_lookup _ _ _ _ (ev_ring _ _ Ev) Hd) as (d' & Hd' & Hw). by exists d'.
Qed.

(** ** Properties *)

(** An engine that finishes every valid descriptor when a register is read: it
    shows that the assumptions about the engine can hold. *)
Definition finish (d : plx_dma_desc) : plx_dma_desc :=
  if valid d then mkDesc (Z.land (dw0 d) (2 ^ 31 - 1)) (dw1 d) (dw2 d) (dw3 d) else d.
#[export] Instance eager_engine : DmaHw unit := {
  dma_ioread32 h ring _ := (0, (h, finish <$> ring));
  dma_iowrite32 h ring _ _ := (h, ring);
}.

Lemma finish_wb d : wb d (finish d).
Proof.
  unfold finish. destruct (valid d) eqn:Hv; [|by left]. right.
  split; [done|]. split; [|done]. unfold valid, PLX_DESC_VALID. cbn [dw0].
  rewrite testflag_bit, land_mask by lia. by apply Z.mod_pow2_bits_high.
Qed.

#[export] Instance eager_engine_ok : DmaHwOk unit.
Proof.
  split; intros; [|reflexivity]. apply Forall2_fmap_r, Forall_Forall2_diag.
  apply Forall_forall. intros d _. apply finish_wb.
Qed.

(** A probed channel, and the same after its resources were allocated. *)
Definition probed : plx_dma_chan unit :=
  snd (plx_dma_probe (mkChan 0 0 0 0 [] 0 0 0 [] false false 0 0 tt []) 0 0).
Definition started : plx_dma_chan unit := snd (plx_dma_alloc_chan_resources probed (Some 0x10000) true).

Lemma started_inv : chan_inv started /\ pending started = [].
Proof. destruct (ready_inv probed 0x10000) as (ch' & He & Hi & Hp & _); [by vm_compute|]. unfold started. by rewrite He. Qed.

(** Setting up a channel of a probed device succeeds and leaves an empty ring
    of 2048 descriptors, none valid, with no transaction and no callback pending. *)
Theorem plx_dma_alloc_correct {hw} `{DmaHwOk hw} (ch : plx_dma_chan hw) da :
  0 < max_xfer_size ch <= PLX_DESC_SIZE_MASK ->
  exists ch', plx_dma_alloc_chan_resources ch (Some da) true = (PLX_DMA_DESC_RX_SIZE, ch')
    /\ chan_inv ch' /\ pending ch' = [] /\ called ch' = called ch.
Proof. intros HM. destruct (ready_inv ch da HM) as (ch' & ? & ? & ? & ? & _). eauto. Qed.

Lemma plx_dma_alloc_correct_witness : exists ch',
  plx_dma_alloc_chan_resources probed (Some 0x10000) true = (2048, ch') /\ pending ch' = [].
Proof.
  destruct (plx_dma_alloc_correct probed 0x10000) as (ch' & He & _ & Hp & _); [by vm_compute|].
  exists ch'. split; [exact He|exact Hp].
Defined.

(** A descriptor holds a copy exactly: from its words the engine reads back
    the source, the destination and the size, for addresses of 48 bits and sizes
    up to the size mask, whatever the flags; and it is valid when asked for. *)
Theorem plx_dma_desc_roundtrip src dst size flags v :
  0 <= src < 2 ^ 48 -> 0 <= dst < 2 ^ 48 -> 0 <= size <= PLX_DESC_SIZE_MASK ->
  copy_of (plx_dma_memcpy_desc src dst size flags v) = (src, dst, size)
  /\ valid (plx_dma_memcpy_desc src dst size flags v) = v
  /\ copy_of (plx_dma_valid_desc (plx_dma_memcpy_desc src dst size flags v)) = (src, dst, size).
Proof.
  intros Hs Hd Hz. rewrite valid_desc_copy. rewrite memcpy_desc_copy by done.
  rewrite memcpy_desc_valid by done. done.
Qed.

Lemma plx_dma_desc_roundtrip_witness :
  copy_of (plx_dma_memcpy_desc 0xfedc12345678 0x9abc00112233 4096 1 true)
  = (0xfedc12345678, 0x9abc00112233, 4096).
Proof. apply plx_dma_desc_roundtrip; unfold PLX_DESC_SIZE_MASK; split; by vm_compute. Defined.

(** An asynchronous copy either fails with [-ENOMEM] because the ring has no
    room for its descriptors even after completed ones were cleaned up, or it is
    published whole: valid descriptors behind everything pending that cover the
    range in consecutive pieces no larger than the engine allows, with one
    transaction, of a fresh cookie, on the last of them; pending descriptors are
    only changed by the engine.  Completions found on the way are served. *)
Theorem vcablk_bcknd_dma_async_correct {hw} `{DmaHwOk hw} (ch : plx_dma_chan hw) dst src len param :
  chan_inv ch -> copy_ok src dst len -> Z.of_nat (ndesc ch len) < 2 ^ 31 ->
  exists k ch0 r ch', vcablk_bcknd_dma_async (Some ch) dst src len param = Ret (r, Some ch')
    /\ copied ch dst src len param k ch0 r ch'.
Proof.
  intros Hi Hc Hn. unfold vcablk_bcknd_dma_async.
  destruct (async_copy_ok ch dst src len param DMA_PREP_INTERRUPT) as (k & ch0 & r & ch' & -> & Hcp); [done..|].
  by exists k, ch0, r, ch'.
Qed.

Lemma vcablk_bcknd_dma_async_correct_witness : exists ch',
  vcablk_bcknd_dma_async (Some started) 0x2000000 0x1000000 0x9000000 7 = Ret (2, Some ch')
  /\ waiting ch' = [7] /\ length (pending ch') = 2%nat.
Proof.
  destruct started_inv as (Hi & Hp).
  destruct (vcablk_bcknd_dma_async_correct started 0x2000000 0x1000000 0x9000000 7 Hi)
    as (k & ch0 & r & ch' & He & [Ha Hr]); [unfold copy_ok; lia|by vm_compute|].
  exists ch'. destruct Hr as [(-> & _ & Hu)|(-> & _ & Hpe & Hw & _)].
  - exfalso. destruct Ha as [_ Hpa _ _ _ _ _ Hh Ht _ _]. rewrite Hp in Hpa. symmetry in Hpa.
    destruct (app_eq_nil _ _ Hpa) as (Hk & Hp0). assert (k = 0%nat) as -> by by destruct k.
    unfold used in Hu. rewrite Hh, Ht in Hu. vm_compute in Hu. discriminate.
  - assert (pending ch0 = []) as Hp0.
    { destruct Ha as [_ Hpa _ _ _ _ _ _ _ _ _]. rewrite Hp in Hpa. symmetry in Hpa. by destruct (app_eq_nil _ _ Hpa). }
    split; [rewrite He; by vm_compute|]. unfold waiting in Hw. rewrite Hp0 in Hw. split; [exact Hw|].
    rewrite Hpe, Hp0, app_nil_l, slots_length. by vm_compute.
Defined.

(** Cleaning up always ends.  It completes the published descriptors in order
    up to the first that the engine had not finished: it calls the owners of the
    completed ones back once, in order of submission, records the last of their
    cookies, and makes exactly their slots free. *)
Theorem plx_dma_cleanup_correct {hw} `{DmaHwOk hw} (ch : plx_dma_chan hw) :
  chan_inv ch ->
  exists k ch', plx_dma_cleanup ch = Ret ch' /\ (k <= Z.to_nat (used ch))%nat /\ advanced k ch ch'
    /\ (k = Z.to_nat (used ch)
        \/ exists d, desc_ring ch !! Z.to_nat (slot (last_tail ch) (Z.of_nat k)) = Some d /\ valid d = true).
Proof. apply cleanup_ok. Qed.

Lemma plx_dma_cleanup_correct_witness : exists ch', plx_dma_cleanup started = Ret ch' /\ called ch' = [].
Proof.
  destruct started_inv as (Hi & Hp).
  destruct (plx_dma_cleanup_correct started Hi) as (k & ch' & He & Hk & Ha & _). exists ch'. split; [exact He|].
  rewrite (ad_called _ _ _ Ha). assert (k = 0%nat) as ->; [|by vm_compute].
  change (Z.to_nat (used started)) with 0%nat in Hk. lia.
Defined.

(** A transaction whose descriptors, and all before them, the engine has
    finished is reported as complete by the status query, and its callback has been
    made by then.  [dma_async_is_complete] has to report the last completed cookie
    as complete. *)
Theorem plx_dma_tx_status_complete {hw} `{DmaHwOk hw} (ch : plx_dma_chan hw)
    (is_complete : Z -> Z -> Z -> bool) tx txs :
  (forall c used, is_complete c c used = true) ->
  chan_inv ch ->
  (forall i, i ∈ pending ch -> exists d, desc_ring ch !! Z.to_nat i = Some d /\ valid d = false) ->
  owners (tx_array ch) (pending ch) = txs ++ [tx] ->
  (forall used, is_complete (tx_cookie tx) (completed_cookie ch) used = false) ->
  exists ch' st, plx_dma_tx_status is_complete ch (tx_cookie tx) = Ret (ch', (true, st))
    /\ pending ch' = [] /\ called ch' = called ch ++ omap tx_callback (txs ++ [tx]).
Proof.
  intros Hlaw Hi Hfin Hown Hnot. unfold plx_dma_tx_status, plx_dma_is_tx_complete, plx_dma_cookie_status.
  cbn [fst]. rewrite Hnot. cbn [negb].
  destruct (cleanup_ok ch Hi) as (k & ch' & -> & Hk & Ha & Hstop). run_bind.
  pose proof (used_range (head ch) (last_tail ch)) as Hu. fold (used ch) in Hu.
  assert (k = Z.to_nat (used ch)) as ->.
  { destruct Hstop as [?|(d & Hd & Hv)]; [done|].
    destruct (decide (k = Z.to_nat (used ch))) as [|Hne]; [done|].
    destruct (Hfin (slot (last_tail ch) (Z.of_nat k))) as (d' & Hd' & Hv').
    - apply pending_elem; [apply Hi|]. exists (Z.of_nat k). split; [lia|done].
    - congruence. }
  destruct Ha. fold (pending ch) in ad_pending0, ad_called0, ad_completed0. rewrite Hown in *.
  exists ch'. eexists. split.
  - rewrite ad_completed0. unfold last_or. rewrite list.last_snoc. cbn. by rewrite Hlaw.
  - split; [|done]. rewrite <- (app_nil_r (pending ch)) in ad_pending0 at 1. by apply app_inv_head in ad_pending0.
Qed.

(** A channel with a finished copy of two descriptors. *)
Definition new_copy : plx_dma_chan unit :=
  match async_copy started 0x2000000 0x1000000 0x9000000 7 DMA_PREP_INTERRUPT with
  | Ret (_, ch) => ch
  | _ => started
  end.
Definition done_copy : plx_dma_chan unit := snd (plx_get_hw_next_desc new_copy).

Lemma done_copy_inv : chan_inv done_copy.
Proof.
  unfold done_copy, new_copy. destruct started_inv as (Hi & Hp).
  destruct (async_copy_ok started 0x2000000 0x1000000 0x9000000 7 DMA_PREP_INTERRUPT)
    as (k & ch0 & r & ch' & -> & [Ha Hr]); [done|unfold copy_ok; lia|by vm_compute|done|].
  assert (chan_inv ch') as Hi' by (destruct Hr as [(_ & -> & _)|(_ & ? & _)]; [apply Ha|done]).
  unfold plx_get_hw_next_desc. destruct (plx_dma_ch_reg_read ch' _) as (v & ch1) eqn:E. simpl.
  eapply evolves_inv; [by eapply ch_read_evolves|done].
Qed.

Lemma plx_dma_tx_status_complete_witness : exists ch' st,
  plx_dma_tx_status (fun c last _ => c <=? last) done_copy 2 = Ret (ch', (true, st)) /\ called ch' = [7].
Proof.
  destruct (plx_dma_tx_status_complete done_copy (fun c last _ => c <=? last) (mkTx 2 0 (Some 7)) [])
    as (ch' & st & He & _ & Hc).
  - intros c _. apply Z.leb_refl.
  - apply done_copy_inv.
  - assert (pending done_copy = [0; 1]) as -> by (vm_compute; reflexivity).
    intros i Hi. repeat (apply elem_of_cons in Hi as [->|Hi]); [..|by apply list_elem_of_In in Hi];
      (eexists; split; [vm_compute; reflexivity|vm_compute; reflexivity]).
  - vm_compute. reflexivity.
  - intros u. vm_compute. reflexivity.
  - exists ch', st. split; [exact He|]. rewrite Hc. vm_compute. reflexivity.
Defined.

(** The life of a channel: copies are submitted, completions are polled or found
    by the interrupt thread, transfers are started, and the engine writes back
    finished descriptors at any time.  A step is labelled with the callback it
    submits. *)
Inductive dma_step {hw} `{DmaHw hw} : plx_dma_chan hw -> list Z -> plx_dma_chan hw -> Prop :=
| step_copy ch dst src len param flags r ch' :
    copy_ok src dst len -> Z.of_nat (ndesc ch len) < 2 ^ 31 -> flags <> 0 ->
    async_copy ch dst src len param flags = Ret (r, ch') ->
    dma_step ch (if r <? 0 then [] else [param]) ch'
| step_cleanup ch ch' : plx_dma_cleanup ch = Ret ch' -> dma_step ch [] ch'
| step_thread ch ch' : plx_dma_thread_fn ch = Ret ch' -> dma_step ch [] ch'
| step_issue ch : dma_step ch [] (plx_dma_issue_pending ch)
| step_engine ch h ring :
    wbs (desc_ring ch) ring -> dma_step ch [] (set_ring (set_engine ch h) ring).

Inductive dma_steps {hw} `{DmaHw hw} : plx_dma_chan hw -> list Z -> plx_dma_chan hw -> Prop :=
| steps_nil ch : dma_steps ch [] ch
| steps_snoc ch l ch1 p ch2 : dma_steps ch l ch1 -> dma_step ch1 p ch2 -> dma_steps ch (l ++ p) ch2.

Lemma dma_step_served {hw} `{DmaHwOk hw} (ch : plx_dma_chan hw) p ch' :
  chan_inv ch -> dma_step ch p ch' ->
  chan_inv ch' /\ called ch' ++ waiting ch' = (called ch ++ waiting ch) ++ p.
Proof.
  intros Hi Hs. destruct Hs as [ch dst src len param flags r ch' Hc Hn Hfl He|ch ch' He|ch ch' He|ch|ch h ring Hw].
  - destruct (async_copy_ok ch dst src len param flags Hi Hc Hn Hfl) as (k & ch0 & r' & ch1 & He' & [Ha Hr]).
    rewrite He in He'. injection He' as <- <-. pose proof (advanced_waiting _ _ _ Ha) as Hw.
    destruct Hr as [(-> & -> & _)|(-> & Hi' & _ & Hwt & Hcl & _)].
    + split; [apply Ha|]. by rewrite app_nil_r.
    + split; [done|]. pose proof (next_cookie_min (cookie ch)) as Hmin. unfold DMA_MIN_COOKIE in Hmin.
      rewrite (proj2 (Z.ltb_ge _ 0)) by lia. by rewrite Hwt, Hcl, app_assoc, Hw.
  - destruct (cleanup_served ch Hi) as (ch1 & He' & []). rewrite He in He'. injection He' as <-.
    by rewrite app_nil_r.
  - destruct (thread_served ch Hi) as (ch1 & He' & []). rewrite He in He'. injection He' as <-.
    by rewrite app_nil_r.
  - destruct (evolves_served ch _ Hi (issue_evolves ch)). by rewrite app_nil_r.
  - destruct (evolves_served ch (set_ring (set_engine ch h) ring) Hi) as []; [by split|].
    by rewrite app_nil_r.
Qed.

(** C10. However submissions, polls, interrupts and write-backs interleave, every
    callback submitted has either been made, exactly once and in order of
    submission, or is still waiting in the ring; and no operation gets stuck: each
    of them returns in every state that can be reached. *)
Theorem plx_dma_callbacks_in_order {hw} `{DmaHwOk hw} (ch ch' : plx_dma_chan hw) l :
  chan_inv ch -> called ch = [] -> pending ch = [] -> dma_steps ch l ch' ->
  called ch' ++ waiting ch' = l /\ chan_inv ch'
  /\ (exists ch1, plx_dma_cleanup ch' = Ret ch1) /\ (exists ch1, plx_dma_thread_fn ch' = Ret ch1)
  /\ (forall dst src len param, copy_ok src dst len -> Z.of_nat (ndesc ch' len) < 2 ^ 31 ->
        exists r ch1, vop_async_dma (Some ch') dst src len param = Ret (r, Some ch1)).
Proof.
  intros Hi Hc Hp Hs.
  assert (called ch' ++ waiting ch' = l /\ chan_inv ch') as (Hl & Hi').
  { induction Hs as [ch|ch l ch1 p ch2 _ IH Hs].
    - split; [|done]. unfold waiting. by rewrite Hc, Hp.
    - destruct (IH Hi Hc Hp) as (Hl & Hi1). destruct (dma_step_served _ _ _ Hi1 Hs) as (Hi2 & He).
      by rewrite He, Hl. }
  split; [done|]. split; [done|].
  split; [destruct (cleanup_served ch' Hi') as (c & ? & _); eauto|].
  split; [destruct (thread_served ch' Hi') as (c & ? & _); eauto|].
  intros dst src len param Hcp Hn. unfold vop_async_dma.
  destruct (async_copy_ok ch' dst src len param (Z.lor DMA_PREP_INTERRUPT DMA_PREP_FENCE) Hi' Hcp Hn)
    as (k & ch0 & r & ch1 & -> & _); [done|]. eauto.
Qed.

Lemma step_read {hw} `{DmaHwOk hw} (ch : plx_dma_chan hw) : dma_step ch [] (snd (plx_get_hw_next_desc ch)).
Proof.
  unfold plx_get_hw_next_desc, plx_dma_ch_reg_read, plx_dma_reg_read.
  set (o := u32 _). pose proof (hw_read_wb (engine ch) (desc_ring ch) o) as Hw.
  destruct (dma_ioread32 _ _ _) as (v & h & r). by apply step_engine.
Qed.

Lemma plx_dma_callbacks_in_order_witness : called done_copy ++ waiting done_copy = [7].
Proof.
  apply (plx_dma_callbacks_in_order started done_copy [7]).
  - apply started_inv.
  - vm_compute. reflexivity.
  - apply started_inv.
  - change [7] with (([] ++ [7]) ++ []). eapply steps_snoc.
    + eapply steps_snoc; [apply steps_nil|].
      apply (step_copy started 0x2000000 0x1000000 0x9000000 7 DMA_PREP_INTERRUPT 2 new_copy).
      * unfold copy_ok. lia.
      * vm_compute. reflexivity.
      * unfold DMA_PREP_INTERRUPT. lia.
      * vm_compute. reflexivity.
    + apply step_read.
Defined.

End PlxDma.
