(* ===== verification/BlkMedia.v ===== *)
(** * The media of the block backend

    [src/modules/vca/blockio/vcablk_bcknd/vcablk_bcknd_media.c]: a disk is an array
    of bytes in memory or a file.  Files are reached through the class [Vfs], which
    stands for the kernel's file functions. *)

From Stdlib Require Import ZArith Lia.
From stdpp Require Import base list numbers option tactics.
From S2P Require Import Prelude.
#[local] Open Scope Z_scope.

Module BlkMedia.

Definition SECTOR_SHIFT : Z := 9.
Definition EACCES : Z := 13.
Definition PATH_MAX : Z := 4096.

(** [kernel_read] gives the number of bytes read or an error, and the bytes;
    [kernel_write] the number written or an error. *)
Class Vfs (file : Type) := {
  kernel_read : file -> Z -> Z -> Z * list Z;
  kernel_write : file -> Z -> list Z -> Z * file;
  vfs_fsync : file -> Z * file;
}.

Inductive VCABLK_DISK_TYPE := VCABLK_DISK_TYPE_UNINIT | VCABLK_DISK_TYPE_FILE | VCABLK_DISK_TYPE_MEMORY.
#[global] Instance disk_type_eq_dec : EqDecision VCABLK_DISK_TYPE.
Proof. solve_decision. Defined.

(** The union [data]. *)
Inductive media_data (file : Type) :=
| DMemory (bytes : list Z)
| DFile (f : file).
Arguments DMemory {_}.
Arguments DFile {_}.

Record vcablk_media (file : Type) := mkMedia {
  read_only : bool;
  size_bytes : Z;
  file_path : list Z;
  type : VCABLK_DISK_TYPE;
  data : media_data file;
}.
Arguments mkMedia {_}.
Arguments read_only {_}.
Arguments size_bytes {_}.
Arguments file_path {_}.
Arguments type {_}.
Arguments data {_}.

(** A pointer that may carry an error number ([ERR_PTR]); [ERR_PTR] of a value
    that is not a small negative number is not recognised as an error. *)
Inductive err_ptr (A : Type) := Ptr (a : A) | ErrPtr (e : Z).
Arguments Ptr {_}.
Arguments ErrPtr {_}.
Definition IS_ERR {A} (p : err_ptr A) : bool :=
  match p with Ptr _ => false | ErrPtr e => (-4095 <=? e) && (e <? 0) end.

Section Ops.
Context {file : Type} `{Vfs file}.
#[local] Abbreviation media := (vcablk_media file).
Implicit Types m : media.

Definition set_media_data m (d : media_data file) : media :=
  mkMedia (read_only m) (size_bytes m) (file_path m) (type m) d.

(** [memcpy] between the buffer and the memory of the disk. *)
Definition copy_in (mem : list Z) (offset : Z) (bytes : list Z) : outcome (list Z) :=
  if offset + zlen bytes <=? zlen mem
  then Ret (take (Z.to_nat offset) mem ++ bytes ++ drop (Z.to_nat (offset + zlen bytes)) mem)
  else Oob.
Definition copy_out (mem : list Z) (offset n : Z) : outcome (list Z) :=
  if offset + n <=? zlen mem then Ret (take (Z.to_nat n) (drop (Z.to_nat offset) mem)) else Oob.
(** The first [n] bytes of the buffer; reading past its end is [Oob]. *)
Definition buf_head (buffer : list Z) (n : Z) : outcome (list Z) :=
  if n <=? zlen buffer then Ret (take (Z.to_nat n) buffer) else Oob.
Definition buf_fill (buffer bytes : list Z) : outcome (list Z) :=
  if zlen bytes <=? zlen buffer then Ret (bytes ++ drop (length bytes) buffer) else Oob.

Definition media_transfer_mem m (sector nsect : Z) (buffer : list Z) (write : bool)
    : outcome (Z * media * list Z) :=
  let offset := u64 (Z.shiftl sector SECTOR_SHIFT) in
  let nbytes := u64 (Z.shiftl nsect SECTOR_SHIFT) in
  if size_bytes m <? u64 (offset + nbytes) then Ret (- EIO, m, buffer)
  else
    match data m with
    | DMemory mem =>
        if write then
          bytes ← buf_head buffer nbytes;
          mem ← copy_in mem offset bytes;
          Ret (0, set_media_data m (DMemory mem), buffer)
        else
          bytes ← copy_out mem offset nbytes;
          buffer ← buf_fill buffer bytes;
          Ret (0, m, buffer)
    | DFile _ => Oob
    end.

Definition media_transfer_file m (sector nsect : Z) (buffer : list Z) (write : bool)
    : outcome (Z * media * list Z) :=
  let offset := u64 (Z.shiftl sector SECTOR_SHIFT) in
  let nbytes := u64 (Z.shiftl nsect SECTOR_SHIFT) in
  if size_bytes m <? u64 (offset + nbytes) then Ret (- EIO, m, buffer)
  else
    match data m with
    | DFile f =>
        if write then
          if read_only m then Ret (- EACCES, m, buffer)
          else
            bytes ← buf_head buffer nbytes;
            let '(_, f) := kernel_write f offset bytes in
            Ret (0, set_media_data m (DFile f), buffer)
        else
          let '(_, bytes) := kernel_read f offset nbytes in
          buffer ← buf_fill buffer (take (Z.to_nat nbytes) bytes);
          Ret (0, m, buffer)
    | DMemory _ => Oob
    end.

Definition media_sync_mem m : Z * media := (0, m).
Definition media_sync_file m : outcome (Z * media) :=
  match data m with
  | DFile f => let (err, f) := vfs_fsync f in Ret (err, set_media_data m (DFile f))
  | DMemory _ => Oob
  end.

(** The functions [transfer] and [sync] point to, by the type of the medium. *)
Definition vcablk_media_transfer m (sector nsect : Z) (buffer : list Z) (write : bool)
    : outcome (Z * media * list Z) :=
  match type m with
  | VCABLK_DISK_TYPE_MEMORY => media_transfer_mem m sector nsect buffer write
  | VCABLK_DISK_TYPE_FILE => media_transfer_file m sector nsect buffer write
  | VCABLK_DISK_TYPE_UNINIT => Oob
  end.
Definition vcablk_media_sync m : outcome (Z * media) :=
  match type m with
  | VCABLK_DISK_TYPE_MEMORY => Ret (media_sync_mem m)
  | VCABLK_DISK_TYPE_FILE => media_sync_file m
  | VCABLK_DISK_TYPE_UNINIT => Oob
  end.

(** [vmalloc_ok]: whether the structure can be allocated. *)
Definition media_create (vmalloc_ok : bool) (size : Z) (path : list Z) (ro : bool) : option media :=
  if PATH_MAX <=? zlen path + 1 then None
  else if vmalloc_ok then Some (mkMedia ro size path VCABLK_DISK_TYPE_UNINIT (DMemory [])) else None.

(** [opened]: what [filp_open] gives for the path. *)
Definition vcablk_media_create_file (vmalloc_ok : bool) (opened : file + Z) (size : Z) (path : list Z)
    (ro : bool) : err_ptr media :=
  match media_create vmalloc_ok size path ro with
  | Some m =>
      match opened with
      | inl f => Ptr (mkMedia (read_only m) (size_bytes m) (file_path m) VCABLK_DISK_TYPE_FILE (DFile f))
      | inr err => ErrPtr err
      end
  | None => ErrPtr ENOMEM
  end.

(** [mem]: what the second [vmalloc] gives, an array of [size] bytes. *)
Definition vcablk_media_create_memory (vmalloc_ok : bool) (mem : option (list Z)) (size : Z) (path : list Z)
    (ro : bool) : err_ptr media :=
  match media_create vmalloc_ok size path ro with
  | Some m =>
      match mem with
      | Some bytes =>
          Ptr (mkMedia (read_only m) (size_bytes m) (file_path m) VCABLK_DISK_TYPE_MEMORY (DMemory bytes))
      | None => ErrPtr ENOMEM
      end
  | None => ErrPtr ENOMEM
  end.

Definition vcablk_media_size m : Z := size_bytes m.
Definition vcablk_media_read_only m : bool := read_only m.

(** ** Lemmas *)

(** A memory disk: the array has the size the medium claims. *)
Definition mem_disk m (mem : list Z) : Prop :=
  type m = VCABLK_DISK_TYPE_MEMORY /\ data m = DMemory mem /\ size_bytes m = zlen mem.

(** The sectors [sector], ..., [sector + nsect - 1] are on the disk. *)
Definition on_disk m (sector nsect : Z) : Prop :=
  0 <= sector /\ 0 <= nsect /\ (sector + nsect) * 512 <= size_bytes m /\ (sector + nsect) * 512 < 2 ^ 64.

(** The contents after [bytes] were put at [offset]. *)
Definition put_bytes (mem : list Z) (offset : Z) (bytes : list Z) : list Z :=
  take (Z.to_nat offset) mem ++ bytes ++ drop (Z.to_nat (offset + zlen bytes)) mem.
Definition get_bytes (mem : list Z) (offset n : Z) : list Z :=
  take (Z.to_nat n) (drop (Z.to_nat offset) mem).

Lemma shift_sector s : 0 <= s -> s * 512 < 2 ^ 64 -> u64 (Z.shiftl s SECTOR_SHIFT) = s * 512.
Proof.
  intros Hs Hb. unfold SECTOR_SHIFT. rewrite Z.shiftl_mul_pow2 by lia. change (2 ^ 9) with 512.
  apply u64_small. lia.
Qed.

Lemma zlen_put mem offset bytes :
  0 <= offset -> offset + zlen bytes <= zlen mem -> zlen (put_bytes mem offset bytes) = zlen mem.
Proof.
  unfold put_bytes, zlen. intros Ho Hl. rewrite !length_app, length_take, length_drop. lia.
Qed.

Lemma zlen_get mem offset n :
  0 <= offset -> 0 <= n -> offset + n <= zlen mem -> zlen (get_bytes mem offset n) = n.
Proof. unfold get_bytes, zlen. intros. rewrite length_take, length_drop. lia. Qed.

(** Reading back what was put, and what was not touched. *)
Lemma get_put_same mem offset bytes :
  0 <= offset -> offset + zlen bytes <= zlen mem ->
  get_bytes (put_bytes mem offset bytes) offset (zlen bytes) = bytes.
Proof.
  intros Ho Hl. unfold get_bytes, put_bytes, zlen in *. rewrite Nat2Z.id.
  rewrite drop_app_ge by (rewrite length_take; lia). rewrite length_take.
  replace (Z.to_nat offset - Z.to_nat offset `min` length mem)%nat with 0%nat by lia. rewrite drop_0.
  by rewrite take_app_length.
Qed.

Lemma put_bytes_lookup mem offset bytes i :
  0 <= offset -> offset + zlen bytes <= zlen mem -> 0 <= i ->
  put_bytes mem offset bytes !! Z.to_nat i
  = if (offset <=? i) && (i <? offset + zlen bytes) then bytes !! Z.to_nat (i - offset)
    else mem !! Z.to_nat i.
Proof.
  intros Ho Hl Hi. unfold put_bytes, zlen in *.
  destruct (Z.leb_spec offset i); simpl.
  - rewrite lookup_app_r by (rewrite length_take; lia). rewrite length_take.
    replace (Z.to_nat i - Z.to_nat offset `min` length mem)%nat with (Z.to_nat (i - offset)) by lia.
    destruct (Z.ltb_spec i (offset + Z.of_nat (length bytes))).
    + by rewrite lookup_app_l by lia.
    + rewrite lookup_app_r, lookup_drop by lia. f_equal. lia.
  - rewrite lookup_app_l by (rewrite length_take; lia). by rewrite lookup_take_lt by lia.
Qed.

Lemma get_put_other mem offset bytes o n :
  0 <= offset -> offset + zlen bytes <= zlen mem -> 0 <= o -> 0 <= n ->
  o + n <= offset \/ offset + zlen bytes <= o ->
  get_bytes (put_bytes mem offset bytes) o n = get_bytes mem o n.
Proof.
  intros Ho Hl Ho' Hn Hd. unfold get_bytes. apply list_eq. intros i. rewrite !lookup_take.
  case_decide; [|done]. rewrite !lookup_drop.
  replace (Z.to_nat o + i)%nat with (Z.to_nat (o + Z.of_nat i)) by lia.
  rewrite put_bytes_lookup by lia.
  destruct (Z.leb_spec offset (o + Z.of_nat i)), (Z.ltb_spec (o + Z.of_nat i) (offset + zlen bytes)); simpl; done || lia.
Qed.

Lemma mem_write m mem sector nsect buffer :
  mem_disk m mem -> on_disk m sector nsect -> nsect * 512 <= zlen buffer ->
  let mem' := put_bytes mem (sector * 512) (take (Z.to_nat (nsect * 512)) buffer) in
  media_transfer_mem m sector nsect buffer true = Ret (0, set_media_data m (DMemory mem'), buffer)
  /\ mem_disk (set_media_data m (DMemory mem')) mem'.
Proof.
  intros (Ht & Hd & Hs) (H0 & Hn & Hb & H64) Hl mem'. unfold media_transfer_mem.
  rewrite !shift_sector, u64_small by lia. rewrite (proj2 (Z.ltb_ge _ _)) by lia. rewrite Hd.
  unfold buf_head. rewrite (proj2 (Z.leb_le _ _)) by lia. run_bind.
  assert (zlen (take (Z.to_nat (nsect * 512)) buffer) = nsect * 512) as Hz
    by (unfold zlen in *; rewrite length_take; lia).
  unfold copy_in. rewrite (proj2 (Z.leb_le _ _)) by lia. run_bind. split; [done|].
  split; [done|]. split; [done|]. cbn. unfold mem'. rewrite zlen_put by lia. done.
Qed.

Lemma mem_read m mem sector nsect buffer :
  mem_disk m mem -> on_disk m sector nsect -> nsect * 512 <= zlen buffer ->
  media_transfer_mem m sector nsect buffer false
  = Ret (0, m, get_bytes mem (sector * 512) (nsect * 512) ++ drop (Z.to_nat (nsect * 512)) buffer).
Proof.
  intros (Ht & Hd & Hs) (H0 & Hn & Hb & H64) Hl. unfold media_transfer_mem.
  rewrite !shift_sector, u64_small by lia. rewrite (proj2 (Z.ltb_ge _ _)) by lia. rewrite Hd.
  unfold copy_out. rewrite (proj2 (Z.leb_le _ _)) by lia. run_bind. fold (get_bytes mem (sector * 512) (nsect * 512)).
  assert (zlen (get_bytes mem (sector * 512) (nsect * 512)) = nsect * 512) as Hz by (apply zlen_get; lia).
  unfold buf_fill. rewrite (proj2 (Z.leb_le _ _)) by lia. run_bind. do 4 f_equal. unfold zlen in Hz. lia.
Qed.

End Ops.

(** ** Properties *)

(** A disk of two sectors in memory, and a file system whose writes fail. *)
Definition two_sectors : vcablk_media unit :=
  mkMedia false 1024 [] VCABLK_DISK_TYPE_MEMORY (DMemory (replicate 1024 0)).
#[export] Instance failing_vfs : Vfs unit := {
  kernel_read f _ _ := (- EIO, []);
  kernel_write f _ _ := (- EIO, f);
  vfs_fsync f := (0, f);
}.

(** On a memory disk, sectors inside the disk can be written and read back:
    a read of the written sectors gives exactly the bytes of the buffer, and a
    read of any sectors apart from them gives what it gave before the write. *)
Theorem vcablk_media_write_read {file} `{Vfs file} (m : vcablk_media file) mem sector nsect buffer buffer2 :
  mem_disk m mem -> on_disk m sector nsect ->
  nsect * 512 <= zlen buffer -> nsect * 512 <= zlen buffer2 ->
  exists m', vcablk_media_transfer m sector nsect buffer true = Ret (0, m', buffer)
  /\ vcablk_media_transfer m' sector nsect buffer2 false
     = Ret (0, m', take (Z.to_nat (nsect * 512)) buffer ++ drop (Z.to_nat (nsect * 512)) buffer2)
  /\ forall s n, on_disk m s n -> n * 512 <= zlen buffer2 ->
       s + n <= sector \/ sector + nsect <= s ->
       exists r, vcablk_media_transfer m s n buffer2 false = Ret (0, m, r)
              /\ vcablk_media_transfer m' s n buffer2 false = Ret (0, m', r).
Proof.
  intros Hm Hon Hl Hl2. pose proof Hm as (Ht & Hd & Hs). pose proof Hon as (H0 & Hn & Hb & H64).
  destruct (mem_write m mem sector nsect buffer Hm Hon Hl) as (Hw & Hm').
  set (mem' := put_bytes _ _ _) in *. set (m' := set_media_data m (DMemory mem')) in *.
  assert (zlen (take (Z.to_nat (nsect * 512)) buffer) = nsect * 512) as Hz
    by (unfold zlen in *; rewrite length_take; lia).
  exists m'. unfold vcablk_media_transfer. change (type m') with (type m). rewrite Ht.
  split; [done|]. split.
  - rewrite (mem_read m' mem') by done. do 3 f_equal. unfold mem'.
    revert Hz. generalize (take (Z.to_nat (nsect * 512)) buffer). intros bytes Hz. rewrite <- Hz.
    apply get_put_same; lia.
  - intros s n Hon' Hn' Hd'. eexists. split; [by apply mem_read|].
    rewrite (mem_read m' mem') by done. do 3 f_equal. pose proof Hon' as (? & ? & ? & ?).
    unfold mem'. apply get_put_other; lia.
Qed.

Lemma vcablk_media_write_read_witness : exists m',
  vcablk_media_transfer two_sectors 1 1 (replicate 512 7) true = Ret (0, m', replicate 512 7)
  /\ vcablk_media_transfer m' 1 1 (replicate 512 3) false = Ret (0, m', replicate 512 7).
Proof.
  destruct (vcablk_media_write_read two_sectors (replicate 1024 0) 1 1 (replicate 512 7) (replicate 512 3))
    as (m' & Hw & Hr & _); try by vm_compute.
  exists m'. split; [exact Hw|exact Hr].
Defined.

(** The range check of a transfer wraps around: the last sector number of the
    64-bit address space passes it on every memory disk, and the copy goes outside
    the memory of the disk instead of returning [-EIO]. *)
Theorem vcablk_media_range_check_wraps {file} `{Vfs file} (m : vcablk_media file) mem buffer write :
  mem_disk m mem -> zlen mem < 2 ^ 63 -> 512 <= zlen buffer ->
  vcablk_media_transfer m (2 ^ 55 - 1) 1 buffer write = Oob.
Proof.
  intros (Ht & Hd & Hs) Hm Hl. unfold vcablk_media_transfer, media_transfer_mem. rewrite Ht, Hd.
  change (u64 (Z.shiftl (2 ^ 55 - 1) SECTOR_SHIFT)) with (2 ^ 64 - 512).
  change (u64 (Z.shiftl 1 SECTOR_SHIFT)) with 512. change (u64 (2 ^ 64 - 512 + 512)) with 0.
  rewrite (proj2 (Z.ltb_ge _ _)) by (rewrite Hs; apply zlen_nonneg). destruct write.
  - unfold buf_head. rewrite (proj2 (Z.leb_le _ _)) by lia. run_bind. unfold copy_in.
    pose proof (zlen_nonneg (take (Z.to_nat 512) buffer)). by rewrite (proj2 (Z.leb_gt _ _)) by lia.
  - unfold copy_out. by rewrite (proj2 (Z.leb_gt _ _)) by lia.
Qed.

Lemma vcablk_media_range_check_wraps_witness :
  vcablk_media_transfer two_sectors (2 ^ 55 - 1) 1 (replicate 512 7) true = Oob.
Proof. apply (vcablk_media_range_check_wraps two_sectors (replicate 1024 0)); by vm_compute. Defined.

(** Errors of a file disk are swallowed: whatever [kernel_write] and
    [kernel_read] report for sectors inside the disk, the transfer returns 0, so that
    a request whose data never reached the file is answered as successful. *)
Theorem vcablk_media_file_errors_lost {file} `{Vfs file} (m : vcablk_media file) f sector nsect buffer :
  type m = VCABLK_DISK_TYPE_FILE -> data m = DFile f -> read_only m = false ->
  on_disk m sector nsect -> nsect * 512 <= zlen buffer ->
  (exists m' b, vcablk_media_transfer m sector nsect buffer true = Ret (0, m', b))
  /\ (exists m' b, vcablk_media_transfer m sector nsect buffer false = Ret (0, m', b)).
Proof.
  intros Ht Hd Hro (H0 & Hn & Hb & H64) Hl. unfold vcablk_media_transfer, media_transfer_file.
  rewrite Ht, Hd, Hro. rewrite !shift_sector, u64_small by lia. rewrite (proj2 (Z.ltb_ge _ _)) by lia.
  unfold buf_head. rewrite (proj2 (Z.leb_le (nsect * 512) _)) by lia. run_bind.
  destruct (kernel_write f _ _) as (r & f'). destruct (kernel_read f _ _) as (r' & bytes). run_bind.
  split; [eauto|]. unfold buf_fill.
  assert (zlen (take (Z.to_nat (nsect * 512)) bytes) <= zlen buffer) by (unfold zlen in *; rewrite length_take; lia).
  rewrite (proj2 (Z.leb_le _ _)) by done. run_bind. eauto.
Qed.

Lemma vcablk_media_file_errors_lost_witness : exists m' b,
  vcablk_media_transfer (mkMedia false 1024 [] VCABLK_DISK_TYPE_FILE (DFile tt)) 0 1 (replicate 512 7) true
  = Ret (0, m', b).
Proof. apply (vcablk_media_file_errors_lost _ tt); by vm_compute. Defined.

(** When a medium cannot be allocated, the creators return [ERR_PTR(ENOMEM)],
    a positive number that [IS_ERR] does not recognise: the caller takes it for a
    medium. *)
Theorem vcablk_media_create_nomem_not_error {file} `{Vfs file} (opened : file + Z) mem size path ro :
  let p := vcablk_media_create_file false opened size path ro in
  let q := vcablk_media_create_memory (file := file) false mem size path ro in
  p = ErrPtr ENOMEM /\ IS_ERR p = false /\ q = ErrPtr ENOMEM /\ IS_ERR q = false.
Proof.
  cbn zeta. unfold vcablk_media_create_file, vcablk_media_create_memory, media_create.
  destruct (PATH_MAX <=? zlen path + 1); done.
Qed.

End BlkMedia.
