(* ===== verification/BlkBackend.v ===== *)
(** * The block device backend: requests

    [src/modules/vca/blockio/vcablk_bcknd/vcablk_bcknd_disk.c]: the request thread
    takes the entries of one request off the ring shared with the frontend, moves
    the data between the frontend's memory and the medium in pieces of one page,
    and queues every piece to the transfer thread, which writes it to the medium
    and answers the request with its last piece.

    The two threads interleave: before every piece the transfer thread has run
    for as many steps as [sched] says.  [now] counts the points at which something
    outside the driver decides: whether a window can be mapped, how a DMA transfer
    ends, how far the frontend has read the completion ring.  The frontend's memory
    is [fmem]; a window reaches the address it was mapped for (this is what the
    theorems of [ALut] show), so it is known by that address. *)

From Stdlib Require Import ZArith Lia.
From stdpp Require Import base list numbers option tactics.
From S2P Require Import Prelude RingBuf Pool BlkFrontend BlkMedia.
#[local] Open Scope Z_scope.

Module BlkBackend.
Import RingBuf BlkMedia.
#[local] Abbreviation vcablk_request := BlkFrontend.vcablk_request.
#[local] Abbreviation vcablk_completion := BlkFrontend.vcablk_completion.
#[local] Abbreviation vcablk_ring := BlkFrontend.vcablk_ring.

(** ** Data *)

Definition PAGE_SIZE : Z := 4096.
Definition VCABLK_MAX_PARTS_PER_REQUEST : Z := 256 + 2.
Definition VCABLK_TRANSFER_RING_SIZE : Z := 16.
Definition IOREMAP_ATTEMPTS : Z := 10.
Definition SEND_RESPONSE_CHECKS : Z := 200.
Definition DISK_STATE_CREATE : Z := 0.
Definition DISK_STATE_OPEN : Z := 2.

Record callback_param_t := mkCb {
  cb_sector : Z;
  cb_nsec : Z;
  cb_remapped : option Z;
  cb_response_cookie : Z;
  cb_is_write : bool;
  cb_do_flush : bool;
}.
(** [buffer]: the page of [buffer.buffer]. *)
Record transfer_parameters_t := mkTp { callback_param : callback_param_t; buffer : list Z }.

Inductive event :=
| EvRemap (addr : Z)
| EvUnmap (addr : Z)
| EvResponse (cookie ret : Z)
| EvIntr
| EvLeak (idx : Z).

Record vcablk_bcknd_disk (file : Type) := mkBckd {
  state : Z;
  media : vcablk_media file;
  request_ring : vcablk_ring vcablk_request;
  request_ring_nums : Z;
  request_last_used : Z;
  completion_ring : vcablk_ring vcablk_completion;
  completion_ring_num_elems : Z;
  transfer_thread : bool;
  transfer_ring : option (vcablk_ring Z);
  finishing : bool;
  transfer_buffer_pool : Pool.vcablk_pool transfer_parameters_t;
  fmem : Z -> Z;
  now : nat;
  log : list event;
}.
Arguments mkBckd {_}. Arguments state {_}. Arguments media {_}. Arguments request_ring {_}.
Arguments request_ring_nums {_}. Arguments request_last_used {_}. Arguments completion_ring {_}.
Arguments completion_ring_num_elems {_}. Arguments transfer_thread {_}. Arguments transfer_ring {_}.
Arguments finishing {_}. Arguments transfer_buffer_pool {_}. Arguments fmem {_}. Arguments now {_}. Arguments log {_}.

(** Bytes of the frontend's memory. *)
Definition read_mem (m : Z -> Z) (addr n : Z) : list Z :=
  (fun i => m (addr + i)) <$> seqZ 0 n.
Definition write_mem (m : Z -> Z) (addr : Z) (bytes : list Z) : Z -> Z :=
  fun a => if (addr <=? a) && (a <? addr + zlen bytes)
           then default 0 (bytes !! Z.to_nat (a - addr)) else m a.

Section Ops.
Context {file : Type} `{Vfs file}.
#[local] Abbreviation bckd := (vcablk_bcknd_disk file).
Implicit Types b : bckd.

Definition set_bmedia b v : bckd :=
  mkBckd (state b) v (request_ring b) (request_ring_nums b) (request_last_used b) (completion_ring b)
    (completion_ring_num_elems b) (transfer_thread b) (transfer_ring b) (finishing b) (transfer_buffer_pool b)
    (fmem b) (now b) (log b).
Definition set_request b (r : vcablk_ring vcablk_request) used : bckd :=
  mkBckd (state b) (media b) r (request_ring_nums b) used (completion_ring b)
    (completion_ring_num_elems b) (transfer_thread b) (transfer_ring b) (finishing b) (transfer_buffer_pool b)
    (fmem b) (now b) (log b).
Definition set_completion b v : bckd :=
  mkBckd (state b) (media b) (request_ring b) (request_ring_nums b) (request_last_used b) v
    (completion_ring_num_elems b) (transfer_thread b) (transfer_ring b) (finishing b) (transfer_buffer_pool b)
    (fmem b) (now b) (log b).
Definition set_tring b v : bckd :=
  mkBckd (state b) (media b) (request_ring b) (request_ring_nums b) (request_last_used b)
    (completion_ring b) (completion_ring_num_elems b) (transfer_thread b) v
    (finishing b) (transfer_buffer_pool b) (fmem b) (now b) (log b).
Definition set_pool b v : bckd :=
  mkBckd (state b) (media b) (request_ring b) (request_ring_nums b) (request_last_used b)
    (completion_ring b) (completion_ring_num_elems b) (transfer_thread b) (transfer_ring b) (finishing b) v
    (fmem b) (now b) (log b).
Definition set_fmem b v : bckd :=
  mkBckd (state b) (media b) (request_ring b) (request_ring_nums b) (request_last_used b)
    (completion_ring b) (completion_ring_num_elems b) (transfer_thread b) (transfer_ring b) (finishing b)
    (transfer_buffer_pool b) v (now b) (log b).
Definition tick b : bckd :=
  mkBckd (state b) (media b) (request_ring b) (request_ring_nums b) (request_last_used b)
    (completion_ring b) (completion_ring_num_elems b) (transfer_thread b) (transfer_ring b) (finishing b)
    (transfer_buffer_pool b) (fmem b) (S (now b)) (log b).
Definition emit b (es : list event) : bckd :=
  mkBckd (state b) (media b) (request_ring b) (request_ring_nums b) (request_last_used b)
    (completion_ring b) (completion_ring_num_elems b) (transfer_thread b) (transfer_ring b) (finishing b)
    (transfer_buffer_pool b) (fmem b) (now b) (log b ++ es).

Definition set_finishing b v : bckd :=
  mkBckd (state b) (media b) (request_ring b) (request_ring_nums b) (request_last_used b)
    (completion_ring b) (completion_ring_num_elems b) (transfer_thread b) (transfer_ring b) v
    (transfer_buffer_pool b) (fmem b) (now b) (log b).

(** A transfer parameter is designated by its index in the pool. *)
Definition get_tp b (i : Z) : outcome transfer_parameters_t :=
  aget (Pool.data (transfer_buffer_pool b)) i.
Definition set_tp b (i : Z) (tp : transfer_parameters_t) : outcome bckd :=
  l ← aset (Pool.data (transfer_buffer_pool b)) i tp;
  Ret (set_pool b (Pool.set_data (transfer_buffer_pool b) l)).

(** What the outside decides: [polled t cnt] is what [completion_ring->last_used]
    reads when [last_add] is [cnt]; [dma_sync t] the result of
    [vcablk_bcknd_dma_sync]. *)
Context (polled : nat -> Z -> Z) (ioremap_ok : nat -> bool) (dma_ch : bool) (dma_sync : nat -> Z)
  (sched : nat -> nat).

(** ** Answering *)

(** The [while] of [vcablk_bcknd_disk_send_response]: whether there is room. *)
Fixpoint wait_room (n : nat) b (last_add : Z) : bool * bckd :=
  match n with
  | O => (false, b)
  | S n =>
      if VCA_RB_BUFF_FULL last_add (polled (now b) last_add) (completion_ring_num_elems b)
      then wait_room n (tick b) last_add
      else (true, tick b)
  end.

Definition vcablk_bcknd_disk_send_response b (cookie ret : Z) : outcome (bckd * Z) :=
  let last_add := BlkFrontend.last_add (completion_ring b) in
  let '(ok, b) := wait_room (Z.to_nat SEND_RESPONSE_CHECKS) b last_add in
  if negb ok then Ret (b, - EIO)
  else
    let r := completion_ring b in
    let n := completion_ring_num_elems b in
    l ← VCABLK_RING_SET_OBJ last_add n (BlkFrontend.elems r) (BlkFrontend.mkCompletion cookie (s8 ret));
    let last_add := VCA_RB_COUNTER_ADD last_add 1 n in
    let b := set_completion b (BlkFrontend.mkVring (BlkFrontend.num_elems r) last_add
                                 (BlkFrontend.last_used r) l) in
    Ret (emit b [EvResponse cookie (s8 ret); EvIntr], 0).

(** The two halves of [vca_bcknd_complete_transfer]: writing the piece, and
    answering with the last one. *)
Definition write_piece b (tp : transfer_parameters_t) : outcome (bckd * Z) :=
  let data := callback_param tp in
  if cb_is_write data then
    '(err, m, _) ← vcablk_media_transfer (media b) (cb_sector data) (cb_nsec data) (buffer tp) true;
    Ret (set_bmedia b m, err)
  else Ret (b, 0).

Definition answer_piece b (tp : transfer_parameters_t) (err : Z) : outcome bckd :=
  let data := callback_param tp in
  if 0 <=? cb_response_cookie data then
    '(b, err) ← (if (err =? 0) && cb_do_flush data
                 then '(err, m) ← vcablk_media_sync (media b); Ret (set_bmedia b m, err)
                 else Ret (b, err));
    '(b, _) ← vcablk_bcknd_disk_send_response b (u16 (cb_response_cookie data)) err;
    Ret b
  else Ret b.

Definition vca_bcknd_complete_transfer b (i : Z) : outcome bckd :=
  tp ← get_tp b i;
  '(b, err) ← write_piece b tp;
  b ← answer_piece b tp err;
  p ← Pool.vcablk_pool_push (transfer_buffer_pool b) i;
  Ret (set_pool b p).

Definition vca_bcknd_callback_dma b (i : Z) : outcome bckd :=
  tp ← get_tp b i;
  let data := callback_param tp in
  b ← match cb_remapped data with
      | Some a =>
          set_tp (emit b [EvUnmap a]) i
            (mkTp (mkCb (cb_sector data) (cb_nsec data) None (cb_response_cookie data)
                     (cb_is_write data) (cb_do_flush data)) (buffer tp))
      | None => Ret b
      end;
  match transfer_ring b with
  | Some ring =>
      if negb (transfer_thread b) then vca_bcknd_complete_transfer b i
      else
        let size := BlkFrontend.num_elems ring in
        let last_add := BlkFrontend.last_add ring in
        let last_used := BlkFrontend.last_used ring in
        if VCA_RB_BUFF_FULL last_add last_used size then Ret (emit b [EvLeak i])
        else
          l ← VCABLK_RING_SET_OBJ last_add size (BlkFrontend.elems ring) i;
          Ret (set_tring b (Some (BlkFrontend.mkVring size (VCA_RB_COUNTER_ADD last_add 1 size) last_used l)))
  | None => vca_bcknd_complete_transfer b i
  end.

(** ** The transfer thread *)

(** One step of [vcablk_bcknd_disk_make_transfer_thread], when it is not to stop; [false] when the ring was
    empty.  A turn of the loop is two steps, because the request thread can go on as soon as the parameter is
    back in the pool: first the piece is completed, then [last_used] is written. *)
Definition transfer_turn b : outcome (bckd * bool) :=
  match transfer_ring b with
  | None => Ret (b, false)
  | Some ring =>
      let size := BlkFrontend.num_elems ring in
      if finishing b then
        Ret (set_finishing (set_tring b (Some (BlkFrontend.mkVring size (BlkFrontend.last_add ring)
               (VCA_RB_COUNTER_ADD (BlkFrontend.last_used ring) 1 size) (BlkFrontend.elems ring)))) false, true)
      else if VCA_RB_BUFF_EMPTY (BlkFrontend.last_add ring) (BlkFrontend.last_used ring) then Ret (b, false)
      else
        i ← VCABLK_RING_GET_OBJ (BlkFrontend.last_used ring) size (BlkFrontend.elems ring);
        b ← vca_bcknd_complete_transfer b i;
        Ret (set_finishing b true, true)
  end.

Fixpoint run_turns (n : nat) b : outcome bckd :=
  match n with
  | O => Ret b
  | S n => '(b, _) ← transfer_turn b; run_turns n b
  end.

(** ** Moving data *)

(** The waits of [vcablk_bcknd_get_transfer_param] end when the transfer thread
    has given a parameter back. *)
Fixpoint wait_pool (n : nat) b : outcome bckd :=
  match n with
  | O => Spin
  | S n =>
      if Pool.vcablk_is_available (transfer_buffer_pool b) then Ret b
      else '(b, progress) ← transfer_turn b; if progress : bool then wait_pool n b else Spin
  end.

Fixpoint get_transfer_param (n : nat) b : outcome (bckd * Z) :=
  match n with
  | O => Spin
  | S n =>
      '(p, i) ← Pool.vcablk_pool_pop (transfer_buffer_pool b);
      match i with
      | Some i => Ret (set_pool b p, i)
      | None => b ← wait_pool (Z.to_nat VCABLK_TRANSFER_RING_SIZE) (set_pool b p); get_transfer_param n b
      end
  end.

Definition vcablk_bcknd_get_transfer_param b : outcome (bckd * Z) := get_transfer_param 2 b.

Fixpoint ioremap_attempts (n : nat) b : bool * bckd :=
  match n with
  | O => (false, b)
  | S n => if ioremap_ok (now b) then (true, tick b) else ioremap_attempts n (tick b)
  end.

Definition vcablk_bcknd_ioremap b : bool * bckd := ioremap_attempts (Z.to_nat IOREMAP_ATTEMPTS) b.

(** The copy between the page and the window at [ptr], by the processor or by the
    DMA engine. *)
Definition move b (i ptr bytes : Z) : outcome bckd :=
  tp ← get_tp b i;
  if cb_is_write (callback_param tp) then
    buf ← buf_fill (buffer tp) (read_mem (fmem b) ptr bytes);
    set_tp b i (mkTp (callback_param tp) buf)
  else
    l ← buf_head (buffer tp) bytes;
    Ret (set_fmem b (write_mem (fmem b) ptr l)).

Definition vcablk_bcknd_transfer_device b (i ptr bytes : Z) : outcome (bckd * Z) :=
  if negb dma_ch then
    b ← move b i ptr bytes;
    b ← vca_bcknd_callback_dma b i;
    Ret (b, 0)
  else
    let ret := dma_sync (now b) in
    let b := tick b in
    if ret =? 0 then
      b ← move b i ptr bytes;
      b ← vca_bcknd_callback_dma b i;
      Ret (b, 0)
    else Ret (b, ret).

(** One turn of the [while] of [vcablk_bcknd_transfer]: the parameter for the next
    [nsec] sectors, of which [rest] remain after it. *)
Definition transfer_piece b (sector nsec rest ptr remapped : Z) (write : bool) (response_cookie : Z)
    (do_flush : bool) : outcome (bckd * Z) :=
  '(b, i) ← vcablk_bcknd_get_transfer_param b;
  tp ← get_tp b i;
  let cb := if rest =? 0 then mkCb sector nsec (Some remapped) response_cookie write do_flush
            else mkCb sector nsec None (-1) write false in
  b ← set_tp b i (mkTp cb (buffer tp));
  '(b, ret) ←
    (if negb write then
       '(ret, m, buf) ← vcablk_media_transfer (media b) sector nsec (buffer tp) false;
       b ← set_tp (set_bmedia b m) i (mkTp cb buf);
       Ret (b, ret)
     else Ret (b, 0));
  if negb (ret =? 0) then Ret (b, ret)
  else vcablk_bcknd_transfer_device b i ptr (Z.shiftl nsec SECTOR_SHIFT).

Fixpoint transfer_loop (n : nat) b (sector sectors_num ptr remapped : Z) (write : bool)
    (response_cookie : Z) (do_flush : bool) : outcome (bckd * Z) :=
  if sectors_num =? 0 then Ret (b, 0)
  else
    match n with
    | O => Spin
    | S n =>
        b ← run_turns (sched (now b)) (tick b);
        let nsec := Z.min sectors_num (Z.shiftr PAGE_SIZE SECTOR_SHIFT) in
        let rest := sectors_num - nsec in
        '(b, ret) ← transfer_piece b sector nsec rest ptr remapped write response_cookie do_flush;
        if negb (ret =? 0) then Ret (b, ret)
        else transfer_loop n b (u64 (sector + nsec)) rest (u64 (ptr + Z.shiftl nsec SECTOR_SHIFT)) remapped
               write response_cookie do_flush
    end.

Definition vcablk_bcknd_transfer b (sector sectors_num phys_buff : Z) (write : bool)
    (response_cookie : Z) (do_flush : bool) : outcome (bckd * Z) :=
  let '(ok, b) := vcablk_bcknd_ioremap b in
  if negb ok then Ret (b, - EIO)
  else
    let b := emit b [EvRemap phys_buff] in
    '(b, ret) ← transfer_loop (Z.to_nat ((sectors_num + 7) / 8)) b
                  sector sectors_num phys_buff phys_buff write response_cookie do_flush;
    if negb (ret =? 0) then Ret (emit b [EvUnmap phys_buff], ret) else Ret (b, ret).

(** ** Requests *)

(** The results of [vcablk_bcknd_disk_request_get_info]. *)
Record req_info := mkInfo {
  i_cookie : Z;
  i_type : Z;
  i_sector : Z;
  i_sectors_num : Z;
  i_sync_before : bool;
  i_sync_after : bool;
}.

(** The consistency check: the error, and the number of sectors; [id] is the
    index of the first part of [l]. *)
Fixpoint check_parts (l : list vcablk_request) (id size cookie ty check_sector num : Z) : Z * Z :=
  match l with
  | [] => (0, num)
  | r :: l =>
      if negb (cookie =? BlkFrontend.cookie r) then (- EIO, num)
      else if (BlkFrontend.request_type r =? BlkFrontend.REQUEST_SYNC)
              && ((id =? 0) || (id + 1 =? size))
      then check_parts l (id + 1) size cookie ty check_sector num
      else if negb (ty =? BlkFrontend.request_type r) then (- EIO, num)
      else if negb (check_sector =? BlkFrontend.sector r) then (- EIO, num)
      else check_parts l (id + 1) size cookie ty (u64 (check_sector + BlkFrontend.sectors_num r))
             (u64 (num + BlkFrontend.sectors_num r))
  end.

(** [buff] holds the [size] parts of the request. *)
Definition vcablk_bcknd_disk_request_get_info (buff : list vcablk_request) : outcome (Z * req_info) :=
  let size := zlen buff in
  if size =? 0 then Ret (- EIO, mkInfo 0 0 0 0 false false)
  else
    request ← aget buff 0;
    lst ← aget buff (size - 1);
    let cookie := BlkFrontend.cookie request in
    let sync_after := BlkFrontend.request_type lst =? BlkFrontend.REQUEST_SYNC in
    if (BlkFrontend.request_type request =? BlkFrontend.REQUEST_SYNC) && (size =? 1)
    then Ret (0, mkInfo cookie BlkFrontend.REQUEST_SYNC 0 0 false sync_after)
    else
      let sync_before := BlkFrontend.request_type request =? BlkFrontend.REQUEST_SYNC in
      request ← (if sync_before then aget buff 1 else Ret request);
      let check_sector := BlkFrontend.sector request in
      let ty := BlkFrontend.request_type request in
      if negb ((ty =? BlkFrontend.REQUEST_READ) || (ty =? BlkFrontend.REQUEST_WRITE)
               || (ty =? BlkFrontend.REQUEST_SYNC))
      then Ret (- EIO, mkInfo cookie ty check_sector 0 sync_before sync_after)
      else
        let '(err, num) := check_parts buff 0 size cookie ty check_sector 0 in
        Ret (err, mkInfo cookie ty check_sector num sync_before sync_after).

(** The [for] over the parts from [id] on; [n] are left. *)
Fixpoint parts_loop (n : nat) b (buff : list vcablk_request) (id end_id : Z) (write : bool)
    (req_cookie : Z) (sync_after : bool) : outcome (bckd * Z) :=
  match n with
  | O => Ret (b, 0)
  | S n =>
      request ← aget buff id;
      let lst := end_id <=? id + 1 in
      '(b, err) ← vcablk_bcknd_transfer b (BlkFrontend.sector request) (BlkFrontend.sectors_num request)
                    (BlkFrontend.phys_buff request) write
                    (if lst then req_cookie else -1) (if lst then sync_after else false);
      if negb (err =? 0) then Ret (b, err)
      else parts_loop n b buff (id + 1) end_id write req_cookie sync_after
  end.

Definition send_error b (cookie err : Z) : outcome (bckd * Z) :=
  '(b, _) ← vcablk_bcknd_disk_send_response b cookie err; Ret (b, err).

Definition vcablk_bcknd_disk_request b (buff : list vcablk_request) : outcome (bckd * Z) :=
  let size := zlen buff in
  '(err, info) ← vcablk_bcknd_disk_request_get_info buff;
  if negb (err =? 0) then send_error b (i_cookie info) err
  else
    let write := i_type info =? BlkFrontend.REQUEST_WRITE in
    '(b, err) ← (if i_sync_before info
                 then '(err, m) ← vcablk_media_sync (media b); Ret (set_bmedia b m, err)
                 else Ret (b, 0));
    if i_sync_before info && (negb (err =? 0) || (size =? 1))
    then send_error b (i_cookie info) err
    else
      let id := if i_sync_before info then 1 else 0 in
      let end_id := if i_sync_after info then size - 1 else size in
      '(b, err) ← parts_loop (Z.to_nat (end_id - id)) b buff id end_id write (i_cookie info)
                    (i_sync_after info);
      if negb (err =? 0) then send_error b (i_cookie info) err else Ret (b, err).

(** The [for] of [vcablk_bcknd_disk_get_next_request]: the new [last_used] and
    the parts. *)
Fixpoint next_loop (n : nat) (elems : list vcablk_request) (nums last_used last_add cookie : Z)
    (parts : list vcablk_request) : outcome (Z * list vcablk_request) :=
  if (last_used =? last_add) || (VCABLK_MAX_PARTS_PER_REQUEST <=? zlen parts) then Ret (last_used, parts)
  else
    match n with
    | O => Spin
    | S n =>
        r ← VCABLK_RING_GET_OBJ last_used nums elems;
        let next := VCA_RB_COUNTER_ADD last_used 1 nums in
        let c := BlkFrontend.cookie r in
        let fresh := cookie =? 0 in
        let cookie := if fresh then c else cookie in
        if fresh && (cookie =? 0) then next_loop n elems nums next last_add cookie parts
        else if negb (cookie =? c) then Ret (last_used, parts)
        else next_loop n elems nums next last_add cookie (parts ++ [r])
    end.

Definition vcablk_bcknd_disk_get_next_request b : outcome (bckd * list vcablk_request) :=
  let ring := request_ring b in
  let last_add := BlkFrontend.last_add ring in
  if negb (request_last_used b =? last_add) then
    '(last_used, parts) ← next_loop (Z.to_nat (2 * request_ring_nums b)) (BlkFrontend.elems ring)
                            (request_ring_nums b) (request_last_used b) last_add 0 [];
    Ret (set_request b (BlkFrontend.mkVring (BlkFrontend.num_elems ring) last_add last_used
                          (BlkFrontend.elems ring)) last_used, parts)
  else Ret (b, []).

(** The inner [while] of [vcablk_bcknd_disk_make_request_thread]. *)
Fixpoint request_loop (n : nat) b (last_add : Z) : outcome bckd :=
  if last_add =? request_last_used b then Ret b
  else
    match n with
    | O => Spin
    | S n =>
        '(b, parts) ← vcablk_bcknd_disk_get_next_request b;
        b ← (if negb (zlen parts =? 0) then '(b, _) ← vcablk_bcknd_disk_request b parts; Ret b else Ret b);
        request_loop n b last_add
    end.

(** One turn of the thread, when it is not to stop. *)
Definition request_turn b : outcome bckd :=
  if negb (state b =? DISK_STATE_OPEN) then Ret b
  else request_loop (Z.to_nat (2 * request_ring_nums b)) b (BlkFrontend.last_add (request_ring b)).

End Ops.

(** ** The abstract backend

    What the transfer thread still has to do is fixed once a piece is queued: it
    will write the piece to the medium and answer the request with the last
    piece.  The abstract state is what the medium and the answers will be when
    the queue has been worked off; turns of the transfer thread do not change it. *)

Record piece := mkPiece {
  p_sector : Z;
  p_nsec : Z;
  p_write : bool;
  p_bytes : list Z;
  p_cookie : Z;
  p_flush : bool;
}.

Definition abs_piece (tp : transfer_parameters_t) : piece :=
  let cb := callback_param tp in
  mkPiece (cb_sector cb) (cb_nsec cb) (cb_is_write cb)
    (if cb_is_write cb then take (Z.to_nat (cb_nsec cb * 512)) (buffer tp) else [])
    (cb_response_cookie cb) (cb_do_flush cb).

Definition responses (l : list event) : list (Z * Z) :=
  omap (fun e => match e with EvResponse c r => Some (c, r) | _ => None end) l.

(** The mapped windows. *)
Definition windows (l : list event) : list event :=
  omap (fun e => match e with EvRemap a => Some (EvRemap a) | EvUnmap a => Some (EvUnmap a) | _ => None end) l.

Section Abstract.
Context {file : Type} `{Vfs file}.
#[local] Abbreviation bckd := (vcablk_bcknd_disk file).
#[local] Abbreviation vmedia := (vcablk_media file).
Implicit Types b : bckd.

(** Writing a piece, flushing, answering. *)
Definition do_write (m : vmedia) (p : piece) : vmedia * Z :=
  if p_write p then
    match vcablk_media_transfer m (p_sector p) (p_nsec p) (p_bytes p) true with
    | Ret (err, m, _) => (m, err)
    | _ => (m, 0)
    end
  else (m, 0).
Definition do_flush (m : vmedia) (err : Z) (p : piece) : vmedia * Z :=
  if (err =? 0) && p_flush p then
    match vcablk_media_sync m with Ret (err, m) => (m, err) | _ => (m, err) end
  else (m, err).
Definition effect (v : vmedia * list (Z * Z)) (p : piece) : vmedia * list (Z * Z) :=
  let '(m, rs) := v in
  let '(m, err) := do_write m p in
  if 0 <=? p_cookie p then
    let '(m, err) := do_flush m err p in (m, rs ++ [(u16 (p_cookie p), s8 err)])
  else (m, rs).

Definition tps b (q : list Z) : list transfer_parameters_t :=
  omap (fun i => Pool.data (transfer_buffer_pool b) !! Z.to_nat i) q.
(** The pieces that are still in the queue. *)
Definition pending b (q : list Z) : list piece := abs_piece <$> tps b q.
Definition view b (q : list Z) : vmedia * list (Z * Z) :=
  foldl effect (media b, responses (log b)) (abs_piece <$> tps b q).

(** A medium that has what its type says. *)
Definition media_wf (m : vmedia) : Prop :=
  (exists mem, mem_disk m mem) \/ (type m = VCABLK_DISK_TYPE_FILE /\ exists f, data m = DFile f).

Definition no_wrap (sector nsec : Z) : Prop :=
  0 <= sector /\ 0 <= nsec /\ (sector + nsec) * 512 < 2 ^ 64.

(** A transfer whose range does not wrap returns, whatever the medium. *)
Lemma transfer_total m sector nsec buf w :
  media_wf m -> no_wrap sector nsec -> nsec * 512 <= zlen buf ->
  exists err m' buf', vcablk_media_transfer m sector nsec buf w = Ret (err, m', buf')
    /\ media_wf m' /\ zlen buf' = zlen buf /\ (w = true -> buf' = buf) /\ (w = false -> m' = m)
    /\ size_bytes m' = size_bytes m.
Proof.
  intros Hm (Hs & Hn & Hw) Hl. unfold vcablk_media_transfer.
  destruct Hm as [(mem & Hm)|(Ht & f & Hf)].
  - pose proof Hm as (Ht & Hd & Hz). rewrite Ht.
    destruct (decide (on_disk m sector nsec)) as [Hon|Hoff]. 
    + destruct w.
      * destruct (mem_write m mem sector nsec buf Hm Hon Hl) as (-> & Hm').
        do 3 eexists. split; [done|]. split; [left; eauto|]. done.
      * rewrite (mem_read m mem sector nsec buf Hm Hon Hl). do 3 eexists.
        split; [done|]. split; [left; eauto|]. destruct Hon as (? & ? & ? & ?). split; [|done].
        rewrite zlen_app, zlen_get by lia. unfold zlen in *. rewrite length_drop. lia.
    + unfold media_transfer_mem. rewrite !shift_sector, u64_small by lia.
      rewrite (proj2 (Z.ltb_lt _ _)) by (unfold on_disk in Hoff; lia).
      do 3 eexists. split; [done|]. split; [left; eauto|]. done.
  - rewrite Ht. unfold media_transfer_file. rewrite !shift_sector, u64_small by lia. rewrite Hf.
    assert (media_wf m) as Hwf by (right; eauto).
    destruct (size_bytes m <? _); [do 3 eexists; split; [done|]; done|].
    destruct w.
    + destruct (read_only m); [do 3 eexists; split; [done|]; done|].
      unfold buf_head. rewrite (proj2 (Z.leb_le _ _)) by lia. run_bind.
      destruct (kernel_write f _ _) as (r & f'). do 3 eexists. split; [done|]. split; [right; eauto|]. done.
    + destruct (kernel_read f _ _) as (r & l). unfold buf_fill.
      assert (length (take (Z.to_nat (nsec * 512)) l) <= length buf)%nat
        by (rewrite length_take; unfold zlen in Hl; lia).
      rewrite (proj2 (Z.leb_le _ _)) by (unfold zlen; lia). run_bind.
      do 3 eexists. split; [done|]. split; [done|]. split; [|done].
      rewrite zlen_app. unfold zlen. rewrite length_drop. lia.
Qed.

Lemma sync_total m : media_wf m -> exists err m', vcablk_media_sync m = Ret (err, m')
  /\ media_wf m' /\ size_bytes m' = size_bytes m.
Proof.
  unfold vcablk_media_sync. intros [(mem & Hm)|(Ht & f & Hf)].
  - destruct Hm as (Ht & Hm). rewrite Ht. do 2 eexists. split; [done|]. split; [left; exists mem; done|done].
  - rewrite Ht. unfold media_sync_file. rewrite Hf. destruct (vfs_fsync f) as (err & f').
    do 2 eexists. split; [done|]. split; [right; eauto|done].
Qed.

(** Only the bytes of the range are looked at. *)
Lemma transfer_prefix m sector nsec buf :
  no_wrap sector nsec -> nsec * 512 <= zlen buf ->
  (fun x => (x.1.1, x.1.2)) <$> returned (vcablk_media_transfer m sector nsec (take (Z.to_nat (nsec * 512)) buf) true)
  = (fun x => (x.1.1, x.1.2)) <$> returned (vcablk_media_transfer m sector nsec buf true).
Proof.
  intros (Hs & Hn & Hw) Hl. unfold vcablk_media_transfer, media_transfer_mem, media_transfer_file.
  rewrite !shift_sector, u64_small by lia.
  assert (buf_head (take (Z.to_nat (nsec * 512)) buf) (nsec * 512) = buf_head buf (nsec * 512)) as ->.
  { unfold buf_head, zlen in *. rewrite length_take. rewrite !(proj2 (Z.leb_le _ _)) by lia.
    by rewrite take_take, Nat.min_id. }
  destruct (type m); [done| |]; destruct (size_bytes m <? _), (data m) as [mem|f]; try done.
  - destruct (read_only m); [done|]. destruct (buf_head _ _); try done. run_bind.
    by destruct (kernel_write f _ _).
  - destruct (buf_head _ _); try done. run_bind. by destruct (copy_in _ _ _).
Qed.

(** *** The invariant *)

(** The transfer ring holds the parameters [q], oldest first. *)
Record ring_holds (ring : vcablk_ring Z) (q : list Z) : Prop := {
  rh_num : BlkFrontend.num_elems ring = 16;
  rh_len : zlen (BlkFrontend.elems ring) = 16;
  rh_at : exists u, BlkFrontend.last_used ring = cnt_of 16 u
    /\ BlkFrontend.last_add ring = cnt_of 16 (u + zlen q)
    /\ forall j i, q !! j = Some i -> holds 16 (BlkFrontend.elems ring) (u + Z.of_nat j) i;
}.

Definition tp_ok (tp : transfer_parameters_t) : Prop :=
  no_wrap (cb_sector (callback_param tp)) (cb_nsec (callback_param tp))
  /\ cb_nsec (callback_param tp) <= 8.

(** [free]: the parameters in the pool; [q]: those in the transfer ring, behind the one that is already back in
    the pool while the transfer thread has not yet written [last_used]; [held]: those the request thread has taken
    and not queued.  [csize] is the size of the completion ring. *)
Record backend_inv (csize : Z) b (free q held : list Z) : Prop := {
  bi_pool : Pool.pool_inv (transfer_buffer_pool b) free;
  bi_num : Pool.num (transfer_buffer_pool b) = 16;
  bi_perm : Permutation (free ++ q ++ held) (Pool.ids 0 16);
  bi_thread : transfer_thread b = true;
  bi_ring : exists ring old, transfer_ring b = Some ring /\ ring_holds ring (old ++ q)
    /\ length old = if finishing b then 1%nat else 0%nat;
  bi_bufs : Forall (fun tp => zlen (buffer tp) = 4096) (Pool.data (transfer_buffer_pool b));
  bi_media : media_wf (media b);
  bi_comp : completion_ring_num_elems b = csize /\ pow2 csize /\ csize <= 2 ^ 15
    /\ zlen (BlkFrontend.elems (completion_ring b)) = csize
    /\ exists a, BlkFrontend.last_add (completion_ring b) = cnt_of csize a;
  bi_queued : forall i, i ∈ q -> exists tp,
    Pool.data (transfer_buffer_pool b) !! Z.to_nat i = Some tp /\ tp_ok tp;
}.

Arguments bi_pool {csize} b free q held _.
Arguments bi_num {csize} b free q held _.
Arguments bi_perm {csize} b free q held _.
Arguments bi_thread {csize} b free q held _.
Arguments bi_ring {csize} b free q held _.
Arguments bi_bufs {csize} b free q held _.
Arguments bi_media {csize} b free q held _.
Arguments bi_comp {csize} b free q held _.
Arguments bi_queued {csize} b free q held _.

(** The answers are in the completion ring: entry [a + j] is answer [j], and [last_add] is behind the
    last one.  The last [completion_ring_num_elems b] of them have not been overwritten. *)
Definition published b (a : Z) : Prop :=
  let rs := responses (log b) in
  let n := completion_ring_num_elems b in
  BlkFrontend.last_add (completion_ring b) = cnt_of n (a + zlen rs)
  /\ forall j c r, rs !! j = Some (c, r) -> zlen rs - n <= Z.of_nat j ->
       holds n (BlkFrontend.elems (completion_ring b)) (a + Z.of_nat j) (BlkFrontend.mkCompletion c r).

Lemma pow2_16 : pow2 16.
Proof. exists 4. split; [lia|reflexivity]. Qed.

Lemma ids_16 i : i ∈ Pool.ids 0 16 <-> 0 <= i < 16.
Proof. rewrite Pool.ids_elem. lia. Qed.

(** A parameter that is not free can be given back. *)
Lemma binv_notfree csize b free q held i :
  backend_inv csize b free q held -> i ∈ q ++ held -> (i ∉ free) /\ 0 <= i < 16.
Proof.
  intros Hb Hi. pose proof (bi_perm _ _ _ _ Hb) as Hp.
  assert (NoDup (free ++ q ++ held)) as Hnd by (rewrite Hp; apply Pool.ids_nodup).
  apply list.NoDup_app in Hnd as (_ & Hd & _). split; [intros Hf; by apply (Hd i)|].
  apply ids_16. rewrite <- Hp. apply elem_of_app. by right.
Qed.

Lemma binv_length csize b free q held :
  backend_inv csize b free q held -> (length free + length q + length held = 16)%nat /\ free <> [].
Proof.
  intros Hb. pose proof (Permutation_length (bi_perm _ _ _ _ Hb)) as Hl. rewrite !length_app in Hl.
  split; [change (length (Pool.ids 0 16)) with 16%nat in Hl; lia|].
  intros ->. pose proof (Pool.pi_head _ _ (bi_pool _ _ _ _ Hb)). done.
Qed.

Lemma ring_push ring q i :
  ring_holds ring q -> zlen q < 16 ->
  exists l, VCABLK_RING_SET_OBJ (BlkFrontend.last_add ring) 16 (BlkFrontend.elems ring) i = Ret l
    /\ VCA_RB_BUFF_FULL (BlkFrontend.last_add ring) (BlkFrontend.last_used ring) 16 = false
    /\ ring_holds (BlkFrontend.mkVring 16 (VCA_RB_COUNTER_ADD (BlkFrontend.last_add ring) 1 16)
                     (BlkFrontend.last_used ring) l) (q ++ [i]).
Proof.
  intros [Hn Hl (u & Hu & Ha & Hq)] Hlt. pose proof (zlen_nonneg q).
  destruct (ring_set 16 pow2_16 (BlkFrontend.elems ring) (u + zlen q) i Hl) as (l & Hset & Hl' & Hat & Hfr).
  exists l. rewrite Ha. split; [done|]. split.
  { rewrite Hu, rb_full_sym, (rb_full 16 pow2_16) by lia. apply Z.eqb_neq. lia. }
  split; cbn; [done|done|]. exists u. split; [done|]. split.
  { rewrite (rb_add 16 pow2_16), zlen_app, zlen_cons. unfold zlen at 3. simpl length. f_equal. lia. }
  intros j x Hj. destruct (decide (j < length q)%nat) as [Hlt'|Hge].
  - rewrite lookup_app_l in Hj by done. apply Hfr; [unfold zlen in *; lia|by apply Hq].
  - rewrite lookup_app_r in Hj by lia. destruct (j - length q)%nat eqn:E; simpl in Hj; [|done].
    injection Hj as <-. replace (u + Z.of_nat j) with (u + zlen q) by (unfold zlen; lia). done.
Qed.

Lemma ring_pop ring i q :
  ring_holds ring (i :: q) -> (length q < 16)%nat ->
  VCA_RB_BUFF_EMPTY (BlkFrontend.last_add ring) (BlkFrontend.last_used ring) = false
  /\ VCABLK_RING_GET_OBJ (BlkFrontend.last_used ring) 16 (BlkFrontend.elems ring) = Ret i
  /\ ring_holds (BlkFrontend.mkVring 16 (BlkFrontend.last_add ring)
                   (VCA_RB_COUNTER_ADD (BlkFrontend.last_used ring) 1 16) (BlkFrontend.elems ring)) q.
Proof.
  intros [Hn Hl (u & Hu & Ha & Hq)] Hlt. rewrite zlen_cons in Ha.
  split; [|split].
  - rewrite empty_sym, Hu, Ha, (rb_empty 16 pow2_16) by (unfold zlen; lia). apply Z.eqb_neq.
    pose proof (zlen_nonneg q). lia.
  - rewrite Hu. apply (ring_get 16 pow2_16). specialize (Hq 0%nat i eq_refl). by rewrite Z.add_0_r in Hq.
  - split; cbn; [done|done|]. exists (u + 1). split; [by rewrite Hu, (rb_add 16 pow2_16)|].
    split; [rewrite Ha; f_equal; lia|]. intros j x Hj. specialize (Hq (S j) x Hj).
    by replace (u + 1 + Z.of_nat j) with (u + Z.of_nat (S j)) by lia.
Qed.

Lemma ring_nil ring : ring_holds ring [] ->
  VCA_RB_BUFF_EMPTY (BlkFrontend.last_add ring) (BlkFrontend.last_used ring) = true.
Proof. intros [_ _ (u & -> & -> & _)]. unfold zlen. simpl. rewrite Z.add_0_r. apply Z.eqb_refl. Qed.

(** The views only look at the medium, the answers and the queued parameters. *)
Lemma tps_ext b b' q :
  (forall i, i ∈ q -> Pool.data (transfer_buffer_pool b') !! Z.to_nat i
                      = Pool.data (transfer_buffer_pool b) !! Z.to_nat i) -> tps b' q = tps b q.
Proof.
  unfold tps. induction q as [|i q IH]; intros Hq; [done|]. simpl. rewrite (Hq i) by left.
  destruct (_ !! Z.to_nat i); [f_equal|]; apply IH; intros j Hj; apply Hq; by right.
Qed.

Lemma view_cons b i q tp :
  Pool.data (transfer_buffer_pool b) !! Z.to_nat i = Some tp ->
  view b (i :: q) = foldl effect (effect (media b, responses (log b)) (abs_piece tp)) (abs_piece <$> tps b q).
Proof. intros Hi. unfold view, tps. simpl. by rewrite Hi. Qed.

Lemma view_snoc b q i tp :
  Pool.data (transfer_buffer_pool b) !! Z.to_nat i = Some tp ->
  view b (q ++ [i]) = effect (view b q) (abs_piece tp).
Proof.
  intros Hi. unfold view, tps. rewrite omap_app. simpl. rewrite Hi. rewrite fmap_app, foldl_app. done.
Qed.
End Abstract.
Arguments bi_pool {file csize} b free q held _.
Arguments bi_num {file csize} b free q held _.
Arguments bi_perm {file csize} b free q held _.
Arguments bi_thread {file csize} b free q held _.
Arguments bi_ring {file csize} b free q held _.
Arguments bi_bufs {file csize} b free q held _.
Arguments bi_media {file csize} b free q held _.
Arguments bi_comp {file csize} b free q held _.
Arguments bi_queued {file csize} b free q held _.

(** ** The threads implement it *)

Section Refine.
Context {file : Type} `{Vfs file}.
#[local] Abbreviation bckd := (vcablk_bcknd_disk file).
Implicit Types b : bckd.
Context (polled : nat -> Z -> Z) (ioremap_ok : nat -> bool) (dma_ch : bool) (dma_sync : nat -> Z)
  (sched : nat -> nat).
(** The completion ring has [csize] entries, and the frontend takes answers off before it is full. *)
Context (csize : Z) (Hroom : forall t cnt, VCA_RB_BUFF_FULL cnt (polled t cnt) csize = false).
#[local] Abbreviation binv := (backend_inv csize).

(** What the transfer of data leaves alone. *)
Record kept b b' : Prop := {
  kp_state : state b' = state b;
  kp_request : request_ring b' = request_ring b;
  kp_nums : request_ring_nums b' = request_ring_nums b;
  kp_used : request_last_used b' = request_last_used b;
  kp_comp : completion_ring_num_elems b' = completion_ring_num_elems b;
  kp_size : size_bytes (media b') = size_bytes (media b);
  kp_pub : forall a, published b a -> published b' a;
}.
#[local] Instance kept_preorder : PreOrder kept.
Proof. split; [by split|]. intros a b c [] []. split; try congruence. auto. Qed.

(** The completion ring can be written. *)
Definition comp_ok b : Prop :=
  completion_ring_num_elems b = csize /\ pow2 csize /\ csize <= 2 ^ 15
  /\ zlen (BlkFrontend.elems (completion_ring b)) = csize
  /\ exists a, BlkFrontend.last_add (completion_ring b) = cnt_of csize a.

Lemma send_response_ok b c r :
  comp_ok b ->
  exists ring, let b' := emit (set_completion (tick b) ring) [EvResponse c (s8 r); EvIntr] in
    vcablk_bcknd_disk_send_response polled b c r = Ret (b', 0)
    /\ comp_ok (set_completion b ring) /\ forall a, published b a -> published b' a.
Proof.
  intros (Hn & Hp & Hle & Hl & a & Ha). unfold vcablk_bcknd_disk_send_response.
  change (Z.to_nat SEND_RESPONSE_CHECKS) with (S 199). cbn [wait_room]. rewrite Hn, Hroom. cbn [negb].
  cbn [completion_ring completion_ring_num_elems tick]. rewrite Hn.
  destruct (ring_set csize Hp (BlkFrontend.elems (completion_ring b)) a (BlkFrontend.mkCompletion c (s8 r)) Hl)
    as (l & Hset & Hl' & _). rewrite Ha. rewrite Hset. run_bind. rewrite (rb_add csize Hp).
  eexists. split; [done|]. split; [do 4 (split; [done|]); by exists (a + 1)|].
  intros a0 (Hla & Hpub). unfold published in *. cbn [log emit set_completion tick completion_ring completion_ring_num_elems].
  unfold responses in *. rewrite omap_app. cbn [omap list_omap]. set (rs := omap _ (log b)) in *.
  rewrite Hn in *. rewrite Ha in Hla. rewrite zlen_app. change (zlen [(c, s8 r)]) with 1. cbn [BlkFrontend.last_add BlkFrontend.elems].
  destruct (ring_set csize Hp (BlkFrontend.elems (completion_ring b)) (a0 + zlen rs) (BlkFrontend.mkCompletion c (s8 r)) Hl)
    as (l2 & Hset2 & _ & Hat & Hfr). rewrite <- Hla, Hset in Hset2. injection Hset2 as <-.
  split; [rewrite Z.add_assoc, <- (rb_add csize Hp a), Hla; by rewrite (rb_add csize Hp)|].
  intros j c' r' Hj Hlt. pose proof (lookup_lt_Some _ _ _ Hj) as Hjl. rewrite length_app in Hjl. cbn [length] in Hjl.
  destruct (decide (j = length rs)) as [->|Hne].
  - rewrite lookup_app_r, Nat.sub_diag in Hj by lia. injection Hj as <- <-. exact Hat.
  - rewrite lookup_app_l in Hj by lia. apply Hfr; [unfold zlen in *; lia|]. apply Hpub; [done|lia].
Qed.

(** What happens to a disk besides its answers does not touch them. *)
Lemma published_emit b es a : responses es = [] -> published b a -> published (emit b es) a.
Proof.
  intros He. unfold published, responses in *. cbn [log emit completion_ring completion_ring_num_elems].
  by rewrite omap_app, He, app_nil_r.
Qed.

Lemma kept_emit b es : responses es = [] -> kept b (emit b es).
Proof. intros He. split; try done. intros a. by apply published_emit. Qed.

Lemma kept_remap b addr b' : kept (emit (tick b) [EvRemap addr]) b' -> kept b b'.
Proof. intros Hk. transitivity (tick b); [by split|]. etrans; [by apply (kept_emit (tick b) [EvRemap addr])|done]. Qed.

Lemma push_num {A} (p p' : Pool.vcablk_pool A) i :
  Pool.vcablk_pool_push p i = Ret p' -> Pool.num p' = Pool.num p.
Proof. unfold Pool.vcablk_pool_push. intros Hp. inv_ret. by subst p'. Qed.

Lemma pop_num {A} (p p' : Pool.vcablk_pool A) i :
  Pool.vcablk_pool_pop p = Ret (p', i) -> Pool.num p' = Pool.num p.
Proof. unfold Pool.vcablk_pool_pop. destruct (negb _); intros Hp; inv_ret; by subst p'. Qed.

Lemma write_piece_ok b tp :
  media_wf (media b) -> zlen (buffer tp) = 4096 -> tp_ok tp ->
  exists m err, write_piece b tp = Ret (set_bmedia b m, err)
    /\ do_write (media b) (abs_piece tp) = (m, err) /\ media_wf m /\ size_bytes m = size_bytes (media b).
Proof.
  intros Hm Hbuf (Hnw & H8). unfold write_piece, do_write, abs_piece.
  set (cb := callback_param tp) in *. cbn [p_write p_sector p_nsec p_bytes].
  destruct (cb_is_write cb); [|exists (media b), 0; by destruct b].
  destruct (transfer_total (media b) (cb_sector cb) (cb_nsec cb) (buffer tp) true)
    as (err & m & buf & He & Hwf & _ & _ & _ & Hsz); [done|done|lia|].
  pose proof (transfer_prefix (media b) (cb_sector cb) (cb_nsec cb) (buffer tp) Hnw ltac:(lia)) as Hpre.
  rewrite He in Hpre |- *. run_bind. exists m, err.
  destruct (vcablk_media_transfer _ _ _ (take _ _) _) as [((e' & m') & buf')| | |]; try discriminate.
  cbn in Hpre. injection Hpre as -> ->. done.
Qed.

Lemma answer_piece_ok b tp m err :
  media_wf (media b) -> comp_ok b -> do_write m (abs_piece tp) = (media b, err) ->
  exists b2, answer_piece polled b tp err = Ret b2
    /\ kept b b2 /\ transfer_thread b2 = transfer_thread b /\ transfer_ring b2 = transfer_ring b
    /\ fmem b2 = fmem b /\ windows (log b2) = windows (log b)
    /\ transfer_buffer_pool b2 = transfer_buffer_pool b /\ media_wf (media b2) /\ comp_ok b2
    /\ (media b2, responses (log b2)) = effect (m, responses (log b)) (abs_piece tp).
Proof.
  intros Hwf Hc Hdw. unfold answer_piece, effect. rewrite Hdw.
  change (p_cookie (abs_piece tp)) with (cb_response_cookie (callback_param tp)).
  destruct (0 <=? cb_response_cookie _); [|by exists b].
  assert (exists m2 err2, (if (err =? 0) && cb_do_flush (callback_param tp)
        then '(err, m) ← vcablk_media_sync (media b); Ret (set_bmedia b m, err)
        else Ret (b, err)) = Ret (set_bmedia b m2, err2)
      /\ do_flush (media b) err (abs_piece tp) = (m2, err2) /\ media_wf m2
      /\ size_bytes m2 = size_bytes (media b)) as (m2 & err2 & -> & -> & Hwf2 & Hsz2).
  { unfold do_flush. change (p_flush (abs_piece tp)) with (cb_do_flush (callback_param tp)).
    destruct ((err =? 0) && _); [|exists (media b), err; by destruct b].
    destruct (sync_total (media b) Hwf) as (e2 & m2 & -> & Hw2 & Hs2). run_bind. by exists m2, e2. }
  run_bind. destruct (send_response_ok (set_bmedia b m2) (u16 (cb_response_cookie (callback_param tp))) err2 Hc)
    as (ring & -> & Hc2 & Hpub). run_bind. eexists. split; [done|].
  split; [done|]. split; [done|]. split; [done|]. split; [done|].
  split; [cbn; unfold windows; rewrite omap_app; apply app_nil_r|]. split; [done|].
  split; [done|]. split; [done|]. cbn. unfold responses. by rewrite omap_app.
Qed.

(** A completed piece: the medium and the answers are those of [effect]. *)
Lemma complete_ok b free i tp :
  Pool.pool_inv (transfer_buffer_pool b) free -> 0 <= i < Pool.num (transfer_buffer_pool b) -> (i ∉ free) ->
  Pool.data (transfer_buffer_pool b) !! Z.to_nat i = Some tp -> zlen (buffer tp) = 4096 -> tp_ok tp ->
  media_wf (media b) -> comp_ok b ->
  exists b', vca_bcknd_complete_transfer polled b i = Ret b'
    /\ kept b b' /\ transfer_thread b' = transfer_thread b /\ transfer_ring b' = transfer_ring b
    /\ fmem b' = fmem b /\ windows (log b') = windows (log b)
    /\ Pool.pool_inv (transfer_buffer_pool b') (free ++ [i])
    /\ Pool.num (transfer_buffer_pool b') = Pool.num (transfer_buffer_pool b)
    /\ Pool.data (transfer_buffer_pool b') = Pool.data (transfer_buffer_pool b)
    /\ media_wf (media b') /\ comp_ok b'
    /\ (media b', responses (log b')) = effect (media b, responses (log b)) (abs_piece tp).
Proof.
  intros Hpi Hi Hif Htp Hbuf Hok Hm Hc.
  unfold vca_bcknd_complete_transfer, get_tp. rewrite (aget_ret _ _ tp) by (done || lia). run_bind.
  destruct (write_piece_ok b tp Hm Hbuf Hok) as (m & err & -> & Hdw & Hwf & Hsz). run_bind.
  destruct (answer_piece_ok (set_bmedia b m) tp (media b) err Hwf Hc Hdw)
    as (b2 & -> & Hk & Hth & Htr & Hfm & Hwin & Hpool & Hwf2 & Hc2 & Heff).
  run_bind. rewrite Hpool. cbn [transfer_buffer_pool set_bmedia].
  destruct (Pool.push_refines _ _ i Hpi Hi Hif) as (p & Hpush & Hpi' & Hd). rewrite Hpush. run_bind.
  apply push_num in Hpush. eexists. split; [done|]. split; [|done].
  destruct Hk. split; try done. cbn. by rewrite kp_size0.
Qed.

(** [b'] is [b] after turns of the transfer thread: the abstract state, the memory
    of the frontend and the windows are unchanged. *)
Record worked b (q : list Z) b' (q' : list Z) : Prop := {
  wk_kept : kept b b';
  wk_view : view b' q' = view b q;
  wk_fmem : fmem b' = fmem b;
  wk_win : windows (log b') = windows (log b);
  wk_data : Pool.data (transfer_buffer_pool b') = Pool.data (transfer_buffer_pool b);
  wk_pending : pending b' q' `suffix_of` pending b q;
}.

Lemma worked_refl b q : worked b q b q.
Proof. by split. Qed.
Lemma worked_trans b q b1 q1 b2 q2 : worked b q b1 q1 -> worked b1 q1 b2 q2 -> worked b q b2 q2.
Proof. intros [] []. split; try congruence; by etrans. Qed.

(** The two steps of a turn: completing the oldest piece, and writing [last_used]. *)
Lemma turn_ok b free i q held :
  binv b free (i :: q) held -> finishing b = false ->
  exists b', transfer_turn polled b = Ret (b', true) /\ binv b' (free ++ [i]) q held /\ worked b (i :: q) b' q.
Proof.
  intros Hb Hfin. pose proof Hb as [Hpi Hn Hperm Hth (ring & old & Htr & Hrh & Hold) Hbufs Hm Hc Hq].
  rewrite Hfin in Hold. apply length_zero_iff_nil in Hold as ->. cbn [app] in Hrh.
  destruct (binv_length _ _ _ _ _ Hb) as (Hlen & _).
  destruct (binv_notfree _ _ _ _ _ i Hb) as (Hif & Hi); [by left|].
  destruct (Hq i) as (tp & Htp & Hok); [by left|].
  unfold transfer_turn. rewrite Htr, Hfin.
  destruct (ring_pop ring i q Hrh) as (He & Hg & _); [simpl in Hlen; lia|].
  rewrite He, (rh_num _ _ Hrh), Hg. run_bind.
  destruct (complete_ok b free i tp) as (b1 & -> & Hk & Hth1 & Htr1 & Hfm & Hwin & Hpi1 & Hn1 & Hd1 & Hwf & Hc1 & Heff);
    try done; [lia|by eapply Forall_lookup_1 in Hbufs|].
  run_bind. eexists. split; [done|]. split.
  - split; cbn; try done; try congruence.
    + etrans; [|exact Hperm]. by rewrite <- app_assoc.
    + exists ring, [i]. split; [by rewrite Htr1|]. done.
    + intros j Hj. rewrite Hd1. apply Hq. by right.
  - split; [by destruct Hk; split| |done..|].
    + rewrite (view_cons b i q tp Htp), <- Heff. unfold view.
      by rewrite (tps_ext b) by (intros; cbn; by rewrite Hd1).
    + unfold pending. rewrite (tps_ext b) by (intros; cbn; by rewrite Hd1).
      exists [abs_piece tp]. unfold tps. simpl. by rewrite Htp.
Qed.

Lemma turn_finish_ok b free q held :
  binv b free q held -> finishing b = true ->
  exists b', transfer_turn polled b = Ret (b', true) /\ binv b' free q held /\ worked b q b' q /\ finishing b' = false.
Proof.
  intros Hb Hfin. pose proof Hb as [Hpi Hn Hperm Hth (ring & old & Htr & Hrh & Hold) Hbufs Hm Hc Hq].
  rewrite Hfin in Hold. destruct old as [|x [|? ?]]; try done. destruct (binv_length _ _ _ _ _ Hb) as (Hlen & Hne).
  unfold transfer_turn. rewrite Htr, Hfin, (rh_num _ _ Hrh).
  destruct (ring_pop ring x q Hrh) as (_ & _ & Hrh'); [destruct free; [done|]; simpl in Hlen; lia|].
  eexists. split; [done|]. split; [|by split; [by split|..]].
  split; try done. cbn. eexists _, []. by split.
Qed.

Lemma turn_idle b free held : binv b free [] held -> finishing b = false -> transfer_turn polled b = Ret (b, false).
Proof.
  intros Hb Hfin. destruct (bi_ring _ _ _ _ Hb) as (ring & old & Htr & Hrh & Hold). rewrite Hfin in Hold.
  apply length_zero_iff_nil in Hold as ->. unfold transfer_turn. by rewrite Htr, Hfin, (ring_nil _ Hrh).
Qed.

Lemma turn_step_ok b free q held :
  binv b free q held ->
  exists b' p free' q', transfer_turn polled b = Ret (b', p) /\ binv b' free' q' held /\ worked b q b' q'
    /\ (forall i, i ∈ q' -> i ∈ q).
Proof.
  intros Hb. destruct (finishing b) eqn:Hfin.
  - destruct (turn_finish_ok _ _ _ _ Hb Hfin) as (b' & E & Hb' & Hw & _). by exists b', true, free, q.
  - destruct q as [|i q].
    + exists b, false, free, []. split; [by eapply turn_idle|]. split; [done|]. by split; [apply worked_refl|].
    + destruct (turn_ok _ _ _ _ _ Hb Hfin) as (b' & E & Hb' & Hw). exists b', true, (free ++ [i]), q.
      split; [done|]. split; [done|]. split; [done|]. intros j Hj. by right.
Qed.

Lemma run_turns_app n m b : run_turns polled (n + m) b = (b ← run_turns polled n b; run_turns polled m b).
Proof.
  revert b. induction n as [|n IH]; intros b; [done|]. cbn [Nat.add run_turns].
  destruct (transfer_turn polled b) as [[b1 p]| | |]; [|done..]. run_bind. apply IH.
Qed.

Lemma run_turns_ok n b free q held :
  binv b free q held ->
  exists b' free' q', run_turns polled n b = Ret b' /\ binv b' free' q' held /\ worked b q b' q'
    /\ (forall i, i ∈ q' -> i ∈ q).
Proof.
  revert b free q. induction n as [|n IH]; intros b free q Hb; cbn [run_turns].
  { exists b, free, q. split; [done|]. split; [done|]. split; [apply worked_refl|done]. }
  destruct (turn_step_ok _ _ _ _ Hb) as (b1 & p & f1 & q1 & -> & Hb1 & Hw1 & Hs1). run_bind.
  destruct (IH _ _ _ Hb1) as (b2 & f2 & q2 & -> & Hb2 & Hw2 & Hs2).
  exists b2, f2, q2. split; [done|]. split; [done|]. split; [by eapply worked_trans|]. auto.
Qed.

(** With an empty queue the wait never ends: no parameter will come back. *)
Lemma wait_idle b free held : binv b free [] held -> (length free = 1)%nat ->
  wait_pool polled (Z.to_nat VCABLK_TRANSFER_RING_SIZE) b = Spin.
Proof.
  intros Hb Hf. change (Z.to_nat VCABLK_TRANSFER_RING_SIZE) with (S (S 14)).
  assert (forall n b, binv b free [] held -> finishing b = false -> wait_pool polled (S n) b = Spin) as Hgo.
  { intros n b0 Hb0 Hfin. cbn [wait_pool]. rewrite (Pool.available_refines _ _ (bi_pool _ _ _ _ Hb0)), Hf.
    rewrite bool_decide_eq_false_2 by lia. rewrite (turn_idle _ _ _ Hb0 Hfin). done. }
  destruct (finishing b) eqn:Hfin; [|by apply Hgo]. change (wait_pool polled (S (S 14)) b) with
    (if Pool.vcablk_is_available (transfer_buffer_pool b) then Ret b
     else '(b, progress) ← transfer_turn polled b; if progress : bool then wait_pool polled (S 14) b else Spin).
  rewrite (Pool.available_refines _ _ (bi_pool _ _ _ _ Hb)), Hf. rewrite bool_decide_eq_false_2 by lia.
  destruct (turn_finish_ok _ _ _ _ Hb Hfin) as (b1 & -> & Hb1 & _ & Hf1). run_bind. by apply Hgo.
Qed.

(** A parameter can always be taken while some are left to the transfer thread. *)
Lemma pop_ok b free q held x y r :
  binv b free q held -> free = x :: y :: r ->
  exists p, Pool.vcablk_pool_pop (transfer_buffer_pool b) = Ret (p, Some x)
    /\ binv (set_pool b p) (y :: r) q (x :: held) /\ worked b q (set_pool b p) q.
Proof.
  intros Hb ->. pose proof Hb as [Hpi Hn Hperm Hth Hring Hbufs Hm Hc Hq].
  destruct (Pool.pop_refines _ _ Hpi) as (p & Hpop & Hpi' & Hd). exists p. split; [done|].
  pose proof (pop_num _ _ _ Hpop) as Hn'. split.
  - split; cbn; try done; try congruence.
    + etrans; [|exact Hperm]. rewrite !app_comm_cons, !app_assoc. symmetry.
      exact (Permutation_middle ((y :: r) ++ q) held x).
    + intros j Hj. rewrite Hd. by apply Hq.
  - split; try done; unfold view, pending; by rewrite (tps_ext b) by (intros; cbn; by rewrite Hd).
Qed.

(** The wait ends after at most two steps of the transfer thread. *)
Lemma pool_wait_ok b free i q held :
  binv b free (i :: q) held -> (length free = 1)%nat ->
  exists b', wait_pool polled (Z.to_nat VCABLK_TRANSFER_RING_SIZE) b = Ret b'
    /\ binv b' (free ++ [i]) q held /\ worked b (i :: q) b' q.
Proof.
  intros Hb Hf. change (Z.to_nat VCABLK_TRANSFER_RING_SIZE) with (S (S (S 13))).
  assert (forall n b, binv b free (i :: q) held -> finishing b = false ->
    exists b', wait_pool polled (S (S n)) b = Ret b' /\ binv b' (free ++ [i]) q held /\ worked b (i :: q) b' q) as Hgo.
  { intros n b0 Hb0 Hfin. cbn [wait_pool]. rewrite (Pool.available_refines _ _ (bi_pool _ _ _ _ Hb0)), Hf.
    rewrite bool_decide_eq_false_2 by lia. destruct (turn_ok _ _ _ _ _ Hb0 Hfin) as (b1 & -> & Hb1 & Hw1). run_bind.
    rewrite (Pool.available_refines _ _ (bi_pool _ _ _ _ Hb1)), length_app, Hf. rewrite bool_decide_eq_true_2 by (cbn; lia).
    by exists b1. }
  destruct (finishing b) eqn:Hfin; [|by apply Hgo]. change (wait_pool polled (S (S (S 13))) b) with
    (if Pool.vcablk_is_available (transfer_buffer_pool b) then Ret b
     else '(b, progress) ← transfer_turn polled b; if progress : bool then wait_pool polled (S (S 13)) b else Spin).
  rewrite (Pool.available_refines _ _ (bi_pool _ _ _ _ Hb)), Hf. rewrite bool_decide_eq_false_2 by lia.
  destruct (turn_finish_ok _ _ _ _ Hb Hfin) as (b1 & -> & Hb1 & Hw1 & Hf1). run_bind.
  destruct (Hgo 13%nat b1 Hb1 Hf1) as (b2 & -> & Hb2 & Hw2). exists b2. split; [done|]. split; [done|]. by eapply worked_trans.
Qed.

Lemma get_param_ok b free q held :
  binv b free q held -> (length held < 15)%nat ->
  exists b' i free' q', vcablk_bcknd_get_transfer_param polled b = Ret (b', i)
    /\ binv b' free' q' (i :: held) /\ worked b q b' q' /\ (forall j, j ∈ q' -> j ∈ q).
Proof.
  intros Hb Hh. destruct (binv_length _ _ _ _ _ Hb) as (Hl & Hne).
  unfold vcablk_bcknd_get_transfer_param. cbn [get_transfer_param].
  destruct free as [|x [|y r]]; [done| |].
  - (* only the blocked one is left: wait for the transfer thread *)
    pose proof (Pool.pop_refines _ _ (bi_pool _ _ _ _ Hb)) as Hpop. simpl in Hpop. rewrite Hpop. run_bind.
    assert (set_pool b (transfer_buffer_pool b) = b) as -> by by destruct b.
    destruct q as [|i q]; [simpl in Hl; lia|].
    destruct (pool_wait_ok b [x] i q held Hb) as (b1 & -> & Hb1 & Hw1); [simpl; lia|]. run_bind.
    destruct (pop_ok _ _ _ _ x i [] Hb1 eq_refl) as (p & -> & Hb2 & Hw2). run_bind.
    do 4 eexists. split; [done|]. split; [done|]. split; [by eapply worked_trans|]. intros j Hj. by right.
  - destruct (pop_ok _ _ _ _ x y r Hb eq_refl) as (p & -> & Hb2 & Hw2). run_bind.
    do 4 eexists. split; [done|]. split; [done|]. split; [done|]. done.
Qed.

(** *** Queueing a piece *)

Lemma held_notin b free q i held :
  binv b free q (i :: held) -> (i ∉ q) /\ (i ∉ free) /\ 0 <= i < 16.
Proof.
  intros Hb. destruct (binv_notfree _ _ _ _ _ i Hb) as (Hif & Hi); [apply elem_of_app; right; by left|].
  split; [|done]. intros Hq. pose proof (bi_perm _ _ _ _ Hb) as Hp.
  assert (NoDup (free ++ q ++ i :: held)) as Hnd by (rewrite Hp; apply Pool.ids_nodup).
  apply list.NoDup_app in Hnd as (_ & _ & Hnd). apply list.NoDup_app in Hnd as (_ & Hd & _).
  apply (Hd i Hq). by left.
Qed.

Lemma pool_set_data_inv {A} (p : Pool.vcablk_pool A) l free :
  Pool.pool_inv p free -> zlen l = zlen (Pool.data p) -> Pool.pool_inv (Pool.set_data p l) free.
Proof. intros [] Hl. split; try done. cbn. congruence. Qed.

(** Writing to a parameter that the request thread holds. *)
Lemma set_tp_ok b free q i held tp :
  binv b free q (i :: held) -> zlen (buffer tp) = 4096 ->
  exists b', set_tp b i tp = Ret b' /\ binv b' free q (i :: held)
    /\ Pool.data (transfer_buffer_pool b') = <[Z.to_nat i := tp]> (Pool.data (transfer_buffer_pool b))
    /\ view b' q = view b q /\ fmem b' = fmem b /\ log b' = log b /\ media b' = media b /\ kept b b'
    /\ get_tp b' i = Ret tp /\ pending b' q = pending b q.
Proof.
  intros Hb Hl. destruct (held_notin _ _ _ _ _ Hb) as (Hiq & _ & Hi).
  pose proof Hb as [Hpi Hn Hperm Hth Hring Hbufs Hm Hc Hq].
  pose proof (Pool.pi_data _ _ Hpi) as Hdl. rewrite Hn in Hdl.
  unfold set_tp. rewrite aset_ret by lia. run_bind. eexists. split; [done|]. split; [|split; [done|]].
  - split; try done.
    + cbn. apply pool_set_data_inv; [done|]. by rewrite zlen_insert.
    + cbn. by apply Forall_insert.
    + intros j Hj. cbn. rewrite list_lookup_insert_ne; [by apply Hq|]. intros He.
      destruct (binv_notfree _ _ _ _ _ j Hb) as (_ & Hj'); [apply elem_of_app; by left|].
      by assert (i = j) as -> by lia.
  - unfold view, pending. rewrite (tps_ext b).
    2: { intros j Hj. cbn. rewrite list_lookup_insert_ne; [done|].
      intros He. destruct (binv_notfree _ _ _ _ _ j Hb) as (_ & Hj'); [apply elem_of_app; by left|].
      by assert (i = j) as -> by lia. }
    split; [done|split; [done|split; [done|split; [done|split; [done|split; [|done]]]]]].
    unfold get_tp. cbn. apply aget_ret; [lia|]. apply list_lookup_insert_eq. unfold zlen in Hdl. lia.
Qed.

(** Events about windows do not show in the view. *)
Lemma view_window b q e : responses [e] = [] -> view (emit b [e]) q = view b q.
Proof.
  intros He. unfold view. cbn [log emit media]. unfold responses in *.
  by rewrite omap_app, He, app_nil_r.
Qed.

(** Putting the parameter into the transfer ring. *)
Lemma enqueue_ok b free q i held tp :
  binv b free q (i :: held) -> get_tp b i = Ret tp -> tp_ok tp -> cb_remapped (callback_param tp) = None ->
  exists b', vca_bcknd_callback_dma polled b i = Ret b' /\ binv b' free (q ++ [i]) held
    /\ view b' (q ++ [i]) = effect (view b q) (abs_piece tp) /\ fmem b' = fmem b /\ log b' = log b
    /\ media b' = media b /\ kept b b' /\ pending b' (q ++ [i]) = pending b q ++ [abs_piece tp].
Proof.
  intros Hb Htp Hok Hrm. pose proof Hb as [Hpi Hn Hperm Hth (ring & old & Htr & Hrh & Hold) Hbufs Hm Hc Hq].
  destruct (binv_length _ _ _ _ _ Hb) as (Hlen & Hne).
  unfold vca_bcknd_callback_dma. rewrite Htp. run_bind. rewrite Hrm. run_bind. rewrite Htr, Hth. cbn [negb].
  apply aget_inv in Htp as (_ & Htp).
  destruct (ring_push ring (old ++ q) i Hrh) as (l & Hset & Hfull & Hrh').
  { rewrite zlen_app. unfold zlen. simpl in Hlen. destruct free; [done|]. simpl in Hlen. destruct (finishing b); lia. }
  rewrite (rh_num _ _ Hrh), Hfull, Hset. run_bind. eexists. split; [done|].
  split; [|split; [|do 4 (split; [done|]); unfold pending, tps; rewrite omap_app; simpl; by rewrite Htp, fmap_app]].
  - split; try done.
    + etrans; [|exact Hperm]. by rewrite <- !app_assoc.
    + eexists _, old. split; [done|]. by rewrite app_assoc.
    + intros j [Hj|Hj%list_elem_of_singleton]%elem_of_app; [by apply Hq|subst j]. by exists tp.
  - change (view (set_tring b ?r) (q ++ [i])) with (view b (q ++ [i])). by apply view_snoc.
Qed.

Lemma callback_ok b free q i held tp :
  binv b free q (i :: held) -> get_tp b i = Ret tp -> tp_ok tp -> zlen (buffer tp) = 4096 ->
  exists b', vca_bcknd_callback_dma polled b i = Ret b' /\ binv b' free (q ++ [i]) held
    /\ view b' (q ++ [i]) = effect (view b q) (abs_piece tp) /\ fmem b' = fmem b
    /\ windows (log b') = windows (log b) ++ option_list (EvUnmap <$> cb_remapped (callback_param tp))
    /\ media b' = media b /\ kept b b' /\ pending b' (q ++ [i]) = pending b q ++ [abs_piece tp].
Proof.
  intros Hb Htp Hok Hbl. destruct (cb_remapped (callback_param tp)) as [a|] eqn:Hrm.
  - set (cb := callback_param tp) in *.
    set (tp' := mkTp (mkCb (cb_sector cb) (cb_nsec cb) None (cb_response_cookie cb) (cb_is_write cb) (cb_do_flush cb)) (buffer tp)).
    assert (binv (emit b [EvUnmap a]) free q (i :: held)) as Hb0 by (destruct Hb; by split).
    destruct (set_tp_ok _ _ _ _ _ tp' Hb0 Hbl) as (b1 & Hset & Hb1 & Hd1 & Hv1 & Hf1 & Hl1 & Hm1 & Hk1 & Htp1 & Hp1).
    destruct (enqueue_ok b1 free q i held tp' Hb1 Htp1 Hok eq_refl) as (b' & He & Hb' & Hv' & Hf' & Hl' & Hm' & Hk' & Hp').
    exists b'. split.
    + rewrite <- He. unfold vca_bcknd_callback_dma. rewrite Htp. run_bind. fold cb. rewrite Hrm. fold tp'.
      rewrite Hset. run_bind. rewrite Htp1. run_bind. done.
    + split; [done|]. split; [by rewrite Hv', Hv1, view_window by done|]. split; [by rewrite Hf', Hf1|].
      split; [rewrite Hl', Hl1; cbn; unfold windows; by rewrite omap_app|].
      split; [by rewrite Hm', Hm1|]. split; [etrans; [by apply (kept_emit b [EvUnmap a])|]; by etrans|].
      rewrite Hp', Hp1. done.
  - destruct (enqueue_ok b free q i held tp Hb Htp Hok Hrm) as (b' & He & Hb' & Hv' & Hf' & Hl' & Hm' & Hk' & Hp').
    exists b'. repeat (split; [done|]). split; [by rewrite Hl', app_nil_r|done].
Qed.

(** *** Moving a piece *)

Context (Hdma : dma_ch = true -> forall t, dma_sync t = 0).

Lemma zlen_read_mem m a n : 0 <= n -> zlen (read_mem m a n) = n.
Proof. intros Hn. unfold zlen, read_mem. rewrite length_fmap, length_seqZ. lia. Qed.

Lemma binv_tick b free q held : binv b free q held -> binv (tick b) free q held.
Proof. intros []. by split. Qed.

(** What a queued piece has done. *)
Record queued_piece b (q : list Z) (held : list Z) (p : piece) (fm : Z -> Z) (win : list event) b' : Prop := {
  qp_inv : exists free' q' l, binv b' free' q' held /\ view b' q' = effect (view b q) p
    /\ pending b' q' = l ++ [p] /\ l `suffix_of` pending b q;
  qp_fmem : fmem b' = fm;
  qp_win : windows (log b') = windows (log b) ++ win;
  qp_kept : kept b b';
}.

Lemma move_write_ok b free q i held tp ptr bytes :
  binv b free q (i :: held) -> get_tp b i = Ret tp -> cb_is_write (callback_param tp) = true ->
  zlen (buffer tp) = 4096 -> 0 <= bytes <= 4096 ->
  exists b', move b i ptr bytes = Ret b' /\ binv b' free q (i :: held)
    /\ get_tp b' i = Ret (mkTp (callback_param tp)
                            (read_mem (fmem b) ptr bytes ++ drop (Z.to_nat bytes) (buffer tp)))
    /\ view b' q = view b q /\ fmem b' = fmem b /\ log b' = log b /\ kept b b' /\ pending b' q = pending b q.
Proof.
  intros Hb Htp Hw Hl Hn. unfold move. rewrite Htp. run_bind. rewrite Hw.
  pose proof (zlen_read_mem (fmem b) ptr bytes ltac:(lia)) as Hz. unfold buf_fill.
  rewrite (proj2 (Z.leb_le _ _)) by lia. run_bind.
  assert (length (read_mem (fmem b) ptr bytes) = Z.to_nat bytes) as Hz' by (unfold zlen in Hz; lia). rewrite Hz'.
  destruct (set_tp_ok _ _ _ _ _ (mkTp (callback_param tp) (read_mem (fmem b) ptr bytes ++ drop (Z.to_nat bytes) (buffer tp))) Hb)
    as (b' & -> & Hb' & _ & Hv & Hf & Hlog & _ & Hk & Hg & Hpe).
  { cbn. rewrite zlen_app, Hz. unfold zlen in *. rewrite length_drop. lia. }
  exists b'. done.
Qed.

Lemma device_write_ok b free q i held tp ptr :
  let cb := callback_param tp in
  binv b free q (i :: held) -> get_tp b i = Ret tp -> cb_is_write cb = true -> zlen (buffer tp) = 4096 ->
  tp_ok tp ->
  exists b', vcablk_bcknd_transfer_device polled dma_ch dma_sync b i ptr (cb_nsec cb * 512) = Ret (b', 0)
    /\ queued_piece b q held
         (mkPiece (cb_sector cb) (cb_nsec cb) true (read_mem (fmem b) ptr (cb_nsec cb * 512))
            (cb_response_cookie cb) (cb_do_flush cb))
         (fmem b) (option_list (EvUnmap <$> cb_remapped cb)) b'.
Proof.
  intros cb Hb Htp Hw Hl Hok. pose proof Hok as ((Hs & Hn & Hnw) & H8). fold cb in Hs, Hn, Hnw, H8.
  assert (forall b0, binv b0 free q (i :: held) -> get_tp b0 i = Ret tp -> view b0 q = view b q ->
      fmem b0 = fmem b -> log b0 = log b -> kept b b0 -> pending b0 q = pending b q ->
      exists b', (b ← move b0 i ptr (cb_nsec cb * 512); b ← vca_bcknd_callback_dma polled b i; Ret (b, 0)) = Ret (b', 0)
        /\ queued_piece b q held
         (mkPiece (cb_sector cb) (cb_nsec cb) true (read_mem (fmem b) ptr (cb_nsec cb * 512))
            (cb_response_cookie cb) (cb_do_flush cb))
         (fmem b) (option_list (EvUnmap <$> cb_remapped cb)) b') as Hgo.
  { intros b0 Hb0 Htp0 Hv0 Hf0 Hl0 Hk0 Hp0.
    destruct (move_write_ok b0 free q i held tp ptr (cb_nsec cb * 512) Hb0 Htp0 Hw Hl) as
      (b1 & -> & Hb1 & Htp1 & Hv1 & Hf1 & Hl1 & Hk1 & Hp1); [lia|]. run_bind.
    pose proof (zlen_read_mem (fmem b0) ptr (cb_nsec cb * 512) ltac:(lia)) as Hz.
    destruct (callback_ok b1 free q i held _ Hb1 Htp1) as (b2 & -> & Hb2 & Hv2 & Hf2 & Hw2 & _ & Hk2 & Hp2); [done| |].
    { cbn. rewrite zlen_app, Hz. unfold zlen in *. rewrite length_drop. lia. }
    run_bind. exists b2. split; [done|].
    assert (Habs : abs_piece (mkTp cb (read_mem (fmem b0) ptr (cb_nsec cb * 512)
                      ++ drop (Z.to_nat (cb_nsec cb * 512)) (buffer tp)))
      = mkPiece (cb_sector cb) (cb_nsec cb) true (read_mem (fmem b) ptr (cb_nsec cb * 512))
            (cb_response_cookie cb) (cb_do_flush cb)).
    { unfold abs_piece. cbn [callback_param buffer]. rewrite Hw. f_equal. rewrite Hf0 in Hz |- *.
      rewrite take_app_length'; [done|]. unfold zlen in Hz. lia. }
    fold cb in Hv2, Hp2. rewrite Habs in Hv2, Hp2. split.
    - exists free, (q ++ [i]), (pending b q). split; [done|]. split; [by rewrite Hv2, Hv1, Hv0|].
      split; [by rewrite Hp2, Hp1, Hp0|done].
    - by rewrite Hf2, Hf1, Hf0.
    - by rewrite Hw2, Hl1, Hl0.
    - etrans; [exact Hk0|]. by etrans. }
  unfold vcablk_bcknd_transfer_device. destruct dma_ch eqn:Ed; cbn [negb].
  - rewrite Hdma by done. cbn [Z.eqb]. apply Hgo; try done. by apply binv_tick.
  - by apply Hgo.
Qed.

Lemma device_read_ok b free q i held tp ptr :
  let cb := callback_param tp in
  binv b free q (i :: held) -> get_tp b i = Ret tp -> cb_is_write cb = false -> zlen (buffer tp) = 4096 ->
  tp_ok tp ->
  exists b', vcablk_bcknd_transfer_device polled dma_ch dma_sync b i ptr (cb_nsec cb * 512) = Ret (b', 0)
    /\ queued_piece b q held
         (mkPiece (cb_sector cb) (cb_nsec cb) false [] (cb_response_cookie cb) (cb_do_flush cb))
         (write_mem (fmem b) ptr (take (Z.to_nat (cb_nsec cb * 512)) (buffer tp)))
         (option_list (EvUnmap <$> cb_remapped cb)) b'
    /\ media b' = media b.
Proof.
  intros cb Hb Htp Hw Hl Hok. pose proof Hok as ((Hs & Hn & Hnw) & H8). fold cb in Hs, Hn, Hnw, H8.
  set (fm := write_mem _ _ _).
  assert (forall b0, binv b0 free q (i :: held) -> get_tp b0 i = Ret tp -> view b0 q = view b q ->
      fmem b0 = fmem b -> log b0 = log b -> kept b b0 -> media b0 = media b -> pending b0 q = pending b q ->
      exists b', (b ← move b0 i ptr (cb_nsec cb * 512); b ← vca_bcknd_callback_dma polled b i; Ret (b, 0)) = Ret (b', 0)
        /\ queued_piece b q held
         (mkPiece (cb_sector cb) (cb_nsec cb) false [] (cb_response_cookie cb) (cb_do_flush cb))
         fm (option_list (EvUnmap <$> cb_remapped cb)) b' /\ media b' = media b) as Hgo.
  { intros b0 Hb0 Htp0 Hv0 Hf0 Hl0 Hk0 Hm0 Hp0. unfold move. rewrite Htp0. run_bind. fold cb. rewrite Hw.
    unfold buf_head. rewrite (proj2 (Z.leb_le _ _)) by lia. run_bind. rewrite Hf0. fold fm.
    assert (binv (set_fmem b0 fm) free q (i :: held)) as Hb1 by (destruct Hb0; by split).
    destruct (callback_ok (set_fmem b0 fm) free q i held tp Hb1 Htp0 Hok Hl) as (b2 & -> & Hb2 & Hv2 & Hf2 & Hw2 & Hm2 & Hk2 & Hp2).
    run_bind. exists b2. split; [done|]. split; [|by rewrite Hm2]. split.
    - exists free, (q ++ [i]), (pending b q). split; [done|].
      change (view (set_fmem b0 fm) q) with (view b0 q) in Hv2.
      change (pending (set_fmem b0 fm) q) with (pending b0 q) in Hp2.
      unfold abs_piece in Hv2, Hp2. fold cb in Hv2, Hp2. rewrite Hw in Hv2, Hp2.
      split; [by rewrite Hv2, Hv0|]. split; [by rewrite Hp2, Hp0|done].
    - done.
    - rewrite Hw2. cbn. by rewrite Hl0.
    - etrans; [exact Hk0|]. etrans; [|exact Hk2]. by split. }
  unfold vcablk_bcknd_transfer_device. destruct dma_ch eqn:Ed; cbn [negb].
  - rewrite Hdma by done. cbn [Z.eqb]. apply Hgo; try done. by apply binv_tick.
  - by apply Hgo.
Qed.

(** *** One piece of a request *)

Lemma queued_worked b q b1 q1 held p fm win b' :
  worked b q b1 q1 -> queued_piece b1 q1 held p fm win b' -> queued_piece b q held p fm win b'.
Proof.
  intros [] [(f & q' & l & Hb & Hv & Hp & Hl) Hf Hw Hk]. split; [|done| |by etrans].
  - exists f, q', l. split; [done|]. split; [by rewrite Hv, wk_view0|]. split; [done|]. by etrans.
  - by rewrite Hw, wk_win0.
Qed.

Lemma tp_buf b free q held i tp :
  binv b free q held -> get_tp b i = Ret tp -> zlen (buffer tp) = 4096.
Proof. intros Hb (_ & Htp)%aget_inv. by eapply Forall_lookup_1 in Htp; [|apply (bi_bufs _ _ _ _ Hb)]. Qed.

Lemma get_tp_total b free q held i :
  binv b free q held -> 0 <= i < 16 -> exists tp, get_tp b i = Ret tp.
Proof.
  intros Hb Hi. destruct (aget_total (Pool.data (transfer_buffer_pool b)) i) as (tp & Hg & _); [|by exists tp].
  rewrite (Pool.pi_data _ _ (bi_pool _ _ _ _ Hb)), (bi_num _ _ _ _ Hb). done.
Qed.

Definition last_only {A} (rest : Z) (x y : A) : A := if rest =? 0 then x else y.

Lemma shl9 n : Z.shiftl n SECTOR_SHIFT = n * 512.
Proof. unfold SECTOR_SHIFT. rewrite Z.shiftl_mul_pow2 by lia. reflexivity. Qed.

Lemma piece_write_ok b free q sector nsec rest ptr remapped cookie flush :
  binv b free q [] -> no_wrap sector nsec -> nsec <= 8 ->
  exists b', transfer_piece polled dma_ch dma_sync b sector nsec rest ptr remapped true cookie flush = Ret (b', 0)
    /\ queued_piece b q []
         (mkPiece sector nsec true (read_mem (fmem b) ptr (nsec * 512))
            (last_only rest cookie (-1)) (last_only rest flush false))
         (fmem b) (last_only rest [EvUnmap remapped] []) b'.
Proof.
  intros Hb Hnw H8. unfold transfer_piece.
  destruct (get_param_ok b free q [] Hb) as (b1 & i & f1 & q1 & -> & Hb1 & Hw1 & _); [simpl; lia|]. run_bind.
  destruct (held_notin _ _ _ _ _ Hb1) as (_ & _ & Hi).
  destruct (get_tp_total _ _ _ _ i Hb1 Hi) as (tp & Htp). rewrite Htp. run_bind.
  set (cb := if rest =? 0 then _ else _). pose proof (tp_buf _ _ _ _ _ _ Hb1 Htp) as Hl.
  destruct (set_tp_ok b1 f1 q1 i [] (mkTp cb (buffer tp)) Hb1 Hl) as (b2 & -> & Hb2 & _ & Hv2 & Hf2 & Hl2 & _ & Hk2 & Htp2 & Hp2).
  run_bind. cbn [negb]. run_bind. cbn [Z.eqb negb].
  assert (cb_is_write cb = true /\ cb_sector cb = sector /\ cb_nsec cb = nsec
    /\ cb_response_cookie cb = last_only rest cookie (-1) /\ cb_do_flush cb = last_only rest flush false
    /\ option_list (EvUnmap <$> cb_remapped cb) = last_only rest [EvUnmap remapped] [])
    as (Hw & Hs & Hn & Hc & Hfl & Hr) by (unfold cb, last_only; by destruct (rest =? 0)).
  destruct (device_write_ok b2 f1 q1 i [] (mkTp cb (buffer tp)) ptr Hb2 Htp2 Hw Hl) as (b3 & He & Hq).
  { split; cbn; rewrite ?Hs, ?Hn; done. }
  cbn [callback_param] in He, Hq. rewrite Hn in He. rewrite shl9, He. exists b3. split; [done|].
  rewrite Hs, Hn, Hc, Hfl, Hr in Hq. eapply queued_worked; [exact Hw1|].
  destruct Hq as [(f & q' & l & Hb' & Hv & Hpe & Hsu) Hf Hwi Hk]. rewrite Hf2 in Hv, Hpe.
  rewrite (wk_fmem _ _ _ _ Hw1) in Hv, Hpe. split.
  - exists f, q', l. split; [done|]. split; [by rewrite Hv, Hv2|]. split; [done|]. by rewrite <- Hp2.
  - by rewrite Hf, Hf2, (wk_fmem _ _ _ _ Hw1).
  - by rewrite Hwi, Hl2.
  - by etrans.
Qed.

(** The pieces of a write of [num] sectors. *)
Fixpoint pieces (n : nat) (fm : Z -> Z) (sector num ptr cookie : Z) (flush : bool) : list piece :=
  match n with
  | O => []
  | S n =>
      let nsec := Z.min num 8 in
      mkPiece sector nsec true (read_mem fm ptr (nsec * 512))
        (last_only (num - nsec) cookie (-1)) (last_only (num - nsec) flush false)
      :: (if num - nsec =? 0 then []
          else pieces n fm (sector + nsec) (num - nsec) (ptr + nsec * 512) cookie flush)
  end.

(** [b'] is [b] after the pieces [ps] were queued. *)
Record queued_pieces b (q : list Z) (ps : list piece) (win : list event) b' : Prop := {
  qs_inv : exists free' q', binv b' free' q' [] /\ view b' q' = foldl effect (view b q) ps;
  qs_fmem : fmem b' = fmem b;
  qs_win : windows (log b') = windows (log b) ++ win;
  qs_kept : kept b b';
}.

Lemma queued_pieces_app b q ps win b1 ps' win' b2 :
  queued_pieces b q ps win b1 ->
  (forall free' q', binv b1 free' q' [] -> queued_pieces b1 q' ps' win' b2) ->
  queued_pieces b q (ps ++ ps') (win ++ win') b2.
Proof.
  intros [(f & q1 & Hb1 & Hv1) Hf1 Hw1 Hk1] Hn. destruct (Hn _ _ Hb1) as [(f2 & q2 & Hb2 & Hv2) Hf2 Hw2 Hk2].
  split.
  - exists f2, q2. split; [done|]. by rewrite Hv2, Hv1, foldl_app.
  - congruence.
  - by rewrite Hw2, Hw1, app_assoc.
  - by etrans.
Qed.

Lemma write_loop_ok n b free q sector num ptr remapped cookie flush :
  binv b free q [] -> 0 < num <= 8 * Z.of_nat n -> 0 <= sector -> (sector + num) * 512 < 2 ^ 64 ->
  0 <= ptr -> ptr + num * 512 < 2 ^ 64 ->
  exists b', transfer_loop polled dma_ch dma_sync sched n b sector num ptr remapped true cookie flush = Ret (b', 0)
    /\ queued_pieces b q (pieces n (fmem b) sector num ptr cookie flush) [EvUnmap remapped] b'.
Proof.
  revert b free q sector num ptr. induction n as [|n IH]; intros b free q sector num ptr Hb Hn Hs Hw Hp Hpw; [lia|].
  cbn [transfer_loop pieces]. rewrite (proj2 (Z.eqb_neq num 0)) by lia.
  destruct (run_turns_ok (sched (now b)) (tick b) free q [] (binv_tick _ _ _ _ Hb))
    as (b1 & f1 & q1 & -> & Hb1 & Hw1 & _). run_bind.
  change (Z.shiftr PAGE_SIZE SECTOR_SHIFT) with 8. set (nsec := Z.min num 8). set (rest := num - nsec).
  assert (no_wrap sector nsec) as Hnw by (unfold no_wrap, nsec; lia).
  destruct (piece_write_ok b1 f1 q1 sector nsec rest ptr remapped cookie flush Hb1 Hnw ltac:(lia)) as (b2 & -> & Hq).
  run_bind. cbn [Z.eqb negb]. rewrite shl9.
  assert (queued_piece b q [] (mkPiece sector nsec true (read_mem (fmem b) ptr (nsec * 512))
            (last_only rest cookie (-1)) (last_only rest flush false))
         (fmem b) (last_only rest [EvUnmap remapped] []) b2) as [(f2 & q2 & _ & Hb2 & Hv2 & _) Hf2 Hw2 Hk2].
  { rewrite (wk_fmem _ _ _ _ Hw1) in Hq. cbn [fmem tick] in Hq.
    eapply queued_worked; [|exact Hq]. destruct Hw1 as [[] Hv Hfm Hwi Hd Hpe]. by split. }
  assert (queued_pieces b q [mkPiece sector nsec true (read_mem (fmem b) ptr (nsec * 512))
            (last_only rest cookie (-1)) (last_only rest flush false)]
         (last_only rest [EvUnmap remapped] []) b2) as Hfirst by (split; eauto).
  unfold last_only in *. destruct (Z.eqb_spec rest 0) as [Hr|Hr].
  - exists b2. split; [|exact Hfirst]. rewrite Hr. by destruct n.
  - destruct (IH b2 f2 q2 (sector + nsec) rest (ptr + nsec * 512) Hb2) as (b3 & He & Hq3); try lia.
    rewrite !u64_small by lia. exists b3. split; [done|].
    rewrite Hf2 in Hq3. change [EvUnmap remapped] with ([] ++ [EvUnmap remapped]).
    eapply (queued_pieces_app _ _ [_]); [exact Hfirst|]. intros free' q' Hb'.
    destruct (IH b2 free' q' (sector + nsec) rest (ptr + nsec * 512) Hb') as (b3' & He' & Hq3'); try lia.
    rewrite He in He'. injection He' as <-. by rewrite Hf2 in Hq3'.
Qed.

(** *** Write requests *)

Context (Hmap : forall t, ioremap_ok t = true).

Definition npieces (num : Z) : nat := Z.to_nat ((num + 7) / 8).

Lemma npieces_bound num : 0 < num -> num <= 8 * Z.of_nat (npieces num).
Proof.
  intros H0. unfold npieces.
  pose proof (Z.div_mod (num + 7) 8 ltac:(lia)). pose proof (Z.mod_pos_bound (num + 7) 8 ltac:(lia)).
  rewrite Z2Nat.id by (apply Z.div_pos; lia). lia.
Qed.

Lemma ioremap_1 b : vcablk_bcknd_ioremap ioremap_ok b = (true, tick b).
Proof.
  unfold vcablk_bcknd_ioremap. change (Z.to_nat IOREMAP_ATTEMPTS) with (S 9). cbn [ioremap_attempts].
  by rewrite Hmap.
Qed.

Lemma transfer_write_ok b free q sector num phys cookie flush :
  binv b free q [] -> 0 < num -> 0 <= sector -> (sector + num) * 512 < 2 ^ 64 ->
  0 <= phys -> phys + num * 512 < 2 ^ 64 ->
  exists b', vcablk_bcknd_transfer polled ioremap_ok dma_ch dma_sync sched b sector num phys true cookie flush = Ret (b', 0)
    /\ queued_pieces b q (pieces (npieces num) (fmem b) sector num phys cookie flush) [EvRemap phys; EvUnmap phys] b'.
Proof.
  intros Hb Hn Hs Hw Hp Hpw. unfold vcablk_bcknd_transfer. rewrite ioremap_1. cbn [negb].
  fold (npieces num).
  set (b0 := emit (tick b) [EvRemap phys]).
  assert (binv b0 free q []) as Hb0 by (apply binv_tick in Hb; destruct Hb; by split).
  pose proof (npieces_bound num ltac:(lia)).
  destruct (write_loop_ok (npieces num) b0 free q sector num phys phys cookie flush Hb0) as (b' & -> & [Hi Hf Hwi Hk]); try lia.
  run_bind. exists b'. split; [done|]. split.
  - destruct Hi as (f & q' & Hb' & Hv). exists f, q'. split; [done|]. rewrite Hv. unfold b0.
    by rewrite view_window by done.
  - done.
  - rewrite Hwi. unfold b0. cbn [log emit tick]. unfold windows. rewrite omap_app. by rewrite <- app_assoc.
  - by apply (kept_remap b phys).
Qed.

(** The pieces of the parts [l] of a request. *)
Fixpoint parts_pieces (fm : Z -> Z) (l : list vcablk_request) (cookie : Z) (flush : bool) : list piece :=
  match l with
  | [] => []
  | r :: l =>
      let lst := match l with [] => true | _ => false end in
      pieces (npieces (BlkFrontend.sectors_num r)) fm (BlkFrontend.sector r) (BlkFrontend.sectors_num r)
        (BlkFrontend.phys_buff r) (if lst then cookie else -1) (if lst then flush else false)
      ++ parts_pieces fm l cookie flush
  end.
Definition parts_windows (l : list vcablk_request) : list event :=
  mbind (fun r => [EvRemap (BlkFrontend.phys_buff r); EvUnmap (BlkFrontend.phys_buff r)]) l.

(** A part whose ranges do not wrap. *)
Definition part_ok (r : vcablk_request) : Prop :=
  0 < BlkFrontend.sectors_num r /\ 0 <= BlkFrontend.sector r
  /\ (BlkFrontend.sector r + BlkFrontend.sectors_num r) * 512 < 2 ^ 64
  /\ 0 <= BlkFrontend.phys_buff r
  /\ BlkFrontend.phys_buff r + BlkFrontend.sectors_num r * 512 < 2 ^ 64.

Lemma parts_write_ok l buff id end_id b free q cookie after :
  binv b free q [] -> 0 <= id -> end_id = id + zlen l ->
  (forall j r, l !! j = Some r -> buff !! (Z.to_nat id + j)%nat = Some r) -> Forall part_ok l ->
  exists b', parts_loop polled ioremap_ok dma_ch dma_sync sched (length l) b buff id end_id true cookie after = Ret (b', 0)
    /\ queued_pieces b q (parts_pieces (fmem b) l cookie after) (parts_windows l) b'.
Proof.
  revert b free q id. induction l as [|r l IH]; intros b free q id Hb Hid Hend Hl Hok; cbn [length parts_loop parts_pieces].
  { exists b. split; [done|]. split; [by exists free, q|done|by rewrite app_nil_r|done]. }
  apply Forall_cons_iff in Hok as [(Hn & Hs & Hw & Hp & Hpw) Hok]. rewrite zlen_cons in Hend.
  rewrite (aget_ret _ _ r) by (lia || (specialize (Hl 0%nat r eq_refl); by rewrite Nat.add_0_r in Hl)). run_bind.
  set (lst := match l with [] => true | _ => false end).
  assert ((end_id <=? id + 1) = lst) as ->.
  { unfold lst. destruct l; [apply Z.leb_le; unfold zlen in Hend; simpl in Hend; lia|].
    apply Z.leb_gt. rewrite zlen_cons in Hend. pose proof (zlen_nonneg l). lia. }
  destruct (transfer_write_ok b free q (BlkFrontend.sector r) (BlkFrontend.sectors_num r) (BlkFrontend.phys_buff r)
              (if lst then cookie else -1) (if lst then after else false) Hb) as (b1 & -> & Hq1); try done.
  run_bind. cbn [Z.eqb negb]. pose proof (qs_fmem _ _ _ _ _ Hq1) as Hf1.
  destruct (qs_inv _ _ _ _ _ Hq1) as (f1 & q1 & Hb1 & _).
  assert (Hnext : forall j r', l !! j = Some r' -> buff !! (Z.to_nat (id + 1) + j)%nat = Some r').
  { intros j r' Hj. specialize (Hl (S j) r' Hj). by replace (Z.to_nat (id + 1) + j)%nat with (Z.to_nat id + S j)%nat by lia. }
  destruct (IH b1 f1 q1 (id + 1) Hb1 ltac:(lia) ltac:(lia) Hnext Hok) as (b2 & He & _).
  exists b2. split; [done|]. eapply queued_pieces_app; [exact Hq1|]. intros f' q' Hb'.
  destruct (IH b1 f' q' (id + 1) Hb' ltac:(lia) ltac:(lia) Hnext Hok) as (b2' & He' & Hq2).
  rewrite He in He'. injection He' as <-. by rewrite Hf1 in Hq2.
Qed.

(** The parts of a request as the frontend makes them: [parts] of one kind on
    consecutive sectors, between optional flushes, all with one cookie. *)
Fixpoint contiguous (s : Z) (l : list vcablk_request) : Prop :=
  match l with
  | [] => True
  | r :: l => BlkFrontend.sector r = s /\ contiguous (s + BlkFrontend.sectors_num r) l
  end.
Definition total (l : list vcablk_request) : Z := foldr (fun r n => BlkFrontend.sectors_num r + n) 0 l.

Record request_of (buff : list vcablk_request) (ty c s : Z) (before after : option vcablk_request)
    (parts : list vcablk_request) : Prop := {
  ro_buff : buff = option_list before ++ parts ++ option_list after;
  ro_type : ty = BlkFrontend.REQUEST_READ \/ ty = BlkFrontend.REQUEST_WRITE;
  ro_cookie : 0 <= c < 65536;
  ro_parts : parts <> [];
  ro_kind : Forall (fun r => BlkFrontend.request_type r = ty /\ BlkFrontend.cookie r = c) parts;
  ro_sync : forall r, before = Some r \/ after = Some r ->
    BlkFrontend.request_type r = BlkFrontend.REQUEST_SYNC /\ BlkFrontend.cookie r = c;
  ro_contig : contiguous s parts;
  ro_ok : Forall part_ok parts;
  ro_bound : (s + total parts) * 512 < 2 ^ 64;
}.

Lemma total_nonneg l : Forall part_ok l -> 0 <= total l.
Proof. induction 1 as [|r l Hr _ IH]; simpl; [lia|]. unfold part_ok in Hr. lia. Qed.

Lemma check_parts_ok l tail id size c ty s num :
  ty <> BlkFrontend.REQUEST_SYNC ->
  Forall (fun r => BlkFrontend.request_type r = ty /\ BlkFrontend.cookie r = c) l -> contiguous s l ->
  Forall part_ok l -> 0 <= s -> 0 <= num -> s + total l < 2 ^ 64 -> num + total l < 2 ^ 64 ->
  check_parts (l ++ tail) id size c ty s num
  = check_parts tail (id + zlen l) size c ty (s + total l) (num + total l).
Proof.
  intros Hty. revert id s num. induction l as [|r l IH]; intros id s num Hk Hc Hok Hs Hnum Hb Hb'.
  { simpl. unfold zlen. simpl. f_equal; lia. }
  apply Forall_cons_iff in Hk as [(Ht & Hck) Hk]. apply Forall_cons_iff in Hok as [Hr Hok].
  destruct Hc as (Hse & Hc). cbn [app check_parts total foldr] in *. fold (total l) in *.
  pose proof (total_nonneg l Hok). unfold part_ok in Hr.
  rewrite Hck, Z.eqb_refl, Ht, (proj2 (Z.eqb_neq ty _) Hty). cbn [negb andb].
  rewrite Z.eqb_refl, Hse, Z.eqb_refl. cbn [negb]. rewrite !u64_small by lia.
  rewrite IH by (done || lia). rewrite zlen_cons. f_equal; lia.
Qed.

Lemma check_sync r id size c ty s num :
  BlkFrontend.request_type r = BlkFrontend.REQUEST_SYNC -> BlkFrontend.cookie r = c -> id = 0 \/ id + 1 = size ->
  forall l, check_parts (r :: l) id size c ty s num = check_parts l (id + 1) size c ty s num.
Proof.
  intros Ht Hc Hid l. cbn [check_parts]. rewrite Hc, Z.eqb_refl, Ht, Z.eqb_refl. cbn [negb andb].
  destruct (Z.eqb_spec id 0), (Z.eqb_spec (id + 1) size); simpl; done || lia.
Qed.

Lemma request_not_sync ty :
  ty = BlkFrontend.REQUEST_READ \/ ty = BlkFrontend.REQUEST_WRITE -> (ty =? BlkFrontend.REQUEST_SYNC) = false.
Proof. by intros [-> | ->]. Qed.

Lemma request_last buff ty c s before after parts :
  request_of buff ty c s before after parts ->
  exists lst, aget buff (zlen buff - 1) = Ret lst
    /\ (BlkFrontend.request_type lst =? BlkFrontend.REQUEST_SYNC) = bool_decide (is_Some after).
Proof.
  intros [-> Hty _ Hne Hk Hsy _ _ _]. destruct after as [a|]; simpl option_list.
  - exists a. rewrite (app_assoc (option_list before)), zlen_app.
    replace (zlen (option_list before ++ parts) + zlen [a] - 1) with (zlen (option_list before ++ parts))
      by (unfold zlen; simpl; lia). rewrite aget_mid. split; [done|].
    destruct (Hsy a) as (-> & _); [by right|]. done.
  - destruct (exists_last Hne) as (l' & x & ->). exists x.
    rewrite app_nil_r, app_assoc, zlen_app.
    replace (zlen (option_list before ++ l') + zlen [x] - 1) with (zlen (option_list before ++ l'))
      by (unfold zlen; simpl; lia). rewrite aget_mid. split; [done|].
    apply Forall_app in Hk as (_ & [(Hxt & _) _]%Forall_cons_iff). rewrite Hxt. by apply request_not_sync.
Qed.

Lemma request_check buff ty c s before after parts :
  request_of buff ty c s before after parts -> check_parts buff 0 (zlen buff) c ty s 0 = (0, total parts).
Proof.
  intros [-> Hty _ Hne Hk Hsy Hcon Hok Hb].
  assert (0 <= s) as Hs.
  { destruct parts as [|p ps]; [done|]. destruct Hcon as (<- & _).
    apply Forall_cons_iff in Hok as [Hp _]. unfold part_ok in Hp. lia. }
  pose proof (total_nonneg _ Hok).
  assert (Hmid : forall i, i = zlen (option_list before) -> check_parts (parts ++ option_list after) i
            (zlen (option_list before ++ parts ++ option_list after)) c ty s 0 = (0, total parts)).
  { intros i Hi. rewrite check_parts_ok; [|by apply Z.eqb_neq, request_not_sync|done|done|done|lia..].
    rewrite Z.add_0_l. destruct after as [a|]; simpl option_list; [|done].
    destruct (Hsy a) as (Hat & Hac); [by right|]. rewrite check_sync; [done|done|done|].
    right. rewrite !zlen_app, Hi. unfold zlen. simpl. lia. }
  destruct before as [bf|]; simpl option_list; cbn [app]; [|by apply Hmid].
  destruct (Hsy bf) as (Hbt & Hbc); [by left|]. rewrite check_sync by (done || by left). by apply Hmid.
Qed.

(** [vcablk_bcknd_disk_request_get_info] recognises such a request. *)
Lemma get_info_ok buff ty c s before after parts :
  request_of buff ty c s before after parts ->
  vcablk_bcknd_disk_request_get_info buff
  = Ret (0, mkInfo c ty s (total parts) (bool_decide (is_Some before)) (bool_decide (is_Some after))).
Proof.
  intros Hr. destruct (request_last _ _ _ _ _ _ _ Hr) as (lst & Hlst & Hla).
  pose proof (request_check _ _ _ _ _ _ _ Hr) as Hchk. destruct Hr as [Hbuff Hty Hc Hne Hk Hsy Hcon Hok Hb].
  unfold vcablk_bcknd_disk_request_get_info. destruct parts as [|p ps]; [done|].
  pose proof Hk as [(Hpt & Hpc) _]%Forall_cons_iff. pose proof Hcon as (Hps & _).
  assert ((zlen buff =? 0) = false) as ->.
  { apply Z.eqb_neq. rewrite Hbuff, !zlen_app, zlen_cons. unfold zlen. lia. }
  cbv zeta. destruct before as [bf|].
  - destruct (Hsy bf) as (Hbt & Hbc); [by left|].
    assert (aget buff 0 = Ret bf) as -> by by rewrite Hbuff. run_bind. rewrite Hlst. run_bind.
    rewrite Hbt, Z.eqb_refl. assert ((zlen buff =? 1) = false) as ->
      by (apply Z.eqb_neq; rewrite Hbuff, !zlen_app, zlen_cons; unfold zlen; simpl; lia).
    cbn [andb]. assert (aget buff 1 = Ret p) as -> by (by rewrite Hbuff). run_bind.
    rewrite Hpt, Hps, Hbc, Hchk, Hla. destruct Hty as [->| ->]; done.
  - assert (aget buff 0 = Ret p) as -> by by rewrite Hbuff. run_bind. rewrite Hlst. run_bind.
    rewrite Hpt, request_not_sync by done. cbn [andb]. run_bind.
    rewrite Hpt, Hps, Hpc, Hchk, Hla. destruct Hty as [->| ->]; done.
Qed.

(** ** Memory disks *)

Lemma read_mem_app m a n k : 0 <= n -> 0 <= k ->
  read_mem m a (n + k) = read_mem m a n ++ read_mem m (a + n) k.
Proof.
  intros Hn Hk. unfold read_mem. rewrite seqZ_app, fmap_app by lia. f_equal.
  rewrite Z.add_0_l. apply list_eq. intros i. rewrite !list_lookup_fmap.
  destruct (decide (Z.of_nat i < k)) as [Hi|Hi].
  - rewrite !lookup_seqZ_lt by lia. simpl. do 2 f_equal. lia.
  - rewrite !lookup_seqZ_ge by lia. done.
Qed.

Lemma put_bytes_app mem o l1 l2 :
  0 <= o -> o + zlen l1 + zlen l2 <= zlen mem ->
  put_bytes (put_bytes mem o l1) (o + zlen l1) l2 = put_bytes mem o (l1 ++ l2).
Proof.
  intros Ho Hl. pose proof (zlen_nonneg l1). pose proof (zlen_nonneg l2). apply list_eq. intros i.
  rewrite <- (Nat2Z.id i). rewrite !put_bytes_lookup; rewrite ?zlen_put, ?zlen_app; try lia.
  destruct (Z.leb_spec (o + zlen l1) (Z.of_nat i)), (Z.ltb_spec (Z.of_nat i) (o + zlen l1 + zlen l2)),
    (Z.leb_spec o (Z.of_nat i)), (Z.ltb_spec (Z.of_nat i) (o + zlen l1)),
    (Z.ltb_spec (Z.of_nat i) (o + (zlen l1 + zlen l2))); try lia; cbn [andb]; try done.
  - rewrite lookup_app_r by (unfold zlen in *; lia). f_equal. unfold zlen in *. lia.
  - by rewrite lookup_app_l by (unfold zlen in *; lia).
Qed.

Definition answer (cookie : Z) : list (Z * Z) := if 0 <=? cookie then [(u16 cookie, 0)] else [].

Lemma flush_mem (m : vcablk_media file) mem p : mem_disk m mem -> do_flush m 0 p = (m, 0).
Proof. intros (Ht & _). unfold do_flush, vcablk_media_sync. rewrite Ht. by destruct (p_flush p). Qed.

Lemma effect_write (m : vcablk_media file) rs mem p :
  mem_disk m mem -> p_write p = true -> on_disk m (p_sector p) (p_nsec p) -> zlen (p_bytes p) = p_nsec p * 512 ->
  let mem' := put_bytes mem (p_sector p * 512) (p_bytes p) in
  effect (m, rs) p = (set_media_data m (DMemory mem'), rs ++ answer (p_cookie p))
  /\ mem_disk (set_media_data m (DMemory mem')) mem'.
Proof.
  intros Hm Hw Hon Hl mem'. destruct (mem_write m mem _ _ (p_bytes p) Hm Hon ltac:(lia)) as (He & Hm').
  rewrite take_ge in He, Hm' by (unfold zlen in Hl; lia). split; [|done]. unfold effect, do_write, vcablk_media_transfer.
  pose proof Hm as (-> & _). rewrite Hw, He. unfold answer. destruct (0 <=? p_cookie p); [|by rewrite app_nil_r].
  by rewrite (flush_mem _ mem').
Qed.

Lemma effect_read (m : vcablk_media file) rs mem p :
  mem_disk m mem -> p_write p = false -> effect (m, rs) p = (m, rs ++ answer (p_cookie p)).
Proof.
  intros Hm Hw. unfold effect, do_write, answer. rewrite Hw. destruct (0 <=? p_cookie p); [|by rewrite app_nil_r].
  by rewrite (flush_mem _ mem).
Qed.

(** All pieces of a part together put its bytes on the disk and answer once. *)
Lemma pieces_effect n fm sector num ptr cookie flush (m : vcablk_media file) rs mem :
  mem_disk m mem -> 0 < num <= 8 * Z.of_nat n -> on_disk m sector num ->
  let mem' := put_bytes mem (sector * 512) (read_mem fm ptr (num * 512)) in
  foldl effect (m, rs) (pieces n fm sector num ptr cookie flush)
  = (set_media_data m (DMemory mem'), rs ++ answer cookie)
  /\ mem_disk (set_media_data m (DMemory mem')) mem'.
Proof.
  revert sector num ptr m rs mem. induction n as [|n IH]; intros sector num ptr m rs mem Hm Hn Hon mem'; [lia|].
  pose proof Hm as (_ & _ & Hz). pose proof Hon as (Hs & _ & Hb & H64).
  cbn [pieces foldl]. set (nsec := Z.min num 8). set (p := mkPiece _ _ _ _ _ _).
  pose proof (zlen_read_mem fm ptr (nsec * 512) ltac:(lia)) as Hl.
  assert (on_disk m sector nsec) as Hon1 by (unfold on_disk, nsec; lia).
  destruct (effect_write m rs mem p Hm eq_refl Hon1 Hl) as (-> & Hm1). cbn [p_sector p_bytes p_cookie p] in Hm1 |- *.
  unfold last_only. destruct (Z.eqb_spec (num - nsec) 0) as [Hr|Hr].
  { replace nsec with num in * by lia. done. }
  change (answer (-1)) with (@nil (Z * Z)). rewrite app_nil_r.
  destruct (IH (sector + nsec) (num - nsec) (ptr + nsec * 512) _ rs _ Hm1) as (He & Hm2);
    [lia|unfold on_disk, nsec in *; cbn; lia|].
  assert (put_bytes (put_bytes mem (sector * 512) (read_mem fm ptr (nsec * 512))) ((sector + nsec) * 512)
            (read_mem fm (ptr + nsec * 512) ((num - nsec) * 512)) = mem') as Hmm.
  { replace ((sector + nsec) * 512) with (sector * 512 + zlen (read_mem fm ptr (nsec * 512))) by lia.
    rewrite put_bytes_app by (rewrite ?zlen_read_mem; lia). unfold mem'. rewrite <- read_mem_app by lia.
    do 2 f_equal. lia. }
  rewrite He. rewrite Hmm in Hm2 |- *. done.
Qed.

(** The bytes of the parts, in the frontend's memory. *)
Definition parts_bytes (fm : Z -> Z) (l : list vcablk_request) : list Z :=
  mbind (fun r => read_mem fm (BlkFrontend.phys_buff r) (BlkFrontend.sectors_num r * 512)) l.

Lemma zlen_parts_bytes fm l : Forall part_ok l -> zlen (parts_bytes fm l) = total l * 512.
Proof.
  induction 1 as [|r l Hr _ IH]; [done|]. unfold part_ok in Hr. cbn. fold (parts_bytes fm l) (total l).
  rewrite zlen_app, zlen_read_mem, IH by lia. lia.
Qed.

Lemma parts_effect fm l s cookie flush (m : vcablk_media file) rs mem :
  mem_disk m mem -> l <> [] -> Forall part_ok l -> contiguous s l -> 0 <= s ->
  (s + total l) * 512 <= size_bytes m -> (s + total l) * 512 < 2 ^ 64 ->
  let mem' := put_bytes mem (s * 512) (parts_bytes fm l) in
  foldl effect (m, rs) (parts_pieces fm l cookie flush)
  = (set_media_data m (DMemory mem'), rs ++ answer cookie)
  /\ mem_disk (set_media_data m (DMemory mem')) mem'.
Proof.
  revert s m rs mem. induction l as [|r l IH]; intros s m rs mem Hm Hne Hok Hc Hs Hb H64 mem'; [done|].
  apply Forall_cons_iff in Hok as [Hr Hok]. destruct Hc as (Hse & Hc). cbn [parts_pieces total foldr] in *.
  fold (total l) in *. pose proof (total_nonneg l Hok). unfold part_ok in Hr.
  set (n := BlkFrontend.sectors_num r) in *. set (a := BlkFrontend.phys_buff r) in *. rewrite Hse.
  rewrite foldl_app. pose proof (npieces_bound n ltac:(lia)).
  pose proof (zlen_read_mem fm a (n * 512) ltac:(lia)) as Hl.
  set (lst := match l with [] => true | _ => false end).
  destruct (pieces_effect (npieces n) fm s n a (if lst then cookie else -1) (if lst then flush else false) m rs mem Hm)
    as (-> & Hm1); [lia|unfold on_disk; lia|].
  destruct l as [|r2 l]; [simpl; unfold mem', parts_bytes; cbn; rewrite app_nil_r; done|].
  change (answer (if lst then cookie else -1)) with (@nil (Z * Z)). rewrite app_nil_r.
  destruct (IH (s + n) _ rs _ Hm1 ltac:(done) Hok Hc) as (He & Hm2); [lia|cbn [size_bytes set_media_data]; lia|lia|].
  pose proof (zlen_parts_bytes fm _ Hok) as Hlp. pose proof Hm as (_ & _ & Hz).
  assert (put_bytes (put_bytes mem (s * 512) (read_mem fm a (n * 512))) ((s + n) * 512) (parts_bytes fm (r2 :: l)) = mem') as Hmm.
  { replace ((s + n) * 512) with (s * 512 + zlen (read_mem fm a (n * 512))) by lia.
    rewrite put_bytes_app by lia. done. }
  rewrite He. rewrite Hmm in Hm2 |- *. done.
Qed.

(** The kind and the size of the medium never change. *)
Definition same_kind (m m' : vcablk_media file) : Prop := type m' = type m /\ size_bytes m' = size_bytes m.

Lemma transfer_kind (m m' : vcablk_media file) sector nsec buf w err buf' :
  vcablk_media_transfer m sector nsec buf w = Ret (err, m', buf') -> same_kind m m'.
Proof.
  unfold vcablk_media_transfer, media_transfer_mem, media_transfer_file, same_kind. intros He.
  destruct (type m) eqn:Ht; [done| |]; destruct (_ <? _); inv_ret; simplify_eq; try done;
    destruct (data m) as [mem|f]; try done; destruct w.
  - destruct (read_only m); inv_ret; simplify_eq; [done|].
    match goal with H : context [kernel_write ?a ?b ?c] |- _ => destruct (kernel_write a b c) end. inv_ret. by simplify_eq.
  - match goal with H : context [kernel_read ?a ?b ?c] |- _ => destruct (kernel_read a b c) end. inv_ret. by simplify_eq.
  - inv_ret. by simplify_eq.
  - inv_ret. by simplify_eq.
Qed.

Lemma effect_kind v p : same_kind v.1 (effect (file := file) v p).1.
Proof.
  destruct v as (m & rs). unfold effect.
  assert (Hw : same_kind m (do_write m p).1).
  { unfold do_write. destruct (p_write p); [|done].
    destruct (vcablk_media_transfer _ _ _ _ _) as [((err & m') & buf')| | |] eqn:E; try done. by apply transfer_kind in E. }
  destruct (do_write m p) as (m1 & err). simpl in Hw. destruct (0 <=? p_cookie p); [|done].
  unfold do_flush, vcablk_media_sync, media_sync_file, media_sync_mem.
  destruct ((err =? 0) && p_flush p); [|done]. destruct (type m1) eqn:Ht; cbn; [done| |done].
  destruct (data m1); cbn; [done|]. by destruct (vfs_fsync f).
Qed.

Lemma view_kind b q : same_kind (media b) (view b q).1.
Proof.
  unfold view. generalize (responses (log b)). generalize (media b).
  induction (abs_piece <$> tps b q) as [|p l IH]; intros m rs; [done|]. cbn [foldl].
  destruct (effect_kind (m, rs) p) as (Ht & Hs). destruct (effect (m, rs) p) as (m' & rs').
  destruct (IH m' rs') as (Ht' & Hs'). simpl in *. split; congruence.
Qed.

(** The queue can be worked off. *)
Lemma drain_ok b free q held :
  binv b free q held ->
  exists n b', run_turns polled n b = Ret b' /\ binv b' (free ++ q) [] held /\ fmem b' = fmem b
    /\ windows (log b') = windows (log b) /\ (media b', responses (log b')) = view b q /\ kept b b'.
Proof.
  assert (forall q b free, binv b free q held -> finishing b = false ->
    exists n b', run_turns polled n b = Ret b' /\ binv b' (free ++ q) [] held /\ worked b q b' []) as Hgo.
  { clear b free q. induction q as [|i q IH]; intros b free Hb Hfin.
    { exists 0%nat, b. rewrite app_nil_r. split; [done|]. by split; [|apply worked_refl]. }
    destruct (turn_ok _ _ _ _ _ Hb Hfin) as (b1 & E1 & Hb1 & Hw1).
    assert (exists n b2, run_turns polled n b1 = Ret b2 /\ binv b2 (free ++ [i]) q held /\ worked b1 q b2 q /\ finishing b2 = false)
      as (n1 & b2 & E2 & Hb2 & Hw2 & Hf2).
    { destruct (finishing b1) eqn:Hf1; [|exists 0%nat, b1; split; [done|]; by split; [|split; [apply worked_refl|]]].
      destruct (turn_finish_ok _ _ _ _ Hb1 Hf1) as (b2 & E & H2). exists 1%nat, b2. split; [|done]. cbn [run_turns]. by rewrite E. }
    destruct (IH _ _ Hb2 Hf2) as (n2 & b3 & E3 & Hb3 & Hw3). exists (S (n1 + n2)), b3. split.
    - cbn [run_turns]. rewrite E1. run_bind. rewrite run_turns_app, E2. run_bind. done.
    - split; [by rewrite <- app_assoc in Hb3|]. eapply worked_trans; [exact Hw1|]. by eapply worked_trans. }
  intros Hb. assert (exists n b', run_turns polled n b = Ret b' /\ binv b' (free ++ q) [] held /\ worked b q b' [])
    as (n & b' & E & Hb' & [Hk Hv Hf Hw _ _]).
  { destruct (finishing b) eqn:Hfin; [|by apply Hgo]. destruct (turn_finish_ok _ _ _ _ Hb Hfin) as (b1 & E1 & Hb1 & Hw1 & Hf1).
    destruct (Hgo _ _ _ Hb1 Hf1) as (n & b2 & E2 & Hb2 & Hw2). exists (S n), b2. split; [cbn [run_turns]; rewrite E1; run_bind; exact E2|].
    split; [done|]. by eapply worked_trans. }
  exists n, b'. split; [done|]. split; [done|]. split; [done|]. split; [done|]. by split.
Qed.

Lemma sync_before_mem b q m mem rs :
  view b q = (m, rs) -> mem_disk m mem -> vcablk_media_sync (media b) = Ret (0, media b).
Proof.
  intros Hv (Ht & _). unfold vcablk_media_sync. destruct (view_kind b q) as (<- & _). rewrite Hv. simpl. by rewrite Ht.
Qed.

(** After the checks, a request is the transfer of its parts. *)
Lemma request_parts b q m mem rs buff ty c s before after parts :
  request_of buff ty c s before after parts -> view b q = (m, rs) -> mem_disk m mem ->
  vcablk_bcknd_disk_request polled ioremap_ok dma_ch dma_sync sched b buff
  = '(b, err) ← parts_loop polled ioremap_ok dma_ch dma_sync sched (length parts) b buff (zlen (option_list before))
                  (zlen (option_list before) + zlen parts) (ty =? BlkFrontend.REQUEST_WRITE) c
                  (bool_decide (is_Some after));
    if negb (err =? 0) then send_error polled b c err else Ret (b, err).
Proof.
  intros Hr Hv Hm. unfold vcablk_bcknd_disk_request. rewrite (get_info_ok _ _ _ _ _ _ _ Hr). run_bind.
  cbn [Z.eqb negb i_cookie i_type i_sync_before i_sync_after].
  destruct Hr as [Hbuff Hty Hc Hne Hk Hsy Hcon Hok Hb].
  assert ((if bool_decide (is_Some before) then '(err, m) ← vcablk_media_sync (media b); Ret (set_bmedia b m, err)
           else Ret (b, 0)) = Ret (b, 0)) as ->.
  { case_bool_decide; [|done]. rewrite (sync_before_mem b q m mem rs Hv Hm). run_bind. by destruct b. }
  run_bind. cbn [Z.eqb negb orb].
  assert (zlen buff = zlen (option_list before) + zlen parts + zlen (option_list after)) as Hl
    by (rewrite Hbuff, !zlen_app; lia).
  assert (0 < zlen parts) as Hp by (destruct parts; [done|rewrite zlen_cons; unfold zlen; lia]).
  assert (bool_decide (is_Some before) && (zlen buff =? 1) = false) as ->.
  { destruct before; [|done]. apply Z.eqb_neq. rewrite Hl. unfold zlen in *. simpl. lia. }
  assert ((if bool_decide (is_Some before) then 1 else 0) = zlen (option_list before)) as -> by by destruct before.
  assert ((if bool_decide (is_Some after) then zlen buff - 1 else zlen buff) = zlen (option_list before) + zlen parts) as ->.
  { rewrite Hl. destruct after; unfold zlen; simpl; lia. }
  replace (Z.to_nat (zlen (option_list before) + zlen parts - zlen (option_list before))) with (length parts)
    by (unfold zlen; lia). done.
Qed.

Lemma request_lookup buff ty c s before after parts :
  request_of buff ty c s before after parts ->
  forall j r, parts !! j = Some r -> buff !! (Z.to_nat (zlen (option_list before)) + j)%nat = Some r.
Proof.
  intros Hr j r Hj. rewrite (ro_buff _ _ _ _ _ _ _ Hr). unfold zlen. rewrite Nat2Z.id.
  rewrite lookup_app_r by lia. replace (length (option_list before) + j - length (option_list before))%nat with j by lia.
  apply lookup_app_l_Some. done.
Qed.

Lemma request_sector buff ty c s before after parts : request_of buff ty c s before after parts -> 0 <= s.
Proof.
  intros [_ _ _ Hne _ _ Hcon Hok _]. destruct parts as [|p ps]; [done|]. destruct Hcon as (<- & _).
  apply Forall_cons_iff in Hok as [Hp _]. unfold part_ok in Hp. lia.
Qed.

Lemma answer_cookie c : 0 <= c < 65536 -> answer c = [(c, 0)].
Proof. intros Hc. unfold answer. rewrite (proj2 (Z.leb_le _ _)) by lia. by rewrite u16_small by lia. Qed.

Lemma request_write_ok b free q m mem rs buff c s before after parts :
  binv b free q [] -> request_of buff BlkFrontend.REQUEST_WRITE c s before after parts ->
  view b q = (m, rs) -> mem_disk m mem -> (s + total parts) * 512 <= zlen mem ->
  let m' := set_media_data m (DMemory (put_bytes mem (s * 512) (parts_bytes (fmem b) parts))) in
  exists b' free' q', vcablk_bcknd_disk_request polled ioremap_ok dma_ch dma_sync sched b buff = Ret (b', 0)
    /\ binv b' free' q' [] /\ view b' q' = (m', rs ++ [(c, 0)]) /\ fmem b' = fmem b
    /\ windows (log b') = windows (log b) ++ parts_windows parts /\ kept b b'.
Proof.
  intros Hb Hr Hv Hm Hsz m'. rewrite (request_parts b q m mem rs _ _ _ _ _ _ _ Hr Hv Hm).
  destruct (parts_write_ok parts buff (zlen (option_list before)) (zlen (option_list before) + zlen parts)
    b free q c (bool_decide (is_Some after)) Hb (zlen_nonneg _) eq_refl
    (request_lookup _ _ _ _ _ _ _ Hr) (ro_ok _ _ _ _ _ _ _ Hr)) as (b' & He & [(f' & q' & Hb' & Hv') Hf Hw Hk]).
  change (BlkFrontend.REQUEST_WRITE =? BlkFrontend.REQUEST_WRITE) with true. rewrite He. run_bind.
  cbn [Z.eqb negb]. exists b', f', q'. split; [done|]. split; [done|]. split; [|done].
  pose proof Hm as (_ & _ & Hz). pose proof (request_sector _ _ _ _ _ _ _ Hr) as Hs.
  destruct Hr as [Hbuff Hty Hc Hne Hkd Hsy Hcon Hok Hbd]. rewrite Hv', Hv.
  destruct (parts_effect (fmem b) parts s c (bool_decide (is_Some after)) m rs mem Hm Hne Hok Hcon Hs) as (-> & _);
    [lia|lia|]. by rewrite answer_cookie.
Qed.

(** *** Read requests *)

(** A queued write that does not reach the sectors [lo], ..., [lo + n - 1]. *)
Definition apart (lo n : Z) (p : piece) : Prop :=
  p_write p = true -> p_sector p + p_nsec p <= lo \/ lo + n <= p_sector p.
Definition piece_ok (p : piece) : Prop :=
  no_wrap (p_sector p) (p_nsec p) /\ (p_write p = true -> zlen (p_bytes p) = p_nsec p * 512).

Lemma pending_ok b free q held : binv b free q held -> Forall piece_ok (pending b q).
Proof.
  intros Hb. apply Forall_fmap, list.Forall_forall. intros tp Htp.
  apply list_elem_of_omap in Htp as (i & Hi & Htp).
  destruct (bi_queued _ _ _ _ Hb i Hi) as (tp' & Htp' & (Hnw & H8)). rewrite Htp in Htp'. injection Htp' as <-.
  split; [done|]. cbn. intros Hw. rewrite Hw. destruct Hnw as (_ & Hn & _).
  assert (zlen (buffer tp) = 4096) by (eapply Forall_lookup_1 in Htp; [exact Htp|apply (bi_bufs _ _ _ _ Hb)]).
  unfold zlen in *. rewrite length_take. lia.
Qed.

Lemma effect_apart (m : vcablk_media file) rs mem lo n p :
  mem_disk m mem -> piece_ok p -> apart lo n p -> 0 <= lo -> 0 <= n ->
  exists mem', mem_disk (effect (m, rs) p).1 mem'
    /\ get_bytes mem' (lo * 512) (n * 512) = get_bytes mem (lo * 512) (n * 512).
Proof.
  intros Hm (Hnw & Hl) Ha Hlo Hn. pose proof Hm as (Ht & _ & Hz). destruct (p_write p) eqn:Hw.
  - destruct (decide (on_disk m (p_sector p) (p_nsec p))) as [Hon|Hoff].
    + destruct (effect_write m rs mem p Hm Hw Hon (Hl eq_refl)) as (-> & Hm'). eexists. split; [exact Hm'|].
      destruct Hon as (H0 & H1 & H2 & H3). specialize (Ha Hw).
      apply get_put_other; rewrite ?(Hl eq_refl); lia.
    + exists mem. split; [|done]. unfold effect, do_write, vcablk_media_transfer, media_transfer_mem.
      rewrite Hw, Ht. destruct Hnw as (H0 & H1 & H2). rewrite !shift_sector, u64_small by lia.
      rewrite (proj2 (Z.ltb_lt _ _)) by (unfold on_disk in Hoff; lia). destruct (0 <=? p_cookie p); done.
  - rewrite (effect_read m rs mem p Hm Hw). by exists mem.
Qed.

(** What is in the queue does not matter to the sectors it is apart from. *)
Lemma view_apart b free q held m mem rs lo n :
  binv b free q held -> Forall (apart lo n) (pending b q) -> 0 <= lo -> 0 <= n ->
  view b q = (m, rs) -> mem_disk m mem ->
  exists mem0, mem_disk (media b) mem0
    /\ get_bytes mem0 (lo * 512) (n * 512) = get_bytes mem (lo * 512) (n * 512).
Proof.
  intros Hb Hap Hlo Hn Hv Hm.
  assert (exists mem0, mem_disk (media b) mem0) as (mem0 & Hm0).
  { destruct (bi_media _ _ _ _ Hb) as [?|(Ht & _)]; [done|]. destruct (view_kind b q) as (Hk & _). rewrite Hv, Ht in Hk.
    destruct Hm as (Hm & _). simpl in Hk. by rewrite Hm in Hk. }
  exists mem0. split; [done|]. pose proof (pending_ok _ _ _ _ Hb) as Hok. revert Hv Hm0.
  unfold view. fold (pending b q). generalize (responses (log b)) as rs0. generalize (media b) as m0.
  revert mem0. induction (pending b q) as [|p l IH]; intros mem0 m0 rs0 Hv Hm0.
  { simpl in Hv. injection Hv as -> ->. destruct Hm as (_ & Hd & _), Hm0 as (_ & Hd0 & _). congruence. }
  apply Forall_cons_iff in Hap as [Hap1 Hap]. apply Forall_cons_iff in Hok as [Hok1 Hok].
  destruct (effect_apart m0 rs0 mem0 lo n p Hm0 Hok1 Hap1 Hlo Hn) as (mem1 & Hm1 & Hg). cbn [foldl] in Hv.
  destruct (effect (m0, rs0) p) as (m1 & rs1). rewrite <- Hg. by eapply IH.
Qed.

Lemma write_mem_app f a l1 l2 x :
  write_mem (write_mem f a l1) (a + zlen l1) l2 x = write_mem f a (l1 ++ l2) x.
Proof.
  unfold write_mem. rewrite zlen_app. pose proof (zlen_nonneg l1). pose proof (zlen_nonneg l2).
  destruct (Z.leb_spec (a + zlen l1) x), (Z.ltb_spec x (a + zlen l1 + zlen l2)), (Z.leb_spec a x),
    (Z.ltb_spec x (a + zlen l1)), (Z.ltb_spec x (a + (zlen l1 + zlen l2))); try lia; cbn [andb]; try done.
  - rewrite lookup_app_r by (unfold zlen in *; lia). do 2 f_equal. unfold zlen in *. lia.
  - by rewrite lookup_app_l by (unfold zlen in *; lia).
Qed.

Lemma write_mem_ext f g a l x : f x = g x -> write_mem f a l x = write_mem g a l x.
Proof. unfold write_mem. intros ->. done. Qed.

Lemma get_bytes_app mem o n k : 0 <= o -> 0 <= n -> 0 <= k ->
  get_bytes mem o (n + k) = get_bytes mem o n ++ get_bytes mem (o + n) k.
Proof.
  intros Ho Hn Hk. unfold get_bytes. rewrite !Z2Nat.inj_add, <- drop_drop by lia. by rewrite take_take_drop.
Qed.

(** [b] is [b0] with the answers [rs] pending or given, the medium [m] when the
    queue is worked off, and no queued write to the sectors [lo], ..., [lo + k - 1]. *)
Record reading (m : vcablk_media file) (rs : list (Z * Z)) (lo k : Z) b0 (win : list event) b : Prop := {
  rd_inv : exists free q, binv b free q [] /\ Forall (apart lo k) (pending b q) /\ view b q = (m, rs);
  rd_win : windows (log b) = windows (log b0) ++ win;
  rd_kept : kept b0 b;
}.

Lemma apart_sub lo k lo' k' p : lo <= lo' -> lo' + k' <= lo + k -> apart lo k p -> apart lo' k' p.
Proof. unfold apart. intros H1 H2 Hp Hw. specialize (Hp Hw). lia. Qed.

Lemma reading_step m mem rs lo k b0 win b q p fm w b' :
  Forall (apart lo k) (pending b q) -> view b q = (m, rs) -> mem_disk m mem ->
  windows (log b) = windows (log b0) ++ win -> kept b0 b ->
  queued_piece b q [] p fm w b' -> p_write p = false ->
  reading m (rs ++ answer (p_cookie p)) lo k b0 (win ++ w) b'.
Proof.
  intros Hap Hv Hm Hw Hk [(f2 & q2 & l & Hb2 & Hv2 & Hp2 & Hl2) Hf2 Hw2 Hk2] Hp. split.
  - exists f2, q2. split; [done|]. rewrite Hv2, Hv, (effect_read m rs mem p Hm Hp), Hp2. split; [|done].
    apply Forall_app. split; [|by apply Forall_singleton; intros Hx; rewrite Hp in Hx].
    destruct Hl2 as (l0 & Hl0). rewrite Hl0 in Hap. by apply Forall_app in Hap as (_ & Hap).
  - by rewrite Hw2, Hw, app_assoc.
  - by etrans.
Qed.

(** The medium is read while writes to other sectors are still queued. *)
Lemma media_read_ok b free q held m mem rs sector nsec buf :
  binv b free q held -> Forall (apart sector nsec) (pending b q) -> view b q = (m, rs) -> mem_disk m mem ->
  on_disk m sector nsec -> nsec * 512 <= zlen buf ->
  vcablk_media_transfer (media b) sector nsec buf false
  = Ret (0, media b, get_bytes mem (sector * 512) (nsec * 512) ++ drop (Z.to_nat (nsec * 512)) buf).
Proof.
  intros Hb Hap Hv Hm Hon Hl. pose proof Hon as (Hs & Hn & _ & _).
  destruct (view_apart b free q held m mem rs sector nsec Hb Hap Hs Hn Hv Hm) as (mem0 & Hm0 & <-).
  destruct (view_kind b q) as (_ & Hk). rewrite Hv in Hk. simpl in Hk.
  unfold vcablk_media_transfer. pose proof Hm0 as (-> & _).
  apply mem_read; [done| |done]. unfold on_disk in *. lia.
Qed.

Lemma piece_read_ok b free q m mem rs sector nsec rest ptr remapped cookie flush :
  binv b free q [] -> Forall (apart sector nsec) (pending b q) -> view b q = (m, rs) -> mem_disk m mem ->
  on_disk m sector nsec -> nsec <= 8 ->
  exists b', transfer_piece polled dma_ch dma_sync b sector nsec rest ptr remapped false cookie flush = Ret (b', 0)
    /\ queued_piece b q []
         (mkPiece sector nsec false [] (last_only rest cookie (-1)) (last_only rest flush false))
         (write_mem (fmem b) ptr (get_bytes mem (sector * 512) (nsec * 512)))
         (last_only rest [EvUnmap remapped] []) b'.
Proof.
  intros Hb Hap Hv Hm Hon H8. unfold transfer_piece. pose proof Hon as (Hs & Hn & Hsz & H64).
  destruct (get_param_ok b free q [] Hb) as (b1 & i & f1 & q1 & -> & Hb1 & Hw1 & _); [simpl; lia|]. run_bind.
  destruct (held_notin _ _ _ _ _ Hb1) as (_ & _ & Hi).
  destruct (get_tp_total _ _ _ _ i Hb1 Hi) as (tp & Htp). rewrite Htp. run_bind.
  set (cb := if rest =? 0 then _ else _). pose proof (tp_buf _ _ _ _ _ _ Hb1 Htp) as Hl.
  destruct (set_tp_ok b1 f1 q1 i [] (mkTp cb (buffer tp)) Hb1 Hl) as (b2 & -> & Hb2 & _ & Hv2 & Hf2 & Hl2 & Hm2 & Hk2 & Htp2 & Hp2).
  run_bind. cbn [negb].
  assert (view b1 q1 = (m, rs)) as Hv1 by by rewrite (wk_view _ _ _ _ Hw1).
  assert (Forall (apart sector nsec) (pending b1 q1)) as Hap1.
  { destruct (wk_pending _ _ _ _ Hw1) as (l0 & Hl0). rewrite Hl0 in Hap. by apply Forall_app in Hap as (_ & Hap). }
  rewrite Hm2, (media_read_ok b1 f1 q1 [i] m mem rs) by (done || lia). run_bind.
  assert (set_bmedia b2 (media b1) = b2) as -> by (rewrite <- Hm2; by destruct b2).
  set (buf := _ ++ _). assert (zlen buf = 4096) as Hbuf.
  { unfold buf. pose proof Hm as (_ & _ & Hz). rewrite zlen_app, zlen_get by lia. unfold zlen in *. rewrite length_drop. lia. }
  destruct (set_tp_ok b2 f1 q1 i [] (mkTp cb buf) Hb2 Hbuf) as (b3 & -> & Hb3 & _ & Hv3 & Hf3 & Hl3 & _ & Hk3 & Htp3 & Hp3).
  run_bind. cbn [Z.eqb negb].
  assert (cb_is_write cb = false /\ cb_sector cb = sector /\ cb_nsec cb = nsec
    /\ cb_response_cookie cb = last_only rest cookie (-1) /\ cb_do_flush cb = last_only rest flush false
    /\ option_list (EvUnmap <$> cb_remapped cb) = last_only rest [EvUnmap remapped] [])
    as (Hw & Hs' & Hn' & Hc & Hfl & Hr) by (unfold cb, last_only; by destruct (rest =? 0)).
  destruct (device_read_ok b3 f1 q1 i [] (mkTp cb buf) ptr Hb3 Htp3 Hw Hbuf) as (b4 & He & Hq & _).
  { split; cbn; rewrite ?Hs', ?Hn'; [unfold no_wrap; lia|done]. }
  cbn [callback_param buffer] in He, Hq. rewrite Hn' in He. rewrite shl9, He. exists b4. split; [done|].
  rewrite Hs', Hn', Hc, Hfl, Hr in Hq. eapply queued_worked; [exact Hw1|].
  assert (take (Z.to_nat (nsec * 512)) buf = get_bytes mem (sector * 512) (nsec * 512)) as Htk.
  { unfold buf. pose proof Hm as (_ & _ & Hz). apply take_app_length'.
    pose proof (zlen_get mem (sector * 512) (nsec * 512) ltac:(lia) ltac:(lia) ltac:(lia)) as Hgl. unfold zlen in Hgl. lia. }
  rewrite Htk, Hf3, Hf2, (wk_fmem _ _ _ _ Hw1) in Hq.
  destruct Hq as [(f & q' & l & Hb' & Hv' & Hpe & Hsu) Hf Hwi Hk]. split.
  - exists f, q', l. rewrite Hv', Hv3, Hv2. split; [done|]. split; [done|]. split; [done|]. by rewrite <- Hp2, <- Hp3.
  - done.
  - by rewrite Hwi, Hl3, Hl2.
  - etrans; [exact Hk2|]. by etrans.
Qed.

Lemma reading_start m rs lo k b free q :
  binv b free q [] -> Forall (apart lo k) (pending b q) -> view b q = (m, rs) -> reading m rs lo k b [] b.
Proof. intros Hb Hap Hv. split; [by exists free, q|by rewrite app_nil_r|done]. Qed.

Lemma reading_trans m rs lo k b0 win b1 rs' win' b2 :
  reading m rs lo k b0 win b1 -> reading m rs' lo k b1 win' b2 -> reading m rs' lo k b0 (win ++ win') b2.
Proof.
  intros [_ Hw Hk] [Hi Hw' Hk']. split; [done| |by etrans]. by rewrite Hw', Hw, app_assoc.
Qed.

(** Turns of the transfer thread do not disturb a read. *)
Lemma reading_turns t m rs lo k b :
  reading m rs lo k b [] b ->
  exists b', run_turns polled t (tick b) = Ret b' /\ reading m rs lo k b [] b' /\ fmem b' = fmem b.
Proof.
  intros [(f & q & Hb & Hap & Hv) _ _].
  destruct (run_turns_ok t (tick b) f q [] (binv_tick _ _ _ _ Hb)) as (b1 & f1 & q1 & -> & Hb1 & [Hk Hvw Hfm Hw _ (l0 & Hl0)] & _).
  exists b1. split; [done|]. split; [|done]. split; [|by rewrite app_nil_r|by destruct Hk; split].
  exists f1, q1. split; [done|]. split; [|by rewrite Hvw].
  change (pending (tick b) q) with (pending b q) in Hl0. rewrite Hl0 in Hap. by apply Forall_app in Hap as (_ & Hap).
Qed.

Lemma read_loop_ok n b m mem rs lo k sector num ptr remapped cookie flush :
  reading m rs lo k b [] b -> mem_disk m mem -> 0 <= lo -> (lo + k) * 512 <= zlen mem -> (lo + k) * 512 < 2 ^ 64 ->
  lo <= sector -> sector + num <= lo + k -> 0 < num <= 8 * Z.of_nat n -> 0 <= ptr -> ptr + num * 512 < 2 ^ 64 ->
  exists b', transfer_loop polled dma_ch dma_sync sched n b sector num ptr remapped false cookie flush = Ret (b', 0)
    /\ reading m (rs ++ answer cookie) lo k b [EvUnmap remapped] b'
    /\ forall a, fmem b' a = write_mem (fmem b) ptr (get_bytes mem (sector * 512) (num * 512)) a.
Proof.
  revert b rs sector num ptr. induction n as [|n IH]; intros b rs sector num ptr Hb Hm Hlo Hk H64 Hs Hsn Hn Hp Hpw; [lia|].
  cbn [transfer_loop]. rewrite (proj2 (Z.eqb_neq num 0)) by lia.
  destruct (reading_turns (sched (now b)) _ _ _ _ _ Hb) as (b1 & -> & [(f1 & q1 & Hb1 & Hap1 & Hv1) Hw1 Hk1] & Hf1). run_bind.
  change (Z.shiftr PAGE_SIZE SECTOR_SHIFT) with 8. set (nsec := Z.min num 8). set (rest := num - nsec).
  pose proof Hm as (_ & _ & Hz). assert (on_disk m sector nsec) as Hon by (unfold on_disk, nsec; lia).
  destruct (piece_read_ok b1 f1 q1 m mem rs sector nsec rest ptr remapped cookie flush Hb1) as (b2 & -> & Hq);
    [|done..|lia|].
  { eapply List.Forall_impl; [|exact Hap1]. intros p. apply apart_sub; lia. }
  run_bind. cbn [Z.eqb negb]. rewrite shl9.
  pose proof (reading_step m mem rs lo k b [] b1 q1 _ _ _ b2 Hap1 Hv1 Hm Hw1 Hk1 Hq eq_refl) as Hrd.
  cbn [p_cookie app] in Hrd. pose proof (qp_fmem _ _ _ _ _ _ _ Hq) as Hf2. rewrite Hf1 in Hf2.
  unfold last_only in Hrd. destruct (Z.eqb_spec rest 0) as [Hr|Hr].
  { exists b2. replace num with nsec by lia. rewrite Hr. split; [by destruct n|]. split; [done|]. by intros; rewrite Hf2. }
  change (answer (-1)) with (@nil (Z * Z)) in Hrd. rewrite app_nil_r in Hrd.
  destruct (rd_inv _ _ _ _ _ _ _ Hrd) as (f2 & q2 & Hb2 & Hap2 & Hv2).
  destruct (IH b2 rs (sector + nsec) rest (ptr + nsec * 512) (reading_start _ _ _ _ _ _ _ Hb2 Hap2 Hv2)) as (b3 & He & Hrd3 & Hf3);
    try done; try lia.
  rewrite !u64_small by lia. exists b3. split; [done|]. split; [exact (reading_trans _ _ _ _ _ _ _ _ _ _ Hrd Hrd3)|].
  intros a. rewrite Hf3, Hf2. replace (num * 512) with (nsec * 512 + rest * 512) by lia.
  rewrite get_bytes_app by lia. rewrite <- write_mem_app, zlen_get by lia. do 2 f_equal. lia.
Qed.

Lemma transfer_read_ok b m mem rs lo k sector num phys cookie flush :
  reading m rs lo k b [] b -> mem_disk m mem -> 0 <= lo -> (lo + k) * 512 <= zlen mem -> (lo + k) * 512 < 2 ^ 64 ->
  lo <= sector -> sector + num <= lo + k -> 0 < num -> 0 <= phys -> phys + num * 512 < 2 ^ 64 ->
  exists b', vcablk_bcknd_transfer polled ioremap_ok dma_ch dma_sync sched b sector num phys false cookie flush = Ret (b', 0)
    /\ reading m (rs ++ answer cookie) lo k b [EvRemap phys; EvUnmap phys] b'
    /\ forall a, fmem b' a = write_mem (fmem b) phys (get_bytes mem (sector * 512) (num * 512)) a.
Proof.
  intros [(f & q & Hb & Hap & Hv) _ _] Hm Hlo Hk H64 Hs Hsn Hn Hp Hpw.
  unfold vcablk_bcknd_transfer. rewrite ioremap_1. cbn [negb].
  fold (npieces num).
  set (b0 := emit (tick b) [EvRemap phys]).
  assert (binv b0 f q []) as Hb0 by (apply binv_tick in Hb; destruct Hb; by split).
  pose proof (npieces_bound num ltac:(lia)).
  destruct (read_loop_ok (npieces num) b0 m mem rs lo k sector num phys phys cookie flush) as (b' & -> & [Hi Hwi Hk'] & Hf);
    try done; try lia.
  { eapply reading_start; [exact Hb0|done|]. unfold b0. by rewrite view_window. }
  run_bind. exists b'. split; [done|]. split; [|done]. split; [done| |].
  - rewrite Hwi. unfold b0. cbn [log emit tick]. unfold windows. rewrite omap_app. by rewrite <- app_assoc.
  - by apply (kept_remap b phys).
Qed.

(** The frontend's memory after the parts [l] were read from a disk with the
    contents [mem]. *)
Definition parts_mem (mem : list Z) (l : list vcablk_request) (fm : Z -> Z) : Z -> Z :=
  foldl (fun fm r => write_mem fm (BlkFrontend.phys_buff r)
                       (get_bytes mem (BlkFrontend.sector r * 512) (BlkFrontend.sectors_num r * 512))) fm l.

Lemma parts_mem_ext mem l f g : (forall a, f a = g a) -> forall a, parts_mem mem l f a = parts_mem mem l g a.
Proof.
  revert f g. induction l as [|r l IH]; intros f g Hfg; [done|]. cbn. apply IH. intros a. by apply write_mem_ext.
Qed.

Lemma parts_read_ok l buff id end_id s lo k b m mem rs cookie after :
  reading m rs lo k b [] b -> mem_disk m mem -> 0 <= lo -> (lo + k) * 512 <= zlen mem -> (lo + k) * 512 < 2 ^ 64 ->
  0 <= id -> end_id = id + zlen l -> l <> [] ->
  (forall j r, l !! j = Some r -> buff !! (Z.to_nat id + j)%nat = Some r) -> Forall part_ok l ->
  contiguous s l -> lo <= s -> s + total l <= lo + k ->
  exists b', parts_loop polled ioremap_ok dma_ch dma_sync sched (length l) b buff id end_id false cookie after = Ret (b', 0)
    /\ reading m (rs ++ answer cookie) lo k b (parts_windows l) b'
    /\ forall a, fmem b' a = parts_mem mem l (fmem b) a.
Proof.
  revert b rs id s. induction l as [|r l IH]; intros b rs id s Hb Hm Hlo Hk H64 Hid Hend Hne Hl Hok Hc Hs Hsn; [done|].
  cbn [length parts_loop]. apply Forall_cons_iff in Hok as [(Hn & Hsr & Hw & Hp & Hpw) Hok]. rewrite zlen_cons in Hend.
  destruct Hc as (Hse & Hc). cbn [total foldr] in Hsn. fold (total l) in Hsn. pose proof (total_nonneg l Hok).
  rewrite (aget_ret _ _ r) by (lia || (specialize (Hl 0%nat r eq_refl); by rewrite Nat.add_0_r in Hl)). run_bind.
  set (lst := match l with [] => true | _ => false end).
  assert ((end_id <=? id + 1) = lst) as ->.
  { unfold lst. destruct l; [apply Z.leb_le; unfold zlen in Hend; simpl in Hend; lia|].
    apply Z.leb_gt. rewrite zlen_cons in Hend. pose proof (zlen_nonneg l). lia. }
  destruct (transfer_read_ok b m mem rs lo k (BlkFrontend.sector r) (BlkFrontend.sectors_num r) (BlkFrontend.phys_buff r)
              (if lst then cookie else -1) (if lst then after else false) Hb) as (b1 & -> & Hrd & Hf1); try done; try lia.
  run_bind. cbn [Z.eqb negb]. destruct l as [|r2 l].
  { exists b1. done. }
  change (answer (if lst then cookie else -1)) with (@nil (Z * Z)) in Hrd. rewrite app_nil_r in Hrd.
  destruct (rd_inv _ _ _ _ _ _ _ Hrd) as (f2 & q2 & Hb2 & Hap2 & Hv2).
  destruct (IH b1 rs (id + 1) (s + BlkFrontend.sectors_num r) (reading_start _ _ _ _ _ _ _ Hb2 Hap2 Hv2))
    as (b3 & He & Hrd3 & Hf3); try done; try lia.
  { intros j r' Hj. specialize (Hl (S j) r' Hj). by replace (Z.to_nat (id + 1) + j)%nat with (Z.to_nat id + S j)%nat by lia. }
  exists b3. split; [done|]. split; [exact (reading_trans _ _ _ _ _ _ _ _ _ _ Hrd Hrd3)|].
  intros a. rewrite Hf3. exact (parts_mem_ext mem (r2 :: l) _ _ Hf1 a).
Qed.

Lemma request_read_ok b free q m mem rs buff c s before after parts :
  binv b free q [] -> request_of buff BlkFrontend.REQUEST_READ c s before after parts ->
  Forall (apart s (total parts)) (pending b q) ->
  view b q = (m, rs) -> mem_disk m mem -> (s + total parts) * 512 <= zlen mem ->
  exists b' free' q', vcablk_bcknd_disk_request polled ioremap_ok dma_ch dma_sync sched b buff = Ret (b', 0)
    /\ binv b' free' q' [] /\ view b' q' = (m, rs ++ [(c, 0)])
    /\ (forall a, fmem b' a = parts_mem mem parts (fmem b) a)
    /\ windows (log b') = windows (log b) ++ parts_windows parts /\ kept b b'.
Proof.
  intros Hb Hr Hap Hv Hm Hsz. rewrite (request_parts b q m mem rs _ _ _ _ _ _ _ Hr Hv Hm).
  pose proof (request_sector _ _ _ _ _ _ _ Hr) as Hs. pose proof Hr as [Hbuff Hty Hc Hne Hkd Hsy Hcon Hok Hbd].
  destruct (parts_read_ok parts buff (zlen (option_list before)) (zlen (option_list before) + zlen parts) s s (total parts)
    b m mem rs c (bool_decide (is_Some after)) (reading_start _ _ _ _ _ _ _ Hb Hap Hv)) as (b' & He & [(f' & q' & Hb' & _ & Hv') Hw Hk] & Hf);
    try done; try apply zlen_nonneg.
  { by apply (request_lookup _ _ _ _ _ _ _ Hr). }
  change (BlkFrontend.REQUEST_READ =? BlkFrontend.REQUEST_WRITE) with false. rewrite He. run_bind.
  cbn [Z.eqb negb]. exists b', f', q'. split; [done|]. split; [done|]. split; [|done]. by rewrite answer_cookie in Hv'.
Qed.

End Refine.
Arguments binv_tick {file csize} b free q held _.
Arguments held_notin {file csize} b free q i held _.
Arguments get_tp_total {file csize} b free q held i _ _.
Arguments tp_buf {file csize} b free q held i tp _ _.
Arguments set_tp_ok {file _ csize} b free q i held tp _ _.

(** ** A failed read *)

Section OffDisk.
Context {file : Type} `{Vfs file}.
Implicit Types b : vcablk_bcknd_disk file.
Context (polled : nat -> Z -> Z) (dma_ch : bool) (dma_sync : nat -> Z) (sched : nat -> nat).
Context (csize : Z) (Hroom : forall t cnt, VCA_RB_BUFF_FULL cnt (polled t cnt) csize = false).
#[local] Abbreviation binv := (backend_inv csize).

(** The loop gives up after the medium has refused, and keeps the parameter. *)
Lemma read_off_disk b free q held m rs mem sector num ptr remapped cookie flush n :
  binv b free q held -> (length held < 15)%nat -> view b q = (m, rs) -> mem_disk m mem ->
  0 < num -> 0 <= sector -> zlen mem < (sector + Z.min num 8) * 512 -> (sector + Z.min num 8) * 512 < 2 ^ 64 ->
  (0 < n)%nat ->
  exists b' i free' q',
    transfer_loop polled dma_ch dma_sync sched n b sector num ptr remapped false cookie flush = Ret (b', - EIO)
    /\ binv b' free' q' (i :: held) /\ view b' q' = (m, rs).
Proof.
  intros Hb Hh Hv Hm Hn Hs Hoff H64 Hfuel. destruct n as [|n]; [lia|]. cbn [transfer_loop].
  rewrite (proj2 (Z.eqb_neq num 0)) by lia.
  destruct (run_turns_ok polled csize Hroom (sched (now b)) (tick b) free q held (binv_tick _ _ _ _ Hb))
    as (b1 & f1 & q1 & -> & Hb1 & Hw1 & _). run_bind.
  change (Z.shiftr PAGE_SIZE SECTOR_SHIFT) with 8. set (nsec := Z.min num 8) in *. unfold transfer_piece.
  destruct (get_param_ok polled csize Hroom b1 f1 q1 held Hb1 Hh) as (b2 & i & f2 & q2 & -> & Hb2 & Hw2 & _). run_bind.
  destruct (held_notin _ _ _ _ _ Hb2) as (_ & _ & Hi).
  destruct (get_tp_total _ _ _ _ i Hb2 Hi) as (tp & Htp). rewrite Htp. run_bind.
  set (cb := if _ =? 0 then _ else _). pose proof (tp_buf _ _ _ _ _ _ Hb2 Htp) as Hl.
  destruct (set_tp_ok b2 f2 q2 i held (mkTp cb (buffer tp)) Hb2 Hl) as (b3 & -> & Hb3 & _ & Hv3 & _ & _ & Hm3 & _). run_bind.
  assert (view b2 q2 = (m, rs)) as Hv2 by by rewrite (wk_view _ _ _ _ Hw2), (wk_view _ _ _ _ Hw1).
  cbn [negb]. destruct (view_kind b2 q2) as (Hk1 & Hk2). rewrite Hv2 in Hk1, Hk2. cbn [fst] in Hk1, Hk2. destruct Hm as (Hmt & _ & Hms).
  assert (vcablk_media_transfer (media b3) sector nsec (buffer tp) false = Ret (- EIO, media b3, buffer tp)) as ->.
  { unfold vcablk_media_transfer, media_transfer_mem. rewrite Hm3, <- Hk1, Hmt.
    rewrite !shift_sector, u64_small by lia. by rewrite (proj2 (Z.ltb_lt _ _)) by lia. }
  run_bind. assert (set_bmedia b3 (media b3) = b3) as -> by by destruct b3.
  destruct (set_tp_ok b3 f2 q2 i held (mkTp cb (buffer tp)) Hb3 Hl) as (b4 & -> & Hb4 & _ & Hv4 & _). run_bind.
  exists b4, i, f2, q2. split; [done|]. split; [done|]. by rewrite Hv4, Hv3.
Qed.
End OffDisk.

(** ** Taking requests off the ring *)

(** The entries of the next request: entries without a cookie are skipped, and the
    entries that follow with the cookie of the first belong to it, at most
    [VCABLK_MAX_PARTS_PER_REQUEST]. *)
Fixpoint same_cookie (n : nat) (c : Z) (l : list vcablk_request) : list vcablk_request :=
  match n, l with
  | S n, r :: l => if BlkFrontend.cookie r =? c then r :: same_cookie n c l else []
  | _, _ => []
  end.
Fixpoint skip_invalid (l : list vcablk_request) : list vcablk_request :=
  match l with
  | r :: l' => if BlkFrontend.cookie r =? 0 then skip_invalid l' else l
  | [] => []
  end.
Definition next_request (l : list vcablk_request) : list vcablk_request * list vcablk_request :=
  let l := skip_invalid l in
  match l with
  | [] => ([], [])
  | r :: _ =>
      let parts := same_cookie (Z.to_nat VCABLK_MAX_PARTS_PER_REQUEST) (BlkFrontend.cookie r) l in
      (parts, drop (length parts) l)
  end.

Lemma same_cookie_length n c l : (length (same_cookie n c l) <= length l)%nat.
Proof.
  revert l. induction n as [|n IH]; intros [|r l]; simpl; try lia.
  destruct (_ =? _); simpl; [|lia]. specialize (IH l). lia.
Qed.

(** The entries left are a suffix. *)
Lemma skip_suffix l : exists k, (k <= length l)%nat /\ (next_request l).2 = drop k l.
Proof.
  unfold next_request. assert (exists j, (j <= length l)%nat /\ skip_invalid l = drop j l) as (j & Hj & ->).
  { induction l as [|r l (j & Hj & IH)]; simpl; [by exists 0%nat|].
    destruct (_ =? 0); [exists (S j); split; [lia|done]|exists 0%nat; split; [lia|done]]. }
  destruct (drop j l) as [|r l'] eqn:E; [by exists (length l); split; [lia|rewrite drop_ge by lia]|].
  cbn [snd]. rewrite <- E, drop_drop. eexists. split; [|done].
  pose proof (same_cookie_length (Z.to_nat VCABLK_MAX_PARTS_PER_REQUEST) (BlkFrontend.cookie r) (drop j l)) as Hs.
  rewrite length_drop in Hs. rewrite E in Hs |- *. lia.
Qed.

Lemma next_request_bounds l :
  zlen (next_request l).1 <= VCABLK_MAX_PARTS_PER_REQUEST /\ (l <> [] -> zlen (next_request l).2 < zlen l).
Proof.
  assert (forall n c (l : list vcablk_request), length (same_cookie n c l) <= n)%nat as Hs.
  { intros n c. induction n as [|n IH]; intros [|r l0]; simpl; try lia. destruct (_ =? c); simpl; [|lia].
    specialize (IH l0). lia. }
  assert (length (skip_invalid l) <= length l)%nat as Hk.
  { induction l as [|r l IH]; [done|]. simpl. destruct (_ =? 0); simpl; lia. }
  unfold next_request. destruct (skip_invalid l) as [|r l'].
  { split; [done|]. intros Hne. destruct l; [done|]. rewrite zlen_cons. unfold zlen. simpl. lia. }
  cbn [fst snd]. split.
  - unfold zlen. specialize (Hs (Z.to_nat VCABLK_MAX_PARTS_PER_REQUEST) (BlkFrontend.cookie r) (r :: l')).
    unfold VCABLK_MAX_PARTS_PER_REQUEST in *. lia.
  - intros _. unfold zlen. rewrite length_drop. change (Z.to_nat VCABLK_MAX_PARTS_PER_REQUEST) with (S 257).
    cbn [same_cookie]. rewrite Z.eqb_refl. simpl length in *. lia.
Qed.

Section Ring.
Context (nums : Z) (Hnums : pow2 nums) (elems : list vcablk_request).

(** The ring holds the entries [l] from the counter [u] on. *)
Definition ring_has (u : Z) (l : list vcablk_request) : Prop :=
  zlen l <= nums /\ forall j r, l !! j = Some r -> holds nums elems (u + Z.of_nat j) r.

Lemma ring_has_tail u r l : ring_has u (r :: l) -> holds nums elems u r /\ ring_has (u + 1) l.
Proof.
  intros (Hl & Hr). rewrite zlen_cons in Hl. split.
  - specialize (Hr 0%nat r eq_refl). by rewrite Z.add_0_r in Hr.
  - split; [lia|]. intros j x Hj. specialize (Hr (S j) x Hj).
    by replace (u + 1 + Z.of_nat j) with (u + Z.of_nat (S j)) by lia.
Qed.

Lemma ring_has_drop u l k : ring_has u l -> (k <= length l)%nat -> ring_has (u + Z.of_nat k) (drop k l).
Proof.
  revert u l. induction k as [|k IH]; intros u l Hl Hk; [by rewrite Z.add_0_r, drop_0|].
  destruct l as [|r l]; [simpl in Hk; lia|]. apply ring_has_tail in Hl as (_ & Hl).
  replace (u + Z.of_nat (S k)) with (u + 1 + Z.of_nat k) by lia. apply IH; [done|]. simpl in Hk. lia.
Qed.

Lemma counters_differ u (l : list vcablk_request) r :
  ring_has u (r :: l) -> (cnt_of nums u =? cnt_of nums (u + zlen (r :: l))) = false.
Proof.
  intros (Hl & _). pose proof (zlen_nonneg l). rewrite zlen_cons in *.
  change (VCA_RB_BUFF_EMPTY (cnt_of nums u) (cnt_of nums (u + (1 + zlen l))) = false).
  rewrite (rb_empty nums Hnums) by lia. apply Z.eqb_neq. lia.
Qed.

(** After the first entry, the loop takes the entries with its cookie. *)
Lemma next_loop_same n u l k c parts :
  ring_has u l -> c <> 0 -> (length l <= n)%nat -> zlen parts + Z.of_nat k = VCABLK_MAX_PARTS_PER_REQUEST ->
  next_loop n elems nums (cnt_of nums u) (cnt_of nums (u + zlen l)) c parts
  = Ret (cnt_of nums (u + zlen (same_cookie k c l)), parts ++ same_cookie k c l).
Proof.
  intros Hl Hc Hn. revert u l k parts Hl Hn. induction n as [|n IH]; intros u l k parts Hl Hn Hk.
  { destruct l; [|simpl in Hn; lia]. cbn [next_loop].
    change (zlen []) with 0. rewrite Z.add_0_r, Z.eqb_refl. cbn [orb].
    assert (same_cookie k c [] = []) as -> by by destruct k. change (zlen []) with 0. by rewrite Z.add_0_r, app_nil_r. }
  cbn [next_loop]. destruct l as [|r l].
  { change (zlen []) with 0. rewrite Z.add_0_r, Z.eqb_refl. cbn [orb].
    assert (same_cookie k c [] = []) as -> by by destruct k. change (zlen []) with 0. by rewrite Z.add_0_r, app_nil_r. }
  rewrite counters_differ by done. cbn [orb]. destruct k as [|k].
  { rewrite (proj2 (Z.leb_le _ _)) by lia. cbn [same_cookie]. change (zlen []) with 0. by rewrite Z.add_0_r, app_nil_r. }
  rewrite (proj2 (Z.leb_gt _ _)) by lia. apply ring_has_tail in Hl as (Hr & Hl).
  rewrite (ring_get nums Hnums _ _ r Hr). run_bind. rewrite (proj2 (Z.eqb_neq c 0) Hc). cbn [andb same_cookie].
  rewrite (Z.eqb_sym c). destruct (BlkFrontend.cookie r =? c); cbn [negb].
  - rewrite (rb_add nums Hnums). replace (u + zlen (r :: l)) with (u + 1 + zlen l) by (rewrite zlen_cons; lia).
    rewrite (IH (u + 1) l k) by (done || (simpl in Hn; lia) || (rewrite zlen_app, zlen_cons; change (zlen []) with 0; lia)).
    rewrite zlen_cons, <- app_assoc. do 3 f_equal. lia.
  - change (zlen []) with 0. by rewrite Z.add_0_r, app_nil_r.
Qed.

Lemma next_loop_ok n u l :
  ring_has u l -> (length l <= n)%nat ->
  next_loop n elems nums (cnt_of nums u) (cnt_of nums (u + zlen l)) 0 []
  = Ret (cnt_of nums (u + zlen l - zlen (next_request l).2), (next_request l).1).
Proof.
  revert u l. induction n as [|n IH]; intros u l Hl Hn.
  { destruct l; [|simpl in Hn; lia]. cbn. change (zlen []) with 0. by rewrite Z.add_0_r, Z.eqb_refl, Z.sub_0_r. }
  destruct l as [|r l].
  { cbn. change (zlen []) with 0. by rewrite Z.add_0_r, Z.eqb_refl, Z.sub_0_r. }
  cbn [next_loop]. rewrite counters_differ by done. cbn [orb].
  change (VCABLK_MAX_PARTS_PER_REQUEST <=? zlen []) with false. cbn [orb].
  pose proof Hl as Hl0. apply ring_has_tail in Hl as (Hr & Hl).
  rewrite (ring_get nums Hnums _ _ r Hr). run_bind. change (0 =? 0) with true. cbn [andb]. simpl in Hn.
  replace (u + zlen (r :: l)) with (u + 1 + zlen l) by (rewrite zlen_cons; lia). rewrite (rb_add nums Hnums).
  destruct (Z.eqb_spec (BlkFrontend.cookie r) 0) as [Hc|Hc].
  - rewrite Hc, (IH (u + 1) l) by (done || lia). unfold next_request. cbn [skip_invalid]. rewrite Hc. done.
  - rewrite Z.eqb_refl. cbn [negb app].
    assert (exists k, Z.to_nat VCABLK_MAX_PARTS_PER_REQUEST = S k /\ 1 + Z.of_nat k = VCABLK_MAX_PARTS_PER_REQUEST)
      as (k & Hk & Hkz) by by exists 257%nat.
    rewrite (next_loop_same n (u + 1) l k) by (done || lia).
    unfold next_request. cbn [skip_invalid]. rewrite (proj2 (Z.eqb_neq _ _) Hc), Hk.
    cbn [same_cookie]. rewrite Z.eqb_refl.
    pose proof (same_cookie_length k (BlkFrontend.cookie r) l). cbn [fst snd length drop app].
    do 3 f_equal. unfold zlen. rewrite length_drop. lia.
Qed.
End Ring.

(** *** Batches of write requests *)

Record wreq := mkW {
  w_buff : list vcablk_request;
  w_cookie : Z;
  w_sector : Z;
  w_before : option vcablk_request;
  w_after : option vcablk_request;
  w_parts : list vcablk_request;
}.
(** A write request on a disk of [size] bytes, as the frontend makes them. *)
Definition wreq_ok (size : Z) (w : wreq) : Prop :=
  request_of (w_buff w) BlkFrontend.REQUEST_WRITE (w_cookie w) (w_sector w) (w_before w) (w_after w) (w_parts w)
  /\ zlen (w_buff w) <= VCABLK_MAX_PARTS_PER_REQUEST /\ w_cookie w <> 0
  /\ (w_sector w + total (w_parts w)) * 512 <= size.
(** Consecutive requests have different cookies. *)
Fixpoint cookies_differ (ws : list wreq) : Prop :=
  match ws with
  | w :: (w' :: _) as l => w_cookie w <> w_cookie w' /\ cookies_differ l
  | _ => True
  end.
Definition entries (ws : list wreq) : list vcablk_request := mbind w_buff ws.

(** What a batch does to the disk. *)
Definition write_all (fm : Z -> Z) (ws : list wreq) (mem : list Z) : list Z :=
  foldl (fun mem w => put_bytes mem (w_sector w * 512) (parts_bytes fm (w_parts w))) mem ws.

Lemma request_cookies buff ty c s before after parts :
  request_of buff ty c s before after parts -> Forall (fun r => BlkFrontend.cookie r = c) buff /\ buff <> [].
Proof.
  intros [-> _ _ Hne Hk Hsy _ _ _]. split.
  - apply Forall_app. split.
    { destruct before as [r|]; [|done]. apply Forall_singleton. by apply Hsy; left. }
    apply Forall_app. split; [eapply List.Forall_impl; [|exact Hk]; by intros r (_ & Hr)|].
    destruct after as [r|]; [|done]. apply Forall_singleton. by apply Hsy; right.
  - intros He. apply app_nil in He as (_ & He). by apply app_nil in He as (He & _).
Qed.

Lemma same_cookie_run n c l tail :
  Forall (fun r => BlkFrontend.cookie r = c) l -> (length l <= n)%nat ->
  match tail with [] => True | r :: _ => BlkFrontend.cookie r <> c end -> same_cookie n c (l ++ tail) = l.
Proof.
  intros Hl. revert n. induction Hl as [|r l Hr Hl IH]; intros n Hn Ht; simpl in *.
  - destruct n, tail; try done. simpl. by rewrite (proj2 (Z.eqb_neq _ _) Ht).
  - destruct n; [lia|]. simpl. rewrite Hr, Z.eqb_refl. f_equal. apply IH; [lia|done].
Qed.

Lemma next_request_first size w ws :
  Forall (wreq_ok size) (w :: ws) -> cookies_differ (w :: ws) ->
  next_request (entries (w :: ws)) = (w_buff w, entries ws).
Proof.
  intros Hok Hd. apply Forall_cons_iff in Hok as [(Hr & Hl & Hc & _) Hok].
  destruct (request_cookies _ _ _ _ _ _ _ Hr) as (Hk & Hne). cbn [entries mbind list_bind]. fold (entries ws).
  change (entries (w :: ws)) with (w_buff w ++ entries ws).
  assert (Ht : match entries ws with [] => True | r :: _ => BlkFrontend.cookie r <> w_cookie w end).
  { destruct ws as [|w2 ws]; [done|]. apply Forall_cons_iff in Hok as [(Hr2 & _) _].
    destruct (request_cookies _ _ _ _ _ _ _ Hr2) as (Hk2 & Hne2). destruct Hd as (Hd & _).
    change (entries (w2 :: ws)) with (w_buff w2 ++ entries ws). destruct (w_buff w2) as [|r2 l2]; [done|].
    apply Forall_cons_iff in Hk2 as [Hk2 _]. simpl. congruence. }
  unfold next_request. destruct (w_buff w) as [|r l] eqn:Eb; [done|]. pose proof Hk as [Hkr _]%Forall_cons_iff.
  cbn [skip_invalid app]. rewrite Hkr, (proj2 (Z.eqb_neq _ _) Hc).
  change (r :: l ++ entries ws) with ((r :: l) ++ entries ws).
  assert (length (r :: l) <= Z.to_nat VCABLK_MAX_PARTS_PER_REQUEST)%nat by (unfold zlen in Hl; lia).
  rewrite Hkr, same_cookie_run by done. by rewrite drop_app_length.
Qed.

Lemma entries_length size ws : Forall (wreq_ok size) ws -> (length ws <= length (entries ws))%nat.
Proof.
  induction 1 as [|w ws (Hr & _) _ IH]; [done|]. change (entries (w :: ws)) with (w_buff w ++ entries ws).
  destruct (request_cookies _ _ _ _ _ _ _ Hr) as (_ & Hne). rewrite length_app.
  destruct (w_buff w); [done|]. simpl. lia.
Qed.

Lemma write_all_length fm ws mem : Forall (wreq_ok (zlen mem)) ws -> zlen (write_all fm ws mem) = zlen mem.
Proof.
  revert mem. induction ws as [|w ws IH]; intros mem Hok; [done|].
  apply Forall_cons_iff in Hok as [(Hr & _ & _ & Hs) Hok]. cbn [write_all foldl].
  pose proof (request_sector _ _ _ _ _ _ _ Hr). pose proof (zlen_parts_bytes fm _ (ro_ok _ _ _ _ _ _ _ Hr)).
  assert (zlen (put_bytes mem (w_sector w * 512) (parts_bytes fm (w_parts w))) = zlen mem) as Hl by (apply zlen_put; lia).
  fold (write_all fm ws (put_bytes mem (w_sector w * 512) (parts_bytes fm (w_parts w)))).
  rewrite IH; by rewrite Hl.
Qed.

Section Batch.
Context {file : Type} `{Vfs file}.
#[local] Abbreviation bckd := (vcablk_bcknd_disk file).
Implicit Types b : bckd.
Context (polled : nat -> Z -> Z) (ioremap_ok : nat -> bool) (dma_ch : bool) (dma_sync : nat -> Z)
  (sched : nat -> nat).
Context (csize : Z) (Hroom : forall t cnt, VCA_RB_BUFF_FULL cnt (polled t cnt) csize = false)
  (Hdma : dma_ch = true -> forall t, dma_sync t = 0) (Hmap : forall t, ioremap_ok t = true).
#[local] Abbreviation binv := (backend_inv csize).

(** The request ring holds the entries [l] that the backend has not taken. *)
Record request_ring_has b (l : list vcablk_request) : Prop := {
  rr_nums : pow2 (request_ring_nums b);
  rr_at : exists u, request_last_used b = cnt_of (request_ring_nums b) u
    /\ BlkFrontend.last_add (request_ring b) = cnt_of (request_ring_nums b) (u + zlen l)
    /\ ring_has (request_ring_nums b) (BlkFrontend.elems (request_ring b)) u l;
}.

Lemma get_next_request_ok b l :
  request_ring_has b l -> l <> [] ->
  exists used, let b' := set_request b (BlkFrontend.mkVring (BlkFrontend.num_elems (request_ring b))
                          (BlkFrontend.last_add (request_ring b)) used (BlkFrontend.elems (request_ring b))) used in
    vcablk_bcknd_disk_get_next_request b = Ret (b', (next_request l).1)
    /\ request_ring_has b' (next_request l).2.
Proof.
  intros [Hp (u & Hu & Ha & Hl)] Hne. destruct l as [|r l]; [done|]. set (l0 := r :: l) in *.
  unfold vcablk_bcknd_disk_get_next_request. rewrite Hu, Ha. unfold l0 at 1.
  rewrite (counters_differ _ Hp _ _ _ _ Hl). cbn [negb]. rewrite (next_loop_ok _ Hp).
  - run_bind. eexists. split; [by rewrite <- Ha|]. split; [done|]. cbn.
    destruct (skip_suffix l0) as (k & Hk & Hs). eexists. split; [done|]. split.
    { f_equal. lia. }
    rewrite Hs. replace (u + zlen l0 - zlen (drop k l0)) with (u + Z.of_nat k); [by apply ring_has_drop|].
    unfold zlen. rewrite length_drop. lia.
  - done.
  - destruct Hl as (Hl & _). unfold zlen in Hl. lia.
Qed.

Lemma binv_set_request b r u free q held : binv b free q held -> binv (set_request b r u) free q held.
Proof. intros []. by split. Qed.

Lemma request_loop_ok ws n b free q m mem rs :
  binv b free q [] -> request_ring_has b (entries ws) -> Forall (wreq_ok (zlen mem)) ws -> cookies_differ ws ->
  (length ws <= n)%nat -> view b q = (m, rs) -> mem_disk m mem ->
  exists b' free' q',
    request_loop polled ioremap_ok dma_ch dma_sync sched n b (BlkFrontend.last_add (request_ring b)) = Ret b'
    /\ binv b' free' q' [] /\ request_ring_has b' []
    /\ view b' q' = (set_media_data m (DMemory (write_all (fmem b) ws mem)), rs ++ ((fun w => (w_cookie w, 0)) <$> ws))
    /\ forall a, published b a -> published b' a.
Proof.
  revert n b free q m mem rs. induction ws as [|w ws IH]; intros n b free q m mem rs Hb Hr Hok Hd Hn Hv Hm.
  { exists b, free, q. destruct Hr as [Hp (u & Hu & Ha & Hl)]. change (zlen (entries [])) with 0 in Ha. rewrite Z.add_0_r in Ha.
    split; [destruct n; cbn [request_loop]; by rewrite Ha, Hu, Z.eqb_refl|]. split; [done|].
    split; [split; [done|]; exists u; change (zlen []) with 0; by rewrite Z.add_0_r|].
    split; [|done]. cbn. rewrite app_nil_r, Hv. destruct m, Hm as (_ & Hd' & _). simpl in Hd'. by subst. }
  destruct n as [|n]; [simpl in Hn; lia|]. pose proof (next_request_first _ _ _ Hok Hd) as Hnx.
  pose proof Hok as [(Hw & Hwl & Hwc & Hws) Hok']%Forall_cons_iff.
  destruct (request_cookies _ _ _ _ _ _ _ Hw) as (_ & Hne). cbn [request_loop].
  assert ((BlkFrontend.last_add (request_ring b) =? request_last_used b) = false) as ->.
  { destruct Hr as [Hp (u & -> & -> & Hl)]. change (entries (w :: ws)) with (w_buff w ++ entries ws) in *.
    destruct (w_buff w) as [|r0 l0]; [done|]. rewrite Z.eqb_sym. by apply (counters_differ _ Hp _ _ _ _ Hl). }
  destruct (get_next_request_ok b (entries (w :: ws)) Hr) as (used & He & Hr1).
  { change (entries (w :: ws)) with (w_buff w ++ entries ws). by destruct (w_buff w). }
  rewrite He, Hnx in *. run_bind. cbn [fst snd] in Hr1 |- *. set (b1 := set_request _ _ _) in *.
  assert ((zlen (w_buff w) =? 0) = false) as -> by (apply Z.eqb_neq; destruct (w_buff w); [done|rewrite zlen_cons; unfold zlen; lia]).
  cbn [negb]. destruct (request_write_ok polled ioremap_ok dma_ch dma_sync sched csize Hroom Hdma Hmap b1 free q m mem rs
    (w_buff w) (w_cookie w) (w_sector w) (w_before w) (w_after w) (w_parts w)) as (b2 & f2 & q2 & -> & Hb2 & Hv2 & Hf2 & _ & Hk2);
    try done; [by apply binv_set_request|]. run_bind.
  set (mem1 := put_bytes mem (w_sector w * 512) (parts_bytes (fmem b1) (w_parts w))) in *.
  pose proof Hm as (Hmt & Hmd & Hms).
  pose proof (zlen_parts_bytes (fmem b1) _ (ro_ok _ _ _ _ _ _ _ Hw)) as Hpl.
  pose proof (total_nonneg _ (ro_ok _ _ _ _ _ _ _ Hw)).
  assert (zlen mem1 = zlen mem) as Hl1
    by (unfold mem1; rewrite zlen_put by (pose proof (request_sector _ _ _ _ _ _ _ Hw); lia); done).
  assert (request_ring_has b2 (entries ws)) as Hr2.
  { destruct Hr1 as [Hp Hat], Hk2 as [_ Hkr Hkn Hku _ _ _]. split; [by rewrite Hkn|]. rewrite Hkn, Hku, Hkr. done. }
  assert (BlkFrontend.last_add (request_ring b2) = BlkFrontend.last_add (request_ring b)) as Hla
    by (rewrite (kp_request _ _ Hk2); done).
  destruct (IH n b2 f2 q2 (set_media_data m (DMemory mem1)) mem1 (rs ++ [(w_cookie w, 0)])) as (b3 & f3 & q3 & He3 & Hb3 & Hr3 & Hv3 & Hp3);
    try done.
  - by rewrite Hl1.
  - destruct ws; [done|]. by destruct Hd.
  - simpl in Hn. lia.
  - split; [done|]. split; [done|]. cbn. by rewrite Hms, Hl1.
  - rewrite Hla in He3. exists b3, f3, q3. split; [done|]. split; [done|]. split; [done|].
    split; [rewrite Hv3, <- app_assoc, Hf2; done|]. intros a0 Ha. apply Hp3, (kp_pub _ _ Hk2). exact Ha.
Qed.
End Batch.

(** ** Properties *)

(** A backend with an empty queue: [mem] is the disk, [fm] the memory of the
    frontend, and the request ring of eight entries holds [l]. *)
Definition idle_tp : transfer_parameters_t := mkTp (mkCb 0 0 None 0 false false) (replicate 4096 0).
Definition idle_pool : Pool.vcablk_pool transfer_parameters_t :=
  Pool.mkPool 16 0 15 [1; 2; 3; 4; 5; 6; 7; 8; 9; 10; 11; 12; 13; 14; 15; 0] (replicate 16 idle_tp).
Definition idle_media (mem : list Z) : vcablk_media unit :=
  mkMedia false (zlen mem) [] VCABLK_DISK_TYPE_MEMORY (DMemory mem).
Definition idle (mem : list Z) (fm : Z -> Z) (l : list vcablk_request) : vcablk_bcknd_disk unit :=
  mkBckd DISK_STATE_OPEN (idle_media mem)
    (BlkFrontend.mkVring 8 (zlen l) 0 (l ++ replicate (8 - length l) (BlkFrontend.mkRequest 0 0 0 0 0))) 8 0
    (BlkFrontend.mkVring 8 0 0 (replicate 8 (BlkFrontend.mkCompletion 0 0))) 8 true
    (Some (BlkFrontend.mkVring 16 0 0 (replicate 16 0))) false idle_pool fm 0 [].

Lemma idle_mem mem : mem_disk (idle_media mem) mem.
Proof. by split. Qed.

Lemma idle_binv mem fm l : backend_inv 8 (idle mem fm l) (Pool.ids 0 16) [] [].
Proof.
  destruct (Pool.clear_refines idle_tp (Pool.mkPool 16 0 0 [] [])) as (p & Hp & Hi & Hn & _).
  { rewrite Pool.USED_val. simpl. lia. }
  assert (Pool.vcablk_pool_clear idle_tp (Pool.mkPool 16 0 0 [] []) = Ret idle_pool) as Hp' by reflexivity.
  rewrite Hp' in Hp. injection Hp as <-. split; try done.
  - eexists _, []. split; [done|]. split; [|done]. split; [done|done|]. by exists 0.
  - by apply Forall_replicate.
  - left. exists mem. done.
  - split; [done|]. split; [exists 3; split; [lia|done]|]. split; [by vm_compute|]. split; [done|]. by exists 0.
  - intros i Hi'. by apply elem_of_nil in Hi'.
Qed.

(** Nothing has been answered yet. *)
Lemma idle_published mem fm l : published (idle mem fm l) 0.
Proof. split; [done|]. intros j c r Hj. by destruct j. Qed.

(** The frontend is three answers behind, the windows can be mapped, and DMA succeeds. *)
Definition keeps_up (t : nat) (cnt : Z) : Z := VCA_RB_COUNTER_ADD cnt 13 8.
Definition maps (t : nat) : bool := true.
Definition dma_ok (t : nat) : Z := 0.
Lemma keeps_up_room t cnt : VCA_RB_BUFF_FULL cnt (keeps_up t cnt) 8 = false.
Proof.
  unfold VCA_RB_BUFF_FULL, keeps_up, VCA_RB_COUNTER_ADD, VCA_RB_COUNTER_TO_IDX. apply andb_false_intro2, Z.eqb_neq.
  change (Z.shiftl 8 1 - 1) with (2 ^ 4 - 1). change (8 - 1) with (2 ^ 3 - 1). rewrite !land_mask by lia.
  change (2 ^ 3) with 8. change (2 ^ 4) with 16. Z.to_euclidean_division_equations; lia.
Qed.

(** C3. The request thread and the transfer thread implement a disk.  Suppose that the windows can be mapped, that
    DMA succeeds and that the frontend takes answers off the completion ring before it is full.  When the
    request ring holds write requests (parts on consecutive sectors inside the
    disk, optional flushes before and after, different cookies for consecutive
    requests), then, however the two threads interleave, one turn of the request
    thread takes them all, and once the transfer thread has worked off its queue
    the medium holds the data that the requests designate in the frontend's memory,
    written in the order of the requests, and all transfer parameters are back in
    the pool.  Every request has been answered exactly
    once, with success and in that order: the answers are the next entries of the completion ring (cookie and
    result), and its [last_add] is behind them. *)
Theorem vcablk_bcknd_write_batch_refines {file} `{Vfs file} polled ioremap_ok dma_ch dma_sync sched csize
    (b : vcablk_bcknd_disk file) free q m mem rs ws a :
  (forall t cnt, VCA_RB_BUFF_FULL cnt (polled t cnt) csize = false) ->
  (dma_ch = true -> forall t, dma_sync t = 0) -> (forall t, ioremap_ok t = true) ->
  backend_inv csize b free q [] -> published b a -> state b = DISK_STATE_OPEN -> view b q = (m, rs) -> mem_disk m mem ->
  request_ring_has b (entries ws) -> Forall (wreq_ok (zlen mem)) ws -> cookies_differ ws ->
  exists b' n b'' free'',
    request_turn polled ioremap_ok dma_ch dma_sync sched b = Ret b'
    /\ request_last_used b' = BlkFrontend.last_add (request_ring b')
    /\ run_turns polled n b' = Ret b'' /\ backend_inv csize b'' free'' [] []
    /\ mem_disk (media b'') (write_all (fmem b) ws mem)
    /\ responses (log b'') = rs ++ ((fun w => (w_cookie w, 0)) <$> ws)
    /\ published b'' a.
Proof.
  intros Hroom Hdma Hmap Hb Ha Hst Hv Hm Hr Hok Hd. unfold request_turn. rewrite Hst. cbn [Z.eqb negb].
  destruct (request_loop_ok polled ioremap_ok dma_ch dma_sync sched csize Hroom Hdma Hmap ws
    (Z.to_nat (2 * request_ring_nums b)) b free q m mem rs) as (b' & f' & q' & He & Hb' & Hr' & Hv' & Hp'); try done.
  { destruct Hr as [Hp (u & _ & _ & Hl & _)]. pose proof (entries_length _ _ Hok). unfold zlen in Hl.
    pose proof (pow2_pos _ Hp). lia. }
  destruct (drain_ok polled csize Hroom b' f' q' [] Hb') as (n & b'' & Hrun & Hb'' & _ & _ & Hvd & Hk).
  rewrite Hv' in Hvd. injection Hvd as Hmed Hresp.
  exists b', n, b'', (f' ++ q'). split; [done|]. split.
  { destruct Hr' as [_ (u & -> & -> & _)]. change (zlen []) with 0. by rewrite Z.add_0_r. }
  split; [done|]. split; [done|]. split; [|split; [done|by apply (kp_pub _ _ Hk), Hp']]. rewrite Hmed.
  pose proof Hm as (Hmt & _ & Hms). split; [done|]. split; [done|]. cbn. by rewrite Hms, (write_all_length _ _ _ Hok).
Qed.

(** Two write requests, the first with flushes around it and two parts. *)
Definition demo_write1 : wreq :=
  let sync := BlkFrontend.mkRequest 0 0 0 5 BlkFrontend.REQUEST_SYNC in
  let parts := [BlkFrontend.mkRequest 0x1000 1 1 5 BlkFrontend.REQUEST_WRITE;
                BlkFrontend.mkRequest 0x5000 2 1 5 BlkFrontend.REQUEST_WRITE] in
  mkW (sync :: parts ++ [sync]) 5 1 (Some sync) (Some sync) parts.
Definition demo_write2 : wreq :=
  let parts := [BlkFrontend.mkRequest 0x2000 0 2 6 BlkFrontend.REQUEST_WRITE] in mkW parts 6 0 None None parts.

Lemma demo_write1_ok : wreq_ok 2048 demo_write1.
Proof.
  split; [|split; [by vm_compute|split; [done|by vm_compute]]].
  split; [done|by right|done|done|by repeat constructor| | |by repeat constructor|done].
  - intros r [Hr|Hr]; injection Hr as <-; done.
  - done.
Qed.
Lemma demo_write2_ok : wreq_ok 2048 demo_write2.
Proof.
  split; [|split; [by vm_compute|split; [done|by vm_compute]]].
  split; [done|by right|done|done|by repeat constructor| | |by repeat constructor|done].
  - by intros r [Hr|Hr].
  - done.
Qed.

Lemma idle_ring mem fm l : (length l <= 8)%nat -> request_ring_has (idle mem fm l) l.
Proof.
  intros Hl. split; [exists 3; split; [lia|done]|]. exists 0. cbn. split; [done|]. split.
  { unfold cnt_of. rewrite Z.mod_small; [done|]. unfold zlen. lia. }
  split; [unfold zlen; lia|]. intros j r Hj. pose proof (lookup_lt_Some _ _ _ Hj). unfold holds.
  rewrite Z.mod_small by lia. rewrite Z.add_0_l, Nat2Z.id. by apply lookup_app_l_Some.
Qed.

Lemma vcablk_bcknd_write_batch_refines_witness : exists b' n b'',
  request_turn keeps_up maps true dma_ok (fun _ => 1%nat)
    (idle (replicate 2048 0) (fun a => a) (entries [demo_write1; demo_write2])) = Ret b'
  /\ run_turns keeps_up n b' = Ret b'' /\ responses (log b'') = [(5, 0); (6, 0)]
  /\ BlkFrontend.last_add (completion_ring b'') = 2.
Proof.
  destruct (vcablk_bcknd_write_batch_refines keeps_up maps true dma_ok (fun _ => 1%nat) 8
    (idle (replicate 2048 0) (fun a => a) (entries [demo_write1; demo_write2])) (Pool.ids 0 16) []
    (idle_media (replicate 2048 0)) (replicate 2048 0) []
    [demo_write1; demo_write2] 0) as (b' & n & b'' & f & H1 & _ & H3 & Hb & _ & H6 & H7 & _).
  - apply keeps_up_room.
  - intros _ t. reflexivity.
  - intros t. reflexivity.
  - apply idle_binv.
  - apply idle_published.
  - reflexivity.
  - reflexivity.
  - apply idle_mem.
  - apply idle_ring. simpl. lia.
  - change (zlen (replicate 2048 0)) with 2048.
    apply Forall_cons; [apply demo_write1_ok|]. apply Forall_cons; [apply demo_write2_ok|constructor].
  - by split.
  - exists b', n, b''. split; [exact H1|]. split; [exact H3|]. split; [exact H6|].
    destruct (bi_comp _ _ _ _ Hb) as (Hn & _). rewrite H7, Hn, H6. reflexivity.
Defined.

(** C27. Reading, when the windows can be mapped, DMA succeeds and the frontend takes answers off the completion
    ring before it is full: a read request for sectors of the disk that no queued write
    touches returns success; the frontend's memory then holds the contents of those
    sectors at the addresses of the parts and is otherwise unchanged, and every window that was
    mapped for it has been unmapped.  Once the transfer thread has worked off its queue, the disk holds what it held
    behind the writes that were queued, and the request has been answered once, with success: the answer is
    the next entry of the completion ring, and its [last_add] is behind it. *)
Theorem vcablk_bcknd_read_request_correct {file} `{Vfs file} polled ioremap_ok dma_ch dma_sync sched csize
    (b : vcablk_bcknd_disk file) free q m mem rs buff c s before after parts a :
  (forall t cnt, VCA_RB_BUFF_FULL cnt (polled t cnt) csize = false) ->
  (dma_ch = true -> forall t, dma_sync t = 0) -> (forall t, ioremap_ok t = true) ->
  backend_inv csize b free q [] -> published b a -> view b q = (m, rs) -> mem_disk m mem ->
  request_of buff BlkFrontend.REQUEST_READ c s before after parts ->
  (s + total parts) * 512 <= zlen mem -> Forall (apart s (total parts)) (pending b q) ->
  exists b' n b'' free'',
    vcablk_bcknd_disk_request polled ioremap_ok dma_ch dma_sync sched b buff = Ret (b', 0)
    /\ (forall x, fmem b' x = parts_mem mem parts (fmem b) x)
    /\ windows (log b') = windows (log b) ++ parts_windows parts
    /\ run_turns polled n b' = Ret b'' /\ backend_inv csize b'' free'' [] [] /\ fmem b'' = fmem b'
    /\ media b'' = m /\ responses (log b'') = rs ++ [(c, 0)] /\ published b'' a.
Proof.
  intros Hroom Hdma Hmap Hb Ha Hv Hm Hr Hs Hap.
  destruct (request_read_ok polled ioremap_ok dma_ch dma_sync sched csize Hroom Hdma Hmap b free q m mem rs
    buff c s before after parts Hb Hr Hap Hv Hm Hs) as (b' & f' & q' & He & Hb' & Hv' & Hf & Hw & Hk).
  destruct (drain_ok polled csize Hroom b' f' q' [] Hb') as (n & b'' & Hrun & Hb'' & Hf2 & _ & Hvd & Hk2).
  rewrite Hv' in Hvd. injection Hvd as Hmed Hresp. exists b', n, b'', (f' ++ q').
  do 7 (split; [done|]). split; [exact Hresp|]. by apply (kp_pub _ _ Hk2), (kp_pub _ _ Hk).
Qed.

Definition demo_read : list vcablk_request := [BlkFrontend.mkRequest 0x1000 2 2 9 BlkFrontend.REQUEST_READ].

Lemma vcablk_bcknd_read_request_correct_witness : exists b' n b'' : _,
  vcablk_bcknd_disk_request keeps_up maps false dma_ok (fun _ => 0%nat) (idle (replicate 2048 7) (fun a => 0) []) demo_read
  = Ret (b', 0) /\ fmem b' 0x1000 = 7 /\ fmem b' 0x1400 = 0
  /\ run_turns keeps_up n b' = Ret b'' /\ responses (log b'') = [(9, 0)].
Proof.
  destruct (vcablk_bcknd_read_request_correct keeps_up maps false dma_ok (fun _ => 0%nat) 8
    (idle (replicate 2048 7) (fun a => 0) []) (Pool.ids 0 16) []
    (idle_media (replicate 2048 7)) (replicate 2048 7) []
    demo_read 9 2 None None demo_read 0) as (b' & n & b'' & f & H1 & H2 & _ & H4 & _ & _ & _ & H8 & _).
  - apply keeps_up_room.
  - done.
  - intros t. reflexivity.
  - apply idle_binv.
  - apply idle_published.
  - reflexivity.
  - apply idle_mem.
  - split; [done|by left|done|done|by repeat constructor| | |by repeat constructor|done].
    + by intros r [Hr|Hr].
    + done.
  - by vm_compute.
  - constructor.
  - exists b', n, b''. split; [exact H1|]. rewrite !H2. split; [by vm_compute|]. split; [by vm_compute|]. by split.
Defined.

(** Taking requests off the ring: whatever the ring holds, the call returns the
    entries of the next request (entries with cookie 0 are dropped, then the run of
    entries that share a cookie, at most [VCABLK_MAX_PARTS_PER_REQUEST], which is
    what the local buffer has room for) and leaves exactly the rest in the ring. *)
Theorem vcablk_bcknd_disk_get_next_request_correct {file} (b : vcablk_bcknd_disk file) l :
  request_ring_has b l ->
  exists b', vcablk_bcknd_disk_get_next_request b = Ret (b', (next_request l).1)
    /\ request_ring_has b' (next_request l).2
    /\ zlen (next_request l).1 <= VCABLK_MAX_PARTS_PER_REQUEST
    /\ (l <> [] -> zlen (next_request l).2 < zlen l).
Proof.
  intros Hr. destruct l as [|r l].
  { exists b. destruct Hr as [Hp (u & Hu & Ha & Hl)]. change (zlen []) with 0 in Ha. rewrite Z.add_0_r in Ha.
    split; [unfold vcablk_bcknd_disk_get_next_request; by rewrite Hu, Ha, Z.eqb_refl|].
    split; [split; [done|]; exists u; change (zlen (next_request []).2) with 0; by rewrite Z.add_0_r|]. done. }
  destruct (get_next_request_ok b (r :: l) Hr) as (used & He & Hr'); [done|]. eexists. split; [exact He|].
  split; [exact Hr'|]. apply next_request_bounds.
Qed.

Lemma vcablk_bcknd_disk_get_next_request_correct_witness : exists b',
  vcablk_bcknd_disk_get_next_request (idle [] (fun a => a) (entries [demo_write1; demo_write2]))
  = Ret (b', w_buff demo_write1).
Proof.
  destruct (vcablk_bcknd_disk_get_next_request_correct (idle [] (fun a => a) (entries [demo_write1; demo_write2]))
    (entries [demo_write1; demo_write2])) as (b' & He & _).
  - apply idle_ring. simpl. lia.
  - exists b'. exact He.
Defined.

(** Flushes without data are not answered: a request that consists of one flush
    part, and one that consists of two, which is what the frontend makes of a flush
    without data, is carried out without any response, so the frontend waits for it
    forever. *)
Theorem vcablk_bcknd_flush_only_not_answered {file} `{Vfs file} polled ioremap_ok dma_ch dma_sync sched
    (b : vcablk_bcknd_disk file) c x y :
  let sync := BlkFrontend.mkRequest x y 0 c BlkFrontend.REQUEST_SYNC in
  vcablk_bcknd_disk_request polled ioremap_ok dma_ch dma_sync sched b [sync] = Ret (b, 0)
  /\ forall m, vcablk_media_sync (media b) = Ret (0, m) ->
     vcablk_bcknd_disk_request polled ioremap_ok dma_ch dma_sync sched b [sync; sync] = Ret (set_bmedia b m, 0).
Proof.
  intros sync. split; [done|]. intros m Hm. unfold vcablk_bcknd_disk_request.
  assert (vcablk_bcknd_disk_request_get_info [sync; sync] = Ret (0, mkInfo c BlkFrontend.REQUEST_SYNC y 0 true true)) as ->.
  { unfold vcablk_bcknd_disk_request_get_info.
    change (aget [sync; sync] 0) with (Ret sync). change (aget [sync; sync] (zlen [sync; sync] - 1)) with (Ret sync).
    change (aget [sync; sync] 1) with (Ret sync). change (zlen [sync; sync] =? 0) with false. run_bind.
    unfold sync. cbn. by rewrite !Z.eqb_refl. }
  run_bind. cbn [Z.eqb negb i_sync_before i_sync_after i_type i_cookie]. rewrite Hm. run_bind. done.
Qed.

Lemma vcablk_bcknd_flush_only_not_answered_witness :
  let sync := BlkFrontend.mkRequest 0 0 0 7 BlkFrontend.REQUEST_SYNC in
  let b := idle [] (fun a => a) [] in
  vcablk_bcknd_disk_request keeps_up maps false dma_ok (fun _ => 0%nat) b [sync] = Ret (b, 0)
  /\ vcablk_bcknd_disk_request keeps_up maps false dma_ok (fun _ => 0%nat) b [sync; sync] = Ret (b, 0)
  /\ responses (log b) = [].
Proof.
  destruct (vcablk_bcknd_flush_only_not_answered keeps_up maps false dma_ok (fun _ => 0%nat)
              (idle [] (fun a => a) []) 7 0 0) as (H1 & H2).
  split; [exact H1|]. split; [|reflexivity]. apply (H2 (idle_media [])). reflexivity.
Defined.

(** Every failed read loses a transfer parameter: when a part lies outside the
    disk the transfer returns [-EIO] and one more of the sixteen parameters is
    neither in the pool nor in the queue; and once fifteen have been lost and the
    queue is empty, the request thread waits for a parameter forever. *)
Theorem vcablk_bcknd_failed_read_leaks {file} `{Vfs file} polled ioremap_ok dma_ch dma_sync sched csize
    (b : vcablk_bcknd_disk file) free q held m rs mem sector num phys cookie flush :
  (forall t cnt, VCA_RB_BUFF_FULL cnt (polled t cnt) csize = false) -> (forall t, ioremap_ok t = true) ->
  backend_inv csize b free q held -> view b q = (m, rs) -> mem_disk m mem ->
  0 < num -> 0 <= sector -> zlen mem < (sector + Z.min num 8) * 512 -> (sector + Z.min num 8) * 512 < 2 ^ 64 ->
  ((length held < 15)%nat -> exists b' i free' q',
     vcablk_bcknd_transfer polled ioremap_ok dma_ch dma_sync sched b sector num phys false cookie flush = Ret (b', - EIO)
     /\ backend_inv csize b' free' q' (i :: held) /\ view b' q' = (m, rs))
  /\ (length held = 15%nat -> vcablk_bcknd_get_transfer_param polled b = Spin).
Proof.
  intros Hroom Hmap Hb Hv Hm Hn Hs Hoff H64. split.
  - intros Hh. unfold vcablk_bcknd_transfer. rewrite (ioremap_1 ioremap_ok Hmap). cbn [negb].
    set (b0 := emit (tick b) [EvRemap phys]).
    assert (backend_inv csize b0 free q held) as Hb0 by (apply binv_tick in Hb; destruct Hb; by split).
    assert (view b0 q = (m, rs)) as Hv0 by (unfold b0; by rewrite view_window).
    destruct (read_off_disk polled dma_ch dma_sync sched csize Hroom b0 free q held m rs mem sector num phys phys cookie flush)
      with (n := npieces num) as (b1 & i & f1 & q1 & He & Hb1 & Hv1); try done.
    { pose proof (npieces_bound num Hn). lia. }
    fold (npieces num). rewrite He. run_bind. eexists _, i, f1, q1.
    split; [done|]. split; [destruct Hb1; by split|by rewrite view_window].
  - intros Hh. destruct (binv_length _ _ _ _ _ Hb) as (Hl & Hne).
    destruct free as [|x [|y r]]; [done| |simpl in Hl; lia]. destruct q as [|j q]; [|simpl in Hl; lia].
    unfold vcablk_bcknd_get_transfer_param. cbn [get_transfer_param].
    pose proof (Pool.pop_refines _ _ (bi_pool _ _ _ _ Hb)) as Hpop. simpl in Hpop. rewrite Hpop. run_bind.
    assert (set_pool b (transfer_buffer_pool b) = b) as -> by by destruct b.
    by rewrite (wait_idle polled csize b [x] held).
Qed.

Lemma vcablk_bcknd_failed_read_leaks_witness : exists (b' : vcablk_bcknd_disk unit) i free' q',
  vcablk_bcknd_transfer keeps_up maps false dma_ok (fun _ => 0%nat) (idle (replicate 1024 0) (fun a => a) []) 2 1 0x1000
    false 9 false = Ret (b', - EIO) /\ backend_inv 8 b' free' q' [i].
Proof.
  destruct (vcablk_bcknd_failed_read_leaks keeps_up maps false dma_ok (fun _ => 0%nat) 8
    (idle (replicate 1024 0) (fun a => a) []) (Pool.ids 0 16) [] [] (idle_media (replicate 1024 0)) []
    (replicate 1024 0) 2 1 0x1000 9 false) as (Hl & _).
  - apply keeps_up_room.
  - intros t. reflexivity.
  - apply idle_binv.
  - reflexivity.
  - apply idle_mem.
  - lia.
  - lia.
  - by vm_compute.
  - by vm_compute.
  - destruct Hl as (b' & i & f & q & H1 & H2 & _); [simpl; lia|]. exists b', i, f, q. split; [exact H1|exact H2].
Defined.


End BlkBackend.
