(* ===== verification/BlkLifecycle.v ===== *)
(** * The block device backend: the life of a disk

    The rest of [src/modules/vca/blockio/vcablk_bcknd/vcablk_bcknd_disk.c]: creating a
    disk, starting it on the rings of the frontend, stopping and destroying it.  The
    kernel resources these functions take and give back (pages, DMA mappings, windows,
    interrupts, threads, memory) are kept in [held], so that it can be said which are
    lost; whether the kernel grants them is an argument. *)

From Stdlib Require Import ZArith Lia.
From stdpp Require Import base list numbers option tactics.
From S2P Require Import Prelude RingBuf Pool BlkFrontend BlkMedia BlkBackend.
#[local] Open Scope Z_scope.

Module BlkLifecycle.
Import RingBuf BlkMedia BlkBackend.

(** ** Data *)

Definition VCABLK_DISK_MODE_READ_ONLY : Z := 1.
Definition HARDSECT_SIZE : Z := 512.

Record vcablk_disk_open_desc := mkOpen {
  d_disk_id : Z;
  d_type : VCABLK_DISK_TYPE;
  d_mode : Z;
  d_size : Z;
  d_file_path : list Z;
}.

(** Of [<linux/log2.h>]. *)
Definition is_power_of_2 (n : Z) : bool := negb (n =? 0) && (Z.land n (n - 1) =? 0).

(** What the kernel has given to the disk. *)
Inductive resource :=
| RDisk
| RPool
| RMedia
| RPage (i : Z)
| RDma (i : Z)
| RWindow (addr : Z)
| RIrq (db : Z)
| RRing
| RThread.
#[export] Instance resource_eq_dec : EqDecision resource.
Proof. solve_decision. Defined.

(** The fields that [BlkBackend] leaves out; [windows]: whether and where the
    request ring and the completion ring are mapped; [pages]: for every transfer
    parameter whether it has a page and a DMA address. *)
Record bdisk (file : Type) := mkBdisk {
  bd : vcablk_bcknd_disk file;
  bcknd_id : Z;
  sectors_num : Z;
  bd_media : bool;
  request_db : Z;
  request_irq : bool;
  done_db : Z;
  request_process_thread : bool;
  req_window : option Z;
  comp_window : option Z;
  pages : list (bool * bool);
  held : list resource;
}.
Arguments mkBdisk {_}. Arguments bd {_}. Arguments bcknd_id {_}. Arguments sectors_num {_}.
Arguments bd_media {_}. Arguments request_db {_}. Arguments request_irq {_}. Arguments done_db {_}.
Arguments request_process_thread {_}. Arguments req_window {_}. Arguments comp_window {_}.
Arguments pages {_}. Arguments held {_}.

Definition release_if (c : bool) (r : resource) (l : list resource) : list resource :=
  if c then release r l else l.

Section Ops.
Context {file : Type} `{Vfs file}.
#[local] Abbreviation bdisk := (bdisk file).
Implicit Types d : bdisk.

Definition set_bd d v : bdisk :=
  mkBdisk v (bcknd_id d) (sectors_num d) (bd_media d) (request_db d) (request_irq d) (done_db d)
    (request_process_thread d) (req_window d) (comp_window d) (pages d) (held d).
Definition set_held d v : bdisk :=
  mkBdisk (bd d) (bcknd_id d) (sectors_num d) (bd_media d) (request_db d) (request_irq d) (done_db d)
    (request_process_thread d) (req_window d) (comp_window d) (pages d) v.
Definition set_irq d db irq done : bdisk :=
  mkBdisk (bd d) (bcknd_id d) (sectors_num d) (bd_media d) db irq done
    (request_process_thread d) (req_window d) (comp_window d) (pages d) (held d).
Definition set_thread d v : bdisk :=
  mkBdisk (bd d) (bcknd_id d) (sectors_num d) (bd_media d) (request_db d) (request_irq d) (done_db d)
    v (req_window d) (comp_window d) (pages d) (held d).
Definition set_windows d rq cp : bdisk :=
  mkBdisk (bd d) (bcknd_id d) (sectors_num d) (bd_media d) (request_db d) (request_irq d) (done_db d)
    (request_process_thread d) rq cp (pages d) (held d).
Definition acquire d r : bdisk := set_held d (r :: held d).
Definition give_back d r : bdisk := set_held d (release r (held d)).

(** The fields of the request path that change here. *)
Definition set_state (b : vcablk_bcknd_disk file) v : vcablk_bcknd_disk file :=
  mkBckd v (media b) (request_ring b) (request_ring_nums b) (request_last_used b) (completion_ring b)
    (completion_ring_num_elems b) (transfer_thread b) (transfer_ring b) (finishing b) (transfer_buffer_pool b)
    (fmem b) (now b) (log b).
(** A thread that starts, or that [kthread_stop] has waited for, is between two turns. *)
Definition set_transfer (b : vcablk_bcknd_disk file) thread ring : vcablk_bcknd_disk file :=
  mkBckd (state b) (media b) (request_ring b) (request_ring_nums b) (request_last_used b) (completion_ring b)
    (completion_ring_num_elems b) thread ring false (transfer_buffer_pool b) (fmem b) (now b) (log b).
Definition set_rings (b : vcablk_bcknd_disk file) rq rq_nums used cp cp_nums : vcablk_bcknd_disk file :=
  mkBckd (state b) (media b) rq rq_nums used cp cp_nums (transfer_thread b) (transfer_ring b)
    (finishing b) (transfer_buffer_pool b) (fmem b) (now b) (log b).

(** ** The pages of the transfer parameters *)

(** One turn of the loop of [vcablk_bcknd_buffer_deinit]. *)
Definition deinit_one (dma_ch : bool) (i : Z) (p : bool * bool) (l : list resource) : list resource :=
  let '(page, mapped) := p in
  if page then release (RPage i) (release_if (mapped && dma_ch) (RDma i) l) else l.
Fixpoint deinit_loop (dma_ch : bool) (ps : list (bool * bool)) (i : Z) (l : list resource) : list resource :=
  match ps with
  | [] => l
  | p :: ps => deinit_loop dma_ch ps (i + 1) (deinit_one dma_ch i p l)
  end.
Definition vcablk_bcknd_buffer_deinit (dma_ch : bool) (ps : list (bool * bool)) (l : list resource)
    : list (bool * bool) * list resource :=
  ((fun p : bool * bool => if p.1 then (false, p.2 && negb dma_ch) else p) <$> ps, deinit_loop dma_ch ps 0 l).

(** The loop of [vcablk_bcknd_buffer_init]: the pages of the parameters [i], ... so
    far, and whether all could be had. [page_ok], [map_ok]: whether the kernel gives
    the page and maps it. *)
Fixpoint init_loop (page_ok map_ok : Z -> bool) (dma_ch : bool) (n : nat) (i : Z) (l : list resource)
    : bool * list (bool * bool) * list resource :=
  match n with
  | O => (true, [], l)
  | S n =>
      if negb (page_ok i) then (false, (false, false) :: replicate n (false, false), l)
      else
        let l := RPage i :: l in
        if dma_ch && negb (map_ok i) then (false, (true, false) :: replicate n (false, false), l)
        else
          let l := if dma_ch then RDma i :: l else l in
          let '(ok, ps, l) := init_loop page_ok map_ok dma_ch n (i + 1) l in
          (ok, (true, dma_ch) :: ps, l)
  end.

Definition vcablk_bcknd_buffer_init (page_ok map_ok : Z -> bool) (dma_ch : bool) (num : Z) (l : list resource)
    : Z * list (bool * bool) * list resource :=
  let '(ok, ps, l) := init_loop page_ok map_ok dma_ch (Z.to_nat num) 0 l in
  if ok then (0, ps, l)
  else let '(ps, l) := vcablk_bcknd_buffer_deinit dma_ch ps l in (- EIO, ps, l).

(** ** Creating *)

(** A pointer that is not a medium. *)
Definition bogus_media : vcablk_media file := mkMedia false 0 [] VCABLK_DISK_TYPE_UNINIT (DMemory []).
(** A transfer parameter with its page. *)
Definition new_tp : transfer_parameters_t := mkTp (mkCb 0 0 None 0 false false) (replicate (Z.to_nat PAGE_SIZE) 0).

Definition no_ring {A} : BlkFrontend.vcablk_ring A := BlkFrontend.mkVring 0 0 0 [].

(** The disk, or the error and the resources that were not given back.
    [create_media ty size path ro] is what the constructors of the medium give. *)
Definition vcablk_bcknd_disk_create (disk_ok pool_ok : bool) (page_ok map_ok : Z -> bool) (dma_ch : bool)
    (create_media : VCABLK_DISK_TYPE -> Z -> list Z -> bool -> err_ptr (vcablk_media file))
    (fm : Z -> Z) (desc : vcablk_disk_open_desc) : outcome (bdisk + Z * list resource) :=
  if negb disk_ok then Ret (inr (- ENOMEM, []))
  else
    p ← Pool.vcablk_pool_init new_tp (VCABLK_TRANSFER_RING_SIZE - 1) pool_ok;
    match p with
    | None => Ret (inr (- ENOMEM, []))
    | Some pool =>
        let read_only := d_mode desc =? VCABLK_DISK_MODE_READ_ONLY in
        let sectors_num := u32 (d_size desc / HARDSECT_SIZE) in
        let size_bytes := u64 (sectors_num * HARDSECT_SIZE) in
        let m := match d_type desc with
                 | VCABLK_DISK_TYPE_UNINIT => Ptr bogus_media
                 | ty => create_media ty size_bytes (d_file_path desc) read_only
                 end in
        let l := [RPool; RDisk] in
        let new medium has_media ps l :=
          mkBdisk (mkBckd DISK_STATE_CREATE medium no_ring 0 0 no_ring 0 false None false pool fm 0 [])
            (d_disk_id desc) sectors_num has_media (-1) false 0 false None None ps l in
        match m with
        | ErrPtr err =>
            if IS_ERR m then Ret (inr (err, release RDisk l))
            else
              let '(err, ps, l) := vcablk_bcknd_buffer_init page_ok map_ok dma_ch (Pool.num pool) l in
              if negb (err =? 0) then Oob else Ret (inl (new bogus_media true ps l))
        | Ptr medium =>
            let has_media := match d_type desc with VCABLK_DISK_TYPE_UNINIT => false | _ => true end in
            let l := if has_media then RMedia :: l else l in
            let '(err, ps, l) := vcablk_bcknd_buffer_init page_ok map_ok dma_ch (Pool.num pool) l in
            if negb (err =? 0) then
              let '(_, l) := vcablk_bcknd_buffer_deinit dma_ch ps l in
              Ret (inr (err, release RDisk (release_if has_media RMedia l)))
            else Ret (inl (new medium has_media ps l))
        end
    end.

(** [db]: what [next_db] gives. *)
Definition vcablk_bcknd_disk_prepare_request_db d (db : Z) : bdisk * Z :=
  (set_irq d db (request_irq d) (done_db d), db).

(** ** Starting and stopping *)

(** [kmalloc_ok]: whether the memory can be had. *)
Definition vcablk_bcknd_alloc_transfer_ring (elems : Z) (kmalloc_ok : bool) : option (BlkFrontend.vcablk_ring Z) :=
  if negb (is_power_of_2 elems) then None
  else if negb kmalloc_ok then None
  else Some (BlkFrontend.mkVring elems 0 0 (replicate (Z.to_nat elems) 0)).

(** Stopping a thread waits for its end: the request thread finishes the request it
    is working on; the transfer thread ends after the parameter it is working on, with
    the others left in the ring. *)
Definition vcablk_bcknd_disk_end_threads d : bdisk :=
  let d := if request_process_thread d then give_back (set_thread d false) RThread else d in
  let d := if transfer_thread (bd d)
           then give_back (set_bd d (set_transfer (bd d) false (transfer_ring (bd d)))) RThread else d in
  match transfer_ring (bd d) with
  | Some _ => give_back (set_bd d (set_transfer (bd d) (transfer_thread (bd d)) None)) RRing
  | None => d
  end.

(** Unmapping the rings. *)
Definition unmap_rings d : bdisk :=
  let d := match req_window d with
           | Some a => give_back (set_windows d None (comp_window d)) (RWindow a)
           | None => d
           end in
  match comp_window d with
  | Some a => give_back (set_windows d (req_window d) None) (RWindow a)
  | None => d
  end.

Definition vcablk_bcknd_disk_stop d : bdisk :=
  let d := vcablk_bcknd_disk_end_threads d in
  let d := if 0 <=? request_db d then set_irq (give_back d (RIrq (request_db d))) (-1) false (done_db d) else d in
  let d := set_irq d (request_db d) (request_irq d) (-1) in
  let d := unmap_rings d in
  set_bd d (set_state (bd d) DISK_STATE_CREATE).

(** What is held after [kfree]. *)
Definition vcablk_bcknd_disk_destroy (dma_ch : bool) d : list resource :=
  let d := vcablk_bcknd_disk_stop d in
  let '(_, l) := vcablk_bcknd_buffer_deinit dma_ch (pages d) (held d) in
  let l := release_if (bd_media d) RMedia l in
  release RDisk (release RPool l).

(** What the frontend has put at the addresses of the rings. *)
Context (request_at : Z -> BlkFrontend.vcablk_ring BlkFrontend.vcablk_request)
  (completion_at : Z -> BlkFrontend.vcablk_ring BlkFrontend.vcablk_completion) (ioremap_ok : nat -> bool).

(** The label [err]. *)
Definition start_err d (err : Z) : bdisk * Z :=
  (unmap_rings (set_irq d (-1) false (-1)), err).

(** After the interrupt was requested. [ring_ok], [transfer_ok], [request_ok]:
    whether the ring and the threads can be had. *)
Definition start_threads (ring_ok transfer_ok request_ok : bool) d : bdisk * Z :=
  match vcablk_bcknd_alloc_transfer_ring VCABLK_TRANSFER_RING_SIZE ring_ok with
  | None => start_err d (- EAGAIN)
  | Some ring =>
      let d := acquire (set_bd d (set_transfer (bd d) transfer_ok (Some ring))) RRing in
      let d := if transfer_ok then acquire d RThread else d in
      let d := if request_ok then acquire (set_thread d true) RThread else set_thread d false in
      if negb (transfer_ok && request_ok) then
        let d := vcablk_bcknd_disk_end_threads d in
        let d := if 0 <=? request_db d then give_back d (RIrq (request_db d)) else d in
        start_err d (- EAGAIN)
      else (set_bd d (set_state (bd d) DISK_STATE_OPEN), 0)
  end.

Definition vcablk_bcknd_disk_start (irq_ok ring_ok transfer_ok request_ok : bool) d (done request_ring_ph completion_ring_ph : Z)
    : bdisk * Z :=
  if negb (state (bd d) =? DISK_STATE_CREATE) then (d, - EIO)
  else if request_db d <? 0 then (d, - EBUSY)
  else
    let '(ok, b) := vcablk_bcknd_ioremap ioremap_ok (bd d) in
    let d := set_bd d b in
    if negb ok then start_err (set_windows d None (comp_window d)) (- EIO)
    else
      let d := acquire (set_windows d (Some request_ring_ph) (comp_window d)) (RWindow request_ring_ph) in
      let '(ok, b) := vcablk_bcknd_ioremap ioremap_ok (bd d) in
      let d := set_bd d b in
      if negb ok then start_err (set_windows d (req_window d) None) (- EIO)
      else
        let d := acquire (set_windows d (req_window d) (Some completion_ring_ph)) (RWindow completion_ring_ph) in
        let rq := request_at request_ring_ph in
        let cp := completion_at completion_ring_ph in
        if negb (is_power_of_2 (BlkFrontend.num_elems rq)) || negb (is_power_of_2 (BlkFrontend.num_elems cp))
        then start_err d (- EIO)
        else
          let d := set_bd d (set_rings (bd d) rq (BlkFrontend.num_elems rq) (BlkFrontend.last_used rq) cp
                               (BlkFrontend.num_elems cp)) in
          let d := set_irq d (request_db d) (request_irq d) done in
          if negb irq_ok then start_err d (- EIO)
          else
            let d := acquire (set_irq d (request_db d) true done) (RIrq (request_db d)) in
            start_threads ring_ok transfer_ok request_ok d.

End Ops.

(** ** Resources *)

(** The resources of the pages [ps] of the parameters [i], ... *)
Fixpoint page_res (i : Z) (ps : list (bool * bool)) : list resource :=
  match ps with
  | [] => []
  | (page, mapped) :: ps =>
      (if page then RPage i :: (if mapped then [RDma i] else []) else []) ++ page_res (i + 1) ps
  end.

Lemma page_res_none n i : page_res i (replicate n (false, false)) = [].
Proof. revert i. induction n as [|n IH]; intros i; [done|]. cbn. apply IH. Qed.

Lemma init_loop_res page_ok map_ok dma_ch n i l :
  let '(_, ps, l') := init_loop page_ok map_ok dma_ch n i l in Permutation l' (page_res i ps ++ l).
Proof.
  revert i l. induction n as [|n IH]; intros i l; [apply Permutation_refl|]. cbn [init_loop].
  destruct (page_ok i); cbn [negb]; [|cbn [page_res app]; rewrite page_res_none; reflexivity].
  destruct (dma_ch && negb (map_ok i)) eqn:E; [cbn [page_res app]; rewrite page_res_none; reflexivity|].
  specialize (IH (i + 1) (if dma_ch then RDma i :: RPage i :: l else RPage i :: l)).
  destruct (init_loop _ _ _ _ _ _) as ((ok & ps) & l'). rewrite IH. cbn [page_res].
  destruct dma_ch; cbn [app]; rewrite <- ?Permutation_middle; [by apply Permutation_swap|done].
Qed.

Lemma init_loop_mapped page_ok map_ok dma_ch n i l :
  Forall (fun p : bool * bool => p.2 = true -> dma_ch = true) (init_loop page_ok map_ok dma_ch n i l).1.2.
Proof.
  revert i l. induction n as [|n IH]; intros i l; [constructor|]. cbn [init_loop].
  destruct (page_ok i); cbn [negb]; [|by constructor; [|apply Forall_replicate]].
  destruct (dma_ch && negb (map_ok i)) eqn:E; [by constructor; [|apply Forall_replicate]|].
  specialize (IH (i + 1) (if dma_ch then RDma i :: RPage i :: l else RPage i :: l)).
  destruct (init_loop _ _ _ _ _ _) as ((ok & ps) & l'). by constructor.
Qed.

Lemma deinit_loop_res dma_ch ps i l rest :
  Forall (fun p : bool * bool => p.2 = true -> dma_ch = true) ps ->
  Permutation l (page_res i ps ++ rest) -> Permutation (deinit_loop dma_ch ps i l) rest.
Proof.
  intros Hd. revert i l. induction Hd as [|(page & mapped) ps Hp _ IH]; intros i l Hl; [done|].
  cbn [deinit_loop]. apply IH. unfold deinit_one. cbn [page_res] in Hl. destruct page; [|done].
  apply release_held. unfold release_if. destruct mapped; cbn [andb].
  - rewrite (Hp eq_refl). apply release_held. rewrite Hl. cbn [app]. by apply Permutation_swap.
  - by rewrite Hl.
Qed.

(** ** Starting and stopping *)

Lemma pow2_is_power_of_2 n : pow2 n -> is_power_of_2 n = true.
Proof.
  intros Hp. pose proof (pow2_pos _ Hp). unfold is_power_of_2. rewrite (proj2 (Z.eqb_neq n 0)) by lia.
  rewrite (land_pow2 n n Hp), Z.mod_same by lia. done.
Qed.

Section Start.
Context {file : Type} `{Vfs file}.
Implicit Types d : bdisk file.

(** A disk whose threads do not run and whose rings are not mapped. *)
Record stopped d : Prop := {
  sp_state : state (bd d) = DISK_STATE_CREATE;
  sp_request : request_process_thread d = false;
  sp_transfer : transfer_thread (bd d) = false;
  sp_ring : transfer_ring (bd d) = None;
  sp_req : req_window d = None;
  sp_comp : comp_window d = None;
}.

(** What a start adds to the resources. *)
Definition start_res db rp cp : list resource :=
  [RThread; RThread; RRing; RIrq db; RWindow cp; RWindow rp].

Context (request_at : Z -> BlkFrontend.vcablk_ring BlkFrontend.vcablk_request)
  (completion_at : Z -> BlkFrontend.vcablk_ring BlkFrontend.vcablk_completion) (ioremap_ok : nat -> bool).
#[local] Abbreviation start := (vcablk_bcknd_disk_start request_at completion_at ioremap_ok).

Lemma ioremap_keeps b : exists t, (vcablk_bcknd_ioremap ioremap_ok b).2 = Nat.iter t tick (b : vcablk_bcknd_disk file).
Proof.
  unfold vcablk_bcknd_ioremap. revert b. induction (Z.to_nat IOREMAP_ATTEMPTS) as [|n IH]; intros b; [by exists 0%nat|].
  cbn [ioremap_attempts]. destruct (ioremap_ok (now b)); [by exists 1%nat|].
  destruct (IH (tick b)) as (t & ->). exists (S t). by rewrite Nat.iter_succ_r.
Qed.

Lemma ticks_keep t (b : vcablk_bcknd_disk file) :
  let b' := Nat.iter t tick b in
  state b' = state b /\ transfer_thread b' = transfer_thread b /\ transfer_ring b' = transfer_ring b
  /\ transfer_buffer_pool b' = transfer_buffer_pool b /\ media b' = media b /\ log b' = log b /\ fmem b' = fmem b.
Proof. induction t as [|t IH]; [done|]. exact IH. Qed.

Lemma release_below a dbs l : release (RWindow a) ((RIrq <$> dbs) ++ l) = (RIrq <$> dbs) ++ release (RWindow a) l.
Proof. induction dbs as [|db dbs IH]; [done|]. cbn. by rewrite <- IH. Qed.

(** Windows that were mapped last, up to interrupts, are given back. *)
Lemma unmap_both d a c dbs l :
  req_window d = Some a -> comp_window d = Some c -> held d = (RIrq <$> dbs) ++ RWindow c :: RWindow a :: l ->
  held (unmap_rings d) = (RIrq <$> dbs) ++ l /\ req_window (unmap_rings d) = None
  /\ comp_window (unmap_rings d) = None /\ bd (unmap_rings d) = bd d
  /\ request_process_thread (unmap_rings d) = request_process_thread d
  /\ request_db (unmap_rings d) = request_db d.
Proof.
  intros Ha Hc Hl. unfold unmap_rings. rewrite Ha. cbn [comp_window give_back set_held set_windows req_window].
  rewrite Hc. cbn [held give_back set_held set_windows]. rewrite Hl, !release_below. by autorewrite with release.
Qed.

Lemma end_threads_keeps d :
  let d' := vcablk_bcknd_disk_end_threads d in
  request_process_thread d' = false /\ transfer_thread (bd d') = false /\ transfer_ring (bd d') = None
  /\ state (bd d') = state (bd d) /\ request_db d' = request_db d /\ req_window d' = req_window d
  /\ comp_window d' = comp_window d.
Proof.
  unfold vcablk_bcknd_disk_end_threads.
  destruct (request_process_thread d) eqn:E1; cbn; destruct (transfer_thread (bd d)) eqn:E2; cbn;
    destruct (transfer_ring (bd d)) eqn:E3; cbn; repeat split; done.
Qed.

(** Stopping the threads that a start has made. *)
Lemma end_threads_held d l t r :
  request_process_thread d = r -> transfer_thread (bd d) = t -> is_Some (transfer_ring (bd d)) ->
  held d = (if r then [RThread] else []) ++ (if t then [RThread] else []) ++ RRing :: l ->
  held (vcablk_bcknd_disk_end_threads d) = l.
Proof.
  intros Hr Ht (ring & Hg) Hl. unfold vcablk_bcknd_disk_end_threads. rewrite Hr.
  destruct r, t; cbn [bd give_back set_held set_thread set_bd transfer_thread transfer_ring]; rewrite ?Ht;
    cbn [bd give_back set_held set_bd set_thread set_transfer transfer_ring]; rewrite Hg; cbn [held give_back set_held set_bd set_thread];
    rewrite Hl; cbn [app]; by autorewrite with release.
Qed.

Lemma start_err_both d a c dbs l err :
  state (bd d) = DISK_STATE_CREATE -> request_process_thread d = false -> transfer_thread (bd d) = false ->
  transfer_ring (bd d) = None ->
  req_window d = Some a -> comp_window d = Some c -> held d = (RIrq <$> dbs) ++ RWindow c :: RWindow a :: l ->
  exists d', start_err d err = (d', err) /\ stopped d' /\ held d' = (RIrq <$> dbs) ++ l /\ request_db d' = -1.
Proof.
  intros Hs Hr Ht Hg Ha Hc Hl. unfold start_err.
  destruct (unmap_both (set_irq d (-1) false (-1)) a c dbs l Ha Hc Hl) as (H1 & H2 & H3 & H4 & H5 & H6).
  eexists. split; [done|]. split; [|by rewrite H1, H6].
  split; rewrite ?H4, ?H5, ?H2, ?H3; done.
Qed.

(** What is there when the interrupt has been requested. *)
Record irq_taken d (db rp cp : Z) (l : list resource) : Prop := {
  it_db : request_db d = db /\ 0 <= db;
  it_state : state (bd d) = DISK_STATE_CREATE;
  it_request : request_process_thread d = false;
  it_transfer : transfer_thread (bd d) = false;
  it_ring : transfer_ring (bd d) = None;
  it_req : req_window d = Some rp;
  it_comp : comp_window d = Some cp;
  it_held : held d = RIrq db :: RWindow cp :: RWindow rp :: l;
}.

Lemma start_threads_cases ring_ok t r d db rp cp l :
  irq_taken d db rp cp l ->
  exists d', (if ring_ok && t && r
              then start_threads true true true d = (d', 0) /\ held d' = start_res db rp cp ++ l
                   /\ bd d' = set_state (set_transfer (bd d) true (Some (BlkFrontend.mkVring 16 0 0 (replicate 16 0)))) DISK_STATE_OPEN
                   /\ request_process_thread d' = true /\ req_window d' = Some rp /\ comp_window d' = Some cp
                   /\ request_db d' = db
              else start_threads ring_ok t r d = (d', - EAGAIN) /\ stopped d'
                   /\ held d' = (if ring_ok then l else RIrq db :: l) /\ request_db d' = -1).
Proof.
  intros [(Hdb & Hdb0) Hst Hrt Htt Htr Hrw Hcw Hh]. unfold start_threads. destruct ring_ok; cbn [andb].
  2: { change (vcablk_bcknd_alloc_transfer_ring VCABLK_TRANSFER_RING_SIZE false) with (@None (BlkFrontend.vcablk_ring Z)).
       destruct (start_err_both d rp cp [db] l (- EAGAIN)) as (d' & H1); try done. by exists d'. }
  change (vcablk_bcknd_alloc_transfer_ring VCABLK_TRANSFER_RING_SIZE true)
    with (Some (BlkFrontend.mkVring 16 0 0 (replicate 16 0))). cbn iota beta.
  destruct (t && r) eqn:Etr.
  { apply andb_true_iff in Etr as (-> & ->). eexists. split; [reflexivity|]. cbn. by rewrite Hh. }
  cbn [negb]. set (d1 := if r then _ else _).
  assert (Hd1 : request_process_thread d1 = r /\ transfer_thread (bd d1) = t /\ is_Some (transfer_ring (bd d1))
    /\ held d1 = (if r then [RThread] else []) ++ (if t then [RThread] else []) ++ RRing :: held d
    /\ state (bd d1) = DISK_STATE_CREATE /\ request_db d1 = db /\ req_window d1 = Some rp /\ comp_window d1 = Some cp).
  { unfold d1. destruct r, t; cbn; repeat split; try done; by eexists. }
  destruct Hd1 as (H1 & H2 & H3 & H4 & H5 & H6 & H7 & H8).
  pose proof (end_threads_held d1 (held d) t r H1 H2 H3 H4) as Hel.
  destruct (end_threads_keeps d1) as (K1 & K2 & K3 & K4 & K5 & K6 & K7).
  set (d2 := vcablk_bcknd_disk_end_threads d1) in *. rewrite K5, H6, (proj2 (Z.leb_le 0 db)) by done.
  destruct (start_err_both (give_back d2 (RIrq db)) rp cp [] l (- EAGAIN)) as (d' & E1 & E2 & E3 & E4); try done.
  - cbn. by rewrite K4.
  - cbn. by rewrite K6.
  - cbn. by rewrite K7.
  - cbn [held give_back set_held]. rewrite Hel, Hh. by autorewrite with release.
  - exists d'. by rewrite E1.
Qed.

(** The disk when both rings are mapped. *)
Definition mapped_disk d b rp cp : bdisk file :=
  mkBdisk b (bcknd_id d) (sectors_num d) (bd_media d) (request_db d) (request_irq d) (done_db d)
    (request_process_thread d) (Some rp) (Some cp) (pages d) (RWindow cp :: RWindow rp :: held d).
(** The disk when the interrupt has been requested. *)
Definition irq_disk d b done rp cp : bdisk file :=
  let rq := request_at rp in let cpl := completion_at cp in
  mkBdisk (set_rings b rq (BlkFrontend.num_elems rq) (BlkFrontend.last_used rq) cpl (BlkFrontend.num_elems cpl))
    (bcknd_id d) (sectors_num d) (bd_media d) (request_db d) true done
    (request_process_thread d) (Some rp) (Some cp) (pages d) (RIrq (request_db d) :: RWindow cp :: RWindow rp :: held d).

Lemma irq_disk_taken d t done rp cp :
  stopped d -> 0 <= request_db d ->
  irq_taken (irq_disk d (Nat.iter t tick (bd d)) done rp cp) (request_db d) rp cp (held d).
Proof.
  intros [Hs Hr Ht Hg _ _] Hdb. destruct (ticks_keep t (bd d)) as (K1 & K2 & K3 & _).
  split; try done; cbn; congruence.
Qed.

(** Up to the threads, a start of a stopped disk either fails and gives everything
    back, or has the rings and the interrupt. *)
Lemma start_cases irq_ok ring_ok t r d done rp cp :
  stopped d ->
  (exists d' err, start irq_ok ring_ok t r d done rp cp = (d', err) /\ err < 0 /\ stopped d' /\ held d' = held d)
  \/ (exists n, start irq_ok ring_ok t r d done rp cp
                = start_threads ring_ok t r (irq_disk d (Nat.iter n tick (bd d)) done rp cp)
        /\ 0 <= request_db d /\ irq_ok = true).
Proof.
  intros Hd. pose proof Hd as [Hs Hr Ht Hg Hrw Hcw]. unfold vcablk_bcknd_disk_start. rewrite Hs. cbn [Z.eqb negb].
  destruct (Z.ltb_spec (request_db d) 0) as [Hdb|Hdb]; [left; exists d, (- EBUSY); done|].
  destruct (ioremap_keeps (bd d)) as (t1 & Hk1). destruct (vcablk_bcknd_ioremap ioremap_ok (bd d)) as (ok1 & b1). cbn [snd] in Hk1.
  destruct (ticks_keep t1 (bd d)) as (K1 & K2 & K3 & _). rewrite <- Hk1 in K1, K2, K3. destruct ok1; cbn [negb].
  2: { left. do 2 eexists. split; [done|]. split; [done|]. unfold unmap_rings. cbn. rewrite Hcw. cbn.
       split; [|done]. split; cbn; congruence. }
  cbn [bd acquire set_held set_windows set_bd].
  destruct (ioremap_keeps b1) as (t2 & Hk2). destruct (vcablk_bcknd_ioremap ioremap_ok b1) as (ok2 & b2). cbn [snd] in Hk2.
  destruct (ticks_keep t2 b1) as (L1 & L2 & L3 & _). rewrite <- Hk2 in L1, L2, L3. destruct ok2; cbn [negb].
  2: { left. do 2 eexists. split; [done|]. split; [done|]. unfold unmap_rings. cbn -[release].
       autorewrite with release. split; [|done]. split; cbn; congruence. }
  assert (b2 = Nat.iter (t2 + t1) tick (bd d)) as Hb2 by by rewrite Nat.iter_add, <- Hk1.
  fold (mapped_disk d b2 rp cp).
  assert (Hmap : forall d0 b err, bd d0 = b -> state b = DISK_STATE_CREATE -> transfer_thread b = false ->
    transfer_ring b = None -> request_process_thread d0 = false -> req_window d0 = Some rp -> comp_window d0 = Some cp ->
    held d0 = RWindow cp :: RWindow rp :: held d -> err < 0 ->
    exists d' err', start_err d0 err = (d', err') /\ err' < 0 /\ stopped d' /\ held d' = held d).
  { intros d0 b err <- B1 B2 B3 B4 B5 B6 B7 He.
    destruct (start_err_both d0 rp cp [] (held d) err) as (d' & E1 & E2 & E3 & _); try done. by exists d', err. }
  destruct (negb _ || negb _).
  { left. eapply (Hmap _ b2); try done; cbn; congruence. }
  destruct irq_ok; cbn [negb].
  - right. exists (t2 + t1)%nat. rewrite <- Hb2. split; [reflexivity|]. done.
  - left. eapply Hmap; try done; cbn; congruence.
Qed.

(** The request path after a start. *)
Definition started_backend (b : vcablk_bcknd_disk file) rp cp : vcablk_bcknd_disk file :=
  let rq := request_at rp in let cpl := completion_at cp in
  mkBckd DISK_STATE_OPEN (media b) rq (BlkFrontend.num_elems rq) (BlkFrontend.last_used rq) cpl (BlkFrontend.num_elems cpl)
    true (Some (BlkFrontend.mkVring 16 0 0 (replicate 16 0))) false (transfer_buffer_pool b) (fmem b) (S (S (now b))) (log b).

Lemma start_success d done rp cp :
  stopped d -> 0 <= request_db d -> (forall t, ioremap_ok t = true) ->
  pow2 (BlkFrontend.num_elems (request_at rp)) -> pow2 (BlkFrontend.num_elems (completion_at cp)) ->
  exists d', start true true true true d done rp cp = (d', 0) /\ bd d' = started_backend (bd d) rp cp
    /\ held d' = start_res (request_db d) rp cp ++ held d
    /\ request_process_thread d' = true /\ req_window d' = Some rp /\ comp_window d' = Some cp
    /\ request_db d' = request_db d.
Proof.
  intros Hd Hdb Hok Hp1 Hp2. pose proof (irq_disk_taken d 2 done rp cp Hd Hdb) as Hit.
  destruct (start_threads_cases true true true _ _ _ _ _ Hit) as (d' & He & Hh & Hb & Hrest). cbn [andb] in He.
  exists d'. split; [|split; [by rewrite Hb|done]].
  rewrite <- He. unfold vcablk_bcknd_disk_start. rewrite (sp_state _ Hd). cbn [Z.eqb negb].
  rewrite (proj2 (Z.ltb_ge _ _)) by done. rewrite (ioremap_1 ioremap_ok Hok). cbn [negb].
  cbn [bd acquire set_held set_windows set_bd]. rewrite (ioremap_1 ioremap_ok Hok). cbn [negb].
  rewrite !pow2_is_power_of_2 by done. reflexivity.
Qed.

(** Parameters that are in the pool, in the queue or held stay so over a start,
    except that the queue is new. *)
Lemma started_binv b free q lost rp cp :
  Pool.pool_inv (transfer_buffer_pool b) free -> Pool.num (transfer_buffer_pool b) = 16 ->
  Permutation (free ++ q ++ lost) (Pool.ids 0 16) ->
  Forall (fun tp => zlen (buffer tp) = 4096) (Pool.data (transfer_buffer_pool b)) -> media_wf (media b) ->
  pow2 (BlkFrontend.num_elems (completion_at cp)) -> BlkFrontend.num_elems (completion_at cp) <= 2 ^ 15 ->
  zlen (BlkFrontend.elems (completion_at cp)) = BlkFrontend.num_elems (completion_at cp) ->
  (exists a, BlkFrontend.last_add (completion_at cp) = cnt_of (BlkFrontend.num_elems (completion_at cp)) a) ->
  backend_inv (BlkFrontend.num_elems (completion_at cp)) (started_backend b rp cp) free [] (q ++ lost).
Proof.
  intros Hpi Hn Hperm Hbufs Hm H1 H2 H3 H4. split; try done.
  - eexists _, []. split; [done|]. split; [|done]. split; [done|done|]. by exists 0.
  - intros i Hi. by apply elem_of_nil in Hi.
Qed.

(** Stopping a started disk gives back what the start took. *)
Lemma stop_held d db rp cp l :
  held d = start_res db rp cp ++ l -> request_process_thread d = true -> transfer_thread (bd d) = true ->
  is_Some (transfer_ring (bd d)) -> req_window d = Some rp -> comp_window d = Some cp -> request_db d = db -> 0 <= db ->
  let d' := vcablk_bcknd_disk_stop d in
  held d' = l /\ stopped d' /\ request_db d' = -1
  /\ transfer_buffer_pool (bd d') = transfer_buffer_pool (bd d) /\ media (bd d') = media (bd d)
  /\ log (bd d') = log (bd d).
Proof.
  intros Hh Hr Ht Hg Hrw Hcw Hdb Hdb0 d'. unfold d', vcablk_bcknd_disk_stop.
  pose proof (end_threads_held d (RIrq db :: RWindow cp :: RWindow rp :: l) true true Hr Ht Hg Hh) as He.
  destruct (end_threads_keeps d) as (K1 & K2 & K3 & K4 & K5 & K6 & K7).
  assert (K8 : transfer_buffer_pool (bd (vcablk_bcknd_disk_end_threads d)) = transfer_buffer_pool (bd d)
    /\ media (bd (vcablk_bcknd_disk_end_threads d)) = media (bd d) /\ log (bd (vcablk_bcknd_disk_end_threads d)) = log (bd d)).
  { unfold vcablk_bcknd_disk_end_threads. destruct (request_process_thread d); cbn; destruct (transfer_thread (bd d)); cbn;
      by destruct (transfer_ring (bd d)). }
  set (d1 := vcablk_bcknd_disk_end_threads d) in *. rewrite K5, Hdb, (proj2 (Z.leb_le 0 db)) by done.
  set (d2 := set_irq _ _ _ (-1)).
  destruct (unmap_both d2 rp cp [] l) as (U1 & U2 & U3 & U4 & U5 & U6).
  - cbn. by rewrite K6.
  - cbn. by rewrite K7.
  - cbn [held d2 set_irq give_back set_held]. rewrite He. by autorewrite with release.
  - cbn [held set_bd bd set_state transfer_buffer_pool media log request_db]. rewrite U1, U4, U6. split; [done|].
    split; [|done]. split; cbn; rewrite ?U4, ?U5, ?U2, ?U3; done.
Qed.

End Start.

(** ** Creating and destroying *)

Section Create.
Context {file : Type} `{Vfs file}.
Implicit Types d : bdisk file.

Lemma pool_new :
  exists pool, Pool.vcablk_pool_init new_tp (VCABLK_TRANSFER_RING_SIZE - 1) true = Ret (Some pool)
    /\ Pool.pool_inv pool (Pool.ids 0 16) /\ Pool.num pool = 16 /\ Pool.data pool = replicate 16 new_tp.
Proof.
  destruct (Pool.clear_refines new_tp (Pool.mkPool 16 0 0 [] [])) as (pool & Hp & Hi & Hn & Hd).
  { rewrite Pool.USED_val. simpl. lia. }
  exists pool. split; [|done]. unfold Pool.vcablk_pool_init.
  change (_ || _) with false. change (u16 (VCABLK_TRANSFER_RING_SIZE - 1 + 1)) with 16. cbn [negb].
  rewrite Hp. by run_bind.
Qed.

Lemma buffer_init_res page_ok map_ok dma_ch num l :
  let '(err, ps, l') := vcablk_bcknd_buffer_init page_ok map_ok dma_ch num l in
  Forall (fun p : bool * bool => p.2 = true -> dma_ch = true) ps
  /\ Permutation l' (page_res 0 ps ++ l) /\ (err = 0 \/ (err = - EIO /\ page_res 0 ps = [])).
Proof.
  unfold vcablk_bcknd_buffer_init.
  pose proof (init_loop_res page_ok map_ok dma_ch (Z.to_nat num) 0 l) as Hr.
  pose proof (init_loop_mapped page_ok map_ok dma_ch (Z.to_nat num) 0 l) as Hm.
  destruct (init_loop _ _ _ _ _ _) as ((ok & ps) & l1). cbn [fst snd] in Hm. destruct ok; [by split; [|split; [|left]]|].
  unfold vcablk_bcknd_buffer_deinit. pose proof (deinit_loop_res dma_ch ps 0 l1 l Hm Hr) as Hd.
  assert (Hn : forall i, page_res i ((fun p : bool * bool => if p.1 then (false, p.2 && negb dma_ch) else p) <$> ps) = []).
  { clear. induction ps as [|(page & mapped) ps IH]; intros i; [done|]. cbn. destruct page; cbn; apply IH. }
  split; [|split; [by rewrite Hn|right; by rewrite Hn]].
  apply Forall_fmap. eapply List.Forall_impl; [|exact Hm]. intros (page & mapped) Hp. cbn in *.
  destruct page; cbn; [|done]. by destruct mapped, dma_ch.
Qed.

Lemma deinit_stopped dma_ch d l :
  stopped d -> request_db d = -1 -> Forall (fun p : bool * bool => p.2 = true -> dma_ch = true) (pages d) ->
  Permutation (held d) (page_res 0 (pages d) ++ (if bd_media d then [RMedia] else []) ++ RPool :: RDisk :: l) ->
  Permutation (vcablk_bcknd_disk_destroy dma_ch d) l.
Proof.
  intros [Hs Hr Ht Hg Hrw Hcw] Hdb Hp Hh. unfold vcablk_bcknd_disk_destroy, vcablk_bcknd_disk_stop, vcablk_bcknd_disk_end_threads.
  rewrite Hr, Ht, Hg, Hdb. cbn [Z.leb Z.compare]. unfold unmap_rings. cbn [req_window set_irq]. rewrite Hrw. cbn [comp_window set_irq]. rewrite Hcw.
  unfold vcablk_bcknd_buffer_deinit. cbn [pages held bd_media set_bd set_irq].
  do 2 apply release_held. unfold release_if. destruct (bd_media d); [apply release_held|];
    by apply (deinit_loop_res dma_ch (pages d) 0 (held d)).
Qed.

End Create.

(** ** Properties *)

(** C34. A new disk is ready for work: when the kernel grants what it asks for and the
    frontend's rings are as the frontend makes them, creating the disk, assigning its
    doorbell and starting it succeed and establish the invariant of the request path
    with all sixteen transfer parameters free, the given medium, no answer sent, and
    the request ring as the frontend left it. *)
Theorem vcablk_bcknd_disk_ready {file} `{Vfs file} (request_at : Z -> BlkFrontend.vcablk_ring BlkFrontend.vcablk_request)
    (completion_at : Z -> BlkFrontend.vcablk_ring BlkFrontend.vcablk_completion) ioremap_ok create_media desc m fm
    dma_ch db done rp cp u l a :
  (forall t, ioremap_ok t = true) -> 0 <= db -> d_type desc <> VCABLK_DISK_TYPE_UNINIT ->
  create_media (d_type desc) (u64 (u32 (d_size desc / HARDSECT_SIZE) * HARDSECT_SIZE)) (d_file_path desc)
    (d_mode desc =? VCABLK_DISK_MODE_READ_ONLY) = Ptr m ->
  media_wf m ->
  let rq := request_at rp in let cpl := completion_at cp in
  pow2 (BlkFrontend.num_elems rq) -> BlkFrontend.last_used rq = cnt_of (BlkFrontend.num_elems rq) u ->
  BlkFrontend.last_add rq = cnt_of (BlkFrontend.num_elems rq) (u + zlen l) ->
  ring_has (BlkFrontend.num_elems rq) (BlkFrontend.elems rq) u l ->
  pow2 (BlkFrontend.num_elems cpl) -> BlkFrontend.num_elems cpl <= 2 ^ 15 ->
  zlen (BlkFrontend.elems cpl) = BlkFrontend.num_elems cpl ->
  BlkFrontend.last_add cpl = cnt_of (BlkFrontend.num_elems cpl) a ->
  exists d d',
    vcablk_bcknd_disk_create true true (fun _ => true) (fun _ => true) dma_ch create_media fm desc = Ret (inl d)
    /\ vcablk_bcknd_disk_start request_at completion_at ioremap_ok true true true true
         (vcablk_bcknd_disk_prepare_request_db d db).1 done rp cp = (d', 0)
    /\ backend_inv (BlkFrontend.num_elems cpl) (bd d') (Pool.ids 0 16) [] [] /\ state (bd d') = DISK_STATE_OPEN /\ request_ring_has (bd d') l
    /\ view (bd d') [] = (m, []) /\ published (bd d') a /\ fmem (bd d') = fm.
Proof.
  intros Hmap Hdb Hty Hm Hwf rq cpl Hq Hqu Hqa Hql Hc1 Hc2 Hc3 Hc4.
  destruct pool_new as (pool & Hpool & Hpi & Hpn & Hpd).
  assert (exists d, vcablk_bcknd_disk_create true true (fun _ => true) (fun _ => true) dma_ch create_media fm desc = Ret (inl d)
    /\ stopped d /\ media (bd d) = m /\ transfer_buffer_pool (bd d) = pool /\ log (bd d) = [] /\ fmem (bd d) = fm)
    as (d & Hcr & Hst & Hmd & Hpl & Hlog & Hfm).
  { unfold vcablk_bcknd_disk_create. cbn [negb]. rewrite Hpool. run_bind.
    assert (match d_type desc with VCABLK_DISK_TYPE_UNINIT => Ptr bogus_media
            | ty => create_media ty (u64 (u32 (d_size desc / HARDSECT_SIZE) * HARDSECT_SIZE)) (d_file_path desc)
                      (d_mode desc =? VCABLK_DISK_MODE_READ_ONLY) end = Ptr m) as -> by (rewrite <- Hm; by destruct (d_type desc)).
    rewrite Hpn. destruct (vcablk_bcknd_buffer_init _ _ _ _ _) as ((err & ps) & l0) eqn:Ei.
    assert (err = 0) as ->; [|cbn [Z.eqb negb]; eexists; split; [done|]; by split].
    revert Ei. unfold vcablk_bcknd_buffer_init. change (Z.to_nat 16) with 16%nat.
    destruct dma_ch, (d_type desc); cbn; congruence. }
  exists d. destruct (start_success request_at completion_at ioremap_ok (vcablk_bcknd_disk_prepare_request_db d db).1 done rp cp)
    as (d' & Hs & Hb & _); try done; [by destruct Hst|].
  exists d'. split; [done|]. split; [done|]. rewrite Hb. cbn [vcablk_bcknd_disk_prepare_request_db fst set_irq bd].
  split; [|split; [done|split; [split; [done|]; by exists u|split; [|split; [|done]]]]].
  - change (@nil Z) with (@nil Z ++ []). eapply started_binv; try done; rewrite ?Hpl, ?Hmd, ?Hpd; try done.
    + by apply Forall_replicate.
    + by exists a.
  - unfold view. cbn. by rewrite Hmd, Hlog.
  - unfold published. cbn. rewrite Hlog. split; [by rewrite Z.add_0_r|]. intros j c r Hj. by destruct j.
Qed.

(** A memory disk of four sectors, and rings of eight entries. *)
Definition demo_desc : vcablk_disk_open_desc := mkOpen 3 VCABLK_DISK_TYPE_MEMORY 2 2048 [].
Definition demo_media (ty : VCABLK_DISK_TYPE) (size : Z) (path : list Z) (ro : bool) : err_ptr (vcablk_media unit) :=
  vcablk_media_create_memory true (Some (replicate (Z.to_nat size) 0)) size path ro.
Definition demo_requests (addr : Z) : BlkFrontend.vcablk_ring BlkFrontend.vcablk_request :=
  BlkFrontend.mkVring 8 0 0 (replicate 8 (BlkFrontend.mkRequest 0 0 0 0 0)).
Definition demo_completions (addr : Z) : BlkFrontend.vcablk_ring BlkFrontend.vcablk_completion :=
  BlkFrontend.mkVring 8 0 0 (replicate 8 (BlkFrontend.mkCompletion 0 0)).
Lemma pow2_8 : pow2 8.
Proof. exists 3. split; [lia|done]. Qed.

Lemma vcablk_bcknd_disk_ready_witness : exists d d',
  vcablk_bcknd_disk_create true true (fun _ => true) (fun _ => true) true demo_media (fun a => a) demo_desc = Ret (inl d)
  /\ vcablk_bcknd_disk_start demo_requests demo_completions maps true true true true
       (vcablk_bcknd_disk_prepare_request_db d 4).1 5 0x1000 0x2000 = (d', 0)
  /\ backend_inv 8 (bd d') (Pool.ids 0 16) [] [] /\ state (bd d') = DISK_STATE_OPEN.
Proof.
  destruct (vcablk_bcknd_disk_ready demo_requests demo_completions maps demo_media demo_desc
    (mkMedia false 2048 [] VCABLK_DISK_TYPE_MEMORY (DMemory (replicate 2048 0))) (fun a => a) true 4 5 0x1000 0x2000 0 [] 0)
    as (d & d' & H1 & H2 & H3 & H4 & _).
  - intros t. reflexivity.
  - lia.
  - discriminate.
  - reflexivity.
  - left. exists (replicate 2048 0). split; [reflexivity|]. split; [reflexivity|]. by vm_compute.
  - apply pow2_8.
  - reflexivity.
  - reflexivity.
  - split; [by vm_compute|]. intros j r Hj. by rewrite lookup_nil in Hj.
  - apply pow2_8.
  - by vm_compute.
  - reflexivity.
  - reflexivity.
  - exists d, d'. split; [exact H1|]. split; [exact H2|]. split; [exact H3|exact H4].
Defined.

(** Starting is all or nothing, up to one interrupt: from a stopped disk a start
    either succeeds, with exactly the two windows, the interrupt, the ring and the two
    threads taken, or fails, leaves the disk stopped and has given back everything it
    took, except that the interrupt stays requested when the transfer ring cannot be
    allocated. *)
Theorem vcablk_bcknd_disk_start_balanced {file} `{Vfs file} request_at completion_at ioremap_ok
    irq_ok ring_ok transfer_ok request_ok (d : bdisk file) done rp cp :
  stopped d ->
  exists d' err, vcablk_bcknd_disk_start request_at completion_at ioremap_ok irq_ok ring_ok transfer_ok request_ok d done rp cp = (d', err)
    /\ ((err = 0 /\ state (bd d') = DISK_STATE_OPEN /\ held d' = start_res (request_db d) rp cp ++ held d)
        \/ (err < 0 /\ stopped d'
            /\ (held d' = held d \/ (ring_ok = false /\ irq_ok = true /\ held d' = RIrq (request_db d) :: held d)))).
Proof.
  intros Hd.
  destruct (start_cases request_at completion_at ioremap_ok irq_ok ring_ok transfer_ok request_ok d done rp cp Hd)
    as [(d' & err & -> & He & Hs & Hh)|(n & He & Hdb & Hirq)].
  { exists d', err. split; [done|]. right. eauto. }
  pose proof (irq_disk_taken request_at completion_at d n done rp cp Hd Hdb) as Hit. rewrite He.
  destruct (start_threads_cases ring_ok transfer_ok request_ok _ _ _ _ _ Hit) as (d' & Hc).
  destruct ring_ok, transfer_ok, request_ok; cbn [andb] in Hc;
    (destruct Hc as (-> & Hh & Hb & _); exists d', 0; split; [done|]; left; by rewrite Hb)
    || (destruct Hc as (-> & Hs & Hh & _); exists d', (- EAGAIN); split; [done|]; right; split; [done|]; split; [done|];
        first [by left | right; by rewrite Hirq]).
Qed.

Definition demo_stopped : bdisk unit :=
  mkBdisk (idle [] (fun a => a) []) 3 4 true 4 false 0 false None None [] [RPool; RDisk].

Lemma vcablk_bcknd_disk_start_balanced_witness : exists d' err,
  vcablk_bcknd_disk_start demo_requests demo_completions maps true false true true
    (set_bd demo_stopped (set_state (set_transfer (bd demo_stopped) false None) DISK_STATE_CREATE)) 5 0x1000 0x2000 = (d', err)
  /\ err = - EAGAIN /\ held d' = [RIrq 4; RPool; RDisk].
Proof.
  destruct (vcablk_bcknd_disk_start_balanced demo_requests demo_completions maps true false true true
    (set_bd demo_stopped (set_state (set_transfer (bd demo_stopped) false None) DISK_STATE_CREATE)) 5 0x1000 0x2000)
    as (d' & err & He & _); [by split|].
  exists d', err. split; [exact He|]. revert He. vm_compute. intros [= <- <-]. split; reflexivity.
Defined.

(** Stopping a disk loses the pieces in the queue: what a successful start took is
    given back and the disk can be started again, but the pieces that were queued are
    neither written nor answered, and their transfer parameters are not returned to
    the pool, so after the next start they are still missing. *)
Theorem vcablk_bcknd_disk_stop_loses_queue {file} `{Vfs file} request_at completion_at ioremap_ok
    (d : bdisk file) csize free q lost db rp cp l done :
  backend_inv csize (bd d) free q lost ->
  held d = start_res db rp cp ++ l -> request_process_thread d = true ->
  req_window d = Some rp -> comp_window d = Some cp -> request_db d = db -> 0 <= db ->
  (forall t, ioremap_ok t = true) -> pow2 (BlkFrontend.num_elems (request_at rp)) ->
  let cpl := completion_at cp in
  pow2 (BlkFrontend.num_elems cpl) -> BlkFrontend.num_elems cpl <= 2 ^ 15 ->
  zlen (BlkFrontend.elems cpl) = BlkFrontend.num_elems cpl ->
  (exists a, BlkFrontend.last_add cpl = cnt_of (BlkFrontend.num_elems cpl) a) ->
  let d1 := vcablk_bcknd_disk_stop d in
  stopped d1 /\ held d1 = l /\ media (bd d1) = media (bd d) /\ log (bd d1) = log (bd d)
  /\ exists d2, vcablk_bcknd_disk_start request_at completion_at ioremap_ok true true true true
       (vcablk_bcknd_disk_prepare_request_db d1 db).1 done rp cp = (d2, 0)
     /\ held d2 = start_res db rp cp ++ l /\ backend_inv (BlkFrontend.num_elems cpl) (bd d2) free [] (q ++ lost).
Proof.
  intros Hb Hh Hr Hrw Hcw Hdb Hdb0 Hmap Hq cpl Hc1 Hc2 Hc3 Hc4 d1.
  destruct (bi_ring _ _ _ _ Hb) as (ring & old & Htr & _).
  destruct (stop_held d db rp cp l Hh Hr (bi_thread _ _ _ _ Hb)) as (S1 & S2 & S3 & S4 & S5 & S6); try done.
  fold d1 in S1, S2, S3, S4, S5, S6. split; [done|]. split; [done|]. split; [done|]. split; [done|].
  destruct (start_success request_at completion_at ioremap_ok (vcablk_bcknd_disk_prepare_request_db d1 db).1 done rp cp)
    as (d2 & Hs & Hbd & Hhd & _); try done; [by destruct S2|].
  exists d2. split; [done|]. split; [by rewrite Hhd, <- S1|]. rewrite Hbd.
  destruct Hb as [Hpi Hn Hperm _ _ Hbufs Hm _ _].
  apply started_binv; cbn [bd vcablk_bcknd_disk_prepare_request_db fst set_irq]; rewrite ?S4, ?S5; done.
Qed.

(** A started disk with the piece of parameter 0 in the queue. *)
Definition demo_queued : bdisk unit :=
  mkBdisk
    (set_pool (set_transfer (idle [] (fun a => a) []) true
                 (Some (BlkFrontend.mkVring 16 1 0 (replicate 16 0))))
       (Pool.mkPool 16 1 15 (Pool.VCABLK_POOL_USED :: drop 1 (Pool.next_free idle_pool)) (replicate 16 idle_tp)))
    3 0 true 4 true 5 true (Some 0x1000) (Some 0x2000) [] (start_res 4 0x1000 0x2000 ++ [RPool; RDisk]).

Lemma demo_queued_binv : backend_inv 8 (bd demo_queued) (drop 1 (Pool.ids 0 16)) [0] [].
Proof.
  pose proof (idle_binv [] (fun a => a) []) as Hi.
  destruct (pop_ok 8 _ _ _ _ 0 1 (drop 2 (Pool.ids 0 16)) Hi eq_refl) as (p & Hp & Hb & _).
  assert (p = transfer_buffer_pool (bd demo_queued)) as ->.
  { change (Pool.vcablk_pool_pop idle_pool = Ret (p, Some 0)) in Hp.
    assert (Pool.vcablk_pool_pop idle_pool = Ret (transfer_buffer_pool (bd demo_queued), Some 0)) as Hp' by reflexivity.
    rewrite Hp' in Hp. by injection Hp. }
  destruct Hb as [Hpi Hn Hperm Hth _ Hbufs Hm Hc _]. split; try done.
  - eexists _, []. split; [done|]. split; [|done]. split; [done|done|]. exists 0. split; [done|]. split; [done|].
    intros [|j] i Hj; [by injection Hj as <-|done].
  - intros i Hi'. apply list_elem_of_singleton in Hi' as ->. eexists. split; [reflexivity|]. by vm_compute.
Qed.

Lemma vcablk_bcknd_disk_stop_loses_queue_witness :
  exists d2, vcablk_bcknd_disk_start demo_requests demo_completions maps true true true true
       (vcablk_bcknd_disk_prepare_request_db (vcablk_bcknd_disk_stop demo_queued) 4).1 5 0x1000 0x2000 = (d2, 0)
     /\ backend_inv 8 (bd d2) (drop 1 (Pool.ids 0 16)) [] [0].
Proof.
  destruct (vcablk_bcknd_disk_stop_loses_queue demo_requests demo_completions maps demo_queued
    8 (drop 1 (Pool.ids 0 16)) [0] [] 4 0x1000 0x2000 [RPool; RDisk] 5) as (_ & _ & _ & _ & d2 & H1 & _ & H2).
  - apply demo_queued_binv.
  - reflexivity.
  - reflexivity.
  - reflexivity.
  - reflexivity.
  - reflexivity.
  - lia.
  - intros t. reflexivity.
  - apply pow2_8.
  - apply pow2_8.
  - by vm_compute.
  - reflexivity.
  - exists 0. reflexivity.
  - exists d2. split; [exact H1|exact H2].
Defined.

(** Creating and destroying: when the constructor of the medium gives a medium or
    an error that [IS_ERR] recognises, creating a disk returns, whatever the kernel refuses; a disk that was
    created gives back everything when it is destroyed; and a creation that fails after
    its pool was allocated loses the pool, and nothing else. *)
Theorem vcablk_bcknd_disk_create_destroy {file} `{Vfs file} disk_ok pool_ok page_ok map_ok dma_ch create_media fm desc :
  match create_media (d_type desc) (u64 (u32 (d_size desc / HARDSECT_SIZE) * HARDSECT_SIZE)) (d_file_path desc)
          (d_mode desc =? VCABLK_DISK_MODE_READ_ONLY) with
  | ErrPtr err => - 4095 <= err < 0
  | Ptr _ => True
  end ->
  exists r : bdisk file + Z * list resource,
    vcablk_bcknd_disk_create disk_ok pool_ok page_ok map_ok dma_ch create_media fm desc = Ret r
    /\ match r with
       | inl d => stopped d /\ vcablk_bcknd_disk_destroy dma_ch d = []
       | inr (err, lost) => err < 0 /\ lost = (if disk_ok && pool_ok then [RPool] else [])
       end.
Proof.
  intros Herr. unfold vcablk_bcknd_disk_create. destruct disk_ok; cbn [negb andb]; [|by eexists].
  destruct pool_ok.
  2: { change (Pool.vcablk_pool_init new_tp (VCABLK_TRANSFER_RING_SIZE - 1) false)
         with (Ret (A := option (Pool.vcablk_pool transfer_parameters_t)) None). run_bind. by eexists. }
  destruct pool_new as (pool & -> & _ & Hpn & _). run_bind. rewrite Hpn.
  set (size := u64 _). set (ro := _ =? _).
  set (m := match d_type desc with VCABLK_DISK_TYPE_UNINIT => Ptr bogus_media | _ => _ end).
  set (has_media := match d_type desc with VCABLK_DISK_TYPE_UNINIT => false | _ => true end).
  assert (Hm : match m with ErrPtr err => - 4095 <= err < 0 | Ptr _ => True end).
  { unfold m. destruct (d_type desc); [done|exact Herr|exact Herr]. }
  destruct m as [medium|err].
  2: { assert (IS_ERR (ErrPtr (A := vcablk_media file) err) = true) as ->.
       { unfold IS_ERR. apply andb_true_iff. split; [apply Z.leb_le|apply Z.ltb_lt]; lia. }
       eexists. split; [done|]. split; [lia|done]. }
  set (l0 := if has_media then _ else _).
  pose proof (buffer_init_res page_ok map_ok dma_ch 16 l0) as Hi.
  destruct (vcablk_bcknd_buffer_init _ _ _ _ _) as ((err & ps) & l1).
  destruct Hi as (Hp & Hl & [->|(-> & Hps)]); cbn [Z.eqb negb Z.opp EIO].
  - eexists. split; [done|]. split; [by split|]. apply Permutation_nil. symmetry.
    apply deinit_stopped; [by split|done|exact Hp|].
    cbn [held pages bd_media]. rewrite Hl. unfold l0. by destruct has_media.
  - unfold vcablk_bcknd_buffer_deinit. eexists. split; [done|]. split; [done|].
    symmetry. apply Permutation_singleton_l. symmetry. apply release_held.
    assert (Permutation (deinit_loop dma_ch ps 0 l1) l0) as Hd by by apply deinit_loop_res.
    unfold release_if, l0 in *. destruct has_media; [|rewrite Hd; by apply Permutation_swap].
    apply release_held. etrans; [exact Hd|]. apply Permutation_skip, Permutation_swap.
Qed.

Lemma vcablk_bcknd_disk_create_destroy_witness : exists r,
  vcablk_bcknd_disk_create true true (fun i => i <? 3) (fun _ => true) true demo_media (fun a => a) demo_desc = Ret r
  /\ match r with
     | inl d => stopped d /\ vcablk_bcknd_disk_destroy true d = []
     | inr (err, lost) => err < 0 /\ lost = [RPool]
     end.
Proof.
  apply (vcablk_bcknd_disk_create_destroy true true (fun i => i <? 3) (fun _ => true) true demo_media (fun a => a) demo_desc).
  exact I.
Defined.

End BlkLifecycle.
