(* ===== verification/Intr.v ===== *)
(** * Interrupt callbacks of the PLX device

    [src/modules/vca/plx87xx/plx_intr.c]: the lists of callbacks, one for each
    doorbell; requesting and freeing them; the interrupt handler, which acknowledges
    the doorbells and calls the handlers, and the thread, which calls the thread
    functions of the doorbells the handler has seen; the choice of doorbells.

    Functions are known by numbers; [calls] is the list of the calls made, as
    function and argument.  [line] says whether the kernel has [plx_interrupt] as a
    handler of the interrupt line.  Freed memory is the empty array, as in the other
    files.  The names of callbacks, which are only printed, are left out.  The
    identifiers of callbacks come from the kernel's allocator, a parameter. *)

From Stdlib Require Import ZArith Lia.
From stdpp Require Import base list gmap numbers option tactics.
From S2P Require Import Prelude Alm ALut.
#[local] Open Scope Z_scope.

Module Intr.

(** ** Data *)

Definition PLX_NUM_OFFSETS : Z := 32.
(** The table [_plx_intr_init] of [plx_hw.h]. *)
Definition PLX_DOORBELL_IDX_START : Z := 0.
Definition PLX_NUM_DOORBELL : Z := 16.
Definition IRQ_NONE : Z := 0.
Definition IRQ_HANDLED : Z := 1.
Definition IRQ_WAKE_THREAD : Z := 2.

Record plx_intr_cb := mkIcb {
  handler : option Z;
  thread_fn : option Z;
  cb_data : Z;
  cb_id : Z;
}.

Record plx_intr_info := mkIinfo { intr_start_idx : Z; intr_len : Z }.

Record plx_irq_info := mkIrq {
  next_avail_src : Z;
  plx_msi_map : Z;
  cb_ida : gset Z;
  cb_list : list (list plx_intr_cb);
  mask : Z;
}.

Record idev (hw : Type) := mkIdev {
  xdev : ALut.plx_device hw;
  intr_info : plx_intr_info;
  irq_info : plx_irq_info;
  msi_enabled : bool;
  line : bool;
  calls : list (Z * Z);
}.
Arguments mkIdev {_}. Arguments xdev {_}. Arguments intr_info {_}. Arguments irq_info {_}.
Arguments msi_enabled {_}. Arguments line {_}. Arguments calls {_}.

Definition set_next (q : plx_irq_info) v := mkIrq v (plx_msi_map q) (cb_ida q) (cb_list q) (mask q).
Definition set_msi (q : plx_irq_info) v := mkIrq (next_avail_src q) v (cb_ida q) (cb_list q) (mask q).
Definition set_cbs (q : plx_irq_info) ida l := mkIrq (next_avail_src q) (plx_msi_map q) ida l (mask q).
Definition set_mask (q : plx_irq_info) v := mkIrq (next_avail_src q) (plx_msi_map q) (cb_ida q) (cb_list q) v.

(** [ida_simple_get(ida, 0, 0, gfp)]: an identifier that is not in use, or a negative
    error; the largest identifier is [INT_MAX]. *)
Class Ida := {
  ida_simple_get : gset Z -> Z;
  ida_fresh : forall s, 0 <= ida_simple_get s -> ida_simple_get s ∉ s;
  ida_max : forall s, ida_simple_get s < 2 ^ 31;
}.

Section Ops.
Context {hw : Type} `{ALut.Mmio hw} `{Ida}.
#[local] Abbreviation idev := (idev hw).
Implicit Types x : idev.

Definition set_irq x v : idev := mkIdev (xdev x) (intr_info x) v (msi_enabled x) (line x) (calls x).
Definition set_xdev x v : idev := mkIdev v (intr_info x) (irq_info x) (msi_enabled x) (line x) (calls x).
Definition set_info x v : idev := mkIdev (xdev x) v (irq_info x) (msi_enabled x) (line x) (calls x).
Definition set_line x v : idev := mkIdev (xdev x) (intr_info x) (irq_info x) (msi_enabled x) v (calls x).
Definition call_all x (l : list (Z * Z)) : idev :=
  mkIdev (xdev x) (intr_info x) (irq_info x) (msi_enabled x) (line x) (calls x ++ l).

(** The calls that the callbacks of a list make. *)
Definition handler_calls (l : list plx_intr_cb) : list (Z * Z) :=
  omap (fun cb => (fun f => (f, cb_data cb)) <$> handler cb) l.
Definition thread_calls (l : list plx_intr_cb) : list (Z * Z) :=
  omap (fun cb => (fun f => (f, cb_data cb)) <$> thread_fn cb) l.

(** ** The interrupt *)

Fixpoint thread_loop (n : nat) x (i : Z) : outcome idev :=
  match n with
  | O => Ret x
  | S n =>
      x ← (if Z.testbit (mask (irq_info x)) i then
             let x := set_irq x (set_mask (irq_info x) (Z.clearbit (mask (irq_info x)) i)) in
             l ← aget (cb_list (irq_info x)) i;
             Ret (call_all x (thread_calls l))
           else Ret x);
      thread_loop n x (i + 1)
  end.

Definition plx_thread_fn x : outcome (Z * idev) :=
  let start := intr_start_idx (intr_info x) in
  x ← thread_loop (Z.to_nat (intr_len (intr_info x) - start)) x start;
  Ret (IRQ_HANDLED, x).

Fixpoint interrupt_loop (n : nat) x (m i : Z) : outcome idev :=
  match n with
  | O => Ret x
  | S n =>
      x ← (if Z.testbit m i then
             l ← aget (cb_list (irq_info x)) i;
             let x := call_all x (handler_calls l) in
             Ret (set_irq x (set_mask (irq_info x) (Z.setbit (mask (irq_info x)) i)))
           else Ret x);
      interrupt_loop n x m (i + 1)
  end.

Definition plx_interrupt x : outcome (Z * idev) :=
  let '(m, d) := ALut.plx_ack_interrupt (xdev x) in
  let x := set_xdev x d in
  if m =? 0 then Ret (IRQ_NONE, x)
  else
    let start := intr_start_idx (intr_info x) in
    x ← interrupt_loop (Z.to_nat (intr_len (intr_info x) - start)) x m start;
    Ret (IRQ_WAKE_THREAD, x).

(** ** Registering callbacks *)

Definition plx_map_src_to_offset x (intr_src : Z) : Z :=
  if intr_len (intr_info x) <=? intr_src then PLX_NUM_OFFSETS
  else u16 (intr_start_idx (intr_info x) + intr_src).

(** [kmalloc_ok]: whether the callback can be allocated.  The callback, or the
    error. *)
Definition plx_register_intr_callback (kmalloc_ok : bool) x (idx : Z) (h t : option Z) (data : Z)
    : outcome (idev * (plx_intr_cb + Z)) :=
  if negb kmalloc_ok then Ret (x, inr (- ENOMEM))
  else
    let q := irq_info x in
    let id := ida_simple_get (cb_ida q) in
    if id <? 0 then Ret (x, inr id)
    else
      let cb := mkIcb h t data id in
      l ← aget (cb_list q) idx;
      ls ← aset (cb_list q) idx (l ++ [cb]);
      Ret (set_irq x (set_cbs q ({[id]} ∪ cb_ida q) ls), inl cb).

(** Deleting the callback [id] from a list, if it is there. *)
Fixpoint del_cb (id : Z) (l : list plx_intr_cb) : option (list plx_intr_cb) :=
  match l with
  | [] => None
  | cb :: l => if u32 (cb_id cb) =? id then Some l else cons cb <$> del_cb id l
  end.

Fixpoint unregister_loop (n : nat) x (i id : Z) : outcome (idev * Z) :=
  match n with
  | O => Ret (x, PLX_NUM_OFFSETS)
  | S n =>
      let q := irq_info x in
      l ← aget (cb_list q) i;
      match del_cb id l with
      | Some l' =>
          ls ← aset (cb_list q) i l';
          Ret (set_irq x (set_cbs q (cb_ida q ∖ {[id]}) ls), i)
      | None => unregister_loop n x (i + 1) id
      end
  end.

Definition plx_unregister_intr_callback x (idx : Z) : outcome (idev * Z) :=
  unregister_loop (Z.to_nat PLX_NUM_OFFSETS) x 0 idx.

Definition plx_setup_callbacks x (kmalloc_ok : bool) : idev * Z :=
  if negb kmalloc_ok then (x, - ENOMEM)
  else (set_irq x (set_cbs (irq_info x) ∅ (replicate (Z.to_nat PLX_NUM_OFFSETS) [])), 0).

(** The callbacks that are not freed. *)
Fixpoint release_loop (ls : list (list plx_intr_cb)) : list plx_intr_cb :=
  match ls with
  | [] => []
  | [] :: ls => concat ls
  | (_ :: _) :: ls => release_loop ls
  end.
Definition plx_release_callbacks x : idev * list plx_intr_cb :=
  (set_irq x (set_cbs (irq_info x) ∅ []), release_loop (cb_list (irq_info x))).

(** ** Requesting interrupts *)

Definition plx_next_db x : idev * Z :=
  let q := irq_info x in
  (set_irq x (set_next q (s32 (next_avail_src q + 1))),
   Z.rem (next_avail_src q) (intr_len (intr_info x) - 1) + 1).

Definition COOKIE_ID_SHIFT : Z := 16.
Definition GET_ENTRY (cookie : Z) : Z := Z.land cookie 0xFFFF.
Definition GET_OFFSET (cookie : Z) : Z := Z.shiftr cookie COOKIE_ID_SHIFT.
Definition MK_COOKIE (entry id : Z) : Z := s32 (Z.lor entry (Z.shiftl id COOKIE_ID_SHIFT)).

(** The cookie, or the error. *)
Definition plx_request_threaded_irq (kmalloc_ok : bool) x (h t : option Z) (data intr_src : Z)
    : outcome (idev * (Z + Z)) :=
  let offset := plx_map_src_to_offset x intr_src in
  if PLX_NUM_OFFSETS <=? offset then Ret (x, inr (- EINVAL))
  else
    '(x, r) ← plx_register_intr_callback kmalloc_ok x (u8 offset) h t data;
    match r with
    | inr rc => Ret (x, inr rc)
    | inl cb =>
        let q := irq_info x in
        let x := if msi_enabled x then set_irq x (set_msi q (Z.lor (plx_msi_map q) (u32 (Z.shiftl 1 offset)))) else x in
        Ret (x, inl (u64 (MK_COOKIE 0 (cb_id cb))))
    end.

Definition plx_free_irq x (cookie : Z) : outcome idev :=
  let offset := u32 (GET_OFFSET cookie) in
  '(x, src) ← plx_unregister_intr_callback x offset;
  if PLX_NUM_OFFSETS <=? src then Ret x
  else
    let q := irq_info x in
    if msi_enabled x then
      if u32 (GET_ENTRY cookie) =? 0
      then Ret (set_irq x (set_msi q (Z.land (plx_msi_map q) (u32 (Z.lnot (Z.shiftl 1 src))))))
      else Oob
    else Ret x.

(** ** Setting up and freeing the interrupts *)

(** [plx_intr_init] of [plx_hw.c]. *)
Definition plx_intr_init x : idev := set_info x (mkIinfo PLX_DOORBELL_IDX_START PLX_NUM_DOORBELL).

(** What the kernel answers: whether memory can be had, and the results of
    [request_threaded_irq] and of [irq_set_affinity_hint]. *)
Record setup_env := mkEnv { kmalloc_ok : bool; request_rc : Z; hint_rc : Z }.

Definition plx_setup_intx (e : setup_env) x : idev * Z :=
  let '(x, rc) := plx_setup_callbacks x (kmalloc_ok e) in
  if negb (rc =? 0) then (x, rc)
  else
    let rc := request_rc e in
    if negb (rc =? 0) then (fst (plx_release_callbacks x), rc)
    else
      let x := set_line x true in
      let rc := hint_rc e in
      if negb (rc =? 0) then (fst (plx_release_callbacks x), rc) else (x, 0).

Definition plx_setup_interrupts (e : setup_env) x : idev * Z :=
  let '(x, rc) := plx_setup_intx e x in
  if negb (rc =? 0) then (x, rc)
  else (set_xdev x (ALut.plx_enable_interrupts (xdev x)), 0).

(** The callbacks that are not freed are returned.  MSI is never enabled by
    [plx_setup_interrupts]; the branch that frees it differs in the table only. *)
Definition plx_free_interrupts x : idev * list plx_intr_cb :=
  let x := set_xdev x (ALut.plx_disable_interrupts (xdev x)) in
  let x := if msi_enabled x
           then let q := irq_info x in
                mkIdev (xdev x) (intr_info x) (set_msi q 0) false false (calls x)
           else set_line x false in
  plx_release_callbacks x.

End Ops.

(** ** Dispatching *)

(** The calls for the sources [i], ..., [i + n - 1] that are set in [m]. *)
Definition source_calls (f : list plx_intr_cb -> list (Z * Z)) (ls : list (list plx_intr_cb)) (m i : Z) (n : nat)
    : list (Z * Z) :=
  mbind (fun k => if Z.testbit m k then f (default [] (ls !! Z.to_nat k)) else []) (seqZ i (Z.of_nat n)).

Lemma source_calls_S f ls m i n :
  source_calls f ls m i (S n)
  = (if Z.testbit m i then f (default [] (ls !! Z.to_nat i)) else []) ++ source_calls f ls m (i + 1) n.
Proof.
  unfold source_calls. rewrite seqZ_cons by lia. cbn [mbind list_bind]. do 2 f_equal.
  by replace (Z.pred (Z.of_nat (S n))) with (Z.of_nat n) by lia.
Qed.

Lemma source_calls_ext f ls m m' i n :
  (forall k, i <= k < i + Z.of_nat n -> Z.testbit m k = Z.testbit m' k) ->
  source_calls f ls m i n = source_calls f ls m' i n.
Proof.
  revert i. induction n as [|n IH]; intros i Hm; [done|]. rewrite !source_calls_S, (Hm i) by lia.
  f_equal. apply IH. intros k Hk. apply Hm. lia.
Qed.

Section Dispatch.
Context {hw : Type} `{ALut.Mmio hw}.
Implicit Types x : idev hw.

(** [x'] is [x] with the calls [l] made and another mask. *)
Record dispatched x (l : list (Z * Z)) x' : Prop := {
  ds_calls : calls x' = calls x ++ l;
  ds_cbs : cb_list (irq_info x') = cb_list (irq_info x);
  ds_ida : cb_ida (irq_info x') = cb_ida (irq_info x);
  ds_info : intr_info x' = intr_info x;
  ds_xdev : xdev x' = xdev x;
}.

Lemma dispatched_refl x : dispatched x [] x.
Proof. split; try done. by rewrite app_nil_r. Qed.
Lemma dispatched_trans x l x1 l1 x2 : dispatched x l x1 -> dispatched x1 l1 x2 -> dispatched x (l ++ l1) x2.
Proof. intros [] []. split; try congruence. rewrite ds_calls1, ds_calls0. by rewrite app_assoc. Qed.

Lemma cb_list_get (ls : list (list plx_intr_cb)) i :
  0 <= i < zlen ls -> aget ls i = Ret (default [] (ls !! Z.to_nat i)).
Proof. intros Hi. destruct (aget_total ls i Hi) as (l & -> & ->). done. Qed.

Lemma interrupt_loop_ok n x m i :
  0 <= i -> i + Z.of_nat n <= zlen (cb_list (irq_info x)) ->
  exists x', interrupt_loop n x m i = Ret x'
    /\ dispatched x (source_calls handler_calls (cb_list (irq_info x)) m i n) x'
    /\ forall k, 0 <= k -> Z.testbit (mask (irq_info x')) k
         = Z.testbit (mask (irq_info x)) k || ((i <=? k) && (k <? i + Z.of_nat n) && Z.testbit m k).
Proof.
  revert x i. induction n as [|n IH]; intros x i Hi Hn.
  { exists x. split; [done|]. split; [apply dispatched_refl|]. intros k Hk.
    destruct (Z.leb_spec i k), (Z.ltb_spec k (i + Z.of_nat 0)); try lia; by rewrite orb_false_r. }
  cbn [interrupt_loop]. rewrite source_calls_S. set (ls := cb_list (irq_info x)) in *. destruct (Z.testbit m i) eqn:Em.
  - rewrite cb_list_get by lia. run_bind.
    set (x1 := set_irq _ _).
    destruct (IH x1 (i + 1)) as (x' & -> & Hd & Hm).
    + lia.
    + cbn. fold ls. lia.
    + exists x'. split; [done|]. split.
      * eapply dispatched_trans; [|exact Hd]. by split.
      * intros k Hk. rewrite Hm by lia. cbn.
        rewrite Z.setbit_eqb by lia. destruct (Z.eqb_spec i k) as [->|Hne]; cbn [orb].
        { rewrite (proj2 (Z.leb_le k k)), (proj2 (Z.ltb_lt k (k + _))), Em by lia. by rewrite orb_true_r. }
        f_equal. destruct (Z.leb_spec (i + 1) k), (Z.leb_spec i k), (Z.ltb_spec k (i + 1 + Z.of_nat n)),
          (Z.ltb_spec k (i + Z.of_nat (S n))); done || lia.
  - run_bind. destruct (IH x (i + 1)) as (x' & -> & Hd & Hm); [lia|fold ls; lia|].
    exists x'. split; [done|]. split; [exact Hd|]. intros k Hk. rewrite Hm by lia. f_equal.
    destruct (Z.eqb_spec i k) as [->|Hne]; [rewrite Em, !andb_false_r; done|].
    destruct (Z.leb_spec (i + 1) k), (Z.leb_spec i k), (Z.ltb_spec k (i + 1 + Z.of_nat n)),
      (Z.ltb_spec k (i + Z.of_nat (S n))); done || lia.
Qed.

Lemma thread_loop_ok n x i :
  0 <= i -> i + Z.of_nat n <= zlen (cb_list (irq_info x)) ->
  exists x', thread_loop n x i = Ret x'
    /\ dispatched x (source_calls thread_calls (cb_list (irq_info x)) (mask (irq_info x)) i n) x'
    /\ forall k, 0 <= k -> Z.testbit (mask (irq_info x')) k
         = Z.testbit (mask (irq_info x)) k && negb ((i <=? k) && (k <? i + Z.of_nat n)).
Proof.
  revert x i. induction n as [|n IH]; intros x i Hi Hn.
  { exists x. split; [done|]. split; [apply dispatched_refl|]. intros k Hk.
    destruct (Z.leb_spec i k), (Z.ltb_spec k (i + Z.of_nat 0)); try lia; by rewrite andb_true_r. }
  cbn [thread_loop]. rewrite source_calls_S. set (ls := cb_list (irq_info x)) in *.
  destruct (Z.testbit (mask (irq_info x)) i) eqn:Em.
  - cbn [cb_list irq_info set_irq set_mask]. fold ls. rewrite cb_list_get by lia. run_bind. set (x1 := call_all _ _).
    destruct (IH x1 (i + 1)) as (x' & -> & Hd & Hm); [lia|cbn; fold ls; lia|].
    exists x'. split; [done|]. split.
    + eapply dispatched_trans; [|rewrite (source_calls_ext _ _ (mask (irq_info x)) (mask (irq_info x1))); [exact Hd|]].
      * by split.
      * intros k Hk. cbn. rewrite Z.clearbit_eqb. destruct (Z.eqb_spec i k); [lia|]. by rewrite andb_true_r.
    + intros k Hk. rewrite Hm by lia. cbn. rewrite Z.clearbit_eqb. destruct (Z.eqb_spec i k) as [->|Hne]; cbn [negb].
      { rewrite (proj2 (Z.leb_le k k)), (proj2 (Z.ltb_lt k (k + _))) by lia. by rewrite !andb_false_r. }
      rewrite andb_true_r. do 2 f_equal. destruct (Z.leb_spec (i + 1) k), (Z.leb_spec i k), (Z.ltb_spec k (i + 1 + Z.of_nat n)),
        (Z.ltb_spec k (i + Z.of_nat (S n))); done || lia.
  - run_bind. destruct (IH x (i + 1)) as (x' & -> & Hd & Hm); [lia|fold ls; lia|].
    exists x'. split; [done|]. split; [exact Hd|]. intros k Hk. rewrite Hm by lia.
    destruct (Z.eqb_spec i k) as [->|Hne]; [by rewrite Em|]. do 2 f_equal.
    destruct (Z.leb_spec (i + 1) k), (Z.leb_spec i k), (Z.ltb_spec k (i + 1 + Z.of_nat n)),
      (Z.ltb_spec k (i + Z.of_nat (S n))); done || lia.
Qed.
(** The handler on any acknowledged mask; [IRQ_NONE] is the case with no bit set. *)
Lemma source_calls_0 f ls i n : source_calls f ls 0 i n = [].
Proof. revert i. induction n as [|n IH]; intros i; [done|]. by rewrite source_calls_S, Z.bits_0, IH. Qed.

Definition SOURCES : nat := Z.to_nat PLX_NUM_DOORBELL.
Definition wf_lists x : Prop :=
  intr_info x = mkIinfo PLX_DOORBELL_IDX_START PLX_NUM_DOORBELL
  /\ zlen (cb_list (irq_info x)) = PLX_NUM_OFFSETS.

Lemma plx_interrupt_ok x m d :
  wf_lists x -> ALut.plx_ack_interrupt (xdev x) = (m, d) ->
  exists r x', plx_interrupt x = Ret (r, x') /\ dispatched (set_xdev x d)
      (source_calls handler_calls (cb_list (irq_info x)) m 0 SOURCES) x'
    /\ forall k, 0 <= k < PLX_NUM_DOORBELL ->
         Z.testbit (mask (irq_info x')) k = Z.testbit (Z.lor (mask (irq_info x)) m) k.
Proof.
  intros [Hi Hl] Ha. unfold plx_interrupt. rewrite Ha. case_if.
  - subst. exists IRQ_NONE, (set_xdev x d). rewrite source_calls_0, Z.lor_0_r.
    split; [done|]. split; [apply dispatched_refl|done].
  - cbn [intr_info set_xdev]. rewrite Hi. cbn [intr_start_idx intr_len].
    destruct (interrupt_loop_ok (Z.to_nat (PLX_NUM_DOORBELL - PLX_DOORBELL_IDX_START)) (set_xdev x d) m
                PLX_DOORBELL_IDX_START) as (x' & -> & Hd & Hm); [done|cbn; rewrite Hl; done|].
    run_bind. exists IRQ_WAKE_THREAD, x'. split; [done|]. split; [exact Hd|].
    intros k Hk. rewrite Hm, Z.lor_spec by lia. cbn [irq_info set_xdev]. f_equal.
    destruct (Z.leb_spec PLX_DOORBELL_IDX_START k), (Z.ltb_spec k
      (PLX_DOORBELL_IDX_START + Z.of_nat (Z.to_nat (PLX_NUM_DOORBELL - PLX_DOORBELL_IDX_START))));
      try done; exfalso; unfold PLX_DOORBELL_IDX_START, PLX_NUM_DOORBELL in *; lia.
Qed.

(** [n] interrupts, one after the other, with the masks they acknowledged. *)
Fixpoint interrupts (n : nat) x : outcome (list Z * idev hw) :=
  match n with
  | O => Ret ([], x)
  | S n =>
      let m := fst (ALut.plx_ack_interrupt (xdev x)) in
      '(_, x) ← plx_interrupt x;
      '(ms, x) ← interrupts n x;
      Ret (m :: ms, x)
  end.

Lemma interrupts_ok n x :
  wf_lists x ->
  exists ms x', interrupts n x = Ret (ms, x') /\ length ms = n /\ wf_lists x'
    /\ calls x' = calls x ++ mbind (fun m => source_calls handler_calls (cb_list (irq_info x)) m 0 SOURCES) ms
    /\ cb_list (irq_info x') = cb_list (irq_info x)
    /\ forall k, 0 <= k < PLX_NUM_DOORBELL ->
         Z.testbit (mask (irq_info x')) k = Z.testbit (foldl Z.lor (mask (irq_info x)) ms) k.
Proof.
  revert x. induction n as [|n IH]; intros x Hw.
  { exists [], x. rewrite app_nil_r. done. }
  cbn [interrupts]. destruct (ALut.plx_ack_interrupt (xdev x)) as [m d] eqn:Ha.
  destruct (plx_interrupt_ok x m d Hw Ha) as (r & x1 & -> & [Hc Hb _ Hi _] & Hm). run_bind.
  assert (wf_lists x1) as Hw1 by (destruct Hw; split; [by rewrite Hi|by rewrite Hb]).
  destruct (IH x1 Hw1) as (ms & x' & -> & Hlen & Hw' & Hc' & Hb' & Hm'). run_bind.
  exists (m :: ms), x'. split; [done|]. split; [cbn; by rewrite Hlen|]. split; [done|].
  cbn in Hc, Hb. split; [|split; [by rewrite Hb', Hb|]].
  - rewrite Hc', Hc, Hb. cbn [mbind list_bind]. by rewrite app_assoc.
  - intros k Hk. rewrite Hm' by done. cbn [foldl]. clear -Hm Hk.
    assert (forall a b, Z.testbit a k = Z.testbit b k ->
      Z.testbit (foldl Z.lor a ms) k = Z.testbit (foldl Z.lor b ms) k) as Hf.
    { induction ms as [|m' ms IH]; intros a b Hab; [done|]. cbn [foldl]. apply IH. by rewrite !Z.lor_spec, Hab. }
    apply Hf, Hm, Hk.
Qed.

(** C36. However many interrupts arrive before the thread runs, none is lost and none is
    served twice: each interrupt calls the handlers of exactly the doorbells that it
    acknowledged, in the order of the doorbells and of registration; the
    thread then calls the thread functions of exactly the doorbells that are pending,
    which are those of all the interrupts and those left from before; and nothing is
    pending afterwards. *)
Theorem plx_interrupt_dispatch x n :
  wf_lists x ->
  exists ms x1 x2, interrupts n x = Ret (ms, x1) /\ length ms = n
    /\ plx_thread_fn x1 = Ret (IRQ_HANDLED, x2)
    /\ calls x2 = calls x
         ++ mbind (fun m => source_calls handler_calls (cb_list (irq_info x)) m 0 SOURCES) ms
         ++ source_calls thread_calls (cb_list (irq_info x)) (foldl Z.lor (mask (irq_info x)) ms) 0 SOURCES
    /\ (forall k, 0 <= k < PLX_NUM_DOORBELL -> Z.testbit (mask (irq_info x2)) k = false)
    /\ cb_list (irq_info x2) = cb_list (irq_info x).
Proof.
  intros Hw. destruct (interrupts_ok n x Hw) as (ms & x1 & -> & Hlen & [Hi1 Hl1] & Hc & Hb & Hm).
  destruct (thread_loop_ok (Z.to_nat (PLX_NUM_DOORBELL - PLX_DOORBELL_IDX_START)) x1 PLX_DOORBELL_IDX_START)
    as (x2 & E & [Hc2 Hb2 _ _ _] & Hm2); [done|rewrite Hl1; done|].
  exists ms, x1, x2. split; [done|]. split; [done|].
  unfold plx_thread_fn. rewrite Hi1. cbn [intr_start_idx intr_len]. rewrite E. run_bind.
  split; [done|]. split; [|split].
  - rewrite Hc2, Hc, Hb, <- app_assoc. do 2 f_equal. apply source_calls_ext. intros k Hk. by apply Hm.
  - intros k Hk. rewrite Hm2 by lia.
    destruct (Z.leb_spec PLX_DOORBELL_IDX_START k), (Z.ltb_spec k
      (PLX_DOORBELL_IDX_START + Z.of_nat (Z.to_nat (PLX_NUM_DOORBELL - PLX_DOORBELL_IDX_START))));
      try apply andb_false_r; exfalso; unfold PLX_DOORBELL_IDX_START, PLX_NUM_DOORBELL in *; lia.
  - by rewrite Hb2.
Qed.
End Dispatch.

(** ** Registration *)

Definition ids (ls : list (list plx_intr_cb)) : list Z := cb_id <$> concat ls.

Section Registration.
Context {hw : Type} `{ALut.Mmio hw} `{Ida}.
Implicit Types x : idev hw.

(** The callbacks have distinct identifiers, and the allocator knows exactly them. *)
Record wf x : Prop := {
  wf_arrays : wf_lists x;
  wf_nodup : NoDup (ids (cb_list (irq_info x)));
  wf_ida : forall id, id ∈ cb_ida (irq_info x) <-> id ∈ ids (cb_list (irq_info x));
  wf_range : Forall (fun id => 0 <= id < 2 ^ 31) (ids (cb_list (irq_info x)));
}.

Lemma ids_app l1 l2 : ids (l1 ++ l2) = ids l1 ++ ids l2.
Proof. unfold ids. by rewrite concat_app, fmap_app. Qed.
Lemma ids_cons l ls : ids (l :: ls) = (cb_id <$> l) ++ ids ls.
Proof. unfold ids. cbn [concat]. by rewrite fmap_app. Qed.

(** Adding a callback to a list adds its identifier. *)
Lemma ids_add ls i l cb :
  ls !! i = Some l -> ids (<[i := l ++ [cb]]> ls) ≡ₚ cb_id cb :: ids ls.
Proof.
  intros Hl. rewrite <- (take_drop_middle ls i l Hl) at 2. rewrite insert_take_drop by by eapply lookup_lt_Some.
  rewrite !ids_app, !ids_cons, fmap_app. cbn. rewrite <- !(assoc _). cbn.
  rewrite (Permutation_app_comm (cb_id <$> l)). cbn. by rewrite <- Permutation_middle, (Permutation_app_comm _ (cb_id <$> l)).
Qed.

(** Deleting the callback of a known identifier. *)
Lemma del_cb_found l1 cb l2 :
  cb_id cb ∉ cb_id <$> l1 -> Forall (fun id => 0 <= id < 2 ^ 31) (cb_id <$> l1 ++ cb :: l2) ->
  del_cb (cb_id cb) (l1 ++ cb :: l2) = Some (l1 ++ l2).
Proof.
  induction l1 as [|c l1 IH]; cbn; intros Hn Hr; apply Forall_cons_1 in Hr as [Hc Hr].
  - rewrite u32_small by lia. by rewrite Z.eqb_refl.
  - rewrite u32_small by lia. apply not_elem_of_cons in Hn as [Hne Hn].
    destruct (Z.eqb_spec (cb_id c) (cb_id cb)); [congruence|]. by rewrite IH.
Qed.
Lemma del_cb_none id l :
  id ∉ cb_id <$> l -> Forall (fun id => 0 <= id < 2 ^ 31) (cb_id <$> l) -> del_cb id l = None.
Proof.
  induction l as [|c l IH]; cbn; intros Hn Hr; [done|]. apply Forall_cons_1 in Hr as [Hc Hr].
  apply not_elem_of_cons in Hn as [Hne Hn]. rewrite u32_small by lia.
  destruct (Z.eqb_spec (cb_id c) id); [congruence|]. by rewrite IH.
Qed.

Lemma elem_of_ids ls i l id : ls !! i = Some l -> id ∈ cb_id <$> l -> id ∈ ids ls.
Proof. intros Hl Hid. rewrite <- (take_drop_middle _ i l Hl), ids_app, ids_cons. set_solver. Qed.
Lemma wf_list_range x i l :
  wf x -> cb_list (irq_info x) !! i = Some l -> Forall (fun id => 0 <= id < 2 ^ 31) (cb_id <$> l).
Proof.
  intros Hw Hl. pose proof (wf_range _ Hw) as Hr.
  rewrite <- (take_drop_middle _ i l Hl), ids_app, ids_cons in Hr.
  by apply Forall_app in Hr as [_ [? _]%Forall_app].
Qed.
Lemma wf_list_other x i j l l1 cb l2 :
  wf x -> cb_list (irq_info x) !! i = Some (l1 ++ cb :: l2) -> cb_list (irq_info x) !! j = Some l ->
  j <> i -> cb_id cb ∉ cb_id <$> l.
Proof.
  intros Hw Hi Hj Hne Hin. pose proof (wf_nodup _ Hw) as Hn. clear Hw.
  remember (cb_list (irq_info x)) as ls eqn:Els. clear Els. revert i j Hi Hj Hne Hn.
  induction ls as [|l0 ls IH]; intros i j Hi Hj Hne Hn; [done|]. rewrite ids_cons in Hn.
  apply list.NoDup_app in Hn as (_ & Hd & Hn).
  destruct i as [|i], j as [|j]; cbn in Hi, Hj; [done| | |by eapply (IH i j); eauto].
  - injection Hi as ->. eapply (Hd (cb_id cb)); [rewrite fmap_app; set_solver|by eapply elem_of_ids].
  - injection Hj as ->. eapply (Hd (cb_id cb)); [done|]. eapply elem_of_ids; [exact Hi|]. rewrite fmap_app. set_solver.
Qed.

(** The loop passes over the lists that do not hold the callback. *)
Lemma unregister_loop_found n x i s l1 cb l2 :
  wf x -> cb_list (irq_info x) !! Z.to_nat s = Some (l1 ++ cb :: l2) -> 0 <= i <= s -> s < i + Z.of_nat n ->
  unregister_loop n x i (cb_id cb)
  = Ret (set_irq x (set_cbs (irq_info x) (cb_ida (irq_info x) ∖ {[cb_id cb]})
          (<[Z.to_nat s := l1 ++ l2]> (cb_list (irq_info x)))), s).
Proof.
  intros Hw Hs. assert (s < zlen (cb_list (irq_info x))) as Hlt.
  { apply lookup_lt_Some in Hs. unfold zlen. lia. }
  revert i. induction n as [|n IH]; intros i Hi Hn; [lia|]. cbn [unregister_loop].
  destruct (aget_total (cb_list (irq_info x)) i ltac:(lia)) as (l & -> & Hl). run_bind.
  destruct (decide (i = s)) as [->|Hne].
  - rewrite Hl in Hs. injection Hs as ->. rewrite del_cb_found.
    + rewrite aset_ret by lia. done.
    + pose proof (wf_nodup _ Hw) as Hnd. rewrite <- (take_drop_middle _ _ _ Hl), ids_app, ids_cons, fmap_app in Hnd.
      apply list.NoDup_app in Hnd as (_ & _ & Hnd). apply list.NoDup_app in Hnd as (Hnd & _ & _).
      apply list.NoDup_app in Hnd as (_ & Hd & _). intros Hin. apply (Hd _ Hin). set_solver.
    + by eapply wf_list_range.
  - rewrite del_cb_none; [apply IH; lia| |by eapply wf_list_range].
    eapply wf_list_other; eauto. lia.
Qed.

(** The state after a request that registered the callback [cb] on source [s]. *)
Definition registered x s cb : idev hw :=
  let q := irq_info x in
  set_irq x (mkIrq (next_avail_src q)
    (if msi_enabled x then Z.lor (plx_msi_map q) (u32 (Z.shiftl 1 s)) else plx_msi_map q)
    ({[cb_id cb]} ∪ cb_ida q)
    (<[Z.to_nat s := default [] (cb_list q !! Z.to_nat s) ++ [cb]]> (cb_list q)) (mask q)).

Lemma registered_wf x s cb :
  wf x -> 0 <= s < PLX_NUM_DOORBELL -> cb_id cb ∉ cb_ida (irq_info x) -> 0 <= cb_id cb < 2 ^ 31 ->
  wf (registered x s cb).
Proof.
  intros Hw Hs Hf Hr. destruct Hw as [[Hi Hlen] Hnd Hida Hrg].
  destruct (aget_total (cb_list (irq_info x)) s) as (l & _ & Hl).
  { rewrite Hlen. unfold PLX_NUM_DOORBELL, PLX_NUM_OFFSETS in *. lia. }
  pose proof (ids_add _ _ _ cb Hl) as Hp.
  split; unfold registered; cbn; rewrite ?Hl; cbn [default from_option id].
  - split; [done|]. cbn. rewrite ?Hl; by rewrite zlen_insert.
  - rewrite Hp. constructor; [|done]. by rewrite <- Hida.
  - intros id. rewrite Hp. set_solver.
  - rewrite Hp. by constructor.
Qed.

Lemma plx_request_threaded_irq_ok ok x h t data s :
  wf x -> 0 <= s < PLX_NUM_DOORBELL ->
  let id := ida_simple_get (cb_ida (irq_info x)) in
  plx_request_threaded_irq ok x h t data s
  = if negb ok then Ret (x, inr (- ENOMEM)) else if id <? 0 then Ret (x, inr id)
    else Ret (registered x s (mkIcb h t data id), inl (u64 (MK_COOKIE 0 id))).
Proof.
  intros Hw Hs id. destruct (wf_arrays _ Hw) as [Hi Hlen].
  unfold plx_request_threaded_irq, plx_map_src_to_offset. rewrite Hi. cbn [intr_len intr_start_idx].
  if_false. unfold PLX_DOORBELL_IDX_START, PLX_NUM_DOORBELL, PLX_NUM_OFFSETS in *.
  rewrite Z.add_0_l, u16_small by lia. if_false. unfold plx_register_intr_callback.
  destruct ok; cbn [negb]; [|done]. fold id. case_if; [done|].
  assert (u8 s = s) as -> by (apply wrap_small; split; lia).
  destruct (aget_total (cb_list (irq_info x)) s) as (l & -> & Hl); [lia|]. run_bind. rewrite aset_ret by lia. run_bind.
  do 2 f_equal. unfold registered. rewrite Hl. cbn [default from_option]. by destruct (msi_enabled x) eqn:Em; cbn; rewrite Em.
Qed.

(** The cookie of an identifier below 2^15 names it. *)
Lemma cookie_parts id :
  0 <= id < 2 ^ 15 -> u32 (GET_OFFSET (u64 (MK_COOKIE 0 id))) = id /\ u32 (GET_ENTRY (u64 (MK_COOKIE 0 id))) = 0.
Proof.
  intros Hid. unfold MK_COOKIE, GET_OFFSET, GET_ENTRY, COOKIE_ID_SHIFT. rewrite Z.lor_0_l, Z.shiftl_mul_pow2 by lia.
  rewrite s32_small by lia. rewrite u64_small by lia. split.
  - rewrite Z.shiftr_div_pow2, Z.div_mul by lia. apply u32_small. lia.
  - change 0xFFFF with (2 ^ 16 - 1). rewrite land_mask by lia. by rewrite Z.mod_mul.
Qed.

Lemma unregistered_wf x s l1 cb l2 m :
  wf x -> cb_list (irq_info x) !! Z.to_nat s = Some (l1 ++ cb :: l2) ->
  wf (set_irq x (mkIrq (next_avail_src (irq_info x)) m (cb_ida (irq_info x) ∖ {[cb_id cb]})
       (<[Z.to_nat s := l1 ++ l2]> (cb_list (irq_info x))) (mask (irq_info x)))).
Proof.
  intros [[Hi Hlen] Hnd Hida Hrg] Hl.
  assert (ids (cb_list (irq_info x)) ≡ₚ cb_id cb :: ids (<[Z.to_nat s := l1 ++ l2]> (cb_list (irq_info x)))) as Hp.
  { rewrite <- (take_drop_middle _ _ _ Hl) at 1. rewrite insert_take_drop by by eapply lookup_lt_Some.
    rewrite !ids_app, !ids_cons, !fmap_app, fmap_cons.
    rewrite <- (Permutation_middle (cb_id <$> l1)). cbn [app]. by rewrite <- Permutation_middle. }
  rewrite Hp in Hnd, Hrg. inversion_clear Hnd as [|? ? Hn Hnd']. inversion_clear Hrg as [|? ? _ Hrg'].
  split; cbn; [|done| |done].
  - split; [done|]. cbn. by rewrite zlen_insert.
  - intros id. rewrite elem_of_difference, elem_of_singleton, Hida, Hp, elem_of_cons.
    destruct (decide (id = cb_id cb)) as [->|]; [|naive_solver]. naive_solver.
Qed.

(** Freeing the cookie of a registered callback removes that callback and its
    identifier, and nothing else. *)
Lemma plx_free_irq_ok x s l1 cb l2 :
  wf x -> 0 <= s < PLX_NUM_OFFSETS -> cb_list (irq_info x) !! Z.to_nat s = Some (l1 ++ cb :: l2) ->
  cb_id cb < 2 ^ 15 ->
  exists x', plx_free_irq x (u64 (MK_COOKIE 0 (cb_id cb))) = Ret x' /\ wf x'
    /\ cb_list (irq_info x') = <[Z.to_nat s := l1 ++ l2]> (cb_list (irq_info x))
    /\ cb_ida (irq_info x') = cb_ida (irq_info x) ∖ {[cb_id cb]}
    /\ calls x' = calls x /\ mask (irq_info x') = mask (irq_info x).
Proof.
  intros Hw Hs Hl Hid. pose proof (wf_list_range _ _ _ Hw Hl) as Hr. rewrite fmap_app in Hr.
  apply Forall_app in Hr as [_ Hr]. apply Forall_cons_1 in Hr as [Hr _].
  destruct (cookie_parts (cb_id cb) ltac:(lia)) as [Ho He].
  unfold plx_free_irq, plx_unregister_intr_callback. rewrite Ho, He.
  rewrite (unregister_loop_found _ x 0 s l1 cb l2) by (done || lia). run_bind.
  if_false. destruct (msi_enabled x) eqn:Em; cbn [msi_enabled set_irq]; rewrite Em; cbn [Z.eqb];
    (eexists; split; [done|]; split; [exact (unregistered_wf x s l1 cb l2 _ Hw Hl)|done]).
Qed.

(** Requesting an interrupt on a doorbell and freeing the cookie: the request puts
    the callback at the end of the list of its doorbell and touches no other list;
    freeing the cookie gives back the callbacks and identifiers that were there
    before; the invariant of the callback tables holds throughout.  A request fails
    only for lack of memory or identifiers and then changes nothing. *)
Theorem plx_irq_roundtrip ok x h t data s :
  wf x -> 0 <= s < PLX_NUM_DOORBELL -> ida_simple_get (cb_ida (irq_info x)) < 2 ^ 15 ->
  exists x1 r, plx_request_threaded_irq ok x h t data s = Ret (x1, r) /\ wf x1
    /\ match r with
       | inr e => x1 = x /\ e < 0
       | inl cookie => exists l cb x2, cb_list (irq_info x) !! Z.to_nat s = Some l
           /\ cb = mkIcb h t data (cb_id cb)
           /\ cb_list (irq_info x1) = <[Z.to_nat s := l ++ [cb]]> (cb_list (irq_info x))
           /\ plx_free_irq x1 cookie = Ret x2 /\ wf x2
           /\ cb_list (irq_info x2) = cb_list (irq_info x) /\ cb_ida (irq_info x2) = cb_ida (irq_info x)
       end.
Proof.
  intros Hw Hs Hid. rewrite plx_request_threaded_irq_ok by done. set (i := ida_simple_get _) in *.
  destruct ok; cbn [negb]; [|by eexists _, (inr (- ENOMEM))]. case_if; [by eexists _, (inr i)|].
  assert (i ∉ cb_ida (irq_info x)) as Hf by (apply ida_fresh; fold i; lia).
  set (cb := mkIcb h t data i). destruct (wf_arrays _ Hw) as [_ Hlen].
  destruct (aget_total (cb_list (irq_info x)) s) as (l & _ & Hl).
  { rewrite Hlen. unfold PLX_NUM_DOORBELL, PLX_NUM_OFFSETS in *. lia. }
  assert (wf (registered x s cb)) as Hw1 by (apply registered_wf; [done..|cbn; lia]).
  eexists _, (inl _). split; [done|]. split; [done|].
  assert (cb_list (irq_info (registered x s cb)) = <[Z.to_nat s := l ++ [cb]]> (cb_list (irq_info x))) as Hc
    by (unfold registered; cbn; by rewrite Hl).
  destruct (plx_free_irq_ok (registered x s cb) s l cb []) as (x2 & Ef & Hw2 & Hc2 & Hi2 & _).
  - done.
  - unfold PLX_NUM_DOORBELL, PLX_NUM_OFFSETS in *. lia.
  - rewrite Hc. by rewrite list_lookup_insert_eq by by eapply lookup_lt_Some.
  - done.
  - exists l, cb, x2. split; [done|]. split; [done|]. split; [done|]. split; [exact Ef|]. split; [done|]. split.
    + rewrite Hc2, Hc, list_insert_insert_eq, app_nil_r. by apply list_insert_id.
    + rewrite Hi2. unfold registered. cbn. set_solver.
Qed.

(** [NULL] is the cookie of the identifier 0: freeing an interrupt that was never
    requested, as the error paths of [vcablk_disk_create] do (they reach
    [vcablk_disk_destroy] with a doorbell but with [bio_done_irq == NULL]), removes
    the callback of whoever was given that identifier, in whatever list it is. *)
Theorem plx_free_irq_null x s l1 cb l2 :
  wf x -> 0 <= s < PLX_NUM_OFFSETS -> cb_list (irq_info x) !! Z.to_nat s = Some (l1 ++ cb :: l2) -> cb_id cb = 0 ->
  exists x', plx_free_irq x 0 = Ret x' /\ wf x'
    /\ cb_list (irq_info x') = <[Z.to_nat s := l1 ++ l2]> (cb_list (irq_info x)).
Proof.
  intros Hw Hs Hl Hz. destruct (plx_free_irq_ok x s l1 cb l2 Hw Hs Hl ltac:(lia)) as (x' & E & Hw' & Hc & _).
  rewrite Hz in E. exists x'. split; [exact E|]. done.
Qed.

(** ** Setting up and releasing *)

(** Setting up the interrupts: on success the tables are empty and consistent, the
    interrupt line has its handler and the doorbells are unmasked.  When memory or
    the line is refused nothing is left behind.  But when only the affinity of the
    line cannot be set, the tables are freed while the handler stays on the
    line, and the next interrupt of a doorbell reads the freed tables. *)
Theorem plx_setup_interrupts_dangling e x :
  line x = false -> mask (irq_info x) = 0 ->
  exists x' rc, plx_setup_interrupts e (plx_intr_init x) = (x', rc) /\
  if negb (kmalloc_ok e) then rc = - ENOMEM /\ line x' = false
  else if negb (request_rc e =? 0) then rc = request_rc e /\ line x' = false
  else if hint_rc e =? 0 then rc = 0 /\ line x' = true /\ wf x'
    /\ xdev x' = ALut.plx_enable_interrupts (xdev x)
    /\ cb_list (irq_info x') = replicate (Z.to_nat PLX_NUM_OFFSETS) []
  else rc = hint_rc e /\ line x' = true
    /\ forall k, 0 <= k < PLX_NUM_DOORBELL ->
       Z.testbit (fst (ALut.plx_ack_interrupt (xdev x'))) k = true -> plx_interrupt x' = Oob.
Proof.
  intros Hl Hm. unfold plx_setup_interrupts, plx_setup_intx, plx_setup_callbacks.
  destruct (kmalloc_ok e); cbn [negb]; [|by eexists _, _].
  rewrite Z.eqb_refl. cbn [negb]. destruct (Z.eqb_spec (request_rc e) 0) as [Hr|Hr]; cbn [negb].
  2:{ rewrite (proj2 (Z.eqb_neq _ _) Hr). cbn [negb]. by eexists _, _. }
  destruct (Z.eqb_spec (hint_rc e) 0) as [Hh|Hh]; cbn [negb].
  - eexists _, _. split; [done|]. split; [done|]. split; [done|]. split; [|done].
    split; cbn; [split; [done|]| | |]; cbn; rewrite ?zlen_replicate; unfold ids;
      [done| | |]; change (concat (replicate _ _)) with (@nil plx_intr_cb); cbn; [constructor|set_solver|constructor].
  - rewrite (proj2 (Z.eqb_neq _ _) Hh). cbn [negb fst]. eexists _, _. split; [done|]. split; [done|]. split; [done|].
    intros k Hk Hb. unfold plx_interrupt. cbn [xdev set_irq set_line plx_intr_init set_info plx_release_callbacks fst] in *.
    destruct (ALut.plx_ack_interrupt (xdev x)) as [m d]. cbn in Hb. case_if.
    { subst m. by rewrite Z.bits_0 in Hb. }
    cbn [intr_info set_xdev set_irq set_line set_info]. cbn [intr_start_idx intr_len].
    enough (forall n y i, cb_list (irq_info y) = [] -> 0 <= i <= k -> k < i + Z.of_nat n -> interrupt_loop n y m i = Oob) as Hoob
      by (rewrite Hoob; [done|cbn|cbn|cbn]; unfold PLX_NUM_DOORBELL, PLX_DOORBELL_IDX_START in *; (done || lia)).
    clear - Hb. induction n as [|n IH]; intros y i Hy Hi Hn; [lia|]. cbn [interrupt_loop].
    destruct (Z.testbit m i) eqn:Ei.
    + rewrite Hy. unfold aget. by case_if.
    + run_bind. apply IH; [done| |lia]. destruct (decide (i = k)) as [->|]; [congruence|lia].
Qed.

(** Releasing the callbacks stops at the first empty list: every callback in a list
    behind it is leaked. *)
Theorem plx_release_callbacks_leaks x i j l cb :
  cb_list (irq_info x) !! i = Some [] -> (i < j)%nat -> cb_list (irq_info x) !! j = Some l -> cb ∈ l ->
  cb ∈ snd (plx_release_callbacks x).
Proof.
  unfold plx_release_callbacks. cbn [snd]. generalize (cb_list (irq_info x)). intros ls. clear x.
  revert i j. induction ls as [|l0 ls IH]; intros i j Hi Hij Hj Hcb; [done|]. destruct j as [|j]; [lia|]. cbn in Hj.
  destruct l0 as [|c l0]; cbn [release_loop].
  - apply list_elem_of_In, in_concat. exists l. split; [|by apply list_elem_of_In].
    apply list_elem_of_In. by eapply list_elem_of_lookup_2.
  - destruct i as [|i]; [done|]. apply (IH i j); [done|lia|done|done].
Qed.

(** ** Doorbells *)

Fixpoint next_dbs (n : nat) x : list Z :=
  match n with O => [] | S n => let '(x, db) := plx_next_db x in db :: next_dbs n x end.

(** Doorbells are handed out in turn, 1 to 15; doorbell 0, of the boot protocol, never. *)
Theorem plx_next_db_round_robin n x :
  intr_info x = mkIinfo PLX_DOORBELL_IDX_START PLX_NUM_DOORBELL ->
  0 <= next_avail_src (irq_info x) -> next_avail_src (irq_info x) + Z.of_nat n < 2 ^ 31 ->
  next_dbs n x = (fun i => (next_avail_src (irq_info x) + i) mod 15 + 1) <$> seqZ 0 (Z.of_nat n).
Proof.
  revert x. induction n as [|n IH]; intros x Hi Hz Hn; [done|]. cbn [next_dbs plx_next_db].
  rewrite seqZ_cons by lia. cbn [fmap list_fmap]. rewrite Hi, Z.add_0_r. cbn [intr_len]. f_equal.
  { f_equal. apply Z.rem_mod_nonneg; [done|reflexivity]. }
  rewrite IH; cbn; rewrite ?s32_small by lia; [|done|lia|lia].
  replace (Z.pred (Z.of_nat (S n))) with (Z.of_nat n) by lia.
  change (Z.succ 0) with (1 + 0). rewrite <- (fmap_add_seqZ 1 0).
  rewrite <- list_fmap_compose. apply list_fmap_ext. intros k i Hk. cbn. do 2 f_equal. lia.
Qed.
End Registration.

(** ** Witnesses *)

(** The smallest identifier below a bound. *)
Definition ida_first (s : gset Z) : Z := default (- ENOSPC) (head (filter (fun i => i ∉ s) (seqZ 0 1024))).
#[local] Instance ida_bitmap : Ida.
Proof.
  assert (forall (s : gset Z) i, head (filter (fun i => i ∉ s) (seqZ 0 1024)) = Some i -> i ∉ s /\ i ∈ seqZ 0 1024) as Hh.
  { intros s i Hi. apply (list_elem_of_filter (fun i => i ∉ s)). destruct (filter _ _) as [|j l]; [done|]. injection Hi as ->. left. }
  refine {| ida_simple_get := ida_first |}; intros s; unfold ida_first; destruct (head _) as [i|] eqn:E; cbn; try done.
  - intros _. by apply Hh.
  - apply Hh in E as [_ E]. apply elem_of_seqZ in E. lia.
Defined.

(** A device whose doorbell register shows one mask after the other. *)
#[local] Instance doorbells : ALut.Mmio (list Z) := {
  ioread32 h o := (default 0 (head h), tail h);
  iowrite32 h v o := h;
}.
Definition demo_xdev : ALut.plx_device (list Z) :=
  ALut.mkDev false 0 0x3e000 0x3f000 true true 2 0x38000 0 0x10 0 0 (ALut.a_lut_manager ALut.demo_dev) [6; 0; 5; 4].
Definition demo_cb (f : Z) (id : Z) : plx_intr_cb := mkIcb (Some f) (Some (f + 100)) (f + 1000) id.
(** Two callbacks share doorbell 2, one of them with the identifier 0. *)
Definition demo_idev : idev (list Z) :=
  mkIdev demo_xdev (mkIinfo PLX_DOORBELL_IDX_START PLX_NUM_DOORBELL)
    (mkIrq 3 0 {[0; 1; 2]} ([[]; [demo_cb 7 1]; [demo_cb 8 0; demo_cb 9 2]] ++ replicate 29 []) 0)
    false true [].

Lemma demo_intr_wf : wf demo_idev.
Proof.
  split.
  - by vm_compute.
  - vm_compute. apply (bool_decide_unpack _). by vm_compute.
  - intros id. change (ids (cb_list (irq_info demo_idev))) with [1; 0; 2].
    change (cb_ida (irq_info demo_idev)) with ({[0; 1; 2]} : gset Z). set_solver.
  - change (ids (cb_list (irq_info demo_idev))) with [1; 0; 2]. repeat constructor; lia.
Qed.

(** Three interrupts, one of them spurious, before the thread runs. *)
Lemma plx_interrupt_dispatch_witness :
  (exists ms x1 x2, interrupts 3 demo_idev = Ret (ms, x1) /\ length ms = 3%nat
    /\ plx_thread_fn x1 = Ret (IRQ_HANDLED, x2)
    /\ calls x2 = calls demo_idev
         ++ mbind (fun m => source_calls handler_calls (cb_list (irq_info demo_idev)) m 0 SOURCES) ms
         ++ source_calls thread_calls (cb_list (irq_info demo_idev)) (foldl Z.lor (mask (irq_info demo_idev)) ms) 0 SOURCES
    /\ (forall k, 0 <= k < PLX_NUM_DOORBELL -> Z.testbit (mask (irq_info x2)) k = false)
    /\ cb_list (irq_info x2) = cb_list (irq_info demo_idev))
  /\ match interrupts 3 demo_idev with
     | Ret (_, x1) => match plx_thread_fn x1 with
                      | Ret (_, x2) => calls x2 = [(7, 1007); (8, 1008); (9, 1009); (8, 1008); (9, 1009);
                                                   (107, 1007); (108, 1008); (109, 1009)]
                      | _ => False
                      end
     | _ => False
     end.
Proof. split; [apply plx_interrupt_dispatch; apply demo_intr_wf|by vm_compute]. Defined.

Lemma plx_irq_roundtrip_witness :
  exists x1 r, plx_request_threaded_irq true demo_idev None (Some 5) 77 4 = Ret (x1, r) /\ wf x1
    /\ match r with
       | inr e => x1 = demo_idev /\ e < 0
       | inl cookie => exists l cb x2, cb_list (irq_info demo_idev) !! Z.to_nat 4 = Some l
           /\ cb = mkIcb None (Some 5) 77 (cb_id cb)
           /\ cb_list (irq_info x1) = <[Z.to_nat 4 := l ++ [cb]]> (cb_list (irq_info demo_idev))
           /\ plx_free_irq x1 cookie = Ret x2 /\ wf x2
           /\ cb_list (irq_info x2) = cb_list (irq_info demo_idev) /\ cb_ida (irq_info x2) = cb_ida (irq_info demo_idev)
       end.
Proof. apply plx_irq_roundtrip; [apply demo_intr_wf|done|by vm_compute]. Defined.

Lemma plx_free_irq_null_witness :
  exists x', plx_free_irq demo_idev 0 = Ret x' /\ wf x'
    /\ cb_list (irq_info x') = <[Z.to_nat 2 := [demo_cb 9 2]]> (cb_list (irq_info demo_idev)).
Proof. apply (plx_free_irq_null demo_idev 2 [] (demo_cb 8 0) [demo_cb 9 2]); [apply demo_intr_wf|done|done|done]. Defined.

Lemma plx_setup_interrupts_dangling_witness :
  exists x' rc, plx_setup_interrupts (mkEnv true 0 (- EINVAL)) (plx_intr_init (set_line demo_idev false)) = (x', rc)
    /\ rc = - EINVAL /\ line x' = true
    /\ forall k, 0 <= k < PLX_NUM_DOORBELL ->
       Z.testbit (fst (ALut.plx_ack_interrupt (xdev x'))) k = true -> plx_interrupt x' = Oob.
Proof. apply (plx_setup_interrupts_dangling (mkEnv true 0 (- EINVAL)) (set_line demo_idev false)); done. Defined.

Lemma plx_release_callbacks_leaks_witness : demo_cb 7 1 ∈ snd (plx_release_callbacks demo_idev).
Proof. apply (plx_release_callbacks_leaks demo_idev 0 1 [demo_cb 7 1]); [done|lia|done|left]. Defined.

Lemma plx_next_db_round_robin_witness : next_dbs 16 demo_idev = [4; 5; 6; 7; 8; 9; 10; 11; 12; 13; 14; 15; 1; 2; 3; 4].
Proof. rewrite plx_next_db_round_robin; [by vm_compute|done|done|by vm_compute]. Defined.

End Intr.
