(* ===== verification/BlkFrontCtl.v ===== *)
(** * The block device frontend: control

    [src/modules/vca/blockio/vcablk/vcablk.c] and the life of a disk in
    [vcablk/vcablk_disk.c]: the commands the backend leaves in the device page, the
    rings and disks created for them, and the answers.  The device page is the memory
    both sides share.  The kernel resources taken and given back are kept in [fheld];
    what the kernel grants is an argument ([cenv]). *)

From Stdlib Require Import ZArith Lia.
From stdpp Require Import base sets list numbers option tactics.
From S2P Require Import Prelude Pool BlkFrontend BlkMedia BlkBackend BlkLifecycle.
#[local] Open Scope Z_scope.

(** ** The device page ([vcablk_common.h]) *)
Module DevPage.

Definition CMD_NONE : Z := 0.
Definition CMD_CREATE : Z := 1.
Definition CMD_RUN : Z := 2.
Definition CMD_STOP_NORMAL : Z := 3.
Definition CMD_STOP_FORCE : Z := 4.
Definition CMD_DESTROY : Z := 5.
Definition DESTROY_DEV_PAGE_INIT : Z := 1.
Definition DESTROY_DEV_PAGE_END : Z := 2.
Definition VCA_BLK_VERSION : Z := 4.
(** [sizeof (struct vcablk_dev_page)] and [sizeof (struct vcablk_device_ctrl)]. *)
Definition SIZEOF_DEV_PAGE : Z := 304.
Definition SIZEOF_DEVICE_CTRL : Z := 72.

Record vcablk_device_response := mkResp {
  command_ack : Z;
  status : Z;
  r_done_db : Z;
  r_request_ring : Z;
  r_request_ring_size : Z;
  r_completion_ring : Z;
  r_completion_ring_size : Z;
}.

Record vcablk_device_ctrl := mkCtrl {
  command : Z;
  c_size_bytes : Z;
  c_read_only : Z;
  c_request_db : Z;
  response : vcablk_device_response;
}.

Record vcablk_dev_page := mkPage {
  version_frontend : Z;
  dev_page_size : Z;
  reinit_dev_page : Z;
  valid_magic_bcknd : Z;
  flags_events : Z;
  num_devices : Z;
  destroy_devpage : Z;
  notify_backend_db : Z;
  notify_frontend_db : Z;
  devs : list vcablk_device_ctrl;
}.

Definition set_devs (p : vcablk_dev_page) v : vcablk_dev_page :=
  mkPage (version_frontend p) (dev_page_size p) (reinit_dev_page p) (valid_magic_bcknd p) (flags_events p)
    (num_devices p) (destroy_devpage p) (notify_backend_db p) (notify_frontend_db p) v.
Definition set_destroy (p : vcablk_dev_page) v : vcablk_dev_page :=
  mkPage (version_frontend p) (dev_page_size p) (reinit_dev_page p) (valid_magic_bcknd p) (flags_events p)
    (num_devices p) v (notify_backend_db p) (notify_frontend_db p) (devs p).
Definition set_num (p : vcablk_dev_page) v : vcablk_dev_page :=
  mkPage (version_frontend p) (dev_page_size p) (reinit_dev_page p) (valid_magic_bcknd p) (flags_events p)
    v (destroy_devpage p) (notify_backend_db p) (notify_frontend_db p) (devs p).
Definition set_flags (p : vcablk_dev_page) v : vcablk_dev_page :=
  mkPage (version_frontend p) (dev_page_size p) (reinit_dev_page p) (valid_magic_bcknd p) v
    (num_devices p) (destroy_devpage p) (notify_backend_db p) (notify_frontend_db p) (devs p).
Definition set_notify (p : vcablk_dev_page) v : vcablk_dev_page :=
  mkPage (version_frontend p) (dev_page_size p) (reinit_dev_page p) (valid_magic_bcknd p) (flags_events p)
    (num_devices p) (destroy_devpage p) (notify_backend_db p) v (devs p).
Definition set_backend (p : vcablk_dev_page) num db magic : vcablk_dev_page :=
  mkPage (version_frontend p) (dev_page_size p) 0 magic (flags_events p)
    num (destroy_devpage p) db (notify_frontend_db p) (devs p).

Definition set_command (c : vcablk_device_ctrl) v : vcablk_device_ctrl :=
  mkCtrl v (c_size_bytes c) (c_read_only c) (c_request_db c) (response c).
Definition set_response (c : vcablk_device_ctrl) v : vcablk_device_ctrl :=
  mkCtrl (command c) (c_size_bytes c) (c_read_only c) (c_request_db c) v.
Definition set_ack (r : vcablk_device_response) st ack : vcablk_device_response :=
  mkResp ack st (r_done_db r) (r_request_ring r) (r_request_ring_size r) (r_completion_ring r)
    (r_completion_ring_size r).
Definition set_resp_rings (r : vcablk_device_response) rq rqs cp cps db : vcablk_device_response :=
  mkResp (command_ack r) (status r) db rq rqs cp cps.

(** Writing to the entry [i] of the page. *)
Definition upd_dev (p : vcablk_dev_page) (i : Z) (f : vcablk_device_ctrl -> vcablk_device_ctrl)
    : outcome vcablk_dev_page :=
  c ← aget (devs p) i;
  l ← aset (devs p) i (f c);
  Ret (set_devs p l).

End DevPage.

Module BlkFrontCtl.
Import DevPage.

Definition ENOTBLK : Z := 15.
Definition SECTOR_SIZE : Z := 512.
Definition VCABLK_BIO_CTX_POOL_SIZE : Z := 32.
Definition VCABLK_QUEUE_REQUESTS_NUMS : Z := 1024.
Definition VCABLK_QUEUE_ACK_NUMS : Z := VCABLK_BIO_CTX_POOL_SIZE.
(** [sizeof] of the structures of [vcablk_common.h]. *)
Definition SIZEOF_REQUEST : Z := 32.
Definition SIZEOF_COMPLETION : Z := 8.
Definition SIZEOF_RING : Z := 24.

(** What the kernel has given; a disk is known by its address. *)
Inductive fres :=
| FDisk (p : Z)
| FPool (p : Z)
| FIrq (cookie : Z)
| FTags (p : Z)
| FGdisk (p : Z)
| FThread (p : Z)
| FMem (va : Z)
| FMap (da size : Z)
| FArray
| FDev.
#[export] Instance fres_eq_dec : EqDecision fres.
Proof. solve_decision. Defined.

(** ** Rings *)

(** A ring in the memory of the frontend, at [r_va]. *)
Record fring := mkRing {
  r_va : Z;
  num_elems : Z;
  elem_size : Z;
  last_add : Z;
  last_used : Z;
  size_alloc : Z;
  dma_addr : Z;
}.

(** ** Disks *)

Record vcablk_disk := mkDisk {
  self : Z;
  size_bytes : Z;
  sectors_num : Z;
  read_only : bool;
  dev_id : Z;
  ref_cnt : Z;
  gdisk : bool;
  gdisk_started : bool;
  tag_set_initialized : bool;
  request_thread : bool;
  bio_done_db : Z;
  bio_done_irq : Z;
  request_db : Z;
  request_ring : option fring;
  completion_ring : option fring;
  bio_context_pool : option (Pool.vcablk_pool unit);
}.

Record vcablk_dev := mkFdev {
  has_pages : bool;
  probe_db : Z;
  probe_db_cookie : Z;
  max_dev : Z;
  vcablk_disks : option (list (option vcablk_disk));
  f2b_db : Z;
}.

(** The frontend, the page it shares with the backend, the resources it holds and
    the doorbells it has rung. *)
Record fsys := mkFsys {
  fdev : vcablk_dev;
  page : vcablk_dev_page;
  fheld : list fres;
  rung : list Z;
}.

(** What the kernel answers while a command is handled.  An allocation for a ring
    fails, or gives memory that cannot be mapped, or memory and its address. *)
Inductive alloc := NoMem | NoMap (err : Z) | Got (va da : Z).
Record cenv := mkCenv {
  e_req : alloc;
  e_comp : alloc;
  e_db : Z;
  e_disk : option Z;
  e_pool : bool;
  e_irq : option Z;
  e_tags : Z;
  e_gdisk : Z;
  e_thread : bool;
  e_add : Z;
}.

Definition set_fdev s v : fsys := mkFsys v (page s) (fheld s) (rung s).
Definition set_page s v : fsys := mkFsys (fdev s) v (fheld s) (rung s).
Definition set_fheld s v : fsys := mkFsys (fdev s) (page s) v (rung s).
Definition set_rung s v : fsys := mkFsys (fdev s) (page s) (fheld s) v.
Definition take_res s r : fsys := set_fheld s (r :: fheld s).
Definition free_res s r : fsys := set_fheld s (release r (fheld s)).
Definition set_disks (f : vcablk_dev) v : vcablk_dev :=
  mkFdev (has_pages f) (probe_db f) (probe_db_cookie f) (max_dev f) v (f2b_db f).
Definition send_intr s db : fsys := set_rung s (rung s ++ [db]).

Definition vcablk_alloc_buff s (a : alloc) (size : Z) : fsys * (Z * Z + Z) :=
  match a with
  | NoMem => (s, inr (- ENOMEM))
  | NoMap err => (s, inr err)
  | Got va da => (take_res (take_res s (FMem va)) (FMap da size), inl (va, da))
  end.

Definition vcablk_dealloc_buff s (size va da : Z) : fsys :=
  free_res (free_res s (FMap da size)) (FMem va).

Definition init_ring s (a : alloc) (size elem_size queue_size : Z) : fsys * (fring + Z) :=
  if negb (BlkLifecycle.is_power_of_2 queue_size) then (s, inr (- EPERM))
  else
    let '(s, r) := vcablk_alloc_buff s a size in
    match r with
    | inr err => (s, inr err)
    | inl (va, da) => (s, inl (mkRing va (u16 queue_size) elem_size 0 0 size da))
    end.

(** [None] is [NULL]. *)
Definition destroy_ring s (r : option fring) : fsys :=
  match r with
  | Some r => vcablk_dealloc_buff s (size_alloc r) (r_va r) (dma_addr r)
  | None => s
  end.

Definition init_request_ring s a (queue_size : Z) : fsys * (fring + Z) :=
  init_ring s a (u32 (SIZEOF_RING + queue_size * SIZEOF_REQUEST)) SIZEOF_REQUEST queue_size.
Definition init_completion_ring s a (queue_size : Z) : fsys * (fring + Z) :=
  init_ring s a (u32 (SIZEOF_RING + queue_size * SIZEOF_COMPLETION)) SIZEOF_COMPLETION queue_size.

Definition set_gdisk (d : vcablk_disk) g st t : vcablk_disk :=
  mkDisk (self d) (size_bytes d) (sectors_num d) (read_only d) (dev_id d) (ref_cnt d) g st t (request_thread d)
    (bio_done_db d) (bio_done_irq d) (request_db d) (request_ring d) (completion_ring d) (bio_context_pool d).
Definition set_ref (d : vcablk_disk) v : vcablk_disk :=
  mkDisk (self d) (size_bytes d) (sectors_num d) (read_only d) (dev_id d) v (gdisk d) (gdisk_started d)
    (tag_set_initialized d) (request_thread d)
    (bio_done_db d) (bio_done_irq d) (request_db d) (request_ring d) (completion_ring d) (bio_context_pool d).

(** A user opens or releases the disk; the counter is a [short]. *)
Definition vcablk_disk_open (d : vcablk_disk) : vcablk_disk := set_ref d (sint 16 (ref_cnt d + 1)).
Definition vcablk_disk_release (d : vcablk_disk) : vcablk_disk := set_ref d (sint 16 (ref_cnt d - 1)).

(** [vcablk_pool_foreach_used] finds an element. *)
Definition pool_used {A} (p : Pool.vcablk_pool A) : bool :=
  existsb (fun v => v =? Pool.VCABLK_POOL_USED) (Pool.next_free p).

(** The disk is [None] for [NULL].  A context that is still in use stops the kernel. *)
Definition vcablk_disk_stop s (dev : option vcablk_disk) (force : bool) : outcome (fsys * option vcablk_disk * Z) :=
  match dev with
  | None => Ret (s, None, 0)
  | Some d =>
      if negb (gdisk d) then Ret (s, Some d, 0)
      else if negb force && (0 <? ref_cnt d) then Ret (s, Some d, - EBUSY)
      else
        let d := set_gdisk d true false (tag_set_initialized d) in
        _ ← bug_on match bio_context_pool d with Some p => pool_used p | None => false end;
        let s := free_res s (FGdisk (self d)) in
        let s := if tag_set_initialized d then free_res s (FTags (self d)) else s in
        Ret (s, Some (set_gdisk d false false false), 0)
  end.

Definition vcablk_disk_get_rings_req (dev : option vcablk_disk) : option fring := dev ≫= request_ring.
Definition vcablk_disk_get_rings_ack (dev : option vcablk_disk) : option fring := dev ≫= completion_ring.

Definition vcablk_disk_destroy s (dev : option vcablk_disk) : outcome (fsys * Z) :=
  match dev with
  | None => Ret (s, - ENODEV)
  | Some d =>
      '(s, dev, err) ← vcablk_disk_stop s (Some d) true;
      if negb (err =? 0) then Ret (s, err)
      else
        let d := default d dev in
        let s := if request_thread d then free_res s (FThread (self d)) else s in
        let s := match bio_context_pool d with Some _ => free_res s (FPool (self d)) | None => s end in
        let s := if 0 <=? bio_done_db d then free_res s (FIrq (bio_done_irq d)) else s in
        Ret (free_res s (FDisk (self d)), err)
  end.

(** The end of [vcablk_disk_create], after the tag set and the disk of the block
    layer were asked for. *)
Definition create_gdisk (e : cenv) s (d : vcablk_disk) (ring_req completion_ring : fring) : outcome (fsys * (vcablk_disk + Z)) :=
  let fail s d err := '(s, _) ← vcablk_disk_destroy s (Some d); Ret (s, inr err) in
  if negb (e_tags e =? 0) then fail s d (e_tags e)
  else
    let s := take_res s (FTags (self d)) in
    let d := set_gdisk d false false true in
    if negb (e_gdisk e =? 0) then fail s d (e_gdisk e)
    else
      let s := take_res s (FGdisk (self d)) in
      let d := set_gdisk d true false true in
      if (dev_id d <? 0) || (999 <? dev_id d) then fail s d (- EINVAL)
      else
        let with_thread t := mkDisk (self d) (size_bytes d) (sectors_num d) (read_only d) (dev_id d) (ref_cnt d) true
              false true t (bio_done_db d) (bio_done_irq d) (request_db d) (Some ring_req)
              (Some completion_ring) (bio_context_pool d) in
        if negb (e_thread e) then fail s (with_thread false) (- EAGAIN)
        else Ret (take_res s (FThread (self d)), inl (with_thread true)).

Definition vcablk_disk_create (e : cenv) s (uniq_id size : Z) (ro : bool) (ring_req completion_ring : option fring)
    (done_db request_db : Z) : outcome (fsys * (vcablk_disk + Z)) :=
  match ring_req, completion_ring with
  | Some rq, Some cp =>
      if request_db <? 0 then Ret (s, inr (- EFAULT))
      else
        let sectors := u32 (size / SECTOR_SIZE) in
        if negb (size mod SECTOR_SIZE =? 0) then Ret (s, inr (- ENOTBLK))
        else
          match e_disk e with
          | None => Ret (s, inr (- ENOMEM))
          | Some p =>
              let s := take_res s (FDisk p) in
              let new db irq pool :=
                mkDisk p (u64 (sectors * SECTOR_SIZE)) sectors ro uniq_id 0 false false false false db irq request_db
                  None None pool in
              let fail s d err := '(s, _) ← vcablk_disk_destroy s (Some d); Ret (s, inr err) in
              if done_db <? 0 then fail s (new done_db 0 None) (- ENODEV)
              else
                pool ← Pool.vcablk_pool_init tt VCABLK_BIO_CTX_POOL_SIZE (e_pool e);
                match pool with
                | None => fail s (new done_db 0 None) (- ENOMEM)
                | Some pool =>
                    let s := take_res s (FPool p) in
                    match e_irq e with
                    | None => fail s (new done_db 0 (Some pool)) (- EIO)
                    | Some cookie =>
                        create_gdisk e (take_res s (FIrq cookie)) (new done_db cookie (Some pool)) rq cp
                    end
                end
          end
  | _, _ => Ret (s, inr (- EFAULT))
  end.

(** [add_disk] on a disk that was stopped dereferences [NULL]. *)
Definition vcablk_disk_start (e : cenv) s (dev : option vcablk_disk) : outcome (fsys * option vcablk_disk * Z) :=
  match dev with
  | None => Ret (s, None, - EINVAL)
  | Some d =>
      let fail err := '(s, dev, _) ← vcablk_disk_stop s (Some d) false; Ret (s, dev, err) in
      if negb (request_thread d) then fail (- EINVAL)
      else if gdisk_started d then fail (- EINVAL)
      else if negb (gdisk d) then Oob
      else if negb (e_add e =? 0) then fail (e_add e)
      else Ret (s, Some (set_gdisk d (gdisk d) true (tag_set_initialized d)), 0)
  end.

(** ** Commands *)

(** The array of disks, and the disk [i]. *)
Definition get_disk s (i : Z) : outcome (option vcablk_disk) :=
  match vcablk_disks (fdev s) with None => Oob | Some l => aget l i end.
Definition put_disk s (i : Z) (d : option vcablk_disk) : outcome fsys :=
  match vcablk_disks (fdev s) with
  | None => Oob
  | Some l => l ← aset l i d; Ret (set_fdev s (set_disks (fdev s) (Some l)))
  end.

(** The answer without rings. *)
Definition no_rings (c : vcablk_device_ctrl) : vcablk_device_ctrl :=
  set_response c (set_resp_rings (response c) 0 0 0 0 (-1)).

Definition vcablk_device_stop_id s (i : Z) (force : bool) : outcome (fsys * Z) :=
  match vcablk_disks (fdev s) with
  | None => Ret (s, - ENODEV)
  | Some _ =>
      d ← get_disk s i;
      '(s, d, err) ← vcablk_disk_stop s d force;
      s ← put_disk s i d;
      Ret (s, err)
  end.

Definition vcablk_device_destroy_id s (i : Z) : outcome (fsys * Z) :=
  match vcablk_disks (fdev s) with
  | None => Ret (s, - ENODEV)
  | Some _ =>
      d ← get_disk s i;
      let ring_req := vcablk_disk_get_rings_req d in
      let completion_ring := vcablk_disk_get_rings_ack d in
      '(s, err) ← vcablk_disk_destroy s d;
      p ← upd_dev (page s) i no_rings;
      s ← put_disk (set_page s p) i None;
      Ret (destroy_ring (destroy_ring s ring_req) completion_ring, err)
  end.

(** The label [deinit_rings]. *)
Definition deinit_rings s (i : Z) (ring_req completion_ring : option fring) (err : Z) : outcome (fsys * Z) :=
  p ← upd_dev (page s) i no_rings;
  Ret (destroy_ring (destroy_ring (set_page s p) ring_req) completion_ring, err).

Definition vcablk_task_create (e : cenv) s (i : Z) : outcome (fsys * Z) :=
  if (i <? 0) || (max_dev (fdev s) <=? i) then Ret (s, - EINVAL)
  else
    d ← get_disk s i;
    match d with
    | Some _ => Ret (s, - EBUSY)
    | None =>
        let '(s, rq) := init_request_ring s (e_req e) VCABLK_QUEUE_REQUESTS_NUMS in
        match rq with
        | inr err => deinit_rings s i None None err
        | inl rq =>
            let '(s, cp) := init_completion_ring s (e_comp e) VCABLK_QUEUE_ACK_NUMS in
            match cp with
            | inr err => deinit_rings s i (Some rq) None err
            | inl cp =>
                if e_db e <? 0 then deinit_rings s i (Some rq) (Some cp) (- ENODEV)
                else
                  c ← aget (devs (page s)) i;
                  '(s, r) ← vcablk_disk_create e s i (c_size_bytes c) (negb (c_read_only c =? 0)) (Some rq) (Some cp)
                              (e_db e) (c_request_db c);
                  match r with
                  | inr err => deinit_rings s i (Some rq) (Some cp) err
                  | inl d =>
                      s ← put_disk s i (Some d);
                      p ← upd_dev (page s) i (fun c => set_response c (set_resp_rings (response c) (dma_addr rq)
                            (size_alloc rq) (dma_addr cp) (size_alloc cp) (e_db e)));
                      Ret (set_page s p, 0)
                  end
            end
        end
    end.

Definition vcablk_handle_task (e : cenv) s (cmd i : Z) : outcome (fsys * Z) :=
  if cmd =? CMD_CREATE then vcablk_task_create e s i
  else if cmd =? CMD_RUN then
    d ← get_disk s i;
    '(s, d, err) ← vcablk_disk_start e s d;
    s ← put_disk s i d;
    if negb (err =? 0) then '(s, _) ← vcablk_device_destroy_id s i; Ret (s, err) else Ret (s, err)
  else if (cmd =? CMD_STOP_NORMAL) || (cmd =? CMD_STOP_FORCE)
  then vcablk_device_stop_id s i (cmd =? CMD_STOP_FORCE)
  else if cmd =? CMD_DESTROY then vcablk_device_destroy_id s i
  else Ret (s, - EIO).

(** The answer of the command [task] is in the page. *)
Definition answered (task err : Z) (c : vcablk_device_ctrl) : vcablk_device_ctrl :=
  set_command (set_response c (set_ack (response c) (u32 err) task)) 0.

(** The loop of [vcablk_probe_work]; [es] has what the kernel answers for the disk [i]. *)
Fixpoint probe_loop (es : Z -> cenv) (n : nat) s (i : Z) : outcome fsys :=
  match n with
  | O => Ret s
  | S n =>
      c ← aget (devs (page s)) i;
      s ← (if command c =? 0 then Ret s
           else
             '(s, err) ← vcablk_handle_task (es i) s (command c) i;
             p ← upd_dev (page s) i (answered (command c) err);
             Ret (set_page s p));
      probe_loop es n s (i + 1)
  end.

Definition vcablk_probe_work (es : Z -> cenv) s : outcome fsys :=
  if negb (has_pages (fdev s)) then Ret s
  else if negb (destroy_devpage (page s) =? 0) then Ret s
  else if num_devices (page s) =? 0 then Ret s
  else
    s ← probe_loop es (Z.to_nat (max_dev (fdev s))) s 0;
    Ret (send_intr s (f2b_db (fdev s))).

(** ** Starting and stopping the frontend *)

Fixpoint clean_loop (l : list (option vcablk_disk)) s : outcome fsys :=
  match l with
  | [] => Ret s
  | None :: l => clean_loop l s
  | Some d :: l =>
      '(s, d, _) ← vcablk_disk_stop s (Some d) true;
      '(s, _) ← vcablk_disk_destroy s d;
      clean_loop l s
  end.

Definition vcablk_clean s : outcome fsys :=
  match vcablk_disks (fdev s) with
  | None => Ret s
  | Some l =>
      s ← clean_loop l s;
      Ret (free_res (set_fdev s (set_disks (fdev s) None)) FArray)
  end.

(** [waited]: the page after waiting for the backend. *)
Definition vcablk_set_empty_devpage (waited : vcablk_dev_page -> vcablk_dev_page) s : fsys :=
  if negb (has_pages (fdev s)) then s
  else
    let s := set_page s (set_destroy (page s) DESTROY_DEV_PAGE_INIT) in
    let s := send_intr s (f2b_db (fdev s)) in
    set_page s (waited (page s)).

(** What the kernel answers to [vcablk_init]. *)
Record ienv := mkIenv {
  i_dev : bool;
  i_major : bool;
  i_db : Z;
  i_irq : option Z;
  i_array : bool;
  i_set_page : Z;
}.

(** The error, and whether [fdev->parent] was freed; the rest is the state. *)
Definition vcablk_init (e : ienv) (pg : vcablk_dev_page) (dev_page_size f2b : Z) (held : list fres)
    : outcome (fsys * option Z * bool) :=
  let none := mkFdev false (-1) 0 0 None f2b in
  if negb (i_dev e) then Ret (mkFsys none pg held [], Some (- ENOMEM), false)
  else
    let fail s err := s ← vcablk_clean s; Ret (free_res s FDev, Some err, true) in
    let s := mkFsys none pg (FDev :: held) [] in
    if negb (i_major e) then fail s (- EBUSY)
    else
      let f db cookie n disks := mkFdev true db cookie (s32 n) disks f2b in
      let pg := mkPage VCA_BLK_VERSION (u32 dev_page_size) 1 (valid_magic_bcknd pg) (flags_events pg) (num_devices pg) 0
                  (notify_backend_db pg) (notify_frontend_db pg) (devs pg) in
      let s := set_page (set_fdev s (f (i_db e) 0 0 None)) pg in
      if i_db e <? 0 then fail s (- ENODEV)
      else
        let s := set_page s (set_notify (page s) (i_db e)) in
        match i_irq e with
        | None => fail s (- EIO)
        | Some cookie =>
            let n := u32 (u64 (u32 dev_page_size - SIZEOF_DEV_PAGE) / SIZEOF_DEVICE_CTRL) in
            let s := set_page (take_res s (FIrq cookie)) (set_num (page s) n) in
            let s := set_fdev s (f (i_db e) cookie n None) in
            if negb (i_array e) then fail s (- ENOMEM)
            else
              let s := set_fdev (take_res s FArray) (f (i_db e) cookie n (Some (replicate (Z.to_nat (s32 n)) None))) in
              if negb (i_set_page e =? 0)
              then Ret (free_res (free_res s FArray) FDev, Some (- ENODEV), false)
              else Ret (s, None, false)
        end.

Definition vcablk_deinit (waited : vcablk_dev_page -> vcablk_dev_page) s : outcome fsys :=
  s ← vcablk_clean s;
  let s := vcablk_set_empty_devpage waited s in
  let s := if 0 <=? probe_db (fdev s)
           then set_page (free_res s (FIrq (probe_db_cookie (fdev s)))) (set_notify (page s) (-1)) else s in
  Ret (free_res (set_fdev s (mkFdev false (-1) 0 (max_dev (fdev s)) (vcablk_disks (fdev s)) (f2b_db (fdev s)))) FDev).

(** ** Accounting *)

Definition ring_res (r : fring) : list fres := [FMem (r_va r); FMap (dma_addr r) (size_alloc r)].
Definition opt_ring_res (r : option fring) : list fres := from_option ring_res [] r.

(** What a disk holds besides its rings: its parts in the block layer, its interrupt,
    the rest. *)
Definition layer_res (d : vcablk_disk) : list fres :=
  (if gdisk d then [FGdisk (self d)] else []) ++ (if tag_set_initialized d then [FTags (self d)] else []).
Definition irq_res (d : vcablk_disk) : list fres := if 0 <=? bio_done_db d then [FIrq (bio_done_irq d)] else [].
Definition rest_res (d : vcablk_disk) : list fres :=
  (if request_thread d then [FThread (self d)] else [])
  ++ (if bio_context_pool d is Some _ then [FPool (self d)] else []) ++ [FDisk (self d)].
Definition disk_res (d : vcablk_disk) : list fres := layer_res d ++ rest_res d ++ irq_res d.

(** A created disk: it has its doorbell, pool and thread, is known to the block layer
    until it is stopped, and no request is in flight. *)
Record live (d : vcablk_disk) : Prop := {
  lv_db : 0 <= bio_done_db d;
  lv_pool : exists p, bio_context_pool d = Some p /\ pool_used p = false;
  lv_tags : tag_set_initialized d = gdisk d;
  lv_thread : request_thread d = true;
  lv_rings : is_Some (request_ring d) /\ is_Some (completion_ring d);
  lv_started : gdisk_started d = true -> gdisk d = true;
}.

(** Only the resources and the disk itself change. *)
Record same_but_held (s s' : fsys) : Prop := {
  sb_fdev : fdev s' = fdev s;
  sb_page : page s' = page s;
  sb_rung : rung s' = rung s;
}.
Lemma same_refl s : same_but_held s s.
Proof. done. Qed.
Lemma same_trans s1 s2 s3 : same_but_held s1 s2 -> same_but_held s2 s3 -> same_but_held s1 s3.
Proof. intros [] []. split; congruence. Qed.
#[local] Hint Resolve same_refl : core.

Definition quiet (d : vcablk_disk) : Prop :=
  match bio_context_pool d with Some p => pool_used p = false | None => True end.

(** Stopping gives the block layer its parts back, unless the disk is in use. *)
Lemma vcablk_disk_stop_ok s d force R :
  quiet d -> fheld s ≡ₚ layer_res d ++ R ->
  exists s' d' err, vcablk_disk_stop s (Some d) force = Ret (s', Some d', err) /\ same_but_held s s'
    /\ fheld s' ≡ₚ layer_res d' ++ R
    /\ (if gdisk d then
          if negb force && (0 <? ref_cnt d) then d' = d /\ s' = s /\ err = - EBUSY
          else d' = set_gdisk d false false false /\ err = 0
        else d' = d /\ s' = s /\ err = 0).
Proof.
  intros Hq Hh. unfold vcablk_disk_stop. destruct (gdisk d) eqn:Eg; cbn [negb]; [|by exists s, d, 0].
  destruct (negb force && (0 <? ref_cnt d)); [by exists s, d, (- EBUSY)|].
  unfold quiet in Hq. assert (bug_on match bio_context_pool (set_gdisk d true false (tag_set_initialized d)) with
    | Some p => pool_used p | None => false end = Ret tt) as ->.
  { cbn. by destruct (bio_context_pool d) as [p|]; [rewrite Hq|]. }
  run_bind. do 3 eexists. split; [done|]. cbn [tag_set_initialized set_gdisk self].
  split; [by destruct (tag_set_initialized d)|]. split; [|done].
  unfold layer_res in *. rewrite Eg in Hh. cbn in *. destruct (tag_set_initialized d); cbn in *.
  - apply release_held, release_held. by rewrite Hh.
  - apply release_held. by rewrite Hh.
Qed.

(** Destroying a disk gives back everything but its rings, and but the tag set when
    the block layer refused the disk.  [I] is the interrupt of the disk, or nothing
    when it was never requested and nobody else has that cookie. *)
Lemma vcablk_disk_destroy_gen s d I R :
  quiet d -> fheld s ≡ₚ layer_res d ++ rest_res d ++ I ++ R ->
  I = irq_res d \/ I = [] /\ FIrq (bio_done_irq d) ∉ R ->
  exists s', vcablk_disk_destroy s (Some d) = Ret (s', 0) /\ same_but_held s s'
    /\ fheld s' ≡ₚ (if negb (gdisk d) && tag_set_initialized d then [FTags (self d)] else []) ++ R.
Proof.
  intros Hq Hh HI. unfold vcablk_disk_destroy.
  destruct (vcablk_disk_stop_ok s d true _ Hq Hh) as (s1 & d1 & err & -> & [Hf Hp Hr] & Hh1 & Hd). run_bind.
  cbn [negb andb] in Hd.
  set (left := if negb (gdisk d) && tag_set_initialized d then [FTags (self d)] else []).
  assert (err = 0 /\ fheld s1 ≡ₚ rest_res d ++ I ++ left ++ R /\ exists g g' t, d1 = set_gdisk d g g' t) as (-> & Hh2 & g & g' & t & ->).
  { destruct (gdisk d) eqn:Eg.
    - destruct Hd as [-> ->]. split; [done|]. split; [exact Hh1|by eauto].
    - destruct Hd as (-> & -> & ->). split; [done|].
      split; [|exists false, (gdisk_started d), (tag_set_initialized d); destruct d; cbn in *; by subst].
      rewrite Hh. unfold layer_res. rewrite Eg. cbn [app negb andb] in *. fold left.
      by rewrite (assoc_L (++) (rest_res d) I R), (assoc_L (++) left), (Permutation_app_comm left), <- !(assoc_L (++)). }
  clear Hh Hh1 Hd. cbn [negb Z.eqb default from_option id]. eexists. split; [done|]. cbn.
  split; [destruct (request_thread d), (bio_context_pool d), (0 <=? bio_done_db d); by split|].
  unfold rest_res, irq_res in *.
  assert (forall l, l ≡ₚ FDisk (self d) :: I ++ left ++ R ->
    release (FDisk (self d)) (if 0 <=? bio_done_db d then release (FIrq (bio_done_irq d)) l else l) ≡ₚ left ++ R) as Hend.
  { intros l Hl. destruct HI as [->|[-> Hn]].
    - destruct (0 <=? bio_done_db d); repeat apply release_held; rewrite Hl; [apply Permutation_swap|done].
    - apply release_held. destruct (0 <=? bio_done_db d); [|done]. rewrite release_absent; [done|].
      rewrite Hl. cbn. rewrite elem_of_cons, elem_of_app. intros [?|[Hin|?]]; [done| |done].
      unfold left in Hin. destruct (negb (gdisk d) && _); [|by apply elem_of_nil in Hin].
      by apply list_elem_of_singleton in Hin. }
  specialize (Hend (fheld match bio_context_pool d with
    | Some _ => free_res (if request_thread d then free_res s1 (FThread (self d)) else s1) (FPool (self d))
    | None => if request_thread d then free_res s1 (FThread (self d)) else s1 end)).
  destruct (0 <=? bio_done_db d); apply Hend; destruct (request_thread d), (bio_context_pool d); cbn in *;
    repeat apply release_held; by rewrite Hh2.
Qed.

Lemma vcablk_disk_destroy_ok s d R :
  quiet d -> tag_set_initialized d = gdisk d -> fheld s ≡ₚ disk_res d ++ R ->
  exists s', vcablk_disk_destroy s (Some d) = Ret (s', 0) /\ same_but_held s s' /\ fheld s' ≡ₚ R.
Proof.
  intros Hq Ht Hh. destruct (vcablk_disk_destroy_gen s d (irq_res d) R) as (s' & E & Hs & Hh'); [done| |by left|].
  - rewrite Hh. unfold disk_res. by rewrite <- !(assoc_L (++)).
  - exists s'. rewrite Ht in Hh'. by destruct (gdisk d).
Qed.

(** ** Creating and starting disks *)

Lemma pool_init_ok :
  exists p, Pool.vcablk_pool_init tt VCABLK_BIO_CTX_POOL_SIZE true = Ret (Some p) /\ pool_used p = false.
Proof. eexists. split; vm_compute; reflexivity. Qed.

(** The resources after a failed creation: those from before, and the tag set when it
    was the block layer that refused the disk. *)
Definition after_failure (e : cenv) (l R : list fres) : Prop :=
  l ≡ₚ R \/ e_gdisk e <> 0 /\ e_tags e = 0 /\ exists p, e_disk e = Some p /\ l ≡ₚ FTags p :: R.

(** A disk as [vcablk_disk_create] makes it. *)
Record created (d : vcablk_disk) (id size : Z) (rq cp : fring) (db irq : Z) : Prop := {
  cr_live : live d;
  cr_gdisk : gdisk d = true /\ gdisk_started d = false /\ ref_cnt d = 0;
  cr_size : size_bytes d = u64 (u32 (size / SECTOR_SIZE) * SECTOR_SIZE);
  cr_rings : request_ring d = Some rq /\ completion_ring d = Some cp;
  cr_db : bio_done_db d = db /\ dev_id d = id /\ bio_done_irq d = irq;
}.

Lemma create_gdisk_ok e s d rq cp R p :
  e_disk e = Some p -> self d = p -> gdisk d = false -> tag_set_initialized d = false -> request_thread d = false ->
  ref_cnt d = 0 -> 0 <= bio_done_db d -> (exists q, bio_context_pool d = Some q /\ pool_used q = false) ->
  fheld s ≡ₚ disk_res d ++ R ->
  exists s' r, create_gdisk e s d rq cp = Ret (s', r) /\ same_but_held s s'
    /\ match r with
       | inl d' => live d' /\ gdisk d' = true /\ gdisk_started d' = false /\ ref_cnt d' = 0
           /\ size_bytes d' = size_bytes d /\ request_ring d' = Some rq /\ completion_ring d' = Some cp
           /\ bio_done_db d' = bio_done_db d /\ dev_id d' = dev_id d /\ bio_done_irq d' = bio_done_irq d
           /\ 0 <= dev_id d <= 999 /\ fheld s' ≡ₚ disk_res d' ++ R
       | inr err => err <> 0 /\ after_failure e (fheld s') R
       end.
Proof.
  intros He Hself Hg Ht Hth Href Hdb (q & Hq & Hu) Hh. unfold create_gdisk.
  assert (forall s1 d1 err, same_but_held s s1 -> bio_context_pool d1 = Some q ->
    fheld s1 ≡ₚ disk_res d1 ++ R -> (tag_set_initialized d1 = gdisk d1 \/ tag_set_initialized d1 = true /\ gdisk d1 = false
      /\ self d1 = p /\ e_gdisk e <> 0 /\ e_tags e = 0) ->
    exists s', ('(s, _) ← vcablk_disk_destroy s1 (Some d1); Ret (s, inr err)) = Ret (s', @inr vcablk_disk Z err) /\ same_but_held s s'
      /\ after_failure e (fheld s') R) as Hfail.
  { intros s1 d1 err Hs1 Hq1 Hh1 Hc.
    destruct (vcablk_disk_destroy_gen s1 d1 (irq_res d1) R) as (s' & -> & Hs' & Hh').
    - unfold quiet. by rewrite Hq1.
    - rewrite Hh1. unfold disk_res. by rewrite <- !(assoc_L (++)).
    - by left.
    - run_bind. exists s'. split; [done|]. split; [by eapply same_trans|]. destruct Hc as [Hc|(Ht1 & Hg1 & Hp & Hne & H0)].
      + left. rewrite Hc in Hh'. by destruct (gdisk d1).
      + right. split; [done|]. split; [done|]. exists p. split; [done|]. by rewrite Ht1, Hg1, Hp in Hh'. }
  unfold disk_res, layer_res, rest_res, irq_res in Hh. rewrite Hg, Ht, Hth, Hq in Hh. cbn in Hh.
  destruct (Z.eqb_spec (e_tags e) 0) as [Et|Et]; cbn [negb].
  2:{ destruct (Hfail s d (e_tags e)) as (s' & -> & Hs & Ha); [done|done| |by left; congruence|by exists s', (inr (e_tags e)); auto].
      unfold disk_res, layer_res, rest_res, irq_res. by rewrite Hg, Ht, Hth, Hq. }
  destruct (Z.eqb_spec (e_gdisk e) 0) as [Eg|Eg]; cbn [negb].
  2:{ edestruct Hfail as (s' & -> & Hs & Ha); [| | | |by exists s', (inr (e_gdisk e)); auto]; [done|done| |right; by cbn].
      unfold disk_res, layer_res, rest_res, irq_res. cbn. rewrite Hth, Hq, Hh. done. }
  cbn [set_gdisk dev_id]. case_if.
  1:{ edestruct Hfail as (s' & -> & Hs & Ha); [| | | |by exists s', (inr (- EINVAL))]; [done|done| |by left].
      unfold disk_res, layer_res, rest_res, irq_res. cbn. by rewrite Hth, Hq, Hh. }
  destruct (e_thread e); cbn [negb].
  2:{ edestruct Hfail as (s' & -> & Hs & Ha); [| | | |by exists s', (inr (- EAGAIN))]; [done|done| |by left].
      unfold disk_res, layer_res, rest_res, irq_res. cbn. by rewrite Hq, Hh. }
  eexists _, (inl _). split; [done|]. split; [done|]. cbn. split; [|repeat split; try done; try lia].
  - split; cbn; eauto; done.
  - unfold disk_res, layer_res, rest_res, irq_res. cbn. rewrite Hq, Hh. cbn.
    exact (Permutation_middle [FGdisk (self d); FTags (self d)] _ _).
Qed.

Lemma vcablk_disk_create_ok e s id size ro rq cp db rdb R :
  fheld s ≡ₚ R -> FIrq 0 ∉ R ->
  exists s' r, vcablk_disk_create e s id size ro (Some rq) (Some cp) db rdb = Ret (s', r) /\ same_but_held s s'
    /\ match r with
       | inl d => (exists irq, e_irq e = Some irq /\ created d id size rq cp db irq) /\ 0 <= id <= 999 /\ size mod SECTOR_SIZE = 0 /\ fheld s' ≡ₚ disk_res d ++ R
       | inr err => err <> 0 /\ after_failure e (fheld s') R
       end.
Proof.
  intros Hh Hn. unfold vcablk_disk_create.
  case_if; [by exists s, (inr (- EFAULT)); split; [done|]; split; [done|]; split; [|left]|].
  case_if; [by exists s, (inr (- ENOTBLK)); split; [done|]; split; [done|]; split; [|left]|].
  destruct (e_disk e) as [p|] eqn:Ed; [|by exists s, (inr (- ENOMEM)); split; [done|]; split; [done|]; split; [|left]].
  set (new irq pool := mkDisk p (u64 (u32 (size / SECTOR_SIZE) * SECTOR_SIZE)) (u32 (size / SECTOR_SIZE)) ro id 0 false
    false false false db irq rdb None None pool).
  assert (forall s1 irq pool err, same_but_held s s1 -> quiet (new irq pool) ->
    fheld s1 ≡ₚ rest_res (new irq pool) ++ R -> irq = 0 ->
    exists s', ('(s, _) ← vcablk_disk_destroy s1 (Some (new irq pool)); Ret (s, inr err)) = Ret (s', @inr vcablk_disk Z err)
      /\ same_but_held s s' /\ after_failure e (fheld s') R) as Hfail.
  { intros s1 irq pool err Hs1 Hq Hh1 ->. destruct (vcablk_disk_destroy_gen s1 (new 0 pool) [] R) as (s' & -> & Hs' & Hh').
    - done.
    - exact Hh1.
    - by right.
    - run_bind. exists s'. split; [done|]. split; [by eapply same_trans|by left]. }
  case_if; [edestruct (Hfail (take_res s (FDisk p)) 0 None) as (s' & -> & Hs & Ha);
    [done|done|cbn; by rewrite Hh|done|by exists s', (inr (- ENODEV))]|].
  destruct (e_pool e); [|change (Pool.vcablk_pool_init tt VCABLK_BIO_CTX_POOL_SIZE false) with (@Ret (option (Pool.vcablk_pool unit)) None);
    run_bind; edestruct (Hfail (take_res s (FDisk p)) 0 None) as (s' & -> & Hs & Ha);
    [done|done|cbn; by rewrite Hh|done|by exists s', (inr (- ENOMEM))]].
  destruct pool_init_ok as (q & -> & Hu). run_bind.
  destruct (e_irq e) as [c|]; [|edestruct (Hfail (take_res (take_res s (FDisk p)) (FPool p)) 0 (Some q)) as (s' & -> & Hs & Ha);
    [done|exact Hu|cbn; by rewrite Hh|done|by exists s', (inr (- EIO))]].
  match goal with |- context [create_gdisk ?e ?s ?d ?rq ?cp] => change (create_gdisk e s d rq cp)
    with (create_gdisk e s (new c (Some q)) rq cp) end.
  destruct (create_gdisk_ok e (take_res (take_res (take_res s (FDisk p)) (FPool p)) (FIrq c)) (new c (Some q)) rq cp R p)
    as (s' & r & -> & [Hf Hp Hr] & Hres); try done.
  - by exists q.
  - unfold disk_res, rest_res, irq_res. cbn. rewrite Hh. if_true. cbn.
    exact (Permutation_middle [FPool p; FDisk p] R (FIrq c)).
  - exists s', r. split; [done|]. split; [by split|]. destruct r as [d|err]; [|done].
    destruct Hres as (Hl & Hg & Hst & Href & Hsz & Hrq & Hcp & Hdb & Hid & Hirq & Hrange & Hh'). split; [|done].
    exists c. split; [done|]. by split.
Qed.

(** ** Commands *)

Definition all_res (o : option vcablk_disk) : list fres :=
  match o with
  | Some d => disk_res d ++ opt_ring_res (request_ring d) ++ opt_ring_res (completion_ring d)
  | None => []
  end.

(** The state of the frontend around the disk [i]: the disk [o], its entry [c] of the
    page and the resources [R] of everybody else. *)
Record focus (s : fsys) (i : Z) (l : list (option vcablk_disk)) (o : option vcablk_disk) (c : vcablk_device_ctrl)
    (R : list fres) : Prop := {
  fc_disks : vcablk_disks (fdev s) = Some l;
  fc_range : 0 <= i < max_dev (fdev s);
  fc_len : max_dev (fdev s) = zlen l;
  fc_disk : l !! Z.to_nat i = Some o;
  fc_ctrl : devs (page s) !! Z.to_nat i = Some c;
  fc_live : from_option live True o;
  fc_held : fheld s ≡ₚ all_res o ++ R;
}.

(** The disk and its entry become [o'] and [c']. *)
Definition moved (s : fsys) (i : Z) (o' : option vcablk_disk) (c' : vcablk_device_ctrl) (s' : fsys) : Prop :=
  exists l, vcablk_disks (fdev s) = Some l
  /\ fdev s' = set_disks (fdev s) (Some (<[Z.to_nat i := o']> l))
  /\ page s' = set_devs (page s) (<[Z.to_nat i := c']> (devs (page s))) /\ rung s' = rung s.

Lemma set_devs_id p : set_devs p (devs p) = p.
Proof. by destruct p. Qed.

Section Focus.
Context (s : fsys) (i : Z) (l : list (option vcablk_disk)) (o : option vcablk_disk) (c : vcablk_device_ctrl)
  (R : list fres) (Hf : focus s i l o c R).

Lemma focus_get s' : fdev s' = fdev s -> get_disk s' i = Ret o.
Proof.
  intros He. unfold get_disk. rewrite He, (fc_disks _ _ _ _ _ _ Hf).
  apply aget_ret; [apply Hf|apply Hf].
Qed.
Lemma focus_put s' d : fdev s' = fdev s -> put_disk s' i d = Ret (set_fdev s' (set_disks (fdev s) (Some (<[Z.to_nat i := d]> l)))).
Proof.
  intros He. unfold put_disk. rewrite He, (fc_disks _ _ _ _ _ _ Hf). rewrite aset_ret; [done|].
  destruct Hf. lia.
Qed.
Lemma focus_upd s' f : page s' = page s ->
  upd_dev (page s') i f = Ret (set_devs (page s) (<[Z.to_nat i := f c]> (devs (page s)))).
Proof.
  intros He. unfold upd_dev. rewrite He, (aget_ret _ _ c); [|apply Hf|apply Hf]. run_bind.
  rewrite aset_ret; [done|]. destruct Hf. apply lookup_lt_Some in fc_ctrl0. unfold zlen. lia.
Qed.
Lemma focus_moved_id s' : fdev s' = fdev s -> page s' = page s -> rung s' = rung s -> moved s i o c s'.
Proof.
  intros H1 H2 H3. exists l. destruct Hf. rewrite H1, H2. split; [done|]. rewrite !list_insert_id by done.
  destruct s as [[] [] ? ?]; cbn in *. by subst.
Qed.
End Focus.

Lemma destroy_ring_perm s r R : fheld s ≡ₚ opt_ring_res r ++ R -> fheld (destroy_ring s r) ≡ₚ R.
Proof.
  destruct r as [r|]; [|done]. cbn. intros Hh. do 2 apply release_held. rewrite Hh. by apply Permutation_swap.
Qed.
Lemma destroy_ring_same s r : same_but_held s (destroy_ring s r).
Proof. by destruct r. Qed.

Lemma live_quiet d : live d -> quiet d.
Proof. intros Hl. unfold quiet. destruct (lv_pool _ Hl) as (p & -> & Hp). done. Qed.

(** Stopping. *)
Lemma stop_id_ok s i l o c R force :
  focus s i l o c R ->
  exists s' o' err, vcablk_device_stop_id s i force = Ret (s', err) /\ moved s i o' c s'
    /\ from_option live True o' /\ fheld s' ≡ₚ all_res o' ++ R
    /\ o' = match o with
            | Some d => if negb (gdisk d) || negb force && (0 <? ref_cnt d) then o else Some (set_gdisk d false false false)
            | None => None
            end
    /\ err = match o with
             | Some d => if gdisk d && negb force && (0 <? ref_cnt d) then - EBUSY else 0
             | None => 0
             end.
Proof.
  intros Hf. unfold vcablk_device_stop_id. rewrite (fc_disks _ _ _ _ _ _ Hf), (focus_get _ _ _ _ _ _ Hf) by done. run_bind.
  destruct o as [d|].
  2:{ cbn. rewrite (focus_put _ _ _ _ _ _ Hf) by done. run_bind. eexists _, None, _. split; [done|]. split; [|split; [done|split; [apply Hf|done]]].
      exists l. split; [apply Hf|]. split; [done|]. split; [|done]. cbn. rewrite list_insert_id by apply Hf. by rewrite set_devs_id. }
  assert (live d) as Hl by apply Hf.
  pose proof (fc_held _ _ _ _ _ _ Hf) as Hh. cbn in Hh. unfold disk_res in Hh. rewrite <- !(assoc_L (++)) in Hh.
  destruct (vcablk_disk_stop_ok s d force _ (live_quiet _ Hl) Hh) as (s1 & d1 & err & -> & [Hsf Hsp Hsr] & Hh1 & Hd). run_bind.
  rewrite (focus_put _ _ _ _ _ _ Hf) by done. run_bind. exists (set_fdev s1 (set_disks (fdev s) (Some (<[Z.to_nat i := Some d1]> l)))), (Some d1), err.
  split; [done|]. split.
  { exists l. split; [apply Hf|]. split; [done|]. split; [|done]. cbn. rewrite list_insert_id by apply Hf. by rewrite set_devs_id. }
  assert (live d1 /\ rest_res d1 = rest_res d /\ irq_res d1 = irq_res d /\ request_ring d1 = request_ring d
    /\ completion_ring d1 = completion_ring d) as (Hl1 & E1 & E2 & E3 & E4).
  { destruct (gdisk d); [destruct (negb force && _)|]; destruct Hd as [-> Hd]; try done.
    split; [|done]. destruct Hl. split; cbn; try done. }
  split; [done|]. split.
  - cbn. unfold disk_res. rewrite <- !(assoc_L (++)), E1, E2, E3, E4. exact Hh1.
  - destruct (gdisk d); cbn [negb orb andb] in *; [destruct (negb force && _); destruct Hd as [-> Hd]; split; try done; by destruct Hd|].
    by destruct Hd as (-> & _ & ->).
Qed.

(** Destroying. *)
Lemma destroy_id_ok s i l o c R :
  focus s i l o c R ->
  exists s', vcablk_device_destroy_id s i = Ret (s', match o with Some _ => 0 | None => - ENODEV end)
    /\ moved s i None (no_rings c) s' /\ fheld s' ≡ₚ R.
Proof.
  intros Hf. unfold vcablk_device_destroy_id. rewrite (fc_disks _ _ _ _ _ _ Hf), (focus_get _ _ _ _ _ _ Hf) by done. run_bind.
  assert (exists s1, vcablk_disk_destroy s o = Ret (s1, match o with Some _ => 0 | None => - ENODEV end) /\ same_but_held s s1
    /\ fheld s1 ≡ₚ opt_ring_res (vcablk_disk_get_rings_req o) ++ opt_ring_res (vcablk_disk_get_rings_ack o) ++ R)
    as (s1 & -> & [Hsf Hsp Hsr] & Hh1).
  { pose proof (fc_held _ _ _ _ _ _ Hf) as Hh. destruct o as [d|]; [|by exists s]. assert (live d) as Hl by apply Hf.
    cbn in Hh. rewrite <- !(assoc_L (++)) in Hh.
    destruct (vcablk_disk_destroy_ok s d _ (live_quiet _ Hl) (lv_tags _ Hl) Hh) as (s1 & E & Hs & Hh1).
    exists s1. by rewrite E. }
  run_bind. rewrite (focus_upd _ _ _ _ _ _ Hf) by done. run_bind.
  rewrite (focus_put _ _ _ _ _ _ Hf) by done. run_bind. eexists. split; [done|]. split.
  - exists l. destruct (vcablk_disk_get_rings_req o), (vcablk_disk_get_rings_ack o); (split; [apply Hf|by split]).
  - by do 2 apply destroy_ring_perm.
Qed.

(** A ring for [n] elements, or nothing. *)
Lemma init_ring_ok s a size es n R :
  BlkLifecycle.is_power_of_2 n = true -> fheld s ≡ₚ R -> a <> NoMap 0 ->
  exists s' r, init_ring s a size es n = (s', r) /\ same_but_held s s'
    /\ match r with
       | inl r => fheld s' ≡ₚ ring_res r ++ R /\ size_alloc r = size /\ num_elems r = u16 n
           /\ last_add r = 0 /\ last_used r = 0 /\ a = Got (r_va r) (dma_addr r)
       | inr err => s' = s /\ err <> 0
       end.
Proof.
  intros Hp Hh Ha. unfold init_ring. rewrite Hp. cbn [negb]. destruct a as [|err|va da]; cbn.
  - by exists s, (inr (- ENOMEM)).
  - exists s, (inr err). split; [done|]. split; [done|]. split; [done|congruence].
  - eexists _, (inl _). split; [done|]. split; [done|]. split; [|done]. unfold ring_res. cbn. rewrite Hh. by apply Permutation_swap.
Qed.

Lemma deinit_rings_ok s s1 i l o c R rq cp err R' :
  focus s i l o c R -> same_but_held s s1 -> fheld s1 ≡ₚ opt_ring_res rq ++ opt_ring_res cp ++ R' ->
  exists s', deinit_rings s1 i rq cp err = Ret (s', err) /\ moved s i o (no_rings c) s' /\ fheld s' ≡ₚ R'.
Proof.
  intros Hf [Hsf Hsp Hsr] Hh. unfold deinit_rings. rewrite (focus_upd _ _ _ _ _ _ Hf) by done. run_bind.
  eexists. split; [done|]. split.
  - exists l. assert (fdev s1 = set_disks (fdev s) (Some (<[Z.to_nat i := o]> l))) as He.
    { rewrite Hsf. destruct Hf. rewrite list_insert_id by done. destruct s as [[] ? ? ?]; cbn in *. by subst. }
    destruct rq, cp; (split; [apply Hf|by split]).
  - by do 2 apply destroy_ring_perm.
Qed.

Lemma ring_no_irq k r : FIrq k ∉ ring_res r.
Proof. unfold ring_res. rewrite !elem_of_cons, elem_of_nil. by intros [?|[?|?]]. Qed.

(** The rings in the answer. *)
Definition with_rings (rq cp : fring) (db : Z) (c : vcablk_device_ctrl) : vcablk_device_ctrl :=
  set_response c (set_resp_rings (response c) (dma_addr rq) (size_alloc rq) (dma_addr cp) (size_alloc cp) db).

Lemma task_create_ok e s i l o c R :
  focus s i l o c R -> FIrq 0 ∉ R -> e_req e <> NoMap 0 -> e_comp e <> NoMap 0 ->
  exists s' o' c' err, vcablk_task_create e s i = Ret (s', err) /\ moved s i o' c' s' /\
    match o with
    | Some d => o' = o /\ c' = c /\ err = - EBUSY /\ s' = s
    | None =>
        (err = 0 -> exists d rq cp irq, o' = Some d /\ c' = with_rings rq cp (e_db e) c
           /\ e_irq e = Some irq /\ created d i (c_size_bytes c) rq cp (e_db e) irq
           /\ fheld s' ≡ₚ all_res o' ++ R
           /\ num_elems rq = VCABLK_QUEUE_REQUESTS_NUMS /\ num_elems cp = VCABLK_QUEUE_ACK_NUMS)
        /\ (err <> 0 -> o' = None /\ c' = no_rings c /\ after_failure e (fheld s') R)
    end.
Proof.
  intros Hf Hn Hrq0 Hcp0. unfold vcablk_task_create. destruct (fc_range _ _ _ _ _ _ Hf).
  replace ((i <? 0) || (max_dev (fdev s) <=? i)) with false by (symmetry; apply orb_false_iff; split; [apply Z.ltb_ge|apply Z.leb_gt]; lia).
  rewrite (focus_get _ _ _ _ _ _ Hf) by done. run_bind. destruct o as [d|].
  { exists s, (Some d), c, (- EBUSY). split; [done|]. split; [by eapply focus_moved_id|done]. }
  pose proof (fc_held _ _ _ _ _ _ Hf) as Hh. cbn [all_res app] in Hh.
  destruct (init_ring_ok s (e_req e) (u32 (SIZEOF_RING + VCABLK_QUEUE_REQUESTS_NUMS * SIZEOF_REQUEST)) SIZEOF_REQUEST
    VCABLK_QUEUE_REQUESTS_NUMS R) as (s1 & rq & E1 & Hs1 & Hr1); [done..|].
  unfold init_request_ring. rewrite E1. destruct rq as [rq|err].
  2:{ destruct Hr1 as [-> Hne]. destruct (deinit_rings_ok s s i l None c R None None err R) as (s' & -> & Hm & Hh'); [done..|].
      exists s', None, (no_rings c), err. split; [done|]. split; [done|]. split; [done|]. intros _. split; [done|]. split; [done|by left]. }
  destruct Hr1 as (Hh1 & Hsz1 & Hnum1 & _).
  destruct (init_ring_ok s1 (e_comp e) (u32 (SIZEOF_RING + VCABLK_QUEUE_ACK_NUMS * SIZEOF_COMPLETION)) SIZEOF_COMPLETION
    VCABLK_QUEUE_ACK_NUMS _ eq_refl Hh1) as (s2 & cp & E2 & Hs2 & Hr2); [done|].
  unfold init_completion_ring. rewrite E2. pose proof (same_trans _ _ _ Hs1 Hs2) as Hs12. destruct cp as [cp|err].
  2:{ destruct Hr2 as [-> Hne]. destruct (deinit_rings_ok s s1 i l None c R (Some rq) None err R) as (s' & -> & Hm & Hh'); [done..|].
      exists s', None, (no_rings c), err. split; [done|]. split; [done|]. split; [done|]. intros _. split; [done|]. split; [done|by left]. }
  destruct Hr2 as (Hh2 & Hsz2 & Hnum2 & _).
  assert (fheld s2 ≡ₚ ring_res rq ++ ring_res cp ++ R) as Hh2'.
  { rewrite Hh2, !(assoc_L (++)). by rewrite (Permutation_app_comm (ring_res cp)). }
  case_if.
  { destruct (deinit_rings_ok s s2 i l None c R (Some rq) (Some cp) (- ENODEV) R) as (s' & -> & Hm & Hh'); [done..|].
    exists s', None, (no_rings c), (- ENODEV). split; [done|]. split; [done|]. split; [done|]. intros _. split; [done|]. split; [done|by left]. }
  rewrite (sb_page _ _ Hs12), (aget_ret _ _ c) by apply Hf. run_bind.
  destruct (vcablk_disk_create_ok e s2 i (c_size_bytes c) (negb (c_read_only c =? 0)) rq cp (e_db e) (c_request_db c) _ Hh2')
    as (s3 & r & -> & Hs3 & Hr3).
  { rewrite !elem_of_app. intros [Hin|[Hin|Hin]]; [by apply ring_no_irq in Hin..|done]. }
  run_bind. pose proof (same_trans _ _ _ Hs12 Hs3) as Hs13. destruct r as [d|err].
  - destruct Hr3 as ((irq & Hirq & Hcr) & _ & _ & Hh3). rewrite (focus_put _ _ _ _ _ _ Hf) by apply Hs13. run_bind.
    rewrite (focus_upd _ _ _ _ _ _ Hf) by apply Hs13. run_bind.
    eexists _, (Some d), (with_rings rq cp (e_db e) c), 0. split; [done|]. split; [exists l; split; [apply Hf|]; by destruct Hs13|].
    split; [|done]. intros _. exists d, rq, cp, irq. split; [done|]. split; [done|]. split; [done|]. split; [done|]. split; [|by rewrite Hnum1, Hnum2].
    cbn. destruct Hcr as [_ _ _ [-> ->] _]. cbn [opt_ring_res from_option]. by rewrite Hh3, <- !(assoc_L (++)).
  - destruct Hr3 as [Hne Ha]. assert (exists L, fheld s3 ≡ₚ L ++ ring_res rq ++ ring_res cp ++ R
      /\ after_failure e (L ++ R) R) as (L & HL & HaL).
    { destruct Ha as [Ha|(Hg & Ht & p & Hp & Ha)]; [exists []|exists [FTags p]]; (split; [done|]); [by left|].
      right. split; [done|]. split; [done|]. by exists p. }
    destruct (deinit_rings_ok s s3 i l None c R (Some rq) (Some cp) err (L ++ R)) as (s' & -> & Hm & Hh'); [done..| |].
    { rewrite HL. cbn [opt_ring_res from_option]. rewrite !(assoc_L (++)). apply Permutation_app_tail.
      rewrite <- (assoc_L (++)). apply Permutation_app_comm. }
    exists s', None, (no_rings c), err. split; [done|]. split; [done|]. split; [done|]. intros _. split; [done|]. split; [done|].
    unfold after_failure in *. by setoid_rewrite Hh'.
Qed.

Lemma moved_trans s i o1 c1 s1 o2 c2 s2 : moved s i o1 c1 s1 -> moved s1 i o2 c2 s2 -> moved s i o2 c2 s2.
Proof.
  intros (l & El & Ef & Ep & Er) (l1 & El1 & Ef1 & Ep1 & Er1). exists l. split; [done|].
  rewrite Ef in El1. injection El1 as <-. rewrite Ef1, Ep1, Er1, Ef, Ep. cbn. rewrite !list_insert_insert_eq. done.
Qed.

Lemma focus_moved s i l o c R o' c' s' R' :
  focus s i l o c R -> moved s i o' c' s' -> from_option live True o' -> fheld s' ≡ₚ all_res o' ++ R' ->
  focus s' i (<[Z.to_nat i := o']> l) o' c' R'.
Proof.
  intros [] (l0 & El & Ef & Ep & Er) Hl Hh. rewrite fc_disks0 in El. injection El as <-.
  split; rewrite ?Ef, ?Ep; cbn; try done.
  - by rewrite zlen_insert.
  - apply list_lookup_insert_eq. by eapply lookup_lt_Some.
  - apply list_lookup_insert_eq. by eapply lookup_lt_Some.
Qed.

(** Running: the disk is added to the block layer, or it is destroyed. *)
Definition run_done (e : cenv) s i o c R (r : outcome (fsys * Z)) : Prop :=
  exists s' o' c' err, r = Ret (s', err) /\ moved s i o' c' s'
    /\ from_option live True o' /\ fheld s' ≡ₚ all_res o' ++ R
    /\ ((err = 0 /\ e_add e = 0 /\ c' = c /\ exists d, o = Some d /\ gdisk_started d = false /\ o' = Some (set_gdisk d true true true))
        \/ (err <> 0 /\ o' = None /\ c' = no_rings c /\ forall d, o = Some d -> gdisk_started d = false -> e_add e <> 0)).
Lemma task_run_ok e s i l o c R :
  focus s i l o c R -> from_option (fun d => gdisk d = true) True o ->
  run_done e s i o c R (vcablk_handle_task e s CMD_RUN i).
Proof.
  intros Hf Hrun. unfold vcablk_handle_task. cbn [Z.eqb CMD_CREATE CMD_RUN Pos.eqb]. rewrite (focus_get _ _ _ _ _ _ Hf) by done. run_bind.
  assert (forall s1 o1 err, moved s i o1 c s1 -> from_option live True o1 -> fheld s1 ≡ₚ all_res o1 ++ R -> err <> 0 ->
    (forall d, o = Some d -> gdisk_started d = false -> e_add e <> 0) ->
    run_done e s i o c R ('(s, _) ← vcablk_device_destroy_id s1 i; Ret (s, err))) as Hfail.
  { intros s1 o1 err Hm Hl Hh Hne Hadd. pose proof (focus_moved _ _ _ _ _ _ _ _ _ _ Hf Hm Hl Hh) as Hf1.
    destruct (destroy_id_ok _ _ _ _ _ _ Hf1) as (s' & -> & Hm' & Hh'). run_bind.
    exists s', None, (no_rings c), err. split; [done|]. split; [by eapply moved_trans|]. split; [done|]. split; [done|]. right. done. }
  destruct o as [d|].
  2:{ cbn. rewrite (focus_put _ _ _ _ _ _ Hf) by done. run_bind.
      apply (Hfail _ None); [|done|apply Hf|done|done].
      exists l. split; [apply Hf|]. split; [done|]. split; [|done]. cbn. by rewrite list_insert_id, set_devs_id by apply Hf. }
  cbn in Hrun. assert (live d) as Hl by apply Hf. unfold vcablk_disk_start. rewrite (lv_thread _ Hl), Hrun. cbn [negb].
  pose proof (fc_held _ _ _ _ _ _ Hf) as Hh. cbn in Hh. unfold disk_res in Hh. rewrite <- !(assoc_L (++)) in Hh.
  assert (forall err, err <> 0 -> (gdisk_started d = false -> e_add e <> 0) -> run_done e s i (Some d) c R ('(s, d, err) ← ('(s, dev, _) ← vcablk_disk_stop s (Some d) false; Ret (s, dev, err));
    s ← put_disk s i d; if negb (err =? 0) then '(s, _) ← vcablk_device_destroy_id s i; Ret (s, err) else Ret (s, err))) as Hstop.
  { intros err Hne Hadd. destruct (stop_id_ok s i l (Some d) c R false Hf) as (s1 & o1 & err1 & E & Hm & Hl1 & Hh1 & _).
    unfold vcablk_device_stop_id in E. rewrite (fc_disks _ _ _ _ _ _ Hf), (focus_get _ _ _ _ _ _ Hf) in E by done. cbn [mbind outcome_bind] in E.
    destruct (vcablk_disk_stop s (Some d) false) as [[[s2 d2] err2]| | |]; try done. cbn [mbind outcome_bind] in *.
    destruct (put_disk s2 i d2) as [s3| | |]; try done. cbn [mbind outcome_bind] in *. injection E as -> ->.
    rewrite (proj2 (Z.eqb_neq err 0)) by done. cbn [negb]. apply (Hfail _ o1); try done. intros ? [= ->]. done. }
  destruct (gdisk_started d) eqn:Est.
  { by apply (Hstop (- EINVAL)). }
  destruct (Z.eqb_spec (e_add e) 0) as [Ea|Ea]; cbn [negb].
  2:{ by apply (Hstop (e_add e)). }
  run_bind. rewrite (focus_put _ _ _ _ _ _ Hf) by done. run_bind. cbn [Z.eqb negb].
  rewrite (lv_tags _ Hl), Hrun. eexists _, (Some (set_gdisk d true true true)), c, 0. split; [done|].
  split; [|split; [|split; [|left; do 3 (split; [done|]); by exists d]]].
  - exists l. split; [apply Hf|]. split; [done|]. split; [|done]. cbn. by rewrite list_insert_id, set_devs_id by apply Hf.
  - destruct Hl. by split.
  - rewrite (fc_held _ _ _ _ _ _ Hf). cbn. unfold disk_res, layer_res. cbn. by rewrite (lv_tags _ Hl), Hrun.
Qed.

(** The kernel grants everything. *)
Record env_good (e : cenv) : Prop := {
  eg_req : exists va da, e_req e = Got va da;
  eg_comp : exists va da, e_comp e = Got va da;
  eg_db : 0 <= e_db e;
  eg_disk : is_Some (e_disk e);
  eg_pool : e_pool e = true;
  eg_irq : exists c, e_irq e = Some c /\ c <> 0;
  eg_rest : e_tags e = 0 /\ e_gdisk e = 0 /\ e_thread e = true /\ e_add e = 0;
}.
(** Then a creation succeeds. *)
Lemma task_create_succeeds e s i l c R :
  focus s i l None c R -> env_good e -> i <= 999 -> 0 <= c_request_db c -> c_size_bytes c mod SECTOR_SIZE = 0 ->
  exists s', vcablk_task_create e s i = Ret (s', 0).
Proof.
  intros Hf [(va & da & E1) (va' & da' & E2) Hdb [p E3] E4 (ck & E5 & _) (E6 & E7 & E8 & _)] Hi Hrdb Hsz. unfold vcablk_task_create.
  destruct (fc_range _ _ _ _ _ _ Hf).
  replace ((i <? 0) || (max_dev (fdev s) <=? i)) with false by (symmetry; apply orb_false_iff; split; [apply Z.ltb_ge|apply Z.leb_gt]; lia).
  rewrite (focus_get _ _ _ _ _ _ Hf) by done. run_bind.
  unfold init_request_ring, init_completion_ring, init_ring.
  change (BlkLifecycle.is_power_of_2 VCABLK_QUEUE_REQUESTS_NUMS) with true.
  change (BlkLifecycle.is_power_of_2 VCABLK_QUEUE_ACK_NUMS) with true. cbn [negb vcablk_alloc_buff]. rewrite E1, E2. cbn [vcablk_alloc_buff].
  rewrite (proj2 (Z.ltb_ge _ _) Hdb). cbn [page take_res set_fheld]. rewrite (aget_ret _ _ c) by apply Hf. run_bind.
  unfold vcablk_disk_create. rewrite (proj2 (Z.ltb_ge _ _) Hrdb), Hsz, E3. cbn [negb Z.eqb]. rewrite (proj2 (Z.ltb_ge _ _) Hdb), E4.
  destruct pool_init_ok as (q & -> & Hu). run_bind. rewrite E5. unfold create_gdisk. rewrite E6, E7, E8. cbn [negb Z.eqb set_gdisk dev_id].
  rewrite (proj2 (Z.ltb_ge i 0)), (proj2 (Z.ltb_ge 999 i)) by lia. cbn [orb]. run_bind.
  rewrite (focus_put _ _ _ _ _ _ Hf) by done. run_bind. rewrite (focus_upd _ _ _ _ _ _ Hf) by done. run_bind. by eexists.
Qed.

(** What a command does to the disk [o] and its entry [c], with the result [err]. *)
Definition task_post (e : cenv) (cmd i : Z) (o : option vcablk_disk) (c : vcablk_device_ctrl)
    (o' : option vcablk_disk) (c' : vcablk_device_ctrl) (err : Z) : Prop :=
  if cmd =? CMD_CREATE then
    match o with
    | Some _ => o' = o /\ c' = c /\ err = - EBUSY
    | None =>
        (err = 0 -> exists d rq cp irq, o' = Some d /\ c' = with_rings rq cp (e_db e) c /\ e_irq e = Some irq
           /\ created d i (c_size_bytes c) rq cp (e_db e) irq
           /\ num_elems rq = VCABLK_QUEUE_REQUESTS_NUMS /\ num_elems cp = VCABLK_QUEUE_ACK_NUMS)
        /\ (err <> 0 -> o' = None /\ c' = no_rings c)
        /\ (env_good e -> i <= 999 -> 0 <= c_request_db c -> c_size_bytes c mod SECTOR_SIZE = 0 -> err = 0)
    end
  else if cmd =? CMD_RUN then
    (err = 0 /\ e_add e = 0 /\ c' = c /\ exists d, o = Some d /\ gdisk_started d = false /\ o' = Some (set_gdisk d true true true))
    \/ (err <> 0 /\ o' = None /\ c' = no_rings c /\ forall d, o = Some d -> gdisk_started d = false -> e_add e <> 0)
  else if (cmd =? CMD_STOP_NORMAL) || (cmd =? CMD_STOP_FORCE) then
    let force := cmd =? CMD_STOP_FORCE in
    c' = c
    /\ o' = match o with
            | Some d => if negb (gdisk d) || negb force && (0 <? ref_cnt d) then o else Some (set_gdisk d false false false)
            | None => None
            end
    /\ err = match o with
             | Some d => if gdisk d && negb force && (0 <? ref_cnt d) then - EBUSY else 0
             | None => 0
             end
  else if cmd =? CMD_DESTROY then
    o' = None /\ c' = no_rings c /\ err = match o with Some _ => 0 | None => - ENODEV end
  else o' = o /\ c' = c /\ err = - EIO.

(** What the kernel must keep to: a failed mapping reports an error, and no cookie is [NULL]. *)
Record env_ok (e : cenv) : Prop := {
  eo_req : e_req e <> NoMap 0;
  eo_comp : e_comp e <> NoMap 0;
  eo_irq : e_irq e <> Some 0;
}.

Lemma env_good_ok e : env_good e -> env_ok e.
Proof.
  intros [(? & ? & H1) (? & ? & H2) _ _ _ (c & H3 & H4) _]. split; rewrite ?H1, ?H2, ?H3; congruence.
Qed.

(** What is lost: nothing, or the tag set of a creation that the block layer refused. *)
Definition lost (e : cenv) (cmd : Z) (o o' : option vcablk_disk) (L : list fres) : Prop :=
  L = [] \/ cmd = CMD_CREATE /\ o = None /\ o' = None /\ e_tags e = 0 /\ e_gdisk e <> 0
            /\ exists p, e_disk e = Some p /\ L = [FTags p].
Definition lost_tags (L : list fres) : Prop := Forall (fun r => exists p, r = FTags p) L.

Lemma lost_is_tags e cmd o o' L : lost e cmd o o' L -> lost_tags L.
Proof. intros [->|(_ & _ & _ & _ & _ & p & _ & ->)]; [constructor|]. repeat constructor. by exists p. Qed.

(** Every command, in every branch, returns; it changes only its own disk and its own
    entry of the page, leaves a disk with everything a disk needs or no disk at all,
    and accounts for all resources: nothing is taken without being in a disk and
    nothing of anybody else is freed.  The one loss is the tag set of a creation that
    the block layer refused. *)
Lemma handle_task_ok e s cmd i l o c R :
  focus s i l o c R -> FIrq 0 ∉ R -> env_ok e -> (cmd = CMD_RUN -> from_option (fun d => gdisk d = true) True o) ->
  exists s' o' c' err L, vcablk_handle_task e s cmd i = Ret (s', err) /\ moved s i o' c' s'
    /\ from_option live True o' /\ fheld s' ≡ₚ all_res o' ++ L ++ R
    /\ lost e cmd o o' L /\ task_post e cmd i o c o' c' err.
Proof.
  intros Hf Hn [Hrq Hcp _] Hrun. unfold task_post.
  destruct (Z.eqb_spec cmd CMD_CREATE) as [->|H1].
  { destruct (task_create_ok e s i l o c R Hf Hn Hrq Hcp) as (s' & o' & c' & err & E & Hm & Hr).
    change (vcablk_handle_task e s CMD_CREATE i) with (vcablk_task_create e s i).
    destruct o as [d|].
    { destruct Hr as (-> & -> & -> & ->). exists s, (Some d), c, (- EBUSY), [].
      split; [done|]. split; [done|]. split; [apply Hf|]. split; [apply Hf|]. split; [by left|done]. }
    destruct Hr as [Hok Hbad]. destruct (decide (err = 0)) as [->|Hne].
    - destruct (Hok eq_refl) as (d & rq & cp & irq & -> & -> & Hirq & Hcr & Hh & Hn1 & Hn2).
      eexists s', _, _, 0, []. split; [done|]. split; [done|]. split; [apply Hcr|]. split; [done|]. split; [by left|].
      split; [|done]. intros _. by exists d, rq, cp, irq.
    - destruct (Hbad Hne) as (-> & -> & Ha).
      assert (exists L, fheld s' ≡ₚ L ++ R /\ lost e CMD_CREATE None None L) as (L & HL & Hlost).
      { destruct Ha as [Ha|(Hg & Ht & p & Hp & Ha)]; [exists []|exists [FTags p]]; (split; [done|]); [by left|].
        right. do 5 (split; [done|]). by exists p. }
      exists s', None, (no_rings c), err, L. do 5 (split; [done|]). split; [done|]. split; [done|]. intros Hg1 Hi1 Hd1 Hs1.
      destruct (task_create_succeeds e s i l c R Hf Hg1 Hi1 Hd1 Hs1) as (s1 & E1). rewrite E1 in E. by injection E. }
  destruct (Z.eqb_spec cmd CMD_RUN) as [->|H2].
  { destruct (task_run_ok e s i l o c R Hf (Hrun eq_refl)) as (s' & o' & c' & err & E & Hm & Hl & Hh & Hr).
    exists s', o', c', err, []. split; [done|]. split; [done|]. split; [done|]. split; [done|]. split; [by left|done]. }
  unfold vcablk_handle_task. rewrite (proj2 (Z.eqb_neq _ _) H1), (proj2 (Z.eqb_neq _ _) H2).
  destruct ((cmd =? CMD_STOP_NORMAL) || (cmd =? CMD_STOP_FORCE)).
  { destruct (stop_id_ok s i l o c R (cmd =? CMD_STOP_FORCE) Hf) as (s' & o' & err & -> & Hm & Hl & Hh & Ho & He).
    exists s', o', c, err, []. split; [done|]. split; [done|]. split; [done|]. split; [done|]. split; [by left|done]. }
  destruct (cmd =? CMD_DESTROY).
  { destruct (destroy_id_ok s i l o c R Hf) as (s' & -> & Hm & Hh).
    eexists s', None, (no_rings c), _, []. split; [done|]. split; [done|]. split; [done|]. split; [done|]. split; [by left|done]. }
  exists s, o, c, (- EIO), []. split; [done|]. split; [by eapply focus_moved_id|]. split; [apply Hf|]. split; [apply Hf|].
  split; [by left|done].
Qed.

(** ** The whole frontend *)

(** All resources are those of [base] and those of the disks; every disk is whole. *)
Record finv (base : list fres) (s : fsys) (l : list (option vcablk_disk)) : Prop := {
  fi_disks : vcablk_disks (fdev s) = Some l;
  fi_len : zlen l = max_dev (fdev s);
  fi_page : max_dev (fdev s) <= zlen (devs (page s));
  fi_live : forall i d, l !! i = Some (Some d) -> live d;
  fi_held : fheld s ≡ₚ base ++ concat (all_res <$> l);
  fi_irq : FIrq 0 ∉ fheld s;
}.

Lemma app_swap (k1 k2 k3 : list fres) : k1 ++ (k2 ++ k3) ≡ₚ k2 ++ (k1 ++ k3).
Proof. by rewrite !(assoc_L (++)), (Permutation_app_comm k1 k2). Qed.

Lemma concat_split (l : list (option vcablk_disk)) i o :
  l !! i = Some o -> exists rest, concat (all_res <$> l) ≡ₚ all_res o ++ rest
    /\ forall o', concat (fmap all_res (<[i := o']> l)) ≡ₚ all_res o' ++ rest.
Proof.
  revert i. induction l as [|x l IH]; intros i Hi; [done|]. destruct i as [|i]; cbn in *.
  - injection Hi as ->. by exists (concat (all_res <$> l)).
  - destruct (IH i Hi) as (rest & H1 & H2). exists (all_res x ++ rest).
    split; [rewrite H1|intros o'; rewrite H2]; apply app_swap.
Qed.

Lemma finv_focus base s l i :
  finv base s l -> 0 <= i < max_dev (fdev s) ->
  exists o c R, focus s i l o c R /\ (FIrq 0 ∉ R)
    /\ forall o' c' s' L, moved s i o' c' s' -> from_option live True o' -> fheld s' ≡ₚ all_res o' ++ L ++ R ->
         FIrq 0 ∉ all_res o' -> lost_tags L -> finv (L ++ base) s' (<[Z.to_nat i := o']> l).
Proof.
  intros [Hd Hlen Hp Hlive Hh Hirq] Hi.
  destruct (lookup_lt_is_Some_2 l (Z.to_nat i)) as [o Ho]; [unfold zlen in *; lia|].
  destruct (lookup_lt_is_Some_2 (devs (page s)) (Z.to_nat i)) as [c Hc]; [unfold zlen in *; lia|].
  destruct (concat_split l _ o Ho) as (rest & H1 & H2). exists o, c, (base ++ rest).
  assert (FIrq 0 ∉ base ++ rest) as Hn.
  { intros Hin. apply Hirq. rewrite Hh, H1. set_unfold. tauto. }
  split; [|split; [done|]].
  - split; try done; [destruct o as [d|]; [by eapply Hlive|done]|]. rewrite Hh, H1. apply app_swap.
  - intros o' c' s' L (l0 & El & Ef & Ep & Er) Hl' Hh' Hno HL. rewrite Hd in El. injection El as <-.
    split; rewrite ?Ef, ?Ep; cbn; rewrite ?zlen_insert; try done.
    + intros j d Hj. apply list_lookup_insert_Some in Hj as [(_ & -> & _)|[_ Hj]]; [done|by eapply Hlive].
    + rewrite Hh', H2, <- (assoc_L (++)), (app_swap (all_res o')), (app_swap (all_res o') base). done.
    + rewrite Hh'. rewrite !elem_of_app. intros [?|[Hin|[?|?]]]; [done| |apply Hn; set_unfold; tauto..].
      unfold lost_tags in HL. rewrite list.Forall_forall in HL. by destruct (HL _ Hin).
Qed.

Lemma irq_in_disk k d : FIrq k ∈ all_res (Some d) <-> 0 <= bio_done_db d /\ bio_done_irq d = k.
Proof.
  cbn. unfold disk_res, layer_res, rest_res, irq_res, opt_ring_res, ring_res. split.
  - intros Hin. destruct (gdisk d), (tag_set_initialized d), (request_thread d), (bio_context_pool d), (request_ring d),
      (completion_ring d), (Z.leb_spec 0 (bio_done_db d)); cbn in Hin; set_unfold in Hin; intuition congruence.
  - intros [Hdb <-]. rewrite (proj2 (Z.leb_le _ _) Hdb). rewrite !elem_of_app, !elem_of_cons. tauto.
Qed.

(** No command brings the cookie [NULL] into a disk. *)
Lemma task_post_no_null e cmd i o c o' c' err :
  env_ok e -> task_post e cmd i o c o' c' err -> FIrq 0 ∉ all_res o -> FIrq 0 ∉ all_res o'.
Proof.
  intros He Hp Hn. unfold task_post in Hp.
  destruct (cmd =? CMD_CREATE); [|destruct (cmd =? CMD_RUN); [|destruct ((cmd =? CMD_STOP_NORMAL) || (cmd =? CMD_STOP_FORCE));
    [|destruct (cmd =? CMD_DESTROY)]]].
  - destruct o as [d|]; [by destruct Hp as [-> _]|]. destruct Hp as (Hok & Hbad & _). destruct (decide (err = 0)) as [->|Hne].
    + destruct (Hok eq_refl) as (d & rq & cp & irq & -> & _ & Hirq & Hcr & _). rewrite irq_in_disk.
      destruct (cr_db _ _ _ _ _ _ _ Hcr) as (_ & _ & ->). intros [_ ->]. by apply (eo_irq _ He).
    + destruct (Hbad Hne) as [-> _]. apply not_elem_of_nil.
  - destruct Hp as [(_ & _ & _ & d & -> & _ & ->)|(_ & -> & _)]; [by rewrite irq_in_disk in *|apply not_elem_of_nil].
  - destruct Hp as (_ & -> & _). destruct o as [d|]; [|done]. case_if; [done|]. by rewrite irq_in_disk in *.
  - destruct Hp as [-> _]. apply not_elem_of_nil.
  - by destruct Hp as [-> _].
Qed.

(** What a pass over the page does to one disk and its entry. *)
Definition handled (e : cenv) (i : Z) (o : option vcablk_disk) (c : vcablk_device_ctrl)
    (o' : option vcablk_disk) (c' : vcablk_device_ctrl) : Prop :=
  if command c =? 0 then o' = o /\ c' = c
  else exists c1 err, task_post e (command c) i o c o' c1 err /\ c' = answered (command c) err c1.

(** A disk that was stopped is not to be run. *)
Definition sane (l : list (option vcablk_disk)) (p : vcablk_dev_page) : Prop :=
  forall j d c, l !! j = Some (Some d) -> devs p !! j = Some c -> command c = CMD_RUN -> gdisk d = true.

Lemma probe_step es s i base l :
  finv base s l -> 0 <= i < max_dev (fdev s) -> env_ok (es i) -> sane l (page s) ->
  exists s' o c o' c' L,
    (c ← aget (devs (page s)) i;
     if command c =? 0 then Ret s
     else '(s, err) ← vcablk_handle_task (es i) s (command c) i;
          p ← upd_dev (page s) i (answered (command c) err);
          Ret (set_page s p)) = Ret s'
    /\ l !! Z.to_nat i = Some o /\ devs (page s) !! Z.to_nat i = Some c /\ moved s i o' c' s'
    /\ handled (es i) i o c o' c' /\ lost (es i) (command c) o o' L /\ finv (L ++ base) s' (<[Z.to_nat i := o']> l).
Proof.
  intros Hinv Hi He Hsane. destruct (finv_focus base s l i Hinv Hi) as (o & c & R & Hf & Hn & Hback).
  rewrite (aget_ret _ _ c) by apply Hf. run_bind. destruct (Z.eqb_spec (command c) 0) as [H0|H0].
  { exists s, o, c, o, c, []. split; [done|]. split; [apply Hf|]. split; [apply Hf|]. split; [by eapply focus_moved_id|].
    split; [unfold handled; by rewrite H0|]. split; [by left|]. cbn. rewrite list_insert_id by apply Hf. done. }
  destruct (handle_task_ok (es i) s (command c) i l o c R Hf Hn He) as (s1 & o' & c1 & err & L & -> & Hm & Hl & Hh & HL & Hp).
  { intros Hr. destruct o as [d|]; [|done]. cbn. eapply Hsane; [apply Hf|apply Hf|done]. }
  run_bind. pose proof (focus_moved _ _ _ _ _ _ _ _ _ _ Hf Hm Hl Hh) as Hf1.
  rewrite (focus_upd _ _ _ _ _ _ Hf1) by done. run_bind.
  assert (moved s i o' (answered (command c) err c1)
    (set_page s1 (set_devs (page s1) (<[Z.to_nat i := answered (command c) err c1]> (devs (page s1)))))) as Hm2.
  { eapply moved_trans; [exact Hm|]. eexists. split; [apply Hf1|]. split; [|done]. cbn.
    rewrite list_insert_id by apply Hf1. destruct Hf1. destruct s1 as [[] ? ? ?]; cbn in *. by subst. }
  eexists _, o, c, o', _, L. split; [done|]. split; [apply Hf|]. split; [apply Hf|]. split; [exact Hm2|].
  split; [unfold handled; rewrite (proj2 (Z.eqb_neq _ _) H0); by exists c1, err|]. split; [done|]. apply (Hback _ _ _ _ Hm2); try done; [|by eapply lost_is_tags].
  eapply task_post_no_null; [done|exact Hp|]. intros Hin. apply (fi_irq _ _ _ Hinv).
  rewrite (fc_held _ _ _ _ _ _ Hf). set_unfold. tauto.
Qed.

(** Moving one disk leaves the others and their entries alone. *)
Lemma moved_frame s i o' c' s' l :
  moved s i o' c' s' -> vcablk_disks (fdev s) = Some l ->
  fdev s' = set_disks (fdev s) (Some (<[Z.to_nat i := o']> l))
  /\ devs (page s') = <[Z.to_nat i := c']> (devs (page s)) /\ rung s' = rung s
  /\ page s' = set_devs (page s) (devs (page s')).
Proof. intros (l0 & El & Ef & Ep & Er) El'. rewrite El' in El. injection El as <-. by rewrite Ep. Qed.

(** [r] is the tag set of the disk whose creation was asked for in entry [j] and refused by the block layer. *)
Definition refused (es : Z -> cenv) (l : list (option vcablk_disk)) (ds : list vcablk_device_ctrl) (l' : list (option vcablk_disk))
    (j : nat) (r : fres) : Prop :=
  let e := es (Z.of_nat j) in
  l !! j = Some None /\ l' !! j = Some None /\ (exists c, ds !! j = Some c /\ command c = CMD_CREATE)
  /\ e_tags e = 0 /\ e_gdisk e <> 0 /\ exists p, e_disk e = Some p /\ r = FTags p.

(** [L] is lost in a pass: at most one tag set for each entry from [i] on. *)
Definition lost_from (i : Z) (es : Z -> cenv) (l : list (option vcablk_disk)) (ds : list vcablk_device_ctrl)
    (l' : list (option vcablk_disk)) (L : list fres) : Prop :=
  exists js, NoDup js /\ Forall (fun j => i <= Z.of_nat j) js /\ Forall2 (refused es l ds l') js L.

Lemma lost_from_tags i es l ds l' L : lost_from i es l ds l' L -> lost_tags L.
Proof.
  intros (js & _ & _ & HL). unfold lost_tags. induction HL as [|j r js L (_ & _ & _ & _ & _ & p & _ & ->) HL IH]; constructor; [by exists p|done].
Qed.

Lemma lost_from_step i es l ds l' o c o' c' L L' :
  0 <= i -> l !! Z.to_nat i = Some o -> ds !! Z.to_nat i = Some c -> l' !! Z.to_nat i = Some o' ->
  lost (es i) (command c) o o' L -> lost_from (i + 1) es (<[Z.to_nat i := o']> l) (<[Z.to_nat i := c']> ds) l' L' ->
  lost_from i es l ds l' (L' ++ L).
Proof.
  intros Hi Ho Hc Ho' HL (js & Hnd & Hge & HL').
  assert (Forall2 (refused es l ds l') js L') as HL1.
  { clear Hnd. induction HL' as [|j r js L1 (H1 & H2 & (cj & H3 & H4) & H5) HL' IH]; constructor.
    - apply Forall_cons_1 in Hge as [Hj _]. rewrite list_lookup_insert_ne in H1 by lia. rewrite list_lookup_insert_ne in H3 by lia.
      split; [done|]. split; [done|]. split; [by exists cj|done].
    - apply IH. by apply Forall_cons_1 in Hge as [_ Hge]. }
  assert (Forall (fun j => i <= Z.of_nat j) js) as Hge' by (eapply List.Forall_impl; [|exact Hge]; cbn; intros; lia).
  destruct HL as [->|(Hcmd & -> & -> & Ht & Hg & p & Hp & ->)]; [exists js; by rewrite app_nil_r|].
  exists (js ++ [Z.to_nat i]). split; [|split].
  - apply list.NoDup_app. split; [done|]. split; [|apply NoDup_singleton]. intros j Hj Hin. apply list_elem_of_singleton in Hin as ->.
    rewrite List.Forall_forall in Hge. specialize (Hge _ (proj1 (list_elem_of_In _ _) Hj)). lia.
  - apply Forall_app. split; [done|]. repeat constructor. lia.
  - apply Forall2_app; [done|]. repeat constructor; rewrite ?Z2Nat.id by done; try done; [by exists c|by exists p].
Qed.

Lemma probe_loop_ok es n s i base l :
  finv base s l -> 0 <= i -> i + Z.of_nat n = max_dev (fdev s) -> (forall j, env_ok (es j)) -> sane l (page s) ->
  exists s' l' L, probe_loop es n s i = Ret s' /\ finv (L ++ base) s' l' /\ lost_from i es l (devs (page s)) l' L
    /\ rung s' = rung s /\ fdev s' = set_disks (fdev s) (Some l') /\ page s' = set_devs (page s) (devs (page s'))
    /\ zlen (devs (page s')) = zlen (devs (page s))
    /\ forall j o c, l !! j = Some o -> devs (page s) !! j = Some c ->
         exists o' c', l' !! j = Some o' /\ devs (page s') !! j = Some c'
           /\ (if i <=? Z.of_nat j then handled (es (Z.of_nat j)) (Z.of_nat j) o c o' c' else o' = o /\ c' = c).
Proof.
  revert s i base l. induction n as [|n IH]; intros s i base l Hinv Hi Hn He Hsane.
  { exists s, l, []. split; [done|]. split; [done|]. split; [exists []; repeat constructor|]. split; [done|]. split; [|split; [by rewrite set_devs_id|split; [done|]]].
    - destruct Hinv. destruct s as [[] ? ? ?]; cbn in *. by subst.
    - intros j o c Hj Hc. exists o, c. split; [done|]. split; [done|]. destruct (Z.leb_spec i (Z.of_nat j)); [|done].
      apply lookup_lt_Some in Hj. pose proof (fi_len _ _ _ Hinv). unfold zlen in *. lia. }
  cbn [probe_loop]. destruct (probe_step es s i base l Hinv ltac:(lia) (He i) Hsane)
    as (s1 & o & c & o' & c' & L & E & Ho & Hc & Hm & Hh & HL & Hinv1).
  destruct (moved_frame _ _ _ _ _ _ Hm (fi_disks _ _ _ Hinv)) as (Ef & Ep & Er & Epg).
  destruct (aget (devs (page s)) i) as [c0| | |] eqn:Ec; try discriminate E. cbn [mbind outcome_bind] in E |- *. rewrite E. run_bind.
  destruct (IH s1 (i + 1) _ _ Hinv1) as (s' & l' & L' & -> & Hinv' & HL' & Er' & Ef' & Epg' & Hz' & Hall).
  - lia.
  - rewrite Ef. cbn. lia.
  - done.
  - intros j d cj Hj Hcj Hrun. rewrite Ep in Hcj. destruct (decide (j = Z.to_nat i)) as [->|Hne].
    + rewrite list_lookup_insert_eq in Hcj by by eapply lookup_lt_Some. injection Hcj as <-. exfalso. clear - Hh Hrun Hj.
      unfold handled in Hh. destruct (Z.eqb_spec (command c) 0) as [H0|H0]; [destruct Hh as [_ ->]; by rewrite H0 in Hrun|].
      destruct Hh as (c1 & err & _ & ->). done.
    + rewrite list_lookup_insert_ne in Hj by done. rewrite list_lookup_insert_ne in Hcj by done. by eapply Hsane.
  - exists s', l', (L' ++ L). split; [done|]. split; [by rewrite <- (assoc_L (++))|]. split.
    { destruct (Hall (Z.to_nat i) o' c') as (o2 & c2 & Ho2 & _ & Hlast).
      - apply list_lookup_insert_eq. by eapply lookup_lt_Some.
      - rewrite Ep. apply list_lookup_insert_eq. by eapply lookup_lt_Some.
      - rewrite Z2Nat.id in Hlast by lia. destruct (Z.leb_spec (i + 1) i); [lia|]. destruct Hlast as [-> _].
        rewrite Ep in HL'. by eapply lost_from_step. }
    split; [by rewrite Er', Er|]. split; [by rewrite Ef', Ef|]. split; [rewrite Epg' at 1; rewrite Epg at 1; done|].
    split; [by rewrite Hz', Ep, zlen_insert|].
    intros j oj cj Hj Hcj. destruct (decide (j = Z.to_nat i)) as [->|Hne].
    + rewrite Ho in Hj. injection Hj as <-. rewrite Hc in Hcj. injection Hcj as <-.
      destruct (Hall (Z.to_nat i) o' c') as (o2 & c2 & Ho2 & Hc2 & Hlast).
      * apply list_lookup_insert_eq. by eapply lookup_lt_Some.
      * rewrite Ep. apply list_lookup_insert_eq. by eapply lookup_lt_Some.
      * rewrite Z2Nat.id in * by lia. destruct (Z.leb_spec (i + 1) i); [lia|]. destruct Hlast as [-> ->].
        exists o', c'. split; [done|]. split; [done|]. by rewrite (proj2 (Z.leb_le i i)) by lia.
    + destruct (Hall j oj cj) as (o2 & c2 & Ho2 & Hc2 & Hlast); [by rewrite list_lookup_insert_ne|by rewrite Ep, list_lookup_insert_ne|].
      exists o2, c2. split; [done|]. split; [done|].
      destruct (Z.leb_spec i (Z.of_nat j)), (Z.leb_spec (i + 1) (Z.of_nat j)); try done; lia.
Qed.

Lemma probe_work_ok es s base l :
  finv base s l -> has_pages (fdev s) = true -> destroy_devpage (page s) = 0 -> num_devices (page s) <> 0 ->
  0 <= max_dev (fdev s) -> (forall j, env_ok (es j)) -> sane l (page s) ->
  exists s' l' L, vcablk_probe_work es s = Ret s' /\ finv (L ++ base) s' l' /\ lost_from 0 es l (devs (page s)) l' L
    /\ rung s' = rung s ++ [f2b_db (fdev s)] /\ fdev s' = set_disks (fdev s) (Some l')
    /\ page s' = set_devs (page s) (devs (page s'))
    /\ zlen (devs (page s')) = zlen (devs (page s))
    /\ forall j o c, l !! j = Some o -> devs (page s) !! j = Some c ->
         exists o' c', l' !! j = Some o' /\ devs (page s') !! j = Some c'
           /\ command c' = 0 /\ handled (es (Z.of_nat j)) (Z.of_nat j) o c o' c'.
Proof.
  intros Hinv Hp Hd Hnum Hm He Hsane. unfold vcablk_probe_work. rewrite Hp, Hd. cbn [negb Z.eqb].
  rewrite (proj2 (Z.eqb_neq _ _) Hnum).
  destruct (probe_loop_ok es (Z.to_nat (max_dev (fdev s))) s 0 base l Hinv) as (s' & l' & L & -> & Hinv' & HL & Er & Ef & Epg & Hz & Hall); [lia|lia|done..|].
  run_bind. eexists _, l', L. split; [done|]. split; [by destruct Hinv'|]. split; [done|]. split; [cbn; by rewrite Er, Ef|].
  split; [exact Ef|]. split; [exact Epg|]. split; [exact Hz|].
  intros j o c Hj Hc. destruct (Hall j o c Hj Hc) as (o' & c' & Ho' & Hc' & Hh). exists o', c'. split; [done|]. split; [done|].
  rewrite (proj2 (Z.leb_le 0 (Z.of_nat j))) in Hh by lia. split; [|done]. unfold handled in Hh.
  destruct (Z.eqb_spec (command c) 0); [by destruct Hh as [_ ->]|]. by destruct Hh as (c1 & err & _ & ->).
Qed.


(** ** Starting and stopping the frontend *)

Definition rings_of (o : option vcablk_disk) : list fres :=
  match o with
  | Some d => opt_ring_res (request_ring d) ++ opt_ring_res (completion_ring d)
  | None => []
  end.

Lemma clean_loop_ok l s R :
  (forall i d, l !! i = Some (Some d) -> live d) -> fheld s ≡ₚ R ++ concat (all_res <$> l) ->
  exists s', clean_loop l s = Ret s' /\ same_but_held s s' /\ fheld s' ≡ₚ R ++ concat (rings_of <$> l).
Proof.
  revert s R. induction l as [|[d|] l IH]; intros s R Hl Hh; cbn [clean_loop].
  - by exists s.
  - assert (live d) as Hd by by apply (Hl 0%nat). cbn in Hh. unfold disk_res in Hh. rewrite <- !(assoc_L (++)), app_swap in Hh.
    destruct (vcablk_disk_stop_ok s d true _ (live_quiet _ Hd) Hh) as (s1 & d1 & err & -> & Hs1 & Hh1 & Hd1). run_bind.
    assert (quiet d1 /\ tag_set_initialized d1 = gdisk d1 /\ rest_res d1 = rest_res d /\ irq_res d1 = irq_res d
      /\ rings_of (Some d1) = rings_of (Some d)) as (Hq1 & Ht1 & E1 & E2 & E3).
    { destruct (gdisk d); cbn in Hd1; [|destruct Hd1 as (-> & _ & _); by split; [apply live_quiet|split; [apply Hd|]]].
      destruct Hd1 as [-> _]. split; [|done]. apply live_quiet in Hd. done. }
    destruct (vcablk_disk_destroy_ok s1 d1 (R ++ rings_of (Some d) ++ concat (all_res <$> l)) Hq1 Ht1) as (s2 & -> & Hs2 & Hh2).
    { rewrite Hh1. unfold disk_res. rewrite E1, E2, <- !(assoc_L (++)). cbn [rings_of]. rewrite <- !(assoc_L (++)). f_equiv.
      rewrite app_swap. f_equiv. apply app_swap. }
    run_bind. rewrite (assoc_L (++)) in Hh2. destruct (IH s2 _ ltac:(intros i; apply (Hl (S i))) Hh2) as (s' & -> & Hs' & Hh').
    exists s'. split; [done|]. split; [by do 2 (eapply same_trans; [done|])|]. cbn in Hh' |- *. rewrite Hh'. by rewrite <- !(assoc_L (++)).
  - destruct (IH s R ltac:(intros i; apply (Hl (S i))) Hh) as (s' & -> & Hs' & Hh'). by exists s'.
Qed.

(** Starting the frontend on a page and stopping it again.  A successful start
    leaves a consistent frontend without disks; a stop ends all disks and gives
    back what the start took, but the memory and the mappings of the rings of the
    disks are lost. *)
Theorem vcablk_deinit_loses_rings waited s l base held :
  finv base s l -> base ≡ₚ FArray :: FIrq (probe_db_cookie (fdev s)) :: FDev :: held -> 0 <= probe_db (fdev s) ->
  exists s', vcablk_deinit waited s = Ret s' /\ vcablk_disks (fdev s') = None /\ has_pages (fdev s') = false
    /\ fheld s' ≡ₚ held ++ concat (rings_of <$> l).
Proof.
  intros Hinv Hb Hdb. unfold vcablk_deinit, vcablk_clean. rewrite (fi_disks _ _ _ Hinv).
  destruct (clean_loop_ok l s base (fi_live _ _ _ Hinv) (fi_held _ _ _ Hinv)) as (s1 & -> & [Hf Hp Hr] & Hh). run_bind.
  unfold vcablk_set_empty_devpage. cbn [fdev free_res set_fheld set_fdev has_pages set_disks]. rewrite Hf.
  eexists. split; [done|]. destruct (has_pages (fdev s)); cbn; rewrite (proj2 (Z.leb_le _ _) Hdb); cbn; (split; [done|]); (split; [done|]);
    do 3 apply release_held; by rewrite Hh, Hb.
Qed.

(** Starting the frontend: when the kernel grants everything, the frontend is
    consistent, has no disks and the page announces room for the disks that fit into
    it.  Otherwise an error is returned, but an interrupt that was requested stays
    requested on the freed frontend, and every failure after the first allocation,
    except that of announcing the page, frees the device of the caller. *)
Theorem vcablk_init_correct e pg size f2b held :
  SIZEOF_DEV_PAGE <= size < 2 ^ 31 -> (size - SIZEOF_DEV_PAGE) / SIZEOF_DEVICE_CTRL <= zlen (devs pg) ->
  FIrq 0 ∉ held -> i_irq e <> Some 0 ->
  let n := (size - SIZEOF_DEV_PAGE) / SIZEOF_DEVICE_CTRL in
  let irq := i_dev e && i_major e && (0 <=? i_db e) && bool_decide (is_Some (i_irq e)) in
  exists s err freed, vcablk_init e pg size f2b held = Ret (s, err, freed) /\
  if irq && i_array e && (i_set_page e =? 0)
  then err = None /\ freed = false
    /\ finv (FArray :: FIrq (probe_db_cookie (fdev s)) :: FDev :: held) s (replicate (Z.to_nat n) None)
    /\ probe_db (fdev s) = i_db e /\ has_pages (fdev s) = true
    /\ num_devices (page s) = n /\ version_frontend (page s) = VCA_BLK_VERSION /\ reinit_dev_page (page s) = 1
    /\ destroy_devpage (page s) = 0 /\ notify_frontend_db (page s) = i_db e
  else is_Some err /\ freed = i_dev e && negb (irq && i_array e)
    /\ fheld s ≡ₚ (if irq then [FIrq (default 0 (i_irq e))] else []) ++ held.
Proof.
  intros Hsz Hn Hno Hc n irq. unfold vcablk_init, irq.
  destruct (i_dev e); cbn [negb andb]; [|eexists _, (Some _), _; split; [done|]; split; [by eexists|done]].
  destruct (i_major e); cbn [negb andb];
    [|eexists _, (Some _), _; split; [done|]; split; [by eexists|]; cbn -[release]; by rewrite release_head].
  destruct (Z.ltb_spec (i_db e) 0), (Z.leb_spec 0 (i_db e)); try lia; cbn [andb].
  { eexists _, (Some _), _; split; [done|]; split; [by eexists|]; cbn -[release]; by rewrite release_head. }
  destruct (i_irq e) as [c|]; cbn [andb].
  2:{ rewrite bool_decide_false by (by intros []).
      eexists _, (Some _), _; split; [done|]; split; [by eexists|]; cbn -[release]; by rewrite release_head. }
  rewrite bool_decide_true by done. cbn [andb].
  destruct (i_array e); cbn [negb andb].
  2:{ eexists _, (Some _), _; split; [done|]; split; [by eexists|]; cbn -[release]. by rewrite release_second. }
  destruct (Z.eqb_spec (i_set_page e) 0) as [Es|Es]; cbn [negb].
  2:{ eexists _, (Some _), _; split; [done|]; split; [by eexists|]; cbn -[release]. by rewrite release_head, release_second. }
  assert (0 <= n < 2 ^ 31) as Hn31.
  { unfold n, SIZEOF_DEVICE_CTRL. split; [apply Z.div_pos; lia|]. apply Z.div_lt_upper_bound; [lia|]. unfold SIZEOF_DEV_PAGE in *. lia. }
  assert (u32 (u64 (u32 size - SIZEOF_DEV_PAGE) / SIZEOF_DEVICE_CTRL) = n) as En.
  { unfold SIZEOF_DEV_PAGE in *. rewrite (u32_small size), (u64_small (size - 304)) by lia. apply u32_small. unfold n in Hn31. lia. }
  rewrite En. do 3 eexists. split; [done|]. cbn. rewrite ?(s32_small n) by lia. split; [done|]. split; [done|]. split; [|done].
  split; cbn -[zlen]; rewrite ?(s32_small n) by lia.
  - done.
  - rewrite zlen_replicate. lia.
  - exact Hn.
  - intros i d Hi. by apply lookup_replicate in Hi as [? _].
  - assert (concat (fmap all_res (replicate (Z.to_nat n) None)) = []) as ->.
    { clear. induction (Z.to_nat n) as [|k IH]; [done|]. exact IH. }
    by rewrite app_nil_r.
  - rewrite !elem_of_cons. intros [?|[Hc'|[?|?]]]; try done. injection Hc' as <-. done.
Qed.

(** Two error paths of [vcablk_disk_create] go wrong.  When the pool or the interrupt
    is refused, the disk is destroyed with a doorbell but without a cookie, and
    freeing the cookie [NULL] takes the interrupt from whoever holds the identifier 0.
    When the block layer gives the tag set but refuses the disk, the tag set is not
    given back, because a disk without [gdisk] is taken for a stopped one. *)
Theorem vcablk_disk_create_error_paths e s id size ro rq cp db rdb R p :
  0 <= db -> 0 <= rdb -> size mod SECTOR_SIZE = 0 -> e_disk e = Some p ->
  (e_pool e = false \/ e_irq e = None -> fheld s ≡ₚ FIrq 0 :: R ->
   exists s' err, vcablk_disk_create e s id size ro (Some rq) (Some cp) db rdb = Ret (s', inr err) /\ fheld s' ≡ₚ R)
  /\ (e_pool e = true -> is_Some (e_irq e) -> e_tags e = 0 -> e_gdisk e <> 0 -> fheld s ≡ₚ R ->
   exists s', vcablk_disk_create e s id size ro (Some rq) (Some cp) db rdb = Ret (s', inr (e_gdisk e)) /\ fheld s' ≡ₚ FTags p :: R).
Proof.
  intros Hdb Hrdb Hsz Hp. unfold vcablk_disk_create. rewrite (proj2 (Z.ltb_ge _ _) Hrdb), Hsz, Hp. cbn [negb Z.eqb].
  rewrite (proj2 (Z.ltb_ge _ _) Hdb). split.
  - intros Hbad Hh. destruct (e_pool e).
    + destruct pool_init_ok as (q & -> & Hu). run_bind. destruct Hbad as [?| ->]; [done|].
      match goal with |- context [vcablk_disk_destroy ?s1 (Some ?d)] =>
        destruct (vcablk_disk_destroy_ok s1 d R) as (s' & -> & _ & Hh') end; [exact Hu|done| |run_bind; by eexists _, _].
      unfold disk_res, rest_res, irq_res. cbn. rewrite (proj2 (Z.leb_le _ _) Hdb), Hh. done.
    + change (Pool.vcablk_pool_init tt VCABLK_BIO_CTX_POOL_SIZE false) with (@Ret (option (Pool.vcablk_pool unit)) None). run_bind.
      match goal with |- context [vcablk_disk_destroy ?s1 (Some ?d)] =>
        destruct (vcablk_disk_destroy_ok s1 d R) as (s' & -> & _ & Hh') end; [done|done| |run_bind; by eexists _, _].
      unfold disk_res, rest_res, irq_res. cbn. rewrite (proj2 (Z.leb_le _ _) Hdb), Hh. done.
  - intros -> [c Hc] Ht Hg Hh. destruct pool_init_ok as (q & -> & Hu). run_bind. rewrite Hc. unfold create_gdisk.
    rewrite Ht. cbn [negb Z.eqb]. rewrite (proj2 (Z.eqb_neq _ _) Hg). cbn [negb].
    match goal with |- context [vcablk_disk_destroy ?s1 (Some ?d)] =>
      destruct (vcablk_disk_destroy_gen s1 d (irq_res d) R) as (s' & -> & _ & Hh') end; [exact Hu| |by left|].
    + unfold rest_res, irq_res. cbn. rewrite (proj2 (Z.leb_le _ _) Hdb), Hh. cbn.
      f_equiv. exact (Permutation_middle [FPool p; FDisk p] R (FIrq c)).
    + run_bind. by eexists.
Qed.

(** ** Witnesses *)

Definition demo_ring (va da n : Z) : fring := mkRing va n SIZEOF_REQUEST 0 0 (SIZEOF_RING + n * SIZEOF_REQUEST) da.
Definition demo_pool : Pool.vcablk_pool unit := Pool.mkPool 3 0 2 [1; 2; 0] [tt; tt; tt].
Definition demo_disk : vcablk_disk :=
  mkDisk 100 4096 8 false 0 0 true true true true 5 11 6 (Some (demo_ring 200 300 1024)) (Some (demo_ring 201 301 32)) (Some demo_pool).
Definition demo_ctrl cmd : vcablk_device_ctrl := mkCtrl cmd 8192 0 7 (mkResp 0 0 (-1) 0 0 0 0).
(** Disk 0 runs and is to be stopped, disk 1 is to be created. *)
Definition demo_fsys : fsys :=
  mkFsys (mkFdev true 3 9 2 (Some [Some demo_disk; None]) 15)
    (mkPage VCA_BLK_VERSION 448 0 0 0 2 0 15 3 [demo_ctrl CMD_STOP_NORMAL; demo_ctrl CMD_CREATE])
    ([FArray; FIrq 9; FDev] ++ all_res (Some demo_disk)) [].
Definition demo_env : cenv := mkCenv (Got 202 302) (Got 203 303) 6 (Some 101) true (Some 12) 0 0 true 0.

Lemma demo_live : live demo_disk.
Proof. split; cbn; try done; by exists demo_pool. Qed.
Lemma demo_finv : finv [FArray; FIrq 9; FDev] demo_fsys [Some demo_disk; None].
Proof.
  split; try done.
  - intros [|[|i]] d Hi; [injection Hi as <-; apply demo_live|done|done].
  - intros Hin. apply (bool_decide_pack _) in Hin. by vm_compute in Hin.
Qed.


Lemma vcablk_deinit_loses_rings_witness :
  exists s', vcablk_deinit (fun p => p) demo_fsys = Ret s' /\ vcablk_disks (fdev s') = None /\ has_pages (fdev s') = false
    /\ fheld s' ≡ₚ [] ++ [FMem 200; FMap 300 32792; FMem 201; FMap 301 1048].
Proof. apply (vcablk_deinit_loses_rings (fun p => p) demo_fsys [Some demo_disk; None] [FArray; FIrq 9; FDev] []); [apply demo_finv|done|done]. Defined.

Lemma vcablk_init_correct_witness :
  exists s err freed, vcablk_init (mkIenv true true 4 (Some 9) false 0) (page demo_fsys) 448 15 [] = Ret (s, err, freed)
    /\ is_Some err /\ freed = true /\ fheld s ≡ₚ [FIrq 9].
Proof.
  apply (vcablk_init_correct (mkIenv true true 4 (Some 9) false 0) (page demo_fsys) 448 15 []); [done|by vm_compute|by apply not_elem_of_nil|done].
Defined.

Lemma vcablk_disk_create_error_paths_witness :
  exists s' err, vcablk_disk_create (mkCenv NoMem NoMem 6 (Some 101) false (Some 12) 0 0 true 0) (set_fheld demo_fsys [FIrq 0]) 1 4096 false
    (Some (demo_ring 1 2 4)) (Some (demo_ring 3 4 4)) 6 7 = Ret (s', inr err) /\ fheld s' ≡ₚ [].
Proof.
  apply (vcablk_disk_create_error_paths (mkCenv NoMem NoMem 6 (Some 101) false (Some 12) 0 0 true 0) (set_fheld demo_fsys [FIrq 0]) 1 4096 false
    (demo_ring 1 2 4) (demo_ring 3 4 4) 6 7 [] 101); [done|done|done|done|by left|done].
Defined.


End BlkFrontCtl.
