(* ===== verification/BlkBackCtl.v ===== *)
(** * The block device backend: control

    [src/modules/vca/blockio/vcablk_bcknd/vcablk_bcknd.c]: the ioctls that open and close
    disks, the device page of the frontend and the handshake through it.  The disks
    are those of an interface ([BckndDisk]), which [BlkLifecycle] implements.  The
    system is the backend together with a frontend ([BlkFrontCtl]) and the page they
    share; what happens while the backend waits is an argument. *)

From Stdlib Require Import ZArith Lia.
From stdpp Require Import base sets list numbers option tactics.
From S2P Require Import Prelude Pool BlkFrontend BlkMedia BlkBackend BlkLifecycle BlkFrontCtl.
#[local] Open Scope Z_scope.

Module BlkBackCtl.
Import DevPage BlkFrontCtl.
Import BlkMedia(VCABLK_DISK_TYPE(..), VCABLK_DISK_TYPE_UNINIT, VCABLK_DISK_TYPE_FILE, VCABLK_DISK_TYPE_MEMORY).
Import BlkBackend(DISK_STATE_CREATE, DISK_STATE_OPEN).
Import BlkLifecycle(vcablk_disk_open_desc, d_disk_id, d_type).

Definition VCA_BLK_BCKND_MAGIC : Z := 0xB10CBACE.
Definition VCA_FLAG_EVENTS_FRONTEND_DUMP_START : Z := 2 ^ 30.
Definition VCA_FLAG_EVENTS_FRONTEND_DUMP_END : Z := 2 ^ 31.
Definition ENOTTY : Z := 25.

(** ** The disks, seen from the control *)

(** [D]: disks; [E]: what the kernel answers.  [disk_rings]: the addresses of the
    rings that the disk has mapped. *)
Class BckndDisk (D E : Type) := {
  disk_state : D -> Z;
  disk_id : D -> Z;
  disk_rings : D -> option (Z * Z);
  media_read_only : D -> bool;
  media_size : D -> Z;
  disk_create : E -> vcablk_disk_open_desc -> outcome (D + Z);
  disk_prepare_request_db : E -> D -> D * Z;
  disk_start : E -> D -> Z -> Z -> Z -> Z -> Z -> D * Z;
  disk_stop : D -> D;
}.

(** What the control relies on. *)
Class BckndDiskOk (D E : Type) `{BckndDisk D E} := {
  disk_create_ok : forall e desc d, disk_create e desc = Ret (inl d) ->
    disk_state d = DISK_STATE_CREATE /\ disk_id d = d_disk_id desc /\ disk_rings d = None;
  disk_prepare_ok : forall e d d' db, disk_prepare_request_db e d = (d', db) ->
    disk_state d' = disk_state d /\ disk_id d' = disk_id d /\ disk_rings d' = disk_rings d;
  disk_start_ok : forall e d db rq rqs cp cps d' err, disk_start e d db rq rqs cp cps = (d', err) ->
    disk_id d' = disk_id d
    /\ (err = 0 -> disk_state d' = DISK_STATE_OPEN /\ disk_rings d' = Some (rq, cp))
    /\ (err <> 0 -> disk_state d = DISK_STATE_CREATE -> disk_rings d = None ->
          disk_state d' = DISK_STATE_CREATE /\ disk_rings d' = None);
  disk_stop_ok : forall d, disk_state (disk_stop d) = DISK_STATE_CREATE /\ disk_id (disk_stop d) = disk_id d
    /\ disk_rings (disk_stop d) = None;
}.

(** ** State *)

Record vcablk_bcknd_dev (D : Type) := mkBdev {
  dev_pages_remapped : bool;
  device_array : list (option D);
  ftb_db : Z;
  ftb_db_cookie : Z;
  dp_addr : Z;
}.
Arguments mkBdev {_}. Arguments dev_pages_remapped {_}. Arguments device_array {_}. Arguments ftb_db {_}.
Arguments ftb_db_cookie {_}. Arguments dp_addr {_}.

(** The frontend with the page, the backend, the address of the page that the
    hardware shows, and the doorbells that the backend rang. *)
Record sys (D : Type) := mkSys {
  front : fsys;
  bdev : vcablk_bcknd_dev D;
  hw_dp : Z;
  b_rung : list Z;
}.
Arguments mkSys {_}. Arguments front {_}. Arguments bdev {_}. Arguments hw_dp {_}. Arguments b_rung {_}.

Section Control.
Context {D E : Type} `{!BckndDisk D E}.
#[local] Abbreviation sys := (sys D).
#[local] Abbreviation bdev_t := (vcablk_bcknd_dev D).
Implicit Types s : sys.

(** The parameter of the module, and what [ioremap] of a page gives. *)
Context (vcablk_bcknd_max_dev : Z) (ioremap_ok : Z -> Z -> bool).

Definition pg s : vcablk_dev_page := page (front s).
Definition set_pg s p : sys := mkSys (set_page (front s) p) (bdev s) (hw_dp s) (b_rung s).
Definition set_bdev s b : sys := mkSys (front s) b (hw_dp s) (b_rung s).
Definition set_front s f : sys := mkSys f (bdev s) (hw_dp s) (b_rung s).
Definition set_hw_dp s v : sys := mkSys (front s) (bdev s) v (b_rung s).
Definition ring s db : sys := mkSys (front s) (bdev s) (hw_dp s) (b_rung s ++ [db]).
Definition set_array (b : bdev_t) l : bdev_t := mkBdev (dev_pages_remapped b) l (ftb_db b) (ftb_db_cookie b) (dp_addr b).
Definition set_map (b : bdev_t) m a : bdev_t := mkBdev m (device_array b) (ftb_db b) (ftb_db_cookie b) a.
Definition set_ftb (b : bdev_t) db c : bdev_t := mkBdev (dev_pages_remapped b) (device_array b) db c (dp_addr b).

Definition get_bckd s (i : Z) : outcome (option D) := aget (device_array (bdev s)) i.
Definition put_bckd s (i : Z) (d : option D) : outcome sys :=
  l ← aset (device_array (bdev s)) i d; Ret (set_bdev s (set_array (bdev s) l)).
Definition upd_ctrl s (i : Z) (f : vcablk_device_ctrl -> vcablk_device_ctrl) : outcome sys :=
  p ← upd_dev (pg s) i f; Ret (set_pg s p).

(** A command in the entry of a disk, with the answer reset.  [ack]: whether the old
    acknowledgement is reset too. *)
Definition post_command (ack : bool) (cmd : Z) (c : vcablk_device_ctrl) : vcablk_device_ctrl :=
  set_command (set_response c (set_ack (response c) 0 (if ack then 0 else command_ack (response c)))) cmd.
Definition clear_ack (c : vcablk_device_ctrl) : vcablk_device_ctrl :=
  set_response c (set_ack (response c) (status (response c)) 0).

(** [wait_event_interruptible_timeout] for the acknowledgement of the disk [i], and
    what follows; [wait] is what happens meanwhile, [intr] whether a signal ends it. *)
Definition await_ack (wait : sys -> outcome sys) (intr : bool) s (i : Z) : outcome (sys * Z) :=
  s ← wait s;
  c ← aget (devs (pg s)) i;
  if (command_ack (response c) =? 0) && negb intr then Ret (s, - ENODEV)
  else s ← upd_ctrl s i clear_ack; Ret (s, s32 (status (response c))).

Definition vcablk_bcknd_try_stop_frontend wait intr s (i : Z) (force : bool) : outcome (sys * Z) :=
  d ← get_bckd s i;
  match d with
  | None => Ret (s, - ENODEV)
  | Some d =>
      if disk_state d =? DISK_STATE_OPEN then
        if dev_pages_remapped (bdev s) then
          s ← upd_ctrl s i (post_command false (if force then CMD_STOP_FORCE else CMD_STOP_NORMAL));
          let s := ring s (notify_frontend_db (pg s)) in
          await_ack wait intr s i
        else Ret (s, 0)
      else Ret (s, 0)
  end.

Definition vcablk_bcknd_try_destroy_frontend wait intr s (i : Z) : outcome (sys * Z) :=
  d ← get_bckd s i;
  match d with
  | None => Ret (s, - ENODEV)
  | Some d =>
      if dev_pages_remapped (bdev s) then
        s ← upd_ctrl s i (post_command true CMD_DESTROY);
        let s := ring s (notify_frontend_db (pg s)) in
        '(s, err) ← await_ack wait intr s i;
        d' ← get_bckd s i;
        Ret (s, if disk_state (default d d') =? DISK_STATE_CREATE then err else - EIO)
      else Ret (s, 0)
  end.

Definition vcablk_bcknd_destroy wait intr s (i : Z) (force : bool) : outcome (sys * Z) :=
  d ← get_bckd s i;
  match d with
  | None => Ret (s, - ENODEV)
  | Some d =>
      '(s, err) ← (if disk_state d =? DISK_STATE_OPEN then vcablk_bcknd_try_stop_frontend wait intr s i force
                   else Ret (s, 0));
      if (disk_state d =? DISK_STATE_OPEN) && negb force && (err =? - EBUSY) then Ret (s, err)
      else
        '(s, _) ← vcablk_bcknd_try_destroy_frontend wait intr s i;
        s ← put_bckd s i None;
        Ret (s, 0)
  end.

(** [has_page]: whether the pointer to the page is valid. *)
Definition vcablk_bcknd_add_to_devpage (e : E) s (d : D) : outcome (sys * Z) :=
  let i := disk_id d in
  if num_devices (pg s) <=? u32 i then Ret (s, - ENOSPC)
  else if negb (disk_state d =? DISK_STATE_CREATE) then Ret (s, - EIO)
  else
    let '(d', db) := disk_prepare_request_db e d in
    s ← put_bckd s i (Some d');
    s ← upd_ctrl s i (fun c => mkCtrl CMD_CREATE (media_size d) (b2z (media_read_only d)) db (response c));
    Ret (s, 0).

Definition vcablk_bcknd_create (e : E) s (desc : vcablk_disk_open_desc) : outcome (sys * Z) :=
  let i := d_disk_id desc in
  if (i <? 0) || (vcablk_bcknd_max_dev <=? i) then Ret (s, - EINVAL)
  else
    d ← get_bckd s i;
    match d with
    | Some _ => Ret (s, - EBUSY)
    | None =>
        r ← disk_create e desc;
        match r with
        | inr err => Ret (s, err)
        | inl d =>
            s ← put_bckd s i (Some d);
            if dev_pages_remapped (bdev s) then
              '(s, err) ← vcablk_bcknd_add_to_devpage e s d;
              if negb (err =? 0) then Ret (s, err)
              else Ret (ring s (notify_frontend_db (pg s)), 0)
            else Ret (s, 0)
        end
    end.

(** ** The device page *)

(** The loop that stops the open disks. *)
Definition stop_open (d : option D) : option D :=
  match d with
  | Some d => Some (if disk_state d =? DISK_STATE_OPEN then disk_stop d else d)
  | None => None
  end.

Definition vcablk_bcknd_close_dev_page s : sys :=
  let b := set_map (bdev s) false 0 in
  set_bdev s (set_array b (stop_open <$> device_array b)).

(** Adding the disks that wait for a frontend; the errors are ignored. *)
Fixpoint readd_loop (es : Z -> E) (n : nat) s (i : Z) : outcome sys :=
  match n with
  | O => Ret s
  | S n =>
      d ← get_bckd s i;
      s ← match d with
          | Some d =>
              if disk_state d =? DISK_STATE_CREATE
              then '(s, _) ← vcablk_bcknd_add_to_devpage (es i) s d; Ret s else Ret s
          | None => Ret s
          end;
      readd_loop es n s (i + 1)
  end.

(** Whether the page can be used. *)
Definition page_valid (p : vcablk_dev_page) : bool :=
  (version_frontend p =? VCA_BLK_VERSION) && (SIZEOF_DEV_PAGE <=? dev_page_size p) && negb (reinit_dev_page p =? 0)
  && (destroy_devpage p =? 0)
  && (num_devices p <=? (dev_page_size p - SIZEOF_DEV_PAGE) / SIZEOF_DEVICE_CTRL).

(** Whether the page was opened. *)
Definition vcablk_bcknd_open_dev_page (es : Z -> E) s (phy : Z) : outcome (sys * bool) :=
  if negb (ioremap_ok phy SIZEOF_DEV_PAGE) then Ret (s, false)
  else if negb (page_valid (pg s)) then Ret (s, false)
  else if negb (ioremap_ok phy (dev_page_size (pg s))) then Ret (s, false)
  else
    let num := if vcablk_bcknd_max_dev <=? num_devices (pg s) then vcablk_bcknd_max_dev else num_devices (pg s) in
    let s := set_pg s (set_backend (pg s) num (ftb_db (bdev s)) VCA_BLK_BCKND_MAGIC) in
    s ← readd_loop es (Z.to_nat num) s 0;
    Ret (s, true).

Definition vcablk_bcknd_set_dev_page (es : Z -> E) s (phy : Z) : outcome sys :=
  if phy =? 0 then Ret (vcablk_bcknd_close_dev_page s)
  else if dev_pages_remapped (bdev s) && (phy =? dp_addr (bdev s)) && (reinit_dev_page (pg s) =? 0) then Ret s
  else
    let s := if dev_pages_remapped (bdev s) then vcablk_bcknd_close_dev_page s else s in
    '(s, ok) ← vcablk_bcknd_open_dev_page es s phy;
    if (ok : bool) then Ret (ring (set_bdev s (set_map (bdev s) true phy)) (notify_frontend_db (pg s)))
    else Ret (set_bdev s (set_map (bdev s) false (dp_addr (bdev s)))).

(** ** The answers of the frontend *)

(** The answer of one disk: the loop body of [vcablk_bcknd_ftb_work]. *)
Definition ftb_answer (e : E) s (i : Z) : outcome sys :=
  c ← aget (devs (pg s)) i;
  let ack := command_ack (response c) in
  let err := s32 (status (response c)) in
  if ack =? 0 then Ret s
  else
    d ← get_bckd s i;
    match d with
    | None => Ret s
    | Some d =>
        if ack =? CMD_CREATE then
          s ← upd_ctrl s i clear_ack;
          let r := response c in
          let '(d', err) := if err =? 0
                            then disk_start e d (r_done_db r) (r_request_ring r) (r_request_ring_size r)
                                   (r_completion_ring r) (r_completion_ring_size r)
                            else (d, err) in
          s ← put_bckd s i (Some d');
          if err =? 0 then
            s ← upd_ctrl s i (fun c => set_command c CMD_RUN);
            Ret (ring s (notify_frontend_db (pg s)))
          else Ret s
        else if ack =? CMD_RUN then upd_ctrl s i clear_ack
        else if (ack =? CMD_STOP_NORMAL) || (ack =? CMD_STOP_FORCE) || (ack =? CMD_DESTROY) then Ret s
        else upd_ctrl s i clear_ack
    end.

Fixpoint ftb_loop (es : Z -> E) (n : nat) s (i : Z) : outcome sys :=
  match n with
  | O => Ret s
  | S n => s ← ftb_answer (es i) s i; ftb_loop es n s (i + 1)
  end.

(** What the page asks for besides commands; whether it is still open. *)
Definition ftb_events (es : Z -> E) s : outcome (sys * bool) :=
  if negb (version_frontend (pg s) =? VCA_BLK_VERSION) || negb (valid_magic_bcknd (pg s) =? VCA_BLK_BCKND_MAGIC) then
    s ← vcablk_bcknd_set_dev_page es s 0; Ret (set_hw_dp s 0, false)
  else
    let s := set_pg s (set_flags (pg s) (Z.land (flags_events (pg s))
               (Z.lnot (Z.lor VCA_FLAG_EVENTS_FRONTEND_DUMP_START VCA_FLAG_EVENTS_FRONTEND_DUMP_END)))) in
    if destroy_devpage (pg s) =? DESTROY_DEV_PAGE_INIT then
      let ack_db := notify_frontend_db (pg s) in
      let s := set_pg s (set_destroy (pg s) DESTROY_DEV_PAGE_END) in
      s ← vcablk_bcknd_set_dev_page es s 0;
      Ret (ring (set_hw_dp s 0) ack_db, false)
    else Ret (s, true).

Definition vcablk_bcknd_ftb_work (es : Z -> E) s : outcome sys :=
  let dp := hw_dp s in
  s ← (if negb (dp_addr (bdev s) =? 0) && negb (dp =? dp_addr (bdev s)) then vcablk_bcknd_set_dev_page es s 0
       else if dev_pages_remapped (bdev s) then '(s, _) ← ftb_events es s; Ret s
       else Ret s);
  s ← (if dp =? 0 then Ret s
       else
         s ← vcablk_bcknd_set_dev_page es s dp;
         Ret (if dev_pages_remapped (bdev s) then s else set_hw_dp s 0));
  if negb (dev_pages_remapped (bdev s)) then Ret s
  else
    let num := Z.min (num_devices (pg s)) vcablk_bcknd_max_dev in
    ftb_loop es (Z.to_nat num) s 0.

(** ** Requests of the user *)

(** The requests that open and close disks, and an unknown one; the requests that only
    report (the version, the number of disks, the description of a disk) are left out. *)
Inductive ioctl := VCA_BLK_OPEN_DISC (desc : vcablk_disk_open_desc) | VCA_BLK_CLOSE_DISC (id : Z) | OtherIoctl.

(** [copy_ok], [vmalloc_ok]: whether the argument can be copied. *)
Definition vcablk_bcknd_ioctl (copy_ok vmalloc_ok : bool) (e : E) wait intr s (cmd : ioctl) : outcome (sys * Z) :=
  match cmd with
  | VCA_BLK_OPEN_DISC desc =>
      if negb vmalloc_ok || negb copy_ok then Ret (s, - EFAULT)
      else if vcablk_bcknd_max_dev <=? d_disk_id desc then Ret (s, - EINVAL)
      else match d_type desc with
           | VCABLK_DISK_TYPE_FILE | VCABLK_DISK_TYPE_MEMORY => vcablk_bcknd_create e s desc
           | VCABLK_DISK_TYPE_UNINIT => Ret (s, - EINVAL)
           end
  | VCA_BLK_CLOSE_DISC id =>
      if negb copy_ok then Ret (s, - EFAULT)
      else if vcablk_bcknd_max_dev <=? id then Ret (s, - EINVAL)
      else
        d ← get_bckd s id;
        match d with
        | Some _ => vcablk_bcknd_destroy wait intr s id false
        | None => Ret (s, - ENODEV)
        end
  | OtherIoctl => Ret (s, - ENOTTY)
  end.

(** ** Registration *)

Definition vcablk_bcknd_unregister_f2b_callback (es : Z -> E) s : outcome sys :=
  s ← vcablk_bcknd_set_dev_page es s 0;
  Ret (if 0 <=? ftb_db (bdev s) then set_bdev s (set_ftb (bdev s) (-1) 0) else s).

Definition vcablk_bcknd_register_f2b_callback (es : Z -> E) (f2b_db : Z) (irq : option Z) s : outcome (sys * Z) :=
  s ← vcablk_bcknd_unregister_f2b_callback es s;
  if f2b_db <? 0 then Ret (set_bdev s (set_ftb (bdev s) f2b_db (ftb_db_cookie (bdev s))), - ENODEV)
  else match irq with
       | None => Ret (set_bdev s (set_ftb (bdev s) (-1) 0), - EIO)
       | Some cookie => Ret (set_bdev s (set_ftb (bdev s) f2b_db cookie), 0)
       end.

Fixpoint clean_loop_b wait intr (n : nat) s (i : Z) : outcome sys :=
  match n with
  | O => Ret s
  | S n => '(s, _) ← vcablk_bcknd_destroy wait intr s i true; clean_loop_b wait intr n s (i + 1)
  end.

Definition vcablk_bcknd_clean (es : Z -> E) wait intr s : outcome sys :=
  s ← vcablk_bcknd_unregister_f2b_callback es s;
  s ← clean_loop_b wait intr (Z.to_nat vcablk_bcknd_max_dev) s 0;
  Ret (set_bdev s (set_array (bdev s) [])).

(** ** The two sides together *)

(** One turn of the frontend. *)
Definition fe_step (es : Z -> cenv) s : outcome sys := f ← vcablk_probe_work es (front s); Ret (set_front s f).

(** The backend has opened the page of a working frontend. *)
Record linked s : Prop := {
  lk_pages : has_pages (fdev (front s)) = true;
  lk_mapped : dev_pages_remapped (bdev s) = true;
  lk_dp : hw_dp s = dp_addr (bdev s) /\ dp_addr (bdev s) <> 0;
  lk_page : version_frontend (pg s) = VCA_BLK_VERSION /\ valid_magic_bcknd (pg s) = VCA_BLK_BCKND_MAGIC
    /\ flags_events (pg s) = 0 /\ reinit_dev_page (pg s) = 0 /\ destroy_devpage (pg s) = 0;
  lk_num : 0 < num_devices (pg s) <= vcablk_bcknd_max_dev /\ num_devices (pg s) <= max_dev (fdev (front s));
  lk_devs : zlen (devs (pg s)) = max_dev (fdev (front s));
  lk_array : zlen (device_array (bdev s)) = vcablk_bcknd_max_dev /\ vcablk_bcknd_max_dev < 2 ^ 31;
}.

(** Nothing is asked or answered. *)
Definition idle (c : vcablk_device_ctrl) : Prop := command c = 0 /\ command_ack (response c) = 0.

(** The system around the disk [i]: its disk [o] of the frontend, its entry [c] of the
    page and its disk [d] of the backend; the other entries are idle. *)
Record paired s (i : Z) (base : list fres) (l : list (option vcablk_disk)) (o : option vcablk_disk)
    (c : vcablk_device_ctrl) (d : option D) : Prop := {
  pr_linked : linked s;
  pr_inv : finv base (front s) l;
  pr_i : 0 <= i < num_devices (pg s);
  pr_o : l !! Z.to_nat i = Some o;
  pr_c : devs (pg s) !! Z.to_nat i = Some c;
  pr_d : device_array (bdev s) !! Z.to_nat i = Some d;
  pr_idle : forall j c, j <> Z.to_nat i -> devs (pg s) !! j = Some c -> idle c;
}.

Lemma fe_step_ok es s i base l o c d :
  paired s i base l o c d -> command c <> 0 -> (forall j, env_ok (es j)) ->
  (command c = CMD_RUN -> from_option (fun d => gdisk d = true) True o) ->
  exists s' L o' c1 err, fe_step es s = Ret s' /\ lost_tags L /\ task_post (es i) (command c) i o c o' c1 err
    /\ paired s' i (L ++ base) (<[Z.to_nat i := o']> l) o' (answered (command c) err c1) d /\ bdev s' = bdev s.
Proof.
  intros [[Hpg Hmap Hdp (Hv & Hm & Hfl & Hre & Hde) Hnum Hdevs Harr] Hinv Hi Ho Hc Hd Hidle] Hcmd He Hrun. unfold fe_step, pg in *.
  destruct (probe_work_ok es (front s) base l Hinv) as (f & l' & L & -> & Hinv' & HL%lost_from_tags & Er & Ef & Ep & Hz & Hall); [done|done|lia|lia|done| |].
  { intros j dj cj Hj Hcj Hr. destruct (decide (j = Z.to_nat i)) as [->|Hne].
    - rewrite Ho in Hj. injection Hj as ->. rewrite Hc in Hcj. injection Hcj as <-. by apply Hrun.
    - destruct (Hidle j cj Hne Hcj) as [H0 _]. by rewrite H0 in Hr. }
  run_bind. remember (devs (page f)) as ds eqn:Eds. clear Eds. destruct (Hall _ _ _ Ho Hc) as (o' & c' & Ho' & Hc' & _ & Hh).
  rewrite Z2Nat.id in Hh by lia. unfold handled in Hh.
  destruct (Z.eqb_spec (command c) 0) as [|_]; [done|]. destruct Hh as (c1 & err & Hp & ->).
  assert (l' = <[Z.to_nat i := o']> l) as ->.
  { apply list_eq. intros j. destruct (decide (j = Z.to_nat i)) as [->|Hne].
    - by rewrite Ho', list_lookup_insert_eq by by eapply lookup_lt_Some.
    - rewrite list_lookup_insert_ne by done. destruct (l !! j) as [oj|] eqn:Ej.
      + assert (is_Some (devs (page (front s)) !! j)) as [cj Hcj].
        { apply lookup_lt_is_Some_2. apply lookup_lt_Some in Ej. pose proof (fi_len _ _ _ Hinv). unfold zlen in *. lia. }
        destruct (Hidle j cj Hne Hcj) as [Hz0 _]. destruct (Hall j oj cj Ej Hcj) as (oj' & cj' & -> & _ & _ & Hh).
        unfold handled in Hh. rewrite Hz0 in Hh. by destruct Hh as [-> _].
      + apply lookup_ge_None_2. apply lookup_ge_None_1 in Ej. pose proof (fi_len _ _ _ Hinv). pose proof (fi_len _ _ _ Hinv') as Hl'.
        rewrite Ef in Hl'. cbn in Hl'. unfold zlen in *. lia. }
  exists (set_front s f), L, o', c1, err. split; [done|]. split; [done|]. split; [done|]. split; [|done].
  split; unfold pg; cbn [front set_front bdev]; rewrite ?Ep; cbn [num_devices set_devs devs].
  - split; unfold pg; cbn [front set_front bdev hw_dp]; rewrite ?Ef, ?Ep; cbn; rewrite ?Hz; done.
  - done.
  - done.
  - done.
  - exact Hc'.
  - done.
  - intros j cj Hne Hcj.
    assert (is_Some (l !! j)) as [oj Hoj].
    { apply lookup_lt_is_Some_2. apply lookup_lt_Some in Hcj. pose proof (fi_len _ _ _ Hinv). unfold zlen in *. lia. }
    assert (is_Some (devs (page (front s)) !! j)) as [c0 Hc0].
    { apply lookup_lt_is_Some_2. apply lookup_lt_Some in Hcj. unfold zlen in *. lia. }
    destruct (Hidle j c0 Hne Hc0) as [H0 H1]. destruct (Hall j oj c0 Hoj Hc0) as (oj' & cj' & _ & Hcj' & _ & Hh).
    unfold handled in Hh. rewrite H0 in Hh. destruct Hh as [_ ->]. rewrite Hcj' in Hcj. injection Hcj as <-. done.
Qed.

(** The basic changes keep the system together. *)
Lemma paired_upd s i base l o c d f :
  paired s i base l o c d -> exists s', upd_ctrl s i f = Ret s' /\ paired s' i base l o (f c) d /\ bdev s' = bdev s
    /\ num_devices (pg s') = num_devices (pg s).
Proof.
  intros [Hlk [] Hi Ho Hc Hd Hidle]. unfold upd_ctrl, upd_dev. rewrite (aget_ret _ _ c) by (done || lia). run_bind.
  rewrite aset_ret by (apply lookup_lt_Some in Hc; unfold zlen; lia). run_bind. eexists. split; [done|]. split; [|done].
  destruct Hlk. split; try done.
  - split; unfold pg in *; cbn; try done. by rewrite zlen_insert.
  - split; unfold pg in *; cbn; try done. by rewrite zlen_insert.
  - unfold pg in *. cbn. apply list_lookup_insert_eq. by eapply lookup_lt_Some.
  - unfold pg in *. cbn. intros j cj Hne Hj. rewrite list_lookup_insert_ne in Hj by done. by eapply Hidle.
Qed.

Lemma paired_put s i base l o c d d' :
  paired s i base l o c d -> exists s', put_bckd s i d' = Ret s' /\ paired s' i base l o c d' /\ pg s' = pg s /\ front s' = front s.
Proof.
  intros [Hlk ? Hi Ho Hc Hd Hidle]. unfold put_bckd.
  rewrite aset_ret by (apply lookup_lt_Some in Hd; unfold zlen; lia). run_bind. eexists. split; [done|]. split; [|done].
  destruct Hlk. split; try done.
  - split; try done. cbn. by rewrite zlen_insert.
  - cbn. apply list_lookup_insert_eq. by eapply lookup_lt_Some.
Qed.

Lemma paired_ring s i base l o c d db : paired s i base l o c d -> paired (ring s db) i base l o c d.
Proof. intros [[] ? ? ? ? ? ?]. by split. Qed.

Lemma paired_get s i base l o c d : paired s i base l o c d -> get_bckd s i = Ret d /\ aget (devs (pg s)) i = Ret c.
Proof. intros []. by split; apply aget_ret; try lia. Qed.

(** *** The work of the backend on a page that stays open *)

Lemma ftb_work_linked es s :
  linked s -> vcablk_bcknd_ftb_work es s = ftb_loop es (Z.to_nat (num_devices (pg s))) s 0.
Proof.
  intros [_ Hmap [Hdp Hne] (Hv & Hm & Hfl & Hre & Hde) Hnum _ _]. unfold vcablk_bcknd_ftb_work.
  rewrite Hdp, Z.eqb_refl, andb_false_r, Hmap. unfold ftb_events. rewrite Hv, Hm, !Z.eqb_refl, Hfl. cbn [negb orb].
  rewrite Z.land_0_l. assert (set_pg s (set_flags (pg s) 0) = s) as ->.
  { clear - Hfl. destruct s as [[fd [] fh ru] bd dp br]. unfold pg, set_pg in *. cbn in *. by rewrite Hfl. }
  rewrite Hde. change (0 =? DESTROY_DEV_PAGE_INIT) with false. run_bind.
  rewrite (proj2 (Z.eqb_neq _ _) Hne). unfold vcablk_bcknd_set_dev_page. rewrite (proj2 (Z.eqb_neq _ _) Hne), Hmap, Z.eqb_refl, Hre.
  cbn [andb Z.eqb]. run_bind. rewrite !Hmap. cbn [negb]. rewrite Z.min_l by lia. done.
Qed.

Lemma ftb_loop_app es n m s a :
  ftb_loop es (n + m) s a = (s ← ftb_loop es n s a; ftb_loop es m s (a + Z.of_nat n)).
Proof.
  revert s a. induction n as [|n IH]; intros s a; [by rewrite Z.add_0_r|]. cbn [ftb_loop Nat.add].
  destruct (ftb_answer (es a) s a); [|done..]. run_bind. rewrite IH. do 2 f_equal. by replace (a + 1 + Z.of_nat n) with (a + Z.of_nat (S n)) by lia.
Qed.

Lemma ftb_loop_idle es n s a :
  0 <= a -> (forall j, a <= j < a + Z.of_nat n -> exists c, devs (pg s) !! Z.to_nat j = Some c /\ idle c) ->
  ftb_loop es n s a = Ret s.
Proof.
  revert a. induction n as [|n IH]; intros a Ha Hj; [done|]. cbn [ftb_loop].
  destruct (Hj a ltac:(lia)) as (c & Hc & _ & Hack). unfold ftb_answer. rewrite (aget_ret _ _ c) by done. run_bind. rewrite Hack.
  cbn [Z.eqb]. run_bind. apply IH; [lia|]. intros j Hj'. apply Hj. lia.
Qed.

(** Only the answer of the disk [i] is there. *)
Lemma ftb_work_paired es s i base l o c d base' l' o' c' d' s' :
  paired s i base l o c d -> ftb_answer (es i) s i = Ret s' -> paired s' i base' l' o' c' d' ->
  num_devices (pg s') = num_devices (pg s) -> vcablk_bcknd_ftb_work es s = Ret s'.
Proof.
  intros Hp Ha Hp' Hn. rewrite ftb_work_linked by apply Hp. pose proof (pr_i _ _ _ _ _ _ _ Hp) as Hi.
  assert (forall j s base l o c d, paired s i base l o c d -> 0 <= j < num_devices (pg s) -> j <> i ->
    exists c, devs (pg s) !! Z.to_nat j = Some c /\ idle c) as Hothers.
  { clear. intros j s base l o c d Hp Hj Hne. destruct (pr_linked _ _ _ _ _ _ _ Hp).
    destruct (lookup_lt_is_Some_2 (devs (pg s)) (Z.to_nat j)) as [cj Hcj]; [unfold zlen in *; lia|].
    exists cj. split; [done|]. eapply (pr_idle _ _ _ _ _ _ _ Hp); [|exact Hcj]. pose proof (pr_i _ _ _ _ _ _ _ Hp). lia. }
  replace (Z.to_nat (num_devices (pg s))) with (Z.to_nat i + (1 + Z.to_nat (num_devices (pg s) - i - 1)))%nat by lia.
  rewrite ftb_loop_app, ftb_loop_idle; [|lia|intros j Hj; eapply Hothers; [exact Hp|lia|lia]].
  run_bind. rewrite ftb_loop_app. cbn [ftb_loop]. replace (0 + Z.of_nat (Z.to_nat i)) with i by lia. rewrite Ha. run_bind.
  apply ftb_loop_idle; [lia|]. intros j Hj. eapply Hothers; [exact Hp'|lia|lia].
Qed.

Lemma be_create es s i base l o c d d' :
  paired s i base l o c (Some d) -> command_ack (response c) = CMD_CREATE -> s32 (status (response c)) = 0 ->
  (let r := response c in disk_start (es i) d (r_done_db r) (r_request_ring r) (r_request_ring_size r) (r_completion_ring r)
     (r_completion_ring_size r) = (d', 0)) ->
  exists s', vcablk_bcknd_ftb_work es s = Ret s' /\ paired s' i base l o (set_command (clear_ack c) CMD_RUN) (Some d').
Proof.
  intros Hp Ha Hst Hd. destruct (paired_get _ _ _ _ _ _ _ Hp) as [Eb Ec].
  destruct (paired_upd _ _ _ _ _ _ _ clear_ack Hp) as (s1 & E1 & Hp1 & Eb1 & En1).
  destruct (paired_put _ _ _ _ _ _ _ (Some d') Hp1) as (s2 & E2 & Hp2 & Epg2 & _).
  destruct (paired_upd _ _ _ _ _ _ _ (fun c => set_command c CMD_RUN) Hp2) as (s3 & E3 & Hp3 & Eb3 & En3).
  exists (ring s3 (notify_frontend_db (pg s3))). split; [|by apply paired_ring].
  eapply ftb_work_paired; [exact Hp| |by apply paired_ring|].
  - unfold ftb_answer. rewrite Ec. run_bind. rewrite Ha, Eb. run_bind. cbn [Z.eqb CMD_CREATE Pos.eqb]. rewrite E1. run_bind.
    rewrite Hst. cbn [Z.eqb]. rewrite Hd, E2. run_bind. cbn [Z.eqb]. rewrite E3. done.
  - cbn. unfold pg in *. cbn. congruence.
Qed.

Lemma be_run es s i base l o c d :
  paired s i base l o c (Some d) -> command_ack (response c) = CMD_RUN ->
  exists s', vcablk_bcknd_ftb_work es s = Ret s' /\ paired s' i base l o (clear_ack c) (Some d).
Proof.
  intros Hp Ha. destruct (paired_get _ _ _ _ _ _ _ Hp) as [Eb Ec].
  destruct (paired_upd _ _ _ _ _ _ _ clear_ack Hp) as (s1 & E1 & Hp1 & Eb1 & En1).
  exists s1. split; [|done]. eapply ftb_work_paired; [exact Hp| |done|done].
  unfold ftb_answer. rewrite Ec. run_bind. rewrite Ha, Eb. run_bind. cbn [Z.eqb CMD_CREATE CMD_RUN Pos.eqb]. by rewrite E1.
Qed.

Lemma be_stopped es s i base l o c d :
  paired s i base l o c (Some d) ->
  command_ack (response c) = CMD_STOP_NORMAL \/ command_ack (response c) = CMD_STOP_FORCE \/ command_ack (response c) = CMD_DESTROY ->
  vcablk_bcknd_ftb_work es s = Ret s.
Proof.
  intros Hp Ha. destruct (paired_get _ _ _ _ _ _ _ Hp) as [Eb Ec]. eapply ftb_work_paired; [exact Hp| |exact Hp|done].
  unfold ftb_answer. rewrite Ec. run_bind. by destruct Ha as [->|[->| ->]]; rewrite Eb.
Qed.

(** ** Opening a disk *)

(** The calls of the handshake: the ioctl, and the turns of the two sides. *)
Definition open_handshake (ef : Z -> cenv) (eb : E) (es : Z -> E) s desc : outcome sys :=
  '(s, err) ← vcablk_bcknd_ioctl true true eb Ret false s (VCA_BLK_OPEN_DISC desc);
  if negb (err =? 0) then Ret s
  else
    s ← fe_step ef s;
    s ← vcablk_bcknd_ftb_work es s;
    s ← fe_step ef s;
    vcablk_bcknd_ftb_work es s.

(** Both sides run the disk [i] on the same rings. *)
Definition running (o : option vcablk_disk) (d : D) : Prop :=
  exists fd rq cp, o = Some fd /\ gdisk_started fd = true /\ live fd
    /\ request_ring fd = Some rq /\ completion_ring fd = Some cp
    /\ disk_state d = DISK_STATE_OPEN /\ disk_rings d = Some (dma_addr rq, dma_addr cp).

Context `{!BckndDiskOk D E}.

Lemma create_ioctl_ok eb s i base l o c desc d0 :
  paired s i base l o c None -> d_disk_id desc = i -> d_type desc <> VCABLK_DISK_TYPE_UNINIT ->
  disk_create eb desc = Ret (inl d0) ->
  exists s' d db, vcablk_bcknd_ioctl true true eb Ret false s (VCA_BLK_OPEN_DISC desc) = Ret (s', 0)
    /\ disk_prepare_request_db eb d0 = (d, db)
    /\ paired s' i base l o (mkCtrl CMD_CREATE (media_size d0) (b2z (media_read_only d0)) db (response c)) (Some d).
Proof.
  intros Hp Hid Hty Hcr. destruct (paired_get _ _ _ _ _ _ _ Hp) as [Eb Ec].
  destruct (pr_linked _ _ _ _ _ _ _ Hp) as [_ Hmap _ _ [Hn _] _ [_ Hmax]]. pose proof (pr_i _ _ _ _ _ _ _ Hp) as Hi.
  destruct (disk_create_ok _ _ _ Hcr) as (Hst & Hdid & _). rewrite Hid in Hdid.
  destruct (disk_prepare_request_db eb d0) as [d db] eqn:Epr.
  destruct (paired_put _ _ _ _ _ _ _ (Some d0) Hp) as (s1 & E1 & Hp1 & Epg1 & _).
  destruct (paired_put _ _ _ _ _ _ _ (Some d) Hp1) as (s2 & E2 & Hp2 & Epg2 & _).
  destruct (paired_upd _ _ _ _ _ _ _ (fun c => mkCtrl CMD_CREATE (media_size d0) (b2z (media_read_only d0)) db (response c)) Hp2)
    as (s3 & E3 & Hp3 & Eb3 & En3).
  exists (ring s3 (notify_frontend_db (pg s3))), d, db. split; [|split; [done|by apply paired_ring]].
  assert (vcablk_bcknd_create eb s desc = Ret (ring s3 (notify_frontend_db (pg s3)), 0)) as Hc.
  { unfold vcablk_bcknd_create. rewrite Hid.
    replace ((i <? 0) || (vcablk_bcknd_max_dev <=? i)) with false by (symmetry; apply orb_false_iff; split; [apply Z.ltb_ge|apply Z.leb_gt]; lia).
    rewrite Eb. run_bind. rewrite Hcr. run_bind. rewrite E1. run_bind. rewrite (lk_mapped _ (pr_linked _ _ _ _ _ _ _ Hp1)).
    unfold vcablk_bcknd_add_to_devpage. rewrite Hdid, Epg1, u32_small by lia. if_false. rewrite Hst. cbn [negb Z.eqb].
    change (DISK_STATE_CREATE =? DISK_STATE_CREATE) with true. cbn [negb]. rewrite Epr, E2. run_bind. rewrite E3. done. }
  cbn [vcablk_bcknd_ioctl negb orb]. rewrite Hid. if_false. rewrite Hc. by destruct (d_type desc).
Qed.

(** Answers that a command was carried out. *)
Lemma status_ok c : s32 (status (response (answered CMD_CREATE 0 c))) = 0.
Proof. reflexivity. Qed.

(** The frontend creates the disk it is asked for. *)
Lemma fe_create ef s i base l c d :
  paired s i base l None c (Some d) -> command c = CMD_CREATE -> (forall j, env_good (ef j)) -> i <= 999 ->
  0 <= c_request_db c -> c_size_bytes c mod SECTOR_SIZE = 0 ->
  exists s' L fd rq cp irq, fe_step ef s = Ret s' /\ lost_tags L /\ created fd i (c_size_bytes c) rq cp (e_db (ef i)) irq
    /\ paired s' i (L ++ base) (<[Z.to_nat i := Some fd]> l) (Some fd) (answered CMD_CREATE 0 (with_rings rq cp (e_db (ef i)) c)) (Some d)
    /\ bdev s' = bdev s.
Proof.
  intros Hp Hcmd Hg Hi Hdb Hsz.
  destruct (fe_step_ok ef s i base l None c (Some d) Hp) as (s' & L & o' & c1 & err & E1 & HL & Ht & Hp' & Eb).
  { by rewrite Hcmd. }
  { intros j. apply env_good_ok, Hg. }
  { done. }
  rewrite Hcmd in Ht, Hp'. destruct Ht as (Hok & _ & Hs). assert (err = 0) as -> by by apply Hs.
  destruct (Hok eq_refl) as (fd & rq & cp & irq & -> & -> & _ & Hcr & _).
  by exists s', L, fd, rq, cp, irq.
Qed.

(** The frontend runs a created disk, or destroys it. *)
Lemma fe_run ef s i base l fd c d :
  paired s i base l (Some fd) c (Some d) -> command c = CMD_RUN -> (forall j, env_ok (ef j)) ->
  gdisk fd = true -> gdisk_started fd = false ->
  exists s' L, fe_step ef s = Ret s' /\ lost_tags L /\ bdev s' = bdev s /\
    ((e_add (ef i) = 0 /\ let o' := Some (set_gdisk fd true true true) in
        paired s' i (L ++ base) (<[Z.to_nat i := o']> l) o' (answered CMD_RUN 0 c) (Some d))
     \/ (e_add (ef i) <> 0 /\ exists err, err <> 0
        /\ paired s' i (L ++ base) (<[Z.to_nat i := None]> l) None (answered CMD_RUN err (no_rings c)) (Some d))).
Proof.
  intros Hp Hcmd He Hg Hst.
  destruct (fe_step_ok ef s i base l (Some fd) c (Some d) Hp) as (s' & L & o' & c1 & err & E1 & HL & Ht & Hp' & Eb); [|done|done|].
  { by rewrite Hcmd. }
  rewrite Hcmd in Ht, Hp'. exists s', L. split; [done|]. split; [done|]. split; [done|].
  destruct Ht as [(-> & Ha & -> & d0 & [= <-] & _ & ->)|(Hne & -> & -> & Hadd)]; [by left|].
  right. split; [by apply (Hadd fd)|]. by exists err.
Qed.

(** C4. Opening a disk when both kernels grant what is asked: the ioctl, two turns of the
    frontend and two of the backend bring the disk up on both sides.  The backend
    works on exactly the rings the frontend allocated, the block layer of the frontend has
    a disk of the size of the medium, and no command or answer is left behind. *)
Theorem vcablk_open_handshake ef eb es s i base l c desc d0 :
  paired s i base l None c None -> idle c -> d_disk_id desc = i -> d_type desc <> VCABLK_DISK_TYPE_UNINIT ->
  i <= 999 -> disk_create eb desc = Ret (inl d0) -> media_size d0 mod SECTOR_SIZE = 0 ->
  0 <= snd (disk_prepare_request_db eb d0) -> (forall j, env_good (ef j)) ->
  (forall db rq rqs cp cps, snd (disk_start (es i) (fst (disk_prepare_request_db eb d0)) db rq rqs cp cps) = 0) ->
  exists s' L fd c' d', open_handshake ef eb es s desc = Ret s'
    /\ paired s' i (L ++ base) (<[Z.to_nat i := Some fd]> l) (Some fd) c' (Some d') /\ lost_tags L
    /\ idle c' /\ running (Some fd) d'
    /\ size_bytes fd = u64 (u32 (media_size d0 / SECTOR_SIZE) * SECTOR_SIZE).
Proof.
  intros Hp Hidle Hid Hty Hi Hcr Hsz Hdb Hg Hstart. unfold open_handshake.
  destruct (create_ioctl_ok eb s i base l None c desc d0 Hp Hid Hty Hcr) as (s1 & d & db & -> & Epr & Hp1). run_bind.
  change (0 =? 0) with true. cbn [negb]. rewrite Epr in Hdb, Hstart. cbn [fst snd] in Hdb, Hstart.
  destruct (fe_create ef s1 i base l _ d Hp1) as (s2 & L2 & fd & rq & cp & irq & -> & HL2 & Hcreated & Hp2 & _); [done..|]. run_bind.
  set (c2 := answered _ _ _) in Hp2.
  destruct (disk_start (es i) d (r_done_db (response c2)) (r_request_ring (response c2)) (r_request_ring_size (response c2))
    (r_completion_ring (response c2)) (r_completion_ring_size (response c2))) as [d' err] eqn:Es.
  assert (err = 0) as ->.
  { specialize (Hstart (r_done_db (response c2)) (r_request_ring (response c2)) (r_request_ring_size (response c2))
      (r_completion_ring (response c2)) (r_completion_ring_size (response c2))). by rewrite Es in Hstart. }
  destruct (be_create es s2 i _ _ _ c2 d d' Hp2) as (s3 & -> & Hp3); [done|done|done|]. run_bind.
  destruct Hcreated as [Hl (Hgd & Hns & _) Hsize [Erq Ecp] _].
  destruct (fe_run ef s3 i _ _ fd _ d' Hp3) as (s4 & L4 & -> & HL4 & _ & [[_ Hp4]|[Ha _]]);
    [done|intros j; apply env_good_ok, Hg|done|done| |by destruct (eg_rest _ (Hg i)) as (_ & _ & _ & ?)]. run_bind.
  destruct (be_run es s4 i _ _ _ _ d' Hp4 eq_refl) as (s5 & -> & Hp5).
  destruct (disk_start_ok _ _ _ _ _ _ _ _ _ Es) as (_ & Hopen & _). destruct (Hopen eq_refl) as [Ho Hrings].
  cbn zeta in Hp5. rewrite list_insert_insert_eq, (assoc_L (++)) in Hp5.
  do 5 eexists. split; [done|]. split; [exact Hp5|]. split; [by apply Forall_app|]. split; [done|]. split; [|done].
  exists (set_gdisk fd true true true), rq, cp. split; [done|]. split; [done|]. split; [|done].
  destruct Hl. by split.
Qed.

(** When the frontend cannot add the disk to its block layer, it destroys the disk and
    frees the rings, but the backend only clears the answer: its disk stays open
    on the rings that are gone, and no command is under way that would end it. *)
Theorem vcablk_run_failure_leaves_backend_open ef es s i base l fd c d rq cp :
  paired s i base l (Some fd) c (Some d) -> command c = CMD_RUN -> gdisk fd = true -> gdisk_started fd = false ->
  request_ring fd = Some rq -> completion_ring fd = Some cp ->
  disk_state d = DISK_STATE_OPEN -> disk_rings d = Some (dma_addr rq, dma_addr cp) ->
  (forall j, env_ok (ef j)) -> e_add (ef i) <> 0 ->
  exists s' L c' R, (s ← fe_step ef s; vcablk_bcknd_ftb_work es s) = Ret s'
    /\ paired s' i (L ++ base) (<[Z.to_nat i := None]> l) None c' (Some d) /\ lost_tags L
    /\ idle c' /\ r_request_ring (response c') = 0
    /\ fheld (front s) ≡ₚ disk_res fd ++ ring_res rq ++ ring_res cp ++ R /\ fheld (front s') ≡ₚ L ++ R
    /\ disk_state d = DISK_STATE_OPEN /\ disk_rings d = Some (dma_addr rq, dma_addr cp).
Proof.
  intros Hp Hcmd Hg Hst Hrq Hcp Hopen Hrings He Ha.
  destruct (fe_run ef s i base l fd c d Hp Hcmd He Hg Hst) as (s1 & L & -> & HL & _ & [[? _]|(_ & err & Hne & Hp1)]); [done|]. run_bind.
  destruct (be_run es s1 i _ _ _ _ d Hp1 eq_refl) as (s2 & -> & Hp2).
  destruct (concat_split l _ _ (pr_o _ _ _ _ _ _ _ Hp)) as (rest & H1 & H2).
  eexists s2, L, _, (base ++ rest). split; [done|]. split; [exact Hp2|]. do 3 (split; [done|]). split; [|split; [|done]].
  - rewrite (fi_held _ _ _ (pr_inv _ _ _ _ _ _ _ Hp)), H1. cbn [all_res]. rewrite Hrq, Hcp. cbn [opt_ring_res from_option].
    rewrite <- !(assoc_L (++)). rewrite app_swap. f_equiv. rewrite app_swap. f_equiv. apply app_swap.
  - rewrite (fi_held _ _ _ (pr_inv _ _ _ _ _ _ _ Hp2)), H2. cbn [all_res app]. by rewrite <- (assoc_L (++)).
Qed.

(** ** Closing a disk *)

(** The other side answers while the backend waits. *)
Definition answer (ef : Z -> cenv) (es : Z -> E) s : outcome sys := s ← fe_step ef s; vcablk_bcknd_ftb_work es s.

Lemma s32_u32 z : - 2 ^ 31 <= z < 2 ^ 31 -> s32 (u32 z) = z.
Proof.
  intros Hz. unfold s32, sint, u32, wrap. rewrite Z.mod_mod by done. destruct (Z.ltb_spec (z mod 2 ^ 32) (2 ^ (32 - 1)));
    Z.div_mod_to_equations; lia.
Qed.

(** A command that stops or destroys, waited for. *)
Lemma await_answer ef es s i base l o c d cmd :
  paired s i base l o c (Some d) -> command c = cmd -> cmd = CMD_STOP_NORMAL \/ cmd = CMD_STOP_FORCE \/ cmd = CMD_DESTROY ->
  (forall j, env_ok (ef j)) ->
  exists s' L o' c1 err, await_ack (answer ef es) false s i = Ret (s', err) /\ lost_tags L /\ bdev s' = bdev s
    /\ task_post (ef i) cmd i o c o' c1 err
    /\ paired s' i (L ++ base) (<[Z.to_nat i := o']> l) o' (clear_ack (answered cmd err c1)) (Some d).
Proof.
  intros Hp Hcmd Hcases He.
  destruct (fe_step_ok ef s i base l o c (Some d) Hp) as (s1 & L & o' & c1 & err & E1 & HL & Ht & Hp1 & Eb);
    [rewrite Hcmd; by destruct Hcases as [->|[->| ->]]|done|rewrite Hcmd; by destruct Hcases as [->|[->| ->]]|].
  rewrite Hcmd in Ht, Hp1.
  assert (- 2 ^ 31 <= err < 2 ^ 31) as Hr.
  { destruct Hcases as [->|[->| ->]].
    1,2: destruct Ht as (_ & _ & ->); destruct o as [fd|]; [|done]; by destruct (gdisk fd && _ && _).
    destruct Ht as (_ & _ & ->). by destruct o. }
  assert (vcablk_bcknd_ftb_work es s1 = Ret s1) as E2 by (eapply be_stopped; [exact Hp1|exact Hcases]).
  destruct (paired_upd _ _ _ _ _ _ _ clear_ack Hp1) as (s2 & E3 & Hp2 & Eb2 & _).
  destruct (paired_get _ _ _ _ _ _ _ Hp1) as [_ Ec1].
  exists s2, L, o', c1, err. split; [|split; [done|split; [congruence|done]]].
  unfold await_ack, answer. rewrite E1. run_bind. rewrite E2. run_bind. rewrite Ec1. run_bind.
  cbn [answered response command_ack set_command set_response set_ack status].
  rewrite (proj2 (Z.eqb_neq cmd 0)) by (by destruct Hcases as [->|[->| ->]]). cbn [andb]. rewrite E3. run_bind.
  by rewrite s32_u32.
Qed.

Lemma try_stop_ok ef es s i base l fd c d :
  paired s i base l (Some fd) c (Some d) -> command_ack (response c) = 0 -> disk_state d = DISK_STATE_OPEN -> gdisk fd = true ->
  (forall j, env_ok (ef j)) ->
  let o' := if 0 <? ref_cnt fd then Some fd else Some (set_gdisk fd false false false) in
  exists s' L c', vcablk_bcknd_try_stop_frontend (answer ef es) false s i false
      = Ret (s', if 0 <? ref_cnt fd then - EBUSY else 0)
    /\ lost_tags L /\ idle c' /\ paired s' i (L ++ base) (<[Z.to_nat i := o']> l) o' c' (Some d).
Proof.
  intros Hp Hack Hopen Hg He o'. unfold vcablk_bcknd_try_stop_frontend. destruct (paired_get _ _ _ _ _ _ _ Hp) as [Eb _].
  rewrite Eb. run_bind. rewrite Hopen, Z.eqb_refl, (lk_mapped _ (pr_linked _ _ _ _ _ _ _ Hp)).
  destruct (paired_upd _ _ _ _ _ _ _ (post_command false CMD_STOP_NORMAL) Hp) as (s1 & -> & Hp1 & _). run_bind.
  destruct (await_answer ef es _ i _ _ _ _ d CMD_STOP_NORMAL (paired_ring _ _ _ _ _ _ _ (notify_frontend_db (pg s1)) Hp1))
    as (s2 & L & o2 & c2 & err & -> & HL & _ & Ht & Hp2); [done|by left|done|].
  destruct Ht as (-> & -> & ->). rewrite Hg in *. cbn [negb andb orb] in *.
  exists s2, L. eexists. split; [done|]. split; [done|]. split; [|exact Hp2].
  by split.
Qed.

Lemma try_destroy_ok ef es s i base l o c d :
  paired s i base l o c (Some d) -> (forall j, env_ok (ef j)) ->
  exists s' err L c', vcablk_bcknd_try_destroy_frontend (answer ef es) false s i = Ret (s', err)
    /\ lost_tags L /\ idle c' /\ paired s' i (L ++ base) (<[Z.to_nat i := None]> l) None c' (Some d).
Proof.
  intros Hp He. unfold vcablk_bcknd_try_destroy_frontend. destruct (paired_get _ _ _ _ _ _ _ Hp) as [Eb _].
  rewrite Eb. run_bind. rewrite (lk_mapped _ (pr_linked _ _ _ _ _ _ _ Hp)).
  destruct (paired_upd _ _ _ _ _ _ _ (post_command true CMD_DESTROY) Hp) as (s1 & -> & Hp1 & _). run_bind.
  destruct (await_answer ef es _ i _ _ _ _ d CMD_DESTROY (paired_ring _ _ _ _ _ _ _ (notify_frontend_db (pg s1)) Hp1))
    as (s2 & L & o2 & c2 & err & -> & HL & _ & Ht & Hp2); [done|by right; right|done|]. run_bind.
  destruct (paired_get _ _ _ _ _ _ _ Hp2) as [-> _]. run_bind. destruct Ht as (-> & -> & _).
  eexists s2, _, L, _. split; [done|]. split; [done|]. split; [|exact Hp2]. by split.
Qed.

(** C28. Closing a disk that both sides run: when the disk is in use on the frontend the
    call fails and changes nothing; otherwise the disk is gone on both sides, the
    frontend has given back everything of it, and the page is idle.  But at the time
    when the frontend has freed the rings the backend has not yet stopped: its disk
    is still open on them ([s1]). *)
Theorem vcablk_close_handshake ef es eb s i base l fd c d rq cp :
  paired s i base l (Some fd) c (Some d) -> idle c -> gdisk fd = true ->
  disk_state d = DISK_STATE_OPEN -> disk_rings d = Some (dma_addr rq, dma_addr cp) ->
  (forall j, env_ok (ef j)) ->
  exists s' L c' o' d', vcablk_bcknd_ioctl true true eb (answer ef es) false s (VCA_BLK_CLOSE_DISC i)
      = Ret (s', if 0 <? ref_cnt fd then - EBUSY else 0)
    /\ lost_tags L /\ idle c' /\ paired s' i (L ++ base) (<[Z.to_nat i := o']> l) o' c' d'
    /\ (if 0 <? ref_cnt fd then o' = Some fd /\ d' = Some d
        else o' = None /\ d' = None
          /\ exists s0 s1 err L1 c1, vcablk_bcknd_try_destroy_frontend (answer ef es) false s0 i = Ret (s1, err)
               /\ paired s1 i (L1 ++ base) (<[Z.to_nat i := None]> l) None c1 (Some d)
               /\ put_bckd s1 i None = Ret s').
Proof.
  intros Hp [_ Hack] Hg Hopen _ He. cbn [vcablk_bcknd_ioctl negb].
  destruct (pr_linked _ _ _ _ _ _ _ Hp) as [_ _ _ _ [Hn _] _ _]. pose proof (pr_i _ _ _ _ _ _ _ Hp) as Hi.
  if_false. destruct (paired_get _ _ _ _ _ _ _ Hp) as [Eb _]. rewrite Eb. run_bind. unfold vcablk_bcknd_destroy. rewrite Eb. run_bind.
  rewrite Hopen, Z.eqb_refl.
  destruct (try_stop_ok ef es s i base l fd c d Hp Hack Hopen Hg He) as (s1 & L1 & c1 & -> & HL1 & Hid1 & Hp1). run_bind.
  cbn [andb negb]. destruct (0 <? ref_cnt fd) eqn:Eref.
  - exists s1, L1, c1, (Some fd), (Some d). by rewrite Z.eqb_refl.
  - change (0 =? - EBUSY) with false. cbn zeta in Hp1.
    destruct (try_destroy_ok ef es s1 i _ _ _ _ d Hp1 He) as (s2 & err & L2 & c2 & E2 & HL2 & Hid2 & Hp2). rewrite E2. run_bind.
    rewrite list_insert_insert_eq, (assoc_L (++)) in Hp2.
    destruct (paired_put _ _ _ _ _ _ _ None Hp2) as (s3 & E3 & Hp3 & _). rewrite E3. run_bind.
    exists s3, (L2 ++ L1), c2, None, None. split; [done|]. split; [by apply Forall_app|]. split; [done|]. split; [done|].
    split; [done|]. split; [done|]. exists s1, s2, err, (L2 ++ L1), c2. done.
Qed.
(** ** Opening a device page *)

(** Disks known by their place, waiting for a frontend. *)
Definition waiting (l : list (option D)) : Prop :=
  forall j d, l !! j = Some (Some d) -> disk_id d = Z.of_nat j /\ disk_state d = DISK_STATE_CREATE.

(** What adding the disks [a], ... to the page keeps and does. *)
Record added s s' (a n : Z) : Prop := {
  ad_page : pg s' = set_devs (pg s) (devs (pg s'));
  ad_devs : zlen (devs (pg s')) = zlen (devs (pg s));
  ad_array : zlen (device_array (bdev s')) = zlen (device_array (bdev s));
  ad_bdev : bdev s' = set_array (bdev s) (device_array (bdev s'));
  ad_rest : hw_dp s' = hw_dp s /\ b_rung s' = b_rung s;
  ad_waiting : waiting (device_array (bdev s'));
  ad_command : forall j d, a <= Z.of_nat j < a + n -> device_array (bdev s) !! j = Some (Some d) ->
    exists d' c', device_array (bdev s') !! j = Some (Some d') /\ devs (pg s') !! j = Some c' /\ command c' = CMD_CREATE;
  ad_others : forall j, ~ (a <= Z.of_nat j < a + n) ->
    device_array (bdev s') !! j = device_array (bdev s) !! j /\ devs (pg s') !! j = devs (pg s) !! j;
  ad_none : forall j, device_array (bdev s) !! j = Some None ->
    device_array (bdev s') !! j = Some None /\ devs (pg s') !! j = devs (pg s) !! j;
}.

Lemma add_to_devpage_ok e s i d :
  waiting (device_array (bdev s)) -> device_array (bdev s) !! Z.to_nat i = Some (Some d) -> 0 <= i < num_devices (pg s) ->
  i < 2 ^ 32 -> num_devices (pg s) <= zlen (devs (pg s)) ->
  exists s', vcablk_bcknd_add_to_devpage e s d = Ret (s', 0) /\ added s s' i 1.
Proof.
  intros Hw Hd Hi H32 Hlen. destruct (Hw _ _ Hd) as [Hid Hst]. rewrite Z2Nat.id in Hid by lia.
  unfold vcablk_bcknd_add_to_devpage. rewrite Hid, u32_small by lia. if_false. rewrite Hst, Z.eqb_refl. cbn [negb].
  destruct (disk_prepare_request_db e d) as [d' db] eqn:Epr. destruct (disk_prepare_ok _ _ _ _ Epr) as (Hs' & Hi' & _).
  assert (0 <= i < zlen (device_array (bdev s))) as Hia by (apply lookup_lt_Some in Hd; unfold zlen; lia).
  unfold put_bckd. rewrite aset_ret by done. run_bind. unfold upd_ctrl, upd_dev.
  destruct (aget_total (devs (pg s)) i) as (c & Ec & Hc); [lia|]. unfold pg in *. cbn [front set_bdev] in *. rewrite Ec. run_bind.
  rewrite aset_ret by lia. run_bind. eexists. split; [done|]. split; unfold pg; cbn; rewrite ?zlen_insert; try done.
  - intros j dj Hj. apply list_lookup_insert_Some in Hj as [(<- & [= ->] & _)|[_ Hj]]; [rewrite Z2Nat.id by lia; by rewrite Hi', Hs'|by apply Hw].
  - intros j dj Hj _. replace j with (Z.to_nat i) by lia. eexists d', _.
    split; [apply list_lookup_insert_eq; by eapply lookup_lt_Some|].
    split; [apply list_lookup_insert_eq; by eapply lookup_lt_Some|done].
  - intros j Hj. rewrite !list_lookup_insert_ne by lia. done.
  - intros j Hj. assert (Z.to_nat i <> j) by (intros <-; congruence). by rewrite !list_lookup_insert_ne.
Qed.

Lemma added_refl s a : waiting (device_array (bdev s)) -> added s s a 0.
Proof.
  intros Hw. split; try done; [by rewrite set_devs_id|by destruct s as [? [] ? ?]|]. intros j d Hj. lia.
Qed.

Lemma added_trans s1 s2 s3 a n m :
  added s1 s2 a n -> added s2 s3 (a + n) m -> 0 <= n -> 0 <= m -> added s1 s3 a (n + m).
Proof.
  intros [] [] Hn Hm. split.
  - rewrite ad_page1 at 1. rewrite ad_page0. done.
  - congruence.
  - congruence.
  - rewrite ad_bdev1 at 1. rewrite ad_bdev0. done.
  - intuition congruence.
  - done.
  - intros j d Hj Hd. destruct (decide (Z.of_nat j < a + n)).
    + destruct (ad_command0 j d) as (d' & c' & Hd' & Hc' & Hcmd); [lia|done|].
      destruct (ad_others1 j) as [E1 E2]; [lia|]. exists d', c'. by rewrite E1, E2.
    + destruct (ad_others0 j) as [E1 E2]; [lia|]. apply (ad_command1 j d); [lia|]. by rewrite E1.
  - intros j Hj. destruct (ad_others0 j) as [E1 E2]; [lia|]. destruct (ad_others1 j) as [E3 E4]; [lia|].
    by rewrite E3, E4, E1, E2.
  - intros j Hj. destruct (ad_none0 j Hj) as [E1 E2]. destruct (ad_none1 j E1) as [E3 E4]. split; congruence.
Qed.

Lemma readd_loop_ok es n s a :
  waiting (device_array (bdev s)) -> 0 <= a -> a + Z.of_nat n <= num_devices (pg s) ->
  num_devices (pg s) <= zlen (device_array (bdev s)) -> num_devices (pg s) <= zlen (devs (pg s)) -> num_devices (pg s) <= 2 ^ 32 ->
  exists s', readd_loop es n s a = Ret s' /\ added s s' a (Z.of_nat n).
Proof.
  revert s a. induction n as [|n IH]; intros s a Hw Ha Hn Harr Hlen H32.
  { exists s. split; [done|]. by apply added_refl. }
  cbn [readd_loop]. unfold get_bckd. destruct (aget_total (device_array (bdev s)) a) as (o & -> & Ho); [lia|]. run_bind.
  assert (exists s1, match o with
      | Some d => if disk_state d =? DISK_STATE_CREATE then '(s, _) ← vcablk_bcknd_add_to_devpage (es a) s d; Ret s else Ret s
      | None => Ret s end = Ret s1 /\ added s s1 a 1) as (s1 & -> & Had).
  { destruct o as [d|].
    - destruct (Hw _ _ Ho) as [_ ->]. rewrite Z.eqb_refl.
      destruct (add_to_devpage_ok (es a) s a d) as (s1 & -> & Had); [done|done|lia|lia|lia|]. by exists s1.
    - exists s. split; [done|]. destruct (added_refl s a Hw). split; try done.
      intros j d Hj Hd. replace j with (Z.to_nat a) in Hd by lia. congruence. }
  run_bind. destruct (IH s1 (a + 1)) as (s' & -> & Had'); [apply Had|lia|..];
    try (rewrite (ad_page _ _ _ _ Had); cbn; destruct Had; lia).
  exists s'. split; [done|]. replace (Z.of_nat (S n)) with (1 + Z.of_nat n) by lia. by eapply added_trans; [| |lia|lia].
Qed.

(** C32. A frontend appears, or appears anew, with a valid page and the kernel maps it: all disks wait for the frontend
    afterwards, those that were running have been stopped, the page is opened with as many entries as it has and the backend has
    places for, every disk with such an entry is announced to the frontend there with a command to create it, and these entries
    lie within the size that the page claims; all other entries stay as they are. *)
Theorem vcablk_bcknd_reconnect es s phy :
  let num := Z.min vcablk_bcknd_max_dev (num_devices (pg s)) in
  phy <> 0 -> page_valid (pg s) = true -> (forall a n, ioremap_ok a n = true) ->
  0 <= num_devices (pg s) -> 0 <= vcablk_bcknd_max_dev < 2 ^ 31 -> num <= zlen (devs (pg s)) ->
  zlen (device_array (bdev s)) = vcablk_bcknd_max_dev ->
  (forall j d, device_array (bdev s) !! j = Some (Some d) -> disk_id d = Z.of_nat j
     /\ (disk_state d = DISK_STATE_CREATE \/ disk_state d = DISK_STATE_OPEN /\ dev_pages_remapped (bdev s) = true)) ->
  exists s', vcablk_bcknd_set_dev_page es s phy = Ret s'
    /\ dev_pages_remapped (bdev s') = true /\ dp_addr (bdev s') = phy
    /\ num_devices (pg s') = num /\ reinit_dev_page (pg s') = 0 /\ valid_magic_bcknd (pg s') = VCA_BLK_BCKND_MAGIC
    /\ waiting (device_array (bdev s'))
    /\ (forall j d, Z.of_nat j < num -> device_array (bdev s) !! j = Some (Some d) ->
         exists d' c', device_array (bdev s') !! j = Some (Some d') /\ devs (pg s') !! j = Some c' /\ command c' = CMD_CREATE
           /\ SIZEOF_DEV_PAGE + (Z.of_nat j + 1) * SIZEOF_DEVICE_CTRL <= dev_page_size (pg s))
    /\ (forall j, num <= Z.of_nat j \/ device_array (bdev s) !! j = Some None -> devs (pg s') !! j = devs (pg s) !! j)
    /\ (forall j d, device_array (bdev s) !! j = Some (Some d) -> exists d', device_array (bdev s') !! j = Some (Some d')).
Proof.
  intros num Hphy Hv Hio Hn0 Hmax Hlen Harr Hdisks. unfold vcablk_bcknd_set_dev_page. rewrite (proj2 (Z.eqb_neq _ _) Hphy).
  assert ((reinit_dev_page (pg s) =? 0) = false) as Hre.
  { unfold page_valid in Hv. bools. by apply Z.eqb_neq. }
  rewrite Hre, andb_false_r. set (s0 := if dev_pages_remapped (bdev s) then _ else s).
  assert (pg s0 = pg s /\ waiting (device_array (bdev s0)) /\ zlen (device_array (bdev s0)) = vcablk_bcknd_max_dev
    /\ (forall j, device_array (bdev s) !! j = Some None -> device_array (bdev s0) !! j = Some None)
    /\ forall j d, device_array (bdev s) !! j = Some (Some d) -> exists d0, device_array (bdev s0) !! j = Some (Some d0))
    as (Hpg0 & Hw0 & Hz0 & Hnone0 & Hd0).
  { unfold s0. destruct (dev_pages_remapped (bdev s)).
    - split; [done|]. cbn. split; [|split; [unfold zlen; rewrite length_fmap; exact Harr|]].
      + intros j d Hj. rewrite list_lookup_fmap in Hj. destruct (device_array (bdev s) !! j) as [[d0|]|] eqn:Ej; try done.
        injection Hj as <-. destruct (Hdisks _ _ Ej) as [Hid [Hc|[Ho _]]]; rewrite ?Hc, ?Ho; [done|].
        rewrite Z.eqb_refl. destruct (disk_stop_ok d0) as (-> & -> & _). done.
      + split; intros j; [intros Hj; by rewrite list_lookup_fmap, Hj|]. intros d Hj. rewrite list_lookup_fmap, Hj. by eexists.
    - split; [done|]. split; [|split; [done|by eauto]]. intros j d Hj. by destruct (Hdisks _ _ Hj) as [? [?|[_ ?]]]. }
  unfold vcablk_bcknd_open_dev_page. rewrite !Hio, Hpg0, Hv. cbn [negb].
  replace (if vcablk_bcknd_max_dev <=? num_devices (pg s) then vcablk_bcknd_max_dev else num_devices (pg s)) with num
    by (unfold num; destruct (Z.leb_spec vcablk_bcknd_max_dev (num_devices (pg s))); lia).
  set (s1 := set_pg s0 _). destruct (readd_loop_ok es (Z.to_nat num) s1 0) as (s2 & -> & Had);
    [exact Hw0|lia|unfold s1, pg; cbn; lia|unfold s1, pg; cbn; lia|unfold s1, pg; cbn; exact Hlen|unfold s1, pg; cbn; lia|].
  run_bind. eexists. split; [done|]. split; [done|]. split; [done|].
  set (s3 := ring _ _). change (pg s3) with (pg s2). change (device_array (bdev s3)) with (device_array (bdev s2)).
  assert (num_devices (pg s2) = num /\ dev_page_size (pg s2) = dev_page_size (pg s)) as [En Es] by by rewrite (ad_page _ _ _ _ Had).
  split; [done|]. split; [by rewrite (ad_page _ _ _ _ Had)|]. split; [by rewrite (ad_page _ _ _ _ Had)|].
  assert (Hsame : forall j, device_array (bdev s0) !! j = device_array (bdev s1) !! j /\ devs (pg s1) !! j = devs (pg s) !! j).
  { by intros j. }
  split; [apply Had|]. split; [|split].
  - intros j d Hj Hd. destruct (Hd0 j d Hd) as [d1 Hd1].
    destruct (ad_command _ _ _ _ Had j d1) as (d' & c' & Hd' & Hc' & Hcmd); [lia|exact Hd1|]. exists d', c'. do 3 (split; [done|]).
    unfold page_valid in Hv. bools. unfold num, SIZEOF_DEVICE_CTRL, SIZEOF_DEV_PAGE in *.
    assert (72 * ((dev_page_size (pg s) - 304) / 72) <= dev_page_size (pg s) - 304) by (apply Z.mul_div_le; lia). lia.
  - intros j [Hj|Hj]; rewrite <- (proj2 (Hsame j)); [apply (ad_others _ _ _ _ Had); lia|].
    apply (ad_none _ _ _ _ Had). rewrite <- (proj1 (Hsame j)). by apply Hnone0.
  - intros j d Hd. destruct (Hd0 j d Hd) as [d1 Hd1]. rewrite (proj1 (Hsame j)) in Hd1. destruct (decide (Z.of_nat j < num)).
    + destruct (ad_command _ _ _ _ Had j d1) as (d' & c' & Hd' & _); [lia|exact Hd1|]. by exists d'.
    + destruct (ad_others _ _ _ _ Had j) as [Eo _]; [lia|]. exists d1. by rewrite Eo.
Qed.

(** Destroying a disk whose number is behind the last entry of the page: the request is written behind the page, because
    [vcablk_bcknd_try_destroy_frontend] does not look at [num_devices]. *)
Theorem vcablk_bcknd_destroy_overruns wait intr s i d force :
  0 <= i -> device_array (bdev s) !! Z.to_nat i = Some (Some d) -> disk_state d = DISK_STATE_CREATE ->
  dev_pages_remapped (bdev s) = true -> zlen (devs (pg s)) <= i -> vcablk_bcknd_destroy wait intr s i force = Oob.
Proof.
  intros Hi Hd Hst Hmap Hlen. unfold vcablk_bcknd_destroy, get_bckd. rewrite (aget_ret _ _ (Some d)) by (done || lia). run_bind.
  rewrite Hst. cbn [Z.eqb DISK_STATE_CREATE DISK_STATE_OPEN]. cbn [andb]. run_bind. unfold vcablk_bcknd_try_destroy_frontend, get_bckd.
  rewrite (aget_ret _ _ (Some d)) by (done || lia). run_bind. rewrite Hmap. unfold upd_ctrl, upd_dev.
  assert (aget (devs (pg s)) i = Oob) as ->; [|done]. unfold aget.
  rewrite (proj2 (Z.leb_le _ _) Hi). by rewrite lookup_ge_None_2 by (unfold zlen in Hlen; lia).
Qed.

(** A disk whose number does not fit into the page of the frontend: the call reports
    an error, but the disk has been created and stays in its place, so that the next
    attempt fails because the disk exists. *)
Theorem vcablk_bcknd_create_keeps_refused_disk eb s desc d0 :
  let i := d_disk_id desc in
  0 <= i < vcablk_bcknd_max_dev -> i < 2 ^ 32 -> zlen (device_array (bdev s)) = vcablk_bcknd_max_dev ->
  device_array (bdev s) !! Z.to_nat i = Some None -> dev_pages_remapped (bdev s) = true -> num_devices (pg s) <= i ->
  disk_create eb desc = Ret (inl d0) ->
  exists s', vcablk_bcknd_create eb s desc = Ret (s', - ENOSPC)
    /\ device_array (bdev s') !! Z.to_nat i = Some (Some d0) /\ pg s' = pg s
    /\ vcablk_bcknd_create eb s' desc = Ret (s', - EBUSY).
Proof.
  intros i Hi H32 Harr Hnone Hmap Hnum Hcr. destruct (disk_create_ok _ _ _ Hcr) as (_ & Hid & _). fold i in Hid.
  assert (forall s, (i <? 0) || (vcablk_bcknd_max_dev <=? i) = false) as Hrange
    by (intros; apply orb_false_iff; split; [apply Z.ltb_ge|apply Z.leb_gt]; lia).
  unfold vcablk_bcknd_create. fold i. rewrite !(Hrange s). unfold get_bckd, put_bckd.
  rewrite (aget_ret _ _ None) by (done || lia). run_bind. rewrite Hcr. run_bind. rewrite aset_ret by lia. run_bind. cbn [bdev set_bdev set_array dev_pages_remapped].
  rewrite Hmap. unfold vcablk_bcknd_add_to_devpage. rewrite Hid, u32_small by lia. unfold pg. cbn [front set_bdev]. fold (pg s).
  rewrite (proj2 (Z.leb_le _ _) Hnum). run_bind. cbn. eexists. split; [done|]. cbn.
  assert (<[Z.to_nat i := Some d0]> (device_array (bdev s)) !! Z.to_nat i = Some (Some d0)) as Hl
    by (apply list_lookup_insert_eq; by eapply lookup_lt_Some).
  split; [done|]. split; [done|]. by rewrite (aget_ret _ _ (Some d0)) by (done || lia).
Qed.
End Control.

(** ** The disks of the backend *)

(** What the kernel answers to the operations of [BlkLifecycle]. *)
Record denv := mkDenv {
  de_disk : bool;
  de_pool : bool;
  de_page : Z -> bool;
  de_map : Z -> bool;
  de_db : Z;
  de_irq : bool;
  de_ring : bool;
  de_transfer : bool;
  de_request : bool;
}.

Section Instance.
Context {file : Type} `{!BlkMedia.Vfs file}.
Context (request_at : Z -> BlkFrontend.vcablk_ring BlkFrontend.vcablk_request)
  (completion_at : Z -> BlkFrontend.vcablk_ring BlkFrontend.vcablk_completion) (ioremap_ok : nat -> bool)
  (dma_ch : bool) (create_media : VCABLK_DISK_TYPE -> Z -> list Z -> bool -> BlkMedia.err_ptr (BlkMedia.vcablk_media file))
  (fm : Z -> Z).
Implicit Types d : BlkLifecycle.bdisk file.

Definition windows d : option (Z * Z) :=
  match BlkLifecycle.req_window d, BlkLifecycle.comp_window d with Some a, Some b => Some (a, b) | _, _ => None end.

#[export] Instance lifecycle_disk : BckndDisk (BlkLifecycle.bdisk file) denv := {
  disk_state d := BlkBackend.state (BlkLifecycle.bd d);
  disk_id := BlkLifecycle.bcknd_id;
  disk_rings := windows;
  media_read_only d := BlkMedia.vcablk_media_read_only (BlkBackend.media (BlkLifecycle.bd d));
  media_size d := BlkMedia.vcablk_media_size (BlkBackend.media (BlkLifecycle.bd d));
  disk_create e desc :=
    r ← BlkLifecycle.vcablk_bcknd_disk_create (de_disk e) (de_pool e) (de_page e) (de_map e) dma_ch create_media fm desc;
    Ret match r with inl d => inl d | inr (err, _) => inr err end;
  disk_prepare_request_db e d := BlkLifecycle.vcablk_bcknd_disk_prepare_request_db d (de_db e);
  disk_start e d db rq rqs cp cps :=
    BlkLifecycle.vcablk_bcknd_disk_start request_at completion_at ioremap_ok (de_irq e) (de_ring e) (de_transfer e) (de_request e) d db rq cp;
  disk_stop := BlkLifecycle.vcablk_bcknd_disk_stop;
}.

(** State, identity and rings across the parts of a start. *)
Lemma unmap_facts d :
  windows (BlkLifecycle.unmap_rings d) = None /\ BlkLifecycle.bcknd_id (BlkLifecycle.unmap_rings d) = BlkLifecycle.bcknd_id d
  /\ BlkLifecycle.bd (BlkLifecycle.unmap_rings d) = BlkLifecycle.bd d.
Proof.
  unfold BlkLifecycle.unmap_rings, windows.
  destruct (BlkLifecycle.req_window d) eqn:E1; cbn; destruct (BlkLifecycle.comp_window d) eqn:E2; cbn; by rewrite ?E1, ?E2.
Qed.
Lemma end_threads_facts d :
  let d' := BlkLifecycle.vcablk_bcknd_disk_end_threads d in
  BlkLifecycle.bcknd_id d' = BlkLifecycle.bcknd_id d /\ BlkBackend.state (BlkLifecycle.bd d') = BlkBackend.state (BlkLifecycle.bd d).
Proof.
  unfold BlkLifecycle.vcablk_bcknd_disk_end_threads.
  by destruct (BlkLifecycle.request_process_thread d); cbn; destruct (BlkBackend.transfer_thread (BlkLifecycle.bd d)); cbn;
    destruct (BlkBackend.transfer_ring (BlkLifecycle.bd d)).
Qed.

(** The result of a start that leaves the disk as it was or opens it. *)
Definition start_result d rq cp (r : BlkLifecycle.bdisk file * Z) : Prop :=
  BlkLifecycle.bcknd_id r.1 = BlkLifecycle.bcknd_id d
  /\ (r.2 = 0 -> BlkBackend.state (BlkLifecycle.bd r.1) = DISK_STATE_OPEN /\ windows r.1 = Some (rq, cp))
  /\ (r.2 <> 0 -> BlkBackend.state (BlkLifecycle.bd d) = DISK_STATE_CREATE -> windows d = None ->
        BlkBackend.state (BlkLifecycle.bd r.1) = DISK_STATE_CREATE /\ windows r.1 = None).

Lemma start_err_result d d1 rq cp err :
  BlkLifecycle.bcknd_id d1 = BlkLifecycle.bcknd_id d ->
  BlkBackend.state (BlkLifecycle.bd d1) = BlkBackend.state (BlkLifecycle.bd d) -> err <> 0 ->
  start_result d rq cp (BlkLifecycle.start_err d1 err).
Proof.
  intros Hid Hst Hne. unfold start_result, BlkLifecycle.start_err. cbn [fst snd].
  destruct (unmap_facts (BlkLifecycle.set_irq d1 (-1) false (-1))) as (Hw & Hi & Hb). rewrite Hi, Hb. cbn.
  split; [done|]. split; [done|]. intros _ Hc _. by rewrite Hst.
Qed.

Lemma start_threads_result ring_ok t r d d1 rq cp :
  BlkLifecycle.bcknd_id d1 = BlkLifecycle.bcknd_id d ->
  BlkBackend.state (BlkLifecycle.bd d1) = BlkBackend.state (BlkLifecycle.bd d) -> windows d1 = Some (rq, cp) ->
  start_result d rq cp (BlkLifecycle.start_threads ring_ok t r d1).
Proof.
  intros Hid Hst Hw. unfold BlkLifecycle.start_threads.
  destruct (BlkLifecycle.vcablk_bcknd_alloc_transfer_ring _ _) as [ring|]; [|by apply start_err_result].
  destruct (negb (t && r)) eqn:Etr.
  - match goal with |- context [BlkLifecycle.vcablk_bcknd_disk_end_threads ?x] => set (d2 := x); destruct (end_threads_facts d2) as [Hi2 Hs2] end.
    assert (BlkLifecycle.bcknd_id d2 = BlkLifecycle.bcknd_id d /\ BlkBackend.state (BlkLifecycle.bd d2) = BlkBackend.state (BlkLifecycle.bd d))
      as [Hi3 Hs3] by (unfold d2; by destruct t, r).
    apply start_err_result; [| |done]; case_if; cbn; congruence.
  - apply negb_false_iff, andb_true_iff in Etr as [-> ->]. by split; [|split].
Qed.

Lemma ioremap_state (b : BlkBackend.vcablk_bcknd_disk file) :
  BlkBackend.state (BlkBackend.vcablk_bcknd_ioremap ioremap_ok b).2 = BlkBackend.state b.
Proof.
  destruct (BlkLifecycle.ioremap_keeps ioremap_ok b) as [t ->]. apply BlkLifecycle.ticks_keep.
Qed.

Lemma start_facts irq_ok ring_ok t r d done rq cp :
  start_result d rq cp (BlkLifecycle.vcablk_bcknd_disk_start request_at completion_at ioremap_ok irq_ok ring_ok t r d done rq cp).
Proof.
  unfold BlkLifecycle.vcablk_bcknd_disk_start.
  destruct (negb _); [by split; [|split]|]. destruct (_ <? 0); [by split; [|split]|].
  pose proof (ioremap_state (BlkLifecycle.bd d)) as Hs1.
  destruct (BlkBackend.vcablk_bcknd_ioremap ioremap_ok (BlkLifecycle.bd d)) as [ok1 b1]. cbn [snd] in Hs1.
  destruct ok1; cbn [negb]; [|by apply start_err_result].
  cbn [BlkLifecycle.bd BlkLifecycle.acquire BlkLifecycle.set_held BlkLifecycle.set_windows BlkLifecycle.set_bd].
  pose proof (ioremap_state b1) as Hs2. destruct (BlkBackend.vcablk_bcknd_ioremap ioremap_ok b1) as [ok2 b2]. cbn [snd] in Hs2.
  destruct ok2; cbn [negb]; [|apply start_err_result; [done|cbn; congruence|done]].
  destruct (negb _ || negb _); [apply start_err_result; [done|cbn; congruence|done]|].
  destruct irq_ok; cbn [negb]; [|apply start_err_result; [done|cbn; congruence|done]].
  apply start_threads_result; [done|cbn; congruence|done].
Qed.

(** [BlkLifecycle] keeps what the control relies on. *)
#[export] Instance lifecycle_disk_ok : BckndDiskOk (BlkLifecycle.bdisk file) denv.
Proof.
  split; cbn.
  - intros e desc d Hc. destruct (BlkLifecycle.vcablk_bcknd_disk_create _ _ _ _ _ _ _ _) as [[d0|[err l]]| | |] eqn:E; try discriminate Hc.
    injection Hc as ->. unfold BlkLifecycle.vcablk_bcknd_disk_create in E.
    destruct (negb (de_disk e)); [done|]. destruct (Pool.vcablk_pool_init _ _ _) as [[p|]| | |]; try done. cbn [mbind outcome_bind] in E.
    match type of E with context [match ?m with BlkMedia.ErrPtr _ => _ | _ => _ end] => destruct m end;
      repeat (destruct (BlkMedia.IS_ERR _); [done|]);
      match type of E with context [BlkLifecycle.vcablk_bcknd_buffer_init ?a ?b ?c ?d ?f] =>
        destruct (BlkLifecycle.vcablk_bcknd_buffer_init a b c d f) as [[err ps] l] end;
      (destruct (negb (err =? 0)); [by repeat (destruct (BlkLifecycle.vcablk_bcknd_buffer_deinit _ _ _))|]); by injection E as <-.
  - intros e d d' db [= <- <-]. done.
  - intros e d db rq rqs cp cps d' err E. pose proof (start_facts (de_irq e) (de_ring e) (de_transfer e) (de_request e) d db rq cp) as Hr.
    rewrite E in Hr. exact Hr.
  - intros d. unfold BlkLifecycle.vcablk_bcknd_disk_stop. destruct (end_threads_facts d) as [Hi Hs].
    match goal with |- context [BlkLifecycle.unmap_rings ?x] => set (d2 := x); destruct (unmap_facts d2) as (Hw & Hu & _) end.
    split; [done|]. split; [|exact Hw]. cbn. rewrite Hu. unfold d2. by destruct (0 <=? _).
Qed.
End Instance.

(** ** Witnesses *)

#[local] Instance demo_ops : BckndDisk (BlkLifecycle.bdisk unit) denv :=
  lifecycle_disk BlkLifecycle.demo_requests BlkLifecycle.demo_completions (fun _ => true) true BlkLifecycle.demo_media (fun a => a).
#[local] Instance demo_ops_ok : BckndDiskOk (BlkLifecycle.bdisk unit) denv :=
  lifecycle_disk_ok BlkLifecycle.demo_requests BlkLifecycle.demo_completions (fun _ => true) true BlkLifecycle.demo_media (fun a => a).
Definition demo_denv : denv := mkDenv true true (fun _ => true) (fun _ => true) 4 true true true true.
Definition idle_ctrl : vcablk_device_ctrl := mkCtrl 0 0 0 (-1) (mkResp 0 0 (-1) 0 0 0 0).
Definition page_of (devs : list vcablk_device_ctrl) : vcablk_dev_page :=
  mkPage VCA_BLK_VERSION 592 0 VCA_BLK_BCKND_MAGIC 0 4 0 15 3 devs.
Definition front_of (o : option vcablk_disk) (c : vcablk_device_ctrl) : fsys :=
  mkFsys (mkFdev true 3 9 4 (Some [o; None; None; None]) 15) (page_of [c; idle_ctrl; idle_ctrl; idle_ctrl])
    ([FArray; FIrq 9; FDev] ++ all_res o) [].
Definition sys_of (o : option vcablk_disk) (c : vcablk_device_ctrl) (d : option (BlkLifecycle.bdisk unit)) : sys (BlkLifecycle.bdisk unit) :=
  mkSys (front_of o c) (mkBdev true (d :: replicate 7 None) 15 7 0x5000) 0x5000 [].

Lemma demo_paired o c d :
  from_option live True o -> FIrq 0 ∉ all_res o ->
  paired 8 (sys_of o c d) 0 [FArray; FIrq 9; FDev] [o; None; None; None] o c d.
Proof.
  intros Hl Hn. split; try done.
  - split; try done.
    + intros [|[|[|[|j]]]] d' Hj; try done. injection Hj as ->. done.
    + change (fheld (front (sys_of o c d))) with ([FArray; FIrq 9; FDev] ++ all_res o). cbn. by rewrite app_nil_r.
    + cbn. rewrite !elem_of_cons. intros [?|[?|[?|?]]]; done.
  - intros [|[|[|[|j]]]] c' Hne Hj; try done; by injection Hj as <-.
Qed.
Definition demo_desc : vcablk_disk_open_desc := BlkLifecycle.mkOpen 0 VCABLK_DISK_TYPE_MEMORY 2 2048 [].
Definition demo_created : BlkLifecycle.bdisk unit :=
  match disk_create demo_denv demo_desc with Ret (inl d) => d | _ => BlkLifecycle.demo_stopped end.
Definition demo_env_j : Z -> cenv := fun _ => demo_env.
Lemma demo_env_good j : env_good (demo_env_j j).
Proof. split; try done; try (by do 2 eexists); try (by eexists). Qed.

Lemma vcablk_open_handshake_witness :
  exists s' L fd c' d', open_handshake 8 (fun _ _ => true) demo_env_j demo_denv (fun _ => demo_denv) (sys_of None idle_ctrl None) demo_desc = Ret s'
    /\ paired 8 s' 0 (L ++ [FArray; FIrq 9; FDev]) (<[Z.to_nat 0 := Some fd]> [None; None; None; None]) (Some fd) c' (Some d') /\ lost_tags L
    /\ idle c' /\ running (Some fd) d' /\ size_bytes fd = 2048.
Proof.
  destruct (vcablk_open_handshake 8 (fun _ _ => true) demo_env_j demo_denv (fun _ => demo_denv) (sys_of None idle_ctrl None) 0
    [FArray; FIrq 9; FDev] [None; None; None; None] idle_ctrl demo_desc demo_created) as (s' & L & fd & c' & d' & H1 & H2 & H3 & H4 & H5 & H6).
  - apply demo_paired; [done|apply not_elem_of_nil].
  - done.
  - done.
  - done.
  - done.
  - vm_compute. reflexivity.
  - vm_compute. reflexivity.
  - done.
  - apply demo_env_good.
  - intros db rq rqs cp cps. vm_compute. reflexivity.
  - exists s', L, fd, c', d'. split; [exact H1|]. split; [exact H2|]. split; [exact H3|]. split; [exact H4|]. split; [exact H5|].
    rewrite H6. vm_compute. reflexivity.
Defined.

(** The disk of the frontend's example, open on the backend. *)
Definition demo_open : BlkLifecycle.bdisk unit :=
  BlkLifecycle.set_windows (BlkLifecycle.set_bd BlkLifecycle.demo_stopped
    (BlkLifecycle.set_state (BlkLifecycle.bd BlkLifecycle.demo_stopped) DISK_STATE_OPEN)) (Some 300) (Some 301).
Lemma demo_disk_no_null d g : FIrq 0 ∉ all_res (Some (set_gdisk demo_disk d g true)).
Proof. rewrite irq_in_disk. by intros [_ ?]. Qed.

Lemma vcablk_run_failure_leaves_backend_open_witness :
  exists s' L c' R, (s ← fe_step (fun _ => mkCenv NoMem NoMem 6 None true None 0 0 true (- EIO))
                      (sys_of (Some (set_gdisk demo_disk true false true)) (set_command idle_ctrl CMD_RUN) (Some demo_open));
                     vcablk_bcknd_ftb_work 8 (fun _ _ => true) (fun _ => demo_denv) s) = Ret s'
    /\ paired 8 s' 0 (L ++ [FArray; FIrq 9; FDev]) [None; None; None; None] None c' (Some demo_open) /\ lost_tags L
    /\ idle c' /\ fheld (front s') ≡ₚ L ++ R /\ disk_rings demo_open = Some (300, 301).
Proof.
  destruct (vcablk_run_failure_leaves_backend_open 8 (fun _ _ => true) (fun _ => mkCenv NoMem NoMem 6 None true None 0 0 true (- EIO)) (fun _ => demo_denv)
    (sys_of (Some (set_gdisk demo_disk true false true)) (set_command idle_ctrl CMD_RUN) (Some demo_open)) 0 [FArray; FIrq 9; FDev]
    [Some (set_gdisk demo_disk true false true); None; None; None] (set_gdisk demo_disk true false true) (set_command idle_ctrl CMD_RUN) demo_open
    (demo_ring 200 300 1024) (demo_ring 201 301 32)) as (s' & L & c' & R & H1 & H2 & H3 & H4 & _ & _ & H5 & _ & H6).
  - apply demo_paired; [|apply demo_disk_no_null]. destruct demo_live. by split.
  - reflexivity.
  - reflexivity.
  - reflexivity.
  - reflexivity.
  - reflexivity.
  - vm_compute. reflexivity.
  - vm_compute. reflexivity.
  - intros j. done.
  - done.
  - exists s', L, c', R. repeat (split; [eassumption|]). vm_compute. reflexivity.
Defined.

Lemma vcablk_close_handshake_witness :
  exists s' L c', vcablk_bcknd_ioctl 8 true true demo_denv (answer 8 (fun _ _ => true) demo_env_j (fun _ => demo_denv)) false
      (sys_of (Some demo_disk) idle_ctrl (Some demo_open)) (VCA_BLK_CLOSE_DISC 0) = Ret (s', 0)
    /\ lost_tags L /\ idle c' /\ paired 8 s' 0 (L ++ [FArray; FIrq 9; FDev]) [None; None; None; None] None c' None.
Proof.
  destruct (vcablk_close_handshake 8 (fun _ _ => true) demo_env_j (fun _ => demo_denv) demo_denv (sys_of (Some demo_disk) idle_ctrl (Some demo_open)) 0
    [FArray; FIrq 9; FDev] [Some demo_disk; None; None; None] demo_disk idle_ctrl demo_open (demo_ring 200 300 1024) (demo_ring 201 301 32))
    as (s' & L & c' & o' & d' & H1 & H2 & H3 & H4 & -> & -> & _).
  - apply demo_paired; [apply demo_live|apply (demo_disk_no_null true true)].
  - by split.
  - reflexivity.
  - vm_compute. reflexivity.
  - vm_compute. reflexivity.
  - intros j. apply env_good_ok, demo_env_good.
  - exists s', L, c'. repeat (split; [eassumption|]). eassumption.
Defined.

(** The frontend has come back with a new page while the disk was open. *)
Definition demo_reappeared : sys (BlkLifecycle.bdisk unit) :=
  let s := sys_of None idle_ctrl (Some (BlkLifecycle.mkBdisk (BlkLifecycle.bd demo_open) 0 4 true 4 false 0 false (Some 300) (Some 301) [] [])) in
  set_pg s (mkPage VCA_BLK_VERSION 592 1 0 0 4 0 15 3 (replicate 4 idle_ctrl)).
Lemma vcablk_bcknd_reconnect_witness :
  exists s', vcablk_bcknd_set_dev_page 8 (fun _ _ => true) (fun _ => demo_denv) demo_reappeared 0x6000 = Ret s'
    /\ dp_addr (bdev s') = 0x6000 /\ exists c', devs (pg s') !! 0%nat = Some c' /\ command c' = CMD_CREATE.
Proof.
  destruct (vcablk_bcknd_reconnect 8 (fun _ _ => true) (fun _ => demo_denv) demo_reappeared 0x6000)
    as (s' & H1 & _ & H2 & _ & _ & _ & _ & H3 & _); try done; try (by vm_compute).
  - intros [|[|[|[|[|[|[|[|j]]]]]]]] d Hd; try done. injection Hd as <-. split; [done|]. by right.
  - destruct (H3 0%nat (BlkLifecycle.mkBdisk (BlkLifecycle.bd demo_open) 0 4 true 4 false 0 false (Some 300) (Some 301) [] []))
      as (d' & c' & _ & Hc & Hcmd & _); [done|done|].
    exists s'. split; [exact H1|]. split; [exact H2|]. by exists c'.
Defined.

Lemma vcablk_bcknd_create_keeps_refused_disk_witness :
  exists s' d0, vcablk_bcknd_create 8 demo_denv (sys_of None idle_ctrl None) (BlkLifecycle.mkOpen 5 VCABLK_DISK_TYPE_MEMORY 2 2048 []) = Ret (s', - ENOSPC)
    /\ device_array (bdev s') !! 5%nat = Some (Some d0)
    /\ vcablk_bcknd_create 8 demo_denv s' (BlkLifecycle.mkOpen 5 VCABLK_DISK_TYPE_MEMORY 2 2048 []) = Ret (s', - EBUSY).
Proof.
  destruct (disk_create demo_denv (BlkLifecycle.mkOpen 5 VCABLK_DISK_TYPE_MEMORY 2 2048 [])) as [[d0|]| | |] eqn:Ecr; try (by vm_compute in Ecr).
  destruct (vcablk_bcknd_create_keeps_refused_disk 8 demo_denv (sys_of None idle_ctrl None) (BlkLifecycle.mkOpen 5 VCABLK_DISK_TYPE_MEMORY 2 2048 []) d0)
    as (s' & H1 & H2 & _ & H3); try done.
  exists s', d0. done.
Defined.

(** A page of four entries has been opened, and disk 5 is destroyed. *)
Lemma vcablk_bcknd_destroy_overruns_witness :
  exists s' d, vcablk_bcknd_create 8 demo_denv (sys_of None idle_ctrl None) (BlkLifecycle.mkOpen 5 VCABLK_DISK_TYPE_MEMORY 2 2048 []) = Ret (s', - ENOSPC)
    /\ device_array (bdev s') !! 5%nat = Some (Some d) /\ vcablk_bcknd_destroy (fun s => Ret s) false s' 5 false = Oob.
Proof.
  destruct (vcablk_bcknd_create 8 demo_denv (sys_of None idle_ctrl None) (BlkLifecycle.mkOpen 5 VCABLK_DISK_TYPE_MEMORY 2 2048 []))
    as [[s' err]| | |] eqn:E; [|vm_compute in E; discriminate E..].
  destruct (device_array (bdev s') !! 5%nat) as [[d|]|] eqn:Ed; [|vm_compute in E; injection E as <- <-; discriminate Ed..].
  exists s', d. split; [vm_compute in E; by injection E as <- <-|]. split; [exact Ed|].
  apply (vcablk_bcknd_destroy_overruns (fun s => Ret s) false s' 5 d false); [lia|exact Ed|..];
    vm_compute in E; injection E as <- <-; vm_compute in Ed; injection Ed as <-; by vm_compute.
Defined.

End BlkBackCtl.
