(* ===== verification/Lbp.v ===== *)
(** * The leveraged boot protocol

    [src/modules/vca/plx87xx/plx_lbp.c]: the host leads the BIOS of a node through its
    boot by means of the scratchpads of the bridge ([ALut]): the handshake, sending
    an image to a ramdisk of the node, booting and flashing, the parameters and the
    clock of the BIOS, the state of the node.

    The node is code outside of this repository: it appears as what it does to the
    device behind the registers while the host sleeps for a millisecond ([Card]). *)

From Stdlib Require Import ZArith Lia.
From stdpp Require Import base sets list numbers option tactics relations.
From S2P Require Import Prelude Alm ALut.
#[local] Open Scope Z_scope.

Module Lbp.
Import ALut.

(** ** State, outcomes and their monad *)

Definition M (S A : Type) : Type := S -> outcome (A * S).
#[export] Instance M_ret S : MRet (M S) := fun A a s => Ret (a, s).
#[export] Instance M_bind S : MBind (M S) := fun A B f m s => '(a, s) ← m s; f a s.
Definition gets {S A} (f : S -> A) : M S A := fun s => Ret (f s, s).
Definition modify {S} (f : S -> S) : M S unit := fun s => Ret (tt, f s).
Definition spin {S A} : M S A := fun _ => Spin.

(** ** Words with fields

    A bit field is [w] bits wide; the first one has the lowest bits. *)
Fixpoint pack (fs : list (Z * Z)) : Z :=
  match fs with
  | [] => 0
  | (w, v) :: fs => wrap w v + 2 ^ w * pack fs
  end.
Definition field (off w v : Z) : Z := (v / 2 ^ off) mod 2 ^ w.

(** ** The interface of the protocol ([plx_lbp_ifc.h], [plx_lbp.h]) *)

Definition PLX_LBP_SPAD_i7_READY := 2.
Definition PLX_LBP_SPAD_E5_READY := 3.
Definition PLX_LBP_SPAD_i7_CMD := 4.
Definition PLX_LBP_SPAD_DATA_LOW := 5.
Definition PLX_LBP_SPAD_DATA_HIGH := 6.
Definition PLX_LBP_SPAD_i7_ERROR := 7.

Definition PLX_LBP_i7_DOWN := 0.
Definition PLX_LBP_i7_UP := Z.shiftl 1 0.
Definition PLX_LBP_i7_READY := Z.shiftl 1 1.
Definition PLX_LBP_i7_BUSY := Z.shiftl 1 2.
Definition PLX_LBP_i7_BOOTING := Z.shiftl 1 3.
Definition PLX_LBP_i7_FLASHING := Z.shiftl 1 4.
Definition PLX_LBP_i7_DONE := Z.shiftl 1 5.
Definition PLX_LBP_i7_UEFI_ERROR := Z.shiftl 1 6.
Definition PLX_LBP_i7_GENERAL_ERROR := Z.shiftl 1 7.
Definition PLX_LBP_i7_OS_READY := Z.shiftl 1 8.
Definition PLX_LBP_i7_NET_DEV_READY := Z.shiftl 1 9.
Definition PLX_LBP_i7_NET_DEV_UP := Z.shiftl 1 10.
Definition PLX_LBP_i7_NET_DEV_DOWN := Z.shiftl 1 11.
Definition PLX_LBP_i7_NET_DEV_NO_IP := Z.shiftl 1 12.
Definition PLX_LBP_i7_DRV_PROBE_DONE := Z.shiftl 1 13.
Definition PLX_LBP_i7_DRV_PROBE_ERROR := Z.lor PLX_LBP_i7_DRV_PROBE_DONE PLX_LBP_i7_GENERAL_ERROR.
Definition PLX_LBP_i7_DHCP_IN_PROGRESS := Z.shiftl 1 14.
Definition PLX_LBP_i7_DHCP_DONE := Z.shiftl 1 15.
Definition PLX_LBP_i7_DHCP_ERROR := Z.lor PLX_LBP_i7_DHCP_DONE PLX_LBP_i7_GENERAL_ERROR.
Definition PLX_LBP_i7_NFS_MOUNT_DONE := Z.shiftl 1 16.
Definition PLX_LBP_i7_NFS_MOUNT_ERROR := Z.lor PLX_LBP_i7_NFS_MOUNT_DONE PLX_LBP_i7_GENERAL_ERROR.
Definition PLX_LBP_i7_BOOTING_BLOCK_IO := Z.shiftl 1 17.
Definition PLX_LBP_i7_SOFTWARE_NODE_DOWN := Z.shiftl 1 18.
Definition PLX_LBP_i7_OS_REBOOTING := Z.shiftl 1 19.
Definition PLX_LBP_i7_AFTER_REBOOT := Z.shiftl 1 20.
Definition PLX_LBP_i7_POWER_DOWN := Z.shiftl 1 21.
Definition PLX_LBP_i7_POWERING_DOWN := Z.shiftl 1 22.
Definition PLX_LBP_i7_ANY_ERROR := Z.lor PLX_LBP_i7_UEFI_ERROR PLX_LBP_i7_GENERAL_ERROR.

Definition PLX_LBP_PROTOCOL_VERSION (major minor : Z) : Z := Z.lor (Z.shiftl major 4) minor.
Definition PLX_LBP_PROTOCOL_VERSION_0_2 := PLX_LBP_PROTOCOL_VERSION 0 2.
Definition PLX_LBP_PROTOCOL_VERSION_0_4 := PLX_LBP_PROTOCOL_VERSION 0 4.
Definition PLX_LBP_PROTOCOL_VERSION_1_1 := PLX_LBP_PROTOCOL_VERSION 1 1.
Definition PLX_LBP_PROTOCOL_VERSION_1_2 := PLX_LBP_PROTOCOL_VERSION 1 2.

(** [struct plx_lbp_i7_ready]: the state and the version; both names of the upper byte. *)
Definition ready (v : Z) : Z := field 0 24 v.
Definition version (v : Z) : Z := field 24 8 v.
Definition major (v : Z) : Z := field 24 4 v.
Definition minor (v : Z) : Z := field 28 4 v.
Definition set_ready (v r : Z) : Z := pack [(24, r); (8, version v)].

Definition PLX_LBP_E5_NOT_READY := 0.
Definition PLX_LBP_E5_WAITING_FOR_IRQ := Z.shiftl 1 0.
Definition PLX_LBP_E5_READY := Z.shiftl 1 1.
Definition plx_lbp_e5_ready (r CPUID pci_slot_id ntb_port_id : Z) : Z :=
  pack [(8, r); (8, CPUID); (8, pci_slot_id); (8, ntb_port_id)].

Definition PLX_LBP_CMD_INVALID := 0.
Definition PLX_LBP_CMD_BOOT_LOADER := 1.
Definition PLX_LBP_CMD_MAP_RAMDISK := 2.
Definition PLX_LBP_CMD_BOOT_RAMDISK := 4.
Definition PLX_LBP_CMD_FLASH_FW := 5.
Definition PLX_LBP_CMD_FLASH_BIOS := 6.
Definition PLX_LBP_CMD_GET_MAC_ADDR := 8.
Definition PLX_LBP_CMD_SET_TIME := 9.
Definition PLX_LBP_CMD_SET_PARAM := 10.
Definition PLX_LBP_CMD_GET_PARAM := 11.
Definition PLX_LBP_CMD_CLEAR_ERROR := 12.
Definition PLX_LBP_CMD_BOOT_BLOCK_IO := 13.
Definition plx_lbp_i7_cmd (cmd param : Z) : Z := pack [(16, cmd); (16, param)].
Definition cmd_of (v : Z) : Z := field 0 16 v.

Inductive PLX_LBP_PARAM :=
| PLX_LBP_PARAM_INVALID
| PLX_LBP_PARAM_CPU_MAX_FREQ_NON_TURBO
| PLX_LBP_PARAM_BIOS_VER
| PLX_LBP_PARAM_BIOS_BUILD_DATE
| PLX_LBP_PARAM_SGX
| PLX_LBP_PARAM_GPU_APERTURE
| PLX_LBP_PARAM_TDP.
#[export] Instance PLX_LBP_PARAM_eq_dec : EqDecision PLX_LBP_PARAM.
Proof. solve_decision. Defined.
Definition param_code (p : PLX_LBP_PARAM) : Z :=
  match p with
  | PLX_LBP_PARAM_INVALID => 0
  | PLX_LBP_PARAM_CPU_MAX_FREQ_NON_TURBO => 1
  | PLX_LBP_PARAM_BIOS_VER => 2
  | PLX_LBP_PARAM_BIOS_BUILD_DATE => 3
  | PLX_LBP_PARAM_SGX => 4
  | PLX_LBP_PARAM_GPU_APERTURE => 5
  | PLX_LBP_PARAM_TDP => 6
  end.
Definition PLX_LBP_PARAM_VERSION_0_2_CPU_MAX_FREQ_NON_TURBO_MIN_VAL := 8.
Definition PLX_LBP_PARAM_VERSION_0_2_CPU_MAX_FREQ_NON_TURBO_MAX_VAL := 17.
Definition PLX_LBP_PARAM_VERSION_0_2_CPU_START_TURBO := 17.
Definition PLX_LBP_PARAM_CPU_START_TURBO := 0.
Definition PLX_LBP_PARAM_BAR23 := 1.
Definition PLX_GOLD_IMAGE := 1.

(** [vca_common.h] *)
Definition VCA_PRODUCTION := 0xe.
Inductive vca_lbp_states :=
| VCA_BIOS_DOWN | VCA_BIOS_UP | VCA_BIOS_READY | VCA_OS_READY | VCA_NET_DEV_READY | VCA_BOOTING | VCA_FLASHING
| VCA_RESETTING | VCA_BUSY | VCA_DONE | VCA_ERROR | VCA_NET_DEV_UP | VCA_NET_DEV_DOWN | VCA_NET_DEV_NO_IP
| VCA_DRV_PROBE_DONE | VCA_DRV_PROBE_ERROR | VCA_DHCP_IN_PROGRESS | VCA_DHCP_DONE | VCA_DHCP_ERROR
| VCA_NFS_MOUNT_DONE | VCA_NFS_MOUNT_ERROR | VCA_LINK_DOWN | VCA_BOOTING_BLOCKIO | VCA_OS_REBOOTING
| VCA_AFTER_REBOOT | VCA_POWER_DOWN | VCA_POWERING_DOWN | VCA_SIZE.
#[export] Instance vca_lbp_states_eq_dec : EqDecision vca_lbp_states.
Proof. solve_decision. Defined.
Inductive vca_lbp_rcvy_states := VCA_RCVY_JUMPER_CLOSE | VCA_RCVY_JUMPER_OPEN | VCA_RCVY_NON_READABLE.
Inductive vca_lbp_param :=
| VCA_LBP_PARAM_i7_IRQ_TIMEOUT_MS
| VCA_LBP_PARAM_i7_ALLOC_TIMEOUT_MS
| VCA_LBP_PARAM_i7_CMD_TIMEOUT_MS
| VCA_LBP_PARAM_i7_MAC_WRITE_TIMEOUT_MS
| VCA_LBP_PARAM_SIZE.
#[export] Instance vca_lbp_param_eq_dec : EqDecision vca_lbp_param.
Proof. solve_decision. Defined.

Definition LBP_STATE_OK := 0.
Definition LBP_SPAD_i7_WRONG_STATE := 1.
Definition LBP_IRQ_TIMEOUT := 2.
Definition LBP_ALLOC_TIMEOUT := 3.
Definition LBP_CMD_TIMEOUT := 4.
Definition LBP_BAD_PARAMETER_VALUE := 5.
Definition LBP_UNKNOWN_PARAMETER := 6.
Definition LBP_INTERNAL_ERROR := 7.
Definition LBP_PROTOCOL_VERSION_MISMATCH := 8.
Definition LBP_BIOS_INFO_CACHE_EMPTY := 10.
Definition ENOSYS := 38.
Definition ERESTARTSYS := 512.

(** Arithmetic on the error codes. *)
Ltac codes :=
  cbn [fst snd] in *;
  unfold LBP_STATE_OK, LBP_SPAD_i7_WRONG_STATE, LBP_IRQ_TIMEOUT, LBP_ALLOC_TIMEOUT, LBP_CMD_TIMEOUT, LBP_BAD_PARAMETER_VALUE,
    LBP_UNKNOWN_PARAMETER, LBP_INTERNAL_ERROR, LBP_PROTOCOL_VERSION_MISMATCH, LBP_BIOS_INFO_CACHE_EMPTY, ERESTARTSYS, ETIME,
    ENODEV, ENOMEM, EBUSY in *;
  lia.

(** ** State *)

(** What the node does to the device behind the registers in a millisecond, and
    whether it rings the doorbell of the protocol. *)
Class Card (hw : Type) := card_ms : hw -> hw * bool.

Record parameters := mkParams {
  i7_irq_timeout_ms : Z;
  i7_alloc_timeout_ms : Z;
  i7_cmd_timeout_ms : Z;
  i7_mac_write_timeout_ms : Z;
}.
Record plx_lbp := mkPlxLbp {
  irq : option (Z + Z);       (* [NULL], the cookie, or an error *)
  card_wait : bool;
  i7_ddr_size_mb : Z;
  params : parameters;
}.
Record bios_info := mkInfo {
  bios_information_date : Z;
  bios_information_version : Z;
  bios_cfg_sgx : Z;
  bios_cfg_gpu_aperture : Z;
  bios_cfg_tdp : Z;
}.

(** What does not change; [vca_csm_dev]: the index of that device. *)
Record config := mkConfig {
  card_type : Z;
  devfn : Z;
  vca_csm_dev : option Z;
  dma_ch : bool;
  aper_pa : Z;
  blockio_ftb_db : Z;
}.

(** What the host did: the milliseconds it slept, its writes to the scratchpads, the
    reboots it announced, the buffers it holds and the interrupts it freed. *)
Record log := mkLog {
  clock : Z;
  wrote : list (Z * Z);
  reboots : Z;
  buffers : list Z;
  freed : list (option (Z + Z));
}.

(** The device, with the memory of the node. *)
Record lbp_dev (hw : Type) := mkLbp {
  xd : plx_device hw;
  conf : config;
  lbp : plx_lbp;
  lbp_resetting : bool;
  bios : bios_info;
  blockio_dp : Z;
  peer_mem : Z -> Z;
  lg : log;
}.
Arguments mkLbp {_}. Arguments xd {_}. Arguments conf {_}. Arguments lbp {_}. Arguments lbp_resetting {_}.
Arguments bios {_}. Arguments blockio_dp {_}. Arguments peer_mem {_}. Arguments lg {_}.

(** The time of the host: [struct tm], the milliseconds, the time zone, and what the
    stack holds where the code leaves a bit field unset. *)
Record timeinfo := mkTime {
  tm_year : Z;
  tm_mon : Z;
  tm_mday : Z;
  tm_hour : Z;
  tm_min : Z;
  tm_sec : Z;
  tm_msec : Z;
  tz_minuteswest : Z;
  time_unset : Z;
}.

(** The fields of the scratchpads that [plx_lbp_handshake] leaves unset. *)
Record unset := mkUnset { u_param : Z; u_slot : Z; u_port : Z; u_cpuid : Z }.

(** What the kernel answers while an image is sent: the two allocations, and for each
    offset whether the user's memory can be read, whether the transfer is prepared
    and submitted, its error and how much of it arrived. *)
Record renv := mkRenv {
  huge_ok : bool;
  page_ok : bool;
  copy_ok : Z -> bool;
  prep_ok : Z -> bool;
  submit_ok : Z -> bool;
  wait_err : Z -> Z;
  arrived : Z -> nat;
}.
Definition HPAGE_SIZE := 2097152.
Definition PAGE_SIZE := 4096.

Section Lbp.
Context {hw : Type} `{!Mmio hw, !Card hw}.
(** The clock of the host, by the milliseconds slept. *)
Context (now : Z -> timeinfo).
#[local] Abbreviation lbp_dev := (lbp_dev hw).
#[local] Abbreviation M := (M lbp_dev).
Implicit Types x : lbp_dev.

Definition set_xd x d : lbp_dev := mkLbp d (conf x) (lbp x) (lbp_resetting x) (bios x) (blockio_dp x) (peer_mem x) (lg x).
Definition set_lbp x l : lbp_dev := mkLbp (xd x) (conf x) l (lbp_resetting x) (bios x) (blockio_dp x) (peer_mem x) (lg x).
Definition set_resetting x b : lbp_dev := mkLbp (xd x) (conf x) (lbp x) b (bios x) (blockio_dp x) (peer_mem x) (lg x).
Definition set_bios x b : lbp_dev := mkLbp (xd x) (conf x) (lbp x) (lbp_resetting x) b (blockio_dp x) (peer_mem x) (lg x).
Definition set_dp x v : lbp_dev := mkLbp (xd x) (conf x) (lbp x) (lbp_resetting x) (bios x) v (peer_mem x) (lg x).
Definition set_mem x m : lbp_dev := mkLbp (xd x) (conf x) (lbp x) (lbp_resetting x) (bios x) (blockio_dp x) m (lg x).
Definition set_lg x l : lbp_dev := mkLbp (xd x) (conf x) (lbp x) (lbp_resetting x) (bios x) (blockio_dp x) (peer_mem x) l.
Definition set_wait x b : lbp_dev := set_lbp x (mkPlxLbp (irq (lbp x)) b (i7_ddr_size_mb (lbp x)) (params (lbp x))).
Definition set_irq x i : lbp_dev := set_lbp x (mkPlxLbp i (card_wait (lbp x)) (i7_ddr_size_mb (lbp x)) (params (lbp x))).
Definition set_ddr x v : lbp_dev := set_lbp x (mkPlxLbp (irq (lbp x)) (card_wait (lbp x)) v (params (lbp x))).
Definition set_params x p : lbp_dev := set_lbp x (mkPlxLbp (irq (lbp x)) (card_wait (lbp x)) (i7_ddr_size_mb (lbp x)) p).
Definition log_write (l : log) i v : log := mkLog (clock l) (wrote l ++ [(i, v)]) (reboots l) (buffers l) (freed l).
Definition log_ms (l : log) : log := mkLog (clock l + 1) (wrote l) (reboots l) (buffers l) (freed l).
Definition log_reboot (l : log) : log := mkLog (clock l) (wrote l) (reboots l + 1) (buffers l) (freed l).
Definition set_buffers (l : log) b : log := mkLog (clock l) (wrote l) (reboots l) b (freed l).
Definition log_free (l : log) c : log := mkLog (clock l) (wrote l) (reboots l) (buffers l) (freed l ++ [c]).

(** ** Scratchpads and waiting *)

Definition read_spad (idx : Z) : M Z := fun x =>
  let '(v, d) := plx_read_spad (xd x) idx in Ret (v, set_xd x d).
Definition write_spad (idx v : Z) : M unit := fun x =>
  Ret (tt, set_lg (set_xd x (plx_write_spad (xd x) idx v)) (log_write (lg x) idx (u32 v))).

Definition plx_lbp_interrupt_handler : M unit :=
  _ ← modify (fun x => set_wait x true);
  i7_ready ← read_spad PLX_LBP_SPAD_i7_READY;
  if Z.lor PLX_LBP_i7_AFTER_REBOOT PLX_LBP_i7_UP =? ready i7_ready
  then modify (fun x => set_lg x (log_reboot (lg x)))      (* plx_reboot_notify *)
  else mret tt.

(** [msleep(1)]: the node runs; its doorbell interrupts the host. *)
Definition msleep : M unit := fun x =>
  let '(h, rang) := card_ms (mmio (xd x)) in
  let x := set_lg (set_xd x (set_mmio (xd x) h)) (log_ms (lg x)) in
  if rang then plx_lbp_interrupt_handler x else Ret (tt, x).

(** [lbp_wait_event]: the value that satisfies the test, or [None] after [timeout]
    turns ([-ETIME]). *)
Fixpoint lbp_wait_event {A} (timeout : nat) (get : M A) (event : A -> bool) : M (option A) :=
  match timeout with
  | O => mret None
  | S to => _ ← msleep; a ← get; if event a then mret (Some a) else lbp_wait_event to get event
  end.

(** [wait_for_completion_interruptible_timeout], a jiffy being a millisecond; [sig]: a
    signal is pending. *)
Fixpoint wait_for_completion (sig : bool) (timeout : nat) : M Z :=
  done ← gets (fun x => card_wait (lbp x));
  if (done : bool) then mret 1
  else match timeout with
       | O => mret 0
       | S to => if sig then mret (- ERESTARTSYS) else _ ← msleep; wait_for_completion sig to
       end.

Definition plx_lbp_get_i7_status : M Z := read_spad PLX_LBP_SPAD_i7_READY.
Definition plx_lbp_set_i7_status (status : Z) : M unit := write_spad PLX_LBP_SPAD_i7_READY status.
Definition plx_lbp_get_i7_rcvy_status : M Z := read_spad PLX_LBP_SPAD_DATA_LOW.

Definition plx_lbp_wait_for_i7_up (sig : bool) (timeout_ms : Z) : M Z :=
  err ← wait_for_completion sig (Z.to_nat timeout_ms);
  if err <? 0 then mret err
  else if err =? 0 then mret (- ETIME)
  else
    v ← plx_lbp_get_i7_status;
    if negb (Z.ldiff (ready v) PLX_LBP_i7_AFTER_REBOOT =? PLX_LBP_i7_UP) then mret (- ENODEV) else mret 0.

(** The state of the node, or [-ETIME]. *)
Definition plx_lbp_wait_for_i7_state (state timeout : Z) : M Z :=
  r ← lbp_wait_event (Z.to_nat timeout) (v ← plx_lbp_get_i7_status; mret (ready v))
        (fun r => if state =? 0 then r =? state else testflag r state);
  mret (match r with Some r => r | None => - ETIME end).

Definition plx_lbp_get_i7_cmd : M Z := read_spad PLX_LBP_SPAD_i7_CMD.

Definition plx_lbp_wait_for_i7_cmd_consumed (timeout_ms : Z) : M Z :=
  r ← lbp_wait_event (Z.to_nat timeout_ms) (v ← plx_lbp_get_i7_cmd; mret (cmd_of v)) (fun c => c =? PLX_LBP_CMD_INVALID);
  mret (match r with Some _ => 0 | None => - ETIME end).

Definition cmd_timeout x : Z := i7_cmd_timeout_ms (params (lbp x)).

(** ** The clock of the BIOS *)

Definition time_fields (t : timeinfo) : list (Z * Z) :=
  [(13, 1900 + tm_year t); (5, 1 + tm_mon t); (6, tm_mday t); (6, tm_hour t); (7, tm_min t); (7, tm_sec t);
   (16, tm_msec t); (4, time_unset t)].
Definition plx_lbp_time (t : timeinfo) : Z := pack (time_fields t).

Definition plx_lbp_set_time_no_mutex : M Z :=
  v ← plx_lbp_get_i7_status;
  if negb (ready v =? PLX_LBP_i7_READY) then mret LBP_SPAD_i7_WRONG_STATE
  else
    t ← gets (fun x => now (clock (lg x)));
    _ ← write_spad PLX_LBP_SPAD_DATA_HIGH (Z.shiftr (plx_lbp_time t) 32);
    _ ← write_spad PLX_LBP_SPAD_DATA_LOW (plx_lbp_time t);
    _ ← write_spad PLX_LBP_SPAD_i7_CMD (plx_lbp_i7_cmd PLX_LBP_CMD_SET_TIME (u16 (tz_minuteswest t)));
    timeout ← gets cmd_timeout;
    err ← plx_lbp_wait_for_i7_cmd_consumed timeout;
    mret (if err <? 0 then LBP_CMD_TIMEOUT else err).

(** The wait for the node after a command was consumed. *)
Definition wait_ready : M Z :=
  timeout ← gets cmd_timeout;
  err ← plx_lbp_wait_for_i7_state PLX_LBP_i7_READY timeout;
  mret (if err <? 0 then LBP_CMD_TIMEOUT else LBP_STATE_OK).

Definition plx_lbp_set_time : M Z :=
  err ← plx_lbp_set_time_no_mutex;
  if negb (err =? LBP_STATE_OK) then mret err else wait_ready.

(** ** Parameters of the BIOS *)

(** The version of the protocol that knows the parameter. *)
Definition needed_version (p : PLX_LBP_PARAM) : option Z :=
  match p with
  | PLX_LBP_PARAM_BIOS_BUILD_DATE | PLX_LBP_PARAM_BIOS_VER => Some PLX_LBP_PROTOCOL_VERSION_1_1
  | PLX_LBP_PARAM_CPU_MAX_FREQ_NON_TURBO => Some PLX_LBP_PROTOCOL_VERSION_0_2
  | PLX_LBP_PARAM_SGX | PLX_LBP_PARAM_GPU_APERTURE | PLX_LBP_PARAM_TDP => Some PLX_LBP_PROTOCOL_VERSION_1_2
  | PLX_LBP_PARAM_INVALID => None
  end.
Definition check_if_supported (i7_ready protocol_version : Z) : bool := negb (version i7_ready <? protocol_version).
Definition is_freq (p : PLX_LBP_PARAM) : bool := bool_decide (p = PLX_LBP_PARAM_CPU_MAX_FREQ_NON_TURBO).

(** The error and the value of [*dest] afterwards. *)
Definition plx_lbp_copy_bios_info (param : PLX_LBP_PARAM) (dest : Z) : M (Z * Z) :=
  i7_ready ← read_spad PLX_LBP_SPAD_i7_READY;
  match needed_version param with
  | None => mret (- LBP_UNKNOWN_PARAMETER, dest)
  | Some ver =>
      if negb (check_if_supported i7_ready ver) then mret (LBP_PROTOCOL_VERSION_MISMATCH, dest)
      else
        _ ← write_spad PLX_LBP_SPAD_i7_CMD (plx_lbp_i7_cmd PLX_LBP_CMD_GET_PARAM (param_code param));
        timeout ← gets cmd_timeout;
        err ← plx_lbp_wait_for_i7_cmd_consumed timeout;
        if err <? 0 then mret (LBP_CMD_TIMEOUT, dest)
        else
          let input_value := u32 dest in
          lo ← read_spad PLX_LBP_SPAD_DATA_LOW;
          hi ← (if is_freq param then mret 0 else read_spad PLX_LBP_SPAD_DATA_HIGH);
          let dest := pack [(32, lo); (32, hi)] in
          let old := is_freq param && (version i7_ready <=? PLX_LBP_PROTOCOL_VERSION_0_2) in
          if old && (input_value =? 0) && (dest =? 17) then mret (err, input_value)
          else if old && ((dest <? PLX_LBP_PARAM_VERSION_0_2_CPU_MAX_FREQ_NON_TURBO_MIN_VAL)
                          || (PLX_LBP_PARAM_VERSION_0_2_CPU_MAX_FREQ_NON_TURBO_MAX_VAL <? dest))
          then mret (LBP_BAD_PARAMETER_VALUE, dest)
          else err ← plx_lbp_set_time_no_mutex; mret (err, dest)
  end.

(** The cached value, when there is one ([-1] as a 64-bit value is none). *)
Definition UNKNOWN := u64 (-1).
Definition plx_lbp_copy_bios_info_from_cache (param : PLX_LBP_PARAM) (dest : Z) : M (Z * Z) :=
  b ← gets bios;
  let use v none := if negb (v =? none) then mret (0, v) else mret (LBP_BIOS_INFO_CACHE_EMPTY, dest) in
  match param with
  | PLX_LBP_PARAM_BIOS_BUILD_DATE => use (bios_information_date b) 0
  | PLX_LBP_PARAM_BIOS_VER => use (bios_information_version b) 0
  | PLX_LBP_PARAM_SGX => use (bios_cfg_sgx b) UNKNOWN
  | PLX_LBP_PARAM_GPU_APERTURE => use (bios_cfg_gpu_aperture b) UNKNOWN
  | PLX_LBP_PARAM_TDP => use (bios_cfg_tdp b) UNKNOWN
  | _ => mret (LBP_BIOS_INFO_CACHE_EMPTY, dest)
  end.

Definition plx_lbp_clear_error : M bool :=
  _ ← write_spad PLX_LBP_SPAD_i7_ERROR 0;
  timeout ← gets cmd_timeout;
  err ← plx_lbp_wait_for_i7_state PLX_LBP_i7_READY timeout;
  if err <? 0 then mret false
  else
    _ ← write_spad PLX_LBP_SPAD_i7_CMD (plx_lbp_i7_cmd PLX_LBP_CMD_CLEAR_ERROR 0);
    err ← plx_lbp_wait_for_i7_cmd_consumed timeout;
    mret (negb (err <? 0)).

Definition clear_or_timeout : M Z := ok ← plx_lbp_clear_error; mret (if (ok : bool) then LBP_INTERNAL_ERROR else LBP_CMD_TIMEOUT).

(** The parameters that can be set. *)
Definition settable (p : PLX_LBP_PARAM) : option Z :=
  match p with
  | PLX_LBP_PARAM_CPU_MAX_FREQ_NON_TURBO => Some PLX_LBP_PROTOCOL_VERSION_0_2
  | PLX_LBP_PARAM_SGX | PLX_LBP_PARAM_GPU_APERTURE | PLX_LBP_PARAM_TDP => Some PLX_LBP_PROTOCOL_VERSION_1_2
  | _ => None
  end.

Definition plx_lbp_set_bios_param (param : PLX_LBP_PARAM) (value : Z) : M Z :=
  i7_ready ← read_spad PLX_LBP_SPAD_i7_READY;
  match settable param with
  | None => mret LBP_UNKNOWN_PARAMETER
  | Some ver =>
      if negb (check_if_supported i7_ready ver) then mret LBP_PROTOCOL_VERSION_MISMATCH
      else
        i7_ready ← plx_lbp_get_i7_status;
        if negb (ready i7_ready =? PLX_LBP_i7_READY) then mret LBP_SPAD_i7_WRONG_STATE
        else
          let value := if is_freq param && (value =? PLX_LBP_PARAM_CPU_START_TURBO)
                          && (version i7_ready <=? PLX_LBP_PROTOCOL_VERSION_0_2)
                       then PLX_LBP_PARAM_VERSION_0_2_CPU_START_TURBO else value in
          _ ← write_spad PLX_LBP_SPAD_DATA_LOW value;
          _ ← write_spad PLX_LBP_SPAD_DATA_HIGH (Z.shiftr value 32);
          _ ← write_spad PLX_LBP_SPAD_i7_CMD (plx_lbp_i7_cmd PLX_LBP_CMD_SET_PARAM (param_code param));
          timeout ← gets cmd_timeout;
          err ← plx_lbp_wait_for_i7_cmd_consumed timeout;
          if err <? 0 then mret LBP_CMD_TIMEOUT
          else
            i7_error ← read_spad PLX_LBP_SPAD_i7_ERROR;
            if negb (i7_error =? 0) then clear_or_timeout else mret err
  end.

(** Reading a parameter that the host also keeps. *)
Definition get_cached_param (i7_ready ver : Z) (param : PLX_LBP_PARAM) (value : Z) : M (Z * Z * bool) :=
  if negb (check_if_supported i7_ready ver) then
    if (major i7_ready =? 0) && (minor i7_ready =? 0)
    then r ← plx_lbp_copy_bios_info_from_cache param value; mret (r, true)
    else mret (LBP_PROTOCOL_VERSION_MISMATCH, value, true)
  else
    i7_ready ← plx_lbp_get_i7_status;
    if negb (ready i7_ready =? PLX_LBP_i7_READY) && negb (ready i7_ready =? PLX_LBP_i7_UP)
    then r ← plx_lbp_copy_bios_info_from_cache param value; mret (r, true)
    else r ← plx_lbp_copy_bios_info param value; mret (r, false).

(** The flag of [r] is set where the code goes to [unlock], past the error handling. *)
Definition plx_lbp_get_bios_param (param : PLX_LBP_PARAM) (value : Z) : M (Z * Z) :=
  i7_ready ← read_spad PLX_LBP_SPAD_i7_READY;
  '(err, value, unlock) ←
    match param with
    | PLX_LBP_PARAM_BIOS_BUILD_DATE | PLX_LBP_PARAM_BIOS_VER => get_cached_param i7_ready PLX_LBP_PROTOCOL_VERSION_1_1 param value
    | PLX_LBP_PARAM_SGX | PLX_LBP_PARAM_GPU_APERTURE | PLX_LBP_PARAM_TDP =>
        get_cached_param i7_ready PLX_LBP_PROTOCOL_VERSION_1_2 param value
    | PLX_LBP_PARAM_CPU_MAX_FREQ_NON_TURBO =>
        if negb (ready i7_ready =? PLX_LBP_i7_READY) then mret (LBP_SPAD_i7_WRONG_STATE, value, false)
        else r ← plx_lbp_copy_bios_info param value; mret (r, false)
    | PLX_LBP_PARAM_INVALID => mret (- LBP_UNKNOWN_PARAMETER, value, false)
    end;
  if (unlock : bool) then mret (err, value)
  else if err <? 0 then mret (- err, value)
  else if testflag err PLX_LBP_i7_ANY_ERROR then
    _ ← read_spad PLX_LBP_SPAD_i7_ERROR;
    err ← clear_or_timeout; mret (err, value)
  else mret (err, value).

(** ** Handshake *)

(** The copies of [plx_lbp_handshake]: the first one that fails ends them. *)
Definition copy_into (param : PLX_LBP_PARAM) (get : bios_info -> Z) (set : bios_info -> Z -> bios_info) : M bool :=
  dest ← gets (fun x => get (bios x));
  '(err, v) ← plx_lbp_copy_bios_info param dest;
  _ ← modify (fun x => set_bios x (set (bios x) v));
  mret (err =? 0).
Definition set_date (b : bios_info) v := mkInfo v (bios_information_version b) (bios_cfg_sgx b) (bios_cfg_gpu_aperture b) (bios_cfg_tdp b).
Definition set_version (b : bios_info) v := mkInfo (bios_information_date b) v (bios_cfg_sgx b) (bios_cfg_gpu_aperture b) (bios_cfg_tdp b).
Definition set_sgx (b : bios_info) v := mkInfo (bios_information_date b) (bios_information_version b) v (bios_cfg_gpu_aperture b) (bios_cfg_tdp b).
Definition set_aperture (b : bios_info) v := mkInfo (bios_information_date b) (bios_information_version b) (bios_cfg_sgx b) v (bios_cfg_tdp b).
Definition set_tdp (b : bios_info) v := mkInfo (bios_information_date b) (bios_information_version b) (bios_cfg_sgx b) (bios_cfg_gpu_aperture b) v.
Definition both (a b : M bool) : M bool := ok ← a; if (ok : bool) then b else mret false.
Definition copy_bios_infos : M bool :=
  both (copy_into PLX_LBP_PARAM_BIOS_BUILD_DATE bios_information_date set_date)
  (both (copy_into PLX_LBP_PARAM_BIOS_VER bios_information_version set_version)
  (both (copy_into PLX_LBP_PARAM_SGX bios_cfg_sgx set_sgx)
  (both (copy_into PLX_LBP_PARAM_GPU_APERTURE bios_cfg_gpu_aperture set_aperture)
        (copy_into PLX_LBP_PARAM_TDP bios_cfg_tdp set_tdp)))).

(** The steps of the handshake: not negative when the node acknowledged. *)
Definition handshake_steps (u : unset) (sig : bool) (idx : Z) : M Z :=
  d ← gets xd;
  slot ← gets (fun x => PCI_SLOT (devfn (conf x)));
  timeout ← gets (fun x => i7_irq_timeout_ms (params (lbp x)));
  _ ← write_spad PLX_LBP_SPAD_i7_CMD (plx_lbp_i7_cmd PLX_LBP_CMD_INVALID (u_param u));
  _ ← modify (fun x => set_wait x false);
  _ ← write_spad PLX_LBP_SPAD_E5_READY (plx_lbp_e5_ready PLX_LBP_E5_WAITING_FOR_IRQ idx (u_slot u) (u_port u));
  err ← plx_lbp_wait_for_i7_up sig timeout;
  if negb (err =? 0) then mret (if err <? 0 then - LBP_IRQ_TIMEOUT else err)
  else
    _ ← read_spad PLX_LBP_SPAD_i7_READY;
    size ← read_spad PLX_LBP_SPAD_DATA_LOW;
    _ ← modify (fun x => set_ddr x size);
    _ ← write_spad PLX_LBP_SPAD_DATA_LOW idx;
    _ ← write_spad PLX_LBP_SPAD_DATA_HIGH 0;
    _ ← write_spad PLX_LBP_SPAD_E5_READY (plx_lbp_e5_ready PLX_LBP_E5_READY idx slot (port_id d));
    err ← plx_lbp_wait_for_i7_state PLX_LBP_i7_READY timeout;
    mret (if err <? 0 then - LBP_CMD_TIMEOUT else err).

Definition plx_lbp_handshake (u : unset) (sig : bool) : M Z :=
  d ← gets xd;
  slot ← gets (fun x => PCI_SLOT (devfn (conf x)));
  _ ← modify (fun x => set_bios x (mkInfo 0 0 UNKNOWN UNKNOWN UNKNOWN));
  csm ← gets (fun x => vca_csm_dev (conf x));
  err ← match csm with None => mret (- LBP_INTERNAL_ERROR) | Some idx => handshake_steps u sig idx end;
  if 0 <=? err then _ ← copy_bios_infos; mret LBP_STATE_OK
  else
    _ ← write_spad PLX_LBP_SPAD_E5_READY (plx_lbp_e5_ready PLX_LBP_E5_NOT_READY (u_cpuid u) slot (port_id d));
    mret (- err).

(** ** Sending an image *)

Definition peer_enable : M unit := modify (fun x => if a_lut (xd x) then set_xd x (plx_a_lut_peer_enable (xd x)) else x).

(** The bus address of the node behind an offset of the aperture. *)
Definition target (d : plx_device hw) (off : Z) : option Z := if a_lut d then peer_translate d off else Some off.
Fixpoint peer_write (d : plx_device hw) (off : Z) (data : list Z) (mem : Z -> Z) : Z -> Z :=
  match data with
  | [] => mem
  | b :: data =>
      let mem := match target d off with Some a => fun a' => if a' =? a then b else mem a' | None => mem end in
      peer_write d (off + 1) data mem
  end.

(** The transfer of [data] from the intermediate buffer to the bus address [dst]. *)
Definition vca_lbp_sync_dma (e : renv) (offset dst : Z) (data : list Z) : M Z :=
  ch ← gets (fun x => dma_ch (conf x));
  if negb ch then mret (- EBUSY)
  else if negb (prep_ok e offset) then mret (- ENOMEM)
  else if negb (submit_ok e offset) then mret (- ENOMEM)
  else
    let err := wait_err e offset in
    let data := if err =? 0 then data else take (arrived e offset) data in
    _ ← modify (fun x => set_mem x (peer_write (xd x) (u64 (dst - aper_pa (conf x))) data (peer_mem x)));
    mret err.

Definition ioremap (pa len : Z) : M (option Z) := fun x =>
  '(d, r) ← plx_ioremap (xd x) pa len; Ret (r, set_xd x d).
Definition iounmap (va : Z) : M unit := fun x => d ← plx_iounmap (xd x) va; Ret (tt, set_xd x d).

(** The bytes of the image from [offset]. *)
Definition chunk (img : list Z) (offset size : Z) : list Z := take (Z.to_nat size) (drop (Z.to_nat offset) img).

(** The [while] of [plx_lbp_send_ramdisk]; [n] turns are left. *)
Fixpoint chunk_loop (e : renv) (img : list Z) (ramdisk_ph : Z) (n : nat) (offset temp_buff_size err : Z) : M Z :=
  if negb (offset <? zlen img) then mret err
  else match n with
  | O => spin
  | S n =>
      if negb (copy_ok e offset) then mret (- LBP_INTERNAL_ERROR)
      else
        remapped ← ioremap (u64 (ramdisk_ph + offset)) temp_buff_size;
        match remapped with
        | None => mret (- LBP_INTERNAL_ERROR)
        | Some va =>
            chunk_dst ← gets (fun x => u64 (aper_pa (conf x) + (va - aper_va (xd x))));
            err ← vca_lbp_sync_dma e offset chunk_dst (chunk img offset temp_buff_size);
            _ ← iounmap va;
            if negb (err =? 0) then mret (- LBP_INTERNAL_ERROR)
            else
              let offset := u64 (offset + temp_buff_size) in
              chunk_loop e img ramdisk_ph n offset
                (if temp_buff_size <? u64 (zlen img - offset) then temp_buff_size else u32 (zlen img - offset)) err
        end
  end.

(** The intermediate buffer: a huge page or, failing that, a page. *)
Definition alloc_buffer (e : renv) : option Z :=
  if huge_ok e then Some HPAGE_SIZE else if page_ok e then Some PAGE_SIZE else None.

(** The part of [plx_lbp_send_ramdisk] that has the buffer. *)
Definition send_image (e : renv) (img : list Z) (temp_buff_size : Z) : M Z :=
  _ ← write_spad PLX_LBP_SPAD_DATA_LOW (DIV_ROUND_UP (zlen img) (1024 * 1024));
  _ ← write_spad PLX_LBP_SPAD_DATA_HIGH 0;
  _ ← write_spad PLX_LBP_SPAD_i7_CMD (plx_lbp_i7_cmd PLX_LBP_CMD_MAP_RAMDISK PLX_LBP_PARAM_BAR23);
  timeout ← gets (fun x => i7_alloc_timeout_ms (params (lbp x)));
  err ← plx_lbp_wait_for_i7_state (Z.lor PLX_LBP_i7_DONE PLX_LBP_i7_ANY_ERROR) timeout;
  if err <? 0 then _ ← plx_lbp_get_i7_status; mret (- LBP_ALLOC_TIMEOUT)
  else if testflag err PLX_LBP_i7_ANY_ERROR then mret err
  else
    hi ← read_spad PLX_LBP_SPAD_DATA_HIGH;
    lo ← read_spad PLX_LBP_SPAD_DATA_LOW;
    let ramdisk_ph := u64 (u64 (Z.shiftl hi 32) + lo) in
    chunk_loop e img ramdisk_ph (length img) 0 (if zlen img <? temp_buff_size then u32 (zlen img) else temp_buff_size) err.

(** The result of a step of the node: an error of the host, an error of the node, or success. *)
Definition card_result (err : Z) : M Z :=
  if err <? 0 then mret (- err)
  else if testflag err PLX_LBP_i7_ANY_ERROR then _ ← read_spad PLX_LBP_SPAD_i7_ERROR; mret LBP_INTERNAL_ERROR
  else mret LBP_STATE_OK.

Definition plx_lbp_send_ramdisk (e : renv) (img : list Z) : M Z :=
  ch ← gets (fun x => dma_ch (conf x));
  if negb ch then card_result (- LBP_INTERNAL_ERROR)
  else
    _ ← peer_enable;
    v ← plx_lbp_get_i7_status;
    if negb (ready v =? PLX_LBP_i7_READY) then card_result (- LBP_INTERNAL_ERROR)
    else match alloc_buffer e with
    | None => card_result (- LBP_INTERNAL_ERROR)
    | Some size =>
        _ ← modify (fun x => set_lg x (set_buffers (lg x) (size :: buffers (lg x))));
        err ← send_image e img size;
        _ ← modify (fun x => set_lg x (set_buffers (lg x) (release size (buffers (lg x)))));
        card_result err
    end.

(** ** Booting and flashing *)

(** A command and the wait for the states that answer it. *)
Definition command (cmd answer timeout : Z) : M Z :=
  _ ← write_spad PLX_LBP_SPAD_i7_CMD cmd;
  err ← plx_lbp_wait_for_i7_state answer timeout;
  mret (if err <? 0 then - LBP_CMD_TIMEOUT else err).

Definition plx_lbp_boot_ramdisk (e : renv) (img : list Z) : M Z :=
  err ← plx_lbp_send_ramdisk e img;
  if negb (err =? LBP_STATE_OK) then mret err
  else
    timeout ← gets cmd_timeout;
    err ← command (plx_lbp_i7_cmd PLX_LBP_CMD_BOOT_RAMDISK 0)
            (Z.lor (Z.lor PLX_LBP_i7_BOOTING PLX_LBP_i7_OS_READY) PLX_LBP_i7_ANY_ERROR) timeout;
    card_result err.

Definition plx_lbp_blkio_set_devpage : M unit :=
  hi ← read_spad PLX_LBP_SPAD_DATA_HIGH;
  lo ← read_spad PLX_LBP_SPAD_DATA_LOW;
  _ ← modify (fun x => set_dp x (u64 (u64 (Z.shiftl hi 32) + lo)));
  modify (fun x => set_xd x (plx_mmio_write (xd x) (DB_TO_MASK (blockio_ftb_db (conf x)))
                               (reg_base (xd x) + intr_reg_base (xd x) + PLX_DBIS))).

Definition plx_lbp_boot_blkdisk : M Z :=
  _ ← peer_enable;
  v ← plx_lbp_get_i7_status;
  if negb (ready v =? PLX_LBP_i7_READY) then mret (- LBP_INTERNAL_ERROR)
  else
    timeout ← gets cmd_timeout;
    err ← command (plx_lbp_i7_cmd PLX_LBP_CMD_BOOT_BLOCK_IO 0)
            (Z.lor (Z.lor PLX_LBP_i7_BOOTING_BLOCK_IO PLX_LBP_i7_OS_READY) PLX_LBP_i7_ANY_ERROR) timeout;
    r ← card_result err;
    if negb (r =? LBP_STATE_OK) then mret r else _ ← plx_lbp_blkio_set_devpage; mret LBP_STATE_OK.

(** [OLD_BIOS] is defined: the second wait takes up to five minutes, and the ramdisk is
    not unmapped. *)
Definition FLASH_TIMEOUT := 300000.
Definition plx_lbp_flash (e : renv) (cmd : Z) (file : list Z) : M Z :=
  err ← plx_lbp_send_ramdisk e file;
  if negb (err =? LBP_STATE_OK) then mret err
  else
    timeout ← gets cmd_timeout;
    err ← command cmd (Z.lor PLX_LBP_i7_FLASHING PLX_LBP_i7_ANY_ERROR) timeout;
    if (err <? 0) || testflag err PLX_LBP_i7_ANY_ERROR then card_result err
    else
      err ← plx_lbp_wait_for_i7_state (Z.lor PLX_LBP_i7_DONE PLX_LBP_i7_ANY_ERROR) FLASH_TIMEOUT;
      card_result (if err <? 0 then - LBP_CMD_TIMEOUT else err).

Definition plx_lbp_flash_bios e file : M Z := plx_lbp_flash e (plx_lbp_i7_cmd PLX_LBP_CMD_FLASH_BIOS 0) file.
Definition plx_lbp_clear_smb_event_log e file : M Z := plx_lbp_flash e (plx_lbp_i7_cmd PLX_LBP_CMD_FLASH_BIOS 0) file.
Definition plx_lbp_update_mac_addr e file : M Z := plx_lbp_flash e (plx_lbp_i7_cmd PLX_LBP_CMD_FLASH_FW 0) file.

Definition plx_lbp_boot_from_usb : M Z :=
  _ ← write_spad PLX_LBP_SPAD_i7_CMD (plx_lbp_i7_cmd PLX_LBP_CMD_BOOT_LOADER 0);
  timeout ← gets cmd_timeout;
  err ← plx_lbp_wait_for_i7_state (Z.lor PLX_LBP_i7_BOOTING PLX_LBP_i7_ANY_ERROR) timeout;
  mret (if err <? 0 then LBP_CMD_TIMEOUT else LBP_STATE_OK).

Definition plx_lbp_flash_firmware : M Z := mret (- ENOSYS).

(** The error and the address. *)
Definition bytes_le (n : nat) (v : Z) : list Z := map (fun i => field (8 * Z.of_nat i) 8 v) (seq 0 n).
Definition plx_lbp_get_mac_addr : M (Z * option (list Z)) :=
  v ← plx_lbp_get_i7_status;
  if negb (ready v =? PLX_LBP_i7_READY) then mret (LBP_SPAD_i7_WRONG_STATE, None)
  else
    _ ← write_spad PLX_LBP_SPAD_i7_CMD (plx_lbp_i7_cmd PLX_LBP_CMD_GET_MAC_ADDR 0);
    timeout ← gets cmd_timeout;
    err ← plx_lbp_wait_for_i7_cmd_consumed timeout;
    if err <? 0 then mret (LBP_CMD_TIMEOUT, None)
    else
      err ← wait_ready;
      if negb (err =? LBP_STATE_OK) then mret (err, None)
      else
        hi ← read_spad PLX_LBP_SPAD_DATA_HIGH;
        lo ← read_spad PLX_LBP_SPAD_DATA_LOW;
        mret (LBP_STATE_OK, Some (bytes_le 4 hi ++ bytes_le 2 (u16 lo))).

(** ** Timeouts *)

(** The largest value of a timeout. *)
Definition max_val (p : vca_lbp_param) : option Z :=
  match p with
  | VCA_LBP_PARAM_i7_IRQ_TIMEOUT_MS => Some 300000
  | VCA_LBP_PARAM_i7_CMD_TIMEOUT_MS | VCA_LBP_PARAM_i7_ALLOC_TIMEOUT_MS => Some 1000
  | VCA_LBP_PARAM_i7_MAC_WRITE_TIMEOUT_MS => Some 10000
  | VCA_LBP_PARAM_SIZE => None
  end.

(** The case of the command timeout falls through to the next one. *)
Definition store_param (p : vca_lbp_param) (q : parameters) (val : Z) : parameters :=
  match p with
  | VCA_LBP_PARAM_i7_IRQ_TIMEOUT_MS => mkParams val (i7_alloc_timeout_ms q) (i7_cmd_timeout_ms q) (i7_mac_write_timeout_ms q)
  | VCA_LBP_PARAM_i7_ALLOC_TIMEOUT_MS => mkParams (i7_irq_timeout_ms q) val (i7_cmd_timeout_ms q) (i7_mac_write_timeout_ms q)
  | VCA_LBP_PARAM_i7_CMD_TIMEOUT_MS => mkParams (i7_irq_timeout_ms q) (i7_alloc_timeout_ms q) val val
  | VCA_LBP_PARAM_i7_MAC_WRITE_TIMEOUT_MS => mkParams (i7_irq_timeout_ms q) (i7_alloc_timeout_ms q) (i7_cmd_timeout_ms q) val
  | VCA_LBP_PARAM_SIZE => q
  end.

Definition plx_lbp_set_param (param : vca_lbp_param) (val : Z) : M Z :=
  match max_val param with
  | None => mret LBP_UNKNOWN_PARAMETER
  | Some max =>
      if (val <? 0) || (max <? val) then mret LBP_BAD_PARAMETER_VALUE
      else _ ← modify (fun x => set_params x (store_param param (params (lbp x)) val)); mret LBP_STATE_OK
  end.

(** ** The state of the node *)

(** The cases of [plx_lbp_get_state], in the order of the code; the default case looks
    for the node being powered down. *)
Definition state_cases : list (Z * vca_lbp_states) :=
  [(PLX_LBP_i7_DOWN, VCA_BIOS_DOWN); (PLX_LBP_i7_UP, VCA_BIOS_UP); (PLX_LBP_i7_READY, VCA_BIOS_READY);
   (PLX_LBP_i7_BUSY, VCA_BUSY); (PLX_LBP_i7_BOOTING, VCA_BOOTING); (PLX_LBP_i7_FLASHING, VCA_FLASHING);
   (PLX_LBP_i7_DONE, VCA_DONE); (PLX_LBP_i7_OS_READY, VCA_OS_READY); (PLX_LBP_i7_NET_DEV_READY, VCA_NET_DEV_READY);
   (PLX_LBP_i7_UEFI_ERROR, VCA_ERROR); (PLX_LBP_i7_GENERAL_ERROR, VCA_ERROR); (PLX_LBP_i7_NET_DEV_UP, VCA_NET_DEV_UP);
   (PLX_LBP_i7_NET_DEV_DOWN, VCA_NET_DEV_DOWN); (PLX_LBP_i7_NET_DEV_NO_IP, VCA_NET_DEV_NO_IP);
   (PLX_LBP_i7_DRV_PROBE_DONE, VCA_DRV_PROBE_DONE); (PLX_LBP_i7_DRV_PROBE_ERROR, VCA_DRV_PROBE_ERROR);
   (PLX_LBP_i7_DHCP_IN_PROGRESS, VCA_DHCP_IN_PROGRESS); (PLX_LBP_i7_DHCP_DONE, VCA_DHCP_DONE);
   (PLX_LBP_i7_DHCP_ERROR, VCA_DHCP_ERROR); (PLX_LBP_i7_NFS_MOUNT_DONE, VCA_NFS_MOUNT_DONE);
   (PLX_LBP_i7_NFS_MOUNT_ERROR, VCA_NFS_MOUNT_ERROR); (PLX_LBP_i7_SOFTWARE_NODE_DOWN, VCA_LINK_DOWN);
   (PLX_LBP_i7_BOOTING_BLOCK_IO, VCA_BOOTING_BLOCKIO); (PLX_LBP_i7_OS_REBOOTING, VCA_OS_REBOOTING);
   (Z.lor PLX_LBP_i7_UP PLX_LBP_i7_AFTER_REBOOT, VCA_AFTER_REBOOT); (PLX_LBP_i7_POWER_DOWN, VCA_POWER_DOWN);
   (Z.lor PLX_LBP_i7_POWERING_DOWN PLX_LBP_i7_NET_DEV_DOWN, VCA_POWERING_DOWN)].
Fixpoint switch (status : Z) (cases : list (Z * vca_lbp_states)) : vca_lbp_states :=
  match cases with
  | [] => if testflag status PLX_LBP_i7_POWER_DOWN then VCA_POWER_DOWN else VCA_ERROR
  | (s, st) :: cases => if status =? s then st else switch status cases
  end.

Definition production x : bool := testflag (card_type (conf x)) VCA_PRODUCTION.

Definition plx_lbp_get_state : M vca_lbp_states :=
  prod ← gets production;
  if negb prod then mret VCA_OS_READY
  else
    resetting ← gets lbp_resetting;
    if (resetting : bool) then mret VCA_RESETTING
    else v ← plx_lbp_get_i7_status; mret (switch (ready v) state_cases).

(** The cases of [plx_lbp_set_state]. *)
Definition state_code (s : vca_lbp_states) : option Z :=
  match s with
  | VCA_BIOS_DOWN => Some PLX_LBP_i7_DOWN
  | VCA_BIOS_UP => Some PLX_LBP_i7_UP
  | VCA_BIOS_READY => Some PLX_LBP_i7_READY
  | VCA_BUSY => Some PLX_LBP_i7_BUSY
  | VCA_BOOTING => Some PLX_LBP_i7_BOOTING
  | VCA_FLASHING => Some PLX_LBP_i7_FLASHING
  | VCA_DONE => Some PLX_LBP_i7_DONE
  | VCA_OS_READY => Some PLX_LBP_i7_OS_READY
  | VCA_NET_DEV_READY => Some PLX_LBP_i7_NET_DEV_READY
  | VCA_ERROR => Some PLX_LBP_i7_GENERAL_ERROR
  | VCA_NET_DEV_UP => Some PLX_LBP_i7_NET_DEV_UP
  | VCA_NET_DEV_DOWN => Some PLX_LBP_i7_NET_DEV_DOWN
  | VCA_NET_DEV_NO_IP => Some PLX_LBP_i7_NET_DEV_NO_IP
  | VCA_DRV_PROBE_DONE => Some PLX_LBP_i7_DRV_PROBE_DONE
  | VCA_DRV_PROBE_ERROR => Some PLX_LBP_i7_DRV_PROBE_ERROR
  | VCA_DHCP_IN_PROGRESS => Some PLX_LBP_i7_DHCP_IN_PROGRESS
  | VCA_DHCP_DONE => Some PLX_LBP_i7_DHCP_DONE
  | VCA_DHCP_ERROR => Some PLX_LBP_i7_DHCP_ERROR
  | VCA_NFS_MOUNT_DONE => Some PLX_LBP_i7_NFS_MOUNT_DONE
  | VCA_NFS_MOUNT_ERROR => Some PLX_LBP_i7_NFS_MOUNT_ERROR
  | VCA_BOOTING_BLOCKIO => Some PLX_LBP_i7_BOOTING_BLOCK_IO
  | VCA_OS_REBOOTING => Some PLX_LBP_i7_OS_REBOOTING
  | VCA_AFTER_REBOOT => Some (Z.lor PLX_LBP_i7_UP PLX_LBP_i7_AFTER_REBOOT)
  | VCA_POWER_DOWN => Some PLX_LBP_i7_POWER_DOWN
  | VCA_POWERING_DOWN => Some PLX_LBP_i7_POWERING_DOWN
  | VCA_RESETTING | VCA_LINK_DOWN | VCA_SIZE => None
  end.

Definition plx_lbp_set_state (state : vca_lbp_states) : M Z :=
  prod ← gets production;
  if negb prod then mret LBP_STATE_OK
  else
    resetting ← gets lbp_resetting;
    if (resetting : bool) then mret LBP_INTERNAL_ERROR
    else
      i7_state ← plx_lbp_get_i7_status;
      match state_code state with
      | None => mret LBP_BAD_PARAMETER_VALUE
      | Some r => _ ← plx_lbp_set_i7_status (set_ready i7_state r); mret LBP_STATE_OK
      end.

Definition plx_lbp_get_rcvy_state : M vca_lbp_rcvy_states :=
  prod ← gets production;
  resetting ← gets lbp_resetting;
  if negb prod || resetting then mret VCA_RCVY_NON_READABLE
  else
    i7_ready ← read_spad PLX_LBP_SPAD_i7_READY;
    if version i7_ready <? PLX_LBP_PROTOCOL_VERSION_0_4 then mret VCA_RCVY_NON_READABLE
    else
      v ← plx_lbp_get_i7_status;
      if (ready v =? PLX_LBP_i7_UP) || (ready v =? Z.lor PLX_LBP_i7_UP PLX_LBP_i7_AFTER_REBOOT) || (ready v =? PLX_LBP_i7_READY)
      then
        rcvy ← plx_lbp_get_i7_rcvy_status;
        mret (if testflag rcvy PLX_GOLD_IMAGE then VCA_RCVY_JUMPER_OPEN else VCA_RCVY_JUMPER_CLOSE)
      else mret VCA_RCVY_NON_READABLE.

(** ** Initialisation and reset *)

Definition PLX_LBP_i7_IRQ_TIMEOUT_MS := 1000.
Definition PLX_LBP_i7_ALLOC_TIMEOUT_MS := 1000.
Definition PLX_LBP_i7_CMD_TIMEOUT_MS := 100.
Definition PLX_LBP_i7_MAC_WRITE_TIMEOUT_MS := 1000.

(** [request]: the cookie of the interrupt, or the error. *)
Definition plx_lbp_init (request : Z + Z) : M Z :=
  _ ← modify (fun x => set_wait x false);
  side ← gets (fun x => link_side (xd x));
  if (side : bool) then mret 0
  else
    _ ← modify (fun x => set_params x (mkParams PLX_LBP_i7_IRQ_TIMEOUT_MS PLX_LBP_i7_ALLOC_TIMEOUT_MS
                                         PLX_LBP_i7_CMD_TIMEOUT_MS PLX_LBP_i7_MAC_WRITE_TIMEOUT_MS));
    _ ← write_spad PLX_LBP_SPAD_E5_READY PLX_LBP_E5_NOT_READY;
    _ ← modify (fun x => set_irq x (Some request));
    mret (match request with inl _ => 0 | inr err => err end).

Definition plx_lbp_deinit : M unit := modify (fun x => set_lg x (log_free (lg x) (irq (lbp x)))).

(** The devices of the host by card and node; [None]: no device is registered. *)
Definition MAX_VCA_CARDS := 8.
Definition MAX_VCA_CARD_CPUS := 4.
Definition contexts : Type := list (list (option lbp_dev)).
Definition in_range (card_id cpu_id : Z) : bool := (card_id <? MAX_VCA_CARDS) && (cpu_id <? MAX_VCA_CARD_CPUS).
Definition get_context (cs : contexts) (card_id cpu_id : Z) : outcome (option lbp_dev) :=
  row ← aget cs card_id; aget row cpu_id.
Definition put_context (cs : contexts) (card_id cpu_id : Z) (x : option lbp_dev) : outcome contexts :=
  row ← aget cs card_id; row ← aset row cpu_id x; aset cs card_id row.

Definition plx_lbp_reset_start (cs : contexts) (card_id cpu_id : Z) : outcome contexts :=
  if in_range card_id cpu_id then
    c ← get_context cs card_id cpu_id;
    match c with
    | None => Oob
    | Some x => put_context cs card_id cpu_id (Some (set_resetting x true))
    end
  else Ret cs.

Definition plx_lbp_reset_stop (cs : contexts) (card_id cpu_id : Z) : outcome contexts :=
  if in_range card_id cpu_id then
    c ← get_context cs card_id cpu_id;
    match c with
    | None => Ret cs
    | Some x =>
        '(_, x) ← write_spad PLX_LBP_SPAD_i7_READY PLX_LBP_i7_DOWN x;
        put_context cs card_id cpu_id (Some (set_resetting x false))
    end
  else Ret cs.

(** ** Running the protocol *)

(** The state after a millisecond, and a read. *)
Definition handled x : lbp_dev :=
  let '(v, d) := plx_read_spad (xd x) PLX_LBP_SPAD_i7_READY in
  let x := set_xd (set_wait x true) d in
  if Z.lor PLX_LBP_i7_AFTER_REBOOT PLX_LBP_i7_UP =? ready v then set_lg x (log_reboot (lg x)) else x.
Definition slept x : lbp_dev :=
  let '(h, rang) := card_ms (mmio (xd x)) in
  let x := set_lg (set_xd x (set_mmio (xd x) h)) (log_ms (lg x)) in
  if rang then handled x else x.
Definition look (idx : Z) x : Z * lbp_dev := let '(v, d) := plx_read_spad (xd x) idx in (v, set_xd x d).

Lemma read_ret idx x : read_spad idx x = Ret (look idx x).
Proof. unfold read_spad, look. by destruct (plx_read_spad _ _). Qed.
Lemma msleep_ret x : msleep x = Ret (tt, slept x).
Proof.
  unfold msleep, slept. destruct (card_ms _) as [h rang]. destruct rang; [|done].
  unfold plx_lbp_interrupt_handler, handled, modify, mbind, M_bind. cbn [mbind outcome_bind]. unfold read_spad. cbn.
  destruct (plx_read_spad _ _) as [v d]. cbn [mbind outcome_bind]. by destruct (_ =? _).
Qed.

Lemma look_value idx x : (look idx x).1 = (plx_read_spad (xd x) idx).1.
Proof. unfold look. by destruct (plx_read_spad _ _). Qed.

(** The first action of a sequence runs. *)
Definition wrote_spad (idx v : Z) x : lbp_dev :=
  set_lg (set_xd x (plx_write_spad (xd x) idx v)) (log_write (lg x) idx (u32 v)).
Lemma bind_ok {A B} (m : M A) (f : A -> M B) x a x' : m x = Ret (a, x') -> (m ≫= f) x = f a x'.
Proof. unfold mbind, M_bind. by intros ->. Qed.
Lemma bind_read {B} idx (f : Z -> M B) x : (read_spad idx ≫= f) x = f (look idx x).1 (look idx x).2.
Proof. apply bind_ok. rewrite read_ret. by destruct (look idx x). Qed.
Lemma bind_sleep {B} (f : unit -> M B) x : (msleep ≫= f) x = f tt (slept x).
Proof. apply bind_ok, msleep_ret. Qed.
Lemma bind_write {B} idx v (f : unit -> M B) x : (write_spad idx v ≫= f) x = f tt (wrote_spad idx v x).
Proof. done. Qed.
Lemma bind_gets {A B} g (f : A -> M B) x : (gets g ≫= f) x = f (g x) x.
Proof. done. Qed.
Lemma bind_modify {B} g (f : unit -> M B) x : (modify g ≫= f) x = f tt (g x).
Proof. done. Qed.
Lemma bind_mret {A B} a (f : A -> M B) x : (mret a ≫= f) x = f a x.
Proof. done. Qed.
Lemma bind_assoc {A B C} (m : M A) (f : A -> M B) (g : B -> M C) x : ((m ≫= f) ≫= g) x = (m ≫= (fun a => f a ≫= g)) x.
Proof. unfold mbind, M_bind. by destruct (m x) as [[a x']| | |]. Qed.
Lemma bind_if {A B} (b : bool) (m m' : M A) (f : A -> M B) x : ((if b then m else m') ≫= f) x = (if b then (m ≫= f) x else (m' ≫= f) x).
Proof. by destruct b. Qed.

(** [k] turns of sleeping and reading the scratchpad [idx], and what turn [k] reads. *)
Fixpoint turns (idx : Z) (k : nat) x : lbp_dev :=
  match k with O => x | S k => turns idx k (look idx (slept x)).2 end.
Definition seen (idx : Z) (k : nat) x : Z := (look idx (slept (turns idx k x))).1.

(** Waiting ends with the first turn that satisfies the test. *)
Lemma wait_event_spec {A} idx (f : Z -> A) event n x :
  let get := v ← read_spad idx; mret (f v) in
  (exists k, (k < n)%nat /\ event (f (seen idx k x)) = true /\ (forall j, (j < k)%nat -> event (f (seen idx j x)) = false)
     /\ lbp_wait_event n get event x = Ret (Some (f (seen idx k x)), turns idx (S k) x))
  \/ (forall j, (j < n)%nat -> event (f (seen idx j x)) = false) /\ lbp_wait_event n get event x = Ret (None, turns idx n x).
Proof.
  cbv zeta. revert x. induction n as [|n IH]; intros x; [right; split; [lia|done]|].
  cbn [lbp_wait_event]. rewrite bind_sleep, bind_assoc, bind_read, bind_mret.
  destruct (look idx (slept x)) as [v x1] eqn:El. cbn [fst snd].
  assert (seen idx 0 x = v) as Hv by (unfold seen; cbn; by rewrite El).
  assert (forall j, seen idx (S j) x = seen idx j x1) as Hs by (intros j; unfold seen; cbn; by rewrite El).
  destruct (event (f v)) eqn:Ev.
  - left. exists 0%nat. rewrite Hv. split; [lia|]. split; [done|]. split; [lia|]. cbn [turns]. by rewrite El.
  - destruct (IH x1) as [(k & Hk & Hev & Hlt & ->)|(Hlt & ->)].
    + left. exists (S k). rewrite Hs. split; [lia|]. split; [done|]. split; [|cbn [turns]; by rewrite El].
      intros [|j] Hj; [by rewrite Hv|]. rewrite Hs. apply Hlt. lia.
    + right. split; [|cbn [turns]; by rewrite El]. intros [|j] Hj; [by rewrite Hv|]. rewrite Hs. apply Hlt. lia.
Qed.

(** What the host keeps while it talks to the node: it sleeps for at most [n]
    milliseconds and writes [ws] to the scratchpads. *)
Record kept (n : Z) (ws : list (Z * Z)) x x' : Prop := {
  k_mmio : only_mmio (xd x) (xd x');
  k_conf : conf x' = conf x;
  k_params : params (lbp x') = params (lbp x);
  k_resetting : lbp_resetting x' = lbp_resetting x;
  k_mem : peer_mem x' = peer_mem x /\ blockio_dp x' = blockio_dp x /\ buffers (lg x') = buffers (lg x);
  k_clock : clock (lg x) <= clock (lg x') <= clock (lg x) + n;
  k_wrote : wrote (lg x') = wrote (lg x) ++ ws;
}.

Lemma kept_refl x : kept 0 [] x x.
Proof. split; try done; [by destruct x as [[]]|lia|by rewrite app_nil_r]. Qed.
Lemma kept_trans n m ws vs x y z : kept n ws x y -> kept m vs y z -> kept (n + m) (ws ++ vs) x z.
Proof.
  intros [Am Ac Ap Ar (Am1 & Am2 & Am3) At Aw] [Bm Bc Bp Br (Bm1 & Bm2 & Bm3) Bt Bw].
  split; try congruence; [by eapply only_mmio_trans|repeat split; congruence|lia|by rewrite Bw, Aw, (assoc_L (++))].
Qed.
Lemma kept_mono n m ws x y : n <= m -> kept n ws x y -> kept m ws x y.
Proof. intros Hn [? ? ? ? ? ? ?]. split; try done. lia. Qed.

Lemma look_kept idx x : kept 0 [] x (look idx x).2.
Proof.
  unfold look, plx_read_spad. pose proof (only_mmio_read (xd x) (reg_base (xd x) + PLX_SPAD0 + idx * 4)) as Ho.
  destruct (plx_mmio_read _ _) as [v d]. split; try done; cbn; [lia|by rewrite app_nil_r].
Qed.
Lemma handled_kept x : kept 0 [] x (handled x).
Proof.
  unfold handled, plx_read_spad. pose proof (only_mmio_read (xd x) (reg_base (xd x) + PLX_SPAD0 + PLX_LBP_SPAD_i7_READY * 4)) as Ho.
  destruct (plx_mmio_read _ _) as [v d]. destruct (_ =? _); (split; try done; cbn; [lia|by rewrite app_nil_r]).
Qed.
Lemma slept_kept x : kept 1 [] x (slept x).
Proof.
  unfold slept. destruct (card_ms _) as [h rang]. set (y := set_lg _ _).
  assert (kept 1 [] x y) as Hy by (split; try done; cbn; [lia|by rewrite app_nil_r]).
  destruct rang; [|done]. exact (kept_trans 1 0 [] [] _ _ _ Hy (handled_kept y)).
Qed.
Lemma wrote_kept idx v x : kept 0 [(idx, u32 v)] x (wrote_spad idx v x).
Proof. split; try done. cbn. lia. Qed.
Lemma turns_kept idx k x : kept (Z.of_nat k) [] x (turns idx k x).
Proof.
  revert x. induction k as [|k IH]; intros x; [apply kept_refl|]. cbn [turns].
  apply (kept_mono (1 + 0 + Z.of_nat k)); [lia|].
  exact (kept_trans _ _ [] [] _ _ _ (kept_trans _ _ [] [] _ _ _ (slept_kept x) (look_kept idx _)) (IH _)).
Qed.

(** The BIOS information is kept as well. *)
Lemma look_bios idx x : bios (look idx x).2 = bios x.
Proof. unfold look. by destruct (plx_read_spad _ _). Qed.
Lemma slept_bios x : bios (slept x) = bios x.
Proof.
  unfold slept. destruct (card_ms _) as [h []]; [|done]. unfold handled. destruct (plx_read_spad _ _). by destruct (_ =? _).
Qed.
Lemma turns_bios idx k x : bios (turns idx k x) = bios x.
Proof. revert x. induction k as [|k IH]; intros x; [done|]. cbn [turns]. by rewrite IH, look_bios, slept_bios. Qed.

(** [m] returns, and its result and state satisfy [Q]. *)
Definition wp {A} (m : M A) (Q : A -> lbp_dev -> Prop) x : Prop := exists a x', m x = Ret (a, x') /\ Q a x'.

Lemma wp_mret {A} (a : A) Q x : Q a x -> wp (mret a) Q x.
Proof. by exists a, x. Qed.
Lemma wp_bind {A B} (m : M A) (f : A -> M B) Q x : wp m (fun a => wp (f a) Q) x -> wp (m ≫= f) Q x.
Proof. intros (a & x' & E & b & y & E' & HQ). exists b, y. by rewrite (bind_ok _ _ _ _ _ E). Qed.
Lemma wp_mono {A} (m : M A) (Q Q' : A -> lbp_dev -> Prop) x : wp m Q x -> (forall a x', Q a x' -> Q' a x') -> wp m Q' x.
Proof. intros (a & x' & E & HQ) H. exists a, x'. auto. Qed.
Lemma wp_gets {A} (g : lbp_dev -> A) Q x : Q (g x) x -> wp (gets g) Q x.
Proof. by eexists _, _. Qed.
Lemma wp_modify g Q x : Q tt (g x) -> wp (modify g) Q x.
Proof. by eexists _, _. Qed.
Lemma wp_read idx Q x : Q (look idx x).1 (look idx x).2 -> wp (read_spad idx) Q x.
Proof. intros H. exists (look idx x).1, (look idx x).2. rewrite read_ret. by destruct (look idx x). Qed.
Lemma wp_write idx v Q x : Q tt (wrote_spad idx v x) -> wp (write_spad idx v) Q x.
Proof. by eexists _, _. Qed.

(** Waiting for a state of the node. *)
Definition matches (state r : Z) : bool := if state =? 0 then r =? state else testflag r state.
Definition status_at (k : nat) x : Z := ready (seen PLX_LBP_SPAD_i7_READY k x).

(** Poll [k] is the first one, of [timeout], that sees one of the states; no poll does. *)
Definition answered (state timeout : Z) x (k : nat) : Prop :=
  Z.of_nat k < timeout /\ matches state (status_at k x) = true /\ forall j, (j < k)%nat -> matches state (status_at j x) = false.
Definition silent (state timeout : Z) x : Prop := forall j, Z.of_nat j < timeout -> matches state (status_at j x) = false.

Lemma wait_state_spec state timeout x :
  let n := Z.to_nat timeout in
  (exists k, (k < n)%nat /\ matches state (status_at k x) = true /\ (forall j, (j < k)%nat -> matches state (status_at j x) = false)
     /\ plx_lbp_wait_for_i7_state state timeout x = Ret (status_at k x, turns PLX_LBP_SPAD_i7_READY (S k) x))
  \/ (forall j, (j < n)%nat -> matches state (status_at j x) = false)
     /\ plx_lbp_wait_for_i7_state state timeout x = Ret (- ETIME, turns PLX_LBP_SPAD_i7_READY n x).
Proof.
  intros n. unfold plx_lbp_wait_for_i7_state, plx_lbp_get_i7_status.
  destruct (wait_event_spec PLX_LBP_SPAD_i7_READY ready (matches state) n x) as [(k & Hk & Hm & Hlt & E)|(Hlt & E)];
    [left; exists k; split; [done|]; split; [done|]; split; [done|]|right; split; [done|]];
    by rewrite (bind_ok _ _ _ _ _ E).
Qed.

Lemma ready_range v : 0 <= ready v < 2 ^ 24.
Proof. unfold ready, field. by apply Z.mod_pos_bound. Qed.

Lemma wait_state_ok state timeout x : 0 <= timeout ->
  wp (plx_lbp_wait_for_i7_state state timeout)
    (fun r x' => kept timeout [] x x' /\ bios x' = bios x /\ (r = - ETIME \/ 0 <= r < 2 ^ 24 /\ matches state r = true)) x.
Proof.
  intros Ht. destruct (wait_state_spec state timeout x) as [(k & Hk & Hm & _ & E)|(_ & E)]; (eexists _, _; split; [exact E|]).
  - split; [eapply kept_mono, turns_kept; lia|]. split; [apply turns_bios|]. right. split; [apply ready_range|done].
  - split; [eapply kept_mono, turns_kept; lia|]. split; [apply turns_bios|]. by left.
Qed.

Lemma wait_consumed_ok timeout x : 0 <= timeout ->
  wp (plx_lbp_wait_for_i7_cmd_consumed timeout)
    (fun r x' => kept timeout [] x x' /\ bios x' = bios x /\ (r = 0 \/ r = - ETIME)) x.
Proof.
  intros Ht. unfold plx_lbp_wait_for_i7_cmd_consumed, plx_lbp_get_i7_cmd. apply wp_bind.
  destruct (wait_event_spec PLX_LBP_SPAD_i7_CMD cmd_of (fun c => c =? PLX_LBP_CMD_INVALID) (Z.to_nat timeout) x)
    as [(k & Hk & _ & _ & E)|(_ & E)]; (eexists _, _; split; [exact E|]; apply wp_mret);
    (split; [eapply kept_mono, turns_kept; lia|]; split; [apply turns_bios|]; auto).
Qed.

Lemma wait_state_answer state timeout x :
  (exists k, answered state timeout x k /\ 0 <= status_at k x < 2 ^ 24
     /\ plx_lbp_wait_for_i7_state state timeout x = Ret (status_at k x, turns PLX_LBP_SPAD_i7_READY (S k) x))
  \/ silent state timeout x
     /\ plx_lbp_wait_for_i7_state state timeout x = Ret (- ETIME, turns PLX_LBP_SPAD_i7_READY (Z.to_nat timeout) x).
Proof.
  destruct (wait_state_spec state timeout x) as [(k & Hk & Hm & Hlt & E)|(Hlt & E)].
  - left. exists k. split; [split; [lia|done]|]. split; [apply ready_range|exact E].
  - right. split; [|exact E]. intros j Hj. apply Hlt. lia.
Qed.

(** [k] milliseconds of sleep; the node rings for the first time in millisecond [k] of a
    wait, which a signal ends at once. *)
Fixpoint naps (k : nat) x : lbp_dev := match k with O => x | S k => naps k (slept x) end.
Definition rang (sig : bool) (n : nat) x (k : nat) : Prop :=
  (k <= n)%nat /\ (sig = true -> k = 0%nat) /\ card_wait (lbp (naps k x)) = true
  /\ forall j, (j < k)%nat -> card_wait (lbp (naps j x)) = false.

Lemma naps_kept k x : kept (Z.of_nat k) [] x (naps k x) /\ bios (naps k x) = bios x.
Proof.
  revert x. induction k as [|k IH]; intros x; [split; [apply kept_refl|done]|]. cbn [naps].
  destruct (IH (slept x)) as [Hk Hb]. split; [|by rewrite Hb, slept_bios].
  eapply (kept_mono (1 + Z.of_nat k)); [lia|]. exact (kept_trans _ _ [] [] _ _ _ (slept_kept x) Hk).
Qed.

Lemma rang_S n x k : card_wait (lbp x) = false -> rang false (S n) x (S k) <-> rang false n (slept x) k.
Proof.
  intros Hx. split; intros (Hk & _ & Hw & Hlt); (split; [lia|split; [done|split; [exact Hw|]]]).
  - intros j Hj. apply (Hlt (S j)). lia.
  - intros [|j] Hj; [done|]. apply Hlt. lia.
Qed.

Lemma wait_completion_spec sig n x :
  (exists k, rang sig n x k /\ wait_for_completion sig n x = Ret (1, naps k x))
  \/ (forall k, ~ rang sig n x k) /\ exists r k, r <= 0 /\ (k <= n)%nat /\ wait_for_completion sig n x = Ret (r, naps k x).
Proof.
  revert x. induction n as [|n IH]; intros x; cbn [wait_for_completion]; rewrite bind_gets;
    (destruct (card_wait (lbp x)) eqn:Ew; [left; exists 0%nat; split; [split; [lia|split; [done|split; [done|lia]]]|done]|]).
  - right. split; [|by exists 0, 0%nat]. intros k (Hk & _ & Hw & _). assert (k = 0%nat) as -> by lia. cbn in Hw. congruence.
  - destruct sig.
    { right. split; [|by exists (- ERESTARTSYS), 0%nat; split; [done|split; [lia|]]]. intros k (_ & Hk & Hw & _). rewrite (Hk eq_refl) in Hw. cbn in Hw. congruence. }
    rewrite bind_sleep. destruct (IH (slept x)) as [(k & Hk & E)|(Hno & r & k & Hr & Hk & E)].
    + left. exists (S k). split; [by apply rang_S|exact E].
    + right. split; [|exists r, (S k); split; [done|split; [lia|exact E]]].
      intros [|k'] H; [destruct H as (_ & _ & Hw & _); cbn in Hw; congruence|]. by apply (Hno k'), rang_S.
Qed.

(** The host talks to the node for at most [n] milliseconds: it writes commands and data
    only, and keeps what it knows of the BIOS. *)
Definition talk_regs : list Z := [PLX_LBP_SPAD_i7_CMD; PLX_LBP_SPAD_DATA_LOW; PLX_LBP_SPAD_DATA_HIGH].
Definition talks (n : Z) x x' : Prop :=
  (exists ws, kept n ws x x' /\ Forall (fun w => w.1 ∈ talk_regs) ws) /\ bios x' = bios x.

Lemma talks_refl x : talks 0 x x.
Proof. split; [|done]. exists []. split; [apply kept_refl|constructor]. Qed.
Lemma talks_kept n m x y z : talks n x y -> kept m [] y z -> bios z = bios y -> talks (n + m) x z.
Proof.
  intros [(ws & Hk & Hw) Hb] Hk' Hb'. split; [|congruence]. exists ws. split; [|done].
  rewrite <- (app_nil_r ws). by eapply kept_trans.
Qed.
Lemma talks_trans n m x y z : talks n x y -> talks m y z -> talks (n + m) x z.
Proof.
  intros [(ws & Hk & Hw) Hb] [(vs & Hk' & Hw') Hb']. split; [|congruence]. exists (ws ++ vs).
  split; [by eapply kept_trans|by apply Forall_app].
Qed.
Lemma talks_mono n m x y : n <= m -> talks n x y -> talks m x y.
Proof. intros Hn [(ws & Hk & Hw) Hb]. split; [|done]. exists ws. split; [by eapply kept_mono|done]. Qed.
Lemma talks_look n x y idx : talks n x y -> talks n x (look idx y).2.
Proof.
  intros H. rewrite <- (Z.add_0_r n). eapply talks_kept; [exact H|apply look_kept|apply look_bios].
Qed.
Lemma talks_write n x y idx v : idx ∈ talk_regs -> talks n x y -> talks n x (wrote_spad idx v y).
Proof.
  intros Hi H. rewrite <- (Z.add_0_r n). eapply talks_trans; [exact H|]. split; [|done]. eexists.
  split; [apply wrote_kept|]. by apply Forall_singleton.
Qed.
Lemma talks_cmd_timeout n x y : talks n x y -> cmd_timeout y = cmd_timeout x.
Proof. intros [(ws & [] & _) _]. unfold cmd_timeout. congruence. Qed.

Create HintDb talk.
#[local] Hint Resolve talks_refl talks_look : talk.
#[local] Hint Extern 2 (talks _ _ (wrote_spad _ _ _)) => apply talks_write; [unfold talk_regs; set_solver|] : talk.

Lemma set_time_nm_ok x : 0 <= cmd_timeout x ->
  wp plx_lbp_set_time_no_mutex (fun r x' => talks (cmd_timeout x) x x'
    /\ (r = LBP_SPAD_i7_WRONG_STATE \/ r = LBP_CMD_TIMEOUT \/ r = LBP_STATE_OK)) x.
Proof.
  intros Ht. unfold plx_lbp_set_time_no_mutex, plx_lbp_get_i7_status. apply wp_bind, wp_read.
  destruct (negb _).
  { apply wp_mret. split; [eapply talks_mono; [exact Ht|eauto with talk]|auto]. }
  apply wp_bind, wp_gets, wp_bind, wp_write, wp_bind, wp_write, wp_bind, wp_write, wp_bind, wp_gets, wp_bind.
  set (y := wrote_spad _ _ _). assert (talks 0 x y) as Hy by (unfold y; eauto with talk).
  rewrite (talks_cmd_timeout 0 x y Hy).
  eapply wp_mono; [by apply wait_consumed_ok|]. intros r x' (Hk & Hb & Hr). apply wp_mret.
  split; [by eapply (talks_kept 0)|]. destruct Hr as [-> | ->]; auto.
Qed.

(** The errors of [plx_lbp_copy_bios_info]: small, and negative only for an unknown parameter. *)
Lemma copy_info_ok param dest x : 0 <= cmd_timeout x ->
  wp (plx_lbp_copy_bios_info param dest) (fun r x' => talks (2 * cmd_timeout x) x x'
    /\ (0 <= r.1 <= LBP_PROTOCOL_VERSION_MISMATCH \/ r.1 = - LBP_UNKNOWN_PARAMETER /\ param = PLX_LBP_PARAM_INVALID)) x.
Proof.
  intros Ht. unfold plx_lbp_copy_bios_info. apply wp_bind, wp_read.
  assert (forall n x', 0 <= n -> n <= 2 * cmd_timeout x -> talks n x x' -> talks (2 * cmd_timeout x) x x') as Hm
    by (intros; by eapply talks_mono).
  destruct (needed_version param) as [ver|] eqn:Ev.
  2:{ apply wp_mret. split; [apply (Hm 0); [lia|lia|eauto with talk]|]. right. by destruct param. }
  destruct (negb _).
  { apply wp_mret. split; [apply (Hm 0); [lia|lia|eauto with talk]|]. left. codes. }
  apply wp_bind, wp_write, wp_bind, wp_gets, wp_bind.
  set (y := wrote_spad _ _ _). assert (talks 0 x y) as Hy by (unfold y; eauto with talk).
  rewrite (talks_cmd_timeout 0 x y Hy).
  eapply wp_mono; [by apply wait_consumed_ok|]. intros err x1 (Hk & Hb & Herr).
  pose proof (talks_kept _ _ _ _ _ Hy Hk Hb) as H1. rewrite Z.add_0_l in H1.
  destruct (err <? 0) eqn:Ee; bools.
  { apply wp_mret. split; [apply (Hm (cmd_timeout x)); [lia|lia|done]|]. left. codes. }
  assert (err = 0) as -> by codes.
  apply wp_bind, wp_read, wp_bind.
  assert (exists hi x2, (if is_freq param then mret 0 else read_spad PLX_LBP_SPAD_DATA_HIGH) (look PLX_LBP_SPAD_DATA_LOW x1).2
    = Ret (hi, x2) /\ talks (cmd_timeout x) x x2) as (hi & x2 & E2 & H2).
  { destruct (is_freq param); [eexists _, _; split; [reflexivity|eauto with talk]|]. rewrite read_ret.
    destruct (look _ (look _ x1).2) as [v z] eqn:El. exists v, z. split; [done|].
    assert (z = (look PLX_LBP_SPAD_DATA_HIGH (look PLX_LBP_SPAD_DATA_LOW x1).2).2) as -> by by rewrite El.
    eauto with talk. }
  exists hi, x2. split; [exact E2|]. cbv zeta.
  destruct (_ && (u32 dest =? 0) && _); [apply wp_mret; split; [apply (Hm (cmd_timeout x)); [lia|lia|done]|left; codes]|].
  destruct (_ && (_ || _)); [apply wp_mret; split; [apply (Hm (cmd_timeout x)); [lia|lia|done]|left; codes]|].
  apply wp_bind. eapply wp_mono; [apply set_time_nm_ok; by rewrite (talks_cmd_timeout _ _ _ H2)|].
  intros r x3 (H3 & Hr). apply wp_mret. rewrite (talks_cmd_timeout _ _ _ H2) in H3.
  split; [apply (talks_mono (cmd_timeout x + cmd_timeout x)); [lia|by eapply talks_trans]|]. left.
  destruct Hr as [-> | [-> | ->]]; codes.
Qed.

(** As [talks], but the host may store what it reads. *)
Definition says (n : Z) x x' : Prop := exists ws, kept n ws x x' /\ Forall (fun w => w.1 ∈ talk_regs) ws.
Lemma says_trans n m x y z : says n x y -> says m y z -> says (n + m) x z.
Proof.
  intros (ws & Hk & Hw) (vs & Hk' & Hw'). exists (ws ++ vs). split; [by eapply kept_trans|by apply Forall_app].
Qed.
Lemma says_mono n m x y : n <= m -> says n x y -> says m x y.
Proof. intros Hn (ws & Hk & Hw). exists ws. split; [by eapply kept_mono|done]. Qed.
Lemma says_timeout n x y : says n x y -> cmd_timeout y = cmd_timeout x.
Proof. intros (ws & [] & _). unfold cmd_timeout. congruence. Qed.

Lemma copy_into_ok param get set x : 0 <= cmd_timeout x ->
  wp (copy_into param get set) (fun _ x' => says (2 * cmd_timeout x) x x') x.
Proof.
  intros Ht. unfold copy_into. apply wp_bind, wp_gets, wp_bind.
  eapply wp_mono; [by apply copy_info_ok|]. intros [err v] x1 ([(ws & Hk & Hw) _] & _).
  apply wp_bind, wp_modify, wp_mret. exists ws. split; [|done]. destruct Hk. by split.
Qed.

Lemma both_ok a b t n m x : 0 <= n -> 0 <= m -> cmd_timeout x = t ->
  wp a (fun _ x' => says n x x') x -> (forall y, cmd_timeout y = t -> wp b (fun _ x' => says m y x') y) ->
  wp (both a b) (fun _ x' => says (n + m) x x') x.
Proof.
  intros Hn Hm Ht Ha Hb. unfold both. apply wp_bind. eapply wp_mono; [exact Ha|]. intros ok x1 H1. destruct ok.
  - eapply wp_mono; [apply Hb; by rewrite (says_timeout _ _ _ H1)|]. intros ? x2. by apply says_trans.
  - apply wp_mret. eapply says_mono; [|exact H1]. lia.
Qed.

Lemma copy_infos_ok x : 0 <= cmd_timeout x ->
  wp copy_bios_infos (fun _ x' => says (10 * cmd_timeout x) x x') x.
Proof.
  intros Ht. remember (cmd_timeout x) as t eqn:Et. unfold copy_bios_infos.
  assert (forall p g s y, cmd_timeout y = t -> wp (copy_into p g s) (fun _ x' => says (2 * t) y x') y) as H1
    by (intros p g s y <-; by apply copy_into_ok; congruence).
  replace (10 * t) with (2 * t + (2 * t + (2 * t + (2 * t + 2 * t)))) by lia.
  do 4 (apply (both_ok _ _ t); [lia|lia|done|by apply H1|]; clear x Et; intros x Et). by apply H1.
Qed.

(** The last value that the host wrote to a scratchpad. *)
Definition last_write (idx : Z) (l : list (Z * Z)) : option Z :=
  fold_left (fun acc w => if w.1 =? idx then Some w.2 else acc) l None.
Lemma last_write_snoc idx v l : last_write idx (l ++ [(idx, v)]) = Some v.
Proof. unfold last_write. rewrite fold_left_app. cbn. by rewrite Z.eqb_refl. Qed.
Lemma last_write_other idx l ws : Forall (fun w => w.1 <> idx) ws -> last_write idx (l ++ ws) = last_write idx l.
Proof.
  intros Hw. unfold last_write. rewrite fold_left_app. generalize (fold_left (fun acc (w : Z * Z) => if w.1 =? idx then Some w.2 else acc) l None).
  induction Hw as [|w ws Hne _ IH]; intros o; [done|]. cbn. by rewrite (proj2 (Z.eqb_neq _ _) Hne).
Qed.
Lemma says_e5 n x y : says n x y -> last_write PLX_LBP_SPAD_E5_READY (wrote (lg y)) = last_write PLX_LBP_SPAD_E5_READY (wrote (lg x)).
Proof.
  intros (ws & [] & Hw). rewrite k_wrote0. apply last_write_other. clear k_wrote0.
  induction Hw as [|w ws Hin _ IH]; constructor; try done.
  intros Hw. rewrite Hw in Hin. unfold talk_regs in Hin. rewrite !elem_of_cons in Hin. by destruct Hin as [?|[?|[?|?%elem_of_nil]]].
Qed.

(** Fields. *)
Lemma pack_range fs : Forall (fun f => 0 <= f.1) fs -> 0 <= pack fs < 2 ^ (foldr (fun f n => f.1 + n) 0 fs).
Proof.
  induction 1 as [|[w v] fs Hw Hfs IH]; cbn; [lia|]. cbn in Hw. pose proof (wrap_fits w v Hw) as Hr. unfold fits in Hr.
  assert (0 <= foldr (fun f n => f.1 + n) 0 fs) by (clear IH; induction Hfs; cbn; lia).
  rewrite Z.pow_add_r by lia. nia.
Qed.
Lemma u32_pack fs : Forall (fun f => 0 <= f.1) fs -> foldr (fun f n => f.1 + n) 0 fs = 32 -> u32 (pack fs) = pack fs.
Proof. intros Hf Hs. pose proof (pack_range fs Hf) as Hr. rewrite Hs in Hr. by apply u32_small. Qed.

(** ** The handshake, with any node *)

Definition irq_timeout x : Z := i7_irq_timeout_ms (params (lbp x)).
Definition slot x : Z := PCI_SLOT (devfn (conf x)).
Definition e5_word x (r cpuid : Z) : Z := plx_lbp_e5_ready r cpuid (slot x) (port_id (xd x)).

Lemma e5_u32 r c s p : u32 (plx_lbp_e5_ready r c s p) = plx_lbp_e5_ready r c s p.
Proof. apply u32_pack; [|done]. by repeat constructor. Qed.

Lemma kept_port n ws x y : kept n ws x y -> port_id (xd y) = port_id (xd x) /\ slot y = slot x.
Proof. intros []. split; [by rewrite k_mmio0|]. unfold slot. by rewrite k_conf0. Qed.

(** The node rings in time and is up then. *)
Definition came_up (sig : bool) (timeout : Z) x (k : nat) : Prop :=
  rang sig (Z.to_nat timeout) x k
  /\ Z.ldiff (ready (look PLX_LBP_SPAD_i7_READY (naps k x)).1) PLX_LBP_i7_AFTER_REBOOT = PLX_LBP_i7_UP.

Lemma rang_first sig n x k k' : rang sig n x k -> rang sig n x k' -> k = k'.
Proof.
  intros (_ & _ & Hw & Hlt) (_ & _ & Hw' & Hlt'). destruct (Nat.lt_trichotomy k k') as [H|[H|H]]; [|done|].
  - rewrite (Hlt' _ H) in Hw. done.
  - rewrite (Hlt _ H) in Hw'. done.
Qed.

Lemma naps_look_kept timeout k x : Z.of_nat k <= timeout ->
  let x' := (look PLX_LBP_SPAD_i7_READY (naps k x)).2 in kept timeout [] x x' /\ bios x' = bios x.
Proof.
  intros Hk. destruct (naps_kept k x) as [Hn Hb]. cbv zeta. split; [|by rewrite look_bios].
  eapply (kept_mono (Z.of_nat k + 0)); [lia|]. exact (kept_trans _ _ [] [] _ _ _ Hn (look_kept _ _)).
Qed.

Lemma i7_up_ok sig timeout x : 0 <= timeout ->
  wp (plx_lbp_wait_for_i7_up sig timeout) (fun r x' => kept timeout [] x x' /\ bios x' = bios x
    /\ (r = 0 /\ (exists k, came_up sig timeout x k /\ x' = (look PLX_LBP_SPAD_i7_READY (naps k x)).2)
        \/ r < 0 /\ forall k, ~ came_up sig timeout x k)) x.
Proof.
  intros Ht. unfold plx_lbp_wait_for_i7_up. apply wp_bind.
  destruct (wait_completion_spec sig (Z.to_nat timeout) x) as [(k & Hk & E)|(Hno & r & k & Hr & Hk & E)]; (eexists _, _; split; [exact E|]).
  - cbn [Z.ltb Z.eqb Z.compare]. apply wp_bind, wp_read.
    assert (Z.of_nat k <= timeout) as Hkt by (destruct Hk as [? _]; lia).
    destruct (naps_look_kept _ _ x Hkt) as [Hk' Hb]. destruct (Z.ldiff _ _ =? _) eqn:Eu; bools; cbn [negb];
      (apply wp_mret; split; [done|]; split; [done|]).
    + left. split; [done|]. by exists k.
    + right. split; [done|]. intros k' [Hk2 Hu]. by rewrite <- (rang_first _ _ _ _ _ Hk Hk2) in Hu.
  - destruct (naps_kept k x) as [Hn Hb]. assert (kept timeout [] x (naps k x)) as Hn' by (eapply kept_mono; [|exact Hn]; lia).
    assert (forall k, ~ came_up sig timeout x k) as Hno' by (intros k' [H _]; by apply (Hno k')).
    destruct (r <? 0) eqn:E1; bools; [apply wp_mret; split; [done|]; split; [done|]; right; by split|].
    if_true. apply wp_mret. split; [done|]. split; [done|]. right. by split.
Qed.

(** The host waits; the host introduces itself. *)
Definition announced (u : unset) (idx : Z) x : lbp_dev :=
  wrote_spad PLX_LBP_SPAD_E5_READY (plx_lbp_e5_ready PLX_LBP_E5_WAITING_FOR_IRQ idx (u_slot u) (u_port u))
    (set_wait (wrote_spad PLX_LBP_SPAD_i7_CMD (plx_lbp_i7_cmd PLX_LBP_CMD_INVALID (u_param u)) x) false).
Definition announcement (u : unset) (idx : Z) : list (Z * Z) :=
  [(PLX_LBP_SPAD_i7_CMD, u32 (plx_lbp_i7_cmd PLX_LBP_CMD_INVALID (u_param u)));
   (PLX_LBP_SPAD_E5_READY, plx_lbp_e5_ready PLX_LBP_E5_WAITING_FOR_IRQ idx (u_slot u) (u_port u))].
Definition introduced (idx : Z) x x1 (size : Z) : lbp_dev :=
  wrote_spad PLX_LBP_SPAD_E5_READY (e5_word x PLX_LBP_E5_READY idx)
    (wrote_spad PLX_LBP_SPAD_DATA_HIGH 0 (wrote_spad PLX_LBP_SPAD_DATA_LOW idx (set_ddr x1 size))).
Definition introduction (idx : Z) x : list (Z * Z) :=
  [(PLX_LBP_SPAD_DATA_LOW, u32 idx); (PLX_LBP_SPAD_DATA_HIGH, 0); (PLX_LBP_SPAD_E5_READY, e5_word x PLX_LBP_E5_READY idx)].

Lemma kept_write n ws x y idx v : kept n ws x y -> kept n (ws ++ [(idx, u32 v)]) x (wrote_spad idx v y).
Proof. intros H. rewrite <- (Z.add_0_r n). exact (kept_trans _ _ _ _ _ _ _ H (wrote_kept idx v y)). Qed.
Lemma kept_lbp n ws x y l : kept n ws x y -> params l = params (lbp y) -> kept n ws x (set_lbp y l).
Proof. intros [] Hl. split; try done. cbn. congruence. Qed.
Lemma announced_kept u idx x : kept 0 (announcement u idx) x (announced u idx x).
Proof.
  unfold announcement. rewrite <- (e5_u32 PLX_LBP_E5_WAITING_FOR_IRQ). apply (kept_write 0 [_]), kept_lbp; [|done].
  apply wrote_kept.
Qed.
Lemma introduced_kept idx x x1 size : kept 0 (introduction idx x) x1 (introduced idx x x1 size).
Proof.
  unfold introduction. unfold e5_word. rewrite <- (e5_u32 PLX_LBP_E5_READY).
  apply (kept_write 0 [_; _]), (kept_write 0 [_] _ _ _ 0), (kept_write 0 []), kept_lbp; [apply kept_refl|done].
Qed.

(** The host in the handshake with a node that came up in millisecond [k]: it has
    announced itself, read the state and the size of the memory, and introduced itself. *)
Definition greeted (u : unset) (idx : Z) x (k : nat) : lbp_dev :=
  let x1 := (look PLX_LBP_SPAD_i7_READY (naps k (announced u idx x))).2 in
  let x2 := (look PLX_LBP_SPAD_i7_READY x1).2 in
  introduced idx x (look PLX_LBP_SPAD_DATA_LOW x2).2 (look PLX_LBP_SPAD_DATA_LOW x2).1.

(** Which step a handshake reached, and its result. *)
Inductive shakes (u : unset) (sig : bool) (idx : Z) x : Z -> Prop :=
  | sh_down : (forall k, ~ came_up sig (irq_timeout x) (announced u idx x) k) -> shakes u sig idx x LBP_IRQ_TIMEOUT
  | sh_silent k : came_up sig (irq_timeout x) (announced u idx x) k ->
      silent PLX_LBP_i7_READY (irq_timeout x) (greeted u idx x k) -> shakes u sig idx x LBP_CMD_TIMEOUT
  | sh_ready k j : came_up sig (irq_timeout x) (announced u idx x) k ->
      answered PLX_LBP_i7_READY (irq_timeout x) (greeted u idx x k) j -> shakes u sig idx x LBP_STATE_OK.

Lemma handshake_steps_ok u sig idx x : 0 <= irq_timeout x ->
  wp (handshake_steps u sig idx) (fun r x' => bios x' = bios x /\ (exists ws, kept (2 * irq_timeout x) ws x x')
    /\ (0 <= r /\ shakes u sig idx x LBP_STATE_OK /\ last_write PLX_LBP_SPAD_E5_READY (wrote (lg x')) = Some (e5_word x PLX_LBP_E5_READY idx)
        \/ r < 0 /\ shakes u sig idx x (- r))) x.
Proof.
  intros Ht. unfold handshake_steps. do 3 apply wp_bind, wp_gets. fold (irq_timeout x). fold (slot x).
  apply wp_bind, wp_write, wp_bind, wp_modify, wp_bind, wp_write. fold (announced u idx x).
  set (y := announced u idx x). pose proof (announced_kept u idx x : kept 0 _ x y) as Hy.
  assert (bios y = bios x) as Hby by done. apply wp_bind.
  eapply wp_mono; [by apply i7_up_ok|]. intros err x1 (H1 & Hb1 & Herr).
  pose proof (kept_trans _ _ _ _ _ _ _ Hy H1) as K1.
  destruct Herr as [(-> & k & Hup & Hx1)|[Herr Hno]]; cbn [Z.eqb negb].
  2:{ rewrite (proj2 (Z.eqb_neq err 0)) by lia. cbn [negb]. if_true. apply wp_mret. split; [congruence|].
      split; [eexists; eapply kept_mono, K1; lia|]. right. split; [done|]. by apply sh_down. }
  apply wp_bind, wp_read, wp_bind, wp_read, wp_bind, wp_modify, wp_bind, wp_write, wp_bind, wp_write, wp_bind, wp_write, wp_bind.
  set (z := wrote_spad PLX_LBP_SPAD_E5_READY _ _).
  assert (z = greeted u idx x k) as Ez by (unfold z; rewrite Hx1; reflexivity).
  assert (kept 0 (introduction idx x) x1 z) as Hz.
  { change (introduction idx x) with ([] ++ [] ++ introduction idx x). eapply (kept_trans 0 0); [apply look_kept|].
    eapply (kept_trans 0 0); [apply look_kept|]. apply introduced_kept. }
  assert (bios z = bios x1) as Hbz by (unfold z; cbn; by rewrite !look_bios).
  pose proof (kept_trans _ _ _ _ _ _ _ K1 Hz) as K2.
  assert (forall n, Z.of_nat n <= irq_timeout x -> let x' := turns PLX_LBP_SPAD_i7_READY n z in
    bios x' = bios x /\ exists ws, kept (2 * irq_timeout x) ws x x') as Hend.
  { intros n Hn. cbv zeta. split; [rewrite turns_bios; congruence|].
    eexists. eapply kept_mono, (kept_trans _ _ _ _ _ _ _ K2 (turns_kept _ _ _)). lia. }
  destruct (wait_state_answer PLX_LBP_i7_READY (irq_timeout x) z) as [(j & Hj & Hrg & E)|(Hsil & E)];
    (eexists _, _; split; [exact E|]; apply wp_mret).
  - destruct (Hend (S j)) as [Hb3 Hk3]; [destruct Hj; lia|]. split; [done|]. split; [done|]. left. if_false.
    split; [lia|]. split; [rewrite Ez in Hj; by eapply sh_ready|].
    rewrite (k_wrote _ _ _ _ (turns_kept _ _ _)), app_nil_r, (k_wrote _ _ _ _ Hz). unfold introduction.
    rewrite (app_assoc _ [_; _] [_] : _ ++ [_; _; _] = _). apply last_write_snoc.
  - destruct (Hend (Z.to_nat (irq_timeout x))) as [Hb3 Hk3]; [lia|]. split; [done|]. split; [done|]. right.
    split; [done|]. rewrite Ez in Hsil. by eapply sh_silent.
Qed.

Definition no_bios_info : bios_info := mkInfo 0 0 UNKNOWN UNKNOWN UNKNOWN.

(** The end of a handshake. *)
Record handshake_post (u : unset) (sig : bool) x (r : Z) x' : Prop := {
  hp_time : clock (lg x') <= clock (lg x) + 2 * irq_timeout x + 10 * cmd_timeout x;
  hp_kept : conf x' = conf x /\ params (lbp x') = params (lbp x);
  hp_result : match vca_csm_dev (conf x) with
              | None => r = LBP_INTERNAL_ERROR
              | Some idx => shakes u sig idx (set_bios x no_bios_info) r
              end;
  hp_word : let e5 := last_write PLX_LBP_SPAD_E5_READY (wrote (lg x')) in
    if r =? LBP_STATE_OK
    then exists idx, vca_csm_dev (conf x) = Some idx /\ e5 = Some (e5_word x PLX_LBP_E5_READY idx)
    else e5 = Some (e5_word x PLX_LBP_E5_NOT_READY (u_cpuid u)) /\ bios x' = no_bios_info;
}.

Lemma handshake_fails u sig x x0 r x1 ws :
  x0 = set_bios x no_bios_info -> 0 <= cmd_timeout x -> kept (2 * irq_timeout x) ws x0 x1 -> bios x1 = no_bios_info -> r < 0 ->
  match vca_csm_dev (conf x) with None => - r = LBP_INTERNAL_ERROR | Some idx => shakes u sig idx x0 (- r) end ->
  wp (_ ← write_spad PLX_LBP_SPAD_E5_READY (plx_lbp_e5_ready PLX_LBP_E5_NOT_READY (u_cpuid u) (slot x) (port_id (xd x))); mret (- r))
    (handshake_post u sig x) x1.
Proof.
  intros -> Hc [] Hb Hneg Hr. apply wp_bind, wp_write, wp_mret.
  split; [unfold wrote_spad; cbn [lg set_lg clock log_write set_bios] in *; lia|done|done|].
  cbv zeta. rewrite (proj2 (Z.eqb_neq (- r) LBP_STATE_OK)) by codes. split; [|done].
  unfold wrote_spad. cbn [lg set_lg wrote log_write]. rewrite last_write_snoc. f_equal. apply e5_u32.
Qed.

Lemma handshake_ok u sig x :
  0 <= irq_timeout x -> 0 <= cmd_timeout x ->
  exists r x', plx_lbp_handshake u sig x = Ret (r, x') /\ handshake_post u sig x r x'.
Proof.
  intros Hi Hc. enough (wp (plx_lbp_handshake u sig) (handshake_post u sig x) x) as H by exact H.
  unfold plx_lbp_handshake. do 2 apply wp_bind, wp_gets. apply wp_bind, wp_modify, wp_bind, wp_gets, wp_bind.
  fold (slot x). fold no_bios_info. set (x0 := set_bios x _). cbn [conf set_bios x0].
  destruct (vca_csm_dev (conf x)) as [idx|] eqn:Ecsm.
  - eapply wp_mono; [by apply handshake_steps_ok|]. intros r x1 (Hb & (ws & Hk) & Hr).
    destruct Hr as [(Hr & Hsh & Hlast)|[Hr Hsh]].
    + if_true. apply wp_bind. assert (cmd_timeout x1 = cmd_timeout x) as Hct by (unfold cmd_timeout; by rewrite (k_params _ _ _ _ Hk)).
      eapply wp_mono; [apply copy_infos_ok; by rewrite Hct|]. intros ok x2 Hs. apply wp_mret. rewrite Hct in Hs.
      pose proof (says_e5 _ _ _ Hs) as He5. destruct Hs as (vs & Hk2 & _). destruct (kept_trans _ _ _ _ _ _ _ Hk Hk2).
      change (irq_timeout x0) with (irq_timeout x) in *. change (lg x0) with (lg x) in *.
      split; [lia|done|by rewrite Ecsm|]. cbn [Z.eqb LBP_STATE_OK]. rewrite He5. by exists idx.
    + if_false. eapply handshake_fails; [done|done|exact Hk|done|done|by rewrite Ecsm].
  - apply wp_mret. eapply (handshake_fails u sig x x0); [done|done|eapply kept_mono, kept_refl; lia|done|done|by rewrite Ecsm].
Qed.

(** C29. Whatever the node does, the handshake returns, after at most twice the interrupt
    timeout and ten times the command timeout, and its result says which step was
    reached.  [LBP_IRQ_TIMEOUT]: after the announcement of the host the node did not ring
    within the interrupt timeout, or was not up when it first rang, or a signal ended the
    wait.  [LBP_CMD_TIMEOUT]: it came up, but none of the polls within the interrupt
    timeout after the introduction of the host saw it ready.  [LBP_INTERNAL_ERROR]: the
    node has no number.  [LBP_STATE_OK]: it came up and was then seen ready; the last word
    of the host is that it is ready, with the number, slot and port.  After a failure the
    last word is that the host is not ready, and nothing is known of the BIOS. *)
Theorem plx_lbp_handshake_safe u sig x :
  0 <= irq_timeout x -> 0 <= cmd_timeout x ->
  exists r x', plx_lbp_handshake u sig x = Ret (r, x') /\ handshake_post u sig x r x'.
Proof. apply handshake_ok. Qed.

(** Waiting for a state of the node polls it once a millisecond.  The result is the
    first state that matches; without one in [timeout] milliseconds it is [-ETIME]. *)
Theorem plx_lbp_wait_for_i7_state_correct state timeout x :
  0 <= timeout ->
  exists r x', plx_lbp_wait_for_i7_state state timeout x = Ret (r, x') /\ kept timeout [] x x'
    /\ ((exists k, Z.of_nat k < timeout /\ r = status_at k x /\ matches state r = true
           /\ clock (lg x') = clock (lg x) + Z.of_nat (S k)
           /\ forall j, (j < k)%nat -> matches state (status_at j x) = false)
        \/ (r = - ETIME /\ clock (lg x') = clock (lg x) + timeout
            /\ forall j, Z.of_nat j < timeout -> matches state (status_at j x) = false)).
Proof.
  intros Ht.
  assert (forall y, clock (lg (slept y)) = clock (lg y) + 1) as Hs.
  { intros y. unfold slept. destruct (card_ms _) as [h []]; [|done]. unfold handled. destruct (plx_read_spad _ _). by destruct (_ =? _). }
  assert (forall idx k y, clock (lg (turns idx k y)) = clock (lg y) + Z.of_nat k) as Hcl.
  { intros idx k. induction k as [|k IH]; intros y; cbn [turns]; [lia|]. rewrite IH.
    destruct (look_kept idx (slept y)) as [_ _ _ _ _ Hl _]. rewrite Hs in Hl. lia. }
  destruct (wait_state_spec state timeout x) as [(k & Hk & Hm & Hlt & E)|(Hlt & E)];
    (eexists _, _; split; [exact E|]; split; [eapply kept_mono, turns_kept; lia|]).
  - left. exists k. split; [lia|]. split; [done|]. split; [done|]. split; [apply Hcl|done].
  - right. split; [done|]. split; [rewrite Hcl; lia|]. intros j Hj. apply Hlt. lia.
Qed.

(** ** The handshake, with a node that follows the protocol *)

Definition spad (d : plx_device hw) (i : Z) : Z := reg_base d + PLX_SPAD0 + i * 4.
(** The device behind the registers after [k] milliseconds. *)
Fixpoint ran (k : nat) (h : hw) : hw := match k with O => h | S k => ran k (card_ms h).1 end.
Definition put (d : plx_device hw) (i v : Z) (h : hw) : hw := iowrite32 h (u32 v) (spad d i).

(** The node rings in millisecond [k1 + 1] after the host has announced that it waits,
    and is up; it is ready [k2 + 1] milliseconds after the host has given it its number. *)
Record cooperative (u : unset) (idx : Z) x (k1 k2 : nat) : Prop := {
  co_time : Z.of_nat k1 < irq_timeout x /\ Z.of_nat k2 < irq_timeout x;
  co_rings : let h1 := put (xd x) PLX_LBP_SPAD_E5_READY (plx_lbp_e5_ready PLX_LBP_E5_WAITING_FOR_IRQ idx (u_slot u) (u_port u))
                         (put (xd x) PLX_LBP_SPAD_i7_CMD (plx_lbp_i7_cmd PLX_LBP_CMD_INVALID (u_param u)) (mmio (xd x))) in
    (forall j, (j < k1)%nat -> (card_ms (ran j h1)).2 = false) /\ (card_ms (ran k1 h1)).2 = true
    /\ let h2 := ran (S k1) h1 in
       Z.ldiff (ready (peek h2 (spad (xd x) PLX_LBP_SPAD_i7_READY))) PLX_LBP_i7_AFTER_REBOOT = PLX_LBP_i7_UP
       /\ let h3 := put (xd x) PLX_LBP_SPAD_E5_READY (e5_word x PLX_LBP_E5_READY idx)
                      (put (xd x) PLX_LBP_SPAD_DATA_HIGH 0 (put (xd x) PLX_LBP_SPAD_DATA_LOW idx h2)) in
          testflag (ready (peek (ran (S k2) h3) (spad (xd x) PLX_LBP_SPAD_i7_READY))) PLX_LBP_i7_READY = true;
}.

(** Reading a scratchpad does nothing. *)
Section Pure.
Context (pure : forall h o, (ioread32 h o).2 = h).

Lemma look_pure idx x : look idx x = (peek (mmio (xd x)) (spad (xd x) idx), x).
Proof.
  unfold look, plx_read_spad, plx_mmio_read, peek, spad. pose proof (pure (mmio (xd x)) (reg_base (xd x) + PLX_SPAD0 + idx * 4)) as Hp.
  destruct (ioread32 _ _) as [v h]. cbn in *. subst h. by destruct x as [[]].
Qed.
Lemma slept_pure x :
  mmio (xd (slept x)) = (card_ms (mmio (xd x))).1 /\ card_wait (lbp (slept x)) = card_wait (lbp x) || (card_ms (mmio (xd x))).2.
Proof.
  unfold slept. destruct (card_ms _) as [h []]; [|cbn; by rewrite orb_false_r]. rewrite orb_true_r. unfold handled.
  set (y := set_lg _ _). pose proof (look_pure PLX_LBP_SPAD_i7_READY y) as Hl. unfold look in Hl.
  destruct (plx_read_spad _ _) as [v d]. injection Hl as _ Hd. subst d.
  by destruct (_ =? _).
Qed.
Lemma turns_pure idx k x : mmio (xd (turns idx k x)) = ran k (mmio (xd x)).
Proof.
  revert x. induction k as [|k IH]; intros x; [done|]. cbn [turns ran]. rewrite IH, look_pure. cbn [snd]. by rewrite (proj1 (slept_pure x)).
Qed.
Lemma ran_S k h : ran (S k) h = (card_ms (ran k h)).1.
Proof. revert h. induction k as [|k IH]; intros h; [done|]. exact (IH (card_ms h).1). Qed.
Lemma kept_spad n ws x y idx : kept n ws x y -> spad (xd y) idx = spad (xd x) idx.
Proof. intros [Ho]. unfold spad. by rewrite Ho. Qed.
Lemma seen_pure idx k x : seen idx k x = peek (ran (S k) (mmio (xd x))) (spad (xd x) idx).
Proof.
  unfold seen. rewrite look_pure. cbn [fst]. rewrite (proj1 (slept_pure _)), turns_pure, ran_S.
  by rewrite (kept_spad _ _ _ _ _ (slept_kept _)), (kept_spad _ _ _ _ _ (turns_kept idx k x)).
Qed.

Lemma wait_completion_pure k n x :
  (k < n)%nat -> card_wait (lbp x) = false -> (forall j, (j < k)%nat -> (card_ms (ran j (mmio (xd x)))).2 = false) ->
  (card_ms (ran k (mmio (xd x)))).2 = true ->
  wp (wait_for_completion false n) (fun r x' => r = 1 /\ kept (Z.of_nat n) [] x x' /\ bios x' = bios x
    /\ mmio (xd x') = ran (S k) (mmio (xd x))) x.
Proof.
  revert n x. induction k as [|k IH]; intros [|n] x Hk Hw Hno Hring; try lia; cbn [wait_for_completion];
    apply wp_bind, wp_gets; rewrite Hw; apply wp_bind; eexists tt, (slept x); (split; [apply msleep_ret|]);
    destruct (slept_pure x) as [Hm Hcw]; rewrite Hw in Hcw; cbn [ran] in *.
  - rewrite Hring in Hcw. exists 1, (slept x). split.
    { destruct n; cbn [wait_for_completion]; rewrite bind_gets, Hcw; done. }
    split; [done|]. split; [eapply kept_mono, slept_kept; lia|]. split; [apply slept_bios|done].
  - assert ((card_ms (mmio (xd x))).2 = false) as Hz by (apply (Hno 0%nat); lia). rewrite Hz in Hcw. eapply wp_mono.
    + apply (IH n); [lia|done| |by rewrite Hm]. intros j Hj. rewrite Hm. apply (Hno (S j)). lia.
    + intros r x' (-> & Hk' & Hb & Hm'). split; [done|]. rewrite Hb, slept_bios, Hm', Hm. split; [|done].
      apply (kept_mono (1 + Z.of_nat n)); [lia|]. exact (kept_trans _ _ [] [] _ _ _ (slept_kept x) Hk').
Qed.

Lemma handshake_steps_pure u idx x k1 k2 :
  cooperative u idx x k1 k2 ->
  wp (handshake_steps u false idx) (fun r x' => 0 <= r /\ exists n,
    kept n (announcement u idx ++ introduction idx x) x x') x.
Proof.
  intros [[Hk1 Hk2] (Hno & Hring & Hup & Hack)]. unfold handshake_steps. do 3 apply wp_bind, wp_gets. fold (irq_timeout x) (slot x).
  apply wp_bind, wp_write, wp_bind, wp_modify, wp_bind, wp_write, wp_bind. fold (announced u idx x).
  set (y := announced u idx x). pose proof (announced_kept u idx x : kept 0 _ x y) as Hy.
  unfold plx_lbp_wait_for_i7_up at 1. apply wp_bind.
  eapply wp_mono; [apply (wait_completion_pure k1 (Z.to_nat (irq_timeout x)) y); [lia|done|exact Hno|exact Hring]|].
  intros err x1 (-> & H1 & _ & Hm1). cbn [Z.ltb Z.eqb Z.compare]. apply wp_bind. unfold plx_lbp_get_i7_status. apply wp_read.
  rewrite look_pure. cbn [fst snd]. rewrite (kept_spad _ _ _ _ _ H1), (kept_spad _ _ _ _ _ Hy), Hm1.
  replace (_ =? PLX_LBP_i7_UP) with true by (symmetry; apply Z.eqb_eq; exact Hup). cbn [negb]. apply wp_mret. cbn [Z.eqb negb].
  apply wp_bind, wp_read. rewrite look_pure. cbn [snd]. apply wp_bind, wp_read. rewrite look_pure. cbn [fst snd].
  apply wp_bind, wp_modify, wp_bind, wp_write, wp_bind, wp_write, wp_bind, wp_write, wp_bind.
  set (z := wrote_spad PLX_LBP_SPAD_E5_READY _ _).
  pose proof (introduced_kept idx x x1 _ : kept 0 _ x1 z) as Hz.
  destruct (wait_state_spec PLX_LBP_i7_READY (irq_timeout x) z) as [(k & Hk & Hm & _ & E)|(Hnone & _)].
  2:{ exfalso. specialize (Hnone k2 ltac:(lia)). unfold status_at in Hnone. rewrite seen_pure in Hnone.
      pose proof (kept_trans _ _ _ _ _ _ _ Hy (kept_trans _ _ _ _ _ _ _ H1 Hz)) as Hall.
      rewrite (kept_spad _ _ _ _ _ Hall) in Hnone. unfold matches in Hnone. cbn [Z.eqb PLX_LBP_i7_READY] in Hnone.
      enough (mmio (xd z) = put (xd x) PLX_LBP_SPAD_E5_READY (e5_word x PLX_LBP_E5_READY idx)
                      (put (xd x) PLX_LBP_SPAD_DATA_HIGH 0 (put (xd x) PLX_LBP_SPAD_DATA_LOW idx (mmio (xd x1))))) as Hz3.
      { rewrite Hz3, Hm1 in Hnone. enough (true = false) by done. rewrite <- Hnone. symmetry. exact Hack. }
      unfold put. rewrite <- !(kept_spad _ _ _ _ _ (kept_trans _ _ _ _ _ _ _ Hy H1)). done. }
  eexists _, _. split; [exact E|]. apply wp_mret.
  pose proof (ready_range (seen PLX_LBP_SPAD_i7_READY k z)) as Hr. fold (status_at k z) in Hr. if_false. split; [lia|].
  eexists. pose proof (kept_trans _ _ _ _ _ _ _ Hy (kept_trans _ _ _ _ _ _ _ H1 (kept_trans _ _ _ _ _ _ _ Hz (turns_kept PLX_LBP_SPAD_i7_READY (S k) z)))) as Hall.
  exact Hall.
Qed.

(** C30. With a node that follows the protocol the handshake succeeds: the host clears the
    command, announces that it waits, and after the node has rung gives it its number
    and only then declares itself ready; after that it only asks for the parameters of
    the BIOS. *)
Theorem plx_lbp_handshake_completes u idx x k1 k2 :
  0 <= cmd_timeout x -> vca_csm_dev (conf x) = Some idx -> cooperative u idx x k1 k2 ->
  exists x' ws, plx_lbp_handshake u false x = Ret (LBP_STATE_OK, x')
    /\ Forall (fun w => w.1 ∈ talk_regs) ws
    /\ wrote (lg x') = wrote (lg x) ++
         [(PLX_LBP_SPAD_i7_CMD, u32 (plx_lbp_i7_cmd PLX_LBP_CMD_INVALID (u_param u)));
          (PLX_LBP_SPAD_E5_READY, plx_lbp_e5_ready PLX_LBP_E5_WAITING_FOR_IRQ idx (u_slot u) (u_port u));
          (PLX_LBP_SPAD_DATA_LOW, u32 idx); (PLX_LBP_SPAD_DATA_HIGH, 0);
          (PLX_LBP_SPAD_E5_READY, e5_word x PLX_LBP_E5_READY idx)] ++ ws.
Proof.
  intros Hc Hcsm Hco. enough (wp (plx_lbp_handshake u false) (fun r x' => r = LBP_STATE_OK /\ exists ws, Forall (fun w => w.1 ∈ talk_regs) ws
    /\ wrote (lg x') = wrote (lg x) ++ announcement u idx ++ introduction idx x ++ ws) x) as (r & x' & E & -> & ws & Hws & Hwr)
    by (exists x', ws; done).
  unfold plx_lbp_handshake. do 2 apply wp_bind, wp_gets. apply wp_bind, wp_modify, wp_bind, wp_gets. cbn [conf set_bios]. rewrite Hcsm.
  apply wp_bind. eapply wp_mono; [apply (handshake_steps_pure u idx _ k1 k2); destruct Hco; by split|]. intros r x1 (Hr & n & Hk). if_true.
  apply wp_bind. assert (cmd_timeout x1 = cmd_timeout x) as Hct by (unfold cmd_timeout; by rewrite (k_params _ _ _ _ Hk)).
  eapply wp_mono; [apply copy_infos_ok; by rewrite Hct|]. intros ok x2 (ws & Hk2 & Hws). apply wp_mret. split; [done|].
  exists ws. split; [done|]. by rewrite (k_wrote _ _ _ _ Hk2), (k_wrote _ _ _ _ Hk), <- !(assoc_L (++)).
Qed.
End Pure.

(** ** Sending an image *)

(** The memory of the node with [data] at the bus address [a]. *)
Definition written (a : Z) (data : list Z) (mem : Z -> Z) : Z -> Z := fun a' =>
  if a <=? a' then default (mem a') (data !! Z.to_nat (a' - a)) else mem a'.

Lemma written_nil a mem a' : written a [] mem a' = mem a'.
Proof. unfold written. by destruct (_ <=? _). Qed.
Lemma written_ext a data mem mem' a' : mem a' = mem' a' -> written a data mem a' = written a data mem' a'.
Proof. unfold written. intros H. destruct (_ <=? _); [|done]. destruct (data !! _); [done|]. exact H. Qed.
Lemma written_app a l k mem a' : written (a + zlen l) k (written a l mem) a' = written a (l ++ k) mem a'.
Proof.
  unfold written, zlen. destruct (a + Z.of_nat (length l) <=? a') eqn:E1; bools.
  - rewrite (proj2 (Z.leb_le a a')) by lia. rewrite lookup_app_r by lia.
    replace (Z.to_nat (a' - a) - length l)%nat with (Z.to_nat (a' - (a + Z.of_nat (length l)))) by lia.
    destruct (k !! _); [done|]. cbn. by rewrite lookup_ge_None_2 by lia.
  - destruct (a <=? a') eqn:E2; bools; [|done]. by rewrite lookup_app_l by lia.
Qed.

Lemma peer_write_spec d data off a mem :
  (forall k, 0 <= k < zlen data -> target d (off + k) = Some (a + k)) ->
  forall a', peer_write d off data mem a' = written a data mem a'.
Proof.
  revert off a mem. induction data as [|b data IH]; intros off a mem Ht a'; cbn [peer_write]; [by rewrite written_nil|].
  pose proof (zlen_nonneg data). rewrite zlen_cons in Ht. pose proof (Ht 0 ltac:(lia)) as H0. rewrite !Z.add_0_r in H0. rewrite H0.
  rewrite (IH (off + 1) (a + 1)).
  - rewrite <- (written_app a [b] data). change (zlen [b]) with 1. apply written_ext. unfold written.
    destruct (Z.eqb_spec a' a) as [-> |Hne]; [by rewrite Z.leb_refl, Z.sub_diag|].
    destruct (a <=? a') eqn:E; bools; [|done]. by rewrite lookup_ge_None_2 by (cbn; lia).
  - intros k Hk. replace (off + 1 + k) with (off + (1 + k)) by lia. rewrite Ht by lia. f_equal. lia.
Qed.

(** The pieces of an image. *)
Lemma chunk_next img offset size :
  0 <= offset -> 0 <= size -> take (Z.to_nat (offset + size)) img = take (Z.to_nat offset) img ++ chunk img offset size.
Proof. intros Ho Hs. unfold chunk. rewrite Z2Nat.inj_add by lia. by rewrite take_take_drop. Qed.
Lemma chunk_zlen img offset size : 0 <= offset -> 0 <= size -> offset + size <= zlen img -> zlen (chunk img offset size) = size.
Proof. unfold chunk, zlen. intros Ho Hs Hl. rewrite length_take, length_drop. lia. Qed.

(** Only the A-LUT and the memory of the node change. *)
Definition moves x x' : Prop := x' = set_mem (set_xd x (xd x')) (peer_mem x').

(** A range was mapped into the aperture and unmapped again. *)
Definition mapped (d d2 : plx_device hw) : Prop :=
  exists pa len va d1, plx_ioremap d pa len = Ret (d1, Some va) /\ plx_iounmap d1 va = Ret d2.

(** Why copying the image fails: the host cannot fill the buffer or the DMA engine refuses
    a piece or fails, or the A-LUT has no room for one after some pieces went through. *)
Definition stops (e : renv) (o : Z) : Prop := copy_ok e o = false \/ prep_ok e o = false \/ submit_ok e o = false \/ wait_err e o <> 0.
Definition halted (e : renv) (img : list Z) x : Prop := (exists o, 0 <= o < zlen img /\ stops e o) \/ dma_ch (conf x) = false.
Definition refused (e : renv) (img : list Z) x : Prop :=
  halted e img x \/ (exists d pa len d', rtc mapped (xd x) d /\ 0 < len <= HPAGE_SIZE /\ plx_ioremap d pa len = Ret (d', None)).

Lemma sync_dma_ok e img offset dst data x : 0 <= offset < zlen img ->
  wp (vca_lbp_sync_dma e offset dst data) (fun r x' =>
    (exists m, x' = set_mem x m) /\ (r = 0 -> x' = set_mem x (peer_write (xd x) (u64 (dst - aper_pa (conf x))) data (peer_mem x)))
    /\ (r <> 0 -> halted e img x)) x.
Proof.
  intros Ho.
  assert (exists m, x = set_mem x m) as Hx by (exists (peer_mem x); by destruct x).
  assert (forall r, r <> 0 -> halted e img x -> (exists m, x = set_mem x m)
    /\ (r = 0 -> x = set_mem x (peer_write (xd x) (u64 (dst - aper_pa (conf x))) data (peer_mem x))) /\ (r <> 0 -> halted e img x)) as Hf
    by (intros r Hne Hr; split; [done|]; split; [intros ->; congruence|done]).
  unfold vca_lbp_sync_dma. apply wp_bind, wp_gets.
  destruct (dma_ch (conf x)) eqn:E1; cbn [negb]; [|apply wp_mret, Hf; [done|by right]].
  destruct (prep_ok e offset) eqn:E2; cbn [negb]; [|apply wp_mret, Hf; [done|left; exists offset; unfold stops; auto]].
  destruct (submit_ok e offset) eqn:E3; cbn [negb]; [|apply wp_mret, Hf; [done|left; exists offset; unfold stops; auto]].
  apply wp_bind, wp_modify, wp_mret. split; [by eexists|]. split; [by intros ->|]. intros Hne. left. exists offset. unfold stops. auto.
Qed.

Lemma moves_trans x y z : moves x y -> moves y z -> moves x z.
Proof. unfold moves. intros Hy ->. rewrite Hy. done. Qed.
Lemma refused_step e img x y : moves x y -> mapped (xd x) (xd y) -> refused e img y -> refused e img x.
Proof.
  unfold refused. intros Hm Hs [H|(d & pa & len & d' & Hd & H)]; [left; unfold halted in *; by rewrite Hm in H|].
  right. exists d, pa, len, d'. split; [by eapply rtc_l|done].
Qed.
Lemma u64_sub_add a b : u64 (u64 (a + b) - a) = u64 b.
Proof. unfold u64, wrap. rewrite Zminus_mod_idemp_l. f_equal. lia. Qed.

Lemma wp_tail {A B C} (m : M A) (k : A -> M B) (f : A -> M C) Q x a x' :
  (a ← m; _ ← k a; mret a) x = Ret (a, x') -> wp (f a) Q x' -> wp (a ← m; _ ← k a; f a) Q x.
Proof.
  unfold wp, mbind, M_bind. destruct (m x) as [[b y]| | |]; try done. cbn.
  destruct (k b y) as [[c z]| | |]; try done. cbn. intros [= -> ->]. done.
Qed.

(** One piece of the image: it is mapped, transferred and unmapped. *)
Lemma chunk_step_ok e (img : list Z) pa offset size x :
  MmioStorage hw (window (xd x)) -> ALut.ready (xd x) -> fits 64 pa -> 0 < size <= HPAGE_SIZE -> 0 <= offset < zlen img ->
  zlen (chunk img offset size) = size ->
  exists x1 r, ioremap pa size x = Ret (r, x1) /\ moves x x1 /\ coherent (xd x1) /\ window (xd x1) = window (xd x)
    /\ match r with
       | None => refused e img x
       | Some va =>
           let dst := u64 (aper_pa (conf x1) + (va - aper_va (xd x1))) in
           wp (err ← vca_lbp_sync_dma e offset dst (chunk img offset size); _ ← iounmap va; mret err)
             (fun err x' => moves x x' /\ mapped (xd x) (xd x') /\ ALut.ready (xd x') /\ window (xd x') = window (xd x)
               /\ (err = 0 -> pa + size <= 2 ^ 64 -> forall a', peer_mem x' a' = written pa (chunk img offset size) (peer_mem x) a')
               /\ (err <> 0 -> refused e img x)) x1
       end.
Proof.
  intros Hst Hr Hpa [Hs Hp] Hoff Hlen. destruct (ioremap_ok (xd x) pa size Hst Hr Hpa Hs) as (d1 & r & Hmap & Hco & Hos & Hw1 & Htr).
  exists (set_xd x d1), r. unfold ioremap. rewrite Hmap. split; [done|]. split; [done|]. split; [done|]. split; [done|].
  destruct r as [va|]; [|right; exists (xd x), pa, size, d1; split; [apply rtc_refl|done]].
  destruct (iounmap_ok (xd x) pa size d1 va Hst Hr Hpa Hs Hmap) as (d2 & Hun & Hr2 & Hos2 & _ & Hw2 & _).
  cbv zeta. apply wp_bind. eapply wp_mono; [by apply (sync_dma_ok e img)|]. intros err x2 ((m & Hm) & H0 & Hne).
  apply wp_bind. exists tt, (set_xd x2 d2). split; [unfold iounmap; rewrite Hm; cbn [xd set_mem set_xd]; by rewrite Hun|].
  apply wp_mret. rewrite Hm. split; [done|]. split; [by exists pa, size, va, d1|]. split; [exact Hr2|]. split; [exact Hw2|]. split; [|intros; left; by apply Hne].
  intros -> H64 a'. assert (m = peer_write d1 (u64 (va - aper_va d1)) (chunk img offset size) (peer_mem x)) as ->.
  { specialize (H0 eq_refl). rewrite Hm in H0. injection H0 as ->. cbn [xd conf set_xd]. by rewrite u64_sub_add. }
  cbn [peer_mem set_mem set_xd]. apply peer_write_spec. intros k Hk. rewrite Hlen in Hk.
  destruct (Htr va eq_refl) as [Ht _]. unfold target. assert (a_lut d1 = true) as -> by (rewrite Hos; apply Hr).
  replace (aper_va d1) with (aper_va (xd x)) by (by rewrite Hos). by apply Ht.
Qed.

(** The loop sends the rest of the image, or the reason why not is known. *)
Lemma chunk_loop_ok e img ph n : forall offset size err x,
  MmioStorage hw (window (xd x)) -> ALut.ready (xd x) -> fits 64 ph -> zlen img < 2 ^ 64 -> 0 <= offset <= zlen img ->
  zlen img - offset <= Z.of_nat n -> (offset < zlen img -> 0 < size <= HPAGE_SIZE /\ offset + size <= zlen img) ->
  wp (chunk_loop e img ph n offset size err) (fun r x' => moves x x' /\ (coherent (xd x') /\ window (xd x') = window (xd x))
    /\ ((r = (if offset <? zlen img then 0 else err) /\ (ph + zlen img <= 2 ^ 64 ->
           forall a', peer_mem x' a' = written (ph + offset) (drop (Z.to_nat offset) img) (peer_mem x) a'))
        \/ (r = - LBP_INTERNAL_ERROR /\ refused e img x))) x.
Proof.
  induction n as [|n IH]; intros offset size err x Hst Hr Hph Hlen Ho Hfuel Hsize; cbn [chunk_loop];
    (destruct (offset <? zlen img) eqn:Eo; bools; cbn [negb];
      [|apply wp_mret; split; [by destruct x|]; split; [split; [apply Hr|done]|]; left; split; [done|]; intros _ a';
        rewrite drop_ge by (unfold zlen in *; lia); by rewrite written_nil]); [lia|].
  destruct (Hsize Eo) as [Hs Hos]. destruct (copy_ok e offset) eqn:Ec; cbn [negb].
  2:{ apply wp_mret. split; [by destruct x|]. split; [split; [apply Hr|done]|]. right. split; [done|]. left. left. exists offset. unfold stops. split; [lia|auto]. }
  assert (zlen (chunk img offset size) = size) as Hcl by (apply chunk_zlen; lia).
  destruct (chunk_step_ok e img (u64 (ph + offset)) offset size x Hst Hr (u64_range _) Hs ltac:(lia) Hcl)
    as (x1 & r & Hmap & Hm1 & Hco1 & Hw1 & Hrest).
  apply wp_bind. exists r, x1. split; [exact Hmap|]. destruct r as [va|]; [|apply wp_mret; auto].
  apply wp_bind, wp_gets. destruct Hrest as (er & x2 & E & Hm2 & Hmp2 & Hr2 & Hw2 & Hok & Hbad). eapply wp_tail; [exact E|].
  destruct (er =? 0) eqn:Ee; bools; cbn [negb].
  2:{ apply wp_mret. split; [done|]. split; [split; [apply Hr2|done]|]. right. auto. }
  subst er. rewrite (u64_small (offset + size)) by lia. rewrite (u64_small (zlen img - _)) by lia.
  rewrite <- Hw2 in Hst. set (o' := offset + size).
  eapply wp_mono; [apply (IH o' (if size <? zlen img - o' then size else u32 (zlen img - o')) 0 x2 Hst Hr2 Hph Hlen); [unfold o'; lia|unfold o'; lia|]|].
  { intros Ho'. destruct (size <? zlen img - o') eqn:E2; bools; [lia|]. unfold HPAGE_SIZE in *. rewrite u32_small by lia. lia. }
  intros r x' (Hm' & [Hco' Hw'] & Hres). split; [by eapply moves_trans|]. split; [split; [done|congruence]|].
  destruct Hres as [[Hr' Hmem]|[Hr' Href]]; [left|right; split; [done|by eapply refused_step]].
  split; [by destruct (o' <? _)|]. intros H64 a'. rewrite (Hmem H64 a').
  assert (u64 (ph + offset) = ph + offset) as Hpo by (apply u64_small; unfold fits in Hph; lia). rewrite Hpo in Hok.
  rewrite (written_ext _ _ _ _ _ (Hok eq_refl ltac:(lia) a')).
  replace (ph + o') with (ph + offset + zlen (chunk img offset size)) by (rewrite Hcl; unfold o'; lia). rewrite written_app. f_equal.
  unfold chunk, o'. rewrite Z2Nat.inj_add, <- drop_drop by lia. apply take_drop.
Qed.

(** The device after its registers changed outside of the A-LUT. *)
Lemma coherent_keeps (d d' : plx_device hw) : coherent d -> only_mmio d d' -> keeps (window d) d d' -> coherent d'.
Proof.
  intros (Hwf & Hco) Ho Hk. assert (a_lut_manager d' = a_lut_manager d) as Hm by by rewrite Ho.
  unfold coherent. rewrite Hm. split; [done|]. intros seg a c Ht. pose proof (Alm.translate_range _ _ _ _ Hwf Ht) as Hr.
  apply (same_entry_maps (a_lut_array_base d) d); [done|by rewrite Ho| |by eapply Hco].
  intros sub Hsub. apply Hk. unfold window. by apply lut_reg_in.
Qed.
Lemma ready_keeps (d d' : plx_device hw) :
  ALut.ready d -> only_mmio d d' -> keeps (window d) d d' -> ALut.ready d' /\ window d' = window d.
Proof.
  intros (Ha & Hv & Hco & Hc) Ho Hk. split; [|by rewrite Ho]. split; [by rewrite Ho|]. split; [by rewrite Ho|].
  split; [by eapply coherent_keeps|]. unfold counts_ok. by rewrite Ho.
Qed.

Section Lut.
Context (st : Z -> Prop) `{!MmioStorage hw st}.
Context (card_keeps : forall h o, st o -> peek (card_ms h).1 o = peek h o).

(** The scratchpads and the control register of the peer are not among [st]. *)
Definition outside (d : plx_device hw) : Prop :=
  (forall i, 2 <= i <= 7 -> ~ st (spad d i)) /\ ~ st (reg_base_peer d + PLX_A_LUT_CONTROL).

Lemma look_lut idx x : keeps st (xd x) (xd (look idx x).2).
Proof.
  unfold look, plx_read_spad. pose proof (keeps_read st (xd x) (reg_base (xd x) + PLX_SPAD0 + idx * 4)) as Hk.
  by destruct (plx_mmio_read _ _).
Qed.
Lemma slept_lut x : keeps st (xd x) (xd (slept x)).
Proof.
  unfold slept. pose proof (card_keeps (mmio (xd x))) as Hc. destruct (card_ms _) as [h rang]. set (y := set_lg _ _).
  assert (keeps st (xd x) (xd y)) as Hy by exact Hc. destruct rang; [|done]. eapply keeps_trans; [exact Hy|].
  pose proof (look_lut PLX_LBP_SPAD_i7_READY y) as Hl. unfold look in Hl. unfold handled. destruct (plx_read_spad _ _). by destruct (_ =? _).
Qed.
Lemma turns_lut idx k x : keeps st (xd x) (xd (turns idx k x)).
Proof.
  revert x. induction k as [|k IH]; intros x; [done|]. cbn [turns].
  eapply keeps_trans; [apply slept_lut|]. eapply keeps_trans; [apply look_lut|apply IH].
Qed.
Lemma wrote_lut idx v x : 2 <= idx <= 7 -> outside (xd x) -> keeps st (xd x) (xd (wrote_spad idx v x)).
Proof. intros Hi [Ho _]. apply keeps_write; [done|]. by apply Ho. Qed.
End Lut.

(** The address of the ramdisk that the node reports. *)
Definition reported x : Z :=
  u64 (u64 (Z.shiftl (look PLX_LBP_SPAD_DATA_HIGH x).1 32) + (look PLX_LBP_SPAD_DATA_LOW (look PLX_LBP_SPAD_DATA_HIGH x).2).1).
(** The request for a ramdisk. *)
Definition request (img : list Z) : list (Z * Z) :=
  [(PLX_LBP_SPAD_DATA_LOW, u32 (DIV_ROUND_UP (zlen img) (1024 * 1024))); (PLX_LBP_SPAD_DATA_HIGH, 0);
   (PLX_LBP_SPAD_i7_CMD, u32 (plx_lbp_i7_cmd PLX_LBP_CMD_MAP_RAMDISK PLX_LBP_PARAM_BAR23))].
Definition alloc_timeout x : Z := i7_alloc_timeout_ms (params (lbp x)).

(** The node is asked for a ramdisk; it answers poll [k]; the answer is read. *)
Definition RAMDISK_ANSWER := Z.lor PLX_LBP_i7_DONE PLX_LBP_i7_ANY_ERROR.
Definition asked (img : list Z) x : lbp_dev :=
  wrote_spad PLX_LBP_SPAD_i7_CMD (plx_lbp_i7_cmd PLX_LBP_CMD_MAP_RAMDISK PLX_LBP_PARAM_BAR23)
    (wrote_spad PLX_LBP_SPAD_DATA_HIGH 0 (wrote_spad PLX_LBP_SPAD_DATA_LOW (DIV_ROUND_UP (zlen img) (1024 * 1024)) x)).
Definition ramdisk_at (img : list Z) x (k : nat) : Z := reported (turns PLX_LBP_SPAD_i7_READY (S k) (asked img x)).
Definition told (img : list Z) x (k : nat) : lbp_dev :=
  (look PLX_LBP_SPAD_DATA_LOW (look PLX_LBP_SPAD_DATA_HIGH (turns PLX_LBP_SPAD_i7_READY (S k) (asked img x))).2).2.

(** The image has arrived where the node, answering poll [k], wanted it. *)
Definition delivered (img : list Z) x (k : nat) x' : Prop :=
  wrote (lg x') = wrote (lg x) ++ request img
  /\ (ramdisk_at img x k + zlen img <= 2 ^ 64 -> forall a, peer_mem x' a = written (ramdisk_at img x k) img (peer_mem x) a).

Definition kept_log x x' : Prop :=
  buffers (lg x') = buffers (lg x) /\ conf x' = conf x /\ params (lbp x') = params (lbp x)
  /\ clock (lg x) <= clock (lg x') <= clock (lg x) + alloc_timeout x.

Section Send.
Context (x0 : lbp_dev) `{!MmioStorage hw (window (xd x0))}.
Context (card_keeps : forall h o, window (xd x0) o -> peek (card_ms h).1 o = peek h o).
Context (Hout : outside (window (xd x0)) (xd x0)).

(** The device is the one of [x0] up to registers outside of the A-LUT. *)
Definition same_lut x : Prop := only_mmio (xd x0) (xd x) /\ keeps (window (xd x0)) (xd x0) (xd x).
Lemma same_lut_write idx v x : 2 <= idx <= 7 -> same_lut x -> same_lut (wrote_spad idx v x).
Proof.
  intros Hi [Ho Hk]. split; [eapply only_mmio_trans; [exact Ho|apply only_mmio_write]|].
  eapply keeps_trans; [exact Hk|]. apply wrote_lut; [done|done|]. unfold outside, spad. rewrite Ho. exact Hout.
Qed.
Lemma same_lut_look idx x : same_lut x -> same_lut (look idx x).2.
Proof.
  intros [Ho Hk]. split; [eapply only_mmio_trans; [exact Ho|apply look_kept]|]. eapply keeps_trans; [exact Hk|by apply look_lut].
Qed.
Lemma same_lut_turns idx k x : same_lut x -> same_lut (turns idx k x).
Proof.
  intros [Ho Hk]. split; [eapply only_mmio_trans; [exact Ho|apply turns_kept]|]. eapply keeps_trans; [exact Hk|by apply turns_lut].
Qed.
Lemma same_lut_ready x : ALut.ready (xd x0) -> same_lut x -> ALut.ready (xd x) /\ window (xd x) = window (xd x0).
Proof. intros Hr [Ho Hk]. by apply ready_keeps. Qed.

(** What the part with the buffer gives: a negative error, the state of a node with an
    error, or success. *)
Definition sent (e : renv) (img : list Z) x (r : Z) x' : Prop :=
  kept_log x x' /\ (coherent (xd x') /\ window (xd x') = window (xd x0))
  /\ (r = - LBP_ALLOC_TIMEOUT /\ silent RAMDISK_ANSWER (alloc_timeout x) (asked img x)
      \/ exists k, answered RAMDISK_ANSWER (alloc_timeout x) (asked img x) k
         /\ (0 <= r /\ testflag (status_at k (asked img x)) PLX_LBP_i7_ANY_ERROR = true /\ testflag r PLX_LBP_i7_ANY_ERROR = true
             \/ testflag (status_at k (asked img x)) PLX_LBP_i7_ANY_ERROR = false
                /\ (r = - LBP_INTERNAL_ERROR /\ refused e img (told img x k)
                    \/ 0 <= r /\ testflag r PLX_LBP_i7_ANY_ERROR = false /\ delivered img x k x'))).

Lemma kept_keeps_log n ws x y : n <= alloc_timeout x -> kept n ws x y -> kept_log x y.
Proof. intros Hn [? ? ? ? (? & ? & ?) ? ?]. repeat split; (done || lia). Qed.

Lemma send_image_ok e img size x :
  ALut.ready (xd x0) -> same_lut x -> 0 <= alloc_timeout x -> zlen img < 2 ^ 64 -> 0 < size <= HPAGE_SIZE ->
  wp (send_image e img size) (sent e img x) x.
Proof.
  intros Hr Hs Ht Hlen Hsize. unfold send_image. apply wp_bind, wp_write, wp_bind, wp_write, wp_bind, wp_write, wp_bind, wp_gets, wp_bind.
  fold (asked img x) RAMDISK_ANSWER. set (y := asked img x).
  assert (kept 0 (request img) x y) as Hy
    by (apply (kept_write 0 [_; _]), (kept_write 0 [_] _ _ _ 0), wrote_kept).
  assert (same_lut y) as Hsy by (by repeat (apply same_lut_write; [done|])).
  change (i7_alloc_timeout_ms _) with (alloc_timeout x).
  assert (forall k, same_lut (turns PLX_LBP_SPAD_i7_READY k y)) as Hst by (intros; by apply same_lut_turns).
  assert (forall z, same_lut z -> coherent (xd z) /\ window (xd z) = window (xd x0)) as Hcoh
    by (intros z Hz; destruct (same_lut_ready z Hr Hz) as [Hrz ?]; by split; [apply Hrz|]).
  destruct (wait_state_answer RAMDISK_ANSWER (alloc_timeout x) y) as [(k & Hans & Hrg & E)|(Hsil & E)];
    (eexists _, _; split; [exact E|]).
  2:{ cbn [Z.ltb Z.compare Z.opp ETIME]. apply wp_bind, wp_read, wp_mret. split; [|split; [by apply Hcoh, same_lut_look|left; by split]].
      eapply (kept_keeps_log (0 + alloc_timeout x + 0)); [lia|]. eapply kept_trans; [|apply look_kept].
      eapply kept_trans; [exact Hy|]. eapply kept_mono; [|apply turns_kept]. lia. }
  pose proof (proj1 Hans) as Hk. if_false.
  set (z := turns PLX_LBP_SPAD_i7_READY (S k) y).
  assert (kept (alloc_timeout x) (request img) x z) as Hz.
  { rewrite <- (app_nil_r (request img)). eapply (kept_mono (0 + Z.of_nat (S k))); [lia|]. eapply kept_trans; [exact Hy|apply turns_kept]. }
  destruct (testflag (status_at k y) PLX_LBP_i7_ANY_ERROR) eqn:Ee.
  { apply wp_mret. split; [exact (kept_keeps_log _ _ _ _ (Z.le_refl _) Hz)|]. split; [apply Hcoh, Hst|]. right. exists k. split; [done|]. left. split; [lia|done]. }
  apply wp_bind, wp_read, wp_bind, wp_read. fold (reported z). set (w := (look _ (look _ z).2).2).
  assert (same_lut w) as Hsw by (do 2 apply same_lut_look; apply Hst). destruct (same_lut_ready w Hr Hsw) as [Hrw Hww].
  assert (kept (alloc_timeout x) (request img) x w) as Hw.
  { rewrite <- (app_nil_r (request img)), <- (app_nil_r (request img)), <- (Z.add_0_r (alloc_timeout x)), <- (Z.add_0_r (alloc_timeout x)).
    eapply kept_trans; [eapply kept_trans; [exact Hz|apply look_kept]|apply look_kept]. }
  pose proof (zlen_nonneg img). unfold HPAGE_SIZE in *.
  eapply wp_mono; [apply (chunk_loop_ok e img (reported z) (length img)); try done; [by rewrite Hww|apply u64_range|unfold zlen in *; lia|]|].
  { intros Hpos. destruct (zlen img <? size) eqn:Es; bools; [rewrite u32_small by lia|]; unfold HPAGE_SIZE; lia. }
  intros r x' (Hmv & [Hco Hwx] & Hres).
  assert (lg x' = lg w /\ conf x' = conf w /\ lbp x' = lbp w) as (Hlg & Hcf & Hlb) by (by rewrite Hmv).
  split; [|split; [split; [done|congruence]|]].
  { destruct (kept_keeps_log _ _ _ _ (Z.le_refl _) Hw) as (? & ? & ? & ?). unfold kept_log. rewrite Hlg, Hcf, Hlb. done. }
  right. exists k. split; [done|]. right. split; [done|]. destruct Hres as [[Hr' Hmem]|[-> Href]].
  2:{ left. split; [done|exact Href]. }
  right. split; [destruct (0 <? _); lia|]. split; [rewrite Hr'; by destruct (0 <? zlen img)|].
  split; [by rewrite Hlg, (k_wrote _ _ _ _ Hw)|]. change (ramdisk_at img x k) with (reported z).
  intros H64 a. rewrite (Hmem H64 a), Z.add_0_r. apply written_ext. by rewrite (proj1 (k_mem _ _ _ _ Hw)).
Qed.
End Send.

(** The A-LUT of the node is enabled; the state has been read and the buffer allocated. *)
Definition enabled x : lbp_dev := if a_lut (xd x) then set_xd x (plx_a_lut_peer_enable (xd x)) else x.
Definition buffered (size : Z) x : lbp_dev :=
  let x2 := (look PLX_LBP_SPAD_i7_READY (enabled x)).2 in set_lg x2 (set_buffers (lg x2) (size :: buffers (lg x2))).

(** There are a channel and a buffer, and the node is ready. *)
Definition able (e : renv) x (size : Z) : Prop :=
  dma_ch (conf x) = true /\ ready (look PLX_LBP_SPAD_i7_READY (enabled x)).1 = PLX_LBP_i7_READY /\ alloc_buffer e = Some size.

(** How sending an image ends: it cannot begin; the node does not answer the request in
    time; it answers with an error; the copying fails; the image is where the node wanted
    it. *)
Inductive sends (e : renv) (img : list Z) x : Z -> lbp_dev -> Prop :=
  | snd_unable x' : (forall size, ~ able e x size) -> wrote (lg x') = wrote (lg x) -> sends e img x LBP_INTERNAL_ERROR x'
  | snd_silent size x' : able e x size ->
      silent RAMDISK_ANSWER (alloc_timeout x) (asked img (buffered size x)) -> sends e img x LBP_ALLOC_TIMEOUT x'
  | snd_error size k x' : able e x size -> answered RAMDISK_ANSWER (alloc_timeout x) (asked img (buffered size x)) k ->
      testflag (status_at k (asked img (buffered size x))) PLX_LBP_i7_ANY_ERROR = true ->
      sends e img x LBP_INTERNAL_ERROR x'
  | snd_refused size k x' : able e x size -> answered RAMDISK_ANSWER (alloc_timeout x) (asked img (buffered size x)) k ->
      testflag (status_at k (asked img (buffered size x))) PLX_LBP_i7_ANY_ERROR = false ->
      refused e img (told img (buffered size x) k) -> sends e img x LBP_INTERNAL_ERROR x'
  | snd_done size k x' : able e x size -> answered RAMDISK_ANSWER (alloc_timeout x) (asked img (buffered size x)) k ->
      testflag (status_at k (asked img (buffered size x))) PLX_LBP_i7_ANY_ERROR = false ->
      wrote (lg x') = wrote (lg x) ++ request img ->
      (ramdisk_at img (buffered size x) k + zlen img <= 2 ^ 64 ->
       forall a, peer_mem x' a = written (ramdisk_at img (buffered size x) k) img (peer_mem x) a) ->
      sends e img x LBP_STATE_OK x'.

(** The results of [plx_lbp_send_ramdisk]. *)
Definition ramdisk_post (e : renv) (img : list Z) x (r : Z) x' : Prop :=
  kept_log x x' /\ coherent (xd x') /\ sends e img x r x'.

Lemma card_result_ok err x :
  wp (card_result err) (fun r x' => (x' = x \/ exists idx, x' = (look idx x).2) /\
    (err < 0 /\ r = - err \/ 0 <= err /\ testflag err PLX_LBP_i7_ANY_ERROR = true /\ r = LBP_INTERNAL_ERROR
     \/ 0 <= err /\ testflag err PLX_LBP_i7_ANY_ERROR = false /\ r = LBP_STATE_OK)) x.
Proof.
  unfold card_result. destruct (err <? 0) eqn:E; bools; [apply wp_mret; auto|].
  destruct (testflag err _) eqn:Et; [apply wp_bind, wp_read, wp_mret; split; [right; by eexists|auto]|].
  apply wp_mret. split; auto.
Qed.

(** The part before the image is sent. *)
Lemma kept_log_refl x : 0 <= alloc_timeout x -> kept_log x x.
Proof. intros. repeat split; lia. Qed.

Lemma kept_log_step ws x y z : kept_log x y -> kept 0 ws y z -> kept_log x z.
Proof. intros (Hb & Hc & Hp & Ht) [_ Kc Kp _ (_ & _ & Kb) Kt _]. repeat split; (congruence || lia). Qed.

Lemma send_ramdisk_ok e img x :
  MmioStorage hw (window (xd x)) -> (forall h o, window (xd x) o -> peek (card_ms h).1 o = peek h o) ->
  outside (window (xd x)) (xd x) -> ALut.ready (xd x) -> 0 <= alloc_timeout x -> zlen img < 2 ^ 64 ->
  wp (plx_lbp_send_ramdisk e img) (ramdisk_post e img x) x.
Proof.
  intros Hst Hcard Hout Hr Ht Hlen. unfold plx_lbp_send_ramdisk. apply wp_bind, wp_gets.
  assert (forall y, same_lut x y -> kept_log x y -> sends e img x LBP_INTERNAL_ERROR y ->
    wp (card_result (- LBP_INTERNAL_ERROR)) (ramdisk_post e img x) y) as Hfail.
  { intros y Hy Hl Hs. apply wp_mret. split; [done|]. split; [|done]. apply (same_lut_ready x y Hr Hy). }
  assert (same_lut x x) as Hxx by (by split; [destruct x as [[]]|]).
  destruct (dma_ch (conf x)) eqn:Edma; cbn [negb]; [|by apply Hfail; [done|apply kept_log_refl|apply snd_unable; [intros ? (? & _); congruence|]]].
  apply wp_bind, wp_modify, wp_bind, wp_read. fold (enabled x). set (x1 := enabled x).
  assert (x1 = set_xd x (plx_a_lut_peer_enable (xd x))) as Ex1 by (unfold x1, enabled; by rewrite (proj1 Hr)).
  assert (same_lut x x1) as H1 by (rewrite Ex1; split; [apply only_mmio_write|apply keeps_write; [done|apply Hout]]).
  assert (kept_log x x1) as Hkx1 by (rewrite Ex1; unfold kept_log; exact (kept_log_refl x Ht)).
  set (x2 := (look _ x1).2). assert (same_lut x x2) as H2 by by apply same_lut_look.
  pose proof (look_kept PLX_LBP_SPAD_i7_READY x1 : kept 0 [] x1 x2) as Hk2.
  assert (kept_log x x2) as Hkx2 by (by eapply kept_log_step).
  assert (wrote (lg x2) = wrote (lg x)) as Hw2 by (rewrite (k_wrote _ _ _ _ Hk2), app_nil_r, Ex1; done).
  destruct (_ =? _) eqn:Erd; bools; cbn [negb]; [|apply Hfail; [done|done|apply snd_unable; [by intros ? (_ & ? & _)|done]]].
  destruct (alloc_buffer e) as [size|] eqn:Eb; [|apply Hfail; [done|done|apply snd_unable; [intros ? (_ & _ & ?); congruence|done]]].
  apply wp_bind, wp_modify, wp_bind. change (set_lg x2 _) with (buffered size x). set (x3 := buffered size x).
  assert (able e x size) as Hable by done.
  assert (0 < size <= HPAGE_SIZE) as Hsz by (unfold alloc_buffer in Eb; destruct (huge_ok e), (page_ok e); by simplify_eq).
  assert (alloc_timeout x3 = alloc_timeout x) as Ht3 by (unfold alloc_timeout; destruct Hkx2 as (_ & _ & Kp & _); cbn; by rewrite <- Kp).
  assert (conf x3 = conf x) as Hc3 by apply Hkx2. assert (buffers (lg x3) = size :: buffers (lg x)) as Hb3 by (destruct Hkx2 as [Kb _]; cbn; by rewrite <- Kb).
  assert (clock (lg x3) = clock (lg x)) as Hcl3 by (destruct Hk2 as [_ _ _ _ _ Kt _]; rewrite Ex1 in Kt; cbn in *; fold x1 x2; lia).
  assert (peer_mem x3 = peer_mem x) as Hm3 by (destruct Hk2 as [_ _ _ _ (Km & _) _ _]; rewrite Ex1 in Km; exact Km).
  assert (wrote (lg x3) = wrote (lg x)) as Hw3 by exact Hw2. assert (params (lbp x3) = params (lbp x)) as Hp3 by apply Hkx2.
  eapply wp_mono; [apply (send_image_ok x Hcard Hout e img size x3 Hr H2); [by rewrite Ht3|done|done]|].
  intros err x4 ((Hb4 & Hc4 & Hp4 & Hcl4) & [Hco4 Hw4] & Hres). rewrite Ht3 in Hres, Hcl4. apply wp_bind, wp_modify.
  set (x5 := set_lg x4 _). eapply wp_mono; [apply card_result_ok|]. intros r x6 (Hx6 & Hr6).
  assert (kept 0 [] x5 x6) as Hk6 by (destruct Hx6 as [-> |[idx ->]]; [apply kept_refl|apply look_kept]).
  split.
  { destruct Hk6 as [_ Lc Lp _ (_ & _ & Lb) Lt _]. cbn [lg set_lg buffers set_buffers clock x5 conf lbp] in *.
    rewrite Hb4, Hb3, release_head in Lb. repeat split; (congruence || lia). }
  split.
  { destruct Hx6 as [-> |[idx ->]]; [done|]. apply (coherent_keeps (xd x4)); [done|apply (look_kept idx x5)|].
    rewrite Hw4. apply (look_lut (window (xd x)) idx x5). }
  assert (wrote (lg x6) = wrote (lg x4) /\ peer_mem x6 = peer_mem x4) as [Hw6 Hm6].
  { destruct Hk6 as [_ _ _ _ (Lm & _ & _) _ Lw]. by rewrite app_nil_r in Lw. }
  destruct Hres as [[-> Hsil]|(k & Hans & [(H0 & He & He')|(He & [[-> Href]|(H0 & He' & Hw & Hmem)])])];
    destruct Hr6 as [[? ->]|[(? & He2 & ->)|(? & He2 & ->)]]; try (codes || congruence).
  - by eapply snd_silent.
  - by eapply snd_error.
  - by eapply snd_refused.
  - eapply snd_done; try done; [by rewrite Hw6, Hw, Hw3|]. intros H64 a. rewrite Hm6, (Hmem H64 a). apply written_ext. by rewrite Hm3.
Qed.

(** ** Booting and flashing *)

(** A command and its answer. *)
Lemma command_ok cmd answer timeout x : 0 <= timeout ->
  wp (command cmd answer timeout) (fun r x' => kept timeout [(PLX_LBP_SPAD_i7_CMD, u32 cmd)] x x'
    /\ (r = - LBP_CMD_TIMEOUT \/ 0 <= r < 2 ^ 24 /\ matches answer r = true)) x.
Proof.
  intros Ht. unfold command. apply wp_bind, wp_write, wp_bind. eapply wp_mono; [by apply wait_state_ok|].
  intros r x' (Hk & _ & Hr). apply wp_mret. split.
  - rewrite <- (app_nil_r [_]), <- (Z.add_0_l timeout). eapply kept_trans; [apply wrote_kept|exact Hk].
  - destruct Hr as [-> |[? ?]]; [by left|right]. if_false. done.
Qed.

(** The result of a command is the first answer of the node to it. *)
Definition BOOT_ANSWER := Z.lor (Z.lor PLX_LBP_i7_BOOTING PLX_LBP_i7_OS_READY) PLX_LBP_i7_ANY_ERROR.
Definition commanded (cmd : Z) x : lbp_dev := wrote_spad PLX_LBP_SPAD_i7_CMD cmd x.
Inductive obeys (cmd answer timeout : Z) x : Z -> Prop :=
  | ob_silent : silent answer timeout (commanded cmd x) -> obeys cmd answer timeout x LBP_CMD_TIMEOUT
  | ob_error k : answered answer timeout (commanded cmd x) k ->
      testflag (status_at k (commanded cmd x)) PLX_LBP_i7_ANY_ERROR = true -> obeys cmd answer timeout x LBP_INTERNAL_ERROR
  | ob_done k : answered answer timeout (commanded cmd x) k ->
      testflag (status_at k (commanded cmd x)) PLX_LBP_i7_ANY_ERROR = false -> obeys cmd answer timeout x LBP_STATE_OK.

Lemma command_result cmd answer timeout x : 0 <= timeout ->
  wp (err ← command cmd answer timeout; card_result err)
    (fun r x' => kept timeout [(PLX_LBP_SPAD_i7_CMD, u32 cmd)] x x' /\ obeys cmd answer timeout x r) x.
Proof.
  intros Ht. unfold command.
  assert (forall n y, Z.of_nat n <= timeout -> kept 0 [] (turns PLX_LBP_SPAD_i7_READY n (commanded cmd x)) y ->
    kept timeout [(PLX_LBP_SPAD_i7_CMD, u32 cmd)] x y) as Hk.
  { intros n y Hn Hy. eapply (kept_mono (0 + Z.of_nat n + 0)); [lia|]. rewrite <- (app_nil_r [_]), <- (app_nil_r [_]).
    eapply kept_trans; [|exact Hy]. eapply kept_trans; [apply wrote_kept|apply turns_kept]. }
  apply wp_bind, wp_bind, wp_write, wp_bind. fold (commanded cmd x).
  destruct (wait_state_answer answer timeout (commanded cmd x)) as [(k & Hans & Hrg & E)|(Hsil & E)];
    (eexists _, _; split; [exact E|]; apply wp_mret; eapply wp_mono; [apply card_result_ok|]); intros r x' (Hx' & Hr).
  - split; [apply (Hk (S k)); [destruct Hans; lia|]; destruct Hx' as [-> |[idx ->]]; [apply kept_refl|apply look_kept]|].
    assert ((status_at k (commanded cmd x) <? 0) = false) as Es by (apply Z.ltb_ge; lia). rewrite Es in Hr.
    destruct Hr as [[? _]|[(_ & He & ->)|(_ & He & ->)]]; [lia|by eapply ob_error|by eapply ob_done].
  - split; [apply (Hk (Z.to_nat timeout)); [lia|]; destruct Hx' as [-> |[idx ->]]; [apply kept_refl|apply look_kept]|].
    change (- ETIME <? 0) with true in Hr. cbv iota in Hr.
    destruct Hr as [[_ ->]|[(? & _)|(? & _)]]; [by apply ob_silent|codes|codes].
Qed.

(** C15. Booting a ramdisk returns, gives its buffer back, and takes no longer than the two
    timeouts.  When the image cannot be sent, nothing else is done and the result says
    why ([sends]): no channel, no buffer or a node that is not ready, no answer to the
    request in time, an answer with an error, or a copy that was refused.  Only when the
    whole image lies in the memory of the node, at the address that the node reported with
    its first answer, without an error, to the request, and nowhere else, is the command to boot
    written, as the only word after the request, with the memory as it is; the result is
    success exactly when the first answer to that command has no error, an internal error when
    it has one, and a timeout when there is none in time.  The node leaves the registers of
    the A-LUT alone; the place of the image is stated for one that ends below 2^64. *)
Theorem plx_lbp_boot_ramdisk_correct e img x :
  MmioStorage hw (window (xd x)) -> (forall h o, window (xd x) o -> peek (card_ms h).1 o = peek h o) ->
  outside (window (xd x)) (xd x) -> ALut.ready (xd x) -> 0 <= alloc_timeout x -> 0 <= cmd_timeout x -> zlen img < 2 ^ 64 ->
  let boot := plx_lbp_i7_cmd PLX_LBP_CMD_BOOT_RAMDISK 0 in
  exists r x', plx_lbp_boot_ramdisk e img x = Ret (r, x')
    /\ buffers (lg x') = buffers (lg x) /\ clock (lg x') <= clock (lg x) + alloc_timeout x + cmd_timeout x
    /\ exists r1 x1, plx_lbp_send_ramdisk e img x = Ret (r1, x1) /\ sends e img x r1 x1
       /\ (r1 <> LBP_STATE_OK -> r = r1 /\ x' = x1)
       /\ (r1 = LBP_STATE_OK -> obeys boot BOOT_ANSWER (cmd_timeout x) x1 r
             /\ wrote (lg x') = wrote (lg x1) ++ [(PLX_LBP_SPAD_i7_CMD, u32 boot)] /\ peer_mem x' = peer_mem x1).
Proof.
  intros Hst Hcard Hout Hr Ha Hc Hlen boot. unfold plx_lbp_boot_ramdisk.
  destruct (send_ramdisk_ok e img x Hst Hcard Hout Hr Ha Hlen) as (r1 & x1 & E & (Hb & Hcf & Hp & Hcl) & _ & Hres).
  rewrite (bind_ok _ _ _ _ _ E). destruct (Z.eqb_spec r1 LBP_STATE_OK) as [-> |Hne]; cbn [negb].
  2:{ exists r1, x1. split; [done|]. split; [done|]. split; [lia|]. by exists r1, x1. }
  rewrite bind_gets. assert (cmd_timeout x1 = cmd_timeout x) as -> by (unfold cmd_timeout; by rewrite Hp).
  destruct (command_result boot BOOT_ANSWER (cmd_timeout x) x1 Hc) as (r & x2 & E2 & Hk & Hob).
  exists r, x2. split; [exact E2|]. destruct Hk as [_ _ _ _ (Km & _ & Kb) Kt Kw]. split; [congruence|]. split; [lia|].
  exists LBP_STATE_OK, x1. split; [exact E|]. split; [done|]. by split.
Qed.

(** Booting from USB takes an error of the node for success. *)
Theorem plx_lbp_boot_from_usb_ignores_errors x k :
  let y := wrote_spad PLX_LBP_SPAD_i7_CMD (plx_lbp_i7_cmd PLX_LBP_CMD_BOOT_LOADER 0) x in
  Z.of_nat k < cmd_timeout x -> testflag (status_at k y) PLX_LBP_i7_ANY_ERROR = true ->
  exists x', plx_lbp_boot_from_usb x = Ret (LBP_STATE_OK, x').
Proof.
  intros y Hk He. unfold plx_lbp_boot_from_usb. rewrite bind_write, bind_gets. fold y.
  change (cmd_timeout y) with (cmd_timeout x).
  destruct (wait_state_spec (Z.lor PLX_LBP_i7_BOOTING PLX_LBP_i7_ANY_ERROR) (cmd_timeout x) y) as [(j & Hj & _ & _ & E)|(Hno & _)].
  - rewrite (bind_ok _ _ _ _ _ E). pose proof (ready_range (seen PLX_LBP_SPAD_i7_READY j y)) as Hr.
    eexists. cbn [mret M_ret]. unfold mret, M_ret. do 2 f_equal. unfold status_at. if_false. done.
  - exfalso. specialize (Hno k ltac:(lia)). unfold matches, testflag in *. cbn [Z.eqb] in Hno. bools. apply He.
    apply negb_false_iff, Z.eqb_eq in Hno. apply Z.bits_inj'. intros n Hn.
    pose proof (f_equal (fun z => Z.testbit z n) Hno) as Hb. cbn beta in Hb. rewrite !Z.land_spec, Z.lor_spec, Z.bits_0 in *.
    by destruct (Z.testbit (status_at k y) n), (Z.testbit PLX_LBP_i7_ANY_ERROR n), (Z.testbit PLX_LBP_i7_BOOTING n).
Qed.

(** ** The state of the node *)

(** The word of a state reads back as that state, except the one for powering down. *)
Lemma state_code_switch s c :
  state_code s = Some c ->
  0 <= c < 2 ^ 24 /\ switch c state_cases = if bool_decide (s = VCA_POWERING_DOWN) then VCA_ERROR else s.
Proof. destruct s; intros [= <-]; vm_compute; (split; [by split|done]). Qed.

Lemma pack_2 w1 v1 w2 v2 : 0 <= w1 -> 0 <= w2 ->
  field 0 w1 (pack [(w1, v1); (w2, v2)]) = wrap w1 v1 /\ field w1 w2 (pack [(w1, v1); (w2, v2)]) = wrap w2 v2.
Proof.
  intros H1 H2. pose proof (Z.pow_pos_nonneg 2 w1). pose proof (Z.pow_pos_nonneg 2 w2). unfold field, pack, wrap.
  rewrite Z.mul_0_r, Z.add_0_r, Z.pow_0_r, Z.div_1_r, (Z.mul_comm (2 ^ w1)). split.
  - rewrite Z.mod_add, Z.mod_mod by lia. done.
  - rewrite Z.div_add, Z.div_small, Z.add_0_l, Z.mod_mod by (done || lia || apply Z.mod_pos_bound; lia). done.
Qed.
Lemma set_ready_fields v r : 0 <= r < 2 ^ 24 ->
  ready (set_ready v r) = r /\ version (set_ready v r) = version v /\ fits 32 (set_ready v r).
Proof.
  intros Hr. unfold ready, version at 1, set_ready. destruct (pack_2 24 r 8 (version v) ltac:(lia) ltac:(lia)) as [H1 H2].
  rewrite H1, H2. split; [by apply wrap_small|]. split; [apply wrap_small, Z.mod_pos_bound; lia|].
  exact (pack_range [(24, r); (8, version v)] ltac:(by repeat constructor)).
Qed.

(** A scratchpad that stores reads back. *)
Lemma write_look idx v x :
  MmioStorage hw (fun o => o = spad (xd x) idx) -> fits 32 v -> (look idx (wrote_spad idx v x)).1 = v.
Proof.
  intros Hst H32. unfold look, plx_read_spad, plx_mmio_read.
  pose proof (@storage_write hw _ _ Hst (mmio (xd x)) v (spad (xd x) idx) eq_refl H32) as Hw. unfold peek in Hw.
  rewrite <- (wrap_small 32 v H32) in Hw at 1.
  change (mmio (xd (wrote_spad idx v x))) with (iowrite32 (mmio (xd x)) (wrap 32 v) (spad (xd x) idx)).
  change (reg_base (xd (wrote_spad idx v x)) + PLX_SPAD0 + idx * 4) with (spad (xd x) idx).
  destruct (ioread32 _ _). exact Hw.
Qed.

(** The host sets the state of a node.  While the node is not being reset, a state that
    has a word is written, the version of the protocol is kept, and the state reads
    back, except that powering down reads back as an error; the other states are
    refused and nothing is written. *)
Theorem plx_lbp_state_roundtrip x s :
  MmioStorage hw (fun o => o = spad (xd x) PLX_LBP_SPAD_i7_READY) -> production x = true -> lbp_resetting x = false ->
  exists r x1, plx_lbp_set_state s x = Ret (r, x1)
    /\ match state_code s with
       | None => r = LBP_BAD_PARAMETER_VALUE /\ wrote (lg x1) = wrote (lg x)
       | Some _ => r = LBP_STATE_OK
           /\ version (look PLX_LBP_SPAD_i7_READY x1).1 = version (look PLX_LBP_SPAD_i7_READY x).1
           /\ exists x2, plx_lbp_get_state x1 = Ret (if bool_decide (s = VCA_POWERING_DOWN) then VCA_ERROR else s, x2)
       end.
Proof.
  intros Hst Hp Hres. unfold plx_lbp_set_state. rewrite bind_gets, Hp. cbn [negb]. rewrite bind_gets, Hres.
  unfold plx_lbp_get_i7_status. rewrite bind_read. set (v := (look _ x).1). set (y := (look _ x).2).
  pose proof (look_kept PLX_LBP_SPAD_i7_READY x : kept 0 [] x y) as Hk.
  destruct (state_code s) as [c|] eqn:Es.
  2:{ eexists _, y. split; [done|]. split; [done|]. by rewrite (k_wrote _ _ _ _ Hk), app_nil_r. }
  destruct (state_code_switch s c Es) as [Hc Hsw]. destruct (set_ready_fields v c Hc) as (Hr & Hv & H32).
  unfold plx_lbp_set_i7_status. rewrite bind_write. set (x1 := wrote_spad _ _ y). exists LBP_STATE_OK, x1. split; [done|]. split; [done|].
  assert ((look PLX_LBP_SPAD_i7_READY x1).1 = set_ready v c) as Hlook by (apply write_look; [by rewrite (kept_spad _ _ _ _ _ Hk)|done]).
  rewrite Hlook. split; [exact Hv|]. unfold plx_lbp_get_state. rewrite bind_gets.
  assert (production x1 = true) as -> by (unfold production; cbn; by rewrite (k_conf _ _ _ _ Hk)). cbn [negb]. rewrite bind_gets.
  assert (lbp_resetting x1 = false) as -> by (cbn; by rewrite (k_resetting _ _ _ _ Hk)).
  unfold plx_lbp_get_i7_status. rewrite bind_read, Hlook, Hr, Hsw. by eexists.
Qed.

(** ** Timeouts, parameters and clock *)

Definition in_bounds (p : parameters) : Prop :=
  0 <= i7_irq_timeout_ms p <= 300000 /\ 0 <= i7_alloc_timeout_ms p <= 1000 /\ 0 <= i7_cmd_timeout_ms p <= 1000
  /\ 0 <= i7_mac_write_timeout_ms p <= 10000.
Definition get_param (p : vca_lbp_param) (q : parameters) : Z :=
  match p with
  | VCA_LBP_PARAM_i7_IRQ_TIMEOUT_MS => i7_irq_timeout_ms q
  | VCA_LBP_PARAM_i7_ALLOC_TIMEOUT_MS => i7_alloc_timeout_ms q
  | VCA_LBP_PARAM_i7_CMD_TIMEOUT_MS => i7_cmd_timeout_ms q
  | VCA_LBP_PARAM_i7_MAC_WRITE_TIMEOUT_MS => i7_mac_write_timeout_ms q
  | VCA_LBP_PARAM_SIZE => 0
  end.

(** The end of a setting: with [LBP_STATE_OK] the timeout has its value, and setting the
    timeout for commands also sets the one for writing MAC addresses. *)
Record set_param_post (param : vca_lbp_param) (val : Z) x (r : Z) x' : Prop := {
  sp_ok : r = LBP_STATE_OK <-> exists max, max_val param = Some max /\ val <= max;
  sp_refused : r <> LBP_STATE_OK -> x' = x;
  sp_set : r = LBP_STATE_OK -> get_param param (params (lbp x')) = val;
  sp_others : r = LBP_STATE_OK -> forall q, q <> param -> get_param q (params (lbp x'))
    = if bool_decide (param = VCA_LBP_PARAM_i7_CMD_TIMEOUT_MS /\ q = VCA_LBP_PARAM_i7_MAC_WRITE_TIMEOUT_MS)
      then val else get_param q (params (lbp x));
}.

Lemma set_param_ok param val x :
  in_bounds (params (lbp x)) -> fits 32 val ->
  wp (plx_lbp_set_param param val) (fun r x' => in_bounds (params (lbp x')) /\ set_param_post param val x r x') x.
Proof.
  intros Hb Hval. unfold fits in Hval. unfold plx_lbp_set_param. destruct (max_val param) as [max|] eqn:Em.
  2:{ apply wp_mret. split; [done|]. split; try done. split; [done|]. by intros (? & Hm & _); rewrite Em in Hm. }
  destruct ((val <? 0) || (max <? val)) eqn:Ev.
  { apply wp_mret. split; [done|]. split; try done. split; [done|]. intros (max' & Hm & Hle). rewrite Em in Hm. injection Hm as <-.
    apply orb_true_iff in Ev as [?|?]; bools; lia. }
  bools. apply wp_bind, wp_modify, wp_mret.
  split; [destruct param; cbn in Em; simplify_eq; destruct Hb as (? & ? & ? & ?); repeat split; cbn; lia|].
  split; [split; [by eauto|done]|done|by destruct param|]. intros _ q Hq. by destruct param, q.
Qed.

(** The timeouts stay in their ranges, so that a handshake never takes more than 610
    seconds.  A timeout that is set has its value; setting the timeout for commands
    also sets the one for writing MAC addresses, any other setting leaves the other
    timeouts alone, and a refused one leaves all of them. *)
Theorem plx_lbp_set_param_bounds param val x :
  in_bounds (params (lbp x)) -> fits 32 val ->
  exists r x', plx_lbp_set_param param val x = Ret (r, x') /\ in_bounds (params (lbp x')) /\ set_param_post param val x r x'
    /\ forall u sig, exists r2 x2, plx_lbp_handshake u sig x' = Ret (r2, x2) /\ clock (lg x2) <= clock (lg x') + 610000.
Proof.
  intros Hb Hval. destruct (set_param_ok param val x Hb Hval) as (r & x' & E & Hb' & Hp).
  exists r, x'. split; [done|]. split; [done|]. split; [done|]. intros u sig.
  destruct Hb' as (Hi & _ & Hc & _). destruct (handshake_ok u sig x' (proj1 Hi) (proj1 Hc)) as (r2 & x2 & E2 & [Ht _ _]).
  exists r2, x2. split; [done|]. unfold irq_timeout, cmd_timeout in Ht. lia.
Qed.

(** A field of a packed word. *)
Definition width (fs : list (Z * Z)) : Z := foldr (fun f n => f.1 + n) 0 fs.
Lemma field_pack pre w v post :
  Forall (fun f => 0 <= f.1) pre -> 0 <= w -> Forall (fun f => 0 <= f.1) post ->
  field (width pre) w (pack (pre ++ (w, v) :: post)) = wrap w v.
Proof.
  intros Hpre Hw Hpost. unfold field. induction Hpre as [|[w0 v0] pre Hw0 Hpre IH]; cbn [app pack].
  - change (width []) with 0. rewrite Z.pow_0_r, Z.div_1_r, (Z.mul_comm (2 ^ w)). pose proof (Z.pow_pos_nonneg 2 w).
    unfold wrap. rewrite Z.mod_add, Z.mod_mod by lia. done.
  - cbn in Hw0. assert (0 <= width pre) by (unfold width; clear IH; induction Hpre; cbn in *; lia). pose proof (Z.pow_pos_nonneg 2 w0).
    change (width ((w0, v0) :: pre)) with (w0 + width pre).
    rewrite Z.pow_add_r, <- Z.div_div by (done || lia). rewrite (Z.mul_comm (2 ^ w0)), Z.div_add by lia.
    rewrite (Z.div_small (wrap w0 v0)) by (by apply wrap_fits). exact IH.
Qed.
Lemma pack_halves T : fits 64 T -> pack [(32, u32 T); (32, u32 (Z.shiftr T 32))] = T.
Proof.
  intros HT. unfold fits in HT. cbn [pack]. rewrite Z.mul_0_r, Z.add_0_r, Z.shiftr_div_pow2 by lia.
  rewrite !(wrap_small 32) by apply (wrap_fits 32 _ ltac:(lia)). unfold u32, wrap.
  rewrite !(Z.mod_small (T / 2 ^ 32)) by (split; [apply Z.div_pos; lia|apply Z.div_lt_upper_bound; lia]).
  rewrite Z.add_comm. symmetry. apply Z.div_mod. lia.
Qed.

(** The fields of the time are in their ranges. *)
Definition tm_ok (t : timeinfo) : Prop :=
  0 <= 1900 + tm_year t < 8192 /\ 0 <= tm_mon t < 12 /\ 1 <= tm_mday t <= 31 /\ 0 <= tm_hour t < 24 /\ 0 <= tm_min t < 60
  /\ 0 <= tm_sec t <= 60 /\ 0 <= tm_msec t < 1000.

(** The two words that [plx_lbp_set_time] writes carry the time of the host: the node
    gets every field back. *)
Theorem plx_lbp_time_roundtrip t :
  tm_ok t ->
  let v := pack [(32, u32 (plx_lbp_time t)); (32, u32 (Z.shiftr (plx_lbp_time t) 32))] in
  field 0 13 v = 1900 + tm_year t /\ field 13 5 v = 1 + tm_mon t /\ field 18 6 v = tm_mday t /\ field 24 6 v = tm_hour t
  /\ field 30 7 v = tm_min t /\ field 37 7 v = tm_sec t /\ field 44 16 v = tm_msec t.
Proof.
  intros (H1 & H2 & H3 & H4 & H5 & H6 & H7) v. unfold v. rewrite pack_halves.
  2:{ exact (pack_range (time_fields t) ltac:(by repeat constructor)). }
  set (y := (13, 1900 + tm_year t)). set (m := (5, 1 + tm_mon t)). set (d := (6, tm_mday t)). set (h := (6, tm_hour t)).
  set (mi := (7, tm_min t)). set (se := (7, tm_sec t)). set (ms := (16, tm_msec t)). set (un := (4, time_unset t)).
  assert (forall w v', fits w v' -> wrap w v' = v') as Hs by (intros; by apply wrap_small). unfold fits in Hs.
  split; [rewrite <- (Hs 13 (1900 + tm_year t)) by lia; exact (field_pack [] 13 _ [m; d; h; mi; se; ms; un] ltac:(by repeat constructor) ltac:(lia) ltac:(by repeat constructor))|].
  split; [rewrite <- (Hs 5 (1 + tm_mon t)) by lia; exact (field_pack [y] 5 _ [d; h; mi; se; ms; un] ltac:(by repeat constructor) ltac:(lia) ltac:(by repeat constructor))|].
  split; [rewrite <- (Hs 6 (tm_mday t)) by lia; exact (field_pack [y; m] 6 _ [h; mi; se; ms; un] ltac:(by repeat constructor) ltac:(lia) ltac:(by repeat constructor))|].
  split; [rewrite <- (Hs 6 (tm_hour t)) by lia; exact (field_pack [y; m; d] 6 _ [mi; se; ms; un] ltac:(by repeat constructor) ltac:(lia) ltac:(by repeat constructor))|].
  split; [rewrite <- (Hs 7 (tm_min t)) by lia; exact (field_pack [y; m; d; h] 7 _ [se; ms; un] ltac:(by repeat constructor) ltac:(lia) ltac:(by repeat constructor))|].
  split; [rewrite <- (Hs 7 (tm_sec t)) by lia; exact (field_pack [y; m; d; h; mi] 7 _ [ms; un] ltac:(by repeat constructor) ltac:(lia) ltac:(by repeat constructor))|].
  rewrite <- (Hs 16 (tm_msec t)) by lia. exact (field_pack [y; m; d; h; mi; se] 16 _ [un] ltac:(by repeat constructor) ltac:(lia) ltac:(by repeat constructor)).
Qed.

(** The cache. *)
Lemma from_cache_ok param dest x :
  wp (plx_lbp_copy_bios_info_from_cache param dest) (fun r x' => x' = x /\ (r.1 = 0 \/ r.1 = LBP_BIOS_INFO_CACHE_EMPTY)) x.
Proof.
  unfold plx_lbp_copy_bios_info_from_cache. apply wp_bind, wp_gets. destruct param; try (apply wp_mret; auto); destruct (negb _); apply wp_mret; auto.
Qed.

Lemma get_cached_ok i7_ready ver param value x : 0 <= cmd_timeout x -> param <> PLX_LBP_PARAM_INVALID ->
  wp (get_cached_param i7_ready ver param value) (fun r x' => talks (2 * cmd_timeout x) x x' /\ 0 <= r.1.1 <= LBP_BIOS_INFO_CACHE_EMPTY
    /\ (r.2 = false -> r.1.1 <= LBP_PROTOCOL_VERSION_MISMATCH)) x.
Proof.
  intros Ht Hp. unfold get_cached_param.
  assert (forall y, talks 0 x y -> talks (2 * cmd_timeout x) x y) as Hm by (intros; eapply talks_mono; [|done]; lia).
  assert (forall y, talks 0 x y -> wp (r ← plx_lbp_copy_bios_info_from_cache param value; mret (r, true))
    (fun r x' => talks (2 * cmd_timeout x) x x' /\ 0 <= r.1.1 <= LBP_BIOS_INFO_CACHE_EMPTY
    /\ (r.2 = false -> r.1.1 <= LBP_PROTOCOL_VERSION_MISMATCH)) y) as Hcache.
  { intros y Hy. apply wp_bind. eapply wp_mono; [apply from_cache_ok|]. intros [r v] x' [-> Hr]. apply wp_mret.
    split; [by apply Hm|]. split; [codes|done]. }
  destruct (negb _).
  { destruct (_ && _); [apply Hcache; eauto with talk|]. apply wp_mret. split; [apply Hm; eauto with talk|]. split; codes. }
  apply wp_bind, wp_read. destruct (negb _ && negb _); [apply Hcache; eauto with talk|].
  set (y := (look _ x).2). assert (talks 0 x y) as Hy by (unfold y; eauto with talk).
  apply wp_bind. eapply wp_mono; [apply copy_info_ok; by rewrite (talks_cmd_timeout _ _ _ Hy)|].
  intros [r v] x' (Hk & Hr). apply wp_mret. rewrite (talks_cmd_timeout _ _ _ Hy) in Hk. rewrite <- (Z.add_0_l (2 * _)).
  split; [by eapply talks_trans|]. destruct Hr as [Hr|[_ Hr]]; [|done]. split; codes.
Qed.

(** Reading a parameter of the BIOS returns, writes commands and data only, and its
    result is one of the codes; an error word that the node has left is never looked at
    nor cleared, since the code tests its own result for the error states of the node. *)
Theorem plx_lbp_get_bios_param_keeps_error param value x :
  0 <= cmd_timeout x ->
  exists r x', plx_lbp_get_bios_param param value x = Ret (r, x') /\ 0 <= r.1 <= LBP_BIOS_INFO_CACHE_EMPTY
    /\ talks (2 * cmd_timeout x) x x'.
Proof.
  intros Ht. enough (wp (plx_lbp_get_bios_param param value) (fun r x' => 0 <= r.1 <= LBP_BIOS_INFO_CACHE_EMPTY
    /\ talks (2 * cmd_timeout x) x x') x) as H by exact H.
  unfold plx_lbp_get_bios_param. apply wp_bind, wp_read. set (v := (look _ x).1). set (y := (look _ x).2).
  assert (talks 0 x y) as Hy by (unfold y; eauto with talk). pose proof (talks_cmd_timeout _ _ _ Hy) as Hty.
  assert (forall n z, n <= 2 * cmd_timeout y -> talks n y z -> talks (2 * cmd_timeout x) x z) as Hm.
  { intros n z Hn Hz. eapply talks_mono; [|eapply talks_trans; [exact Hy|exact Hz]]. lia. }
  apply wp_bind. eapply (wp_mono _ (fun r x' => talks (2 * cmd_timeout x) x x' /\ (r.2 = true -> 0 <= r.1.1 <= LBP_BIOS_INFO_CACHE_EMPTY)
    /\ (r.2 = false -> - LBP_UNKNOWN_PARAMETER <= r.1.1 <= LBP_PROTOCOL_VERSION_MISMATCH))).
  - destruct param; try (eapply wp_mono; [apply get_cached_ok; [lia|done]|]; intros [[r w] b] x' (Hk & Hr & Hf); cbn [fst snd] in *;
      (split; [by eapply Hm|]); (split; [done|]); intros Hb; specialize (Hf Hb); codes).
    + apply wp_mret. split; [eapply Hm, talks_refl; lia|]. split; [done|]. cbn [fst snd]. codes.
    + destruct (negb _); [apply wp_mret; split; [eapply Hm, talks_refl; lia|]; split; [done|]; cbn [fst snd]; codes|].
      apply wp_bind. eapply wp_mono; [apply copy_info_ok; lia|]. intros [r w] x' (Hk & Hr). apply wp_mret.
      split; [by eapply Hm|]. split; [done|]. intros _. codes.
  - intros [[err w] b] x' (Hk & Ht1 & Hf). cbn [fst snd] in *. destruct b; [apply wp_mret; auto|]. specialize (Hf eq_refl).
    destruct (err <? 0) eqn:E; bools; [apply wp_mret; split; [codes|done]|].
    assert (testflag err PLX_LBP_i7_ANY_ERROR = false) as ->.
    { assert (err = 0 \/ err = 1 \/ err = 2 \/ err = 3 \/ err = 4 \/ err = 5 \/ err = 6 \/ err = 7 \/ err = 8) as Herr by codes.
      by destruct Herr as [-> |[-> |[-> |[-> |[-> |[-> |[-> |[-> | ->]]]]]]]]. }
    apply wp_mret. split; [codes|done].
Qed.

(** ** Booting from the block device *)

(** Booting from the block device returns within the command timeout.  On success the
    address of the device page is the one the node has reported; otherwise it is kept.
    A node that is not ready is reported by the negative of an error code, unlike
    everywhere else. *)
Theorem plx_lbp_boot_blkdisk_correct x :
  0 <= cmd_timeout x ->
  exists r x', plx_lbp_boot_blkdisk x = Ret (r, x') /\ clock (lg x') <= clock (lg x) + cmd_timeout x
    /\ (r = - LBP_INTERNAL_ERROR /\ wrote (lg x') = wrote (lg x) /\ blockio_dp x' = blockio_dp x
        \/ (r = LBP_CMD_TIMEOUT \/ r = LBP_INTERNAL_ERROR) /\ blockio_dp x' = blockio_dp x
        \/ r = LBP_STATE_OK /\ wrote (lg x') = wrote (lg x) ++ [(PLX_LBP_SPAD_i7_CMD, u32 (plx_lbp_i7_cmd PLX_LBP_CMD_BOOT_BLOCK_IO 0))]
           /\ exists y, only_mmio (xd x) (xd y) /\ blockio_dp x' = reported y).
Proof.
  intros Ht. unfold plx_lbp_boot_blkdisk, peer_enable, plx_lbp_get_i7_status. rewrite bind_modify, bind_read.
  set (x1 := if a_lut (xd x) then _ else x). set (x2 := (look _ x1).2).
  assert (kept 0 [] x x1) as H1.
  { unfold x1. destruct (a_lut (xd x)); [|apply kept_refl]. destruct (kept_refl x). by split. }
  pose proof (kept_trans _ _ _ _ _ _ _ H1 (look_kept PLX_LBP_SPAD_i7_READY x1) : kept 0 [] x x2) as H2.
  destruct (negb _).
  { exists (- LBP_INTERNAL_ERROR), x2. split; [done|]. destruct H2 as [_ _ _ _ (_ & Kd & _) Kt Kw].
    split; [lia|]. left. split; [done|]. split; [by rewrite Kw, app_nil_r|done]. }
  rewrite bind_gets. assert (cmd_timeout x2 = cmd_timeout x) as -> by (unfold cmd_timeout; by rewrite (k_params _ _ _ _ H2)).
  destruct (command_ok (plx_lbp_i7_cmd PLX_LBP_CMD_BOOT_BLOCK_IO 0)
    (Z.lor (Z.lor PLX_LBP_i7_BOOTING_BLOCK_IO PLX_LBP_i7_OS_READY) PLX_LBP_i7_ANY_ERROR) (cmd_timeout x) x2 Ht) as (err & x3 & E3 & H3 & Herr).
  rewrite (bind_ok _ _ _ _ _ E3). destruct (card_result_ok err x3) as (r & x4 & E4 & Hx4 & Hr). rewrite (bind_ok _ _ _ _ _ E4).
  assert (kept 0 [] x3 x4) as H4 by (destruct Hx4 as [-> |[idx ->]]; [apply kept_refl|apply look_kept]).
  pose proof (kept_trans _ _ _ _ _ _ _ H2 (kept_trans _ _ _ _ _ _ _ H3 H4)) as Hall.
  destruct (Z.eqb_spec r LBP_STATE_OK) as [-> |Hne]; cbn [negb].
  2:{ exists r, x4. split; [done|]. destruct Hall as [_ _ _ _ (_ & Kd & _) Kt _]. split; [lia|]. right. left. split; [|done].
      destruct Hr as [[Hneg ->]|[(_ & _ & ->)|(_ & _ & ->)]]; [destruct Herr; [subst; auto|lia]|auto|done]. }
  unfold plx_lbp_blkio_set_devpage. rewrite bind_assoc, bind_read, bind_assoc, bind_read, bind_assoc, bind_modify, bind_modify.
  fold (reported x4). eexists LBP_STATE_OK, _. split; [done|].
  set (x5 := (look _ (look _ x4).2).2).
  assert (kept 0 [] x4 x5) as H5 by (exact (kept_trans 0 0 [] [] _ _ _ (look_kept _ _) (look_kept _ _))).
  destruct (kept_trans _ _ _ _ _ _ _ Hall H5) as [Kx _ _ _ (_ & Kd & _) Kt Kw]. cbn [lg set_xd set_dp blockio_dp].
  split; [lia|]. right. right. split; [done|]. split; [by rewrite Kw, !app_nil_r|]. exists x4. split; [by apply Hall|done].
Qed.

(** ** Reset *)

Lemma put_get (cs : contexts) i j row v w :
  0 <= i -> 0 <= j -> cs !! Z.to_nat i = Some row -> row !! Z.to_nat j = Some v ->
  get_context cs i j = Ret v /\ put_context cs i j w = Ret (<[Z.to_nat i := <[Z.to_nat j := w]> row]> cs).
Proof.
  intros Hi Hj Hc Hr. unfold get_context, put_context. rewrite (aget_ret cs i row Hi Hc). run_bind. rewrite (aget_ret row j v Hj Hr).
  split; [done|]. apply lookup_lt_Some in Hc, Hr. rewrite aset_ret by (unfold zlen; lia). run_bind. rewrite aset_ret by (unfold zlen; lia). done.
Qed.

(** Resetting a node: between start and stop its state reads as resetting and cannot be
    set; afterwards it is down.  No other node is touched.  Without a registered device
    the start dereferences [NULL], while the stop does nothing. *)
Theorem plx_lbp_reset_cycle (cs : contexts) i j row c s :
  0 <= i < MAX_VCA_CARDS -> 0 <= j < MAX_VCA_CARD_CPUS -> cs !! Z.to_nat i = Some row -> row !! Z.to_nat j = Some c ->
  match c with
  | None => plx_lbp_reset_start cs i j = Oob /\ plx_lbp_reset_stop cs i j = Ret cs
  | Some x => MmioStorage hw (fun o => o = spad (xd x) PLX_LBP_SPAD_i7_READY) -> production x = true ->
      exists x1 x2, plx_lbp_reset_start cs i j = Ret (<[Z.to_nat i := <[Z.to_nat j := Some x1]> row]> cs)
        /\ plx_lbp_get_state x1 = Ret (VCA_RESETTING, x1) /\ plx_lbp_set_state s x1 = Ret (LBP_INTERNAL_ERROR, x1)
        /\ plx_lbp_reset_stop (<[Z.to_nat i := <[Z.to_nat j := Some x1]> row]> cs) i j
           = Ret (<[Z.to_nat i := <[Z.to_nat j := Some x2]> row]> cs)
        /\ exists x3, plx_lbp_get_state x2 = Ret (VCA_BIOS_DOWN, x3)
  end.
Proof.
  intros Hi Hj Hc Hr. assert (in_range i j = true) as Hin by (unfold in_range; apply andb_true_iff; split; apply Z.ltb_lt; lia).
  unfold plx_lbp_reset_start, plx_lbp_reset_stop. rewrite Hin.
  pose proof (fun v => put_get cs i j row c v ltac:(lia) ltac:(lia) Hc Hr) as Hcs. destruct (Hcs None) as [Hg _]. rewrite Hg.
  destruct c as [x|]; [|done]. intros Hst Hp. run_bind.
  set (x1 := set_resetting x true). destruct (Hcs (Some x1)) as [_ ->]. set (row1 := <[Z.to_nat j := Some x1]> row).
  set (x2 := set_resetting (wrote_spad PLX_LBP_SPAD_i7_READY PLX_LBP_i7_DOWN x1) false). exists x1, x2. fold row1. split; [done|].
  assert (plx_lbp_get_state x1 = Ret (VCA_RESETTING, x1)) as -> by (unfold plx_lbp_get_state; by rewrite bind_gets, (Hp : production x1 = true)).
  split; [done|]. split; [unfold plx_lbp_set_state; by rewrite bind_gets, (Hp : production x1 = true)|].
  destruct (put_get (<[Z.to_nat i := row1]> cs) i j row1 (Some x1) (Some x2)) as [-> Hput]; [lia|lia|..].
  { apply list_lookup_insert_eq. by eapply lookup_lt_Some. }
  { apply list_lookup_insert_eq. by eapply lookup_lt_Some. }
  split; [run_bind; change (put_context (<[Z.to_nat i:=row1]> cs) i j (Some x2) = Ret (<[Z.to_nat i := <[Z.to_nat j := Some x2]> row]> cs)); rewrite Hput; f_equal; etrans; [apply list_insert_insert_eq|]; unfold row1; f_equal; apply list_insert_insert_eq|].
  unfold plx_lbp_get_state. rewrite bind_gets, (Hp : production x2 = true). cbn [negb]. rewrite bind_gets. unfold plx_lbp_get_i7_status.
  change (lbp_resetting x2) with false. cbv iota. rewrite bind_read. replace (look PLX_LBP_SPAD_i7_READY x2).1 with 0
    by (rewrite look_value; change (xd x2) with (xd (wrote_spad PLX_LBP_SPAD_i7_READY 0 x1)); rewrite <- look_value; symmetry; by apply write_look).
  by eexists.
Qed.
End Lbp.

(** ** Witnesses: a node that follows the protocol, version 1.2, behind plain registers *)

Definition demo_spad (i : Z) : Z := 0x3e000 + PLX_SPAD0 + i * 4.
Definition demo_state (h : regfile) (r : Z) : regfile :=
  iowrite32 (iowrite32 h (pack [(24, r); (8, PLX_LBP_PROTOCOL_VERSION_1_2)]) (demo_spad PLX_LBP_SPAD_i7_READY)) 0 (demo_spad PLX_LBP_SPAD_i7_CMD).
Definition demo_data (h : regfile) (v : Z) : regfile :=
  iowrite32 (iowrite32 h v (demo_spad PLX_LBP_SPAD_DATA_LOW)) 0 (demo_spad PLX_LBP_SPAD_DATA_HIGH).
#[local] Instance demo_card : Card regfile := fun h =>
  let e5 := field 0 8 (h (demo_spad PLX_LBP_SPAD_E5_READY)) in
  let r := ready (h (demo_spad PLX_LBP_SPAD_i7_READY)) in
  let cmd := cmd_of (h (demo_spad PLX_LBP_SPAD_i7_CMD)) in
  if (e5 =? PLX_LBP_E5_WAITING_FOR_IRQ) && (r =? PLX_LBP_i7_DOWN) then (demo_data (demo_state h PLX_LBP_i7_UP) 8192, true)
  else if (e5 =? PLX_LBP_E5_READY) && (r =? PLX_LBP_i7_UP) then (demo_state h PLX_LBP_i7_READY, false)
  else if cmd =? PLX_LBP_CMD_MAP_RAMDISK then (demo_data (demo_state h PLX_LBP_i7_DONE) 12300, false)
  else if cmd =? PLX_LBP_CMD_BOOT_RAMDISK then (demo_state h PLX_LBP_i7_BOOTING, false)
  else if cmd =? PLX_LBP_CMD_BOOT_BLOCK_IO then (demo_data (demo_state h PLX_LBP_i7_BOOTING_BLOCK_IO) 4096, false)
  else if cmd =? PLX_LBP_CMD_BOOT_LOADER then (demo_state h PLX_LBP_i7_UEFI_ERROR, false)
  else if cmd =? PLX_LBP_CMD_GET_PARAM then (demo_data (demo_state h r) 77, false)
  else if cmd =? PLX_LBP_CMD_INVALID then (h, false)
  else (demo_state h r, false).
Definition demo_now : Z -> timeinfo := fun ms => mkTime 124 1 29 12 30 15 (ms mod 1000) 60 0.
Definition demo_unset : unset := mkUnset 7 8 9 10.
Definition demo_conf : config := mkConfig VCA_PRODUCTION 24 (Some 1) true 0x100000 2.
Definition demo_params : parameters := mkParams 5 5 5 5.
Definition demo_lbp (r : Z) : lbp_dev regfile :=
  mkLbp (set_mmio demo_dev (demo_state demo_regs r)) demo_conf (mkPlxLbp None false 0 demo_params) false
    (mkInfo 0 0 0 0 0) 0 (fun _ => 0) (mkLog 0 [] 0 [] []).
Definition demo_env : renv := mkRenv true true (fun _ => true) (fun _ => true) (fun _ => true) (fun _ => 0) (fun _ => 0%nat).

Lemma regfile_pure (h : regfile) o : (ioread32 h o).2 = h.
Proof. done. Qed.
Lemma demo_window o : window demo_dev o -> o < 0x3e000.
Proof.
  intros (seg & sub & Hseg & Hsub & ->). cbn in Hseg. unfold plx_get_a_lut_entry_offset, PLX_A_LUT_LOWER_RE_MAP_SUBARRAY_OFFSET,
    PLX_A_LUT_HIGHER_RE_MAP_SUBARRAY_OFFSET, PLX_A_LUT_PERMISSION_SUBARRAY_OFFSET, PLX_A_LUT_MAX_ARRAY, PLX_A_LUT_ARRAY_OFFSET in *. cbn [a_lut_array_base demo_dev].
  pose proof (Z.mod_pos_bound seg 128). destruct (_ <=? seg); lia.
Qed.
Lemma demo_write_keeps (h : regfile) v i o : window demo_dev o -> 2 <= i <= 7 -> peek (iowrite32 h v (demo_spad i)) o = peek h o.
Proof.
  intros Ho Hi. apply demo_window in Ho. unfold peek. cbn. rewrite (proj2 (Z.eqb_neq o (demo_spad i))); [done|].
  unfold demo_spad, PLX_SPAD0. lia.
Qed.
Lemma demo_keeps h o : window demo_dev o -> peek (card_ms h).1 o = peek h o.
Proof.
  intros Ho. assert (forall h r, peek (demo_state h r) o = peek h o) as Hs by (intros; unfold demo_state; by rewrite !demo_write_keeps).
  assert (forall h v, peek (demo_data h v) o = peek h o) as Hd by (intros; unfold demo_data; by rewrite !demo_write_keeps).
  unfold card_ms, demo_card. repeat (match goal with |- context [if ?b then _ else _] => destruct b end; [cbn [fst]; by rewrite ?Hd, ?Hs|]).
  cbn [fst]. by rewrite Hs.
Qed.
Lemma demo_outside r : outside (window demo_dev) (xd (demo_lbp r)).
Proof. split; [intros i Hi Ho|intros Ho]; apply demo_window in Ho; unfold spad, PLX_SPAD0, PLX_A_LUT_CONTROL in Ho; cbn -[Z.mul Z.add] in Ho; lia. Qed.
Lemma demo_lbp_ready r : ALut.ready (xd (demo_lbp r)).
Proof.
  apply (ready_keeps demo_dev); [apply demo_ready|done|]. intros o Ho. cbn [xd demo_lbp set_mmio mmio].
  unfold demo_state. by rewrite !demo_write_keeps.
Qed.

Lemma plx_lbp_handshake_safe_witness :
  exists r x', plx_lbp_handshake demo_now demo_unset false (demo_lbp PLX_LBP_i7_DOWN) = Ret (r, x')
    /\ handshake_post demo_unset false (demo_lbp PLX_LBP_i7_DOWN) r x'.
Proof. apply plx_lbp_handshake_safe; vm_compute; done. Defined.

Lemma plx_lbp_wait_for_i7_state_correct_witness :
  exists r x', plx_lbp_wait_for_i7_state PLX_LBP_i7_READY 5 (demo_lbp PLX_LBP_i7_UP) = Ret (r, x') /\ kept 5 [] (demo_lbp PLX_LBP_i7_UP) x'.
Proof.
  destruct (plx_lbp_wait_for_i7_state_correct PLX_LBP_i7_READY 5 (demo_lbp PLX_LBP_i7_UP)) as (r & x' & E & Hk & _); [lia|]. eauto.
Defined.

Lemma plx_lbp_handshake_completes_witness :
  exists x' ws, plx_lbp_handshake demo_now demo_unset false (demo_lbp PLX_LBP_i7_DOWN) = Ret (LBP_STATE_OK, x')
    /\ wrote (lg x') = announcement demo_unset 1 ++ introduction 1 (demo_lbp PLX_LBP_i7_DOWN) ++ ws.
Proof.
  destruct (plx_lbp_handshake_completes demo_now regfile_pure demo_unset 1 (demo_lbp PLX_LBP_i7_DOWN) 0 0) as (x' & ws & E & _ & Hw).
  - vm_compute. done.
  - reflexivity.
  - split; [vm_compute; done|]. split; [intros j Hj; lia|]. split; [vm_compute; reflexivity|]. split; vm_compute; reflexivity.
  - exists x', ws. split; [exact E|exact Hw].
Defined.

Lemma plx_lbp_boot_ramdisk_correct_witness :
  exists r x', plx_lbp_boot_ramdisk demo_env [1; 2; 3] (demo_lbp PLX_LBP_i7_READY) = Ret (r, x')
    /\ r = LBP_STATE_OK /\ buffers (lg x') = [] /\ map (peer_mem x') [12299; 12300; 12301; 12302; 12303] = [0; 1; 2; 3; 0].
Proof.
  destruct (plx_lbp_boot_ramdisk_correct demo_env [1; 2; 3] (demo_lbp PLX_LBP_i7_READY)) as (r & x' & E & Hb & _).
  - apply regfile_storage.
  - apply demo_keeps.
  - apply (demo_outside PLX_LBP_i7_READY).
  - apply demo_lbp_ready.
  - vm_compute. done.
  - vm_compute. done.
  - vm_compute. done.
  - exists r, x'. split; [exact E|].
    assert (match plx_lbp_boot_ramdisk demo_env [1; 2; 3] (demo_lbp PLX_LBP_i7_READY) with
            | Ret (r, x') => r = LBP_STATE_OK /\ map (peer_mem x') [12299; 12300; 12301; 12302; 12303] = [0; 1; 2; 3; 0]
            | _ => False end) as H by (vm_compute; auto).
    rewrite E in H. destruct H as [-> H]. auto.
Defined.

Lemma plx_lbp_boot_from_usb_ignores_errors_witness :
  exists x', plx_lbp_boot_from_usb (demo_lbp PLX_LBP_i7_READY) = Ret (LBP_STATE_OK, x').
Proof. apply (plx_lbp_boot_from_usb_ignores_errors (demo_lbp PLX_LBP_i7_READY) 0); vm_compute; reflexivity. Defined.

Lemma plx_lbp_state_roundtrip_witness :
  exists r x1 x2, plx_lbp_set_state VCA_DHCP_DONE (demo_lbp PLX_LBP_i7_READY) = Ret (r, x1) /\ r = LBP_STATE_OK
    /\ plx_lbp_get_state x1 = Ret (VCA_DHCP_DONE, x2).
Proof.
  destruct (plx_lbp_state_roundtrip (demo_lbp PLX_LBP_i7_READY) VCA_DHCP_DONE) as (r & x1 & E & Hr & _ & x2 & E2).
  - apply regfile_storage.
  - reflexivity.
  - reflexivity.
  - exists r, x1, x2. auto.
Defined.

Lemma plx_lbp_set_param_bounds_witness :
  exists r x', plx_lbp_set_param VCA_LBP_PARAM_i7_CMD_TIMEOUT_MS 700 (demo_lbp PLX_LBP_i7_READY) = Ret (r, x')
    /\ set_param_post VCA_LBP_PARAM_i7_CMD_TIMEOUT_MS 700 (demo_lbp PLX_LBP_i7_READY) r x'.
Proof.
  destruct (plx_lbp_set_param_bounds demo_now VCA_LBP_PARAM_i7_CMD_TIMEOUT_MS 700 (demo_lbp PLX_LBP_i7_READY)) as (r & x' & E & _ & Hp & _).
  - vm_compute. repeat split; done.
  - vm_compute. done.
  - eauto.
Defined.

Lemma plx_lbp_time_roundtrip_witness :
  field 0 13 (pack [(32, u32 (plx_lbp_time (demo_now 7))); (32, u32 (Z.shiftr (plx_lbp_time (demo_now 7)) 32))]) = 2024.
Proof. apply (plx_lbp_time_roundtrip (demo_now 7)). vm_compute. repeat split; done. Defined.

Lemma plx_lbp_get_bios_param_keeps_error_witness :
  exists r x', plx_lbp_get_bios_param demo_now PLX_LBP_PARAM_SGX 0 (demo_lbp PLX_LBP_i7_READY) = Ret (r, x').
Proof.
  destruct (plx_lbp_get_bios_param_keeps_error demo_now PLX_LBP_PARAM_SGX 0 (demo_lbp PLX_LBP_i7_READY)) as (r & x' & E & _);
    [vm_compute; done|eauto].
Defined.

Lemma plx_lbp_boot_blkdisk_correct_witness :
  exists r x', plx_lbp_boot_blkdisk (demo_lbp PLX_LBP_i7_READY) = Ret (r, x') /\ r = LBP_STATE_OK /\ blockio_dp x' = 4096.
Proof.
  destruct (plx_lbp_boot_blkdisk_correct (demo_lbp PLX_LBP_i7_READY)) as (r & x' & E & _); [vm_compute; done|].
  exists r, x'. split; [exact E|].
  assert (match plx_lbp_boot_blkdisk (demo_lbp PLX_LBP_i7_READY) with
          | Ret (r, x') => r = LBP_STATE_OK /\ blockio_dp x' = 4096 | _ => False end) as H by (vm_compute; auto).
  by rewrite E in H.
Defined.

Lemma plx_lbp_reset_cycle_witness :
  let cs := [[None; Some (demo_lbp PLX_LBP_i7_READY)]] in
  plx_lbp_reset_start cs 0 0 = Oob
  /\ exists x2, (cs ← plx_lbp_reset_start cs 0 1; plx_lbp_reset_stop cs 0 1) = Ret [[None; Some x2]].
Proof.
  split.
  - apply (plx_lbp_reset_cycle [[None; Some (demo_lbp PLX_LBP_i7_READY)]] 0 0 [None; Some (demo_lbp PLX_LBP_i7_READY)] None VCA_DONE);
      [done|done|reflexivity|reflexivity].
  - destruct (plx_lbp_reset_cycle [[None; Some (demo_lbp PLX_LBP_i7_READY)]] 0 1 [None; Some (demo_lbp PLX_LBP_i7_READY)]
      (Some (demo_lbp PLX_LBP_i7_READY)) VCA_DONE) as (x1 & x2 & E & _ & _ & E2 & _);
      [done|done|reflexivity|reflexivity|apply regfile_storage|reflexivity|].
    exists x2. rewrite E. exact E2.
Defined.


End Lbp.
