(* ===== verification/VopXfer.v ===== *)
(** * The network transport: sending

    [src/modules/vca/vop/vop_common.c]: one thread takes the buffers of the local
    transmit queue ([Vringh]), finds for each a buffer that the peer offers
    ([KvecBuff]), maps it, and lets the DMA engine copy the data; the callback of the
    engine reports the peer's buffer as used and returns the local one.  Items of a ring
    keep track of the transfers.  When both sides agree, the copy goes directly from
    the local buffer and the peer is told at which offset the data starts;
    otherwise it goes through an intermediate buffer, in a second thread.

    A window is known by its address in the aperture and the bus address it reaches
    (this is what the theorems of [ALut] show).  The engine finishes its copies in the
    order they were submitted ([PlxDma]).  [now] counts the points at which something
    outside the driver decides; [wait] gives the state in which a wait ends. *)

From S2P Require Import Prelude VirtioRing Vringh KvecBuff.
From stdpp Require Import base list numbers option tactics.
From Stdlib Require Import ZArith Lia.
#[local] Open Scope Z_scope.

Module VopXfer.
Import Vringh.
Import KvecBuff.

(** ** Constants *)

Definition VOP_RING_SIZE := 512.
Definition VOP_RING_SIZE_MASK := VOP_RING_SIZE - 1.
Definition VOP_INT_DMA_BUF_SIZE := 65536.
Definition PLX_DMA_ALIGN_BYTES := 64.
Definition DMA_MAX_OFFSET := 127.
Definition SEND_ALIGN_OVERHEAD_SIZE := DMA_MAX_OFFSET + PLX_DMA_ALIGN_BYTES.
Definition ULONG_MAX := u64 (-1).
Definition VOP_DEV_READY_STATE_STOP := 0.
Definition VOP_DEV_READY_STATE_STARTING := 1.
Definition VOP_DEV_READY_STATE_WORK := 2.
Definition HEADS_UP_NOTIFICATION_TIMEOUT_MS := 2.
Definition HEADS_UP_TIMEOUT_MS := 2 * HEADS_UP_NOTIFICATION_TIMEOUT_MS.
Definition EINTR := 4.

(** [ALIGN(x, a)] for a power of two, on 64 bits. *)
Definition ALIGN (x a : Z) : Z := Z.land (u64 (x + (a - 1))) (u64 (Z.lnot (a - 1))).

(** ** Memory: bytes by address *)

Definition mem_read (m : Z -> Z) (a n : Z) : list Z := m <$> seqZ a n.
Definition mem_write (m : Z -> Z) (a : Z) (l : list Z) : Z -> Z := fun x =>
  if a <=? x then default (m x) (l !! Z.to_nat (x - a)) else m x.

(** ** Data ([vop_common.h]) *)

(** The parts of [struct buffer_dma_item] that describe its source... *)
Record item_from := mkFrom {
  data_size : Z;
  src_phys : Z;
  src_phys_da : Z;
  src_phys_sz : Z;
  vringh_tx : bool;            (* not [NULL] *)
  k_from : vringh_kiov;
  head_from : Z;
  bytes_read : Z;
}.
(** ... and its destination; [remapped]: address in the aperture and bus address. *)
Record item_to := mkTo {
  kvec_buff_id : Z;
  kvec_to : option Z;
  num_kvecs_to : Z;
  head_to : Z;
  bytes_written : Z;
  remapped : option (Z * Z);
}.
(** [buf]: the intermediate buffer; [tx]: a transaction of the engine is known. *)
Record buffer_dma_item := mkItem {
  id : Z;
  status_ready : bool;
  buf : option (list Z);
  buf_da : Z;
  jiffies : Z;
  tx : bool;
  from : item_from;
  to : item_to;
}.

(** A copy that the engine has been given: the item (whose callback may have been
    disabled), the destination in the aperture with the window it lies in, and the
    source: an address of the local memory, or the intermediate buffer. *)
Record dma := mkDma {
  d_item : Z;
  d_callback : bool;
  d_dst : Z;
  d_window : Z * Z;
  d_src : option Z;
  d_len : Z;
}.

Inductive heads_up_op := vop_notify_available | vop_notify_used.

(** What the driver does outside of the memory of the model; the last two repeat what
    it writes to the rings. *)
Inductive event :=
| EvMap (window : Z * Z) (len : Z)
| EvUnmap (window : Z * Z)
| EvDmaMap (da len : Z)
| EvDmaUnmap (da len : Z)
| EvHeadsUp (op : heads_up_op)
| EvKick
| EvUsed (head len : Z)
| EvTx (head len : Z).

(** The ring of items. *)
Record buffers_dma_ring := mkRing {
  items : list buffer_dma_item;
  indicator_rcv : Z;
  counter_dma_send : Z;
  counter_done_transfer : Z;
}.

(** [struct vop_dev_common] with the memory on both sides: [tx_vrh]: the transmit queue;
    [kr], [ks]: the rings of the peer's buffers; [u_last], [u_ring]: the ring of used
    buffers; [lmem] by physical, [pmem] by bus address. *)
Record cdev := mkCdev {
  ready : Z;
  feature_desc_alignment : bool;
  write_in_thread : bool;
  sent_ts : Z;
  tx_vrh : vringh;
  kr : list vop_kvec_ring;
  ks : list shm_ring;
  u_last : Z;
  u_ring : vop_used_kiov_ring;
  ring : buffers_dma_ring;
  lmem : Z -> Z;
  pmem : Z -> Z;
  dmas : list dma;
  now : nat;
  log : list event;
}.

(** What the kernel answers: the address in the aperture of a window, the DMA address of
    a physical one, the cookie of a submission, the clock, when the peer announced
    buffers last, the unit of time, allocations,
    whether the transmit queue has a notifier, where its descriptors lie. *)
Record xenv := mkXenv {
  remap : nat -> option Z;
  dma_map : Z -> Z;
  cookie : nat -> Z;
  clock : nat -> Z;
  rcv_ts : nat -> Z;
  jiffies_to_msecs : Z -> Z;
  alloc_ok : nat -> bool;
  vrh_notify : bool;
  desc_mem : Z -> list VirtioRing.vring_desc;
  desc_addr : Z;
}.

(** ** Updates *)

Definition set_tx_vrh (c : cdev) v := mkCdev (ready c) (feature_desc_alignment c) (write_in_thread c) (sent_ts c) v (kr c) (ks c) (u_last c) (u_ring c) (ring c) (lmem c) (pmem c) (dmas c) (now c) (log c).
Definition set_kvecs (c : cdev) r s := mkCdev (ready c) (feature_desc_alignment c) (write_in_thread c) (sent_ts c) (tx_vrh c) r s (u_last c) (u_ring c) (ring c) (lmem c) (pmem c) (dmas c) (now c) (log c).
Definition set_used (c : cdev) l u := mkCdev (ready c) (feature_desc_alignment c) (write_in_thread c) (sent_ts c) (tx_vrh c) (kr c) (ks c) l u (ring c) (lmem c) (pmem c) (dmas c) (now c) (log c).
Definition set_ring (c : cdev) r := mkCdev (ready c) (feature_desc_alignment c) (write_in_thread c) (sent_ts c) (tx_vrh c) (kr c) (ks c) (u_last c) (u_ring c) r (lmem c) (pmem c) (dmas c) (now c) (log c).
Definition set_pmem (c : cdev) m := mkCdev (ready c) (feature_desc_alignment c) (write_in_thread c) (sent_ts c) (tx_vrh c) (kr c) (ks c) (u_last c) (u_ring c) (ring c) (lmem c) m (dmas c) (now c) (log c).
Definition set_dmas (c : cdev) l := mkCdev (ready c) (feature_desc_alignment c) (write_in_thread c) (sent_ts c) (tx_vrh c) (kr c) (ks c) (u_last c) (u_ring c) (ring c) (lmem c) (pmem c) l (now c) (log c).
Definition set_sent (c : cdev) t := mkCdev (ready c) (feature_desc_alignment c) (write_in_thread c) t (tx_vrh c) (kr c) (ks c) (u_last c) (u_ring c) (ring c) (lmem c) (pmem c) (dmas c) (now c) (log c).
Definition emit (c : cdev) e := mkCdev (ready c) (feature_desc_alignment c) (write_in_thread c) (sent_ts c) (tx_vrh c) (kr c) (ks c) (u_last c) (u_ring c) (ring c) (lmem c) (pmem c) (dmas c) (now c) (log c ++ [e]).
Definition tick (c : cdev) := mkCdev (ready c) (feature_desc_alignment c) (write_in_thread c) (sent_ts c) (tx_vrh c) (kr c) (ks c) (u_last c) (u_ring c) (ring c) (lmem c) (pmem c) (dmas c) (S (now c)) (log c).

Definition set_from (i : buffer_dma_item) f := mkItem (id i) (status_ready i) (buf i) (buf_da i) (jiffies i) (tx i) f (to i).
Definition set_to (i : buffer_dma_item) t := mkItem (id i) (status_ready i) (buf i) (buf_da i) (jiffies i) (tx i) (from i) t.
Definition set_jiffies (i : buffer_dma_item) j := mkItem (id i) (status_ready i) (buf i) (buf_da i) j (tx i) (from i) (to i).
Definition set_tx (i : buffer_dma_item) b := mkItem (id i) (status_ready i) (buf i) (buf_da i) (jiffies i) b (from i) (to i).
Definition set_buf (i : buffer_dma_item) b := mkItem (id i) (status_ready i) b (buf_da i) (jiffies i) (tx i) (from i) (to i).
Definition set_status (i : buffer_dma_item) b := mkItem (id i) b (buf i) (buf_da i) (jiffies i) (tx i) (from i) (to i).
Definition set_head_from (i : buffer_dma_item) h := let f := from i in
  set_from i (mkFrom (data_size f) (src_phys f) (src_phys_da f) (src_phys_sz f) (vringh_tx f) (k_from f) h (bytes_read f)).
Definition set_head_to (i : buffer_dma_item) h := let t := to i in
  set_to i (mkTo (kvec_buff_id t) (kvec_to t) (num_kvecs_to t) h (bytes_written t) (remapped t)).
Definition set_written (i : buffer_dma_item) n := let t := to i in
  set_to i (mkTo (kvec_buff_id t) (kvec_to t) (num_kvecs_to t) (head_to t) n (remapped t)).
Definition set_remapped (i : buffer_dma_item) w := let t := to i in
  set_to i (mkTo (kvec_buff_id t) (kvec_to t) (num_kvecs_to t) (head_to t) (bytes_written t) w).
Definition set_buff_id (i : buffer_dma_item) n := let t := to i in
  set_to i (mkTo n (kvec_to t) (num_kvecs_to t) (head_to t) (bytes_written t) (remapped t)).

Definition set_items (r : buffers_dma_ring) l := mkRing l (indicator_rcv r) (counter_dma_send r) (counter_done_transfer r).
(** An item is a place of the array: it is read and written there. *)
Definition get_item (c : cdev) (n : Z) : outcome buffer_dma_item := aget (items (ring c)) n.
Definition put_item (c : cdev) (n : Z) (i : buffer_dma_item) : outcome cdev :=
  l ← aset (items (ring c)) n i; Ret (set_ring c (set_items (ring c) l)).

(** What a wait is for: a buffer of the peer (polling, or until it announces one), a window,
    a free item, a buffer to send, an item that the second thread may send. *)
Inductive wait_reason := WPoll | WAvail | WRemap | WItem | WDesc | WSend.

Section Send.
Context (e : xenv).
(** The state in which a wait ends, with its result. *)
Context (wait : wait_reason -> cdev -> cdev * Z).

Definition get_time_jiff_not_zero (c : cdev) : Z :=
  let ret := clock e (now c) in if negb (ret =? 0) then ret else ULONG_MAX.

(** ** Notifications *)

Definition vop_send_heads_up (c : cdev) (op : heads_up_op) : cdev :=
  let t := clock e (now c) in
  if HEADS_UP_NOTIFICATION_TIMEOUT_MS <=? jiffies_to_msecs e (u64 (t - sent_ts c)) then emit (set_sent c t) (EvHeadsUp op) else c.
Definition common_dev_notify_used (c : cdev) : cdev := vop_send_heads_up c vop_notify_used.

(** ** Items *)

(** The item is given back; a transaction that is still known loses its callback. *)
Definition disable (n : Z) (d : dma) : dma :=
  if d_item d =? n then mkDma (d_item d) false (d_dst d) (d_window d) (d_src d) (d_len d) else d.
Definition buffer_dma_ring_item_reset (c : cdev) (n : Z) : outcome cdev :=
  i ← get_item c n;
  let c := if tx i then set_dmas c (map (disable n) (dmas c)) else c in
  let f := from i in
  let c := match remapped (to i) with Some w => emit c (EvUnmap w) | None => c end in
  let c := if negb (src_phys_da f =? 0) then emit c (EvDmaUnmap (src_phys_da f) (src_phys_sz f)) else c in
  k ← (if negb (iov_used (k_from f) =? 0) then vringh_kiov_reset (k_from f) else Ret (k_from f));
  put_item c n (mkItem (id i) true (buf i) (buf_da i) 0 false
    (mkFrom 0 0 0 0 false k USHRT_MAX 0) (mkTo (-1) None 0 USHRT_MAX 0 None)).

Definition buffer_dma_ring_get_read (c : cdev) : outcome (cdev * option Z) :=
  let r := ring c in
  let n := Z.land (indicator_rcv r) VOP_RING_SIZE_MASK in
  i ← aget (items r) n;
  if status_ready i then
    l ← aset (items r) n (set_status i false);
    Ret (set_ring c (mkRing l (u16 (indicator_rcv r + 1)) (counter_dma_send r) (counter_done_transfer r)), Some n)
  else Ret (c, None).

(** ** Descriptors *)

(** On the read side: the queue, the head and the vectors, and the result. *)
Definition vop_common_get_descriptors (c : cdev) (n : Z) : outcome (cdev * Z) :=
  i ← get_item c n;
  let f := from i in
  if head_from f =? USHRT_MAX then
    '(vrh, (riov, _), head, ret) ← vca_vringh_getdesc_kern (desc_mem e) (desc_addr e) (alloc_ok e (now c)) (tx_vrh c) (Some (k_from f)) None;
    let k := default (k_from f) riov in
    let head := default (head_from f) head in
    let k := if ret <? 0 then vringh_kiov_cleanup k else k in
    let head := if ret <=? 0 then USHRT_MAX else head in
    c ← put_item (tick (set_tx_vrh c vrh)) n
          (set_from i (mkFrom (data_size f) (src_phys f) (src_phys_da f) (src_phys_sz f) (vringh_tx f) k head (bytes_read f)));
    Ret (c, ret)
  else Ret (c, 1).

Definition put_descriptors (c : cdev) (head size : Z) : outcome cdev :=
  '(vrh, _) ← vca_vringh_complete_kern (tx_vrh c) head (u32 size);
  let c := emit (set_tx_vrh c vrh) (EvTx head (u32 size)) in
  if vrh_notify e then
    '(vrh, n) ← vca_vringh_need_notify_kern (tx_vrh c);
    let c := set_tx_vrh c vrh in
    Ret (if 0 <? n then emit c EvKick else c)
  else Ret c.

(** ** Reading the source *)

(** The [for] of [transfer_read]; [k_from->i] is the loop variable. *)
Fixpoint read_loop (fuel : nat) (c : cdev) (i : buffer_dma_item) : outcome buffer_dma_item :=
  let f := from i in let k := k_from f in
  if negb (iov_i k <? iov_used k) then Ret i
  else match fuel with
  | O => Spin
  | S fuel =>
      '(base, src_size) ← aget (iov k) (iov_i k);
      i ← (if iov_i k =? 1 then
             if feature_desc_alignment c then
               Ret (set_from i (mkFrom src_size base (src_phys_da f) (src_phys_sz f) (vringh_tx f) k (head_from f) (bytes_read f)))
             else
               let size := if VOP_INT_DMA_BUF_SIZE <? src_size then VOP_INT_DMA_BUF_SIZE else src_size in
               match buf i with
               | None => Oob
               | Some b =>
                   if zlen b <? size then Oob
                   else Ret (set_buf (set_from i (mkFrom size (src_phys f) (src_phys_da f) (src_phys_sz f) (vringh_tx f) k (head_from f) (bytes_read f)))
                               (Some (mem_read (lmem c) base size ++ drop (Z.to_nat size) b)))
               end
           else Ret i);
      let f := from i in
      read_loop fuel c (set_from i (mkFrom (data_size f) (src_phys f) (src_phys_da f) (src_phys_sz f) (vringh_tx f)
        (mkIov (iov k) (consumed k) (u32 (iov_i k + 1)) (iov_used k) (max_num k)) (head_from f) (u64 (bytes_read f + src_size))))
  end.

Definition transfer_read (c : cdev) (n : Z) : outcome (cdev * Z) :=
  i ← get_item c n;
  let k := k_from (from i) in
  _ ← bug_on (iov_used k <=? iov_i k);
  '(i, err) ← (if negb (iov_used k =? 2) then Ret (i, - EIO) else i ← read_loop 2 c i; Ret (i, 0));
  '(c, i) ← (if negb (feature_desc_alignment c) && (vringh_tx (from i) && negb (head_from (from i) =? USHRT_MAX))
             then c ← put_descriptors c (head_from (from i)) (bytes_read (from i)); Ret (c, set_head_from i USHRT_MAX)
             else Ret (c, i));
  c ← put_item c n i;
  Ret (c, err).

(** ** Finding the destination *)

Definition vop_kvec_get_item (c : cdev) (n : Z) : outcome (cdev * Z) :=
  i ← get_item c n;
  let t := to i in
  _ ← bug_on (kvec_buff_id t <? 0);
  r ← aget (kr c) (kvec_buff_id t);
  s ← aget (ks c) (kvec_buff_id t);
  '(r, s, res) ← vop_kvec_get r s;
  rs ← aset (kr c) (kvec_buff_id t) r;
  ss ← aset (ks c) (kvec_buff_id t) s;
  let c := set_kvecs c rs ss in
  match res with
  | inl err => c ← put_item c n (set_head_to i USHRT_MAX); Ret (c, err)
  | inr it =>
      c ← put_item c n (set_to i (mkTo (kvec_buff_id t) (Some (KvecBuff.kvec_to it)) (KvecBuff.num_kvecs_to it) (KvecBuff.head_to it) (bytes_written t) (remapped t)));
      Ret (c, 0)
  end.

(** [vop_kvec_buff.c]: waiting for a buffer of the peer.  The condition of the wait is looked
    at again where it ends. *)
Definition heads_up (c : cdev) : bool := jiffies_to_msecs e (u64 (clock e (now c) - rcv_ts e (now c))) <=? HEADS_UP_TIMEOUT_MS.
Definition check_new_avail_desc_ring_id (c : cdev) (rid : Z) : outcome bool :=
  r ← aget (kr c) rid; s ← aget (ks c) rid; Ret (negb (s_cnt s =? last_cnt r)).
Fixpoint poll_loop (fuel : nat) (c : cdev) (rid : Z) : outcome cdev :=
  cond ← check_new_avail_desc_ring_id c rid;
  if negb (ready c =? 0) && negb cond && heads_up c
  then match fuel with O => Spin | S fuel => poll_loop fuel (fst (wait WPoll c)) rid end else Ret c.
Fixpoint vop_wait_for_avail_desc (fuel : nat) (c : cdev) (rid : Z) : outcome (cdev * Z) :=
  match fuel with
  | O => Spin
  | S fuel =>
      c ← poll_loop fuel c rid;
      cond ← check_new_avail_desc_ring_id c rid;
      let '(c, ret) := if negb cond then wait WAvail c else (c, 0) in
      if ret <? 0 then Ret (c, ret)
      else
        cond ← check_new_avail_desc_ring_id c rid;
        if negb cond && negb (ready c =? 0) then vop_wait_for_avail_desc fuel c rid
        else Ret (c, if ready c =? 0 then - ENODEV else 0)
  end.

Definition transfer_wait (fuel : nat) (c : cdev) (n : Z) : outcome (cdev * Z) :=
  i ← get_item c n;
  let ring_id := vop_kvec_size_to_ring_id (ks c) (u64 (data_size (from i) + SEND_ALIGN_OVERHEAD_SIZE)) in
  _ ← bug_on (ring_id <? 0);
  c ← put_item c n (set_buff_id i ring_id);
  '(c, err) ← vop_kvec_get_item c n;
  if err =? 0 then Ret (c, 0)
  else
    '(c, err) ← vop_wait_for_avail_desc fuel c ring_id;
    if err =? 0 then
      '(c, err) ← vop_kvec_get_item c n;
      Ret (c, if err =? 0 then 0 else - EBUSY)
    else Ret (c, err).

(** ** Sending *)

(** [vop_async_dma]: the item's transaction is known unless the submission failed. *)
Definition vop_async_dma (c : cdev) (n : Z) (d : dma) : outcome (cdev * Z) :=
  i ← get_item c n;
  let ck := cookie e (now c) in
  let c := tick c in
  if ck <? 0 then c ← put_item c n (set_tx i false); Ret (c, ck)
  else c ← put_item c n (set_tx i true); Ret (set_dmas c (dmas c ++ [d]), ck).

Definition transfer_dma_send (c : cdev) (n dst size : Z) : outcome (cdev * Z) :=
  i ← get_item c n;
  let i := set_jiffies i (get_time_jiff_not_zero c) in
  c ← put_item c n i;
  let f := from i in
  '(c, ck) ←
    (if feature_desc_alignment c then
       let new_dst := ALIGN dst PLX_DMA_ALIGN_BYTES in
       let offset_dst := u64 (new_dst - dst) in
       let new_src := Z.land (src_phys f) (u64 (Z.lnot (PLX_DMA_ALIGN_BYTES - 1))) in
       let offset_src := u64 (src_phys f - new_src) in
       let offset := u64 (offset_dst + offset_src) in
       let src_phys_sz := ALIGN (u64 (size + offset_src)) PLX_DMA_ALIGN_BYTES in
       _ ← bug_on (src_phys f =? 0);
       let '(offset, new_dst) := if offset_dst <? 1 then (u64 (offset + PLX_DMA_ALIGN_BYTES), u64 (new_dst + PLX_DMA_ALIGN_BYTES)) else (offset, new_dst) in
       _ ← bug_on (DMA_MAX_OFFSET <? offset);
       match remapped (to i) with
       | None => Oob
       | Some w =>
           let c := set_pmem c (mem_write (pmem c) (snd w) [u8 offset]) in
           let da := dma_map e new_src in
           c ← put_item c n (set_from i (mkFrom (data_size f) (src_phys f) da src_phys_sz (vringh_tx f) (k_from f) (head_from f) (bytes_read f)));
           let c := emit c (EvDmaMap da src_phys_sz) in
           _ ← bug_on (tx i);
           vop_async_dma c n (mkDma n true new_dst w (Some new_src) src_phys_sz)
       end
     else
       _ ← bug_on (negb (src_phys f =? 0));
       _ ← bug_on (tx i);
       match remapped (to i) with
       | None => Oob
       | Some w => vop_async_dma c n (mkDma n true dst w None (ALIGN size PLX_DMA_ALIGN_BYTES))
       end);
  if ck <? 0 then
    i ← get_item c n;
    c ← put_item c n (set_jiffies i 0);
    Ret (c, ck)
  else Ret (c, 0).

Definition transfer_ioremap (c : cdev) (n pa len : Z) : outcome (cdev * bool) :=
  '(c, r) ← (match remap e (now c) with
             | Some a => Ret (tick c, Some a)
             | None => let c := fst (wait WRemap (tick c)) in
                       if ready c =? 0 then Ret (c, None) else Ret (tick c, remap e (now c))
             end);
  i ← get_item c n;
  match r with
  | Some a => c ← put_item c n (set_remapped i (Some (a, pa))); Ret (emit c (EvMap (a, pa) len), true)
  | None => c ← put_item c n (set_remapped i None); Ret (c, false)
  end.

(** The element [j] of the peer's buffer. *)
Definition kvec_elem (c : cdev) (i : buffer_dma_item) (j : Z) : outcome (Z * Z) :=
  match kvec_to (to i) with
  | None => Oob
  | Some first => s ← aget (ks c) (kvec_buff_id (to i)); p ← aget (s_buf s) (first + j); Ret (pk_iov p)
  end.

(** The loop of [transfer_write] has two turns: the header, whose bytes count as written
    but are not copied, and the data. *)
Definition transfer_write (c : cdev) (n : Z) : outcome (cdev * Z) :=
  i ← get_item c n;
  if negb (num_kvecs_to (to i) =? 2) then Ret (c, - EIO)
  else
    let c := common_dev_notify_used c in
    v0 ← kvec_elem c i 0;
    let i := set_written i (u64 (bytes_written (to i) + snd v0)) in
    c ← put_item c n i;
    v1 ← kvec_elem c i 1;
    let size := data_size (from i) in
    if snd v1 <? u64 (size + SEND_ALIGN_OVERHEAD_SIZE) then
      c ← put_item c n (set_written i 0); Ret (c, - ENOSPC)
    else
      c ← put_item c n (set_written i (u64 (bytes_written (to i) + size)));
      '(c, ok) ← transfer_ioremap c n (fst v1) (u64 (size + SEND_ALIGN_OVERHEAD_SIZE));
      if negb ok then Ret (c, - ENOMEM)
      else
        i ← get_item c n;
        match remapped (to i) with
        | None => Oob
        | Some w => transfer_dma_send c n (fst w) size
        end.

(** ** Finishing *)

Definition vop_kvec_used_item (c : cdev) (i : buffer_dma_item) : outcome cdev :=
  '(l, u) ← vop_kvec_used (u_last c) (u_ring c) (head_to (to i)) (bytes_written (to i));
  Ret (emit (set_used c l u) (EvUsed (u16 (head_to (to i))) (u32 (bytes_written (to i))))).

(** The buffers of an item in use go back to their owners. *)
Definition give_back (c : cdev) (i : buffer_dma_item) : outcome (cdev * buffer_dma_item) :=
  '(c, i) ← (if negb (head_to (to i) =? USHRT_MAX) then
               c ← vop_kvec_used_item c i; Ret (common_dev_notify_used c, set_head_to i USHRT_MAX)
             else Ret (c, i));
  if vringh_tx (from i) && negb (head_from (from i) =? USHRT_MAX) then
    c ← put_descriptors c (head_from (from i)) (bytes_read (from i)); Ret (c, set_head_from i USHRT_MAX)
  else Ret (c, i).

(** [item->kvec_to->flags = 0] *)
Definition clear_in_use (c : cdev) (i : buffer_dma_item) : outcome cdev :=
  match kvec_to (to i) with
  | None => Oob
  | Some first =>
      s ← aget (ks c) (kvec_buff_id (to i));
      p ← aget (s_buf s) first;
      b ← aset (s_buf s) first (mkPk (pk_iov p) (pk_head p) 0);
      ss ← aset (ks c) (kvec_buff_id (to i)) (mkShm (s_cnt s) b (s_max s));
      Ret (set_kvecs c (kr c) ss)
  end.

Definition transfer_done (c : cdev) (n : Z) : outcome cdev :=
  i ← get_item c n;
  '(c, i) ← (if negb (status_ready i) then give_back c i else Ret (c, i));
  c ← clear_in_use c i;
  c ← put_item c n i;
  buffer_dma_ring_item_reset c n.

(** The [while] of [transfer_done_callback]; [n] turns are left. *)
Fixpoint done_loop (fuel : nat) (c : cdev) (next stop : Z) : outcome cdev :=
  if (ready c =? 0) || (next =? stop) then Ret c
  else match fuel with
  | O => Spin
  | S fuel =>
      i ← get_item c next;
      c ← (if negb (jiffies i =? 0) then c ← put_item c next (set_jiffies i 0); transfer_done c next else Ret c);
      let r := ring c in
      done_loop fuel (set_ring c (mkRing (items r) (indicator_rcv r) (counter_dma_send r) (u16 (counter_done_transfer r + 1))))
        (Z.land (next + 1) VOP_RING_SIZE_MASK) stop
  end.
Definition transfer_done_callback (c : cdev) (n : Z) : outcome cdev :=
  let next := Z.land (counter_done_transfer (ring c)) VOP_RING_SIZE_MASK in
  i ← get_item c n;
  let stop := Z.land (id i + 1) VOP_RING_SIZE_MASK in
  c ← put_item c n (set_tx i false);
  done_loop (Z.to_nat VOP_RING_SIZE) c next stop.

(** ** The threads *)

(** The [do ... while] of [transfer]; [n] turns are left. *)
Fixpoint wait_loop (fuel : nat) (c : cdev) (n : Z) : outcome (cdev * Z) :=
  match fuel with
  | O => Spin
  | S fuel => '(c, err) ← transfer_wait fuel c n; if err =? - EBUSY then wait_loop fuel c n else Ret (c, err)
  end.

Definition transfer (fuel : nat) (c : cdev) (n : Z) : outcome (cdev * Z) :=
  '(c, err) ← transfer_read c n;
  if negb (err =? 0) then c ← transfer_done c n; Ret (c, err)
  else
    '(c, err) ← wait_loop fuel c n;
    if negb (err =? 0) then Ret (c, err)
    else if negb (write_in_thread c) then
      '(c, err) ← transfer_write c n;
      if negb (err =? 0) then c ← transfer_done c n; Ret (c, err) else Ret (c, err)
    else
      let r := ring c in
      i ← get_item c n;
      _ ← bug_on (negb (id i =? Z.land (counter_dma_send r) VOP_RING_SIZE_MASK));
      Ret (set_ring c (mkRing (items r) (indicator_rcv r) (u16 (counter_dma_send r + 1)) (counter_done_transfer r)), 0).

(** [timeout_ms] is an [int]; a wait of the completion takes up to 300 ms. *)
Fixpoint wait_completion_loop (fuel : nat) (r : wait_reason) (c : cdev) (timeout_ms : Z) : outcome (cdev * Z) :=
  if ready c =? 0 then Ret (c, - ENODEV)
  else match fuel with
  | O => Spin
  | S fuel =>
      let '(c, res) := wait r c in
      if res <? 0 then Ret (c, - EINTR)
      else if 0 <? res then Ret (c, if negb (ready c =? 0) then 0 else - ENODEV)
      else
        let timeout_ms := timeout_ms - 300 in
        if timeout_ms <=? 0 then Ret (c, - EBUSY) else wait_completion_loop fuel r c timeout_ms
  end.
Definition TIMEOUT_SEND_MS := 3000.
Definition vop_wait_for_completion (r : wait_reason) (c : cdev) (timeout_ms : Z) : outcome (cdev * Z) :=
  wait_completion_loop (Z.to_nat (timeout_ms / 300 + 1)) r c timeout_ms.

(** The [while] of [sync_descriptors_read_task_step]; [fuel] turns are left. *)
Fixpoint step_loop (fuel : nat) (c : cdev) (n : Z) : outcome cdev :=
  if ready c =? 0 then Ret c
  else match fuel with
  | O => Spin
  | S fuel =>
      i ← get_item c n;
      c ← (if (head_from (from i) =? USHRT_MAX) && negb (vringh_tx (from i))
           then '(c, _) ← vop_common_get_descriptors c n; Ret c else Ret c);
      i ← get_item c n;
      if negb (head_from (from i) =? USHRT_MAX) then
        let f := from i in
        c ← put_item c n (set_from i (mkFrom (data_size f) (src_phys f) (src_phys_da f) (src_phys_sz f) true (k_from f) (head_from f) (bytes_read f)));
        '(c, _) ← transfer fuel c n;
        Ret c
      else
        '(c, err) ← vop_wait_for_completion WDesc c TIMEOUT_SEND_MS;
        c ← (if err =? - EBUSY then '(c, _) ← vop_common_get_descriptors c n; Ret c else Ret c);
        step_loop fuel c n
  end.

(** The [while] that waits for an item. *)
Fixpoint item_wait_loop (fuel : nat) (c : cdev) : outcome cdev :=
  '(c, err) ← vop_wait_for_completion WItem c TIMEOUT_SEND_MS;
  if err =? - EBUSY then match fuel with O => Spin | S fuel => item_wait_loop fuel c end else Ret c.

Definition sync_descriptors_read_task_step (fuel : nat) (c : cdev) : outcome cdev :=
  '(c, item) ← buffer_dma_ring_get_read c;
  match item with
  | None => item_wait_loop fuel c
  | Some n => step_loop fuel c n
  end.

(** The inner [while] of [sync_descriptors_dma_task]; [last] is [counter_dma_last]. *)
Fixpoint dma_task_loop (fuel : nat) (c : cdev) (last : Z) : outcome (cdev * Z) :=
  if (ready c =? 0) || (last =? counter_dma_send (ring c)) then Ret (c, last)
  else match fuel with
  | O => Spin
  | S fuel =>
      let n := Z.land last VOP_RING_SIZE_MASK in
      i ← get_item c n;
      c ← (if negb (status_ready i) then
             '(c, err) ← transfer_write c n;
             if negb (err =? 0) then transfer_done c n else Ret c
           else Ret c);
      dma_task_loop fuel c (u16 (last + 1))
  end.
(** One turn of the outer [while]. *)
Definition sync_descriptors_dma_pass (fuel : nat) (c : cdev) (last : Z) : outcome (cdev * Z) :=
  '(c, _) ← vop_wait_for_completion WSend c TIMEOUT_SEND_MS;
  dma_task_loop fuel c last.

(** ** The engine *)

(** The oldest copy is carried out and its callback is called. *)
Definition dma_bytes (c : cdev) (d : dma) : outcome (list Z) :=
  match d_src d with
  | Some a => Ret (mem_read (lmem c) a (d_len d))
  | None => i ← get_item c (d_item d); match buf i with Some b => Ret (take (Z.to_nat (d_len d)) b) | None => Oob end
  end.
Definition dma_finish (c : cdev) : outcome cdev :=
  match dmas c with
  | [] => Ret c
  | d :: ds =>
      b ← dma_bytes c d;
      let c := set_dmas (set_pmem c (mem_write (pmem c) (snd (d_window d) + (d_dst d - fst (d_window d))) b)) ds in
      if d_callback d then transfer_done_callback c (d_item d) else Ret c
  end.

(** ** Alignment *)

Lemma land_align a : 0 <= a < 2 ^ 64 -> Z.land a (u64 (Z.lnot (PLX_DMA_ALIGN_BYTES - 1))) = a - a mod 64.
Proof.
  intros Ha. unfold u64, wrap. rewrite <- Z.land_ones by lia.
  rewrite (Z.land_comm (Z.lnot _)), Z.land_assoc, Z.land_ones, Z.mod_small by lia.
  exact (land_not_mask a 6 ltac:(lia)).
Qed.
Lemma ALIGN_64 x : 0 <= x -> x + 63 < 2 ^ 64 -> ALIGN x PLX_DMA_ALIGN_BYTES = x + 63 - (x + 63) mod 64.
Proof. intros. unfold ALIGN. change (PLX_DMA_ALIGN_BYTES - 1) with 63. rewrite u64_small by lia. apply land_align. lia. Qed.

(** Where a copy from [src] to the window at [dst] starts and how long it is, and the
    offset the peer is told. *)
Record placed (dst src size new_dst new_src len offset : Z) : Prop := {
  pl_dst : new_dst mod 64 = 0;
  pl_src : new_src mod 64 = 0;
  pl_len : len mod 64 = 0;
  pl_offset : 1 <= offset <= DMA_MAX_OFFSET;
  pl_data : new_dst + (src - new_src) = dst + offset;
  pl_first : dst < new_dst;
  pl_last : new_dst + len <= dst + size + SEND_ALIGN_OVERHEAD_SIZE;
  pl_begin : 0 <= new_src <= src;
  pl_end : src + size <= new_src + len;
}.

Lemma align_placed dst src size :
  0 <= dst -> 0 <= src -> 0 <= size -> dst + size + 256 < 2 ^ 64 -> src + size + 128 < 2 ^ 64 ->
  let new_dst := ALIGN dst PLX_DMA_ALIGN_BYTES in
  let offset_dst := u64 (new_dst - dst) in
  let new_src := Z.land src (u64 (Z.lnot (PLX_DMA_ALIGN_BYTES - 1))) in
  let offset_src := u64 (src - new_src) in
  let offset := u64 (offset_dst + offset_src) in
  let len := ALIGN (u64 (size + offset_src)) PLX_DMA_ALIGN_BYTES in
  let '(offset, new_dst) := if offset_dst <? 1 then (u64 (offset + PLX_DMA_ALIGN_BYTES), u64 (new_dst + PLX_DMA_ALIGN_BYTES)) else (offset, new_dst) in
  placed dst src size new_dst new_src len offset.
Proof.
  intros Hd Hs Hz Hd2 Hs2. cbv zeta. rewrite ALIGN_64, land_align by lia.
  pose proof (Z.mod_pos_bound (dst + 63) 64 ltac:(lia)) as Hb1. pose proof (Z.mod_pos_bound src 64 ltac:(lia)) as Hb2.
  assert (forall x, (x - x mod 64) mod 64 = 0) as Hdiv by (intros x; rewrite Zminus_mod_idemp_r, Z.sub_diag; done).
  pose proof (Z.div_mod (dst + 63) 64 ltac:(lia)) as E1. pose proof (Z.div_mod src 64 ltac:(lia)) as E2.
  rewrite (u64_small (src - (src - src mod 64))) by lia. replace (src - (src - src mod 64)) with (src mod 64) by lia.
  assert (0 <= dst + 63 - (dst + 63) mod 64 - dst <= 63) as Hod by lia.
  rewrite (u64_small (dst + 63 - (dst + 63) mod 64 - dst)) by lia. rewrite (u64_small (size + src mod 64)) by lia.
  rewrite ALIGN_64 by lia. pose proof (Z.mod_pos_bound (size + src mod 64 + 63) 64 ltac:(lia)) as Hb3.
  set (nd := dst + 63 - (dst + 63) mod 64) in *. assert (nd mod 64 = 0) as Hnd by apply Hdiv.
  rewrite (u64_small (nd - dst + src mod 64)) by lia.
  unfold SEND_ALIGN_OVERHEAD_SIZE, DMA_MAX_OFFSET, PLX_DMA_ALIGN_BYTES in *.
  destruct (nd - dst <? 1) eqn:E; bools.
  - rewrite !u64_small by lia. assert ((nd + 64) mod 64 = 0) by (rewrite <- Zplus_mod_idemp_l, Hnd; done).
    split; unfold SEND_ALIGN_OVERHEAD_SIZE, DMA_MAX_OFFSET, PLX_DMA_ALIGN_BYTES; auto; lia.
  - split; unfold SEND_ALIGN_OVERHEAD_SIZE, DMA_MAX_OFFSET, PLX_DMA_ALIGN_BYTES; auto; lia.
Qed.

(** ** The array of items *)

Definition has (c : cdev) (n : Z) (i : buffer_dma_item) : Prop := 0 <= n /\ items (ring c) !! Z.to_nat n = Some i.
Definition upd (c : cdev) (n : Z) (i : buffer_dma_item) : cdev :=
  set_ring c (set_items (ring c) (<[Z.to_nat n := i]> (items (ring c)))).

Lemma has_get c n i : has c n i -> get_item c n = Ret i.
Proof. intros [Hn Hl]. by apply aget_ret. Qed.
Lemma has_put c n i j : has c n i -> put_item c n j = Ret (upd c n j).
Proof. intros [Hn Hl]. unfold put_item. apply lookup_lt_Some in Hl. by rewrite aset_ret by (unfold zlen; lia). Qed.
Lemma has_upd c n i j : has c n i -> has (upd c n j) n j.
Proof. intros [Hn Hl]. split; [done|]. cbn. apply list_lookup_insert_eq. by eapply lookup_lt_Some. Qed.
Lemma upd_upd c n i j : upd (upd c n i) n j = upd c n j.
Proof. unfold upd. cbn. by rewrite list_insert_insert_eq. Qed.
Lemma upd_same c n i : has c n i -> upd c n i = c.
Proof. intros [Hn Hl]. unfold upd. rewrite list_insert_id by done. by destruct c as [? ? ? ? ? ? ? ? ? [] ? ? ? ? ?]. Qed.
Lemma has_other c n m i j : has c n i -> 0 <= m -> m <> n -> has (upd c m j) n i.
Proof. intros [Hn Hl] Hm Hne. split; [done|]. cbn. by rewrite list_lookup_insert_ne by lia. Qed.

(** Running the code on an item that is known. *)
Ltac item H := rewrite (has_get _ _ _ H); run_bind.
Ltac put H := rewrite (has_put _ _ _ _ H); run_bind.

(** ** Sending *)

(** An item whose data is mapped, and one whose copy was started at the time [j]. *)
Definition mapped (i : buffer_dma_item) (da len : Z) : buffer_dma_item :=
  let f := from i in
  set_from i (mkFrom (data_size f) (src_phys f) da len (vringh_tx f) (k_from f) (head_from f) (bytes_read f)).
Definition submitted (c : cdev) (n : Z) (i : buffer_dma_item) (j : Z) (d : dma) : cdev * Z :=
  let ck := cookie e (now c) in
  if ck <? 0 then (upd (tick c) n (set_jiffies (set_tx i false) 0), ck)
  else (set_dmas (upd (tick c) n (set_jiffies (set_tx i true) j)) (dmas c ++ [d]), 0).

Lemma submitted_upd c n i' i j d : submitted (upd c n i') n i j d = submitted c n i j d.
Proof.
  unfold submitted. change (now (upd c n i')) with (now c). change (tick (upd c n i')) with (upd (tick c) n i').
  change (dmas (upd c n i')) with (dmas c). by rewrite !upd_upd.
Qed.
Lemma get_time_nonzero c : get_time_jiff_not_zero c <> 0.
Proof. unfold get_time_jiff_not_zero. destruct (negb _) eqn:E; bools; [done|by vm_compute]. Qed.

Lemma async_dma_ok c n i j d : has c n (set_jiffies i j) ->
  ('(c, ck) ← vop_async_dma c n d;
   if ck <? 0 then i ← get_item c n; c ← put_item c n (set_jiffies i 0); Ret (c, ck) else Ret (c, 0))
  = Ret (submitted c n i j d).
Proof.
  intros H. unfold vop_async_dma, submitted. item H. destruct (cookie e (now c) <? 0) eqn:E.
  - rewrite (has_put (tick c) n _ _ H). run_bind. rewrite E.
    pose proof (has_upd (tick c) n _ (set_tx (set_jiffies i j) false) H) as H1. item H1. put H1. by rewrite upd_upd.
  - rewrite (has_put (tick c) n _ _ H). run_bind. by rewrite E.
Qed.

Lemma dma_send_aligned c n i dst pa size :
  has c n i -> feature_desc_alignment c = true -> remapped (to i) = Some (dst, pa) -> tx i = false ->
  0 < src_phys (from i) -> 0 <= dst -> 0 <= size -> dst + size + 256 < 2 ^ 64 -> src_phys (from i) + size + 128 < 2 ^ 64 ->
  exists new_dst new_src len offset, placed dst (src_phys (from i)) size new_dst new_src len offset
    /\ transfer_dma_send c n dst size
       = Ret (submitted (emit (set_pmem c (mem_write (pmem c) pa [offset])) (EvDmaMap (dma_map e new_src) len)) n
                (mapped i (dma_map e new_src) len) (get_time_jiff_not_zero c) (mkDma n true new_dst (dst, pa) (Some new_src) len)).
Proof.
  intros H Ha Hw Htx Hsrc Hd Hz Hd2 Hs2. unfold transfer_dma_send. item H.
  set (j := get_time_jiff_not_zero c). put H. pose proof (has_upd c n _ (set_jiffies i j) H) as H1.
  change (feature_desc_alignment (upd c n (set_jiffies i j))) with (feature_desc_alignment c). rewrite Ha.
  pose proof (align_placed dst (src_phys (from i)) size Hd ltac:(lia) Hz Hd2 Hs2) as Hp. cbv zeta in Hp.
  cbn [from set_jiffies to]. rewrite (proj2 (Z.eqb_neq (src_phys (from i)) 0)) by lia. simpl bug_on. run_bind.
  set (len := ALIGN (u64 _) _) in *. set (new_src := Z.land _ _) in *.
  destruct (if u64 (ALIGN dst PLX_DMA_ALIGN_BYTES - dst) <? 1 then _ else _) as [offset new_dst]. run_bind.
  pose proof (pl_offset _ _ _ _ _ _ _ Hp) as Ho. rewrite (proj2 (Z.ltb_ge DMA_MAX_OFFSET offset)) by lia. simpl bug_on. run_bind.
  rewrite Hw. run_bind. cbn [fst snd].
  change (u8 offset) with (wrap 8 offset). rewrite (wrap_small 8 offset) by (unfold fits, DMA_MAX_OFFSET in *; lia).
  exists new_dst, new_src, len, offset. split; [done|].
  set (c1 := set_pmem (upd c n (set_jiffies i j)) _).
  rewrite (has_put c1 n (set_jiffies i j) _ H1). run_bind. change (tx (set_jiffies i j)) with (tx i). rewrite Htx. simpl bug_on. run_bind.
  set (i1 := set_from (set_jiffies i j) _).
  change i1 with (set_jiffies (mapped i (dma_map e new_src) len) j) in *.
  set (c2 := emit (upd c1 n _) _). assert (has c2 n (set_jiffies (mapped i (dma_map e new_src) len) j)) as H2 by (apply (has_upd c1 n _ _ H1)).
  rewrite (async_dma_ok c2 n _ j _ H2). f_equal.
  change c2 with (upd (upd (emit (set_pmem c (mem_write (pmem c) pa [offset])) (EvDmaMap (dma_map e new_src) len)) n (set_jiffies i j)) n
    (set_jiffies (mapped i (dma_map e new_src) len) j)). by rewrite !submitted_upd.
Qed.

Lemma dma_send_copied c n i dst pa size :
  has c n i -> feature_desc_alignment c = false -> remapped (to i) = Some (dst, pa) -> tx i = false -> src_phys (from i) = 0 ->
  transfer_dma_send c n dst size
  = Ret (submitted c n i (get_time_jiff_not_zero c) (mkDma n true dst (dst, pa) None (ALIGN size PLX_DMA_ALIGN_BYTES))).
Proof.
  intros H Ha Hw Htx Hs. unfold transfer_dma_send. item H.
  set (j := get_time_jiff_not_zero c). put H. pose proof (has_upd c n _ (set_jiffies i j) H) as H1.
  change (feature_desc_alignment (upd c n (set_jiffies i j))) with (feature_desc_alignment c). rewrite Ha.
  cbn [from set_jiffies to tx]. rewrite Hs, Htx. simpl bug_on. run_bind. rewrite Hw.
  rewrite (async_dma_ok _ n i j _ H1). by rewrite submitted_upd.
Qed.

(** ** The log without notifications *)

Definition act (ev : event) : bool := match ev with EvHeadsUp _ | EvKick => false | _ => true end.
Definition acts (l : list event) : list event := List.filter act l.
Lemma acts_app l k : acts (l ++ k) = acts l ++ acts k.
Proof. apply List.filter_app. Qed.

Definition noted (c : cdev) (t : Z) (l : list event) : cdev :=
  mkCdev (ready c) (feature_desc_alignment c) (write_in_thread c) t (tx_vrh c) (kr c) (ks c) (u_last c) (u_ring c) (ring c)
    (lmem c) (pmem c) (dmas c) (now c) l.
Lemma notify_noted c : exists t l, common_dev_notify_used c = noted c t l /\ acts l = acts (log c).
Proof.
  unfold common_dev_notify_used, vop_send_heads_up. destruct (_ <=? _).
  - eexists _, _. split; [reflexivity|]. rewrite acts_app. apply app_nil_r.
  - exists (sent_ts c), (log c). split; [by destruct c|done].
Qed.

(** The two vectors of the peer's buffer that an item has taken. *)
Definition dest (c : cdev) (i : buffer_dma_item) (v0 v1 : Z * Z) : Prop :=
  exists first s p0 p1, kvec_to (to i) = Some first /\ 0 <= first /\ 0 <= kvec_buff_id (to i)
    /\ ks c !! Z.to_nat (kvec_buff_id (to i)) = Some s
    /\ s_buf s !! Z.to_nat first = Some p0 /\ s_buf s !! Z.to_nat (first + 1) = Some p1 /\ pk_iov p0 = v0 /\ pk_iov p1 = v1.

Lemma dest_elem c i v0 v1 : dest c i v0 v1 -> kvec_elem c i 0 = Ret v0 /\ kvec_elem c i 1 = Ret v1.
Proof.
  intros (first & s & p0 & p1 & Hk & Hf & Hid & Hs & H0 & H1 & <- & <-). unfold kvec_elem. rewrite Hk, (aget_ret _ _ _ Hid Hs). run_bind.
  rewrite Z.add_0_r, (aget_ret _ _ _ Hf H0), (aget_ret _ _ p1) by (done || lia). done.
Qed.

(** The bytes that are reported to the peer. *)
Definition total (i : buffer_dma_item) (v0 : Z * Z) : Z := u64 (u64 (bytes_written (to i) + snd v0) + data_size (from i)).

(** A window was found for the peer's buffer. *)
Definition windowed (c : cdev) (n : Z) (i : buffer_dma_item) (v0 v1 : Z * Z) (a : Z) (t : Z) (l : list event) : cdev :=
  emit (upd (tick (noted c t l)) n (set_remapped (set_written i (total i v0)) (Some (a, fst v1))))
    (EvMap (a, fst v1) (u64 (data_size (from i) + SEND_ALIGN_OVERHEAD_SIZE))).

Lemma write_ok c n i v0 v1 a :
  has c n i -> num_kvecs_to (to i) = 2 -> dest c i v0 v1 -> u64 (data_size (from i) + SEND_ALIGN_OVERHEAD_SIZE) <= snd v1 ->
  remap e (now c) = Some a ->
  exists t l, acts l = acts (log c) /\ transfer_write c n = transfer_dma_send (windowed c n i v0 v1 a t l) n a (data_size (from i)).
Proof.
  intros H Hn2 Hd Hsz Hr. unfold transfer_write. item H. rewrite Hn2. cbn [Z.eqb Pos.eqb negb].
  destruct (notify_noted c) as (t & l & -> & Hl). exists t, l. split; [done|].
  destruct (dest_elem (noted c t l) i v0 v1 Hd) as [E0 _]. rewrite E0. run_bind.
  set (i1 := set_written i _). rewrite (has_put (noted c t l) n i i1 H). run_bind.
  destruct (dest_elem (upd (noted c t l) n i1) i1 v0 v1 Hd) as [_ E1]. rewrite E1. run_bind.
  change (data_size (from i1)) with (data_size (from i)). if_false.
  pose proof (has_upd (noted c t l) n _ i1 H) as H1. put H1. rewrite upd_upd. cbn [bytes_written to i1 set_written set_to].
  fold (total i v0). set (i2 := set_written i1 (total i v0)). pose proof (has_upd (noted c t l) n _ i2 H) as H2.
  unfold transfer_ioremap. change (now (upd (noted c t l) n i2)) with (now c). rewrite Hr. run_bind.
  change (tick (upd (noted c t l) n i2)) with (upd (tick (noted c t l)) n i2).
  pose proof (has_upd (tick (noted c t l)) n i i2 H) as H3. item H3. put H3. rewrite upd_upd. cbn [negb].
  set (c3 := emit (upd _ n _) _). assert (has c3 n (set_remapped i2 (Some (a, fst v1)))) as H4 by (apply (has_upd (tick (noted c t l)) n i _ H)).
  item H4. done.
Qed.

(** ** Finishing *)

Definition next_used (vrh : vringh) : Z := u16 (vh_last_used_idx vrh + completed vrh).
(** The head has been returned to the driver of the transmit queue. *)
Definition tx_returned (vrh vrh' : vringh) (head n : Z) : Prop :=
  let idx := next_used vrh in
  vr vrh' = Vringh.set_used (vr vrh) (VirtioRing.used_flags (vr vrh)) (u16 (idx + 1))
              (<[Z.to_nat (idx mod VirtioRing.num (vr vrh)) := VirtioRing.mkUsed head n]> (VirtioRing.used_ring (vr vrh)))
  /\ next_used vrh' = u16 (idx + 1) /\ last_avail_idx vrh' = last_avail_idx vrh.

Lemma tx_returned_ok vrh vrh' head n : ring_ok (vr vrh) -> tx_returned vrh vrh' head n -> ring_ok (vr vrh').
Proof.
  intros [Hn Hd Ha Hu] (Hv & _). rewrite Hv. split; cbn; try done.
  change (zlen (<[Z.to_nat (next_used vrh mod VirtioRing.num (vr vrh)) := VirtioRing.mkUsed head n]> (VirtioRing.used_ring (vr vrh))) = VirtioRing.num (vr vrh)).
  by rewrite zlen_insert.
Qed.

Lemma need_notify_ret vrh : ring_ok (vr vrh) ->
  exists vrh' rc, vca_vringh_need_notify_kern vrh = Ret (vrh', rc) /\ vr vrh' = vr vrh /\ next_used vrh' = next_used vrh
    /\ last_avail_idx vrh' = last_avail_idx vrh.
Proof.
  intros Hok. unfold vca_vringh_need_notify_kern, __vringh_need_notify, no_fault. cbn [Z.eqb negb].
  destruct (negb (event_indices vrh)); [by eexists _, _|].
  pose proof (ring_num _ Hok). destruct (aget_total (VirtioRing.avail_ring (vr vrh)) (VirtioRing.num (vr vrh))) as (ev & -> & _);
    [rewrite (ro_avail _ Hok); lia|]. run_bind. eexists _, _. split; [done|]. split; [done|]. split; [|done].
  unfold next_used. cbn [vh_last_used_idx completed]. rewrite Z.add_0_r. apply u16_small, u16_range.
Qed.

Lemma put_desc_ok c head size : ring_ok (vr (tx_vrh c)) ->
  exists vrh' l, put_descriptors c head size = Ret (noted (set_tx_vrh c vrh') (sent_ts c) l)
    /\ acts l = acts (log c) ++ [EvTx head (u32 size)] /\ tx_returned (tx_vrh c) vrh' head (u32 size).
Proof.
  intros Hok. unfold put_descriptors, vca_vringh_complete_kern. rewrite complete_one by done. run_bind.
  set (v1 := mkVrh _ _ _ _ _). assert (tx_returned (tx_vrh c) v1 head (u32 size)) as Hr.
  { split; [done|]. split; [|done]. unfold next_used at 1. cbn [v1 vh_last_used_idx completed]. apply used_next. }
  destruct (vrh_notify e).
  - destruct (need_notify_ret v1 (tx_returned_ok _ _ _ _ Hok Hr)) as (v2 & rc & E & Hv & Hn & Hl).
    change (tx_vrh (emit (set_tx_vrh c v1) (EvTx head (u32 size)))) with v1. rewrite E. run_bind. exists v2.
    assert (tx_returned (tx_vrh c) v2 head (u32 size)) as Hr2 by (destruct Hr as (? & ? & ?); split; [congruence|split; congruence]).
    destruct (0 <? rc).
    + exists (log c ++ [EvTx head (u32 size)] ++ [EvKick]). split; [unfold emit, noted, set_tx_vrh; cbn; by rewrite <- app_assoc|].
      split; [|done]. by rewrite acts_app.
    + exists (log c ++ [EvTx head (u32 size)]). split; [done|]. split; [by rewrite acts_app|done].
  - exists v1, (log c ++ [EvTx head (u32 size)]). split; [done|]. split; [by rewrite acts_app|done].
Qed.

(** What an item gives back. *)
Definition used_of (i : buffer_dma_item) : list vop_peer_used_kiov :=
  if head_to (to i) =? USHRT_MAX then [] else [mkUk (u32 (bytes_written (to i))) (u16 (head_to (to i)))].
Definition tx_of (i : buffer_dma_item) : list (Z * Z) :=
  if vringh_tx (from i) && negb (head_from (from i) =? USHRT_MAX) then [(head_from (from i), u32 (bytes_read (from i)))] else [].
Definition ev_used (x : vop_peer_used_kiov) : event := EvUsed (uk_head x) (uk_len x).
Definition ev_tx (x : Z * Z) : event := EvTx (fst x) (snd x).
Definition tx_step (vrh vrh' : vringh) (l : list (Z * Z)) : Prop :=
  match l with [] => vrh' = vrh | x :: _ => tx_returned vrh vrh' (fst x) (snd x) end.

(** The items agree but for their heads. *)
Definition same_res (i i1 : buffer_dma_item) : Prop :=
  kvec_to (to i1) = kvec_to (to i) /\ kvec_buff_id (to i1) = kvec_buff_id (to i) /\ remapped (to i1) = remapped (to i)
  /\ tx i1 = tx i /\ id i1 = id i /\ buf i1 = buf i /\ buf_da i1 = buf_da i
  /\ src_phys_da (from i1) = src_phys_da (from i) /\ src_phys_sz (from i1) = src_phys_sz (from i) /\ k_from (from i1) = k_from (from i).

Lemma give_back_ok c i lr cc us :
  used_rep (u_ring c) (u_last c) lr cc us -> zlen us + zlen (used_of i) <= u_num (u_ring c) -> ring_ok (vr (tx_vrh c)) ->
  exists t l vrh' lw' u' i1, give_back c i = Ret (noted (set_tx_vrh (set_used c lw' u') vrh') t l, i1)
    /\ acts l = acts (log c) ++ map ev_used (used_of i) ++ map ev_tx (tx_of i)
    /\ used_rep u' lw' lr cc (us ++ used_of i) /\ u_num u' = u_num (u_ring c) /\ tx_step (tx_vrh c) vrh' (tx_of i) /\ same_res i i1.
Proof.
  intros Hu Hroom Hok. unfold give_back.
  assert (exists t l lw' u' i1, (if negb (head_to (to i) =? USHRT_MAX) then
     c ← vop_kvec_used_item c i; Ret (common_dev_notify_used c, set_head_to i USHRT_MAX) else Ret (c, i))
    = Ret (noted (set_used c lw' u') t l, i1) /\ acts l = acts (log c) ++ map ev_used (used_of i)
    /\ used_rep u' lw' lr cc (us ++ used_of i) /\ u_num u' = u_num (u_ring c) /\ same_res i i1 /\ from i1 = from i)
    as (t & l & lw' & u' & i1 & -> & Hl & Hu' & Hnum & Hs & Hf).
  { unfold used_of in *. destruct (head_to (to i) =? USHRT_MAX); cbn [negb].
    - exists (sent_ts c), (log c), (u_last c), (u_ring c), i. cbn. rewrite !app_nil_r. unfold same_res. by destruct c.
    - change (zlen [_]) with 1 in Hroom.
      destruct (used_put (u_ring c) (u_last c) lr cc us (head_to (to i)) (bytes_written (to i)) Hu ltac:(lia)) as (lw' & u' & E & Hu').
      unfold vop_kvec_used_item. rewrite E. run_bind.
      destruct (notify_noted (emit (set_used c lw' u') (EvUsed (u16 (head_to (to i))) (u32 (bytes_written (to i)))))) as (t & l & -> & Hl).
      exists t, l, lw', u', (set_head_to i USHRT_MAX). split; [done|]. split; [by rewrite Hl; cbn [log emit]; rewrite acts_app|].
      split; [done|]. split; [|split; [by unfold same_res|done]].
      unfold vop_kvec_used in E. destruct (bug_on _); [|done..]. cbn [mbind outcome_bind] in E. destruct (aset _ _ _); [|done..].
      cbn [mbind outcome_bind] in E. by injection E as _ <-. }
  run_bind. rewrite Hf. unfold tx_of. destruct (vringh_tx (from i) && negb (head_from (from i) =? USHRT_MAX)).
  - destruct (put_desc_ok (noted (set_used c lw' u') t l) (head_from (from i)) (bytes_read (from i)) Hok) as (vrh' & l2 & -> & Hl2 & Hr).
    run_bind. exists t, l2, vrh', lw', u', (set_head_from i1 USHRT_MAX). split; [done|].
    split; [rewrite Hl2; cbn [log noted]; by rewrite Hl, <- app_assoc|]. split; [done|]. split; [done|]. split; [exact Hr|].
    destruct Hs as (? & ? & ? & ? & ? & ? & ? & ? & ? & ?). unfold same_res. cbn. by rewrite Hf.
  - exists t, l, (tx_vrh c), lw', u', i1. split; [done|]. cbn [map]. by rewrite app_nil_r.
Qed.

(** The sizes of the peer's rings, and that an item's buffer lies in one of them. *)
Definition shape (l : list shm_ring) : list Z := map (fun s => zlen (s_buf s)) l.
Definition in_ring (sh : list Z) (i : buffer_dma_item) : Prop :=
  exists first m, kvec_to (to i) = Some first /\ 0 <= first < m /\ 0 <= kvec_buff_id (to i) /\ sh !! Z.to_nat (kvec_buff_id (to i)) = Some m.

Lemma clear_ok c i : in_ring (shape (ks c)) i ->
  exists ss, clear_in_use c i = Ret (set_kvecs c (kr c) ss) /\ shape ss = shape (ks c).
Proof.
  intros (first & m & Hk & Hf & Hid & Hs). unfold clear_in_use. rewrite Hk. unfold shape in Hs. rewrite list_lookup_fmap in Hs.
  destruct (ks c !! _) as [s|] eqn:E; [|done]. cbn in Hs. injection Hs as <-. rewrite (aget_ret _ _ _ Hid E). run_bind.
  destruct (aget_total (s_buf s) first ltac:(lia)) as (p & -> & Hp). run_bind. rewrite aset_ret by lia. run_bind.
  rewrite aset_ret by (apply lookup_lt_Some in E; unfold zlen; lia). run_bind. eexists. split; [done|]. unfold shape.
  change (fun s0 => zlen (s_buf s0)) with (fun s0 => zlen (s_buf s0)). rewrite list_fmap_insert. cbn [s_buf]. rewrite zlen_insert.
  apply list_insert_id. by rewrite list_lookup_fmap, E.
Qed.

(** A free item, and what resetting an item returns. *)
Definition clean (i : buffer_dma_item) (k : vringh_kiov) : buffer_dma_item :=
  mkItem (id i) true (buf i) (buf_da i) 0 false (mkFrom 0 0 0 0 false k USHRT_MAX 0) (mkTo (-1) None 0 USHRT_MAX 0 None).
Definition unmap_of (i : buffer_dma_item) : list event :=
  option_list (EvUnmap <$> remapped (to i))
  ++ (if src_phys_da (from i) =? 0 then [] else [EvDmaUnmap (src_phys_da (from i)) (src_phys_sz (from i))]).
(** The vectors of the item can be reset. *)
Definition resets (k : vringh_kiov) : Prop := iov_used k = 0 \/ 0 <= iov_i k < zlen (iov k).

Lemma kiov_reset_ok k : resets k ->
  exists k', (if negb (iov_used k =? 0) then vringh_kiov_reset k else Ret k) = Ret k' /\ zlen (iov k') = zlen (iov k) /\ max_num k' = max_num k
    /\ iov_used k' = iov_used k.
Proof.
  intros [H0|Hi].
  - rewrite H0. by exists k.
  - destruct (negb _); [|by exists k]. unfold vringh_kiov_reset. destruct (aget_total (iov k) (iov_i k) Hi) as ([b l] & -> & _). run_bind.
    rewrite aset_ret by lia. run_bind. eexists. split; [done|]. cbn. by rewrite zlen_insert.
Qed.

Lemma item_reset_ok c n i : has c n i -> resets (k_from (from i)) ->
  exists k', zlen (iov k') = zlen (iov (k_from (from i))) /\ max_num k' = max_num (k_from (from i)) /\ iov_used k' = iov_used (k_from (from i))
    /\ buffer_dma_ring_item_reset c n
       = Ret (upd (noted (set_dmas c (if tx i then map (disable n) (dmas c) else dmas c)) (sent_ts c) (log c ++ unmap_of i)) n (clean i k')).
Proof.
  intros H Hk. unfold buffer_dma_ring_item_reset. item H. destruct (kiov_reset_ok _ Hk) as (k' & E & Hz & Hm & Hu).
  exists k'. split; [done|]. split; [done|]. split; [done|]. rewrite E. run_bind.
  set (c1 := if negb (src_phys_da (from i) =? 0) then _ else _).
  assert (c1 = noted (set_dmas c (if tx i then map (disable n) (dmas c) else dmas c)) (sent_ts c) (log c ++ unmap_of i)) as ->.
  { unfold c1, unmap_of. destruct (tx i), (remapped (to i)), (src_phys_da (from i) =? 0); cbn [negb option_list fmap option_fmap option_map app];
      unfold emit, set_dmas, noted; cbn; rewrite ?app_nil_r, <- ?app_assoc; by destruct c. }
  apply has_put with (i := i). exact H.
Qed.

(** The item goes back into the ring: what it held has been given back, and nothing else
    has changed. *)
Record finished (c : cdev) (n : Z) (i : buffer_dma_item) (lr cc : Z) (us : list vop_peer_used_kiov) (c' : cdev) : Prop := {
  fi_log : acts (log c') = acts (log c) ++ map ev_used (used_of i) ++ map ev_tx (tx_of i) ++ unmap_of i;
  fi_ring : exists k', ring c' = set_items (ring c) (<[Z.to_nat n := clean i k']> (items (ring c)));
  fi_same : ready c' = ready c /\ feature_desc_alignment c' = feature_desc_alignment c /\ write_in_thread c' = write_in_thread c
    /\ lmem c' = lmem c /\ pmem c' = pmem c /\ kr c' = kr c;
  fi_dmas : dmas c' = if tx i then map (disable n) (dmas c) else dmas c;
  fi_shape : shape (ks c') = shape (ks c);
  fi_used : used_rep (u_ring c') (u_last c') lr cc (us ++ used_of i) /\ u_num (u_ring c') = u_num (u_ring c);
  fi_tx : tx_step (tx_vrh c) (tx_vrh c') (tx_of i);
}.

Lemma acts_unmap i : acts (unmap_of i) = unmap_of i.
Proof. unfold unmap_of. by destruct (remapped (to i)), (src_phys_da (from i) =? 0). Qed.

Lemma transfer_done_ok c n i lr cc us :
  has c n i -> status_ready i = false -> in_ring (shape (ks c)) i -> resets (k_from (from i)) ->
  used_rep (u_ring c) (u_last c) lr cc us -> zlen us + zlen (used_of i) <= u_num (u_ring c) -> ring_ok (vr (tx_vrh c)) ->
  exists c', transfer_done c n = Ret c' /\ finished c n i lr cc us c'.
Proof.
  intros H Hst Hin Hk Hu Hroom Hok. unfold transfer_done. item H. rewrite Hst. cbn [negb].
  destruct (give_back_ok c i lr cc us Hu Hroom Hok) as (t & l & vrh' & lw' & u' & i1 & -> & Hl & Hu' & Hnum & Htx & Hs). run_bind.
  destruct Hs as (Ek & Eid & Er & Et & En & Eb & Ed & Eda & Esz & Ekf).
  set (c1 := noted _ t l). assert (in_ring (shape (ks c1)) i1) as Hin1.
  { destruct Hin as (first & m & ? & ? & ? & ?). exists first, m. by rewrite Ek, Eid. }
  destruct (clear_ok c1 i1 Hin1) as (ss & -> & Hsh). run_bind. set (c2 := set_kvecs c1 (kr c1) ss).
  rewrite (has_put c2 n i _ H). run_bind. pose proof (has_upd c2 n i i1 H) as H2.
  destruct (item_reset_ok _ n i1 H2 ltac:(by rewrite Ekf)) as (k' & _ & _ & _ & ->). eexists. split; [done|].
  assert (clean i1 k' = clean i k') as Hcl by (unfold clean; by rewrite En, Eb, Ed). rewrite Hcl.
  assert (unmap_of i1 = unmap_of i) as Hun by (unfold unmap_of; by rewrite Er, Eda, Esz).
  split; cbn [log ring ready feature_desc_alignment write_in_thread lmem pmem kr dmas ks u_ring u_last tx_vrh upd set_ring noted set_dmas c2 set_kvecs c1 set_tx_vrh set_used]; try done.
  - rewrite acts_app, Hl, Hun, acts_unmap. by rewrite <- !app_assoc.
  - exists k'. unfold set_items. cbn. by rewrite list_insert_insert_eq.
  - by rewrite Et.
Qed.

(** ** The callback *)

Definition started (i : buffer_dma_item) : bool := negb (jiffies i =? 0).
Definition item_events (i : buffer_dma_item) : list event := map ev_used (used_of i) ++ map ev_tx (tx_of i) ++ unmap_of i.
(** A copy that was started can be finished. *)
Definition live (sh : list Z) (i : buffer_dma_item) : Prop :=
  started i = true -> status_ready i = false /\ in_ring sh i /\ resets (k_from (from i)).

(** The items [its] from the counter [a] on have been passed: the started ones are
    finished, in order, and free. *)
Record swept (c : cdev) (a : Z) (its : list buffer_dma_item) (lr cc : Z) (us : list vop_peer_used_kiov) (c' : cdev) : Prop := {
  sw_log : acts (log c') = acts (log c) ++ concat (map item_events (List.filter started its));
  sw_done : forall j i, its !! j = Some i ->
    exists i', items (ring c') !! Z.to_nat ((a + Z.of_nat j) mod 512) = Some i' /\ (if started i then exists k, i' = clean i k else i' = i);
  sw_other : forall x, (forall j, (j < length its)%nat -> x <> Z.to_nat ((a + Z.of_nat j) mod 512)) ->
    items (ring c') !! x = items (ring c) !! x;
  sw_len : length (items (ring c')) = length (items (ring c));
  sw_counters : indicator_rcv (ring c') = indicator_rcv (ring c) /\ counter_dma_send (ring c') = counter_dma_send (ring c)
    /\ counter_done_transfer (ring c') = u16 (counter_done_transfer (ring c) + zlen its);
  sw_same : ready c' = ready c /\ feature_desc_alignment c' = feature_desc_alignment c /\ write_in_thread c' = write_in_thread c
    /\ lmem c' = lmem c /\ pmem c' = pmem c /\ kr c' = kr c /\ shape (ks c') = shape (ks c);
  sw_dmas : Forall (fun i => tx i = false) its -> dmas c' = dmas c;
  sw_used : used_rep (u_ring c') (u_last c') lr cc (us ++ concat (map used_of (List.filter started its))) /\ u_num (u_ring c') = u_num (u_ring c);
  sw_tx : ring_ok (vr (tx_vrh c'));
}.

Lemma ring_next x : Z.land (x mod 512 + 1) VOP_RING_SIZE_MASK = (x + 1) mod 512.
Proof. change VOP_RING_SIZE_MASK with (2 ^ 9 - 1). rewrite land_mask by lia. by rewrite Zplus_mod_idemp_l. Qed.
Lemma dma_ring_mask x : Z.land x VOP_RING_SIZE_MASK = x mod 512.
Proof. exact (land_mask x 9 ltac:(lia)). Qed.

(** Different counters less than a turn apart are different places. *)
Lemma place_ne a j k : 0 <= j < 512 -> 0 <= k < 512 -> j <> k -> (a + j) mod 512 <> (a + k) mod 512.
Proof.
  intros Hj Hk Hne E. assert ((a + j - (a + k)) mod 512 = 0) as H by (rewrite Zminus_mod, E, Z.sub_diag; done).
  apply Z.mod_divide in H as [q Hq]; [|done]. lia.
Qed.

(** One turn of the loop. *)
Record turned (c : cdev) (x : Z) (i : buffer_dma_item) (lr cc : Z) (us : list vop_peer_used_kiov) (c' : cdev) : Prop := {
  tu_log : acts (log c') = acts (log c) ++ (if started i then item_events i else []);
  tu_ring : exists i', ring c' = set_items (ring c) (<[Z.to_nat x := i']> (items (ring c))) /\ (if started i then exists k, i' = clean i k else i' = i);
  tu_same : ready c' = ready c /\ feature_desc_alignment c' = feature_desc_alignment c /\ write_in_thread c' = write_in_thread c
    /\ lmem c' = lmem c /\ pmem c' = pmem c /\ kr c' = kr c /\ shape (ks c') = shape (ks c);
  tu_dmas : tx i = false -> dmas c' = dmas c;
  tu_used : used_rep (u_ring c') (u_last c') lr cc (us ++ (if started i then used_of i else [])) /\ u_num (u_ring c') = u_num (u_ring c);
  tu_tx : ring_ok (vr (tx_vrh c'));
}.
Lemma done_turn_ok c x i lr cc us :
  has c x i -> live (shape (ks c)) i -> used_rep (u_ring c) (u_last c) lr cc us ->
  zlen us + zlen (if started i then used_of i else []) <= u_num (u_ring c) -> ring_ok (vr (tx_vrh c)) ->
  exists c', (if negb (jiffies i =? 0) then c ← put_item c x (set_jiffies i 0); transfer_done c x else Ret c) = Ret c'
    /\ turned c x i lr cc us c'.
Proof.
  intros H Hlive Hu Hroom Hok. unfold live in Hlive. change (negb (jiffies i =? 0)) with (started i). destruct (started i) eqn:Es.
  - destruct (Hlive eq_refl) as (Hst & Hin & Hk). put H.
    destruct (transfer_done_ok (upd c x (set_jiffies i 0)) x (set_jiffies i 0) lr cc us) as (c' & E & [Hl (k & Hr) Hs Hd Hsh Hus Htx]); try done;
      [by eapply has_upd|]. exists c'. split; [exact E|]. destruct Hs as (? & ? & ? & ? & ? & ?).
    split; rewrite ?Es; try done.
    + exists (clean i k). split; [|by exists k]. rewrite Hr. cbn. unfold set_items. cbn. by rewrite list_insert_insert_eq.
    + cbn in Hd. intros Ht. by rewrite Ht in Hd.
    + unfold tx_step in Htx. destruct (tx_of _); [by rewrite Htx|]. by eapply tx_returned_ok.
  - exists c. split; [done|]. split; rewrite ?Es, ?app_nil_r; try done. exists i. split; [|done].
    destruct H as [_ Hl]. rewrite list_insert_id by done. by destruct (ring c).
Qed.

Lemma started_cons i its : concat (map item_events (List.filter started (i :: its))) = (if started i then item_events i else []) ++ concat (map item_events (List.filter started its)).
Proof. cbn. by destruct (started i). Qed.
Lemma used_cons i its : concat (map used_of (List.filter started (i :: its))) = (if started i then used_of i else []) ++ concat (map used_of (List.filter started its)).
Proof. cbn. by destruct (started i). Qed.

Definition counted (c : cdev) : cdev :=
  let r := ring c in set_ring c (mkRing (items r) (indicator_rcv r) (counter_dma_send r) (u16 (counter_done_transfer r + 1))).

Lemma swept_cons c a i its lr cc us c1 c' :
  has c (a mod 512) i -> zlen its < 511 -> turned c (a mod 512) i lr cc us c1 ->
  swept (counted c1) (a + 1) its lr cc (us ++ (if started i then used_of i else [])) c' -> swept c a (i :: its) lr cc us c'.
Proof.
  intros [_ Hi] Hlt [Tl (i' & Tr & Ti) Ts Td [_ Tn] _] [Sl Sd So Sn Sc Ss Sdm [Su Snum] St]. cbn [counted log ring ready set_ring] in *.
  unfold zlen in Hlt. rewrite Tr in *. cbn [items set_items indicator_rcv counter_dma_send counter_done_transfer] in *.
  assert (forall j, (j < length its)%nat -> (a + 1 + Z.of_nat j) mod 512 <> a mod 512) as Hne.
  { intros j Hj E. apply (place_ne a (1 + Z.of_nat j) 0); [lia..|]. rewrite Z.add_assoc, Z.add_0_r. exact E. }
  pose proof (Z.mod_pos_bound a 512 ltac:(lia)) as Hb.
  split.
  - by rewrite Sl, Tl, started_cons, <- app_assoc.
  - intros [|j] x Hj.
    + injection Hj as ->. rewrite Z.add_0_r. exists i'. split; [|done]. rewrite So.
      * apply list_lookup_insert_eq. by eapply lookup_lt_Some.
      * intros j Hj E. pose proof (Z.mod_pos_bound (a + 1 + Z.of_nat j) 512 ltac:(lia)). apply (Hne j Hj). lia.
    + destruct (Sd j x Hj) as (x' & Hx & Hc). exists x'. split; [|done]. by replace (a + Z.of_nat (S j)) with (a + 1 + Z.of_nat j) by lia.
  - intros x Hx. rewrite So.
    + rewrite list_lookup_insert_ne; [done|]. intros E. apply (Hx 0%nat); [cbn; lia|]. by rewrite Z.add_0_r.
    + intros j Hj. specialize (Hx (S j) ltac:(cbn; lia)). by replace (a + Z.of_nat (S j)) with (a + 1 + Z.of_nat j) in Hx by lia.
  - by rewrite Sn, length_insert.
  - destruct Sc as (-> & -> & ->). split; [done|]. split; [done|]. rewrite zlen_cons. unfold u16, wrap. rewrite Zplus_mod_idemp_l. f_equal. lia.
  - destruct Ss as (S1 & S2 & S3 & S4 & S5 & S6 & S7), Ts as (T1 & T2 & T3 & T4 & T5 & T6 & T7).
    exact (conj (eq_trans S1 T1) (conj (eq_trans S2 T2) (conj (eq_trans S3 T3) (conj (eq_trans S4 T4) (conj (eq_trans S5 T5)
      (conj (eq_trans S6 T6) (eq_trans S7 T7))))))).
  - intros Ht. inversion Ht; subst. rewrite Sdm by done. cbn. by apply Td.
  - split; [|cbn in Snum; congruence]. by rewrite used_cons, app_assoc.
  - done.
Qed.

Lemma sweep_ok its : forall fuel c a lr cc us,
  ready c <> 0 -> zlen its < 512 -> (length its <= fuel)%nat -> fits 16 (counter_done_transfer (ring c)) ->
  (forall j i, its !! j = Some i -> items (ring c) !! Z.to_nat ((a + Z.of_nat j) mod 512) = Some i) ->
  Forall (live (shape (ks c))) its -> used_rep (u_ring c) (u_last c) lr cc us ->
  zlen us + zlen (concat (map used_of (List.filter started its))) <= u_num (u_ring c) -> ring_ok (vr (tx_vrh c)) ->
  exists c', done_loop fuel c (a mod 512) ((a + zlen its) mod 512) = Ret c' /\ swept c a its lr cc us c'.
Proof.
  induction its as [|i its IH]; intros fuel c a lr cc us Hready Hlt Hfuel Hcnt Hits Hlive Hu Hroom Hok.
  { change (zlen []) with 0. rewrite Z.add_0_r. exists c. split.
    - unfold done_loop. destruct fuel; by rewrite Z.eqb_refl, orb_true_r.
    - split; cbn; try done; rewrite ?app_nil_r; try done. change (zlen []) with 0. rewrite Z.add_0_r.
      split; [done|]. split; [done|]. symmetry. by apply u16_small. }
  rewrite zlen_cons in *. inversion Hlive as [|? ? Hi Hlive']; subst. pose proof (zlen_nonneg its) as Hz.
  assert (has c (a mod 512) i) as H. { split; [by apply Z.mod_pos_bound|]. specialize (Hits 0%nat i eq_refl). by rewrite Z.add_0_r in Hits. }
  destruct fuel as [|fuel]; [cbn in Hfuel; lia|]. cbn [done_loop].
  rewrite (proj2 (Z.eqb_neq _ _) Hready), (proj2 (Z.eqb_neq (a mod 512) _)).
  2:{ rewrite <- (Z.add_0_r a) at 1. apply place_ne; lia. }
  cbn [orb]. item H. rewrite used_cons, zlen_app in Hroom. pose proof (zlen_nonneg (concat (map used_of (List.filter started its)))) as Hz2.
  destruct (done_turn_ok c (a mod 512) i lr cc us H Hi Hu ltac:(lia) Hok) as (c1 & -> & Ht). run_bind. fold (counted c1). rewrite ring_next.
  destruct (tu_ring _ _ _ _ _ _ _ Ht) as (i' & Hr & _). destruct (tu_same _ _ _ _ _ _ _ Ht) as (Er & _ & _ & _ & _ & _ & Esh).
  destruct (tu_used _ _ _ _ _ _ _ Ht) as (Hu1 & Hnum).
  destruct (IH fuel (counted c1) (a + 1) lr cc (us ++ (if started i then used_of i else []))) as (c' & E & Hs); cbn [counted ready ring set_ring ks u_ring u_last tx_vrh items counter_done_transfer].
  - by rewrite Er.
  - lia.
  - cbn in Hfuel. lia.
  - apply u16_range.
  - intros j x Hj. rewrite Hr. cbn. rewrite list_lookup_insert_ne.
    + specialize (Hits (S j) x Hj). by replace (a + Z.of_nat (S j)) with (a + 1 + Z.of_nat j) in Hits by lia.
    + apply lookup_lt_Some in Hj. unfold zlen in Hlt. pose proof (Z.mod_pos_bound a 512 ltac:(lia)).
      pose proof (Z.mod_pos_bound (a + 1 + Z.of_nat j) 512 ltac:(lia)). intros E.
      apply (place_ne a (1 + Z.of_nat j) 0); [lia..|]. rewrite Z.add_assoc, Z.add_0_r. lia.
  - by rewrite Esh.
  - exact Hu1.
  - rewrite zlen_app, Hnum. lia.
  - by apply Ht.
  - exists c'. replace (a + (1 + zlen its)) with (a + 1 + zlen its) by lia. split; [exact E|]. eapply swept_cons; [exact H|lia|exact Ht|exact Hs].
Qed.

Lemma vop_callback_ok c n i its lr cc us :
  let a := counter_done_transfer (ring c) in
  ready c <> 0 -> fits 16 a -> has c n i -> id i = n -> zlen its < 511 -> n = (a + zlen its) mod 512 ->
  (forall j x, its !! j = Some x -> items (ring c) !! Z.to_nat ((a + Z.of_nat j) mod 512) = Some x) ->
  Forall (live (shape (ks c))) (its ++ [i]) -> used_rep (u_ring c) (u_last c) lr cc us ->
  zlen us + zlen (concat (map used_of (List.filter started (its ++ [i])))) <= u_num (u_ring c) -> ring_ok (vr (tx_vrh c)) ->
  exists c', transfer_done_callback c n = Ret c' /\ swept (upd c n (set_tx i false)) a (its ++ [set_tx i false]) lr cc us c'.
Proof.
  intros a Hready Ha H Hid Hlt Hn Hits Hlive Hu Hroom Hok. unfold transfer_done_callback. item H. put H. rewrite !dma_ring_mask, Hid. fold a.
  assert ((n + 1) mod 512 = (a + zlen (its ++ [set_tx i false])) mod 512) as ->.
  { rewrite zlen_app, Hn, Zplus_mod_idemp_l. f_equal. change (zlen [_]) with 1. lia. }
  pose proof (zlen_nonneg its). pose proof (Z.mod_pos_bound (a + zlen its) 512 ltac:(lia)) as Hb. apply sweep_ok; try done.
  - rewrite zlen_app. change (zlen [_]) with 1. lia.
  - unfold zlen in Hlt. rewrite length_app. cbn. unfold VOP_RING_SIZE. lia.
  - intros j x Hj. apply lookup_app_Some in Hj as [Hj|[Hge Hj]].
    + pose proof (lookup_lt_Some _ _ _ Hj) as Hjl. cbn. rewrite list_lookup_insert_ne; [by apply Hits|].
      unfold zlen in *. pose proof (Z.mod_pos_bound (a + Z.of_nat j) 512 ltac:(lia)). intros E.
      apply (place_ne a (Z.of_nat j) (Z.of_nat (length its))); lia.
    + pose proof (lookup_lt_Some _ _ _ Hj) as Hjl. cbn in Hjl. assert (j = length its) as -> by lia. rewrite Nat.sub_diag in Hj. injection Hj as <-.
      unfold zlen in Hn. rewrite <- Hn. cbn. apply list_lookup_insert_eq. by eapply lookup_lt_Some, H.
  - apply Forall_app in Hlive as [H1 H2]. apply Forall_app. split; [done|]. inversion H2; subst. by constructor.
  - revert Hroom. rewrite !List.filter_app. cbn [List.filter]. change (started (set_tx i false)) with (started i).
    destruct (started i); rewrite !map_app; cbn; done.
Qed.

(** C24. The callback of the item [n] finishes every copy that was started from the last
    finished one up to [n], in the order of the ring: the peer's buffer is reported as
    used, the local buffer is returned, window and mapping are given back, and the item
    is free.  Items that were not started are passed over and all others are left alone,
    as long as fewer than 511 items were missed. *)
Theorem transfer_done_callback_correct c n i its lr cc us :
  let a := counter_done_transfer (ring c) in
  ready c <> 0 -> fits 16 a -> has c n i -> id i = n -> zlen its < 511 -> n = (a + zlen its) mod 512 ->
  (forall j x, its !! j = Some x -> items (ring c) !! Z.to_nat ((a + Z.of_nat j) mod 512) = Some x) ->
  Forall (live (shape (ks c))) (its ++ [i]) -> used_rep (u_ring c) (u_last c) lr cc us ->
  zlen us + zlen (concat (map used_of (List.filter started (its ++ [i])))) <= u_num (u_ring c) -> ring_ok (vr (tx_vrh c)) ->
  exists c', transfer_done_callback c n = Ret c' /\ swept (upd c n (set_tx i false)) a (its ++ [set_tx i false]) lr cc us c'.
Proof. apply vop_callback_ok. Qed.

(** When 511 items were passed without a callback, as after 511 submissions that failed,
    the next callback does nothing: the item stays in use for ever. *)
Theorem transfer_done_callback_lost c n i :
  has c n i -> id i = n -> n = (counter_done_transfer (ring c) + 511) mod 512 ->
  transfer_done_callback c n = Ret (upd c n (set_tx i false)).
Proof.
  intros H Hid Hn. unfold transfer_done_callback. item H. put H. rewrite !dma_ring_mask, Hid, Hn, Zplus_mod_idemp_l.
  replace (counter_done_transfer (ring c) + 511 + 1) with (counter_done_transfer (ring c) + 1 * 512) by lia. rewrite Z.mod_add by lia.
  change (Z.to_nat VOP_RING_SIZE) with 512%nat. cbn [done_loop]. by rewrite Z.eqb_refl, orb_true_r.
Qed.

(** ** Memory *)

Lemma mem_read_lookup m a n j : 0 <= j < n -> mem_read m a n !! Z.to_nat j = Some (m (a + j)).
Proof. intros Hj. unfold mem_read. rewrite list_lookup_fmap, lookup_seqZ_lt by lia. cbn. by rewrite Z2Nat.id by lia. Qed.
Lemma mem_read_length m a n : 0 <= n -> zlen (mem_read m a n) = n.
Proof. intros Hn. unfold zlen, mem_read. rewrite length_fmap, length_seqZ. lia. Qed.
Lemma mem_read_ext m m' a a' n : (forall j, 0 <= j < n -> m (a + j) = m' (a' + j)) -> mem_read m a n = mem_read m' a' n.
Proof.
  intros H. apply list_eq. intros j. unfold mem_read. rewrite !list_lookup_fmap.
  destruct (decide (Z.of_nat j < n)) as [Hj|Hj].
  - rewrite !lookup_seqZ_lt by lia. cbn. f_equal. apply H. lia.
  - by rewrite !lookup_seqZ_ge by lia.
Qed.
Lemma mem_write_out m a l x : x < a \/ a + zlen l <= x -> mem_write m a l x = m x.
Proof.
  intros Hx. unfold mem_write. destruct (a <=? x) eqn:E; bools; [|done]. rewrite lookup_ge_None_2; [done|].
  unfold zlen in Hx. lia.
Qed.
Lemma mem_write_in m a m' b n j : 0 <= j < n -> mem_write m a (mem_read m' b n) (a + j) = m' (b + j).
Proof.
  intros Hj. unfold mem_write. rewrite (proj2 (Z.leb_le a (a + j))) by lia.
  replace (a + j - a) with j by lia. by rewrite mem_read_lookup.
Qed.

(** The memory behind the window after the offset was written and the copy was made. *)
Lemma placed_memory m m' dst pa src size new_dst new_src len offset : 0 <= size ->
  placed dst src size new_dst new_src len offset ->
  let m2 := mem_write (mem_write m pa [offset]) (pa + (new_dst - dst)) (mem_read m' new_src len) in
  m2 pa = offset /\ mem_read m2 (pa + offset) size = mem_read m' src size
  /\ (forall x, x < pa \/ pa + size + SEND_ALIGN_OVERHEAD_SIZE <= x -> m2 x = m x).
Proof.
  intros Hz [_ _ _ Ho Hd Hf Hl Hb He] m2. assert (0 <= len) as Hlen by lia. subst m2. split; [|split].
  - rewrite mem_write_out by lia. unfold mem_write. by rewrite Z.leb_refl, Z.sub_diag.
  - apply mem_read_ext. intros j Hj. replace (pa + offset + j) with (pa + (new_dst - dst) + (src - new_src + j)) by lia.
    rewrite mem_write_in by lia. f_equal. lia.
  - intros x Hx. unfold SEND_ALIGN_OVERHEAD_SIZE, DMA_MAX_OFFSET, PLX_DMA_ALIGN_BYTES in *.
    rewrite !mem_write_out; [done|..]; rewrite ?mem_read_length by lia; change (zlen [offset]) with 1; lia.
Qed.

(** C25. When the data is copied directly, the copy that is submitted is aligned to 64 bytes on
    both sides, contains the data, lies inside the window of the data's size and 191
    bytes and does not touch its first byte, which tells the peer where the data is: the
    offset is between 1 and 127, so that it fits into the byte and neither of the
    assertions of the driver can fail. *)
Theorem transfer_dma_send_in_window c n i dst pa size :
  has c n i -> feature_desc_alignment c = true -> remapped (to i) = Some (dst, pa) -> tx i = false -> 0 <= cookie e (now c) ->
  0 < src_phys (from i) -> 0 <= dst -> 0 <= size -> dst + size + 256 < 2 ^ 64 -> src_phys (from i) + size + 128 < 2 ^ 64 ->
  exists c' new_src d offset, transfer_dma_send c n dst size = Ret (c', 0) /\ dmas c' = dmas c ++ [d]
    /\ pmem c' = mem_write (pmem c) pa [offset] /\ d_src d = Some new_src
    /\ d_dst d mod 64 = 0 /\ new_src mod 64 = 0 /\ d_len d mod 64 = 0 /\ 1 <= offset <= DMA_MAX_OFFSET
    /\ dst < d_dst d /\ d_dst d + d_len d <= dst + size + SEND_ALIGN_OVERHEAD_SIZE
    /\ new_src <= src_phys (from i) /\ src_phys (from i) + size <= new_src + d_len d
    /\ d_dst d + (src_phys (from i) - new_src) = dst + offset.
Proof.
  intros H Ha Hw Htx Hck Hsrc Hd Hz Hd2 Hs2.
  destruct (dma_send_aligned c n i dst pa size H Ha Hw Htx Hsrc Hd Hz Hd2 Hs2) as (nd & ns & len & offset & Hp & ->).
  unfold submitted. cbn [now emit set_pmem]. rewrite (proj2 (Z.ltb_ge _ _) Hck).
  eexists _, ns, _, offset. split; [done|]. split; [done|]. split; [done|]. split; [done|]. destruct Hp. cbn. tauto.
Qed.

(** ** A packet, from the transmit queue to the peer *)

(** The vectors have been taken, the buffer has been read, a buffer of the peer was found. *)
Definition fetched (i : buffer_dma_item) (k : vringh_kiov) (head : Z) : buffer_dma_item :=
  let f := from i in set_from i (mkFrom (data_size f) (src_phys f) (src_phys_da f) (src_phys_sz f) true k head (bytes_read f)).
Definition loaded (i : buffer_dma_item) (v0 v1 : Z * Z) : buffer_dma_item :=
  let f := from i in let k := k_from f in
  set_from i (mkFrom (snd v1) (fst v1) (src_phys_da f) (src_phys_sz f) (vringh_tx f) (mkIov (iov k) (consumed k) 2 2 (max_num k))
    (head_from f) (u64 (u64 (bytes_read f + snd v0) + snd v1))).
Definition taken (i : buffer_dma_item) (rid head first : Z) : buffer_dma_item :=
  set_to i (mkTo rid (Some first) 2 head (bytes_written (to i)) (remapped (to i))).

Lemma read_ok c n i v0 v1 :
  has c n i -> feature_desc_alignment c = true -> iov_used (k_from (from i)) = 2 -> iov_i (k_from (from i)) = 0 ->
  vecs (k_from (from i)) = [v0; v1] -> transfer_read c n = Ret (upd c n (loaded i v0 v1), 0).
Proof.
  intros H Ha Hu Hi Hv. unfold vecs in Hv. rewrite Hu in Hv. change (Z.to_nat 2) with 2%nat in Hv.
  assert (aget (iov (k_from (from i))) 0 = Ret v0 /\ aget (iov (k_from (from i))) 1 = Ret v1) as [G0 G1].
  { destruct (iov (k_from (from i))) as [|x [|y l]]; try done. cbn in Hv. injection Hv as -> ->. done. }
  unfold transfer_read. item H. rewrite Hu, Hi. simpl bug_on. run_bind. cbn [Z.eqb Pos.eqb negb].
  unfold read_loop. rewrite Hi, Hu. cbn [Z.ltb Z.compare negb]. rewrite G0. run_bind. destruct v0 as [b0 l0], v1 as [b1 l1].
  cbn [Z.eqb from set_from k_from iov_i iov_used iov Z.ltb Z.compare negb]. change (u32 (0 + 1)) with 1. cbn [Z.ltb Z.compare Pos.compare Pos.compare_cont negb].
  rewrite G1. run_bind. cbn [Z.eqb Pos.eqb]. rewrite Ha. run_bind. cbn [from set_from k_from iov_i iov_used iov negb]. change (u32 (1 + 1)) with 2.
  cbn [Z.ltb Z.compare Pos.compare Pos.compare_cont negb]. run_bind. cbn [negb andb]. run_bind.
  rewrite (has_put c n i _ H). run_bind. reflexivity.
Qed.

Lemma kvec_get_first m w r s rd pub wr g q :
  ring_rep m w r s rd pub wr (g :: q) -> rd < pub -> g_cancelled g = false ->
  exists r' s', vop_kvec_get r s = Ret (r', s', inr (KvecBuff.mkItem (g_head g) (slot m rd) 2))
    /\ s_buf s' !! Z.to_nat (slot m rd) = Some (mkPk (g_v0 g) 0 VOP_KVEC_FLAG_IN_USE)
    /\ s_buf s' !! Z.to_nat (slot m rd + 1) = Some (mkPk (g_v1 g) 0 0)
    /\ ring_rep m w r' s' (rd + 1) pub wr q.
Proof.
  intros Hrep Hlt Hc. destruct (kvec_get_ok _ _ _ _ _ _ _ _ Hrep) as ([|x q1] & q2 & Hq & Hf & Hor).
  - change (zlen []) with 0 in Hor. rewrite Z.add_0_r in Hor. cbn in Hq. subst q2.
    destruct Hor as [[? _]|(_ & g' & q3 & r' & s' & [= <- <-] & _ & E & H0 & H1 & Hr)]; [lia|]. by exists r', s'.
  - injection Hq as <- _. inversion Hf. congruence.
Qed.

Lemma wait_ok fuel c n i rid m w r s rd pub wr g q :
  has c n i -> rid = vop_kvec_size_to_ring_id (ks c) (u64 (data_size (from i) + SEND_ALIGN_OVERHEAD_SIZE)) -> 0 <= rid ->
  kr c !! Z.to_nat rid = Some r -> ks c !! Z.to_nat rid = Some s -> ring_rep m w r s rd pub wr (g :: q) -> rd < pub -> g_cancelled g = false ->
  exists r' s', transfer_wait fuel c n = Ret (upd (set_kvecs c (<[Z.to_nat rid := r']> (kr c)) (<[Z.to_nat rid := s']> (ks c))) n
      (taken i rid (g_head g) (slot m rd)), 0)
    /\ s_buf s' !! Z.to_nat (slot m rd) = Some (mkPk (g_v0 g) 0 VOP_KVEC_FLAG_IN_USE)
    /\ s_buf s' !! Z.to_nat (slot m rd + 1) = Some (mkPk (g_v1 g) 0 0)
    /\ ring_rep m w r' s' (rd + 1) pub wr q.
Proof.
  intros H Hrid Hr0 Hkr Hks Hrep Hlt Hc. unfold transfer_wait. item H. rewrite <- Hrid.
  rewrite (proj2 (Z.ltb_ge rid 0)) by lia. simpl bug_on. run_bind. put H.
  pose proof (has_upd c n i (set_buff_id i rid) H) as H1. unfold vop_kvec_get_item. item H1.
  change (kvec_buff_id (to (set_buff_id i rid))) with rid. rewrite (proj2 (Z.ltb_ge rid 0)) by lia. simpl bug_on. run_bind.
  change (kr (upd c n _)) with (kr c). change (ks (upd c n _)) with (ks c).
  rewrite (aget_ret _ _ _ Hr0 Hkr), (aget_ret _ _ _ Hr0 Hks). run_bind.
  destruct (kvec_get_first _ _ _ _ _ _ _ _ _ Hrep Hlt Hc) as (r' & s' & -> & H0 & H2 & Hrep'). run_bind.
  pose proof (lookup_lt_Some _ _ _ Hkr). pose proof (lookup_lt_Some _ _ _ Hks).
  rewrite !aset_ret by (unfold zlen; lia). run_bind.
  set (c1 := set_kvecs _ _ _). rewrite (has_put c1 n (set_buff_id i rid) _ H1). run_bind. cbn [Z.eqb].
  exists r', s'. split; [|done]. f_equal. f_equal.
  change c1 with (upd (set_kvecs c (<[Z.to_nat rid := r']> (kr c)) (<[Z.to_nat rid := s']> (ks c))) n (set_buff_id i rid)). by rewrite upd_upd.
Qed.

(** The copy of an item is on its way: the item, and the state around it. *)
Definition on_its_way (i : buffer_dma_item) (v0 : Z * Z) (w : Z * Z) (da len j : Z) : buffer_dma_item :=
  set_jiffies (set_tx (mapped (set_remapped (set_written i (total i v0)) (Some w)) da len) true) j.
Definition en_route (c : cdev) (n : Z) (i : buffer_dma_item) krs kss t (M : Z -> Z) (d : dma) (l : list event) : cdev :=
  mkCdev (ready c) (feature_desc_alignment c) (write_in_thread c) t (tx_vrh c) krs kss (u_last c) (u_ring c) (ring (upd c n i)) (lmem c)
    M (dmas c ++ [d]) (S (S (now c))) l.

Lemma write_sends c n i v0 v1 a :
  has c n i -> feature_desc_alignment c = true -> tx i = false -> num_kvecs_to (to i) = 2 -> dest c i v0 v1 ->
  remap e (now c) = Some a -> 0 <= cookie e (S (now c)) ->
  0 < src_phys (from i) -> 0 <= data_size (from i) -> data_size (from i) + SEND_ALIGN_OVERHEAD_SIZE <= snd v1 ->
  0 <= a -> a + data_size (from i) + 256 < 2 ^ 64 -> src_phys (from i) + data_size (from i) + 128 < 2 ^ 64 ->
  exists t l j nd ns len offset, placed a (src_phys (from i)) (data_size (from i)) nd ns len offset /\ j <> 0
    /\ acts l = acts (log c) ++ [EvMap (a, fst v1) (data_size (from i) + SEND_ALIGN_OVERHEAD_SIZE); EvDmaMap (dma_map e ns) len]
    /\ transfer_write c n
       = Ret (en_route c n (on_its_way i v0 (a, fst v1) (dma_map e ns) len j) (kr c) (ks c) t (mem_write (pmem c) (fst v1) [offset])
                (mkDma n true nd (a, fst v1) (Some ns) len) l, 0).
Proof.
  intros H Ha Htx Hn2 Hd Hr Hck Hsrc Hz Hsz Ha0 Ha1 Hs1.
  assert (u64 (data_size (from i) + SEND_ALIGN_OVERHEAD_SIZE) = data_size (from i) + SEND_ALIGN_OVERHEAD_SIZE) as Eu
    by (unfold SEND_ALIGN_OVERHEAD_SIZE, DMA_MAX_OFFSET, PLX_DMA_ALIGN_BYTES in *; apply u64_small; lia).
  destruct (write_ok c n i v0 v1 a H Hn2 Hd ltac:(lia) Hr) as (t & l & Hl & ->).
  set (c1 := windowed c n i v0 v1 a t l). set (i1 := set_remapped (set_written i (total i v0)) (Some (a, fst v1))).
  assert (has c1 n i1) as H1 by (apply (has_upd (tick (noted c t l)) n i i1 H)).
  destruct (dma_send_aligned c1 n i1 a (fst v1) (data_size (from i)) H1 Ha eq_refl Htx Hsrc Ha0 Hz Ha1 Hs1) as (nd & ns & len & offset & Hp & ->).
  exists t, ((l ++ [EvMap (a, fst v1) (data_size (from i) + SEND_ALIGN_OVERHEAD_SIZE)]) ++ [EvDmaMap (dma_map e ns) len]),
    (get_time_jiff_not_zero c1), nd, ns, len, offset. split; [done|]. split; [apply get_time_nonzero|].
  split; [by rewrite !acts_app, Hl, <- app_assoc|].
  unfold submitted. change (now (emit _ _)) with (S (now c)). rewrite (proj2 (Z.ltb_ge _ _) Hck).
  set (j := get_time_jiff_not_zero c1). set (M := mem_write _ _ _). set (i2 := set_jiffies _ j).
  unfold c1, windowed. rewrite Eu. fold i1.
  change (tick (emit (set_pmem (emit (upd ?x n i1) ?ev) M) ?ev'))
    with (upd (tick (emit (set_pmem (emit x ev) M) ev')) n i1).
  rewrite upd_upd. reflexivity.
Qed.

Lemma transfer_sends fuel c n i v0 v1 rid m w r s rd pub wr g q a :
  has c n i -> feature_desc_alignment c = true -> write_in_thread c = false -> tx i = false ->
  iov_used (k_from (from i)) = 2 -> iov_i (k_from (from i)) = 0 -> vecs (k_from (from i)) = [v0; v1] ->
  rid = vop_kvec_size_to_ring_id (ks c) (snd v1 + SEND_ALIGN_OVERHEAD_SIZE) -> 0 <= rid ->
  kr c !! Z.to_nat rid = Some r -> ks c !! Z.to_nat rid = Some s -> ring_rep m w r s rd pub wr (g :: q) -> rd < pub -> g_cancelled g = false ->
  remap e (now c) = Some a -> 0 <= cookie e (S (now c)) ->
  0 < fst v1 -> 0 <= snd v1 -> snd v1 + SEND_ALIGN_OVERHEAD_SIZE <= snd (g_v1 g) ->
  0 <= a -> a + snd v1 + 256 < 2 ^ 64 -> fst v1 + snd v1 + 128 < 2 ^ 64 ->
  exists r' s' t l j nd ns len offset, placed a (fst v1) (snd v1) nd ns len offset /\ j <> 0
    /\ ring_rep m w r' s' (rd + 1) pub wr q
    /\ acts l = acts (log c) ++ [EvMap (a, fst (g_v1 g)) (snd v1 + SEND_ALIGN_OVERHEAD_SIZE); EvDmaMap (dma_map e ns) len]
    /\ transfer (S fuel) c n
       = Ret (en_route c n (on_its_way (taken (loaded i v0 v1) rid (g_head g) (slot m rd)) (g_v0 g) (a, fst (g_v1 g)) (dma_map e ns) len j)
                (<[Z.to_nat rid := r']> (kr c)) (<[Z.to_nat rid := s']> (ks c)) t (mem_write (pmem c) (fst (g_v1 g)) [offset])
                (mkDma n true nd (a, fst (g_v1 g)) (Some ns) len) l, 0).
Proof.
  intros H Ha Ht Htx Hu Hi Hv Hrid Hr0 Hkr Hks Hrep Hlt Hc Hr Hck Hsrc Hz Hsz Ha0 Ha1 Hs1.
  unfold transfer. rewrite (read_ok c n i v0 v1 H Ha Hu Hi Hv). run_bind. cbn [Z.eqb negb wait_loop].
  pose proof (has_upd c n i (loaded i v0 v1) H) as H1.
  assert (u64 (snd v1 + SEND_ALIGN_OVERHEAD_SIZE) = snd v1 + SEND_ALIGN_OVERHEAD_SIZE) as Eu
    by (unfold SEND_ALIGN_OVERHEAD_SIZE, DMA_MAX_OFFSET, PLX_DMA_ALIGN_BYTES in *; apply u64_small; lia).
  destruct (wait_ok fuel (upd c n (loaded i v0 v1)) n (loaded i v0 v1) rid m w r s rd pub wr g q) as (r' & s' & -> & B0 & B1 & Hrep'); try done.
  { rewrite Hrid. cbn [data_size from loaded set_from]. by rewrite Eu. }
  run_bind. cbn [Z.eqb negb]. change (- EBUSY) with (-16). cbn [Z.eqb negb]. run_bind. cbn [Z.eqb negb].
  set (i2 := taken _ _ _ _). set (c2 := upd (set_kvecs _ _ _) n i2).
  change (write_in_thread c2) with (write_in_thread c). rewrite Ht. cbn [negb].
  assert (has c2 n i2) as H2 by (apply (has_upd (set_kvecs (upd c n (loaded i v0 v1)) _ _) n _ i2 H1)).
  pose proof (lookup_lt_Some _ _ _ Hks) as Hlk. pose proof (slot_range m rd) as Hsl. pose proof (rr_size _ _ _ _ _ _ _ _ Hrep) as (Hm & _).
  destruct (write_sends c2 n i2 (g_v0 g) (g_v1 g) a) as (t & l & j & nd & ns & len & offset & Hp & Hj & Hl & ->); try done.
  { exists (slot m rd), s', (mkPk (g_v0 g) 0 VOP_KVEC_FLAG_IN_USE), (mkPk (g_v1 g) 0 0). cbn [kvec_to to i2 taken set_to kvec_buff_id].
    repeat split; try done; [lia|]. cbn. by apply list_lookup_insert_eq. }
  run_bind. cbn [Z.eqb negb]. exists r', s', t, l, j, nd, ns, len, offset. split; [exact Hp|]. split; [done|]. split; [done|]. split; [exact Hl|].
  f_equal. f_equal. unfold c2, en_route, upd, set_kvecs, set_ring, set_items. cbn. by rewrite !list_insert_insert_eq.
Qed.

(** The array of an item was not allocated yet or has room for eight vectors. *)
Definition roomy (k : vringh_kiov) : Prop := kiov_wf k /\ (zlen (iov k) = 0 \/ 8 <= zlen (iov k)).

Lemma get_desc_ok c n i head v0 v1 :
  has c n i -> head_from (from i) = USHRT_MAX -> roomy (k_from (from i)) -> alloc_ok e (now c) = true ->
  ring_ok (vr (tx_vrh c)) -> pending (tx_vrh c) head -> buffer_at (desc_mem e) (vr (tx_vrh c)) head [(v0, false); (v1, false)] ->
  fits 64 (fst v0) -> fits 64 (fst v1) ->
  exists k, roomy k /\ iov_used k = 2 /\ iov_i k = 0 /\ vecs k = [v0; v1] /\ 8 <= zlen (iov k)
    /\ vop_common_get_descriptors c n
       = Ret (upd (tick (set_tx_vrh c (set_last_avail (tx_vrh c) (u16 (last_avail_idx (tx_vrh c) + 1))))) n
                (let f := from i in set_from i (mkFrom (data_size f) (src_phys f) (src_phys_da f) (src_phys_sz f) (vringh_tx f) k (Z.of_nat head) (bytes_read f))), 1).
Proof.
  intros H Hh [Hk Hroom] Hal Hok Hp Hb Hf0 Hf1. unfold vop_common_get_descriptors. item H. rewrite Hh, Z.eqb_refl, Hal.
  set (k0 := k_from (from i)) in *. pose proof Hk as (cap & Hm & Hc & Hl & _).
  assert (kiov_wf (iov_clear k0)) as Hk0 by (exists cap; cbn; repeat split; try done; lia).
  destruct (getdesc_kern_ok (desc_mem e) (desc_addr e) (tx_vrh c) head [(v0, false); (v1, false)] (Some k0) None Hok Hp Hb)
    as (r' & w' & -> & Hr & Hw); [by rewrite !list.Forall_cons|by left|by split|done|]. run_bind.
  destruct r' as [k|]; [|done]. destruct Hr as (Hkw & Hkv & Hku & Hki & Hg). cbn in Hkv. change (iov_used k = 2) in Hku. destruct Hkw as (cap' & ? & ? & ? & ?).
  assert (8 <= zlen (iov k)) as H8 by (destruct Hg as [Hg|Hg]; [change (zlen (iov k) = zlen (iov k0)) in Hg; lia|done]).
  exists k. split; [split; [by exists cap'|by right]|]. split; [done|]. split; [done|]. split; [done|]. split; [done|].
  cbn [default Z.ltb Z.leb Z.compare]. set (c1 := tick _). rewrite (has_put c1 n i _ H). run_bind. done.
Qed.

(** The device is idle: the next item is free and there is nothing in flight. *)
Record idle (c : cdev) (n : Z) (i : buffer_dma_item) (k : vringh_kiov) : Prop := {
  i_ready : ready c <> 0;
  i_next : n = indicator_rcv (ring c) mod 512;
  i_done : n = counter_done_transfer (ring c) mod 512 /\ fits 16 (counter_done_transfer (ring c));
  i_item : has c n (clean i k) /\ id i = n;
  i_vecs : roomy k;
  i_dmas : dmas c = [];
}.
Definition direct (c : cdev) : Prop := feature_desc_alignment c = true /\ write_in_thread c = false.
(** The buffer [v0], [v1] with the head [head] is next in the transmit queue... *)
Record to_send (c : cdev) (head : nat) (v0 v1 : Z * Z) : Prop := {
  s_ring : ring_ok (vr (tx_vrh c));
  s_pending : pending (tx_vrh c) head;
  s_buffer : buffer_at (desc_mem e) (vr (tx_vrh c)) head [(v0, false); (v1, false)];
  s_header : fits 64 (fst v0);
  s_data : 0 < fst v1 /\ 0 <= snd v1 /\ fst v1 + snd v1 + 128 < 2 ^ 64;
}.
(** ... and the peer's next buffer of the ring for its size is [g]. *)
Record offered (c : cdev) (size rid m : Z) (w r : vop_kvec_ring) (s : shm_ring) (rd pub wr : Z) (g : group) (q : list group) : Prop := {
  o_rid : rid = vop_kvec_size_to_ring_id (ks c) (size + SEND_ALIGN_OVERHEAD_SIZE) /\ 0 <= rid;
  o_rings : kr c !! Z.to_nat rid = Some r /\ ks c !! Z.to_nat rid = Some s;
  o_rep : ring_rep m w r s rd pub wr (g :: q);
  o_first : rd < pub /\ g_cancelled g = false;
  o_size : size + SEND_ALIGN_OVERHEAD_SIZE <= snd (g_v1 g);
  o_head : 0 <= g_head g < USHRT_MAX;
}.

(** The next buffer of the queue has been taken into the item [n]. *)
Definition step_taken (c : cdev) : cdev :=
  set_ring (tick (set_tx_vrh c (set_last_avail (tx_vrh c) (u16 (last_avail_idx (tx_vrh c) + 1)))))
    (mkRing (items (ring c)) (u16 (indicator_rcv (ring c) + 1)) (counter_dma_send (ring c)) (counter_done_transfer (ring c))).

Lemma step_fetches fuel c n i k head v0 v1 :
  idle c n i k -> to_send c head v0 v1 -> alloc_ok e (now c) = true ->
  exists k', roomy k' /\ iov_used k' = 2 /\ iov_i k' = 0 /\ vecs k' = [v0; v1] /\ 8 <= zlen (iov k')
    /\ sync_descriptors_read_task_step (S (S fuel)) c
       = ('(c, _) ← transfer (S fuel) (upd (step_taken c) n (fetched (set_status (clean i k) false) k' (Z.of_nat head))) n; Ret c).
Proof.
  intros [Hready Hn _ [H Hid] Hroom _] [Hok Hp Hb Hf0 (Hs0 & Hz & Hs1)] Hal.
  pose proof (ring_num _ Hok) as Hnum. pose proof Hp as (_ & _ & Hhead).
  unfold sync_descriptors_read_task_step, buffer_dma_ring_get_read. rewrite dma_ring_mask, <- Hn, (has_get _ _ _ H : aget (items (ring c)) n = _). run_bind.
  cbn [status_ready clean]. pose proof H as [Hn0 Hlk]. apply lookup_lt_Some in Hlk as Hll. rewrite aset_ret by (unfold zlen; lia). run_bind.
  set (c1 := set_ring c _). set (it := set_status _ false) in *. cbn [step_loop]. change (ready c1) with (ready c).
  rewrite (proj2 (Z.eqb_neq _ _) Hready).
  assert (has c1 n it) as H1 by (split; [done|]; cbn; by apply list_lookup_insert_eq). item H1.
  cbn [from it set_status clean head_from vringh_tx negb]. rewrite Z.eqb_refl. cbn [andb].
  destruct (get_desc_ok c1 n it head v0 v1 H1 eq_refl Hroom Hal Hok Hp Hb Hf0) as (k' & Hk' & Hu & Hi & Hv & H8 & ->); [unfold fits; lia|]. run_bind.
  set (c2 := tick _). set (i2 := set_from it _). pose proof (has_upd c2 n it i2 H1) as H2. item H2.
  cbn [from i2 set_from head_from]. rewrite (proj2 (Z.eqb_neq (Z.of_nat head) USHRT_MAX)) by (unfold USHRT_MAX; lia). cbn [negb]. put H2. rewrite upd_upd.
  exists k'. repeat (split; [done|]).
  replace (upd (step_taken c) n (fetched it k' (Z.of_nat head))) with (upd c2 n (fetched it k' (Z.of_nat head))); [done|].
  unfold c2, c1, upd, step_taken, set_ring, set_items. cbn. by rewrite list_insert_insert_eq.
Qed.

Lemma step_sends fuel c n i k head v0 v1 rid m w r s rd pub wr g q a :
  idle c n i k -> direct c -> to_send c head v0 v1 -> offered c (snd v1) rid m w r s rd pub wr g q ->
  alloc_ok e (now c) = true -> remap e (S (now c)) = Some a -> 0 <= cookie e (S (S (now c))) -> 0 <= a -> a + snd v1 + 256 < 2 ^ 64 ->
  exists k' r' s' t l j nd ns len offset, let it := fetched (set_status (clean i k) false) k' (Z.of_nat head) in
    placed a (fst v1) (snd v1) nd ns len offset /\ j <> 0 /\ 8 <= zlen (iov k') /\ ring_rep m w r' s' (rd + 1) pub wr q
    /\ acts l = acts (log c) ++ [EvMap (a, fst (g_v1 g)) (snd v1 + SEND_ALIGN_OVERHEAD_SIZE); EvDmaMap (dma_map e ns) len]
    /\ sync_descriptors_read_task_step (S (S fuel)) c
       = Ret (en_route (step_taken c) n (on_its_way (taken (loaded it v0 v1) rid (g_head g) (slot m rd)) (g_v0 g) (a, fst (g_v1 g)) (dma_map e ns) len j)
                (<[Z.to_nat rid := r']> (kr c)) (<[Z.to_nat rid := s']> (ks c)) t (mem_write (pmem c) (fst (g_v1 g)) [offset])
                (mkDma n true nd (a, fst (g_v1 g)) (Some ns) len) l).
Proof.
  intros Hidle [Ha Ht] Hsend [[Hrid Hr0] [Hkr Hks] Hrep [Hlt Hc] Hsz Hh] Hal Hr Hck Ha0 Ha1.
  destruct (step_fetches fuel c n i k head v0 v1 Hidle Hsend Hal) as (k' & Hk' & Hu & Hi & Hv & H8 & ->).
  destruct Hidle as [_ _ _ [H _] _ _], Hsend as [_ _ _ _ (Hs0 & Hz & Hs1)]. set (it := fetched _ k' _).
  pose proof (has_upd (step_taken c) n _ it H) as H1.
  destruct (transfer_sends fuel (upd (step_taken c) n it) n it v0 v1 rid m w r s rd pub wr g q a)
    as (r' & s' & t & l & j & nd & ns & len & offset & Hpl & Hj & Hrep' & Hl & ->); try done.
  run_bind. exists k', r', s', t, l, j, nd, ns, len, offset. repeat (split; [done|]). f_equal.
  unfold en_route. change (ring (upd (upd ?c n ?x) n ?y)) with (ring (upd (upd c n x) n y)). by rewrite upd_upd.
Qed.

Lemma callback_one c n i lr cc us :
  ready c <> 0 -> has c n i -> id i = n -> n = counter_done_transfer (ring c) mod 512 -> fits 16 (counter_done_transfer (ring c)) ->
  started i = true -> live (shape (ks c)) i -> used_rep (u_ring c) (u_last c) lr cc us ->
  zlen us + zlen (used_of i) <= u_num (u_ring c) -> ring_ok (vr (tx_vrh c)) ->
  exists c', transfer_done_callback c n = Ret c' /\ swept (upd c n (set_tx i false)) (counter_done_transfer (ring c)) [set_tx i false] lr cc us c'.
Proof.
  intros Hready H Hid Hn Hf Hs Hl Hu Hroom Hok.
  apply (vop_callback_ok c n i [] lr cc us); try done.
  - change (zlen []) with 0. by rewrite Z.add_0_r.
  - by constructor.
  - cbn. by rewrite Hs; cbn; rewrite app_nil_r.
Qed.

Lemma shape_insert l n s m : (n < length l)%nat -> zlen (s_buf s) = m -> shape (<[n := s]> l) !! n = Some m.
Proof. intros Hn <-. unfold shape. by rewrite list_lookup_fmap, list_lookup_insert_eq. Qed.

(** An item that is on its way can be finished. *)
Lemma way_live sh it first m : status_ready it = false -> kvec_to (to it) = Some first -> 0 <= first < m -> 0 <= kvec_buff_id (to it) ->
  sh !! Z.to_nat (kvec_buff_id (to it)) = Some m -> resets (k_from (from it)) -> live sh it.
Proof. intros Hs Hk Hf Hb Hm Hr _. split; [done|]. split; [by exists first, m|done]. Qed.

(** The engine finishes the only copy in flight. *)
Record settled (c : cdev) (n : Z) (i : buffer_dma_item) (M : Z -> Z) (lr cc : Z) (us : list vop_peer_used_kiov) (c' : cdev) : Prop := {
  st_log : acts (log c') = acts (log c) ++ item_events i;
  st_mem : pmem c' = M /\ lmem c' = lmem c;
  st_used : used_rep (u_ring c') (u_last c') lr cc (us ++ used_of i);
  st_item : exists k, has c' n (clean i k);
  st_dmas : dmas c' = [];
  st_counters : indicator_rcv (ring c') = indicator_rcv (ring c) /\ counter_dma_send (ring c') = counter_dma_send (ring c)
    /\ counter_done_transfer (ring c') = u16 (counter_done_transfer (ring c) + 1);
}.
Lemma finish_ok c n i d b lr cc us :
  dmas c = [d] -> d_item d = n -> d_callback d = true -> dma_bytes c d = Ret b ->
  ready c <> 0 -> has c n i -> id i = n -> n = counter_done_transfer (ring c) mod 512 -> fits 16 (counter_done_transfer (ring c)) ->
  started i = true -> live (shape (ks c)) i -> used_rep (u_ring c) (u_last c) lr cc us ->
  zlen us + zlen (used_of i) <= u_num (u_ring c) -> ring_ok (vr (tx_vrh c)) ->
  exists c', dma_finish c = Ret c' /\ settled c n i (mem_write (pmem c) (snd (d_window d) + (d_dst d - fst (d_window d))) b) lr cc us c'.
Proof.
  intros Hd Hdi Hdc Hb Hready H Hid Hn Hf Hst Hlive Hu Hroom Hok. unfold dma_finish. rewrite Hd, Hb. run_bind. rewrite Hdc, Hdi.
  set (M := mem_write _ _ b). set (c1 := set_dmas (set_pmem c M) []).
  destruct (callback_one c1 n i lr cc us) as (c' & E & [Sl Sd _ _ Sc Ss Sdm [Su _] _]); try done.
  exists c'. split; [done|]. destruct (Sd 0%nat _ eq_refl) as (i' & Hi' & Hcl). rewrite Z.add_0_r in Hi'.
  cbn [List.filter map concat] in Sl, Su. change (started (set_tx i false)) with (started i) in *. rewrite Hst in *.
  cbn [map concat] in Sl, Su. rewrite app_nil_r in Sl, Su. destruct Hcl as (k & ->), Ss as (_ & _ & _ & El & Ep & _).
  split; try done.
  - exists k. split; [apply H|]. rewrite Hn. exact Hi'.
  - by apply Sdm, Forall_singleton.
Qed.

Lemma u32_u64 x : u32 (u64 x) = u32 x.
Proof. unfold u32, u64, wrap. apply Z.mod_mod_divide. by exists (2 ^ 32). Qed.
Lemma u32_total2 x y : u32 (u64 (u64 (0 + x) + y)) = u32 (x + y).
Proof. rewrite u32_u64. unfold u32, u64, wrap. rewrite <- (Zplus_mod_idemp_l (_ mod _)), Z.mod_mod_divide by (by exists (2 ^ 32)). by rewrite Zplus_mod_idemp_l. Qed.
Lemma u32_total i v0 : bytes_written (to i) = 0 -> u32 (total i v0) = u32 (snd v0 + data_size (from i)).
Proof. intros E. unfold total. rewrite E. apply u32_total2. Qed.

(** C5. A packet goes from the transmit queue to the peer: when a buffer of a header and data
    is pending, an item is free and the peer offers a buffer that is large enough, one
    step of the reading thread and the completion of the copy by the engine leave the
    data in the peer's buffer, at the offset that its first byte tells; nothing outside the
    window is written.  The window and the mapping are made and given back; the peer's buffer
    is reported as used with the size of header and data, the local one returns to
    the transmit queue, and the item is free for the next packet. *)
Theorem sync_descriptors_read_task_step_delivers fuel c n i k head v0 v1 rid m w r s rd pub wr g q a lr cc us :
  idle c n i k -> direct c -> to_send c head v0 v1 -> offered c (snd v1) rid m w r s rd pub wr g q ->
  alloc_ok e (now c) = true -> remap e (S (now c)) = Some a -> 0 <= cookie e (S (S (now c))) -> 0 <= a -> a + snd v1 + 256 < 2 ^ 64 ->
  used_rep (u_ring c) (u_last c) lr cc us -> zlen us < u_num (u_ring c) -> (forall x, 0 <= x -> dma_map e x <> 0) ->
  exists c1 c2 offset da len k', let pa := fst (g_v1 g) in let x := mkUk (u32 (snd (g_v0 g) + snd v1)) (g_head g) in
    sync_descriptors_read_task_step (S (S fuel)) c = Ret c1 /\ dma_finish c1 = Ret c2
    /\ 1 <= offset <= DMA_MAX_OFFSET /\ pmem c2 pa = offset
    /\ mem_read (pmem c2) (pa + offset) (snd v1) = mem_read (lmem c) (fst v1) (snd v1)
    /\ (forall y, y < pa \/ pa + snd v1 + SEND_ALIGN_OVERHEAD_SIZE <= y -> pmem c2 y = pmem c y)
    /\ acts (log c2) = acts (log c)
         ++ [EvMap (a, pa) (snd v1 + SEND_ALIGN_OVERHEAD_SIZE); EvDmaMap da len; EvUsed (g_head g) (uk_len x);
             EvTx (Z.of_nat head) (u32 (snd v0 + snd v1)); EvUnmap (a, pa); EvDmaUnmap da len]
    /\ used_rep (u_ring c2) (u_last c2) lr cc (us ++ [x])
    /\ has c2 n (clean i k') /\ dmas c2 = [] /\ counter_done_transfer (ring c2) = u16 (counter_done_transfer (ring c) + 1)
    /\ indicator_rcv (ring c2) = u16 (indicator_rcv (ring c) + 1).
Proof.
  intros Hidle Hdir Hsend Hoff Hal Hr Hck Ha0 Ha1 Hu Hroom Hda.
  destruct (step_sends fuel c n i k head v0 v1 rid m w r s rd pub wr g q a Hidle Hdir Hsend Hoff Hal Hr Hck Ha0 Ha1)
    as (k' & r' & s' & t & l & j & nd & ns & len & offset & Hpl & Hj & H8 & Hrep & Hl & ->).
  destruct Hidle as [Hready _ [Hdn Hdf] [H Hid] _ Hdm], Hsend as [Hok Hp _ _ (Hs0 & Hz & _)], Hoff as [[_ Hr0] [_ Hks] Hrep0 _ _ Hh].
  set (i1 := taken _ _ _ _). set (it := on_its_way i1 _ _ _ _ j). set (d := mkDma _ _ _ _ _ _). set (c1 := en_route _ _ it _ _ _ _ d _).
  pose proof (ring_num _ Hok) as Hnum. pose proof Hp as (_ & _ & Hhead). assert (USHRT_MAX = 65535) as Emax by done.
  assert (used_of it = [mkUk (u32 (snd (g_v0 g) + snd v1)) (g_head g)]) as Eused.
  { unfold used_of. change (head_to (to it)) with (g_head g). rewrite (proj2 (Z.eqb_neq _ _)), u16_small by lia.
    change (bytes_written (to it)) with (total i1 (g_v0 g)). by rewrite u32_total. }
  assert (tx_of it = [(Z.of_nat head, u32 (snd v0 + snd v1))]) as Etx.
  { unfold tx_of. change (head_from (from it)) with (Z.of_nat head). rewrite (proj2 (Z.eqb_neq _ _)) by lia. cbn [andb negb vringh_tx].
    change (bytes_read (from it)) with (u64 (u64 (0 + snd v0) + snd v1)). by rewrite (u32_total2 (snd v0) (snd v1)). }
  destruct (finish_ok c1 n it d (mem_read (lmem c) ns len) lr cc us) as (c2 & E & [Sl [Sm _] Su (k3 & Hk3) Sd (Si & _ & Sc)]); try done.
  { change (dmas c1) with (dmas c ++ [d]). by rewrite Hdm. }
  { apply (has_upd c n (clean i k) it H). }
  { by apply negb_true_iff, Z.eqb_neq. }
  { pose proof (slot_range m rd). destruct (rr_size _ _ _ _ _ _ _ _ Hrep) as [Hm Hzl]. apply way_live with (slot m rd) (2 * m); try done; [lia| |].
    - apply shape_insert; [by eapply lookup_lt_Some|done].
    - right. change (0 <= 2 < zlen (iov k')). lia. }
  { rewrite Eused. change (zlen [_]) with 1. change (u_num (u_ring c1)) with (u_num (u_ring c)). lia. }
  rewrite Eused in Su. destruct (placed_memory (pmem c) (lmem c) a (fst (g_v1 g)) (fst v1) (snd v1) nd ns len offset Hz Hpl) as (M1 & M2 & M3).
  exists c1, c2, offset, (dma_map e ns), len, k3. cbn zeta. rewrite Sm. split; [done|]. split; [done|]. split; [apply Hpl|].
  split; [exact M1|]. split; [exact M2|]. split; [exact M3|]. split.
  { rewrite Sl. change (log c1) with l. rewrite Hl. unfold item_events. rewrite Eused, Etx.
    unfold unmap_of. change (src_phys_da (from it)) with (dma_map e ns). rewrite (proj2 (Z.eqb_neq _ _) (Hda ns (proj1 (pl_begin _ _ _ _ _ _ _ Hpl)))). by rewrite <- app_assoc. }
  split; [exact Su|]. split; [exact Hk3|]. split; [done|]. split; [exact Sc|exact Si].
Qed.

(** ** The same through the intermediate buffer and the second thread *)

Definition copy_size (v : Z * Z) : Z := if VOP_INT_DMA_BUF_SIZE <? snd v then VOP_INT_DMA_BUF_SIZE else snd v.
Definition copied (mem : Z -> Z) (i : buffer_dma_item) (b : list Z) (v0 v1 : Z * Z) : buffer_dma_item :=
  let f := from i in let k := k_from f in
  mkItem (id i) (status_ready i) (Some (mem_read mem (fst v1) (copy_size v1) ++ drop (Z.to_nat (copy_size v1)) b)) (buf_da i) (jiffies i) (tx i)
    (mkFrom (copy_size v1) (src_phys f) (src_phys_da f) (src_phys_sz f) (vringh_tx f) (mkIov (iov k) (consumed k) 2 2 (max_num k))
      USHRT_MAX (u64 (u64 (bytes_read f + snd v0) + snd v1))) (to i).

Lemma read_copies c n i b v0 v1 :
  has c n i -> feature_desc_alignment c = false -> iov_used (k_from (from i)) = 2 -> iov_i (k_from (from i)) = 0 ->
  vecs (k_from (from i)) = [v0; v1] -> buf i = Some b -> zlen b = VOP_INT_DMA_BUF_SIZE ->
  vringh_tx (from i) = true -> head_from (from i) <> USHRT_MAX -> ring_ok (vr (tx_vrh c)) ->
  exists vrh' l, transfer_read c n = Ret (upd (noted (set_tx_vrh c vrh') (sent_ts c) l) n (copied (lmem c) i b v0 v1), 0)
    /\ acts l = acts (log c) ++ [EvTx (head_from (from i)) (u32 (bytes_read (from i) + snd v0 + snd v1))]
    /\ tx_returned (tx_vrh c) vrh' (head_from (from i)) (u32 (bytes_read (from i) + snd v0 + snd v1)).
Proof.
  intros H Ha Hu Hi Hv Hb Hbl Hvt Hh Hok. unfold vecs in Hv. rewrite Hu in Hv. change (Z.to_nat 2) with 2%nat in Hv.
  assert (aget (iov (k_from (from i))) 0 = Ret v0 /\ aget (iov (k_from (from i))) 1 = Ret v1) as [G0 G1].
  { destruct (iov (k_from (from i))) as [|x [|y l]]; try done. cbn in Hv. injection Hv as -> ->. done. }
  assert (copy_size v1 <= zlen b) as Hcs by (unfold copy_size; destruct (_ <? _) eqn:E; bools; lia).
  unfold transfer_read. item H. rewrite Hu, Hi. simpl bug_on. run_bind. cbn [Z.eqb Pos.eqb negb].
  unfold read_loop. rewrite Hi, Hu. cbn [Z.ltb Z.compare negb]. rewrite G0. run_bind. destruct v0 as [b0 l0], v1 as [b1 l1].
  cbn [Z.eqb from set_from k_from iov_i iov_used iov Z.ltb Z.compare negb]. change (u32 (0 + 1)) with 1. cbn [Z.ltb Z.compare Pos.compare Pos.compare_cont negb].
  rewrite G1. run_bind. cbn [Z.eqb Pos.eqb]. rewrite Ha. cbn [buf set_from]. rewrite Hb.
  change (if VOP_INT_DMA_BUF_SIZE <? l1 then VOP_INT_DMA_BUF_SIZE else l1) with (copy_size (b1, l1)). rewrite (proj2 (Z.ltb_ge _ _) Hcs). run_bind.
  cbn [from set_from set_buf k_from iov_i iov_used iov negb]. change (u32 (1 + 1)) with 2.
  cbn [Z.ltb Z.compare Pos.compare Pos.compare_cont negb]. run_bind. cbn [andb from set_from set_buf vringh_tx head_from bytes_read]. rewrite Hvt, (proj2 (Z.eqb_neq _ _) Hh). cbn [negb andb].
  set (br := u64 (u64 _ + l1)). destruct (put_desc_ok c (head_from (from i)) br Hok) as (vrh' & l & -> & Hl & Ht). run_bind.
  assert (u32 br = u32 (bytes_read (from i) + l0 + l1)) as Ebr by (unfold br; rewrite <- (u32_total2 (bytes_read (from i) + l0) l1), Z.add_0_l; done).
  rewrite Ebr in Hl, Ht. exists vrh', l. split; [|done]. set (c1 := noted _ _ l). rewrite (has_put c1 n i _ H). run_bind. unfold copied. cbn [fst snd]. rewrite Hvt. reflexivity.
Qed.

(** The item waits for the second thread. *)
Definition queued (c : cdev) (n : Z) (i : buffer_dma_item) vrh krs kss (l : list event) : cdev :=
  mkCdev (ready c) (feature_desc_alignment c) (write_in_thread c) (sent_ts c) vrh krs kss (u_last c) (u_ring c)
    (mkRing (<[Z.to_nat n := i]> (items (ring c))) (indicator_rcv (ring c)) (u16 (counter_dma_send (ring c) + 1)) (counter_done_transfer (ring c)))
    (lmem c) (pmem c) (dmas c) (now c) l.

Lemma transfer_queues fuel c n i b v0 v1 rid m w r s rd pub wr g q :
  has c n i -> feature_desc_alignment c = false -> write_in_thread c = true -> id i = counter_dma_send (ring c) mod 512 ->
  iov_used (k_from (from i)) = 2 -> iov_i (k_from (from i)) = 0 -> vecs (k_from (from i)) = [v0; v1] ->
  buf i = Some b -> zlen b = VOP_INT_DMA_BUF_SIZE -> vringh_tx (from i) = true -> head_from (from i) <> USHRT_MAX -> ring_ok (vr (tx_vrh c)) ->
  0 <= snd v1 -> offered c (copy_size v1) rid m w r s rd pub wr g q ->
  exists vrh' r' s' l, ring_rep m w r' s' (rd + 1) pub wr q
    /\ s_buf s' !! Z.to_nat (slot m rd) = Some (mkPk (g_v0 g) 0 VOP_KVEC_FLAG_IN_USE)
    /\ s_buf s' !! Z.to_nat (slot m rd + 1) = Some (mkPk (g_v1 g) 0 0)
    /\ acts l = acts (log c) ++ [EvTx (head_from (from i)) (u32 (bytes_read (from i) + snd v0 + snd v1))]
    /\ tx_returned (tx_vrh c) vrh' (head_from (from i)) (u32 (bytes_read (from i) + snd v0 + snd v1))
    /\ transfer (S fuel) c n
       = Ret (queued c n (taken (copied (lmem c) i b v0 v1) rid (g_head g) (slot m rd)) vrh'
                (<[Z.to_nat rid := r']> (kr c)) (<[Z.to_nat rid := s']> (ks c)) l, 0).
Proof.
  intros H Ha Ht Hid Hu Hi Hv Hb Hbl Hvt Hh Hok Hz [[Hrid Hr0] [Hkr Hks] Hrep [Hlt Hc] Hsz Hgh].
  destruct (read_copies c n i b v0 v1 H Ha Hu Hi Hv Hb Hbl Hvt Hh Hok) as (vrh' & l & E & Hl & Htx).
  unfold transfer. rewrite E. run_bind. cbn [Z.eqb negb wait_loop]. set (c1 := noted _ _ l). set (i1 := copied _ i b v0 v1).
  pose proof (has_upd c1 n i i1 H) as H1.
  assert (u64 (copy_size v1 + SEND_ALIGN_OVERHEAD_SIZE) = copy_size v1 + SEND_ALIGN_OVERHEAD_SIZE) as Eu.
  { apply u64_small. unfold copy_size, VOP_INT_DMA_BUF_SIZE, SEND_ALIGN_OVERHEAD_SIZE, DMA_MAX_OFFSET, PLX_DMA_ALIGN_BYTES. destruct (_ <? _) eqn:Es; bools; lia. }
  destruct (wait_ok fuel (upd c1 n i1) n i1 rid m w r s rd pub wr g q) as (r' & s' & -> & B0 & B1 & Hrep'); try done.
  { rewrite Hrid. change (data_size (from i1)) with (copy_size v1). by rewrite Eu. }
  run_bind. cbn [Z.eqb negb]. change (- EBUSY) with (-16). cbn [Z.eqb negb]. run_bind. cbn [Z.eqb negb].
  set (i2 := taken _ _ _ _). set (c2 := upd (set_kvecs _ _ _) n i2).
  change (write_in_thread c2) with (write_in_thread c). rewrite Ht. cbn [negb].
  assert (has c2 n i2) as H2 by (apply (has_upd (set_kvecs (upd c1 n i1) _ _) n _ i2 H1)). item H2.
  rewrite dma_ring_mask. change (id i2) with (id i). change (counter_dma_send (ring c2)) with (counter_dma_send (ring c)). rewrite Hid, Z.eqb_refl. simpl bug_on. run_bind.
  exists vrh', r', s', l. repeat (split; [done|]). f_equal. f_equal.
  unfold c2, queued, upd, set_kvecs, set_ring, set_items. cbn. by rewrite !list_insert_insert_eq.
Qed.

Definition copy_sent (i : buffer_dma_item) (v0 w : Z * Z) (j : Z) : buffer_dma_item :=
  set_jiffies (set_tx (set_remapped (set_written i (total i v0)) (Some w)) true) j.

Lemma write_copies c n i v0 v1 a :
  has c n i -> feature_desc_alignment c = false -> tx i = false -> src_phys (from i) = 0 -> num_kvecs_to (to i) = 2 -> dest c i v0 v1 ->
  remap e (now c) = Some a -> 0 <= cookie e (S (now c)) ->
  0 <= data_size (from i) <= VOP_INT_DMA_BUF_SIZE -> data_size (from i) + SEND_ALIGN_OVERHEAD_SIZE <= snd v1 ->
  exists t l j, j <> 0
    /\ acts l = acts (log c) ++ [EvMap (a, fst v1) (data_size (from i) + SEND_ALIGN_OVERHEAD_SIZE)]
    /\ transfer_write c n
       = Ret (en_route c n (copy_sent i v0 (a, fst v1) j) (kr c) (ks c) t (pmem c)
                (mkDma n true a (a, fst v1) None (ALIGN (data_size (from i)) PLX_DMA_ALIGN_BYTES)) l, 0).
Proof.
  intros H Ha Htx Hs Hn2 Hd Hr Hck Hz Hsz.
  assert (u64 (data_size (from i) + SEND_ALIGN_OVERHEAD_SIZE) = data_size (from i) + SEND_ALIGN_OVERHEAD_SIZE) as Eu
    by (unfold VOP_INT_DMA_BUF_SIZE, SEND_ALIGN_OVERHEAD_SIZE, DMA_MAX_OFFSET, PLX_DMA_ALIGN_BYTES in *; apply u64_small; lia).
  destruct (write_ok c n i v0 v1 a H Hn2 Hd ltac:(lia) Hr) as (t & l & Hl & ->).
  set (c1 := windowed c n i v0 v1 a t l). set (i1 := set_remapped (set_written i (total i v0)) (Some (a, fst v1))).
  assert (has c1 n i1) as H1 by (apply (has_upd (tick (noted c t l)) n i i1 H)).
  rewrite (dma_send_copied c1 n i1 a (fst v1) (data_size (from i)) H1 Ha eq_refl Htx Hs).
  exists t, (l ++ [EvMap (a, fst v1) (data_size (from i) + SEND_ALIGN_OVERHEAD_SIZE)]), (get_time_jiff_not_zero c1).
  split; [apply get_time_nonzero|]. split; [by rewrite acts_app, Hl|].
  unfold submitted. change (now c1) with (S (now c)). rewrite (proj2 (Z.ltb_ge _ _) Hck). set (j := get_time_jiff_not_zero c1).
  unfold c1, windowed. rewrite Eu. fold i1.
  change (tick (emit (upd ?x n i1) ?ev)) with (upd (tick (emit x ev)) n i1). rewrite upd_upd. reflexivity.
Qed.

Lemma mem_write_at m a l j v : 0 <= j -> l !! Z.to_nat j = Some v -> mem_write m a l (a + j) = v.
Proof. intros Hj Hl. unfold mem_write. rewrite (proj2 (Z.leb_le a (a + j))) by lia. replace (a + j - a) with j by lia. by rewrite Hl. Qed.

(** The memory behind the window after the intermediate buffer was copied. *)
Lemma copied_memory m m' pa src b size : 0 <= size <= VOP_INT_DMA_BUF_SIZE -> zlen b = VOP_INT_DMA_BUF_SIZE ->
  let len := ALIGN size PLX_DMA_ALIGN_BYTES in
  let m2 := mem_write m pa (take (Z.to_nat len) (mem_read m' src size ++ drop (Z.to_nat size) b)) in
  mem_read m2 pa size = mem_read m' src size
  /\ (forall x, x < pa \/ pa + size + SEND_ALIGN_OVERHEAD_SIZE <= x -> m2 x = m x).
Proof.
  intros Hs Hb len m2. unfold VOP_INT_DMA_BUF_SIZE in *. pose proof (mem_read_length m' src size ltac:(lia)) as Hl.
  assert (size <= len <= size + 63) as Hlen.
  { unfold len. rewrite ALIGN_64 by lia. pose proof (Z.mod_pos_bound (size + 63) 64 ltac:(lia)). lia. }
  unfold zlen in Hl, Hb. subst m2. split.
  - apply mem_read_ext. intros j Hj. apply mem_write_at; [lia|]. rewrite lookup_take_lt by lia. rewrite lookup_app_l by lia. apply mem_read_lookup. lia.
  - intros x Hx. apply mem_write_out. unfold zlen. rewrite length_take, length_app, length_drop.
    unfold SEND_ALIGN_OVERHEAD_SIZE, DMA_MAX_OFFSET, PLX_DMA_ALIGN_BYTES in *. lia.
Qed.

(** The second thread sends the items of the reading thread, one after the other. *)
Definition threaded (c : cdev) (n : Z) (i : buffer_dma_item) (b : list Z) : Prop :=
  feature_desc_alignment c = false /\ write_in_thread c = true /\ n = counter_dma_send (ring c) mod 512
  /\ fits 16 (counter_dma_send (ring c)) /\ buf i = Some b /\ zlen b = VOP_INT_DMA_BUF_SIZE.

Lemma step_queues fuel c n i k b head v0 v1 rid m w r s rd pub wr g q :
  idle c n i k -> threaded c n i b -> to_send c head v0 v1 -> offered c (copy_size v1) rid m w r s rd pub wr g q -> alloc_ok e (now c) = true ->
  exists k' vrh' r' s' l, let it := fetched (set_status (clean i k) false) k' (Z.of_nat head) in
    8 <= zlen (iov k') /\ ring_rep m w r' s' (rd + 1) pub wr q
    /\ s_buf s' !! Z.to_nat (slot m rd) = Some (mkPk (g_v0 g) 0 VOP_KVEC_FLAG_IN_USE)
    /\ s_buf s' !! Z.to_nat (slot m rd + 1) = Some (mkPk (g_v1 g) 0 0)
    /\ acts l = acts (log c) ++ [EvTx (Z.of_nat head) (u32 (snd v0 + snd v1))] /\ ring_ok (vr vrh')
    /\ sync_descriptors_read_task_step (S (S fuel)) c
       = Ret (queued (step_taken c) n (taken (copied (lmem c) it b v0 v1) rid (g_head g) (slot m rd)) vrh'
                (<[Z.to_nat rid := r']> (kr c)) (<[Z.to_nat rid := s']> (ks c)) l).
Proof.
  intros Hidle (Ha & Ht & Hn & _ & Hb & Hbl) Hsend Hoff Hal.
  destruct (step_fetches fuel c n i k head v0 v1 Hidle Hsend Hal) as (k' & Hk' & Hu & Hi & Hv & H8 & ->).
  destruct Hidle as [_ _ _ [H Hid] _ _], Hsend as [Hok Hp _ _ (Hs0 & Hz & Hs1)]. set (it := fetched _ k' _).
  pose proof (has_upd (step_taken c) n _ it H) as H1. pose proof (ring_num _ Hok) as Hnum. pose proof Hp as (_ & _ & Hhead).
  destruct (transfer_queues fuel (upd (step_taken c) n it) n it b v0 v1 rid m w r s rd pub wr g q)
    as (vrh' & r' & s' & l & Hrep & B0 & B1 & Hl & Htx & ->); try done.
  { change (id i = counter_dma_send (ring c) mod 512). congruence. }
  { change (Z.of_nat head <> 65535). lia. }
  { by destruct Hoff. }
  run_bind. exists k', vrh', r', s', l. split; [done|]. split; [done|]. split; [done|]. split; [done|]. split; [exact Hl|].
  split; [eapply tx_returned_ok; [|exact Htx]; exact Hok|]. f_equal. unfold queued, upd, set_ring, set_items. cbn. by rewrite list_insert_insert_eq.
Qed.

Lemma copy_size_le v : 0 <= snd v -> 0 <= copy_size v <= VOP_INT_DMA_BUF_SIZE.
Proof. unfold copy_size, VOP_INT_DMA_BUF_SIZE. destruct (_ <? _) eqn:E; bools; lia. Qed.
Lemma u16_next_ne x : fits 16 x -> x <> u16 (x + 1).
Proof. unfold fits, u16, wrap. intros Hx E. destruct (Z.eq_dec x 65535) as [->|Hn]; [done|]. rewrite Z.mod_small in E by lia. lia. Qed.

(** The turn of the second thread for the only item that waits. *)
Lemma dma_task_one fuel c n i v0 v1 a last :
  ready c <> 0 -> n = last mod 512 -> fits 16 last -> counter_dma_send (ring c) = u16 (last + 1) -> status_ready i = false ->
  has c n i -> feature_desc_alignment c = false -> tx i = false -> src_phys (from i) = 0 -> num_kvecs_to (to i) = 2 -> dest c i v0 v1 ->
  remap e (now c) = Some a -> 0 <= cookie e (S (now c)) ->
  0 <= data_size (from i) <= VOP_INT_DMA_BUF_SIZE -> data_size (from i) + SEND_ALIGN_OVERHEAD_SIZE <= snd v1 ->
  exists t l j, j <> 0
    /\ acts l = acts (log c) ++ [EvMap (a, fst v1) (data_size (from i) + SEND_ALIGN_OVERHEAD_SIZE)]
    /\ dma_task_loop (S fuel) c last
       = Ret (en_route c n (copy_sent i v0 (a, fst v1) j) (kr c) (ks c) t (pmem c)
                (mkDma n true a (a, fst v1) None (ALIGN (data_size (from i)) PLX_DMA_ALIGN_BYTES)) l, u16 (last + 1)).
Proof.
  intros Hready Hn Hf Hcnt Hst H Ha Htx Hs Hn2 Hd Hr Hck Hz Hsz.
  destruct (write_copies c n i v0 v1 a H Ha Htx Hs Hn2 Hd Hr Hck Hz Hsz) as (t & l & j & Hj & Hl & E).
  exists t, l, j. split; [done|]. split; [done|]. cbn [dma_task_loop].
  rewrite (proj2 (Z.eqb_neq _ _) Hready), Hcnt, (proj2 (Z.eqb_neq _ _) (u16_next_ne _ Hf)), dma_ring_mask, <- Hn. cbn [orb]. item H.
  rewrite Hst, E. run_bind. cbn [negb Z.eqb]. run_bind. set (c1 := en_route _ _ _ _ _ _ _ _ _).
  destruct fuel; cbn [dma_task_loop]; change (counter_dma_send (ring c1)) with (counter_dma_send (ring c)); by rewrite Hcnt, Z.eqb_refl, orb_true_r.
Qed.

(** C11. A packet also reaches the peer when the sides did not agree on offsets: the reading thread copies
    the data into the buffer of the item, at most 64 KiB of it, and returns the local
    buffer at once; the second thread finds the item under its own counter, so that the assertion
    on the counters holds, maps the peer's buffer and starts the copy; the engine leaves the
    data at the start of the peer's buffer and nothing outside the window. *)
Theorem sync_descriptors_dma_task_delivers fuel fuel' c n i k b head v0 v1 rid m w r s rd pub wr g q a lr cc us :
  idle c n i k -> threaded c n i b -> to_send c head v0 v1 -> offered c (copy_size v1) rid m w r s rd pub wr g q ->
  alloc_ok e (now c) = true -> remap e (S (now c)) = Some a -> 0 <= cookie e (S (S (now c))) ->
  used_rep (u_ring c) (u_last c) lr cc us -> zlen us < u_num (u_ring c) ->
  exists c1 c2 c3 b' k', let pa := fst (g_v1 g) in let size := copy_size v1 in let x := mkUk (u32 (snd (g_v0 g) + size)) (g_head g) in
    let next := u16 (counter_dma_send (ring c) + 1) in
    sync_descriptors_read_task_step (S (S fuel)) c = Ret c1
    /\ dma_task_loop (S fuel') c1 (counter_dma_send (ring c)) = Ret (c2, next) /\ dma_finish c2 = Ret c3
    /\ mem_read (pmem c3) pa size = mem_read (lmem c) (fst v1) size
    /\ (forall y, y < pa \/ pa + size + SEND_ALIGN_OVERHEAD_SIZE <= y -> pmem c3 y = pmem c y)
    /\ acts (log c3) = acts (log c)
         ++ [EvTx (Z.of_nat head) (u32 (snd v0 + snd v1)); EvMap (a, pa) (size + SEND_ALIGN_OVERHEAD_SIZE);
             EvUsed (g_head g) (uk_len x); EvUnmap (a, pa)]
    /\ used_rep (u_ring c3) (u_last c3) lr cc (us ++ [x])
    /\ has c3 n (clean (set_buf i (Some b')) k') /\ dmas c3 = []
    /\ indicator_rcv (ring c3) = u16 (indicator_rcv (ring c) + 1) /\ counter_dma_send (ring c3) = next
    /\ counter_done_transfer (ring c3) = u16 (counter_done_transfer (ring c) + 1).
Proof.
  intros Hidle Hthr Hsend Hoff Hal Hr Hck Hu Hroom.
  destruct (step_queues fuel c n i k b head v0 v1 rid m w r s rd pub wr g q Hidle Hthr Hsend Hoff Hal)
    as (k' & vrh' & r' & s' & l & H8 & Hrep & B0 & B1 & Hl & Hok' & ->).
  destruct Hidle as [Hready _ [Hdn Hdf] [H Hid] _ Hdm], Hsend as [_ _ _ _ (Hs0 & Hz & _)], Hoff as [[_ Hr0] [_ Hks] _ _ Hsz Hh], Hthr as (Ha & _ & Hn & Hcf & Hb & Hbl).
  set (b' := mem_read (lmem c) (fst v1) (copy_size v1) ++ drop (Z.to_nat (copy_size v1)) b).
  set (i1 := taken _ _ _ _). set (c1 := queued _ n i1 _ _ _ _).
  pose proof (slot_range m rd) as Hsl. destruct (rr_size _ _ _ _ _ _ _ _ Hrep) as [Hm Hzl]. pose proof (lookup_lt_Some _ _ _ Hks) as Hlk.
  assert (has c1 n i1) as H1 by (apply (has_upd c n (clean i k) i1 H)).
  destruct (dma_task_one fuel' c1 n i1 (g_v0 g) (g_v1 g) a (counter_dma_send (ring c))) as (t & l2 & j & Hj & Hl2 & E2); try done.
  { exists (slot m rd), s', (mkPk (g_v0 g) 0 VOP_KVEC_FLAG_IN_USE), (mkPk (g_v1 g) 0 0).
    repeat split; try done; [lia|]. cbn. by apply list_lookup_insert_eq. }
  { by apply copy_size_le. }
  change (data_size (from i1)) with (copy_size v1) in *. set (d := mkDma _ _ _ _ _ _) in E2. set (it := copy_sent _ _ _ _) in E2. set (c2 := en_route _ _ _ _ _ _ _ _ _) in E2.
  assert (used_of it = [mkUk (u32 (snd (g_v0 g) + copy_size v1)) (g_head g)]) as Eused.
  { unfold used_of. change (head_to (to it)) with (g_head g). rewrite (proj2 (Z.eqb_neq _ _)), u16_small by (unfold USHRT_MAX in *; lia).
    change (bytes_written (to it)) with (total i1 (g_v0 g)). by rewrite u32_total. }
  destruct (finish_ok c2 n it d (take (Z.to_nat (ALIGN (copy_size v1) PLX_DMA_ALIGN_BYTES)) b') lr cc us)
    as (c3 & E3 & [Sl [Sm _] Su (k3 & Hk3) Sd (Si & Sc & Sd')]); try done.
  { change (dmas c2) with (dmas c ++ [d]). by rewrite Hdm. }
  { unfold dma_bytes. change (d_src d) with (@None Z). change (d_item d) with n. rewrite (has_get c2 n it (has_upd c1 n i1 it H1)). done. }
  { apply (has_upd c1 n i1 it H1). }
  { by apply negb_true_iff, Z.eqb_neq. }
  { apply way_live with (slot m rd) (2 * m); try done; [lia| |].
    - by apply shape_insert.
    - right. change (0 <= 2 < zlen (iov k')). lia. }
  { rewrite Eused. change (zlen [_]) with 1. change (u_num (u_ring c2)) with (u_num (u_ring c)). lia. }
  rewrite Eused in Su. destruct (copied_memory (pmem c) (lmem c) (fst (g_v1 g)) (fst v1) b (copy_size v1) (copy_size_le _ Hz) Hbl) as (M1 & M2).
  change (d_dst d) with a in Sm. change (d_window d) with (a, fst (g_v1 g)) in Sm. cbn [fst snd] in Sm. rewrite Z.sub_diag, Z.add_0_r in Sm.
  exists c1, c2, c3, b', k3. cbn zeta. rewrite Sm. split; [done|]. split; [done|]. split; [done|]. split; [exact M1|]. split; [exact M2|]. split.
  { rewrite Sl. change (log c2) with l2. rewrite Hl2. change (log c1) with l. rewrite Hl. unfold item_events. rewrite Eused. by rewrite <- !app_assoc. }
  split; [exact Su|]. split; [exact Hk3|]. split; [done|]. split; [exact Si|]. split; [exact Sc|exact Sd'].
Qed.

(** ** Errors *)

(** A buffer of the transmit queue that is not two descriptors is not refused: the cleaning
    up after the error goes through the item's pointer to the peer's buffer, which was
    not looked for yet and is null. *)
Theorem transfer_unsupported_chain fuel c n i :
  has c n i -> status_ready i = false -> kvec_to (to i) = None -> head_to (to i) = USHRT_MAX ->
  iov_i (k_from (from i)) < iov_used (k_from (from i)) -> iov_used (k_from (from i)) <> 2 -> ring_ok (vr (tx_vrh c)) ->
  transfer fuel c n = Oob.
Proof.
  intros H Hst Hk Hh Hi Hu Hok. unfold transfer, transfer_read. item H.
  rewrite (proj2 (Z.leb_gt _ _) Hi), (proj2 (Z.eqb_neq _ _) Hu). simpl bug_on. run_bind. cbn [negb]. run_bind.
  assert (forall c1 i1, has c1 n i -> ring_ok (vr (tx_vrh c1)) -> status_ready i1 = false -> kvec_to (to i1) = None -> head_to (to i1) = USHRT_MAX ->
            (transfer_done (upd c1 n i1) n ≫= λ c, Ret (c, - EIO)) = Oob) as Hdone.
  { intros c1 i1 H1 Hok1 Hs1 Hk1 Hh1. unfold transfer_done. item (has_upd c1 n i i1 H1). rewrite Hs1. cbn [negb].
    unfold give_back. rewrite Hh1, Z.eqb_refl. cbn [negb]. run_bind.
    destruct (vringh_tx (from i1) && _); [|run_bind; unfold clear_in_use; by rewrite Hk1].
    destruct (put_desc_ok (upd c1 n i1) (head_from (from i1)) (bytes_read (from i1)) Hok1) as (vrh' & l & -> & _). run_bind.
    unfold clear_in_use. cbn [to set_head_from set_from]. by rewrite Hk1. }
  destruct (negb (feature_desc_alignment c) && _).
  - destruct (put_desc_ok c (head_from (from i)) (bytes_read (from i)) Hok) as (vrh' & l & -> & _ & Ht). run_bind. set (c1 := noted _ _ l).
    rewrite (has_put c1 n i _ H). run_bind. cbn [Z.eqb EIO Z.opp negb]. apply Hdone; try done. by eapply tx_returned_ok.
  - run_bind. put H. cbn [Z.eqb EIO Z.opp negb]. by apply Hdone.
Qed.

Lemma dest_in_ring c i v0 v1 : dest c i v0 v1 -> in_ring (shape (ks c)) i.
Proof.
  intros (first & s & p0 & p1 & Hk & Hf & Hid & Hs & H0 & _). exists first, (zlen (s_buf s)). split; [done|].
  apply lookup_lt_Some in H0. split; [unfold zlen; lia|]. split; [done|]. unfold shape. by rewrite list_lookup_fmap, Hs.
Qed.

(** When the engine refuses a copy, the peer is nevertheless told that its buffer was
    filled: header and data are reported as written, although only the byte of the
    offset was. *)
Theorem transfer_write_failure_reported c n i v0 v1 a lr cc us :
  has c n i -> feature_desc_alignment c = true -> status_ready i = false -> tx i = false -> num_kvecs_to (to i) = 2 -> dest c i v0 v1 ->
  remap e (now c) = Some a -> cookie e (S (now c)) < 0 ->
  0 < src_phys (from i) -> 0 <= data_size (from i) -> data_size (from i) + SEND_ALIGN_OVERHEAD_SIZE <= snd v1 ->
  0 <= a -> a + data_size (from i) + 256 < 2 ^ 64 -> src_phys (from i) + data_size (from i) + 128 < 2 ^ 64 ->
  resets (k_from (from i)) -> bytes_written (to i) = 0 -> 0 <= head_to (to i) < USHRT_MAX ->
  used_rep (u_ring c) (u_last c) lr cc us -> zlen us < u_num (u_ring c) -> ring_ok (vr (tx_vrh c)) ->
  exists c1 c2, transfer_write c n = Ret (c1, cookie e (S (now c))) /\ transfer_done c1 n = Ret c2
    /\ dmas c2 = dmas c /\ (forall x, x <> fst v1 -> pmem c2 x = pmem c x)
    /\ used_rep (u_ring c2) (u_last c2) lr cc (us ++ [mkUk (u32 (snd v0 + data_size (from i))) (head_to (to i))]).
Proof.
  intros H Ha Hst Htx Hn2 Hd Hr Hck Hsrc Hz Hsz Ha0 Ha1 Hs1 Hrs Hbw Hh Hu Hroom Hok.
  assert (u64 (data_size (from i) + SEND_ALIGN_OVERHEAD_SIZE) = data_size (from i) + SEND_ALIGN_OVERHEAD_SIZE) as Eu
    by (unfold SEND_ALIGN_OVERHEAD_SIZE, DMA_MAX_OFFSET, PLX_DMA_ALIGN_BYTES in *; apply u64_small; lia).
  destruct (write_ok c n i v0 v1 a H Hn2 Hd ltac:(lia) Hr) as (t & l & Hl & ->).
  set (c1 := windowed c n i v0 v1 a t l). set (i1 := set_remapped (set_written i (total i v0)) (Some (a, fst v1))).
  assert (has c1 n i1) as H1 by (apply (has_upd (tick (noted c t l)) n i i1 H)).
  destruct (dma_send_aligned c1 n i1 a (fst v1) (data_size (from i)) H1 Ha eq_refl Htx Hsrc Ha0 Hz Ha1 Hs1) as (nd & ns & len & offset & Hp & ->).
  unfold submitted. change (now (emit _ _)) with (S (now c)). rewrite (proj2 (Z.ltb_lt _ _) Hck).
  set (i2 := set_jiffies _ 0). set (c2 := tick _).
  assert (used_of i2 = [mkUk (u32 (snd v0 + data_size (from i))) (head_to (to i))]) as Eused.
  { unfold used_of. change (head_to (to i2)) with (head_to (to i)). unfold USHRT_MAX in *. rewrite (proj2 (Z.eqb_neq _ _)), u16_small by lia.
    change (bytes_written (to i2)) with (total i v0). by rewrite u32_total. }
  destruct (transfer_done_ok (upd c2 n i2) n i2 lr cc us) as (c3 & E & [_ _ Fs Fd _ [Fu _] _]); try done.
  { apply (has_upd c2 n i1 i2 H1). }
  { exact (dest_in_ring _ _ _ _ Hd). }
  { rewrite Eused. change (zlen [_]) with 1. change (u_num (u_ring (upd c2 n i2))) with (u_num (u_ring c)). lia. }
  exists (upd c2 n i2), c3. split; [done|]. split; [done|]. split; [exact Fd|]. rewrite Eused in Fu. split; [|exact Fu].
  intros x Hx. destruct Fs as (_ & _ & _ & _ & -> & _). cbn. apply mem_write_out. change (zlen [offset]) with 1. lia.
Qed.

(** Waiting for a completion ends whatever happens, after [timeout_ms] / 300 + 1 waits at
    the most. *)
Theorem vop_wait_for_completion_ends r c timeout_ms : 0 <= timeout_ms ->
  exists c' rc, vop_wait_for_completion r c timeout_ms = Ret (c', rc)
    /\ (rc = 0 \/ rc = - ENODEV \/ rc = - EINTR \/ rc = - EBUSY) /\ (rc = 0 -> ready c' <> 0).
Proof.
  intros Ht. unfold vop_wait_for_completion.
  assert (forall fuel c t, t <= 300 * Z.of_nat (S fuel) -> exists c' rc, wait_completion_loop (S fuel) r c t = Ret (c', rc)
    /\ (rc = 0 \/ rc = - ENODEV \/ rc = - EINTR \/ rc = - EBUSY) /\ (rc = 0 -> ready c' <> 0)) as Hloop.
  { clear. induction fuel as [|fuel IH]; intros c t Ht; cbn [wait_completion_loop]; (destruct (ready c =? 0); [eexists _, _; split; [done|]; split; [tauto|done]|]);
      destruct (wait r c) as [c' res]; (destruct (res <? 0); [eexists _, _; split; [done|]; split; [tauto|done]|]);
      (destruct (0 <? res); [eexists _, _; split; [done|]; destruct (ready c' =? 0) eqn:E; bools; cbn; split; [tauto|done|tauto|done]|]).
    - rewrite (proj2 (Z.leb_le (t - 300) 0)) by lia. eexists _, _. split; [done|]. split; [tauto|done].
    - destruct (t - 300 <=? 0); [eexists _, _; split; [done|]; split; [tauto|done]|]. apply IH. lia. }
  pose proof (Z.div_pos timeout_ms 300 Ht ltac:(lia)). pose proof (Z.mul_succ_div_gt timeout_ms 300 ltac:(lia)).
  replace (Z.to_nat (timeout_ms / 300 + 1)) with (S (Z.to_nat (timeout_ms / 300))) by lia. apply Hloop. lia.
Qed.

End Send.

(** ** Witnesses *)

(** A packet of 100 bytes at an odd address, behind a header of 12. *)
Definition x_vrh : vringh := mkVrh false 0 0 0
  (VirtioRing.mkVring 4 [VirtioRing.mkDesc 0x1000 12 1 1; VirtioRing.mkDesc 0x2005 100 0 0; VirtioRing.mkDesc 0 0 0 0; VirtioRing.mkDesc 0 0 0 0]
    0 1 [0; 0; 0; 0; 0] 0 0 (replicate 4 (VirtioRing.mkUsed 0 0)) 0).
Definition x_env (ck : Z) : xenv :=
  mkXenv (fun _ => Some 0x10000003) (fun a => a + 1) (fun _ => ck) (fun _ => 1000) (fun _ => 900) (fun j => j) (fun _ => true) false (fun _ => []) 0x100.
Definition x_wait (_ : wait_reason) (c : cdev) : cdev * Z := (tick c, 1).
Definition x_k : vringh_kiov := vringh_kiov_init [] 0.
Definition x_item (b : option (list Z)) (n : nat) : buffer_dma_item :=
  mkItem (Z.of_nat n) true b 0 0 false (mkFrom 0 0 0 0 false x_k USHRT_MAX 0) (mkTo (-1) None 0 USHRT_MAX 0 None).
Definition x_group : group := mkGroup 3 (0x7000, 12) (0x80000, 1800) false.
Definition x_shm : shm_ring := mkShm 2 [elem (0x7000, 12) x_group; elem (0x80000, 1800) x_group; mkPk (0, 0) 0 0; mkPk (0, 0) 0 0] 1800.
Definition x_none : shm_ring := mkShm 0 (replicate 4 (mkPk (0, 0) 0 0)) 0.
Definition x_dev (aligned : bool) (b : option (list Z)) : cdev :=
  mkCdev 2 aligned (negb aligned) 0 x_vrh (replicate 3 (mkKr 0 4 0 0)) [x_shm; x_none; x_none] 0 (mkUr 0 4 (replicate 4 (mkUk 0 0)))
    (mkRing (map (x_item b) (seq 0 512)) 0 0 0) (fun a => a mod 256) (fun _ => 0) [] 0 [].

Lemma x_vrh_ok : ring_ok (vr x_vrh).
Proof. split; try done. by exists 2. Qed.
Lemma x_roomy : roomy x_k.
Proof. split; [|by left]. exists 0. split; [by left|]. done. Qed.
Lemma x_idle aligned b : idle (x_dev aligned b) 0 (x_item b 0) x_k.
Proof. split; try done. exact x_roomy. Qed.
Lemma x_to_send ck aligned b : to_send (x_env ck) (x_dev aligned b) 0 (0x1000, 12) (0x2005, 100).
Proof. split; try done; [exact x_vrh_ok|]. apply (buffer_direct _ _ _ _ [1%nat]); [|done]. split; [done|]. by exists 0. Qed.
Lemma x_rep : ring_rep 2 (mkKr 2 4 1800 0) (mkKr 0 4 0 0) x_shm 0 1 1 [x_group].
Proof. split; try done; [|apply list.NoDup_singleton]. intros [|j] g Hj; [|done]. by injection Hj as <-. Qed.
Lemma x_offered aligned b : offered (x_dev aligned b) 100 0 2 (mkKr 2 4 1800 0) (mkKr 0 4 0 0) x_shm 0 1 1 x_group [].
Proof. split; try done. exact x_rep. Qed.
Lemma x_used : used_rep (mkUr 0 4 (replicate 4 (mkUk 0 0))) 0 0 0 [].
Proof. split; done. Qed.

Lemma sync_descriptors_read_task_step_delivers_witness :
  exists c1 c2 offset, sync_descriptors_read_task_step (x_env 5) x_wait 2 (x_dev true None) = Ret c1 /\ dma_finish (x_env 5) c1 = Ret c2
    /\ pmem c2 0x80000 = offset /\ mem_read (pmem c2) (0x80000 + offset) 100 = mem_read (fun a => a mod 256) 0x2005 100.
Proof.
  destruct (sync_descriptors_read_task_step_delivers (x_env 5) x_wait 0 (x_dev true None) 0 (x_item None 0) x_k 0 (0x1000, 12) (0x2005, 100)
    0 2 (mkKr 2 4 1800 0) (mkKr 0 4 0 0) x_shm 0 1 1 x_group [] 0x10000003 0 0 []) as (c1 & c2 & offset & da & len & k' & H1 & H2 & _ & H3 & H4 & _);
    [apply x_idle|done|apply x_to_send|apply x_offered|reflexivity..|done|done|done|done|exact x_used|done|cbn; lia|].
  exists c1, c2, offset. split; [exact H1|]. split; [exact H2|]. split; [exact H3|exact H4].
Defined.

Definition x_buf : list Z := replicate (Z.to_nat VOP_INT_DMA_BUF_SIZE) 0.
Lemma x_buf_len : zlen x_buf = VOP_INT_DMA_BUF_SIZE.
Proof. unfold x_buf, zlen. rewrite length_replicate. apply Z2Nat.id. done. Qed.

Lemma sync_descriptors_dma_task_delivers_witness :
  exists c1 c2 c3, sync_descriptors_read_task_step (x_env 5) x_wait 2 (x_dev false (Some x_buf)) = Ret c1
    /\ dma_task_loop (x_env 5) x_wait 1 c1 0 = Ret (c2, 1) /\ dma_finish (x_env 5) c2 = Ret c3
    /\ mem_read (pmem c3) 0x80000 100 = mem_read (fun a => a mod 256) 0x2005 100.
Proof.
  destruct (sync_descriptors_dma_task_delivers (x_env 5) x_wait 0 0 (x_dev false (Some x_buf)) 0 (x_item (Some x_buf) 0) x_k x_buf 0 (0x1000, 12) (0x2005, 100)
    0 2 (mkKr 2 4 1800 0) (mkKr 0 4 0 0) x_shm 0 1 1 x_group [] 0x10000003 0 0 []) as (c1 & c2 & c3 & b' & k' & H1 & H2 & H3 & H4 & _).
  - apply x_idle.
  - split; [done|]. split; [done|]. split; [done|]. split; [done|]. split; [reflexivity|exact x_buf_len].
  - apply x_to_send.
  - apply x_offered.
  - reflexivity.
  - reflexivity.
  - done.
  - exact x_used.
  - done.
  - exists c1, c2, c3. split; [exact H1|]. split; [exact H2|]. split; [exact H3|exact H4].
Defined.

(** An item whose copy is in flight, and one that has not found a buffer. *)
Definition x_flying (n : Z) (t : bool) (j : Z) : buffer_dma_item :=
  mkItem n false None 0 j t (mkFrom 100 0x2005 5 128 true (mkIov (replicate 8 (0, 0)) 0 2 2 8) 0 112)
    (mkTo 0 (Some 0) 2 3 0 (Some (0x10000003, 0x80000))).
Definition x_odd : buffer_dma_item :=
  mkItem 0 false None 0 0 false (mkFrom 0 0 0 0 true (mkIov (replicate 8 (0, 0)) 0 0 3 8) 0 0) (mkTo (-1) None 0 USHRT_MAX 0 None).
Definition x_busy (l : list buffer_dma_item) : cdev := set_ring (x_dev true None) (mkRing l 0 0 0).

Lemma x_flying_live n : live (shape (ks (x_busy []))) (x_flying n true 7).
Proof. apply way_live with 0 4; try done. by right. Qed.

Lemma transfer_done_callback_correct_witness :
  exists c', transfer_done_callback (x_env 5) (x_busy [x_odd; x_flying 1 true 7]) 1 = Ret c'
    /\ acts (log c') = [EvUsed 3 0; EvTx 0 112; EvUnmap (0x10000003, 0x80000); EvDmaUnmap 5 128].
Proof.
  destruct (transfer_done_callback_correct (x_env 5) (x_busy [x_odd; x_flying 1 true 7]) 1 (x_flying 1 true 7) [x_odd] 0 0 []) as (c' & E & [Hl _ _ _ _ _ _ _ _]).
  - done.
  - done.
  - done.
  - done.
  - done.
  - done.
  - intros [|j] x Hj; [|done]. by injection Hj as <-.
  - constructor; [done|]. constructor; [apply (x_flying_live 1)|constructor].
  - exact x_used.
  - done.
  - exact x_vrh_ok.
  - by exists c'.
Defined.

Lemma transfer_done_callback_lost_witness :
  transfer_done_callback (x_env 5) (set_ring (x_dev true None) (mkRing [x_flying 0 true 7] 1 1 1)) 0
  = Ret (upd (set_ring (x_dev true None) (mkRing [x_flying 0 true 7] 1 1 1)) 0 (x_flying 0 false 7)).
Proof. apply (transfer_done_callback_lost (x_env 5) _ 0 (x_flying 0 true 7)); done. Defined.

Lemma transfer_dma_send_in_window_witness :
  exists c' d, transfer_dma_send (x_env 5) (x_busy [x_flying 0 false 0]) 0 0x10000003 100 = Ret (c', 0) /\ dmas c' = [d] /\ d_dst d mod 64 = 0.
Proof.
  destruct (transfer_dma_send_in_window (x_env 5) (x_busy [x_flying 0 false 0]) 0 (x_flying 0 false 0) 0x10000003 0x80000 100)
    as (c' & ns & d & offset & E & Hd & _ & _ & Ha & _); try done.
  by exists c', d.
Defined.

Lemma transfer_unsupported_chain_witness : transfer (x_env 5) x_wait 9 (x_busy [x_odd]) 0 = Oob.
Proof. apply (transfer_unsupported_chain (x_env 5) x_wait 9 _ 0 x_odd); try done. exact x_vrh_ok. Defined.

Lemma transfer_write_failure_reported_witness :
  exists c1 c2, transfer_write (x_env (-12)) x_wait (x_busy [x_flying 0 false 0]) 0 = Ret (c1, -12) /\ transfer_done (x_env (-12)) c1 0 = Ret c2 /\ dmas c2 = []
    /\ used_rep (u_ring c2) (u_last c2) 0 0 [mkUk 112 3].
Proof.
  destruct (transfer_write_failure_reported (x_env (-12)) x_wait (x_busy [x_flying 0 false 0]) 0 (x_flying 0 false 0) (0x7000, 12) (0x80000, 1800) 0x10000003 0 0 [])
    as (c1 & c2 & H1 & H2 & H3 & _ & H4); try done.
  - exists 0, x_shm, (elem (0x7000, 12) x_group), (elem (0x80000, 1800) x_group). done.
  - by right.
  - exact x_vrh_ok.
  - exists c1, c2. split; [exact H1|]. split; [exact H2|]. split; [exact H3|exact H4].
Defined.

Lemma vop_wait_for_completion_ends_witness :
  exists c' rc, vop_wait_for_completion (fun _ c => (c, 0)) WItem (x_busy []) TIMEOUT_SEND_MS = Ret (c', rc)
    /\ (rc = 0 \/ rc = - ENODEV \/ rc = - EINTR \/ rc = - EBUSY) /\ (rc = 0 -> ready c' <> 0).
Proof. apply (vop_wait_for_completion_ends (fun _ c => (c, 0)) WItem (x_busy []) TIMEOUT_SEND_MS). done. Defined.

End VopXfer.
