(* ===== verification/VopRecv.v ===== *)
(** * The network transport: receiving

    [src/modules/vca/vop/vop_kvec_buff.c]: when the driver of the receive queue has
    published buffers, they are taken from the queue ([Vringh]) and put into the rings
    of the peer ([KvecBuff]), which sees them when the indices are written; a thread
    waits for the buffers that the peer has used and completes them.  The last part is
    where the rings lie in the shared memory.

    [wait] gives the state in which a wait ends, with its result; [clock] and [rcv_ts] are
    read at the points that [rv_now] counts. *)

From S2P Require Import Prelude VirtioRing Vringh KvecBuff.
From stdpp Require Import base list numbers option tactics.
From Stdlib Require Import ZArith Lia.
#[local] Open Scope Z_scope.

Module VopRecv.
Import Vringh.
Import KvecBuff.

(** ** Constants and data *)

Definition KVEC_INDEX_UPDATE_PERIOD := 16.
Definition HEADS_UP_NOTIFICATION_TIMEOUT_MS := 2.
Definition HEADS_UP_TIMEOUT_MS := 2 * HEADS_UP_NOTIFICATION_TIMEOUT_MS.

(** What the driver does outside of the memory of the model. *)
Inductive action := ActHeadsUp | ActInterrupt.

(** The receiving part of [struct vop_dev_common]: the receive queue, the rings of the
    peer ([remote_write_kvecs]) and the used ring on this side ([local_write_kvecs]). *)
Record recv := mkRecv {
  ready : Z;
  mapped : bool;
  is_update : bool;
  vrh_rcv : vringh;
  kiov : vringh_kiov;
  rings : list vop_kvec_ring;
  shm : list shm_ring;
  used_last : Z;
  used_ring : vop_used_kiov_ring;
  sent_ts : Z;
  now : nat;
  acted : list action;
}.

Definition set_update (s : recv) b := mkRecv (ready s) (mapped s) b (vrh_rcv s) (kiov s) (rings s) (shm s) (used_last s) (used_ring s) (sent_ts s) (now s) (acted s).
Definition set_queue (s : recv) v k := mkRecv (ready s) (mapped s) (is_update s) v k (rings s) (shm s) (used_last s) (used_ring s) (sent_ts s) (now s) (acted s).
Definition set_rings (s : recv) r m := mkRecv (ready s) (mapped s) (is_update s) (vrh_rcv s) (kiov s) r m (used_last s) (used_ring s) (sent_ts s) (now s) (acted s).
Definition set_used_last (s : recv) v l := mkRecv (ready s) (mapped s) (is_update s) v (kiov s) (rings s) (shm s) l (used_ring s) (sent_ts s) (now s) (acted s).
Definition act (s : recv) t a := mkRecv (ready s) (mapped s) (is_update s) (vrh_rcv s) (kiov s) (rings s) (shm s) (used_last s) (used_ring s) t (now s) (acted s ++ [a]).
Definition tick (s : recv) := mkRecv (ready s) (mapped s) (is_update s) (vrh_rcv s) (kiov s) (rings s) (shm s) (used_last s) (used_ring s) (sent_ts s) (S (now s)) (acted s).

(** What the kernel answers. *)
Record renv := mkRenv {
  clock : nat -> Z;
  rcv_ts : nat -> Z;
  jiffies_to_msecs : Z -> Z;
  alloc_ok : nat -> bool;
  desc_mem : Z -> list VirtioRing.vring_desc;
  desc_addr : Z;
  junk : vop_peer_kvec;
}.

Inductive wait_reason := WPoll | WUsed.

(** A buffer of the receive queue: its head and its two writable segments. *)
#[local] Notation buf := (nat * (Z * Z) * (Z * Z))%type.

Section Recv.
Context (e : renv) (wait : wait_reason -> recv -> recv * Z).

(** ** Offering buffers *)

(** [vop_send_heads_up] for the interrupt that tells of new buffers. *)
Definition common_dev_notify_avail (s : recv) : recv :=
  let t := clock e (now s) in
  if HEADS_UP_NOTIFICATION_TIMEOUT_MS <=? jiffies_to_msecs e (u64 (t - sent_ts s)) then act s t ActHeadsUp else s.

(** [vop_common_get_descriptors] on the write side; the result is the head and the code. *)
Definition get_write_descriptors (s : recv) (head : Z) : outcome (recv * Z * Z) :=
  if head =? USHRT_MAX then
    '(vrh, (_, wiov), h, ret) ← vca_vringh_getdesc_kern (desc_mem e) (desc_addr e) (alloc_ok e (now s)) (vrh_rcv s) None (Some (kiov s));
    let k := default (kiov s) wiov in
    let k := if ret <? 0 then vringh_kiov_cleanup k else k in
    Ret (tick (set_queue s vrh k), if ret <=? 0 then USHRT_MAX else default head h, ret)
  else Ret (s, head, 1).

(** [vop_kvec_buff_update_idx] of [KvecBuff] with its notification. *)
Definition update_idx (s : recv) (cnt_size : list Z) : recv * list Z :=
  let '(m, cnt_size) := vop_kvec_buff_update_idx (rings s) (shm s) cnt_size in
  (common_dev_notify_avail (set_rings s (rings s) m), cnt_size).

(** The [while] of [vop_kvec_buf_update]. *)
Fixpoint update_loop (fuel : nat) (s : recv) (head : Z) (cnt_size : list Z) (cnt_total : Z) : outcome (recv * list Z) :=
  '(s, head, ret) ← get_write_descriptors s head;
  if ret <=? 0 then Ret (s, cnt_size)
  else match fuel with
  | O => Spin
  | S fuel =>
      '(rs, m, ring_id) ← vop_kvec_put (junk e) (rings s) (shm s) (kiov s) head;
      let s := set_rings s rs m in
      if ring_id <? 0 then update_loop fuel s USHRT_MAX cnt_size cnt_total
      else
        n ← aget cnt_size ring_id;
        cnt_size ← aset cnt_size ring_id (u32 (n + 1));
        let cnt_total := u32 (cnt_total + 1) in
        r ← aget (rings s) ring_id;
        rs ← aset (rings s) ring_id (mkKr (last_cnt r) (num r) (send_max_size_local r) (u32 (stats_num r + 1)));
        let s := set_rings s rs (shm s) in
        let '(s, cnt_size) := if (cnt_total mod KVEC_INDEX_UPDATE_PERIOD =? 0) && negb (cnt_total =? 0)
                              then update_idx s cnt_size else (s, cnt_size) in
        update_loop fuel s USHRT_MAX cnt_size cnt_total
  end.

Definition vop_kvec_buf_update (fuel : nat) (s : recv) : outcome recv :=
  if ready s =? 0 then Ret s
  else
    let s := set_update s true in
    if negb (mapped s) then Ret (set_update s false)
    else
      let s := common_dev_notify_avail s in
      '(s, cnt_size) ← update_loop fuel s USHRT_MAX (replicate (Z.to_nat KVEC_BUF_NUM) 0) 0;
      Ret (set_update (fst (update_idx s cnt_size)) false).

(** ** Used buffers *)

Definition heads_up (s : recv) : bool := jiffies_to_msecs e (u64 (clock e (now s) - rcv_ts e (now s))) <=? HEADS_UP_TIMEOUT_MS.
Definition check_new_used_desc (s : recv) : bool := negb (u_cnt (used_ring s) =? used_last s).

(** [wait_for_used_desc]: the same wait as for a buffer of the peer in [VopXfer]. *)
Fixpoint poll_loop (fuel : nat) (s : recv) : outcome recv :=
  if negb (ready s =? 0) && negb (check_new_used_desc s) && heads_up s
  then match fuel with O => Spin | S fuel => poll_loop fuel (fst (wait WPoll s)) end else Ret s.
Fixpoint wait_for_used_desc (fuel : nat) (s : recv) : outcome (recv * Z) :=
  match fuel with
  | O => Spin
  | S fuel =>
      s ← poll_loop fuel s;
      let '(s, ret) := if negb (check_new_used_desc s) then wait WUsed s else (s, 0) in
      if ret <? 0 then Ret (s, ret)
      else if negb (check_new_used_desc s) && negb (ready s =? 0) then wait_for_used_desc fuel s
      else Ret (s, if ready s =? 0 then - ENODEV else 0)
  end.

(** [vop_kvec_buf_consume] of [KvecBuff], when the device is ready. *)
Definition consume (s : recv) : outcome recv :=
  if ready s =? 0 then Ret s
  else '(vrh, last) ← vop_kvec_buf_consume (vrh_rcv s) (used_ring s) (used_last s); Ret (set_used_last s vrh last).

(** The [while] of the thread; the queue has been set up. *)
Fixpoint spin_loop (fuel : nat) (s : recv) : outcome recv :=
  match fuel with
  | O => Spin
  | S fuel =>
      '(s, err) ← wait_for_used_desc fuel s;
      if negb (err =? 0) then Ret s
      else s ← consume s; spin_loop fuel (act s (sent_ts s) ActInterrupt)
  end.
Definition vop_spin_for_used_descriptors (fuel : nat) (inited : bool) (s : recv) : outcome (recv * Z) :=
  if negb inited then Ret (s, - EBUSY) else s ← spin_loop fuel s; Ret (s, 0).

(** ** The published buffers of a queue *)

Definition b_group (b : buf) : group := let '(head, v0, v1) := b in mkGroup (Z.of_nat head) v0 v1 false.
Definition b_ring (b : buf) : Z := get_ring_id_write (snd (snd b)).

Record queue (vrh : vringh) (l : list buf) : Prop := {
  q_ring : ring_ok (vr vrh);
  q_last : fits 16 (last_avail_idx vrh);
  q_idx : VirtioRing.avail_idx (vr vrh) = u16 (last_avail_idx vrh + zlen l);
  q_len : zlen l <= VirtioRing.num (vr vrh);
  q_bufs : forall j head v0 v1, l !! j = Some (head, v0, v1) ->
    VirtioRing.avail_ring (vr vrh) !! Z.to_nat ((last_avail_idx vrh + Z.of_nat j) mod VirtioRing.num (vr vrh)) = Some (Z.of_nat head)
    /\ Z.of_nat head < VirtioRing.num (vr vrh) /\ buffer_at (desc_mem e) (vr vrh) head [(v0, true); (v1, true)]
    /\ fits 64 (fst v0) /\ fits 64 (fst v1);
}.

Lemma avail_mod x n : ring_ok n -> u16 x mod VirtioRing.num n = x mod VirtioRing.num n.
Proof.
  intros [(k & Hk & ->) _ _ _]. unfold u16, wrap. apply Z.mod_mod_divide.
  exists (2 ^ (16 - k)). change 65536 with (2 ^ 16). rewrite <- Z.pow_add_r by lia. f_equal. lia.
Qed.

Lemma queue_next vrh head v0 v1 l : queue vrh ((head, v0, v1) :: l) ->
  pending vrh head /\ buffer_at (desc_mem e) (vr vrh) head [(v0, true); (v1, true)] /\ fits 64 (fst v0) /\ fits 64 (fst v1)
  /\ queue (set_last_avail vrh (u16 (last_avail_idx vrh + 1))) l.
Proof.
  intros [Hr Hl Hi Hn Hb]. pose proof (ring_num _ Hr) as Hnum. rewrite zlen_cons in *. pose proof (zlen_nonneg l) as Hz.
  destruct (Hb 0%nat head v0 v1 eq_refl) as (H0 & Hh & Hbuf & Hf0 & Hf1). rewrite Z.add_0_r in H0. unfold fits in Hl.
  split; [split; [|done]|].
  { rewrite Hi. unfold u16, wrap. intros E. change (2 ^ 16) with 65536 in *. destruct (Z.lt_ge_cases (last_avail_idx vrh + (1 + zlen l)) 65536).
    - rewrite Z.mod_small in E by lia. lia.
    - rewrite <- (Z.mod_add _ (-1)) in E by lia. rewrite Z.mod_small in E by lia. lia. }
  split; [done|]. split; [done|]. split; [done|]. split; cbn [vr set_last_avail last_avail_idx].
  - done.
  - apply u16_range.
  - rewrite Hi. unfold u16, wrap. rewrite Zplus_mod_idemp_l. f_equal. lia.
  - lia.
  - intros j h x y Hj. specialize (Hb (S j) h x y Hj). rewrite <- Z.add_mod_idemp_l, avail_mod, Z.add_mod_idemp_l by (done || lia).
    by replace (last_avail_idx vrh + 1 + Z.of_nat j) with (last_avail_idx vrh + Z.of_nat (S j)) by lia.
Qed.

Lemma get_write_ok s head v0 v1 l :
  queue (vrh_rcv s) ((head, v0, v1) :: l) -> kiov_wf (kiov s) -> alloc_ok e (now s) = true ->
  exists k, get_write_descriptors s USHRT_MAX
      = Ret (tick (set_queue s (set_last_avail (vrh_rcv s) (u16 (last_avail_idx (vrh_rcv s) + 1))) k), Z.of_nat head, 1)
    /\ kiov_wf k /\ two_vectors k v0 v1 /\ queue (set_last_avail (vrh_rcv s) (u16 (last_avail_idx (vrh_rcv s) + 1))) l.
Proof.
  intros Hq Hk Hal. destruct (queue_next _ _ _ _ _ Hq) as (Hp & Hb & Hf0 & Hf1 & Hq'). pose proof (q_ring _ _ Hq) as Hok.
  unfold get_write_descriptors. rewrite Z.eqb_refl, Hal. pose proof Hk as (cap & Hm & Hc & Hl & _).
  assert (kiov_wf (iov_clear (kiov s))) as Hk0 by (exists cap; cbn; repeat split; try done; lia).
  destruct (getdesc_kern_ok (desc_mem e) (desc_addr e) (vrh_rcv s) head [(v0, true); (v1, true)] None (Some (kiov s)) Hok Hp Hb)
    as (r' & w' & -> & _ & Hw); [by rewrite !list.Forall_cons|by right|done|by split|]. run_bind.
  destruct w' as [k|]; [|done]. destruct Hw as (Hkw & Hkv & Hku & _ & _). change (iov_used k = 2) in Hku.
  cbn [default Z.ltb Z.leb Z.compare]. exists k. split; [done|]. split; [done|]. split; [|done].
  change (vecs k = [v0; v1]) in Hkv. unfold vecs in Hkv. rewrite Hku in Hkv. change (Z.to_nat 2) with 2%nat in Hkv.
  split; [lia|]. destruct (iov k) as [|x [|y t]]; try done. cbn in Hkv. by injection Hkv as -> ->.
Qed.

(** ** Putting the buffers of a queue *)

(** A ring of the peer before the update: its size, the peer's side, its counters and the
    buffers that wait in it. *)
Record view := mkView { v_m : Z; v_r : vop_kvec_ring; v_rd : Z; v_wr : Z; v_q : list group }.
Definition added (id : Z) (l : list buf) : list group := map b_group (List.filter (fun b => b_ring b =? id) l).

(** [done] have been put: in each ring the ones of its size follow the old ones, and they
    are visible unless the ring's count says that the index has to be written. *)
Definition holds (v : view) (id : Z) (done : list buf) (w : vop_kvec_ring) (s : shm_ring) (n : Z) : Prop :=
  let wr := v_wr v + zlen (added id done) in
  0 <= n <= zlen done /\ exists pub, ring_rep (v_m v) w (v_r v) s (v_rd v) pub wr (v_q v ++ added id done) /\ (n = 0 -> pub = wr).
Record putting (base : list view) (done : list buf) (rs : list vop_kvec_ring) (m : list shm_ring) (cnts : list Z) : Prop := {
  pu_len : length base = 3%nat /\ length rs = 3%nat /\ length m = 3%nat /\ length cnts = 3%nat;
  pu_rings : forall id v w s n, base !! id = Some v -> rs !! id = Some w -> m !! id = Some s -> cnts !! id = Some n ->
    holds v (Z.of_nat id) done w s n;
}.

Lemma added_app id l k : added id (l ++ k) = added id l ++ added id k.
Proof. unfold added. by rewrite List.filter_app, map_app. Qed.
Lemma added_le id l : zlen (added id l) <= zlen l.
Proof. unfold added, zlen. rewrite length_map. pose proof (List.filter_length_le (fun b => b_ring b =? id) l). lia. Qed.
Lemma holds_other v id done w s n b : b_ring b <> id -> holds v id done w s n -> holds v id (done ++ [b]) w s n.
Proof.
  intros Hb (Hn & pub & Hr). unfold holds. rewrite added_app. unfold added at 2 4 6. cbn [List.filter]. rewrite (proj2 (Z.eqb_neq _ _) Hb). cbn [map].
  rewrite app_nil_r, zlen_app. change (zlen [b]) with 1. split; [lia|]. by exists pub.
Qed.

(** A buffer that can be put: the ring that its size selects, if there is one, has room, and
    its head is not there yet. *)
Definition fits_in (base : list view) (done : list buf) (b : buf) : Prop :=
  snd (snd b) < 2 ^ 32
  /\ forall id v, base !! id = Some v -> b_ring b = Z.of_nat id ->
       v_wr v + zlen (added (Z.of_nat id) done) - v_rd v < v_m v /\ g_head (b_group b) ∉ map g_head (v_q v ++ added (Z.of_nat id) done).

(** [stats_num] of a ring is counted. *)
Definition counted (r : vop_kvec_ring) : vop_kvec_ring := mkKr (last_cnt r) (num r) (send_max_size_local r) (u32 (stats_num r + 1)).
Lemma rep_counted m w r s rd pub wr q : ring_rep m w r s rd pub wr q -> ring_rep m (counted w) r s rd pub wr q.
Proof. intros []. by split. Qed.

Lemma put_step base done rs m cnts k head v0 v1 :
  putting base done rs m cnts -> zlen done < 65536 -> two_vectors k v0 v1 -> fits_in base done (head, v0, v1) -> MTU_DEFAULT <= snd v1 ->
  exists rs' m' id n w', vop_kvec_put (junk e) rs m k (Z.of_nat head) = Ret (rs', m', id) /\ 0 <= id
    /\ aget cnts id = Ret n /\ aget rs' id = Ret w'
    /\ exists rs2 cnts', aset rs' id (counted w') = Ret rs2 /\ aset cnts id (u32 (n + 1)) = Ret cnts'
    /\ putting base (done ++ [(head, v0, v1)]) rs2 m' cnts'.
Proof.
  intros [(Lb & Lr & Lm & Lc) Hr] Hd Htv (Hsz & Hfit) Hmin. cbn [snd] in Hsz. set (b := (head, v0, v1)) in *. set (id := b_ring b).
  assert (0 <= id < 3) as Hid. { unfold id, b_ring. apply ring_id_range. exact Hmin. }
  destruct (lookup_lt_is_Some_2 base (Z.to_nat id)) as [v Hv]; [lia|]. destruct (lookup_lt_is_Some_2 rs (Z.to_nat id)) as [w Hw]; [lia|].
  destruct (lookup_lt_is_Some_2 m (Z.to_nat id)) as [s Hs]; [lia|]. destruct (lookup_lt_is_Some_2 cnts (Z.to_nat id)) as [n Hn]; [lia|].
  destruct (Hfit _ _ Hv ltac:(rewrite Z2Nat.id by lia; done)) as (Hroom & Hhead). rewrite Z2Nat.id in Hroom, Hhead by lia.
  destruct (Hr _ _ _ _ _ Hv Hw Hs Hn) as (Hcn & pub & Hrep & Hpub). rewrite Z2Nat.id in Hrep, Hpub by lia.
  destruct (kvec_put_ok (junk e) rs m k (Z.of_nat head) v0 v1 (v_m v) w (v_r v) s (v_rd v) pub _ _ Htv (conj Hmin Hsz) Hw Hs Hrep Hroom Hhead)
    as (w' & s' & E & Hrep' & _). change (get_ring_id_write (snd v1)) with id in E.
  exists (<[Z.to_nat id := w']> rs), (<[Z.to_nat id := s']> m), id, n, w'. split; [exact E|]. split; [lia|].
  split; [apply aget_ret; [lia|done]|]. split; [apply aget_ret; [lia|]; apply list_lookup_insert_eq; lia|].
  rewrite !aset_ret by (unfold zlen; rewrite ?length_insert; lia). eexists _, _. split; [done|]. split; [done|].
  assert (u32 (n + 1) = n + 1) as Eu by (apply u32_small; lia). rewrite Eu. split.
  - rewrite !length_insert. done.
  - intros i v2 w2 s2 n2 Hv2 Hw2 Hs2 Hn2. rewrite list_insert_insert_eq in Hw2. destruct (decide (i = Z.to_nat id)) as [->|Hne].
    + rewrite list_lookup_insert_eq in Hw2 by lia. rewrite list_lookup_insert_eq in Hs2 by lia. rewrite list_lookup_insert_eq in Hn2 by lia. rewrite Hv in Hv2. injection Hv2 as <-. injection Hw2 as <-. injection Hs2 as <-. injection Hn2 as <-.
      rewrite Z2Nat.id by lia. unfold holds. rewrite added_app, zlen_app, zlen_app. unfold added at 2 4 6. cbn [List.filter]. fold id. rewrite Z.eqb_refl. cbn [map].
      change (zlen [_]) with 1. change (zlen [b_group b]) with 1. split; [lia|]. exists pub. split; [|lia]. rewrite Z.add_assoc, app_assoc. apply rep_counted, Hrep'.
    + rewrite list_lookup_insert_ne in Hw2 by done. rewrite list_lookup_insert_ne in Hs2 by done. rewrite list_lookup_insert_ne in Hn2 by done. apply holds_other; [lia|]. by apply (Hr i).
Qed.

(** A buffer that is too small is not put. *)
Lemma put_small rs m k head v0 v1 : two_vectors k v0 v1 -> snd v1 < MTU_DEFAULT ->
  vop_kvec_put (junk e) rs m k (Z.of_nat head) = Ret (rs, m, - EDOM).
Proof.
  intros (Hu & H0 & H1) Hsz. unfold vop_kvec_put. rewrite (proj2 (Z.ltb_lt 0 (iov_used k))) by lia. rewrite (aget_ret _ 0 v0) by done. run_bind.
  rewrite (proj2 (Z.ltb_lt 1 (iov_used k))) by lia. rewrite (aget_ret _ 1 v1) by done. run_bind.
  unfold get_ring_id_write. by rewrite (proj2 (Z.ltb_lt _ _) Hsz).
Qed.
Lemma putting_small base done rs m cnts head v0 v1 : snd v1 < MTU_DEFAULT ->
  putting base done rs m cnts -> putting base (done ++ [(head, v0, v1)]) rs m cnts.
Proof.
  intros Hsz [Hl Hr]. split; [done|]. intros id v w s n Hv Hw Hs Hn. apply holds_other; [|by apply (Hr id)].
  unfold b_ring, get_ring_id_write. cbn [snd]. rewrite (proj2 (Z.ltb_lt _ _) Hsz). unfold EDOM. lia.
Qed.

(** ** Publishing *)

Lemma publish_lookup rs : forall m cnts, length m = length rs -> length cnts = length rs ->
  exists m', vop_kvec_buff_update_idx rs m cnts = (m', replicate (length rs) 0) /\ length m' = length rs
    /\ forall i w s n, rs !! i = Some w -> m !! i = Some s -> cnts !! i = Some n ->
         m' !! i = Some (if negb (n =? 0) then mkShm (last_cnt w) (s_buf s) (s_max s) else s).
Proof.
  induction rs as [|r rs IH]; intros [|x m] [|n cnts]; try done; intros Hm Hc; cbn [vop_kvec_buff_update_idx].
  { by exists []. }
  destruct (IH m cnts) as (m' & -> & Hl & Hi); [by injection Hm|by injection Hc|]. eexists. split; [done|]. split; [cbn; by rewrite Hl|].
  intros [|i] w s k; cbn; [by intros [= <-] [= <-] [= <-]|apply Hi].
Qed.

Lemma publish_step base done s cnts : putting base done (rings s) (shm s) cnts ->
  exists s', update_idx s cnts = (s', [0; 0; 0]) /\ putting base done (rings s') (shm s') [0; 0; 0]
    /\ vrh_rcv s' = vrh_rcv s /\ kiov s' = kiov s /\ ready s' = ready s /\ mapped s' = mapped s.
Proof.
  intros [(Lb & Lr & Lm & Lc) Hr]. unfold update_idx. destruct (publish_lookup (rings s) (shm s) cnts) as (m' & -> & Hl & Hi); [lia..|].
  rewrite Lr in *. change (replicate 3 0) with [0; 0; 0]. eexists. split; [reflexivity|].
  assert (putting base done (rings s) m' [0; 0; 0]) as Hp.
  { split; [done|]. intros id v w s2 n Hv Hw Hs Hn.
    destruct (lookup_lt_is_Some_2 (shm s) id) as [s1 Hs1]; [apply lookup_lt_Some in Hw; lia|]. destruct (lookup_lt_is_Some_2 cnts id) as [n1 Hn1]; [apply lookup_lt_Some in Hw; lia|].
    rewrite (Hi _ _ _ _ Hw Hs1 Hn1) in Hs. injection Hs as <-. destruct (Hr _ _ _ _ _ Hv Hw Hs1 Hn1) as (Hc & pub & Hrep & Hpub).
    assert (n = 0) as -> by (apply list_elem_of_lookup_2 in Hn; rewrite !elem_of_cons, elem_of_nil in Hn; tauto).
    split; [pose proof (zlen_nonneg done); lia|]. eexists. split; [|done].
    destruct (n1 =? 0) eqn:E; bools; cbn [negb]; [by rewrite Hpub in Hrep|]. eapply rep_publish, Hrep. }
  unfold common_dev_notify_avail. destruct (_ <=? _); done.
Qed.

Lemma get_write_none s : queue (vrh_rcv s) [] -> kiov_wf (kiov s) ->
  get_write_descriptors s USHRT_MAX = Ret (tick (set_queue s (vrh_rcv s) (kiov s)), USHRT_MAX, 0).
Proof.
  intros [Hr Hl Hi _ _] Hk. unfold get_write_descriptors. rewrite Z.eqb_refl. unfold vca_vringh_getdesc_kern, __vringh_get_head, no_fault. cbn [Z.eqb negb].
  change (zlen []) with 0 in Hi. rewrite Hi, Z.add_0_r, u16_small, Z.eqb_refl by exact Hl. run_bind. pose proof (ring_num _ Hr).
  rewrite (proj2 (Z.ltb_ge _ 0)), Z.eqb_refl by lia. run_bind. done.
Qed.

Fixpoint fit_all (base : list view) (done l : list buf) : Prop :=
  match l with [] => True | b :: l => fits_in base done b /\ fit_all base (done ++ [b]) l end.

Lemma update_loop_ok base l : forall fuel s done cnts total,
  queue (vrh_rcv s) l -> kiov_wf (kiov s) -> (forall t, alloc_ok e t = true) -> putting base done (rings s) (shm s) cnts ->
  fit_all base done l -> zlen done + zlen l < 65536 -> (length l <= fuel)%nat ->
  exists s' cnts', update_loop fuel s USHRT_MAX cnts total = Ret (s', cnts') /\ putting base (done ++ l) (rings s') (shm s') cnts'
    /\ queue (vrh_rcv s') [] /\ kiov_wf (kiov s') /\ ready s' = ready s /\ mapped s' = mapped s.
Proof.
  induction l as [|[[head v0] v1] l IH]; intros fuel s dn cnts total Hq Hk Hal Hp Hfit Hlen Hfuel.
  { exists (tick (set_queue s (vrh_rcv s) (kiov s))), cnts. rewrite app_nil_r. destruct fuel; cbn [update_loop]; rewrite get_write_none by done; done. }
  destruct fuel as [|fuel]; [cbn in Hfuel; lia|]. cbn [update_loop]. destruct (get_write_ok s head v0 v1 l Hq Hk (Hal _)) as (k & -> & Hk' & Htv & Hq').
  run_bind. cbn [Z.leb Z.compare]. set (s1 := tick _). destruct Hfit as [Hf Hfit]. rewrite zlen_cons in Hlen. pose proof (zlen_nonneg l).
  destruct (Z.lt_ge_cases (snd v1) MTU_DEFAULT) as [Hsm|Hmin].
  { change (kiov s1) with k. rewrite (put_small _ _ k head v0 v1 Htv Hsm). run_bind. change (- EDOM <? 0) with true. cbv iota.
    destruct (IH fuel (set_rings s1 (rings s1) (shm s1)) (dn ++ [(head, v0, v1)]) cnts total) as (s' & c' & E' & Hp4 & Hrest); try done.
    - by apply putting_small.
    - rewrite zlen_app. change (zlen [_]) with 1. lia.
    - cbn in Hfuel. lia.
    - exists s', c'. split; [exact E'|]. rewrite <- app_assoc in Hp4. by split. }
  destruct (put_step base dn (rings s1) (shm s1) cnts k head v0 v1 Hp ltac:(lia) Htv Hf Hmin) as (rs' & m' & id & n & w' & E & Hid & En & Ew & rs2 & cnts' & Er & Ec & Hp').
  change (kiov s1) with k. rewrite E. run_bind. rewrite (proj2 (Z.ltb_ge id 0)), En by lia. run_bind. rewrite Ec. run_bind. cbn [rings set_rings]. rewrite Ew. run_bind.
  fold (counted w'). rewrite Er. run_bind. set (s2 := set_rings _ rs2 _).
  assert (exists s3 cnts3, (if (u32 (total + 1) mod KVEC_INDEX_UPDATE_PERIOD =? 0) && negb (u32 (total + 1) =? 0) then update_idx s2 cnts' else (s2, cnts')) = (s3, cnts3)
    /\ putting base (dn ++ [(head, v0, v1)]) (rings s3) (shm s3) cnts3 /\ vrh_rcv s3 = vrh_rcv s2 /\ kiov s3 = kiov s2 /\ ready s3 = ready s2 /\ mapped s3 = mapped s2)
    as (s3 & cnts3 & -> & Hp3 & Ev & Ek & Erd & Emp).
  { destruct (_ && _); [|by exists s2, cnts']. destruct (publish_step base (dn ++ [(head, v0, v1)]) s2 cnts' Hp') as (s3 & -> & H3 & ?). by exists s3, [0; 0; 0]. }
  destruct (IH fuel s3 (dn ++ [(head, v0, v1)]) cnts3 (u32 (total + 1))) as (s' & c' & E' & Hp4 & Hq4 & Hk4 & Hr4 & Hm4); try done.
  - by rewrite Ev.
  - by rewrite Ek.
  - rewrite zlen_app. change (zlen [_]) with 1. lia.
  - cbn in Hfuel. lia.
  - exists s', c'. split; [exact E'|]. rewrite <- app_assoc in Hp4. split; [exact Hp4|]. split; [done|]. split; [done|]. by rewrite Hr4, Erd, Hm4, Emp.
Qed.

Lemma fit_all_intro base l : forall done,
  Forall (fun b => snd (snd b) < 2 ^ 32) l ->
  (forall v, v ∈ base -> v_wr v - v_rd v + zlen (done ++ l) <= v_m v) ->
  NoDup (map (fun b => g_head (b_group b)) (done ++ l)) ->
  (forall v b, v ∈ base -> b ∈ l -> g_head (b_group b) ∉ map g_head (v_q v)) -> fit_all base done l.
Proof.
  induction l as [|b l IH]; intros dn Hsz Hroom Hnd Hnew; [exact I|]. inversion Hsz; subst. split.
  - split; [done|]. intros id v Hv Hb. assert (v ∈ base) as Hin by (apply list_elem_of_lookup; eauto). specialize (Hroom v Hin).
    pose proof (added_le (Z.of_nat id) dn). rewrite zlen_app, zlen_cons in Hroom. pose proof (zlen_nonneg l). split; [lia|].
    rewrite map_app, not_elem_of_app. split; [apply Hnew; [done|by apply elem_of_cons; left]|].
    intros Hx. rewrite map_app in Hnd. cbn [map] in Hnd. apply list.NoDup_app in Hnd as (_ & Hdis & _).
    apply (Hdis (g_head (b_group b))); [|by apply elem_of_cons; left].
    apply list_elem_of_In in Hx. apply in_map_iff in Hx as (g & Hg & Hin2). unfold added in Hin2. apply in_map_iff in Hin2 as (b2 & <- & Hin2).
    apply filter_In in Hin2 as [Hin2 _]. apply list_elem_of_In, in_map_iff. by exists b2.
  - apply IH; try done.
    + intros v Hv. rewrite <- app_assoc. by apply Hroom.
    + by rewrite <- app_assoc.
    + intros v b2 Hv Hb2. apply Hnew; [done|]. by apply elem_of_cons; right.
Qed.

(** The rings have room for every buffer of the queue. *)
Lemma heads_room (n : Z) (hs : list Z) : 0 <= n -> NoDup hs -> (forall h, h ∈ hs -> 0 <= h < n) -> zlen hs <= n.
Proof.
  intros Hn Hnd Hin. unfold zlen. apply (Z.le_trans _ (Z.of_nat (length (seqZ 0 n)))); [|rewrite length_seqZ; lia].
  apply inj_le, submseteq_length, NoDup_submseteq; [done|]. intros h Hh. apply elem_of_seqZ. specialize (Hin h Hh). lia.
Qed.

Definition fresh_heads (base : list view) (l : list buf) (n : Z) : Prop :=
  forall v, v ∈ base -> n <= v_m v /\ (forall g, g ∈ v_q v -> 0 <= g_head g < n)
    /\ NoDup (map g_head (v_q v) ++ map (fun b => g_head (b_group b)) l).

Lemma base_room base l s : queue (vrh_rcv s) l -> putting base [] (rings s) (shm s) [0; 0; 0] ->
  fresh_heads base l (VirtioRing.num (vr (vrh_rcv s))) ->
  NoDup (map (fun b => g_head (b_group b)) l) /\ (forall v, v ∈ base -> v_wr v - v_rd v + zlen l <= v_m v)
  /\ (forall v b, v ∈ base -> b ∈ l -> g_head (b_group b) ∉ map g_head (v_q v)).
Proof.
  intros Hq [(Lb & Lr & Lm & _) Hr] Hbase. destruct base as [|v0 base]; [done|]. pose proof (ring_num _ (q_ring _ _ Hq)) as Hnum. split.
  { destruct (Hbase v0) as (_ & _ & Hnd); [by apply elem_of_cons; left|]. by apply list.NoDup_app in Hnd as (_ & _ & ?). }
  split.
  - intros v Hv. destruct (Hbase v Hv) as (Hm & Hin & Hnd). apply list_elem_of_lookup in Hv as (id & Hid). pose proof (lookup_lt_Some _ _ _ Hid).
    destruct (lookup_lt_is_Some_2 (rings s) id) as [w Hw]; [lia|]. destruct (lookup_lt_is_Some_2 (shm s) id) as [m Hm2]; [lia|].
    assert ([0; 0; 0] !! id = Some 0) as Hc by (destruct id as [|[|[|id]]]; done || lia).
    destruct (Hr _ _ _ _ _ Hid Hw Hm2 Hc) as (_ & pub & Hrep & _). pose proof (rr_len _ _ _ _ _ _ _ _ Hrep) as Hlen.
    change (added (Z.of_nat id) []) with (@nil group) in Hlen. rewrite app_nil_r in Hlen. change (zlen []) with 0 in Hlen.
    pose proof (heads_room (VirtioRing.num (vr (vrh_rcv s))) _ ltac:(lia) Hnd) as Hle. rewrite zlen_app in Hle. unfold zlen in *. rewrite !length_map in Hle.
    enough (Z.of_nat (length (v_q v)) + Z.of_nat (length l) <= VirtioRing.num (vr (vrh_rcv s))) by lia. apply Hle. intros h Hh.
    apply elem_of_app in Hh as [Hh|Hh]; apply list_elem_of_In, in_map_iff in Hh as (x & <- & Hx); apply list_elem_of_In in Hx; [by apply Hin|].
    apply list_elem_of_lookup in Hx as (j & Hj). destruct x as [[head a] b]. destruct (q_bufs _ _ Hq j head a b Hj) as (_ & ? & _). cbn. lia.
  - intros v b Hv Hb Hx. destruct (Hbase v Hv) as (_ & _ & Hnd). apply list.NoDup_app in Hnd as (_ & Hdis & _).
    apply (Hdis _ Hx). by apply list_elem_of_In, (in_map (fun b => g_head (b_group b))), list_elem_of_In.
Qed.

Lemma small_nowhere l b : b ∈ l -> snd (snd b) < MTU_DEFAULT <-> ~ exists id, (id < 3)%nat /\ b_group b ∈ added (Z.of_nat id) l.
Proof.
  intros Hb. split.
  - intros Hsz (id & _ & Hin). unfold added in Hin. apply list_elem_of_In, in_map_iff in Hin as ([[h' a'] c'] & Hg & Hin).
    apply filter_In in Hin as [_ Hid]. apply Z.eqb_eq in Hid. destruct b as [[h a] c]. cbn in Hg, Hsz. injection Hg as _ _ ->.
    unfold b_ring, get_ring_id_write in Hid. cbn [snd] in Hid. rewrite (proj2 (Z.ltb_lt _ _) Hsz) in Hid. unfold EDOM in Hid. lia.
  - intros Hno. destruct (Z.lt_ge_cases (snd (snd b)) MTU_DEFAULT) as [|Hge]; [done|]. exfalso. apply Hno.
    pose proof (ring_id_range _ Hge) as Hid. fold (b_ring b) in Hid. unfold KVEC_BUF_NUM in Hid. exists (Z.to_nat (b_ring b)). split; [lia|].
    rewrite Z2Nat.id by lia. apply list_elem_of_In, in_map, filter_In. split; [by apply list_elem_of_In|apply Z.eqb_refl].
Qed.

(** C17. The update takes every buffer that the driver of the receive queue has published,
    each with two writable segments.  Those whose data segment has at least [MTU_DEFAULT]
    bytes are offered to the peer: each ring of the peer has, behind what it had, the
    buffers of its size in the order of the queue, all of them visible; the smaller ones
    are in no ring.  The rings are at least as large as the queue, what they hold are
    buffers of this queue, no buffer is there twice, and memory can be allocated. *)
Theorem vop_kvec_buf_update_correct base l fuel s :
  ready s <> 0 -> mapped s = true -> queue (vrh_rcv s) l -> kiov_wf (kiov s) -> (forall t, alloc_ok e t = true) ->
  putting base [] (rings s) (shm s) [0; 0; 0] -> (length l <= fuel)%nat ->
  Forall (fun b => snd (snd b) < 2 ^ 32) l ->
  fresh_heads base l (VirtioRing.num (vr (vrh_rcv s))) ->
  exists s', vop_kvec_buf_update fuel s = Ret s' /\ queue (vrh_rcv s') [] /\ is_update s' = false
    /\ (forall b, b ∈ l -> snd (snd b) < MTU_DEFAULT <-> ~ exists id, (id < 3)%nat /\ b_group b ∈ added (Z.of_nat id) l)
    /\ forall id v, base !! id = Some v -> exists w m, rings s' !! id = Some w /\ shm s' !! id = Some m
         /\ let wr := v_wr v + zlen (added (Z.of_nat id) l) in
            ring_rep (v_m v) w (v_r v) m (v_rd v) wr wr (v_q v ++ added (Z.of_nat id) l).
Proof.
  intros Hready Hmap Hq Hk Hal Hp Hfuel Hsz Hbase. destruct (base_room base l s Hq Hp Hbase) as (Hnd & Hroom & Hnew). unfold vop_kvec_buf_update. rewrite (proj2 (Z.eqb_neq _ _) Hready).
  change (mapped (set_update s true)) with (mapped s). rewrite Hmap. cbn [negb]. change (replicate (Z.to_nat KVEC_BUF_NUM) 0) with [0; 0; 0].
  set (s1 := common_dev_notify_avail _).
  assert (vrh_rcv s1 = vrh_rcv s /\ kiov s1 = kiov s /\ rings s1 = rings s /\ shm s1 = shm s) as (E1 & E2 & E3 & E4)
    by (unfold s1, common_dev_notify_avail; destruct (_ <=? _); done).
  pose proof (ring_num _ (q_ring _ _ Hq)) as Hnum. pose proof (q_len _ _ Hq).
  destruct (update_loop_ok base l fuel s1 [] [0; 0; 0] 0) as (s2 & cnts & -> & Hp2 & Hq2 & _); try (by rewrite ?E1, ?E2, ?E3, ?E4); try done.
  { by apply fit_all_intro. }
  { change (zlen []) with 0. lia. }
  run_bind. destruct (publish_step base l s2 cnts Hp2) as (s3 & -> & Hp3 & Ev & _). eexists. split; [reflexivity|]. cbn [fst].
  split; [change (queue (vrh_rcv s3) []); by rewrite Ev|]. split; [done|]. split; [by apply small_nowhere|]. intros id v Hv.
  destruct Hp3 as [(Lb & Lr & Lm & _) Hr]. pose proof (lookup_lt_Some _ _ _ Hv). 
  destruct (lookup_lt_is_Some_2 (rings s3) id) as [w Hw]; [lia|]. destruct (lookup_lt_is_Some_2 (shm s3) id) as [m Hm]; [lia|].
  exists w, m. split; [done|]. split; [done|]. destruct (Hr id v w m 0 Hv Hw Hm) as (_ & pub & Hrep & Hpub); [destruct id as [|[|[|id]]]; done || lia|].
  by rewrite Hpub in Hrep.
Qed.

(** A buffer whose data segment is too small for every ring is taken from the queue and
    forgotten: it is neither offered to the peer nor given back to the driver. *)
Theorem vop_kvec_buf_update_drops_small fuel s head v0 v1 :
  ready s <> 0 -> mapped s = true -> queue (vrh_rcv s) [(head, v0, v1)] -> kiov_wf (kiov s) -> (forall t, alloc_ok e t = true) ->
  snd v1 < MTU_DEFAULT -> length (rings s) = 3%nat -> length (shm s) = 3%nat ->
  exists s', vop_kvec_buf_update (S fuel) s = Ret s' /\ queue (vrh_rcv s') [] /\ rings s' = rings s /\ shm s' = shm s /\ vr (vrh_rcv s') = vr (vrh_rcv s).
Proof.
  intros Hready Hmap Hq Hk Hal Hsz Hlr Hlm. unfold vop_kvec_buf_update. rewrite (proj2 (Z.eqb_neq _ _) Hready).
  change (mapped (set_update s true)) with (mapped s). rewrite Hmap. cbn [negb]. change (replicate (Z.to_nat KVEC_BUF_NUM) 0) with [0; 0; 0].
  set (s1 := common_dev_notify_avail _).
  assert (vrh_rcv s1 = vrh_rcv s /\ kiov s1 = kiov s /\ rings s1 = rings s /\ shm s1 = shm s) as (E1 & E2 & E3 & E4)
    by (unfold s1, common_dev_notify_avail; destruct (_ <=? _); done).
  cbn [update_loop]. destruct (get_write_ok s1 head v0 v1 []) as (k & -> & Hk' & (Hu & H0 & H1) & Hq'); [by rewrite E1|by rewrite E2|done|].
  run_bind. cbn [Z.leb Z.compare]. set (s2 := tick _).
  change (kiov s2) with k. rewrite (put_small _ _ k head v0 v1 (conj Hu (conj H0 H1)) Hsz).
  run_bind. change (- EDOM <? 0) with true. set (s3 := set_rings s2 _ _).
  assert (update_loop fuel s3 USHRT_MAX [0; 0; 0] 0 = Ret (tick (set_queue s3 (vrh_rcv s3) (kiov s3)), [0; 0; 0])) as ->
    by (destruct fuel; cbn [update_loop]; rewrite get_write_none by done; done).
  run_bind. unfold update_idx. cbn [rings shm set_queue tick].
  destruct (publish_lookup (rings s3) (shm s3) [0; 0; 0]) as (m' & -> & Hl & Hi); [unfold s3; cbn; congruence..|].
  eexists. split; [reflexivity|]. set (s4 := tick _).
  assert (m' = shm s3) as ->.
  { apply list_eq_same_length with 3%nat; [cbn; congruence|rewrite Hl; cbn; congruence|]. intros i x y Hlt Hx Hy.
    destruct (lookup_lt_is_Some_2 (rings s3) i) as [w Hw]; [cbn; rewrite E3; lia|].
    rewrite (Hi i w y 0 Hw Hy) in Hx; [by injection Hx|]. by destruct i as [|[|[|i]]]; [..|lia]. }
  unfold common_dev_notify_avail. destruct (_ <=? _); cbn; rewrite E1, E3, E4 in *; done.
Qed.

End Recv.

(** ** The shared memory *)

(** [struct vop_peer_kvec_buf_header] is 32 bytes, [struct vop_peer_kvec] 24 and
    [struct vop_peer_used_kiov] 8 (all aligned to 8): the offset of a field is in bytes. *)
Definition HEADER_SIZE := 32.
Definition KVEC_SIZE := 24.
Definition USED_KIOV_SIZE := 8.
Definition PAGE_SIZE := 4096.
Definition PAGE_ALIGN (n : Z) : Z := (n + PAGE_SIZE - 1) / PAGE_SIZE * PAGE_SIZE.
Definition get_write_kvecs_buf_size (num : Z) : Z := HEADER_SIZE + KVEC_BUF_NUM * num * KVEC_SIZE + num * USED_KIOV_SIZE.

(** [buff_start_offset]: where the ring [ring_id] starts, in elements; the used ring is
    behind the last one. *)
Fixpoint buff_start_offset (num : Z) (ring_id : nat) : Z :=
  match ring_id with O => 0 | S r => buff_start_offset num r + num end.
Definition elem_offset (num : Z) (ring_id : nat) (i : Z) : Z := HEADER_SIZE + (buff_start_offset num ring_id + i) * KVEC_SIZE.
Definition used_offset (num i : Z) : Z := HEADER_SIZE + buff_start_offset num (Z.to_nat KVEC_BUF_NUM) * KVEC_SIZE + i * USED_KIOV_SIZE.

Lemma buff_start num r : buff_start_offset num r = num * Z.of_nat r.
Proof. induction r; cbn [buff_start_offset]; lia. Qed.

(** Every element of every ring lies behind the header and in the memory that was
    allocated, on both sides, and no two of them overlap. *)
Theorem kvec_buff_layout num : 0 < num ->
  let size := PAGE_ALIGN (get_write_kvecs_buf_size num) in
  (forall r i, (r < 3)%nat -> 0 <= i < num -> HEADER_SIZE <= elem_offset num r i /\ elem_offset num r i + KVEC_SIZE <= used_offset num 0)
  /\ (forall i, 0 <= i < num -> used_offset num 0 <= used_offset num i /\ used_offset num i + USED_KIOV_SIZE <= size)
  /\ (forall r i r' i', (r < 3)%nat -> (r' < 3)%nat -> 0 <= i < num -> 0 <= i' < num -> (r, i) <> (r', i') ->
       elem_offset num r i + KVEC_SIZE <= elem_offset num r' i' \/ elem_offset num r' i' + KVEC_SIZE <= elem_offset num r i).
Proof.
  intros Hn size. unfold elem_offset, used_offset. change (Z.to_nat KVEC_BUF_NUM) with 3%nat. setoid_rewrite buff_start.
  unfold HEADER_SIZE, KVEC_SIZE, USED_KIOV_SIZE. split; [intros; nia|]. split.
  - intros i Hi. split; [nia|]. subst size. unfold PAGE_ALIGN, get_write_kvecs_buf_size, HEADER_SIZE, KVEC_SIZE, USED_KIOV_SIZE, PAGE_SIZE, KVEC_BUF_NUM.
    pose proof (Z.mul_succ_div_gt (32 + 3 * num * 24 + num * 8 + 4096 - 1) 4096 ltac:(lia)). lia.
  - intros r i r' i' Hr Hr' Hi Hi' Hne.
    assert (num * Z.of_nat r + i <> num * Z.of_nat r' + i') as Hd.
    { intros E. destruct (decide (r = r')) as [->|Hrr]; [assert (i = i') by lia; congruence|].
      destruct (Z.lt_ge_cases (Z.of_nat r) (Z.of_nat r')); nia. }
    lia.
Qed.

(** ** Making, mapping and freeing the rings *)

Inductive mem_event := MPages (size : Z) | MFree (size : Z) | MDmaMap (pa size : Z) | MDmaUnmap (pa size : Z) | MIoremap (va pa size : Z) | MIounmap (va : Z).

(** [struct vop_kvec_buff]: the rings in the memory of this side, with it, and this side's
    view of the rings in the memory of the peer. *)
Record kvec_buff := mkKb {
  l_pages : bool;
  l_pa : Z;
  l_size : Z;
  l_rings : list vop_kvec_ring;
  l_shm : list shm_ring;
  l_used_last : Z;
  l_used : vop_used_kiov_ring;
  r_va : option Z;
  r_pa : Z;
  r_rings : list vop_kvec_ring;
  r_used_last : Z;
  r_used_num : Z;
  r_kiov : vringh_kiov;
  r_mapped : bool;
  mem_log : list mem_event;
}.

Definition mlog (b : kvec_buff) ev := mkKb (l_pages b) (l_pa b) (l_size b) (l_rings b) (l_shm b) (l_used_last b) (l_used b) (r_va b) (r_pa b) (r_rings b) (r_used_last b) (r_used_num b) (r_kiov b) (r_mapped b) (mem_log b ++ [ev]).
Definition set_pages (b : kvec_buff) p := mkKb p (l_pa b) (l_size b) (l_rings b) (l_shm b) (l_used_last b) (l_used b) (r_va b) (r_pa b) (r_rings b) (r_used_last b) (r_used_num b) (r_kiov b) (r_mapped b) (mem_log b).
Definition set_pa (b : kvec_buff) p := mkKb (l_pages b) p (l_size b) (l_rings b) (l_shm b) (l_used_last b) (l_used b) (r_va b) (r_pa b) (r_rings b) (r_used_last b) (r_used_num b) (r_kiov b) (r_mapped b) (mem_log b).
Definition set_local (b : kvec_buff) r m l u := mkKb (l_pages b) (l_pa b) (l_size b) r m l u (r_va b) (r_pa b) (r_rings b) (r_used_last b) (r_used_num b) (r_kiov b) (r_mapped b) (mem_log b).
Definition set_mapped (b : kvec_buff) m := mkKb (l_pages b) (l_pa b) (l_size b) (l_rings b) (l_shm b) (l_used_last b) (l_used b) (r_va b) (r_pa b) (r_rings b) (r_used_last b) (r_used_num b) (r_kiov b) m (mem_log b).
Definition set_va (b : kvec_buff) v := mkKb (l_pages b) (l_pa b) (l_size b) (l_rings b) (l_shm b) (l_used_last b) (l_used b) v (r_pa b) (r_rings b) (r_used_last b) (r_used_num b) (r_kiov b) (r_mapped b) (mem_log b).
Definition set_kiov (b : kvec_buff) k := mkKb (l_pages b) (l_pa b) (l_size b) (l_rings b) (l_shm b) (l_used_last b) (l_used b) (r_va b) (r_pa b) (r_rings b) (r_used_last b) (r_used_num b) k (r_mapped b) (mem_log b).

(** All indices and counters of the local rings are zero. *)
Definition vop_kvec_buff_reset (b : kvec_buff) : kvec_buff :=
  let u := l_used b in
  set_local b (map (fun r => set_last r 0) (l_rings b)) (map (fun s => mkShm 0 (s_buf s) (s_max s)) (l_shm b)) 0 (mkUr 0 (u_num u) (u_buf u)).

(** [pages_ok]: the allocation; [pa]: the DMA address or an error. *)
Definition vop_kvec_buff_init (pages_ok : bool) (pa : Z + Z) (b : kvec_buff) (num : Z) : kvec_buff * Z :=
  let size := PAGE_ALIGN (get_write_kvecs_buf_size num) in
  let b := set_pa b 0 in
  if negb pages_ok then (set_pages b false, - ENOMEM)
  else
    let b := mlog (set_pages b true) (MPages size) in
    match pa with
    | inr err => (mlog (set_pages (set_pa b 0) false) (MFree size), err)
    | inl pa =>
        let b := mlog (set_mapped (set_pa b pa) false) (MDmaMap pa size) in
        let b := mkKb (l_pages b) (l_pa b) size
                   (replicate 3 (mkKr 0 num 0 0)) (replicate 3 (mkShm 0 (replicate (Z.to_nat num) (mkPk (0, 0) 0 0)) 0))
                   (l_used_last b) (mkUr 0 num (replicate (Z.to_nat num) (mkUk 0 0)))
                   (r_va b) (r_pa b) (map (fun r => mkKr (last_cnt r) (KvecBuff.num r) 0 0) (r_rings b)) (r_used_last b) (r_used_num b) (r_kiov b) (r_mapped b) (mem_log b) in
        (set_kiov (vop_kvec_buff_reset b) (vringh_kiov_init [] 0), 0)
    end.

(** The [while] of [vop_kvec_unmap_buf]: [busy t], whether an update runs after [t]
    milliseconds; how long was waited. *)
Fixpoint unmap_wait (busy : nat -> bool) (try_wait t : nat) : nat :=
  if busy t then match try_wait with O => t | S O => t | S n => unmap_wait busy n (S t) end else t.
Definition vop_kvec_unmap_buf (b : kvec_buff) : kvec_buff :=
  let b := set_mapped b false in
  match r_va b with Some va => set_va (mlog b (MIounmap va)) None | None => b end.

Definition vop_kvec_map_buf (va : option Z) (b : kvec_buff) (num pa : Z) (peer : list shm_ring) (peer_used : Z) : kvec_buff * Z :=
  let size := PAGE_ALIGN (get_write_kvecs_buf_size num) in
  let b := match r_va b with Some _ => set_va (vop_kvec_unmap_buf b) None | None => b end in
  match va with
  | None => (b, - ENOMEM)
  | Some v =>
      let b := mlog b (MIoremap v pa size) in
      (mkKb (l_pages b) (l_pa b) (l_size b) (l_rings b) (l_shm b) (l_used_last b) (l_used b) (Some v) pa
         (zip_with (fun r s => mkKr (s_cnt s) num (send_max_size_local r) (stats_num r)) (r_rings b) peer) peer_used num (r_kiov b) true (mem_log b), 0)
  end.

Definition vop_kvec_buff_deinit (b : kvec_buff) : kvec_buff :=
  let b := vop_kvec_unmap_buf b in
  let b := set_kiov b (vringh_kiov_cleanup (r_kiov b)) in
  let b := if negb (l_pa b =? 0) then set_pa (mlog b (MDmaUnmap (l_pa b) (l_size b))) 0 else b in
  if l_pages b then set_pages (mlog b (MFree (l_size b))) false else b.

Definition size_of (num : Z) : Z := PAGE_ALIGN (get_write_kvecs_buf_size num).
(** What making and freeing does to the memory. *)
Definition life_events (pages_ok : bool) (pa : Z + Z) (num : Z) : list mem_event :=
  if negb pages_ok then [] else
  match pa with
  | inr _ => [MPages (size_of num); MFree (size_of num)]
  | inl p => [MPages (size_of num); MDmaMap p (size_of num); MDmaUnmap p (size_of num); MFree (size_of num)]
  end.

Definition freed (b : kvec_buff) : Prop := l_pages b = false /\ l_pa b = 0 /\ r_va b = None.
Lemma deinit_freed b : freed b -> mem_log (vop_kvec_buff_deinit b) = mem_log b /\ freed (vop_kvec_buff_deinit b).
Proof.
  intros (Hp & Hpa & Hv). unfold vop_kvec_buff_deinit, vop_kvec_unmap_buf. change (r_va (set_mapped b false)) with (r_va b). rewrite Hv. cbn -[Z.eqb].
  rewrite Hpa. cbn -[freed]. rewrite Hp. split; [done|]. by split.
Qed.
Lemma deinit_made b : l_pages b = true -> l_pa b <> 0 -> r_va b = None ->
  mem_log (vop_kvec_buff_deinit b) = mem_log b ++ [MDmaUnmap (l_pa b) (l_size b); MFree (l_size b)] /\ freed (vop_kvec_buff_deinit b).
Proof.
  intros Hp Hpa Hv. unfold vop_kvec_buff_deinit, vop_kvec_unmap_buf. change (r_va (set_mapped b false)) with (r_va b). rewrite Hv. cbn -[Z.eqb].
  rewrite (proj2 (Z.eqb_neq _ _) Hpa). cbn -[freed]. rewrite Hp. cbn. rewrite <- app_assoc. split; [done|]. by split.
Qed.

(** Whether making the rings succeeds or fails, freeing them afterwards leaves nothing
    allocated or mapped and releases everything once; freeing again does nothing. *)
Theorem vop_kvec_buff_init_deinit pages_ok pa b num :
  r_va b = None -> l_pages b = false -> (forall p, pa = inl p -> p <> 0) -> (forall err, pa = inr err -> err <> 0) ->
  let '(b1, ret) := vop_kvec_buff_init pages_ok pa b num in
  let b2 := vop_kvec_buff_deinit b1 in
  (ret = 0 <-> l_pages b1 = true)
  /\ mem_log b2 = mem_log b ++ life_events pages_ok pa num
  /\ l_pages b2 = false /\ l_pa b2 = 0 /\ r_va b2 = None
  /\ mem_log (vop_kvec_buff_deinit b2) = mem_log b2.
Proof.
  intros Hva Hp Hpa Herr. unfold vop_kvec_buff_init, life_events. fold (size_of num).
  assert (forall b1 b2, b2 = vop_kvec_buff_deinit b1 -> freed b2 ->
    l_pages b2 = false /\ l_pa b2 = 0 /\ r_va b2 = None /\ mem_log (vop_kvec_buff_deinit b2) = mem_log b2) as Hagain.
  { intros b1 b2 _ Hf. pose proof (deinit_freed b2 Hf) as [-> _]. by destruct Hf as (? & ? & ?). }
  destruct pages_ok; cbn [negb].
  - destruct pa as [p|err].
    + set (b1 := set_kiov _ _). destruct (deinit_made b1 eq_refl (Hpa p eq_refl) Hva) as [El Hf]. cbn zeta. rewrite El.
      split; [done|]. split; [unfold b1; cbn; by rewrite <- !app_assoc|]. rewrite <- El. by apply (Hagain b1).
    + set (b1 := mlog _ _). destruct (deinit_freed b1) as [El Hf]; [by repeat split|]. cbn zeta. rewrite El.
      split; [split; [intros ->; by destruct (Herr 0)|done]|]. split; [unfold b1; cbn; by rewrite <- !app_assoc|]. rewrite <- El. by apply (Hagain b1).
  - set (b1 := set_pages _ _). destruct (deinit_freed b1) as [El Hf]; [by repeat split|]. cbn zeta. rewrite El. split; [done|].
    split; [by rewrite app_nil_r|]. rewrite <- El. by apply (Hagain b1).
Qed.

(** When one side has made its rings and the other has mapped them, the two are connected
    by three empty rings and an empty ring of used buffers. *)
Theorem vop_kvec_map_buf_connects m pa b va b' :
  0 < m <= 16384 -> length (r_rings b') = 3%nat ->
  let '(b1, ret) := vop_kvec_buff_init true (inl pa) b (2 * m) in
  let '(b2, ret') := vop_kvec_map_buf (Some va) b' (2 * m) pa (l_shm b1) (u_cnt (l_used b1)) in
  ret = 0 /\ ret' = 0 /\ r_mapped b2 = true
  /\ (forall id, (id < 3)%nat -> exists w r s, r_rings b2 !! id = Some w /\ l_rings b1 !! id = Some r /\ l_shm b1 !! id = Some s /\ ring_rep m w r s 0 0 0 [])
  /\ used_rep (l_used b1) (r_used_last b2) (l_used_last b1) 0 [].
Proof.
  intros Hm Hl. unfold vop_kvec_buff_init, vop_kvec_map_buf. cbn -[PAGE_ALIGN replicate Z.mul].
  set (rr := match r_va b' with Some _ => _ | None => _ end). assert (r_rings rr = r_rings b') as -> by (unfold rr, vop_kvec_unmap_buf; destruct (r_va b') eqn:E; cbn; rewrite ?E; done).
  assert (zlen (replicate (Z.to_nat (2 * m)) (mkPk (0, 0) 0 0)) = 2 * m) as Hz by (unfold zlen; rewrite length_replicate; lia).
  split; [done|]. split; [done|]. split; [done|]. split.
  - intros id Hid. destruct (lookup_lt_is_Some_2 (r_rings b') id) as [w Hw]; [lia|].
    assert (map (fun s : shm_ring => mkShm 0 (s_buf s) (s_max s)) (replicate 3 (mkShm 0 (replicate (Z.to_nat (2 * m)) (mkPk (0, 0) 0 0)) 0)) !! id
            = Some (mkShm 0 (replicate (Z.to_nat (2 * m)) (mkPk (0, 0) 0 0)) 0)) as Hs.
    { rewrite list_lookup_fmap, lookup_replicate_2 by done. done. }
    assert (map (fun r => set_last r 0) (replicate 3 (mkKr 0 (2 * m) 0 0)) !! id = Some (mkKr 0 (2 * m) 0 0)) as Hr
      by (rewrite list_lookup_fmap, lookup_replicate_2 by done; done).
    exists (mkKr 0 (2 * m) (send_max_size_local w) (stats_num w)), (mkKr 0 (2 * m) 0 0), (mkShm 0 (replicate (Z.to_nat (2 * m)) (mkPk (0, 0) 0 0)) 0).
    rewrite lookup_zip_with, Hw, Hs. split; [done|]. split; [exact Hr|]. split; [done|].
    split; cbn [num last_cnt s_cnt s_buf]; try (by rewrite ?Z.mul_0_r, ?Z.mod_0_l by lia); try done; try lia.
    apply NoDup_nil_2.
  - split; cbn [u_num u_buf u_cnt]; change (zlen []) with 0; rewrite ?Z.add_0_r, ?Z.mod_0_l by lia; try done; try lia.
    unfold zlen. rewrite length_replicate. lia.
Qed.

(** When a side maps new rings of its peer (the peer has been restarted, so that its memory
    is zero) after it has offered buffers before, the size of the buffers is not announced again: a
    buffer that is no smaller than the last ones leaves the announcement at zero, and the
    peer looks for every packet in the last ring. *)
Theorem vop_kvec_map_buf_unannounced va b num pa peer used id r s jk wiov head v0 v1 rs m ring_id :
  r_rings b !! id = Some r -> peer !! id = Some s -> s_max s = 0 -> 0 < send_max_size_local r <= snd v1 ->
  two_vectors wiov v0 v1 -> Z.of_nat id = get_ring_id_write (snd v1) ->
  let '(b', _) := vop_kvec_map_buf (Some va) b num pa peer used in
  vop_kvec_put jk (r_rings b') peer wiov head = Ret (rs, m, ring_id) ->
  ring_id = Z.of_nat id /\ exists s', m !! id = Some s' /\ s_max s' = 0
    /\ (Forall (fun x => s_max x = 0) m -> forall size, 0 < size -> vop_kvec_size_to_ring_id m size = KVEC_BUF_NUM - 1).
Proof.
  intros Hr Hs Hmax Hlocal (Hu & H0 & H1) Hid. unfold vop_kvec_map_buf. cbn [r_rings].
  set (rr := match r_va b with Some _ => _ | None => _ end). assert (r_rings (mlog rr (MIoremap va pa (PAGE_ALIGN (get_write_kvecs_buf_size num)))) = r_rings b) as ->
    by (unfold rr, vop_kvec_unmap_buf; destruct (r_va b) eqn:E; cbn; rewrite ?E; done).
  intros E. unfold vop_kvec_put in E. rewrite (proj2 (Z.ltb_lt 0 (iov_used wiov))), (proj2 (Z.ltb_lt 1 (iov_used wiov))) in E by lia.
  rewrite (aget_ret _ 0 v0), (aget_ret _ 1 v1) in E by done. revert E. run_bind. rewrite <- Hid. rewrite (proj2 (Z.ltb_ge _ 0)) by lia.
  rewrite (aget_ret _ _ (mkKr (s_cnt s) num (send_max_size_local r) (stats_num r))); [|lia|rewrite lookup_zip_with, Nat2Z.id, Hr, Hs; done].
  run_bind. rewrite (aget_ret peer _ s) by (lia || by rewrite Nat2Z.id). run_bind. cbn [send_max_size_local].
  rewrite (proj2 (Z.eqb_neq (send_max_size_local r) 0)), (proj2 (Z.ltb_ge (snd v1) (send_max_size_local r))) by lia. cbn [orb KvecBuff.num]. intros E. inv_ret.
  subst. split; [done|]. apply lookup_lt_Some in Hs as Hlt. rewrite aset_ret in E3 by (unfold zlen; lia). injection E3 as <-. rewrite Nat2Z.id.
  eexists. split; [by apply list_lookup_insert_eq|]. split; [done|]. intros Hall size Hsz. unfold vop_kvec_size_to_ring_id.
  assert (forall l i, Forall (fun x => s_max x = 0) l -> ring_id_loop (map s_max l) size i = KVEC_BUF_NUM - 1) as Hloop; [|by apply Hloop].
  clear -Hsz. induction l as [|x l IH]; intros i Hl; [done|]. inversion Hl as [|? ? Hx Hl']; subst. cbn [map ring_id_loop]. rewrite Hx, (proj2 (Z.leb_gt size 0)) by lia. by apply IH.
Qed.

(** ** Witnesses *)

(** A receive queue of four with two published buffers. *)
Definition y_vrh (n : Z) : vringh := mkVrh false 0 0 0
  (VirtioRing.mkVring 4 [VirtioRing.mkDesc 0x1000 12 3 1; VirtioRing.mkDesc 0x2000 1800 2 0; VirtioRing.mkDesc 0x3000 12 3 3; VirtioRing.mkDesc 0x4000 n 2 0]
    0 2 [0; 2; 0; 0; 0] 0 0 (replicate 4 (VirtioRing.mkUsed 0 0)) 0).
Definition y_env : renv := mkRenv (fun _ => 1000) (fun _ => 900) (fun j => j) (fun _ => true) (fun _ => []) 0x100 (mkPk (0, 0) 0 0).
Definition y_shm : shm_ring := mkShm 0 (replicate 8 (mkPk (0, 0) 0 0)) 0.
Definition y_recv (n : Z) : recv :=
  mkRecv 2 true false (y_vrh n) (vringh_kiov_init [] 0) (replicate 3 (mkKr 0 8 0 0)) (replicate 3 y_shm) 0 (mkUr 0 8 (replicate 8 (mkUk 0 0))) 0 0 [].
Definition y_view : view := mkView 4 (mkKr 0 8 0 0) 0 0 [].
Definition y_bufs (n : Z) : list buf := [(0%nat, (0x1000, 12), (0x2000, 1800)); (2%nat, (0x3000, 12), (0x4000, n))].

Lemma y_queue n : queue y_env (y_vrh n) (y_bufs n).
Proof.
  split; try done.
  - split; try done. by exists 2.
  - intros [|[|j]] head v0 v1 [= <- <- <-]; (split; [done|]; split; [done|]; split; [|done]).
    + apply (buffer_direct _ _ _ _ [1%nat]); [|done]. split; [done|]. by exists 0.
    + apply (buffer_direct _ _ _ _ [3%nat]); [|done]. split; [done|]. by exists 0.
Qed.
Lemma y_kiov : kiov_wf (vringh_kiov_init [] 0).
Proof. exists 0. split; [by left|]. done. Qed.
Lemma y_putting : putting (replicate 3 y_view) [] (replicate 3 (mkKr 0 8 0 0)) (replicate 3 y_shm) [0; 0; 0].
Proof.
  split; [done|]. intros id v w s n Hv Hw Hs Hn. apply lookup_replicate_1 in Hv as [-> _], Hw as [-> _], Hs as [-> _].
  split; [apply list_elem_of_lookup_2 in Hn; rewrite !elem_of_cons, elem_of_nil in Hn; change (zlen []) with 0; lia|].
  exists 0. split; [|done]. split; try done. apply NoDup_nil_2.
Qed.

(** The second buffer has a data segment of 100 bytes. *)
Lemma vop_kvec_buf_update_correct_witness :
  exists s', vop_kvec_buf_update y_env 2 (y_recv 100) = Ret s' /\ queue y_env (vrh_rcv s') []
    /\ exists w m, rings s' !! 0%nat = Some w /\ shm s' !! 0%nat = Some m
       /\ ring_rep 4 w (mkKr 0 8 0 0) m 0 1 1 [mkGroup 0 (0x1000, 12) (0x2000, 1800) false].
Proof.
  destruct (vop_kvec_buf_update_correct y_env (replicate 3 y_view) (y_bufs 100) 2 (y_recv 100)) as (s' & E & Hq & _ & _ & Hr).
  - done.
  - done.
  - exact (y_queue 100).
  - exact y_kiov.
  - done.
  - exact y_putting.
  - cbn. lia.
  - repeat constructor; done.
  - intros v Hv. apply list_elem_of_lookup in Hv as (i & Hi). apply lookup_replicate_1 in Hi as [-> _]. split; [done|].
    split; [by intros g Hg; apply elem_of_nil in Hg|].
    repeat constructor; cbn; intros Hx; rewrite ?elem_of_cons, ?elem_of_nil in Hx; lia.
  - exists s'. split; [exact E|]. split; [exact Hq|]. exact (Hr 0%nat y_view eq_refl).
Defined.

(** The second buffer of the queue alone, with a data segment of 100 bytes. *)
Definition y_small : recv := set_queue (y_recv 100) (set_last_avail (y_vrh 100) 1) (vringh_kiov_init [] 0).
Lemma vop_kvec_buf_update_drops_small_witness :
  exists s', vop_kvec_buf_update y_env 1 y_small = Ret s' /\ queue y_env (vrh_rcv s') [] /\ rings s' = rings y_small
    /\ shm s' = shm y_small /\ vr (vrh_rcv s') = vr (y_vrh 100).
Proof.
  apply (vop_kvec_buf_update_drops_small y_env 0 y_small 2 (0x3000, 12) (0x4000, 100)); try done.
  - split; try done.
    + split; try done. by exists 2.
    + intros [|j] head v0 v1 [= <- <- <-]. split; [done|]. split; [done|]. split; [|done].
      apply (buffer_direct _ _ _ _ [3%nat]); [|done]. split; [done|]. by exists 0.
  - exact y_kiov.
Defined.

Lemma kvec_buff_layout_witness : HEADER_SIZE <= elem_offset 1024 2 5 /\ elem_offset 1024 2 5 + KVEC_SIZE <= used_offset 1024 0.
Proof. destruct (kvec_buff_layout 1024 ltac:(lia)) as (H & _). apply H; lia. Defined.

Definition y_kb : kvec_buff :=
  mkKb false 0 0 [] [] 0 (mkUr 0 0 []) None 0 (replicate 3 (mkKr 0 8 1800 0)) 0 8 (vringh_kiov_init [] 0) false [].

Lemma vop_kvec_buff_init_deinit_witness :
  mem_log (vop_kvec_buff_deinit (fst (vop_kvec_buff_init true (inl 0x5000) y_kb 8))) = [MPages 4096; MDmaMap 0x5000 4096; MDmaUnmap 0x5000 4096; MFree 4096].
Proof.
  pose proof (vop_kvec_buff_init_deinit true (inl 0x5000) y_kb 8 eq_refl eq_refl ltac:(by intros p [= <-]) ltac:(done)) as H.
  destruct (vop_kvec_buff_init true (inl 0x5000) y_kb 8) as [b1 ret]. destruct H as (_ & H & _). exact H.
Defined.

Lemma vop_kvec_map_buf_connects_witness :
  let b1 := fst (vop_kvec_buff_init true (inl 0x5000) y_kb 8) in
  let b2 := fst (vop_kvec_map_buf (Some 0x7000) y_kb 8 0x5000 (l_shm b1) (u_cnt (l_used b1))) in
  exists w r s, r_rings b2 !! 1%nat = Some w /\ l_rings b1 !! 1%nat = Some r /\ l_shm b1 !! 1%nat = Some s /\ ring_rep 4 w r s 0 0 0 [].
Proof.
  destruct (vop_kvec_map_buf_connects 4 0x5000 y_kb 0x7000 y_kb) as (_ & _ & _ & H & _); [lia|done|].
  exact (H 1%nat ltac:(lia)).
Defined.

Lemma vop_kvec_map_buf_unannounced_witness :
  let b' := fst (vop_kvec_map_buf (Some 0x7000) y_kb 8 0x5000 (replicate 3 y_shm) 0) in
  exists rs m, vop_kvec_put (mkPk (0, 0) 0 0) (r_rings b') (replicate 3 y_shm) (mkIov [(0x1000, 12); (0x2000, 1800)] 0 0 2 2) 1 = Ret (rs, m, 0)
    /\ vop_kvec_size_to_ring_id m 100 = 2.
Proof.
  cbn zeta. destruct (vop_kvec_put (mkPk (0, 0) 0 0) _ _ _ 1) as [[[rs m] ring_id]| | |] eqn:E; try (exfalso; vm_compute in E; done).
  pose proof E as E'. vm_compute in E'. injection E' as Ers Em Eid.
  destruct (vop_kvec_map_buf_unannounced 0x7000 y_kb 8 0x5000 (replicate 3 y_shm) 0 0 (mkKr 0 8 1800 0) y_shm (mkPk (0, 0) 0 0)
    (mkIov [(0x1000, 12); (0x2000, 1800)] 0 0 2 2) 1 (0x1000, 12) (0x2000, 1800) rs m ring_id) as (-> & s' & _ & _ & H); try done.
  exists rs, m. split; [done|]. apply H; [|done]. rewrite <- Em. by repeat constructor.
Defined.


End VopRecv.
