(* ===== verification/DevPage.v ===== *)
(** * The device page (vca_dev_common.h, vop_main.c, vop_vringh.c)

    A page of [VCA_DP_SIZE] bytes that host and node share.  It starts with
    [struct vca_bootparam]; behind it are the descriptions of the virtio devices,
    one slot each: a descriptor and its control block for the device of the node,
    and the same again for the device of the host.  The host writes the slots,
    the node finds them by going from slot to slot.

    The page is a list of bytes, and every access to it is made at an offset:
    what lies outside the page is [Oob].  A descriptor that the caller of the ioctl
    hands in is a list of bytes as well, so that the functions that read
    descriptors work on either.  [dp_rep] relates a page to a list of slots. *)

From stdpp Require Import base list numbers option tactics.
From Stdlib Require Import ZArith Lia.
From S2P Require Import Prelude.

Module DevPage.

(** ** Bytes

    A stored integer is its bytes, the low one first. *)
Fixpoint le (bs : list Z) : Z :=
  match bs with
  | [] => 0
  | b :: bs => b + 256 * le bs
  end.

Fixpoint le_bytes (n : nat) (z : Z) : list Z :=
  match n with
  | O => []
  | S n => z mod 256 :: le_bytes n (z / 256)
  end.

(** [memcpy] from and to [p + off]. *)
Definition peek (p : list Z) (off n : Z) : outcome (list Z) :=
  if (0 <=? off) && (0 <=? n) && (off + n <=? zlen p)
  then Ret (take (Z.to_nat n) (drop (Z.to_nat off) p)) else Oob.

Definition poke (p : list Z) (off : Z) (bs : list Z) : outcome (list Z) :=
  if (0 <=? off) && (off + zlen bs <=? zlen p)
  then Ret (take (Z.to_nat off) p ++ bs ++ drop (Z.to_nat (off + zlen bs)) p) else Oob.

(** ** Layout *)
Definition VCA_DP_SIZE := 4096.
Definition sizeof_vca_bootparam := 184.
Definition sizeof_vca_device_desc := 8.
Definition sizeof_vca_device_ctrl := 40.
Definition sizeof_vca_vqconfig := 16.
Definition VCA_VRING_ENTRIES := 1024.
Definition VCA_MAX_VRINGS := 4.
Definition VCA_MAX_CONFIG_LEN := 16.
Definition VCA_MAX_FEATURE_LEN := 16.
Definition VCA_MAX_DESC_BLK_SIZE := 256.

(** Offsets of the fields of [struct vca_bootparam], [struct vca_device_desc],
    [struct vca_vqconfig] and [struct vca_device_ctrl]. *)
Definition bp_h2c_config_db := 48.
Definition d_type := 0.
Definition d_num_vq := 1.
Definition d_feature_len := 2.
Definition d_config_len := 3.
Definition d_status := 4.
Definition vqc_address := 0.
Definition vqc_num := 8.
Definition dc_vdev := 0.
Definition dc_config_change := 8.
Definition dc_vdev_reset := 9.
Definition dc_guest_ack := 10.
Definition dc_host_ack := 11.
Definition dc_used_address_updated := 12.
Definition dc_c2h_vdev_conf_db := 13.
Definition dc_c2h_vdev_avail_db := 14.
Definition dc_c2h_vdev_used_db := 15.
Definition dc_h2c_vdev_conf_db := 16.
Definition dc_h2c_vdev_avail_db := 17.
Definition dc_h2c_vdev_used_db := 18.
Definition dc_kvec_buf_address := 24.
Definition dc_kvec_buf_elems := 32.

Definition GUEST_ACK_NONE := 0.
Definition GUEST_ACK_RECEIVED := 1.
Definition GUEST_ACK_DONE := 2.

Definition __vca_align (a x : Z) : Z := Z.land (a + x - 1) (Z.lnot (x - 1)).

(** [d] is the offset of a descriptor in the bytes [p]. *)
Definition vca_desc_size (p : list Z) (d : Z) : outcome Z :=
  num_vq ← aget p (d + d_num_vq);
  feature_len ← aget p (d + d_feature_len);
  config_len ← aget p (d + d_config_len);
  Ret (u32 (sizeof_vca_device_desc + num_vq * sizeof_vca_vqconfig + feature_len * 2 + config_len)).

Definition vca_aligned_desc_size (p : list Z) (d : Z) : outcome Z :=
  n ← vca_desc_size p d;
  Ret (u32 (__vca_align n 8)).

Definition vca_vq_config (d : Z) : Z := d + sizeof_vca_device_desc.

Definition vca_vq_features (p : list Z) (d : Z) : outcome Z :=
  num_vq ← aget p (d + d_num_vq);
  Ret (vca_vq_config d + num_vq * sizeof_vca_vqconfig).

Definition vca_vq_configspace (p : list Z) (d : Z) : outcome Z :=
  features ← vca_vq_features p d;
  feature_len ← aget p (d + d_feature_len);
  Ret (features + feature_len * 2).

Definition vca_host_device_desc (p : list Z) (d : Z) : outcome Z :=
  n ← vca_aligned_desc_size p d;
  Ret (d + (n + sizeof_vca_device_ctrl)).

Definition vca_total_desc_size (p : list Z) (d : Z) : outcome Z :=
  n ← vca_aligned_desc_size p d;
  Ret (u32 (2 * (n + sizeof_vca_device_ctrl))).

(** ** Adding a descriptor to the page (vop_vringh.c) *)

(** The number of entries of queue [i] of the descriptor. *)
Definition vqconfig_num (p : list Z) (d i : Z) : outcome Z :=
  bs ← peek p (vca_vq_config d + i * sizeof_vca_vqconfig + vqc_num) 2;
  Ret (le bs).

Fixpoint check_nums (n : nat) (argp : list Z) (i : Z) : outcome bool :=
  match n with
  | O => Ret true
  | S n =>
      num ← vqconfig_num argp 0 i;
      if VCA_VRING_ENTRIES <? num then Ret false else check_nums n argp (i + 1)
  end.

(** The first free entry, if there is one below [limit].  An entry has at least
    96 bytes, so a page holds at most 42 of them. *)
Definition slot_fuel : nat := 64.

Fixpoint find_slot (fuel : nat) (dp : list Z) (limit i : Z) : outcome (option Z) :=
  match fuel with
  | O => Spin
  | S fuel =>
      if i <? limit then
        type ← aget dp (i + d_type);
        if (s8 type =? 0) || (s8 type =? -1) then Ret (Some i)
        else
          n ← vca_total_desc_size dp i;
          find_slot fuel dp limit (u32 (i + n))
      else Ret None
  end.

(** What [vop_copy_dp_entry] leaves: the page, the caller's descriptor, the
    value returned, and [*type] and [*devpage] if it set them. *)
Record copied := mkCopied {
  c_dp : list Z;
  c_argp : list Z;
  c_ret : Z;
  c_slot : option (Z * Z);
}.

Definition vop_copy_dp_entry (dp argp : list Z) : outcome copied :=
  num_vq ← aget argp d_num_vq;
  ok ← check_nums (Z.to_nat num_vq) argp 0;
  if negb ok then Ret (mkCopied dp argp (- EINVAL) None)
  else
    total ← vca_total_desc_size argp 0;
    found ← find_slot slot_fuel dp (u32 (VCA_DP_SIZE - total)) sizeof_vca_bootparam;
    match found with
    | None => Ret (mkCopied dp argp (- EINVAL) None)
    | Some devp =>
        type ← aget argp d_type;
        argp ← aset argp d_type 0;
        n ← vca_desc_size argp 0;
        desc ← peek argp 0 n;
        dp ← poke dp devp desc;
        host ← vca_host_device_desc dp devp;
        dp ← poke dp host desc;
        dp ← aset dp (host + d_type) type;
        Ret (mkCopied dp argp 0 (Some (type, devp)))
    end.

(** [dc] is the offset of a control block. *)
Definition vop_init_device_ctrl (dp : list Z) (dc : Z) : outcome (list Z) :=
  dp ← aset dp (dc + dc_config_change) 0;
  dp ← aset dp (dc + dc_guest_ack) GUEST_ACK_NONE;
  dp ← aset dp (dc + dc_vdev_reset) 0;
  dp ← aset dp (dc + dc_host_ack) 0;
  dp ← aset dp (dc + dc_used_address_updated) 0;
  dp ← aset dp (dc + dc_c2h_vdev_conf_db) 255;
  dp ← aset dp (dc + dc_c2h_vdev_avail_db) 255;
  dp ← aset dp (dc + dc_c2h_vdev_used_db) 255;
  dp ← aset dp (dc + dc_h2c_vdev_conf_db) 255;
  dp ← aset dp (dc + dc_h2c_vdev_avail_db) 255;
  aset dp (dc + dc_h2c_vdev_used_db) 255.

(** ** Configuration space and status (vop_main.c) *)

(** [None]: the buffer of the caller is left alone. *)
Definition vop_get (dp : list Z) (desc offset len : Z) : outcome (option (list Z)) :=
  config_len ← aget dp (desc + d_config_len);
  if config_len <? u32 (offset + len) then Ret None
  else
    cfg ← vca_vq_configspace dp desc;
    bs ← peek dp (cfg + offset) len;
    Ret (Some bs).

(** [len] is the length of [buf]. *)
Definition vop_set (dp : list Z) (desc offset : Z) (buf : list Z) : outcome (list Z) :=
  config_len ← aget dp (desc + d_config_len);
  if config_len <? u32 (offset + zlen buf) then Ret dp
  else
    cfg ← vca_vq_configspace dp desc;
    poke dp (cfg + offset) buf.

Definition vop_get_status (dp : list Z) (desc : Z) : outcome Z :=
  aget dp (desc + d_status).

(** ** Feature bits *)
Definition VIRTIO_TRANSPORT_F_START := 28.
Definition VIRTIO_TRANSPORT_F_END := 33.
Definition VIRTIO_RING_F_INDIRECT_DESC := 28.
Definition VIRTIO_RING_F_EVENT_IDX := 29.
Definition VIRTIO_RING_F_DMA_MAP := 30.
Definition VIRTIO_F_VERSION_1 := 32.
Definition VIRTIO_NET_F_MAC := 5.
Definition VIRTIO_NET_F_GUEST_TSO4 := 7.
Definition VIRTIO_NET_F_GUEST_TSO6 := 8.
Definition VIRTIO_NET_F_GUEST_ECN := 9.
Definition VIRTIO_NET_F_MRG_RXBUF := 15.
Definition VIRTIO_NET_F_OFFSET_RXBUF := 24.

(** [vdev->features] is a word of 64 bits. *)
Definition __virtio_test_bit (features fbit : Z) : outcome bool :=
  _ ← bug_on (64 <=? fbit);
  Ret (Z.testbit features fbit).

Definition __virtio_set_bit (features fbit : Z) : outcome Z :=
  _ ← bug_on (64 <=? fbit);
  Ret (Z.lor features (Z.shiftl 1 fbit)).

Definition __virtio_clear_bit (features fbit : Z) : outcome Z :=
  _ ← bug_on (64 <=? fbit);
  Ret (Z.land features (Z.lnot (Z.shiftl 1 fbit))).

(** The feature tables of a driver. *)
Record driver := mkDriver {
  feature_table : list Z;
  feature_table_legacy : option (list Z);
}.

Definition vca_virtio_check_driver_offered_feature (drv : driver) (fbit : Z) : outcome unit :=
  if decide (fbit ∈ feature_table drv) then Ret tt
  else match feature_table_legacy drv with
       | Some t => if decide (fbit ∈ t) then Ret tt else Bug
       | None => Bug
       end.

Definition virtio_has_feature (drv : driver) (features fbit : Z) : outcome bool :=
  _ ← (if fbit <? VIRTIO_TRANSPORT_F_START
       then vca_virtio_check_driver_offered_feature drv fbit else Ret tt);
  __virtio_test_bit features fbit.

Fixpoint transport_loop (n : nat) (features i : Z) : outcome Z :=
  match n with
  | O => Ret features
  | S n =>
      f ← (if (i =? VIRTIO_RING_F_INDIRECT_DESC) || (i =? VIRTIO_RING_F_EVENT_IDX)
              || (i =? VIRTIO_F_VERSION_1) || (i =? VIRTIO_RING_F_DMA_MAP)
           then Ret features else __virtio_clear_bit features i);
      transport_loop n f (i + 1)
  end.

Definition vca_vring_transport_features (drv : driver) (features : Z) : outcome Z :=
  f ← transport_loop (Z.to_nat (VIRTIO_TRANSPORT_F_END - VIRTIO_TRANSPORT_F_START))
        features VIRTIO_TRANSPORT_F_START;
  dma ← virtio_has_feature drv f VIRTIO_RING_F_DMA_MAP;
  if (dma : bool) then
    ind ← virtio_has_feature drv f VIRTIO_RING_F_INDIRECT_DESC;
    if (ind : bool) then __virtio_clear_bit f VIRTIO_RING_F_INDIRECT_DESC else Ret f
  else Ret f.

(** [a || b] asks [b] only when [a] is false. *)
Definition or_else (a b : outcome bool) : outcome bool :=
  x ← a;
  if (x : bool) then Ret true else b.

Definition vca_virtio_net_features (drv : driver) (features : Z) : outcome Z :=
  let has := virtio_has_feature drv features in
  big ← or_else (or_else (or_else (has VIRTIO_NET_F_GUEST_TSO4) (has VIRTIO_NET_F_GUEST_TSO6))
                  (has VIRTIO_NET_F_GUEST_ECN)) (has VIRTIO_NET_F_MRG_RXBUF);
  if (big : bool) then
    off ← has VIRTIO_NET_F_OFFSET_RXBUF;
    if (off : bool) then __virtio_clear_bit features VIRTIO_NET_F_OFFSET_RXBUF else Ret features
  else Ret features.

Fixpoint get_bits (n : nat) (dp : list Z) (in_features i features : Z) : outcome Z :=
  match n with
  | O => Ret features
  | S n =>
      b ← aget dp (in_features + i / 8);
      get_bits n dp in_features (i + 1)
        (if testflag b (Z.shiftl 1 (i mod 8)) then Z.lor features (Z.shiftl 1 i) else features)
  end.

(** [bits]: what a bitmap of [feature_len] bytes and the 8 bytes of
    [vdev->features] have in common. *)
Definition feature_bits (feature_len : Z) : Z := Z.min feature_len 8 * 8.

Definition vop_get_features (dp : list Z) (desc : Z) : outcome Z :=
  in_features ← vca_vq_features dp desc;
  feature_len ← aget dp (desc + d_feature_len);
  get_bits (Z.to_nat (feature_bits feature_len)) dp in_features 0 0.

Fixpoint put_bits (n : nat) (dp : list Z) (out_features features i : Z) : outcome (list Z) :=
  match n with
  | O => Ret dp
  | S n =>
      t ← __virtio_test_bit features i;
      dp ← (if (t : bool) then
              b ← aget dp (out_features + i / 8);
              aset dp (out_features + i / 8) (Z.lor b (Z.shiftl 1 (i mod 8)))
            else Ret dp);
      put_bits n dp out_features features (i + 1)
  end.

(** The page and [vdev->features] afterwards. *)
Definition vop_finalize_features (dp : list Z) (desc : Z) (drv : driver) (features : Z)
  : outcome (list Z * Z) :=
  feature_len ← aget dp (desc + d_feature_len);
  vf ← vca_vq_features dp desc;
  let out_features := vf + feature_len in
  f ← vca_vring_transport_features drv features;
  f ← vca_virtio_net_features drv f;
  dp ← afill dp out_features feature_len 0;
  dp ← put_bits (Z.to_nat (feature_bits feature_len)) dp out_features f 0;
  Ret (dp, f).

(** ** Slots

    A descriptor: the header of [struct vca_device_desc] and everything behind
    [config_len].  Behind the descriptor of a caller nothing follows; in the page it
    is padded to a multiple of 8 bytes. *)
Record desc := mkDesc {
  ds_type : Z;
  ds_num_vq : Z;
  ds_feature_len : Z;
  ds_config_len : Z;
  ds_body : list Z;
}.

Definition desc_bytes (a : desc) : list Z :=
  [ds_type a; ds_num_vq a; ds_feature_len a; ds_config_len a] ++ ds_body a.

Definition desc_size (a : desc) : Z :=
  sizeof_vca_device_desc + ds_num_vq a * sizeof_vca_vqconfig + ds_feature_len a * 2
  + ds_config_len a.
Definition aligned_size (a : desc) : Z := (desc_size a + 7) / 8 * 8.
Definition total_size (a : desc) : Z := 2 * (aligned_size a + sizeof_vca_device_ctrl).

Definition same_shape (a b : desc) : Prop :=
  ds_num_vq a = ds_num_vq b /\ ds_feature_len a = ds_feature_len b
  /\ ds_config_len a = ds_config_len b.

Definition byte (b : Z) : Prop := 0 <= b < 256.
Definition header_ok (a : desc) : Prop :=
  byte (ds_type a) /\ byte (ds_num_vq a) /\ byte (ds_feature_len a) /\ byte (ds_config_len a).

(** A descriptor as a caller hands it in. *)
Definition arg_ok (a : desc) : Prop := header_ok a /\ zlen (ds_body a) = desc_size a - 4.

(** What the ioctl checks before it adds a descriptor. *)
Definition bounded (a : desc) : Prop :=
  ds_num_vq a <= VCA_MAX_VRINGS /\ ds_feature_len a <= VCA_MAX_FEATURE_LEN
  /\ ds_config_len a <= VCA_MAX_CONFIG_LEN.

(** A slot: the descriptor and the control block for the device of the node,
    and for that of the host. *)
Record slot := mkSlot {
  s_desc : desc;
  s_ctrl : list Z;
  s_host_desc : desc;
  s_host_ctrl : list Z;
}.

Definition slot_bytes (s : slot) : list Z :=
  desc_bytes (s_desc s) ++ s_ctrl s ++ desc_bytes (s_host_desc s) ++ s_host_ctrl s.

(** Space for descriptors of [n] bytes. *)
Definition room (n : Z) (s : slot) : Prop :=
  zlen (ds_body (s_desc s)) = n - 4 /\ zlen (s_ctrl s) = sizeof_vca_device_ctrl
  /\ zlen (ds_body (s_host_desc s)) = n - 4 /\ zlen (s_host_ctrl s) = sizeof_vca_device_ctrl.

Definition slot_ok (s : slot) : Prop :=
  header_ok (s_desc s) /\ header_ok (s_host_desc s) /\ same_shape (s_desc s) (s_host_desc s)
  /\ room (aligned_size (s_desc s)) s.

Definition slot_size (s : slot) : Z := total_size (s_desc s).
Definition slots_size (l : list slot) : Z := foldr (fun s n => slot_size s + n) 0 l.

(** The types 0 and -1 mark a slot without a device. *)
Definition in_use (s : slot) : bool :=
  negb ((ds_type (s_desc s) =? 0) || (ds_type (s_desc s) =? 255)).

(** A page: the boot parameters, the slots, and zeros up to its end. *)
Definition page_bytes (boot : list Z) (slots : list slot) (n : nat) : list Z :=
  boot ++ concat (map slot_bytes slots) ++ replicate n 0.

Definition dp_rep (boot p : list Z) (slots : list slot) : Prop :=
  zlen boot = sizeof_vca_bootparam /\ zlen p = VCA_DP_SIZE /\ Forall slot_ok slots
  /\ exists n, p = page_bytes boot slots n.

(** *** Adding a descriptor, as an operation on slots *)

(** [memcpy] of [new] over the beginning of [old]. *)
Definition overlay (new old : list Z) : list Z := new ++ drop (length new) old.

(** The descriptor [a] in the place of [s]: type 0 on the side of the node until
    the device is set up, its own type on the side of the host. *)
Definition put_desc (type : Z) (a old : desc) : desc :=
  mkDesc type (ds_num_vq a) (ds_feature_len a) (ds_config_len a) (overlay (ds_body a) (ds_body old)).
Definition put_slot (a : desc) (s : slot) : slot :=
  mkSlot (put_desc 0 a (s_desc s)) (s_ctrl s)
         (put_desc (ds_type a) a (s_host_desc s)) (s_host_ctrl s).

(** Zeros of the size that [a] needs. *)
Definition blank_desc (a : desc) : desc :=
  mkDesc 0 0 0 0 (replicate (Z.to_nat (aligned_size a - 4)) 0).
Definition blank_slot (a : desc) : slot :=
  let c := replicate (Z.to_nat sizeof_vca_device_ctrl) 0 in
  mkSlot (blank_desc a) c (blank_desc a) c.

(** The slots afterwards and the place of the new one, when there is room. *)
Fixpoint add_slot (off : Z) (a : desc) (slots : list slot) : option (list slot * Z) :=
  if off <? VCA_DP_SIZE - total_size a then
    match slots with
    | [] => Some ([put_slot a (blank_slot a)], off)
    | s :: rest =>
        if in_use s then
          match add_slot (off + slot_size s) a rest with
          | Some (rest, at_) => Some (s :: rest, at_)
          | None => None
          end
        else Some (put_slot a s :: rest, off)
    end
  else None.

(** The first free slot, if there is one, has the size of the new descriptor. *)
Definition reusable (a : desc) (slots : list slot) : Prop :=
  forall pre s post, slots = pre ++ s :: post -> Forall (fun s => in_use s = true) pre -> in_use s = false ->
  aligned_size (s_desc s) = aligned_size a.

Lemma reusable_all a slots :
  (forall s, s ∈ slots -> in_use s = false -> aligned_size (s_desc s) = aligned_size a) -> reusable a slots.
Proof. intros Hall pre s post -> _. apply Hall, elem_of_app. right. by left. Qed.

(** ** Lemmas: bytes *)

Lemma length_le_bytes n z : length (le_bytes n z) = n.
Proof. revert z. induction n; intros z; simpl; congruence. Qed.

Lemma le_le_bytes n z : le (le_bytes n z) = z mod 256 ^ Z.of_nat n.
Proof.
  revert z. induction n as [|n IH]; intros z; [by rewrite Z.mod_1_r|].
  cbn [le_bytes le]. rewrite IH, Nat2Z.inj_succ, Z.pow_succ_r by lia.
  rewrite Z.rem_mul_r by lia. lia.
Qed.

Lemma le_range bs : Forall byte bs -> 0 <= le bs < 256 ^ zlen bs.
Proof.
  induction 1 as [|b bs Hb Hbs IH]; [change (0 <= 0 < 1); lia|]. cbn [le]. autorewrite with zlen.
  pose proof (zlen_nonneg bs). rewrite Z.pow_add_r, Z.pow_1_r by lia. unfold byte in Hb. lia.
Qed.

Lemma peek_mid pre mid post off n :
  off = zlen pre -> n = zlen mid -> peek (pre ++ mid ++ post) off n = Ret mid.
Proof.
  intros -> ->. unfold peek, zlen. rewrite !length_app.
  if_true. rewrite !Nat2Z.id, drop_app_length, take_app_length. done.
Qed.

Lemma peek_all l n : n = zlen l -> peek l 0 n = Ret l.
Proof. intros ->. rewrite <- (app_nil_r l) at 1. by apply (peek_mid []). Qed.

Lemma poke_mid pre mid post off bs :
  off = zlen pre -> zlen bs = zlen mid -> poke (pre ++ mid ++ post) off bs = Ret (pre ++ bs ++ post).
Proof.
  intros -> Hb. unfold poke. rewrite Hb. unfold zlen in *. rewrite !length_app. if_true.
  rewrite Nat2Z.id, take_app_length. do 3 f_equal.
  rewrite app_assoc. rewrite drop_app_length'; [done|]. rewrite length_app. lia.
Qed.

(** Access at a distance behind a split point. *)
Lemma aget_at {A} (pre l : list A) off k :
  0 <= k -> off = zlen pre + k -> aget (pre ++ l) off = aget l k.
Proof.
  intros Hk ->. pose proof (zlen_nonneg pre). unfold aget. do 2 if_true.
  rewrite lookup_app_r by (unfold zlen in *; lia).
  replace (Z.to_nat (zlen pre + k) - length pre)%nat with (Z.to_nat k) by (unfold zlen in *; lia). done.
Qed.

Lemma aget_front {A} (l post : list A) k : 0 <= k < zlen l -> aget (l ++ post) k = aget l k.
Proof.
  intros Hk. unfold aget. if_true. rewrite lookup_app_l; [done|]. unfold zlen in Hk. lia.
Qed.

Lemma zlen_desc_bytes a : zlen (desc_bytes a) = 4 + zlen (ds_body a).
Proof. unfold desc_bytes. by autorewrite with zlen. Qed.

Lemma zlen_slot_bytes n s : room n s -> zlen (slot_bytes s) = 2 * (n + sizeof_vca_device_ctrl).
Proof.
  intros (H1 & H2 & H3 & H4). unfold slot_bytes. autorewrite with zlen. rewrite !zlen_desc_bytes. lia.
Qed.

Lemma size_bounds a :
  header_ok a -> 8 <= desc_size a < 5000 /\ desc_size a <= aligned_size a < desc_size a + 8.
Proof.
  intros Ha. unfold aligned_size. pose proof (Z.div_mod (desc_size a + 7) 8). pose proof (Z.mod_pos_bound (desc_size a + 7) 8).
  unfold header_ok, byte, desc_size, sizeof_vca_device_desc, sizeof_vca_vqconfig in *. lia.
Qed.

(** ** Lemmas: descriptors in memory *)

Section Header.
Context (pre post : list Z) (a : desc) (Ha : header_ok a).
Notation mem := (pre ++ desc_bytes a ++ post).

Lemma get_type d : d = zlen pre -> aget mem (d + d_type) = Ret (ds_type a).
Proof. intros ->. by rewrite (aget_at _ _ _ 0). Qed.
Lemma get_num_vq d : d = zlen pre -> aget mem (d + d_num_vq) = Ret (ds_num_vq a).
Proof. intros ->. by rewrite (aget_at _ _ _ 1). Qed.
Lemma get_feature_len d : d = zlen pre -> aget mem (d + d_feature_len) = Ret (ds_feature_len a).
Proof. intros ->. by rewrite (aget_at _ _ _ 2). Qed.
Lemma get_config_len d : d = zlen pre -> aget mem (d + d_config_len) = Ret (ds_config_len a).
Proof. intros ->. by rewrite (aget_at _ _ _ 3). Qed.

Lemma desc_size_ok d : d = zlen pre -> vca_desc_size mem d = Ret (desc_size a).
Proof.
  intros Hd. unfold vca_desc_size. rewrite get_num_vq, get_feature_len, get_config_len by done. run_bind.
  pose proof (size_bounds a Ha) as [? _]. unfold desc_size in *. by rewrite u32_small by lia.
Qed.

Lemma aligned_desc_size_ok d : d = zlen pre -> vca_aligned_desc_size mem d = Ret (aligned_size a).
Proof.
  intros Hd. unfold vca_aligned_desc_size. rewrite desc_size_ok by done. run_bind.
  pose proof (size_bounds a Ha). unfold __vca_align.
  change (8 - 1) with (2 ^ 3 - 1). rewrite land_not_mask by lia. unfold aligned_size in *.
  replace (desc_size a + 8 - 1) with (desc_size a + 7) by lia. change (2 ^ 3) with 8.
  pose proof (Z.div_mod (desc_size a + 7) 8). rewrite u32_small by lia. f_equal. lia.
Qed.

Lemma host_device_desc_ok d :
  d = zlen pre -> vca_host_device_desc mem d = Ret (d + (aligned_size a + sizeof_vca_device_ctrl)).
Proof. intros Hd. unfold vca_host_device_desc. by rewrite aligned_desc_size_ok. Qed.

Lemma total_desc_size_ok d : d = zlen pre -> vca_total_desc_size mem d = Ret (total_size a).
Proof.
  intros Hd. unfold vca_total_desc_size. rewrite aligned_desc_size_ok by done. run_bind.
  pose proof (size_bounds a Ha). unfold total_size, sizeof_vca_device_ctrl. by rewrite u32_small by lia.
Qed.

Lemma vq_features_ok d :
  d = zlen pre -> vca_vq_features mem d = Ret (d + 8 + ds_num_vq a * 16).
Proof. intros Hd. unfold vca_vq_features. by rewrite get_num_vq. Qed.

Lemma vq_configspace_ok d :
  d = zlen pre ->
  vca_vq_configspace mem d = Ret (d + 8 + ds_num_vq a * 16 + ds_feature_len a * 2).
Proof.
  intros Hd. unfold vca_vq_configspace. rewrite vq_features_ok by done. run_bind. by rewrite get_feature_len.
Qed.
End Header.

(** ** Lemmas: slots *)

Lemma s8_byte t : byte t -> s8 t = if t <? 128 then t else t - 256.
Proof. unfold byte. intros Ht. unfold s8, sint. by rewrite Z.mod_small by lia. Qed.

Lemma type_free t : byte t -> ((s8 t =? 0) || (s8 t =? -1)) = ((t =? 0) || (t =? 255)).
Proof.
  intros Ht. rewrite s8_byte by done. unfold byte in Ht. destruct (Z.ltb_spec t 128).
  - destruct (Z.eqb_spec t 0), (Z.eqb_spec t (-1)), (Z.eqb_spec t 255); done || lia.
  - destruct (Z.eqb_spec (t - 256) 0), (Z.eqb_spec (t - 256) (-1)), (Z.eqb_spec t 0), (Z.eqb_spec t 255); done || lia.
Qed.

Lemma slot_size_ok s : slot_ok s -> zlen (slot_bytes s) = slot_size s /\ 96 <= slot_size s.
Proof.
  intros (Hd & _ & _ & Hr). split; [by apply zlen_slot_bytes|].
  pose proof (size_bounds _ Hd). unfold slot_size, total_size, sizeof_vca_device_ctrl. lia.
Qed.

Lemma slots_bytes_ok slots :
  Forall slot_ok slots ->
  zlen (concat (map slot_bytes slots)) = slots_size slots /\ 96 * zlen slots <= slots_size slots.
Proof.
  induction 1 as [|s l Hs Hl [IH1 IH2]]; [done|]. cbn [map concat]. pose proof (slot_size_ok _ Hs).
  change (slots_size (s :: l)) with (slot_size s + slots_size l). autorewrite with zlen. lia.
Qed.

(** A page split at a slot. *)
Lemma slot_split s post : slot_bytes s ++ post
  = desc_bytes (s_desc s) ++ (s_ctrl s ++ desc_bytes (s_host_desc s) ++ s_host_ctrl s ++ post).
Proof. unfold slot_bytes. by rewrite <- !app_assoc. Qed.

Lemma find_slot_ok a slots : header_ok a -> Forall slot_ok slots ->
  forall fuel pre off n, off = zlen pre ->
  zlen (pre ++ concat (map slot_bytes slots) ++ replicate n 0) = VCA_DP_SIZE ->
  (length slots < fuel)%nat ->
  find_slot fuel (pre ++ concat (map slot_bytes slots) ++ replicate n 0)
    (VCA_DP_SIZE - total_size a) off = Ret (snd <$> add_slot off a slots).
Proof.
  intros Ha. pose proof (size_bounds a Ha) as Hsz. induction 1 as [|s l Hs Hl IH]; intros fuel pre off n Hoff Hp Hf.
  all: destruct fuel as [|fuel]; [cbn in Hf; lia|]; cbn [find_slot add_slot]; pose proof (zlen_nonneg pre).
  - case_if; [|done]. cbn [map concat] in *. autorewrite with zlen in Hp.
    unfold total_size, sizeof_vca_device_ctrl in E. change (zlen []) with 0 in Hp.
    rewrite (aget_at _ _ _ 0) by (unfold d_type; lia). destruct n as [|n]; [lia|]. done.
  - case_if; [|done]. cbn [map concat]. destruct (slot_size_ok _ Hs) as [Hz Hmin].
    rewrite <- app_assoc. rewrite slot_split. rewrite get_type by done. run_bind.
    rewrite type_free by apply Hs. fold (in_use s).
    destruct (slot_size_ok _ Hs). destruct (in_use s) eqn:Eu; unfold in_use in Eu.
    + apply negb_true_iff in Eu. rewrite Eu. rewrite total_desc_size_ok by (done || apply Hs). run_bind.
      fold (slot_size s). rewrite <- slot_split.
      cbn [map concat] in Hp. autorewrite with zlen in Hp.
      pose proof (zlen_nonneg (concat (map slot_bytes l))).
      rewrite u32_small by (unfold VCA_DP_SIZE in Hp; lia).
      rewrite !app_assoc. rewrite <- (app_assoc (pre ++ slot_bytes s)).
      rewrite IH.
      * destruct (add_slot _ a l) as [[? ?]|]; done.
      * autorewrite with zlen. lia.
      * autorewrite with zlen. lia.
      * cbn in Hf. lia.
    + apply negb_false_iff in Eu. by rewrite Eu.
Qed.

Lemma poke_desc pre old post off a :
  off = zlen pre -> zlen (ds_body a) <= zlen (ds_body old) ->
  poke (pre ++ desc_bytes old ++ post) off (desc_bytes a)
  = Ret (pre ++ desc_bytes (put_desc (ds_type a) a old) ++ post).
Proof.
  intros Hoff Hlen. pose proof (zlen_nonneg (ds_body a)).
  assert (desc_bytes old = take (length (desc_bytes a)) (desc_bytes old)
    ++ drop (length (ds_body a)) (ds_body old)) as ->.
  { rewrite <- (take_drop (length (desc_bytes a)) (desc_bytes old)) at 1. f_equal. }
  rewrite <- app_assoc. rewrite poke_mid; [|done|].
  - unfold put_desc, desc_bytes, overlay. cbn. by rewrite <- !app_assoc.
  - unfold zlen in *. rewrite length_take. unfold desc_bytes. cbn. lia.
Qed.

Lemma aset_type pre old post off t :
  off = zlen pre -> aset (pre ++ desc_bytes old ++ post) (off + d_type) t
  = Ret (pre ++ desc_bytes (mkDesc t (ds_num_vq old) (ds_feature_len old) (ds_config_len old) (ds_body old)) ++ post).
Proof. intros ->. unfold d_type. rewrite Z.add_0_r. apply aset_mid. Qed.

(** The descriptor without its type. *)
Definition untyped (a : desc) : desc :=
  mkDesc 0 (ds_num_vq a) (ds_feature_len a) (ds_config_len a) (ds_body a).

Lemma header_put a old t : header_ok a -> byte t -> header_ok (put_desc t a old).
Proof. by intros (? & ? & ? & ?) Ht. Qed.

Lemma header_untyped a : header_ok a -> header_ok (untyped a).
Proof. intros (? & ? & ? & ?). repeat split; cbn; unfold byte in *; lia. Qed.

Lemma zlen_overlay new old : zlen new <= zlen old -> zlen (overlay new old) = zlen old.
Proof. intros H. unfold overlay, zlen in *. rewrite length_app, length_drop. lia. Qed.

Lemma put_slot_bytes {B} (K : list Z -> Z -> outcome B) a s pre post devp :
  arg_ok a -> room (aligned_size a) s -> devp = zlen pre ->
  (dp ← poke (pre ++ slot_bytes s ++ post) devp (desc_bytes (untyped a));
   host ← vca_host_device_desc dp devp;
   dp ← poke dp host (desc_bytes (untyped a));
   dp ← aset dp (host + d_type) (ds_type a);
   K dp host) = K (pre ++ slot_bytes (put_slot a s) ++ post) (devp + (aligned_size a + sizeof_vca_device_ctrl)).
Proof.
  intros [Ha Hb] (H1 & H2 & H3 & H4) Hd. pose proof (size_bounds a Ha) as [? ?].
  unfold slot_bytes at 1. rewrite <- !app_assoc.
  rewrite poke_desc by (done || cbn; lia). run_bind.
  rewrite host_device_desc_ok by first [done | by apply header_put; [apply header_untyped|unfold byte; cbn; lia]]. run_bind.
  change (put_desc _ (untyped a) (s_desc s)) with (put_desc 0 a (s_desc s)).
  change (aligned_size (put_desc 0 a (s_desc s))) with (aligned_size a).
  rewrite (app_assoc pre), (app_assoc _ (s_ctrl s)).
  set (pre' := (pre ++ _) ++ s_ctrl s).
  assert (devp + (aligned_size a + sizeof_vca_device_ctrl) = zlen pre') as Hh.
  { unfold pre'. autorewrite with zlen. rewrite zlen_desc_bytes. cbn [put_desc ds_body].
    rewrite zlen_overlay by lia. lia. }
  rewrite Hh. rewrite poke_desc by (done || cbn; lia). run_bind. rewrite aset_type by done. run_bind.
  rewrite <- Hh. unfold pre'. rewrite <- !app_assoc. unfold slot_bytes. rewrite <- !app_assoc. done.
Qed.

Lemma put_slot_room a s :
  arg_ok a -> room (aligned_size a) s -> slot_ok (put_slot a s).
Proof.
  intros [Ha Hb] (H1 & H2 & H3 & H4). pose proof (size_bounds a Ha) as [? ?].
  assert (byte 0) by (unfold byte; lia). repeat split; try apply Ha; try done.
  all: cbn; change (aligned_size (put_desc 0 a (s_desc s))) with (aligned_size a); rewrite zlen_overlay; lia.
Qed.

Lemma blank_room a : header_ok a -> room (aligned_size a) (blank_slot a).
Proof.
  intros Ha. pose proof (size_bounds a Ha). repeat split; try done.
  all: cbn; rewrite zlen_replicate; lia.
Qed.

Lemma blank_bytes a : header_ok a -> slot_bytes (blank_slot a) = replicate (Z.to_nat (total_size a)) 0.
Proof.
  intros Ha. pose proof (size_bounds a Ha). unfold slot_bytes, blank_slot, blank_desc, desc_bytes. cbn [s_desc s_ctrl s_host_desc s_host_ctrl ds_type ds_num_vq ds_feature_len ds_config_len ds_body].
  change [0; 0; 0; 0] with (replicate 4 0). rewrite <- !replicate_add. f_equal.
  unfold total_size, sizeof_vca_device_ctrl. lia.
Qed.

(** *** The number of entries of a queue *)
Definition queue_num (a : desc) (i : Z) : Z := le (take 2 (drop (Z.to_nat (12 + 16 * i)) (ds_body a))).
Definition too_long (a : desc) : bool :=
  existsb (fun i => VCA_VRING_ENTRIES <? queue_num a i) (seqZ 0 (ds_num_vq a)).

Lemma queue_num_ok a i :
  arg_ok a -> 0 <= i < ds_num_vq a -> vqconfig_num (desc_bytes a) 0 i = Ret (queue_num a i).
Proof.
  intros [Ha Hb] Hi. pose proof (size_bounds a Ha). unfold vqconfig_num, peek.
  rewrite zlen_desc_bytes, Hb. unfold desc_size in *.
  unfold vca_vq_config, sizeof_vca_device_desc, sizeof_vca_vqconfig, vqc_num in *.
  destruct Ha as (_ & _ & Hf & Hc). unfold byte in *. if_true. run_bind. unfold queue_num, desc_bytes.
  replace (Z.to_nat (0 + 8 + i * 16 + 8)) with (4 + Z.to_nat (12 + 16 * i))%nat by lia. done.
Qed.

Lemma check_nums_ok a n i :
  arg_ok a -> 0 <= i -> i + Z.of_nat n <= ds_num_vq a ->
  check_nums n (desc_bytes a) i
  = Ret (negb (existsb (fun i => VCA_VRING_ENTRIES <? queue_num a i) (seqZ i (Z.of_nat n)))).
Proof.
  intros Ha. revert i. induction n as [|n IH]; intros i Hi Hn; [done|]. cbn [check_nums].
  rewrite queue_num_ok by (done || lia). run_bind.
  rewrite seqZ_cons by lia. cbn [existsb]. replace (Z.pred (Z.of_nat (S n))) with (Z.of_nat n) by lia.
  destruct (VCA_VRING_ENTRIES <? queue_num a i); [done|]. by rewrite IH by lia.
Qed.

Lemma slots_size_cons s l : slots_size (s :: l) = slot_size s + slots_size l.
Proof. done. Qed.

(** What adding a descriptor does to the slots. *)
Lemma add_slot_spec off a slots slots' at_ :
  add_slot off a slots = Some (slots', at_) ->
  (exists pre s post, slots = pre ++ s :: post /\ slots' = pre ++ put_slot a s :: post
     /\ Forall (fun s => in_use s = true) pre /\ in_use s = false
     /\ at_ = off + slots_size pre /\ at_ < VCA_DP_SIZE - total_size a)
  \/ (slots' = slots ++ [put_slot a (blank_slot a)] /\ Forall (fun s => in_use s = true) slots
     /\ at_ = off + slots_size slots /\ at_ < VCA_DP_SIZE - total_size a).
Proof.
  revert off slots' at_. induction slots as [|s l IH]; intros off slots' at_; cbn [add_slot].
  all: case_if; [|done].
  - intros [= <- <-]. right. repeat split; [constructor|cbn [slots_size foldr]; lia|lia].
  - destruct (in_use s) eqn:Eu.
    + destruct (add_slot _ a l) as [[l' o]|] eqn:El; [|done]. intros [= <- <-].
      destruct (IH _ _ _ El) as [(pre & x & post & -> & -> & Hpre & Hx & -> & ?)|(-> & Hl & -> & ?)].
      * left. exists (s :: pre), x, post. repeat split; try done; [by constructor|rewrite slots_size_cons; lia].
      * right. repeat split; [by constructor|rewrite slots_size_cons; lia|lia].
    + intros [= <- <-]. left. exists [], s, l. repeat split; try done. cbn [slots_size foldr]; lia.
Qed.

(** The page around a slot. *)
Lemma page_split boot pre s post n :
  page_bytes boot (pre ++ s :: post) n
  = (boot ++ concat (map slot_bytes pre)) ++ slot_bytes s ++ (concat (map slot_bytes post) ++ replicate n 0).
Proof. unfold page_bytes. rewrite map_app, concat_app. cbn [map concat]. by rewrite <- !app_assoc. Qed.

Lemma page_snoc boot slots s n :
  page_bytes boot (slots ++ [s]) n
  = (boot ++ concat (map slot_bytes slots)) ++ slot_bytes s ++ replicate n 0.
Proof. by rewrite page_split. Qed.

Lemma page_offset boot pre :
  zlen boot = sizeof_vca_bootparam -> Forall slot_ok pre ->
  zlen (boot ++ concat (map slot_bytes pre)) = sizeof_vca_bootparam + slots_size pre.
Proof. intros Hb Hp. autorewrite with zlen. pose proof (slots_bytes_ok _ Hp). lia. Qed.

(** Replacing the bytes of one slot. *)
Lemma dp_rep_replace boot pre s s' post n :
  dp_rep boot (page_bytes boot (pre ++ s :: post) n) (pre ++ s :: post) ->
  slot_ok s' -> slot_size s' = slot_size s ->
  dp_rep boot (page_bytes boot (pre ++ s' :: post) n) (pre ++ s' :: post).
Proof.
  intros (Hb & Hp & Hs & _) Hok Hz. rewrite page_split in Hp.
  apply Forall_app in Hs as [Hpre Hs]. apply Forall_cons_1 in Hs as [Hs Hpost].
  split; [done|]. split; [|split; [apply Forall_app; split; [done|by constructor]|by exists n]].
  rewrite page_split. pose proof (slot_size_ok _ Hok). pose proof (slot_size_ok _ Hs).
  rewrite !zlen_app in *. lia.
Qed.


Lemma desc_bytes_aset a t : aset (desc_bytes a) d_type t
  = Ret (desc_bytes (mkDesc t (ds_num_vq a) (ds_feature_len a) (ds_config_len a) (ds_body a))).
Proof. apply (aset_mid []). Qed.

Lemma arg_size a : header_ok a -> vca_desc_size (desc_bytes a) 0 = Ret (desc_size a).
Proof. intros Ha. rewrite <- (app_nil_r (desc_bytes a)). by apply (desc_size_ok [] []). Qed.
Lemma arg_total a : header_ok a -> vca_total_desc_size (desc_bytes a) 0 = Ret (total_size a).
Proof. intros Ha. rewrite <- (app_nil_r (desc_bytes a)). by apply (total_desc_size_ok [] []). Qed.

(** The place of [slots] where a descriptor goes has the room for it. *)
Lemma add_slot_page boot slots n a slots' at_ :
  dp_rep boot (page_bytes boot slots n) slots -> arg_ok a -> reusable a slots ->
  add_slot sizeof_vca_bootparam a slots = Some (slots', at_) ->
  exists pre s post n', page_bytes boot slots n = pre ++ slot_bytes s ++ post
    /\ page_bytes boot slots' n' = pre ++ slot_bytes (put_slot a s) ++ post
    /\ room (aligned_size a) s /\ at_ = zlen pre /\ Forall slot_ok slots'.
Proof.
  intros (Hb & Hp & Hs & _) Harg Hreuse Hadd. pose proof Harg as [Ha _].
  destruct (add_slot_spec _ _ _ _ _ Hadd) as [(pre & s & post & -> & -> & Huse & Hfree & -> & _)|(-> & _ & -> & Hlim)].
  - apply Forall_app in Hs as [Hpre Hs]. apply Forall_cons_1 in Hs as [Hs Hpost].
    assert (room (aligned_size a) s).
    { rewrite <- (Hreuse pre s post) by done. apply Hs. }
    exists (boot ++ concat (map slot_bytes pre)), s, (concat (map slot_bytes post) ++ replicate n 0), n.
    rewrite !page_split, page_offset by done. do 4 (split; [done|]).
    apply Forall_app. split; [done|]. constructor; [by apply put_slot_room|done].
  - pose proof (size_bounds _ Ha). unfold page_bytes in Hp. rewrite app_assoc in Hp.
    autorewrite with zlen in Hp. pose proof (slots_bytes_ok _ Hs) as [Hz _].
    exists (boot ++ concat (map slot_bytes slots)), (blank_slot a),
      (replicate (n - Z.to_nat (total_size a)) 0), (n - Z.to_nat (total_size a))%nat.
    rewrite page_snoc, blank_bytes, page_offset by done.
    assert (n = Z.to_nat (total_size a) + (n - Z.to_nat (total_size a)))%nat as Hn.
    { unfold total_size, VCA_DP_SIZE, sizeof_vca_device_ctrl in *. lia. }
    split; [|do 2 (split; [first [done | by apply blank_room]|]); split; [done|]].
    + rewrite <- replicate_add, <- Hn. unfold page_bytes. by rewrite app_assoc.
    + apply Forall_app. split; [done|]. constructor; [|constructor]. apply put_slot_room; [done|by apply blank_room].
Qed.

Lemma bounded_total a : header_ok a -> bounded a -> total_size a <= 320.
Proof.
  intros Ha (H1 & H2 & H3). pose proof (size_bounds a Ha) as [_ Hal]. unfold total_size, desc_size in *.
  unfold VCA_MAX_VRINGS, VCA_MAX_FEATURE_LEN, VCA_MAX_CONFIG_LEN, sizeof_vca_device_desc,
    sizeof_vca_vqconfig, sizeof_vca_device_ctrl, aligned_size, desc_size in *.
  pose proof (Z.div_mod (8 + ds_num_vq a * 16 + ds_feature_len a * 2 + ds_config_len a + 7) 8).
  assert ((8 + ds_num_vq a * 16 + ds_feature_len a * 2 + ds_config_len a + 7) / 8 <= 127 / 8)
    by (apply Z.div_le_mono; lia). change (127 / 8) with 15 in *. lia.
Qed.

(** Adding a descriptor, on slots. *)
Lemma copy_dp_entry_ok boot p slots a :
  dp_rep boot p slots -> arg_ok a -> bounded a -> reusable a slots ->
  match (if too_long a then None else add_slot sizeof_vca_bootparam a slots) with
  | None => vop_copy_dp_entry p (desc_bytes a) = Ret (mkCopied p (desc_bytes a) (- EINVAL) None)
  | Some (slots', devp) =>
      exists p', vop_copy_dp_entry p (desc_bytes a)
        = Ret (mkCopied p' (desc_bytes (untyped a)) 0 (Some (ds_type a, devp)))
      /\ dp_rep boot p' slots'
  end.
Proof.
  intros Hrep Harg Hbd Hreuse. pose proof Harg as [Ha Hbody].
  pose proof (size_bounds a Ha) as [Hsz Hal]. pose proof (bounded_total a Ha Hbd).
  assert (byte (ds_num_vq a)) as Hnv by apply Ha. unfold byte in Hnv.
  unfold vop_copy_dp_entry. change (aget (desc_bytes a) d_num_vq) with (Ret (ds_num_vq a)). run_bind.
  rewrite check_nums_ok by (done || lia). run_bind.
  rewrite negb_involutive, Z2Nat.id by lia. fold (too_long a). destruct (too_long a); [done|].
  rewrite arg_total by done. run_bind.
  pose proof Hrep as (Hb & Hp & Hs & n & ->). pose proof (slots_bytes_ok _ Hs) as [Hz Hn].
  pose proof Hp as Hp'. unfold page_bytes in Hp'. autorewrite with zlen in Hp'.
  rewrite u32_small by (unfold VCA_DP_SIZE, total_size, sizeof_vca_device_ctrl in *; lia).
  assert (find_slot slot_fuel (page_bytes boot slots n) (VCA_DP_SIZE - total_size a)
            sizeof_vca_bootparam = Ret (snd <$> add_slot sizeof_vca_bootparam a slots)) as ->.
  { apply find_slot_ok; try done. unfold VCA_DP_SIZE, slot_fuel, zlen in *. lia. }
  run_bind.
  destruct (add_slot sizeof_vca_bootparam a slots) as [[slots' at_]|] eqn:Eadd; [|done]. cbn [fmap option_fmap option_map snd].
  destruct (add_slot_page _ _ _ _ _ _ Hrep Harg Hreuse Eadd) as (pre & s & post & n' & Ep & Ep' & Hroom & -> & Hok').
  change (aget (desc_bytes a) d_type) with (Ret (ds_type a)). run_bind.
  rewrite desc_bytes_aset. run_bind. fold (untyped a).
  rewrite arg_size by by apply header_untyped. run_bind.
  rewrite peek_all; [run_bind|rewrite zlen_desc_bytes; unfold desc_size in *; cbn in *; lia].
  rewrite Ep, put_slot_bytes by done. eexists. split; [done|].
  rewrite <- Ep'. split; [done|]. split; [|split; [done|by eexists]].
  rewrite Ep', <- Hp, Ep. rewrite !zlen_app, (zlen_slot_bytes (aligned_size a) s) by done.
  f_equal. f_equal. apply zlen_slot_bytes. by apply put_slot_room.
Qed.

(** C19. A descriptor is added to the page, under the hypothesis that the slot which it will reuse, the first one without a
    device if there is one, has the size of the descriptor (the code does not check that).  When one of its queues has more than 1024
    entries, or no slot is left, the function fails and changes nothing.  Otherwise
    the descriptor goes to the first slot without a device, or behind the last slot;
    it has type 0 on the side of the node, its own type on that of the host, and all
    other slots and the boot parameters stay as they are. *)
Theorem vop_copy_dp_entry_correct boot p slots a :
  dp_rep boot p slots -> arg_ok a -> bounded a -> reusable a slots ->
  match (if too_long a then None else add_slot sizeof_vca_bootparam a slots) with
  | None => vop_copy_dp_entry p (desc_bytes a) = Ret (mkCopied p (desc_bytes a) (- EINVAL) None)
  | Some (slots', devp) =>
      exists p', vop_copy_dp_entry p (desc_bytes a)
        = Ret (mkCopied p' (desc_bytes (untyped a)) 0 (Some (ds_type a, devp)))
      /\ dp_rep boot p' slots'
  end.
Proof. exact (copy_dp_entry_ok boot p slots a). Qed.

(** ** The sections of a descriptor

    Behind the header: the status and the queues, the features offered and the
    features accepted, the configuration, and what pads the descriptor. *)
Record sections := mkSections {
  x_queues : list Z;
  x_in : list Z;
  x_out : list Z;
  x_config : list Z;
  x_pad : list Z;
}.

Definition with_sections (a : desc) (x : sections) : desc :=
  mkDesc (ds_type a) (ds_num_vq a) (ds_feature_len a) (ds_config_len a)
    (x_queues x ++ x_in x ++ x_out x ++ x_config x ++ x_pad x).

Definition sections_ok (a : desc) (x : sections) : Prop :=
  header_ok a /\ zlen (x_queues x) = 4 + 16 * ds_num_vq a
  /\ zlen (x_in x) = ds_feature_len a /\ zlen (x_out x) = ds_feature_len a
  /\ zlen (x_config x) = ds_config_len a.

Definition set_out (x : sections) (o : list Z) : sections :=
  mkSections (x_queues x) (x_in x) o (x_config x) (x_pad x).
Definition set_config (x : sections) (c : list Z) : sections :=
  mkSections (x_queues x) (x_in x) (x_out x) c (x_pad x).

(** ** Lemmas: bitmaps *)

Lemma le_testbit bs k :
  Forall byte bs -> 0 <= k ->
  Z.testbit (le bs) k = match bs !! Z.to_nat (k / 8) with Some b => Z.testbit b (k mod 8) | None => false end.
Proof.
  intros Hbs Hk. revert k Hk. induction Hbs as [|b bs Hb Hbs IH]; intros k Hk; [apply Z.bits_0|].
  unfold byte in Hb. cbn [le]. destruct (Z.ltb_spec k 8) as [Hlt|Hge].
  - rewrite Z.div_small, (Z.mod_small k) by lia. cbn.
    replace (b + 256 * le bs) with (le bs * 2 ^ 8 + b) by lia.
    rewrite <- lor_fields by lia. rewrite Z.lor_spec, Z.mul_pow2_bits_low by lia. done.
  - replace (b + 256 * le bs) with (le bs * 2 ^ 8 + b) by lia.
    rewrite <- lor_fields by lia. rewrite Z.lor_spec, Z.mul_pow2_bits by lia.
    rewrite <- (Z.mod_small b (2 ^ 8)), Z.mod_pow2_bits_high, orb_false_r by lia.
    rewrite IH by lia.
    assert (k / 8 = (k - 8) / 8 + 1) as -> by (rewrite <- Z.div_add by lia; f_equal; lia).
    assert (k mod 8 = (k - 8) mod 8) as -> by (rewrite <- (Z_mod_plus_full (k - 8) 1 8); f_equal; lia).
    replace (Z.to_nat ((k - 8) / 8 + 1)) with (S (Z.to_nat ((k - 8) / 8)))
      by (pose proof (Z.div_pos (k - 8) 8); lia). done.
Qed.

Lemma bits_range k n : 0 <= k < 8 * n -> 0 <= k / 8 < n /\ 0 <= k mod 8 < 8.
Proof.
  intros Hk. split; [split; [apply Z.div_pos; lia|apply Z.div_lt_upper_bound; lia]|apply Z.mod_pos_bound; lia].
Qed.

(** A bit of a bitmap set. *)
Definition set_bit (bs : list Z) (i : Z) : list Z :=
  alter (fun b => Z.lor b (Z.shiftl 1 (i mod 8))) (Z.to_nat (i / 8)) bs.

Lemma byte_lor b m : byte b -> 0 <= m < 8 -> byte (Z.lor b (Z.shiftl 1 m)).
Proof.
  unfold byte. intros Hb Hm. rewrite Z.shiftl_1_l.
  assert (0 <= Z.lor b (2 ^ m)) by (apply Z.lor_nonneg; pose proof (Z.pow_nonneg 2 m); lia). split; [done|].
  destruct (Z.eq_dec (Z.lor b (2 ^ m)) 0); [lia|]. change 256 with (2 ^ 8). apply Z.log2_lt_pow2; [lia|].
  rewrite Z.log2_lor, Z.log2_pow2 by (try apply Z.pow_nonneg; lia). apply Z.max_lub_lt; [|lia].
  destruct (Z.eq_dec b 0) as [->|]; [done|]. apply Z.log2_lt_pow2; lia.
Qed.

Lemma set_bit_ok bs i :
  Forall byte bs -> 0 <= i < 8 * zlen bs ->
  Forall byte (set_bit bs i) /\ zlen (set_bit bs i) = zlen bs
  /\ forall k, 0 <= k -> Z.testbit (le (set_bit bs i)) k = Z.testbit (le bs) k || (k =? i).
Proof.
  intros Hbs Hi. destruct (bits_range i (zlen bs)) as [Hq Hr]; [lia|]. unfold set_bit.
  assert (Forall byte (alter (fun b => Z.lor b (Z.shiftl 1 (i mod 8))) (Z.to_nat (i / 8)) bs)) as Hfa.
  { apply Forall_alter; [done|]. intros x Hx Hb. by apply byte_lor. }
  split; [done|]. split; [unfold zlen; by rewrite length_alter|].
  intros k Hk. rewrite !le_testbit by done. destruct (decide (k / 8 = i / 8)) as [Eq|Nq].
  - rewrite Eq, list_lookup_alter_eq. destruct (aget_total bs (i / 8)) as (b & _ & ->); [done|]. cbn.
    rewrite Z.lor_spec, Z.shiftl_1_l, Z.pow2_bits_eqb by lia. f_equal.
    pose proof (Z.div_mod k 8). pose proof (Z.div_mod i 8).
    destruct (Z.eqb_spec (i mod 8) (k mod 8)), (Z.eqb_spec k i); lia || congruence.
  - rewrite list_lookup_alter_ne by (pose proof (Z.div_pos k 8); lia).
    destruct (Z.eqb_spec k i) as [->|]; [done|]. by rewrite orb_false_r.
Qed.

Section Bits.
Context (pre post : list Z) (base : Z) (Hbase : base = zlen pre).

Lemma get_bits_ok bs n i acc :
  Forall byte bs -> 0 <= i -> i + Z.of_nat n <= 8 * zlen bs -> 0 <= acc ->
  exists f, get_bits n (pre ++ bs ++ post) base i acc = Ret f /\ 0 <= f
    /\ forall k, 0 <= k -> Z.testbit f k = Z.testbit acc k
         || ((i <=? k) && (k <? i + Z.of_nat n) && Z.testbit (le bs) k).
Proof.
  intros Hbs. revert i acc. induction n as [|n IH]; intros i acc Hi Hn Hacc.
  - exists acc. repeat split; [done|]. intros k Hk.
    destruct (Z.leb_spec i k), (Z.ltb_spec k (i + Z.of_nat 0)); cbn; rewrite ?orb_false_r; done || lia.
  - cbn [get_bits]. destruct (bits_range i (zlen bs)) as [Hq Hr]; [lia|].
    rewrite (aget_at _ _ _ (i / 8)) by lia. rewrite aget_front by done.
    destruct (aget_total bs (i / 8)) as (b & -> & Hb); [done|]. run_bind.
    rewrite testflag_bit by lia.
    set (acc' := if Z.testbit b (i mod 8) then _ else _).
    assert (forall k, 0 <= k -> Z.testbit acc' k = Z.testbit acc k || ((k =? i) && Z.testbit (le bs) k)) as Hacc'.
    { intros k Hk. rewrite le_testbit by done. unfold acc'. destruct (Z.eqb_spec k i) as [->|Hne].
      - rewrite Hb. destruct (Z.testbit b (i mod 8)) eqn:E; cbn; [|by rewrite orb_false_r].
        rewrite Z.lor_spec, Z.shiftl_spec, Z.sub_diag by lia. done.
      - rewrite orb_false_r. destruct (Z.testbit b (i mod 8)); [|done].
        rewrite Z.lor_spec, Z.shiftl_1_l, Z.pow2_bits_eqb by lia.
        rewrite (proj2 (Z.eqb_neq i k)) by lia. by rewrite orb_false_r. }
    destruct (IH (i + 1) acc') as (f & -> & Hf & Hk); [lia|lia| |].
    { unfold acc'. destruct (Z.testbit b (i mod 8)); [|done]. apply Z.lor_nonneg. split; [done|].
      apply Z.shiftl_nonneg. lia. }
    exists f. split; [done|]. split; [done|]. intros k H0. rewrite Hk, Hacc' by done. rewrite <- orb_assoc. f_equal.
    destruct (Z.eqb_spec k i), (Z.leb_spec (i + 1) k), (Z.ltb_spec k (i + 1 + Z.of_nat n)), (Z.leb_spec i k),
      (Z.ltb_spec k (i + Z.of_nat (S n))); cbn; rewrite ?orb_false_r; done || lia.
Qed.

(** The bits below [n] of a bitmap. *)
Lemma get_bits_le bs n :
  Forall byte bs -> Z.of_nat n <= 8 * zlen bs ->
  get_bits n (pre ++ bs ++ post) base 0 0 = Ret (le bs mod 2 ^ Z.of_nat n).
Proof.
  intros Hbs Hn. destruct (get_bits_ok bs n 0 0) as (f & -> & Hf & Hk); [done..|].
  f_equal. apply Z.bits_inj'. intros k H0. rewrite Hk, Z.bits_0 by done.
  rewrite Z.testbit_mod_pow2 by lia. rewrite (proj2 (Z.leb_le 0 k)) by done. done.
Qed.

Lemma write_bit bs i :
  0 <= i < 8 * zlen bs ->
  (b0 ← aget (pre ++ bs ++ post) (base + i / 8);
   aset (pre ++ bs ++ post) (base + i / 8) (Z.lor b0 (Z.shiftl 1 (i mod 8))))
  = Ret (pre ++ set_bit bs i ++ post).
Proof.
  intros Hi. destruct (bits_range i (zlen bs)) as [Hq Hr]; [lia|].
  destruct (aget_total bs (i / 8)) as (b & Hget & Hb); [done|].
  rewrite (aget_at _ _ _ (i / 8)), aget_front, Hget by lia. run_bind.
  pose proof (zlen_nonneg pre). pose proof (zlen_nonneg post). rewrite aset_ret by (autorewrite with zlen; lia).
  f_equal. rewrite Hbase.
  replace (Z.to_nat (zlen pre + i / 8)) with (length pre + Z.to_nat (i / 8))%nat by (unfold zlen; lia).
  rewrite insert_app_r, insert_app_l by (unfold zlen in Hq; lia). do 2 f_equal. unfold set_bit.
  apply list_eq. intros j. destruct (decide (j = Z.to_nat (i / 8))) as [->|].
  - rewrite list_lookup_insert_eq, list_lookup_alter_eq, Hb by (unfold zlen in Hq; lia). done.
  - by rewrite list_lookup_insert_ne, list_lookup_alter_ne.
Qed.

Lemma put_bits_ok f n i bs :
  Forall byte bs -> 0 <= i -> i + Z.of_nat n <= 8 * zlen bs -> i + Z.of_nat n <= 64 ->
  exists bs', put_bits n (pre ++ bs ++ post) base f i = Ret (pre ++ bs' ++ post)
    /\ Forall byte bs' /\ zlen bs' = zlen bs
    /\ forall k, 0 <= k -> Z.testbit (le bs') k = Z.testbit (le bs) k
         || ((i <=? k) && (k <? i + Z.of_nat n) && Z.testbit f k).
Proof.
  intros Hbs. revert i bs Hbs. induction n as [|n IH]; intros i bs Hbs Hi Hn H64.
  - exists bs. repeat split; [done|]. intros k Hk.
    destruct (Z.leb_spec i k), (Z.ltb_spec k (i + Z.of_nat 0)); cbn; rewrite ?orb_false_r; done || lia.
  - cbn [put_bits]. unfold __virtio_test_bit, bug_on. if_false. run_bind.
    set (bs1 := if Z.testbit f i then set_bit bs i else bs).
    assert (Forall byte bs1 /\ zlen bs1 = zlen bs
      /\ forall k, 0 <= k -> Z.testbit (le bs1) k = Z.testbit (le bs) k || ((k =? i) && Z.testbit f k)) as (H1 & H2 & H3).
    { unfold bs1. destruct (Z.testbit f i) eqn:Ef.
      - destruct (set_bit_ok bs i) as (? & ? & Hk); [done|lia|]. do 2 (split; [done|]). intros k Hk0.
        rewrite Hk by done. destruct (Z.eqb_spec k i) as [->|]; [by rewrite Ef|done].
      - do 2 (split; [done|]). intros k Hk.
        destruct (Z.eqb_spec k i) as [->|]; rewrite ?Ef, ?andb_false_r, orb_false_r; done. }
    assert ((if Z.testbit f i
             then b0 ← aget (pre ++ bs ++ post) (base + i / 8);
                  aset (pre ++ bs ++ post) (base + i / 8) (Z.lor b0 (Z.shiftl 1 (i mod 8)))
             else Ret (pre ++ bs ++ post)) = Ret (pre ++ bs1 ++ post)) as ->.
    { unfold bs1. destruct (Z.testbit f i); [|done]. apply write_bit. lia. }
    run_bind. destruct (IH (i + 1) bs1) as (bs' & -> & Hbs' & Hz & Hk); [done|lia|lia|lia|].
    exists bs'. split; [done|]. split; [done|]. split; [lia|]. intros k H0. rewrite Hk, H3 by done. rewrite <- orb_assoc. f_equal.
    destruct (Z.eqb_spec k i), (Z.leb_spec (i + 1) k), (Z.ltb_spec k (i + 1 + Z.of_nat n)), (Z.leb_spec i k),
      (Z.ltb_spec k (i + Z.of_nat (S n))); cbn; rewrite ?orb_false_r; done || lia.
Qed.
End Bits.

Lemma le_zeros n : le (replicate n 0) = 0.
Proof. induction n as [|n IH]; [done|]. cbn [replicate le]. lia. Qed.

Lemma le_bytes_le bs : Forall byte bs -> le_bytes (length bs) (le bs) = bs.
Proof.
  induction 1 as [|b bs Hb Hbs IH]; [done|]. cbn [length le_bytes le]. unfold byte in Hb.
  replace (b + 256 * le bs) with (b + le bs * 256) by lia.
  rewrite Z_mod_plus_full, Z.mod_small, Z.div_add, Z.div_small by lia. f_equal. by rewrite Z.add_0_l.
Qed.

(** A bitmap of zeros that is filled with the bits of [f]. *)
Lemma put_bits_zeros pre post base f n len :
  base = zlen pre -> Z.of_nat n <= 8 * Z.of_nat len -> Z.of_nat n <= 64 ->
  put_bits n (pre ++ replicate len 0 ++ post) base f 0
  = Ret (pre ++ le_bytes len (f mod 2 ^ Z.of_nat n) ++ post).
Proof.
  intros Hb Hn H64. destruct (put_bits_ok pre post base Hb f n 0 (replicate len 0)) as (bs & -> & Hbs & Hz & Hk);
    [apply Forall_replicate; unfold byte; lia|lia|by rewrite zlen_replicate|lia|].
  do 3 f_equal. rewrite zlen_replicate in Hz. assert (length bs = len) as <- by (unfold zlen in Hz; lia).
  rewrite <- (le_bytes_le bs) at 1 by done. f_equal. apply Z.bits_inj'. intros k Hk0. rewrite Hk by done.
  rewrite le_zeros, Z.bits_0, Z.testbit_mod_pow2 by lia. by rewrite (proj2 (Z.leb_le 0 k)) by done.
Qed.

(** ** Lemmas: which features are kept *)

(** The features that a device accepts: of the transport's bits those that the
    driver of the queue knows, no indirect descriptors with DMA mapping, and no
    offset in receive buffers when buffers are merged or large. *)
Definition accept_transport (f : Z) : Z :=
  let f := Z.clearbit f 31 in
  if Z.testbit f VIRTIO_RING_F_DMA_MAP then Z.clearbit f VIRTIO_RING_F_INDIRECT_DESC else f.
Definition accept (f : Z) : Z :=
  let f := accept_transport f in
  if Z.testbit f VIRTIO_NET_F_GUEST_TSO4 || Z.testbit f VIRTIO_NET_F_GUEST_TSO6
     || Z.testbit f VIRTIO_NET_F_GUEST_ECN || Z.testbit f VIRTIO_NET_F_MRG_RXBUF
  then Z.clearbit f VIRTIO_NET_F_OFFSET_RXBUF else f.

(** A driver that has the bits of [vca_virtio_net_features] in its tables. *)
Definition offers (drv : driver) (fbit : Z) : Prop :=
  vca_virtio_check_driver_offered_feature drv fbit = Ret tt.
Definition net_driver (drv : driver) : Prop :=
  offers drv VIRTIO_NET_F_GUEST_TSO4 /\ offers drv VIRTIO_NET_F_GUEST_TSO6
  /\ offers drv VIRTIO_NET_F_GUEST_ECN /\ offers drv VIRTIO_NET_F_MRG_RXBUF
  /\ offers drv VIRTIO_NET_F_OFFSET_RXBUF.

Lemma clear_clearbit f i : Z.land f (Z.lnot (Z.shiftl 1 i)) = Z.clearbit f i.
Proof. unfold Z.clearbit. by rewrite Z.ldiff_land. Qed.

Lemma clearbit_same f i : Z.testbit f i = false -> 0 <= i -> Z.clearbit f i = f.
Proof.
  intros Hf Hi. apply Z.bits_inj'. intros k Hk. rewrite Z.clearbit_eqb by lia.
  destruct (Z.eqb_spec i k) as [->|]; [by rewrite Hf|by rewrite andb_true_r].
Qed.

Lemma clear_bit_ok f i : i < 64 -> __virtio_clear_bit f i = Ret (Z.clearbit f i).
Proof. intros Hi. unfold __virtio_clear_bit, bug_on. if_false. run_bind. by rewrite clear_clearbit. Qed.
Lemma has_transport drv f i : 28 <= i < 64 -> virtio_has_feature drv f i = Ret (Z.testbit f i).
Proof.
  intros Hi. unfold virtio_has_feature, VIRTIO_TRANSPORT_F_START. if_false. run_bind.
  unfold __virtio_test_bit, bug_on. by if_false.
Qed.

Lemma transport_ok drv f : vca_vring_transport_features drv f = Ret (accept_transport f).
Proof.
  unfold vca_vring_transport_features, accept_transport, VIRTIO_RING_F_DMA_MAP, VIRTIO_RING_F_INDIRECT_DESC.
  change (transport_loop _ f _) with (f ← __virtio_clear_bit f 31; Ret f).
  rewrite clear_bit_ok by lia. run_bind. rewrite !has_transport by lia. run_bind.
  destruct (Z.testbit (Z.clearbit f 31) 30); [|done].
  destruct (Z.testbit (Z.clearbit f 31) 28) eqn:E; [by apply clear_bit_ok|by rewrite (clearbit_same _ 28) by done].
Qed.

Lemma has_net drv f i : offers drv i -> i < 28 -> virtio_has_feature drv f i = Ret (Z.testbit f i).
Proof.
  intros Ho Hi. unfold virtio_has_feature, VIRTIO_TRANSPORT_F_START. if_true. rewrite Ho. run_bind.
  unfold __virtio_test_bit, bug_on. by if_false.
Qed.

Lemma net_ok drv f :
  net_driver drv -> vca_virtio_net_features drv (accept_transport f) = Ret (accept f).
Proof.
  intros (H1 & H2 & H3 & H4 & H5).
  unfold vca_virtio_net_features, accept. rewrite !has_net by done. set (g := accept_transport f).
  destruct (Z.testbit g VIRTIO_NET_F_GUEST_TSO4), (Z.testbit g VIRTIO_NET_F_GUEST_TSO6),
    (Z.testbit g VIRTIO_NET_F_GUEST_ECN), (Z.testbit g VIRTIO_NET_F_MRG_RXBUF); cbn [orb or_else mbind outcome_bind]; try done.
  all: destruct (Z.testbit g VIRTIO_NET_F_OFFSET_RXBUF) eqn:E; [by apply clear_bit_ok|by rewrite (clearbit_same _ _ E)].
Qed.

(** ** Lemmas: the sections in the page *)

Lemma section_bytes a x : desc_bytes (with_sections a x)
  = ([ds_type a; ds_num_vq a; ds_feature_len a; ds_config_len a] ++ x_queues x)
    ++ x_in x ++ x_out x ++ x_config x ++ x_pad x.
Proof. unfold desc_bytes, with_sections. cbn. done. Qed.

Section Sections.
Context (pre post : list Z) (a : desc) (x : sections) (Hx : sections_ok a x).
Context (d : Z) (Hd : d = zlen pre).
Notation page := (pre ++ desc_bytes (with_sections a x) ++ post).
Notation page_with y := (pre ++ desc_bytes (with_sections a y) ++ post).

Lemma page_header : header_ok (with_sections a x).
Proof. apply Hx. Qed.

(** The page around the bitmaps and around the configuration. *)
Definition front : list Z :=
  pre ++ [ds_type a; ds_num_vq a; ds_feature_len a; ds_config_len a] ++ x_queues x.

Lemma zlen_front : zlen front = d + 8 + ds_num_vq a * 16.
Proof. destruct Hx as (_ & Hq & _). unfold front. autorewrite with zlen. rewrite Hq. change (zlen []) with 0. lia. Qed.

Lemma page_in : page = front ++ x_in x ++ (x_out x ++ x_config x ++ x_pad x ++ post).
Proof. rewrite section_bytes. unfold front. by rewrite <- !app_assoc. Qed.
Lemma page_out o : page_with (set_out x o) = (front ++ x_in x) ++ o ++ (x_config x ++ x_pad x ++ post).
Proof. rewrite section_bytes. unfold front. by rewrite <- !app_assoc. Qed.
Lemma page_config c : page_with (set_config x c) = (front ++ x_in x ++ x_out x) ++ c ++ (x_pad x ++ post).
Proof. rewrite section_bytes. unfold front. by rewrite <- !app_assoc. Qed.
Lemma page_same_out : page = page_with (set_out x (x_out x)).
Proof. done. Qed.
Lemma page_same_config : page = page_with (set_config x (x_config x)).
Proof. done. Qed.
End Sections.

Lemma feature_bits_bound fl : 0 <= fl -> 0 <= feature_bits fl <= 8 * fl /\ feature_bits fl <= 64.
Proof. unfold feature_bits. lia. Qed.

Section Features.
Context (pre post : list Z) (a : desc) (x : sections) (d : Z) (drv : driver) (f : Z).
Context (Hx : sections_ok a x) (Hd : d = zlen pre).
Notation n := (feature_bits (ds_feature_len a)).

(** The bitmap that the driver leaves, and the page with it. *)
Definition accepted_bytes : list Z := le_bytes (Z.to_nat (ds_feature_len a)) (accept f mod 2 ^ n).
Definition finalized : list Z := pre ++ desc_bytes (with_sections a (set_out x accepted_bytes)) ++ post.

Lemma feature_len_ok : 0 <= ds_feature_len a /\ 0 <= n <= 8 * ds_feature_len a /\ n <= 64.
Proof.
  assert (0 <= ds_feature_len a) as Hfl by apply Hx. split; [done|]. by apply feature_bits_bound.
Qed.

Lemma get_features_ok : Forall byte (x_in x) ->
  vop_get_features (pre ++ desc_bytes (with_sections a x) ++ post) d = Ret (le (x_in x) mod 2 ^ n).
Proof.
  intros Hin. pose proof feature_len_ok as (Hfl & Hn & _). pose proof Hx as (_ & _ & Hi & _).
  unfold vop_get_features. rewrite vq_features_ok, get_feature_len by done. run_bind.
  cbn [ds_feature_len ds_num_vq with_sections].
  rewrite page_in. rewrite get_bits_le; [|by rewrite zlen_front with (d := d)|done|rewrite Hi; lia].
  by rewrite Z2Nat.id by lia.
Qed.

(** The place of the second bitmap. *)
Lemma zlen_before_out : zlen (front pre a x ++ x_in x) = d + 8 + ds_num_vq a * 16 + ds_feature_len a.
Proof. rewrite zlen_app. rewrite zlen_front with (d := d) by done. destruct Hx as (_ & _ & -> & _). lia. Qed.

Lemma finalize_features_ok : net_driver drv ->
  vop_finalize_features (pre ++ desc_bytes (with_sections a x) ++ post) d drv f = Ret (finalized, accept f).
Proof.
  intros Hdrv. pose proof feature_len_ok as (Hfl & Hn & H64). pose proof Hx as (_ & _ & Hi & Ho & _).
  unfold vop_finalize_features. rewrite get_feature_len, vq_features_ok by done. run_bind.
  cbn [ds_feature_len ds_num_vq with_sections].
  rewrite transport_ok. run_bind. rewrite net_ok by done. run_bind. rewrite page_same_out, page_out.
  rewrite <- zlen_before_out, <- Ho, afill_mid. run_bind. rewrite Ho.
  rewrite put_bits_zeros; [|done|unfold zlen in Ho; lia|lia]. run_bind.
  unfold finalized, accepted_bytes. rewrite page_out, Z2Nat.id by lia.
  by replace (Z.to_nat (ds_feature_len a)) with (length (x_out x)) by (unfold zlen in Ho; lia).
Qed.

Lemma accepted_ok : Forall byte accepted_bytes /\ zlen accepted_bytes = ds_feature_len a
  /\ le accepted_bytes = accept f mod 2 ^ n.
Proof.
  pose proof feature_len_ok as (Hfl & Hn & _). split; [|split].
  - unfold accepted_bytes. generalize (accept f mod 2 ^ n).
    induction (Z.to_nat (ds_feature_len a)); intros z; [constructor|].
    cbn. constructor; [unfold byte; apply Z.mod_pos_bound; lia|done].
  - unfold zlen, accepted_bytes. rewrite length_le_bytes. lia.
  - unfold accepted_bytes. rewrite le_le_bytes, Z2Nat.id by done. apply Z.mod_small.
    pose proof (Z.mod_pos_bound (accept f) (2 ^ n)). pose proof (Z.pow_pos_nonneg 2 n).
    change 256 with (2 ^ 8). rewrite <- Z.pow_mul_r by lia.
    pose proof (Z.pow_le_mono_r 2 n (8 * ds_feature_len a)). lia.
Qed.

Lemma finalized_out :
  finalized = (front pre a x ++ x_in x) ++ accepted_bytes ++ (x_config x ++ x_pad x ++ post)
  /\ vca_vq_features finalized d = Ret (d + 8 + ds_num_vq a * 16)
  /\ aget finalized (d + d_feature_len) = Ret (ds_feature_len a).
Proof.
  split; [apply page_out|]. split; [by apply (vq_features_ok pre post (with_sections a (set_out x accepted_bytes)))|].
  by apply (get_feature_len pre post (with_sections a (set_out x accepted_bytes))).
Qed.

(** C20. The features of a device are the bits of its first bitmap; the features
    that its driver accepts are cut down to those that go together and written to the
    second bitmap, where the other side reads exactly them; nothing else of the page
    changes. *)
Theorem vop_features_roundtrip :
  Forall byte (x_in x) -> net_driver drv ->
  vop_get_features (pre ++ desc_bytes (with_sections a x) ++ post) d = Ret (le (x_in x) mod 2 ^ n)
  /\ vop_finalize_features (pre ++ desc_bytes (with_sections a x) ++ post) d drv f = Ret (finalized, accept f)
  /\ (vf ← vca_vq_features finalized d; get_bits (Z.to_nat n) finalized (vf + ds_feature_len a) 0 0)
     = Ret (accept f mod 2 ^ n).
Proof.
  intros Hin Hdrv. split; [by apply get_features_ok|]. split; [by apply finalize_features_ok|].
  pose proof feature_len_ok as (Hfl & Hn & _). destruct finalized_out as (Ef & -> & _). run_bind.
  destruct accepted_ok as (Hb & Hz & Hle). rewrite Ef, get_bits_le.
  - rewrite Hle, Z2Nat.id, Z.mod_mod by (try apply Z.pow_nonzero; lia). done.
  - by rewrite zlen_before_out.
  - done.
  - rewrite Hz. lia.
Qed.
End Features.

(** The configuration with [buf] at [offset]. *)
Definition config_write (c : list Z) (offset : Z) (buf : list Z) : list Z :=
  take (Z.to_nat offset) c ++ buf ++ drop (Z.to_nat (offset + zlen buf)) c.

Lemma list_three (c : list Z) i n :
  0 <= i -> 0 <= n -> i + n <= zlen c ->
  exists l m r, c = l ++ m ++ r /\ zlen l = i /\ zlen m = n
    /\ l = take (Z.to_nat i) c /\ r = drop (Z.to_nat (i + n)) c.
Proof.
  unfold zlen. intros Hi Hn Hc.
  exists (take (Z.to_nat i) c), (take (Z.to_nat n) (drop (Z.to_nat i) c)), (drop (Z.to_nat (i + n)) c).
  repeat split.
  - rewrite <- (take_drop (Z.to_nat i) c) at 1. f_equal.
    rewrite <- (take_drop (Z.to_nat n) (drop (Z.to_nat i) c)) at 1. f_equal. rewrite drop_drop. f_equal. lia.
  - rewrite length_take. lia.
  - rewrite length_take, length_drop. lia.
Qed.

(** Reading and writing the configuration of a device: an access inside it reads
    what was written last and changes nothing else of the page, an access that leaves it
    is ignored. *)
Theorem vop_config_roundtrip pre post a x d offset buf :
  sections_ok a x -> d = zlen pre -> 0 <= offset -> offset + zlen buf < 2 ^ 32 ->
  let p := pre ++ desc_bytes (with_sections a x) ++ post in
  let y := set_config x (config_write (x_config x) offset buf) in
  let p' := pre ++ desc_bytes (with_sections a y) ++ post in
  if offset + zlen buf <=? ds_config_len a
  then vop_set p d offset buf = Ret p' /\ vop_get p' d offset (zlen buf) = Ret (Some buf)
       /\ sections_ok a y
  else vop_set p d offset buf = Ret p /\ vop_get p d offset (zlen buf) = Ret None.
Proof.
  intros Hx Hd Hoff Hwrap p y p'. pose proof Hx as (Ha & Hq & Hi & Ho & Hc). pose proof (zlen_nonneg buf).
  assert (forall z, aget (pre ++ desc_bytes (with_sections a z) ++ post) (d + d_config_len) = Ret (ds_config_len a)) as Hlen.
  { intros z. by apply (get_config_len pre post (with_sections a z)). }
  unfold vop_set, vop_get, p, p'. rewrite !Hlen. run_bind. rewrite u32_small by lia.
  destruct (Z.leb_spec (offset + zlen buf) (ds_config_len a)) as [Hin|Hout]; [|by if_true].
  if_false. rewrite !vq_configspace_ok by done. run_bind. cbn [ds_feature_len ds_num_vq with_sections].
  destruct (list_three (x_config x) offset (zlen buf)) as (l & m & r & Ec & Hl & Hm & El & Er); [done..|lia|].
  assert (zlen (front pre a x ++ x_in x ++ x_out x) = d + 8 + ds_num_vq a * 16 + ds_feature_len a * 2) as Hzc.
  { rewrite !zlen_app. rewrite zlen_front with (d := d) by done. lia. }
  assert (Hy : config_write (x_config x) offset buf = l ++ buf ++ r) by (unfold config_write; by rewrite <- El, <- Er).
  unfold y. rewrite Hy. rewrite page_same_config at 1. rewrite !page_config, Ec at 1.
  assert (forall u : list Z, (front pre a x ++ x_in x ++ x_out x) ++ (l ++ u ++ r) ++ x_pad x ++ post
    = ((front pre a x ++ x_in x ++ x_out x) ++ l) ++ u ++ (r ++ x_pad x ++ post)) as Hsp.
  { intros u. by rewrite <- !app_assoc. }
  rewrite !Hsp. split; [|split].
  - apply poke_mid; [rewrite zlen_app; lia|done].
  - rewrite peek_mid; [done|rewrite zlen_app; lia|done].
  - split; [done|]. repeat split; try done. cbn. rewrite <- Hc, Ec. autorewrite with zlen. lia.
Qed.

(** The check of the bounds is made in 32 bits: an access whose end wraps around
    passes it and leaves the page. *)
Theorem vop_get_wraps p pre post a x d offset len :
  zlen p = VCA_DP_SIZE -> p = pre ++ desc_bytes (with_sections a x) ++ post -> d = zlen pre ->
  sections_ok a x -> VCA_DP_SIZE <= offset < 2 ^ 32 -> 0 <= len -> offset + len = 2 ^ 32 ->
  vop_get p d offset len = Oob.
Proof.
  intros Hp -> Hd Hx Hoff Hlen Hw. unfold vop_get. rewrite get_config_len by done. run_bind.
  rewrite Hw. change (u32 (2 ^ 32)) with 0. cbn [ds_config_len with_sections].
  assert (0 <= ds_config_len a /\ 0 <= ds_num_vq a /\ 0 <= ds_feature_len a) as (? & ? & ?) by (repeat split; apply Hx).
  if_false. rewrite vq_configspace_ok by done. run_bind. unfold peek. rewrite Hp. cbn [ds_num_vq ds_feature_len with_sections].
  pose proof (zlen_nonneg pre).
  rewrite (proj2 (Z.leb_gt (_ + len) VCA_DP_SIZE)) by lia. by rewrite andb_false_r.
Qed.

(** ** Lemmas: control blocks

    A control block is its 40 bytes. *)
Definition ctrl_set (c : list Z) (k v : Z) : list Z := <[Z.to_nat k := v]> c.

(** The block that the host makes. *)
Definition ctrl_init (c : list Z) : list Z :=
  let c := foldl (fun c k => ctrl_set c k 0) c
    [dc_config_change; dc_guest_ack; dc_vdev_reset; dc_host_ack; dc_used_address_updated] in
  foldl (fun c k => ctrl_set c k 255) c
    [dc_c2h_vdev_conf_db; dc_c2h_vdev_avail_db; dc_c2h_vdev_used_db;
     dc_h2c_vdev_conf_db; dc_h2c_vdev_avail_db; dc_h2c_vdev_used_db].

Lemma aset_at pre c post d k v :
  d = zlen pre -> 0 <= k < zlen c ->
  aset (pre ++ c ++ post) (d + k) v = Ret (pre ++ ctrl_set c k v ++ post).
Proof.
  intros -> Hk. pose proof (zlen_nonneg pre). pose proof (zlen_nonneg post).
  rewrite aset_ret by (autorewrite with zlen; lia). f_equal. unfold ctrl_set.
  replace (Z.to_nat (zlen pre + k)) with (length pre + Z.to_nat k)%nat by (unfold zlen; lia).
  rewrite insert_app_r, insert_app_l by (unfold zlen in Hk; lia). done.
Qed.

Lemma zlen_ctrl_set c k v : zlen (ctrl_set c k v) = zlen c.
Proof. apply zlen_insert. Qed.

Lemma init_device_ctrl_ok pre c post d :
  d = zlen pre -> zlen c = sizeof_vca_device_ctrl ->
  vop_init_device_ctrl (pre ++ c ++ post) d = Ret (pre ++ ctrl_init c ++ post).
Proof.
  intros Hd Hc. unfold vop_init_device_ctrl, ctrl_init, sizeof_vca_device_ctrl in *. cbn [foldl].
  repeat (rewrite (aset_at _ _ _ d) by (done || (rewrite ?zlen_ctrl_set, Hc; by vm_compute)); run_bind).
  done.
Qed.

(** ** Lemmas: a slot in the page *)
Definition with_type (s : slot) (t : Z) : slot :=
  let a := s_desc s in
  mkSlot (mkDesc t (ds_num_vq a) (ds_feature_len a) (ds_config_len a) (ds_body a)) (s_ctrl s) (s_host_desc s) (s_host_ctrl s).
Definition with_ctrl (s : slot) (c : list Z) : slot := mkSlot (s_desc s) c (s_host_desc s) (s_host_ctrl s).
Definition with_host_ctrl (s : slot) (c : list Z) : slot := mkSlot (s_desc s) (s_ctrl s) (s_host_desc s) c.

Definition ctrl_write (c : list Z) (k : Z) (bs : list Z) : list Z :=
  take (Z.to_nat k) c ++ bs ++ drop (Z.to_nat (k + zlen bs)) c.

Lemma zlen_ctrl_write c k bs : 0 <= k -> k + zlen bs <= zlen c -> zlen (ctrl_write c k bs) = zlen c.
Proof. unfold ctrl_write, zlen. rewrite !length_app, length_take, length_drop. lia. Qed.

Lemma peek_at pre c post d k n :
  d = zlen pre -> 0 <= k -> 0 <= n -> k + n <= zlen c -> peek (pre ++ c ++ post) (d + k) n = peek c k n.
Proof.
  intros -> Hk Hn Hc. destruct (list_three c k n) as (l & m & r & -> & Hl & Hm & _); [done..|].
  rewrite (peek_mid l m r) by done. rewrite <- !app_assoc. rewrite (app_assoc pre l).
  rewrite peek_mid; [done|rewrite zlen_app; lia|done].
Qed.

Lemma poke_at pre c post d k bs :
  d = zlen pre -> 0 <= k -> k + zlen bs <= zlen c ->
  poke (pre ++ c ++ post) (d + k) bs = Ret (pre ++ ctrl_write c k bs ++ post).
Proof.
  intros -> Hk Hc. pose proof (zlen_nonneg bs).
  destruct (list_three c k (zlen bs)) as (l & m & r & Ec & Hl & Hm & El & Er); [done..|].
  unfold ctrl_write. rewrite <- El, <- Er, Ec. rewrite <- !app_assoc. rewrite !(app_assoc pre l).
  apply poke_mid; [rewrite zlen_app; lia|done].
Qed.

Section Slot.
Context (pre post : list Z) (d : Z) (Hd : d = zlen pre).
Implicit Types s : slot.
Notation page s := (pre ++ slot_bytes s ++ post).
Notation size s := (aligned_size (s_desc s)).

Lemma slot_header s : slot_ok s -> header_ok (s_desc s).
Proof. by intros [? _]. Qed.

Lemma slot_type s : aget (page s) (d + d_type) = Ret (ds_type (s_desc s)).
Proof. rewrite slot_split. by apply get_type. Qed.
Lemma slot_num_vq s : aget (page s) (d + d_num_vq) = Ret (ds_num_vq (s_desc s)).
Proof. rewrite slot_split. by apply get_num_vq. Qed.
Lemma slot_set_type s t : aset (page s) (d + d_type) t = Ret (page (with_type s t)).
Proof. rewrite !slot_split. by apply aset_type. Qed.
Lemma slot_aligned s : slot_ok s -> vca_aligned_desc_size (page s) d = Ret (size s).
Proof. intros Hs. rewrite slot_split. apply aligned_desc_size_ok; [by apply slot_header|done]. Qed.
Lemma slot_total s : slot_ok s -> vca_total_desc_size (page s) d = Ret (slot_size s).
Proof. intros Hs. rewrite slot_split. apply total_desc_size_ok; [by apply slot_header|done]. Qed.
Lemma slot_host_desc s : slot_ok s ->
  vca_host_device_desc (page s) d = Ret (d + (size s + sizeof_vca_device_ctrl)).
Proof. intros Hs. rewrite slot_split. apply host_device_desc_ok; [by apply slot_header|done]. Qed.

(** The page around the two control blocks. *)
Lemma page_ctrl s c : page (with_ctrl s c)
  = (pre ++ desc_bytes (s_desc s)) ++ c ++ (desc_bytes (s_host_desc s) ++ s_host_ctrl s ++ post).
Proof. unfold slot_bytes. cbn [with_ctrl with_host_ctrl s_desc s_ctrl s_host_desc s_host_ctrl]. by rewrite <- !app_assoc. Qed.
Lemma page_host_ctrl s c : page (with_host_ctrl s c)
  = (pre ++ desc_bytes (s_desc s) ++ s_ctrl s ++ desc_bytes (s_host_desc s)) ++ c ++ post.
Proof. unfold slot_bytes. cbn [with_ctrl with_host_ctrl s_desc s_ctrl s_host_desc s_host_ctrl]. by rewrite <- !app_assoc. Qed.
Lemma ctrl_place s : slot_ok s -> d + size s = zlen (pre ++ desc_bytes (s_desc s)).
Proof. intros (_ & _ & _ & H1 & _). rewrite zlen_app, zlen_desc_bytes. lia. Qed.
Lemma host_ctrl_place s : slot_ok s -> d + (size s + sizeof_vca_device_ctrl) + size s
  = zlen (pre ++ desc_bytes (s_desc s) ++ s_ctrl s ++ desc_bytes (s_host_desc s)).
Proof.
  intros (_ & _ & _ & H1 & H2 & H3 & H4). rewrite !zlen_app, !zlen_desc_bytes. lia.
Qed.

Lemma slot_ctrl_same s : s = with_ctrl s (s_ctrl s).
Proof. by destruct s. Qed.
Lemma slot_host_ctrl_same s : s = with_host_ctrl s (s_host_ctrl s).
Proof. by destruct s. Qed.

Lemma ctrl_get s k : slot_ok s -> 0 <= k < 40 -> aget (page s) (d + size s + k) = aget (s_ctrl s) k.
Proof.
  intros Hs Hk. pose proof Hs as (_ & _ & _ & _ & Hc & _). rewrite (slot_ctrl_same s) at 1. rewrite page_ctrl.
  rewrite (aget_at _ _ _ k) by (try rewrite ctrl_place; done || lia). apply aget_front. rewrite Hc. done.
Qed.
Lemma ctrl_put s k v : slot_ok s -> 0 <= k < 40 ->
  aset (page s) (d + size s + k) v = Ret (page (with_ctrl s (ctrl_set (s_ctrl s) k v))).
Proof.
  intros Hs Hk. pose proof Hs as (_ & _ & _ & _ & Hc & _). rewrite (slot_ctrl_same s) at 1. rewrite !page_ctrl.
  apply aset_at; [by apply ctrl_place|by rewrite Hc].
Qed.
Lemma ctrl_peek s k n : slot_ok s -> 0 <= k -> 0 <= n -> k + n <= 40 ->
  peek (page s) (d + size s + k) n = peek (s_ctrl s) k n.
Proof.
  intros Hs Hk Hn Hl. pose proof Hs as (_ & _ & _ & _ & Hc & _). rewrite (slot_ctrl_same s) at 1. rewrite page_ctrl.
  apply peek_at; [by apply ctrl_place|done|done|by rewrite Hc].
Qed.
Lemma ctrl_poke s k bs : slot_ok s -> 0 <= k -> k + zlen bs <= 40 ->
  poke (page s) (d + size s + k) bs = Ret (page (with_ctrl s (ctrl_write (s_ctrl s) k bs))).
Proof.
  intros Hs Hk Hl. pose proof Hs as (_ & _ & _ & _ & Hc & _). rewrite (slot_ctrl_same s) at 1. rewrite !page_ctrl.
  apply poke_at; [by apply ctrl_place|done|by rewrite Hc].
Qed.
Lemma host_ctrl_get s k : slot_ok s -> 0 <= k < 40 ->
  aget (page s) (d + (size s + sizeof_vca_device_ctrl) + size s + k) = aget (s_host_ctrl s) k.
Proof.
  intros Hs Hk. pose proof Hs as (_ & _ & _ & _ & _ & _ & Hc). rewrite (slot_host_ctrl_same s) at 1. rewrite page_host_ctrl.
  rewrite (aget_at _ _ _ k) by (try rewrite host_ctrl_place; done || lia). apply aget_front. rewrite Hc. done.
Qed.
Lemma host_ctrl_poke s k bs : slot_ok s -> 0 <= k -> k + zlen bs <= 40 ->
  poke (page s) (d + (size s + sizeof_vca_device_ctrl) + size s + k) bs
  = Ret (page (with_host_ctrl s (ctrl_write (s_host_ctrl s) k bs))).
Proof.
  intros Hs Hk Hl. pose proof Hs as (_ & _ & _ & _ & _ & _ & Hc). rewrite (slot_host_ctrl_same s) at 1. rewrite !page_host_ctrl.
  apply poke_at; [by apply host_ctrl_place|done|by rewrite Hc].
Qed.
Lemma ctrl_init_at s : slot_ok s ->
  vop_init_device_ctrl (page s) (d + size s) = Ret (page (with_ctrl s (ctrl_init (s_ctrl s)))).
Proof.
  intros Hs. pose proof Hs as (_ & _ & _ & _ & Hc & _). rewrite (slot_ctrl_same s) at 1. rewrite !page_ctrl.
  apply init_device_ctrl_ok; [by apply ctrl_place|done].
Qed.
Lemma host_ctrl_init_at s : slot_ok s ->
  vop_init_device_ctrl (page s) (d + (size s + sizeof_vca_device_ctrl) + size s)
  = Ret (page (with_host_ctrl s (ctrl_init (s_host_ctrl s)))).
Proof.
  intros Hs. pose proof Hs as (_ & _ & _ & _ & _ & _ & Hc). rewrite (slot_host_ctrl_same s) at 1. rewrite !page_host_ctrl.
  apply init_device_ctrl_ok; [by apply host_ctrl_place|done].
Qed.

(** The number of entries of a queue. *)
Lemma slot_queue_num s i : slot_ok s -> 0 <= i < ds_num_vq (s_desc s) ->
  vqconfig_num (page s) d i = Ret (queue_num (s_desc s) i).
Proof.
  intros (Ha & _ & _ & Hb & _) Hi. pose proof (size_bounds _ Ha) as [_ Hal]. rewrite slot_split.
  unfold vqconfig_num, vca_vq_config, sizeof_vca_device_desc, sizeof_vca_vqconfig, vqc_num.
  replace (d + 8 + i * 16 + 8) with (d + (16 + 16 * i)) by lia. unfold desc_size, sizeof_vca_device_desc, sizeof_vca_vqconfig in Hal.
  destruct Ha as (_ & _ & Hf & Hc). unfold byte in *.
  assert (16 + 16 * i + 2 <= zlen (desc_bytes (s_desc s))) as Hle by (rewrite zlen_desc_bytes; lia).
  rewrite peek_at by (done || lia). unfold peek. if_true. run_bind. unfold queue_num, desc_bytes.
  replace (Z.to_nat (16 + 16 * i)) with (4 + Z.to_nat (12 + 16 * i))%nat by lia. done.
Qed.
End Slot.

(** Changing a slot keeps it a slot of its size. *)
Lemma with_type_ok s t : slot_ok s -> byte t -> slot_ok (with_type s t) /\ slot_size (with_type s t) = slot_size s.
Proof. intros ((? & ? & ? & ?) & ? & ? & ?) Ht. split; [|done]. split; [by split|done]. Qed.
Lemma with_ctrl_ok s c : slot_ok s -> zlen c = zlen (s_ctrl s) -> slot_ok (with_ctrl s c) /\ slot_size (with_ctrl s c) = slot_size s.
Proof. intros (H1 & H2 & H3 & H4 & H5 & H6 & H7) Hc. split; [|done]. repeat split; try done; cbn; try apply H1; try apply H2; try apply H3; congruence. Qed.
Lemma with_host_ctrl_ok s c : slot_ok s -> zlen c = zlen (s_host_ctrl s) -> slot_ok (with_host_ctrl s c) /\ slot_size (with_host_ctrl s c) = slot_size s.
Proof. intros (H1 & H2 & H3 & H4 & H5 & H6 & H7) Hc. split; [|done]. repeat split; try done; cbn; try apply H1; try apply H2; try apply H3; congruence. Qed.

(** ** A concrete page

    A network device with two queues of 256 entries, 8 bytes of features and 6 bytes of
    configuration. *)
Definition demo_queue : list Z := replicate 8 0 ++ [0; 1] ++ replicate 6 0.
Definition demo_sections (pad : nat) : sections :=
  mkSections (replicate 4 0 ++ demo_queue ++ demo_queue)
    [0xa0; 0x80; 0x01; 0x01; 0x50; 0; 0; 0] (replicate 8 0) (replicate 6 0) (replicate pad 0).
Definition demo_arg : desc := with_sections (mkDesc 1 2 8 6 []) (demo_sections 0).
Definition demo_slot (type : Z) : slot :=
  let d t := with_sections (mkDesc t 2 8 6 []) (demo_sections 2) in
  mkSlot (d type) (replicate 40 0) (d 1) (replicate 40 0).
Definition demo_boot : list Z := replicate 184 0.
Definition demo_page (l : list slot) : list Z :=
  page_bytes demo_boot l (Z.to_nat (VCA_DP_SIZE - sizeof_vca_bootparam - slots_size l)).
Definition demo_driver : driver := mkDriver [5; 7; 8; 9; 15; 24] None.

Lemma demo_slot_ok type : byte type -> slot_ok (demo_slot type).
Proof. intros Ht. unfold byte in Ht. repeat split; cbn; try lia; done. Qed.

Lemma demo_dp l : Forall slot_ok l -> slots_size l <= VCA_DP_SIZE - sizeof_vca_bootparam -> dp_rep demo_boot (demo_page l) l.
Proof.
  intros Hl Hs. split; [done|]. split; [|split; [done|by eexists]].
  pose proof (slots_bytes_ok _ Hl) as [Hz ?]. unfold demo_page, page_bytes, VCA_DP_SIZE, sizeof_vca_bootparam in *.
  rewrite !zlen_app, Hz, zlen_replicate. change (zlen demo_boot) with 184. pose proof (zlen_nonneg l). lia.
Qed.

Lemma demo_slots_ok : Forall slot_ok [demo_slot 1; demo_slot 255; demo_slot 1].
Proof. repeat constructor; cbn; unfold byte; try lia; done. Qed.

Lemma vop_copy_dp_entry_correct_witness :
  exists p', vop_copy_dp_entry (demo_page [demo_slot 1; demo_slot 255; demo_slot 1]) (desc_bytes demo_arg)
    = Ret (mkCopied p' (desc_bytes (untyped demo_arg)) 0 (Some (1, 392)))
  /\ dp_rep demo_boot p' [demo_slot 1; demo_slot 0; demo_slot 1].
Proof.
  apply (vop_copy_dp_entry_correct demo_boot (demo_page [demo_slot 1; demo_slot 255; demo_slot 1])
           [demo_slot 1; demo_slot 255; demo_slot 1] demo_arg).
  - apply demo_dp; [apply demo_slots_ok|by vm_compute].
  - repeat split; cbn; lia || done.
  - repeat split; by vm_compute.
  - apply reusable_all. intros s Hs Hu. repeat (apply elem_of_cons in Hs as [->|Hs]; [done|]). by apply elem_of_nil in Hs.
Defined.

(** Without that hypothesis: a descriptor of four queues takes the place of a removed one of two, and the entry behind it,
    of a device in use, is overwritten. *)
Definition demo_big : desc := mkDesc 1 4 8 6 (replicate 90 0).
Theorem vop_copy_dp_entry_overwrites :
  let p := demo_page [demo_slot 255; demo_slot 1] in
  aget p (392 + d_type) = Ret 1
  /\ exists p', vop_copy_dp_entry p (desc_bytes demo_big) = Ret (mkCopied p' (desc_bytes (untyped demo_big)) 0 (Some (1, 184)))
     /\ aget p' (392 + d_type) = Ret 0.
Proof. split; [by vm_compute|]. eexists. split; [by vm_compute|]. by vm_compute. Qed.

Lemma vop_features_roundtrip_witness :
  let a := mkDesc 1 2 8 6 [] in
  vop_get_features (demo_boot ++ desc_bytes (with_sections a (demo_sections 2)) ++ []) 184 = Ret 0x50010180a0
  /\ vop_finalize_features (demo_boot ++ desc_bytes (with_sections a (demo_sections 2)) ++ []) 184 demo_driver 0x410180a0
     = Ret (demo_boot ++ desc_bytes (with_sections a (set_out (demo_sections 2) [0xa0; 0x80; 0x01; 0x40; 0; 0; 0; 0])) ++ [], 0x400180a0).
Proof.
  destruct (vop_features_roundtrip demo_boot [] (mkDesc 1 2 8 6 []) (demo_sections 2) 184 demo_driver 0x410180a0)
    as (H1 & H2 & _).
  - repeat split; cbn; lia || done.
  - done.
  - repeat constructor; unfold byte; lia.
  - by repeat split; vm_compute.
  - split; [exact H1|exact H2].
Defined.

Lemma vop_config_roundtrip_witness :
  let a := mkDesc 1 2 8 6 [] in
  let p' := demo_boot ++ desc_bytes (with_sections a (set_config (demo_sections 2) [0; 0; 7; 9; 0; 0])) ++ [] in
  vop_set (demo_boot ++ desc_bytes (with_sections a (demo_sections 2)) ++ []) 184 2 [7; 9] = Ret p'
  /\ vop_get p' 184 2 2 = Ret (Some [7; 9]).
Proof.
  destruct (vop_config_roundtrip demo_boot [] (mkDesc 1 2 8 6 []) (demo_sections 2) 184 2 [7; 9])
    as (H1 & H2 & _); [by repeat split; vm_compute|done|done|done|]. split; [exact H1|exact H2].
Defined.

Lemma vop_get_wraps_witness :
  vop_get (demo_page [demo_slot 1]) 184 (2 ^ 32 - 1) 1 = Oob.
Proof.
  apply (vop_get_wraps _ demo_boot
    (drop (length demo_boot + length (desc_bytes (s_desc (demo_slot 1)))) (demo_page [demo_slot 1]))
    (mkDesc 1 2 8 6 []) (demo_sections 2)); [by vm_compute|by vm_compute|done|by repeat split; vm_compute|done|done|done].
Defined.


End DevPage.
