(* ===== verification/VopLife.v ===== *)
(** * Starting and stopping a device of the network transport (vop_common.c)

    Two parts.  [Ring] is the ring of buffers: what [buffer_dma_ring_init] takes from
    the kernel, and that [buffer_dma_ring_deinit] gives it back.  Rings are objects in a
    heap, so that a pointer to a freed ring is a key that is not there.  [Life] is the
    life of a device: the task that initialises it, its three threads, and the caller
    of [common_dev_stop], as a machine whose steps are what each of them does between
    two points where another can run.

    How a packet moves through the ring is the subject of [VopXfer]; here an item is
    what it holds: mappings, a buffer, a transaction. *)

From stdpp Require Import base list gmap option tactics.
From Stdlib Require Import ZArith Lia.
From S2P Require Import Prelude DevPage.

Module VopLife.

Definition VOP_RING_SIZE := 512.
Definition VOP_DEV_READY_STATE_STOP := 0.
Definition VOP_DEV_READY_STATE_STARTING := 1.
Definition VOP_DEV_READY_STATE_WORK := 2.

(** ** The ring of buffers *)

(** What is taken from the kernel: the ring, the array of its items, the buffer of an item,
    the DMA mapping of that buffer, the window to the peer and the DMA mapping of the
    data of a transfer. *)
Inductive res :=
| RRing (p : nat)
| RItems (p : nat)
| RBuf (p i : nat)
| RBufDma (p i : nat)
| RWindow (p i : nat)
| RDataDma (p i : nat).
#[global] Instance res_eq_dec : EqDecision res.
Proof. solve_decision. Defined.

Record buffer_dma_item := mkItem {
  status_ready : bool;
  buf : bool;
  buf_da : bool;
  remapped : bool;
  src_phys_da : bool;
  tx : bool;
}.

(** [items = None]: the pointer is [NULL]. *)
Record buffers_dma_ring := mkRing { items : option (list buffer_dma_item) }.

(** The heap, the next address, and what is held. *)
Record mem := mkMem {
  rings : gmap nat buffers_dma_ring;
  next : nat;
  held : list res;
}.

Definition set_rings (m : mem) r := mkMem r (next m) (held m).
Definition take_res (m : mem) (r : res) : mem := mkMem (rings m) (next m) (r :: held m).

(** Giving back what is not held is the error that [Oob] stands for. *)
Definition give (m : mem) (r : res) : outcome mem :=
  if decide (r ∈ held m) then Ret (mkMem (rings m) (next m) (release r (held m))) else Oob.
Definition give_if (b : bool) (m : mem) (r : res) : outcome mem := if b then give m r else Ret m.

(** [*p]. *)
Definition deref (m : mem) (p : nat) : outcome buffers_dma_ring :=
  match rings m !! p with Some r => Ret r | None => Oob end.
Definition set_items (m : mem) (p : nat) (l : option (list buffer_dma_item)) : mem :=
  set_rings m (<[p := mkRing l]> (rings m)).

(** The answers of the kernel: both [kzalloc], the pages and the mapping of each item. *)
Record renv := mkRenv {
  ring_ok : bool;
  items_ok : bool;
  pages_ok : nat -> bool;
  mapping_error : nat -> Z;
}.

Definition no_item : buffer_dma_item := mkItem false false false false false false.

(** On item [i] of ring [p]. *)
Definition buffer_dma_ring_item_reset (m : mem) (p i : nat) (it : buffer_dma_item) : outcome (mem * buffer_dma_item) :=
  m ← give_if (remapped it) m (RWindow p i);
  m ← give_if (src_phys_da it) m (RDataDma p i);
  Ret (m, mkItem true (buf it) (buf_da it) false false false).

Fixpoint deinit_loop (m : mem) (p i : nat) (l : list buffer_dma_item) : outcome mem :=
  match l with
  | [] => Ret m
  | it :: l =>
      '(m, it) ← buffer_dma_ring_item_reset m p i it;
      m ← give_if (buf_da it) m (RBufDma p i);
      m ← give_if (buf it) m (RBuf p i);
      deinit_loop m p (S i) l
  end.

Definition buffer_dma_ring_deinit (m : mem) (ring : option nat) : outcome mem :=
  match ring with
  | None => Ret m
  | Some p =>
      r ← deref m p;
      m ← (match items r with
           | None => Ret m
           | Some l =>
               m ← deinit_loop m p 0 l;
               m ← give m (RItems p);
               Ret (set_items m p None)
           end);
      m ← give m (RRing p);
      Ret (set_rings m (delete p (rings m)))
  end.

(** The buffers of the items from [i] on: the items afterwards, or the error. *)
Fixpoint alloc_loop (e : renv) (m : mem) (p i : nat) (l : list buffer_dma_item)
  : mem * list buffer_dma_item * Z :=
  match l with
  | [] => (m, [], 0)
  | it :: l =>
      if buf it then let '(m, l, err) := alloc_loop e m p (S i) l in (m, it :: l, err)
      else if negb (pages_ok e i) then (m, it :: l, - ENOMEM)
      else
        let m := take_res m (RBuf p i) in
        let it := mkItem (status_ready it) true (buf_da it) (remapped it) (src_phys_da it) (tx it) in
        if negb (mapping_error e i =? 0) then
          (m, mkItem (status_ready it) true false (remapped it) (src_phys_da it) (tx it) :: l, mapping_error e i)
        else
          let m := take_res m (RBufDma p i) in
          let it := mkItem (status_ready it) true true (remapped it) (src_phys_da it) (tx it) in
          let '(m, l, err) := alloc_loop e m p (S i) l in (m, it :: l, err)
  end.

(** [cdev->buffers_ring] is [ring]; the memory, the pointer afterwards and the result. *)
Definition buffer_dma_ring_items_alloc (e : renv) (m : mem) (ring : option nat) : outcome (mem * option nat * Z) :=
  match ring with
  | None => Bug
  | Some p =>
      r ← deref m p;
      match items r with
      | None => Oob
      | Some l =>
          let '(m, l, err) := alloc_loop e m p 0 l in
          let m := set_items m p (Some l) in
          if err =? 0 then Ret (m, ring, 0)
          else m ← buffer_dma_ring_deinit m ring; Ret (m, None, err)
      end
  end.

(** The result is the memory, [cdev->buffers_ring] and the value returned. *)
Definition buffer_dma_ring_init (e : renv) (feature_desc_alignment : bool) (m : mem) : outcome (mem * option nat * Z) :=
  if negb (ring_ok e) then
    m ← buffer_dma_ring_deinit m None; Ret (m, None, - ENOMEM)
  else
    let p := next m in
    let m := mkMem (<[p := mkRing None]> (rings m)) (S p) (RRing p :: held m) in
    if negb (items_ok e) then
      m ← buffer_dma_ring_deinit m (Some p); Ret (m, None, - ENOMEM)
    else
      let it := mkItem true false false false false false in
      let m := set_items (take_res m (RItems p)) p (Some (replicate (Z.to_nat VOP_RING_SIZE) it)) in
      if feature_desc_alignment then Ret (m, Some p, 0)
      else
        '(m, ring, err) ← buffer_dma_ring_items_alloc e m (Some p);
        if err =? 0 then Ret (m, ring, 0)
        else
          _ ← deref m p;
          m ← buffer_dma_ring_deinit m (Some p);
          Ret (m, None, err).

(** *** The transfer mode *)

(** [VOP_CHECK_FEATURE] on the bitmap at [features]. *)
Definition VOP_CHECK_FEATURE (dp : list Z) (features bits test_bit : Z) : outcome bool :=
  if test_bit <? bits then
    b ← aget dp (features + test_bit / 8);
    Ret (testflag b (Z.shiftl 1 (test_bit mod 8)))
  else Ret false.

(** [feature_desc_alignment] and [write_in_thread]; [desc_peer] is the descriptor of
    the other side in the page. *)
Definition common_dev_init_mode (dp : list Z) (desc_peer : Z) : outcome (bool * bool) :=
  vf ← DevPage.vca_vq_features dp desc_peer;
  feature_len ← aget dp (desc_peer + DevPage.d_feature_len);
  align ← VOP_CHECK_FEATURE dp (vf + feature_len) (Z.min feature_len 8 * 8) DevPage.VIRTIO_NET_F_OFFSET_RXBUF;
  Ret (align, negb align).

(** *** Lemmas: what a ring holds *)

Ltac step := run_bind; cbn [rings next held buf buf_da].

Definition when (b : bool) (r : res) : list res := if b then [r] else [].

Definition item_res (p i : nat) (it : buffer_dma_item) : list res :=
  when (remapped it) (RWindow p i) ++ when (src_phys_da it) (RDataDma p i)
  ++ when (buf_da it) (RBufDma p i) ++ when (buf it) (RBuf p i).
Fixpoint items_res (p i : nat) (l : list buffer_dma_item) : list res :=
  match l with
  | [] => []
  | it :: l => item_res p i it ++ items_res p (S i) l
  end.

(** The ring at [p], with items [l], holds its share of what is held. *)
Definition owns (m : mem) (p : nat) (l : list buffer_dma_item) (rest : list res) : Prop :=
  rings m !! p = Some (mkRing (Some l)) /\ held m ≡ₚ RRing p :: RItems p :: items_res p 0 l ++ rest.

Lemma give_ok m r rest :
  held m ≡ₚ r :: rest ->
  exists h, give m r = Ret (mkMem (rings m) (next m) h) /\ h ≡ₚ rest.
Proof.
  intros Hh. unfold give. rewrite decide_True by (rewrite Hh; left).
  eexists. split; [done|]. by apply release_held.
Qed.

Lemma give_if_ok b m r rest :
  held m ≡ₚ when b r ++ rest ->
  exists h, give_if b m r = Ret (mkMem (rings m) (next m) h) /\ h ≡ₚ rest.
Proof. destruct b; cbn; [apply give_ok|]. intros Hh. exists (held m). by destruct m. Qed.

Lemma ring_item_reset_ok m p i it rest :
  held m ≡ₚ item_res p i it ++ rest ->
  exists h, buffer_dma_ring_item_reset m p i it
    = Ret (mkMem (rings m) (next m) h, mkItem true (buf it) (buf_da it) false false false)
  /\ h ≡ₚ when (buf_da it) (RBufDma p i) ++ when (buf it) (RBuf p i) ++ rest.
Proof.
  unfold item_res, buffer_dma_ring_item_reset. rewrite <- !app_assoc. intros Hh.
  destruct (give_if_ok _ _ _ _ Hh) as (h1 & -> & H1). step.
  destruct (give_if_ok (src_phys_da it) (mkMem (rings m) (next m) h1) (RDataDma p i) _ H1) as (h2 & -> & H2). step.
  eauto.
Qed.

Lemma deinit_loop_ok p l : forall m i rest, held m ≡ₚ items_res p i l ++ rest ->
  exists h, deinit_loop m p i l = Ret (mkMem (rings m) (next m) h) /\ h ≡ₚ rest.
Proof.
  induction l as [|it l IH]; intros m i rest Hh; cbn [deinit_loop items_res] in *.
  - exists (held m). by destruct m.
  - rewrite <- app_assoc in Hh. destruct (ring_item_reset_ok _ _ _ _ _ Hh) as (h1 & -> & H1). step.
    destruct (give_if_ok (buf_da it) (mkMem (rings m) (next m) h1) (RBufDma p i) _ H1) as (h2 & -> & H2). step.
    destruct (give_if_ok (buf it) (mkMem (rings m) (next m) h2) (RBuf p i) _ H2) as (h3 & -> & H3). step.
    apply (IH (mkMem (rings m) (next m) h3) (S i) rest H3).
Qed.

Lemma deinit_ok m p l rest :
  owns m p l rest ->
  exists h, buffer_dma_ring_deinit m (Some p) = Ret (mkMem (delete p (rings m)) (next m) h) /\ h ≡ₚ rest.
Proof.
  intros [Hp Hh]. unfold buffer_dma_ring_deinit, deref. rewrite Hp. step. cbn [items].
  destruct (deinit_loop_ok p l m 0 (RRing p :: RItems p :: rest)) as (h1 & -> & H1).
  { rewrite Hh. apply (Permutation_app_comm [RRing p; RItems p] (items_res p 0 l ++ rest)) || idtac. rewrite !Permutation_middle. done. }
  step.
  destruct (give_ok (mkMem (rings m) (next m) h1) (RItems p) (RRing p :: rest)) as (h2 & -> & H2).
  { cbn. rewrite H1. apply Permutation_swap. }
  step. unfold set_items, set_rings. cbn [rings next held].
  destruct (give_ok (mkMem (<[p := mkRing None]> (rings m)) (next m) h2) (RRing p) rest H2) as (h3 & -> & H3).
  step. exists h3. cbn. split; [|done]. by rewrite delete_insert_eq.
Qed.

Lemma alloc_loop_ok e p l : forall m i, Forall (fun it => it = mkItem true false false false false false) l ->
  exists l' h err, alloc_loop e m p i l = (mkMem (rings m) (next m) h, l', err)
    /\ h ≡ₚ items_res p i l' ++ held m
    /\ (err = 0 <-> forall j, (i <= j < i + length l)%nat -> pages_ok e j = true /\ mapping_error e j = 0).
Proof.
  induction l as [|it l IH]; intros m i Hl.
  - exists [], (held m), 0. split; [by destruct m|]. split; [done|]. split; [|done]. intros _ j Hj. cbn in Hj. lia.
  - apply Forall_cons_1 in Hl as [-> Hl]. cbn [alloc_loop buf].
    destruct (pages_ok e i) eqn:Ep; cbn [negb].
    2:{ eexists _, (held m), (- ENOMEM). split; [by destruct m|]. split.
        - assert (forall i, items_res p i (mkItem true false false false false false :: l) = []) as ->; [|done].
          clear -Hl. intros i. cbn. revert i. induction Hl as [|it l -> Hl IH]; intros i; cbn; [done|apply IH].
        - split; [done|]. intros Hj. destruct (Hj i) as [Hf _]; [cbn; lia|]. congruence. }
    destruct (mapping_error e i =? 0) eqn:Em; cbn [negb]; bools.
    2:{ eexists _, (RBuf p i :: held m), (mapping_error e i). split; [by destruct m|]. split.
        - cbn. f_equiv. assert (forall i, items_res p i l = []) as ->; [|done].
          clear -Hl. induction Hl as [|it l -> Hl IH]; intros i; cbn; [done|apply IH].
        - split; [done|]. intros Hj. destruct (Hj i) as [_ Hf]; [cbn; lia|]. congruence. }
    destruct (IH (take_res (take_res m (RBuf p i)) (RBufDma p i)) (S i) Hl) as (l' & h & err & -> & Hh & Herr).
    eexists _, h, err. split; [done|]. split.
    + cbn in *. rewrite Hh. solve_Permutation || idtac.
    + rewrite Herr. cbn. split; intros Hj j Hr.
      * destruct (decide (j = i)) as [->|]; [done|]. apply Hj. lia.
      * apply Hj. lia.
Qed.

(** Every item of the ring gets a buffer. *)
Definition buffers_ok (e : renv) : Prop :=
  forall j, (j < Z.to_nat VOP_RING_SIZE)%nat -> pages_ok e j = true /\ mapping_error e j = 0.

Definition fresh_items : list buffer_dma_item :=
  replicate (Z.to_nat VOP_RING_SIZE) (mkItem true false false false false false).

Lemma items_res_fresh p i : items_res p i fresh_items = [].
Proof. unfold fresh_items. generalize (Z.to_nat VOP_RING_SIZE). intros n. revert i. induction n; intros i; [done|]. cbn. apply IHn. Qed.

(** Both allocations succeed. *)
Lemma ring_init_start e align m : ring_ok e = true -> items_ok e = true ->
  let m0 := mkMem (<[next m := mkRing (Some fresh_items)]> (rings m)) (S (next m)) (RItems (next m) :: RRing (next m) :: held m) in
  buffer_dma_ring_init e align m
  = if align then Ret (m0, Some (next m), 0)
    else '(m1, ring, err) ← buffer_dma_ring_items_alloc e m0 (Some (next m));
         if err =? 0 then Ret (m1, ring, 0)
         else _ ← deref m1 (next m); m2 ← buffer_dma_ring_deinit m1 (Some (next m)); Ret (m2, None, err).
Proof.
  intros H1 H2 m0. unfold buffer_dma_ring_init. rewrite H1, H2. cbn [negb].
  assert (set_items (take_res (mkMem (<[next m:=mkRing None]> (rings m)) (S (next m)) (RRing (next m) :: held m)) (RItems (next m)))
            (next m) (Some fresh_items) = m0) as E.
  { unfold set_items, set_rings, take_res, m0. cbn [rings next held]. by rewrite insert_insert_eq. }
  fold fresh_items. rewrite E. destruct align; done.
Qed.

Lemma items_alloc_ok e m p rest : owns m p fresh_items rest ->
  exists l h err, alloc_loop e m p 0 fresh_items = (mkMem (rings m) (next m) h, l, err)
    /\ owns (set_items (mkMem (rings m) (next m) h) p (Some l)) p l rest
    /\ buffer_dma_ring_items_alloc e m (Some p)
       = (if err =? 0 then Ret (set_items (mkMem (rings m) (next m) h) p (Some l), Some p, 0)
          else m ← buffer_dma_ring_deinit (set_items (mkMem (rings m) (next m) h) p (Some l)) (Some p); Ret (m, None, err))
    /\ (err = 0 <-> buffers_ok e).
Proof.
  intros [Hp Hh]. destruct (alloc_loop_ok e p fresh_items m 0) as (l & h & err & E & Hl & Herr).
  { unfold fresh_items. by apply Forall_replicate. }
  exists l, h, err. split; [done|]. split; [|split].
  - split; [apply lookup_insert_eq|]. cbn [set_items set_rings held]. rewrite Hl, Hh, items_res_fresh. cbn.
    rewrite !Permutation_middle. done.
  - unfold buffer_dma_ring_items_alloc, deref. rewrite Hp. run_bind. cbn [items]. rewrite E. done.
  - rewrite Herr. unfold buffers_ok. unfold fresh_items. rewrite length_replicate. split; intros Hj j Hr; apply Hj; lia.
Qed.

Lemma ring_init_ok e align m :
  rings m !! next m = None ->
  if ring_ok e && items_ok e then
    (align = true \/ buffers_ok e) ->
    exists m1 l, buffer_dma_ring_init e align m = Ret (m1, Some (next m), 0)
    /\ owns m1 (next m) l (held m)
    /\ exists m2, buffer_dma_ring_deinit m1 (Some (next m)) = Ret m2 /\ rings m2 = rings m /\ held m2 ≡ₚ held m
  else exists m1, buffer_dma_ring_init e align m = Ret (m1, None, - ENOMEM)
    /\ rings m1 = rings m /\ held m1 ≡ₚ held m.
Proof.
  intros Hfree. destruct (ring_ok e) eqn:E1; [destruct (items_ok e) eqn:E2|]; cbn [andb].
  - intros Hok. set (m0 := mkMem (<[next m := mkRing (Some fresh_items)]> (rings m)) (S (next m)) (RItems (next m) :: RRing (next m) :: held m)).
    assert (owns m0 (next m) fresh_items (held m)) as H0.
    { split; [apply lookup_insert_eq|]. rewrite items_res_fresh. cbn. apply Permutation_swap. }
    assert (exists m1 l, buffer_dma_ring_init e align m = Ret (m1, Some (next m), 0) /\ owns m1 (next m) l (held m)
      /\ delete (next m) (rings m1) = rings m) as (m1 & l & -> & Ho & Hr).
    { rewrite ring_init_start by done. fold m0. destruct align.
      - exists m0, fresh_items. split; [done|]. split; [done|]. cbn. by apply delete_insert_id.
      - destruct (items_alloc_ok e m0 _ _ H0) as (l & h & err & _ & Ho & -> & Herr).
        destruct Hok as [|Hok]; [done|]. apply Herr in Hok as ->. cbn [Z.eqb]. run_bind.
        eexists _, l. split; [done|]. split; [done|]. cbn. rewrite insert_insert_eq. by apply delete_insert_id. }
    exists m1, l. split; [done|]. split; [done|].
    destruct (deinit_ok _ _ _ _ Ho) as (h & -> & Hh). eexists. split; [done|]. cbn. done.
  - unfold buffer_dma_ring_init. rewrite E1, E2. cbn [negb]. unfold buffer_dma_ring_deinit, deref. cbn [rings].
    rewrite lookup_insert_eq. run_bind. cbn [items]. run_bind.
    destruct (give_ok (mkMem (<[next m:=mkRing None]> (rings m)) (S (next m)) (RRing (next m) :: held m)) (RRing (next m)) (held m))
      as (h & -> & Hh); [done|]. step. eexists. split; [done|]. cbn. split; [by apply delete_insert_id|done].
  - unfold buffer_dma_ring_init. rewrite E1. cbn. eexists. split; [done|]. done.
Qed.

(** Making the ring of buffers: when the kernel has the memory, the ring is made, and
    freeing it gives back exactly what was taken; when it has no memory for the ring or
    its items, nothing is kept. *)
Theorem buffer_dma_ring_init_deinit e align m :
  rings m !! next m = None ->
  if ring_ok e && items_ok e then
    (align = true \/ buffers_ok e) ->
    exists m1 l, buffer_dma_ring_init e align m = Ret (m1, Some (next m), 0)
    /\ owns m1 (next m) l (held m)
    /\ exists m2, buffer_dma_ring_deinit m1 (Some (next m)) = Ret m2 /\ rings m2 = rings m /\ held m2 ≡ₚ held m
  else exists m1, buffer_dma_ring_init e align m = Ret (m1, None, - ENOMEM)
    /\ rings m1 = rings m /\ held m1 ≡ₚ held m.
Proof. apply ring_init_ok. Qed.

Lemma ring_init_faults e m :
  rings m !! next m = None -> ring_ok e = true -> items_ok e = true -> ~ buffers_ok e ->
  buffer_dma_ring_init e false m = Oob.
Proof.
  intros Hfree H1 H2 Hbad. rewrite ring_init_start by done.
  set (m0 := mkMem _ _ _).
  assert (owns m0 (next m) fresh_items (held m)) as H0.
  { split; [apply lookup_insert_eq|]. rewrite items_res_fresh. cbn. apply Permutation_swap. }
  destruct (items_alloc_ok e m0 _ _ H0) as (l & h & err & _ & Ho & -> & Herr).
  destruct (Z.eqb_spec err 0) as [->|Hne]; [by destruct Hbad; apply Herr|].
  destruct (deinit_ok _ _ _ _ Ho) as (h2 & -> & _). run_bind.
  rewrite (proj2 (Z.eqb_neq err 0)) by done. unfold deref. cbn [rings]. by rewrite lookup_delete_eq.
Qed.

(** C39. When the buffer of an item cannot be allocated or mapped, the ring is freed, and
    then read and freed once more. *)
Theorem buffer_dma_ring_init_use_after_free e m :
  rings m !! next m = None -> ring_ok e = true -> items_ok e = true -> ~ buffers_ok e ->
  buffer_dma_ring_init e false m = Oob.
Proof. apply ring_init_faults. Qed.

Lemma VOP_CHECK_FEATURE_ok pre bs post features bits i :
  Forall DevPage.byte bs -> features = zlen pre -> 0 <= i -> bits <= 8 * zlen bs ->
  VOP_CHECK_FEATURE (pre ++ bs ++ post) features bits i = Ret ((i <? bits) && Z.testbit (DevPage.le bs) i).
Proof.
  intros Hbs Hf Hi Hb. unfold VOP_CHECK_FEATURE. destruct (Z.ltb_spec i bits); [|done].
  destruct (DevPage.bits_range i (zlen bs)) as [Hq Hr]; [lia|].
  rewrite (DevPage.aget_at _ _ _ (i / 8)), DevPage.aget_front by lia.
  destruct (aget_total bs (i / 8)) as (b & -> & Hb'); [done|]. run_bind.
  rewrite testflag_bit by lia. by rewrite DevPage.le_testbit, Hb' by done.
Qed.

(** The two sides agree on how packets are sent: a device sends straight into the buffers
    of its peer exactly when the driver of the peer has accepted, on the page, that the data
    may be at an offset in them; else it copies and sends from a thread of its own. *)
Theorem common_dev_init_mode_agrees pre post a x d drv f :
  DevPage.sections_ok a x -> d = zlen pre -> DevPage.net_driver drv -> 4 <= DevPage.ds_feature_len a ->
  let agreed := Z.testbit (DevPage.accept f) DevPage.VIRTIO_NET_F_OFFSET_RXBUF in
  ('(p, _) ← DevPage.vop_finalize_features (pre ++ DevPage.desc_bytes (DevPage.with_sections a x) ++ post) d drv f;
   common_dev_init_mode p d) = Ret (agreed, negb agreed).
Proof.
  intros Hx Hd Hdrv Hfl agreed. rewrite (DevPage.finalize_features_ok pre post a x d drv f Hx Hd Hdrv). run_bind.
  destruct (DevPage.finalized_out pre post a x d f Hd) as (Ef & Evf & Elen).
  destruct (DevPage.accepted_ok a x f Hx) as (Hb & Hz & Hle).
  unfold common_dev_init_mode. rewrite Evf. run_bind. rewrite Elen. run_bind. rewrite Ef.
  rewrite VOP_CHECK_FEATURE_ok; [|done|by rewrite (DevPage.zlen_before_out pre a x d Hx Hd)|done|rewrite Hz; lia].
  run_bind. rewrite Hle. unfold DevPage.VIRTIO_NET_F_OFFSET_RXBUF, DevPage.feature_bits in *. rewrite (proj2 (Z.ltb_lt 24 (Z.min (DevPage.ds_feature_len a) 8 * 8))) by lia.
  rewrite Z.testbit_mod_pow2 by lia. rewrite (proj2 (Z.ltb_lt 24 (Z.min (DevPage.ds_feature_len a) 8 * 8))) by lia. done.
Qed.

(** ** The life of a device

    The task that [common_dev_start] makes waits until both sides are ready, makes the ring,
    starts the threads and says so.  [Vrd] reads descriptors, [Vdm] sends from a thread,
    [Vsd] waits for used buffers. *)
Inductive kind := Vrd | Vdm | Vsd.
#[global] Instance kind_eq_dec : EqDecision kind.
Proof. solve_decision. Defined.

(** Where a thread is: before its first line, at the condition of its loop, or in the body.
    [r] is the ring that it has read from [cdev->buffers_ring]: [Vdm] does so once, [Vrd]
    in every turn; [Vsd] does not touch the ring. *)
Inductive place :=
| Begin
| Head (r : option nat)
| Busy (r : option nat).

(** The task: waiting, about to make the ring, about to start the threads, about to set
    [ready]. *)
Inductive init_pc := IWait | IMake | ISpawn | ISet.

(** The caller of [common_dev_stop]: waiting for a thread, about to free the ring. *)
Inductive stop_pc := SWait (k : kind) | SFree.

(** [completed]: the completions [vrd_complete], [vdm_complete] and [vsd_complete], as often as
    they were completed.  [live]: the rings that have been made and not freed.  [fault]: somebody
    has used or freed a ring that is not live. *)
Record dev := mkDev {
  ready : Z;
  ring : option nat;
  live : list nat;
  next_ring : nat;
  write_in_thread : bool;
  inits : list init_pc;
  threads : list (kind * place);
  completed : list kind;
  stopper : option stop_pc;
  fault : bool;
}.

(** What the task finds: the mode that the devices have agreed on, and the answers of the kernel. *)
Record answers := mkAns { a_align : bool; a_env : renv }.

(** What comes of [buffer_dma_ring_init]: whether the ring was made, or a fault. *)
Definition ring_made (a : answers) : outcome bool :=
  '(_, _, err) ← buffer_dma_ring_init (a_env a) (a_align a) (mkMem ∅ 0 []);
  Ret (err =? 0).
Arguments ring_made : simpl never.

(** [LInit n a]: the [n]-th task goes on; it asks for [a] when it makes the ring.  [LThread n]: the [n]-th thread goes on; [LUse n]: it uses
    its ring and stays in the body of its loop. *)
Inductive label :=
| LStart
| LInit (n : nat) (a : answers)
| LThread (n : nat)
| LUse (n : nat)
| LStop
| LWait
| LInterrupt
| LFree.

Definition set_inits (s : dev) l := mkDev (ready s) (ring s) (live s) (next_ring s) (write_in_thread s) l (threads s) (completed s) (stopper s) (fault s).
Definition set_threads (s : dev) l := mkDev (ready s) (ring s) (live s) (next_ring s) (write_in_thread s) (inits s) l (completed s) (stopper s) (fault s).
Definition set_completed (s : dev) l := mkDev (ready s) (ring s) (live s) (next_ring s) (write_in_thread s) (inits s) (threads s) l (stopper s) (fault s).
Definition set_stopper (s : dev) p := mkDev (ready s) (ring s) (live s) (next_ring s) (write_in_thread s) (inits s) (threads s) (completed s) p (fault s).
Definition set_ready (s : dev) r := mkDev r (ring s) (live s) (next_ring s) (write_in_thread s) (inits s) (threads s) (completed s) (stopper s) (fault s).
Definition set_mode (s : dev) b := mkDev (ready s) (ring s) (live s) (next_ring s) b (inits s) (threads s) (completed s) (stopper s) (fault s).
Definition set_ring (s : dev) p l n := mkDev (ready s) p l n (write_in_thread s) (inits s) (threads s) (completed s) (stopper s) (fault s).
Definition set_fault (s : dev) := mkDev (ready s) (ring s) (live s) (next_ring s) (write_in_thread s) (inits s) (threads s) (completed s) (stopper s) true.

(** The threads that a device has. *)
Definition kinds (wit : bool) : list kind := if wit then [Vrd; Vdm; Vsd] else [Vrd; Vsd].

Definition common_dev_start (s : dev) : dev :=
  if negb (ready s =? 0) then s
  else set_inits (set_ready (set_completed s []) VOP_DEV_READY_STATE_STARTING) (inits s ++ [IWait]).

(** One step of task [n], which is at [pc]. *)
Definition common_dev_init_task (s : dev) (n : nat) (pc : init_pc) (a : answers) : dev :=
  let ended s := set_inits s (delete n (inits s)) in
  let at_pc s pc := set_inits s (<[n := pc]> (inits s)) in
  match pc with
  | IWait =>
      if ready s =? 0 then ended (set_completed s (completed s ++ kinds (write_in_thread s)))
      else at_pc s IMake
  | IMake =>
      let s := set_mode s (negb (a_align a)) in
      match ring_made a with
      | Ret true =>
          let p := next_ring s in
          at_pc (set_ring s (Some p) (p :: live s) (S p)) ISpawn
      | Ret false => ended (set_ring s None (live s) (next_ring s))
      | _ => ended (set_fault (set_ring s None (live s) (next_ring s)))
      end
  | ISpawn =>
      at_pc (set_threads s (threads s ++ (Vrd, Head None)
               :: (if write_in_thread s then [(Vdm, Begin)] else []) ++ [(Vsd, Head None)])) ISet
  | ISet => ended (set_ready s VOP_DEV_READY_STATE_WORK)
  end.

(** A thread of kind [k] uses the ring [r]. *)
Definition use (s : dev) (k : kind) (r : option nat) : dev :=
  match k, r with
  | Vsd, _ => s
  | _, Some p => if decide (p ∈ live s) then s else set_fault s
  | _, None => set_fault s
  end.

(** One step of thread [n], a [k] at [pl]. *)
Definition task_step (s : dev) (n : nat) (k : kind) (pl : place) : dev :=
  let at_pl s pl := set_threads s (<[n := (k, pl)]> (threads s)) in
  match pl with
  | Begin => at_pl s (Head (ring s))
  | Head r =>
      if ready s =? 0 then set_completed (set_threads s (delete n (threads s))) (completed s ++ [k])
      else at_pl s (Busy (match k with Vrd => ring s | _ => r end))
  | Busy r => at_pl (use s k r) (Head r)
  end.

(** The beginning of [common_dev_stop]. *)
Definition common_dev_stop (s : dev) : dev :=
  if ready s =? 0 then s
  else set_stopper (set_ready s VOP_DEV_READY_STATE_STOP)
         (Some (if ready s =? VOP_DEV_READY_STATE_WORK then SWait Vrd else SFree)).

(** What it waits for after [k]. *)
Definition stop_next (wit : bool) (k : kind) : stop_pc :=
  match k with
  | Vrd => if wit then SWait Vdm else SWait Vsd
  | Vdm => SWait Vsd
  | Vsd => SFree
  end.

(** The end of [common_dev_stop]. *)
Definition stop_free (s : dev) : dev :=
  let s' := set_stopper (set_ring s None (match ring s with Some p => release p (live s) | None => live s end) (next_ring s)) None in
  match ring s with
  | Some p => if decide (p ∈ live s) then s' else set_fault s'
  | None => s'
  end.

(** [None]: the step is not possible. *)
Definition exec (s : dev) (l : label) : option dev :=
  match l with
  | LStart => Some (common_dev_start s)
  | LInit n a => pc ← inits s !! n; Some (common_dev_init_task s n pc a)
  | LThread n => '(k, pl) ← threads s !! n; Some (task_step s n k pl)
  | LUse n => '(k, pl) ← threads s !! n; match pl with Busy r => Some (use s k r) | _ => None end
  | LStop => Some (common_dev_stop s)
  | LWait =>
      match stopper s with
      | Some (SWait k) =>
          if decide (k ∈ completed s)
          then Some (set_stopper (set_completed s (release k (completed s))) (Some (stop_next (write_in_thread s) k)))
          else None
      | _ => None
      end
  | LInterrupt => match stopper s with Some (SWait k) => Some (set_stopper s (Some SFree)) | _ => None end
  | LFree => match stopper s with Some SFree => Some (stop_free s) | _ => None end
  end.

Fixpoint run (s : dev) (ls : list label) : option dev :=
  match ls with
  | [] => Some s
  | l :: ls => s ← exec s l; run s ls
  end.

(** A device after [common_dev_init]. *)
Definition idle (wit : bool) (n : nat) (c : list kind) : dev :=
  mkDev VOP_DEV_READY_STATE_STOP None [] n wit [] [] c None false.

(** When the kernel has the memory of a ring and of its items, and the mode needs buffers, it has those
    of all of them. *)
Definition memory_ok (a : answers) : Prop :=
  a_align a = true \/ (ring_ok (a_env a) && items_ok (a_env a) = true -> buffers_ok (a_env a)).

(** The runs that the code is made for: a device is not stopped while its task is still
    under way, not started while it is being stopped, no signal interrupts the waits, and no ring is
    given up after its items were made. *)
Definition orderly (s : dev) (l : label) : Prop :=
  match l with
  | LInit n a => memory_ok a
  | LStop => inits s = []
  | LStart => stopper s = None
  | LInterrupt => False
  | _ => True
  end.

Inductive reach (P : dev -> label -> Prop) : dev -> dev -> Prop :=
| reach_refl s : reach P s s
| reach_step s s1 s2 l : reach P s s1 -> P s1 l -> exec s1 l = Some s2 -> reach P s s2.

(** *** Lemmas: the phases of a device *)

Lemma ring_made_ok a : memory_ok a -> exists b, ring_made a = Ret b.
Proof.
  intros Hok. unfold ring_made. pose proof (ring_init_ok (a_env a) (a_align a) (mkMem ∅ 0 [])) as Hi.
  destruct (ring_ok _ && items_ok _) eqn:E; (destruct Hi as (m1 & Hi); [done|..]).
  - destruct Hok as [Hok|Hok]; [by left|right; by apply Hok].
  - destruct Hi as (l & -> & _). run_bind. eauto.
  - destruct Hi as (-> & _). run_bind. eauto.
Qed.

(** A thread that uses no ring but [p]. *)
Definition good (p : nat) (t : kind * place) : Prop :=
  match t with
  | (Vsd, _) | (Vrd, Begin) | (Vrd, Head _) | (Vdm, Begin) => True
  | (Vrd, Busy r) | (Vdm, Head r) | (Vdm, Busy r) => r = Some p
  end.

(** The threads whose end the caller has already seen. *)
Definition awaited (wit : bool) (pc : stop_pc) : list kind :=
  match pc with
  | SWait Vrd => []
  | SWait Vdm => [Vrd]
  | SWait Vsd => if wit then [Vrd; Vdm] else [Vrd]
  | SFree => kinds wit
  end.

Inductive phase : dev -> Prop :=
| ph_idle n wit c : phase (idle wit n c)
| ph_init n wit pc : pc = IWait \/ pc = IMake -> phase (mkDev 1 None [] n wit [pc] [] [] None false)
| ph_failed n wit : phase (mkDev 1 None [] n wit [] [] [] None false)
| ph_made p n wit : phase (mkDev 1 (Some p) [p] n wit [ISpawn] [] [] None false)
| ph_work r is_ p n wit ths :
    (r = 1 /\ is_ = [ISet]) \/ (r = 2 /\ is_ = []) -> map fst ths = kinds wit -> Forall (good p) ths ->
    phase (mkDev r (Some p) [p] n wit is_ ths [] None false)
| ph_stop p n wit ths c pc :
    map fst ths ++ c ++ awaited wit pc ≡ₚ kinds wit -> Forall (good p) ths -> (pc = SWait Vdm -> wit = true) ->
    phase (mkDev 0 (Some p) [p] n wit [] ths c (Some pc) false)
| ph_stop_failed n wit c : phase (mkDev 0 None [] n wit [] [] c (Some SFree) false).

Lemma kept_kind (ths : list (kind * place)) n k pl pl' :
  ths !! n = Some (k, pl) -> map fst (<[n := (k, pl')]> ths) = map fst ths.
Proof.
  intros Hn. change (fst <$> <[n := (k, pl')]> ths = fst <$> ths). rewrite list_fmap_insert. apply list_insert_id.
  by rewrite list_lookup_fmap, Hn.
Qed.

Lemma use_good s p n k r : live s = [p] -> threads s !! n = Some (k, Busy r) -> Forall (good p) (threads s) -> use s k r = s.
Proof.
  intros Hl Hn Hg. pose proof (Forall_lookup_1 _ _ _ _ Hg Hn) as Hk. destruct k; [| |done].
  all: cbn in Hk; subst r; unfold use; rewrite decide_True; [done|rewrite Hl; left].
Qed.

(** A thread that goes on and does not end. *)
Lemma task_step_goes s p n k pl :
  live s = [p] -> ring s = Some p -> threads s !! n = Some (k, pl) -> Forall (good p) (threads s) ->
  (exists r, pl = Head r /\ ready s = 0)
  \/ exists pl', task_step s n k pl = set_threads s (<[n := (k, pl')]> (threads s))
      /\ good p (k, pl').
Proof.
  intros Hl Hr Hn Hg. pose proof (Forall_lookup_1 _ _ _ _ Hg Hn) as Hk. destruct pl as [|r|r]; cbn [task_step].
  - right. exists (Head (ring s)). split; [done|]. rewrite Hr. by destruct k.
  - destruct (Z.eqb_spec (ready s) 0) as [E|E]; [left; eauto|]. right. eexists. split; [done|].
    rewrite Hr. by destruct k.
  - right. exists (Head r). rewrite (use_good s p n) by done. split; [done|]. by destruct k.
Qed.

Lemma in_kinds k wit (l c a : list kind) : l ++ c ++ a ≡ₚ kinds wit -> k ∈ c ->
  l ++ release k c ++ k :: a ≡ₚ kinds wit.
Proof.
  intros Hp Hk. rewrite <- Hp. apply Permutation_app_head. rewrite (release_perm k c Hk) at 2. cbn.
  symmetry. apply Permutation_middle.
Qed.

Lemma awaited_next wit k : k ∈ kinds wit -> k :: awaited wit (SWait k) ≡ₚ awaited wit (stop_next wit k).
Proof.
  destruct k, wit; cbn; intros Hk; try done; try apply Permutation_swap.
  - exfalso. repeat (apply elem_of_cons in Hk as [Hk|Hk]; [done|]). by apply elem_of_nil in Hk.
  - apply (Permutation_app_comm [Vsd] [Vrd; Vdm]).
Qed.

Lemma phase_thread s n s' : phase s -> exec s (LThread n) = Some s' -> phase s'.
Proof.
  intros Hs He. cbn in He. destruct (threads s !! n) as [[k pl]|] eqn:Hn; [|done]. cbn in He. injection He as <-.
  destruct Hs; try (cbn in Hn; by rewrite lookup_nil in Hn).
  - destruct (task_step_goes (mkDev r (Some p) [p] n0 wit is_ ths [] None false) p n k pl) as [(r' & _ & E)|(pl' & -> & Hg)];
      [done..| |]; [cbn in E; lia|]. cbn. constructor; [done|by rewrite (kept_kind _ _ _ pl)|by apply Forall_insert].
  - destruct (task_step_goes (mkDev 0 (Some p) [p] n0 wit [] ths c (Some pc) false) p n k pl) as [(r' & -> & E)|(pl' & -> & Hg)];
      [done..| |].
    + cbn. constructor; [|by apply Forall_delete|done].
      rewrite (delete_Permutation ths n (k, Head r')) in H by done. cbn in H. rewrite <- H. rewrite <- app_assoc. cbn.
      rewrite !(app_assoc (map _ _)). symmetry. apply Permutation_middle.
    + cbn. constructor; [by rewrite (kept_kind _ _ _ pl)|by apply Forall_insert|done].
Qed.

Lemma phase_init s n a s' : phase s -> memory_ok a -> exec s (LInit n a) = Some s' -> phase s'.
Proof.
  intros Hs Ha He. destruct (ring_made_ok a Ha) as (made & Hm). cbn in He. destruct Hs as [m wit c|m wit pc Hpc|m wit|p m wit|r is_ p m wit ths Hr Hk Hg|p m wit ths c pc Hp Hg Hpc|m wit c].
  all: cbn in He; try (by destruct n).
  - destruct n as [|n]; cbn in He; [|by destruct n]. injection He as <-.
    destruct Hpc as [->| ->]; [apply ph_init; by right|]. cbn. rewrite Hm. destruct made; [apply ph_made|apply ph_failed].
  - destruct n as [|n]; cbn in He; [|by destruct n]. injection He as <-. destruct wit; cbn.
    all: apply ph_work; [by left|done|repeat constructor].
  - destruct Hr as [[-> ->]|[-> ->]]; [|by destruct n].
    destruct n as [|n]; cbn in He; [|by destruct n]. injection He as <-.
    apply ph_work; [by right|done|done].
Qed.

Lemma phase_use s n s' : phase s -> exec s (LUse n) = Some s' -> phase s'.
Proof.
  intros Hs He. cbn in He. destruct (threads s !! n) as [[k pl]|] eqn:Hn; [|done]. cbn in He.
  destruct pl as [|r|r]; [done|done|]. injection He as <-.
  destruct Hs; try (cbn in Hn; by rewrite lookup_nil in Hn).
  - rewrite (use_good _ p n) by done. by constructor.
  - rewrite (use_good _ p n) by done. by constructor.
Qed.

Lemma phase_wait s s' : phase s -> exec s LWait = Some s' -> phase s'.
Proof.
  intros Hs He. destruct Hs as [m wit c|m wit pc Hpc|m wit|p m wit|r is_ p m wit ths Hr Hk Hg|p m wit ths c pc Hp Hg Hpc|m wit c]; try done.
  cbn in He. destruct pc as [k|]; [|done]. destruct (decide (k ∈ c)) as [Hin|]; [|done]. injection He as <-. cbn.
  apply ph_stop; [|done|by destruct k, wit]. pose proof (in_kinds k wit _ _ _ Hp Hin) as Hq. rewrite <- Hq.
  do 2 apply Permutation_app_head. symmetry. apply awaited_next.
  rewrite <- Hp. apply elem_of_app. right. apply elem_of_app. by left.
Qed.

Lemma kinds_nil wit l : l ++ kinds wit ≡ₚ kinds wit -> l = [].
Proof. intros Hl. apply Permutation_length in Hl. rewrite length_app in Hl. destruct l; [done|]. cbn in Hl. lia. Qed.

Lemma phase_free s s' : phase s -> exec s LFree = Some s' -> exists n wit c, s' = idle wit n c.
Proof.
  intros Hs He. destruct Hs as [m wit c|m wit pc Hpc|m wit|p m wit|r is_ p m wit ths Hr Hk Hg|p m wit ths c pc Hp Hg Hpc|m wit c]; try done.
  - cbn in He. destruct pc as [k|]; [done|]. injection He as <-. unfold stop_free. cbn [ring live].
    rewrite decide_True by left. cbn. rewrite decide_True by done.
    rewrite app_assoc in Hp. apply kinds_nil, app_eq_nil in Hp as [Hths ->].
    assert (ths = []) as -> by (by destruct ths). by exists m, wit, [].
  - cbn in He. injection He as <-. by exists m, wit, c.
Qed.

Lemma phase_step s l s' : phase s -> orderly s l -> exec s l = Some s' -> phase s'.
Proof.
  intros Hs Ho He. destruct l as [|n a|n|n| | | |].
  - cbn in Ho, He. injection He as <-.
    destruct Hs as [m wit c|m wit pc Hpc|m wit|p m wit|r is_ p m wit ths [[-> ->]|[-> ->]] Hk Hg|p m wit ths c pc Hp Hg Hpc|m wit c]; try done.
    + apply ph_init. by left.
    + by apply ph_init.
    + apply ph_failed.
    + apply ph_made.
    + apply ph_work; [by left|done|done].
    + apply ph_work; [by right|done|done].
  - by eapply phase_init.
  - by eapply phase_thread.
  - by eapply phase_use.
  - cbn in Ho, He. injection He as <-.
    destruct Hs as [m wit c|m wit pc Hpc|m wit|p m wit|r is_ p m wit ths [[-> ->]|[-> ->]] Hk Hg|p m wit ths c pc Hp Hg Hpc|m wit c]; try done.
    + apply ph_idle.
    + apply ph_stop_failed.
    + apply (ph_stop p m wit ths [] (SWait Vrd)); [by rewrite Hk, app_nil_r|done|done].
    + by apply ph_stop.
    + by apply ph_stop_failed.
  - by eapply phase_wait.
  - done.
  - destruct (phase_free _ _ Hs He) as (n & wit & c & ->). apply ph_idle.
Qed.

Lemma phase_reach n wit c s : reach orderly (idle wit n c) s -> phase s.
Proof.
  intros Hr. remember (idle wit n c) as s0. induction Hr as [|s s1 s2 l Hr IH Ho He]; subst; [apply ph_idle|].
  by eapply phase_step; [apply IH| |].
Qed.

(** C7. However the task, the threads and the caller interleave, nobody ever uses or
    frees a ring that is not live, there is at most one ring, and when the device is stopped and the
    caller has returned, the ring is freed and every thread has ended.  This is for orderly runs: the caller does
    not stop the device while its task is under way nor start it while it is being stopped, no signal
    interrupts its waits, threads can be made, and the kernel does not run out of memory between the items of a ring and the last of
    their buffers (then the task itself frees the ring twice). *)
Theorem common_dev_lifecycle_safe wit n c s :
  reach orderly (idle wit n c) s ->
  fault s = false /\ live s = option_list (ring s)
  /\ (ready s = VOP_DEV_READY_STATE_STOP -> stopper s = None -> live s = [] /\ threads s = [] /\ inits s = []).
Proof.
  intros Hr. apply phase_reach in Hr. destruct Hr as [| | | |r is_ p m w ths Hr Hk Hg| |]; cbn; try done.
  split; [done|]. split; [done|]. intros ->. destruct Hr as [[Hr _]|[Hr _]]; done.
Qed.

(** *** The end of stopping *)

(** The steps by which the caller and the threads get on. *)
Definition own (l : label) : bool :=
  match l with LThread _ | LWait | LFree => true | _ => false end.
(** Their steps, those by which a thread stays in the body of its loop included. *)
Definition stopping (l : label) : bool := match l with LUse _ => true | _ => own l end.

(** The steps that are left. *)
Definition place_work (t : kind * place) : nat := match snd t with Head _ => 1 | _ => 2 end.
Definition threads_work (ths : list (kind * place)) : nat := foldr (fun t n => place_work t + n)%nat 0%nat ths.
Definition stopper_work (p : option stop_pc) : nat :=
  match p with
  | None => 0
  | Some SFree => 1
  | Some (SWait Vsd) => 2
  | Some (SWait Vdm) => 3
  | Some (SWait Vrd) => 4
  end.
Definition work (s : dev) : nat := threads_work (threads s) + stopper_work (stopper s).

Lemma threads_work_cons t ths : threads_work (t :: ths) = (place_work t + threads_work ths)%nat.
Proof. done. Qed.
Lemma work_insert ths n t t' : ths !! n = Some t ->
  (threads_work (<[n := t']> ths) + place_work t = threads_work ths + place_work t')%nat.
Proof.
  revert n. induction ths as [|x ths IH]; intros [|n] Hn; [done|done| |].
  - injection Hn as ->. cbn [list_insert insert delete list_delete]. rewrite !threads_work_cons. lia.
  - specialize (IH n Hn). change (<[S n := t']> (x :: ths)) with (x :: <[n := t']> ths). rewrite !threads_work_cons. lia.
Qed.
Lemma work_delete ths n t : ths !! n = Some t ->
  (threads_work (delete n ths) + place_work t = threads_work ths)%nat.
Proof.
  revert n. induction ths as [|x ths IH]; intros [|n] Hn; [done|done| |].
  - injection Hn as ->. cbn [list_insert insert delete list_delete]. rewrite !threads_work_cons. lia.
  - specialize (IH n Hn). change (delete (S n) (x :: ths)) with (x :: delete n ths). rewrite !threads_work_cons. lia.
Qed.

Lemma stop_work_step s l s' : phase s -> stopper s <> None -> own l = true -> exec s l = Some s' -> (work s' < work s)%nat.
Proof.
  intros Hs Hst Ho He. destruct l as [|n a|n|n| | | |]; try done.
  - cbn in He. destruct (threads s !! n) as [[k pl]|] eqn:Hn; [|done]. cbn in He. injection He as <-.
    assert (ready s = 0) as Hr0 by (by destruct Hs).
    assert (Hu : forall r, stopper (use s k r) = stopper s /\ threads (use s k r) = threads s).
    { intros r. unfold use. destruct k, r; try done; by case_decide. }
    destruct pl as [|r|r]; cbn [task_step].
    + pose proof (work_insert _ _ _ (k, Head (ring s)) Hn) as Hw. unfold work, place_work in *.
      cbn [stopper threads set_threads snd] in *. lia.
    + rewrite Hr0. cbn [Z.eqb]. pose proof (work_delete _ _ _ Hn) as Hw. unfold work, place_work in *.
      cbn [stopper threads set_threads set_completed snd] in *. lia.
    + pose proof (work_insert _ _ _ (k, Head r) Hn) as Hw. unfold work, place_work in *. destruct (Hu r) as [E1 E2].
      cbn [stopper threads set_threads snd] in *. rewrite E1, E2. lia.
  - cbn in He. destruct (stopper s) as [[k|]|] eqn:Es; try done. destruct (decide (k ∈ completed s)); [|done].
    injection He as <-. unfold work. cbn [stopper threads set_stopper set_completed]. rewrite Es. destruct k, (write_in_thread s); cbn [stop_next stopper_work]; lia.
  - cbn in He. destruct (stopper s) as [[k|]|] eqn:Es; try done. injection He as <-.
    assert (stopper (stop_free s) = None /\ threads (stop_free s) = threads s) as [E1 E2].
    { unfold stop_free. destruct (ring s); [|done]. by case_decide. }
    unfold work. rewrite E1, E2, Es. cbn. lia.
Qed.

Lemma stop_enabled s : phase s -> stopper s <> None -> exists l s', own l = true /\ exec s l = Some s'.
Proof.
  intros Hs Hst. destruct Hs as [m wit c|m wit pc Hpc|m wit|p m wit|r is_ p m wit ths Hr Hk Hg|p m wit ths c pc Hp Hg Hpc|m wit c]; try done.
  - destruct pc as [k|]; [|by exists LFree; eexists].
    destruct ths as [|[k' pl] ths]; [|by exists (LThread 0); eexists].
    cbn in Hp. assert (k ∈ c) as Hin.
    { assert (k ∈ kinds wit) as Hk by (destruct k, wit; cbn; rewrite !elem_of_cons; naive_solver).
      rewrite <- Hp in Hk. apply elem_of_app in Hk as [|Hk]; [done|]. exfalso.
      destruct k, wit; cbn in Hk; repeat (apply elem_of_cons in Hk as [Hk|Hk]; [done|]); by apply elem_of_nil in Hk. }
    exists LWait. eexists. split; [done|]. cbn. by rewrite decide_True.
  - by exists LFree; eexists.
Qed.

Lemma use_keeps s k r : stopper (use s k r) = stopper s /\ threads (use s k r) = threads s.
Proof. unfold use. destruct k, r; try done; by case_decide. Qed.

Lemma stop_orderly s l s' : stopping l = true -> exec s l = Some s' -> orderly s l.
Proof. by destruct l. Qed.

(** Once the caller has returned, nothing is left to do. *)
Lemma stopped_none s l : phase s -> ready s = 0 -> stopper s = None -> stopping l = true -> exec s l = None.
Proof.
  intros Hs Hr Hst Hl. destruct Hs as [m wit c|m wit pc Hpc|m wit|p m wit|r is_ p m wit ths Hp Hk Hg|p m wit ths c pc Hp Hg Hpc|m wit c]; try done.
  - by destruct l; cbn; rewrite ?lookup_nil.
  - cbn in Hr. subst r. by destruct Hp as [[]|[]].
Qed.

Lemma stopping_step s l s' : phase s -> ready s = 0 -> stopping l = true -> exec s l = Some s' ->
  phase s' /\ ready s' = 0 /\ ((if own l then 1 else 0) + work s' <= work s)%nat.
Proof.
  intros Hs Hr Hl He. destruct (decide (stopper s = None)) as [Hn|Hn].
  { by rewrite (stopped_none s l) in He. }
  split; [eapply phase_step; [done|by eapply stop_orderly|done]|]. split.
  - destruct l; try done; cbn in He.
    + destruct (threads s !! n) as [[k pl]|]; [|done]. injection He as <-.
      destruct pl; cbn; [done|by rewrite Hr|]. unfold use. destruct k, r; try done; by case_decide.
    + destruct (threads s !! n) as [[k pl]|]; [|done]. destruct pl; try done. injection He as <-.
      unfold use. destruct k, r; try done; by case_decide.
    + destruct (stopper s) as [[k|]|]; try done. destruct (decide (k ∈ completed s)); [|done]. by injection He as <-.
    + destruct (stopper s) as [[k|]|]; try done. injection He as <-. unfold stop_free.
      destruct (ring s); [|done]. by case_decide.
  - destruct (own l) eqn:Ho; [by eapply (stop_work_step s l s')|].
    destruct l; try done. cbn in He. destruct (threads s !! n) as [[k pl]|]; [|done]. destruct pl; try done.
    injection He as <-. unfold work. destruct (use_keeps s k r) as [-> ->]. lia.
Qed.

Lemma stopping_run ls : forall s s', phase s -> ready s = 0 -> Forall (fun l => stopping l = true) ls ->
  run s ls = Some s' -> phase s' /\ ready s' = 0 /\ (length (filter (fun l => own l = true) ls) + work s' <= work s)%nat.
Proof.
  induction ls as [|l ls IH]; intros s s' Hs Hr Hl He.
  - injection He as <-. split; [done|]. split; [done|]. cbn. lia.
  - apply Forall_cons_1 in Hl as [Hl Hls]. cbn in He. destruct (exec s l) as [s1|] eqn:E1; [|done]. cbn in He.
    destruct (stopping_step s l s1 Hs Hr Hl E1) as (Hs1 & Hr1 & Hw1).
    destruct (IH s1 s' Hs1 Hr1 Hls He) as (Hs' & Hr' & Hw'). split; [done|]. split; [done|].
    rewrite filter_cons. destruct (own l); [rewrite decide_True by done|rewrite decide_False by done]; cbn [length]; lia.
Qed.

Lemma stopping_ready s : phase s -> stopper s <> None -> ready s = 0.
Proof. by intros []. Qed.

Lemma work_bound s : phase s -> (work s <= 10)%nat.
Proof.
  assert (Hb : forall ths, (threads_work ths <= 2 * length (map fst ths))%nat).
  { induction ths as [|[k pl] ths IH]; cbn [threads_work foldr map length]; [lia|]. unfold threads_work in *. destruct pl; cbn; lia. }
  intros [| | | |r is_ p m wit ths Hp Hk Hg|p m wit ths c pc Hp Hg Hpc|];
    unfold work; cbn [threads stopper stopper_work idle]; try (cbn; lia).
  - specialize (Hb ths). rewrite Hk in Hb. destruct wit; cbn in Hb; lia.
  - specialize (Hb ths). apply Permutation_length in Hp. rewrite !length_app in Hp.
    destruct wit, pc as [[]|]; cbn [kinds awaited length stopper_work] in *; lia.
Qed.

(** C31. Stopping ends, for a device in the hands of an orderly caller, provided that no thread stays in the
    body of its loop for ever.  Take any run of the caller and the threads from the moment when the caller has
    begun to stop the device, in which the threads may use the ring in their bodies as often as
    they like.  At most ten of its steps are others (a thread goes on to the head of its loop, from there into the
    body or to its end; the caller gets a completion or frees the ring), and as long as the caller has not
    returned, such a step is possible.  When it has, the ring is freed and all threads have ended. *)
Theorem common_dev_stop_ends wit n c s ls s' :
  reach orderly (idle wit n c) s -> stopper s <> None ->
  Forall (fun l => stopping l = true) ls -> run s ls = Some s' ->
  (length (filter (fun l => own l = true) ls) <= 10)%nat
  /\ (stopper s' <> None -> exists l s'', own l = true /\ exec s' l = Some s'')
  /\ (stopper s' = None -> live s' = [] /\ ring s' = None /\ threads s' = [] /\ fault s' = false).
Proof.
  intros Hr Hst Hls He. pose proof (phase_reach _ _ _ _ Hr) as Hs.
  destruct (stopping_run ls s s' Hs (stopping_ready s Hs Hst) Hls He) as (Hs' & Hr' & Hw).
  pose proof (work_bound s Hs). split; [lia|]. split; [by apply stop_enabled|].
  intros Hn. destruct Hs' as [| | | |r is_ p m w ths Hp Hk Hg| |]; try done.
  cbn in Hr'. subst r. by destruct Hp as [[]|[]].
Qed.

(** *** Callers that are not orderly *)

Definition demo_env (fails : nat -> bool) : renv :=
  mkRenv true true (fun _ => true) (fun i => if fails i then - ENOMEM else 0).
Definition granted : answers := mkAns true (demo_env (fun _ => false)).
Definition refused : answers := mkAns true (mkRenv false false (fun _ => false) (fun _ => 0)).

(** Stopping a device that is still starting does not keep it from starting: the task goes on,
    makes the ring and the threads and marks the device as working, after the caller has returned.
    When it is started again meanwhile, two tasks run and a ring is lost.  A signal while
    the caller waits makes it free the ring under the threads.  Without memory for one of the buffers the
    task uses and frees a dead ring. *)
Theorem common_dev_stop_races :
  (exists s, run (idle false 0 []) [LStart; LInit 0 granted; LStop; LFree; LInit 0 granted; LInit 0 granted; LInit 0 granted] = Some s
     /\ stopper s = None /\ ready s = VOP_DEV_READY_STATE_WORK /\ threads s <> [])
  /\ (exists s, run (idle false 0 [])
       [LStart; LInit 0 granted; LStop; LFree; LStart; LInit 1 granted; LInit 0 granted; LInit 1 granted;
        LInit 0 granted; LInit 0 granted; LInit 0 granted; LInit 0 granted; LStop;
        LThread 0; LThread 0; LThread 0; LThread 0; LWait; LWait; LFree] = Some s
     /\ ready s = VOP_DEV_READY_STATE_STOP /\ stopper s = None /\ ring s = None /\ threads s = [] /\ live s <> [])
  /\ (exists s, run (idle false 0 [])
       [LStart; LInit 0 granted; LInit 0 granted; LInit 0 granted; LInit 0 granted; LThread 0; LStop; LInterrupt; LFree; LUse 0] = Some s
     /\ fault s = true)
  /\ (exists s, run (idle false 0 []) [LStart; LInit 0 granted; LInit 0 (mkAns false (demo_env (fun i => Nat.eqb i 300)))] = Some s
     /\ fault s = true /\ inits s = []).
Proof. split; [|split; [|split]]; eexists; (split; [vm_compute; reflexivity|by vm_compute]). Qed.

(** When the ring cannot be made, the device stays in the state of starting: every later
    [common_dev_start] returns success and does nothing. *)
Theorem common_dev_start_after_failure n wit c k :
  exists s, run (idle wit n c) [LStart; LInit 0 refused; LInit 0 refused] = Some s
  /\ run s (replicate k LStart) = Some s /\ ready s = VOP_DEV_READY_STATE_STARTING /\ inits s = [] /\ threads s = [].
Proof. eexists. split; [reflexivity|]. split; [|done]. by induction k. Qed.

(** ** Concrete cases *)

Definition demo_mem : mem := mkMem ∅ 0 [].

Lemma buffer_dma_ring_init_deinit_witness :
  exists m1 l, buffer_dma_ring_init (demo_env (fun _ => false)) false demo_mem = Ret (m1, Some 0%nat, 0)
  /\ owns m1 0 l []
  /\ exists m2, buffer_dma_ring_deinit m1 (Some 0%nat) = Ret m2 /\ rings m2 = ∅ /\ held m2 ≡ₚ [].
Proof.
  apply (buffer_dma_ring_init_deinit (demo_env (fun _ => false)) false demo_mem); [done|]. right. by intros j _.
Defined.

Lemma buffer_dma_ring_init_use_after_free_witness :
  buffer_dma_ring_init (demo_env (fun i => Nat.eqb i 300)) false demo_mem = Oob.
Proof.
  apply (buffer_dma_ring_init_use_after_free (demo_env (fun i => Nat.eqb i 300)) demo_mem); [done|done|done|].
  intros Hall. destruct (Hall 300%nat) as [_ H]; [by apply Nat.ltb_lt; vm_compute|]. by vm_compute in H.
Defined.

Lemma common_dev_init_mode_agrees_witness :
  let a := DevPage.mkDesc 1 2 8 6 [] in
  ('(p, _) ← DevPage.vop_finalize_features
      (DevPage.demo_boot ++ DevPage.desc_bytes (DevPage.with_sections a (DevPage.demo_sections 2)) ++ []) 184
      DevPage.demo_driver 0x1000020;
   common_dev_init_mode p 184) = Ret (true, false).
Proof.
  apply (common_dev_init_mode_agrees DevPage.demo_boot [] (DevPage.mkDesc 1 2 8 6 []) (DevPage.demo_sections 2) 184
           DevPage.demo_driver 0x1000020); by repeat split; vm_compute.
Defined.

(** A device that is started, works and is being stopped. *)
Definition demo_dev : dev :=
  mkDev 0 (Some 0%nat) [0%nat] 1 true [] [(Vrd, Busy (Some 0%nat)); (Vdm, Busy (Some 0%nat)); (Vsd, Head None)] [] (Some (SWait Vrd)) false.

Lemma reach_cons P s s1 s2 l : P s l -> exec s l = Some s1 -> reach P s1 s2 -> reach P s s2.
Proof.
  intros HP He Hr. induction Hr as [s1|s1 s2 s3 l' Hr IH HP' He']; [|eapply reach_step; [by apply IH|done..]].
  eapply reach_step; [apply reach_refl|done..].
Qed.

Ltac go l := eapply (reach_cons _ _ _ _ l); [first [by cbn | by left | by right]|vm_compute; reflexivity|].

Lemma demo_reach : reach orderly (idle false 0 []) demo_dev.
Proof.
  go LStart. go (LInit 0 granted). go (LInit 0 (mkAns false (demo_env (fun _ => false)))). go (LInit 0 granted). go (LInit 0 granted).
  go (LThread 0). go (LThread 1). go (LThread 1). go (LUse 0). go LStop. apply reach_refl.
Qed.

Lemma common_dev_lifecycle_safe_witness : fault demo_dev = false /\ live demo_dev = [0%nat].
Proof. destruct (common_dev_lifecycle_safe false 0 [] demo_dev demo_reach) as (H1 & H2 & _). split; [exact H1|exact H2]. Defined.

(** The threads use their ring, end, and the caller gets on. *)
Definition demo_stopping : list label :=
  [LUse 0; LThread 1; LUse 0; LThread 0; LThread 0; LWait; LThread 1; LThread 0; LWait; LWait; LFree].

Lemma common_dev_stop_ends_witness : exists s',
  run demo_dev demo_stopping = Some s' /\ stopper s' = None /\ live s' = [] /\ threads s' = [].
Proof.
  destruct (run demo_dev demo_stopping) as [s'|] eqn:E; [|vm_compute in E; discriminate E].
  destruct (common_dev_stop_ends false 0 [] demo_dev demo_stopping s' demo_reach) as (_ & _ & H); [discriminate|..].
  - repeat constructor.
  - exact E.
  - assert (stopper s' = None) as Hn by (vm_compute in E; injection E as <-; reflexivity).
    destruct (H Hn) as (H1 & _ & H3 & _). exists s'. split; [reflexivity|]. split; [exact Hn|]. split; [exact H1|exact H3].
Defined.

End VopLife.
