(* ===== verification/VopCard.v ===== *)
(** * The side of the node: hot plug (vop_main.c)

    The node goes through the device page, makes a device for every descriptor that
    has none, and removes the devices whose removal the host asks for.  Pages and slots
    are those of [DevPage].  A device of the node is a record in [vdev_list]; what it has
    taken from the kernel is kept in [held].  The address of a device is stored in the
    page, and the code follows the address that it finds there.

    The driver behind the virtio bus, which is probed when a device is registered and writes
    to the page meanwhile, is the class [VirtioBus]. *)

From stdpp Require Import base list option tactics.
From Stdlib Require Import ZArith Lia.
From S2P Require Import Prelude DevPage.
Import DevPage.

Module VopCard.

Definition VCA_VIRTIO_PARAM_DEV_REMOVE := 1.
Definition VRING_INDEX_RECV := 0.

Definition readq (p : list Z) (off : Z) : outcome Z := bs ← peek p off 8; Ret (le bs).
Definition writeq (p : list Z) (off v : Z) : outcome (list Z) := poke p off (le_bytes 8 v).
Definition writel (p : list Z) (off v : Z) : outcome (list Z) := poke p off (le_bytes 4 v).

(** [struct _vop_vdev], at [v_ptr]. *)
Record vdev := mkVdev {
  v_ptr : Z;
  v_desc : Z;
  v_id : Z;
  v_c2h_conf_db : Z;
  v_c2h_avail_db : Z;
  v_c2h_used_db : Z;
  v_h2c_conf_db : Z;
  v_h2c_avail_db : Z;
  v_h2c_used_db : Z;
}.

(** What the device at an address holds: its memory, its three handlers, the common
    device inside it, its registration. *)
Inductive irq := Conf | Avail | Used.
Inductive res :=
| RVdev (p : Z)
| RIrq (p : Z) (i : irq)
| RCdev (p : Z)
| RBus (p : Z).
#[global] Instance irq_eq_dec : EqDecision irq.
Proof. solve_decision. Defined.
#[global] Instance res_eq_dec : EqDecision res.
Proof. solve_decision. Defined.

Record card := mkCard {
  dp : list Z;
  vdev_list : list vdev;
  held : list res;
  calls : nat;
}.

Definition set_dp (c : card) p := mkCard p (vdev_list c) (held c) (calls c).
Definition set_list (c : card) l := mkCard (dp c) l (held c) (calls c).
Definition take_res (c : card) r := mkCard (dp c) (vdev_list c) (r :: held c) (calls c).
Definition give (c : card) (r : res) : outcome card :=
  if decide (r ∈ held c) then Ret (mkCard (dp c) (vdev_list c) (release r (held c)) (calls c)) else Oob.

(** The answers that one call of [_vop_add_device] gets: the address of the memory, the
    doorbells and whether their handlers can be registered, the result of
    [common_dev_init] and the address of its rings, the result of registering. *)
Record answers := mkAnswers {
  a_vdev : option Z;
  a_conf_db : Z; a_conf_irq : option Z;
  a_avail_db : Z; a_avail_irq : option Z;
  a_used_db : Z; a_used_irq : option Z;
  a_cdev : Z;
  a_kvec_pa : Z;
  a_register : Z;
}.

(** What the bus and the driver do to the page when the device at the offset is registered and
    unregistered. *)
Class VirtioBus := {
  on_register : list Z -> Z -> list Z;
  on_unregister : list Z -> Z -> list Z;
}.

Section Card.
Context `{VirtioBus} (e : nat -> answers).

(** One doorbell: it is written to the control block, and that of the other direction is
    read; the error when the handler cannot be registered. *)
Definition setup_irq (c : card) (dc ptr : Z) (i : irq) (db : Z) (failed : option Z) (h2c c2h : Z) : outcome (card * (Z + Z)) :=
  match failed with
  | Some err => Ret (c, inr err)
  | None =>
      let c := take_res c (RIrq ptr i) in
      p ← aset (dp c) (dc + h2c) (u8 db);
      peer ← aget p (dc + c2h);
      Ret (set_dp c p, inl (s8 peer))
  end.

Definition free_irqs (c : card) (ptr : Z) : outcome card :=
  c ← give c (RIrq ptr Conf);
  c ← give c (RIrq ptr Avail);
  give c (RIrq ptr Used).

Definition _vop_add_device (c : card) (d : Z) : outcome (card * Z) :=
  let a := e (calls c) in
  let c := mkCard (dp c) (vdev_list c) (held c) (S (calls c)) in
  type ← aget (dp c) (d + d_type);
  n ← vca_aligned_desc_size (dp c) d;
  host_dd ← vca_host_device_desc (dp c) d;
  let host_dc := host_dd + n in
  num_vq ← aget (dp c) (d + d_num_vq);
  if negb (num_vq =? 2) then Ret (c, - ENODEV)
  else
    num_rcv_descs ← vqconfig_num (dp c) d VRING_INDEX_RECV;
    match a_vdev a with
    | None => Ret (c, - ENOMEM)
    | Some ptr =>
        let c := take_res c (RVdev ptr) in
        let dc := d + n in
        let kfree c err := c ← give c (RVdev ptr); Ret (c, err) in
        '(c, r) ← setup_irq c dc ptr Conf (a_conf_db a) (a_conf_irq a) dc_h2c_vdev_conf_db dc_c2h_vdev_conf_db;
        match r with inr err => kfree c err | inl c2h_conf =>
        '(c, r) ← setup_irq c dc ptr Avail (a_avail_db a) (a_avail_irq a) dc_h2c_vdev_avail_db dc_c2h_vdev_avail_db;
        match r with inr err => kfree c err | inl c2h_avail =>
        '(c, r) ← setup_irq c dc ptr Used (a_used_db a) (a_used_irq a) dc_h2c_vdev_used_db dc_c2h_vdev_used_db;
        match r with inr err => kfree c err | inl c2h_used =>
        if negb (a_cdev a =? 0) then Ret (c, a_cdev a)
        else
          let c := take_res c (RCdev ptr) in
          p ← writeq (dp c) (host_dc + dc_kvec_buf_address) (a_kvec_pa a);
          p ← writel p (host_dc + dc_kvec_buf_elems) num_rcv_descs;
          let c := set_dp c (on_register p d) in
          if negb (a_register a =? 0) then
            c ← free_irqs c ptr;
            kfree c (a_register a)
          else
            let c := take_res c (RBus ptr) in
            p ← writeq (dp c) (dc + dc_vdev) ptr;
            let v := mkVdev ptr d type c2h_conf c2h_avail c2h_used (a_conf_db a) (a_avail_db a) (a_used_db a) in
            Ret (set_list (set_dp c p) (vdev_list c ++ [v]), 0)
        end end end
    end.

(** [*vdev] for an address found in the page. *)
Definition find_ptr (ptr : Z) (l : list vdev) : option vdev := List.find (fun v => v_ptr v =? ptr) l.
Definition list_del (ptr : Z) (l : list vdev) : list vdev := List.filter (fun v => negb (v_ptr v =? ptr)) l.

Definition _vop_remove_device (c : card) (d : Z) : outcome (card * Z) :=
  n ← vca_aligned_desc_size (dp c) d;
  let dc := d + n in
  ptr ← readq (dp c) (dc + dc_vdev);
  change ← aget (dp c) (dc + dc_config_change);
  if change =? VCA_VIRTIO_PARAM_DEV_REMOVE then
    p ← aset (dp c) (dc + dc_guest_ack) GUEST_ACK_RECEIVED;
    match find_ptr ptr (vdev_list c) with
    | None => Oob
    | Some v =>
        let c := set_list (set_dp c p) (list_del ptr (vdev_list c)) in
        c ← give c (RCdev ptr);
        c ← give (set_dp c (on_unregister (dp c) d)) (RBus ptr);
        c ← give c (RIrq ptr Conf);
        p ← aset (dp c) (dc + dc_h2c_vdev_conf_db) 255;
        c ← give (set_dp c p) (RIrq ptr Avail);
        p ← aset (dp c) (dc + dc_h2c_vdev_avail_db) 255;
        c ← give (set_dp c p) (RIrq ptr Used);
        p ← aset (dp c) (dc + dc_h2c_vdev_used_db) 255;
        c ← give (set_dp c p) (RVdev ptr);
        p ← aset (dp c) (dc + dc_guest_ack) GUEST_ACK_DONE;
        p ← aset p (d + d_type) 255;
        Ret (set_dp c p, 0)
    end
  else Ret (c, -1).

(** [device_find_child] with [vop_match_desc]. *)
Definition find_desc (d : Z) (l : list vdev) : option vdev := List.find (fun v => v_desc v =? d) l.

(** The loop of [_vop_scan_devices] from offset [i] on. *)
Fixpoint _vop_scan_devices (fuel : nat) (c : card) (remove : bool) (i : Z) : outcome card :=
  match fuel with
  | O => Spin
  | S fuel =>
      if i <? VCA_DP_SIZE then
        n ← vca_aligned_desc_size (dp c) i;
        let dc := i + n in
        type ← aget (dp c) (i + d_type);
        if s8 type =? 0 then Ret c
        else
          c ← (if s8 type =? -1 then Ret c
               else match find_desc i (vdev_list c) with
               | Some _ =>
                   p ← (if remove then aset (dp c) (dc + dc_config_change) VCA_VIRTIO_PARAM_DEV_REMOVE else Ret (dp c));
                   '(c, _) ← _vop_remove_device (set_dp c p) i;
                   if remove then
                     p ← aset (dp c) (dc + dc_config_change) 0;
                     p ← aset p (dc + dc_guest_ack) GUEST_ACK_NONE;
                     Ret (set_dp c p)
                   else Ret c
               | None =>
                   if remove then Ret c
                   else '(c, _) ← _vop_add_device c i; Ret c
               end);
          n ← vca_total_desc_size (dp c) i;
          _vop_scan_devices fuel c remove (u32 (i + n))
      else Ret c
  end.

(** [get_dp] is the page. *)
Definition vop_scan_devices (c : card) (remove : bool) : outcome card :=
  _vop_scan_devices slot_fuel c remove sizeof_vca_bootparam.

End Card.

(** ** Lemmas: one slot

    [ctrl_at c k] is the byte at [k] of a control block. *)
Definition ctrl_at (c : list Z) (k : Z) : Z := nth (Z.to_nat k) c 0.

Lemma aget_ctrl_at c k : zlen c = 40 -> 0 <= k < 40 -> aget c k = Ret (ctrl_at c k).
Proof.
  intros Hc Hk. destruct (aget_total c k) as (v & -> & Hv); [lia|]. f_equal. unfold ctrl_at. symmetry.
  by apply nth_lookup_Some.
Qed.

Lemma ctrl_at_set c k v j : 0 <= k < zlen c -> 0 <= j -> ctrl_at (ctrl_set c k v) j = if j =? k then v else ctrl_at c j.
Proof.
  intros Hk Hj. unfold ctrl_at, ctrl_set. rewrite !nth_lookup. destruct (Z.eqb_spec j k) as [->|Hne].
  - by rewrite list_lookup_insert_eq by (unfold zlen in Hk; lia).
  - by rewrite list_lookup_insert_ne by lia.
Qed.

(** The contract of the bus and of the driver: they write to the slot of the device, and leave its
    header, the addresses and the doorbells alone. *)
Class VirtioBusOk `(VirtioBus) := {
  reg : slot -> slot;
  unreg : slot -> slot;
  register_page pre s post d : slot_ok s -> d = zlen pre ->
    on_register (pre ++ slot_bytes s ++ post) d = pre ++ slot_bytes (reg s) ++ post;
  unregister_page pre s post d : slot_ok s -> d = zlen pre ->
    on_unregister (pre ++ slot_bytes s ++ post) d = pre ++ slot_bytes (unreg s) ++ post;
  driver_slot s f : f = reg \/ f = unreg -> slot_ok s ->
    slot_ok (f s) /\ ds_type (s_desc (f s)) = ds_type (s_desc s) /\ same_shape (s_desc (f s)) (s_desc s)
    /\ s_host_ctrl (f s) = s_host_ctrl s
    /\ forall k, 0 <= k < 40 -> k <> dc_vdev_reset -> k <> dc_host_ack -> k <> dc_used_address_updated ->
         ctrl_at (s_ctrl (f s)) k = ctrl_at (s_ctrl s) k;
}.

Section Proofs.
Context `{Hbus : VirtioBusOk} (e : nat -> answers).

Lemma same_size a b : same_shape a b -> aligned_size a = aligned_size b.
Proof. unfold same_shape, aligned_size, desc_size. by intros (-> & -> & ->). Qed.

(** Every answer is the good one. *)
Definition good (a : answers) (ptr : Z) : Prop :=
  a_vdev a = Some ptr /\ a_conf_irq a = None /\ a_avail_irq a = None /\ a_used_irq a = None
  /\ a_cdev a = 0 /\ a_register a = 0.

(** The slot of a new device, before and after it is registered. *)
Definition offered (a : answers) (s : slot) : slot :=
  let c := ctrl_set (ctrl_set (ctrl_set (s_ctrl s) dc_h2c_vdev_conf_db (u8 (a_conf_db a)))
             dc_h2c_vdev_avail_db (u8 (a_avail_db a))) dc_h2c_vdev_used_db (u8 (a_used_db a)) in
  let h := ctrl_write (ctrl_write (s_host_ctrl s) dc_kvec_buf_address (le_bytes 8 (a_kvec_pa a)))
             dc_kvec_buf_elems (le_bytes 4 (queue_num (s_desc s) 0)) in
  with_host_ctrl (with_ctrl s c) h.
Definition added_slot (a : answers) (ptr : Z) (s : slot) : slot :=
  let r := reg (offered a s) in with_ctrl r (ctrl_write (s_ctrl r) dc_vdev (le_bytes 8 ptr)).

Definition new_vdev (a : answers) (ptr d : Z) (s : slot) : vdev :=
  mkVdev ptr d (ds_type (s_desc s)) (s8 (ctrl_at (s_ctrl s) dc_c2h_vdev_conf_db))
    (s8 (ctrl_at (s_ctrl s) dc_c2h_vdev_avail_db)) (s8 (ctrl_at (s_ctrl s) dc_c2h_vdev_used_db))
    (a_conf_db a) (a_avail_db a) (a_used_db a).

(** What a device holds. *)
Definition vdev_res (p : Z) : list res := [RCdev p; RBus p; RIrq p Conf; RIrq p Avail; RIrq p Used; RVdev p].
(** The same in the order in which it is taken, the last first. *)
Definition taken_res (p : Z) : list res := [RBus p; RCdev p; RIrq p Used; RIrq p Avail; RIrq p Conf; RVdev p].

Lemma taken_vdev p : taken_res p ≡ₚ vdev_res p.
Proof.
  unfold taken_res, vdev_res. rewrite (Permutation_swap (RBus p)). do 2 f_equiv.
  change ([RIrq p Used; RIrq p Avail; RIrq p Conf] ++ [RVdev p] ≡ₚ rev [RIrq p Used; RIrq p Avail; RIrq p Conf] ++ [RVdev p]).
  apply Permutation_app_tail, Permutation_rev.
Qed.

Lemma ctrl_len s : slot_ok s -> zlen (s_ctrl s) = 40.
Proof. by intros (_ & _ & _ & _ & Hl & _). Qed.
Lemma host_ctrl_len s : slot_ok s -> zlen (s_host_ctrl s) = 40.
Proof. by intros (_ & _ & _ & _ & _ & _ & Hl). Qed.

(** Writing the doorbell of an interrupt and reading its counterpart. *)
Lemma setup_irq_ok c pre s post d ptr i db h2c c2h :
  dp c = pre ++ slot_bytes s ++ post -> slot_ok s -> d = zlen pre -> 0 <= h2c < 40 -> 0 <= c2h < 40 -> c2h <> h2c ->
  setup_irq c (d + aligned_size (s_desc s)) ptr i db None h2c c2h
  = Ret (mkCard (pre ++ slot_bytes (with_ctrl s (ctrl_set (s_ctrl s) h2c (u8 db))) ++ post) (vdev_list c)
           (RIrq ptr i :: held c) (calls c), inl (s8 (ctrl_at (s_ctrl s) c2h))).
Proof.
  intros Hp Hs Hd Hh Hc Hne. unfold setup_irq. cbn [dp take_res]. rewrite Hp, ctrl_put by done. run_bind.
  pose proof (ctrl_len s Hs) as Hl.
  destruct (with_ctrl_ok s (ctrl_set (s_ctrl s) h2c (u8 db)) Hs (zlen_ctrl_set _ _ _)) as [Hs' _].
  rewrite (ctrl_get pre post d Hd (with_ctrl s (ctrl_set (s_ctrl s) h2c (u8 db)))) by done.
  cbn [s_ctrl with_ctrl]. rewrite aget_ctrl_at by (rewrite ?zlen_ctrl_set; done). run_bind.
  rewrite ctrl_at_set by (rewrite ?Hl; done || lia). by rewrite (proj2 (Z.eqb_neq c2h h2c)) by done.
Qed.

Lemma offered_ok a s : slot_ok s -> slot_ok (offered a s).
Proof.
  intros Hs. pose proof (ctrl_len s Hs) as Hc. pose proof (host_ctrl_len s Hs) as Hh. unfold offered.
  set (c := ctrl_set _ _ _). set (h := ctrl_write _ _ _).
  destruct (with_ctrl_ok s c Hs) as [H1 _]; [by unfold c; rewrite !zlen_ctrl_set|].
  apply with_host_ctrl_ok; [done|]. cbn [s_host_ctrl with_ctrl]. unfold h. pose proof (length_le_bytes 8 (a_kvec_pa a)).
  pose proof (length_le_bytes 4 (queue_num (s_desc s) 0)).
  assert (zlen (ctrl_write (s_host_ctrl s) dc_kvec_buf_address (le_bytes 8 (a_kvec_pa a))) = zlen (s_host_ctrl s)) as Hw.
  { apply zlen_ctrl_write; unfold dc_kvec_buf_address, zlen in *; lia. }
  rewrite zlen_ctrl_write; [done|unfold dc_kvec_buf_elems; lia|rewrite Hw; unfold dc_kvec_buf_elems, zlen in *; lia].
Qed.

(** The slot once the doorbells are in it. *)
Definition announced (a : answers) (s : slot) : slot :=
  with_ctrl s (ctrl_set (ctrl_set (ctrl_set (s_ctrl s) dc_h2c_vdev_conf_db (u8 (a_conf_db a)))
    dc_h2c_vdev_avail_db (u8 (a_avail_db a))) dc_h2c_vdev_used_db (u8 (a_used_db a))).

(** Adding a device when it gets its handlers. *)
Lemma add_device_irqs c pre s post d ptr :
  let a := e (calls c) in
  let at_slot x l h := mkCard (pre ++ slot_bytes x ++ post) l h (S (calls c)) in
  let irqs := [RIrq ptr Used; RIrq ptr Avail; RIrq ptr Conf; RVdev ptr] ++ held c in
  dp c = pre ++ slot_bytes s ++ post -> slot_ok s -> ds_num_vq (s_desc s) = 2 -> d = zlen pre ->
  a_vdev a = Some ptr -> a_conf_irq a = None -> a_avail_irq a = None -> a_used_irq a = None ->
  _vop_add_device e c d
  = if negb (a_cdev a =? 0) then Ret (at_slot (announced a s) (vdev_list c) irqs, a_cdev a)
    else if negb (a_register a =? 0) then
      c ← free_irqs (at_slot (reg (offered a s)) (vdev_list c) (RCdev ptr :: irqs)) ptr;
      c ← give c (RVdev ptr); Ret (c, a_register a)
    else Ret (at_slot (added_slot a ptr s) (vdev_list c ++ [new_vdev a ptr d s]) (taken_res ptr ++ held c), 0).
Proof.
  intros a at_slot irqs Hp Hs Hnv Hd H1 H2 H3 H4. unfold _vop_add_device. fold a. cbn [dp vdev_list held calls].
  rewrite Hp, slot_type, slot_aligned, slot_host_desc, slot_num_vq by done. run_bind. rewrite Hnv. cbn [negb Z.eqb Pos.eqb].
  unfold VRING_INDEX_RECV. rewrite slot_queue_num by (done || rewrite Hnv; by vm_compute). run_bind. rewrite H1, H2, H3, H4.
  set (A := aligned_size (s_desc s)).
  pose proof (ctrl_len s Hs) as Hc. pose proof (host_ctrl_len s Hs) as Hh.
  set (s1 := with_ctrl s (ctrl_set (s_ctrl s) dc_h2c_vdev_conf_db (u8 (a_conf_db a)))).
  set (s2 := with_ctrl s1 (ctrl_set (s_ctrl s1) dc_h2c_vdev_avail_db (u8 (a_avail_db a)))).
  set (s3 := with_ctrl s2 (ctrl_set (s_ctrl s2) dc_h2c_vdev_used_db (u8 (a_used_db a)))).
  assert (slot_ok s1 /\ slot_ok s2 /\ slot_ok s3) as (Hs1 & Hs2 & Hs3).
  { assert (forall x k v, slot_ok x -> slot_ok (with_ctrl x (ctrl_set (s_ctrl x) k v))) as Hok.
    { intros x k v Hx. apply with_ctrl_ok; [done|apply zlen_ctrl_set]. }
    split; [by apply Hok|]. split; [by apply Hok, Hok|by apply Hok, Hok, Hok]. }
  rewrite (setup_irq_ok _ pre s post) by (done || by vm_compute). run_bind. fold s1.
  rewrite (setup_irq_ok _ pre s1 post) by (done || by vm_compute). run_bind. fold s2.
  rewrite (setup_irq_ok _ pre s2 post) by (done || by vm_compute). run_bind. fold s3. destruct (negb (a_cdev a =? 0)); [done|]. cbn [dp take_res vdev_list held calls set_dp].
  unfold writeq, writel. change A with (aligned_size (s_desc s3)).
  pose proof (length_le_bytes 8 (a_kvec_pa a)). pose proof (length_le_bytes 4 (queue_num (s_desc s) 0)).
  rewrite host_ctrl_poke by (done || (unfold dc_kvec_buf_address, zlen; lia)). run_bind.
  set (s4 := with_host_ctrl s3 _).
  assert (slot_ok s4) as Hs4.
  { apply with_host_ctrl_ok; [done|]. apply zlen_ctrl_write; [by vm_compute|]. rewrite (host_ctrl_len s3) by done.
    unfold dc_kvec_buf_address, zlen. lia. }
  change (aligned_size (s_desc s3)) with (aligned_size (s_desc s4)).
  rewrite host_ctrl_poke by (done || (unfold dc_kvec_buf_elems, zlen; lia)). run_bind.
  assert (with_host_ctrl s4 (ctrl_write (s_host_ctrl s4) dc_kvec_buf_elems (le_bytes 4 (queue_num (s_desc s) 0))) = offered a s) as -> by done.
  pose proof (offered_ok a s Hs) as Ho. rewrite register_page by done.
  destruct (driver_slot (offered a s) reg (or_introl eq_refl) Ho) as (Hr & _ & Hsh & _).
  destruct (negb (a_register a =? 0)); [done|].
  change (aligned_size (s_desc s4)) with (aligned_size (s_desc (offered a s))). rewrite <- (same_size _ _ Hsh).
  pose proof (length_le_bytes 8 ptr).
  rewrite ctrl_poke by (done || (unfold dc_vdev, zlen; lia)). run_bind.
  assert (ctrl_at (s_ctrl s1) dc_c2h_vdev_avail_db = ctrl_at (s_ctrl s) dc_c2h_vdev_avail_db) as ->.
  { unfold s1. cbn [s_ctrl with_ctrl]. rewrite ctrl_at_set by (rewrite ?Hc; by vm_compute). done. }
  assert (ctrl_at (s_ctrl s2) dc_c2h_vdev_used_db = ctrl_at (s_ctrl s) dc_c2h_vdev_used_db) as ->.
  { unfold s2, s1. cbn [s_ctrl with_ctrl]. rewrite !ctrl_at_set by (rewrite ?zlen_ctrl_set, ?Hc; by vm_compute). done. }
  done.
Qed.

(** Adding a device when everything works. *)
Lemma add_device_ok c pre s post d ptr :
  let a := e (calls c) in
  dp c = pre ++ slot_bytes s ++ post -> slot_ok s -> ds_num_vq (s_desc s) = 2 -> d = zlen pre -> good a ptr ->
  _vop_add_device e c d
  = Ret (mkCard (pre ++ slot_bytes (added_slot a ptr s) ++ post) (vdev_list c ++ [new_vdev a ptr d s])
           (taken_res ptr ++ held c) (S (calls c)), 0).
Proof.
  intros a Hp Hs Hnv Hd (H1 & H2 & H3 & H4 & H5 & H6).
  rewrite (add_device_irqs c pre s post d ptr) by done. fold a. by rewrite H5, H6.
Qed.

Lemma give_held c r rest : held c ≡ₚ r :: rest ->
  exists h, give c r = Ret (mkCard (dp c) (vdev_list c) h (calls c)) /\ h ≡ₚ rest.
Proof.
  intros Hh. unfold give. rewrite decide_True by (rewrite Hh; left). eexists. split; [done|]. by apply release_held.
Qed.

(** The slot of a device that has been removed. *)
Definition removed_slot (s : slot) : slot :=
  let u := unreg (with_ctrl s (ctrl_set (s_ctrl s) dc_guest_ack GUEST_ACK_RECEIVED)) in
  let c := ctrl_set (ctrl_set (ctrl_set (s_ctrl u) dc_h2c_vdev_conf_db 255) dc_h2c_vdev_avail_db 255) dc_h2c_vdev_used_db 255 in
  with_type (with_ctrl u (ctrl_set c dc_guest_ack GUEST_ACK_DONE)) 255.

(** The address that the slot holds. *)
Definition slot_vdev (s : slot) : Z := le (take 8 (s_ctrl s)).

Lemma readq_ctrl pre s post d : slot_ok s -> d = zlen pre ->
  readq (pre ++ slot_bytes s ++ post) (d + aligned_size (s_desc s) + dc_vdev) = Ret (slot_vdev s).
Proof.
  intros Hs Hd. unfold readq, dc_vdev. rewrite ctrl_peek by (done || lia). unfold peek. rewrite (ctrl_len s Hs). done.
Qed.

Lemma put_ok s k v : slot_ok s -> slot_ok (with_ctrl s (ctrl_set (s_ctrl s) k v)).
Proof. intros Hs. apply with_ctrl_ok; [done|apply zlen_ctrl_set]. Qed.

(** A byte of the control block is written, then a resource is given back. *)
Lemma put_give A c pre s post d k v r rest :
  A = aligned_size (s_desc s) -> dp c = pre ++ slot_bytes s ++ post -> slot_ok s -> d = zlen pre -> 0 <= k < 40 -> held c ≡ₚ r :: rest ->
  exists h, h ≡ₚ rest /\ forall B (F : card -> outcome B),
    (p ← aset (dp c) (d + A + k) v; c ← give (set_dp c p) r; F c)
    = F (mkCard (pre ++ slot_bytes (with_ctrl s (ctrl_set (s_ctrl s) k v)) ++ post) (vdev_list c) h (calls c)).
Proof.
  intros -> Hp Hs Hd Hk Hh. rewrite Hp, ctrl_put by done. run_bind. unfold set_dp. 
  destruct (give_held (mkCard (pre ++ slot_bytes (with_ctrl s (ctrl_set (s_ctrl s) k v)) ++ post) (vdev_list c) (held c) (calls c)) r rest Hh)
    as (h & E & Hr). exists h. split; [done|]. intros B F. by rewrite E.
Qed.

(** The interrupts and the memory of a device are given back. *)
Lemma remove_tail c pre u post d ptr rest :
  dp c = pre ++ slot_bytes u ++ post -> slot_ok u -> d = zlen pre ->
  held c ≡ₚ RIrq ptr Conf :: RIrq ptr Avail :: RIrq ptr Used :: RVdev ptr :: rest ->
  let c0 := ctrl_set (ctrl_set (ctrl_set (s_ctrl u) dc_h2c_vdev_conf_db 255) dc_h2c_vdev_avail_db 255) dc_h2c_vdev_used_db 255 in
  let dc := d + aligned_size (s_desc u) in
  exists h,
  (c ← give c (RIrq ptr Conf);
   p ← aset (dp c) (dc + dc_h2c_vdev_conf_db) 255;
   c ← give (set_dp c p) (RIrq ptr Avail);
   p ← aset (dp c) (dc + dc_h2c_vdev_avail_db) 255;
   c ← give (set_dp c p) (RIrq ptr Used);
   p ← aset (dp c) (dc + dc_h2c_vdev_used_db) 255;
   c ← give (set_dp c p) (RVdev ptr);
   p ← aset (dp c) (dc + dc_guest_ack) GUEST_ACK_DONE;
   p ← aset p (d + d_type) 255;
   Ret (set_dp c p, 0))
  = Ret (mkCard (pre ++ slot_bytes (with_type (with_ctrl u (ctrl_set c0 dc_guest_ack GUEST_ACK_DONE)) 255) ++ post)
           (vdev_list c) h (calls c), 0) /\ h ≡ₚ rest.
Proof.
  intros Hp Hu Hd Hh c0 dc. unfold dc. destruct (give_held c _ _ Hh) as (h1 & -> & H1). run_bind. rewrite Hp.
  destruct (put_give (aligned_size (s_desc u)) (mkCard (pre ++ slot_bytes u ++ post) (vdev_list c) h1 (calls c)) pre u post d dc_h2c_vdev_conf_db 255 _ _
              eq_refl eq_refl Hu Hd ltac:(by vm_compute) H1) as (h2 & H2 & E2). rewrite E2. clear E2.
  cbn [vdev_list calls]. set (u1 := with_ctrl u _). assert (slot_ok u1) as Hu1 by by apply put_ok.
  destruct (put_give (aligned_size (s_desc u)) (mkCard (pre ++ slot_bytes u1 ++ post) (vdev_list c) h2 (calls c)) pre u1 post d dc_h2c_vdev_avail_db 255 _ _
              eq_refl eq_refl Hu1 Hd ltac:(by vm_compute) H2) as (h3 & H3 & E3).
 rewrite E3. clear E3.
  cbn [vdev_list calls]. set (u2 := with_ctrl u1 _). assert (slot_ok u2) as Hu2 by by apply put_ok.
  destruct (put_give (aligned_size (s_desc u)) (mkCard (pre ++ slot_bytes u2 ++ post) (vdev_list c) h3 (calls c)) pre u2 post d dc_h2c_vdev_used_db 255 _ _
              eq_refl eq_refl Hu2 Hd ltac:(by vm_compute) H3) as (h4 & H4 & E4).
 rewrite E4. clear E4.
  cbn [vdev_list calls dp]. set (u3 := with_ctrl u2 _). assert (slot_ok u3) as Hu3 by by apply put_ok.
  change (aligned_size (s_desc u)) with (aligned_size (s_desc u3)). rewrite ctrl_put by (done || by vm_compute). run_bind.
  rewrite slot_set_type by done. run_bind. by exists h4.
Qed.

(** Removing a device that the host has asked to remove. *)
Lemma remove_device_ok c pre s post d v rest :
  dp c = pre ++ slot_bytes s ++ post -> slot_ok s -> d = zlen pre ->
  ctrl_at (s_ctrl s) dc_config_change = VCA_VIRTIO_PARAM_DEV_REMOVE ->
  find_ptr (slot_vdev s) (vdev_list c) = Some v -> held c ≡ₚ vdev_res (slot_vdev s) ++ rest ->
  exists h, _vop_remove_device c d
    = Ret (mkCard (pre ++ slot_bytes (removed_slot s) ++ post) (list_del (slot_vdev s) (vdev_list c)) h (calls c), 0)
  /\ h ≡ₚ rest.
Proof.
  intros Hp Hs Hd Hchg Hv Hh. set (ptr := slot_vdev s) in *. unfold _vop_remove_device. rewrite Hp, slot_aligned by done. run_bind.
  rewrite readq_ctrl by done. run_bind. fold ptr.
  rewrite ctrl_get by (done || by vm_compute). rewrite aget_ctrl_at by (by apply ctrl_len || by vm_compute). run_bind.
  rewrite Hchg. cbn [Z.eqb Pos.eqb VCA_VIRTIO_PARAM_DEV_REMOVE]. rewrite ctrl_put by (done || by vm_compute). run_bind.
  rewrite Hv. set (s1 := with_ctrl s _). assert (slot_ok s1) as Hs1 by by apply put_ok.
  set (l := list_del ptr (vdev_list c)).
  change (set_list (set_dp c (pre ++ slot_bytes s1 ++ post)) l) with (mkCard (pre ++ slot_bytes s1 ++ post) l (held c) (calls c)).
  destruct (give_held (mkCard (pre ++ slot_bytes s1 ++ post) l (held c) (calls c)) _ _ Hh) as (h1 & -> & H1). run_bind.
  cbn [dp vdev_list held calls]. change (set_dp (mkCard ?p l h1 (calls c)) ?q) with (mkCard q l h1 (calls c)).
  rewrite unregister_page by done. set (u := unreg s1).
  destruct (driver_slot s1 unreg (or_intror eq_refl) Hs1) as (Hu & _ & Hsh & _). fold u in Hu, Hsh.
  destruct (give_held (mkCard (pre ++ slot_bytes u ++ post) l h1 (calls c)) _ _ H1) as (h2 & -> & H2). run_bind.
  replace (aligned_size (s_desc s)) with (aligned_size (s_desc u)) by by rewrite (same_size _ _ Hsh).
  by apply (remove_tail (mkCard (pre ++ slot_bytes u ++ post) l h2 (calls c)) pre u post d ptr rest).
Qed.

(** ** Scanning

    A slot on which a scan has nothing to do: it has no device, or it has one that is known and
    not to be removed. *)
Definition quiet (devs : list vdev) (off : Z) (s : slot) : Prop :=
  slot_ok s /\ (ds_type (s_desc s) = 255
    \/ in_use s = true /\ (exists v, find_desc off devs = Some v)
       /\ ctrl_at (s_ctrl s) dc_config_change <> VCA_VIRTIO_PARAM_DEV_REMOVE).
Fixpoint all_quiet (devs : list vdev) (off : Z) (l : list slot) : Prop :=
  match l with
  | [] => True
  | s :: l => quiet devs off s /\ all_quiet devs (off + slot_size s) l
  end.

Lemma type_used s : slot_ok s -> in_use s = true ->
  (s8 (ds_type (s_desc s)) =? 0) = false /\ (s8 (ds_type (s_desc s)) =? -1) = false.
Proof.
  intros Hs Hu. apply orb_false_iff. rewrite type_free by apply Hs. unfold in_use in Hu. by apply negb_true_iff in Hu.
Qed.

Lemma slot_size_mod s : slot_ok s -> slot_size s mod 8 = 0.
Proof.
  intros Hs. unfold slot_size, total_size, aligned_size, sizeof_vca_device_ctrl.
  replace (2 * ((desc_size (s_desc s) + 7) / 8 * 8 + 40)) with ((2 * ((desc_size (s_desc s) + 7) / 8) + 10) * 8) by lia.
  apply Z_mod_mult.
Qed.

(** One turn of the loop on a slot. *)
Lemma scan_turn fuel c pre s post off :
  dp c = pre ++ slot_bytes s ++ post -> slot_ok s -> off = zlen pre -> off < VCA_DP_SIZE ->
  ds_type (s_desc s) <> 0 ->
  _vop_scan_devices e (S fuel) c false off
  = (c ← (if s8 (ds_type (s_desc s)) =? -1 then Ret c
          else match find_desc off (vdev_list c) with
               | Some _ => '(c, _) ← _vop_remove_device c off; Ret c
               | None => '(c, _) ← _vop_add_device e c off; Ret c
               end);
     n ← vca_total_desc_size (dp c) off;
     _vop_scan_devices e fuel c false (u32 (off + n))).
Proof.
  intros Hp Hs Hoff Hlim Ht. cbn [_vop_scan_devices]. rewrite (proj2 (Z.ltb_lt off VCA_DP_SIZE)) by done.
  rewrite Hp, slot_aligned, slot_type by done. run_bind.
  assert ((s8 (ds_type (s_desc s)) =? 0) = false) as ->.
  { destruct Hs as ((Hb & _) & _). rewrite s8_byte by done. unfold byte in Hb. destruct (Z.ltb_spec (ds_type (s_desc s)) 128); apply Z.eqb_neq; lia. }
  destruct (s8 (ds_type (s_desc s)) =? -1); [done|].
  destruct (find_desc off (vdev_list c)); [|done]. unfold set_dp. rewrite <- Hp. by destruct c.
Qed.

Lemma remove_not_asked c pre s post off :
  dp c = pre ++ slot_bytes s ++ post -> slot_ok s -> off = zlen pre ->
  ctrl_at (s_ctrl s) dc_config_change <> VCA_VIRTIO_PARAM_DEV_REMOVE ->
  _vop_remove_device c off = Ret (c, -1).
Proof.
  intros Hp Hs Hoff Hc. unfold _vop_remove_device. rewrite Hp, slot_aligned by done. run_bind.
  rewrite readq_ctrl by done. run_bind. rewrite ctrl_get by (done || by vm_compute).
  rewrite aget_ctrl_at by (by apply ctrl_len || by vm_compute). run_bind. by rewrite (proj2 (Z.eqb_neq _ _)) by done.
Qed.

Lemma scan_quiet l : forall fuel pre post c off,
  dp c = pre ++ concat (map slot_bytes l) ++ post -> zlen (dp c) = VCA_DP_SIZE -> off = zlen pre ->
  all_quiet (vdev_list c) off l ->
  _vop_scan_devices e (length l + fuel) c false off = _vop_scan_devices e fuel c false (off + slots_size l).
Proof.
  induction l as [|s l IH]; intros fuel pre post c off Hp Hz Hoff Hq; [by rewrite Z.add_0_r|].
  destruct Hq as [[Hs Hq] Hl]. cbn [map concat] in Hp. rewrite <- app_assoc in Hp.
  destruct (slot_size_ok s Hs) as [Hlen Hmin]. pose proof (zlen_nonneg pre). pose proof (zlen_nonneg (concat (map slot_bytes l) ++ post)).
  pose proof Hz as Hz'. rewrite Hp in Hz'. rewrite !zlen_app in Hz'. unfold VCA_DP_SIZE in *.
  pose proof (zlen_nonneg (concat (map slot_bytes l))). pose proof (zlen_nonneg post).
  assert (ds_type (s_desc s) <> 0) as Ht.
  { destruct Hq as [->|[Hu _]]; [done|]. intros E. unfold in_use in Hu. by rewrite E in Hu. }
  cbn [length Nat.add]. rewrite (scan_turn _ c pre s (concat (map slot_bytes l) ++ post)) by first [done | unfold VCA_DP_SIZE; lia].
  assert ((if s8 (ds_type (s_desc s)) =? -1 then Ret c
           else match find_desc off (vdev_list c) with
                | Some _ => '(c, _) ← _vop_remove_device c off; Ret c
                | None => '(c, _) ← _vop_add_device e c off; Ret c
                end) = Ret c) as ->.
  { destruct Hq as [->|(Hu & [v Hv] & Hc)]; [done|]. destruct (type_used s Hs Hu) as [_ ->]. rewrite Hv.
    by rewrite (remove_not_asked c pre s _ off Hp Hs Hoff Hc). }
  run_bind. rewrite Hp, slot_total by done. run_bind. rewrite u32_small by lia. rewrite slots_size_cons, Z.add_assoc.
  apply (IH _ (pre ++ slot_bytes s) post); [by rewrite <- app_assoc|done|rewrite zlen_app; lia|done].
Qed.

Lemma scan_end fuel c pre n off :
  dp c = pre ++ replicate n 0 -> zlen (dp c) = VCA_DP_SIZE -> off = zlen pre -> off mod 8 = 0 ->
  _vop_scan_devices e (S fuel) c false off = Ret c.
Proof.
  intros Hp Hz Hoff Hm. cbn [_vop_scan_devices]. destruct (Z.ltb_spec off VCA_DP_SIZE); [|done].
  rewrite Hp in *. rewrite zlen_app, zlen_replicate in Hz. unfold VCA_DP_SIZE in *.
  assert (replicate n 0 = desc_bytes (mkDesc 0 0 0 0 (replicate (n - 4) 0)) ++ []) as ->.
  { rewrite app_nil_r. unfold desc_bytes. cbn [ds_type ds_num_vq ds_feature_len ds_config_len ds_body].
    change [0; 0; 0; 0] with (replicate 4 0). rewrite <- replicate_add. f_equal.
    pose proof (Z.div_mod off 8). lia. }
  rewrite aligned_desc_size_ok by (done || (repeat split; unfold byte; cbn; lia)). run_bind.
  by rewrite get_type.
Qed.

Lemma slots_size_mod l : Forall slot_ok l -> slots_size l mod 8 = 0.
Proof.
  induction 1 as [|s l Hs Hl IH]; [done|]. rewrite slots_size_cons. rewrite Z.add_mod, IH, slot_size_mod by (done || lia). done.
Qed.

(** The place of the slot behind [l1]. *)
Definition place (l1 : list slot) : Z := sizeof_vca_bootparam + slots_size l1.

(** A scan that has work at one slot.  [P]: what is known of the state after that turn. *)
Lemma scan_one (P : card -> Prop) boot c l1 s s' l2 :
  dp_rep boot (dp c) (l1 ++ s :: l2) -> all_quiet (vdev_list c) sizeof_vca_bootparam l1 -> in_use s = true ->
  slot_ok s' -> slot_size s' = slot_size s -> (forall c', P c' -> all_quiet (vdev_list c') (place l1 + slot_size s) l2) ->
  (forall pre post, dp c = pre ++ slot_bytes s ++ post -> place l1 = zlen pre ->
     exists c', match find_desc (place l1) (vdev_list c) with
     | Some _ => '(c, _) ← _vop_remove_device c (place l1); Ret c
     | None => '(c, _) ← _vop_add_device e c (place l1); Ret c
     end = Ret c' /\ dp c' = pre ++ slot_bytes s' ++ post /\ P c') ->
  exists c', vop_scan_devices e c false = Ret c' /\ dp_rep boot (dp c') (l1 ++ s' :: l2) /\ P c'.
Proof.
  intros Hrep Hq1 Hu Hs' Hsz Hq2 Hturn. pose proof Hrep as (Hb & Hz & Hl & n & Hp).
  pose proof Hl as Hl'. apply Forall_app in Hl' as [Hl1 Hl2]. apply Forall_cons_1 in Hl2 as [Hs Hl2].
  pose proof (page_offset boot l1 Hb Hl1) as Hoff. fold (place l1) in Hoff. symmetry in Hoff.
  pose proof (page_split boot l1 s l2 n) as Hsplit. rewrite <- Hp in Hsplit.
  destruct (Hturn _ _ Hsplit Hoff) as (c' & Hmid & Hp' & HP). exists c'.
  assert (dp c' = page_bytes boot (l1 ++ s' :: l2) n) as Hpage by by rewrite Hp', page_split.
  assert (dp_rep boot (dp c') (l1 ++ s' :: l2)) as Hrep'.
  { rewrite Hpage. apply (dp_rep_replace boot l1 s); [by rewrite <- Hp|done|done]. }
  split; [|done]. pose proof (slots_bytes_ok _ Hl1) as [Hz1 Hc1].
  pose proof (slot_size_ok _ Hs) as [Hls Hmin]. pose proof (slot_size_ok _ Hs') as [Hls' _]. pose proof (slots_bytes_ok _ Hl2) as [Hz2 Hc2].
  pose proof Hz as Hz0. rewrite Hsplit, !zlen_app, zlen_replicate, Hls, Hz1, Hz2, Hb in Hz0.
  assert (zlen (dp c') = VCA_DP_SIZE) as Hz' by apply Hrep'.
  pose proof (zlen_nonneg l2). pose proof (zlen_nonneg l1). unfold VCA_DP_SIZE, sizeof_vca_bootparam in Hz0.
  unfold vop_scan_devices.
  replace slot_fuel with (length l1 + (S (length l2 + S (62 - length l1 - length l2))))%nat by (unfold slot_fuel, zlen in *; lia).
  rewrite (scan_quiet l1 _ boot (slot_bytes s ++ (concat (map slot_bytes l2) ++ replicate n 0)));
    [|by rewrite Hsplit, <- app_assoc|done|by rewrite Hb|done].
  fold (place l1). assert (ds_type (s_desc s) <> 0) as Ht by (intros E; unfold in_use in Hu; by rewrite E in Hu).
  rewrite (scan_turn _ c _ s _ _ Hsplit Hs Hoff) by (try done; unfold place, VCA_DP_SIZE, sizeof_vca_bootparam; lia).
  destruct (type_used s Hs Hu) as [_ ->]. rewrite Hmid. run_bind. rewrite Hp', slot_total by done. run_bind.
  rewrite u32_small by (unfold place, sizeof_vca_bootparam; lia). rewrite Hsz.
  rewrite (scan_quiet l2 _ ((boot ++ concat (map slot_bytes l1)) ++ slot_bytes s') (replicate n 0));
    [|by rewrite Hp', <- !app_assoc|done|rewrite zlen_app, Hls'; lia|by apply Hq2].
  apply (scan_end _ c' ((boot ++ concat (map slot_bytes l1)) ++ slot_bytes s' ++ concat (map slot_bytes l2)) n).
  - by rewrite Hp', <- !app_assoc.
  - done.
  - rewrite !zlen_app in *. lia.
  - unfold place. rewrite (Z.add_mod (sizeof_vca_bootparam + slots_size l1 + slot_size s)),
      (Z.add_mod (sizeof_vca_bootparam + slots_size l1)), (Z.add_mod sizeof_vca_bootparam) by lia.
    by rewrite !slots_size_mod, slot_size_mod.
Qed.

Lemma find_desc_app d l k v : find_desc d l = Some v -> find_desc d (l ++ k) = Some v.
Proof. unfold find_desc. induction l as [|x l IH]; [done|]. cbn. by destruct (v_desc x =? d). Qed.

Lemma all_quiet_app devs k l : forall off, all_quiet devs off l -> all_quiet (devs ++ k) off l.
Proof.
  induction l as [|s l IH]; intros off Hq; [done|]. destruct Hq as [[Hs Hq] Hl]. split; [|by apply IH].
  split; [done|]. destruct Hq as [|(Hu & [v Hv] & Hc)]; [by left|]. right. split; [done|]. split; [|done].
  exists v. by apply find_desc_app.
Qed.

Lemma scan_adds boot c l1 s l2 ptr :
  let a := e (calls c) in
  dp_rep boot (dp c) (l1 ++ s :: l2) -> in_use s = true -> ds_num_vq (s_desc s) = 2 ->
  all_quiet (vdev_list c) sizeof_vca_bootparam l1 -> all_quiet (vdev_list c) (place l1 + slot_size s) l2 ->
  find_desc (place l1) (vdev_list c) = None -> good a ptr ->
  exists c', vop_scan_devices e c false = Ret c' /\ dp_rep boot (dp c') (l1 ++ added_slot a ptr s :: l2)
  /\ vdev_list c' = vdev_list c ++ [new_vdev a ptr (place l1) s] /\ held c' ≡ₚ vdev_res ptr ++ held c.
Proof.
  intros a Hrep Hu Hnv Hq1 Hq2 Hf Hg.
  assert (slot_ok s) as Hs by (destruct Hrep as (_ & _ & Hl & _); apply Forall_app in Hl as [_ Hl]; by inversion Hl).
  pose proof (offered_ok a s Hs) as Ho. destruct (driver_slot (offered a s) reg (or_introl eq_refl) Ho) as (Hr & _ & Hsh & _).
  assert (slot_ok (added_slot a ptr s) /\ slot_size (added_slot a ptr s) = slot_size s) as [Hs' Hsz].
  { unfold added_slot. destruct (with_ctrl_ok (reg (offered a s)) (ctrl_write (s_ctrl (reg (offered a s))) dc_vdev (le_bytes 8 ptr)) Hr) as [H1 H2].
    - apply zlen_ctrl_write; [by vm_compute|]. rewrite (ctrl_len _ Hr). pose proof (length_le_bytes 8 ptr). unfold dc_vdev, zlen. lia.
    - split; [done|]. rewrite H2. unfold slot_size, total_size. by rewrite (same_size _ _ Hsh). }
  destruct (scan_one (fun c' => vdev_list c' = vdev_list c ++ [new_vdev a ptr (place l1) s] /\ held c' ≡ₚ vdev_res ptr ++ held c)
    boot c l1 s (added_slot a ptr s) l2) as (c' & H1 & H2 & H3); try done.
  - intros c' [-> _]. by apply all_quiet_app.
  - intros pre post Hp Hpre. rewrite Hf. rewrite (add_device_ok c pre s post _ ptr) by done. run_bind.
    eexists. split; [done|]. split; [done|]. split; [done|]. cbn [held]. apply Permutation_app_tail, taken_vdev.
  - by exists c'.
Qed.

(** A descriptor that the host has added: a scan makes one device for it, with the doorbells
    of the host; the page gets the doorbells and the address of the device, and for the host the
    address of the rings; everything else stays as it is. *)
Theorem vop_scan_devices_adds boot c l1 s l2 ptr :
  let a := e (calls c) in
  dp_rep boot (dp c) (l1 ++ s :: l2) -> in_use s = true -> ds_num_vq (s_desc s) = 2 ->
  all_quiet (vdev_list c) sizeof_vca_bootparam l1 -> all_quiet (vdev_list c) (place l1 + slot_size s) l2 ->
  find_desc (place l1) (vdev_list c) = None -> good a ptr ->
  exists c', vop_scan_devices e c false = Ret c' /\ dp_rep boot (dp c') (l1 ++ added_slot a ptr s :: l2)
  /\ vdev_list c' = vdev_list c ++ [new_vdev a ptr (place l1) s] /\ held c' ≡ₚ vdev_res ptr ++ held c.
Proof. exact (scan_adds boot c l1 s l2 ptr). Qed.

Lemma scan_removes boot c l1 s l2 v rest :
  let ptr := slot_vdev s in
  dp_rep boot (dp c) (l1 ++ s :: l2) -> in_use s = true ->
  ctrl_at (s_ctrl s) dc_config_change = VCA_VIRTIO_PARAM_DEV_REMOVE ->
  all_quiet (vdev_list c) sizeof_vca_bootparam l1 -> all_quiet (list_del ptr (vdev_list c)) (place l1 + slot_size s) l2 ->
  find_desc (place l1) (vdev_list c) = Some v -> v_ptr v = ptr -> held c ≡ₚ vdev_res ptr ++ rest ->
  exists c', vop_scan_devices e c false = Ret c' /\ dp_rep boot (dp c') (l1 ++ removed_slot s :: l2)
  /\ vdev_list c' = list_del ptr (vdev_list c) /\ held c' ≡ₚ rest
  /\ ds_type (s_desc (removed_slot s)) = 255 /\ ctrl_at (s_ctrl (removed_slot s)) dc_guest_ack = GUEST_ACK_DONE.
Proof.
  intros ptr Hrep Hu Hchg Hq1 Hq2 Hf Hv Hh.
  assert (slot_ok s) as Hs by (destruct Hrep as (_ & _ & Hl & _); apply Forall_app in Hl as [_ Hl]; by inversion Hl).
  set (s1 := with_ctrl s (ctrl_set (s_ctrl s) dc_guest_ack GUEST_ACK_RECEIVED)).
  assert (slot_ok s1) as Hs1 by by apply put_ok.
  destruct (driver_slot s1 unreg (or_intror eq_refl) Hs1) as (Hr & _ & Hsh & _).
  assert (slot_ok (removed_slot s) /\ slot_size (removed_slot s) = slot_size s) as [Hs' Hsz].
  { unfold removed_slot. fold s1.
    destruct (with_ctrl_ok (unreg s1) (ctrl_set (ctrl_set (ctrl_set (ctrl_set (s_ctrl (unreg s1)) dc_h2c_vdev_conf_db 255) dc_h2c_vdev_avail_db 255)
      dc_h2c_vdev_used_db 255) dc_guest_ack GUEST_ACK_DONE) Hr) as [H1 H2]; [by rewrite !zlen_ctrl_set|].
    destruct (with_type_ok _ 255 H1) as [H3 H4]; [unfold byte; lia|]. split; [done|]. rewrite H4, H2.
    unfold slot_size, total_size. by rewrite (same_size _ _ Hsh). }
  assert (exists w, find_ptr ptr (vdev_list c) = Some w) as [w Hw].
  { unfold find_ptr. destruct (List.find (fun x => v_ptr x =? ptr) (vdev_list c)) eqn:E; [by eexists|].
    apply List.find_some in Hf as [Hin _]. apply (List.find_none _ _ E) in Hin. apply Z.eqb_neq in Hin. done. }
  destruct (scan_one (fun c' => vdev_list c' = list_del ptr (vdev_list c) /\ held c' ≡ₚ rest)
    boot c l1 s (removed_slot s) l2) as (c' & H1 & H2 & H3 & H4); try done.
  - by intros c' [-> _].
  - intros pre post Hp Hpre. rewrite Hf. destruct (remove_device_ok c pre s post (place l1) w rest) as (h & -> & Hrest); [done..|].
    run_bind. eexists. split; [done|]. done.
  - exists c'. do 4 (split; [done|]). split; [done|]. unfold removed_slot. cbn [s_ctrl with_type with_ctrl].
    fold s1. rewrite ctrl_at_set; [done|rewrite !zlen_ctrl_set, (ctrl_len _ Hr); by vm_compute|by vm_compute].
Qed.

(** A device whose removal the host has asked for: a scan removes it and gives back everything it has
    taken; the page says so to the host, and the slot is free; everything else stays as it is. *)
Theorem vop_scan_devices_removes boot c l1 s l2 v rest :
  let ptr := slot_vdev s in
  dp_rep boot (dp c) (l1 ++ s :: l2) -> in_use s = true ->
  ctrl_at (s_ctrl s) dc_config_change = VCA_VIRTIO_PARAM_DEV_REMOVE ->
  all_quiet (vdev_list c) sizeof_vca_bootparam l1 -> all_quiet (list_del ptr (vdev_list c)) (place l1 + slot_size s) l2 ->
  find_desc (place l1) (vdev_list c) = Some v -> v_ptr v = ptr -> held c ≡ₚ vdev_res ptr ++ rest ->
  exists c', vop_scan_devices e c false = Ret c' /\ dp_rep boot (dp c') (l1 ++ removed_slot s :: l2)
  /\ vdev_list c' = list_del ptr (vdev_list c) /\ held c' ≡ₚ rest
  /\ ds_type (s_desc (removed_slot s)) = 255 /\ ctrl_at (s_ctrl (removed_slot s)) dc_guest_ack = GUEST_ACK_DONE.
Proof. exact (scan_removes boot c l1 s l2 v rest). Qed.

(** ** What a failed attempt leaves behind *)
Definition left_behind (a : answers) (ptr : Z) : list res :=
  match a_conf_irq a, a_avail_irq a, a_used_irq a with
  | Some _, _, _ => []
  | None, Some _, _ => [RIrq ptr Conf]
  | None, None, Some _ => [RIrq ptr Avail; RIrq ptr Conf]
  | None, None, None =>
      if negb (a_cdev a =? 0) then [RIrq ptr Used; RIrq ptr Avail; RIrq ptr Conf; RVdev ptr]
      else if negb (a_register a =? 0) then [RCdev ptr] else taken_res ptr
  end.
Definition add_status (a : answers) : Z :=
  match a_conf_irq a, a_avail_irq a, a_used_irq a with
  | Some err, _, _ | None, Some err, _ | None, None, Some err => err
  | None, None, None => if negb (a_cdev a =? 0) then a_cdev a else a_register a
  end.

Lemma kfree_ends c ptr l rest vs (err : Z) : held c = l ++ RVdev ptr :: rest -> vdev_list c = vs ->
  exists c', (c ← give c (RVdev ptr); Ret (c, err)) = Ret (c', err) /\ held c' ≡ₚ l ++ rest /\ (err <> 0 -> vdev_list c' = vs).
Proof.
  intros Hh Hv. destruct (give_held c (RVdev ptr) (l ++ rest)) as (h & E & Hr); [by rewrite Hh, Permutation_middle|].
  rewrite E. run_bind. by eexists.
Qed.

Lemma give_irqs c ptr rest : held c ≡ₚ RIrq ptr Conf :: RIrq ptr Avail :: RIrq ptr Used :: RVdev ptr :: rest ->
  exists h, h ≡ₚ rest /\ forall err : Z,
    (c ← free_irqs c ptr; c ← give c (RVdev ptr); Ret (c, err)) = Ret (mkCard (dp c) (vdev_list c) h (calls c), err).
Proof.
  intros Hh. unfold free_irqs.
  destruct (give_held c _ _ Hh) as (h1 & E1 & Hr1).
  destruct (give_held (mkCard (dp c) (vdev_list c) h1 (calls c)) _ _ Hr1) as (h2 & E2 & Hr2).
  destruct (give_held (mkCard (dp c) (vdev_list c) h2 (calls c)) _ _ Hr2) as (h3 & E3 & Hr3).
  destruct (give_held (mkCard (dp c) (vdev_list c) h3 (calls c)) _ _ Hr3) as (h4 & E4 & Hr4). cbn [dp vdev_list calls] in *.
  exists h4. split; [done|]. intros err. rewrite E1. run_bind. rewrite E2. run_bind. rewrite E3. run_bind. by rewrite E4.
Qed.

Lemma irqs_last ptr rest :
  RCdev ptr :: [RIrq ptr Used; RIrq ptr Avail; RIrq ptr Conf; RVdev ptr] ++ rest
  ≡ₚ RIrq ptr Conf :: RIrq ptr Avail :: RIrq ptr Used :: RVdev ptr :: RCdev ptr :: rest.
Proof. solve_Permutation. Qed.

(** Making a device for a descriptor, whatever fails: the result is the first error, and only
    a failure of the first doorbell leaves nothing behind.  When a later one fails, the handlers
    registered before it stay with the memory freed behind them; when [common_dev_init] fails
    everything taken so far stays; when the registration fails the common device does. *)
Theorem vop_add_device_leaks c pre s post d ptr :
  let a := e (calls c) in
  dp c = pre ++ slot_bytes s ++ post -> slot_ok s -> ds_num_vq (s_desc s) = 2 -> d = zlen pre -> a_vdev a = Some ptr ->
  exists c', _vop_add_device e c d = Ret (c', add_status a) /\ held c' ≡ₚ left_behind a ptr ++ held c
  /\ (add_status a <> 0 -> vdev_list c' = vdev_list c).
Proof.
  intros a Hp Hs Hnv Hd H1. unfold add_status, left_behind.
  destruct (a_conf_irq a) eqn:H2; [|destruct (a_avail_irq a) eqn:H3; [|destruct (a_used_irq a) eqn:H4]].
  4: { rewrite (add_device_irqs c pre s post d ptr) by done. fold a.
    destruct (negb (a_cdev a =? 0)); [by eexists|]. destruct (negb (a_register a =? 0)) eqn:H5.
    - destruct (give_irqs (mkCard (pre ++ slot_bytes (reg (offered a s)) ++ post) (vdev_list c)
        (RCdev ptr :: [RIrq ptr Used; RIrq ptr Avail; RIrq ptr Conf; RVdev ptr] ++ held c) (S (calls c))) ptr (RCdev ptr :: held c))
        as (h & Hr & E); [apply irqs_last|]. rewrite E. by eexists.
    - apply negb_false_iff, Z.eqb_eq in H5. eexists. rewrite H5. split; [done|]. by split. }
  all: unfold _vop_add_device; fold a; cbn [dp vdev_list held calls]; rewrite Hp, slot_type, slot_aligned, slot_host_desc, slot_num_vq by done;
    run_bind; rewrite Hnv; cbn [negb Z.eqb Pos.eqb]; unfold VRING_INDEX_RECV;
    rewrite slot_queue_num by (done || rewrite Hnv; by vm_compute); run_bind; rewrite H1, H2, ?H3, ?H4.
  - cbn [setup_irq]. run_bind. by apply (kfree_ends _ _ []).
  - rewrite (setup_irq_ok _ pre s post) by (done || by vm_compute). run_bind. cbn [setup_irq]. run_bind. by apply (kfree_ends _ _ [RIrq ptr Conf]).
  - rewrite (setup_irq_ok _ pre s post) by (done || by vm_compute). run_bind.
    assert (aligned_size (s_desc s) = aligned_size (s_desc (with_ctrl s (ctrl_set (s_ctrl s) dc_h2c_vdev_conf_db (u8 (a_conf_db a)))))) as -> by done.
    rewrite (setup_irq_ok _ pre _ post) by first [done | by apply put_ok | by vm_compute]. run_bind. cbn [setup_irq]. run_bind.
    by apply (kfree_ends _ _ [RIrq ptr Avail; RIrq ptr Conf]).
Qed.

End Proofs.

(** ** Witnesses: a bus whose driver does nothing to the page *)
#[local] Instance idle_bus : VirtioBus := { on_register p _ := p; on_unregister p _ := p }.
#[local] Instance idle_bus_ok : VirtioBusOk idle_bus.
Proof. refine {| reg s := s; unreg s := s |}; [done|done|]. by intros s f [->| ->] Hs. Defined.

Definition demo_answers (_ : nat) : answers := mkAnswers (Some 0x7000) 16 None 17 None 18 None 0 0x12345000 0.
Definition demo_vdev : vdev := mkVdev 0x5000 184 1 0 0 0 13 14 15.
Definition demo_card (l : list slot) (devs : list vdev) : card := mkCard (demo_page l) devs (concat (map (fun v => vdev_res (v_ptr v)) devs)) 0.

Lemma vop_scan_devices_adds_witness :
  exists c', vop_scan_devices demo_answers (demo_card [demo_slot 1; demo_slot 255; demo_slot 1] [demo_vdev]) false = Ret c'
  /\ dp_rep demo_boot (dp c') ([demo_slot 1; demo_slot 255] ++ added_slot (demo_answers 0) 0x7000 (demo_slot 1) :: [])
  /\ vdev_list c' = [demo_vdev; mkVdev 0x7000 600 1 0 0 0 16 17 18]
  /\ held c' ≡ₚ vdev_res 0x7000 ++ vdev_res 0x5000 ++ [].
Proof.
  apply (vop_scan_devices_adds demo_answers demo_boot (demo_card [demo_slot 1; demo_slot 255; demo_slot 1] [demo_vdev])
    [demo_slot 1; demo_slot 255] (demo_slot 1) [] 0x7000); try done.
  - apply demo_dp; [apply demo_slots_ok|by vm_compute].
  - repeat split; try (by apply demo_slot_ok; unfold byte; lia); [right|left; done].
    split; [done|]. split; [by eexists|done].
Defined.

(** The slot of a device at [0x5000] whose removal is asked for. *)
Definition leaving : slot :=
  with_ctrl (demo_slot 1) (ctrl_set (ctrl_write (replicate 40 0) dc_vdev (le_bytes 8 0x5000)) dc_config_change VCA_VIRTIO_PARAM_DEV_REMOVE).
Definition other_vdev : vdev := mkVdev 0x6000 392 1 0 0 0 7 8 9.

Lemma leaving_ok : slot_ok leaving.
Proof. apply with_ctrl_ok; [apply demo_slot_ok; unfold byte; lia|done]. Qed.

Lemma vop_scan_devices_removes_witness :
  exists c', vop_scan_devices demo_answers (demo_card [leaving; demo_slot 1] [demo_vdev; other_vdev]) false = Ret c'
  /\ dp_rep demo_boot (dp c') ([] ++ removed_slot leaving :: [demo_slot 1]) /\ vdev_list c' = [other_vdev]
  /\ held c' ≡ₚ vdev_res 0x6000 ++ [].
Proof.
  destruct (vop_scan_devices_removes demo_answers demo_boot (demo_card [leaving; demo_slot 1] [demo_vdev; other_vdev])
    [] leaving [demo_slot 1] demo_vdev (vdev_res 0x6000 ++ [])) as (c' & H1 & H2 & H3 & H4 & _).
  - apply demo_dp; [|by vm_compute]. repeat constructor; try apply leaving_ok; cbn; unfold byte; try lia; done.
  - by vm_compute.
  - by vm_compute.
  - exact I.
  - split; [|exact I]. split; [apply demo_slot_ok; unfold byte; lia|right]. split; [done|]. split; [exists other_vdev; by vm_compute|by vm_compute].
  - by vm_compute.
  - by vm_compute.
  - reflexivity.
  - exists c'. split; [exact H1|]. split; [exact H2|]. split; [exact H3|exact H4].
Defined.

Lemma vop_add_device_leaks_witness :
  let fails (_ : nat) := mkAnswers (Some 0x7000) 16 None 17 None 18 (Some (-16)) 0 0 0 in
  exists c', _vop_add_device fails (demo_card [demo_slot 1] []) 184 = Ret (c', -16)
  /\ held c' ≡ₚ [RIrq 0x7000 Avail; RIrq 0x7000 Conf] /\ vdev_list c' = [].
Proof.
  intros fails. destruct (vop_add_device_leaks fails (demo_card [demo_slot 1] []) demo_boot (demo_slot 1)
    (drop (184 + length (slot_bytes (demo_slot 1))) (demo_page [demo_slot 1])) 184 0x7000) as (c' & H1 & H2 & H3).
  - by vm_compute.
  - apply demo_slot_ok; unfold byte; lia.
  - done.
  - done.
  - done.
  - exists c'. split; [done|]. split; [done|by apply H3].
Defined.

End VopCard.
