(* ===== verification/VopHost.v ===== *)
(** * The side of the host: a virtio device from its file to the page and back (vop_vringh.c)

    A program on the host opens the character device and hands in a descriptor.  The module
    enters it into the device page ([DevPage]), makes the rings of the host's own device,
    its interrupts and the common device ([VopLife]), and lets the node know ([VopCard]).
    Closing the file takes the device back.  What is taken from the kernel is kept in
    [held]; the doorbells that are rung in [sent].

    The virtio bus of the host and the driver behind it are the class [HostBus]; what the node does
    to the page while the host waits for it is an argument. *)

From stdpp Require Import base list option tactics.
From Stdlib Require Import ZArith Lia.
From S2P Require Import Prelude VirtioRing VopRecv DevPage VopCard.
Import DevPage.

Module VopHost.

Definition VCA_VIRTIO_RING_ALIGN := 4096.
Definition VIRTIO_ID_NET := 1.
Definition H_MAC_0 := 0xFE.
Definition H_MAC_1 := 0.
Definition H_MAC_2 := 0.
Definition H_MAC_3 := 0.
Definition sizeof_vca_vring_info := 8.

(** The pages of a ring and their DMA mapping, with the length they are freed with; an interrupt; the
    common device; the mapping of the rings of the node; the registration with the bus. *)
Inductive res :=
| RPages (va len : Z)
| RDma (pa len : Z)
| RIrq (i : VopCard.irq)
| RCdev
| RKvec
| RBus.
#[global] Instance res_eq_dec : EqDecision res.
Proof. solve_decision. Defined.

(** [struct vop_card_virtio_dev] with its [host] part, and the device page.  [dd], [dc] and
    [host_dd] are offsets in the page; an entry of [vrings] is [va], [len] and [pa] of a ring;
    [listed]: the device is in [vdev_list]. *)
Record host := mkHost {
  dp : list Z;
  virtio_id : Z;
  dd : Z;
  dc : Z;
  host_dd : option Z;
  vrings : list (option (Z * Z * Z));
  ready : bool;
  mapped : bool;
  listed : bool;
  held : list res;
  sent : list Z;
}.

Definition set_dp (h : host) p := mkHost p (virtio_id h) (dd h) (dc h) (host_dd h) (vrings h) (ready h) (mapped h) (listed h) (held h) (sent h).
Definition set_dev (h : host) id d c := mkHost (dp h) id d c (host_dd h) (vrings h) (ready h) (mapped h) (listed h) (held h) (sent h).
Definition set_host_dd (h : host) d := mkHost (dp h) (virtio_id h) (dd h) (dc h) (Some d) (vrings h) (ready h) (mapped h) (listed h) (held h) (sent h).
Definition set_vrings (h : host) l := mkHost (dp h) (virtio_id h) (dd h) (dc h) (host_dd h) l (ready h) (mapped h) (listed h) (held h) (sent h).
Definition set_ready (h : host) b := mkHost (dp h) (virtio_id h) (dd h) (dc h) (host_dd h) (vrings h) b (mapped h) (listed h) (held h) (sent h).
Definition set_mapped (h : host) b := mkHost (dp h) (virtio_id h) (dd h) (dc h) (host_dd h) (vrings h) (ready h) b (listed h) (held h) (sent h).
Definition set_listed (h : host) b := mkHost (dp h) (virtio_id h) (dd h) (dc h) (host_dd h) (vrings h) (ready h) (mapped h) b (held h) (sent h).
Definition set_held (h : host) l := mkHost (dp h) (virtio_id h) (dd h) (dc h) (host_dd h) (vrings h) (ready h) (mapped h) (listed h) l (sent h).
Definition send_intr (h : host) db := mkHost (dp h) (virtio_id h) (dd h) (dc h) (host_dd h) (vrings h) (ready h) (mapped h) (listed h) (held h) (sent h ++ [db]).

Definition take_res (h : host) (r : res) : host := set_held h (r :: held h).
Definition give (h : host) (r : res) : outcome host :=
  if decide (r ∈ held h) then Ret (set_held h (release r (held h))) else Oob.

(** The answers of the kernel: the pages of ring [i], its mapping and the error of the mapping, the
    result of [common_dev_init] and the address of its rings, the doorbells and the errors of
    their handlers; the result of registering, of [vop_kvec_map_buf], the numbers of the card and
    of the node. *)
Record answers := mkAnswers {
  a_pages : nat -> option Z;
  a_map : nat -> Z * Z;
  a_cdev : Z;
  a_kvec_pa : Z;
  a_db : VopCard.irq -> Z;
  a_irq : VopCard.irq -> option Z;
  a_register : Z;
  a_map_buf : Z;
  card_id : Z;
  cpu_id : Z;
}.

(** The driver of the host's own device, when the device at the offset is registered and
    unregistered. *)
Class HostBus := {
  on_register : list Z -> Z -> list Z;
  on_unregister : list Z -> Z -> list Z;
}.

(** ** The rings of the host *)

Fixpoint dealloc_loop (n : nat) (h : host) (i : Z) : outcome host :=
  match n with
  | O => Ret h
  | S n =>
      r ← aget (vrings h) i;
      h ← (match r with
           | Some (va, len, pa) => h ← give h (RDma pa len); give h (RPages va len)
           | None => Ret h
           end);
      dealloc_loop n h (i + 1)
  end.

Definition vop_deallocate_host_vrings (h : host) : outcome host :=
  match host_dd h with
  | None => Ret h
  | Some d =>
      num_vq ← aget (dp h) (d + d_num_vq);
      dealloc_loop (Z.to_nat num_vq) h 0
  end.

Section Host.
Context `{HostBus} (a : answers).

(** The length of a ring of [num] entries with its information. *)
Definition vr_size (num : Z) : Z :=
  VopRecv.PAGE_ALIGN (VirtioRing.vring_size num VCA_VIRTIO_RING_ALIGN + sizeof_vca_vring_info).

(** From ring [i] on; [d] is the descriptor of the host's device. *)
Fixpoint vrings_loop (n : nat) (h : host) (d : Z) (i : nat) : outcome (host * Z) :=
  match n with
  | O => Ret (h, 0)
  | S n =>
      _ ← aget (vrings h) (Z.of_nat i);
      num ← vqconfig_num (dp h) d (Z.of_nat i);
      let len := vr_size num in
      match a_pages a i with
      | None => Ret (h, - ENOMEM)
      | Some va =>
          let h := take_res h (RPages va len) in
          let '(pa, err) := a_map a i in
          if negb (err =? 0) then h ← give h (RPages va len); Ret (h, err)
          else
            let h := take_res h (RDma pa len) in
            l ← aset (vrings h) (Z.of_nat i) (Some (va, len, pa));
            p ← VopCard.writeq (dp h) (vca_vq_config d + Z.of_nat i * sizeof_vca_vqconfig + vqc_address) pa;
            vrings_loop n (set_vrings (set_dp h p) l) d (S i)
      end
  end.

Definition vop_allocate_host_vrings (h : host) : outcome (host * Z) :=
  d ← vca_host_device_desc (dp h) (dd h);
  n ← vca_aligned_desc_size (dp h) d;
  let h := set_host_dd h d in
  p ← vop_init_device_ctrl (dp h) (d + n);
  num_vq ← aget p (d + d_num_vq);
  '(h, err) ← vrings_loop (Z.to_nat num_vq) (set_dp h p) d 0;
  if err =? 0 then Ret (h, 0)
  else h ← vop_deallocate_host_vrings h; Ret (h, err).

(** ** The common device and the interrupts *)

Definition vop_common_dev_init (h : host) : outcome (host * Z) :=
  match host_dd h with
  | None => Oob
  | Some d =>
      num ← vqconfig_num (dp h) d VopCard.VRING_INDEX_RECV;
      if negb (a_cdev a =? 0) then Ret (h, a_cdev a)
      else
        let h := take_res h RCdev in
        p ← VopCard.writeq (dp h) (dc h + dc_kvec_buf_address) (a_kvec_pa a);
        p ← VopCard.writel p (dc h + dc_kvec_buf_elems) num;
        Ret (set_dp h p, 0)
  end.

(** One doorbell and its field of the control block. *)
Definition setup_irq (h : host) (i : VopCard.irq) (field : Z) : outcome host :=
  p ← aset (dp h) (dc h + field) (u8 (a_db a i));
  Ret (take_res (set_dp h p) (RIrq i)).

Definition vop_setup_irqs (h : host) : outcome (host * Z) :=
  match a_irq a VopCard.Conf with
  | Some err => Ret (h, err)
  | None =>
      h ← setup_irq h VopCard.Conf dc_c2h_vdev_conf_db;
      match a_irq a VopCard.Avail with
      | Some err => h ← give h (RIrq VopCard.Conf); Ret (h, err)
      | None =>
          h ← setup_irq h VopCard.Avail dc_c2h_vdev_avail_db;
          match a_irq a VopCard.Used with
          | Some err =>
              h ← give h (RIrq VopCard.Avail);
              h ← give h (RIrq VopCard.Conf);
              Ret (h, err)
          | None => h ← setup_irq h VopCard.Used dc_c2h_vdev_used_db; Ret (h, 0)
          end
      end
  end.

(** ** Setting a device up

    The state, the descriptor of the caller and the value returned. *)
Definition vop_setup_virtio_device (h : host) (argp : list Z) : outcome (host * list Z * Z) :=
  c ← vop_copy_dp_entry (dp h) argp;
  let h := set_dp h (c_dp c) in
  let argp := c_argp c in
  if negb (c_ret c =? 0) then Ret (h, argp, c_ret c)
  else
    match c_slot c with
    | None => Oob
    | Some (type, d) =>
        n ← vca_aligned_desc_size (dp h) d;
        p ← vop_init_device_ctrl (dp h) (d + n);
        let h := set_dev (set_dp h p) type d (d + n) in
        num ← vqconfig_num p d 0;
        hd ← vca_host_device_desc p d;
        host_num ← vqconfig_num p hd 0;
        if (num =? 0) || (host_num =? 0) then Ret (h, argp, - EINVAL)
        else
          '(h, ret) ← vop_allocate_host_vrings h;
          if negb (ret =? 0) then Ret (h, argp, ret)
          else
            '(h, ret) ← vop_common_dev_init h;
            if negb (ret =? 0) then h ← vop_deallocate_host_vrings h; Ret (h, argp, ret)
            else
              '(h, ret) ← vop_setup_irqs h;
              if negb (ret =? 0) then
                h ← give h RCdev;
                h ← vop_deallocate_host_vrings h;
                Ret (h, argp, ret)
              else
                p ← aset (dp h) (d + d_type) type;
                argp ← aset argp d_type type;
                db ← aget p bp_h2c_config_db;
                let h := set_dp h p in
                Ret (if s8 db =? -1 then h else send_intr h (s8 db), argp, 0)
    end.

(** ** The host's own device *)

Definition vop_unregister_host_device (h : host) : outcome host :=
  if ready h then
    match host_dd h with
    | None => Oob
    | Some d =>
        h ← give h RBus;
        Ret (set_ready (set_dp h (on_unregister (dp h) d)) false)
    end
  else Ret h.

(** The rings that are cleared: [NULL] with length 0 is allowed. *)
Fixpoint check_vrings (n : nat) (h : host) (i : Z) : outcome unit :=
  match n with
  | O => Ret tt
  | S n => _ ← aget (vrings h) i; check_vrings n h (i + 1)
  end.

(** The feature and the address of the network device; the byte at 5 is written twice. *)
Definition set_mac (p : list Z) (d : Z) : outcome (list Z) :=
  features ← vca_vq_features p d;
  net_config ← vca_vq_configspace p d;
  bs ← peek p features 4;
  p ← poke p features (le_bytes 4 (Z.lor (le bs) (Z.shiftl 1 VIRTIO_NET_F_MAC)));
  p ← aset p (net_config + 0) H_MAC_0;
  p ← aset p (net_config + 1) H_MAC_1;
  p ← aset p (net_config + 2) H_MAC_2;
  p ← aset p (net_config + 5) H_MAC_3;
  p ← aset p (net_config + 4) (u8 (card_id a + 1));
  aset p (net_config + 5) (u8 (cpu_id a + 1)).

Definition vop_register_host_device (h : host) : outcome (host * Z) :=
  match host_dd h with
  | None => Oob
  | Some d =>
      if ready h then Ret (h, 0)
      else
        num_vq ← aget (dp h) (d + d_num_vq);
        _ ← check_vrings (Z.to_nat num_vq) h 0;
        feature_len ← aget (dp h) (d + d_feature_len);
        p ← (if (virtio_id h =? VIRTIO_ID_NET) && (4 <=? feature_len) then set_mac (dp h) d else Ret (dp h));
        _ ← aget p (dd h + d_type);
        if negb (a_register a =? 0) then Ret (set_dp h p, a_register a)
        else Ret (set_ready (take_res (set_dp h (on_register p d)) RBus) true, 0)
  end.

(** [vop_kvec_unmap_buf]: nothing happens when nothing is mapped. *)
Definition unmap_buf (h : host) : outcome host :=
  if mapped h then h ← give h RKvec; Ret (set_mapped h false) else Ret h.

(** Stopping the common device is a part of [VopLife]. *)
Definition vop_vringh_reset (h : host) (start : bool) : outcome (host * Z) :=
  h ← unmap_buf h;
  h ← vop_unregister_host_device h;
  if negb start then Ret (h, 0)
  else
    '(h, ret) ← vop_register_host_device h;
    if negb (ret =? 0) then Ret (h, ret)
    else
      if negb (a_map_buf a =? 0) then h ← vop_unregister_host_device h; Ret (h, a_map_buf a)
      else Ret (set_mapped (take_res h RKvec) true, 0).

(** ** Removal *)

(** What [vop_virtio_del_card_device] gives back after the node has been asked. *)
Definition del_host_side (in_work : bool) (h : host) : outcome host :=
  h ← give h (RIrq VopCard.Conf);
  h ← give h (RIrq VopCard.Avail);
  h ← give h (RIrq VopCard.Used);
  if in_work then Spin
  else
    h ← unmap_buf h;
    h ← give h RCdev;
    p ← aset (dp h) (dd h + d_type) 255;
    vop_unregister_host_device (set_dp h p).

(** ** Asking the node

    The host waits for the node, which has a state of its own: [node k c p] is that state and what the node and its
    driver have made of the page at the end of wait [k], when they were [c] and [p] at its beginning. *)
Section Removal.
Context {N : Type} (node : nat -> N -> list Z -> N * list Z).

Fixpoint remove_loop (n retry : nat) (received : bool) (c : N) (p : list Z) (dc : Z) : outcome (N * list Z * Z) :=
  match n with
  | O => Ret (c, p, 0)
  | S n =>
      let '(c, p) := node retry c p in
      ack ← aget p (dc + dc_guest_ack);
      if ack =? GUEST_ACK_DONE then Ret (c, p, 0)
      else if ack =? GUEST_ACK_RECEIVED then remove_loop n (S retry) true c p dc
      else if negb received && (2 <? Z.of_nat retry) then Ret (c, p, - ENODEV)
      else remove_loop n (S retry) received c p dc
  end.

Definition vop_card_dev_remove (c : N) (h : host) : outcome (host * N * Z) :=
  p ← aset (dp h) (dc h + dc_config_change) VopCard.VCA_VIRTIO_PARAM_DEV_REMOVE;
  db ← aget p bp_h2c_config_db;
  let h := set_dp h p in
  '(h, c, p, err) ← (if negb (s8 db =? -1) then
                       let h := send_intr h (s8 db) in
                       '(c, p, err) ← remove_loop 10 0 false c p (dc h);
                       Ret (h, c, p, err)
                     else Ret (h, c, p, - ENODEV));
  p ← aset p (dc h + dc_config_change) 0;
  p ← aset p (dc h + dc_guest_ack) GUEST_ACK_NONE;
  Ret (set_dp h p, c, err).

(** [in_work]: the caller is the work that [flush_work] waits for. *)
Definition vop_virtio_del_card_device (in_work : bool) (c : N) (h : host) : outcome (host * N) :=
  '(h, c, _) ← vop_card_dev_remove c h;
  h ← del_host_side in_work h;
  Ret (h, c).

(** ** The handshake with the node, in the work of the interrupt *)

Definition vop_virtio_init_post (c : N) (h : host) : outcome (host * N) :=
  '(h, ret) ← vop_vringh_reset h true;
  p ← aset (dp h) (dc h + dc_used_address_updated) 0;
  let h := set_dp h p in
  if negb (ret =? 0) then vop_virtio_del_card_device true c h else Ret (h, c).

Definition vop_virtio_peer_device_reset (h : host) : outcome host :=
  '(h, _) ← vop_vringh_reset h false;
  p ← aset (dp h) (dc h + dc_vdev_reset) 0;
  p ← aset p (dc h + dc_host_ack) 1;
  Ret (set_dp h p).

(** [vop_kvec_check_cancel] does not touch this state. *)
Definition vop_bh_handler (c : N) (h : host) : outcome (host * N) :=
  updated ← aget (dp h) (dc h + dc_used_address_updated);
  if negb (updated =? 0) then vop_virtio_init_post c h
  else
    reset ← aget (dp h) (dc h + dc_vdev_reset);
    if negb (reset =? 0) then h ← vop_virtio_peer_device_reset h; Ret (h, c) else Ret (h, c).

(** ** The file *)

Definition vop_open (p : list Z) : host := mkHost p 0 0 0 None (replicate (Z.to_nat VCA_MAX_VRINGS) None) false false false [] [].

Definition vop_release (c : N) (h : host) : outcome (host * N) :=
  if listed h then '(h, c) ← vop_virtio_del_card_device false c h; Ret (set_listed h false, c)
  else Ret (h, c).

End Removal.

(** [VCA_VIRTIO_ADD_DEVICE]: [user k n] is what copying [n] bytes from the program's memory for
    the [k]-th time gives; [alloc]: there is memory for the copy. *)
Definition vop_ioctl_add (user : nat -> Z -> option (list Z)) (alloc : bool) (h : host) : outcome (host * Z) :=
  if negb (virtio_id h =? 0) then Ret (h, - EEXIST)
  else
    match user 0%nat sizeof_vca_device_desc with
    | None => Ret (h, - EFAULT)
    | Some desc =>
        num_vq ← aget desc d_num_vq;
        config_len ← aget desc d_config_len;
        feature_len ← aget desc d_feature_len;
        if (VCA_MAX_VRINGS <? num_vq) || (VCA_MAX_CONFIG_LEN <? config_len) || (VCA_MAX_FEATURE_LEN <? feature_len)
        then Ret (h, - EINVAL)
        else
          n ← vca_aligned_desc_size desc 0;
          if VCA_MAX_DESC_BLK_SIZE <? n then Ret (h, - EINVAL)
          else
            size ← vca_desc_size desc 0;
            if negb alloc then Ret (h, - ENOMEM)
            else
              match user 1%nat size with
              | None => Ret (h, - EFAULT)
              | Some dd_config =>
                  '(h, _, ret) ← vop_setup_virtio_device h dd_config;
                  if negb (ret =? 0) then Ret (h, ret) else Ret (set_listed h true, 0)
              end
    end.

End Host.

(** ** Lemmas: results

    [post m Q]: [m] returns something with [Q]. *)
Definition post {A} (m : outcome A) (Q : A -> Prop) : Prop := exists x, m = Ret x /\ Q x.

Lemma post_ret {A} (x : A) Q : Q x -> post (Ret x) Q.
Proof. by exists x. Qed.
Lemma post_bind {A B} (m : outcome A) (f : A -> outcome B) P Q :
  post m P -> (forall x, P x -> post (f x) Q) -> post (x ← m; f x) Q.
Proof. intros (x & -> & Hx) Hf. by apply Hf. Qed.
Lemma post_mono {A} (m : outcome A) (P Q : A -> Prop) : post m P -> (forall x, P x -> Q x) -> post m Q.
Proof. intros (x & E & Hx) Hf. exists x. auto. Qed.

(** [h] with another page, other rings and other resources. *)
Definition upd (h : host) p l r : host :=
  mkHost p (virtio_id h) (dd h) (dc h) (host_dd h) l (ready h) (mapped h) (listed h) r (sent h).

Lemma give_post h r rest : held h ≡ₚ r :: rest ->
  post (give h r) (fun h' => exists k, h' = upd h (dp h) (vrings h) k /\ k ≡ₚ rest).
Proof.
  intros Hh. unfold give. rewrite decide_True by (rewrite Hh; left). apply post_ret.
  eexists. split; [done|]. by apply release_held.
Qed.

(** ** Lemmas: the half of the host in a slot *)

Definition desc_write (a : desc) (k : Z) (bs : list Z) : desc :=
  mkDesc (ds_type a) (ds_num_vq a) (ds_feature_len a) (ds_config_len a) (ctrl_write (ds_body a) (k - 4) bs).
Definition with_host_desc (s : slot) (a : desc) : slot := mkSlot (s_desc s) (s_ctrl s) a (s_host_ctrl s).

Lemma desc_poke pre a post d k bs : d = zlen pre -> 4 <= k -> k + zlen bs <= 4 + zlen (ds_body a) ->
  poke (pre ++ desc_bytes a ++ post) (d + k) bs = Ret (pre ++ desc_bytes (desc_write a k bs) ++ post).
Proof.
  intros Hd Hk Hl. rewrite poke_at by (done || lia || (rewrite zlen_desc_bytes; lia)).
  assert (ctrl_write (desc_bytes a) k bs = desc_bytes (desc_write a k bs)) as ->; [|done].
  unfold ctrl_write, desc_bytes, desc_write. cbn [ds_type ds_num_vq ds_feature_len ds_config_len ds_body]. unfold ctrl_write.
  pose proof (zlen_nonneg bs).
  replace (Z.to_nat k) with (4 + Z.to_nat (k - 4))%nat by lia.
  replace (Z.to_nat (k + zlen bs)) with (4 + Z.to_nat (k - 4 + zlen bs))%nat by lia. done.
Qed.

Lemma desc_queue_num pre a post d i : header_ok a -> zlen (ds_body a) = aligned_size a - 4 -> d = zlen pre ->
  0 <= i < ds_num_vq a -> vqconfig_num (pre ++ desc_bytes a ++ post) d i = Ret (queue_num a i).
Proof.
  intros Ha Hb Hd Hi. pose proof (size_bounds _ Ha) as [_ Hal].
  unfold vqconfig_num, vca_vq_config, sizeof_vca_device_desc, sizeof_vca_vqconfig, vqc_num.
  replace (d + 8 + i * 16 + 8) with (d + (16 + 16 * i)) by lia. unfold desc_size, sizeof_vca_device_desc, sizeof_vca_vqconfig in Hal.
  destruct Ha as (_ & _ & Hf & Hc). unfold byte in *.
  assert (16 + 16 * i + 2 <= zlen (desc_bytes a)) as Hle by (rewrite zlen_desc_bytes; lia).
  rewrite peek_at by (done || lia). unfold peek. if_true. run_bind. unfold queue_num, desc_bytes.
  replace (Z.to_nat (16 + 16 * i)) with (4 + Z.to_nat (12 + 16 * i))%nat by lia. done.
Qed.

Section HostHalf.
Context (pre post : list Z) (d : Z) (Hd : d = zlen pre).
Notation page s := (pre ++ slot_bytes s ++ post).
Notation hd s := (d + (aligned_size (s_desc s) + sizeof_vca_device_ctrl)).

(** The page around the descriptor of the host. *)
Definition before_host (s : slot) : list Z := pre ++ desc_bytes (s_desc s) ++ s_ctrl s.

Lemma page_host s : page s = before_host s ++ desc_bytes (s_host_desc s) ++ (s_host_ctrl s ++ post).
Proof. unfold before_host, slot_bytes. by rewrite <- !app_assoc. Qed.
Lemma host_place s : slot_ok s -> hd s = zlen (before_host s).
Proof. intros (_ & _ & _ & H1 & H2 & _). unfold before_host. rewrite !zlen_app, zlen_desc_bytes. lia. Qed.
Lemma host_header s : slot_ok s -> header_ok (s_host_desc s).
Proof. by intros (_ & ? & _). Qed.
Lemma host_aligned s : slot_ok s -> aligned_size (s_host_desc s) = aligned_size (s_desc s).
Proof. intros (_ & _ & Hsh & _). symmetry. unfold same_shape, aligned_size, desc_size in *. by destruct Hsh as (-> & -> & ->). Qed.
Lemma host_body s : slot_ok s -> zlen (ds_body (s_host_desc s)) = aligned_size (s_host_desc s) - 4.
Proof. intros Hs. rewrite host_aligned by done. by destruct Hs as (_ & _ & _ & _ & _ & ? & _). Qed.
Lemma host_num_vq_same s : slot_ok s -> ds_num_vq (s_host_desc s) = ds_num_vq (s_desc s).
Proof. by intros (_ & _ & (? & _) & _). Qed.

Lemma host_num_vq s : slot_ok s -> aget (page s) (hd s + d_num_vq) = Ret (ds_num_vq (s_desc s)).
Proof. intros Hs. rewrite page_host, get_num_vq by by apply host_place. by rewrite host_num_vq_same. Qed.
Lemma host_feature_len s : slot_ok s -> aget (page s) (hd s + d_feature_len) = Ret (ds_feature_len (s_host_desc s)).
Proof. intros Hs. rewrite page_host. apply get_feature_len. by apply host_place. Qed.
Lemma host_aligned_ok s : slot_ok s -> vca_aligned_desc_size (page s) (hd s) = Ret (aligned_size (s_desc s)).
Proof. intros Hs. rewrite page_host, aligned_desc_size_ok by (by apply host_header || by apply host_place). by rewrite host_aligned. Qed.
Lemma host_queue_num s i : slot_ok s -> 0 <= i < ds_num_vq (s_desc s) ->
  vqconfig_num (page s) (hd s) i = Ret (queue_num (s_host_desc s) i).
Proof.
  intros Hs Hi. rewrite page_host. apply desc_queue_num; [by apply host_header|by apply host_body|by apply host_place|].
  by rewrite host_num_vq_same.
Qed.

Lemma with_host_desc_ok s k bs : slot_ok s -> 4 <= k -> k + zlen bs <= aligned_size (s_desc s) ->
  slot_ok (with_host_desc s (desc_write (s_host_desc s) k bs)).
Proof.
  intros Hs Hk Hl. pose proof (host_body s Hs) as Hb. rewrite host_aligned in Hb by done.
  destruct Hs as (H1 & H2 & H3 & H4 & H5 & H6 & H7). split; [done|]. split; [done|]. split; [done|].
  split; [done|]. split; [done|]. split; [|done]. cbn [with_host_desc s_host_desc s_desc desc_write ds_body].
  rewrite zlen_ctrl_write by lia. done.
Qed.

Lemma host_desc_poke s k bs : slot_ok s -> 4 <= k -> k + zlen bs <= aligned_size (s_desc s) ->
  poke (page s) (hd s + k) bs = Ret (page (with_host_desc s (desc_write (s_host_desc s) k bs))).
Proof.
  intros Hs Hk Hl. pose proof (host_body s Hs). pose proof (host_aligned s Hs).
  rewrite page_host, desc_poke by (by apply host_place || lia). by rewrite page_host.
Qed.
End HostHalf.

(** ** Lemmas: the rings *)

Definition vring_res (r : option (Z * Z * Z)) : list res :=
  match r with Some (va, len, pa) => [RDma pa len; RPages va len] | None => [] end.
Definition vrings_res (l : list (option (Z * Z * Z))) : list res := concat (map vring_res l).

(** No ring is there from index [n] on. *)
Definition none_from (n : nat) (l : list (option (Z * Z * Z))) : Prop :=
  length l = 4%nat /\ forall j, (n <= j < 4)%nat -> l !! j = Some None.

(** A slot in which the addresses of the host's rings may have changed. *)
Definition like (s s' : slot) : Prop :=
  slot_ok s' /\ s_desc s' = s_desc s /\ s_ctrl s' = s_ctrl s /\ s_host_ctrl s' = s_host_ctrl s
  /\ ds_type (s_host_desc s') = ds_type (s_host_desc s).

Lemma like_refl s : slot_ok s -> like s s.
Proof. done. Qed.

Lemma vrings_res_insert l i r : l !! i = Some None -> vrings_res (<[i := r]> l) ≡ₚ vring_res r ++ vrings_res l.
Proof.
  intros Hi. rewrite <- (take_drop_middle l i None Hi) at 2. rewrite insert_take_drop by by apply lookup_lt_Some in Hi.
  unfold vrings_res. rewrite !map_app, !concat_app. cbn [map concat vring_res]. cbn [app]. by rewrite Permutation_app_swap_app.
Qed.

Lemma vrings_res_none n l : none_from n l -> vrings_res (drop n l) = [].
Proof.
  intros [Hl Hn]. assert (forall k : list (option (Z * Z * Z)), Forall (eq None) k -> vrings_res k = []) as Hk.
  { induction 1 as [|x k <- Hk IH]; [done|]. exact IH. }
  apply Hk, Forall_lookup. intros j x Hj. rewrite lookup_drop in Hj. pose proof (lookup_lt_Some _ _ _ Hj).
  rewrite Hn in Hj by lia. congruence.
Qed.

(** What an iteration leaves. *)
Lemma vrings_step l (i : nat) r : none_from i l -> (i < 4)%nat -> none_from (S i) (<[i := r]> l) /\ vrings_res (<[i := r]> l) ≡ₚ vring_res r ++ vrings_res l.
Proof.
  intros [Hl Hn] Hi. split; [|apply vrings_res_insert, Hn; lia]. split; [by rewrite length_insert|].
  intros j Hj. rewrite list_lookup_insert_ne by lia. apply Hn. lia.
Qed.

(** The kernel gives everything that a setup asks for. *)
Definition granted (a : answers) : Prop :=
  (forall i, a_pages a i <> None) /\ (forall i, snd (a_map a i) = 0) /\ a_cdev a = 0 /\ forall i, a_irq a i = None.

Section Rings.
Context (a : answers) (pre tail : list Z) (d : Z) (Hd : d = zlen pre).
Notation page s := (pre ++ slot_bytes s ++ tail).
Notation hd s := (d + (aligned_size (s_desc s) + sizeof_vca_device_ctrl)).

(** After making rings up to [n]: nothing but the page, the rings and the resources has changed, and
    the resources are those of the rings that are there; without an error all are. *)
Definition rings_post (h : host) (s : slot) (n : nat) (rest : list res) (x : host * Z) : Prop :=
  exists s' l r, fst x = upd h (page s') l r /\ like s s' /\ r ≡ₚ vrings_res l ++ rest /\ none_from n l
  /\ (snd x = 0 -> forall j, (j < n)%nat -> exists v, l !! j = Some (Some v)) /\ (granted a -> snd x = 0).

Lemma rings_failed h s i n rest r err : slot_ok s -> none_from i (vrings h) -> (i <= n)%nat ->
  r ≡ₚ vrings_res (vrings h) ++ rest -> err <> 0 -> ~ granted a -> rings_post h s n rest (upd h (page s) (vrings h) r, err).
Proof.
  intros Hs [Hl Hn] Hi Hh He Hg. exists s, (vrings h), r. split; [done|]. split; [done|]. split; [done|].
  split; [split; [done|]; intros j Hj; apply Hn; lia|]. by split.
Qed.

Lemma upd_page h s : dp h = page s -> h = upd h (page s) (vrings h) (held h).
Proof. intros Hp. destruct h. cbn in *. by subst. Qed.

Lemma vrings_loop_ok n : forall h s i rest,
  dp h = page s -> slot_ok s -> Z.of_nat (i + n) = ds_num_vq (s_desc s) -> (i + n <= 4)%nat ->
  none_from i (vrings h) -> (forall j, (j < i)%nat -> exists v, vrings h !! j = Some (Some v)) ->
  held h ≡ₚ vrings_res (vrings h) ++ rest ->
  post (vrings_loop a n h (hd s) i) (rings_post h s (i + n) rest).
Proof.
  induction n as [|n IH]; intros h s i rest Hp Hs Hn H4 Hnone Hsome Hh; cbn [vrings_loop].
  - apply post_ret. exists s, (vrings h), (held h). rewrite Nat.add_0_r in *.
    split; [by destruct h; unfold upd; cbn in *; subst|]. by split.
  - pose proof Hnone as [Hl Hj]. assert (aget (vrings h) (Z.of_nat i) = Ret None) as ->.
    { apply aget_ret; [lia|]. rewrite Nat2Z.id. apply Hj. lia. }
    run_bind. rewrite Hp, (host_queue_num _ _ _ Hd) by (done || lia). run_bind. set (len := vr_size _).
    destruct (a_pages a i) as [va|] eqn:Ea; [|rewrite (upd_page h s Hp) at 1; apply post_ret, (rings_failed _ _ i); first [done | lia | by intros [Hg _]; apply (Hg i)]].
    destruct (a_map a i) as [pa err] eqn:Em. destruct (Z.eqb_spec err 0) as [->|He]; cbn [negb].
    + rewrite aset_ret by (cbn; unfold zlen; lia). run_bind. cbn [take_res set_held dp vrings]. rewrite Nat2Z.id.
      pose proof (length_le_bytes 8 pa). pose proof (slot_header s Hs) as Hhdr. pose proof (size_bounds _ Hhdr) as [_ Hal].
      unfold desc_size, sizeof_vca_device_desc, sizeof_vca_vqconfig in Hal. destruct Hhdr as (_ & _ & Hf & Hc). unfold byte in *.
      rewrite Hp. unfold VopCard.writeq, vca_vq_config, sizeof_vca_device_desc, sizeof_vca_vqconfig, vqc_address.
      replace (hd s + 8 + Z.of_nat i * 16 + 0) with (hd s + (8 + Z.of_nat i * 16)) by lia.
      assert (8 + Z.of_nat i * 16 + zlen (le_bytes 8 pa) <= aligned_size (s_desc s)) by (unfold zlen; lia).
      rewrite (host_desc_poke _ _ _ Hd) by (done || lia). run_bind.
      set (s1 := with_host_desc s _). assert (slot_ok s1) as Hs1 by (apply with_host_desc_ok; done || lia).
      destruct (vrings_step (vrings h) i (Some (va, len, pa))) as [Hnone1 Hperm]; [done|lia|].
      eapply post_mono; [apply (IH _ s1 (S i) rest); try done|].
      * cbn [s1 with_host_desc s_desc]. lia.
      * lia.
      * intros j Hji. cbn [set_vrings set_dp take_res set_held vrings]. destruct (decide (j = i)) as [->|]; [|rewrite list_lookup_insert_ne by done; apply Hsome; lia].
        rewrite list_lookup_insert_eq by lia. by eexists.
      * cbn. by rewrite Hperm, Hh.
      * intros x (s2 & l & r & E & (H1 & H2 & H3 & H5 & H6) & Hr & Hl2 & Hx). exists s2, l, r. rewrite E. split; [done|]. split; [by split|].
        replace (i + S n)%nat with (S i + n)%nat by lia. done.
    + destruct (give_post (take_res h (RPages va len)) (RPages va len) (held h)) as (h1 & -> & k & -> & Hk); [done|]. run_bind.
      apply post_ret. unfold upd at 1. cbn [take_res set_held dp vrings virtio_id dd dc host_dd ready mapped listed sent]. rewrite Hp.
      apply (rings_failed _ s i); try done; [lia|by rewrite Hk|]. intros (_ & Hg & _). specialize (Hg i). by rewrite Em in Hg.
Qed.
Lemma dealloc_loop_ok n : forall h i rest, none_from (i + n) (vrings h) -> (i + n <= 4)%nat ->
  held h ≡ₚ vrings_res (drop i (vrings h)) ++ rest ->
  post (dealloc_loop n h (Z.of_nat i)) (fun h' => exists r, h' = upd h (dp h) (vrings h) r /\ r ≡ₚ rest).
Proof.
  induction n as [|n IH]; intros h i rest Hn H4 Hh; cbn [dealloc_loop].
  - apply post_ret. exists (held h). split; [by destruct h|]. rewrite Nat.add_0_r in Hn. by rewrite vrings_res_none in Hh.
  - pose proof Hn as [Hl _]. destruct (lookup_lt_is_Some_2 (vrings h) i) as [v Hv]; [lia|].
    rewrite (drop_S _ v) in Hh by done. change (vrings_res (v :: ?l)) with (vring_res v ++ vrings_res l) in Hh. rewrite <- app_assoc in Hh.
    rewrite (aget_ret _ _ v) by (lia || by rewrite Nat2Z.id). run_bind.
    assert (post (match v with Some (va, len, pa) => h ← give h (RDma pa len); give h (RPages va len) | None => Ret h end)
      (fun h' => exists k, h' = upd h (dp h) (vrings h) k /\ k ≡ₚ vrings_res (drop (S i) (vrings h)) ++ rest)) as Hv'.
    { destruct v as [[[va len] pa]|]; [|by apply post_ret; exists (held h); destruct h].
      eapply post_bind; [apply give_post; exact Hh|]. intros h1 (k1 & -> & H1). eapply post_mono; [apply give_post; exact H1|].
      intros h2 (k2 & -> & H2). by exists k2. }
    eapply post_bind; [exact Hv'|]. intros h1 (k & -> & Hk). replace (Z.of_nat i + 1) with (Z.of_nat (S i)) by lia.
    eapply post_mono; [apply (IH _ (S i) rest); cbn|].
    + by replace (S (i + n)) with (i + S n)%nat by lia.
    + lia.
    + done.
    + intros h2 (r & -> & Hr). by exists r.
Qed.

Lemma deallocate_ok h s rest : dp h = page s -> slot_ok s -> host_dd h = Some (hd s) -> 0 <= ds_num_vq (s_desc s) <= 4 ->
  none_from (Z.to_nat (ds_num_vq (s_desc s))) (vrings h) -> held h ≡ₚ vrings_res (vrings h) ++ rest ->
  post (vop_deallocate_host_vrings h) (fun h' => exists r, h' = upd h (dp h) (vrings h) r /\ r ≡ₚ rest).
Proof.
  intros Hp Hs Hd' Hn Hnone Hh. unfold vop_deallocate_host_vrings. rewrite Hd', Hp, (host_num_vq _ _ _ Hd) by done. run_bind.
  rewrite <- Hp. apply (dealloc_loop_ok _ h 0); [done|lia|done].
Qed.

(** [vop_allocate_host_vrings]: the rings, or nothing. *)
Definition alloc_post (h : host) (s : slot) (n : nat) (rest : list res) (x : host * Z) : Prop :=
  exists s' l r, fst x = upd (set_host_dd h (hd s)) (page s') l r /\ like (with_host_ctrl s (ctrl_init (s_host_ctrl s))) s'
  /\ none_from n l /\ (snd x <> 0 -> r ≡ₚ rest)
  /\ (snd x = 0 -> r ≡ₚ vrings_res l ++ rest /\ forall j, (j < n)%nat -> exists v, l !! j = Some (Some v))
  /\ (granted a -> snd x = 0).

Lemma allocate_ok h s : dp h = page s -> slot_ok s -> dd h = d -> 0 <= ds_num_vq (s_desc s) <= 4 -> none_from 0 (vrings h) ->
  post (vop_allocate_host_vrings a h) (alloc_post h s (Z.to_nat (ds_num_vq (s_desc s))) (held h)).
Proof.
  intros Hp Hs Hdd Hn Hnone. unfold vop_allocate_host_vrings. rewrite Hp, Hdd, slot_host_desc by done. run_bind.
  rewrite (host_aligned_ok _ _ _ Hd) by done. run_bind. cbn [set_host_dd dp]. rewrite Hp, host_ctrl_init_at by done. run_bind.
  set (s0 := with_host_ctrl s _).
  assert (slot_ok s0) as Hs0. { apply with_host_ctrl_ok; [done|]. unfold ctrl_init. cbn [foldl]. by rewrite !zlen_ctrl_set. }
  change (aligned_size (s_desc s)) with (aligned_size (s_desc s0)). rewrite (host_num_vq _ _ _ Hd) by done. run_bind.
  eapply post_bind; [apply (vrings_loop_ok _ _ s0 0 (held h)); try done|].
  - cbn. lia.
  - cbn. lia.
  - intros j Hj. lia.
  - pose proof (vrings_res_none 0 (vrings h) Hnone) as E. rewrite drop_0 in E. cbn [set_dp set_host_dd held vrings]. by rewrite E.
  - intros [h1 err] (s' & l & r & E & Hlike & Hr & Hl & Hx & Hg). cbn [fst snd] in *. rewrite E. destruct (Z.eqb_spec err 0) as [->|He].
    + apply post_ret. exists s', l, r. split; [done|]. split; [done|]. split; [done|]. split; [done|]. split; [|done]. intros _. split; [done|by apply Hx].
    + pose proof Hlike as (Hs' & Hsd & _). eapply post_bind; [apply (deallocate_ok _ s' (held h)); try done|].
      * cbn. by rewrite Hsd.
      * by rewrite Hsd.
      * cbn. by rewrite Hsd.
      * intros h2 (r2 & -> & Hr2). apply post_ret. exists s', l, r2. cbn [fst snd].
        split; [done|]. split; [done|]. split; [done|]. by repeat split.
Qed.
(** ** Lemmas: the common device and the interrupts *)

Definition kvec_ctrl (c : list Z) (num : Z) : list Z :=
  ctrl_write (ctrl_write c dc_kvec_buf_address (le_bytes 8 (a_kvec_pa a))) dc_kvec_buf_elems (le_bytes 4 num).
Definition irq_ctrl (c : list Z) : list Z :=
  ctrl_set (ctrl_set (ctrl_set c dc_c2h_vdev_conf_db (u8 (a_db a VopCard.Conf)))
    dc_c2h_vdev_avail_db (u8 (a_db a VopCard.Avail))) dc_c2h_vdev_used_db (u8 (a_db a VopCard.Used)).

Lemma zlen_kvec_ctrl c num : zlen c = 40 -> zlen (kvec_ctrl c num) = 40.
Proof.
  intros Hc. unfold kvec_ctrl. pose proof (length_le_bytes 8 (a_kvec_pa a)). pose proof (length_le_bytes 4 num).
  assert (zlen (ctrl_write c dc_kvec_buf_address (le_bytes 8 (a_kvec_pa a))) = 40) as E.
  { rewrite zlen_ctrl_write; unfold dc_kvec_buf_address, zlen in *; lia. }
  rewrite zlen_ctrl_write; [done|by vm_compute|]. rewrite E. unfold dc_kvec_buf_elems, zlen. lia.
Qed.

Lemma common_dev_init_ok h s : dp h = page s -> slot_ok s -> host_dd h = Some (hd s) -> dc h = d + aligned_size (s_desc s) ->
  1 <= ds_num_vq (s_desc s) ->
  vop_common_dev_init a h
  = Ret (if negb (a_cdev a =? 0) then (h, a_cdev a)
         else (upd h (page (with_ctrl s (kvec_ctrl (s_ctrl s) (queue_num (s_host_desc s) 0)))) (vrings h) (RCdev :: held h), 0)).
Proof.
  intros Hp Hs Hh Hdc Hn. unfold vop_common_dev_init. rewrite Hh, Hp. unfold VopCard.VRING_INDEX_RECV.
  rewrite (host_queue_num _ _ _ Hd) by (done || lia). run_bind. destruct (negb _); [done|].
  cbn [take_res set_held dp]. rewrite Hp. replace (dc (take_res h RCdev)) with (dc h) by done. rewrite Hdc.
  unfold VopCard.writeq, VopCard.writel. pose proof (length_le_bytes 8 (a_kvec_pa a)).
  set (num := queue_num _ 0). pose proof (length_le_bytes 4 num). pose proof (VopCard.ctrl_len s Hs) as Hc.
  rewrite ctrl_poke by (done || unfold dc_kvec_buf_address, zlen; lia). run_bind.
  set (s1 := with_ctrl s _). assert (slot_ok s1) as Hs1.
  { apply with_ctrl_ok; [done|]. apply zlen_ctrl_write; [by vm_compute|]. rewrite Hc. unfold dc_kvec_buf_address, zlen. lia. }
  change (aligned_size (s_desc s)) with (aligned_size (s_desc s1)).
  rewrite ctrl_poke by (done || unfold dc_kvec_buf_elems, zlen; lia). run_bind. done.
Qed.

(** Interrupts: the three of them, or none. *)
Definition irqs_post (h : host) (s : slot) (x : host * Z) : Prop :=
  exists c r, fst x = upd h (page (with_ctrl s c)) (vrings h) r /\ zlen c = 40
  /\ (snd x <> 0 -> r ≡ₚ held h)
  /\ (snd x = 0 -> c = irq_ctrl (s_ctrl s) /\ r = [RIrq VopCard.Used; RIrq VopCard.Avail; RIrq VopCard.Conf] ++ held h)
  /\ (granted a -> snd x = 0).

Lemma setup_irq_eq h s i field : dp h = page s -> slot_ok s -> dc h = d + aligned_size (s_desc s) -> 0 <= field < 40 ->
  setup_irq a h i field
  = Ret (upd h (page (with_ctrl s (ctrl_set (s_ctrl s) field (u8 (a_db a i))))) (vrings h) (RIrq i :: held h)).
Proof. intros Hp Hs Hdc Hf. unfold setup_irq. rewrite Hp, Hdc, ctrl_put by done. run_bind. done. Qed.

Lemma setup_irqs_ok h s : dp h = page s -> slot_ok s -> dc h = d + aligned_size (s_desc s) ->
  (forall i err, a_irq a i = Some err -> err <> 0) -> post (vop_setup_irqs a h) (irqs_post h s).
Proof.
  intros Hp Hs Hdc He. unfold vop_setup_irqs. pose proof (VopCard.ctrl_len s Hs) as Hc.
  destruct (a_irq a VopCard.Conf) as [e1|] eqn:E1.
  { apply post_ret. exists (s_ctrl s), (held h). rewrite <- slot_ctrl_same. cbn [fst snd].
    split; [by apply upd_page|]. split; [done|]. split; [done|]. split; [|intros (_ & _ & _ & Hg); by rewrite Hg in E1].
    intros ->. by apply He in E1. }
  rewrite (setup_irq_eq h s) by (done || by vm_compute). run_bind. set (c1 := ctrl_set (s_ctrl s) _ _).
  assert (slot_ok (with_ctrl s c1)) as Hs1 by by apply VopCard.put_ok.
  destruct (a_irq a VopCard.Avail) as [e2|] eqn:E2.
  { eapply post_bind; [by apply (give_post _ _ (held h))|]. intros h' (r & -> & Hr). apply post_ret. exists c1, r.
    split; [done|]. split; [by unfold c1; rewrite zlen_ctrl_set|]. split; [done|]. cbn. split; [|intros (_ & _ & _ & Hg); by rewrite Hg in E2]. intros ->. by apply He in E2. }
  rewrite (setup_irq_eq _ (with_ctrl s c1)) by (done || by vm_compute). run_bind. cbn [with_ctrl s_ctrl]. set (c2 := ctrl_set c1 _ _).
  assert (slot_ok (with_ctrl s c2)) as Hs2 by by apply (VopCard.put_ok (with_ctrl s c1)).
  destruct (a_irq a VopCard.Used) as [e3|] eqn:E3.
  { eapply post_bind; [by apply (give_post _ _ (RIrq VopCard.Conf :: held h))|]. intros h' (r & -> & Hr).
    eapply post_bind; [by apply (give_post _ _ (held h))|]. intros h' (r' & -> & Hr'). apply post_ret. exists c2, r'.
    split; [done|]. split; [by unfold c2, c1; rewrite !zlen_ctrl_set|]. split; [done|]. cbn. split; [|intros (_ & _ & _ & Hg); by rewrite Hg in E3].
    intros ->. by apply He in E3. }
  rewrite (setup_irq_eq _ (with_ctrl s c2)) by (done || by vm_compute). run_bind. cbn [with_ctrl s_ctrl]. apply post_ret.
  eexists _, _. split; [done|]. split; [by unfold c2, c1; rewrite !zlen_ctrl_set|]. by split.
Qed.
(** ** Lemmas: setting up a device whose descriptor is in the page *)

Definition irqs_res : list res := [RIrq VopCard.Used; RIrq VopCard.Avail; RIrq VopCard.Conf].

(** The configuration doorbell of the node. *)
Definition node_db (p : list Z) : Z := s8 (nth (Z.to_nat bp_h2c_config_db) p 0).

(** The slot and the device of a setup that has succeeded. *)
Definition set_up (h : host) (s : slot) (t : Z) (s' : slot) (h' : host) : Prop :=
  ds_type (s_desc s') = t
  /\ (exists num, s_ctrl s' = irq_ctrl (kvec_ctrl (ctrl_init (s_ctrl s)) num))
  /\ s_host_ctrl s' = ctrl_init (s_host_ctrl s)
  /\ host_dd h' = Some (hd s)
  /\ held h' ≡ₚ irqs_res ++ RCdev :: vrings_res (vrings h') ++ held h
  /\ none_from (Z.to_nat (ds_num_vq (s_desc s))) (vrings h')
  /\ (forall j, (j < Z.to_nat (ds_num_vq (s_desc s)))%nat -> exists v, vrings h' !! j = Some (Some v))
  /\ sent h' = sent h ++ (if node_db pre =? -1 then [] else [node_db pre]).

(** What every setup leaves. *)
Definition setup_post (h : host) (s : slot) (t : Z) (x : host * Z) : Prop :=
  let h' := fst x in
  exists s', dp h' = page s' /\ slot_ok s' /\ slot_size s' = slot_size s /\ same_shape (s_desc s') (s_desc s)
  /\ ds_type (s_host_desc s') = ds_type (s_host_desc s)
  /\ virtio_id h' = t /\ dd h' = d /\ dc h' = d + aligned_size (s_desc s)
  /\ ready h' = ready h /\ mapped h' = mapped h /\ listed h' = listed h
  /\ (snd x <> 0 -> ds_type (s_desc s') = ds_type (s_desc s) /\ held h' ≡ₚ held h /\ sent h' = sent h)
  /\ (snd x = 0 -> set_up h s t s' h')
  /\ (granted a -> queue_num (s_desc s) 0 <> 0 -> queue_num (s_host_desc s) 0 <> 0 -> snd x = 0).

Lemma ctrl_init_zlen c : zlen (ctrl_init c) = zlen c.
Proof. unfold ctrl_init. cbn [foldl]. by rewrite !zlen_ctrl_set. Qed.

(** After the initialisation of the control block. *)
Definition base (h : host) (s : slot) (t : Z) p : host := set_dev (set_dp h p) t d (d + aligned_size (s_desc s)).

Lemma setup_failed h s t s' h' hdd l r ret :
  h' = mkHost (page s') t d (d + aligned_size (s_desc s)) hdd l (ready h) (mapped h) (listed h) r (sent h) ->
  slot_ok s' -> slot_size s' = slot_size s -> s_desc s' = s_desc s ->
  ds_type (s_host_desc s') = ds_type (s_host_desc s) -> r ≡ₚ held h -> ret <> 0 ->
  (granted a -> queue_num (s_desc s) 0 <> 0 -> queue_num (s_host_desc s) 0 <> 0 -> False) -> setup_post h s t (h', ret).
Proof. intros -> H1 H2 H3 H4 H5 H6 H7. exists s'. cbn. rewrite H3. do 11 (split; [done|]). split; [done|]. split; [done|].
  intros Hg Ha Hb. by destruct (H7 Hg Ha Hb). Qed.

(** The end of the setup. *)
Lemma setup_end h s arg s4 l r4 num h4 :
  h4 = mkHost (page s4) (ds_type arg) d (d + aligned_size (s_desc s)) (Some (hd s)) l (ready h) (mapped h) (listed h) r4 (sent h) ->
  slot_ok s4 -> slot_size s4 = slot_size s -> s_desc s4 = s_desc s -> ds_type (s_host_desc s4) = ds_type (s_host_desc s) ->
  s_ctrl s4 = irq_ctrl (kvec_ctrl (ctrl_init (s_ctrl s)) num) -> s_host_ctrl s4 = ctrl_init (s_host_ctrl s) ->
  r4 ≡ₚ irqs_res ++ RCdev :: vrings_res l ++ held h -> none_from (Z.to_nat (ds_num_vq (s_desc s))) l ->
  (forall j, (j < Z.to_nat (ds_num_vq (s_desc s)))%nat -> exists v, l !! j = Some (Some v)) ->
  byte (ds_type arg) -> sizeof_vca_bootparam <= zlen pre ->
  post (p ← aset (dp h4) (d + d_type) (ds_type arg);
        argp ← aset (desc_bytes (untyped arg)) d_type (ds_type arg);
        db ← aget p bp_h2c_config_db;
        Ret (if s8 db =? -1 then set_dp h4 p else send_intr (set_dp h4 p) (s8 db), argp, 0))
    (fun '(h', argp', ret) => setup_post h s (ds_type arg) (h', ret) /\ argp' = desc_bytes (if ret =? 0 then arg else untyped arg)).
Proof.
  intros -> Hs4 Hz4 E3 E6 E4 E5 Hr4 Hl Hall Ht Hpre. cbn [dp]. rewrite slot_set_type by done. run_bind.
  change (aset (desc_bytes (untyped arg)) d_type (ds_type arg)) with (@Ret (list Z) (desc_bytes arg)). run_bind.
  destruct (with_type_ok s4 (ds_type arg) Hs4 Ht) as [Hs5 Hz5].
  assert (aget (page (with_type s4 (ds_type arg))) bp_h2c_config_db = Ret (nth (Z.to_nat bp_h2c_config_db) pre 0)) as ->.
  { rewrite aget_front by (unfold bp_h2c_config_db, sizeof_vca_bootparam in *; lia).
    destruct (aget_total pre bp_h2c_config_db) as (v & -> & Hv); [unfold bp_h2c_config_db, sizeof_vca_bootparam in *; lia|].
    f_equal. symmetry. by apply nth_lookup_Some. }
  run_bind. fold (node_db pre). apply post_ret. split; [|done]. exists (with_type s4 (ds_type arg)).
  cbn [fst snd]. destruct (node_db pre =? -1) eqn:Edb.
  all: split; [done|]; split; [done|]; split; [congruence|].
  all: split; [by cbn; rewrite E3|]; split; [done|]; do 6 (split; [done|]); split; [done|]; split; [intros _|done].
  all: unfold set_up; rewrite Edb; split; [done|]; split; [by exists num|]; split; [done|].
  all: split; [done|]; split; [exact Hr4|]; split; [done|]; split; [done|]; cbn; by rewrite ?app_nil_r.
Qed.

Lemma setup_page_ok h s arg : dp h = page s -> slot_ok s -> 1 <= ds_num_vq (s_desc s) <= 4 -> none_from 0 (vrings h) ->
  sizeof_vca_bootparam <= zlen pre -> byte (ds_type arg) -> (forall i err, a_irq a i = Some err -> err <> 0) ->
  forall h0 arg0, vop_copy_dp_entry (dp h0) arg0 = Ret (mkCopied (page s) (desc_bytes (untyped arg)) 0 (Some (ds_type arg, d))) ->
  set_dp h0 (page s) = h ->
  post (vop_setup_virtio_device a h0 arg0) (fun '(h', argp', ret) => setup_post h s (ds_type arg) (h', ret)
    /\ argp' = desc_bytes (if ret =? 0 then arg else untyped arg)).
Proof.
  intros Hp Hs Hn Hnone Hpre Ht Herr h0 arg0 Hcopy Hh0. unfold vop_setup_virtio_device. rewrite Hcopy. run_bind. cbn [c_dp c_argp c_ret c_slot negb Z.eqb].
  rewrite Hh0, Hp, slot_aligned by done. run_bind. rewrite ctrl_init_at by done. run_bind.
  set (s1 := with_ctrl s (ctrl_init (s_ctrl s))).
  destruct (with_ctrl_ok s (ctrl_init (s_ctrl s)) Hs (ctrl_init_zlen _)) as [Hs1 Hz1]. fold s1 in Hs1, Hz1.
  rewrite slot_queue_num by (done || cbn; lia). run_bind. rewrite slot_host_desc by done. run_bind.
  rewrite (host_queue_num _ _ _ Hd) by (done || cbn; lia). run_bind.
  destruct ((queue_num _ _ =? 0) || _) eqn:Eq.
  { apply post_ret. split; [|done]. eapply (setup_failed h s _ s1); try done. cbn in Eq. by apply orb_true_iff in Eq as [E%Z.eqb_eq|E%Z.eqb_eq]. }
  set (h1 := set_dev _ _ _ _). eapply post_bind; [by apply (allocate_ok h1 s1); try done; cbn; lia|].
  intros [h2 err] (s2 & l & r & E2 & (Hs2 & E3 & E4 & E5 & E6) & Hl & Hfail & Hok & Hg2). cbn [fst snd] in *.
  assert (slot_size s2 = slot_size s) as Hz2 by (unfold slot_size; by rewrite E3).
  destruct (Z.eqb_spec err 0) as [->|He]; cbn [negb].
  2: { apply post_ret. rewrite E2, (proj2 (Z.eqb_neq _ _) He). split; [|done]. eapply (setup_failed h s _ s2); try done; [by apply Hfail|]. intros Hg. by apply Hg2 in Hg. }
  destruct (Hok eq_refl) as [Hr Hall]. clear Hok Hfail.
  rewrite (common_dev_init_ok h2 s2) by (subst h2; cbn; rewrite ?E3; cbn; done || lia). run_bind.
  destruct (negb (a_cdev a =? 0)) eqn:Ecd.
  { rewrite Ecd. eapply post_bind; [apply (deallocate_ok h2 s2 (held h)); try (subst h2; cbn; rewrite ?E3; cbn; done)|].
    - rewrite E3. cbn. lia.
    - intros h3 (r3 & -> & Hr3). apply negb_true_iff in Ecd. apply post_ret. rewrite Ecd. split; [|done].
      subst h2. eapply (setup_failed h s _ s2); try done; [by apply Z.eqb_neq|].
      intros (_ & _ & Hg & _). by rewrite Hg in Ecd. }
  cbn [Z.eqb negb]. set (num := queue_num _ 0). set (s3 := with_ctrl s2 _).
  pose proof (VopCard.ctrl_len s2 Hs2) as Hc2.
  destruct (with_ctrl_ok s2 (kvec_ctrl (s_ctrl s2) num) Hs2) as [Hs3 Hz3]; [by rewrite zlen_kvec_ctrl|]. fold s3 in Hs3, Hz3.
  eapply post_bind; [apply (setup_irqs_ok _ s3); try done; subst h2; cbn; by rewrite E3|].
  intros [h4 err4] (c & r4 & E7 & Hc & Hfail4 & Hok4 & Hg4). cbn [fst snd] in *. set (s4 := with_ctrl s3 c) in *.
  destruct (with_ctrl_ok s3 c Hs3) as [Hs4 Hz4]; [by rewrite Hc, (VopCard.ctrl_len s3)|]. fold s4 in Hs4, Hz4.
  destruct (Z.eqb_spec err4 0) as [->|He4]; cbn [negb].
  2: { eapply post_bind; [apply (give_post _ _ (held h2)); rewrite E7; by apply Hfail4|].
    intros h5 (r5 & -> & Hr5). eapply post_bind; [apply (deallocate_ok _ s4 (held h)); subst h4 h2; try done; cbn; rewrite ?E3; cbn; try done; [lia|by rewrite Hr5]|].
    intros h6 (r6 & -> & Hr6). apply post_ret. rewrite (proj2 (Z.eqb_neq _ _) He4). split; [|done].
    subst h4 h2. eapply (setup_failed h s _ s4); try done. intros Hg. by apply Hg4 in Hg. }
  destruct (Hok4 eq_refl) as [-> Hr4]. clear Hok4 Hfail4.
  eapply (setup_end h s arg s4 l _ num).
  { subst h4 h2. cbn. by rewrite ?E3. }
  all: subst h4 h2; cbn in Hz3, Hz4 |- *; rewrite ?E3, ?E4, ?E5; try done.
  rewrite Hr4. apply (Permutation_app_head irqs_res), Permutation_skip. exact Hr.
Qed.
End Rings.

(** ** Setting a device up *)

(** Where [add_slot] puts the descriptor. *)
Lemma added_at arg slots slots' devp : add_slot sizeof_vca_bootparam arg slots = Some (slots', devp) ->
  exists l1 x l2, slots' = l1 ++ put_slot arg x :: l2 /\ devp = VopCard.place l1.
Proof.
  intros Hadd. destruct (add_slot_spec _ _ _ _ _ Hadd) as [(l1 & x & l2 & _ & -> & _ & _ & -> & _)|(-> & _ & -> & _)].
  - by exists l1, x, l2.
  - by exists slots, (blank_slot arg), [].
Qed.

(** [request_irq] returns an error pointer when it fails. *)
Definition honest (a : answers) : Prop := forall i err, a_irq a i = Some err -> err <> 0.

(** The first queue of the descriptor in its new place. *)
Lemma overlay_queue_num arg old t : arg_ok arg -> 1 <= ds_num_vq arg -> queue_num (put_desc t arg old) 0 = queue_num arg 0.
Proof.
  intros [Ha Hb] Hn. unfold queue_num, put_desc, overlay. cbn [ds_body]. change (Z.to_nat (12 + 16 * 0)) with 12%nat.
  unfold desc_size, sizeof_vca_device_desc, sizeof_vca_vqconfig in Hb. destruct Ha as (_ & _ & Hf & Hc). unfold byte, zlen in *.
  rewrite drop_app_le, take_app_le; [done|rewrite length_drop; lia|lia].
Qed.
Lemma put_queue_num arg x : arg_ok arg -> 1 <= ds_num_vq arg -> queue_num (s_desc (put_slot arg x)) 0 = queue_num arg 0.
Proof. apply overlay_queue_num. Qed.
Lemma put_host_queue_num arg x : arg_ok arg -> 1 <= ds_num_vq arg -> queue_num (s_host_desc (put_slot arg x)) 0 = queue_num arg 0.
Proof. apply overlay_queue_num. Qed.

Lemma node_db_boot boot k : zlen boot = sizeof_vca_bootparam -> node_db (boot ++ k) = node_db boot.
Proof.
  intros Hb. unfold node_db. rewrite app_nth1; [done|]. unfold zlen, sizeof_vca_bootparam, bp_h2c_config_db in *. lia.
Qed.

Lemma setup_device_ok a boot h slots arg l1 x l2 :
  let devp := VopCard.place l1 in
  dp_rep boot (dp h) slots -> arg_ok arg -> bounded arg -> reusable arg slots -> 1 <= ds_num_vq arg ->
  none_from 0 (vrings h) -> honest a -> too_long arg = false -> add_slot sizeof_vca_bootparam arg slots = Some (l1 ++ put_slot arg x :: l2, devp) ->
  exists s' h' ret, vop_setup_virtio_device a h (desc_bytes arg) = Ret (h', desc_bytes (if ret =? 0 then arg else untyped arg), ret)
  /\ dp_rep boot (dp h') (l1 ++ s' :: l2) /\ slot_size s' = total_size arg /\ same_shape (s_desc s') arg
  /\ ds_type (s_host_desc s') = ds_type arg /\ zlen (s_ctrl x) = 40
  /\ virtio_id h' = ds_type arg /\ dd h' = devp /\ dc h' = devp + aligned_size arg
  /\ ready h' = ready h /\ mapped h' = mapped h /\ listed h' = listed h
  /\ (ret <> 0 -> ds_type (s_desc s') = 0 /\ held h' ≡ₚ held h /\ sent h' = sent h)
  /\ (ret = 0 -> set_up a boot devp h (put_slot arg x) (ds_type arg) s' h')
  /\ (granted a -> queue_num arg 0 <> 0 -> ret = 0).
Proof.
  intros devp Hrep Harg Hb Hre Hn Hnone Herr Hlong Hadd.
  pose proof (copy_dp_entry_ok boot (dp h) slots arg Hrep Harg Hb Hre) as Hcopy. rewrite Hlong, Hadd in Hcopy.
  destruct Hcopy as (p' & Hcopy & Hrep').
  pose proof Hrep' as (Hboot & Hz & Hl & n & Hp). pose proof Hl as Hl'. apply Forall_app in Hl' as [Hl1 Hl2]. apply Forall_cons_1 in Hl2 as [Hs Hl2].
  pose proof (page_offset boot l1 Hboot Hl1) as Hoff. fold (VopCard.place l1) in Hoff. symmetry in Hoff.
  pose proof (slots_bytes_ok _ Hl1) as [Hz1 Hz1'].
  rewrite page_split in Hp. set (pre := boot ++ concat (map slot_bytes l1)) in *. set (tail := concat (map slot_bytes l2) ++ replicate n 0) in *.
  rewrite Hp in Hcopy. assert (byte (ds_type arg)) as Ht by apply Harg.
  destruct (setup_page_ok a pre tail (VopCard.place l1) Hoff (set_dp h p') (put_slot arg x) arg) with (h0 := h) (arg0 := desc_bytes arg)
    as ([[h' argp'] ret] & E & (s' & Hp' & Hs' & Hz' & Hsh & Hty & Hid & Hdd & Hdc & Hr & Hm & Hli & Hfail & Hok & Hg) & ->); try done.
  - cbn. unfold bounded, VCA_MAX_VRINGS in Hb. lia.
  - rewrite <- Hoff. unfold VopCard.place. pose proof (zlen_nonneg l1). lia.
  - by rewrite Hp.
  - cbn [fst snd] in *. exists s', h', ret. split; [exact E|].
    assert (page_bytes boot (l1 ++ put_slot arg x :: l2) n = p') as Epg by by rewrite page_split.
    split; [by rewrite Hp'; unfold pre, tail; rewrite <- page_split; apply (dp_rep_replace boot l1 (put_slot arg x)); [rewrite Epg|..]|].
    split; [done|]. split; [done|]. split; [done|]. split; [by apply (VopCard.ctrl_len _ Hs)|].
    do 6 (split; [done|]). split; [done|]. split; [|intros Hgr Hq; apply Hg; rewrite ?put_queue_num, ?put_host_queue_num; done]. intros Hret. destruct (Hok Hret) as (H1 & H2 & H3 & H4 & H5 & H6 & H7 & H8).
    do 7 (split; [done|]). rewrite H8. unfold pre. by rewrite node_db_boot.
Qed.

(** C21. Adding a device: a descriptor with a queue that is too long, or for which there is no place, is
    refused and nothing changes.  Otherwise it gets the first place.  When anything that the setup
    asks for is refused, everything is given back, no doorbell is rung and the entry has no type; when
    everything is granted and the descriptor has entries the device is there: the entry has its type, the
    control blocks are initialised and hold the doorbells and the rings of the host, all rings
    are made, and the node is told. *)
Theorem vop_setup_virtio_device_correct a boot h slots arg :
  dp_rep boot (dp h) slots -> arg_ok arg -> bounded arg -> reusable arg slots -> 1 <= ds_num_vq arg ->
  none_from 0 (vrings h) -> honest a ->
  match (if too_long arg then None else add_slot sizeof_vca_bootparam arg slots) with
  | None => vop_setup_virtio_device a h (desc_bytes arg) = Ret (h, desc_bytes arg, - EINVAL)
  | Some (slots', devp) =>
      exists l1 x l2 s' h' ret, slots' = l1 ++ put_slot arg x :: l2 /\ devp = VopCard.place l1
      /\ vop_setup_virtio_device a h (desc_bytes arg) = Ret (h', desc_bytes (if ret =? 0 then arg else untyped arg), ret)
      /\ dp_rep boot (dp h') (l1 ++ s' :: l2) /\ same_shape (s_desc s') arg /\ dd h' = devp
      /\ (ret <> 0 -> ds_type (s_desc s') = 0 /\ held h' ≡ₚ held h /\ sent h' = sent h)
      /\ (ret = 0 -> set_up a boot devp h (put_slot arg x) (ds_type arg) s' h')
      /\ (granted a -> queue_num arg 0 <> 0 -> ret = 0)
  end.
Proof.
  intros Hrep Harg Hb Hre Hn Hnone Herr. destruct (if too_long arg then _ else _) as [[slots' devp]|] eqn:Eadd.
  - destruct (too_long arg) eqn:Hlong; [done|].
    destruct (added_at _ _ _ _ Eadd) as (l1 & x & l2 & -> & ->).
    destruct (setup_device_ok a boot h slots arg l1 x l2) as (s' & h' & ret & H3 & H4 & H5 & H6 & H7 & H8 & H9 & H10 & H11 & H12 & H13 & H14 & H15); try done.
    by exists l1, x, l2, s', h', ret.
  - pose proof (copy_dp_entry_ok boot (dp h) slots arg Hrep Harg Hb Hre) as Hcopy. rewrite Eadd in Hcopy.
    unfold vop_setup_virtio_device. rewrite Hcopy. run_bind. by destruct h.
Qed.

(** ** Lemmas: bytes of a control block *)

Lemma ctrl_at_write c k bs j : 0 <= k -> k + zlen bs <= zlen c -> 0 <= j < zlen c ->
  VopCard.ctrl_at (ctrl_write c k bs) j
  = if (k <=? j) && (j <? k + zlen bs) then nth (Z.to_nat (j - k)) bs 0 else VopCard.ctrl_at c j.
Proof.
  intros Hk Hl Hj. unfold VopCard.ctrl_at, ctrl_write, zlen in *. rewrite !nth_lookup.
  destruct (Z.leb_spec k j); cbn [andb].
  - rewrite lookup_app_r by (rewrite length_take; lia). rewrite length_take, Nat.min_l by lia.
    destruct (Z.ltb_spec j (k + Z.of_nat (length bs))).
    + rewrite lookup_app_l by lia. by replace (Z.to_nat j - Z.to_nat k)%nat with (Z.to_nat (j - k)) by lia.
    + rewrite lookup_app_r by lia. rewrite lookup_drop. f_equal. f_equal. lia.
  - rewrite lookup_app_l by (rewrite length_take; lia). by rewrite lookup_take_lt by lia.
Qed.

(** The control block that the node finds. *)
Lemma set_up_ctrl a c num k : zlen c = 40 -> 0 <= k < 40 ->
  VopCard.ctrl_at (irq_ctrl a (kvec_ctrl a (ctrl_init c) num)) k
  = if k =? dc_c2h_vdev_used_db then u8 (a_db a VopCard.Used)
    else if k =? dc_c2h_vdev_avail_db then u8 (a_db a VopCard.Avail)
    else if k =? dc_c2h_vdev_conf_db then u8 (a_db a VopCard.Conf)
    else if (dc_kvec_buf_elems <=? k) && (k <? dc_kvec_buf_elems + 4) then nth (Z.to_nat (k - dc_kvec_buf_elems)) (le_bytes 4 num) 0
    else if (dc_kvec_buf_address <=? k) && (k <? dc_kvec_buf_address + 8) then nth (Z.to_nat (k - dc_kvec_buf_address)) (le_bytes 8 (a_kvec_pa a)) 0
    else VopCard.ctrl_at (ctrl_init c) k.
Proof.
  intros Hc Hk. unfold irq_ctrl, kvec_ctrl. pose proof (length_le_bytes 8 (a_kvec_pa a)). pose proof (length_le_bytes 4 num).
  assert (zlen (ctrl_init c) = 40) as Hi by by rewrite ctrl_init_zlen.
  assert (zlen (ctrl_write (ctrl_init c) dc_kvec_buf_address (le_bytes 8 (a_kvec_pa a))) = 40) as Hw.
  { rewrite zlen_ctrl_write; unfold dc_kvec_buf_address, zlen in *; lia. }
  assert (zlen (ctrl_write (ctrl_write (ctrl_init c) dc_kvec_buf_address (le_bytes 8 (a_kvec_pa a))) dc_kvec_buf_elems (le_bytes 4 num)) = 40) as Hw2.
  { rewrite zlen_ctrl_write; unfold dc_kvec_buf_elems, zlen in *; lia. }
  rewrite !VopCard.ctrl_at_set by (rewrite ?zlen_ctrl_set, ?Hw2; (by vm_compute) || lia).
  rewrite !ctrl_at_write by (rewrite ?Hw, ?Hi; unfold dc_kvec_buf_address, dc_kvec_buf_elems, zlen; lia).
  unfold zlen. rewrite !length_le_bytes. done.
Qed.

(** ** Host and node together

    The contract of the bus and of the driver of the host: they write to the host's half of the slot. *)
Class HostBusOk `(HostBus) := {
  hreg : slot -> slot;
  hunreg : slot -> slot;
  hregister_page pre s post d : slot_ok s -> d = zlen pre ->
    on_register (pre ++ slot_bytes s ++ post) (d + (aligned_size (s_desc s) + sizeof_vca_device_ctrl)) = pre ++ slot_bytes (hreg s) ++ post;
  hunregister_page pre s post d : slot_ok s -> d = zlen pre ->
    on_unregister (pre ++ slot_bytes s ++ post) (d + (aligned_size (s_desc s) + sizeof_vca_device_ctrl)) = pre ++ slot_bytes (hunreg s) ++ post;
  host_driver_slot s f : f = hreg \/ f = hunreg -> slot_ok s ->
    slot_ok (f s) /\ s_desc (f s) = s_desc s /\ s_ctrl (f s) = s_ctrl s;
}.

(** What a device of the host holds, besides its rings. *)
Definition device_res (h : host) : list res :=
  (if ready h then [RBus] else []) ++ (if mapped h then [RKvec] else []) ++ RCdev :: irqs_res.

Lemma unmap_post h rest : held h ≡ₚ (if mapped h then [RKvec] else []) ++ rest ->
  post (unmap_buf h) (fun h' => exists k, h' = set_mapped (upd h (dp h) (vrings h) k) false /\ k ≡ₚ rest).
Proof.
  unfold unmap_buf. destruct (mapped h) eqn:E; intros Hh.
  - eapply post_bind; [apply give_post; exact Hh|]. intros h' (k & -> & Hk). apply post_ret. by exists k.
  - apply post_ret. exists (held h). split; [|done]. destruct h; cbn in *. by subst.
Qed.

Lemma unregister_post `{Hhost : HostBusOk} h pre x tail d rest : d = zlen pre -> dp h = pre ++ slot_bytes x ++ tail -> slot_ok x ->
  (ready h = true -> host_dd h = Some (d + (aligned_size (s_desc x) + sizeof_vca_device_ctrl))) ->
  held h ≡ₚ (if ready h then [RBus] else []) ++ rest ->
  post (vop_unregister_host_device h) (fun h' => exists k y, h' = set_ready (upd h (pre ++ slot_bytes y ++ tail) (vrings h) k) false
    /\ k ≡ₚ rest /\ slot_ok y /\ slot_size y = slot_size x /\ s_desc y = s_desc x /\ s_ctrl y = s_ctrl x
    /\ y = if ready h then hunreg x else x).
Proof.
  intros Hd Hp Hx Hdd. unfold vop_unregister_host_device. destruct (ready h) eqn:E; intros Hh.
  - rewrite (Hdd eq_refl). eapply post_bind; [apply give_post; exact Hh|]. intros h' (k & -> & Hk). apply post_ret. cbn [dp upd].
    rewrite Hp, hunregister_page by done. destruct (host_driver_slot x hunreg (or_intror eq_refl) Hx) as (Hy & Hyd & Hyc).
    exists k, (hunreg x). split; [done|]. split; [done|]. split; [done|]. unfold slot_size. by rewrite Hyd.
  - apply post_ret. exists (held h), x. split; [destruct h; cbn in *; by subst|]. done.
Qed.

Section HotPlug.
Context `{Hnode : VopCard.VirtioBusOk} `{Hhost : HostBusOk} (e : nat -> VopCard.answers).

(** What the node leaves in the slot of a new device. *)
Lemma added_ctrl ea ptr s k : slot_ok s -> 8 <= k < 40 -> k <> dc_vdev_reset -> k <> dc_host_ack -> k <> dc_used_address_updated ->
  VopCard.ctrl_at (s_ctrl (VopCard.added_slot ea ptr s)) k
  = if k =? dc_h2c_vdev_used_db then u8 (VopCard.a_used_db ea)
    else if k =? dc_h2c_vdev_avail_db then u8 (VopCard.a_avail_db ea)
    else if k =? dc_h2c_vdev_conf_db then u8 (VopCard.a_conf_db ea)
    else VopCard.ctrl_at (s_ctrl s) k.
Proof.
  intros Hs Hk H1 H2 H3. pose proof (VopCard.offered_ok ea s Hs) as Ho.
  destruct (VopCard.driver_slot (VopCard.offered ea s) VopCard.reg (or_introl eq_refl) Ho) as (Hr & _ & _ & _ & Hsame).
  unfold VopCard.added_slot. cbn [s_ctrl with_ctrl]. pose proof (length_le_bytes 8 ptr).
  rewrite ctrl_at_write by (rewrite ?(VopCard.ctrl_len _ Hr); unfold dc_vdev, zlen; lia).
  unfold dc_vdev at 1 2. unfold zlen at 1. rewrite length_le_bytes. rewrite (proj2 (Z.ltb_ge k (0 + Z.of_nat 8))) by lia. rewrite andb_false_r.
  rewrite Hsame by (done || lia). unfold VopCard.offered. cbn [s_ctrl with_host_ctrl with_ctrl].
  rewrite !VopCard.ctrl_at_set by (rewrite ?zlen_ctrl_set, ?(VopCard.ctrl_len _ Hs); (by vm_compute) || lia). done.
Qed.

Lemma added_host_ctrl ea ptr s j : slot_ok s -> 0 <= j < 8 ->
  VopCard.ctrl_at (s_host_ctrl (VopCard.added_slot ea ptr s)) (dc_kvec_buf_address + j) = nth (Z.to_nat j) (le_bytes 8 (VopCard.a_kvec_pa ea)) 0.
Proof.
  intros Hs Hj. pose proof (VopCard.offered_ok ea s Hs) as Ho.
  destruct (VopCard.driver_slot (VopCard.offered ea s) VopCard.reg (or_introl eq_refl) Ho) as (_ & _ & _ & Hh & _).
  unfold VopCard.added_slot. cbn [s_host_ctrl with_ctrl]. rewrite Hh. unfold VopCard.offered. cbn [s_host_ctrl with_host_ctrl].
  pose proof (VopCard.host_ctrl_len _ Hs) as Hl. set (b8 := le_bytes 8 _). set (b4 := le_bytes 4 _).
  assert (zlen b8 = 8 /\ zlen b4 = 4) as [L8 L4] by by unfold b8, b4, zlen; rewrite !length_le_bytes.
  assert (zlen (ctrl_write (s_host_ctrl s) dc_kvec_buf_address b8) = 40) as Hw by (rewrite zlen_ctrl_write; unfold dc_kvec_buf_address; lia).
  rewrite !ctrl_at_write by (rewrite ?Hw; unfold dc_kvec_buf_address, dc_kvec_buf_elems; lia). rewrite L4, L8.
  unfold dc_kvec_buf_address, dc_kvec_buf_elems.
  rewrite (proj2 (Z.leb_gt 32 (24 + j))), (proj2 (Z.leb_le 24 (24 + j))), (proj2 (Z.ltb_lt (24 + j) (24 + 8))) by lia.
  cbn [andb]. f_equal. lia.
Qed.

(** C12. A device that the host has set up, and the scan of the node that follows: the node has one new
    device; it rings the doorbells of the host and the host finds its own in the control
    block, and each side finds the address of the other's rings.  Other devices stay as they are. *)
Theorem hot_plug_connects a boot h slots arg l1 x l2 h' argp' c ptr :
  let ea := e (VopCard.calls c) in
  dp_rep boot (dp h) slots -> arg_ok arg -> bounded arg -> reusable arg slots -> ds_num_vq arg = 2 ->
  ds_type arg <> 0 -> ds_type arg <> 255 -> none_from 0 (vrings h) -> honest a -> too_long arg = false ->
  add_slot sizeof_vca_bootparam arg slots = Some (l1 ++ put_slot arg x :: l2, VopCard.place l1) ->
  vop_setup_virtio_device a h (desc_bytes arg) = Ret (h', argp', 0) ->
  VopCard.all_quiet (VopCard.vdev_list c) sizeof_vca_bootparam l1 ->
  VopCard.all_quiet (VopCard.vdev_list c) (VopCard.place l1 + total_size arg) l2 ->
  VopCard.find_desc (VopCard.place l1) (VopCard.vdev_list c) = None -> VopCard.good ea ptr ->
  exists c' s v, VopCard.vop_scan_devices e (VopCard.set_dp c (dp h')) false = Ret c'
  /\ dp_rep boot (VopCard.dp c') (l1 ++ s :: l2) /\ VopCard.vdev_list c' = VopCard.vdev_list c ++ [v]
  /\ VopCard.v_ptr v = ptr /\ VopCard.v_desc v = dd h' /\ VopCard.v_id v = ds_type arg
  /\ VopCard.v_c2h_conf_db v = s8 (u8 (a_db a VopCard.Conf)) /\ VopCard.v_c2h_avail_db v = s8 (u8 (a_db a VopCard.Avail))
  /\ VopCard.v_c2h_used_db v = s8 (u8 (a_db a VopCard.Used))
  /\ VopCard.ctrl_at (s_ctrl s) dc_h2c_vdev_conf_db = u8 (VopCard.v_h2c_conf_db v)
  /\ VopCard.ctrl_at (s_ctrl s) dc_h2c_vdev_avail_db = u8 (VopCard.v_h2c_avail_db v)
  /\ VopCard.ctrl_at (s_ctrl s) dc_h2c_vdev_used_db = u8 (VopCard.v_h2c_used_db v)
  /\ (forall j, 0 <= j < 8 -> VopCard.ctrl_at (s_ctrl s) (dc_kvec_buf_address + j) = nth (Z.to_nat j) (le_bytes 8 (a_kvec_pa a)) 0
       /\ VopCard.ctrl_at (s_host_ctrl s) (dc_kvec_buf_address + j) = nth (Z.to_nat j) (le_bytes 8 (VopCard.a_kvec_pa ea)) 0)
  /\ VopCard.held c' ≡ₚ VopCard.vdev_res ptr ++ VopCard.held c.
Proof.
  intros ea Hrep Harg Hb Hre Hn Ht0 Ht255 Hnone Herr Hlong Hadd Hsetup Hq1 Hq2 Hf Hg.
  destruct (setup_device_ok a boot h slots arg _ _ _ Hrep Harg Hb Hre ltac:(lia) Hnone Herr Hlong Hadd)
    as (s' & h'' & ret & E & Hrep' & Hz' & Hsh & Hhty & Hx & Hid & Hdd & Hdc & _ & _ & _ & _ & Hok & _).
  rewrite Hsetup in E. injection E as <- _ <-. destruct (Hok eq_refl) as (Hty & (num & Hctrl) & Hhctrl & _).
  assert (in_use s' = true) as Hu.
  { unfold in_use. rewrite Hty. by rewrite (proj2 (Z.eqb_neq _ _) Ht0), (proj2 (Z.eqb_neq _ _) Ht255). }
  assert (ds_num_vq (s_desc s') = 2) as Hn' by by destruct Hsh as (-> & _).
  assert (slot_ok s') as Hs' by (destruct Hrep' as (_ & _ & Hl & _); apply Forall_app in Hl as [_ Hl]; by inversion Hl).
  destruct (VopCard.scan_adds e boot (VopCard.set_dp c (dp h')) l1 s' l2 ptr) as (c' & H1 & H2 & H3 & H4); try done; [by rewrite Hz'|].
  exists c', (VopCard.added_slot ea ptr s'), (VopCard.new_vdev ea ptr (VopCard.place l1) s').
  split; [exact H1|]. split; [exact H2|]. split; [exact H3|]. split; [done|]. split; [done|]. split; [done|].
  assert (forall k, 0 <= k < 40 -> VopCard.ctrl_at (s_ctrl s') k = VopCard.ctrl_at (irq_ctrl a (kvec_ctrl a (ctrl_init (s_ctrl x)) num)) k) as Hc by by rewrite Hctrl.
  unfold VopCard.new_vdev. cbn [VopCard.v_c2h_conf_db VopCard.v_c2h_avail_db VopCard.v_c2h_used_db VopCard.v_h2c_conf_db VopCard.v_h2c_avail_db VopCard.v_h2c_used_db].
  rewrite !Hc, !set_up_ctrl by (done || by vm_compute). rewrite !added_ctrl by (done || by vm_compute).
  do 6 (split; [done|]). split; [|exact H4].
  intros j Hj. split; [|by apply added_host_ctrl].
  rewrite added_ctrl by (done || unfold dc_kvec_buf_address, dc_vdev_reset, dc_host_ack, dc_used_address_updated; lia).
  rewrite Hc, set_up_ctrl by (done || unfold dc_kvec_buf_address; lia).
  unfold dc_kvec_buf_address, dc_kvec_buf_elems, dc_h2c_vdev_used_db, dc_h2c_vdev_avail_db, dc_h2c_vdev_conf_db,
    dc_c2h_vdev_used_db, dc_c2h_vdev_avail_db, dc_c2h_vdev_conf_db.
  rewrite !(proj2 (Z.eqb_neq (24 + j) _)) by lia. rewrite (proj2 (Z.leb_gt 32 (24 + j))), (proj2 (Z.leb_le 24 (24 + j))), (proj2 (Z.ltb_lt (24 + j) (24 + 8))) by lia.
  cbn [andb]. f_equal. lia.
Qed.

(** The node scans the page in the first wait of the host. *)
Definition node_scans (k : nat) (c : VopCard.card) (p : list Z) : VopCard.card * list Z :=
  match k, VopCard.vop_scan_devices e (VopCard.set_dp c p) false with
  | O, Ret c' => (c', VopCard.dp c')
  | _, _ => (c, p)
  end.

(** The slot with the request in it. *)
Definition asked (s : slot) : slot := with_ctrl s (ctrl_set (s_ctrl s) dc_config_change VopCard.VCA_VIRTIO_PARAM_DEV_REMOVE).
(** The slot when the host has seen the answer. *)
Definition acked (s : slot) : slot :=
  let r := VopCard.removed_slot (asked s) in
  with_ctrl r (ctrl_set (ctrl_set (s_ctrl r) dc_config_change 0) dc_guest_ack GUEST_ACK_NONE).

Section Unplug.
Context (boot : list Z) (l1 l2 : list slot) (s : slot) (h : host) (c : VopCard.card) (v : VopCard.vdev) (rest : list VopCard.res).
Let ptr := VopCard.slot_vdev s.
Hypothesis Hrep : dp_rep boot (dp h) (l1 ++ s :: l2).
Hypothesis Hu : in_use s = true.
Hypothesis Hdb : node_db boot <> -1.
Hypothesis Hdc : dc h = VopCard.place l1 + aligned_size (s_desc s).
Hypothesis Hq1 : VopCard.all_quiet (VopCard.vdev_list c) sizeof_vca_bootparam l1.
Hypothesis Hq2 : VopCard.all_quiet (VopCard.list_del ptr (VopCard.vdev_list c)) (VopCard.place l1 + slot_size s) l2.
Hypothesis Hf : VopCard.find_desc (VopCard.place l1) (VopCard.vdev_list c) = Some v.
Hypothesis Hv : VopCard.v_ptr v = ptr.
Hypothesis Hheld : VopCard.held c ≡ₚ VopCard.vdev_res ptr ++ rest.

Lemma slot_here : slot_ok s /\ zlen (s_ctrl s) = 40.
Proof.
  assert (slot_ok s) as Hs by (destruct Hrep as (_ & _ & Hl & _); apply Forall_app in Hl as [_ Hl]; by inversion Hl).
  split; [done|by apply VopCard.ctrl_len].
Qed.

Lemma asked_ok : slot_ok (asked s) /\ slot_size (asked s) = slot_size s /\ VopCard.slot_vdev (asked s) = ptr
  /\ VopCard.ctrl_at (s_ctrl (asked s)) dc_config_change = VopCard.VCA_VIRTIO_PARAM_DEV_REMOVE.
Proof.
  destruct slot_here as [Hs Hc]. split; [by apply VopCard.put_ok|]. split; [done|]. split.
  - unfold VopCard.slot_vdev, asked, ptr, VopCard.slot_vdev. cbn [s_ctrl with_ctrl]. unfold ctrl_set. by rewrite take_insert_ge.
  - unfold asked. cbn [s_ctrl with_ctrl]. by rewrite VopCard.ctrl_at_set by (rewrite ?Hc; by vm_compute).
Qed.

(** The node removes the device. *)
Lemma node_removes p : dp_rep boot p (l1 ++ asked s :: l2) ->
  exists c', VopCard.vop_scan_devices e (VopCard.set_dp c p) false = Ret c'
  /\ dp_rep boot (VopCard.dp c') (l1 ++ VopCard.removed_slot (asked s) :: l2)
  /\ VopCard.vdev_list c' = VopCard.list_del ptr (VopCard.vdev_list c) /\ VopCard.held c' ≡ₚ rest
  /\ VopCard.ctrl_at (s_ctrl (VopCard.removed_slot (asked s))) dc_guest_ack = GUEST_ACK_DONE.
Proof.
  intros Hrep'. destruct asked_ok as (H1 & H2 & H3 & H4).
  destruct (VopCard.scan_removes e boot (VopCard.set_dp c p) l1 (asked s) l2 v rest) as (c' & ? & ? & ? & ? & _ & ?); rewrite ?H2, ?H3; try done.
  exists c'. rewrite H3 in *. done.
Qed.

(** The page around the slot at [l1]. *)
Lemma rep_split x p : dp_rep boot p (l1 ++ x :: l2) ->
  exists tail, p = (boot ++ concat (map slot_bytes l1)) ++ slot_bytes x ++ tail
  /\ VopCard.place l1 = zlen (boot ++ concat (map slot_bytes l1)) /\ slot_ok x
  /\ aget p bp_h2c_config_db = Ret (nth (Z.to_nat bp_h2c_config_db) boot 0)
  /\ forall y, slot_ok y -> slot_size y = slot_size x -> dp_rep boot ((boot ++ concat (map slot_bytes l1)) ++ slot_bytes y ++ tail) (l1 ++ y :: l2).
Proof.
  intros Hr. pose proof Hr as (Hb & Hz & Hl & n & Hp). apply Forall_app in Hl as [Hl1 Hl2]. apply Forall_cons_1 in Hl2 as [Hx _].
  exists (concat (map slot_bytes l2) ++ replicate n 0). split; [by rewrite Hp, page_split|].
  split; [by rewrite page_offset|]. split; [done|]. split.
  - rewrite Hp. unfold page_bytes. destruct (aget_total boot bp_h2c_config_db) as (w & E & Hw); [rewrite Hb; by vm_compute|].
    rewrite aget_front by (rewrite Hb; by vm_compute). rewrite E. f_equal. symmetry. by apply nth_lookup_Some.
  - intros y Hy Hsz. rewrite <- page_split. apply (dp_rep_replace boot l1 x); [by rewrite <- Hp|done|done].
Qed.

Lemma removed_size x : slot_ok x -> aligned_size (s_desc (VopCard.removed_slot x)) = aligned_size (s_desc x).
Proof.
  intros Hx. set (x1 := with_ctrl x (ctrl_set (s_ctrl x) dc_guest_ack GUEST_ACK_RECEIVED)).
  destruct (VopCard.driver_slot x1 VopCard.unreg (or_intror eq_refl)) as (_ & _ & Hsh & _); [by apply VopCard.put_ok|].
  exact (VopCard.same_size _ _ Hsh).
Qed.

Lemma card_dev_remove_ok :
  exists p c', vop_card_dev_remove node_scans c h = Ret (set_dp (send_intr h (node_db boot)) p, c', 0)
  /\ dp_rep boot p (l1 ++ acked s :: l2)
  /\ VopCard.vdev_list c' = VopCard.list_del ptr (VopCard.vdev_list c) /\ VopCard.held c' ≡ₚ rest.
Proof.
  destruct slot_here as [Hs Hcl]. destruct (rep_split s _ Hrep) as (tail & Hp & Hplace & _ & Hbyte & Hput).
  destruct asked_ok as (Ha & Hasz & _). pose proof (Hput _ Ha Hasz) as Hrep1.
  destruct (rep_split _ _ Hrep1) as (tail1 & Hp1 & _ & _ & Hbyte1 & _).
  destruct (node_removes _ Hrep1) as (c' & Hscan & Hrep2 & Hl' & Hh' & Hack).
  destruct (rep_split _ _ Hrep2) as (tail2 & Hp2 & _ & Hr & _ & Hput2).
  unfold vop_card_dev_remove. rewrite Hdc, Hp, ctrl_put by (done || by vm_compute). run_bind.
  fold (asked s). rewrite Hbyte1. run_bind. fold (node_db boot). rewrite (proj2 (Z.eqb_neq _ _) Hdb). cbn [negb].
  cbn [remove_loop node_scans]. rewrite Hscan. pose proof (removed_size _ Ha) as Hsz.
  set (r := VopCard.removed_slot (asked s)) in *. change (aligned_size (s_desc (asked s))) with (aligned_size (s_desc s)) in Hsz.
  change (dc (send_intr (set_dp h _) _)) with (dc h). rewrite Hdc, <- Hsz, Hp2, ctrl_get by (done || by vm_compute).
  rewrite VopCard.aget_ctrl_at by (by apply VopCard.ctrl_len || by vm_compute). run_bind. rewrite Hack. cbn [Z.eqb GUEST_ACK_DONE Pos.eqb]. run_bind.
  change (dc (send_intr (set_dp h _) _)) with (dc h). rewrite Hdc, <- Hsz.
  rewrite ctrl_put by (done || by vm_compute). run_bind. set (r1 := with_ctrl r _).
  assert (slot_ok r1) as Hr1 by by apply VopCard.put_ok. change (aligned_size (s_desc r)) with (aligned_size (s_desc r1)).
  rewrite ctrl_put by (done || by vm_compute). run_bind. change (with_ctrl r1 _) with (acked s).
  exists ((boot ++ concat (map slot_bytes l1)) ++ slot_bytes (acked s) ++ tail2), c'. split; [done|].
  split; [apply Hput2; [by apply (VopCard.put_ok r1)|done]|]. done.
Qed.

(** What the host does after the node has answered. *)
Lemma del_tail p hrest : dp_rep boot p (l1 ++ acked s :: l2) -> dd h = VopCard.place l1 ->
  (ready h = true -> host_dd h = Some (VopCard.place l1 + (aligned_size (s_desc s) + sizeof_vca_device_ctrl))) ->
  held h ≡ₚ device_res h ++ hrest ->
  post (del_host_side false (set_dp (send_intr h (node_db boot)) p))
    (fun h' => held h' ≡ₚ hrest /\ ready h' = false /\ mapped h' = false /\ vrings h' = vrings h /\ sent h' = sent h ++ [node_db boot]
      /\ exists s', dp_rep boot (dp h') (l1 ++ s' :: l2) /\ in_use s' = false /\ slot_size s' = slot_size s).
Proof.
  intros Hrep' Hdd Hhd Hh. unfold del_host_side.
  set (opt := (if ready h then [RBus] else []) ++ (if mapped h then [RKvec] else [])) in *.
  assert (held h ≡ₚ RIrq VopCard.Conf :: RIrq VopCard.Avail :: RIrq VopCard.Used :: RCdev :: opt ++ hrest) as Hh'.
  { rewrite Hh. unfold device_res, irqs_res, opt. solve_Permutation. }
  eapply post_bind; [apply give_post; exact Hh'|]. intros h1 (k1 & -> & H1).
  eapply post_bind; [apply give_post; exact H1|]. intros h2 (k2 & -> & H2).
  eapply post_bind; [apply give_post; exact H2|]. intros h3 (k3 & -> & H3).
  eapply post_bind; [apply (unmap_post _ (RCdev :: (if ready h then [RBus] else []) ++ hrest)); cbn [held mapped upd]|].
  { rewrite H3. unfold opt. cbn [mapped set_dp send_intr]. solve_Permutation. }
  intros h4 (k4 & -> & H4).
  eapply post_bind; [apply give_post; exact H4|]. intros h5 (k5 & -> & H5).
  destruct (rep_split _ _ Hrep') as (tail & Hp & Hplace & Hok & _ & Hput).
  cbn [dp dd upd set_mapped set_dp send_intr]. rewrite Hdd, Hp, slot_set_type by done. run_bind.
  set (x := with_type (acked s) 255). destruct (with_type_ok (acked s) 255 Hok) as [Hx Hxz]; [unfold byte; lia|]. fold x in Hx, Hxz.
  assert (aligned_size (s_desc x) = aligned_size (s_desc s)) as Hsz by by apply (removed_size (asked s)), asked_ok.
  assert (slot_size x = slot_size s) as Hxs by by unfold slot_size, total_size; rewrite Hsz.
  eapply post_mono; [apply (unregister_post _ _ x tail _ hrest Hplace); try done; cbn [ready host_dd upd set_mapped set_dp send_intr]; rewrite ?Hsz; done|].
  intros h6 (k6 & y & -> & H6 & Hy & Hys & Hyt & _). cbn [held ready mapped vrings sent dp].
  split; [done|]. do 4 (split; [done|]). exists y. split; [apply Hput; [done|congruence]|]. split; [|congruence].
  unfold in_use. by rewrite Hyt.
Qed.

(** C13. The host closes the file of a device, and the node scans the page, as the host has written it, while the host waits:
    afterwards the node has removed its device and given back what it held for it, the host has given back everything that the
    device holds besides the rings, the entry of the page is free, and all others stay as they are. *)
Theorem hot_unplug_clean hrest : dd h = VopCard.place l1 ->
  (ready h = true -> host_dd h = Some (VopCard.place l1 + (aligned_size (s_desc s) + sizeof_vca_device_ctrl))) ->
  held h ≡ₚ device_res h ++ hrest ->
  exists h' c' s', vop_virtio_del_card_device node_scans false c h = Ret (h', c')
  /\ held h' ≡ₚ hrest /\ ready h' = false /\ mapped h' = false /\ sent h' = sent h ++ [node_db boot]
  /\ dp_rep boot (dp h') (l1 ++ s' :: l2) /\ in_use s' = false /\ slot_size s' = slot_size s
  /\ VopCard.vdev_list c' = VopCard.list_del ptr (VopCard.vdev_list c) /\ VopCard.held c' ≡ₚ rest.
Proof.
  intros Hdd Hhd Hh. destruct card_dev_remove_ok as (p & c' & E & Hp & Hl & Hc).
  unfold vop_virtio_del_card_device. rewrite E. run_bind.
  destruct (del_tail p hrest Hp Hdd Hhd Hh) as (h' & E' & H1 & H2 & H3 & _ & H5 & s' & H6 & H7 & H8).
  rewrite E'. run_bind. exists h', c', s'. split; [done|]. do 7 (split; [done|]). by split.
Qed.

End Unplug.
End HotPlug.

(** ** Waiting for the node *)

Lemma remove_loop_ends {N} (node : nat -> N -> list Z -> N * list Z) n dc : (forall k c p, zlen (node k c p).2 = zlen p) -> 0 <= dc ->
  forall k received c p, dc + 40 <= zlen p ->
  post (remove_loop node n k received c p dc) (fun '(_, p', err) => zlen p' = zlen p /\ (err = 0 \/ err = - ENODEV)).
Proof.
  intros Hnode Hdc. induction n as [|n IH]; intros k received c p Hp; cbn [remove_loop]; [apply post_ret; by auto|].
  pose proof (Hnode k c p) as Hz. destruct (node k c p) as [c1 p1]. cbn [snd] in Hz.
  destruct (aget_total p1 (dc + dc_guest_ack)) as (v & -> & _); [rewrite Hz; unfold dc_guest_ack; lia|]. run_bind.
  destruct (v =? GUEST_ACK_DONE); [apply post_ret; by auto|].
  assert (forall b, post (remove_loop node n (S k) b c1 p1 dc) (fun '(_, p', err) => zlen p' = zlen p /\ (err = 0 \/ err = - ENODEV))) as Hrec.
  { intros b. eapply post_mono; [apply IH; by rewrite Hz|]. intros [[c2 p'] err] [H1 H2]. by rewrite H1, Hz. }
  destruct (v =? GUEST_ACK_RECEIVED); [apply Hrec|]. destruct (negb received && _); [apply post_ret; by auto|apply Hrec].
Qed.

(** Whatever the node does to the page, the host stops waiting for it: asking for the removal of a
    device ends with success or with -ENODEV, the request and the answer are cleared, and nothing is
    taken or given back. *)
Theorem vop_card_dev_remove_ends {N} (node : nat -> N -> list Z -> N * list Z) c h : (forall k c p, zlen (node k c p).2 = zlen p) -> 0 <= dc h -> dc h + 40 <= zlen (dp h) ->
  bp_h2c_config_db < zlen (dp h) ->
  exists h' c' err, vop_card_dev_remove node c h = Ret (h', c', err) /\ (err = 0 \/ err = - ENODEV)
  /\ aget (dp h') (dc h + dc_config_change) = Ret 0 /\ aget (dp h') (dc h + dc_guest_ack) = Ret GUEST_ACK_NONE
  /\ zlen (dp h') = zlen (dp h) /\ held h' = held h.
Proof.
  intros Hnode H0 Hdc Hdb. unfold vop_card_dev_remove. rewrite aset_ret by (unfold dc_config_change; lia). run_bind.
  set (p1 := <[_ := _]> (dp h)). assert (zlen p1 = zlen (dp h)) as Hz1 by apply zlen_insert.
  destruct (aget_total p1 bp_h2c_config_db) as (db & -> & _); [rewrite Hz1; split; [by vm_compute|done]|]. run_bind.
  assert (exists h2 c2 p2 err, (if negb (s8 db =? -1) then
      '(c, p, err) ← remove_loop node 10 0 false c p1 (dc h); Ret (send_intr (set_dp h p1) (s8 db), c, p, err)
      else Ret (set_dp h p1, c, p1, - ENODEV)) = Ret (h2, c2, p2, err) /\ zlen p2 = zlen (dp h) /\ (err = 0 \/ err = - ENODEV)
      /\ held h2 = held h /\ dc h2 = dc h) as (h2 & c2 & p2 & err & E & Hz2 & Herr & Hheld & Hdc2).
  { destruct (negb (s8 db =? -1)); [|by exists (set_dp h p1), c, p1, (- ENODEV); auto].
    destruct (remove_loop_ends node 10 (dc h) Hnode H0 0%nat false c p1) as ([[c2 p2] err] & -> & H1 & H2); [by rewrite Hz1|]. run_bind.
    eexists _, c2, p2, err. split; [done|]. by rewrite H1. }
  cbn [dc send_intr set_dp] in *. rewrite E. run_bind. rewrite Hdc2.
  rewrite aset_ret by (rewrite Hz2; unfold dc_config_change; lia). run_bind.
  rewrite aset_ret by (rewrite zlen_insert, Hz2; unfold dc_guest_ack; lia). run_bind. eexists _, c2, err. split; [done|]. split; [done|].
  cbn [dp set_dp held]. unfold zlen in *. split; [|split; [|split; [by rewrite !length_insert|done]]].
  - apply aget_ret; [unfold dc_config_change; lia|]. rewrite list_lookup_insert_ne by (unfold dc_config_change, dc_guest_ack; lia).
    apply list_lookup_insert_eq. unfold dc_config_change. lia.
  - apply aget_ret; [unfold dc_guest_ack; lia|]. apply list_lookup_insert_eq. rewrite length_insert. unfold dc_guest_ack. lia.
Qed.

(** ** The work of the interrupt: registering the host's own device *)

Definition desc_put (x : desc) (k v : Z) : desc :=
  mkDesc (ds_type x) (ds_num_vq x) (ds_feature_len x) (ds_config_len x) (ctrl_set (ds_body x) (k - 4) v).

Section Register.
Context (pre tail : list Z) (d : Z) (Hd : d = zlen pre).
Notation page s := (pre ++ slot_bytes s ++ tail).
Notation hd s := (d + (aligned_size (s_desc s) + sizeof_vca_device_ctrl)).

(** The configuration byte [i] of the host's descriptor is byte [config_at s + i] of the descriptor. *)
Definition config_at (s : slot) : Z := 8 + ds_num_vq (s_host_desc s) * 16 + ds_feature_len (s_host_desc s) * 2.
Definition host_byte (s : slot) (k : Z) : Z := VopCard.ctrl_at (ds_body (s_host_desc s)) (k - 4).

Lemma host_desc_put s k v : slot_ok s -> 4 <= k < aligned_size (s_desc s) ->
  aset (page s) (hd s + k) v = Ret (page (with_host_desc s (desc_put (s_host_desc s) k v))).
Proof.
  intros Hs Hk. pose proof (host_body s Hs). pose proof (host_aligned s Hs).
  rewrite page_host, aset_at by (by apply host_place || (rewrite zlen_desc_bytes; lia)).
  assert (ctrl_set (desc_bytes (s_host_desc s)) k v = desc_bytes (desc_put (s_host_desc s) k v)) as ->; [|by rewrite page_host].
  unfold ctrl_set, desc_bytes, desc_put, ctrl_set. cbn [ds_type ds_num_vq ds_feature_len ds_config_len ds_body].
  replace (Z.to_nat k) with (4 + Z.to_nat (k - 4))%nat by lia. done.
Qed.

Lemma host_desc_put_ok s k v : slot_ok s -> slot_ok (with_host_desc s (desc_put (s_host_desc s) k v)).
Proof.
  intros (H1 & H2 & H3 & H4 & H5 & H6 & H7). split; [done|]. split; [done|]. split; [done|]. split; [done|]. split; [done|].
  split; [|done]. cbn [with_host_desc s_host_desc s_desc desc_put ds_body]. by rewrite zlen_ctrl_set.
Qed.

Lemma host_byte_put s k v j : slot_ok s -> 4 <= k < aligned_size (s_desc s) -> 4 <= j ->
  host_byte (with_host_desc s (desc_put (s_host_desc s) k v)) j = if j =? k then v else host_byte s j.
Proof.
  intros Hs Hk Hj. unfold host_byte. cbn [with_host_desc s_host_desc desc_put ds_body].
  pose proof (host_body s Hs). pose proof (host_aligned s Hs). rewrite VopCard.ctrl_at_set by lia.
  destruct (Z.eqb_spec (j - 4) (k - 4)), (Z.eqb_spec j k); done || lia.
Qed.
End Register.

Section Mac.
Context (a : answers) (pre tail : list Z) (d : Z) (Hd : d = zlen pre).
Notation page s := (pre ++ slot_bytes s ++ tail).
Notation hd s := (d + (aligned_size (s_desc s) + sizeof_vca_device_ctrl)).

(** A slot in which only the body of the host's descriptor may have changed. *)
Definition host_like (s s' : slot) : Prop :=
  slot_ok s' /\ s_desc s' = s_desc s /\ s_ctrl s' = s_ctrl s /\ s_host_ctrl s' = s_host_ctrl s
  /\ ds_type (s_host_desc s') = ds_type (s_host_desc s) /\ same_shape (s_host_desc s') (s_host_desc s).

(** The bytes of the address; the fourth one is the one that was there. *)
Definition mac_bytes (s s' : slot) : Prop :=
  map (fun i => host_byte s' (config_at s + i)) [0; 1; 2; 3; 4; 5]
  = [H_MAC_0; H_MAC_1; H_MAC_2; host_byte s (config_at s + 3); u8 (card_id a + 1); u8 (cpu_id a + 1)].

(** The four bytes of the features that the host's device offers. *)
Definition features_at (s : slot) : Z := 8 + ds_num_vq (s_host_desc s) * 16.
Definition feature_bytes (s x : slot) : list Z := map (fun i => host_byte x (features_at s + i)) [0; 1; 2; 3].

(** [x] is [s] with the address: the address, the feature that tells that there is one, and
    nothing else: the numbers and the addresses of the queues stay. *)
Definition named (s x : slot) : Prop :=
  host_like s x /\ mac_bytes s x
  /\ feature_bytes s x = le_bytes 4 (Z.lor (le (feature_bytes s s)) (Z.shiftl 1 VIRTIO_NET_F_MAC))
  /\ forall k, 4 <= k < aligned_size (s_desc s) -> ~ features_at s <= k < features_at s + 4 ->
       ~ config_at s <= k < config_at s + 6 -> host_byte x k = host_byte s k.

(** Writing a byte of the configuration. *)
Lemma put_config s c x i v : c = config_at s -> host_like s x -> slot_ok s -> 0 <= i < 6 -> c + 6 <= aligned_size (s_desc s) ->
  exists y, host_like s y /\ (forall j, 4 <= j -> host_byte y j = if j =? c + i then v else host_byte x j)
  /\ aset (page x) (hd s + c + i) v = Ret (page y).
Proof.
  intros -> (H1 & H2 & H3 & H4 & H5 & H6) Hs Hi Hc. assert (8 <= config_at s) as H8.
  { destruct (host_header s Hs) as (_ & Hn & Hf & _). unfold config_at, byte in *. lia. }
  exists (with_host_desc x (desc_put (s_host_desc x) (config_at s + i) v)).
  split; [split; [by apply host_desc_put_ok|]; do 4 (split; [done|]); done|]. rewrite <- H2 in *. split.
  - intros j Hj. apply host_byte_put; [done|lia|done].
  - rewrite <- Z.add_assoc. apply host_desc_put; [done|done|lia].
Qed.

Lemma take4_nth (l : list Z) m : (m + 4 <= length l)%nat -> take 4 (drop m l) = map (fun i => nth (m + i) l 0) [0; 1; 2; 3]%nat.
Proof.
  revert m. induction l as [|x l IH]; intros m Hm; [cbn in Hm; lia|].
  destruct m as [|m]; [destruct l as [|? [|? [|? ?]]]; cbn in *; done || lia|]. apply IH. cbn in Hm. lia.
Qed.

Lemma desc_peek_4 s : slot_ok s -> features_at s + 4 <= aligned_size (s_desc s) ->
  take (Z.to_nat 4) (drop (Z.to_nat (features_at s)) (desc_bytes (s_host_desc s))) = feature_bytes s s.
Proof.
  intros Hs Hle. pose proof (host_body s Hs) as Hb. rewrite host_aligned in Hb by done. destruct (host_header s Hs) as (_ & Hn & _).
  assert (8 <= features_at s) as H8 by (unfold features_at, byte in *; lia).
  unfold desc_bytes. replace (Z.to_nat (features_at s)) with (4 + Z.to_nat (features_at s - 4))%nat by lia.
  change (take 4 (drop (Z.to_nat (features_at s - 4)) (ds_body (s_host_desc s))) = feature_bytes s s).
  rewrite take4_nth by (unfold zlen in Hb; lia). unfold feature_bytes, host_byte, VopCard.ctrl_at. cbn [map].
  repeat f_equal; lia.
Qed.

Lemma set_mac_ok s : slot_ok s -> 4 <= ds_feature_len (s_host_desc s) -> 6 <= ds_config_len (s_host_desc s) ->
  post (set_mac a (page s) (hd s)) (fun p => exists s', p = page s' /\ named s s').
Proof.
  intros Hs Hf Hc. unfold set_mac. pose proof (host_header s Hs) as Hh. pose proof (host_aligned s Hs) as Hal. pose proof (size_bounds _ Hh) as [_ Hsz].
  rewrite page_host, vq_features_ok, vq_configspace_ok, <- page_host by (by apply host_place). run_bind.
  set (c := config_at s). assert (c = 8 + ds_num_vq (s_host_desc s) * 16 + ds_feature_len (s_host_desc s) * 2) as Ec by done.
  assert (c + 6 <= aligned_size (s_desc s) /\ 8 + ds_num_vq (s_host_desc s) * 16 + 4 <= c) as [Hcfg Hft].
  { unfold desc_size, sizeof_vca_device_desc, sizeof_vca_vqconfig in Hsz. rewrite Hal in Hsz. lia. }
  destruct Hh as (_ & Hnv & _). unfold byte in Hnv.
  replace (hd s + 8 + ds_num_vq (s_host_desc s) * 16) with (hd s + (8 + ds_num_vq (s_host_desc s) * 16)) by lia.
  pose proof (host_body s Hs) as Hbody.
  assert (peek (page s) (hd s + (8 + ds_num_vq (s_host_desc s) * 16)) 4 = Ret (feature_bytes s s)) as ->.
  { rewrite page_host, peek_at by first [by apply host_place | rewrite ?zlen_desc_bytes; lia].
    unfold peek. rewrite zlen_desc_bytes, host_body by done. if_true. f_equal. apply desc_peek_4; [done|unfold features_at; lia]. }
  set (bs := feature_bytes s s).
  run_bind. pose proof (length_le_bytes 4 (Z.lor (le bs) (Z.shiftl 1 VIRTIO_NET_F_MAC))) as Hlen.
  rewrite (host_desc_poke _ _ _ Hd) by (done || unfold zlen; lia). run_bind. set (s1 := with_host_desc s _).
  assert (host_like s s1) as Hl1.
  { split; [apply with_host_desc_ok; done || unfold zlen; lia|]. by repeat split. }
  replace (hd s + (8 + ds_num_vq (s_host_desc s) * 16) + ds_feature_len (s_host_desc s) * 2) with (hd s + c) by lia.
  set (f := features_at s). set (w := le_bytes 4 _) in s1. assert (zlen w = 4) as Hw by done.
  assert (features_at s = 8 + ds_num_vq (s_host_desc s) * 16) as Ef by done.
  assert (forall j, 4 <= j < aligned_size (s_desc s) ->
            host_byte s1 j = if (f <=? j) && (j <? f + 4) then nth (Z.to_nat (j - f)) w 0 else host_byte s j) as Hb1.
  { intros j Hj. unfold host_byte, s1. cbn [with_host_desc s_host_desc desc_write ds_body].
    rewrite <- Ef. rewrite ctrl_at_write by (rewrite ?Hw, ?Ef; lia). rewrite Hw. fold f.
    replace (j - 4 - (f - 4)) with (j - f) by lia.
    destruct (Z.leb_spec f j), (Z.leb_spec (f - 4) (j - 4)), (Z.ltb_spec j (f + 4)), (Z.ltb_spec (j - 4) (f - 4 + 4)); done || lia. }
  destruct (put_config s c s1 0 H_MAC_0 eq_refl Hl1 Hs) as (s2 & Hl2 & Hb2 & ->); [lia..|]. run_bind.
  destruct (put_config s c s2 1 H_MAC_1 eq_refl Hl2 Hs) as (s3 & Hl3 & Hb3 & ->); [lia..|]. run_bind.
  destruct (put_config s c s3 2 H_MAC_2 eq_refl Hl3 Hs) as (s4 & Hl4 & Hb4 & ->); [lia..|]. run_bind.
  destruct (put_config s c s4 5 H_MAC_3 eq_refl Hl4 Hs) as (s5 & Hl5 & Hb5 & ->); [lia..|]. run_bind.
  destruct (put_config s c s5 4 (u8 (card_id a + 1)) eq_refl Hl5 Hs) as (s6 & Hl6 & Hb6 & ->); [lia..|]. run_bind.
  destruct (put_config s c s6 5 (u8 (cpu_id a + 1)) eq_refl Hl6 Hs) as (s7 & Hl7 & Hb7 & ->); [lia..|]. apply post_ret.
  assert (f + 4 <= c /\ 8 <= f) as [Hfc Hf8] by (unfold f, features_at, c, config_at; lia).
  exists s7. split; [done|]. split; [done|]. split; [|split].
  - unfold mac_bytes. cbn [map]. fold c. rewrite !Hb7, !Hb6, !Hb5, !Hb4, !Hb3, !Hb2, !Hb1 by lia. rewrite !Z.eqb_refl.
    rewrite !(proj2 (Z.eqb_neq (c + _) (c + _))) by lia. by rewrite (proj2 (Z.ltb_ge (c + 3) (f + 4))), andb_false_r by lia.
  - unfold feature_bytes at 1. fold f. cbn [map]. rewrite !Hb7, !Hb6, !Hb5, !Hb4, !Hb3, !Hb2, !Hb1 by lia.
    rewrite !(proj2 (Z.eqb_neq (f + _) (c + _))), !(proj2 (Z.leb_le f (f + _))), !(proj2 (Z.ltb_lt (f + _) (f + 4))) by lia.
    cbn [andb]. replace (f + 0 - f) with 0 by lia. replace (f + 1 - f) with 1 by lia. replace (f + 2 - f) with 2 by lia.
    by replace (f + 3 - f) with 3 by lia.
  - fold f c. intros k Hk Hnf Hnc. rewrite Hb7, Hb6, Hb5, Hb4, Hb3, Hb2, Hb1 by lia. rewrite !(proj2 (Z.eqb_neq k (c + _))) by lia.
    destruct (Z.leb_spec f k), (Z.ltb_spec k (f + 4)); done || lia.
Qed.
End Mac.

Section BottomHalf.
Context `{Hhost : HostBusOk} (a : answers).

Lemma check_vrings_ok h n : forall i, 0 <= i -> i + Z.of_nat n <= zlen (vrings h) -> check_vrings n h i = Ret tt.
Proof.
  induction n as [|n IH]; intros i Hi Hn; cbn [check_vrings]; [done|].
  destruct (aget_total (vrings h) i) as (v & -> & _); [lia|]. run_bind. apply IH; lia.
Qed.

(** The network device has room for its address. *)
Definition mac_room (h : host) (s : slot) : Prop :=
  virtio_id h = VIRTIO_ID_NET -> 4 <= ds_feature_len (s_desc s) -> 6 <= ds_config_len (s_desc s).

(** The slot that the driver of the host's device meets: a network device with features has got its address. *)
Definition addressed (h : host) (s x : slot) : Prop :=
  if (virtio_id h =? VIRTIO_ID_NET) && (4 <=? ds_feature_len (s_host_desc s)) then named a s x else x = s.

Lemma register_post h pre s tail d : d = zlen pre -> dp h = pre ++ slot_bytes s ++ tail -> slot_ok s ->
  dd h = d -> host_dd h = Some (d + (aligned_size (s_desc s) + sizeof_vca_device_ctrl)) -> ready h = false ->
  ds_num_vq (s_desc s) <= zlen (vrings h) -> mac_room h s -> a_register a = 0 ->
  post (vop_register_host_device a h) (fun '(h', ret) => ret = 0 /\ exists y,
    h' = set_ready (upd h (pre ++ slot_bytes y ++ tail) (vrings h) (RBus :: held h)) true
    /\ slot_ok y /\ s_desc y = s_desc s /\ s_ctrl y = s_ctrl s /\ exists x, addressed h s x /\ y = hreg x).
Proof.
  intros Hd Hp Hs Hdd Hhd Hr Hn Hm Ha. unfold vop_register_host_device. rewrite Hhd, Hr, Hp, (host_num_vq _ _ _ Hd) by done. run_bind.
  destruct (slot_header s Hs) as (_ & Hnv & _). unfold byte in Hnv. rewrite check_vrings_ok by lia. run_bind.
  rewrite (host_feature_len _ _ _ Hd) by done. run_bind.
  assert (post (if (virtio_id h =? VIRTIO_ID_NET) && (4 <=? ds_feature_len (s_host_desc s))
                then set_mac a (pre ++ slot_bytes s ++ tail) (d + (aligned_size (s_desc s) + sizeof_vca_device_ctrl)) else Ret (pre ++ slot_bytes s ++ tail))
    (fun p => exists x, p = pre ++ slot_bytes x ++ tail /\ host_like s x /\ addressed h s x)) as Hmac.
  { unfold addressed. destruct (Z.eqb_spec (virtio_id h) VIRTIO_ID_NET); cbn [andb]; [|apply post_ret; by exists s].
    destruct (Z.leb_spec 4 (ds_feature_len (s_host_desc s))); [|apply post_ret; by exists s].
    destruct Hs as (Hs1 & Hs2 & Hsh & Hroom). pose proof Hsh as (_ & Ef & Ec).
    eapply post_mono; [apply set_mac_ok; try done; rewrite <- Ec; apply Hm; [done|by rewrite Ef]|]. intros p (x & -> & Hx). exists x. split; [done|]. split; [by destruct Hx|done]. }
  eapply post_bind; [exact Hmac|]. intros p (x & -> & (Hx1 & Hx2 & Hx3 & _) & Hax). rewrite Hdd, slot_type by done. run_bind. rewrite Ha. cbn [Z.eqb negb].
  apply post_ret. split; [done|]. destruct (host_driver_slot x hreg (or_introl eq_refl) Hx1) as (Hy & Hyd & Hyc).
  exists (hreg x). rewrite <- Hx2, hregister_page by done. split; [done|]. split; [done|].
  split; [by rewrite Hyd, Hx2|]. split; [by rewrite Hyc|]. by exists x.
Qed.

End BottomHalf.

(** ** Whole runs

    Buses whose drivers do nothing to the page, and a kernel that gives everything. *)
#[local] Instance idle_host : HostBus := { on_register p _ := p; on_unregister p _ := p }.
#[local] Instance idle_host_ok : HostBusOk idle_host.
Proof. refine {| hreg s := s; hunreg s := s |}; [done|done|]. by intros s f [->| ->] Hs. Defined.
#[local] Instance idle_node : VopCard.VirtioBus := { VopCard.on_register p _ := p; VopCard.on_unregister p _ := p }.
#[local] Instance idle_node_ok : VopCard.VirtioBusOk idle_node.
Proof. refine {| VopCard.reg s := s; VopCard.unreg s := s |}; [done|done|]. by intros s f [->| ->] Hs. Defined.

Definition demo_kernel : answers :=
  mkAnswers (fun i => Some (0x100000 * (1 + Z.of_nat i))) (fun i => (0x9000000 + 0x100000 * Z.of_nat i, 0)) 0 0x8000000
    (fun i => match i with VopCard.Conf => 5 | VopCard.Avail => 6 | VopCard.Used => 7 end) (fun _ => None) 0 0 0 1.
Definition refuses (a : answers) : answers :=
  mkAnswers (a_pages a) (a_map a) (a_cdev a) (a_kvec_pa a) (a_db a) (a_irq a) (- ENOMEM) (a_map_buf a) (card_id a) (cpu_id a).
Definition no_irqs : answers :=
  mkAnswers (a_pages demo_kernel) (a_map demo_kernel) 0 0x8000000 (a_db demo_kernel) (fun _ => Some (- EBUSY)) 0 0 0 1.
Definition no_pages : answers :=
  mkAnswers (fun _ => None) (a_map demo_kernel) 0 0x8000000 (a_db demo_kernel) (fun _ => None) 0 0 0 1.
Definition nodes : nat -> VopCard.answers := VopCard.demo_answers.
(** A program whose memory does not change. *)
Definition steady (arg : desc) (_ : nat) (n : Z) : option (list Z) := Some (take (Z.to_nat n) (desc_bytes arg)).
Definition no_vdevs (p : list Z) : VopCard.card := VopCard.mkCard p [] [] 0.

(** The rings of a device are never freed: adding a device, the scan of the node and closing the file
    leave the pages and the DMA mappings of both rings. *)
Theorem vop_release_leaks_vrings :
  ('(h, ret) ← vop_ioctl_add demo_kernel (steady demo_arg) true (vop_open (demo_page []));
   c ← VopCard.vop_scan_devices nodes (no_vdevs (dp h)) false;
   '(h, c') ← vop_release (node_scans nodes) c (set_dp h (VopCard.dp c));
   Ret (ret, held h, VopCard.held c, VopCard.held c'))
  = Ret (0, vrings_res [Some (0x200000, vr_size 256, 0x9100000); Some (0x100000, vr_size 256, 0x9000000)], VopCard.taken_res 0x7000, []).
Proof. vm_compute. reflexivity. Qed.

(** The check of the entries runs over the end of a copy that is too short for its queues. *)
Lemma check_nums_overruns b : (forall j num, 0 <= j -> vqconfig_num b 0 j = Ret num -> num <= VCA_VRING_ENTRIES) ->
  forall n i, 0 <= i -> (0 < n)%nat -> zlen b < 16 * (i + Z.of_nat n) + 2 -> check_nums n b i = Oob.
Proof.
  intros Hnum. induction n as [|n IH]; intros i Hi Hn Hb; [lia|]. cbn [check_nums].
  destruct (vqconfig_num b 0 i) as [num| | |] eqn:E; run_bind.
  - rewrite (proj2 (Z.ltb_ge _ _) (Hnum i num Hi E)). apply IH; [lia| |lia].
    unfold vqconfig_num, peek, vca_vq_config, sizeof_vca_device_desc, sizeof_vca_vqconfig, vqc_num in E.
    destruct (Z.leb_spec (0 + 8 + i * 16 + 8 + 2) (zlen b)); [lia|]. by rewrite andb_false_r in E.
  - unfold vqconfig_num, peek in E. by destruct (_ && _).
  - unfold vqconfig_num, peek in E. by destruct (_ && _).
  - unfold vqconfig_num, peek in E. by destruct (_ && _).
Qed.

(** C40. The descriptor is read twice from the program's memory and only the first copy is checked.  When the second copy, which is
    as long as the first one says, names more queues than it has room for (and none with too many entries), the kernel reads behind its
    copy, whatever is in the page and whatever the kernel would grant. *)
Theorem vop_ioctl_double_fetch `{HostBus} a h (user : nat -> Z -> option (list Z)) first num_vq config_len feature_len aligned size second num_vq2 :
  virtio_id h = 0 -> user 0%nat sizeof_vca_device_desc = Some first ->
  aget first d_num_vq = Ret num_vq -> aget first d_config_len = Ret config_len -> aget first d_feature_len = Ret feature_len ->
  num_vq <= VCA_MAX_VRINGS -> config_len <= VCA_MAX_CONFIG_LEN -> feature_len <= VCA_MAX_FEATURE_LEN ->
  vca_aligned_desc_size first 0 = Ret aligned -> aligned <= VCA_MAX_DESC_BLK_SIZE -> vca_desc_size first 0 = Ret size ->
  user 1%nat size = Some second -> zlen second = size ->
  aget second d_num_vq = Ret num_vq2 -> 0 < num_vq2 -> size < 16 * num_vq2 + 2 ->
  (forall j num, 0 <= j -> vqconfig_num second 0 j = Ret num -> num <= VCA_VRING_ENTRIES) ->
  vop_ioctl_add a user true h = Oob.
Proof.
  intros Hid Hu0 Hn Hc Hf Bn Bc Bf Ha Ba Hsz Hu1 Hlen Hn2 Hpos Hshort Hent.
  unfold vop_ioctl_add. rewrite Hid. cbn [Z.eqb negb]. rewrite Hu0, Hn. run_bind. rewrite Hc. run_bind. rewrite Hf. run_bind.
  rewrite (proj2 (Z.ltb_ge _ _) Bn), (proj2 (Z.ltb_ge _ _) Bc), (proj2 (Z.ltb_ge _ _) Bf). cbn [orb].
  rewrite Ha. run_bind. rewrite (proj2 (Z.ltb_ge _ _) Ba), Hsz. run_bind. cbn [negb]. rewrite Hu1.
  unfold vop_setup_virtio_device, vop_copy_dp_entry. rewrite Hn2. run_bind. rewrite (check_nums_overruns second Hent); [done|lia|lia|lia].
Qed.

(** A descriptor of type 0 can be added again and again with one file: each time everything is
    taken anew. *)
Theorem vop_ioctl_type_zero :
  ('(h, r1) ← vop_ioctl_add demo_kernel (steady (untyped demo_arg)) true (vop_open (demo_page []));
   let n1 := length (held h) in
   '(h, r2) ← vop_ioctl_add demo_kernel (steady (untyped demo_arg)) true h;
   Ret (r1, n1, r2, length (held h))) = Ret (0, 8%nat, 0, 16%nat).
Proof. vm_compute. reflexivity. Qed.

(** The rings of a failed setup keep their addresses: when the program tries a descriptor of type 0 again and
    the setup fails earlier, they are freed a second time. *)
Theorem vop_ioctl_double_free :
  ('(h, r1) ← vop_ioctl_add no_irqs (steady (untyped demo_arg)) true (vop_open (demo_page []));
   Ret (r1, held h, match vop_ioctl_add no_pages (steady (untyped demo_arg)) true h with Oob => true | _ => false end))
  = Ret (- EBUSY, [], true).
Proof. vm_compute. reflexivity. Qed.

(** When the host's own device cannot be registered, the work that answers the node removes the
    device and waits for itself. *)
Theorem vop_bh_handler_deadlocks :
  ('(h, _) ← vop_ioctl_add demo_kernel (steady demo_arg) true (vop_open (demo_page []));
   p ← aset (dp h) (dc h + dc_used_address_updated) 1;
   vop_bh_handler (refuses demo_kernel) (fun _ c p => (c, p)) tt (set_dp h p)) = Spin.
Proof. vm_compute. reflexivity. Qed.

(** ** Witnesses *)

Definition demo_slots : list slot := [demo_slot 1; demo_slot 255; demo_slot 1].

Lemma demo_arg_ok : arg_ok demo_arg /\ bounded demo_arg /\ reusable demo_arg demo_slots.
Proof.
  split; [repeat split; cbn; lia || done|]. split; [repeat split; by vm_compute|].
  apply reusable_all. intros s Hs Hu. repeat (apply elem_of_cons in Hs as [->|Hs]; [done|]). by apply elem_of_nil in Hs.
Qed.
Lemma demo_page_rep : dp_rep demo_boot (demo_page demo_slots) demo_slots.
Proof. apply demo_dp; [apply demo_slots_ok|by vm_compute]. Qed.
Lemma demo_none : none_from 0 (vrings (vop_open (demo_page demo_slots))).
Proof. split; [done|]. intros j Hj. do 4 (destruct j as [|j]; [done|]). lia. Qed.

Lemma demo_granted : granted demo_kernel.
Proof. split; [by intros i|]. by repeat split. Qed.
Lemma demo_entries : queue_num demo_arg 0 <> 0.
Proof. by vm_compute. Qed.

Lemma vop_setup_virtio_device_correct_witness :
  exists h' s', vop_setup_virtio_device demo_kernel (vop_open (demo_page demo_slots)) (desc_bytes demo_arg) = Ret (h', desc_bytes demo_arg, 0)
  /\ dd h' = 392 /\ ds_type (s_desc s') = 1 /\ held h' ≡ₚ irqs_res ++ RCdev :: vrings_res (vrings h') ++ [].
Proof.
  destruct demo_arg_ok as (Ha & Hb & Hr).
  pose proof (vop_setup_virtio_device_correct demo_kernel demo_boot (vop_open (demo_page demo_slots)) demo_slots demo_arg
    demo_page_rep Ha Hb Hr ltac:(by vm_compute) demo_none ltac:(done)) as Hw.
  change (if too_long demo_arg then _ else _) with (Some ([demo_slot 1; put_slot demo_arg (demo_slot 255); demo_slot 1], 392)) in Hw.
  destruct Hw as (l1 & x & l2 & s' & h' & ret & _ & Hp & E & _ & _ & Hdd & _ & Hok & Hg).
  assert (ret = 0) as -> by exact (Hg demo_granted demo_entries). destruct (Hok eq_refl) as (H1 & _ & _ & _ & H5 & _).
  change (if 0 =? 0 then demo_arg else _) with demo_arg in E. change (held (vop_open _)) with (@nil res) in H5.
  exists h', s'. split; [exact E|]. split; [exact Hdd|]. split; [exact H1|exact H5].
Defined.

Definition demo_host : host := vop_open (demo_page demo_slots).
Definition demo_setup : host :=
  match vop_setup_virtio_device demo_kernel demo_host (desc_bytes demo_arg) with Ret (h, _, _) => h | _ => demo_host end.
Definition demo_vdev (ptr d : Z) : VopCard.vdev := VopCard.mkVdev ptr d 1 0 0 0 13 14 15.
Definition demo_node (l : list VopCard.vdev) : VopCard.card :=
  VopCard.mkCard [] l (concat (map (fun v => VopCard.vdev_res (VopCard.v_ptr v)) l)) 0.

Lemma demo_setup_ok : vop_setup_virtio_device demo_kernel demo_host (desc_bytes demo_arg) = Ret (demo_setup, desc_bytes demo_arg, 0).
Proof. vm_compute. reflexivity. Qed.

(** A slot that is in use by a known device. *)
Lemma demo_quiet devs off : (exists v, VopCard.find_desc off devs = Some v) -> VopCard.all_quiet devs off [demo_slot 1].
Proof.
  intros Hv. split; [|exact I]. split; [apply demo_slot_ok; unfold byte; lia|]. right. split; [done|]. split; [done|by vm_compute].
Qed.

Lemma hot_plug_connects_witness :
  let c := demo_node [demo_vdev 0x5000 184; demo_vdev 0x6000 600] in
  exists c' s v, VopCard.vop_scan_devices nodes (VopCard.set_dp c (dp demo_setup)) false = Ret c'
  /\ dp_rep demo_boot (VopCard.dp c') ([demo_slot 1] ++ s :: [demo_slot 1])
  /\ VopCard.vdev_list c' = VopCard.vdev_list c ++ [v] /\ VopCard.v_c2h_avail_db v = 6
  /\ VopCard.ctrl_at (s_ctrl s) dc_h2c_vdev_avail_db = u8 (VopCard.v_h2c_avail_db v).
Proof.
  intros c. destruct demo_arg_ok as (Ha & Hb & Hr).
  destruct (hot_plug_connects nodes demo_kernel demo_boot demo_host demo_slots demo_arg [demo_slot 1] (demo_slot 255) [demo_slot 1]
    demo_setup (desc_bytes demo_arg) c 0x7000) as (c' & s & v & H1 & H2 & H3 & _ & _ & _ & _ & H8 & _ & _ & H11 & _).
  - exact demo_page_rep.
  - exact Ha.
  - exact Hb.
  - exact Hr.
  - reflexivity.
  - by vm_compute.
  - by vm_compute.
  - exact demo_none.
  - by intros i err [=].
  - by vm_compute.
  - by vm_compute.
  - exact demo_setup_ok.
  - apply demo_quiet. eexists. by vm_compute.
  - apply demo_quiet. eexists. by vm_compute.
  - by vm_compute.
  - by repeat split.
  - exists c', s, v. split; [exact H1|]. split; [exact H2|]. split; [exact H3|]. split; [exact H8|exact H11].
Defined.

(** A registered device whose rings are mapped; the node has its device at [0x5000]. *)
Definition live_slot : slot := with_ctrl (demo_slot 1) (ctrl_write (replicate 40 0) dc_vdev (le_bytes 8 0x5000)).
Definition live_host : host :=
  mkHost (demo_page [live_slot; demo_slot 1]) 1 184 248 (Some 288) (replicate 4 None) true true true ([RBus; RKvec; RCdev] ++ irqs_res) [].

Lemma live_ok : slot_ok live_slot.
Proof. apply with_ctrl_ok; [apply demo_slot_ok; unfold byte; lia|done]. Qed.

Lemma hot_unplug_clean_witness :
  let c := demo_node [demo_vdev 0x5000 184; demo_vdev 0x6000 392] in
  exists h' c' s', vop_virtio_del_card_device (node_scans nodes) false c live_host = Ret (h', c') /\ held h' ≡ₚ []
  /\ sent h' = [0] /\ dp_rep demo_boot (dp h') ([] ++ s' :: [demo_slot 1]) /\ in_use s' = false
  /\ VopCard.vdev_list c' = [demo_vdev 0x6000 392] /\ VopCard.held c' ≡ₚ VopCard.vdev_res 0x6000 ++ [].
Proof.
  intros c. destruct (hot_unplug_clean nodes demo_boot [] [demo_slot 1] live_slot live_host c (demo_vdev 0x5000 184) (VopCard.vdev_res 0x6000 ++ []))
    with (hrest := @nil res) as (h' & c' & s' & H1 & H2 & _ & _ & H5 & H6 & H7 & _ & H9 & H10).
  - apply demo_dp; [|by vm_compute]. constructor; [apply live_ok|constructor; [apply demo_slot_ok; unfold byte; lia|constructor]].
  - by vm_compute.
  - by vm_compute.
  - by vm_compute.
  - exact I.
  - apply demo_quiet. eexists. by vm_compute.
  - by vm_compute.
  - by vm_compute.
  - reflexivity.
  - by vm_compute.
  - intros _. by vm_compute.
  - by rewrite app_nil_r.
  - exists h', c', s'. split; [exact H1|]. split; [exact H2|]. split; [exact H5|]. split; [exact H6|]. split; [exact H7|]. split; [exact H9|exact H10].
Defined.

Lemma vop_card_dev_remove_ends_witness :
  exists h' c' err, vop_card_dev_remove (fun _ c p => (c, p)) tt live_host = Ret (h', c', err) /\ (err = 0 \/ err = - ENODEV)
  /\ aget (dp h') (248 + dc_guest_ack) = Ret GUEST_ACK_NONE.
Proof.
  destruct (vop_card_dev_remove_ends (fun _ c p => (c, p)) tt live_host) as (h' & c' & err & H1 & H2 & _ & H4 & _).
  - done.
  - by vm_compute.
  - by vm_compute.
  - by vm_compute.
  - exists h', c', err. split; [exact H1|]. split; [exact H2|exact H4].
Defined.

(** The node has set its queues up. *)
Definition asking_slot : slot := with_ctrl (demo_slot 1) (ctrl_set (replicate 40 0) dc_used_address_updated 1).
Definition asking_host : host :=
  mkHost (demo_page [asking_slot]) 1 184 248 (Some 288) (replicate 4 None) true false true (RBus :: RCdev :: irqs_res) [].


(** The program says two queues, then four. *)
Definition shifty (k : nat) (n : Z) : option (list Z) :=
  Some (take (Z.to_nat n) ([1; match k with O => 2 | S _ => 4 end; 8; 6] ++ replicate 58 0)).

Lemma vop_ioctl_double_fetch_witness : vop_ioctl_add demo_kernel shifty true (vop_open (demo_page [])) = Oob.
Proof.
  apply (vop_ioctl_double_fetch demo_kernel (vop_open (demo_page [])) shifty [1; 2; 8; 6; 0; 0; 0; 0] 2 6 8 64 62
           ([1; 4; 8; 6] ++ replicate 58 0) 4); try (by vm_compute).
  intros j num Hj E. unfold vqconfig_num, peek, vca_vq_config, sizeof_vca_device_desc, sizeof_vca_vqconfig, vqc_num in E.
  rewrite (proj2 (Z.leb_le 0 (0 + 8 + j * 16 + 8))) in E by lia. destruct (Z.leb_spec (0 + 8 + j * 16 + 8 + 2) (zlen ([1; 4; 8; 6] ++ replicate 58 0))) as [H|H];
    [|discriminate E]. change (zlen _) with 62 in H.
  assert (j = 0 \/ j = 1 \/ j = 2) as [->|[->| ->]] by lia; vm_compute in E; injection E as <-; by vm_compute.
Defined.

End VopHost.
